(* ===== verification/_CoqProject ===== *)
-Q . S2P
Prelude.v
RustStr.v
Utf8.v
Json.v
Core.v
Breaker.v
Limiter.v
Balancer.v
Db.v
Auth.v
Metrics.v
Admin.v
Router.v
Resilience.v
Usage.v
Backend.v
Serde.v
Config.v
Streaming.v
PromptCache.v
Proxy.v
ProxyFacts.v
InFlight.v
Adapters.v
Anthropic.v
Gemini.v
Providers.v
Guardrails.v
Mcp.v
Agentic.v
Chat.v
Messages.v
Batch.v
Session.v
Sso.v
Password.v
Mail.v
Catalog.v
Spend.v
Alerting.v
App.v
Startup.v
Main.v
Ledger.v
Books.v
Node.v
Served.v
