(* ===== verification/Prelude.v ===== *)
(** * Godwit: a verification development

    Godwit is a gateway for language models: clients speak the OpenAI protocol to it with an
    API key, and it authenticates them, checks rate limits and budgets, chooses a model and a
    backend, forwards the request with retries and fallbacks, and logs what it cost; an admin
    API manages organizations, users, teams, keys and the model catalog.  This library models
    the Rust crates of [src/crates/] in Rocq and proves theorems about the model.

    ** Conventions

    A comment [crate/src/file.rs:first-last] [symbol] in front of a definition names the lines
    it translates, relative to [src/crates/].  Names are the source's where they are free;
    record fields carry a short prefix of their struct.  An [async fn] over shared state is a
    function from the state to a result and a new state ([ST], below), and the state survives
    an error: what was written before a [?] stays written.  A Rust panic is the error [Panic]
    of the type [failure], and is a possible outcome that theorems mention, not an
    impossibility.  Integers are [Z], wrapped where the code can overflow ([wrap_u], [wrap_i];
    the release build wraps).  Strings are byte strings.  Loops run over the list or
    the range the source iterates, so every function is total and a theorem about its outcome
    covers termination; only [strip_any], under [trim], takes fuel, the string's length, since
    each step removes a character.

    What belongs to another crate is an interface, a type class whose laws, if any, are that
    crate's documented behaviour.  Data: [JsonText] (serde_json printing and parsing, which round
    trip), [Yaml] (serde_yaml), [F64] and [F64Laws] (IEEE doubles), [Decimals] (rust_decimal),
    [Unicode] and [Regexes] (character classes, matches), [Formats], [Fmt] and [UrlEncoding]
    (texts of numbers, ids, times and query strings), [Hasher] and [HashOrder] (the standard hash
    and the order of a map), [Schemas] (jsonschema).  Secrets: [Crypto] and [Sealing] (base64,
    AES-GCM), [Secrets] and [SecretsLaws] (random generator, SHA-256, Argon2, JWT).  The outside:
    [HttpClient] and [Upstream] (reqwest), [Processes] and [RpcErrors] (child processes),
    [Deadlines] and [World] (time), [OidcCrate] and [OidcCrateLaws], [MailCrates] (lettre, tera),
    [Prometheus], [StatusNames], [Axum] (what the combinators of a router do) and [Extractors]
    (what reads a request as the type a handler wants).  [Adapter] is the
    program's own boundary: what an adapter promises to the endpoints; [Providers.v] gives the
    instance.  Witnesses run on concrete instances of all of these.

    ** Parts of the program

    A request to [/v1/...] passes the layers of [app.rs] (which routes exist and who may call
    them), the key check of [middleware.rs], and a handler of [proxy.rs] or [anthropic_proxy.rs].
    The handler resolves a model ([model_router.rs], over the catalog in the database, the load
    balancer and the credentials), asks the limiter and the budgets, and calls the model's
    adapter under the retry loop; when that fails it walks the fallbacks.  An adapter makes one
    HTTP request of it.  A chat request may first be masked and moderated, may be given the
    tools of MCP servers and then runs the agentic loop, or is answered as a stream, translated
    twice.  What succeeded is logged.  The admin API works on the same database: sessions,
    users, keys, the catalog, reports over the log.  [main.rs] reads a configuration, bootstraps
    the database and puts the shared state together; a scheduler checks budgets for alerts.

    ** Files

    Foundations.
    - [Prelude.v]: results, the state monad with its inversion tactic [bind_in], machine
      integers, list functions.  [RustStr.v], [Utf8.v]: operations on [str] and on bytes.
      [Json.v]: JSON values.
    - [Core.v]: the types and errors of [godwit-core/src/lib.rs], [godwit-api/src/error.rs] and
      [godwit-providers/src/adapter.rs].  [Serde.v]: the derived readers and writers of all wire
      types; what is written is read back.  [Config.v]: the configuration, its defaults and its
      reader.

    Parts with a state of their own.
    - [Breaker.v]: [godwit-api/src/circuit_breaker.rs].  The methods as atomic steps refine an
      automaton closed/open/half-open; the breaker opens at the threshold, rejects until its
      timeout, and admits exactly the configured trials; breakers of a registry are
      independent.  A second model cuts the methods at each atomic access and interleaves
      threads: the transitions still respect the state machine, but a late trial can wrap a
      counter and leave a breaker that never admits again.
    - [Limiter.v]: [godwit-api/src/rate_limit.rs] and [login_rate_limit.rs].  Buckets stay
      between zero and their capacity; a refusal consumes nothing and an admission, which happens
      exactly when every bucket has room, debits every bucket once; the announced wait suffices; requests above the limit are refused
      for ever; concurrent requests can be over-admitted.
    - [Balancer.v]: [godwit-api/src/load_balancer.rs].  Round robin is fair, least-busy picks
      the first minimum, counters count open requests, groups can share an index.
    - [PromptCache.v]: [godwit-providers/src/prompt_cache.rs].  The cache refines a
      least-recently-used cache with times to live, operation by operation, evictions and
      answers included; two threads can deadlock on its two locks.
    - [Metrics.v]: [metrics.rs], [metrics_endpoint.rs], [admin/metrics_ws.rs], [health.rs].  The
      metrics are recorded and never served; readiness names what failed.
    - [Db.v]: the rows and repositories of [godwit-db/src/] over tables with constraints and a
      schedule of failing statements, and the budget checks of [rate_limit.rs].

    Who may do what.
    - [Auth.v]: [godwit-api/src/middleware.rs] and [godwit-auth/src/].  An admitted key was
      stored, verified, enabled and unexpired when it entered the cache; the cache outlives a
      revocation; created keys authenticate; short tokens panic; cookies need a known origin.
    - [App.v]: the routers and [app.rs].  Every route is behind the guard of its place, but for a
      list of open ones; which routes cannot answer.
    - [Admin.v]: [godwit-api/src/admin/] for users, teams, keys and organizations.  Whatever
      sequence of user calls an ordinary admin makes, nothing outside the organization changes;
      key actions stay inside it, but need no role; no response carries a secret.
    - [Session.v], [Sso.v], [Password.v], [Mail.v]: [admin/auth.rs], [admin/password.rs],
      [oidc.rs], [saml.rs], [mail.rs].  The state is the database, the login limiter, the random
      draws made, and the network or the mail server.  A session needs the password or an id
      token with the email; no honest OIDC login succeeds; a refresh token works once, unless two
      requests race; the limiter never stops a correct guess; a password changes only with
      authority, in no other row than the authorized one, and ends the user's sessions; a
      forgotten one can be reset, once.
    - [Catalog.v], [Spend.v], [Alerting.v]: the rest of [admin/], [utils.rs], [model_info.rs],
      [alerting.rs], [scheduler.rs].  The catalog stays well-formed; a stored key is the key used;
      reports sum every request in view once, tokens and cost, and are the caller's own; alerts
      are never sent.

    Requests to models.
    - [Router.v]: [godwit-api/src/model_router.rs].  A resolved model is enabled, capable and
      the one the reference names; the in-flight counter is exact on every path.
    - [Resilience.v]: [resilience.rs], [moderation_fallback.rs], [rerank_fallback.rs].  The retry
      loop returns the first final attempt, within its bounds; provider lists answer with the
      first backend that works.
    - [Usage.v], [Backend.v]: prices, the adapter interface and the calls made through it.
    - [Proxy.v], [ProxyFacts.v]: [proxy.rs] and [fallback.rs].  The state is the database, the
      balancer, the limiter, the world and the spawned log writes.  On every path the
      endpoints give their in-flight counts back; a success is billed once, to the caller, for
      a model that was routed and at that model's price, and a failure not at all; a refused
      request reaches no backend; chat walks its fallback chain in order, without rate limits.
    - [InFlight.v]: an endpoint of [proxy.rs] cut at its awaits, and any number of requests taking
      turns, or dropped when their client goes away: alone, the turns add up to the endpoint of
      [Proxy.v]; together, the counters are the guards held and the log the requests answered.
    - [Adapters.v], [Anthropic.v], [Gemini.v], [Providers.v]: the eight adapters.  One request
      leaves, to one of the addresses known under the profile's, with no key but the profile's,
      and the upstream model; what the prompt cache answers; what is lost on the way.
    - [Streaming.v]: [streaming.rs], [stream_translators/], [gemini_stream.rs], [sse_egress.rs],
      [proxy_streaming.rs].  Chunks to events, events to the frames of a whole stream, fragments
      to tool calls; what a cut inside an event destroys.
    - [Guardrails.v], [Mcp.v], [Agentic.v], [Chat.v], [Messages.v]: masking and moderation; the
      MCP client, registry and server; the loop with its tools; [chat_completions]; the
      payloads a stream is rendered as; and [/v1/messages].  The loop ends within its rounds; the
      tools offered are those the servers list, and their names lead back to them; the server's
      reads and writes may fail; a chat leaves nothing hanging and is logged once, at the cost of
      the path it took.
    - [Batch.v]: [batch_parser.rs], [batch_processor.rs], [batch_webhook.rs], [batch.rs].  The tasks
      of a batch are cut at their awaits: a batch ends under every schedule of them and of the
      rest of the gateway, each line with its own result, and the counters are the calls in
      progress.

    From header to ledger.
    - [Ledger.v]: the insertion that a spawned log task makes ([spawn_request_log] of [proxy.rs]),
      with the references and the decimals of the migrations, and sums of what is booked.
    - [Books.v]: the handlers of the admin API and of the accounts, each a constructor of
      [AdminCall] or [AccountCall]; whatever they do, every row of the log keeps its organization,
      its team and its cost (a deleted user or key is blanked in the rows that name it).
    - [Node.v]: every proxied route with its layers, its extractors and its handler, over a state
      of the gateway and the cache of keys; a run is any order of requests, log writes, acts of
      the admin API and changes made elsewhere.  Only a bearer is served, within its scope and its
      budgets, and billed once; the books balance, and the spend report is what was billed, to the
      nearest millionth.
    - [Served.v]: the other half: who has a key, an offered model, room under the limits and a
      working backend is answered with what the backend said, when no statement fails.

    The process.
    - [Startup.v], [Main.v]: [bootstrap.rs] and [main.rs].  A first start leaves a database one can
      log in to and call models with; which settings of the configuration reach the state, the
      wire of the streams and the address listened at, and which are read and dropped.

    ** Bounds

    The theorems on counters assume them in their machine range ([flight_ok]), which every
    operation preserves; the chat theorem assumes a chain shorter than 2^32.  Retries are
    bounded by the policy, the rounds of the agentic loop by its maximum, the steps of a batch
    by nine a line (three attempts of a pause, a resolution and a call), the turns of a request in [InFlight.v] by its chain.  A run of
    [Node.v] takes a request as one step: requests in flight together are seen in [Breaker.v],
    [Limiter.v], [InFlight.v] and [Batch.v], where the code is cut at its atomic accesses or its
    awaits, and not there.  Decimals are exact, and rounded where a column of
    the database rounds them ([numeric] of [Db.v]).  [strip_any] takes the length of its string as fuel, since each
    step removes a character.

    ** Not modelled

    The listener, the connection pool and its migrations, log output, and the construction of
    the HTTP clients: they only call libraries.  The helpers of [app.rs] that build a state for
    integration tests, unit tests and the bench.  The type [MultimodalRequest], which nothing
    uses.  The web front ends of [src/apps/], which call the admin API. *)

From stdpp Require Import base gmap strings list fin_maps numbers.
From Stdlib Require Export ZArith Lia.

#[global] Set Default Goal Selector "!".

Declare Scope godwit_scope.
Delimit Scope godwit_scope with godwit.
#[global] Open Scope godwit_scope.

(** ** Results: Rust's [Result<A, E>] *)

Inductive result (E A : Type) : Type :=
| Ok (a : A)
| Err (e : E).
Arguments Ok {E A} a.
Arguments Err {E A} e.

#[export] Instance result_ret {E} : MRet (result E) := fun A a => Ok a.
#[export] Instance result_bind {E} : MBind (result E) := fun A B f m =>
  match m with Ok a => f a | Err e => Err e end.
#[export] Instance result_fmap {E} : FMap (result E) := fun A B f m =>
  match m with Ok a => Ok (f a) | Err e => Err e end.

Definition is_ok {E A} (r : result E A) : bool :=
  match r with Ok _ => true | Err _ => false end.

Definition map_err {E F A} (f : E -> F) (r : result E A) : result F A :=
  match r with Ok a => Ok a | Err e => Err (f e) end.

(** Rust's [Option::ok_or]. *)
Definition ok_or {E A} (e : E) (o : option A) : result E A :=
  match o with Some a => Ok a | None => Err e end.

(** [opt.unwrap_or d]. *)
Definition unwrap_or {A} (d : A) (o : option A) : A := default d o.

(** [a.or(b)] on options. *)
Definition opt_or {A} (a b : option A) : option A :=
  match a with Some _ => a | None => b end.

#[export] Instance result_eq_dec {E A} `{EqDecision E} `{EqDecision A} : EqDecision (result E A).
Proof. solve_decision. Defined.

(** ** Stateful fallible code: explicit state passing with an error result

    An [async fn] that mutates shared state of type [S] and may fail with [E] is a
    function from the state to a result and the new state.  The state survives an error:
    what was written before a [?] returned early stays written, as in the source. *)

Definition ST (S E A : Type) : Type := S -> result E A * S.

#[export] Instance st_ret {S E} : MRet (ST S E) := fun A a s => (Ok a, s).
#[export] Instance st_bind {S E} : MBind (ST S E) := fun A B f m s =>
  match m s with
  | (Ok a, s') => f a s'
  | (Err e, s') => (Err e, s')
  end.
#[export] Instance st_fmap {S E} : FMap (ST S E) := fun A B f m s =>
  match m s with
  | (Ok a, s') => (Ok (f a), s')
  | (Err e, s') => (Err e, s')
  end.

Definition throw {S E A} (e : E) : ST S E A := fun s => (Err e, s).
Definition gets {S E A} (f : S -> A) : ST S E A := fun s => (Ok (f s), s).
Definition modify {S E} (f : S -> S) : ST S E unit := fun s => (Ok tt, f s).
Definition lift {S E A} (r : result E A) : ST S E A := fun s => (r, s).

(** [m.map_err(f)]. *)
Definition st_map_err {S E F A} (f : E -> F) (m : ST S E A) : ST S F A :=
  fun s => match m s with (r, s') => (map_err f r, s') end.

(** Run [m] and hand its outcome, success or error, to the continuation:
    [match m.await { Ok(..) => .., Err(..) => .. }]. *)
Definition catch {S E F A B} (m : ST S E A) (k : result E A -> ST S F B) : ST S F B :=
  fun s => match m s with (r, s') => k r s' end.

(** Guards of the shape [if c { return Err(e); }]. *)
Definition fail_if {S E} (c : bool) (e : E) : ST S E unit :=
  if c then throw e else mret tt.

(** Run a computation on a part of the state, seen through a getter and a setter. *)
Definition zoom {S T E A} (g : S -> T) (p : T -> S -> S) (m : ST T E A) : ST S E A :=
  fun s => match m (g s) with (r, t) => (r, p t s) end.

(** A computation that may also panic: an index out of range, an [unwrap] on an error. *)
Inductive failure (E : Type) : Type :=
| Failed (e : E)
| Panic.
Arguments Failed {E} e.
Arguments Panic {E}.

(** ** Machine integers, as [Z] with their wrap-around written out *)

Definition wrap_u (w : Z) (z : Z) : Z := (z mod 2 ^ w)%Z.
Definition wrap_i (w : Z) (z : Z) : Z :=
  let m := (z mod 2 ^ w)%Z in if (m <? 2 ^ (w - 1))%Z then m else (m - 2 ^ w)%Z.

Abbreviation as_u32 := (wrap_u 32) (only parsing).
Abbreviation as_u64 := (wrap_u 64) (only parsing).
Abbreviation as_usize := (wrap_u 64) (only parsing).
Abbreviation as_i32 := (wrap_i 32) (only parsing).
Abbreviation as_i64 := (wrap_i 64) (only parsing).

Definition in_u (w : Z) (z : Z) : Prop := (0 <= z < 2 ^ w)%Z.
Definition in_i (w : Z) (z : Z) : Prop := (- 2 ^ (w - 1) <= z < 2 ^ (w - 1))%Z.

Lemma wrap_u_small w z : in_u w z -> wrap_u w z = z.
Proof. unfold wrap_u, in_u. intros. by apply Z.mod_small. Qed.

Lemma wrap_u_range w z : (0 <= w)%Z -> in_u w (wrap_u w z).
Proof. intros. unfold wrap_u, in_u. apply Z.mod_pos_bound. lia. Qed.

Lemma wrap_u_idem w z : wrap_u w (wrap_u w z) = wrap_u w z.
Proof.
  unfold wrap_u. destruct (decide (2 ^ w = 0)%Z) as [E|E].
  - by rewrite E, !Z.mod_0_r.
  - by rewrite Z.mod_mod.
Qed.

Lemma wrap_u_succ_pred w z : (0 < w)%Z -> in_u w z -> wrap_u w (wrap_u w (z + 1) - 1) = z.
Proof.
  intros Hw Hz. unfold wrap_u. rewrite Zminus_mod_idemp_l.
  replace (z + 1 - 1)%Z with z by lia. by apply Z.mod_small.
Qed.

Lemma wrap_i_small w z : (0 < w)%Z -> in_i w z -> wrap_i w z = z.
Proof.
  intros Hw [H1 H2]. unfold wrap_i.
  assert (2 ^ w = 2 * 2 ^ (w - 1))%Z as E.
  { rewrite <- Z.pow_succ_r by lia. f_equal. lia. }
  destruct (Z.leb_spec 0 z) as [Hz|Hz].
  - rewrite Z.mod_small by lia. destruct (Z.ltb_spec z (2 ^ (w - 1))); lia.
  - rewrite <- (Z.mod_unique z (2 ^ w) (-1) (z + 2 ^ w)); [|lia..].
    destruct (Z.ltb_spec (z + 2 ^ w) (2 ^ (w - 1))); lia.
Qed.

Lemma wrap_i_range w z : (0 < w)%Z -> in_i w (wrap_i w z).
Proof.
  intros Hw. unfold wrap_i, in_i.
  assert (2 ^ w = 2 * 2 ^ (w - 1))%Z as E.
  { rewrite <- Z.pow_succ_r by lia. f_equal. lia. }
  pose proof (Z.mod_pos_bound z (2 ^ w)).
  pose proof (Z.pow_pos_nonneg 2 (w - 1)).
  destruct (Z.ltb_spec (z mod 2 ^ w) (2 ^ (w - 1))); lia.
Qed.

(** ** Tactics and hints *)

Create HintDb godwit.
#[export] Hint Resolve wrap_u_range wrap_i_range : godwit.



(** Split on every boolean comparison of [Z] or [nat] in sight, turning it into a
    proposition [lia] understands. *)
Ltac case_cmp :=
  match goal with
  | |- context [(?a <? ?b)%Z] => destruct (Z.ltb_spec a b)
  | |- context [(?a <=? ?b)%Z] => destruct (Z.leb_spec a b)
  | |- context [(?a =? ?b)%Z] => destruct (Z.eqb_spec a b)
  | H : context [(?a <? ?b)%Z] |- _ => destruct (Z.ltb_spec a b)
  | H : context [(?a <=? ?b)%Z] |- _ => destruct (Z.leb_spec a b)
  | H : context [(?a =? ?b)%Z] |- _ => destruct (Z.eqb_spec a b)
  | |- context [Nat.ltb ?a ?b] => destruct (Nat.ltb_spec a b)
  | |- context [Nat.leb ?a ?b] => destruct (Nat.leb_spec a b)
  | |- context [Nat.eqb ?a ?b] => destruct (Nat.eqb_spec a b)
  end.

(** Split on the scrutinee of a [match] of the goal or of a hypothesis. *)
Ltac case_goal := match goal with |- context [match ?x with _ => _ end] => destruct x eqn:? end.
Ltac case_hyp :=
  match goal with H : context [match ?x with _ => _ end] |- _ => destruct x eqn:? end.

(** Unfold the effect monad in a hypothesis or in the goal. *)
Ltac st_unfold :=
  repeat (unfold mbind, mret, fmap, st_bind, st_ret, st_fmap, throw, gets, modify, lift,
    st_map_err, catch, fail_if, zoom, result_bind, result_ret, result_fmap, map_err, ok_or in *;
    simpl in * ).

(** Walk through a monadic hypothesis [m s = (r, s')] to its leaves. *)
Ltac st_run :=
  repeat (st_unfold; simplify_eq; try (case_hyp; simplify_eq; try done)).

(** ** Generic lemmas *)

Lemma result_bind_ok {E A B} (m : result E A) (f : A -> result E B) b :
  m ≫= f = Ok b -> exists a, m = Ok a /\ f a = Ok b.
Proof. destruct m; simpl; intros; [eauto | done]. Qed.

Lemma st_bind_ok {S E A B} (m : ST S E A) (f : A -> ST S E B) s b s' :
  (m ≫= f) s = (Ok b, s') -> exists a s1, m s = (Ok a, s1) /\ f a s1 = (Ok b, s').
Proof. unfold mbind, st_bind. destruct (m s) as [[a|e] s1]; intros; [eauto | done]. Qed.

Lemma st_bind_err {S E A B} (m : ST S E A) (f : A -> ST S E B) s e s' :
  (m ≫= f) s = (Err e, s') ->
  m s = (Err e, s') \/ exists a s1, m s = (Ok a, s1) /\ f a s1 = (Err e, s').
Proof.
  unfold mbind, st_bind. destruct (m s) as [[a|e1] s1] eqn:Em; intros H; [eauto|].
  left. by simplify_eq.
Qed.

Lemma st_bind_inv {S E A B} (m : ST S E A) (f : A -> ST S E B) s r s' :
  (m ≫= f) s = (r, s') ->
  (exists e, m s = (Err e, s') /\ r = Err e) \/ (exists a s1, m s = (Ok a, s1) /\ f a s1 = (r, s')).
Proof.
  unfold mbind, st_bind. destruct (m s) as [[a|e1] s1] eqn:Em; intros H; simplify_eq; eauto.
Qed.

(** Invert one monadic step of a hypothesis [h : (m ≫= f) s = (r, s')]. *)
Ltac bind_in h :=
  let x := fresh "x" in let s := fresh "s" in let h1 := fresh "Hm" in
  apply st_bind_inv in h as [(? & h1 & h)|(x & s & h1 & h)];
  [try (match type of h with ?r = _ => is_var r; subst r end)|].

Lemma fail_if_inv {S E} c (e : E) (s : S) r s' :
  fail_if c e s = (r, s') -> s' = s /\ ((c = true /\ r = Err e) \/ (c = false /\ r = Ok tt)).
Proof. unfold fail_if. destruct c; intros; st_unfold; simplify_eq; auto. Qed.

Lemma lift_inv {S E A} (x : result E A) (s : S) r s' : lift x s = (r, s') -> r = x /\ s' = s.
Proof. unfold lift. intros. by simplify_eq. Qed.

Lemma st_map_err_inv {S E F A} (g : E -> F) (m : ST S E A) s r s' :
  st_map_err g m s = (r, s') ->
  exists r0, m s = (r0, s') /\ r = map_err g r0.
Proof. unfold st_map_err. destruct (m s) as [r0 s1] eqn:Em. intros. simplify_eq. eauto. Qed.

(** First element satisfying a test, with its position: [iter().position(p)]. *)
Fixpoint position {A} (p : A -> bool) (l : list A) : option nat :=
  match l with
  | [] => None
  | x :: l' => if p x then Some 0 else S <$> position p l'
  end.

Lemma position_Some {A} (p : A -> bool) l i :
  position p l = Some i ->
  exists x, l !! i = Some x /\ p x = true /\ forall j y, j < i -> l !! j = Some y -> p y = false.
Proof.
  revert i. induction l as [|x l IH]; simpl; intros i H; [done|].
  destruct (p x) eqn:E; simplify_eq.
  - exists x. repeat split; [done|]. intros j y Hj. lia.
  - destruct (position p l) as [k|] eqn:Ek; simplify_eq/=.
    destruct (IH k eq_refl) as (y & Hy & Hp & Hlt).
    exists y. repeat split; [done..|]. intros [|j] z Hj Hz; simplify_eq/=; [done|].
    apply (Hlt j); [lia | done].
Qed.

Lemma position_None {A} (p : A -> bool) l :
  position p l = None <-> Forall (fun x => p x = false) l.
Proof.
  induction l as [|x l IH]; simpl; [naive_solver|].
  destruct (p x) eqn:E.
  - split; [done|]. intros H. inv H. congruence.
  - rewrite Forall_cons_iff. destruct (position p l) eqn:Ep; simpl; split; try done.
    + intros [_ H]. apply IH in H. congruence.
    + intros _. split; [done|]. by apply IH.
Qed.

(** [find_map]/[filter_map] of the iterator library. *)
Fixpoint find_map {A B} (f : A -> option B) (l : list A) : option B :=
  match l with
  | [] => None
  | x :: l' => match f x with Some b => Some b | None => find_map f l' end
  end.

Fixpoint filter_map {A B} (f : A -> option B) (l : list A) : list B :=
  match l with
  | [] => []
  | x :: l' => match f x with Some b => b :: filter_map f l' | None => filter_map f l' end
  end.

Lemma filter_map_app {A B} (f : A -> option B) l1 l2 :
  filter_map f (l1 ++ l2) = filter_map f l1 ++ filter_map f l2.
Proof. induction l1 as [|x l IH]; simpl; [done|]. destruct (f x); simpl; by rewrite IH. Qed.

(** [iter().map(f).collect::<Option<Vec<_>>>()]: the first failure ends the collection. *)
Fixpoint collect {A B} (f : A -> option B) (l : list A) : option (list B) :=
  match l with
  | [] => Some []
  | x :: l' =>
    match f x with
    | None => None
    | Some y => match collect f l' with Some r => Some (y :: r) | None => None end
    end
  end.

Lemma collect_Some {A B} (f : A -> option B) l r :
  collect f l = Some r <-> Forall2 (fun x y => f x = Some y) l r.
Proof.
  revert r. induction l as [|x l IH]; intros r; simpl.
  - split; [intros [= <-]; constructor | by inversion 1].
  - split.
    + destruct (f x) eqn:Ef, (collect f l) eqn:Ec; intros; simplify_eq. constructor; [done|].
      by apply IH.
    + inversion 1 as [|? y ? r' Hy Hr]; subst. rewrite Hy. apply IH in Hr. by rewrite Hr.
Qed.

(** [iter().filter(p)] with a boolean test. *)
Fixpoint filterb {A} (p : A -> bool) (l : list A) : list A :=
  match l with
  | [] => []
  | x :: l' => if p x then x :: filterb p l' else filterb p l'
  end.

Lemma elem_of_filterb {A} (p : A -> bool) l x : x ∈ filterb p l <-> x ∈ l /\ p x = true.
Proof.
  induction l as [|y l IH]; simpl.
  - split; [|intros [? _]; done]. intros H. by apply elem_of_nil in H.
  - destruct (p y) eqn:E; rewrite ?elem_of_cons, IH; naive_solver congruence.
Qed.

Lemma filterb_app {A} (p : A -> bool) l1 l2 : filterb p (l1 ++ l2) = filterb p l1 ++ filterb p l2.
Proof. induction l1 as [|x l IH]; simpl; [done|]. destruct (p x); by rewrite IH. Qed.

Lemma head_filterb {A} (p : A -> bool) l x : head (filterb p l) = Some x -> x ∈ l /\ p x = true.
Proof.
  intros E. apply elem_of_filterb. destruct (filterb p l); simplify_eq/=. left.
Qed.

(** Sum of a list of integers. *)
Definition sumZ (l : list Z) : Z := foldr Z.add 0%Z l.

Lemma sumZ_app l1 l2 : sumZ (l1 ++ l2) = (sumZ l1 + sumZ l2)%Z.
Proof. unfold sumZ. induction l1 as [|x l IH]; simpl; [done|]. rewrite IH. lia. Qed.

Lemma sumZ_nonneg l : Forall (fun z => 0 <= z)%Z l -> (0 <= sumZ l)%Z.
Proof. unfold sumZ. induction 1; simpl; lia. Qed.
