(* ===== verification/RustStr.v ===== *)
(** * Rust's [str] as byte strings

    A Rust [str] is its UTF-8 bytes, here a [string] whose characters are bytes; [len] is
    the number of bytes.  This file defines the operations of the standard library the
    modelled code calls ([starts_with], [strip_prefix], [split_once], [contains], [split],
    [lines], [trim], [trim_end_matches], [to_ascii_lowercase], [join], byte-range slicing)
    and the lemmas the components share. *)

From stdpp Require Import base strings list.
From Stdlib Require Import Ascii String.
From S2P Require Import Prelude.

#[local] Open Scope string_scope.
#[global] Arguments String.append !_ _ : simpl nomatch.

Definition byte (n : nat) : ascii := ascii_of_nat n.
Definition LF : ascii := byte 10.
Definition CR : ascii := byte 13.
Definition SP : ascii := byte 32.

Definition str_len (s : string) : Z := Z.of_nat (String.length s).
Definition is_empty (s : string) : bool := match s with EmptyString => true | _ => false end.

Fixpoint str_rev_app (s acc : string) : string :=
  match s with EmptyString => acc | String c s' => str_rev_app s' (String c acc) end.
Definition str_rev (s : string) : string := str_rev_app s "".

(** [s.strip_prefix(p)], [s.starts_with(p)]. *)
Fixpoint strip_prefix (p s : string) : option string :=
  match p, s with
  | EmptyString, _ => Some s
  | String a p', String b s' => if Ascii.eqb a b then strip_prefix p' s' else None
  | _, EmptyString => None
  end.
Definition starts_with (p s : string) : bool :=
  match strip_prefix p s with Some _ => true | None => false end.

(** [s.split_once(p)]: around the first occurrence of [p]. *)
Fixpoint split_once (p s : string) : option (string * string) :=
  match strip_prefix p s with
  | Some rest => Some ("", rest)
  | None =>
    match s with
    | EmptyString => None
    | String c s' =>
      match split_once p s' with
      | Some (a, b) => Some (String c a, b)
      | None => None
      end
    end
  end.

(** [s.contains(p)]. *)
Definition str_contains (p s : string) : bool :=
  match split_once p s with Some _ => true | None => false end.

(** [s.split(c)] for a one-byte separator: always at least one piece. *)
Fixpoint split_char (c : ascii) (s : string) : list string :=
  match s with
  | EmptyString => [""]
  | String d s' =>
    if Ascii.eqb c d then "" :: split_char c s'
    else match split_char c s' with
         | [] => [String d ""]
         | w :: ws => String d w :: ws
         end
  end.

(** [v.join(sep)]. *)
Fixpoint str_join (sep : string) (l : list string) : string :=
  match l with
  | [] => ""
  | [x] => x
  | x :: l' => x +:+ sep +:+ str_join sep l'
  end.

(** [trim_end_matches(c)] for one byte. *)
Fixpoint drop_leading (c : ascii) (s : string) : string :=
  match s with
  | String d s' => if Ascii.eqb c d then drop_leading c s' else s
  | EmptyString => ""
  end.
Definition trim_start_matches (c : ascii) (s : string) : string := drop_leading c s.
Definition trim_end_matches (c : ascii) (s : string) : string := str_rev (drop_leading c (str_rev s)).

(** [str::lines]: split at LF, drop the empty piece after a final LF, strip one CR. *)
Definition strip_cr (s : string) : string :=
  match str_rev s with
  | String c r => if Ascii.eqb c CR then str_rev r else s
  | EmptyString => s
  end.
Definition lines (s : string) : list string :=
  let ps := split_char LF s in
  let ps' := match rev ps with "" :: r => rev r | _ => ps end in
  strip_cr <$> ps'.

(** UTF-8 encodings of the characters with the Unicode property [White_Space], which is
    what [str::trim] removes: U+0009..000D, 0020, 0085, 00A0, 1680, 2000..200A, 2028, 2029,
    202F, 205F, 3000. *)
Definition utf8 (l : list nat) : string := foldr (fun n s => String (byte n) s) "" l.
Definition white_space : list string :=
  utf8 <$> [[9]; [10]; [11]; [12]; [13]; [32]; [194; 133]; [194; 160]; [225; 154; 128];
            [226; 128; 128]; [226; 128; 129]; [226; 128; 130]; [226; 128; 131];
            [226; 128; 132]; [226; 128; 133]; [226; 128; 134]; [226; 128; 135];
            [226; 128; 136]; [226; 128; 137]; [226; 128; 138]; [226; 128; 168];
            [226; 128; 169]; [226; 128; 175]; [226; 129; 159]; [227; 128; 128]].

(** Strip leading occurrences of any of [ps]; each strip shortens the string, so as much
    fuel as the string is long is enough. *)
Fixpoint strip_any (fuel : nat) (ps : list string) (s : string) : string :=
  match fuel with
  | 0 => s
  | S n => match find_map (fun p => strip_prefix p s) ps with
           | Some s' => strip_any n ps s'
           | None => s
           end
  end.
Definition trim_start (s : string) : string := strip_any (String.length s) white_space s.
Definition trim_end (s : string) : string :=
  str_rev (strip_any (String.length s) (str_rev <$> white_space) (str_rev s)).
Definition trim (s : string) : string := trim_end (trim_start s).

Definition ascii_lower (c : ascii) : ascii :=
  let n := nat_of_ascii c in if (65 <=? n)%nat && (n <=? 90)%nat then byte (n + 32) else c.
Fixpoint to_ascii_lowercase (s : string) : string :=
  match s with EmptyString => "" | String c s' => String (ascii_lower c) (to_ascii_lowercase s') end.

(** [s.parse::<i32>()]: an optional sign, then decimal digits, in range. *)
Fixpoint parse_digits (s : string) (acc : Z) : option Z :=
  match s with
  | EmptyString => Some acc
  | String c s' =>
    let d := (Z.of_nat (nat_of_ascii c) - 48)%Z in
    if ((0 <=? d) && (d <=? 9))%Z then parse_digits s' (10 * acc + d)%Z else None
  end.
Definition parse_i32 (s : string) : option Z :=
  let '(sign, ds) :=
    match s with
    | String c s' => if Ascii.eqb c (byte 45) then (-1, s')%Z else if Ascii.eqb c (byte 43) then (1, s')%Z else (1, s)%Z
    | EmptyString => (1, s)%Z
    end in
  if is_empty ds then None
  else match parse_digits ds 0%Z with
       | Some n => let z := (sign * n)%Z in if ((- 2 ^ 31 <=? z) && (z <? 2 ^ 31))%Z then Some z else None
       | None => None
       end.

(** [&s[a..b]]: [None] is the panic of an out-of-range, reversed or non-boundary slice. *)
Definition is_continuation (c : ascii) : bool :=
  let n := nat_of_ascii c in (128 <=? n)%nat && (n <? 192)%nat.
Definition is_char_boundary (s : string) (i : nat) : bool :=
  (i =? String.length s)%nat ||
  match String.get i s with Some c => negb (is_continuation c) | None => false end.
Definition str_slice (s : string) (a b : nat) : option string :=
  if (a <=? b)%nat && (b <=? String.length s)%nat && is_char_boundary s a && is_char_boundary s b
  then Some (String.substring a (b - a) s) else None.

(** ** Lemmas *)

Lemma app_nil_r_str s : s +:+ "" = s.
Proof. induction s as [|c s IH]; simpl; [done|]. by rewrite IH. Qed.

Lemma app_assoc_str a b c : (a +:+ b) +:+ c = a +:+ (b +:+ c).
Proof. induction a as [|x a IH]; simpl; [done|]. by rewrite IH. Qed.

Lemma strip_prefix_Some p s r : strip_prefix p s = Some r <-> s = p +:+ r.
Proof.
  revert s. induction p as [|a p IH]; intros s; simpl; [naive_solver|].
  destruct s as [|b s]; simpl; [naive_solver|].
  destruct (Ascii.eqb_spec a b) as [->|N].
  - rewrite IH. naive_solver.
  - naive_solver.
Qed.

Lemma strip_prefix_app p r : strip_prefix p (p +:+ r) = Some r.
Proof. by apply strip_prefix_Some. Qed.

Lemma split_once_eq p s a b : split_once p s = Some (a, b) -> s = a +:+ p +:+ b.
Proof.
  revert a b. induction s as [|c s IH]; intros a b; simpl.
  - destruct (strip_prefix p "") eqn:E; intros; simplify_eq/=. by apply strip_prefix_Some in E.
  - destruct (strip_prefix p (String c s)) eqn:E.
    + intros; simplify_eq/=. by apply strip_prefix_Some in E.
    + destruct (split_once p s) as [[x y]|]; intros; simplify_eq/=. f_equal. by apply IH.
Qed.

(** No occurrence of [p] starts inside the first [a] bytes of [a ++ rest]. *)
Fixpoint no_match_before (p a rest : string) : Prop :=
  match a with
  | EmptyString => True
  | String _ a' => strip_prefix p (a +:+ rest) = None /\ no_match_before p a' rest
  end.

Lemma split_once_app p a b : no_match_before p a (p +:+ b) -> split_once p (a +:+ p +:+ b) = Some (a, b).
Proof.
  induction a as [|c a IH]; simpl.
  - intros _. destruct p as [|x p]; simpl; [by destruct b|].
    by rewrite Ascii.eqb_refl, strip_prefix_app.
  - intros [H1 H2]. simpl in H1. rewrite H1. by rewrite (IH H2).
Qed.

Lemma split_once_first p s a b :
  p <> "" -> split_once p s = Some (a, b) -> no_match_before p a (p +:+ b).
Proof.
  intros Hp. revert a b. induction s as [|c s IH]; intros a b; simpl.
  - destruct (strip_prefix p "") eqn:E; intros; simplify_eq/=. done.
  - destruct (strip_prefix p (String c s)) eqn:E; intros H; simplify_eq/=; [done|].
    destruct (split_once p s) as [[x y]|] eqn:E2; simplify_eq/=. split; [|by apply IH].
    apply split_once_eq in E2. by rewrite <- E2.
Qed.

Lemma str_rev_app_spec s acc : str_rev_app s acc = str_rev s +:+ acc.
Proof.
  unfold str_rev. revert acc. induction s as [|c s IH]; intros acc; simpl; [done|].
  rewrite IH, (IH (String c "")). by rewrite app_assoc_str.
Qed.

Lemma str_rev_cons c s : str_rev (String c s) = str_rev s +:+ String c "".
Proof. unfold str_rev at 1. simpl. by rewrite str_rev_app_spec. Qed.

Lemma str_rev_append a b : str_rev (a +:+ b) = str_rev b +:+ str_rev a.
Proof.
  induction a as [|c a IH]; [by rewrite app_nil_r_str|].
  change (String c a +:+ b) with (String c (a +:+ b)).
  by rewrite !str_rev_cons, IH, app_assoc_str.
Qed.

Lemma str_rev_involutive s : str_rev (str_rev s) = s.
Proof. induction s as [|c s IH]; [done|]. by rewrite str_rev_cons, str_rev_append, IH. Qed.

Lemma length_app_str a b : String.length (a +:+ b) = (String.length a + String.length b)%nat.
Proof. induction a as [|c a IH]; simpl; [done|]. by rewrite IH. Qed.

Lemma str_len_app a b : str_len (a +:+ b) = (str_len a + str_len b)%Z.
Proof. unfold str_len. rewrite length_app_str. lia. Qed.

Lemma str_len_nonneg s : (0 <= str_len s)%Z.
Proof. unfold str_len. lia. Qed.

Lemma is_empty_spec s : is_empty s = true <-> s = "".
Proof. destruct s; naive_solver. Qed.

Lemma split_char_nonempty c s : split_char c s <> [].
Proof. destruct s as [|d s]; simpl; [done|]. destruct (Ascii.eqb c d); [done|]. by destruct (split_char c s). Qed.

#[export] Hint Resolve str_len_nonneg split_char_nonempty : godwit.

(** Texts of ASCII characters: every position is a character boundary. *)
Fixpoint is_ascii (s : string) : bool :=
  match s with EmptyString => true | String c s' => (nat_of_ascii c <? 128)%nat && is_ascii s' end.

Lemma is_ascii_get s i c : is_ascii s = true -> String.get i s = Some c -> is_continuation c = false.
Proof.
  revert i. induction s as [|d s IH]; intros i; simpl; [by destruct i|].
  intros [H1 H2]%andb_true_iff. destruct i as [|i]; [|by apply IH]. intros [= <-].
  unfold is_continuation. apply Nat.ltb_lt in H1. apply andb_false_iff. left. apply Nat.leb_gt. lia.
Qed.

Lemma get_some s i : (i < String.length s)%nat -> exists c, String.get i s = Some c.
Proof.
  revert i. induction s as [|d s IH]; intros i; simpl; [lia|]. destruct i as [|i]; [eauto|].
  intros Hi. apply IH. lia.
Qed.

Lemma ascii_boundary s i : is_ascii s = true -> (i <= String.length s)%nat -> is_char_boundary s i = true.
Proof.
  intros Ha Hi. unfold is_char_boundary. destruct (Nat.eqb_spec i (String.length s)) as [|N]; [done|].
  destruct (get_some s i) as [c Hc]; [lia|]. rewrite Hc. by rewrite (is_ascii_get s i c).
Qed.

Lemma is_ascii_app a b : is_ascii (a +:+ b) = is_ascii a && is_ascii b.
Proof. induction a as [|c a IH]; simpl; [done|]. by rewrite IH, andb_assoc. Qed.
