(* ===== verification/Utf8.v ===== *)
(** * UTF-8

    [String::from_utf8_lossy] and [chars().count()] of the standard library, on the bytes
    of a [string]. *)

From stdpp Require Import base strings list.
From Stdlib Require Import Ascii.
From S2P Require Import Prelude RustStr.

#[local] Open Scope string_scope.

Definition in_range (lo hi : nat) (c : ascii) : bool :=
  let n := nat_of_ascii c in (lo <=? n)%nat && (n <=? hi)%nat.

(** The number of bytes of the sequence a byte opens; 0 when it opens none. *)
Definition utf8_width (c : ascii) : nat :=
  if in_range 0 127 c then 1
  else if in_range 194 223 c then 2
  else if in_range 224 239 c then 3
  else if in_range 240 244 c then 4
  else 0.

(** Whether a second byte may follow the first one of a sequence of three or four. *)
Definition second_ok (c d : ascii) : bool :=
  let n := nat_of_ascii c in
  if (n =? 224)%nat then in_range 160 191 d
  else if (n =? 237)%nat then in_range 128 159 d
  else if (n =? 240)%nat then in_range 144 191 d
  else if (n =? 244)%nat then in_range 128 143 d
  else is_continuation d.

Definition replacement : string := utf8 [239; 191; 189].

(** [String::from_utf8_lossy]: every maximal prefix of a sequence that does not complete is
    replaced by one U+FFFD. *)
Fixpoint from_utf8_lossy (s : string) : string :=
  match s with
  | EmptyString => ""
  | String c s1 =>
    match utf8_width c with
    | 1 => String c (from_utf8_lossy s1)
    | 2 =>
      match s1 with
      | String d s2 =>
        if is_continuation d then String c (String d (from_utf8_lossy s2))
        else replacement +:+ from_utf8_lossy s1
      | EmptyString => replacement
      end
    | 3 =>
      match s1 with
      | String d s2 =>
        if second_ok c d then
          match s2 with
          | String e s3 =>
            if is_continuation e then String c (String d (String e (from_utf8_lossy s3)))
            else replacement +:+ from_utf8_lossy s2
          | EmptyString => replacement
          end
        else replacement +:+ from_utf8_lossy s1
      | EmptyString => replacement
      end
    | 4 =>
      match s1 with
      | String d s2 =>
        if second_ok c d then
          match s2 with
          | String e s3 =>
            if is_continuation e then
              match s3 with
              | String f s4 =>
                if is_continuation f then String c (String d (String e (String f (from_utf8_lossy s4))))
                else replacement +:+ from_utf8_lossy s3
              | EmptyString => replacement
              end
            else replacement +:+ from_utf8_lossy s2
          | EmptyString => replacement
          end
        else replacement +:+ from_utf8_lossy s1
      | EmptyString => replacement
      end
    | _ => replacement +:+ from_utf8_lossy s1
    end
  end.

(** Bytes that are a [str] are a string that decodes to itself. *)
Definition valid_utf8 (s : string) : bool := String.eqb (from_utf8_lossy s) s.

(** [s.chars().count()] of a [str]: the bytes that continue no sequence. *)
Fixpoint char_count (s : string) : Z :=
  match s with
  | EmptyString => 0
  | String c s' => (if is_continuation c then 0 else 1) + char_count s'
  end%Z.

Lemma char_count_range s : (0 <= char_count s <= str_len s)%Z.
Proof.
  unfold str_len. induction s as [|c s IH]; [done|]. simpl char_count. simpl String.length.
  destruct (is_continuation c); lia.
Qed.

Lemma lossy_ascii s : is_ascii s = true -> from_utf8_lossy s = s.
Proof.
  induction s as [|c s IH]; simpl; [done|]. intros [Hc Hs]%andb_prop.
  unfold utf8_width, in_range. apply Nat.ltb_lt in Hc.
  rewrite (proj2 (Nat.leb_le _ 127)) by lia. by rewrite IH.
Qed.

(** An accented letter cut in two by the boundary of a chunk: both halves become U+FFFD. *)
Example cut_letter :
  from_utf8_lossy (utf8 [195; 169]) = utf8 [195; 169] /\
  (from_utf8_lossy (utf8 [195]) +:+ from_utf8_lossy (utf8 [169]))%string = (replacement +:+ replacement)%string.
Proof. done. Qed.
