(* ===== verification/Json.v ===== *)
(** * JSON values

    [serde_json::Value] as the code sees it: the data type and the accessors it calls
    ([get], [as_str], [as_array], [as_i64], [as_u64], [as_bool], [is_null], assignment
    through an index).  Parsing a text and printing a value belong to the serde_json crate
    and are a pair of functions of the class [JsonText], with the one law the code relies
    on: a printed value parses back to itself. *)

From stdpp Require Import base strings list countable.
From Stdlib Require Import QArith.
From S2P Require Import Prelude RustStr.

#[local] Open Scope string_scope.
#[local] Open Scope Z_scope.

(** [serde_json::Number]: an integer of the [u64] or [i64] range, or a finite float. *)
Inductive number : Type :=
| NInt (z : Z)
| NFloat (q : Q).

Inductive value : Type :=
| Null
| VBool (b : bool)
| VNumber (n : number)
| VString (s : string)
| VArray (l : list value)
| VObject (o : list (string * value)).

Definition num (z : Z) : value := VNumber (NInt z).

(** Members of an object: a [BTreeMap], kept as the list of its entries by increasing key. *)
Fixpoint obj_get (k : string) (o : list (string * value)) : option value :=
  match o with
  | [] => None
  | (k', v) :: o' => if String.eqb k k' then Some v else obj_get k o'
  end.

Fixpoint obj_insert (k : string) (v : value) (o : list (string * value)) : list (string * value) :=
  match o with
  | [] => [(k, v)]
  | (k', v') :: o' =>
    match String.compare k k' with
    | Eq => (k, v) :: o'
    | Lt => (k, v) :: (k', v') :: o'
    | Gt => (k', v') :: obj_insert k v o'
    end
  end.

(** [json!({ k: v, ... })]. *)
Definition obj (l : list (string * value)) : value :=
  VObject (fold_left (fun o '(k, v) => obj_insert k v o) l []).

(** [v.get("k")]. *)
Definition get (k : string) (v : value) : option value :=
  match v with VObject o => obj_get k o | _ => None end.

Definition as_str (v : value) : option string := match v with VString s => Some s | _ => None end.
Definition as_array (v : value) : option (list value) := match v with VArray l => Some l | _ => None end.
Definition as_bool (v : value) : option bool := match v with VBool b => Some b | _ => None end.
Definition as_object (v : value) : option (list (string * value)) :=
  match v with VObject o => Some o | _ => None end.
Definition is_null (v : value) : bool := match v with Null => true | _ => false end.
Definition is_empty_object (v : value) : bool := match v with VObject [] => true | _ => false end.

(** [as_u64]/[as_i64]: integers of the range only; floats never convert. *)
Definition json_u64 (v : value) : option Z :=
  match v with
  | VNumber (NInt z) => if (0 <=? z) && (z <? 2 ^ 64) then Some z else None
  | _ => None
  end.
Definition json_i64 (v : value) : option Z :=
  match v with
  | VNumber (NInt z) => if (- 2 ^ 63 <=? z) && (z <? 2 ^ 63) then Some z else None
  | _ => None
  end.

(** [v["k"] = x]: inserts into an object, turns null into an object, panics ([None]) on
    any other value. *)
Definition index_set (k : string) (x : value) (v : value) : option value :=
  match v with
  | VObject o => Some (VObject (obj_insert k x o))
  | Null => Some (VObject [(k, x)])
  | _ => None
  end.

(** [v["k"]] as a read: [Null] when absent. *)
Definition index (k : string) (v : value) : value := default Null (get k v).

Lemma compare_refl_str k : String.compare k k = Eq.
Proof.
  pose proof (String.compare_antisym k k) as H. by destruct (String.compare k k).
Qed.

Lemma obj_get_insert k v o : obj_get k (obj_insert k v o) = Some v.
Proof.
  induction o as [|[k' v'] o IH]; simpl; [by rewrite String.eqb_refl|].
  destruct (String.compare k k') eqn:E; simpl; rewrite ?String.eqb_refl; try done.
  destruct (String.eqb_spec k k') as [->|]; [|done]. by rewrite compare_refl_str in E.
Qed.

Lemma obj_get_insert_ne k k' v o : k' <> k -> obj_get k' (obj_insert k v o) = obj_get k' o.
Proof.
  intros N. induction o as [|[k2 v2] o IH]; simpl.
  - by rewrite (proj2 (String.eqb_neq k' k)).
  - destruct (String.compare k k2) eqn:E; simpl.
    + apply String.compare_eq_iff in E as ->. by rewrite (proj2 (String.eqb_neq k' k2)).
    + by rewrite (proj2 (String.eqb_neq k' k)).
    + by rewrite IH.
Qed.

Lemma get_index_set k x v v' : index_set k x v = Some v' -> get k v' = Some x.
Proof.
  destruct v; simpl; intros; simplify_eq/=; [by rewrite String.eqb_refl|].
  apply obj_get_insert.
Qed.

Lemma json_i64_in_range v z : json_i64 v = Some z -> in_i 64 z.
Proof.
  unfold json_i64, in_i. destruct v as [| |[n|]| | |]; try done.
  destruct ((- 2 ^ 63 <=? n) && (n <? 2 ^ 63)) eqn:E; intros; simplify_eq. lia.
Qed.

Lemma json_i64_num z : in_i 64 z -> json_i64 (num z) = Some z.
Proof.
  intros H. simpl. unfold in_i in H. simpl in H.
  destruct (Z.leb_spec (- 2 ^ 63) z); destruct (Z.ltb_spec z (2 ^ 63)); try done; lia.
Qed.

(** ** Values that print and parse back

    A value of the program holds integers of the [u64]/[i64] range and objects with
    increasing keys.  Floats are left out: without its [float_roundtrip] feature serde_json
    does not promise that a printed float parses to the same double. *)
Definition key_lt (k : string) (o : list (string * value)) : bool :=
  match o with [] => true | (k', _) :: _ => match String.compare k k' with Lt => true | _ => false end end.

Fixpoint sorted_keys (o : list (string * value)) : bool :=
  match o with [] => true | (k, _) :: o' => key_lt k o' && sorted_keys o' end.

Fixpoint printable (v : value) : bool :=
  match v with
  | Null | VBool _ | VString _ => true
  | VNumber (NInt z) => (- 2 ^ 63 <=? z) && (z <? 2 ^ 64)
  | VNumber (NFloat _) => false
  | VArray l => forallb printable l
  | VObject o => sorted_keys o && forallb (fun '(_, x) => printable x) o
  end.

Class JsonText := {
  from_str : string -> option value;
  to_string : value -> string;
  from_to : forall v, printable v = true -> from_str (to_string v) = Some v;
}.

Lemma printable_num z : in_i 64 z -> printable (num z) = true.
Proof. unfold in_i. simpl. intros. apply andb_true_iff. lia. Qed.

(** ** Induction over nested values, decidable equality, and an instance of [JsonText] *)

Lemma value_ind_nested (P : value -> Prop) :
  P Null -> (forall b, P (VBool b)) -> (forall n, P (VNumber n)) -> (forall s, P (VString s)) ->
  (forall l, Forall P l -> P (VArray l)) ->
  (forall o, Forall (fun kv => P kv.2) o -> P (VObject o)) -> forall v, P v.
Proof.
  intros H1 H2 H3 H4 H5 H6. fix go 1. intros [| | | |l|o]; [auto..| |].
  - apply H5. induction l; constructor; auto.
  - apply H6. induction o as [|[k v] o IH]; constructor; simpl; auto.
Qed.

Fixpoint to_tree (v : value) : gen_tree (bool + (Z + positive) + (Z + string)) :=
  match v with
  | Null => GenNode 0 []
  | VBool b => GenLeaf (inl (inl b))
  | VNumber (NInt z) => GenLeaf (inl (inr (inl z)))
  | VNumber (NFloat q) => GenNode 1 [GenLeaf (inr (inl (Qnum q))); GenLeaf (inl (inr (inr (Qden q))))]
  | VString s => GenLeaf (inr (inr s))
  | VArray l => GenNode 2 (map to_tree l)
  | VObject o => GenNode 3 (map (fun '(k, x) => GenNode 4 [GenLeaf (inr (inr k)); to_tree x]) o)
  end.

Fixpoint of_tree (t : gen_tree (bool + (Z + positive) + (Z + string))) : value :=
  match t with
  | GenLeaf (inl (inl b)) => VBool b
  | GenLeaf (inl (inr (inl z))) => VNumber (NInt z)
  | GenLeaf (inr (inr s)) => VString s
  | GenNode 1 [GenLeaf (inr (inl n)); GenLeaf (inl (inr (inr d)))] => VNumber (NFloat (n # d))
  | GenNode 2 l => VArray (map of_tree l)
  | GenNode 3 l =>
    VObject (map (fun t => match t with
                           | GenNode 4 [GenLeaf (inr (inr k)); x] => (k, of_tree x)
                           | _ => ("", Null)
                           end) l)
  | _ => Null
  end.

Lemma of_to_tree v : of_tree (to_tree v) = v.
Proof.
  induction v as [| |[z|[n d]]| |l IH|o IH] using value_ind_nested; try done; simpl; f_equal;
    rewrite map_map.
  - induction IH as [|x l' Hx _ IHl]; simpl; [done|]. by rewrite Hx, IHl.
  - induction IH as [|[k x] l' Hx _ IHl]; simpl in *; [done|]. by rewrite Hx, IHl.
Qed.

#[export] Instance value_eq_dec : EqDecision value.
Proof.
  refine (fun v w => cast_if (decide (to_tree v = to_tree w))); [|congruence].
  abstract (rewrite <- (of_to_tree v), <- (of_to_tree w); congruence).
Defined.

#[export] Instance value_countable : Countable value.
Proof. apply (inj_countable' to_tree of_tree), of_to_tree. Defined.

(** An instance, to exhibit the law: a printed value is the binary code of the value. *)
Fixpoint pos_to_string (p : positive) : string :=
  match p with xH => "" | xO p => String (byte 48) (pos_to_string p) | xI p => String (byte 49) (pos_to_string p) end.

Fixpoint string_to_pos (s : string) : positive :=
  match s with
  | EmptyString => xH
  | String c s' => if Ascii.eqb c (byte 48) then xO (string_to_pos s') else xI (string_to_pos s')
  end.

Lemma string_to_pos_to_string p : string_to_pos (pos_to_string p) = p.
Proof. induction p as [p IH|p IH|]; simpl; by rewrite ?IH. Qed.

Definition coded_json : JsonText.
Proof.
  refine {| from_str s := decode (string_to_pos s); to_string v := pos_to_string (encode v) |}.
  intros v _. by rewrite string_to_pos_to_string, decode_encode.
Defined.

#[export] Hint Resolve json_i64_num obj_get_insert printable_num : godwit.
