(* ===== verification/Core.v ===== *)
(** * Shared data and errors

    The types the crates exchange: the chat request and response of [godwit-core/src/lib.rs],
    the provider errors and usage report of [godwit-providers/src/adapter.rs], the API error
    of [godwit-api/src/error.rs] with its translation to an HTTP response, and the two
    hand-written serde functions of a message's content.

    A comment [[file:first-last] [symbol]] in front of a definition names the lines of
    [src/crates/] it translates.  Field names carry a short prefix of their struct. *)

From stdpp Require Import base strings list pretty.
From Stdlib Require Import QArith.
From S2P Require Import Prelude RustStr Json.

#[local] Open Scope string_scope.
#[local] Open Scope Z_scope.

(** A [Uuid], by its 128-bit value. *)
Abbreviation Uuid := Z (only parsing).

(** ** Errors *)

(** [godwit-core/src/lib.rs:93-111] [PasteurError] *)
Inductive PasteurError : Type :=
| Config (msg : string)
| Auth (msg : string)
| PForbidden (msg : string)
| PNotFound
| Provider (msg : string)
| Database (msg : string)
| Validation (msg : string)
| PRateLimited.

(** [godwit-providers/src/adapter.rs:41-51] [ProviderError] *)
Inductive ProviderError : Type :=
| Http (status : Z) (message : string)
| Serialization (msg : string)
| ProviderFailed (msg : string)
| CapabilityNotSupported (msg : string).

(** The [Display] text that [thiserror] derives.
    [godwit-providers/src/adapter.rs:41-51] [ProviderError::fmt] *)
Definition provider_error_to_string (e : ProviderError) : string :=
  match e with
  | Http status message => "http error: " +:+ pretty status +:+ ": " +:+ message
  | Serialization m => "serialization error: " +:+ m
  | ProviderFailed m => "provider error: " +:+ m
  | CapabilityNotSupported m => "capability not supported: " +:+ m
  end.

(** [godwit-core/src/guardrails.rs:29-35] [GuardrailsError] *)
Inductive GuardrailsError : Type :=
| Moderation (msg : string)
| GuardInternal (msg : string).

(** [godwit-api/src/error.rs:10-34] [ApiError] *)
Inductive ApiError : Type :=
| Unauthorized
| Forbidden
| NotFound
| BadRequest (msg : string)
| RateLimited (retry_after : option Z)
| BudgetExceeded
| Internal
| CoreError (e : PasteurError)
| DatabaseError (msg : string)
| ModerationBlocked (categories : list string)
| GuardError (e : GuardrailsError).

#[export] Instance pasteur_error_eq_dec : EqDecision PasteurError.
Proof. solve_decision. Defined.
#[export] Instance provider_error_eq_dec : EqDecision ProviderError.
Proof. solve_decision. Defined.
#[export] Instance guardrails_error_eq_dec : EqDecision GuardrailsError.
Proof. solve_decision. Defined.
#[export] Instance api_error_eq_dec : EqDecision ApiError.
Proof. solve_decision. Defined.

(** [godwit-api/src/error.rs:36-46] [ApiError::from] *)
Definition api_error_from (err : PasteurError) : ApiError :=
  match err with
  | PNotFound => NotFound
  | Auth _ | PForbidden _ => Unauthorized
  | Validation msg => BadRequest msg
  | PRateLimited => RateLimited None
  | _ => CoreError err
  end.

(** [godwit-api/src/proxy.rs:70-81] [map_provider_error] *)
Definition map_provider_error (err : ProviderError) : ApiError :=
  match err with
  | CapabilityNotSupported msg => BadRequest msg
  | other => CoreError (Provider (provider_error_to_string other))
  end.

Record Response : Type := {
  res_status : Z;
  res_headers : list (string * string);
  res_body : value;
}.

Fixpoint replace_space (s : string) : string :=
  match s with
  | EmptyString => ""
  | String c s' => String (if Ascii.eqb c SP then byte 45 else c) (replace_space s')
  end.

(** The rendering of an error; [fmt_debug] is the [{:?}] text of a list of strings.
    [godwit-api/src/error.rs:48-124] [ApiError::into_response] *)
Definition into_response (fmt_debug : list string -> string) (e : ApiError) : Response :=
  let problem '(status, title, detail, retry_after) :=
    let body := obj [
      ("type", VString ("https://api.godwit.local/errors/"
                        +:+ replace_space (to_ascii_lowercase title)));
      ("title", VString title);
      ("status", num status);
      ("detail", VString detail);
      ("instance", VString "/")] in
    match retry_after with
    | Some seconds =>
      {| res_status := status; res_headers := [("retry-after", pretty (seconds : Z))]; res_body := body |}
    | None => {| res_status := status; res_headers := []; res_body := body |}
    end in
  match e with
  | Unauthorized => problem (401, "Unauthorized", "Authentication required.", None)
  | Forbidden => problem (403, "Forbidden", "Insufficient permissions.", None)
  | NotFound => problem (404, "Not Found", "Resource not found.", None)
  | BadRequest msg => problem (400, "Bad Request", msg, None)
  | RateLimited retry_after =>
    problem (429, "Too Many Requests", "Rate limit exceeded.", retry_after)
  | BudgetExceeded =>
    problem (429, "Budget Exceeded", "End-user budget has been exceeded.", None)
  | ModerationBlocked categories =>
    {| res_status := 400; res_headers := [];
       res_body := obj [
         ("type", VString "https://api.godwit.local/errors/moderation-blocked");
         ("title", VString "Moderation Blocked");
         ("status", num 400);
         ("detail", VString ("Content flagged by moderation: " +:+ fmt_debug categories));
         ("instance", VString "/");
         ("categories", VArray (VString <$> categories))] |}
  | Internal | CoreError _ | DatabaseError _ | GuardError _ =>
    problem (500, "Internal Server Error", "An unexpected error occurred.", None)
  end.

(** ** Chat content *)

(** [godwit-core/src/lib.rs:534-538] [ImageUrl] *)
Record ImageUrl : Type := { url : string; detail : option string }.

(** [godwit-core/src/lib.rs:527-532] [ChatContentPart] *)
Inductive ChatContentPart : Type :=
| PartText (text : string)
| PartImageUrl (image_url : ImageUrl).

(** [godwit-core/src/lib.rs:514-519] [ChatContent] *)
Inductive ChatContent : Type :=
| CText (s : string)
| CParts (parts : list ChatContentPart).

(** [godwit-core/src/lib.rs:567-578] [ToolCall, FunctionCall] *)
Record ToolCall : Type := {
  tc_id : string; tc_type : string; tc_name : string; tc_arguments : string }.

(** [godwit-core/src/lib.rs:509-512] [CacheControl] *)
Record CacheControl : Type := { cc_type : string }.

(** [godwit-core/src/lib.rs:675-688] [ChatMessage] *)
Record ChatMessage : Type := {
  msg_role : string;
  msg_content : option (list ChatContent);
  msg_name : option string;
  msg_tool_calls : option (list ToolCall);
  msg_tool_call_id : option string;
  msg_cache_control : option CacheControl;
}.

(** [godwit-core/src/lib.rs:540-551] [Tool, FunctionDefinition] *)
Record Tool : Type := {
  tool_type : string;
  fd_name : string;
  fd_description : option string;
  fd_parameters : option value;
}.

(** [godwit-core/src/lib.rs:553-565] [ToolChoice, FunctionName] *)
Inductive ToolChoice : Type :=
| TCNone | TCAuto | TCRequired | TCFunction (name : string).

(** [godwit-core/src/lib.rs:475-488] [ResponseFormat, JsonSchema] *)
Inductive ResponseFormat : Type :=
| FText
| FJsonObject
| FJsonSchema (name : string) (schema : option value) (strict : option bool).

(** [godwit-core/src/lib.rs:490-495] [Stop] *)
Inductive Stop : Type := StopString (s : string) | StopArray (l : list string).

(** [godwit-core/src/lib.rs:497-507] [ReasoningConfig, ThinkingConfig] *)
Record ReasoningConfig : Type := {
  rc_effort : option string;
  rc_thinking : option (string * Z);
}.

(** The floating-point fields are kept as the exact rational value of the float.
    [godwit-core/src/lib.rs:449-473] [ChatCompletionRequest] *)
Record ChatCompletionRequest : Type := {
  req_model : string;
  req_messages : list ChatMessage;
  req_stream : option bool;
  req_temperature : option Q;
  req_max_tokens : option Z;
  req_top_p : option Q;
  req_top_k : option Z;
  req_frequency_penalty : option Q;
  req_presence_penalty : option Q;
  req_repetition_penalty : option Q;
  req_stop : option Stop;
  req_seed : option Z;
  req_n : option Z;
  req_logprobs : option bool;
  req_top_logprobs : option Z;
  req_logit_bias : option (list (string * Z));
  req_user : option string;
  req_tools : option (list Tool);
  req_tool_choice : option ToolChoice;
  req_parallel_tool_calls : option bool;
  req_response_format : option ResponseFormat;
  req_reasoning : option ReasoningConfig;
}.

(** [godwit-core/src/lib.rs:718-723] [TokenDetails] *)
Record TokenDetails : Type := {
  cached_tokens : option Z; audio_tokens : option Z; image_tokens : option Z }.

(** [godwit-core/src/lib.rs:709-716] [Usage] *)
Record Usage : Type := {
  prompt_tokens : Z;
  completion_tokens : Z;
  total_tokens : Z;
  prompt_tokens_details : option TokenDetails;
  completion_tokens_details : option TokenDetails;
}.

(** [godwit-core/src/lib.rs:700-707] [ChatCompletionChoice] *)
Record ChatCompletionChoice : Type := {
  ch_index : Z;
  ch_message : ChatMessage;
  ch_finish_reason : option string;
  ch_logprobs : option value;
  ch_tool_calls : option (list ToolCall);
}.

(** [godwit-core/src/lib.rs:690-698] [ChatCompletionResponse] *)
Record ChatCompletionResponse : Type := {
  resp_id : string;
  resp_object : string;
  resp_created : Z;
  resp_model : string;
  resp_choices : list ChatCompletionChoice;
  resp_usage : option Usage;
}.

(** [godwit-providers/src/adapter.rs:23-34] [UsageReport] *)
Record UsageReport : Type := {
  u_prompt_tokens : option Z;
  u_completion_tokens : option Z;
  u_image_count : option Z;
  u_audio_seconds : option Q;
  u_video_seconds : option Q;
  u_tts_characters : option Z;
  u_embedding_tokens : option Z;
  u_cache_read_tokens : option Z;
  u_cache_write_tokens : option Z;
}.

(** [UsageReport::default()]. *)
Definition no_usage : UsageReport :=
  {| u_prompt_tokens := None; u_completion_tokens := None; u_image_count := None;
     u_audio_seconds := None; u_video_seconds := None; u_tts_characters := None;
     u_embedding_tokens := None; u_cache_read_tokens := None; u_cache_write_tokens := None |}.

(** [ChatMessage { role, content: Some(vec![Text(s)]), ..Default::default() }]. *)
Definition text_message (role s : string) : ChatMessage :=
  {| msg_role := role; msg_content := Some [CText s]; msg_name := None;
     msg_tool_calls := None; msg_tool_call_id := None; msg_cache_control := None |}.

(** A request with the two required fields and nothing else. *)
Definition basic_request (model : string) (messages : list ChatMessage) : ChatCompletionRequest :=
  {| req_model := model; req_messages := messages; req_stream := None; req_temperature := None;
     req_max_tokens := None; req_top_p := None; req_top_k := None; req_frequency_penalty := None;
     req_presence_penalty := None; req_repetition_penalty := None; req_stop := None;
     req_seed := None; req_n := None; req_logprobs := None; req_top_logprobs := None;
     req_logit_bias := None; req_user := None; req_tools := None; req_tool_choice := None;
     req_parallel_tool_calls := None; req_response_format := None; req_reasoning := None |}.

(** [godwit-providers/src/adapter.rs:53-57] [ResolvedProfile] *)
Record ResolvedProfile : Type := { rp_base_url : string; rp_api_key : option string }.

Definition part_text (p : ChatContentPart) : option string :=
  match p with PartText text => Some text | _ => None end.

(** [godwit-core/src/lib.rs:585-603] [ChatContent::as_text] *)
Definition content_text (c : ChatContent) : option string :=
  match c with
  | CText t => Some t
  | CParts parts =>
    match filter_map part_text parts with
    | [] => None
    | text => Some (str_join "" text)
    end
  end.

(** [godwit-core/src/lib.rs:605-611] [ChatContent::has_images] *)
Definition has_images (c : ChatContent) : bool :=
  match c with
  | CText _ => false
  | CParts parts => existsb (fun p => match p with PartImageUrl _ => true | _ => false end) parts
  end.

(** [godwit-core/src/lib.rs:613-623] [ChatMessage::content_as_text] *)
Definition content_as_text (m : ChatMessage) : option string :=
  match (fun contents => str_join "" (filter_map content_text contents)) <$> msg_content m with
  | Some s => if is_empty s then None else Some s
  | None => None
  end.

(** ** The content of a message on the wire

    [ChatContentPart] is an externally tagged enum of struct variants and [ChatContent] is
    untagged; what serde derives for them is written out: a variant is an object with one
    entry, a struct is read from an object (unknown members ignored) or from an array of
    exactly its fields. *)

Definition opt_value {A} (f : A -> value) (o : option A) : value :=
  match o with Some a => f a | None => Null end.

(** [godwit-core/src/lib.rs:534-538] [ImageUrl::serialize] *)
Definition image_url_to_value (i : ImageUrl) : value :=
  obj [("url", VString (url i)); ("detail", opt_value VString (detail i))].

(** [godwit-core/src/lib.rs:527-532] [ChatContentPart::serialize] *)
Definition part_to_value (p : ChatContentPart) : value :=
  match p with
  | PartText text => obj [("text", obj [("text", VString text)])]
  | PartImageUrl i => obj [("image_url", obj [("image_url", image_url_to_value i)])]
  end.

(** [godwit-core/src/lib.rs:514-519] [ChatContent::serialize] *)
Definition content_to_value (c : ChatContent) : value :=
  match c with
  | CText s => VString s
  | CParts parts => VArray (part_to_value <$> parts)
  end.

(** [godwit-core/src/lib.rs:625-640] [serialize_chat_content] *)
Definition serialize_chat_content (content : option (list ChatContent)) : value :=
  match content with
  | None => Null
  | Some [CText text] => VString text
  | Some contents => VArray (content_to_value <$> contents)
  end.

(** An [Option<String>] field. *)
Definition opt_string_field (o : option value) : option (option string) :=
  match o with
  | None | Some Null => Some None
  | Some (VString s) => Some (Some s)
  | Some _ => None
  end.

(** [godwit-core/src/lib.rs:534-538] [ImageUrl::deserialize] *)
Definition image_url_of_value (v : value) : option ImageUrl :=
  match v with
  | VObject o =>
    match obj_get "url" o, opt_string_field (obj_get "detail" o) with
    | Some (VString u), Some d => Some {| url := u; detail := d |}
    | _, _ => None
    end
  | VArray [VString u; d] =>
    match opt_string_field (Some d) with
    | Some d' => Some {| url := u; detail := d' |}
    | None => None
    end
  | _ => None
  end.

(** The one field of a struct variant. *)
Definition variant_field (k : string) (v : value) : option value :=
  match v with
  | VObject o => obj_get k o
  | VArray [x] => Some x
  | _ => None
  end.

(** [godwit-core/src/lib.rs:527-532] [ChatContentPart::deserialize] *)
Definition part_of_value (v : value) : option ChatContentPart :=
  match v with
  | VObject [(k, body)] =>
    if String.eqb k "text" then
      match variant_field "text" body with Some (VString s) => Some (PartText s) | _ => None end
    else if String.eqb k "image_url" then
      match variant_field "image_url" body with
      | Some x => PartImageUrl <$> image_url_of_value x
      | None => None
      end
    else None
  | _ => None
  end.

(** Untagged: the first variant whose reading succeeds.
    [godwit-core/src/lib.rs:514-519] [ChatContent::deserialize] *)
Definition content_of_value (v : value) : option ChatContent :=
  match v with
  | VString s => Some (CText s)
  | VArray l => CParts <$> collect part_of_value l
  | _ => None
  end.

(** An element of an array content.
    [godwit-core/src/lib.rs:656-663] [deserialize_chat_content] *)
Definition element_of_value (x : value) : option ChatContent :=
  match x with
  | VString s => Some (CText s)
  | VObject _ => (fun p => CParts [p]) <$> part_of_value x
  | _ => None
  end.

(** [None] is a deserialization error.
    [godwit-core/src/lib.rs:642-673] [deserialize_chat_content] *)
Definition deserialize_chat_content (v : value) : option (option (list ChatContent)) :=
  match v with
  | Null => Some None
  | VString s => Some (Some [CText s])
  | VArray arr =>
    Some <$> collect element_of_value arr
  | VObject _ => (fun c => Some [c]) <$> content_of_value v
  | _ => None
  end.

(** ** Capabilities and protocols *)

(** [godwit-core/src/lib.rs:725-735] [Capability] *)
Inductive Capability : Type :=
| Chat | ImageGeneration | ImageEdit | VideoGeneration | AudioTts | AudioStt | Embedding.

#[export] Instance capability_eq_dec : EqDecision Capability.
Proof. solve_decision. Defined.

(** [godwit-core/src/lib.rs:737-749] [Capability::as_str] *)
Definition capability_as_str (c : Capability) : string :=
  match c with
  | Chat => "chat"
  | ImageGeneration => "image_generation"
  | ImageEdit => "image_edit"
  | VideoGeneration => "video_generation"
  | AudioTts => "audio_tts"
  | AudioStt => "audio_stt"
  | Embedding => "embedding"
  end.

(** [godwit-core/src/lib.rs:751-766] [Capability::from_str] *)
Definition capability_from_str (s : string) : result string Capability :=
  if String.eqb s "chat" then Ok Chat
  else if String.eqb s "image_generation" then Ok ImageGeneration
  else if String.eqb s "image_edit" then Ok ImageEdit
  else if String.eqb s "video_generation" then Ok VideoGeneration
  else if String.eqb s "audio_tts" then Ok AudioTts
  else if String.eqb s "audio_stt" then Ok AudioStt
  else if String.eqb s "embedding" then Ok Embedding
  else Err ("unknown capability: " +:+ s).

(** [godwit-core/src/lib.rs:774-821] [Protocol] *)
Inductive Protocol : Type := MkProtocol (s : string).

(** [godwit-core/src/lib.rs:818-829] [Protocol::as_str] *)
Definition protocol_as_str (p : Protocol) : string := match p with MkProtocol s => s end.
Definition openai : Protocol := MkProtocol "openai".

(** ** Theorems *)

Lemma collect_texts l :
  Forall (fun c => exists s, c = CText s) l ->
  collect element_of_value (content_to_value <$> l) = Some l.
Proof. induction 1 as [|c l [s ->] _ IH]; csimpl; [done|]. by rewrite IH. Qed.

Lemma collect_parts l ps :
  CParts ps ∈ l ->
  collect element_of_value (content_to_value <$> l) = None.
Proof.
  induction l as [|c l IH]; intros H; [by apply elem_of_nil in H|].
  apply elem_of_cons in H as [<-|H]; csimpl; [done|]. rewrite (IH H). by destruct (element_of_value _).
Qed.

Lemma text_or_parts l :
  Forall (fun c => exists s, c = CText s) l \/ exists ps, CParts ps ∈ l.
Proof.
  induction l as [|[s|ps] l IH].
  - left. constructor.
  - destruct IH as [IH|[ps Hps]]; [left; constructor; eauto|]. right. exists ps. by right.
  - right. exists ps. left.
Qed.

Definition is_text (c : ChatContent) : bool := match c with CText _ => true | _ => false end.

Lemma serialize_roundtrip_cases c :
  deserialize_chat_content (serialize_chat_content (Some c)) =
  if forallb is_text c then Some (Some c) else None.
Proof.
  assert (deserialize_chat_content (VArray (content_to_value <$> c)) =
          if forallb is_text c then Some (Some c) else None) as H.
  { unfold deserialize_chat_content. destruct (text_or_parts c) as [Ht|[ps Hp]].
    - rewrite (collect_texts _ Ht).
      rewrite (proj2 (forallb_forall _ _)); [done|].
      intros x Hx. rewrite Forall_forall in Ht.
      destruct (Ht x) as [s ->]; [by apply list_elem_of_In | done].
    - rewrite (collect_parts _ _ Hp). destruct (forallb is_text c) eqn:E; [|done].
      rewrite forallb_forall in E. apply list_elem_of_In, E in Hp. done. }
  destruct c as [|[s|ps] [|c' l]]; exact H.
Qed.

(** A message's content survives serialization exactly when every element is plain
    text.  An element holding parts is written as a nested array, which the reader rejects,
    so a message with an image cannot be read back. *)
Theorem chat_content_roundtrip (c : option (list ChatContent)) :
  deserialize_chat_content (serialize_chat_content c) =
  if match c with Some l => forallb is_text l | None => true end then Some c else None.
Proof. destruct c as [c|]; [apply serialize_roundtrip_cases | done]. Qed.

(** Content given as a JSON object is never accepted: the untagged reader has no variant
    for it, although the branch for objects exists. *)
Theorem chat_content_object_rejected o : deserialize_chat_content (VObject o) = None.
Proof. done. Qed.

(** What is accepted from the wire carries at most one part per element. *)
Theorem deserialized_parts_singleton v l ps :
  deserialize_chat_content v = Some (Some l) -> CParts ps ∈ l -> exists p, ps = [p].
Proof.
  destruct v as [| | |s|arr|o]; simpl; intros H Hin; simplify_eq/=.
  - apply list_elem_of_singleton in Hin. done.
  - destruct (collect _ arr) as [l'|] eqn:E; simplify_eq/=. apply collect_Some in E.
    induction E as [|x y arr' l' Hxy _ IH]; [by apply elem_of_nil in Hin|].
    apply elem_of_cons in Hin as [<-|Hin]; [|auto].
    destruct x; simplify_eq/=. apply fmap_Some in Hxy as (p & _ & [= ->]). eauto.
Qed.

(** Capabilities survive being written as their name, and every other name is rejected
    with a message quoting it. *)
Theorem capability_str_roundtrip (c : Capability) (s : string) :
  capability_from_str (capability_as_str c) = Ok c /\
  (match capability_from_str s with
   | Ok c' => capability_as_str c' = s
   | Err m => m = "unknown capability: " +:+ s /\ forall c', capability_as_str c' <> s
   end).
Proof.
  split; [by destruct c|]. unfold capability_from_str.
  repeat (match goal with |- context [String.eqb ?a ?b] => destruct (String.eqb_spec a b) as [->|] end;
          [done|]).
  split; [done|]. intros []; simpl; congruence.
Qed.

(** An adapter error never becomes a client error unless it is an unsupported capability,
    and the text of any other provider or database failure does not reach the response body. *)
Theorem provider_error_response fmt (e : ProviderError) :
  into_response fmt (map_provider_error e) =
  match e with
  | CapabilityNotSupported msg => into_response fmt (BadRequest msg)
  | _ => into_response fmt Internal
  end.
Proof. by destruct e. Qed.

(** The Retry-After header is present exactly on a rate limit that carries a delay. *)
Theorem retry_after_header fmt e :
  res_headers (into_response fmt e) =
  match e with RateLimited (Some s) => [("retry-after", pretty (s : Z))] | _ => [] end.
Proof. by destruct e as [| | | |[s|]| | | | | |]. Qed.
