(* ===== verification/Breaker.v ===== *)
(** * Circuit breakers

    [godwit-api/src/circuit_breaker.rs] and the admin listing of
    [godwit-api/src/admin/circuit_breakers.rs].  A breaker is a record; each method is a
    function of the record and of the clock readings it makes ([Instant::now], in
    nanoseconds).  The counters are [AtomicUsize] and wrap at [2^64].

    The first half treats each method call as one step and relates it to an abstract
    automaton.  The second half cuts the methods at their atomic accesses and lets threads
    interleave. *)

From stdpp Require Import base strings list gmap.
From S2P Require Import Prelude.

#[local] Open Scope Z_scope.

(** [godwit-api/src/circuit_breaker.rs:5-10] [CircuitState] *)
Inductive CircuitState : Type := Closed | Open | HalfOpen.

#[export] Instance circuit_state_eq_dec : EqDecision CircuitState.
Proof. solve_decision. Defined.

(** [godwit-api/src/circuit_breaker.rs:12-21] [CircuitBreaker] *)
Record CircuitBreaker : Type := {
  failures : Z;
  successes : Z;
  last_failure : option Z;
  cb_state : CircuitState;
  threshold : Z;
  timeout : Z;
  half_open_max : Z;
  half_open_requests : Z;
}.

(** [godwit-api/src/circuit_breaker.rs:23-35] [CircuitBreaker::new] *)
Definition breaker_new (threshold timeout half_open_max : Z) : CircuitBreaker :=
  {| failures := 0; successes := 0; last_failure := None; cb_state := Closed;
     threshold := threshold; timeout := timeout; half_open_max := half_open_max;
     half_open_requests := 0 |}.

Definition set_failures (x : Z) (b : CircuitBreaker) : CircuitBreaker :=
  {| failures := x; successes := successes b; last_failure := last_failure b;
     cb_state := cb_state b; threshold := threshold b; timeout := timeout b;
     half_open_max := half_open_max b; half_open_requests := half_open_requests b |}.
Definition set_successes (x : Z) (b : CircuitBreaker) : CircuitBreaker :=
  {| failures := failures b; successes := x; last_failure := last_failure b;
     cb_state := cb_state b; threshold := threshold b; timeout := timeout b;
     half_open_max := half_open_max b; half_open_requests := half_open_requests b |}.
Definition set_last_failure (x : option Z) (b : CircuitBreaker) : CircuitBreaker :=
  {| failures := failures b; successes := successes b; last_failure := x;
     cb_state := cb_state b; threshold := threshold b; timeout := timeout b;
     half_open_max := half_open_max b; half_open_requests := half_open_requests b |}.
Definition set_state (x : CircuitState) (b : CircuitBreaker) : CircuitBreaker :=
  {| failures := failures b; successes := successes b; last_failure := last_failure b;
     cb_state := x; threshold := threshold b; timeout := timeout b;
     half_open_max := half_open_max b; half_open_requests := half_open_requests b |}.
Definition set_half_open (x : Z) (b : CircuitBreaker) : CircuitBreaker :=
  {| failures := failures b; successes := successes b; last_failure := last_failure b;
     cb_state := cb_state b; threshold := threshold b; timeout := timeout b;
     half_open_max := half_open_max b; half_open_requests := x |}.

(** [last.elapsed()] at the instant [now]; [Instant] saturates at zero. *)
Definition elapsed (now last : Z) : Z := Z.max 0 (now - last).

(** [godwit-api/src/circuit_breaker.rs:96-109] [CircuitBreaker::state] *)
Definition breaker_state (now : Z) (b : CircuitBreaker) : CircuitState * CircuitBreaker :=
  match cb_state b with
  | Open =>
    match last_failure b with
    | Some last =>
      if timeout b <=? elapsed now last then (HalfOpen, set_state HalfOpen b) else (Open, b)
    | None => (Open, b)
    end
  | current => (current, b)
  end.

(** The clock is read in [state] and again in the [Open] branch.
    [godwit-api/src/circuit_breaker.rs:37-59] [CircuitBreaker::can_execute] *)
Definition can_execute (now now' : Z) (b : CircuitBreaker) : bool * CircuitBreaker :=
  let '(current, b) := breaker_state now b in
  match current with
  | Closed => (true, b)
  | Open =>
    match last_failure b with
    | Some last => (timeout b <=? elapsed now' last, b)
    | None => (true, b)
    end
  | HalfOpen =>
    let reserved := half_open_requests b in
    let b := set_half_open (as_usize (reserved + 1)) b in
    if reserved <? half_open_max b then (true, b)
    else (false, set_half_open (as_usize (half_open_requests b - 1)) b)
  end.

(** [godwit-api/src/circuit_breaker.rs:61-75] [CircuitBreaker::record_success] *)
Definition record_success (b : CircuitBreaker) : CircuitBreaker :=
  let b := set_successes (as_usize (successes b + 1)) b in
  match cb_state b with
  | HalfOpen => set_half_open 0 (set_failures 0 (set_state Closed b))
  | Closed => set_failures 0 b
  | Open => b
  end.

(** [godwit-api/src/circuit_breaker.rs:77-94] [CircuitBreaker::record_failure] *)
Definition record_failure (now : Z) (b : CircuitBreaker) : CircuitBreaker :=
  let b := set_failures (as_usize (failures b + 1)) b in
  let b := set_last_failure (Some now) b in
  match cb_state b with
  | Closed => if threshold b <=? failures b then set_state Open b else b
  | HalfOpen => set_half_open 0 (set_state Open b)
  | Open => b
  end.

(** ** The registry: one breaker per provider, created on first use *)

(** [godwit-api/src/circuit_breaker.rs:114-119] [CircuitBreakerRegistry] *)
Record CircuitBreakerRegistry : Type := {
  breakers : gmap string CircuitBreaker;
  r_threshold : Z;
  r_timeout : Z;
  r_half_open_max : Z;
}.

(** [godwit-api/src/circuit_breaker.rs:122-129] [CircuitBreakerRegistry::new] *)
Definition registry_new (threshold timeout half_open_max : Z) : CircuitBreakerRegistry :=
  {| breakers := ∅; r_threshold := threshold; r_timeout := timeout; r_half_open_max := half_open_max |}.

Definition set_breaker (k : string) (b : CircuitBreaker) (r : CircuitBreakerRegistry) : CircuitBreakerRegistry :=
  {| breakers := <[k := b]> (breakers r); r_threshold := r_threshold r;
     r_timeout := r_timeout r; r_half_open_max := r_half_open_max r |}.

(** [godwit-api/src/circuit_breaker.rs:131-142] [CircuitBreakerRegistry::get] *)
Definition registry_get (k : string) (r : CircuitBreakerRegistry) : CircuitBreaker * CircuitBreakerRegistry :=
  match breakers r !! k with
  | Some b => (b, r)
  | None =>
    let b := breaker_new (r_threshold r) (r_timeout r) (r_half_open_max r) in
    (b, set_breaker k b r)
  end.

(** The [Arc] handed out by [get] aliases the entry: a method on it updates the entry.
    [godwit-api/src/circuit_breaker.rs:144-147] [CircuitBreakerRegistry::record_success] *)
Definition registry_record_success (k : string) (r : CircuitBreakerRegistry) : CircuitBreakerRegistry :=
  let '(b, r) := registry_get k r in set_breaker k (record_success b) r.

(** [godwit-api/src/circuit_breaker.rs:149-152] [CircuitBreakerRegistry::record_failure] *)
Definition registry_record_failure (now : Z) (k : string) (r : CircuitBreakerRegistry) : CircuitBreakerRegistry :=
  let '(b, r) := registry_get k r in set_breaker k (record_failure now b) r.

(** [registry.get(provider).can_execute()], as the tests and callers write it. *)
Definition registry_can_execute (now now' : Z) (k : string) (r : CircuitBreakerRegistry)
  : bool * CircuitBreakerRegistry :=
  let '(b, r) := registry_get k r in
  let '(ok, b) := can_execute now now' b in (ok, set_breaker k b r).

(** Visits every entry, which may move it to half-open; [now k] is the clock reading made
    for the entry [k].
    [godwit-api/src/circuit_breaker.rs:154-159] [CircuitBreakerRegistry::all_states] *)
Definition all_states (now : string -> Z) (r : CircuitBreakerRegistry)
  : gmap string CircuitState * CircuitBreakerRegistry :=
  (map_imap (fun k b => Some (breaker_state (now k) b).1) (breakers r),
   {| breakers := map_imap (fun k b => Some (breaker_state (now k) b).2) (breakers r);
      r_threshold := r_threshold r; r_timeout := r_timeout r; r_half_open_max := r_half_open_max r |}).

(** [godwit-api/src/admin/circuit_breakers.rs:17-35] [list_circuit_breakers] *)
Definition list_circuit_breakers (now : string -> Z) (r : CircuitBreakerRegistry)
  : gmap string string * CircuitBreakerRegistry :=
  let '(states, r) := all_states now r in
  ((fun s => match s with
             | Closed => "closed"
             | Open => "open"
             | HalfOpen => "half_open"
             end%string) <$> states, r).

(** ** Invariant *)

(** A configuration the machine types can hold. *)
Definition cb_config_ok (b : CircuitBreaker) : Prop :=
  in_u 64 (threshold b) /\ in_u 64 (half_open_max b) /\ 0 <= timeout b.

(** [Closed] holds fewer failures than the threshold; once tripped the last failure is
    known; trial slots are only taken in half-open, and never more than allowed. *)
Record cb_wf (b : CircuitBreaker) : Prop := {
  wf_config : cb_config_ok b;
  wf_failures : in_u 64 (failures b);
  wf_successes : in_u 64 (successes b);
  wf_closed : cb_state b = Closed -> failures b < Z.max 1 (threshold b);
  wf_tripped : cb_state b <> Closed -> is_Some (last_failure b);
  wf_slots : 0 <= half_open_requests b <= half_open_max b;
  wf_slots_zero : cb_state b <> HalfOpen -> half_open_requests b = 0;
}.

Ltac cb_solve :=
  repeat match goal with H : cb_wf _ |- _ => destruct H end;
  repeat match goal with H : cb_config_ok _ |- _ => destruct H as (? & ? & ?) end;
  constructor; simpl in *; unfold cb_config_ok in *; simpl;
  rewrite ?wrap_u_small in * by (unfold in_u in *; simpl in *; lia);
  eauto with godwit; try (unfold in_u in *; simpl in *; (lia || naive_solver lia)).

Lemma breaker_new_wf th to hm :
  in_u 64 th -> in_u 64 hm -> 0 <= to -> cb_wf (breaker_new th to hm).
Proof. intros H1 H2 H3. constructor; simpl; unfold in_u in *; simpl in *; try done; lia. Qed.

Lemma breaker_state_wf now b : cb_wf b -> cb_wf (breaker_state now b).2.
Proof.
  intros W. unfold breaker_state. destruct (cb_state b) eqn:Es; [done| |done].
  destruct (last_failure b) eqn:El; [|done]. case_cmp; [|done]. simpl.
  destruct W. by constructor; simpl.
Qed.

Lemma breaker_state_fst now b : (breaker_state now b).1 = cb_state (breaker_state now b).2.
Proof.
  unfold breaker_state. destruct (cb_state b) eqn:Es; try done.
  destruct (last_failure b); [|done]. by case_cmp.
Qed.

Lemma can_execute_wf now now' b : cb_wf b -> cb_wf (can_execute now now' b).2.
Proof.
  intros W%(breaker_state_wf now). unfold can_execute.
  pose proof (breaker_state_fst now b) as Hf.
  destruct (breaker_state now b) as [cur b']. simpl in *. subst cur.
  destruct (cb_state b') eqn:Es; simpl; [done|by destruct (last_failure b')|].
  destruct W as [[? [? ?]] ? ? ? ? ? ?]. unfold in_u in *.
  case_cmp; simpl; constructor; simpl; unfold cb_config_ok, in_u; simpl; try done.
  - rewrite wrap_u_small; unfold in_u; lia.
  - rewrite wrap_u_succ_pred; unfold in_u; lia.
Qed.

Lemma record_success_wf b : cb_wf b -> cb_wf (record_success b).
Proof.
  intros [[? [? ?]] ? ? ? ? ? ?]. unfold record_success. simpl.
  pose proof (wrap_u_range 64 (successes b + 1)).
  destruct (cb_state b) eqn:Es; constructor; simpl; unfold cb_config_ok, in_u in *; simpl;
    rewrite ?Es in *; try done; lia || auto with lia.
Qed.

Lemma record_failure_wf now b : cb_wf b -> cb_wf (record_failure now b).
Proof.
  intros [[? [? ?]] ? ? Hc ? ? ?]. unfold record_failure. simpl.
  pose proof (wrap_u_range 64 (failures b + 1)).
  destruct (cb_state b) eqn:Es; simpl.
  - specialize (Hc eq_refl). unfold in_u in *. rewrite !wrap_u_small by (unfold in_u; lia).
    case_cmp; constructor; simpl; unfold cb_config_ok, in_u; simpl; rewrite ?Es;
      rewrite ?wrap_u_small by (unfold in_u; lia); try done; lia || auto with lia.
  - constructor; simpl; unfold cb_config_ok, in_u in *; simpl; rewrite ?Es; try done; auto with lia.
  - constructor; simpl; unfold cb_config_ok, in_u in *; simpl; try done; lia || auto with lia.
Qed.

#[export] Hint Resolve breaker_new_wf breaker_state_wf can_execute_wf record_success_wf
  record_failure_wf : godwit.

(** ** What a breaker promises: the abstract automaton

    Three modes: closed with the number of consecutive failures, open since the last
    failure, on trial with the number of trial slots taken.  The cumulative counters, the
    wrap-around and the stale failure count of a tripped breaker are gone. *)
Inductive amode : Type :=
| AClosed (consecutive : Z)
| AOpen (since : Z)
| ATrial (since taken : Z).

Record policy : Type := { p_threshold : Z; p_timeout : Z; p_slots : Z }.

Definition a_tick (p : policy) (now : Z) (m : amode) : amode :=
  match m with
  | AOpen since => if p_timeout p <=? elapsed now since then ATrial since 0 else m
  | _ => m
  end.

Definition a_can (p : policy) (now now' : Z) (m : amode) : bool * amode :=
  match a_tick p now m with
  | AClosed n => (true, AClosed n)
  | AOpen since => (p_timeout p <=? elapsed now' since, AOpen since)
  | ATrial since taken =>
    if taken <? p_slots p then (true, ATrial since (taken + 1)) else (false, ATrial since taken)
  end.

Definition a_success (m : amode) : amode :=
  match m with AClosed _ | ATrial _ _ => AClosed 0 | AOpen since => AOpen since end.

Definition a_failure (p : policy) (now : Z) (m : amode) : amode :=
  match m with
  | AClosed n => if p_threshold p <=? n + 1 then AOpen now else AClosed (n + 1)
  | AOpen _ | ATrial _ _ => AOpen now
  end.

Inductive bop : Type := OCan (now now' : Z) | OSuccess | OFailure (now : Z) | OState (now : Z).

(** A run of operations, with the answers of [can_execute] in order. *)
Fixpoint run (ops : list bop) (b : CircuitBreaker) : list bool * CircuitBreaker :=
  match ops with
  | [] => ([], b)
  | OCan now now' :: ops =>
    let '(ok, b) := can_execute now now' b in let '(oks, b) := run ops b in (ok :: oks, b)
  | OSuccess :: ops => run ops (record_success b)
  | OFailure now :: ops => run ops (record_failure now b)
  | OState now :: ops => run ops (breaker_state now b).2
  end.

Fixpoint a_run (p : policy) (ops : list bop) (m : amode) : list bool * amode :=
  match ops with
  | [] => ([], m)
  | OCan now now' :: ops =>
    let '(ok, m) := a_can p now now' m in let '(oks, m) := a_run p ops m in (ok :: oks, m)
  | OSuccess :: ops => a_run p ops (a_success m)
  | OFailure now :: ops => a_run p ops (a_failure p now m)
  | OState now :: ops => a_run p ops (a_tick p now m)
  end.

Definition policy_of (b : CircuitBreaker) : policy :=
  {| p_threshold := threshold b; p_timeout := timeout b; p_slots := half_open_max b |}.

Definition mode_of (b : CircuitBreaker) : amode :=
  match cb_state b with
  | Closed => AClosed (failures b)
  | Open => AOpen (default 0 (last_failure b))
  | HalfOpen => ATrial (default 0 (last_failure b)) (half_open_requests b)
  end.

Lemma tick_refines now b :
  cb_wf b ->
  mode_of (breaker_state now b).2 = a_tick (policy_of b) now (mode_of b) /\
  policy_of (breaker_state now b).2 = policy_of b.
Proof.
  intros W. unfold breaker_state, mode_of. destruct (cb_state b) eqn:Es; simpl; rewrite ?Es; try done.
  destruct (wf_tripped _ W) as [t Ht]; [congruence|]. rewrite Ht. simpl.
  case_cmp; simpl; rewrite ?Es, ?Ht; [|done].
  rewrite (wf_slots_zero _ W); [done|congruence].
Qed.

Lemma can_refines now now' b :
  cb_wf b ->
  (can_execute now now' b).1 = (a_can (policy_of b) now now' (mode_of b)).1 /\
  mode_of (can_execute now now' b).2 = (a_can (policy_of b) now now' (mode_of b)).2 /\
  policy_of (can_execute now now' b).2 = policy_of b.
Proof.
  intros W. destruct (tick_refines now b W) as [Ht Hp].
  pose proof (breaker_state_wf now b W) as W'. pose proof (breaker_state_fst now b) as Hf.
  unfold a_can, can_execute. rewrite <- Ht, <- Hp.
  destruct (breaker_state now b) as [cur b']. simpl in *. subst cur. clear Ht Hp W b.
  unfold mode_of. destruct (cb_state b') eqn:Es; simpl; rewrite ?Es; [done| |].
  - destruct (wf_tripped _ W') as [t Et]; [congruence|]. rewrite Et. simpl. by rewrite Es, Et.
  - destruct W' as [[? [? ?]] ? ? ? ? ? ?]. unfold in_u in *.
    case_cmp; simpl; rewrite ?Es.
    + rewrite wrap_u_small by (unfold in_u; lia). done.
    + rewrite wrap_u_succ_pred by (unfold in_u; lia). done.
Qed.

Lemma success_refines b :
  cb_wf b -> mode_of (record_success b) = a_success (mode_of b) /\
             policy_of (record_success b) = policy_of b.
Proof.
  intros W. unfold record_success, mode_of. simpl.
  destruct (cb_state b) eqn:Es; simpl; rewrite ?Es; done.
Qed.

Lemma failure_refines now b :
  cb_wf b -> mode_of (record_failure now b) = a_failure (policy_of b) now (mode_of b) /\
             policy_of (record_failure now b) = policy_of b.
Proof.
  intros W. unfold record_failure, mode_of. simpl.
  destruct (cb_state b) eqn:Es; simpl; rewrite ?Es; try done.
  destruct W as [[? [? ?]] ? ? Hc ? ? ?]. specialize (Hc Es). unfold in_u in *.
  rewrite wrap_u_small by (unfold in_u; lia). case_cmp; simpl; rewrite ?Es; done.
Qed.

(** The refinement along a whole run. *)
Lemma run_refines_lemma ops b :
  cb_wf b ->
  (run ops b).1 = (a_run (policy_of b) ops (mode_of b)).1 /\
  mode_of (run ops b).2 = (a_run (policy_of b) ops (mode_of b)).2 /\
  cb_wf (run ops b).2 /\ policy_of (run ops b).2 = policy_of b.
Proof.
  revert b. induction ops as [|[now now'| |now|now] ops IH]; intros b W; simpl; [done|..].
  - destruct (can_refines now now' b W) as (H1 & H2 & H3). apply (can_execute_wf now now') in W.
    destruct (can_execute now now' b) as [ok b'], (a_can _ _ _ _) as [ok' m]. simpl in *. subst.
    destruct (IH b' W) as (I1 & I2 & I3 & I4). rewrite H3 in *.
    destruct (run ops b'), (a_run _ _ _). simpl in *. by subst.
  - destruct (success_refines b W) as [<- H]. rewrite <- H. auto with godwit.
  - destruct (failure_refines now b W) as [<- H]. rewrite <- H. auto with godwit.
  - destruct (tick_refines now b W) as [<- H]. rewrite <- H. auto with godwit.
Qed.

(** ** Theorems about one breaker *)

(** C12: a circuit breaker created with any representable configuration behaves, along every
    sequence of calls and clock readings, exactly like the abstract automaton: the answers of
    [can_execute] agree and the final breaker abstracts to the automaton's mode. *)
Theorem breaker_refines_automaton th to hm ops :
  in_u 64 th -> in_u 64 hm -> 0 <= to ->
  let p := {| p_threshold := th; p_timeout := to; p_slots := hm |} in
  (run ops (breaker_new th to hm)).1 = (a_run p ops (AClosed 0)).1 /\
  mode_of (run ops (breaker_new th to hm)).2 = (a_run p ops (AClosed 0)).2 /\
  cb_wf (run ops (breaker_new th to hm)).2.
Proof.
  intros H1 H2 H3 p.
  destruct (run_refines_lemma ops (breaker_new th to hm)) as (? & ? & ? & ?); auto with godwit.
Qed.

Lemma breaker_refines_automaton_witness :
  let b := (run [OFailure 0; OFailure 5; OCan 7 7; OCan 20 20; OSuccess; OCan 21 21]
                (breaker_new 2 10 1)) in
  b.1 = [false; true; true] /\ mode_of b.2 = AClosed 0.
Proof.
  destruct (breaker_refines_automaton 2 10 1
    [OFailure 0; OFailure 5; OCan 7 7; OCan 20 20; OSuccess; OCan 21 21]) as (H1 & H2 & _);
    [unfold in_u; lia..|]. intros b. subst b. split; [exact H1 | exact H2].
Defined.

Definition failures_run (ts : list Z) : list bop := OFailure <$> ts.

Lemma a_failures_open p ts t : snd (a_run p (failures_run ts) (AOpen t)) = AOpen (default t (last ts)).
Proof.
  revert t. induction ts as [|u ts IH]; intros t; simpl; [done|]. unfold failures_run in IH. rewrite IH.
  rewrite last_cons. by destruct (last ts).
Qed.

Lemma a_failures_closed p ts n :
  snd (a_run p (failures_run ts) (AClosed n)) =
  if bool_decide (ts <> []) && (p_threshold p <=? n + Z.of_nat (length ts))
  then AOpen (default 0 (last ts)) else AClosed (n + Z.of_nat (length ts)).
Proof.
  revert n. induction ts as [|t ts IH]; intros n; [simpl; f_equal; lia|].
  rewrite bool_decide_true by done. simpl length. rewrite Nat2Z.inj_succ.
  change (snd (a_run p (failures_run (t :: ts)) (AClosed n)))
    with (snd (a_run p (failures_run ts) (a_failure p t (AClosed n)))).
  simpl a_failure. destruct (Z.leb_spec (p_threshold p) (n + 1)).
  - rewrite a_failures_open, last_cons.
    rewrite (proj2 (Z.leb_le _ _)) by lia. simpl. by destruct (last ts).
  - rewrite IH. replace (n + 1 + Z.of_nat (length ts)) with (n + Z.succ (Z.of_nat (length ts))) by lia.
    destruct ts as [|u ts]; simpl.
    + rewrite (proj2 (Z.leb_gt _ _)) by (simpl in *; lia). done.
    + done.
Qed.

(** A closed breaker opens on exactly the failure that brings the number of consecutive
    failures to the threshold, and the window then runs from the last failure. *)
Theorem breaker_opens_at_threshold b ts :
  cb_wf b -> cb_state b = Closed -> ts <> [] ->
  let b' := (run (failures_run ts) b).2 in
  if threshold b <=? failures b + Z.of_nat (length ts)
  then cb_state b' = Open /\ last_failure b' = last ts
  else cb_state b' = Closed /\ failures b' = failures b + Z.of_nat (length ts).
Proof.
  intros W Hc Hne b'. destruct (run_refines_lemma (failures_run ts) b W) as (_ & Hm & W' & _).
  fold b' in Hm, W'. unfold mode_of in Hm at 2. rewrite Hc, a_failures_closed in Hm.
  rewrite bool_decide_true in Hm by done. simpl in Hm. unfold mode_of in Hm.
  destruct (last_is_Some ts) as [_ [x Hx]]; [done|]. rewrite Hx in *.
  destruct (cb_state b') eqn:Es; case_cmp; simpl in Hm; simplify_eq; auto.
  destruct (wf_tripped _ W') as [y Hy]; [congruence|]. rewrite Hy in *. simpl in *. by subst.
Qed.

Lemma breaker_opens_at_threshold_witness :
  cb_state (run (failures_run [1; 2; 3]) (breaker_new 3 10 1)).2 = Open /\
  cb_state (run (failures_run [1; 2]) (breaker_new 3 10 1)).2 = Closed.
Proof.
  assert (cb_wf (breaker_new 3 10 1)) as W by (apply breaker_new_wf; unfold in_u; lia).
  split.
  - apply (breaker_opens_at_threshold (breaker_new 3 10 1) [1; 2; 3] W); done.
  - apply (breaker_opens_at_threshold (breaker_new 3 10 1) [1; 2] W); done.
Defined.

(** The clock readings an operation makes. *)
Definition readings (o : bop) : list Z :=
  match o with OCan a c => [a; c] | OSuccess => [] | OFailure a | OState a => [a] end.

Lemma a_open_window p ops t0 since :
  t0 <= since < t0 + p_timeout p ->
  Forall (fun o => Forall (fun t => t0 <= t < t0 + p_timeout p) (readings o)) ops ->
  Forall (fun ok => ok = false) (a_run p ops (AOpen since)).1.
Proof.
  intros Hs Hf. revert since Hs. induction Hf as [|o ops Ho Hops IH]; intros since Hs; [constructor|].
  assert (forall t, t0 <= t < t0 + p_timeout p -> (p_timeout p <=? elapsed t since) = false) as He.
  { intros t Ht. unfold elapsed. lia. }
  destruct o as [a c| |a|a]; simpl in *; rewrite ?Forall_cons_iff in Ho.
  - destruct Ho as (Ha & Hc & _). unfold a_can, a_tick. rewrite (He a Ha), (He c Hc).
    specialize (IH since Hs). destruct (a_run p ops (AOpen since)). simpl in *. by constructor.
  - by apply IH.
  - apply IH. lia.
  - rewrite (He a) by lia. by apply IH.
Qed.

(** An open breaker admits nothing while its window lasts: whatever calls are made,
    successes of late requests included, every [can_execute] within [timeout] of the failure
    that opened it answers no. *)
Theorem open_breaker_rejects b t0 ops :
  cb_wf b -> cb_state b = Open -> last_failure b = Some t0 -> 0 < timeout b ->
  Forall (fun o => Forall (fun t => t0 <= t < t0 + timeout b) (readings o)) ops ->
  Forall (fun ok => ok = false) (run ops b).1.
Proof.
  intros W Ho Hl Ht Hf. destruct (run_refines_lemma ops b W) as (-> & _).
  unfold mode_of. rewrite Ho, Hl. apply (a_open_window _ _ t0); simpl; [lia | done].
Qed.

Lemma open_breaker_rejects_witness :
  (run [OSuccess; OCan 5 5; OFailure 7; OCan 9 9] (record_failure 0 (breaker_new 1 10 1))).1
  = [false; false].
Proof.
  assert (Forall (fun ok => ok = false)
    (run [OSuccess; OCan 5 5; OFailure 7; OCan 9 9] (record_failure 0 (breaker_new 1 10 1))).1) as H.
  { apply (open_breaker_rejects _ 0); [|done|done|done|].
    - apply record_failure_wf, breaker_new_wf; unfold in_u; lia.
    - repeat constructor; simpl; lia. }
  inversion H as [|? ? ? H']. inversion H'. subst. reflexivity.
Defined.

(** The number of callers let through. *)
Definition admitted (oks : list bool) : nat := length (filterb (fun ok => ok) oks).

Lemma a_trial_slots p now n since taken :
  0 <= taken <= p_slots p ->
  admitted (a_run p (replicate n (OCan now now)) (ATrial since taken)).1
  = Nat.min n (Z.to_nat (p_slots p - taken)).
Proof.
  revert taken. induction n as [|n IH]; intros taken H; [done|]. cbn [replicate a_run]. unfold a_can, a_tick.
  case_cmp.
  - specialize (IH (taken + 1) ltac:(lia)). destruct (a_run _ _ _) as [oks m].
    unfold admitted in *. cbn [fst filterb length] in *. lia.
  - specialize (IH taken H). destruct (a_run _ _ _) as [oks m].
    unfold admitted in *. cbn [fst filterb length] in *. lia.
Qed.

(** Once the window has elapsed the breaker goes on trial, and of any number of callers
    asking before an outcome is recorded exactly [half_open_max] are admitted. *)
Theorem trial_admits_exactly b t0 now n :
  cb_wf b -> cb_state b = Open -> last_failure b = Some t0 -> timeout b <= now - t0 ->
  admitted (run (replicate n (OCan now now)) b).1 = Nat.min n (Z.to_nat (half_open_max b)).
Proof.
  intros W Ho Hl Ht. destruct (run_refines_lemma (replicate n (OCan now now)) b W) as (-> & _).
  pose proof (wf_config _ W) as (_ & Hs & _). unfold in_u in Hs.
  unfold mode_of. rewrite Ho, Hl.
  pose proof (a_trial_slots (policy_of b) now n t0 0 ltac:(simpl; lia)) as H.
  simpl p_slots in H. rewrite Z.sub_0_r in H. rewrite <- H.
  destruct n as [|n]; [done|]. simpl. unfold a_can, a_tick. simpl.
  rewrite (proj2 (Z.leb_le (timeout b) (elapsed now t0))) by (unfold elapsed; lia). done.
Qed.

Lemma trial_admits_exactly_witness :
  admitted (run (replicate 5 (OCan 10 10)) (record_failure 0 (breaker_new 1 10 2))).1 = 2%nat.
Proof.
  refine (trial_admits_exactly (record_failure 0 (breaker_new 1 10 2)) 0 10 5 _ eq_refl eq_refl _); [|simpl; lia].
  apply record_failure_wf, breaker_new_wf; unfold in_u; lia.
Defined.

(** ** Theorems about the registry *)

Inductive rop : Type := ROp (provider : string) (o : bop).

Definition registry_step (o : rop) (r : CircuitBreakerRegistry) : CircuitBreakerRegistry :=
  match o with
  | ROp k (OCan now now') => (registry_can_execute now now' k r).2
  | ROp k OSuccess => registry_record_success k r
  | ROp k (OFailure now) => registry_record_failure now k r
  | ROp k (OState now) => let '(b, r) := registry_get k r in set_breaker k (breaker_state now b).2 r
  end.

Definition registry_run (ops : list rop) (r : CircuitBreakerRegistry) : CircuitBreakerRegistry :=
  fold_left (fun r o => registry_step o r) ops r.

(** The operations of one provider, in order. *)
Definition ops_of (k : string) (ops : list rop) : list bop :=
  filter_map (fun '(ROp k' o) => if decide (k' = k) then Some o else None) ops.

Definition fresh_of (r : CircuitBreakerRegistry) : CircuitBreaker :=
  breaker_new (r_threshold r) (r_timeout r) (r_half_open_max r).

(** The breaker a provider has or would be given. *)
Definition breaker_of (k : string) (r : CircuitBreakerRegistry) : CircuitBreaker :=
  default (fresh_of r) (breakers r !! k).

Lemma registry_get_spec k r :
  let '(b, r') := registry_get k r in
  b = breaker_of k r /\ fresh_of r' = fresh_of r /\ forall k', breaker_of k' r' = breaker_of k' r.
Proof.
  unfold registry_get, breaker_of. destruct (breakers r !! k) eqn:Eb; simpl; [done|].
  repeat split. intros k'. destruct (decide (k = k')) as [->|N].
  - by rewrite lookup_insert_eq, Eb.
  - by rewrite lookup_insert_ne.
Qed.

Lemma set_breaker_spec k b r k' :
  breaker_of k' (set_breaker k b r) = if decide (k = k') then b else breaker_of k' r.
Proof.
  unfold breaker_of, set_breaker. simpl. case_decide as E.
  - subst. by rewrite lookup_insert_eq.
  - by rewrite lookup_insert_ne.
Qed.

Definition bstep (o : bop) (b : CircuitBreaker) : CircuitBreaker := (run [o] b).2.

Lemma run_cons_state o ops b : (run (o :: ops) b).2 = (run ops (bstep o b)).2.
Proof.
  destruct o; unfold bstep; simpl; try done.
  destruct (can_execute now now' b) as [ok b']. simpl. by destruct (run ops b').
Qed.

Lemma registry_step_spec k o r k' :
  breaker_of k' (registry_step (ROp k o) r) =
  (if decide (k = k') then bstep o (breaker_of k' r) else breaker_of k' r) /\
  fresh_of (registry_step (ROp k o) r) = fresh_of r.
Proof.
  pose proof (registry_get_spec k r) as Hg.
  destruct o as [now now'| |now|now]; simpl;
    unfold registry_can_execute, registry_record_success, registry_record_failure, bstep; simpl;
    destruct (registry_get k r) as [b r']; destruct Hg as (-> & Hf & Hk).
  1: destruct (can_execute now now' (breaker_of k r)) as [ok b'] eqn:Ec; simpl.
  all: rewrite set_breaker_spec; split; [|by rewrite <- Hf];
    case_decide; subst; [|done]; rewrite ?Ec; done.
Qed.

(** Breakers are per provider and created on demand: after any interleaving of calls for
    any providers, the breaker of a provider is the one its own calls alone produce from a
    fresh breaker. *)
Theorem registry_isolation th to hm ops k :
  breaker_of k (registry_run ops (registry_new th to hm)) =
  (run (ops_of k ops) (breaker_new th to hm)).2.
Proof.
  assert (forall r, breaker_of k (registry_run ops r) = (run (ops_of k ops) (breaker_of k r)).2) as H.
  { induction ops as [|[k' o] ops IH]; intros r; [done|].
    change (registry_run (ROp k' o :: ops) r) with (registry_run ops (registry_step (ROp k' o) r)).
    rewrite IH, (proj1 (registry_step_spec k' o r k)). unfold ops_of. simpl.
    case_decide; [|done]. by rewrite run_cons_state. }
  rewrite H. done.
Qed.

(** ** Threads

    The methods cut at their accesses to shared memory.  [state] is read and written under
    its lock; [half_open_requests], [failures] and [successes] are atomics accessed without
    it, and [last_failure] has a lock of its own, held for one access at a time.  A program
    counter says which access a thread makes next. *)

(** [godwit-api/src/circuit_breaker.rs:37-94] [can_execute, record_success, record_failure] *)
Inductive pc : Type :=
| CanState | CanOpen | CanReserve | CanRelease | CanDone (ok : bool)
| SuccCount | SuccLock | SuccHalfFailures | SuccHalfRequests | SuccClosedFailures
| FailCount | FailTime | FailLock | FailLoad | FailHalfRequests
| Done.

Record config : Type := { shared : CircuitBreaker; lock : option nat; threads : list pc }.

(** One access of thread [i] at instant [now]; [None] when it is blocked or has returned.
    [godwit-api/src/circuit_breaker.rs:37-94] [can_execute, record_success, record_failure] *)
Definition thread_step (i : nat) (now : Z) (p : pc) (lk : option nat) (b : CircuitBreaker)
  : option (pc * option nat * CircuitBreaker) :=
  match p with
  | CanState =>
    match lk with
    | Some _ => None
    | None =>
      let '(current, b) := breaker_state now b in
      Some (match current with
            | Closed => CanDone true | Open => CanOpen | HalfOpen => CanReserve
            end, None, b)
    end
  | CanOpen =>
    Some (CanDone (match last_failure b with
                   | Some last => timeout b <=? elapsed now last
                   | None => true
                   end), lk, b)
  | CanReserve =>
    let reserved := half_open_requests b in
    Some (if reserved <? half_open_max b then CanDone true else CanRelease,
          lk, set_half_open (as_usize (reserved + 1)) b)
  | CanRelease =>
    Some (CanDone false, lk, set_half_open (as_usize (half_open_requests b - 1)) b)
  | CanDone _ | Done => None
  | SuccCount => Some (SuccLock, lk, set_successes (as_usize (successes b + 1)) b)
  | SuccLock =>
    match lk with
    | Some _ => None
    | None =>
      match cb_state b with
      | HalfOpen => Some (SuccHalfFailures, Some i, set_state Closed b)
      | Closed => Some (SuccClosedFailures, Some i, b)
      | Open => Some (Done, None, b)
      end
    end
  | SuccHalfFailures => Some (SuccHalfRequests, lk, set_failures 0 b)
  | SuccHalfRequests => Some (Done, None, set_half_open 0 b)
  | SuccClosedFailures => Some (Done, None, set_failures 0 b)
  | FailCount => Some (FailTime, lk, set_failures (as_usize (failures b + 1)) b)
  | FailTime => Some (FailLock, lk, set_last_failure (Some now) b)
  | FailLock =>
    match lk with
    | Some _ => None
    | None =>
      match cb_state b with
      | Closed => Some (FailLoad, Some i, b)
      | HalfOpen => Some (FailHalfRequests, Some i, set_state Open b)
      | Open => Some (Done, None, b)
      end
    end
  | FailLoad =>
    Some (Done, None, if threshold b <=? failures b then set_state Open b else b)
  | FailHalfRequests => Some (Done, None, set_half_open 0 b)
  end.

Definition step_thread (i : nat) (now : Z) (c : config) : option config :=
  match threads c !! i with
  | Some p =>
    match thread_step i now p (lock c) (shared c) with
    | Some (p', lk, b) => Some {| shared := b; lock := lk; threads := <[i := p']> (threads c) |}
    | None => None
    end
  | None => None
  end.

Inductive cstep : config -> config -> Prop :=
| cstep_thread i now c c' : step_thread i now c = Some c' -> cstep c c'.

Inductive creach (c0 : config) : config -> Prop :=
| creach_refl : creach c0 c0
| creach_step c c' : creach c0 c -> cstep c c' -> creach c0 c'.

(** A schedule, as the list of threads that move and when. *)
Fixpoint schedule (l : list (nat * Z)) (c : config) : option config :=
  match l with
  | [] => Some c
  | (i, now) :: l => match step_thread i now c with Some c' => schedule l c' | None => None end
  end.

Lemma schedule_reach l c0 c c' : creach c0 c -> schedule l c = Some c' -> creach c0 c'.
Proof.
  revert c. induction l as [|[i now] l IH]; simpl; intros c Hr Hs; simplify_eq; [done|].
  destruct (step_thread i now c) as [c1|] eqn:E; [|done].
  apply (IH c1); [|done]. econstructor; [done|]. by econstructor.
Qed.

(** The entry points of the three methods. *)
Definition entry (p : pc) : bool :=
  match p with CanState | SuccCount | FailCount => true | _ => false end.

Definition start (th to hm : Z) (ps : list pc) : config :=
  {| shared := breaker_new th to hm; lock := None; threads := ps |}.

(** A single thread runs a whole method with the clock readings [now] and [now']. *)
Definition solo (p : pc) (now now' : Z) (b : CircuitBreaker) : option (pc * CircuitBreaker) :=
  (fix go (fuel : nat) (first : bool) (p : pc) (lk : option nat) (b : CircuitBreaker) :=
     match thread_step 0 (if first then now else now') p lk b with
     | None => match p with CanDone _ | Done => Some (p, b) | _ => None end
     | Some (p', lk', b') => match fuel with O => None | S n => go n false p' lk' b' end
     end) 5%nat true p None b.

(** The atomic-access model and the method-level model agree: a thread that runs alone
    returns what the method returns and leaves the breaker the method leaves. *)
Theorem solo_runs_are_the_methods now now' b :
  solo CanState now now' b =
    Some (CanDone (can_execute now now' b).1, (can_execute now now' b).2) /\
  solo SuccCount now now' b = Some (Done, record_success b) /\
  solo FailCount now now' b = Some (Done, record_failure now' b).
Proof.
  repeat split; unfold solo, can_execute, record_success, record_failure; simpl.
  - destruct (breaker_state now b) as [[] b']; simpl; [done|by destruct (last_failure b')|].
    by destruct (half_open_requests b' <? half_open_max b').
  - by destruct (cb_state b).
  - by destruct (cb_state b).
Qed.

(** The lock protects [state]: a thread between acquiring and releasing it. *)
Definition in_critical (p : pc) : bool :=
  match p with
  | SuccHalfFailures | SuccHalfRequests | SuccClosedFailures | FailLoad | FailHalfRequests => true
  | _ => false
  end.

(** A failing thread that has already written its time. *)
Definition after_time (p : pc) : bool :=
  match p with FailLock | FailLoad | FailHalfRequests => true | _ => false end.

Record cinv (c : config) : Prop := {
  ci_lock : forall i p, threads c !! i = Some p -> in_critical p = true -> lock c = Some i;
  ci_load : forall i, threads c !! i = Some FailLoad -> cb_state (shared c) = Closed;
  ci_time : forall i p, threads c !! i = Some p -> after_time p = true -> is_Some (last_failure (shared c));
  ci_tripped : cb_state (shared c) <> Closed -> is_Some (last_failure (shared c));
}.

Lemma cinv_start th to hm ps : forallb entry ps = true -> cinv (start th to hm ps).
Proof.
  intros H. assert (forall i p, ps !! i = Some p -> entry p = true) as He.
  { intros i p Hp. rewrite forallb_forall in H. apply H, list_elem_of_In. by eapply list_elem_of_lookup_2. }
  constructor; simpl; [intros i p Hp Hc|done|intros i p Hp Hc|done];
    apply He in Hp; by destruct p.
Qed.

(** What one access may do to the shared state, for a thread that satisfies the invariant. *)
Lemma thread_step_effect i now p lk b p' lk' b' :
  thread_step i now p lk b = Some (p', lk', b') ->
  (in_critical p = true -> lk = Some i) ->
  (p = FailLoad -> cb_state b = Closed) ->
  (after_time p = true -> is_Some (last_failure b)) ->
  (cb_state b <> Closed -> is_Some (last_failure b)) ->
  (in_critical p' = true -> lk' = Some i) /\
  (p' = FailLoad -> cb_state b' = Closed) /\
  (after_time p' = true -> is_Some (last_failure b')) /\
  (cb_state b' <> Closed -> is_Some (last_failure b')) /\
  (is_Some (last_failure b) -> is_Some (last_failure b')) /\
  (lk = Some i \/ lk = None \/ (lk' = lk /\ cb_state b' = cb_state b)).
Proof.
  intros Hs H1 H2 H3 H4.
  destruct p; simpl in Hs; try discriminate Hs;
    try (unfold breaker_state in Hs; destruct lk; [discriminate Hs|];
         destruct (cb_state b) eqn:Es; [| |]; try (destruct (last_failure b) eqn:El));
    repeat match type of Hs with context [if ?x then _ else _] => destruct x end;
    injection Hs as <- <- <-; simpl in *; rewrite ?Es, ?El in *;
    repeat split; intros; try discriminate; eauto; try congruence.
Qed.

Lemma insert_cases {A} (l : list A) i j x y :
  <[i := x]> l !! j = Some y -> (i = j /\ x = y) \/ (i <> j /\ l !! j = Some y).
Proof.
  destruct (decide (i = j)) as [->|N].
  - intros H. apply list_lookup_insert_Some in H as [(_ & -> & _)|[? _]]; [by left | done].
  - rewrite list_lookup_insert_ne by done. by right.
Qed.

Lemma cinv_step c c' : cinv c -> cstep c c' -> cinv c'.
Proof.
  intros Hinv Hc. destruct Hc as [i now c c' Hst]. destruct Hinv as [Hl Hf Ht Hs].
  unfold step_thread in Hst. destruct (threads c !! i) as [p|] eqn:Ep; [|done].
  destruct (thread_step i now p (lock c) (shared c)) as [[[p' lk'] b']|] eqn:E; [|done].
  simplify_eq.
  destruct (thread_step_effect _ _ _ _ _ _ _ _ E (Hl i p Ep)) as (E1 & E2 & E3 & E4 & E5 & E6);
    [intros ->; eauto|eauto..|].
  constructor; simpl.
  - intros j q Hj Hc. apply insert_cases in Hj as [[<- <-]|[N Hj]]; [auto|].
    pose proof (Hl _ _ Hj Hc) as Hlk. rewrite Hlk in E6.
    destruct E6 as [?|[?|[-> _]]]; congruence.
  - intros j Hj. apply insert_cases in Hj as [[_ Hp]|[N Hj]]; [auto|].
    pose proof (Hl _ _ Hj eq_refl) as Hlk. rewrite Hlk in E6.
    destruct E6 as [?|[?|[_ ->]]]; [congruence..|eauto].
  - intros j q Hj Hc. apply insert_cases in Hj as [[<- <-]|[N Hj]]; [auto|]. eauto.
  - auto.
Qed.

Lemma cinv_reach c0 c : cinv c0 -> creach c0 c -> cinv c.
Proof. induction 2; eauto using cinv_step. Qed.

(** The edges of the documented state machine. *)
Definition allowed (s s' : CircuitState) : Prop :=
  s = s' \/ (s, s') ∈ [(Closed, Open); (Open, HalfOpen); (HalfOpen, Closed); (HalfOpen, Open)].

Lemma thread_step_edge i now p lk b p' lk' b' :
  thread_step i now p lk b = Some (p', lk', b') ->
  (p = FailLoad -> cb_state b = Closed) -> allowed (cb_state b) (cb_state b').
Proof.
  intros Hs Hload. unfold allowed. rewrite !elem_of_cons.
  destruct p; simpl in Hs; try discriminate Hs;
    try (unfold breaker_state in Hs; destruct lk; [discriminate Hs|];
         destruct (cb_state b) eqn:Es; [| |]; try (destruct (last_failure b) eqn:El));
    repeat match type of Hs with context [if ?x then _ else _] => destruct x end;
    injection Hs as <- <- <-; simpl; rewrite ?Es; auto 8.
  rewrite Hload by done. auto.
Qed.

(** C38: under every interleaving of any number of threads calling the three methods, the
    shared state only moves along the edges closed-open, open-half-open, half-open-closed and
    half-open-open, at most one thread is inside the lock, and a tripped breaker always knows
    its last failure (so the branch of [can_execute] without one is dead). *)
Theorem interleavings_respect_the_state_machine th to hm ps c c' :
  forallb entry ps = true -> creach (start th to hm ps) c -> cstep c c' ->
  allowed (cb_state (shared c)) (cb_state (shared c')) /\
  (forall i j p q, threads c !! i = Some p -> threads c !! j = Some q ->
     in_critical p = true -> in_critical q = true -> i = j) /\
  (cb_state (shared c') <> Closed -> is_Some (last_failure (shared c'))).
Proof.
  intros He Hr Hst. assert (cinv c) as Hi by (eapply cinv_reach; eauto using cinv_start).
  pose proof (cinv_step _ _ Hi Hst) as Hi'. repeat split.
  - destruct Hst as [i now c c' Hst]. unfold step_thread in Hst.
    destruct (threads c !! i) as [p|] eqn:Ep; [|done].
    destruct (thread_step i now p (lock c) (shared c)) as [[[p' lk'] b']|] eqn:E; [|done].
    simplify_eq. simpl. eapply thread_step_edge; [done|]. intros ->. by eapply ci_load.
  - intros i j p q Hp Hq Hc Hd.
    pose proof (ci_lock _ Hi _ _ Hp Hc). pose proof (ci_lock _ Hi _ _ Hq Hd). congruence.
  - apply (ci_tripped _ Hi').
Qed.

Lemma interleavings_respect_the_state_machine_witness :
  exists c c', creach (start 1 10 1 [FailCount; CanState]) c /\ cstep c c' /\
    allowed (cb_state (shared c)) (cb_state (shared c')) /\ cb_state (shared c') = Open.
Proof.
  set (c0 := start 1 10 1 [FailCount; CanState]).
  destruct (schedule [(0%nat, 0); (0%nat, 0); (0%nat, 0)] c0) as [c|] eqn:E; [|discriminate E].
  destruct (step_thread 0 0 c) as [c'|] eqn:E'.
  - exists c, c'. assert (creach c0 c) as Hr by (eapply schedule_reach; [constructor | exact E]).
    assert (cstep c c') as Hs by (econstructor; exact E').
    split; [exact Hr|]. split; [exact Hs|]. split.
    + exact (proj1 (interleavings_respect_the_state_machine 1 10 1 [FailCount; CanState] c c' eq_refl Hr Hs)).
    + vm_compute in E. injection E as <-. vm_compute in E'. injection E' as <-. reflexivity.
  - vm_compute in E. injection E as <-. discriminate E'.
Defined.

(** ** The lost trial slot *)

(** A breaker on trial whose slot counter has wrapped below zero. *)
Lemma underflow_rejects now now' b :
  in_u 64 (half_open_max b) -> cb_state b = HalfOpen -> half_open_requests b = 2 ^ 64 - 1 ->
  can_execute now now' b = (false, b).
Proof.
  intros Hm Hs Hr. unfold can_execute, breaker_state. rewrite Hs. simpl. rewrite Hr.
  unfold in_u in Hm. rewrite (proj2 (Z.ltb_ge _ _)) by lia. f_equal.
  destruct b; simpl in *. subst. done.
Qed.

Definition asks (o : bop) : bool := match o with OCan _ _ | OState _ => true | _ => false end.

Lemma underflow_sticks ops b :
  in_u 64 (half_open_max b) -> cb_state b = HalfOpen -> half_open_requests b = 2 ^ 64 - 1 ->
  forallb asks ops = true -> Forall (fun ok => ok = false) (run ops b).1 /\ (run ops b).2 = b.
Proof.
  intros Hm Hs Hr. induction ops as [|[now now'| |now|now] ops IH]; simpl; intros Ha; try done.
  - rewrite underflow_rejects by done. destruct (IH Ha) as [H1 H2].
    destruct (run ops b). simpl in *. auto.
  - unfold breaker_state. rewrite Hs. auto.
Qed.

(** Four concurrent calls (one failure, two callers on trial, one success) can finish
    with the breaker closed and its trial counter at [usize::MAX]: the rejected caller's
    [fetch_sub] lands after the success has stored zero.  From then on the first failure is
    fatal: once the window has elapsed, no call is ever admitted again, however long one
    waits, because each caller's [fetch_add] returns [usize::MAX]. *)
Theorem lost_slot_disables_breaker :
  exists c, creach (start 1 10 1 [FailCount; CanState; CanState; SuccCount]) c /\
    Forall (fun p => p = Done \/ exists ok, p = CanDone ok) (threads c) /\ lock c = None /\
    cb_state (shared c) = Closed /\ half_open_requests (shared c) = 2 ^ 64 - 1 /\
    forall ops, forallb asks ops = true ->
      Forall (fun ok => ok = false)
        (run ops (breaker_state 110 (record_failure 100 (shared c))).2).1.
Proof.
  set (c0 := start _ _ _ _).
  set (sched := [(0, 0); (0, 0); (0, 0); (0, 0); (1, 10); (1, 10); (2, 10); (2, 10);
                 (3, 11); (3, 11); (3, 11); (3, 11); (2, 12)]%nat).
  destruct (schedule ((fun '(i, t) => (i, Z.of_nat t)) <$> sched) c0) as [c|] eqn:E; [|discriminate E].
  exists c. split; [eapply schedule_reach; [constructor | exact E]|].
  vm_compute in E. injection E as <-. simpl threads. simpl lock. simpl shared.
  split; [repeat (apply Forall_cons_2; [first [by left | right; by eexists]|]); apply Forall_nil_2|].
  do 3 (split; [done|]).
  intros ops Ha. apply underflow_sticks; [vm_compute; split; congruence|reflexivity|reflexivity|done].
Qed.
