(* ===== verification/Limiter.v ===== *)
(** * Rate limits

    [godwit-api/src/rate_limit.rs] (token buckets, the per-key and per-organization limiter,
    the token estimate) and [godwit-api/src/login_rate_limit.rs].

    Tokens are [f64].  The operations on doubles the code uses are a class [F64], and the
    facts of IEEE arithmetic the theorems need (order, minimum, sign of a difference) a
    class [F64Laws].  Two instances: [binary64], the 53-bit arithmetic of the Standard
    Library's [SpecFloat], which evaluates the code on concrete inputs; and [exact64],
    rational arithmetic, which satisfies the laws and serves the statement about waiting.

    Time is in nanoseconds; a function takes the clock readings it makes. *)

From stdpp Require Import base strings list gmap.
From Stdlib Require Import QArith Qround Lqa.
From Stdlib Require Import SpecFloat.
From S2P Require Import Prelude RustStr Core.

#[local] Open Scope Z_scope.

(** ** Doubles *)

Class F64 := {
  f64 : Type;
  of_u32 : Z -> f64;               (* n as f64 *)
  as_secs : Z -> f64;              (* Duration::as_secs_f64, from nanoseconds *)
  fadd : f64 -> f64 -> f64;
  fsub : f64 -> f64 -> f64;
  fmul : f64 -> f64 -> f64;
  fdiv : f64 -> f64 -> f64;
  fmin : f64 -> f64 -> f64;
  fleb : f64 -> f64 -> bool;
  ceil_u64 : f64 -> Z;             (* x.ceil() as u64 *)
}.

(** What the theorems use of IEEE arithmetic; [fnum x] says [x] is not a NaN. *)
Class F64Laws (F : F64) := {
  fnum : f64 -> Prop;
  fleb_refl x : fnum x -> fleb x x = true;
  fleb_trans x y z : fnum x -> fnum y -> fnum z ->
    fleb x y = true -> fleb y z = true -> fleb x z = true;
  fleb_total x y : fnum x -> fnum y -> fleb x y = false -> fleb y x = true;
  u32_num n : in_u 32 n -> fnum (of_u32 n);
  u32_leb m n : in_u 32 m -> in_u 32 n -> fleb (of_u32 m) (of_u32 n) = (m <=? n);
  fmin_spec x y : fnum x -> fnum y -> fmin x y = if fleb x y then x else y;
  deficit_sign a t : in_u 32 a -> fnum t -> fleb (fsub (of_u32 a) t) (of_u32 0) = fleb (of_u32 a) t;
  debit_num t a : in_u 32 a -> fnum t -> fnum (fsub t (of_u32 a));
  debit_le t a : in_u 32 a -> fnum t -> fleb (fsub t (of_u32 a)) t = true;
  debit_nonneg t a : in_u 32 a -> fnum t -> fleb (of_u32 a) t = true ->
    fleb (of_u32 0) (fsub t (of_u32 a)) = true;
  growth_num t c ns : in_u 32 c -> 0 <= ns -> fnum t ->
    fnum (fadd t (fmul (as_secs ns) (fdiv (of_u32 c) (of_u32 60))));
  growth_ge t c ns : in_u 32 c -> 0 <= ns -> fnum t ->
    fleb t (fadd t (fmul (as_secs ns) (fdiv (of_u32 c) (of_u32 60)))) = true;
  rate_pos c : in_u 32 c -> 0 < c -> fleb (fdiv (of_u32 c) (of_u32 60)) (of_u32 0) = false;
}.

(** ** Token buckets *)

Section Buckets.
Context `{F : F64}.

(** [godwit-api/src/rate_limit.rs:8-13] [TokenBucket] *)
Record TokenBucket : Type := { capacity : Z; tokens : f64; last_refill : Z }.

(** [godwit-api/src/rate_limit.rs:21-27] [TokenBucket::new] *)
Definition bucket_new (cap now : Z) : TokenBucket :=
  {| capacity := cap; tokens := of_u32 cap; last_refill := now |}.

(** [godwit-api/src/rate_limit.rs:29-37] [TokenBucket::refill] *)
Definition refill (now : Z) (b : TokenBucket) : TokenBucket :=
  if capacity b =? 0 then b
  else
    let elapsed := as_secs (Z.max 0 (now - last_refill b)) in
    let rate := fdiv (of_u32 (capacity b)) (of_u32 60) in
    {| capacity := capacity b;
       tokens := fmin (fadd (tokens b) (fmul elapsed rate)) (of_u32 (capacity b));
       last_refill := now |}.

(** [godwit-api/src/rate_limit.rs:45-59] [TokenBucket::deficit_retry_after] *)
Definition deficit_retry_after (now amount : Z) (b : TokenBucket) : option Z * TokenBucket :=
  let b := refill now b in
  if capacity b =? 0 then (None, b)
  else
    let deficit := fsub (of_u32 amount) (tokens b) in
    if fleb deficit (of_u32 0) then (None, b)
    else
      let rate := fdiv (of_u32 (capacity b)) (of_u32 60) in
      if fleb rate (of_u32 0) then (None, b)
      else (Some (ceil_u64 (fdiv deficit rate)), b).

(** [godwit-api/src/rate_limit.rs:63-65] [TokenBucket::debit] *)
Definition debit (amount : Z) (b : TokenBucket) : TokenBucket :=
  {| capacity := capacity b; tokens := fsub (tokens b) (of_u32 amount); last_refill := last_refill b |}.

(** ** The limiter *)

Abbreviation bucket_map := (gmap (Uuid * string) TokenBucket).

(** [godwit-api/src/rate_limit.rs:68-72] [RateLimiter] *)
Record RateLimiter : Type := { rpm_buckets : bucket_map; tpm_buckets : bucket_map }.

(** [limit.filter(|l| l > 0)]: only a positive limit is enforced. *)
Definition enforced (limit : option Z) : option Z :=
  match limit with Some l => if 0 <? l then Some (as_u32 l) else None | None => None end.

(** A stored bucket adopts a changed limit, dropping tokens above it.
    [godwit-api/src/rate_limit.rs:97-100] [RateLimiter::check_bucket] *)
Definition sync_bucket (limit : Z) (b : TokenBucket) : TokenBucket :=
  if capacity b =? limit then b
  else {| capacity := limit; tokens := fmin (tokens b) (of_u32 limit); last_refill := last_refill b |}.

(** [now0] is the reading made when the bucket is created, [now] the one of the check.
    [godwit-api/src/rate_limit.rs:84-106] [RateLimiter::check_bucket] *)
Definition check_bucket (now0 now : Z) (key : Uuid * string) (limit : option Z) (amount : Z)
    (dbt : bool) (m : bucket_map) : option Z * bucket_map :=
  match enforced limit with
  | None => (None, m)
  | Some limit =>
    let bucket := default (bucket_new limit now0) (m !! key) in
    let bucket := sync_bucket limit bucket in
    let '(retry_after, bucket) := deficit_retry_after now amount bucket in
    let bucket := match retry_after with
                  | None => if dbt then debit amount bucket else bucket
                  | Some _ => bucket
                  end in
    (retry_after, <[key := bucket]> m)
  end.

(** One entry of the table of a request: which map, key, limit, amount. *)
Record cache_entry : Type := {
  ce_rpm : bool; ce_key : Uuid * string; ce_limit : option Z; ce_amount : Z }.

(** [godwit-api/src/rate_limit.rs:124-129] [RateLimiter::check_and_consume] *)
Definition caches (api_key_id org_id : Uuid) (model : string)
    (rpm_key tpm_key rpm_org tpm_org : option Z) (estimated : Z) : list cache_entry :=
  [ {| ce_rpm := true; ce_key := (api_key_id, model); ce_limit := rpm_key; ce_amount := 1 |};
    {| ce_rpm := false; ce_key := (api_key_id, model); ce_limit := tpm_key; ce_amount := estimated |};
    {| ce_rpm := true; ce_key := (org_id, model); ce_limit := rpm_org; ce_amount := 1 |};
    {| ce_rpm := false; ce_key := (org_id, model); ce_limit := tpm_org; ce_amount := estimated |} ].

Definition check_entry (now0 now : Z) (dbt : bool) (e : cache_entry) (r : RateLimiter)
  : option Z * RateLimiter :=
  if ce_rpm e then
    let '(o, m) := check_bucket now0 now (ce_key e) (ce_limit e) (ce_amount e) dbt (rpm_buckets r) in
    (o, {| rpm_buckets := m; tpm_buckets := tpm_buckets r |})
  else
    let '(o, m) := check_bucket now0 now (ce_key e) (ce_limit e) (ce_amount e) dbt (tpm_buckets r) in
    (o, {| rpm_buckets := rpm_buckets r; tpm_buckets := m |}).

Definition max_opt (slowest retry : option Z) : option Z :=
  match retry with
  | None => slowest
  | Some r => Some (match slowest with None => r | Some m => Z.max m r end)
  end.

(** The tentative pass; [clock] gives the two readings of the [i]-th call.
    [godwit-api/src/rate_limit.rs:135-142] [RateLimiter::check_and_consume] *)
Fixpoint pass1 (clock : nat -> Z * Z) (i : nat) (es : list cache_entry) (slowest : option Z)
    (r : RateLimiter) : option Z * RateLimiter :=
  match es with
  | [] => (slowest, r)
  | e :: es =>
    let '(retry, r) := check_entry (clock i).1 (clock i).2 false e r in
    pass1 clock (S i) es (max_opt slowest retry) r
  end.

(** The committing pass.
    [godwit-api/src/rate_limit.rs:149-151] [RateLimiter::check_and_consume] *)
Fixpoint pass2 (clock : nat -> Z * Z) (i : nat) (es : list cache_entry) (r : RateLimiter) : RateLimiter :=
  match es with
  | [] => r
  | e :: es => pass2 clock (S i) es (check_entry (clock i).1 (clock i).2 true e r).2
  end.

(** [godwit-api/src/rate_limit.rs:108-154] [RateLimiter::check_and_consume] *)
Definition check_and_consume (clock : nat -> Z * Z) (api_key_id org_id : Uuid) (model : string)
    (rpm_key tpm_key rpm_org tpm_org : option Z) (estimated : Z)
  : ST RateLimiter (PasteurError * option Z) unit := fun r =>
  let es := caches api_key_id org_id model rpm_key tpm_key rpm_org tpm_org estimated in
  let '(slowest, r) := pass1 clock 0 es None r in
  match slowest with
  | Some retry_after => (Err (PRateLimited, Some retry_after), r)
  | None => (Ok tt, pass2 clock 4 es r)
  end.

(** ** The login limiter *)

(** [godwit-api/src/login_rate_limit.rs:7-10] [LoginLimiter] *)
Record LoginLimiter : Type := { l_capacity : Z; l_buckets : gmap string TokenBucket }.

(** [godwit-api/src/login_rate_limit.rs:13-16] [LoginLimiter::new] *)
Definition login_new (cap : Z) : LoginLimiter :=
  {| l_capacity := if 0 <? cap then cap else 0; l_buckets := ∅ |}.

(** [godwit-api/src/login_rate_limit.rs:18-31] [LoginLimiter::attempt_allowed] *)
Definition attempt_allowed (now0 now : Z) (ip : string) (debit_on_fail : bool) (l : LoginLimiter)
  : option Z * LoginLimiter :=
  if l_capacity l =? 0 then (None, l)
  else
    let bucket := default (bucket_new (l_capacity l) now0) (l_buckets l !! ip) in
    let '(retry_after, bucket) := deficit_retry_after now 1 bucket in
    let bucket := match retry_after with
                  | None => if debit_on_fail then debit 1 bucket else bucket
                  | Some _ => bucket
                  end in
    (retry_after, {| l_capacity := l_capacity l; l_buckets := <[ip := bucket]> (l_buckets l) |}).
End Buckets.
Arguments TokenBucket F : clear implicits.
Arguments RateLimiter F : clear implicits.
Arguments LoginLimiter F : clear implicits.

(** ** The token estimate of a chat request *)

(** [godwit-api/src/rate_limit.rs:166-177] [estimate_request_tokens] *)
Definition content_len (c : ChatContent) : Z :=
  match c with
  | CText t => str_len t
  | CParts parts =>
    sumZ ((fun p => match p with
                    | PartText text => str_len text
                    | PartImageUrl i => str_len (url i)
                    end) <$> parts)
  end.

(** [godwit-api/src/rate_limit.rs:157-188] [estimate_request_tokens] *)
Definition estimate_request_tokens (req : ChatCompletionRequest) : Z :=
  let total :=
    as_usize (sumZ ((fun m =>
      (match msg_content m with
       | None => 0
       | Some contents => sumZ (content_len <$> contents)
       end) + str_len (msg_role m)) <$> req_messages req)) / 4 in
  let total := match req_max_tokens req with
               | Some max_tokens => as_usize (total + Z.max max_tokens 0)
               | None => total
               end in
  as_u32 (Z.max total 1).

(** ** Instances *)

(** IEEE binary64, round to nearest even. *)
Definition b64_of_Z (z : Z) : spec_float := binary_normalize 53 1024 z 0 false.
Definition b64_ceil_u64 (x : spec_float) : Z :=
  match x with
  | S754_finite false m e =>
    let c := if 0 <=? e then Z.pos m * 2 ^ e else - ((- Z.pos m) / 2 ^ (- e)) in
    Z.min c (2 ^ 64 - 1)
  | S754_infinity false => 2 ^ 64 - 1
  | _ => 0
  end.

#[export] Instance binary64 : F64 := {|
  f64 := spec_float;
  of_u32 := b64_of_Z;
  as_secs ns := SFadd 53 1024 (b64_of_Z (ns / 10 ^ 9))
                  (SFdiv 53 1024 (b64_of_Z (ns mod 10 ^ 9)) (b64_of_Z (10 ^ 9)));
  fadd := SFadd 53 1024;
  fsub := SFsub 53 1024;
  fmul := SFmul 53 1024;
  fdiv := SFdiv 53 1024;
  fmin x y := match SFcompare x y with
              | Some Gt => y
              | Some _ => x
              | None => match x with S754_nan => y | _ => x end
              end;
  fleb := SFleb;
  ceil_u64 := b64_ceil_u64;
|}.

(** Whole numbers, for witnesses of other files in which no token is ever fractional. *)
Definition whole_f64 : F64 :=
  {| f64 := Z; of_u32 n := n; as_secs d := d / 1000000000; fadd := Z.add; fsub := Z.sub; fmul := Z.mul;
     fdiv := Z.div; fmin := Z.min; fleb := Z.leb; ceil_u64 x := x |}.

(** Exact arithmetic. *)
Definition exact64 : F64 := {|
  f64 := Q;
  of_u32 := inject_Z;
  as_secs ns := (ns # 1000000000)%Q;
  fadd := Qplus;
  fsub := Qminus;
  fmul := Qmult;
  fdiv := Qdiv;
  fmin x y := if Qle_bool x y then x else y;
  fleb := Qle_bool;
  ceil_u64 x := Z.max 0 (Z.min (Qceiling x) (2 ^ 64 - 1));
|}.

Lemma Qle_bool_false x y : Qle_bool x y = false <-> (y < x)%Q.
Proof.
  split.
  - intros H. destruct (Qlt_le_dec y x) as [?|L]; [done|]. apply Qle_bool_iff in L. congruence.
  - intros H. destruct (Qle_bool x y) eqn:E; [|done]. apply Qle_bool_iff in E. lra.
Qed.

Lemma Qle_bool_iff_eq (a b c d : Q) : ((a <= b <-> c <= d)%Q) -> Qle_bool a b = Qle_bool c d.
Proof.
  intros H. destruct (Qle_bool c d) eqn:E.
  - apply Qle_bool_iff. by apply H, Qle_bool_iff.
  - apply Qle_bool_false. apply Qle_bool_false in E. destruct (Qlt_le_dec b a); [done|]. tauto || lra.
Qed.

Lemma Q_growth (c ns : Z) :
  0 <= c -> 0 <= ns -> (0 <= (ns # 1000000000) * (inject_Z c / inject_Z 60))%Q.
Proof.
  intros Hc Hn. apply Qmult_le_0_compat; [unfold Qle; simpl; lia|].
  apply Qle_shift_div_l; [done|]. rewrite Qmult_0_l. change 0%Q with (inject_Z 0).
  by rewrite <- Zle_Qle.
Qed.

#[export] Instance exact64_laws : F64Laws exact64.
Proof.
  refine {| fnum _ := True |}; simpl; unfold in_u; try done.
  - intros x _. apply Qle_bool_iff. lra.
  - intros x y z _ _ _ H1%Qle_bool_iff H2%Qle_bool_iff. apply Qle_bool_iff. lra.
  - intros x y _ _ H%Qle_bool_false. apply Qle_bool_iff. lra.
  - intros m n _ _. destruct (Z.leb_spec m n) as [L|L].
    + apply Qle_bool_iff. by rewrite <- Zle_Qle.
    + apply Qle_bool_false. by rewrite <- Zlt_Qlt.
  - intros a t _ _. apply Qle_bool_iff_eq. change (inject_Z 0) with 0%Q. generalize (inject_Z a). intros x. split; lra.
  - intros t a Ha _. apply Qle_bool_iff.
    assert (inject_Z 0 <= inject_Z a)%Q by (rewrite <- Zle_Qle; lia).
    assert (0 <= inject_Z a)%Q as Ha' by done. lra.
  - intros t a Ha _ H%Qle_bool_iff. apply Qle_bool_iff. change (inject_Z 0) with 0%Q in *. lra.
  - intros t c ns Hc Hn _. apply Qle_bool_iff. pose proof (Q_growth c ns ltac:(lia) Hn). lra.
  - intros c Hc Hp. apply Qle_bool_false. apply Qlt_shift_div_l; [done|].
    change (inject_Z 0) with 0%Q. rewrite Qmult_0_l. change 0%Q with (inject_Z 0).
    by rewrite <- Zlt_Qlt.
Defined.

(** ** Lemmas on buckets, for any arithmetic with the laws *)

Section BucketLemmas.
Context {F : F64} {FL : F64Laws F}.
Implicit Types b : TokenBucket F.

(** [0 <= tokens <= capacity], for a bucket that enforces a limit. *)
Record bucket_wf b : Prop := {
  bw_cap : in_u 32 (capacity b);
  bw_pos : 0 < capacity b;
  bw_num : fnum (tokens b);
  bw_lo : fleb (of_u32 0) (tokens b) = true;
  bw_hi : fleb (tokens b) (of_u32 (capacity b)) = true;
}.

Lemma zero_in_u32 : in_u 32 0. Proof. unfold in_u. lia. Qed.
Hint Resolve zero_in_u32 u32_num growth_num debit_num bw_cap bw_num bw_pos : godwit.

Lemma fmin_num x y : fnum x -> fnum y -> fnum (fmin x y).
Proof. intros. rewrite fmin_spec by done. by destruct (fleb x y). Qed.

Lemma fmin_le_r x y : fnum x -> fnum y -> fleb (fmin x y) y = true.
Proof. intros. rewrite fmin_spec by done. destruct (fleb x y) eqn:E; [done|]. by apply fleb_refl. Qed.

Lemma fmin_ge z x y :
  fnum x -> fnum y -> fleb z x = true -> fleb z y = true -> fleb z (fmin x y) = true.
Proof. intros. rewrite fmin_spec by done. by destruct (fleb x y). Qed.

Lemma bucket_new_wf cap now : in_u 32 cap -> 0 < cap -> bucket_wf (bucket_new cap now).
Proof.
  intros H1 H2. constructor; simpl; auto with godwit.
  - rewrite u32_leb by auto with godwit. lia.
  - rewrite u32_leb by done. lia.
Qed.

Lemma refill_wf now b : bucket_wf b -> bucket_wf (refill now b).
Proof.
  intros [H1 H2 H3 H4 H5]. unfold refill. rewrite (proj2 (Z.eqb_neq _ _)) by lia.
  constructor; simpl; try done.
  - apply fmin_num; auto with godwit. apply growth_num; [done|lia|done].
  - apply fmin_ge; auto with godwit.
    + apply growth_num; [done|lia|done].
    + eapply (fleb_trans _ (tokens b)); auto with godwit.
      * apply growth_num; [done|lia|done].
      * apply growth_ge; [done|lia|done].
    + rewrite u32_leb by auto with godwit. lia.
  - apply fmin_le_r; auto with godwit. apply growth_num; [done|lia|done].
Qed.

(** Refilling never takes tokens away. *)
Lemma refill_mono now b : bucket_wf b -> fleb (tokens b) (tokens (refill now b)) = true.
Proof.
  intros [H1 H2 H3 H4 H5]. unfold refill. rewrite (proj2 (Z.eqb_neq _ _)) by lia. simpl.
  apply fmin_ge; auto with godwit.
  - apply growth_num; [done|lia|done].
  - apply growth_ge; [done|lia|done].
Qed.

Lemma refill_capacity now b : capacity (refill now b) = capacity b.
Proof. unfold refill. by case_cmp. Qed.

(** The check: [None] exactly when the refilled bucket holds the amount, and the bucket is
    only refilled. *)
Lemma deficit_spec now amount b :
  bucket_wf b -> in_u 32 amount ->
  (deficit_retry_after now amount b).2 = refill now b /\
  ((deficit_retry_after now amount b).1 = None <->
   fleb (of_u32 amount) (tokens (refill now b)) = true).
Proof.
  intros W Ha. pose proof (refill_wf now b W) as W'. unfold deficit_retry_after.
  rewrite (proj2 (Z.eqb_neq _ _)) by (pose proof (bw_pos _ W'); lia).
  rewrite deficit_sign by auto with godwit.
  rewrite rate_pos by auto with godwit.
  by destruct (fleb (of_u32 amount) (tokens (refill now b))).
Qed.

Lemma debit_wf amount b :
  bucket_wf b -> in_u 32 amount -> fleb (of_u32 amount) (tokens b) = true ->
  bucket_wf (debit amount b).
Proof.
  intros [H1 H2 H3 H4 H5] Ha Hf. constructor; simpl; auto with godwit.
  - by apply debit_nonneg.
  - eapply (fleb_trans _ (tokens b)); auto with godwit. by apply debit_le.
Qed.

Lemma sync_bucket_wf l b : in_u 32 l -> 0 < l -> bucket_wf b -> bucket_wf (sync_bucket l b).
Proof.
  intros Hl Hp [H1 H2 H3 H4 H5]. unfold sync_bucket. case_cmp; [done|].
  constructor; simpl; auto using fmin_num, fmin_le_r with godwit.
  apply fmin_ge; auto with godwit. rewrite u32_leb by auto with godwit. lia.
Qed.

Lemma sync_bucket_capacity l b : capacity (sync_bucket l b) = l.
Proof. unfold sync_bucket. by case_cmp. Qed.

(** What a check does to the bucket stored under its key (absent before its first use). *)
Definition visit (now0 now : Z) (dbt : bool) (limit : option Z) (amount : Z)
    (ob : option (TokenBucket F)) : option Z * option (TokenBucket F) :=
  match enforced limit with
  | None => (None, ob)
  | Some l =>
    let b := sync_bucket l (default (bucket_new l now0) ob) in
    let '(retry, b) := deficit_retry_after now amount b in
    (retry, Some (match retry with
                  | None => if dbt then debit amount b else b
                  | Some _ => b
                  end))
  end.

(** An [Option<i32>] limit. *)
Definition limit_ok (limit : option Z) : Prop := match limit with Some l => in_i 32 l | None => True end.

Lemma enforced_ok limit l : limit_ok limit -> enforced limit = Some l -> in_u 32 l /\ 0 < l.
Proof.
  unfold limit_ok, enforced, in_i, in_u. destruct limit as [z|]; [|done]. case_cmp; [|done].
  intros Hz. rewrite wrap_u_small by (unfold in_u; lia). intros [= <-]. lia.
Qed.

Definition slot_wf (ob : option (TokenBucket F)) : Prop :=
  match ob with Some b => bucket_wf b | None => True end.

Lemma default_wf l now0 ob :
  in_u 32 l -> 0 < l -> slot_wf ob -> bucket_wf (default (bucket_new l now0) ob).
Proof. intros. destruct ob; simpl in *; [done|]. by apply bucket_new_wf. Qed.

Lemma visit_wf now0 now dbt limit amount ob :
  limit_ok limit -> in_u 32 amount -> slot_wf ob -> slot_wf (visit now0 now dbt limit amount ob).2.
Proof.
  intros Hl Ha Hw. unfold visit. destruct (enforced limit) as [l|] eqn:El; [|done].
  apply enforced_ok in El as [Hl1 Hl2]; [|done].
  assert (bucket_wf (sync_bucket l (default (bucket_new l now0) ob))) as W
    by auto using sync_bucket_wf, default_wf.
  destruct (deficit_spec now amount _ W Ha) as [H1 H2]. pose proof (refill_wf now _ W) as W'.
  destruct (deficit_retry_after now amount _) as [retry b]. simpl in *. subst b.
  destruct retry; [done|]. destruct dbt; [|done]. apply debit_wf; [done..|]. by apply H2.
Qed.

(** A check that does not debit leaves the bucket refilled and synchronised, nothing else. *)
Lemma visit_tentative now0 now limit amount ob l :
  limit_ok limit -> in_u 32 amount -> slot_wf ob -> enforced limit = Some l ->
  visit now0 now false limit amount ob =
  ((visit now0 now false limit amount ob).1,
   Some (refill now (sync_bucket l (default (bucket_new l now0) ob)))).
Proof.
  intros Hl Ha Hw El. unfold visit. rewrite El. apply enforced_ok in El as [Hl1 Hl2]; [|done].
  assert (bucket_wf (sync_bucket l (default (bucket_new l now0) ob))) as W
    by auto using sync_bucket_wf, default_wf.
  destruct (deficit_spec now amount _ W Ha) as [H1 H2].
  destruct (deficit_retry_after now amount _) as [[r|] b]; simpl in *; by subst.
Qed.
End BucketLemmas.

(** ** Lemmas on the limiter *)

Section LimiterLemmas.
Context {F : F64} {FL : F64Laws F}.
Implicit Types r : RateLimiter F.

Definition slot (e : cache_entry) : bool * (Uuid * string) := (ce_rpm e, ce_key e).
Definition get_slot (r : RateLimiter F) (s : bool * (Uuid * string)) : option (TokenBucket F) :=
  (if s.1 then rpm_buckets r else tpm_buckets r) !! s.2.

Definition limiter_wf r : Prop := forall s, slot_wf (get_slot r s).
Definition entry_ok (e : cache_entry) : Prop := limit_ok (ce_limit e) /\ in_u 32 (ce_amount e).

(** The visit of an entry to its slot. *)
Definition visit_entry (now0 now : Z) (dbt : bool) (e : cache_entry) (ob : option (TokenBucket F)) :=
  visit now0 now dbt (ce_limit e) (ce_amount e) ob.

Lemma check_entry_spec now0 now dbt e r :
  (check_entry now0 now dbt e r).1 = (visit_entry now0 now dbt e (get_slot r (slot e))).1 /\
  forall s, get_slot (check_entry now0 now dbt e r).2 s =
    if decide (s = slot e) then (visit_entry now0 now dbt e (get_slot r (slot e))).2 else get_slot r s.
Proof.
  assert (forall s, s <> slot e -> s.1 = ce_rpm e -> ce_key e <> s.2) as Hne.
  { intros [x k] Hs. simpl. intros -> <-. by apply Hs. }
  unfold check_entry, check_bucket, visit_entry, visit. destruct (ce_rpm e) eqn:Er; simpl.
  all: assert (forall s, s.1 = ce_rpm e -> get_slot r s =
      (if ce_rpm e then rpm_buckets r else tpm_buckets r) !! s.2) as Hg
      by (intros [x k]; simpl; by intros ->);
    rewrite (Hg (slot e) eq_refl), Er; simpl.
  all: destruct (enforced (ce_limit e)) as [l|]; simpl;
    [destruct (deficit_retry_after _ _ _) as [retry b]; simpl|].
  all: split; [done|]; intros s; destruct (decide (s = slot e)) as [->|N];
    unfold get_slot; simpl; rewrite ?Er; simpl; rewrite ?lookup_insert_eq; try done.
  all: destruct (s.1) eqn:Es1; try done; by rewrite lookup_insert_ne by (by apply Hne).
Qed.

Lemma check_entry_wf now0 now dbt e r :
  limiter_wf r -> entry_ok e -> limiter_wf (check_entry now0 now dbt e r).2.
Proof.
  intros W [Hl Ha] s. rewrite (proj2 (check_entry_spec now0 now dbt e r)).
  case_decide; [|apply W]. apply visit_wf; auto.
Qed.

Lemma pass1_spec clock i es slowest r :
  NoDup (slot <$> es) -> limiter_wf r -> Forall entry_ok es ->
  let '(res, r') := pass1 clock i es slowest r in
  res = fold_left max_opt
          (imap (fun j e => (visit_entry (clock (i + j)%nat).1 (clock (i + j)%nat).2 false e
                               (get_slot r (slot e))).1) es) slowest /\
  limiter_wf r' /\
  (forall j e, es !! j = Some e ->
     get_slot r' (slot e) =
     (visit_entry (clock (i + j)%nat).1 (clock (i + j)%nat).2 false e (get_slot r (slot e))).2) /\
  (forall s, s ∉ slot <$> es -> get_slot r' s = get_slot r s).
Proof.
  revert i slowest r. induction es as [|e es IH]; intros i slowest r Hnd W Hok; simpl.
  { split; [done|]. split; [done|]. split; [intros j e; by rewrite lookup_nil | done]. }
  apply NoDup_cons in Hnd as [Hni Hnd]. apply Forall_cons_iff in Hok as [He Hok].
  destruct (check_entry_spec (clock i).1 (clock i).2 false e r) as [H1 H2].
  pose proof (check_entry_wf (clock i).1 (clock i).2 false e r W He) as W'.
  destruct (check_entry _ _ _ _ _) as [retry r1]. simpl in *.
  assert (forall e', e' ∈ es -> get_slot r1 (slot e') = get_slot r (slot e')) as Hs.
  { intros e' Hin. rewrite H2. rewrite decide_False; [done|]. intros E. apply Hni. rewrite <- E.
    by apply list_elem_of_fmap_2. }
  specialize (IH (S i) (max_opt slowest retry) r1 Hnd W' Hok).
  destruct (pass1 _ _ _ _ _) as [res r']. destruct IH as (I1 & I2 & I3 & I4).
  rewrite Nat.add_0_r. repeat split; [| done | |].
  - rewrite I1, <- H1. f_equal. apply imap_ext. intros j e' Hj. simpl.
    rewrite Nat.add_succ_r. by rewrite Hs by (by eapply list_elem_of_lookup_2).
  - intros [|j] e' Hj; simplify_eq/=.
    + rewrite I4 by done. rewrite H2, decide_True by done. by rewrite Nat.add_0_r.
    + rewrite (I3 j e' Hj), Nat.add_succ_r. by rewrite Hs by (by eapply list_elem_of_lookup_2).
  - intros s Hns. apply not_elem_of_cons in Hns as [Hn1 Hn2]. rewrite I4 by done.
    by rewrite H2, decide_False by done.
Qed.

Lemma pass2_spec clock i es r :
  NoDup (slot <$> es) ->
  (forall j e, es !! j = Some e ->
     get_slot (pass2 clock i es r) (slot e) =
     (visit_entry (clock (i + j)%nat).1 (clock (i + j)%nat).2 true e (get_slot r (slot e))).2) /\
  (forall s, s ∉ slot <$> es -> get_slot (pass2 clock i es r) s = get_slot r s).
Proof.
  revert i r. induction es as [|e es IH]; intros i r Hnd; simpl; [by split|].
  apply NoDup_cons in Hnd as [Hni Hnd].
  destruct (check_entry_spec (clock i).1 (clock i).2 true e r) as [_ H2].
  set (r1 := (check_entry _ _ _ _ _).2) in *. destruct (IH (S i) r1 Hnd) as [I1 I2]. split.
  - intros [|j] e' Hj; simplify_eq/=.
    + rewrite I2 by done. rewrite H2, decide_True by done. by rewrite Nat.add_0_r.
    + rewrite (I1 j e' Hj), Nat.add_succ_r. rewrite H2, decide_False; [done|].
      intros Heq. apply Hni. rewrite <- Heq. apply list_elem_of_fmap_2. by eapply list_elem_of_lookup_2.
  - intros s Hns. apply not_elem_of_cons in Hns as [Hn1 Hn2]. rewrite I2 by done.
    by rewrite H2, decide_False by done.
Qed.

Lemma caches_nodup k o model a b c d est :
  k <> o -> NoDup (slot <$> caches k o model a b c d est).
Proof.
  intros N. unfold caches, slot. simpl. repeat constructor; rewrite ?elem_of_cons, ?elem_of_nil;
    naive_solver.
Qed.

Lemma caches_ok k o model a b c d est :
  limit_ok a -> limit_ok b -> limit_ok c -> limit_ok d -> in_u 32 est ->
  Forall entry_ok (caches k o model a b c d est).
Proof.
  intros. unfold caches, entry_ok.
  repeat (apply Forall_cons_2; [split; simpl; [done|try done; unfold in_u; lia]|]).
  apply Forall_nil_2.
Qed.

Lemma max_opt_fold_None l s : fold_left max_opt l s = None <-> s = None /\ Forall (fun o => o = None) l.
Proof.
  revert s. induction l as [|[z|] l IH]; intros s; simpl.
  - split; [by intros ->|by intros [-> _]].
  - rewrite IH, Forall_cons_iff. split; [by intros [? _]|by intros [_ [? _]]].
  - rewrite IH, Forall_cons_iff. naive_solver.
Qed.

Lemma max_opt_fold_Some l s m :
  fold_left max_opt l s = Some m ->
  (s = Some m \/ Some m ∈ l) /\ forall z, (s = Some z \/ Some z ∈ l) -> z <= m.
Proof.
  revert s. induction l as [|o l IH]; intros s; simpl.
  - intros ->. split; [by left|]. intros z [?|H]; [simplify_eq; lia|by apply elem_of_nil in H].
  - intros H. apply IH in H as [H1 H2]. setoid_rewrite elem_of_cons.
    destruct o as [z0|]; destruct s as [z1|]; simpl in *.
    + split.
      * destruct H1 as [H1|H1]; [|auto]. simplify_eq. destruct (Z.max_spec z1 z0) as [[_ ->]|[_ ->]]; auto.
      * specialize (H2 (Z.max z1 z0) (or_introl eq_refl)) as Hm. intros z [?|[?|?]]; simplify_eq; try lia. auto.
    + split; [naive_solver|]. intros z [?|[?|?]]; simplify_eq; auto.
    + split; [naive_solver|]. intros z [?|[?|?]]; simplify_eq; auto.
    + split; [naive_solver|]. intros z [?|[?|?]]; simplify_eq; auto.
Qed.
End LimiterLemmas.

(** ** Theorems *)

Section LimiterTheorems.
Context {F : F64} {FL : F64Laws F}.
Implicit Types r : RateLimiter F.

Definition limiter_new : RateLimiter F := {| rpm_buckets := ∅; tpm_buckets := ∅ |}.

Lemma limiter_new_wf : limiter_wf limiter_new.
Proof. intros [[] k]; unfold get_slot; simpl; by rewrite lookup_empty. Qed.

(** One bucket check by some request, tentative or committing. *)
Record call : Type := { c_now0 : Z; c_now : Z; c_debit : bool; c_entry : cache_entry }.
Definition run_calls (calls : list call) (r : RateLimiter F) : RateLimiter F :=
  fold_left (fun r c => (check_entry (c_now0 c) (c_now c) (c_debit c) (c_entry c) r).2) calls r.

Lemma run_calls_wf calls r :
  limiter_wf r -> Forall (fun c => entry_ok (c_entry c)) calls -> limiter_wf (run_calls calls r).
Proof.
  intros W H. revert r W. unfold run_calls. induction H as [|c calls Hc _ IH]; intros r W; simpl; [done|].
  apply IH. by apply check_entry_wf.
Qed.

(** The bucket an entry finds: the stored one or a full new one, synchronised with the
    limit and refilled. *)
Definition found (clock : nat -> Z * Z) (j : nat) (l : Z) (e : cache_entry) r : TokenBucket F :=
  refill (clock j).2 (sync_bucket l (default (bucket_new l (clock j).1) (get_slot r (slot e)))).

Lemma found_wf clock j l e r :
  limiter_wf r -> in_u 32 l -> 0 < l -> bucket_wf (found clock j l e r).
Proof. intros W H1 H2. apply refill_wf, sync_bucket_wf; [done..|]. by apply default_wf. Qed.

Lemma visit_entry_false clock j e r l :
  limiter_wf r -> entry_ok e -> enforced (ce_limit e) = Some l ->
  (visit_entry (clock j).1 (clock j).2 false e (get_slot r (slot e))).2 = Some (found clock j l e r) /\
  ((visit_entry (clock j).1 (clock j).2 false e (get_slot r (slot e))).1 = None <->
   fleb (of_u32 (ce_amount e)) (tokens (found clock j l e r)) = true).
Proof.
  intros W [Hl Ha] El. destruct (enforced_ok _ _ Hl El) as [Hl1 Hl2]. unfold visit_entry.
  rewrite (visit_tentative _ _ _ _ _ l) by (done || apply W). simpl. split; [done|].
  unfold visit, found. rewrite El.
  set (b := sync_bucket _ _). assert (bucket_wf b) as Wb
    by (apply sync_bucket_wf; [done..|]; apply default_wf; [done..|]; apply W).
  destruct (deficit_spec (clock j).2 (ce_amount e) b Wb Ha) as [_ H2].
  by destruct (deficit_retry_after _ _ b) as [[z|] b'].
Qed.

(** Committing a visit that was found to fit: the debit happens, whatever the second
    reading of the clock. *)
Lemma visit_entry_true clock j j' e r r1 l :
  limiter_wf r -> entry_ok e -> enforced (ce_limit e) = Some l ->
  get_slot r1 (slot e) = Some (found clock j l e r) ->
  fleb (of_u32 (ce_amount e)) (tokens (found clock j l e r)) = true ->
  (visit_entry (clock j').1 (clock j').2 true e (get_slot r1 (slot e))).2 =
  Some (debit (ce_amount e) (refill (clock j').2 (found clock j l e r))).
Proof.
  intros W [Hl Ha] El Hs Hf. destruct (enforced_ok _ _ Hl El) as [Hl1 Hl2].
  pose proof (found_wf clock j l e r W Hl1 Hl2) as Wf.
  unfold visit_entry, visit. rewrite El, Hs. simpl.
  assert (sync_bucket l (found clock j l e r) = found clock j l e r) as ->.
  { unfold sync_bucket, found. rewrite refill_capacity, sync_bucket_capacity. by rewrite Z.eqb_refl. }
  destruct (deficit_spec (clock j').2 (ce_amount e) _ Wf Ha) as [H1 H2].
  assert ((deficit_retry_after (clock j').2 (ce_amount e) (found clock j l e r)).1 = None) as Hn.
  { apply H2. pose proof (refill_wf (clock j').2 _ Wf) as Wr.
    apply (fleb_trans _ (tokens (found clock j l e r)));
      eauto using bw_num, u32_num, refill_mono. }
  destruct (deficit_retry_after _ _ _) as [z b']. simpl in *. by subst.
Qed.
End LimiterTheorems.

(** Whatever requests do and however their bucket checks interleave, every bucket of the
    limiter holds between zero and [capacity] tokens (for any arithmetic with the IEEE laws). *)
Theorem limiter_buckets_bounded (F : F64) (FL : F64Laws F) (calls : list call) s b :
  Forall (fun c => entry_ok (c_entry c)) calls ->
  get_slot (run_calls calls (limiter_new (F := F))) s = Some b ->
  fleb (of_u32 0) (tokens b) = true /\ fleb (tokens b) (of_u32 (capacity b)) = true /\ 0 < capacity b.
Proof.
  intros H Hs. pose proof (run_calls_wf calls limiter_new limiter_new_wf H s) as W.
  rewrite Hs in W. destruct W. done.
Qed.

Lemma limiter_buckets_bounded_witness :
  let e := {| ce_rpm := true; ce_key := (7, "gpt-4o"%string); ce_limit := Some 2; ce_amount := 1 |} in
  let calls := replicate 3 {| c_now0 := 0; c_now := 0; c_debit := true; c_entry := e |} in
  exists b, get_slot (run_calls calls (limiter_new (F := exact64))) (slot e) = Some b /\
    fleb (of_u32 0) (tokens b) = true.
Proof.
  intros e calls.
  assert (match get_slot (run_calls calls (limiter_new (F := exact64))) (slot e) with
          | Some _ => true | None => false end = true) as Hs by reflexivity.
  destruct (get_slot (run_calls calls (limiter_new (F := exact64))) (slot e)) as [b|] eqn:E.
  - exists b. split; [reflexivity|].
    refine (proj1 (limiter_buckets_bounded exact64 exact64_laws calls (slot e) b _ E)).
    repeat (apply Forall_cons_2; [split; simpl; unfold in_u, in_i; lia|]). apply Forall_nil_2.
  - discriminate Hs.
Defined.

(** A refusal debits no bucket: each is left synchronised and refilled; and it reports the
    longest of the delays computed. *)
Lemma refusal_spec (F : F64) (FL : F64Laws F) clock k o model a b c d est
    (r r' : RateLimiter F) err ra :
  k <> o -> limiter_wf r ->
  limit_ok a -> limit_ok b -> limit_ok c -> limit_ok d -> in_u 32 est ->
  check_and_consume clock k o model a b c d est r = (Err (err, ra), r') ->
  let es := caches k o model a b c d est in
  err = PRateLimited /\
  (exists m, ra = Some m /\
     (exists j e, es !! j = Some e /\
        (visit_entry (clock j).1 (clock j).2 false e (get_slot r (slot e))).1 = Some m) /\
     forall j e z, es !! j = Some e ->
        (visit_entry (clock j).1 (clock j).2 false e (get_slot r (slot e))).1 = Some z -> z <= m) /\
  (forall j e l, es !! j = Some e -> enforced (ce_limit e) = Some l ->
     get_slot r' (slot e) = Some (found clock j l e r)) /\
  (exists j e l, es !! j = Some e /\ enforced (ce_limit e) = Some l /\
     fleb (of_u32 (ce_amount e)) (tokens (found clock j l e r)) = false) /\
  (forall s, s ∉ slot <$> es -> get_slot r' s = get_slot r s).
Proof.
  intros N W Ha Hb Hc Hd He Hr es. unfold check_and_consume in Hr. fold es in Hr.
  pose proof (caches_ok k o model a b c d est Ha Hb Hc Hd He) as Hok. fold es in Hok.
  pose proof (caches_nodup k o model a b c d est N) as Hnd. fold es in Hnd.
  clearbody es. pose proof (pass1_spec clock 0 es None r Hnd W Hok) as Hp.
  destruct (pass1 clock 0 es None r) as [res r1]. destruct Hp as (H1 & _ & H3 & H4).
  destruct res as [m|]; simplify_eq. symmetry in H1. apply max_opt_fold_Some in H1 as [H1 H2].
  destruct H1 as [H1|H1]; [done|]. apply list_elem_of_lookup_1 in H1 as [j Hj].
  rewrite list_lookup_imap in Hj. destruct (es !! j) as [e|] eqn:Ej; simplify_eq/=.
  assert (entry_ok e) as Hoke by (eapply Forall_lookup_1; eauto).
  split; [done|]. split; [|split; [|split]].
  - exists m. split; [done|]. split; [eauto|]. intros i x z Hi Hz. apply H2. right.
    apply (list_elem_of_lookup_2 _ i). rewrite list_lookup_imap, Hi. simpl. by rewrite Hz.
  - intros i x l Hi El. rewrite (H3 i x Hi).
    apply visit_entry_false; [done| |done]. by eapply Forall_lookup_1.
  - destruct (enforced (ce_limit e)) as [l|] eqn:El.
    + exists j, e, l. repeat split; [done..|].
      destruct (visit_entry_false clock j e r l W Hoke El) as [_ H5].
      destruct (fleb _ _); [|done]. destruct H5 as [_ H5]. rewrite H5 in Hj by done. done.
    + unfold visit_entry, visit in Hj. by rewrite El in Hj.
  - done.
Qed.

(** A drained bucket of two requests per minute, used by the witnesses. *)
Definition drained : RateLimiter exact64 :=
  run_calls (replicate 2 {| c_now0 := 0; c_now := 0; c_debit := true;
    c_entry := {| ce_rpm := true; ce_key := (7, "m"%string); ce_limit := Some 2; ce_amount := 1 |} |})
    limiter_new.

Lemma drained_wf : limiter_wf drained.
Proof.
  apply run_calls_wf; [apply limiter_new_wf|].
  repeat (apply Forall_cons_2; [split; simpl; unfold in_u, in_i; lia|]). apply Forall_nil_2.
Qed.

(** An admitted request is charged once, everywhere: every enforced bucket held the
    amount, and ends as itself refilled and debited by exactly that amount; no other bucket
    changes.  (The key and organization identifiers differ, so the four buckets are distinct.) *)
Lemma admission_spec (F : F64) (FL : F64Laws F) clock k o model a b c d est
    (r r' : RateLimiter F) :
  k <> o -> limiter_wf r ->
  limit_ok a -> limit_ok b -> limit_ok c -> limit_ok d -> in_u 32 est ->
  check_and_consume clock k o model a b c d est r = (Ok tt, r') ->
  let es := caches k o model a b c d est in
  (forall j e l, es !! j = Some e -> enforced (ce_limit e) = Some l ->
     fleb (of_u32 (ce_amount e)) (tokens (found clock j l e r)) = true /\
     get_slot r' (slot e) =
       Some (debit (ce_amount e) (refill (clock (4 + j)%nat).2 (found clock j l e r)))) /\
  (forall s, s ∉ slot <$> es -> get_slot r' s = get_slot r s).
Proof.
  intros N W Ha Hb Hc Hd He Hr es. unfold check_and_consume in Hr. fold es in Hr.
  pose proof (caches_ok k o model a b c d est Ha Hb Hc Hd He) as Hok. fold es in Hok.
  pose proof (caches_nodup k o model a b c d est N) as Hnd. fold es in Hnd.
  clearbody es. pose proof (pass1_spec clock 0 es None r Hnd W Hok) as Hp.
  destruct (pass1 clock 0 es None r) as [[m|] r1]; simplify_eq. destruct Hp as (H1 & _ & H3 & H4).
  destruct (pass2_spec clock 4 es r1 Hnd) as [P1 P2].
  symmetry in H1. apply max_opt_fold_None in H1 as [_ H1]. split.
  - intros j e l Hj El. assert (entry_ok e) as Hoke by (eapply Forall_lookup_1; eauto).
    destruct (visit_entry_false clock j e r l W Hoke El) as [V1 V2].
    assert (fleb (of_u32 (ce_amount e)) (tokens (found clock j l e r)) = true) as Hf.
    { apply V2. rewrite Forall_lookup in H1. apply (H1 j). rewrite list_lookup_imap, Hj. done. }
    split; [done|]. rewrite (P1 j e Hj). apply (visit_entry_true clock j (4 + j) e r r1 l); try done.
    rewrite (H3 j e Hj). exact V1.
  - intros s Hs. by rewrite P2, H4.
Qed.

(** C21: the decision is all or nothing.  For a key and an organization with different ids, and
    limits and amounts of 32 bits, a request is refused exactly when some enforced bucket,
    refilled at the time of its check, holds less than the amount.  A refusal debits no bucket:
    each is left synchronised and refilled, and the longest of the delays computed is reported.
    An admission debits every enforced bucket once, by its amount.  Either way no other bucket
    changes. *)
Theorem limiter_is_all_or_nothing (F : F64) (FL : F64Laws F) clock k o model a b c d est (r : RateLimiter F) :
  k <> o -> limiter_wf r -> limit_ok a -> limit_ok b -> limit_ok c -> limit_ok d -> in_u 32 est ->
  let es := caches k o model a b c d est in
  let checked j e l := es !! j = Some e /\ enforced (ce_limit e) = Some l in
  let fits j e l := fleb (of_u32 (ce_amount e)) (tokens (found clock j l e r)) in
  let '(res, r') := check_and_consume clock k o model a b c d est r in
  (is_ok res = false <-> exists j e l, checked j e l /\ fits j e l = false) /\
  match res with
  | Ok _ => forall j e l, checked j e l ->
      get_slot r' (slot e) = Some (debit (ce_amount e) (refill (clock (4 + j)%nat).2 (found clock j l e r)))
  | Err (err, ra) =>
    err = PRateLimited /\
    (exists m, ra = Some m /\
       (exists j e, es !! j = Some e /\
          (visit_entry (clock j).1 (clock j).2 false e (get_slot r (slot e))).1 = Some m) /\
       forall j e z, es !! j = Some e ->
          (visit_entry (clock j).1 (clock j).2 false e (get_slot r (slot e))).1 = Some z -> z <= m) /\
    forall j e l, checked j e l -> get_slot r' (slot e) = Some (found clock j l e r)
  end /\
  forall s, s ∉ slot <$> es -> get_slot r' s = get_slot r s.
Proof.
  intros N W Ha Hb Hc Hd He es checked fits.
  destruct (check_and_consume clock k o model a b c d est r) as [[[]|[err ra]] r'] eqn:E.
  - destruct (admission_spec F FL clock k o model a b c d est r r' N W Ha Hb Hc Hd He E) as [H1 H2].
    split; [|split; [|done]].
    + split; [done|]. intros (j & e & l & [Hj Hl] & Hf). unfold fits in Hf. by rewrite (proj1 (H1 j e l Hj Hl)) in Hf.
    + intros j e l [Hj Hl]. apply (H1 j e l Hj Hl).
  - destruct (refusal_spec F FL clock k o model a b c d est r r' err ra N W Ha Hb Hc Hd He E) as (H1 & H2 & H3 & H4 & H5).
    split; [|split; [|done]].
    + split; [|done]. intros _. destruct H4 as (j & e & l & Hj & Hl & Hf). by exists j, e, l.
    + split; [done|]. split; [done|]. intros j e l [Hj Hl]. by apply H3.
Qed.

(** One of the two buckets is drained: the request is refused and the full one keeps its tokens. *)
Lemma limiter_is_all_or_nothing_witness :
  exists err ra r', check_and_consume (F := exact64) (fun _ => (0, 0)) 7 8 "m" (Some 2) (Some 100) None None 5 drained
    = (Err (err, ra), r') /\ err = PRateLimited /\ is_Some (get_slot r' (false, (7, "m"%string))).
Proof.
  pose proof (limiter_is_all_or_nothing exact64 exact64_laws (fun _ => (0, 0)) 7 8 "m" (Some 2) (Some 100) None None 5 drained) as Hv.
  assert (is_ok (check_and_consume (F := exact64) (fun _ => (0, 0)) 7 8 "m" (Some 2) (Some 100)
            None None 5 drained).1 = false) as Hb by reflexivity.
  destruct (check_and_consume (F := exact64) (fun _ => (0, 0)) 7 8 "m" (Some 2) (Some 100)
              None None 5 drained) as [[u|[err ra]] r'] eqn:E; [discriminate Hb|].
  destruct Hv as (_ & (H1 & _ & H3) & _);
    [lia|exact drained_wf|simpl; unfold in_i; lia|simpl; unfold in_i; lia|exact I|exact I|unfold in_u; lia|].
  exists err, ra, r'. split; [reflexivity|]. split; [exact H1|].
  eexists. exact (H3 1%nat _ 100 (conj eq_refl eq_refl)).
Defined.

(** A request whose token estimate exceeds the tokens-per-minute limit of its key is
    refused in every state and at every time, yet each refusal carries a retry delay. *)
Theorem oversized_request_never_admitted (F : F64) (FL : F64Laws F) clock k o model a lim c d est
    (r r' : RateLimiter F) res :
  k <> o -> limiter_wf r -> limit_ok a -> in_i 32 lim -> limit_ok c -> limit_ok d ->
  0 < lim < est -> in_u 32 est ->
  check_and_consume clock k o model a (Some lim) c d est r = (res, r') ->
  exists seconds, res = Err (PRateLimited, Some seconds).
Proof.
  intros N W Ha Hl Hc Hd Hlt He Hr. destruct res as [[]|[err ra]].
  - exfalso. unfold check_and_consume in Hr. set (es := caches _ _ _ _ _ _ _ _) in *.
    pose proof (caches_ok k o model a (Some lim) c d est Ha Hl Hc Hd He) as Hok. fold es in Hok.
    pose proof (caches_nodup k o model a (Some lim) c d est N) as Hnd. fold es in Hnd.
    pose proof (pass1_spec clock 0 es None r Hnd W Hok) as Hp.
    assert (es !! 1%nat = Some {| ce_rpm := false; ce_key := (k, model); ce_limit := Some lim;
                                  ce_amount := est |}) as H1 by done.
    clearbody es. destruct (pass1 clock 0 es None r) as [[m|] r1]; simplify_eq.
    destruct Hp as (Hn & _). symmetry in Hn. apply max_opt_fold_None in Hn as [_ Hn].
    rewrite Forall_lookup in Hn. specialize (Hn 1%nat). rewrite list_lookup_imap, H1 in Hn.
    specialize (Hn _ eq_refl). simpl in Hn.
    set (e := {| ce_rpm := false |}) in *. unfold in_i, in_u in *.
    assert (enforced (ce_limit e) = Some lim) as El.
    { simpl. rewrite (proj2 (Z.ltb_lt _ _)) by lia. rewrite wrap_u_small; [done|unfold in_u; lia]. }
    assert (entry_ok e) as Hoke by (by eapply Forall_lookup_1).
    destruct (visit_entry_false clock 1 e r lim W Hoke El) as [_ V]. apply V in Hn. simpl in Hn.
    destruct (found_wf clock 1 lim e r W) as [B1 B2 B3 B4 B5]; [unfold in_u; lia|lia|].
    assert (capacity (found clock 1 lim e r) = lim) as Hcap
      by (unfold found; by rewrite refill_capacity, sync_bucket_capacity).
    rewrite Hcap in *.
    assert (fleb (of_u32 est) (of_u32 lim) = true) as Hle.
    { apply (fleb_trans _ (tokens (found clock 1 lim e r)));
        [apply u32_num; unfold in_u; lia|done|apply u32_num; unfold in_u; lia|done|done]. }
    rewrite u32_leb in Hle by (unfold in_u; lia). lia.
  - unfold check_and_consume in Hr. destruct (pass1 _ _ _ _ _) as [[m|] r1]; simplify_eq. eauto.
Qed.

Lemma oversized_request_never_admitted_witness :
  exists seconds, (check_and_consume (F := exact64) (fun _ => (0, 0)) 7 8 "m" None (Some 10) None None 11
    limiter_new).1 = Err (PRateLimited, Some seconds).
Proof.
  destruct (check_and_consume (F := exact64) (fun _ => (0, 0)) 7 8 "m" None (Some 10) None None 11
              limiter_new) as [res r'] eqn:E.
  refine (oversized_request_never_admitted exact64 exact64_laws (fun _ => (0, 0)) 7 8 "m" None 10
    None None 11 limiter_new r' res _ limiter_new_wf I _ I I _ _ E);
    [lia|unfold in_i; lia|lia|unfold in_u; lia].
Defined.

(** ** Waiting, in exact arithmetic *)

Lemma exact_growth (t : Q) (c s : Z) :
  0 < c -> (t + (s * 10 ^ 9 # 1000000000) * (inject_Z c / inject_Z 60)
            == t + inject_Z s * (inject_Z c / inject_Z 60))%Q.
Proof.
  intros Hc. apply Qplus_comp; [reflexivity|]. apply Qmult_comp; [|reflexivity].
  unfold Qeq, inject_Z. simpl. lia.
Qed.

(** The reported delay is long enough: with exact arithmetic, if a bucket refuses an
    amount not above its capacity and reports [s] seconds, the same amount fits once [s]
    seconds have passed without other traffic. *)
Theorem retry_after_suffices now amount (b : TokenBucket exact64) s now' :
  bucket_wf b -> in_u 32 amount -> amount <= capacity b ->
  (deficit_retry_after now amount b).1 = Some s -> now + s * 10 ^ 9 <= now' ->
  (deficit_retry_after now' amount (deficit_retry_after now amount b).2).1 = None.
Proof.
  intros W Ha Hcap Hd Hnow. destruct (deficit_spec now amount b W Ha) as [Hb _].
  rewrite Hb. pose proof (refill_wf now b W) as W'.
  destruct (deficit_spec now' amount _ W' Ha) as [_ [_ ->]]; [done|].
  pose proof (bw_pos _ W) as Hpos.
  unfold deficit_retry_after in Hd. rewrite refill_capacity in Hd.
  rewrite (proj2 (Z.eqb_neq _ _)) in Hd by lia.
  destruct (fleb (fsub (of_u32 amount) (tokens (refill now b))) (of_u32 0)) eqn:Ef; [done|].
  rewrite rate_pos in Hd by (apply W || lia). injection Hd as Hs.
  assert (last_refill (refill now b) = now) as Hlr.
  { unfold refill. by rewrite (proj2 (Z.eqb_neq _ _)) by lia. }
  set (t := tokens (refill now b)) in *. unfold refill at 1. rewrite refill_capacity, Hlr.
  rewrite (proj2 (Z.eqb_neq _ _)) by lia. fold t. cbn [tokens].
  apply fmin_ge; [done|done| |by rewrite u32_leb by (apply W || done); lia].
  pose proof (bw_lo _ W') as Hlo. fold t in Hlo. simpl in t, Hs, Ef, Hlo |- *.
  apply Qle_bool_iff. apply Qle_bool_iff in Hlo. apply Qle_bool_false in Ef.
  set (rate := (inject_Z (capacity b) / inject_Z 60)%Q) in *.
  assert (0 < rate)%Q as Hrate.
  { apply Qlt_shift_div_l; [done|]. rewrite Qmult_0_l. change 0%Q with (inject_Z 0). by rewrite <- Zlt_Qlt. }
  change (inject_Z 0) with 0%Q in *.
  assert (inject_Z amount - t <= inject_Z 60 * rate)%Q as H60.
  { unfold rate. rewrite Qmult_div_r by done. rewrite Zle_Qle in Hcap. lra. }
  pose proof (Qle_ceiling ((inject_Z amount - t) / rate)) as Hc.
  set (q := ((inject_Z amount - t) / rate)%Q) in *.
  assert (q * rate == inject_Z amount - t)%Q as Hq by (unfold q; field; lra).
  assert (0 <= Qceiling q) as Hq0.
  { change 0 with (Qceiling 0). apply Qceiling_resp_le. apply Qle_shift_div_l; lra. }
  assert (Qceiling q <= 60) as Hq60.
  { change 60 with (Qceiling (inject_Z 60)). apply Qceiling_resp_le. apply Qle_shift_div_r; lra. }
  assert (Qceiling q = s) as Es by lia. rewrite Es in Hc.
  assert (inject_Z s <= (Z.max 0 (now' - now) # 1000000000))%Q as Hsec.
  { unfold Qle, inject_Z. simpl. lia. }
  assert (q * rate <= (Z.max 0 (now' - now) # 1000000000) * rate)%Q as Hm
    by (apply Qmult_le_compat_r; lra).
  lra.
Qed.

Lemma retry_after_suffices_witness :
  let b := debit 2 (bucket_new (F := exact64) 2 0) in
  (deficit_retry_after 0 1 b).1 = Some 30 /\
  (deficit_retry_after (30 * 10 ^ 9) 1 (deficit_retry_after 0 1 b).2).1 = None.
Proof.
  intros b. split; [reflexivity|].
  apply (retry_after_suffices 0 1 b 30); [|unfold in_u; lia|simpl; lia|reflexivity|lia].
  apply debit_wf; [apply bucket_new_wf; unfold in_u; lia|unfold in_u; lia|reflexivity].
Defined.

(** ** Two requests at once *)

(** The check and the commit are separate passes over the buckets, and the commit
    ignores its own answer.  Two requests for a key limited to one request per minute whose
    tentative passes both run before either commits are both admitted, on the binary64
    arithmetic of the machine; one of them is never charged. *)
Theorem concurrent_requests_overadmit :
  let es := caches 7 8 "m" (Some 1) None None None 1 in
  let clock := fun _ : nat => (0, 0) in
  let '(retry_a, r1) := pass1 (F := binary64) clock 0 es None {| rpm_buckets := ∅; tpm_buckets := ∅ |} in
  let '(retry_b, r2) := pass1 clock 0 es None r1 in
  let r3 := pass2 clock 4 es r2 in
  let r4 := pass2 clock 4 es r3 in
  let empty r := match get_slot r (true, (7, "m"%string)) with
                 | Some b => SFeqb (tokens b) (b64_of_Z 0)
                 | None => false
                 end in
  retry_a = None /\ retry_b = None /\ empty r2 = false /\ empty r3 = true /\ empty r4 = true /\
  (pass1 clock 0 es None r4).1 = Some 60.
Proof. vm_compute. repeat split. Qed.

(** ** Login attempts, in exact arithmetic *)

Fixpoint attempts (n : nat) (now : Z) (ip : string) (l : LoginLimiter exact64)
  : list (option Z) * LoginLimiter exact64 :=
  match n with
  | O => ([], l)
  | S n => let '(o, l) := attempt_allowed now now ip true l in
           let '(os, l) := attempts n now ip l in (o :: os, l)
  end.

Definition allowed_count (os : list (option Z)) : nat :=
  length (filterb (fun o => match o with None => true | Some _ => false end) os).

(** The bucket an address has, or will be given, at instant [now]. *)
Definition login_bucket (now : Z) (ip : string) (l : LoginLimiter exact64) : TokenBucket exact64 :=
  default (bucket_new (l_capacity l) now) (l_buckets l !! ip).

Lemma refill_same_instant (b : TokenBucket exact64) :
  bucket_wf b -> (tokens (refill (last_refill b) b) == tokens b)%Q /\
                 last_refill (refill (last_refill b) b) = last_refill b.
Proof.
  intros [H1 H2 H3 H4 H5]. unfold refill. rewrite (proj2 (Z.eqb_neq _ _)) by lia. simpl.
  split; [|done]. rewrite Z.sub_diag. change (Z.max 0 0) with 0.
  assert ((0 # 1000000000) * (inject_Z (capacity b) / inject_Z 60) == 0)%Q as Hz by (unfold Qeq; simpl; lia).
  simpl in H5. apply Qle_bool_iff in H5.
  destruct (Qle_bool _ _) eqn:E.
  - rewrite Hz. lra.
  - apply Qle_bool_false in E. rewrite Hz in E. lra.
Qed.

Lemma attempts_count n now ip (l : LoginLimiter exact64) (k : nat) :
  0 < l_capacity l -> bucket_wf (login_bucket now ip l) ->
  last_refill (login_bucket now ip l) = now ->
  (tokens (login_bucket now ip l) == inject_Z (Z.of_nat k))%Q ->
  allowed_count (attempts n now ip l).1 = Nat.min n k.
Proof.
  revert l k. induction n as [|n IH]; intros l k Hc W Hl Hk; [done|].
  cbn [attempts]. unfold attempt_allowed. rewrite (proj2 (Z.eqb_neq _ _)) by lia.
  fold (login_bucket now ip l). set (b := login_bucket now ip l) in *.
  assert (in_u 32 1) as H1 by (unfold in_u; lia).
  destruct (deficit_spec now 1 b W H1) as [D1 D2]. pose proof (refill_wf now b W) as W'.
  destruct (refill_same_instant b W) as [R1 R2]. rewrite Hl in R1, R2. rewrite Hk in R1.
  assert (forall b', login_bucket now ip
    {| l_capacity := l_capacity l; l_buckets := <[ip := b']> (l_buckets l) |} = b') as Hlb.
  { intros b'. unfold login_bucket. simpl. by rewrite lookup_insert_eq. }
  destruct (deficit_retry_after now 1 b) as [o b1]. simpl in D1, D2. subst b1.
  destruct o as [z|].
  - assert (k = 0%nat) as ->.
    { destruct k as [|k]; [done|]. exfalso. enough (Some z = None) by done. apply D2.
      apply Qle_bool_iff. rewrite R1. change 1%Q with (inject_Z 1). rewrite <- Zle_Qle. lia. }
    specialize (IH {| l_capacity := l_capacity l; l_buckets := <[ip := refill now b]> (l_buckets l) |} 0%nat).
    rewrite Hlb in IH. specialize (IH Hc W' R2 R1).
    destruct (attempts n now ip _) as [os l']. unfold allowed_count in *. simpl in *. lia.
  - destruct D2 as [D2 _]. specialize (D2 eq_refl).
    assert (exists k', k = S k') as [k' ->].
    { destruct k as [|k]; [|eauto]. apply Qle_bool_iff in D2. rewrite R1 in D2.
      change (inject_Z 1 <= inject_Z 0)%Q in D2. rewrite <- Zle_Qle in D2. lia. }
    specialize (IH {| l_capacity := l_capacity l; l_buckets := <[ip := debit 1 (refill now b)]> (l_buckets l) |} k').
    rewrite Hlb in IH. specialize (IH Hc (debit_wf 1 _ W' H1 D2) R2).
    destruct (attempts n now ip _) as [os l'].
    unfold allowed_count in *. cbn [fst filterb length] in *. rewrite IH; [lia|].
    simpl. rewrite R1. unfold Qeq. simpl. lia.
Qed.

(** The login limiter lets a burst of exactly [capacity] attempts from one address
    through; a capacity of zero disables it. *)
Theorem login_burst n now ip cap :
  in_u 32 cap ->
  allowed_count (attempts n now ip (login_new cap)).1 =
  if cap =? 0 then n else Nat.min n (Z.to_nat cap).
Proof.
  intros Hc. unfold in_u in Hc. case_cmp.
  - subst cap. induction n as [|n IH]; [done|]. cbn [attempts]. simpl attempt_allowed. cbv iota.
    simpl in IH |- *. destruct (attempts n now ip _) as [os l']. unfold allowed_count in *. simpl in *. lia.
  - assert (login_new (F := exact64) cap = {| l_capacity := cap; l_buckets := ∅ |}) as ->.
    { unfold login_new. by rewrite (proj2 (Z.ltb_lt 0 cap)) by lia. }
    apply attempts_count; unfold login_bucket; simpl; rewrite ?lookup_empty; simpl; try done; try lia.
    + apply bucket_new_wf; [unfold in_u; lia|lia].
    + rewrite Z2Nat.id by lia. reflexivity.
Qed.

Lemma login_burst_witness : allowed_count (attempts 8 0 "10.0.0.1" (login_new 5)).1 = 5%nat.
Proof. rewrite (login_burst 8 0 "10.0.0.1" 5); [reflexivity|unfold in_u; lia]. Defined.

(** ** The estimate *)

(** The bytes of a message that the estimate counts. *)
Definition message_bytes (m : ChatMessage) : Z :=
  (match msg_content m with None => 0 | Some contents => sumZ (content_len <$> contents) end)
  + str_len (msg_role m).

Lemma message_bytes_nonneg m : 0 <= message_bytes m.
Proof.
  unfold message_bytes. pose proof (str_len_nonneg (msg_role m)).
  destruct (msg_content m) as [cs|]; [|lia].
  assert (0 <= sumZ (content_len <$> cs)); [|lia]. apply sumZ_nonneg, Forall_fmap, Forall_true.
  intros [t|ps]; simpl; [apply str_len_nonneg|]. apply sumZ_nonneg, Forall_fmap, Forall_true.
  intros [t|i]; simpl; apply str_len_nonneg.
Qed.

(** The token estimate charged to the limits is the number of content and role bytes over
    four plus the requested [max_tokens] (a negative one counts as zero), never less than one;
    there is no overflow below eight gigabytes of text. *)
Theorem estimate_is_bytes_over_four req :
  sumZ (message_bytes <$> req_messages req) < 2 ^ 33 ->
  (forall z, req_max_tokens req = Some z -> in_i 32 z) ->
  estimate_request_tokens req =
    Z.max 1 (sumZ (message_bytes <$> req_messages req) / 4
             + match req_max_tokens req with Some z => Z.max z 0 | None => 0 end) /\
  in_u 32 (estimate_request_tokens req) /\ 1 <= estimate_request_tokens req.
Proof.
  intros Hb Hm.
  assert (0 <= sumZ (message_bytes <$> req_messages req)) as H0
    by (apply sumZ_nonneg, Forall_fmap, Forall_true, message_bytes_nonneg).
  assert (estimate_request_tokens req =
    Z.max 1 (sumZ (message_bytes <$> req_messages req) / 4
             + match req_max_tokens req with Some z => Z.max z 0 | None => 0 end)) as Heq.
  { unfold estimate_request_tokens.
    change (sumZ _) with (sumZ (message_bytes <$> req_messages req)).
    set (n := sumZ _) in *. assert (0 <= n / 4 < 2 ^ 31) as Hn.
    { split; [apply Z.div_pos; lia|apply Z.div_lt_upper_bound; lia]. }
    rewrite (wrap_u_small 64 n) by (unfold in_u; lia).
    destruct (req_max_tokens req) as [z|]; [specialize (Hm z eq_refl); unfold in_i in Hm|];
      rewrite ?(wrap_u_small 64) by (unfold in_u; lia); rewrite wrap_u_small by (unfold in_u; lia); lia. }
  split; [done|]. rewrite Heq. set (n := sumZ _) in *.
  assert (0 <= n / 4 < 2 ^ 31) as Hn.
  { split; [apply Z.div_pos; lia|apply Z.div_lt_upper_bound; lia]. }
  destruct (req_max_tokens req) as [z|]; [specialize (Hm z eq_refl); unfold in_i in Hm|]; unfold in_u; lia.
Qed.

Lemma estimate_is_bytes_over_four_witness :
  estimate_request_tokens (basic_request "m" [text_message "user" "hello world!"]) = 4.
Proof.
  destruct (estimate_is_bytes_over_four (basic_request "m" [text_message "user" "hello world!"]))
    as [-> _]; [simpl; vm_compute; reflexivity|discriminate|reflexivity].
Defined.
