(* ===== verification/Balancer.v ===== *)
(** * Load balancing

    [godwit-api/src/load_balancer.rs]: per-model counters and the three selection
    strategies.  Doubles are the binary64 values of [SpecFloat]; an entry of the map is only
    ever created, so the [Arc] a guard holds is the entry of its model. *)

From stdpp Require Import base list gmap.
From Stdlib Require Import SpecFloat.
From S2P Require Import Prelude Core.

#[local] Open Scope Z_scope.

(** [godwit-api/src/load_balancer.rs:6-10] [LoadBalancerState] *)
Record LoadBalancerState : Type := { rr_index : Z; in_flight : Z; latency_ewma : spec_float }.

(** [godwit-api/src/load_balancer.rs:13-19] [LoadBalancerState::new] *)
Definition lb_state_new : LoadBalancerState :=
  {| rr_index := 0; in_flight := 0; latency_ewma := S754_zero false |}.

Definition b64 (z : Z) : spec_float := binary_normalize 53 1024 z 0 false.

(** The literals [0.2] and [1.0 - 0.2]. *)
Definition alpha : spec_float := SFdiv 53 1024 (b64 1) (b64 5).
Definition one_minus_alpha : spec_float := SFsub 53 1024 (b64 1) alpha.

(** The only double whose bits are zero is positive zero.
    [godwit-api/src/load_balancer.rs:25-35] [LoadBalancerState::update_ewma] *)
Definition update_ewma (duration_ms : spec_float) (s : LoadBalancerState) : LoadBalancerState :=
  let old := latency_ewma s in
  let new := match old with
             | S754_zero false => duration_ms
             | _ => SFadd 53 1024 (SFmul 53 1024 alpha duration_ms) (SFmul 53 1024 one_minus_alpha old)
             end in
  {| rr_index := rr_index s; in_flight := in_flight s; latency_ewma := new |}.

(** [godwit-api/src/load_balancer.rs:38-40] [LoadBalancer] *)
Record LoadBalancer : Type := { states : gmap Uuid LoadBalancerState }.

Definition lb_new : LoadBalancer := {| states := ∅ |}.
Definition lb_put (id : Uuid) (s : LoadBalancerState) (b : LoadBalancer) : LoadBalancer :=
  {| states := <[id := s]> (states b) |}.

(** [godwit-api/src/load_balancer.rs:49-54] [LoadBalancer::get_state] *)
Definition get_state (id : Uuid) (b : LoadBalancer) : LoadBalancerState * LoadBalancer :=
  match states b !! id with
  | Some s => (s, b)
  | None => (lb_state_new, lb_put id lb_state_new b)
  end.

(** [godwit-api/src/load_balancer.rs:122-127] [LoadBalanceStrategy] *)
Inductive LoadBalanceStrategy : Type := RoundRobin | LeastBusy | Latency.

(** The scan of the two minimum searches: [lt] compares, [key] reads an entry, [best] is the
    pair of the best index and its key so far.
    [godwit-api/src/load_balancer.rs:72-82] [LoadBalancer::select_provider] *)
Fixpoint scan_min {K} (lt : K -> K -> bool) (key : LoadBalancerState -> K) (ids : list Uuid)
    (i : nat) (best : nat * K) (b : LoadBalancer) : nat * LoadBalancer :=
  match ids with
  | [] => (best.1, b)
  | id :: ids =>
    let '(s, b) := get_state id b in
    scan_min lt key ids (S i) (if lt (key s) best.2 then (i, key s) else best) b
  end.

(** [godwit-api/src/load_balancer.rs:56-98] [LoadBalancer::select_provider] *)
Definition select_provider (strategy : LoadBalanceStrategy) (model_ids : list Uuid) (b : LoadBalancer)
  : option nat * LoadBalancer :=
  match model_ids with
  | [] => (None, b)
  | first :: _ =>
    match strategy with
    | RoundRobin =>
      let '(s, b) := get_state first b in
      let idx := Z.to_nat (rr_index s mod Z.of_nat (length model_ids)) in
      (Some idx, lb_put first {| rr_index := as_usize (rr_index s + 1); in_flight := in_flight s;
                                 latency_ewma := latency_ewma s |} b)
    | LeastBusy =>
      let '(i, b) := scan_min Z.ltb in_flight model_ids 0 (0%nat, 2 ^ 64 - 1) b in (Some i, b)
    | Latency =>
      let '(i, b) := scan_min SFltb latency_ewma model_ids 0 (0%nat, S754_infinity false) b in (Some i, b)
    end
  end.

(** [godwit-api/src/load_balancer.rs:100-104] [LoadBalancer::increment_in_flight] *)
Definition increment_in_flight (id : Uuid) (b : LoadBalancer) : LoadBalancer :=
  let '(s, b) := get_state id b in
  lb_put id {| rr_index := rr_index s; in_flight := as_usize (in_flight s + 1);
               latency_ewma := latency_ewma s |} b.

(** [godwit-api/src/load_balancer.rs:116-120] [InFlightGuard::drop] *)
Definition drop_guard (id : Uuid) (b : LoadBalancer) : LoadBalancer :=
  let '(s, b) := get_state id b in
  lb_put id {| rr_index := rr_index s; in_flight := as_usize (in_flight s - 1);
               latency_ewma := latency_ewma s |} b.

(** [godwit-api/src/load_balancer.rs:106-109] [LoadBalancer::record_latency] *)
Definition record_latency (id : Uuid) (duration_ms : spec_float) (b : LoadBalancer) : LoadBalancer :=
  let '(s, b) := get_state id b in lb_put id (update_ewma duration_ms s) b.

(** ** Lemmas *)

(** The counters of a model, fresh if it has none yet. *)
Definition lb_of (b : LoadBalancer) (id : Uuid) : LoadBalancerState := default lb_state_new (states b !! id).

Lemma get_state_spec id b :
  (get_state id b).1 = lb_of b id /\ forall k, lb_of (get_state id b).2 k = lb_of b k.
Proof.
  unfold get_state, lb_of. destruct (states b !! id) eqn:E; simpl; [done|]. split; [done|].
  intros k. destruct (decide (id = k)) as [->|N].
  - by rewrite lookup_insert_eq, E.
  - by rewrite lookup_insert_ne.
Qed.

Lemma lb_put_spec id s b k : lb_of (lb_put id s b) k = if decide (id = k) then s else lb_of b k.
Proof.
  unfold lb_of, lb_put. simpl. case_decide as E.
  - subst. by rewrite lookup_insert_eq.
  - by rewrite lookup_insert_ne.
Qed.

Lemma scan_min_states {K} lt (key : LoadBalancerState -> K) ids i best b k :
  lb_of (scan_min lt key ids i best b).2 k = lb_of b k.
Proof.
  revert i best b. induction ids as [|id ids IH]; intros i best b; simpl; [done|].
  pose proof (get_state_spec id b) as [_ H]. destruct (get_state id b) as [s b'].
  rewrite IH. apply H.
Qed.

(** The scan keeps the first index among those with the least key. *)
Lemma scan_min_least (key : LoadBalancerState -> Z) ids pre bi bk b :
  (forall j id, pre !! j = Some id -> bk <= key (lb_of b id)) ->
  (forall id, pre !! bi = Some id -> key (lb_of b id) = bk) ->
  (forall j id, (j < bi)%nat -> pre !! j = Some id -> bk < key (lb_of b id)) ->
  (bi < length pre)%nat ->
  let res := (scan_min Z.ltb key ids (length pre) (bi, bk) b).1 in
  exists id, (pre ++ ids) !! res = Some id /\
    (forall j id', (pre ++ ids) !! j = Some id' -> key (lb_of b id) <= key (lb_of b id')) /\
    (forall j id', (j < res)%nat -> (pre ++ ids) !! j = Some id' -> key (lb_of b id) < key (lb_of b id')).
Proof.
  revert pre bi bk b. induction ids as [|x ids IH]; intros pre bi bk b H1 H2 H3 Hl; simpl.
  - rewrite app_nil_r. destruct (lookup_lt_is_Some_2 pre bi Hl) as [id Hid].
    exists id. rewrite (H2 id Hid). eauto.
  - pose proof (get_state_spec x b) as [Hs Hb]. destruct (get_state x b) as [s b']. simpl in Hs, Hb.
    replace (S (length pre)) with (length (pre ++ [x])) by (rewrite length_app; simpl; lia).
    rewrite (cons_middle x pre ids), app_assoc.
    destruct (Z.ltb_spec (key s) bk) as [L|L].
    + destruct (IH (pre ++ [x]) (length pre) (key s) b') as (id & I1 & I2 & I3).
      * intros j id Hj. rewrite Hb. apply lookup_app_Some in Hj as [Hj|[_ Hj]].
        { specialize (H1 _ _ Hj). lia. }
        { apply list_lookup_singleton_Some in Hj as [_ <-]. rewrite <- Hs. lia. }
      * intros id Hid. rewrite lookup_app_r, Nat.sub_diag in Hid by lia. simplify_eq/=. by rewrite Hb.
      * intros j id Hj Hid. rewrite lookup_app_l in Hid by lia. rewrite Hb. specialize (H1 _ _ Hid). lia.
      * rewrite length_app. simpl. lia.
      * exists id. setoid_rewrite Hb in I2. setoid_rewrite Hb in I3. eauto.
    + destruct (IH (pre ++ [x]) bi bk b') as (id & I1 & I2 & I3).
      * intros j id Hj. rewrite Hb. apply lookup_app_Some in Hj as [Hj|[_ Hj]]; [eauto|].
        apply list_lookup_singleton_Some in Hj as [_ <-]. by rewrite <- Hs.
      * intros id Hid. rewrite lookup_app_l in Hid by lia. rewrite Hb. eauto.
      * intros j id Hj Hid. rewrite lookup_app_l in Hid by lia. rewrite Hb. eauto.
      * rewrite length_app. simpl. lia.
      * exists id. setoid_rewrite Hb in I2. setoid_rewrite Hb in I3. eauto.
Qed.

(** ** Theorems *)

Fixpoint selections (n : nat) (ids : list Uuid) (b : LoadBalancer) : list nat * LoadBalancer :=
  match n with
  | O => ([], b)
  | S n =>
    let '(o, b) := select_provider RoundRobin ids b in
    let '(l, b) := selections n ids b in (default 0%nat o :: l, b)
  end.

Lemma selections_spec n first ids b :
  0 <= rr_index (lb_of b first) -> rr_index (lb_of b first) + Z.of_nat n <= 2 ^ 64 - 1 ->
  (selections n (first :: ids) b).1 =
  (fun i => Z.to_nat ((rr_index (lb_of b first) + Z.of_nat i) mod Z.of_nat (length (first :: ids))))
    <$> seq 0 n.
Proof.
  revert b. induction n as [|n IH]; intros b H0 Hn; [done|].
  cbn [selections]. unfold select_provider.
  pose proof (get_state_spec first b) as [Hs Hb]. destruct (get_state first b) as [s b1].
  simpl in Hs, Hb. subst s. set (r := rr_index (lb_of b first)) in *.
  set (b2 := lb_put _ _ b1). cbv zeta iota beta.
  assert (rr_index (lb_of b2 first) = r + 1) as Hr.
  { unfold b2. rewrite lb_put_spec, decide_True by done. simpl. apply wrap_u_small. unfold in_u. lia. }
  specialize (IH b2). rewrite Hr in IH. destruct (selections n (first :: ids) b2) as [l b3].
  cbn [fst] in *. rewrite IH by lia. cbn [seq]. rewrite <- seq_shift, fmap_cons, Z.add_0_r.
  f_equal. rewrite <- list_fmap_compose. apply list_fmap_ext. intros i x _. simpl.
  do 2 f_equal. lia.
Qed.

(** Round robin is fair: as long as the counter of the first model does not wrap, any
    [k] consecutive selections from [k] models pick every index exactly once. *)
Theorem round_robin_fair first ids b :
  let k := length (first :: ids) in
  0 <= rr_index (lb_of b first) -> rr_index (lb_of b first) + Z.of_nat k <= 2 ^ 64 - 1 ->
  (selections k (first :: ids) b).1 ≡ₚ seq 0 k.
Proof.
  intros k H0 Hk. unfold k at 1. rewrite selections_spec by done. fold k.
  set (r := rr_index (lb_of b first)) in *. assert (0 < Z.of_nat k) as Hpos by (subst k; simpl; lia).
  set (f := fun i => Z.to_nat ((r + Z.of_nat i) mod Z.of_nat k)).
  apply NoDup_Permutation_bis.
  - apply NoDup_ListNoDup, NoDup_fmap_2_strong; [|apply NoDup_seq].
    intros x y Hx%elem_of_seq Hy%elem_of_seq Hxy. unfold f in Hxy.
    pose proof (Z.mod_pos_bound (r + Z.of_nat x) (Z.of_nat k) Hpos).
    pose proof (Z.mod_pos_bound (r + Z.of_nat y) (Z.of_nat k) Hpos).
    assert ((r + Z.of_nat x) mod Z.of_nat k = (r + Z.of_nat y) mod Z.of_nat k) as E by lia.
    pose proof (Z.div_mod (r + Z.of_nat x) (Z.of_nat k) ltac:(lia)).
    pose proof (Z.div_mod (r + Z.of_nat y) (Z.of_nat k) ltac:(lia)).
    assert (Z.of_nat k * ((r + Z.of_nat x) / Z.of_nat k - (r + Z.of_nat y) / Z.of_nat k)
            = Z.of_nat x - Z.of_nat y) as D by lia.
    assert ((r + Z.of_nat x) / Z.of_nat k - (r + Z.of_nat y) / Z.of_nat k = 0) by nia. lia.
  - by rewrite length_fmap.
  - intros i Hi. apply list_elem_of_In, list_elem_of_fmap in Hi as (x & -> & Hx).
    apply list_elem_of_In, elem_of_seq. unfold f. pose proof (Z.mod_pos_bound (r + Z.of_nat x) (Z.of_nat k) Hpos). lia.
Qed.

Lemma round_robin_fair_witness :
  (selections 3 [10; 20; 30] (selections 2 [10; 20; 30] lb_new).2).1 ≡ₚ [0; 1; 2]%nat.
Proof.
  refine (round_robin_fair 10 [20; 30] (selections 2 [10; 20; 30] lb_new).2 _ _); vm_compute; congruence.
Defined.

(** least-busy selection returns the first index among the models with the fewest
    requests in flight. *)
Theorem least_busy_is_first_minimum first ids b :
  0 <= in_flight (lb_of b first) < 2 ^ 64 - 1 ->
  exists i id, (select_provider LeastBusy (first :: ids) b).1 = Some i /\
    (first :: ids) !! i = Some id /\
    (forall j id', (first :: ids) !! j = Some id' -> in_flight (lb_of b id) <= in_flight (lb_of b id')) /\
    (forall j id', (j < i)%nat -> (first :: ids) !! j = Some id' ->
       in_flight (lb_of b id) < in_flight (lb_of b id')).
Proof.
  intros H. unfold select_provider. cbn [scan_min].
  pose proof (get_state_spec first b) as [Hs Hb]. destruct (get_state first b) as [s b'].
  cbn [fst snd] in *. subst s. rewrite (proj2 (Z.ltb_lt _ _)) by lia.
  destruct (scan_min_least in_flight ids [first] 0 (in_flight (lb_of b first)) b') as (id & I1 & I2 & I3).
  - intros [|j] id Hj; simplify_eq/=. by rewrite Hb.
  - intros id Hid. simplify_eq/=. by rewrite Hb.
  - intros j id Hj. lia.
  - simpl. lia.
  - cbn [length] in *. destruct (scan_min _ _ _ _ _ _) as [i b2]. cbn [fst app] in *.
    exists i, id. setoid_rewrite Hb in I2. setoid_rewrite Hb in I3. eauto.
Qed.

Lemma least_busy_is_first_minimum_witness :
  let b := increment_in_flight 10 (increment_in_flight 30 lb_new) in
  exists i id, (select_provider LeastBusy [10; 20; 30] b).1 = Some i /\ [10; 20; 30] !! i = Some id /\ id = 20.
Proof.
  intros b. destruct (least_busy_is_first_minimum 10 [20; 30] b) as (i & id & H1 & H2 & H3 & _).
  - vm_compute. split; congruence.
  - exists i, id. split; [exact H1|]. split; [exact H2|].
    specialize (H3 1%nat 20 eq_refl). destruct i as [|[|[|i]]]; simplify_eq/=; try reflexivity;
      exfalso; vm_compute in H3; congruence.
Defined.

(** Requests starting and ending; a guard is dropped by the request that made it. *)
Inductive flight : Type := Begin (id : Uuid) | End (id : Uuid).

Definition flight_step (b : LoadBalancer) (f : flight) : LoadBalancer :=
  match f with Begin id => increment_in_flight id b | End id => drop_guard id b end.

(** Requests of [id] still open, and that no request ends before it begins. *)
Definition open_after (id : Uuid) (n : Z) (f : flight) : Z :=
  match f with
  | Begin k => if decide (k = id) then n + 1 else n
  | End k => if decide (k = id) then n - 1 else n
  end.

Fixpoint bracketed (id : Uuid) (n : Z) (fs : list flight) : Prop :=
  match fs with
  | [] => True
  | f :: fs => 0 <= open_after id n f < 2 ^ 64 /\ bracketed id (open_after id n f) fs
  end.

Lemma flight_step_in_flight b f id :
  in_flight (lb_of (flight_step b f) id) =
  match f with
  | Begin k => if decide (k = id) then as_usize (in_flight (lb_of b id) + 1) else in_flight (lb_of b id)
  | End k => if decide (k = id) then as_usize (in_flight (lb_of b id) - 1) else in_flight (lb_of b id)
  end.
Proof.
  destruct f as [k|k]; simpl; unfold increment_in_flight, drop_guard;
    pose proof (get_state_spec k b) as [Hs Hb]; destruct (get_state k b) as [s b']; simpl in *; subst s;
    rewrite lb_put_spec; case_decide; subst; simpl; by rewrite ?Hb.
Qed.

(** The in-flight counter of a model is exactly the number of its open requests, however
    the requests of different models interleave, and returns to its start when all are done. *)
Theorem in_flight_counts_open_requests id fs b :
  0 <= in_flight (lb_of b id) -> bracketed id (in_flight (lb_of b id)) fs ->
  in_flight (lb_of (fold_left flight_step fs b) id) =
  fold_left (open_after id) fs (in_flight (lb_of b id)).
Proof.
  revert b. induction fs as [|f fs IH]; intros b H0; simpl; [done|]. intros [Hr Hbr].
  assert (in_flight (lb_of (flight_step b f) id) = open_after id (in_flight (lb_of b id)) f) as E.
  { rewrite flight_step_in_flight. destruct f; simpl in *; case_decide; try done;
      apply wrap_u_small; unfold in_u; lia. }
  rewrite IH; rewrite ?E; [done|lia|done].
Qed.

Lemma in_flight_counts_open_requests_witness :
  in_flight (lb_of (fold_left flight_step [Begin 1; Begin 2; Begin 1; End 1; End 2] lb_new) 1) = 1.
Proof.
  rewrite (in_flight_counts_open_requests 1 [Begin 1; Begin 2; Begin 1; End 1; End 2] lb_new);
    [reflexivity|vm_compute; congruence|vm_compute; intuition congruence].
Defined.

(** Two model groups that start with the same model share one round-robin counter: used in
    turns, each group of two is pinned to a single member. *)
Theorem shared_counter_pins_groups :
  let alternate b := let '(o1, b) := select_provider RoundRobin [1; 2] b in
                     let '(o2, b) := select_provider RoundRobin [1; 3] b in ((o1, o2), b) in
  let '(p1, b1) := alternate lb_new in
  let '(p2, b2) := alternate b1 in
  p1 = (Some 0, Some 1)%nat /\ p2 = (Some 0, Some 1)%nat.
Proof. vm_compute. auto. Qed.
