(* ===== verification/Db.v ===== *)
(** * The database: rows, tables, statements, repositories

    The row types of [godwit-db/src/models.rs] and the repositories of
    [godwit-db/src/repositories/].  A repository method is a computation over the database
    state; every SQL statement it sends may fail, as a schedule of faults says, and a failed
    statement changes nothing.  The unique and foreign-key constraints of
    [godwit-db/migrations/] are checked by the statements that can break them; the text of a
    constraint error is the server's and is kept as a short constant.

    Decimals are exact rationals, rounded to the scale of the column they are written to;
    timestamps are integers. *)

From stdpp Require Import base strings list gmap.
From Stdlib Require Import QArith Qabs.
From S2P Require Import Prelude RustStr Json Core.

#[local] Open Scope string_scope.
#[local] Open Scope Z_scope.

(** ** Rows *)

(** [godwit-db/src/models.rs:6-13] [Organization] *)
Record Organization : Type := {
  org_id : Uuid; org_name : string; org_rpm : option Z; org_tpm : option Z; org_created_at : Z }.

(** [godwit-db/src/models.rs:15-36] [User] *)
Record User : Type := {
  user_id : Uuid;
  user_organization_id : option Uuid;
  user_email : string;
  user_name : option string;
  user_role : string;
  user_sso_provider : option string;
  user_sso_subject : option string;
  user_password_hash : option string;
  user_password_changed_at : option Z;
  user_password_expires_at : option Z;
  user_must_change_password : bool;
  user_created_at : Z;
}.

(** [godwit-db/src/models.rs:38-44] [UserRole] *)
Inductive UserRole : Type := URSuperAdmin | UROrgAdmin | URTeamAdmin | URUser.

(** [godwit-db/src/models.rs:47-54] [UserRole::as_str] *)
Definition user_role_as_str (r : UserRole) : string :=
  match r with
  | URSuperAdmin => "super_admin"
  | UROrgAdmin => "org_admin"
  | URTeamAdmin => "team_admin"
  | URUser => "user"
  end.

(** [godwit-db/src/models.rs:56-64] [UserRole::from_str] *)
Definition user_role_from_str (s : string) : option UserRole :=
  if String.eqb s "super_admin" then Some URSuperAdmin
  else if String.eqb s "org_admin" then Some UROrgAdmin
  else if String.eqb s "team_admin" then Some URTeamAdmin
  else if String.eqb s "user" then Some URUser
  else None.

(** [godwit-db/src/models.rs:67-88] [ApiKey] *)
Record ApiKey : Type := {
  key_id : Uuid;
  key_user_id : Uuid;
  key_team_id : option Uuid;
  key_organization_id : Uuid;
  key_name : string;
  key_prefix : string;
  key_hash : string;
  key_scopes : list string;
  key_allowed_models : list string;
  key_budget_limit_usd : option Q;
  key_budget_spent_usd : Q;
  key_rpm : option Z;
  key_tpm : option Z;
  key_expires_at : option Z;
  key_disabled : bool;
  key_created_at : Z;
}.

(** [godwit-db/src/models.rs:90-103] [Model] *)
Record Model : Type := {
  model_id : Uuid;
  public_id : string;
  model_provider : string;
  provider_profile_id : Uuid;
  provider_model_id : string;
  capabilities : list string;
  pricing : value;
  model_config : value;
  model_created_at : Z;
}.

(** [godwit-db/src/models.rs:105-109] [Model::has_capability] *)
Definition has_capability (m : Model) (c : Capability) : bool :=
  existsb (fun s => String.eqb s (capability_as_str c)) (capabilities m).

(** [godwit-db/src/models.rs:111-122] [ProviderProfile] *)
Record ProviderProfile : Type := {
  profile_id : Uuid;
  profile_name : string;
  profile_protocol : string;
  profile_base_url : option string;
  allow_wildcard : bool;
  profile_auth : value;
  profile_config : value;
  profile_enabled : bool;
  profile_created_at : Z;
}.

(** [godwit-db/src/models.rs:124-132] [Team] *)
Record Team : Type := {
  team_id : Uuid;
  team_organization_id : Uuid;
  team_name : string;
  team_budget_usd : option Q;
  team_max_budget_usd : option Q;
  team_created_at : Z;
}.

(** [godwit-db/src/models.rs:134-139] [TeamMembership] *)
Record TeamMembership : Type := { tm_user_id : Uuid; tm_team_id : Uuid; tm_role : string }.

(** [godwit-db/src/models.rs:141-152] [RefreshToken] *)
Record RefreshToken : Type := {
  rt_id : Uuid; rt_user_id : Uuid; rt_token_hash : string; rt_expires_at : Z; rt_created_at : Z }.

(** [godwit-db/src/models.rs:167-176] [EndUser] *)
Record EndUser : Type := {
  eu_id : Uuid;
  eu_organization_id : Uuid;
  eu_user_id : Uuid;
  eu_budget_usd : option Q;
  eu_max_budget_usd : option Q;
  eu_created_at : Z;
  eu_updated_at : Z;
}.

(** A row of the log: the fields of the struct and, last, the two token columns of the table,
    which only the spend report reads.
    [godwit-db/src/models.rs:178-197] [RequestLog] *)
Record RequestLog : Type := {
  log_id : Uuid;
  log_api_key_id : option Uuid;
  log_user_id : option Uuid;
  log_organization_id : Uuid;
  log_team_id : option Uuid;
  log_model : string;
  log_provider : string;
  log_provider_model_id : string;
  log_capability : string;
  log_duration_ms : Z;
  log_streamed : bool;
  log_status : string;
  log_cost_usd : option Q;
  log_tags : list string;
  log_created_at : Z;
  log_tool_calls_count : option Z;
  log_agentic_iteration : option Z;
  log_tokens_in : option Z;
  log_tokens_out : option Z;
}.

(** [godwit-db/src/models.rs:199-205] [ModelAlias] *)
Record ModelAlias : Type := {
  alias_id : Uuid; alias_name : string; alias_target_model_id : Uuid; alias_created_at : Z }.

(** One row of [password_history]; the source has no struct for it.
    [godwit-db/src/repositories/password_history.rs:14-34] [PasswordHistoryRepository] *)
Record PasswordHistory : Type := {
  ph_id : Uuid; ph_user_id : Uuid; ph_hash : string; ph_created_at : Z }.

(** [godwit-db/src/models.rs:154-165] [PasswordResetToken] *)
Record PasswordResetToken : Type := {
  prt_id : Uuid; prt_user_id : Uuid; prt_token_hash : string; prt_expires_at : Z; prt_created_at : Z;
  prt_used_at : option Z }.

(** ** The database state

    One list of rows per table, and what the server supplies: the next generated identifier,
    the current time, and the outcome of each statement to come ([Some msg]: the statement
    fails with that message and changes nothing). *)
Record Db : Type := {
  t_organizations : list Organization;
  t_users : list User;
  t_api_keys : list ApiKey;
  t_models : list Model;
  t_provider_profiles : list ProviderProfile;
  t_teams : list Team;
  t_team_memberships : list TeamMembership;
  t_refresh_tokens : list RefreshToken;
  t_end_users : list EndUser;
  t_request_logs : list RequestLog;
  t_model_aliases : list ModelAlias;
  t_password_history : list PasswordHistory;
  t_password_reset_tokens : list PasswordResetToken;
  db_faults : list (option string);
  db_next : Uuid;
  db_now : Z;
}.

Definition put_organizations (x : list Organization) (d : Db) : Db :=
  {| t_organizations := x; t_users := t_users d; t_api_keys := t_api_keys d; t_models :=
     t_models d; t_provider_profiles := t_provider_profiles d; t_teams := t_teams d;
     t_team_memberships := t_team_memberships d; t_refresh_tokens := t_refresh_tokens d;
     t_end_users := t_end_users d; t_request_logs := t_request_logs d; t_model_aliases :=
     t_model_aliases d; t_password_history := t_password_history d; t_password_reset_tokens
     := t_password_reset_tokens d; db_faults := db_faults d; db_next := db_next d; db_now :=
     db_now d |}.

Definition put_users (x : list User) (d : Db) : Db :=
  {| t_organizations := t_organizations d; t_users := x; t_api_keys := t_api_keys d;
     t_models := t_models d; t_provider_profiles := t_provider_profiles d; t_teams :=
     t_teams d; t_team_memberships := t_team_memberships d; t_refresh_tokens :=
     t_refresh_tokens d; t_end_users := t_end_users d; t_request_logs := t_request_logs d;
     t_model_aliases := t_model_aliases d; t_password_history := t_password_history d;
     t_password_reset_tokens := t_password_reset_tokens d; db_faults := db_faults d; db_next
     := db_next d; db_now := db_now d |}.

Definition put_api_keys (x : list ApiKey) (d : Db) : Db :=
  {| t_organizations := t_organizations d; t_users := t_users d; t_api_keys := x; t_models
     := t_models d; t_provider_profiles := t_provider_profiles d; t_teams := t_teams d;
     t_team_memberships := t_team_memberships d; t_refresh_tokens := t_refresh_tokens d;
     t_end_users := t_end_users d; t_request_logs := t_request_logs d; t_model_aliases :=
     t_model_aliases d; t_password_history := t_password_history d; t_password_reset_tokens
     := t_password_reset_tokens d; db_faults := db_faults d; db_next := db_next d; db_now :=
     db_now d |}.

Definition put_models (x : list Model) (d : Db) : Db :=
  {| t_organizations := t_organizations d; t_users := t_users d; t_api_keys := t_api_keys d;
     t_models := x; t_provider_profiles := t_provider_profiles d; t_teams := t_teams d;
     t_team_memberships := t_team_memberships d; t_refresh_tokens := t_refresh_tokens d;
     t_end_users := t_end_users d; t_request_logs := t_request_logs d; t_model_aliases :=
     t_model_aliases d; t_password_history := t_password_history d; t_password_reset_tokens
     := t_password_reset_tokens d; db_faults := db_faults d; db_next := db_next d; db_now :=
     db_now d |}.

Definition put_provider_profiles (x : list ProviderProfile) (d : Db) : Db :=
  {| t_organizations := t_organizations d; t_users := t_users d; t_api_keys := t_api_keys d;
     t_models := t_models d; t_provider_profiles := x; t_teams := t_teams d;
     t_team_memberships := t_team_memberships d; t_refresh_tokens := t_refresh_tokens d;
     t_end_users := t_end_users d; t_request_logs := t_request_logs d; t_model_aliases :=
     t_model_aliases d; t_password_history := t_password_history d; t_password_reset_tokens
     := t_password_reset_tokens d; db_faults := db_faults d; db_next := db_next d; db_now :=
     db_now d |}.

Definition put_teams (x : list Team) (d : Db) : Db :=
  {| t_organizations := t_organizations d; t_users := t_users d; t_api_keys := t_api_keys d;
     t_models := t_models d; t_provider_profiles := t_provider_profiles d; t_teams := x;
     t_team_memberships := t_team_memberships d; t_refresh_tokens := t_refresh_tokens d;
     t_end_users := t_end_users d; t_request_logs := t_request_logs d; t_model_aliases :=
     t_model_aliases d; t_password_history := t_password_history d; t_password_reset_tokens
     := t_password_reset_tokens d; db_faults := db_faults d; db_next := db_next d; db_now :=
     db_now d |}.

Definition put_team_memberships (x : list TeamMembership) (d : Db) : Db :=
  {| t_organizations := t_organizations d; t_users := t_users d; t_api_keys := t_api_keys d;
     t_models := t_models d; t_provider_profiles := t_provider_profiles d; t_teams :=
     t_teams d; t_team_memberships := x; t_refresh_tokens := t_refresh_tokens d; t_end_users
     := t_end_users d; t_request_logs := t_request_logs d; t_model_aliases :=
     t_model_aliases d; t_password_history := t_password_history d; t_password_reset_tokens
     := t_password_reset_tokens d; db_faults := db_faults d; db_next := db_next d; db_now :=
     db_now d |}.

Definition put_refresh_tokens (x : list RefreshToken) (d : Db) : Db :=
  {| t_organizations := t_organizations d; t_users := t_users d; t_api_keys := t_api_keys d;
     t_models := t_models d; t_provider_profiles := t_provider_profiles d; t_teams :=
     t_teams d; t_team_memberships := t_team_memberships d; t_refresh_tokens := x;
     t_end_users := t_end_users d; t_request_logs := t_request_logs d; t_model_aliases :=
     t_model_aliases d; t_password_history := t_password_history d; t_password_reset_tokens
     := t_password_reset_tokens d; db_faults := db_faults d; db_next := db_next d; db_now :=
     db_now d |}.

Definition put_end_users (x : list EndUser) (d : Db) : Db :=
  {| t_organizations := t_organizations d; t_users := t_users d; t_api_keys := t_api_keys d;
     t_models := t_models d; t_provider_profiles := t_provider_profiles d; t_teams :=
     t_teams d; t_team_memberships := t_team_memberships d; t_refresh_tokens :=
     t_refresh_tokens d; t_end_users := x; t_request_logs := t_request_logs d;
     t_model_aliases := t_model_aliases d; t_password_history := t_password_history d;
     t_password_reset_tokens := t_password_reset_tokens d; db_faults := db_faults d; db_next
     := db_next d; db_now := db_now d |}.

Definition put_request_logs (x : list RequestLog) (d : Db) : Db :=
  {| t_organizations := t_organizations d; t_users := t_users d; t_api_keys := t_api_keys d;
     t_models := t_models d; t_provider_profiles := t_provider_profiles d; t_teams :=
     t_teams d; t_team_memberships := t_team_memberships d; t_refresh_tokens :=
     t_refresh_tokens d; t_end_users := t_end_users d; t_request_logs := x; t_model_aliases
     := t_model_aliases d; t_password_history := t_password_history d;
     t_password_reset_tokens := t_password_reset_tokens d; db_faults := db_faults d; db_next
     := db_next d; db_now := db_now d |}.

Definition put_model_aliases (x : list ModelAlias) (d : Db) : Db :=
  {| t_organizations := t_organizations d; t_users := t_users d; t_api_keys := t_api_keys d;
     t_models := t_models d; t_provider_profiles := t_provider_profiles d; t_teams :=
     t_teams d; t_team_memberships := t_team_memberships d; t_refresh_tokens :=
     t_refresh_tokens d; t_end_users := t_end_users d; t_request_logs := t_request_logs d;
     t_model_aliases := x; t_password_history := t_password_history d;
     t_password_reset_tokens := t_password_reset_tokens d; db_faults := db_faults d; db_next
     := db_next d; db_now := db_now d |}.

Definition put_password_history (x : list PasswordHistory) (d : Db) : Db :=
  {| t_organizations := t_organizations d; t_users := t_users d; t_api_keys := t_api_keys d;
     t_models := t_models d; t_provider_profiles := t_provider_profiles d; t_teams :=
     t_teams d; t_team_memberships := t_team_memberships d; t_refresh_tokens :=
     t_refresh_tokens d; t_end_users := t_end_users d; t_request_logs := t_request_logs d;
     t_model_aliases := t_model_aliases d; t_password_history := x; t_password_reset_tokens
     := t_password_reset_tokens d; db_faults := db_faults d; db_next := db_next d; db_now :=
     db_now d |}.

Definition put_password_reset_tokens (x : list PasswordResetToken) (d : Db) : Db :=
  {| t_organizations := t_organizations d; t_users := t_users d; t_api_keys := t_api_keys d;
     t_models := t_models d; t_provider_profiles := t_provider_profiles d; t_teams :=
     t_teams d; t_team_memberships := t_team_memberships d; t_refresh_tokens :=
     t_refresh_tokens d; t_end_users := t_end_users d; t_request_logs := t_request_logs d;
     t_model_aliases := t_model_aliases d; t_password_history := t_password_history d;
     t_password_reset_tokens := x; db_faults := db_faults d; db_next := db_next d; db_now :=
     db_now d |}.

Definition put_faults (x : list (option string)) (d : Db) : Db :=
  {| t_organizations := t_organizations d; t_users := t_users d; t_api_keys := t_api_keys d;
     t_models := t_models d; t_provider_profiles := t_provider_profiles d; t_teams :=
     t_teams d; t_team_memberships := t_team_memberships d; t_refresh_tokens :=
     t_refresh_tokens d; t_end_users := t_end_users d; t_request_logs := t_request_logs d;
     t_model_aliases := t_model_aliases d; t_password_history := t_password_history d;
     t_password_reset_tokens := t_password_reset_tokens d; db_faults := x; db_next :=
     db_next d; db_now := db_now d |}.

Definition put_next (x : Uuid) (d : Db) : Db :=
  {| t_organizations := t_organizations d; t_users := t_users d; t_api_keys := t_api_keys d;
     t_models := t_models d; t_provider_profiles := t_provider_profiles d; t_teams :=
     t_teams d; t_team_memberships := t_team_memberships d; t_refresh_tokens :=
     t_refresh_tokens d; t_end_users := t_end_users d; t_request_logs := t_request_logs d;
     t_model_aliases := t_model_aliases d; t_password_history := t_password_history d;
     t_password_reset_tokens := t_password_reset_tokens d; db_faults := db_faults d; db_next
     := x; db_now := db_now d |}.

(** A table seen through its getter and setter. *)
Record table (R : Type) : Type := { rows : Db -> list R; put : list R -> Db -> Db }.
Arguments rows {R} t d.
Arguments put {R} t x d.

Definition organizations : table Organization := {| rows := t_organizations; put := put_organizations |}.
Definition users : table User := {| rows := t_users; put := put_users |}.
Definition api_keys : table ApiKey := {| rows := t_api_keys; put := put_api_keys |}.
Definition models : table Model := {| rows := t_models; put := put_models |}.
Definition provider_profiles : table ProviderProfile := {| rows := t_provider_profiles; put := put_provider_profiles |}.
Definition teams : table Team := {| rows := t_teams; put := put_teams |}.
Definition team_memberships : table TeamMembership := {| rows := t_team_memberships; put := put_team_memberships |}.
Definition refresh_tokens : table RefreshToken := {| rows := t_refresh_tokens; put := put_refresh_tokens |}.
Definition end_users : table EndUser := {| rows := t_end_users; put := put_end_users |}.
Definition request_logs : table RequestLog := {| rows := t_request_logs; put := put_request_logs |}.
Definition model_aliases : table ModelAlias := {| rows := t_model_aliases; put := put_model_aliases |}.
Definition password_history : table PasswordHistory := {| rows := t_password_history; put := put_password_history |}.
Definition password_reset_tokens : table PasswordResetToken := {| rows := t_password_reset_tokens; put := put_password_reset_tokens |}.

(** ** Statements *)

Abbreviation DB := (ST Db PasteurError).

(** Send one statement: take its fate from the schedule. *)
Definition stmt : DB unit := fun d =>
  match db_faults d with
  | Some msg :: rest => (Err (Database msg), put_faults rest d)
  | None :: rest => (Ok tt, put_faults rest d)
  | [] => (Ok tt, d)
  end.

Definition get_db : DB Db := gets (fun d => d).

(** [gen_random_uuid()]. *)
Definition fresh_id : DB Uuid := fun d => (Ok (db_next d), put_next (db_next d + 1) d).

(** What [fetch_one] reports on an empty result: [sqlx::Error::RowNotFound], which some
    repositories turn into [NotFound] and some into a database error. *)
Definition row_not_found : PasteurError :=
  Database "no rows returned by a query that expected to return at least one row".

(** [SELECT ... WHERE p]. *)
Definition select_one {R} (t : table R) (p : R -> bool) : DB R :=
  stmt;; d ← get_db;
  match filterb p (rows t d) with r :: _ => mret r | [] => throw PNotFound end.

(** Insertion sort, for [ORDER BY]. *)
Fixpoint insert_by {R} (le : R -> R -> bool) (x : R) (l : list R) : list R :=
  match l with
  | [] => [x]
  | y :: l' => if le x y then x :: l else y :: insert_by le x l'
  end.
Definition order_by {R} (le : R -> R -> bool) (l : list R) : list R := foldr (insert_by le) [] l.
Definition str_le (a b : string) : bool := match String.compare a b with Gt => false | _ => true end.

Definition select_all {R} (t : table R) (p : R -> bool) (le : R -> R -> bool) : DB (list R) :=
  stmt;; d ← get_db; mret (order_by le (filterb p (rows t d))).
Definition unordered {R} (_ _ : R) : bool := true.

(** [INSERT ... RETURNING *]; [ok] are the constraints of the table. *)
Definition insert_row {R} (t : table R) (ok : R -> Db -> bool) (r : R) : DB R :=
  stmt;; d ← get_db;
  if ok r d then (modify (put t (rows t d ++ [r]));; mret r) else throw (Database "constraint violation").

(** [UPDATE ... WHERE p RETURNING *] with [fetch_one]; [none] is the error when no row
    matches, [ok] the constraints on a changed row. *)
Definition update_rows {R} (t : table R) (p : R -> bool) (f : R -> R) (ok : R -> Db -> bool)
    (none : PasteurError) : DB R :=
  stmt;; d ← get_db;
  match filterb p (rows t d) with
  | [] => throw none
  | r :: _ =>
    if forallb (fun x => ok (f x) d) (filterb p (rows t d))
    then (modify (put t ((fun x => if p x then f x else x) <$> rows t d));; mret (f r))
    else throw (Database "constraint violation")
  end.
Definition unchecked {R} (_ : R) (_ : Db) : bool := true.

(** What a [NUMERIC(12, s)] column of the migrations keeps of a number: [s] decimals, halves
    rounded away from zero.  A number of more than [12 - s] digits before the point does not
    fit, and the statement fails. *)
Definition decimals (s : Z) (q : Q) : Z :=
  let n := Qnum q * 10 ^ s in
  Z.sgn n * ((2 * Z.abs n + Zpos (Qden q)) / (2 * Zpos (Qden q))).
Definition numeric (s : Z) (q : Q) : Q := decimals s q # Z.to_pos (10 ^ s).
Definition fits_column (s : Z) (o : option Q) : bool :=
  match o with Some q => Z.abs (decimals s q) <? 10 ^ 12 | None => true end.

(** [DELETE ... WHERE p]; the number of rows removed. *)
Definition delete_rows {R} (t : table R) (p : R -> bool) : DB Z :=
  stmt;; d ← get_db;
  let gone := filterb p (rows t d) in
  modify (put t (filterb (fun x => negb (p x)) (rows t d)));; mret (Z.of_nat (length gone)).

(** Tests used in [WHERE] clauses. *)
Definition is_id (a b : Uuid) : bool := Z.eqb a b.
Definition is_opt_id (a : option Uuid) (b : Uuid) : bool := match a with Some x => Z.eqb x b | None => false end.
Definition opt_id_ok {R} (f : R -> Uuid) (o : option Uuid) (l : list R) : bool :=
  match o with None => true | Some x => existsb (fun r => is_id (f r) x) l end.
Definition same_opt (a b : option Uuid) : bool := bool_decide (a = b).

(** ** Models *)

(** [godwit-db/src/repositories/models.rs:10-20] [parse_capabilities] *)
Definition parse_capabilities (s : string) : list string :=
  let caps := filterb (fun c => negb (is_empty c)) (trim <$> split_char (byte 44) s) in
  match caps with [] => ["chat"] | _ => caps end.

(** [godwit-db/src/repositories/models.rs:22-33] [validate_pricing] *)
Definition validate_pricing (p : value) : result PasteurError unit :=
  match get "input_price_per_million" p, get "output_price_per_million" p with
  | Some _, Some _ => Ok tt
  | _, _ => Err (Validation "pricing must include input_price_per_million and output_price_per_million")
  end.

(** The values of [models.provider] and [models.capabilities] the schema admits. *)
Definition known_providers : list string :=
  ["openai"; "anthropic"; "gemini"; "vllm"; "sglang"; "llama_cpp"; "ollama"].
Definition known_capabilities : list string :=
  ["chat"; "image_generation"; "image_edit"; "video_generation"; "audio_tts"; "audio_stt"; "embedding"].
Definition str_in (l : list string) (s : string) : bool := existsb (String.eqb s) l.

Definition model_ok (m : Model) (d : Db) : bool :=
  negb (existsb (fun x => is_id (provider_profile_id x) (provider_profile_id m)
                          && String.eqb (public_id x) (public_id m)) (t_models d))
  && existsb (fun p => is_id (profile_id p) (provider_profile_id m)) (t_provider_profiles d)
  && str_in known_providers (model_provider m) && forallb (str_in known_capabilities) (capabilities m).

(** [godwit-db/src/repositories/models.rs:40-62] [ModelRepository::create] *)
Definition model_create (pub provider : string) (profile : Uuid) (upstream caps : string) (price : value) : DB Model :=
  lift (validate_pricing price);;
  id ← fresh_id; now ← gets db_now;
  insert_row models model_ok
    {| model_id := id; public_id := pub; model_provider := provider; provider_profile_id := profile;
       provider_model_id := upstream; capabilities := parse_capabilities caps; pricing := price;
       model_config := VObject []; model_created_at := now |}.

(** [godwit-db/src/repositories/models.rs:64-69] [ModelRepository::list] *)
Definition model_list : DB (list Model) :=
  select_all models (fun _ => true) (fun a b => str_le (public_id a) (public_id b)).

(** [godwit-db/src/repositories/models.rs:71-80] [ModelRepository::get] *)
Definition model_get (id : Uuid) : DB Model := select_one models (fun m => is_id (model_id m) id).

(** [godwit-db/src/repositories/models.rs:82-91] [ModelRepository::get_by_public_id] *)
Definition model_get_by_public_id (pub : string) : DB Model :=
  select_one models (fun m => String.eqb (public_id m) pub).

(** [godwit-db/src/repositories/models.rs:93-109] [ModelRepository::get_by_profile_and_public_id] *)
Definition model_get_by_profile_and_public_id (profile : Uuid) (pub : string) : DB Model :=
  select_one models (fun m => is_id (provider_profile_id m) profile && String.eqb (public_id m) pub).

(** [godwit-db/src/repositories/models.rs:111-131] [ModelRepository::update] *)
Definition model_update (id : Uuid) (pub caps : option string) : DB Model :=
  current ← model_get id;
  let new_pub := default (public_id current) pub in
  let new_caps := default (capabilities current) (parse_capabilities <$> caps) in
  let f m := {| model_id := model_id m; public_id := new_pub; model_provider := model_provider m;
                provider_profile_id := provider_profile_id m; provider_model_id := provider_model_id m;
                capabilities := new_caps; pricing := pricing m; model_config := model_config m;
                model_created_at := model_created_at m |} in
  update_rows models (fun m => is_id (model_id m) id) f
    (fun m d => forallb (str_in known_capabilities) (capabilities m)
       && negb (existsb (fun x => negb (is_id (model_id x) (model_id m))
                                  && is_id (provider_profile_id x) (provider_profile_id m)
                                  && String.eqb (public_id x) (public_id m)) (t_models d)))
    row_not_found.

(** Aliases of a deleted model go with it.
    [godwit-db/src/repositories/models.rs:133-140] [ModelRepository::delete] *)
Definition model_delete (id : Uuid) : DB unit :=
  delete_rows models (fun m => is_id (model_id m) id);;
  modify (fun d => put_model_aliases (filterb (fun a => negb (is_id (alias_target_model_id a) id)) (t_model_aliases d)) d).

(** ** Provider profiles *)

Definition profile_ok (p : ProviderProfile) (d : Db) : bool :=
  negb (existsb (fun x => String.eqb (profile_name x) (profile_name p)) (t_provider_profiles d)).

(** [godwit-db/src/repositories/provider_profiles.rs:16-33] [ProviderProfileRepository::create] *)
Definition profile_create (name protocol : string) (base_url : option string) (wildcard : bool) : DB ProviderProfile :=
  id ← fresh_id; now ← gets db_now;
  insert_row provider_profiles profile_ok
    {| profile_id := id; profile_name := name; profile_protocol := protocol; profile_base_url := base_url;
       allow_wildcard := wildcard; profile_auth := VObject []; profile_config := VObject [];
       profile_enabled := true; profile_created_at := now |}.

(** [godwit-db/src/repositories/provider_profiles.rs:35-40] [ProviderProfileRepository::list] *)
Definition profile_list : DB (list ProviderProfile) :=
  select_all provider_profiles (fun _ => true) (fun a b => str_le (profile_name a) (profile_name b)).

(** [godwit-db/src/repositories/provider_profiles.rs:42-51] [ProviderProfileRepository::get] *)
Definition profile_get (id : Uuid) : DB ProviderProfile :=
  select_one provider_profiles (fun p => is_id (profile_id p) id).

(** [godwit-db/src/repositories/provider_profiles.rs:53-62] [ProviderProfileRepository::get_by_name] *)
Definition profile_get_by_name (name : string) : DB ProviderProfile :=
  select_one provider_profiles (fun p => String.eqb (profile_name p) name).

(** [godwit-db/src/repositories/provider_profiles.rs:64-82] [ProviderProfileRepository::update] *)
Definition profile_update (id : Uuid) (base_url : option string) (wildcard enabled : option bool) : DB ProviderProfile :=
  current ← profile_get id;
  update_rows provider_profiles (fun p => is_id (profile_id p) id)
    (fun p => {| profile_id := profile_id p; profile_name := profile_name p;
                 profile_protocol := profile_protocol p;
                 profile_base_url := opt_or base_url (profile_base_url current);
                 allow_wildcard := default (allow_wildcard current) wildcard;
                 profile_auth := profile_auth p; profile_config := profile_config p;
                 profile_enabled := default (profile_enabled current) enabled;
                 profile_created_at := profile_created_at p |})
    unchecked row_not_found.

(** [godwit-auth/src/credentials.rs:7-11] [EncryptedSecret] *)
Record EncryptedSecret : Type := { ciphertext : string; nonce : string }.

(** [godwit-db/src/repositories/provider_profiles.rs:84-99] [ProviderProfileRepository::set_auth] *)
Definition profile_set_auth (id : Uuid) (secret : EncryptedSecret) : DB ProviderProfile :=
  let auth := obj [("ciphertext", VString (ciphertext secret)); ("nonce", VString (nonce secret))] in
  update_rows provider_profiles (fun p => is_id (profile_id p) id)
    (fun p => {| profile_id := profile_id p; profile_name := profile_name p;
                 profile_protocol := profile_protocol p; profile_base_url := profile_base_url p;
                 allow_wildcard := allow_wildcard p; profile_auth := auth;
                 profile_config := profile_config p; profile_enabled := profile_enabled p;
                 profile_created_at := profile_created_at p |})
    unchecked row_not_found.

(** ** Organizations *)

(** [godwit-db/src/repositories/organizations.rs:24-39] [OrganizationRepository::create_with_limits] *)
Definition org_create_with_limits (name : string) (rpm tpm : option Z) : DB Organization :=
  id ← fresh_id; now ← gets db_now;
  insert_row organizations unchecked
    {| org_id := id; org_name := name; org_rpm := rpm; org_tpm := tpm; org_created_at := now |}.

(** [godwit-db/src/repositories/organizations.rs:15-22] [OrganizationRepository::create] *)
Definition org_create (name : string) (rpm : option Z) : DB Organization :=
  org_create_with_limits name rpm None.

(** [godwit-db/src/repositories/organizations.rs:41-50] [OrganizationRepository::get_by_id] *)
Definition org_get_by_id (id : Uuid) : DB Organization :=
  select_one organizations (fun o => is_id (org_id o) id).

(** [godwit-db/src/repositories/organizations.rs:52-57] [OrganizationRepository::list] *)
Definition org_list : DB (list Organization) :=
  select_all organizations (fun _ => true) (fun a b => str_le (org_name a) (org_name b)).

(** [godwit-db/src/repositories/organizations.rs:69-87] [OrganizationRepository::update_with_limits] *)
Definition org_update_with_limits (id : Uuid) (name : option string) (rpm tpm : option Z) : DB Organization :=
  current ← org_get_by_id id;
  update_rows organizations (fun o => is_id (org_id o) id)
    (fun o => {| org_id := org_id o; org_name := default (org_name current) name;
                 org_rpm := opt_or rpm (org_rpm current); org_tpm := opt_or tpm (org_tpm current);
                 org_created_at := org_created_at o |})
    unchecked row_not_found.

(** [godwit-db/src/repositories/organizations.rs:59-67] [OrganizationRepository::update] *)
Definition org_update (id : Uuid) (name : option string) (rpm : option Z) : DB Organization :=
  org_update_with_limits id name rpm None.

(** Users, teams, keys and logs of an organization forbid its deletion; its end users go
    with it.
    [godwit-db/src/repositories/organizations.rs:89-96] [OrganizationRepository::delete] *)
Definition org_delete (id : Uuid) : DB unit :=
  d ← get_db;
  if existsb (fun u => is_opt_id (user_organization_id u) id) (t_users d)
     || existsb (fun t => is_id (team_organization_id t) id) (t_teams d)
     || existsb (fun k => is_id (key_organization_id k) id) (t_api_keys d)
     || existsb (fun l => is_id (log_organization_id l) id) (t_request_logs d)
  then (stmt;; throw (Database "constraint violation"))
  else
    delete_rows organizations (fun o => is_id (org_id o) id);;
    modify (fun d => put_end_users (filterb (fun e => negb (is_id (eu_organization_id e) id)) (t_end_users d)) d).

(** ** Users *)

Definition user_fk_ok (u : User) (d : Db) : bool :=
  opt_id_ok org_id (user_organization_id u) (t_organizations d)
  && str_in ["super_admin"; "org_admin"; "team_admin"; "user"] (user_role u).
Definition user_ok (u : User) (d : Db) : bool :=
  negb (existsb (fun x => String.eqb (user_email x) (user_email u)) (t_users d)) && user_fk_ok u d.

(** [godwit-db/src/repositories/users.rs:16-33] [UserRepository::create] *)
Definition user_create (email : string) (name : option string) (role : UserRole) (org : option Uuid) : DB User :=
  id ← fresh_id; now ← gets db_now;
  insert_row users user_ok
    {| user_id := id; user_organization_id := org; user_email := email; user_name := name;
       user_role := user_role_as_str role; user_sso_provider := None; user_sso_subject := None;
       user_password_hash := None; user_password_changed_at := None; user_password_expires_at := None;
       user_must_change_password := false; user_created_at := now |}.

(** [godwit-db/src/repositories/users.rs:35-44] [UserRepository::get_by_id] *)
Definition user_get_by_id (id : Uuid) : DB User := select_one users (fun u => is_id (user_id u) id).

(** [godwit-db/src/repositories/users.rs:46-55] [UserRepository::get_by_email] *)
Definition user_get_by_email (email : string) : DB User :=
  select_one users (fun u => String.eqb (user_email u) email).

(** [godwit-db/src/repositories/users.rs:57-66] [UserRepository::list_for_organization] *)
Definition user_list_for_organization (org : Uuid) : DB (list User) :=
  select_all users (fun u => is_opt_id (user_organization_id u) org) unordered.

(** Nulls sort last, as Postgres does by default. *)
Definition opt_le (a b : option Z) : bool :=
  match a, b with Some x, Some y => x <=? y | _, None => true | None, Some _ => false end.

(** [godwit-db/src/repositories/users.rs:68-73] [UserRepository::list_all] *)
Definition user_list_all : DB (list User) :=
  select_all users (fun _ => true)
    (fun a b => if same_opt (user_organization_id a) (user_organization_id b)
                then str_le (user_email a) (user_email b)
                else opt_le (user_organization_id a) (user_organization_id b)).

Definition with_profile (u : User) (name : option string) (role : string) (org : option Uuid) : User :=
  {| user_id := user_id u; user_organization_id := org; user_email := user_email u; user_name := name;
     user_role := role; user_sso_provider := user_sso_provider u; user_sso_subject := user_sso_subject u;
     user_password_hash := user_password_hash u; user_password_changed_at := user_password_changed_at u;
     user_password_expires_at := user_password_expires_at u;
     user_must_change_password := user_must_change_password u; user_created_at := user_created_at u |}.

(** [godwit-db/src/repositories/users.rs:75-93] [UserRepository::update] *)
Definition user_update (id : Uuid) (name role : option string) (org : option Uuid) : DB User :=
  current ← user_get_by_id id;
  update_rows users (fun u => is_id (user_id u) id)
    (fun u => with_profile u (opt_or name (user_name current)) (default (user_role current) role)
                (opt_or org (user_organization_id current)))
    user_fk_ok row_not_found.

Definition log_forget (gone_user : Uuid) (gone_keys : list Uuid) (l : RequestLog) : RequestLog :=
  {| log_id := log_id l;
     log_api_key_id := match log_api_key_id l with
                       | Some k => if existsb (is_id k) gone_keys then None else Some k
                       | None => None end;
     log_user_id := if is_opt_id (log_user_id l) gone_user then None else log_user_id l;
     log_organization_id := log_organization_id l; log_team_id := log_team_id l; log_model := log_model l;
     log_provider := log_provider l; log_provider_model_id := log_provider_model_id l;
     log_capability := log_capability l; log_duration_ms := log_duration_ms l;
     log_streamed := log_streamed l; log_status := log_status l; log_cost_usd := log_cost_usd l;
     log_tags := log_tags l; log_created_at := log_created_at l;
     log_tool_calls_count := log_tool_calls_count l; log_agentic_iteration := log_agentic_iteration l;
     log_tokens_in := log_tokens_in l; log_tokens_out := log_tokens_out l |}.

(** The rows that go with a user: memberships, keys, refresh tokens, end-user rows, password
    history and reset tokens; logs forget the user and the keys. *)
Definition cascade_user (id : Uuid) (d : Db) : Db :=
  let keys := key_id <$> filterb (fun k => is_id (key_user_id k) id) (t_api_keys d) in
  put_team_memberships (filterb (fun m => negb (is_id (tm_user_id m) id)) (t_team_memberships d))
  (put_api_keys (filterb (fun k => negb (is_id (key_user_id k) id)) (t_api_keys d))
  (put_refresh_tokens (filterb (fun t => negb (is_id (rt_user_id t) id)) (t_refresh_tokens d))
  (put_end_users (filterb (fun e => negb (is_id (eu_user_id e) id)) (t_end_users d))
  (put_password_history (filterb (fun h => negb (is_id (ph_user_id h) id)) (t_password_history d))
  (put_password_reset_tokens (filterb (fun t => negb (is_id (prt_user_id t) id)) (t_password_reset_tokens d))
  (put_request_logs (log_forget id keys <$> t_request_logs d) d)))))).

(** [godwit-db/src/repositories/users.rs:95-102] [UserRepository::delete] *)
Definition user_delete (id : Uuid) : DB unit :=
  delete_rows users (fun u => is_id (user_id u) id);; modify (cascade_user id).

(** [godwit-db/src/repositories/users.rs:104-121] [UserRepository::update_password] *)
Definition user_update_password (id : Uuid) (hash : string) (expires_at : option Z) : DB User :=
  now ← gets db_now;
  update_rows users (fun u => is_id (user_id u) id)
    (fun u => {| user_id := user_id u; user_organization_id := user_organization_id u;
       user_email := user_email u; user_name := user_name u; user_role := user_role u;
       user_sso_provider := user_sso_provider u; user_sso_subject := user_sso_subject u;
       user_password_hash := Some hash; user_password_changed_at := Some now;
       user_password_expires_at := expires_at; user_must_change_password := false;
       user_created_at := user_created_at u |})
    unchecked row_not_found.

(** [godwit-db/src/repositories/users.rs:123-132] [UserRepository::set_must_change] *)
Definition user_set_must_change (id : Uuid) (must : bool) : DB User :=
  update_rows users (fun u => is_id (user_id u) id)
    (fun u => {| user_id := user_id u; user_organization_id := user_organization_id u;
       user_email := user_email u; user_name := user_name u; user_role := user_role u;
       user_sso_provider := user_sso_provider u; user_sso_subject := user_sso_subject u;
       user_password_hash := user_password_hash u; user_password_changed_at := user_password_changed_at u;
       user_password_expires_at := user_password_expires_at u; user_must_change_password := must;
       user_created_at := user_created_at u |})
    unchecked row_not_found.

(** ** API keys *)

Definition key_ok (k : ApiKey) (d : Db) : bool :=
  negb (existsb (fun x => String.eqb (key_hash x) (key_hash k)) (t_api_keys d))
  && existsb (fun u => is_id (user_id u) (key_user_id k)) (t_users d)
  && existsb (fun o => is_id (org_id o) (key_organization_id k)) (t_organizations d)
  && opt_id_ok team_id (key_team_id k) (t_teams d) && fits_column 4 (key_budget_limit_usd k).

(** [godwit-db/src/repositories/api_keys.rs:16-46] [ApiKeyRepository::create] *)
Definition key_create (user org : Uuid) (name prefix hash : string) (scopes allowed : list string)
    (budget : option Q) (rpm tpm : option Z) : DB ApiKey :=
  id ← fresh_id; now ← gets db_now;
  insert_row api_keys key_ok
    {| key_id := id; key_user_id := user; key_team_id := None; key_organization_id := org;
       key_name := name; key_prefix := prefix; key_hash := hash; key_scopes := scopes;
       key_allowed_models := allowed; key_budget_limit_usd := numeric 4 <$> budget; key_budget_spent_usd := 0%Q;
       key_rpm := rpm; key_tpm := tpm; key_expires_at := None; key_disabled := false;
       key_created_at := now |}.

(** [godwit-db/src/repositories/api_keys.rs:48-56] [ApiKeyRepository::get_by_prefix] *)
Definition key_get_by_prefix (prefix : string) : DB (list ApiKey) :=
  select_all api_keys (fun k => String.eqb (key_prefix k) prefix && negb (key_disabled k)) unordered.

(** [godwit-db/src/repositories/api_keys.rs:58-67] [ApiKeyRepository::list_for_organization] *)
Definition key_list_for_organization (org : Uuid) : DB (list ApiKey) :=
  select_all api_keys (fun k => is_id (key_organization_id k) org) unordered.

(** [godwit-db/src/repositories/api_keys.rs:69-74] [ApiKeyRepository::list_all] *)
Definition key_list_all : DB (list ApiKey) :=
  select_all api_keys (fun _ => true)
    (fun a b => if is_id (key_organization_id a) (key_organization_id b)
                then str_le (key_name a) (key_name b)
                else (key_organization_id a <=? key_organization_id b)).

(** [godwit-db/src/repositories/api_keys.rs:76-85] [ApiKeyRepository::get_by_id] *)
Definition key_get_by_id (id : Uuid) : DB ApiKey := select_one api_keys (fun k => is_id (key_id k) id).

Definition log_forget_key (gone : Uuid) (l : RequestLog) : RequestLog :=
  {| log_id := log_id l;
     log_api_key_id := if is_opt_id (log_api_key_id l) gone then None else log_api_key_id l;
     log_user_id := log_user_id l; log_organization_id := log_organization_id l;
     log_team_id := log_team_id l; log_model := log_model l;
     log_provider := log_provider l; log_provider_model_id := log_provider_model_id l;
     log_capability := log_capability l; log_duration_ms := log_duration_ms l;
     log_streamed := log_streamed l; log_status := log_status l; log_cost_usd := log_cost_usd l;
     log_tags := log_tags l; log_created_at := log_created_at l;
     log_tool_calls_count := log_tool_calls_count l; log_agentic_iteration := log_agentic_iteration l;
     log_tokens_in := log_tokens_in l; log_tokens_out := log_tokens_out l |}.

(** [godwit-db/src/repositories/api_keys.rs:87-94] [ApiKeyRepository::delete] *)
Definition key_delete (id : Uuid) : DB unit :=
  delete_rows api_keys (fun k => is_id (key_id k) id);;
  modify (fun d => put_request_logs (log_forget_key id <$> t_request_logs d) d).

Definition with_key (k : ApiKey) (prefix hash : string) (spent : Q) (disabled : bool) (created : Z) : ApiKey :=
  {| key_id := key_id k; key_user_id := key_user_id k; key_team_id := key_team_id k;
     key_organization_id := key_organization_id k; key_name := key_name k; key_prefix := prefix;
     key_hash := hash; key_scopes := key_scopes k; key_allowed_models := key_allowed_models k;
     key_budget_limit_usd := key_budget_limit_usd k; key_budget_spent_usd := spent;
     key_rpm := key_rpm k; key_tpm := key_tpm k; key_expires_at := key_expires_at k;
     key_disabled := disabled; key_created_at := created |}.

(** [godwit-db/src/repositories/api_keys.rs:96-108] [ApiKeyRepository::set_active] *)
Definition key_set_active (id : Uuid) (active : bool) : DB ApiKey :=
  update_rows api_keys (fun k => is_id (key_id k) id)
    (fun k => with_key k (key_prefix k) (key_hash k) (key_budget_spent_usd k) (negb active) (key_created_at k))
    unchecked PNotFound.

(** [godwit-db/src/repositories/api_keys.rs:110-128] [ApiKeyRepository::regenerate_key] *)
Definition key_regenerate (id : Uuid) (prefix hash : string) : DB ApiKey :=
  now ← gets db_now;
  update_rows api_keys (fun k => is_id (key_id k) id)
    (fun k => with_key k prefix hash (key_budget_spent_usd k) (key_disabled k) now)
    (fun k d => negb (existsb (fun x => negb (is_id (key_id x) (key_id k))
                                        && String.eqb (key_hash x) (key_hash k)) (t_api_keys d)))
    PNotFound.

(** [godwit-db/src/repositories/api_keys.rs:130-141] [ApiKeyRepository::reset_spend] *)
Definition key_reset_spend (id : Uuid) : DB ApiKey :=
  update_rows api_keys (fun k => is_id (key_id k) id)
    (fun k => with_key k (key_prefix k) (key_hash k) 0%Q (key_disabled k) (key_created_at k))
    unchecked PNotFound.

(** ** Teams and memberships *)

(** [godwit-db/src/repositories/teams.rs:16-33] [TeamRepository::create] *)
Definition team_create (org : Uuid) (name : string) (budget max_budget : option Q) : DB Team :=
  id ← fresh_id; now ← gets db_now;
  insert_row teams (fun t d => existsb (fun o => is_id (org_id o) (team_organization_id t)) (t_organizations d)
                               && fits_column 4 (team_budget_usd t) && fits_column 4 (team_max_budget_usd t))
    {| team_id := id; team_organization_id := org; team_name := name; team_budget_usd := numeric 4 <$> budget;
       team_max_budget_usd := numeric 4 <$> max_budget; team_created_at := now |}.

(** [godwit-db/src/repositories/teams.rs:35-44] [TeamRepository::get_by_id] *)
Definition team_get_by_id (id : Uuid) : DB Team := select_one teams (fun t => is_id (team_id t) id).

(** [godwit-db/src/repositories/teams.rs:46-55] [TeamRepository::list_for_organization] *)
Definition team_list_for_organization (org : Uuid) : DB (list Team) :=
  select_all teams (fun t => is_id (team_organization_id t) org) (fun a b => str_le (team_name a) (team_name b)).

(** [godwit-db/src/repositories/teams.rs:57-62] [TeamRepository::list_all] *)
Definition team_list_all : DB (list Team) :=
  select_all teams (fun _ => true)
    (fun a b => if is_id (team_organization_id a) (team_organization_id b)
                then str_le (team_name a) (team_name b)
                else (team_organization_id a <=? team_organization_id b)).

(** [godwit-db/src/repositories/teams.rs:64-74] [TeamRepository::update] *)
Definition team_update (id : Uuid) (name : string) : DB Team :=
  update_rows teams (fun t => is_id (team_id t) id)
    (fun t => {| team_id := team_id t; team_organization_id := team_organization_id t; team_name := name;
                 team_budget_usd := team_budget_usd t; team_max_budget_usd := team_max_budget_usd t;
                 team_created_at := team_created_at t |})
    unchecked PNotFound.

(** [godwit-db/src/repositories/teams.rs:76-96] [TeamRepository::update_with_budget] *)
Definition team_update_with_budget (id : Uuid) (name : string) (budget max_budget : option Q) : DB Team :=
  update_rows teams (fun t => is_id (team_id t) id)
    (fun t => {| team_id := team_id t; team_organization_id := team_organization_id t; team_name := name;
                 team_budget_usd := numeric 4 <$> budget; team_max_budget_usd := numeric 4 <$> max_budget;
                 team_created_at := team_created_at t |})
    (fun t _ => fits_column 4 (team_budget_usd t) && fits_column 4 (team_max_budget_usd t)) PNotFound.

(** Keys and logs of a team forbid its deletion; memberships go with it.
    [godwit-db/src/repositories/teams.rs:98-105] [TeamRepository::delete] *)
Definition team_delete (id : Uuid) : DB unit :=
  d ← get_db;
  if existsb (fun k => is_opt_id (key_team_id k) id) (t_api_keys d)
     || existsb (fun l => is_opt_id (log_team_id l) id) (t_request_logs d)
  then (stmt;; throw (Database "constraint violation"))
  else
    delete_rows teams (fun t => is_id (team_id t) id);;
    modify (fun d => put_team_memberships
                       (filterb (fun m => negb (is_id (tm_team_id m) id)) (t_team_memberships d)) d).

Definition is_member (team user : Uuid) (m : TeamMembership) : bool :=
  is_id (tm_team_id m) team && is_id (tm_user_id m) user.

(** Insert or change the role of an existing membership.
    [godwit-db/src/repositories/team_memberships.rs:15-32] [TeamMembershipRepository::add_member] *)
Definition add_member (team user : Uuid) (role : string) : DB TeamMembership :=
  stmt;; d ← get_db;
  let m := {| tm_user_id := user; tm_team_id := team; tm_role := role |} in
  if existsb (fun u => is_id (user_id u) user) (t_users d)
     && existsb (fun t => is_id (team_id t) team) (t_teams d)
     && str_in ["team_admin"; "member"] role
  then
    if existsb (is_member team user) (t_team_memberships d)
    then (modify (put_team_memberships ((fun x => if is_member team user x then m else x) <$> t_team_memberships d));;
          mret m)
    else (modify (put_team_memberships (t_team_memberships d ++ [m]));; mret m)
  else throw (Database "constraint violation").

(** [godwit-db/src/repositories/team_memberships.rs:34-42] [TeamMembershipRepository::remove_member] *)
Definition remove_member (team user : Uuid) : DB unit :=
  delete_rows team_memberships (is_member team user);; mret tt.

(** [godwit-db/src/repositories/team_memberships.rs:44-57] [TeamMembershipRepository::remove_all_for_user] *)
Definition remove_all_for_user (user : Uuid) : DB unit :=
  delete_rows team_memberships (fun m => is_id (tm_user_id m) user);; mret tt.

(** [godwit-db/src/repositories/team_memberships.rs:59-75] [TeamMembershipRepository::get_membership] *)
Definition get_membership (team user : Uuid) : DB TeamMembership :=
  select_one team_memberships (is_member team user).

(** ** Refresh tokens *)

(** [godwit-db/src/repositories/refresh_tokens.rs:16-31] [RefreshTokenRepository::create] *)
Definition refresh_create (user : Uuid) (hash : string) (expires_at : Z) : DB RefreshToken :=
  id ← fresh_id; now ← gets db_now;
  insert_row refresh_tokens
    (fun t d => negb (existsb (fun x => String.eqb (rt_token_hash x) (rt_token_hash t)) (t_refresh_tokens d))
                && existsb (fun u => is_id (user_id u) (rt_user_id t)) (t_users d))
    {| rt_id := id; rt_user_id := user; rt_token_hash := hash; rt_expires_at := expires_at; rt_created_at := now |}.

(** [godwit-db/src/repositories/refresh_tokens.rs:33-42] [RefreshTokenRepository::get_by_hash] *)
Definition refresh_get_by_hash (hash : string) : DB RefreshToken :=
  select_one refresh_tokens (fun t => String.eqb (rt_token_hash t) hash).

(** [godwit-db/src/repositories/refresh_tokens.rs:44-51] [RefreshTokenRepository::delete] *)
Definition refresh_delete (id : Uuid) : DB unit :=
  delete_rows refresh_tokens (fun t => is_id (rt_id t) id);; mret tt.

(** [godwit-db/src/repositories/refresh_tokens.rs:53-60] [RefreshTokenRepository::delete_by_hash] *)
Definition refresh_delete_by_hash (hash : string) : DB unit :=
  delete_rows refresh_tokens (fun t => String.eqb (rt_token_hash t) hash);; mret tt.

(** [godwit-db/src/repositories/refresh_tokens.rs:62-69] [RefreshTokenRepository::delete_all_for_user] *)
Definition refresh_delete_all_for_user (user : Uuid) : DB Z :=
  delete_rows refresh_tokens (fun t => is_id (rt_user_id t) user).

(** ** Password history and reset tokens *)

(** [godwit-db/src/repositories/password_history.rs:14-22] [PasswordHistoryRepository::push] *)
Definition history_push (user : Uuid) (hash : string) : DB unit :=
  id ← fresh_id; now ← gets db_now;
  _ ← insert_row password_history (fun h d => existsb (fun u => is_id (user_id u) (ph_user_id h)) (t_users d))
        {| ph_id := id; ph_user_id := user; ph_hash := hash; ph_created_at := now |};
  mret tt.

(** Newest first, the identifier breaking ties. *)
Definition history_le (a b : PasswordHistory) : bool :=
  (ph_created_at b <? ph_created_at a) || ((ph_created_at a =? ph_created_at b) && (ph_id b <=? ph_id a)).
Definition history_of (user : Uuid) (d : Db) : list PasswordHistory :=
  order_by history_le (filterb (fun h => is_id (ph_user_id h) user) (t_password_history d)).

(** A negative [LIMIT] is an error of the server.
    [godwit-db/src/repositories/password_history.rs:24-34] [PasswordHistoryRepository::get_last_n] *)
Definition history_get_last_n (user : Uuid) (n : Z) : DB (list string) :=
  stmt;; d ← get_db;
  if n <? 0 then throw (Database "LIMIT must not be negative")
  else mret (ph_hash <$> take (Z.to_nat n) (history_of user d)).

(** [godwit-db/src/repositories/password_history.rs:36-48] [PasswordHistoryRepository::purge_older_than] *)
Definition history_purge_older_than (user : Uuid) (keep_n : Z) : DB unit :=
  stmt;; d ← get_db;
  if keep_n <? 0 then throw (Database "LIMIT must not be negative")
  else
    let kept := ph_id <$> take (Z.to_nat keep_n) (history_of user d) in
    modify (put_password_history
      (filterb (fun h => negb (is_id (ph_user_id h) user && negb (existsb (is_id (ph_id h)) kept))) (t_password_history d))).

(** [godwit-db/src/repositories/password_reset_tokens.rs:16-32] [PasswordResetTokenRepository::create] *)
Definition reset_create (user : Uuid) (hash : string) (expires_at : Z) : DB PasswordResetToken :=
  id ← fresh_id; now ← gets db_now;
  insert_row password_reset_tokens
    (fun t d => negb (existsb (fun x => String.eqb (prt_token_hash x) (prt_token_hash t)) (t_password_reset_tokens d))
                && existsb (fun u => is_id (user_id u) (prt_user_id t)) (t_users d))
    {| prt_id := id; prt_user_id := user; prt_token_hash := hash; prt_expires_at := expires_at;
       prt_created_at := now; prt_used_at := None |}.

(** [godwit-db/src/repositories/password_reset_tokens.rs:34-45] [PasswordResetTokenRepository::get_by_hash] *)
Definition reset_get_by_hash (hash : string) : DB PasswordResetToken :=
  select_one password_reset_tokens (fun t => String.eqb (prt_token_hash t) hash).

(** [godwit-db/src/repositories/password_reset_tokens.rs:47-54] [PasswordResetTokenRepository::mark_used] *)
Definition reset_mark_used (id : Uuid) : DB unit :=
  stmt;; now ← gets db_now; d ← get_db;
  modify (put_password_reset_tokens
    ((fun t => if is_id (prt_id t) id then
                 {| prt_id := prt_id t; prt_user_id := prt_user_id t; prt_token_hash := prt_token_hash t;
                    prt_expires_at := prt_expires_at t; prt_created_at := prt_created_at t; prt_used_at := Some now |}
               else t) <$> t_password_reset_tokens d)).

(** [godwit-db/src/repositories/password_reset_tokens.rs:56-63] [PasswordResetTokenRepository::delete_for_user] *)
Definition reset_delete_for_user (user : Uuid) : DB unit :=
  delete_rows password_reset_tokens (fun t => is_id (prt_user_id t) user);; mret tt.

(** ** End users *)

Definition is_end_user (org user : Uuid) (e : EndUser) : bool :=
  is_id (eu_organization_id e) org && is_id (eu_user_id e) user.

(** [godwit-db/src/repositories/end_users.rs:16-34] [EndUsersRepository::create] *)
Definition end_user_create (org user : Uuid) (budget max_budget : option Q) : DB EndUser :=
  id ← fresh_id; now ← gets db_now;
  insert_row end_users
    (fun e d => negb (existsb (is_end_user org user) (t_end_users d))
                && existsb (fun u => is_id (user_id u) user) (t_users d)
                && existsb (fun o => is_id (org_id o) org) (t_organizations d)
                && fits_column 4 (eu_budget_usd e) && fits_column 4 (eu_max_budget_usd e))
    {| eu_id := id; eu_organization_id := org; eu_user_id := user; eu_budget_usd := numeric 4 <$> budget;
       eu_max_budget_usd := numeric 4 <$> max_budget; eu_created_at := now; eu_updated_at := now |}.

(** [godwit-db/src/repositories/end_users.rs:36-52] [EndUsersRepository::get_by_user] *)
Definition end_user_get_by_user (org user : Uuid) : DB EndUser :=
  select_one end_users (is_end_user org user).

(** [godwit-db/src/repositories/end_users.rs:54-65] [EndUsersRepository::list_by_organization] *)
Definition end_user_list_by_organization (org : Uuid) : DB (list EndUser) :=
  select_all end_users (fun e => is_id (eu_organization_id e) org) (fun a b => (eu_user_id a <=? eu_user_id b)).

(** [godwit-db/src/repositories/end_users.rs:67-88] [EndUsersRepository::update_budgets] *)
Definition end_user_update_budgets (org user : Uuid) (budget max_budget : option Q) : DB EndUser :=
  now ← gets db_now;
  update_rows end_users (is_end_user org user)
    (fun e => {| eu_id := eu_id e; eu_organization_id := eu_organization_id e; eu_user_id := eu_user_id e;
                 eu_budget_usd := numeric 4 <$> budget; eu_max_budget_usd := numeric 4 <$> max_budget;
                 eu_created_at := eu_created_at e; eu_updated_at := now |})
    (fun e _ => fits_column 4 (eu_budget_usd e) && fits_column 4 (eu_max_budget_usd e)) PNotFound.

(** [godwit-db/src/repositories/end_users.rs:90-102] [EndUsersRepository::delete] *)
Definition end_user_delete (org user : Uuid) : DB unit :=
  delete_rows end_users (is_end_user org user);; mret tt.

(** ** Request logs and aliases *)

(** [godwit-db/src/repositories/request_logs.rs:17-56] [RequestLogsRepository::create_with_tags] *)
Definition log_create_with_tags (key user org : Uuid) (team : option Uuid)
    (model provider upstream capability : string) (duration_ms : Z) (streamed : bool) (status : string)
    (cost : option Q) (tags : list string) : DB RequestLog :=
  id ← fresh_id; now ← gets db_now;
  insert_row request_logs
    (fun l d => fits_column 6 (log_cost_usd l) && existsb (fun k => is_id (key_id k) key) (t_api_keys d)
                && existsb (fun u => is_id (user_id u) user) (t_users d)
                && existsb (fun o => is_id (org_id o) org) (t_organizations d)
                && opt_id_ok team_id team (t_teams d))
    {| log_id := id; log_api_key_id := Some key; log_user_id := Some user; log_organization_id := org;
       log_team_id := team; log_model := model; log_provider := provider;
       log_provider_model_id := upstream; log_capability := capability; log_duration_ms := duration_ms;
       log_streamed := streamed; log_status := status; log_cost_usd := numeric 6 <$> cost; log_tags := tags;
       log_created_at := now; log_tool_calls_count := None; log_agentic_iteration := None;
       log_tokens_in := None; log_tokens_out := None |}.

Definition in_window (from to : option Z) (l : RequestLog) : bool :=
  match from with Some f => (f <=? log_created_at l) | None => true end
  && match to with Some t => (log_created_at l <=? t) | None => true end.
Definition in_org (org : option Uuid) (l : RequestLog) : bool :=
  match org with Some o => is_id (log_organization_id l) o | None => true end.

(** [godwit-db/src/repositories/request_logs.rs:58-80] [RequestLogsRepository::find_by_tag] *)
Definition log_find_by_tag (tag : string) (from to : option Z) (org : option Uuid) : DB (list RequestLog) :=
  select_all request_logs
    (fun l => str_in (log_tags l) tag && in_window from to l && in_org org l)
    (fun a b => (log_created_at b <=? log_created_at a)).

(** [godwit-db/src/repositories/model_aliases.rs:15-24] [ModelAliasRepository::create] *)
Definition alias_create (alias : string) (target : Uuid) : DB ModelAlias :=
  id ← fresh_id; now ← gets db_now;
  insert_row model_aliases
    (fun a d => negb (existsb (fun x => String.eqb (alias_name x) (alias_name a)) (t_model_aliases d))
                && existsb (fun m => is_id (model_id m) target) (t_models d))
    {| alias_id := id; alias_name := alias; alias_target_model_id := target; alias_created_at := now |}.

(** [godwit-db/src/repositories/model_aliases.rs:26-35] [ModelAliasRepository::get_by_alias] *)
Definition alias_get_by_alias (alias : string) : DB ModelAlias :=
  select_one model_aliases (fun a => String.eqb (alias_name a) alias).

(** [godwit-db/src/repositories/model_aliases.rs:37-42] [ModelAliasRepository::list] *)
Definition alias_list : DB (list ModelAlias) :=
  select_all model_aliases (fun _ => true) (fun a b => str_le (alias_name a) (alias_name b)).

(** [godwit-db/src/repositories/model_aliases.rs:44-51] [ModelAliasRepository::delete] *)
Definition alias_delete (id : Uuid) : DB unit :=
  delete_rows model_aliases (fun a => is_id (alias_id a) id);; mret tt.

(** ** Budgets *)

(** [COALESCE(SUM(cost_usd), 0)]; null costs do not count. *)
Definition spent_on (p : RequestLog -> bool) (d : Db) : Q :=
  foldr (fun l q => match log_cost_usd l with Some c => (c + q)%Q | None => q end) 0%Q
    (filterb p (t_request_logs d)).

Definition api (m : DB unit) : ST Db ApiError unit := st_map_err CoreError m.

(** [godwit-api/src/rate_limit.rs:190-232] [check_end_user_budget] *)
Definition check_end_user_budget (user org : Uuid) : ST Db ApiError unit :=
  api stmt;;
  d ← gets (fun d => d);
  match filterb (is_end_user org user) (t_end_users d) with
  | [] => mret tt
  | e :: _ =>
    match eu_max_budget_usd e with
    | None => mret tt
    | Some max_budget =>
      api stmt;;
      let spent := spent_on (fun l => is_opt_id (log_user_id l) user && is_id (log_organization_id l) org) d in
      fail_if (Qle_bool max_budget spent) BudgetExceeded
    end
  end.

(** [godwit-api/src/rate_limit.rs:234-273] [check_team_budget] *)
Definition check_team_budget (team : Uuid) : ST Db ApiError unit :=
  api stmt;;
  d ← gets (fun d => d);
  match filterb (fun t => is_id (team_id t) team) (t_teams d) with
  | [] => mret tt
  | t :: _ =>
    match team_max_budget_usd t with
    | None => mret tt
    | Some max_budget =>
      api stmt;;
      let spent := spent_on (fun l => is_opt_id (log_team_id l) team) d in
      fail_if (Qle_bool max_budget spent) BudgetExceeded
    end
  end.

Lemma elem_of_insert_by {R} (le : R -> R -> bool) x y l : y ∈ insert_by le x l <-> y = x \/ y ∈ l.
Proof.
  induction l as [|z l IH]; simpl; [by rewrite elem_of_cons|].
  destruct (le x z); rewrite ?elem_of_cons, ?IH; rewrite ?elem_of_cons; tauto.
Qed.

Lemma elem_of_order_by {R} (le : R -> R -> bool) y l : y ∈ order_by le l <-> y ∈ l.
Proof.
  unfold order_by. induction l as [|z l IH]; simpl; [done|].
  by rewrite elem_of_insert_by, elem_of_cons, IH.
Qed.

Lemma order_by_unordered {R} (l : list R) : order_by unordered l = l.
Proof.
  unfold order_by. induction l as [|x l IH]; simpl; [done|]. rewrite IH. by destruct l.
Qed.

(** ** What a column of decimals keeps

    The decimals kept are the nearest, within half of the last one, and are kept as they are
    when written again. *)

Lemma decimals_near s q : 0 <= s -> Z.abs (2 * Zpos (Qden q) * decimals s q - 2 * (Qnum q * 10 ^ s)) <= Zpos (Qden q).
Proof.
  intros Hs. unfold decimals. set (n := Qnum q * 10 ^ s). set (d := Zpos (Qden q)).
  assert (0 < d) by (unfold d; lia).
  pose proof (Z.div_mod (2 * Z.abs n + d) (2 * d) ltac:(lia)) as E.
  pose proof (Z.mod_pos_bound (2 * Z.abs n + d) (2 * d) ltac:(lia)) as B.
  set (k := (2 * Z.abs n + d) / (2 * d)) in *. destruct (Z.sgn_spec n) as [[? ->]|[[? ->]|[? ->]]]; lia.
Qed.
Lemma decimals_numeric s q : 0 <= s -> decimals s (numeric s q) = decimals s q.
Proof.
  intros Hs. unfold decimals at 1. unfold numeric. simpl. assert (0 < 10 ^ s) by lia. rewrite Z2Pos.id by done.
  set (z := decimals s q). set (p := 10 ^ s) in *. rewrite Z.abs_mul, (Z.abs_eq p), Z.sgn_mul, (Z.sgn_pos p) by lia.
  replace (2 * (Z.abs z * p) + p) with (p + Z.abs z * (2 * p)) by lia. rewrite Z.div_add by lia.
  rewrite (Z.div_small p) by lia. rewrite Z.mul_1_r, Z.add_0_l, Z.mul_comm. apply Z.abs_sgn.
Qed.
Lemma numeric_near s q : 0 <= s -> (Qabs (numeric s q - q) * inject_Z (2 * 10 ^ s) <= 1)%Q.
Proof.
  intros Hs. pose proof (decimals_near s q Hs) as H. assert (0 < 10 ^ s) as Hp by lia.
  unfold numeric. set (z := decimals s q) in *. destruct q as [a b]. simpl in *.
  unfold Qle, Qabs, Qminus, Qplus, Qopp, Qmult, inject_Z.
  cbn -[Z.mul Z.add Z.opp Z.pow Z.abs Pos.mul].
  rewrite !Pos2Z.inj_mul, !Z2Pos.id by done. set (p := 10 ^ s) in *.
  replace (z * Z.pos b + - a * p) with (z * Z.pos b - a * p) by lia.
  assert (2 * Z.abs (z * Z.pos b - a * p) <= Z.pos b) by lia. nia.
Qed.

(** ** What a statement does to the state

    Reads and failed statements only consume the fault schedule. *)

Definition only_faults (d d' : Db) : Prop := exists f, d' = put_faults f d.

Lemma only_faults_refl d : only_faults d d.
Proof. exists (db_faults d). by destruct d. Qed.

Lemma only_faults_trans d d1 d2 : only_faults d d1 -> only_faults d1 d2 -> only_faults d d2.
Proof. intros [f ->] [g ->]. exists g. by destruct d. Qed.

#[export] Instance only_faults_preorder : PreOrder only_faults.
Proof. split; [exact only_faults_refl|exact only_faults_trans]. Qed.
#[export] Hint Resolve only_faults_refl : core.

Lemma stmt_spec d r d' : stmt d = (r, d') -> only_faults d d' /\ (r = Ok tt \/ exists m, r = Err (Database m)).
Proof.
  unfold stmt. destruct (db_faults d) as [|[m|] f] eqn:Ef; intros; simplify_eq.
  - split; [apply only_faults_refl|auto].
  - split; [by exists f|eauto].
  - split; [by exists f|auto].
Qed.

Lemma select_one_spec {R} (t : table R) p d r d' :
  (forall f d, rows t (put_faults f d) = rows t d) ->
  select_one t p d = (r, d') ->
  only_faults d d' /\
  match r with
  | Ok x => exists l, filterb p (rows t d) = x :: l
  | Err e => (e = PNotFound /\ filterb p (rows t d) = []) \/ exists m, e = Database m
  end.
Proof.
  intros Ht. unfold select_one, get_db. st_unfold. destruct (stmt d) as [s d1] eqn:Es.
  apply stmt_spec in Es as [Hf [->|[m ->]]]; [|intros; simplify_eq; eauto].
  pose proof Hf as [f Hf1]. assert (rows t d1 = rows t d) as -> by (subst; apply Ht).
  destruct (filterb p (rows t d)) as [|x l] eqn:El; intros; simplify_eq; eauto.
Qed.

(** A row that was found is in the table and satisfies the condition. *)
Lemma select_one_found {R} (t : table R) p d x d' :
  (forall f d, rows t (put_faults f d) = rows t d) ->
  select_one t p d = (Ok x, d') -> only_faults d d' /\ x ∈ rows t d /\ p x = true.
Proof.
  intros Ht H. apply select_one_spec in H as [Hf [l Hl]]; [|done]. split; [done|].
  apply elem_of_filterb. rewrite Hl. left.
Qed.

Lemma select_all_spec {R} (t : table R) p le d r d' :
  (forall f d, rows t (put_faults f d) = rows t d) ->
  select_all t p le d = (r, d') ->
  only_faults d d' /\
  match r with Ok l => l = order_by le (filterb p (rows t d)) | Err e => exists m, e = Database m end.
Proof.
  intros Ht. unfold select_all, get_db. st_unfold. destruct (stmt d) as [s d1] eqn:Es.
  apply stmt_spec in Es as [Hf [->|[m ->]]]; intros; simplify_eq; [|eauto].
  pose proof Hf as [f Hf1]. assert (rows t d' = rows t d) as -> by (subst; apply Ht). eauto.
Qed.

Lemma update_rows_spec {R} (t : table R) p f ok none d r d' :
  (forall f d, rows t (put_faults f d) = rows t d) ->
  update_rows t p f ok none d = (r, d') ->
  match r with
  | Ok y => exists d1, only_faults d d1 /\ d' = put t ((fun x => if p x then f x else x) <$> rows t d) d1 /\
              exists x l, filterb p (rows t d) = x :: l /\ y = f x
  | Err e => only_faults d d' /\ (e = none \/ exists m, e = Database m)
  end.
Proof.
  intros Ht. unfold update_rows, get_db. st_unfold. destruct (stmt d) as [s d1] eqn:Es.
  apply stmt_spec in Es as [Hf [->|[m ->]]]; [|intros; simplify_eq; eauto].
  pose proof Hf as [g Hf1]. assert (rows t d1 = rows t d) as -> by (subst; apply Ht).
  destruct (filterb p (rows t d)) as [|x l] eqn:El; [intros; simplify_eq; eauto|].
  destruct (forallb _ _); intros; simplify_eq; eauto 10.
Qed.

Lemma delete_rows_spec {R} (t : table R) p d r d' :
  (forall f d, rows t (put_faults f d) = rows t d) ->
  delete_rows t p d = (r, d') ->
  match r with
  | Ok n => exists d1, only_faults d d1 /\ d' = put t (filterb (fun x => negb (p x)) (rows t d)) d1
  | Err e => only_faults d d' /\ exists m, e = Database m
  end.
Proof.
  intros Ht. unfold delete_rows, get_db. st_unfold. destruct (stmt d) as [s d1] eqn:Es.
  apply stmt_spec in Es as [Hf [->|[m ->]]]; [|intros; simplify_eq; eauto].
  pose proof Hf as [g Hf1]. assert (rows t d1 = rows t d) as -> by (subst; apply Ht).
  intros; simplify_eq; eauto.
Qed.

Lemma insert_row_spec {R} (t : table R) ok x d r d' :
  (forall f d, rows t (put_faults f d) = rows t d) ->
  insert_row t ok x d = (r, d') ->
  match r with
  | Ok y => y = x /\ exists d1, only_faults d d1 /\ d' = put t (rows t d ++ [x]) d1
  | Err e => only_faults d d' /\ exists m, e = Database m
  end.
Proof.
  intros Ht. unfold insert_row, get_db. st_unfold. destruct (stmt d) as [s d1] eqn:Es.
  apply stmt_spec in Es as [Hf [->|[m ->]]]; [|intros; simplify_eq; eauto].
  pose proof Hf as [g Hf1]. destruct (ok x d1); [|intros; simplify_eq; eauto].
  assert (rows t d1 = rows t d) as -> by (subst; apply Ht). intros; simplify_eq; eauto.
Qed.

(** ** Theorems *)

(** A capped end user is let through exactly while the recorded spend of that user in that
    organization is strictly below the cap; without a row or a cap there is no limit; and a
    database failure refuses the request instead of waving it through. *)
Theorem end_user_budget_enforced user org d :
  match check_end_user_budget user org d with
  | (Ok _, d') =>
    only_faults d d' /\
    forall e, head (filterb (is_end_user org user) (t_end_users d)) = Some e ->
    forall cap, eu_max_budget_usd e = Some cap ->
    (spent_on (fun l => is_opt_id (log_user_id l) user && is_id (log_organization_id l) org) d < cap)%Q
  | (Err BudgetExceeded, d') =>
    only_faults d d' /\
    exists e cap, head (filterb (is_end_user org user) (t_end_users d)) = Some e /\
      eu_max_budget_usd e = Some cap /\
      (cap <= spent_on (fun l => is_opt_id (log_user_id l) user && is_id (log_organization_id l) org) d)%Q
  | (Err e, d') => only_faults d d' /\ exists m, e = CoreError (Database m)
  end.
Proof.
  unfold check_end_user_budget, api. st_unfold. destruct (stmt d) as [s d1] eqn:Es.
  apply stmt_spec in Es as [[f1 Hf1] [->|[m ->]]]; [|simpl; eauto using ex_intro; by split; [exists f1|eauto]].
  simpl. subst d1. simpl.
  assert (only_faults d (put_faults f1 d)) as H1 by (by exists f1).
  destruct (filterb (is_end_user org user) (t_end_users d)) as [|e l] eqn:El; [by split|].
  destruct (eu_max_budget_usd e) as [cap|] eqn:Ec; [|split; [done|]; intros; by simplify_eq/=].
  destruct (stmt (put_faults f1 d)) as [s2 d2] eqn:Es2.
  apply stmt_spec in Es2 as [H2 [->|[m ->]]]; simpl;
    [|split; [exact (only_faults_trans _ _ _ H1 H2)|eauto]].
  pose proof (only_faults_trans _ _ _ H1 H2) as H3.
  change (spent_on ?p (put_faults f1 d)) with (spent_on p d).
  destruct (Qle_bool cap _) eqn:Eq; simpl.
  - split; [done|]. exists e, cap. split; [done|]. split; [done|]. by apply Qle_bool_iff.
  - split; [done|]. intros e' He cap' Hc. simplify_eq/=. apply Qnot_le_lt. intros Hle.
    apply Qle_bool_iff in Hle. congruence.
Qed.

(** The same of a team with a cap. *)
Lemma team_budget_enforced team d :
  match check_team_budget team d with
  | (Ok _, d') =>
    only_faults d d' /\
    forall t, head (filterb (fun t => is_id (team_id t) team) (t_teams d)) = Some t ->
    forall cap, team_max_budget_usd t = Some cap -> (spent_on (fun l => is_opt_id (log_team_id l) team) d < cap)%Q
  | (Err _, d') => only_faults d d'
  end.
Proof.
  unfold check_team_budget, api. st_unfold. destruct (stmt d) as [s d1] eqn:Es.
  apply stmt_spec in Es as [[f1 ->] [->|[m ->]]]; simpl; [|by exists f1].
  assert (only_faults d (put_faults f1 d)) as H1 by (by exists f1).
  destruct (filterb (fun t => is_id (team_id t) team) (t_teams d)) as [|t l]; [by split|].
  destruct (team_max_budget_usd t) as [cap|] eqn:Ec; [|split; [done|]; intros; by simplify_eq/=].
  destruct (stmt (put_faults f1 d)) as [s2 d2] eqn:Es2.
  apply stmt_spec in Es2 as [H2 [->|[m ->]]]; simpl; [|by etransitivity].
  change (spent_on ?p (put_faults f1 d)) with (spent_on p d).
  destruct (Qle_bool cap _) eqn:Eq; simpl; [by etransitivity|].
  split; [by etransitivity|]. intros t' Ht cap' Hc. simplify_eq/=. apply Qnot_le_lt. intros Hle.
  apply Qle_bool_iff in Hle. congruence.
Qed.

(** ** Statements that do not fail *)

Lemma stmt_ok d : db_faults d = [] -> stmt d = (Ok tt, d).
Proof. unfold stmt. by intros ->. Qed.
Lemma order_by_nil {R} (le : R -> R -> bool) l : order_by le l = [] -> l = [].
Proof.
  destruct l as [|x l]; [done|]. unfold order_by. simpl. destruct (foldr (insert_by le) [] l) as [|y m]; simpl; [done|].
  by destruct (le x y).
Qed.
Lemma filterb_all {T} (l : list T) : filterb (fun _ => true) l = l.
Proof. induction l as [|x l IH]; simpl; [done|]. by rewrite IH. Qed.

Lemma select_one_pure {R} (t : table R) p d :
  db_faults d = [] -> select_one t p d = (match filterb p (rows t d) with x :: _ => Ok x | [] => Err PNotFound end, d).
Proof. intros Hf. unfold select_one, get_db. st_unfold. rewrite (stmt_ok d Hf). by destruct (filterb p (rows t d)). Qed.
Lemma select_all_pure {R} (t : table R) p le d :
  db_faults d = [] -> select_all t p le d = (Ok (order_by le (filterb p (rows t d))), d).
Proof. intros Hf. unfold select_all, get_db. st_unfold. by rewrite (stmt_ok d Hf). Qed.
Lemma insert_pure {R} (t : table R) ok x d :
  db_faults d = [] -> ok x d = true -> insert_row t ok x d = (Ok x, put t (rows t d ++ [x])%list d).
Proof. intros Hf Ho. unfold insert_row, get_db. st_unfold. by rewrite (stmt_ok d Hf), Ho. Qed.
Lemma filterb_none {T} (p : T -> bool) l : (forall x, x ∈ l -> p x = false) -> filterb p l = [].
Proof.
  intros Hp. destruct (filterb p l) as [|x l'] eqn:E; [done|]. exfalso.
  assert (x ∈ filterb p l) as Hx by (rewrite E; left). apply elem_of_filterb in Hx as [Hx Hpx]. by rewrite (Hp x Hx) in Hpx.
Qed.
Lemma existsb_none {T} (p : T -> bool) l : (forall x, x ∈ l -> p x = false) -> existsb p l = false.
Proof.
  intros Hp. destruct (existsb p l) eqn:E; [|done]. apply existsb_exists in E as (x & Hx & Hpx).
  apply list_elem_of_In in Hx. by rewrite (Hp x Hx) in Hpx.
Qed.
Lemma insert_by_in {R} (le : R -> R -> bool) x y l : y ∈ insert_by le x l -> y = x \/ y ∈ l.
Proof.
  induction l as [|z l IH]; simpl; [by rewrite elem_of_cons|]. destruct (le x z); rewrite !elem_of_cons; [tauto|].
  intros [->|H]; [auto|]. destruct (IH H); auto.
Qed.
Lemma order_by_in {R} (le : R -> R -> bool) y l : y ∈ order_by le l -> y ∈ l.
Proof.
  unfold order_by. induction l as [|x l IH]; simpl; [done|]. intros H. apply insert_by_in in H as [->|H]; [left|right; auto].
Qed.
Lemma update_pure {R} (t : table R) p f ok none d x l :
  db_faults d = [] -> filterb p (rows t d) = x :: l -> forallb (fun x => ok (f x) d) (filterb p (rows t d)) = true ->
  update_rows t p f ok none d = (Ok (f x), put t ((fun x => if p x then f x else x) <$> rows t d) d).
Proof. intros Hf Hx Ho. unfold update_rows, get_db. st_unfold. rewrite (stmt_ok d Hf). rewrite Hx in *. simpl in *. by rewrite Ho. Qed.
Lemma delete_pure {R} (t : table R) p d :
  db_faults d = [] ->
  delete_rows t p d = (Ok (Z.of_nat (length (filterb p (rows t d)))), put t (filterb (fun x => negb (p x)) (rows t d)) d).
Proof. intros Hf. unfold delete_rows, get_db. st_unfold. by rewrite (stmt_ok d Hf). Qed.
