(* ===== verification/Auth.v ===== *)
(** * Authentication and request guards

    Roles ([godwit-auth/src/rbac.rs]), API-key prefixes ([godwit-auth/src/api_keys.rs]), the
    key cache ([godwit-cache/src/lib.rs]) and the middleware of
    [godwit-api/src/middleware.rs].  Argon2 verification and JWT verification are functions
    of other crates and parameters here. *)

From stdpp Require Import base strings list gmap.
From Stdlib Require Import QArith Ascii String.
From S2P Require Import Prelude RustStr Json Core Db.

#[local] Open Scope string_scope.
#[local] Open Scope Z_scope.

(** ** Roles *)

(** [godwit-auth/src/rbac.rs:1-7] [Role] *)
Inductive Role : Type := SuperAdmin | OrgAdmin | TeamAdmin | RUser.

#[export] Instance role_eq_dec : EqDecision Role.
Proof. solve_decision. Defined.

(** [godwit-auth/src/rbac.rs:9-18] [Role::from_str] *)
Definition role_from_str (s : string) : option Role :=
  if String.eqb s "super_admin" then Some SuperAdmin
  else if String.eqb s "org_admin" then Some OrgAdmin
  else if String.eqb s "team_admin" then Some TeamAdmin
  else if String.eqb s "user" then Some RUser
  else None.

(** [godwit-auth/src/rbac.rs:20-22] [Role::can_manage_users] *)
Definition can_manage_users (r : Role) : bool :=
  match r with SuperAdmin | OrgAdmin => true | _ => false end.

(** [godwit-auth/src/rbac.rs:24-26] [Role::can_manage_orgs] *)
Definition can_manage_orgs (r : Role) : bool := match r with SuperAdmin => true | _ => false end.

(** [godwit-auth/src/rbac.rs:28-31] [Role::can_manage_api_keys] *)
Definition can_manage_api_keys (r : Role) : bool :=
  match r with SuperAdmin | OrgAdmin | TeamAdmin => true | RUser => false end.

(** [godwit-auth/src/jwt.rs:7-15] [Claims] *)
Record Claims : Type := {
  c_sub : string; c_user_id : Uuid; c_organization_id : Uuid; c_role : string; c_exp : Z; c_iat : Z }.

(** ** API keys *)

Definition PREFIX : string := "sk-godwit-".
Definition PREFIX_LEN : nat := 16.

(** [None] is the panic of an out-of-range slice.
    [godwit-auth/src/api_keys.rs:21-25] [extract_prefix] *)
Definition extract_prefix (key : string) : option string :=
  let start := String.length PREFIX in
  let end_ := Nat.min (start + PREFIX_LEN) (String.length key) in
  str_slice key start end_.

(** [body] is the base58 text of the random bytes and [hash] its Argon2 hash.
    [godwit-auth/src/api_keys.rs:12-19] [generate_api_key] *)
Definition generate_api_key (body hash : string) : option (string * string * string) :=
  let plaintext := PREFIX +:+ body in
  (fun prefix => (plaintext, hash, prefix)) <$> extract_prefix plaintext.

(** ** Headers *)

(** The request line and the headers the guards read; a header that is not valid text is
    absent, as [to_str().ok()] makes it. *)
Inductive Method : Type := GET | HEAD | OPTIONS | POST | PUT | PATCH | DELETE.

Record Headers : Type := { h_authorization : option string; h_cookie : option string; h_origin : option string }.

(** [godwit-api/src/middleware.rs:149-154] [is_state_changing] *)
Definition is_state_changing (m : Method) : bool :=
  match m with POST | PUT | PATCH | DELETE => true | _ => false end.

(** [godwit-api/src/middleware.rs:31-44] [origin_allowed_from_config] *)
Definition origin_allowed_from_config (allowed : string) (m : Method) (h : Headers) : bool :=
  if is_empty allowed || negb (is_state_changing m) then true
  else match h_origin h with Some origin => String.eqb origin allowed | None => false end.

(** [godwit-api/src/middleware.rs:46-48] [extract_token] *)
Definition extract_token (header : string) : option string := strip_prefix "Bearer " header.

(** [splitn(2, '=')]: the text before the first [=], and what follows if there is one. *)
Definition cookie_pair (name part : string) : option string :=
  match split_once "=" (trim part) with
  | Some (k, v) => if String.eqb (trim k) name then Some (trim v) else None
  | None => None
  end.

(** [godwit-api/src/middleware.rs:50-59] [cookie_value] *)
Definition cookie_value (header : option string) (name : string) : option string :=
  match header with
  | None => None
  | Some cookies => find_map (cookie_pair name) (split_char (byte 59) cookies)
  end.

(** ** The key cache: a concurrent map, [MemoryCache] *)

(** [godwit-cache/src/lib.rs:16-18] [MemoryCache::insert] *)
Definition cache_insert {V} (k : string) (v : V) (c : gmap string V) : gmap string V := <[k := v]> c.

(** [godwit-cache/src/lib.rs:20-22] [MemoryCache::get] *)
Definition cache_get {V} (k : string) (c : gmap string V) : option V := c !! k.

(** [godwit-cache/src/lib.rs:24-26] [MemoryCache::invalidate] *)
Definition cache_invalidate {V} (k : string) (c : gmap string V) : gmap string V := delete k c.

Record AuthState : Type := { key_cache : gmap string ApiKey; auth_db : Db }.

(** What the layer does with a request: hand it on with a key, answer a status, or panic. *)
Inductive auth_outcome : Type := Admit (k : ApiKey) | Refuse (status : Z) | Panicked.

Section Middleware.
(** Argon2 verification of a key, JWT verification, and JSON. *)
Context (verify_key : string -> string -> bool).
Context (jwt_verify : string -> string -> option Claims).
Context `{JsonText}.

(** [godwit-api/src/middleware.rs:61-111] [api_key_auth] *)
Definition api_key_auth (now now' : Z) (h : Headers) (s : AuthState) : auth_outcome * AuthState :=
  match h_authorization h ≫= extract_token with
  | None => (Refuse 401, s)
  | Some auth =>
    let fast := match cache_get auth (key_cache s) with
                | Some key => if negb (key_disabled key)
                                 && match key_expires_at key with Some e => (now <? e) | None => true end
                              then Some key else None
                | None => None
                end in
    match fast with
    | Some key => (Admit key, s)
    | None =>
      match extract_prefix auth with
      | None => (Panicked, s)
      | Some prefix =>
        match key_get_by_prefix prefix (auth_db s) with
        | (Err _, d) => (Refuse 500, {| key_cache := key_cache s; auth_db := d |})
        | (Ok candidates, d) =>
          match head (filterb (fun k => verify_key auth (key_hash k)) candidates) with
          | None => (Refuse 401, {| key_cache := key_cache s; auth_db := d |})
          | Some key =>
            if key_disabled key || match key_expires_at key with Some e => (e <? now') | None => false end
            then (Refuse 401, {| key_cache := key_cache s; auth_db := d |})
            else (Admit key, {| key_cache := cache_insert auth key (key_cache s); auth_db := d |})
          end
        end
      end
    end
  end.

(** [godwit-api/src/middleware.rs:113-136] [jwt_auth] *)
Definition jwt_auth (jwt_secret allowed_origin : string) (m : Method) (h : Headers) : result Z Claims :=
  if negb (origin_allowed_from_config allowed_origin m h) then Err 403
  else
    let token := opt_or (h_authorization h ≫= extract_token) (cookie_value (h_cookie h) "godwit_access") in
    match token with
    | None => Err 401
    | Some auth => ok_or 401 (jwt_verify jwt_secret auth)
    end.

(** [godwit-api/src/middleware.rs:138-147] [cookie_csrf] *)
Definition cookie_csrf (allowed_origin : string) (m : Method) (h : Headers) : result Z unit :=
  if negb (origin_allowed_from_config allowed_origin m h) then Err 403 else Ok tt.

(** [godwit-api/src/middleware.rs:156-160] [extract_model_from_body] *)
Definition extract_model_from_body (body : string) : option string :=
  v ← from_str body; m ← get "model" v; as_str m.

(** [godwit-api/src/middleware.rs:162-164] [is_model_allowed] *)
Definition is_model_allowed (key : ApiKey) (model : string) : bool :=
  match key_allowed_models key with [] => true | l => existsb (fun m => String.eqb m model) l end.

(** [godwit-api/src/middleware.rs:166-184] [model_scope] *)
Definition model_scope (key : ApiKey) (body : string) : result ApiError string :=
  match extract_model_from_body body with
  | Some model => if is_model_allowed key model then Ok body else Err Forbidden
  | None => Ok body
  end.
End Middleware.

(** ** Lemmas *)

(** The prefix of an ASCII key: the sixteen characters after the fixed prefix, fewer when the
    key is shorter, and a panic when it does not even reach that far. *)
Lemma extract_prefix_ascii key :
  is_ascii key = true ->
  extract_prefix key =
  if (10 <=? String.length key)%nat
  then Some (String.substring 10 (Nat.min 26 (String.length key) - 10) key) else None.
Proof.
  intros Ha. unfold extract_prefix, str_slice, PREFIX_LEN. change (String.length PREFIX) with 10%nat.
  change (10 + 16)%nat with 26%nat.
  destruct (Nat.leb_spec 10 (String.length key)) as [L|L].
  - rewrite (proj2 (Nat.leb_le 10 _)) by lia. rewrite (proj2 (Nat.leb_le _ (String.length key))) by lia.
    by rewrite !ascii_boundary by (done || lia).
  - by rewrite (proj2 (Nat.leb_gt 10 _)) by lia.
Qed.

Section AuthTheorems.
Context (verify_key : string -> string -> bool).

(** Every cached entry was verified for the token it is stored under, and was enabled when it
    was stored. *)
Definition cache_ok (s : AuthState) : Prop :=
  forall auth k, key_cache s !! auth = Some k -> verify_key auth (key_hash k) = true /\ key_disabled k = false.

Lemma key_get_by_prefix_spec prefix d r d' :
  key_get_by_prefix prefix d = (r, d') ->
  only_faults d d' /\
  match r with
  | Ok l => forall k, k ∈ l <-> k ∈ t_api_keys d /\ key_prefix k = prefix /\ key_disabled k = false
  | Err e => exists m, e = Database m
  end.
Proof.
  intros H. apply select_all_spec in H as [Hf H]; [|done]. split; [done|].
  destruct r as [l|e]; [|done]. intros k. subst l. rewrite elem_of_order_by, elem_of_filterb, andb_true_iff.
  rewrite String.eqb_eq, negb_true_iff. done.
Qed.
End AuthTheorems.

(** What one pass of the layer guarantees, from a cache that only holds verified keys: the
    cache stays so, the database is only read, and an admitted key carries a hash the
    presented token verifies against, is not disabled and has not expired. *)
Lemma api_key_auth_sound_lemma verify_key now now' h s out s' :
  cache_ok verify_key s -> api_key_auth verify_key now now' h s = (out, s') ->
  cache_ok verify_key s' /\ only_faults (auth_db s) (auth_db s') /\
  match out with
  | Admit k =>
    exists auth, h_authorization h = Some ("Bearer " +:+ auth) /\
      verify_key auth (key_hash k) = true /\ key_disabled k = false /\
      (forall e, key_expires_at k = Some e -> now < e \/ now' <= e) /\
      key_cache s' !! auth = Some k /\
      (key_cache s !! auth = Some k \/ k ∈ t_api_keys (auth_db s)) /\
      (forall a, a <> auth -> key_cache s' !! a = key_cache s !! a)
  | _ => key_cache s' = key_cache s
  end.
Proof.
  intros Hc Ha. unfold api_key_auth in Ha.
  destruct (h_authorization h) as [hd|] eqn:Eh; simpl in Ha;
    [|simplify_eq; split; [done|split; [apply only_faults_refl|done]]].
  destruct (extract_token hd) as [auth|] eqn:Et;
    [|simplify_eq; split; [done|split; [apply only_faults_refl|done]]].
  unfold extract_token in Et. apply strip_prefix_Some in Et.
  destruct (match cache_get auth (key_cache s) with Some _ => _ | None => None end) as [key|] eqn:Ef.
  - simplify_eq. unfold cache_get in Ef. destruct (key_cache s' !! auth) as [k0|] eqn:Ek; [|done].
    destruct (negb (key_disabled k0) && _) eqn:Ed; simplify_eq. apply andb_true_iff in Ed as [_ He].
    destruct (Hc auth key Ek) as [Hv Hd]. split; [done|split; [apply only_faults_refl|]].
    exists auth. repeat split; auto. intros e Hexp. rewrite Hexp in He. left. by apply Z.ltb_lt.
  - clear Ef. destruct (extract_prefix auth) as [prefix|];
      [|simplify_eq; split; [done|split; [apply only_faults_refl|done]]].
    destruct (key_get_by_prefix prefix (auth_db s)) as [r d] eqn:Eg.
    apply key_get_by_prefix_spec in Eg as [Hf Hg].
    destruct r as [l|e]; [|simplify_eq; split; [done|split; [done|done]]].
    destruct (head _) as [key|] eqn:Ehd; [|simplify_eq; split; [done|split; [done|done]]].
    apply head_filterb in Ehd as [Hin Hv]. apply Hg in Hin as (Hin & Hp & Hd).
    destruct (key_disabled key || _) eqn:Ee; [simplify_eq; split; [done|split; [done|done]]|].
    apply orb_false_iff in Ee as [_ Ee]. simplify_eq. unfold cache_insert. split; [|split; [done|]].
    + intros a k Hk. simpl in Hk. apply lookup_insert_Some in Hk as [[<- <-]|[_ Hk]]; [done|]. by apply Hc.
    + exists auth. simpl. rewrite lookup_insert_eq. repeat split; auto.
      * intros e Hexp. rewrite Hexp in Ee. right. by apply Z.ltb_ge.
      * intros a Ha. by rewrite lookup_insert_ne.
Qed.

(** Requests arriving one after another, with their clock readings. *)
Definition auth_run (verify_key : string -> string -> bool) (reqs : list (Z * Z * Headers)) (s : AuthState) : AuthState :=
  fold_left (fun s '(now, now', h) => (api_key_auth verify_key now now' h s).2) reqs s.

Lemma auth_run_ok verify_key reqs s : cache_ok verify_key s -> cache_ok verify_key (auth_run verify_key reqs s).
Proof.
  revert s. unfold auth_run. induction reqs as [|[[now now'] h] reqs IH]; intros s Hc; simpl; [done|].
  apply IH. destruct (api_key_auth verify_key now now' h s) as [out s'] eqn:E.
  by apply api_key_auth_sound_lemma in E as [? _].
Qed.

(** ** Theorems *)

(** Starting from an empty cache and after any sequence of requests, a request is only let
    through with a key whose stored hash its bearer token verifies against, that is not
    disabled in the copy used and not expired at the time of the check. *)
Theorem api_key_auth_sound verify_key reqs d now now' h k :
  (api_key_auth verify_key now now' h (auth_run verify_key reqs {| key_cache := ∅; auth_db := d |})).1 = Admit k ->
  exists auth, h_authorization h = Some ("Bearer " +:+ auth) /\
    verify_key auth (key_hash k) = true /\ key_disabled k = false /\
    (forall e, key_expires_at k = Some e -> now < e \/ now' <= e).
Proof.
  intros Ha. set (s := auth_run _ _ _) in *.
  assert (cache_ok verify_key s) as Hc.
  { apply auth_run_ok. intros a x Hx. simpl in Hx. by rewrite lookup_empty in Hx. }
  destruct (api_key_auth verify_key now now' h s) as [out s'] eqn:E. simpl in Ha. subst out.
  apply api_key_auth_sound_lemma in E as (_ & _ & auth & H1 & H2 & H3 & H4 & _); [|done]. eauto.
Qed.

(** A key row used by the witnesses. *)
Definition sample_key : ApiKey :=
  {| key_id := 1; key_user_id := 2; key_team_id := None; key_organization_id := 3; key_name := "ci";
     key_prefix := "abcdefgh"; key_hash := "sk-godwit-abcdefgh"; key_scopes := []; key_allowed_models := [];
     key_budget_limit_usd := None; key_budget_spent_usd := 0%Q; key_rpm := None; key_tpm := None;
     key_expires_at := None; key_disabled := false; key_created_at := 0 |}.
Definition empty_db : Db :=
  {| t_organizations := []; t_users := []; t_api_keys := []; t_models := []; t_provider_profiles := [];
     t_teams := []; t_team_memberships := []; t_refresh_tokens := []; t_end_users := [];
     t_request_logs := []; t_model_aliases := []; t_password_history := [];
     t_password_reset_tokens := []; db_faults := []; db_next := 100; db_now := 0 |}.
Definition bearer (token : string) : Headers :=
  {| h_authorization := Some ("Bearer " +:+ token); h_cookie := None; h_origin := None |}.

Lemma api_key_auth_sound_witness :
  exists auth, h_authorization (bearer "sk-godwit-abcdefgh") = Some ("Bearer " +:+ auth) /\
    String.eqb auth (key_hash sample_key) = true.
Proof.
  destruct (api_key_auth_sound String.eqb [] (put_api_keys [sample_key] empty_db) 0 0
              (bearer "sk-godwit-abcdefgh") sample_key eq_refl) as (auth & H1 & H2 & _).
  exists auth. split; [exact H1|exact H2].
Defined.

Lemma bearer_token auth : Some ("Bearer " +:+ auth) ≫= extract_token = Some auth.
Proof. apply (strip_prefix_app "Bearer "). Qed.

(** Revoking a key in the database does not revoke it in the gateway.  Once a token has
    been admitted, the cached copy keeps admitting it, whatever happens to the database row
    (blocked, deleted, regenerated), until the copy's own expiry. *)
Theorem cached_key_outlives_revocation verify_key now now' h s k s' :
  cache_ok verify_key s -> api_key_auth verify_key now now' h s = (Admit k, s') ->
  forall d n n', (forall e, key_expires_at k = Some e -> n < e) ->
  api_key_auth verify_key n n' h {| key_cache := key_cache s'; auth_db := d |} =
    (Admit k, {| key_cache := key_cache s'; auth_db := d |}).
Proof.
  intros Hc Ha d n n' Hn.
  apply api_key_auth_sound_lemma in Ha as (_ & _ & auth & H1 & H2 & H3 & _ & H5 & _); [|done].
  unfold api_key_auth. rewrite H1, bearer_token. unfold cache_get. cbn [key_cache]. rewrite H5, H3.
  destruct (key_expires_at k) as [e|] eqn:Ee; [|done]. by rewrite (proj2 (Z.ltb_lt _ _)) by auto.
Qed.

Lemma cached_key_outlives_revocation_witness :
  let h := bearer "sk-godwit-abcdefgh" in
  let '(_, s) := api_key_auth String.eqb 0 0 h {| key_cache := ∅; auth_db := put_api_keys [sample_key] empty_db |} in
  let '(_, blocked) := key_set_active 1 false (auth_db s) in
  (api_key_auth String.eqb 1 1 h {| key_cache := key_cache s; auth_db := blocked |}).1 = Admit sample_key /\
  (api_key_auth String.eqb 1 1 h {| key_cache := ∅; auth_db := blocked |}).1 = Refuse 401.
Proof.
  cbv zeta.
  destruct (api_key_auth String.eqb 0 0 (bearer "sk-godwit-abcdefgh")
    {| key_cache := ∅; auth_db := put_api_keys [sample_key] empty_db |}) as [out s'] eqn:E.
  assert (out = Admit sample_key) as -> by (vm_compute in E; injection E as <- _; reflexivity).
  destruct (key_set_active 1 false (auth_db s')) as [r blocked] eqn:Eb. split.
  - rewrite (cached_key_outlives_revocation String.eqb 0 0 (bearer "sk-godwit-abcdefgh")
      {| key_cache := ∅; auth_db := put_api_keys [sample_key] empty_db |} sample_key s');
      [reflexivity| |exact E|discriminate].
    intros a x Hx. cbn [key_cache] in Hx. rewrite lookup_empty in Hx. discriminate Hx.
  - vm_compute in E. injection E as <-. vm_compute in Eb. injection Eb as _ <-. reflexivity.
Defined.

(** A bearer token shorter than the ten characters of the key prefix crashes the handler:
    the slice in [extract_prefix] starts past its end. *)
Theorem short_token_panics verify_key now now' token s :
  (String.length token < 10)%nat -> key_cache s !! token = None ->
  api_key_auth verify_key now now' (bearer token) s = (Panicked, s).
Proof.
  intros Hl Hc. unfold api_key_auth. cbn [h_authorization bearer]. rewrite bearer_token. unfold cache_get. rewrite Hc.
  unfold extract_prefix, str_slice. change (String.length PREFIX) with 10%nat.
  rewrite (proj2 (Nat.leb_gt 10 _)) by lia. done.
Qed.

Lemma short_token_panics_witness :
  (api_key_auth String.eqb 0 0 (bearer "hunter2") {| key_cache := ∅; auth_db := empty_db |}).1 = Panicked.
Proof.
  rewrite (short_token_panics String.eqb 0 0 "hunter2"); [reflexivity|simpl; lia|apply lookup_empty].
Defined.

Lemma substring_prefix p s n m :
  String.length p = n -> String.substring n m (p +:+ s) = String.substring 0 m s.
Proof.
  revert n. induction p as [|c p IH]; intros n <-; simpl; [done|]. by apply IH.
Qed.

Lemma is_id_refl x : is_id x x = true.
Proof. apply Z.eqb_refl. Qed.

(** A key handed out by the admin API opens the gateway: after [generate_api_key] and the
    insert succeed, the plaintext authenticates as the new row, provided its hash verifies
    only the plaintext it was made from. *)
Theorem created_key_authenticates verify_key body hash user org name scopes allowed budget rpm tpm
    plaintext hash' prefix d k d' cache now now' :
  is_ascii body = true ->
  generate_api_key body hash = Some (plaintext, hash', prefix) ->
  verify_key plaintext hash = true ->
  (forall x, x ∈ t_api_keys d -> verify_key plaintext (key_hash x) = false) ->
  db_faults d = [] -> cache !! plaintext = None ->
  key_create user org name prefix hash' scopes allowed budget rpm tpm d = (Ok k, d') ->
  api_key_auth verify_key now now' (bearer plaintext) {| key_cache := cache; auth_db := d' |} =
    (Admit k, {| key_cache := cache_insert plaintext k cache; auth_db := d' |}).
Proof.
  intros Hb Hg Hv Hn Hf Hc Hk. unfold generate_api_key in Hg.
  assert (is_ascii (PREFIX +:+ body) = true) as Ha by (by rewrite is_ascii_app, Hb).
  destruct (extract_prefix (PREFIX +:+ body)) as [pre|] eqn:Ep; simplify_eq/=.
  unfold key_create, insert_row, fresh_id, get_db, stmt in Hk. st_unfold. rewrite Hf in Hk. simpl in Hk.
  destruct (key_ok _ _); simplify_eq/=. unfold api_key_auth, bearer. cbn [h_authorization].
  rewrite bearer_token. unfold cache_get. cbn [key_cache]. rewrite Hc.
  rewrite Ep. unfold key_get_by_prefix, select_all, get_db, stmt. st_unfold. rewrite Hf. simpl.
  rewrite order_by_unordered, filterb_app. simpl. rewrite String.eqb_refl. simpl.
  rewrite filterb_app. simpl. rewrite Hv.
  match goal with |- context [filterb ?p (filterb ?q (t_api_keys d))] =>
    assert (filterb p (filterb q (t_api_keys d)) = []) as -> end.
  { apply elem_of_nil_inv. intros x Hx. apply elem_of_filterb in Hx as [Hx1 Hx2].
    apply elem_of_filterb in Hx1 as [Hx1 _]. by rewrite Hn in Hx2. }
  done.
Qed.

Definition sample_user : User :=
  {| user_id := 2; user_organization_id := Some 3; user_email := "a@example.com"; user_name := None;
     user_role := "org_admin"; user_sso_provider := None; user_sso_subject := None;
     user_password_hash := None; user_password_changed_at := None; user_password_expires_at := None;
     user_must_change_password := false; user_created_at := 0 |}.
Definition sample_org : Organization :=
  {| org_id := 3; org_name := "acme"; org_rpm := None; org_tpm := None; org_created_at := 0 |}.
Definition sample_db : Db := put_users [sample_user] (put_organizations [sample_org] empty_db).

Lemma created_key_authenticates_witness :
  let '(r, d') := key_create 2 3 "ci" "abcdefghijkmnopq" "h" [] [] None None None sample_db in
  exists k, r = Ok k /\
    (api_key_auth (fun key h => String.eqb key "sk-godwit-abcdefghijkmnopqrst" && String.eqb h "h") 0 0
       (bearer "sk-godwit-abcdefghijkmnopqrst") {| key_cache := ∅; auth_db := d' |}).1 = Admit k.
Proof.
  destruct (key_create 2 3 "ci" "abcdefghijkmnopq" "h" [] [] None None None sample_db) as [r d'] eqn:E.
  destruct r as [k|e]; [|exfalso; vm_compute in E; discriminate E].
  exists k. split; [reflexivity|].
  rewrite (created_key_authenticates
    (fun key h => String.eqb key "sk-godwit-abcdefghijkmnopqrst" && String.eqb h "h")
    "abcdefghijkmnopqrst" "h" 2 3 "ci" [] [] None None None
    "sk-godwit-abcdefghijkmnopqrst" "h" "abcdefghijkmnopq" sample_db k d' ∅ 0 0);
    [reflexivity|reflexivity|reflexivity|reflexivity| |reflexivity|apply lookup_empty|exact E].
  intros x Hx. inversion Hx.
Defined.

(** A request with side effects that does not carry the configured origin never reaches a
    handler behind [jwt_auth] or [cookie_csrf], and whoever passes [jwt_auth] holds a token
    that verifies, taken from the bearer header if there is one and else from the cookie. *)
Theorem csrf_and_jwt_guard jwt_verify secret allowed m h :
  allowed <> "" ->
  (is_state_changing m = true -> h_origin h <> Some allowed ->
     jwt_auth jwt_verify secret allowed m h = Err 403 /\ cookie_csrf allowed m h = Err 403) /\
  (forall c, jwt_auth jwt_verify secret allowed m h = Ok c ->
     (is_state_changing m = false \/ h_origin h = Some allowed) /\
     exists token, jwt_verify secret token = Some c /\
       ((exists hd, h_authorization h = Some hd /\ hd = "Bearer " +:+ token) \/
        ((forall hd t, h_authorization h = Some hd -> hd <> "Bearer " +:+ t) /\
         cookie_value (h_cookie h) "godwit_access" = Some token))).
Proof.
  intros Hne. assert (is_empty allowed = false) as He by (by destruct allowed).
  assert (origin_allowed_from_config allowed m h = true <->
          is_state_changing m = false \/ h_origin h = Some allowed) as Ho.
  { unfold origin_allowed_from_config. rewrite He. simpl. destruct (is_state_changing m); simpl.
    - destruct (h_origin h) as [o|]; [|by split; [|intros [|]]]. rewrite String.eqb_eq.
      split; [intros ->; auto|by intros [?|[= ->]]].
    - split; auto. }
  unfold jwt_auth, cookie_csrf. split.
  - intros Hs Hn. destruct (origin_allowed_from_config allowed m h) eqn:E; [|done].
    destruct (proj1 Ho eq_refl); congruence.
  - intros c. destruct (origin_allowed_from_config allowed m h) eqn:E; simpl; [|done].
    intros Hc. split; [by apply Ho|]. unfold opt_or in Hc.
    destruct (h_authorization h) as [hd|] eqn:Eh; simpl in Hc.
    + destruct (extract_token hd) as [tok|] eqn:Et.
      * unfold ok_or in Hc. destruct (jwt_verify secret tok) eqn:Ev; simplify_eq. exists tok. split; [done|].
        left. exists hd. split; [done|]. by apply strip_prefix_Some in Et.
      * destruct (cookie_value (h_cookie h) "godwit_access") as [tok|] eqn:Ec; [|done].
        unfold ok_or in Hc. destruct (jwt_verify secret tok) eqn:Ev; simplify_eq. exists tok. split; [done|].
        right. split; [|done]. intros hd' t [= <-] ->. unfold extract_token in Et.
        pose proof (strip_prefix_app "Bearer " t) as Hx. simpl in Et, Hx. congruence.
    + destruct (cookie_value (h_cookie h) "godwit_access") as [tok|] eqn:Ec; [|done].
      unfold ok_or in Hc. destruct (jwt_verify secret tok) eqn:Ev; simplify_eq. exists tok. split; [done|].
      right. by split.
Qed.

Lemma csrf_and_jwt_guard_witness :
  jwt_auth (fun _ _ => None) "s" "https://app" POST
    {| h_authorization := None; h_cookie := Some "godwit_access=t"; h_origin := Some "https://evil" |} = Err 403.
Proof.
  refine (proj1 (proj1 (csrf_and_jwt_guard (fun _ _ => None) "s" "https://app" POST
    {| h_authorization := None; h_cookie := Some "godwit_access=t"; h_origin := Some "https://evil" |} _) _ _));
    [discriminate|reflexivity|discriminate].
Defined.

(** A body that is not JSON, such as a multipart upload, carries no model the scope check can
    see: the request passes whatever models the key is limited to. *)
Theorem model_scope_only_sees_json `{JsonText} key body :
  (from_str body = None -> model_scope key body = Ok body) /\
  (forall v m, from_str body = Some v -> get "model" v = Some (VString m) ->
     model_scope key body =
     if is_model_allowed key m then Ok body else Err Forbidden).
Proof.
  unfold model_scope, extract_model_from_body. split.
  - by intros ->.
  - intros v m -> Hg. simpl. by rewrite Hg.
Qed.
