(* ===== verification/Metrics.v ===== *)
(** * Metrics and health

    The Prometheus metrics of [godwit-api/src/metrics.rs], the endpoint and the web socket that
    serve them ([metrics_endpoint.rs], [admin/metrics_ws.rs]) and the health checks of
    [health.rs] and [utils.rs].

    The prometheus crate is the class [Prometheus]: a metric vector with its name, what the
    calls on its children do to it, the family it is gathered as, and the text encoder. *)

From stdpp Require Import base strings list gmap.
From Stdlib Require Import QArith Ascii.
From S2P Require Import Prelude RustStr Json Core Limiter Db.

#[local] Open Scope string_scope.
#[local] Open Scope Z_scope.

Class Prometheus `{F : F64} := {
  MetricVec : Type;
  vec_new : string -> list string -> MetricVec;                   (* name, label names *)
  vec_add : list string -> f64 -> MetricVec -> MetricVec;         (* with_label_values(l).inc_by(x), gauges too *)
  vec_observe : list string -> f64 -> MetricVec -> MetricVec;
  Family : Type;
  family_of : string -> MetricVec -> option Family;               (* none for a vector without children *)
  family_name : Family -> string;
  family_values : Family -> list f64;                             (* the counters or gauges of its children *)
  encode_text : list Family -> result string string;
  minus_one : f64;
}.

Section Metrics.
Context `{F : F64} `{!Prometheus}.

(** The process-wide registry, as the names registered in it, and the five vectors.
    [godwit-api/src/metrics.rs:5-33] [REGISTRY, REQUESTS_TOTAL, REQUEST_DURATION, TOKENS_TOTAL, COST_USD_TOTAL, ACTIVE_REQUESTS] *)
Record Metrics : Type := {
  registered : list string; requests_total : MetricVec; request_duration : MetricVec; tokens_total : MetricVec;
  cost_usd_total : MetricVec; active_requests : MetricVec }.
(** [godwit-api/src/metrics.rs:5-33] [lazy_static] *)
Definition metrics_new : Metrics :=
  {| registered := [];
     requests_total := vec_new "godwit_requests_total" ["model"; "provider"; "status"];
     request_duration := vec_new "godwit_request_duration_seconds" ["model"; "provider"];
     tokens_total := vec_new "godwit_tokens_total" ["type"; "model"];
     cost_usd_total := vec_new "godwit_cost_usd_total" ["org"; "team"; "api_key"];
     active_requests := vec_new "godwit_active_requests" ["model"; "provider"] |}.

Definition vectors (m : Metrics) : list (string * MetricVec) :=
  [("godwit_requests_total", requests_total m); ("godwit_request_duration_seconds", request_duration m);
   ("godwit_tokens_total", tokens_total m); ("godwit_cost_usd_total", cost_usd_total m); ("godwit_active_requests", active_requests m)].

Definition put_registered (l : list string) (m : Metrics) : Metrics :=
  {| registered := l; requests_total := requests_total m; request_duration := request_duration m; tokens_total := tokens_total m;
     cost_usd_total := cost_usd_total m; active_requests := active_requests m |}.
(** [Registry::register] refuses a name that is there. *)
Definition register (name : string) : ST Metrics string unit := fun m =>
  if str_in (registered m) name then (Err "AlreadyReg", m) else (Ok tt, put_registered (registered m ++ [name])%list m).
(** [godwit-api/src/metrics.rs:35-42] [register_metrics] *)
Definition register_metrics : ST Metrics string unit :=
  register "godwit_requests_total";;
  register "godwit_request_duration_seconds";;
  register "godwit_tokens_total";;
  register "godwit_cost_usd_total";;
  register "godwit_active_requests".

(** The families of the registered vectors, in the order of their names. *)
Definition gather (m : Metrics) : list Family :=
  order_by (fun a b => str_le (family_name a) (family_name b))
    (filter_map (fun '(name, v) => if str_in (registered m) name then family_of name v else None) (vectors m)).
(** [godwit-api/src/metrics.rs:44-48] [get_metrics] *)
Definition get_metrics (m : Metrics) : result string string := encode_text (gather m).

(** [godwit-api/src/metrics.rs:60-86] [sum_counter, sum_gauge] *)
Definition sum_metric (m : Metrics) (name : string) : f64 :=
  match List.find (fun f => String.eqb (family_name f) name) (gather m) with
  | Some f => fold_left fadd (family_values f) (of_u32 0)
  | None => of_u32 0
  end.
(** [godwit-api/src/metrics.rs:50-58] [MetricsSnapshot] *)
Record MetricsSnapshot : Type := {
  requestsTotal : f64; tokensTotal : f64; costUsdTotal : f64; activeRequests : f64; timestamp : string }.
(** [godwit-api/src/metrics.rs:88-96] [get_metric_snapshot] *)
Definition get_metric_snapshot (now : string) (m : Metrics) : MetricsSnapshot :=
  {| requestsTotal := sum_metric m "godwit_requests_total"; tokensTotal := sum_metric m "godwit_tokens_total";
     costUsdTotal := sum_metric m "godwit_cost_usd_total"; activeRequests := sum_metric m "godwit_active_requests"; timestamp := now |}.

(** ** Recording *)

Definition put_vectors (r d t c a : MetricVec) (m : Metrics) : Metrics :=
  {| registered := registered m; requests_total := r; request_duration := d; tokens_total := t; cost_usd_total := c; active_requests := a |}.
(** [godwit-api/src/metrics.rs:101-108] [MetricsCollector::record_request] *)
Definition record_request (model provider status : string) (duration : f64) (m : Metrics) : Metrics :=
  put_vectors (vec_add [model; provider; status] (of_u32 1) (requests_total m)) (vec_observe [model; provider] duration (request_duration m))
    (tokens_total m) (cost_usd_total m) (active_requests m) m.
(** [godwit-api/src/metrics.rs:110-114] [MetricsCollector::record_tokens] *)
Definition record_tokens (token_type model : string) (count : Z) (m : Metrics) : Metrics :=
  put_vectors (requests_total m) (request_duration m) (vec_add [token_type; model] (of_u32 count) (tokens_total m))
    (cost_usd_total m) (active_requests m) m.
(** [godwit-api/src/metrics.rs:116-120] [MetricsCollector::record_cost] *)
Definition record_cost (org team api_key : string) (cost : f64) (m : Metrics) : Metrics :=
  put_vectors (requests_total m) (request_duration m) (tokens_total m) (vec_add [org; team; api_key] cost (cost_usd_total m))
    (active_requests m) m.
(** [godwit-api/src/metrics.rs:122-126] [MetricsCollector::increment_active] *)
Definition increment_active (model provider : string) (m : Metrics) : Metrics :=
  put_vectors (requests_total m) (request_duration m) (tokens_total m) (cost_usd_total m)
    (vec_add [model; provider] (of_u32 1) (active_requests m)) m.
(** [godwit-api/src/metrics.rs:128-132] [MetricsCollector::decrement_active] *)
Definition decrement_active (model provider : string) (m : Metrics) : Metrics :=
  put_vectors (requests_total m) (request_duration m) (tokens_total m) (cost_usd_total m)
    (vec_add [model; provider] minus_one (active_requests m)) m.

(** What the handlers of the process call. *)
Inductive Recorded : Type :=
| RRequest (model provider status : string) (duration : f64)
| RTokens (token_type model : string) (count : Z)
| RCost (org team api_key : string) (cost : f64)
| RStart (model provider : string)
| REnd (model provider : string).
Definition record (e : Recorded) (m : Metrics) : Metrics :=
  match e with
  | RRequest model provider status d => record_request model provider status d m
  | RTokens ty model n => record_tokens ty model n m
  | RCost o t k c => record_cost o t k c m
  | RStart model provider => increment_active model provider m
  | REnd model provider => decrement_active model provider m
  end.
Definition served (es : list Recorded) (m : Metrics) : Metrics := fold_left (fun m e => record e m) es m.

(** ** Serving *)

(** The content type and the body, or the status.
    [godwit-api/src/metrics_endpoint.rs:16-31] [metrics_handler] *)
Definition metrics_handler (m : Metrics) : result Z (string * string) :=
  match get_metrics m with
  | Ok metrics_text => Ok ("text/plain; version=0.0.4", metrics_text)
  | Err _ => Err 500
  end.

(** [json] writes a float.
    [godwit-api/src/admin/metrics_ws.rs:28-41] [build_metrics_frame] *)
Definition build_metrics_frame (json : f64 -> value) (now : string) (m : Metrics) : value :=
  let snap := get_metric_snapshot now m in
  obj [("type", VString "metrics:update");
       ("data", obj [("requestsTotal", json (requestsTotal snap)); ("tokensTotal", json (tokensTotal snap));
                     ("costUsdTotal", json (costUsdTotal snap)); ("activeRequests", json (activeRequests snap));
                     ("timestamp", VString (timestamp snap))])].

(** What wakes the loop of a socket: a message, or the interval of two seconds, with the
    metrics and the time then and whether the frame could be sent. *)
Inductive Wake : Type :=
| WClose | WGone | WOther | WError
| WTick (m : Metrics) (now : string) (sent : bool).
(** The frames sent, and whether the socket is still open.
    [godwit-api/src/admin/metrics_ws.rs:43-62] [handle_socket] *)
Fixpoint handle_socket (json : f64 -> value) (wakes : list Wake) : list value * bool :=
  match wakes with
  | [] => ([], true)
  | (WClose | WGone | WError) :: _ => ([], false)
  | WOther :: wakes => handle_socket json wakes
  | WTick m now sent :: wakes =>
    let frame := build_metrics_frame json now m in
    if sent then let '(frames, open) := handle_socket json wakes in (frame :: frames, open) else ([], false)
  end.
End Metrics.

(** ** Health *)

(** [godwit-api/src/health.rs:16-18] [health_check] *)
Definition health_check : value := obj [("status", VString "ok")].

Definition not_ready (reason : string) : Z * value := (503, obj [("status", VString "not_ready"); ("reason", VString reason)]).
Definition show_db (e : PasteurError) : string := match e with Database m => m | _ => "" end.
(** [godwit-api/src/health.rs:20-60] [health_ready] *)
Definition health_ready : ST Db (Z * value) value :=
  st_map_err (fun e => not_ready ("database connection failed: " +:+ show_db e)) stmt;;
  model_count ← st_map_err (fun e => not_ready ("failed to query models: " +:+ show_db e))
                  (stmt;; d ← get_db; mret (Z.of_nat (length (t_models d))));
  fail_if (model_count =? 0) (not_ready "no models configured in catalog");;
  mret (obj [("status", VString "ok")]).

(** ** The health route of the utilities ([godwit-api/src/utils.rs]) *)

(** [godwit-api/src/utils.rs:190-195] [ProviderStatus] *)
Record ProviderStatus : Type := { ps_name : string; ps_status : string; ps_latency_ms : option Z }.
(** [godwit-api/src/utils.rs:181-188] [HealthStatus] *)
Record HealthStatus : Type := {
  hs_status : string; hs_version : string; hs_uptime_secs : Z; hs_database : string; hs_providers : list ProviderStatus }.

(** [START_TIME] is a cell that its first reader fills; [now] is the clock in seconds.
    [godwit-api/src/utils.rs:197-206] [get_start_time] *)
Definition get_start_time (now : Z) (cell : option Z) : Z * option Z := (default now cell, Some (default now cell)).
(** [godwit-api/src/utils.rs:230-236] [check_database_health] *)
Definition check_database_health : ST Db ApiError string :=
  st_map_err (fun e => DatabaseError ("database connection failed: " +:+ show_db e)) stmt;;
  mret "connected".
(** [godwit-api/src/utils.rs:238-240] [check_provider_health] *)
Definition check_provider_health : list ProviderStatus := [].

(** The clock is read once for the cell and once for the uptime, a 64-bit difference.
    [godwit-api/src/utils.rs:208-228] [health] *)
Definition health (version : string) (now1 now2 : Z) (cell : option Z) : option Z * ST Db ApiError HealthStatus :=
  let '(start_time, cell) := get_start_time now1 cell in
  let uptime_secs := as_u64 (now2 - start_time) in
  (cell,
   database ← check_database_health;
   mret {| hs_status := "healthy"; hs_version := version; hs_uptime_secs := uptime_secs; hs_database := database;
           hs_providers := check_provider_health |}).
(** The answers to a series of requests, each with its two readings of the clock and its database. *)
Fixpoint health_answers (version : string) (reqs : list (Z * Z * Db)) (cell : option Z) : list (result ApiError HealthStatus) :=
  match reqs with
  | [] => []
  | (now1, now2, d) :: reqs =>
    let '(cell, m) := health version now1 now2 cell in (m d).1 :: health_answers version reqs cell
  end.

(** ** Facts *)

Lemma health_spec version now1 now2 cell d :
  let '(cell', m) := health version now1 now2 cell in
  cell' = Some (default now1 cell) /\
  (m d).1 = match db_faults d with
            | Some e :: _ => Err (DatabaseError ("database connection failed: " +:+ e))
            | _ => Ok {| hs_status := "healthy"; hs_version := version; hs_uptime_secs := as_u64 (now2 - default now1 cell);
                         hs_database := "connected"; hs_providers := [] |}
            end.
Proof.
  unfold health, get_start_time, check_database_health, stmt. st_unfold. split; [done|].
  destruct (db_faults d) as [|[e|] rest]; done.
Qed.

(** The uptime of a report counts from the first report, not from the start of the process, and
    the list of providers is always empty. *)
Lemma uptime_counts_from_the_first_report version now1 now2 d reqs i now1' now2' d' h :
  ((now1, now2, d) :: reqs) !! i = Some (now1', now2', d') ->
  health_answers version ((now1, now2, d) :: reqs) None !! i = Some (Ok h) ->
  hs_uptime_secs h = as_u64 (now2' - now1) /\ hs_providers h = [].
Proof.
  intros Hi Ha. assert (forall reqs i, reqs !! i = Some (now1', now2', d') ->
    health_answers version reqs (Some now1) !! i = Some (Ok h) -> hs_uptime_secs h = as_u64 (now2' - now1) /\ hs_providers h = []) as Hlater.
  { clear. induction reqs as [|[[m1 m2] d] reqs IH]; intros [|i] Hi Ha; simplify_eq/=; [|by apply (IH i)].
    pose proof (health_spec version now1' now2' (Some now1) d') as Hh. simpl in Hh. destruct Hh as [_ Hh].
    rewrite Hh in Ha. by destruct (db_faults d') as [|[e|] rest]; simplify_eq. }
  destruct i as [|i]; simplify_eq/=; [|by apply (Hlater reqs i)].
  pose proof (health_spec version now1' now2' None d') as Hh. simpl in Hh. destruct Hh as [_ Hh].
  rewrite Hh in Ha. by destruct (db_faults d') as [|[e|] rest]; simplify_eq.
Qed.

Section Facts.
Context `{F : F64} `{!Prometheus}.
Implicit Types m : Metrics.

Definition metric_names : list string :=
  ["godwit_requests_total"; "godwit_request_duration_seconds"; "godwit_tokens_total"; "godwit_cost_usd_total"; "godwit_active_requests"].

Lemma record_registered e m : registered (record e m) = registered m.
Proof. by destruct e. Qed.
Lemma served_registered es m : registered (served es m) = registered m.
Proof. unfold served. revert m. induction es as [|e es IH]; intros m; simpl; [done|]. by rewrite IH, record_registered. Qed.
Lemma gather_unregistered m : registered m = [] -> gather m = [].
Proof. intros Hm. unfold gather. rewrite Hm. reflexivity. Qed.
Lemma sum_unregistered m name : registered m = [] -> sum_metric m name = of_u32 0.
Proof. intros Hm. unfold sum_metric. by rewrite (gather_unregistered m Hm). Qed.

(** The process never serves its metrics.  Nothing but a test registers the five vectors, so
    whatever the handlers record after the start, the endpoint answers with the encoding of no
    family at all, and a snapshot, and every frame of a socket, says zero four times.  A
    registration at the start would be enough: it succeeds once, fails when repeated, and from
    then on the answer encodes the families of the five vectors. *)
Theorem metrics_are_never_served es now json :
  let m := served es metrics_new in
  get_metrics m = encode_text [] /\
  get_metric_snapshot now m = {| requestsTotal := of_u32 0; tokensTotal := of_u32 0; costUsdTotal := of_u32 0;
                                 activeRequests := of_u32 0; timestamp := now |} /\
  (forall sent, handle_socket json [WTick m now sent] =
     if sent then ([obj [("type", VString "metrics:update");
                         ("data", obj [("requestsTotal", json (of_u32 0)); ("tokensTotal", json (of_u32 0)); ("costUsdTotal", json (of_u32 0));
                                       ("activeRequests", json (of_u32 0)); ("timestamp", VString now)])]], true)
     else ([], false)) /\
  exists m1, register_metrics metrics_new = (Ok tt, m1) /\ (register_metrics m1).1 = Err "AlreadyReg" /\
    get_metrics (served es m1) =
    encode_text (order_by (fun a b => str_le (family_name a) (family_name b))
                   (filter_map (fun '(name, v) => family_of name v) (vectors (served es m1)))).
Proof.
  cbv zeta. assert (registered (served es metrics_new) = []) as Hm by (by rewrite served_registered).
  assert (get_metric_snapshot now (served es metrics_new) =
    {| requestsTotal := of_u32 0; tokensTotal := of_u32 0; costUsdTotal := of_u32 0; activeRequests := of_u32 0; timestamp := now |}) as Hs
    by (unfold get_metric_snapshot; by rewrite !(sum_unregistered _ _ Hm)).
  split; [unfold get_metrics; by rewrite (gather_unregistered _ Hm)|]. split; [done|]. split.
  - intros sent. cbn [handle_socket]. unfold build_metrics_frame. rewrite Hs. by destruct sent.
  - exists (put_registered metric_names metrics_new). split; [vm_compute; reflexivity|]. split; [vm_compute; reflexivity|].
    unfold get_metrics, gather. rewrite served_registered. reflexivity.
Qed.

(** A socket sends its frames until it is told to stop or cannot: of the ticks before that. *)
Definition ends (w : Wake) : bool := match w with WClose | WGone | WError => true | WTick _ _ sent => negb sent | WOther => false end.
Lemma socket_sends_every_tick json wakes :
  (handle_socket json wakes).2 = negb (existsb ends wakes) /\
  (existsb ends wakes = false ->
   (handle_socket json wakes).1 = filter_map (fun w => match w with WTick m now _ => Some (build_metrics_frame json now m) | _ => None end) wakes).
Proof.
  induction wakes as [|w wakes [IH1 IH2]]; [done|]. destruct w as [| | | |m now sent]; simpl; try done.
  destruct sent; simpl; [|done]. destruct (handle_socket json wakes) as [frames open]. simpl in *. split; [done|].
  intros Hw. by rewrite (IH2 Hw).
Qed.
End Facts.

(** The readiness check says what is wrong.  It answers ready exactly when its two
    statements succeed and the catalog has a model; otherwise the answer is 503 and names the
    first of the three that failed.  It changes nothing. *)
Theorem readiness_names_the_failure d :
  match db_faults d with
  | Some e :: _ => (health_ready d).1 = Err (not_ready ("database connection failed: " +:+ e))
  | None :: Some e :: _ => (health_ready d).1 = Err (not_ready ("failed to query models: " +:+ e))
  | _ => (health_ready d).1 = match t_models d with [] => Err (not_ready "no models configured in catalog") | _ => Ok health_check end
  end /\ only_faults d (health_ready d).2.
Proof.
  unfold health_ready, stmt, get_db, health_check. st_unfold.
  destruct (db_faults d) as [|[e|] rest] eqn:Ed; simpl; rewrite ?Ed.
  - split; [|destruct (t_models d); apply only_faults_refl]. by destruct (t_models d).
  - split; [done|by eexists].
  - destruct rest as [|[e|] rest]; simpl; (split; [try done; by destruct (t_models d)|]);
      (destruct (t_models d); simpl; first [by eexists | by exists rest]).
Qed.
