(* ===== verification/Admin.v ===== *)
(** * The admin API: users, teams, API keys, organizations

    The handlers of [godwit-api/src/admin/users.rs], [teams.rs], [api_keys.rs] and
    [organizations.rs] as computations over the database that fail with an API error.  The
    state a failing handler leaves behind is part of the result.

    The texts of identifiers, times and decimals in the responses come from the [uuid],
    [chrono] and [rust_decimal] crates and are the class [Fmt]. *)

From stdpp Require Import base strings list gmap.
From Stdlib Require Import QArith.
From S2P Require Import Prelude RustStr Json Core Db Auth.

#[local] Open Scope string_scope.
#[local] Open Scope Z_scope.

Class Fmt := { fmt_uuid : Uuid -> string; fmt_time : Z -> string; fmt_dec : Q -> string }.

Abbreviation API := (ST Db ApiError).
Definition core {A} (m : DB A) : API A := st_map_err CoreError m.

Section Responses.
Context `{Fmt}.
Definition v_uuid (x : Uuid) : value := VString (fmt_uuid x).
Definition v_opt_uuid (x : option Uuid) : value := opt_value v_uuid x.
Definition v_time (x : Z) : value := VString (fmt_time x).
Definition v_opt_str (x : option string) : value := opt_value VString x.
Definition v_opt_dec (x : option Q) : value := opt_value (fun q => VString (fmt_dec q)) x.
Definition v_opt_num (x : option Z) : value := opt_value num x.
Definition v_strs (l : list string) : value := VArray (VString <$> l).

(** The password fields are [skip_serializing].
    [godwit-db/src/models.rs:15-36] [User::serialize] *)
Definition user_to_value (u : User) : value := obj [
  ("id", v_uuid (user_id u)); ("organization_id", v_opt_uuid (user_organization_id u));
  ("email", VString (user_email u)); ("name", v_opt_str (user_name u)); ("role", VString (user_role u));
  ("sso_provider", v_opt_str (user_sso_provider u)); ("sso_subject", v_opt_str (user_sso_subject u));
  ("created_at", v_time (user_created_at u))].

(** The key hash is [skip_serializing].
    [godwit-db/src/models.rs:67-88] [ApiKey::serialize] *)
Definition key_to_value (k : ApiKey) : value := obj [
  ("id", v_uuid (key_id k)); ("user_id", v_uuid (key_user_id k)); ("team_id", v_opt_uuid (key_team_id k));
  ("organization_id", v_uuid (key_organization_id k)); ("name", VString (key_name k));
  ("key_prefix", VString (key_prefix k)); ("scopes", v_strs (key_scopes k));
  ("allowed_models", v_strs (key_allowed_models k));
  ("budget_limit_usd", v_opt_dec (key_budget_limit_usd k));
  ("budget_spent_usd", VString (fmt_dec (key_budget_spent_usd k)));
  ("rate_limit_requests_per_minute", v_opt_num (key_rpm k));
  ("rate_limit_tokens_per_minute", v_opt_num (key_tpm k));
  ("expires_at", opt_value v_time (key_expires_at k)); ("disabled", VBool (key_disabled k));
  ("created_at", v_time (key_created_at k))].

(** [godwit-db/src/models.rs:124-132] [Team::serialize] *)
Definition team_to_value (t : Team) : value := obj [
  ("id", v_uuid (team_id t)); ("organization_id", v_uuid (team_organization_id t));
  ("name", VString (team_name t)); ("budget_usd", v_opt_dec (team_budget_usd t));
  ("max_budget_usd", v_opt_dec (team_max_budget_usd t)); ("created_at", v_time (team_created_at t))].

(** [godwit-db/src/models.rs:134-139] [TeamMembership::serialize] *)
Definition membership_to_value (m : TeamMembership) : value := obj [
  ("user_id", v_uuid (tm_user_id m)); ("team_id", v_uuid (tm_team_id m)); ("role", VString (tm_role m))].

(** [godwit-db/src/models.rs:6-13] [Organization::serialize] *)
Definition org_to_value (o : Organization) : value := obj [
  ("id", v_uuid (org_id o)); ("name", VString (org_name o));
  ("rate_limit_requests_per_minute", v_opt_num (org_rpm o));
  ("rate_limit_tokens_per_minute", v_opt_num (org_tpm o)); ("created_at", v_time (org_created_at o))].

Definition data (v : value) : value := obj [("data", v)].
Definition deleted : value := obj [("deleted", VBool true)].
End Responses.

(** ** Guards *)

Definition role_in (r : Role) (l : list Role) : bool := bool_decide (r ∈ l).
Definition is_role (r r' : Role) : bool := bool_decide (r = r').

(** [godwit-api/src/admin/users.rs:29-35] [require_role] *)
Definition require_role (c : Claims) (allowed : list Role) : result ApiError Role :=
  role ← ok_or Forbidden (role_from_str (c_role c));
  if negb (role_in role allowed) then Err Forbidden else Ok role.

(** [godwit-api/src/admin/users.rs:38-43] [check_same_org] *)
Definition check_same_org (role : Role) (c : Claims) (target_org : option Uuid) : result ApiError unit :=
  if negb (is_role role SuperAdmin) && negb (same_opt target_org (Some (c_organization_id c)))
  then Err Forbidden else Ok tt.

(** [godwit-api/src/admin/users.rs:50-55] [check_not_acting_on_super_admin] *)
Definition check_not_acting_on_super_admin (role : Role) (target_role : string) : result ApiError unit :=
  if negb (is_role role SuperAdmin) && String.eqb target_role "super_admin" then Err Forbidden else Ok tt.

(** [godwit-api/src/admin/mod.rs:27-33] [require_super_admin] *)
Definition require_super_admin (c : Claims) : result ApiError unit :=
  role ← ok_or Forbidden (role_from_str (c_role c));
  if negb (is_role role SuperAdmin) then Err Forbidden else Ok tt.

(** [godwit-api/src/admin/teams.rs:24-30] [require_manage_users] *)
Definition require_manage_users (c : Claims) : result ApiError Role :=
  role ← ok_or Forbidden (role_from_str (c_role c));
  if negb (can_manage_users role) then Err Forbidden else Ok role.

Definition require_manage_keys (c : Claims) : result ApiError Role :=
  role ← ok_or Forbidden (role_from_str (c_role c));
  if negb (can_manage_api_keys role) then Err Forbidden else Ok role.

(** ** Users *)

Section Handlers.
Context `{Fmt}.

(** [godwit-api/src/admin/users.rs:62-78] [list_users] *)
Definition list_users (c : Claims) (organization_id : option Uuid) : API value :=
  role ← lift (require_role c [SuperAdmin; OrgAdmin]);
  users ← core (if is_role role SuperAdmin
                then match organization_id with
                     | Some org_id => user_list_for_organization org_id
                     | None => user_list_all
                     end
                else user_list_for_organization (c_organization_id c));
  mret (data (VArray (user_to_value <$> users))).

(** [godwit-api/src/admin/users.rs:80-98] [create_user] *)
Definition create_user (c : Claims) (email : string) (name : option string) (role_str : string) : API value :=
  caller_role ← lift (require_role c [SuperAdmin; OrgAdmin]);
  role ← lift (ok_or (BadRequest "invalid role") (user_role_from_str role_str));
  fail_if (String.eqb role_str "super_admin" && negb (is_role caller_role SuperAdmin)) Forbidden;;
  user ← core (user_create email name role (Some (c_organization_id c)));
  mret (data (user_to_value user)).

(** [godwit-api/src/admin/users.rs:100-109] [get_user] *)
Definition get_user (c : Claims) (id : Uuid) : API value :=
  role ← lift (require_role c [SuperAdmin; OrgAdmin]);
  user ← core (user_get_by_id id);
  lift (check_same_org role c (user_organization_id user));;
  mret (data (user_to_value user)).

(** [godwit-api/src/admin/users.rs:136-142] [update_user] *)
Definition check_new_role (role : Role) (new_role : option string) : result ApiError unit :=
  match new_role with
  | None => Ok tt
  | Some role_str =>
    ok_or (BadRequest "invalid role") (user_role_from_str role_str);;
    if String.eqb role_str "super_admin" && negb (is_role role SuperAdmin) then Err Forbidden else Ok tt
  end.

(** [godwit-api/src/admin/users.rs:118-163] [update_user] *)
Definition update_user (c : Claims) (id : Uuid) (name new_role : option string) (new_org : option Uuid) : API value :=
  role ← lift (require_role c [SuperAdmin; OrgAdmin]);
  fail_if (match new_role with Some _ => is_id (c_user_id c) id | None => false end)
    (BadRequest "cannot change your own role");;
  target ← core (user_get_by_id id);
  lift (check_same_org role c (user_organization_id target));;
  lift (check_not_acting_on_super_admin role (user_role target));;
  fail_if (match new_org with Some _ => negb (is_role role SuperAdmin) | None => false end) Forbidden;;
  lift (check_new_role role new_role);;
  let reassigning_org := match new_org with
                         | Some _ => negb (same_opt new_org (user_organization_id target))
                         | None => false
                         end in
  updated ← core (user_update id name new_role new_org);
  (if reassigning_org then core (remove_all_for_user id) else mret tt);;
  mret (data (user_to_value updated)).

(** [godwit-api/src/admin/users.rs:165-179] [delete_user] *)
Definition delete_user (c : Claims) (id : Uuid) : API value :=
  role ← lift (require_role c [SuperAdmin; OrgAdmin]);
  fail_if (is_id (c_user_id c) id) (BadRequest "cannot delete your own account");;
  target ← core (user_get_by_id id);
  lift (check_same_org role c (user_organization_id target));;
  lift (check_not_acting_on_super_admin role (user_role target));;
  core (user_delete id);;
  mret deleted.

(** ** Teams *)

Definition check_team_org (role : Role) (c : Claims) (org : Uuid) : result ApiError unit :=
  if negb (is_role role SuperAdmin) && negb (is_id org (c_organization_id c)) then Err Forbidden else Ok tt.

(** [godwit-api/src/admin/teams.rs:37-56] [list_teams] *)
Definition list_teams (c : Claims) (organization_id : option Uuid) : API value :=
  role ← lift (require_manage_users c);
  teams ← core (if is_role role SuperAdmin
                then match organization_id with
                     | Some org_id => team_list_for_organization org_id
                     | None => team_list_all
                     end
                else team_list_for_organization (c_organization_id c));
  mret (data (VArray (team_to_value <$> teams))).

(** [godwit-api/src/admin/teams.rs:58-69] [get_team] *)
Definition get_team (c : Claims) (id : Uuid) : API value :=
  role ← lift (require_manage_users c);
  team ← core (team_get_by_id id);
  lift (check_team_org role c (team_organization_id team));;
  mret (data (team_to_value team)).

(** [godwit-api/src/admin/teams.rs:79-97] [create_team] *)
Definition create_team (c : Claims) (name : string) (organization_id : option Uuid) (budget max_budget : option Q) : API value :=
  role ← lift (require_manage_users c);
  org ← lift (if is_role role SuperAdmin
              then ok_or (BadRequest "organization_id is required") organization_id
              else Ok (c_organization_id c));
  team ← core (team_create org name budget max_budget);
  mret (data (team_to_value team)).

(** [godwit-api/src/admin/teams.rs:106-130] [update_team] *)
Definition update_team (c : Claims) (id : Uuid) (name : option string) (budget max_budget : option Q) : API value :=
  role ← lift (require_manage_users c);
  team ← core (team_get_by_id id);
  lift (check_team_org role c (team_organization_id team));;
  let new_name := default (team_name team) name in
  let new_budget := opt_or budget (team_budget_usd team) in
  let new_max_budget := opt_or max_budget (team_max_budget_usd team) in
  updated ← core (team_update_with_budget id new_name new_budget new_max_budget);
  mret (data (team_to_value updated)).

(** [godwit-api/src/admin/teams.rs:132-144] [delete_team] *)
Definition delete_team (c : Claims) (id : Uuid) : API value :=
  role ← lift (require_manage_users c);
  team ← core (team_get_by_id id);
  lift (check_team_org role c (team_organization_id team));;
  core (team_delete id);;
  mret deleted.

(** A membership lookup that fails for any reason refuses.
    [godwit-api/src/admin/teams.rs:146-173] [require_team_manage] *)
Definition require_team_manage (c : Claims) (team : Uuid) : API unit :=
  role ← lift (ok_or Forbidden (role_from_str (c_role c)));
  if is_role role SuperAdmin then mret tt
  else
    t ← core (team_get_by_id team);
    if is_role role OrgAdmin && is_id (team_organization_id t) (c_organization_id c) then mret tt
    else catch (get_membership team (c_user_id c))
           (fun r => match r with
                     | Ok m => if String.eqb (tm_role m) "team_admin" then mret tt else throw Forbidden
                     | Err _ => throw Forbidden
                     end).

(** [godwit-api/src/admin/teams.rs:181-199] [add_member] *)
Definition add_team_member (c : Claims) (team user : Uuid) (role : string) : API value :=
  require_team_manage c team;;
  fail_if (negb (String.eqb role "team_admin") && negb (String.eqb role "member"))
    (BadRequest "role must be 'team_admin' or 'member'");;
  m ← core (add_member team user role);
  mret (data (membership_to_value m)).

(** [godwit-api/src/admin/teams.rs:201-213] [remove_member] *)
Definition remove_team_member (c : Claims) (team user : Uuid) : API value :=
  require_team_manage c team;;
  core (remove_member team user);;
  mret (obj [("removed", VBool true)]).

(** ** API keys *)

(** [godwit-api/src/admin/api_keys.rs:40-62] [list_api_keys] *)
Definition list_api_keys (c : Claims) (organization_id : option Uuid) : API value :=
  role ← lift (require_manage_keys c);
  keys ← core (if is_role role SuperAdmin
               then match organization_id with
                    | Some org_id => key_list_for_organization org_id
                    | None => key_list_all
                    end
               else key_list_for_organization (c_organization_id c));
  mret (data (VArray (key_to_value <$> keys))).

(** [godwit-api/src/admin/api_keys.rs:64-78] [get_api_key] *)
Definition get_api_key (c : Claims) (id : Uuid) : API value :=
  role ← lift (require_manage_keys c);
  key ← core (key_get_by_id id);
  lift (check_team_org role c (key_organization_id key));;
  mret (data (key_to_value key)).

(** [godwit-api/src/admin/api_keys.rs:80-95] [delete_api_key] *)
Definition delete_api_key (c : Claims) (id : Uuid) : API value :=
  role ← lift (require_manage_keys c);
  key ← core (key_get_by_id id);
  lift (check_team_org role c (key_organization_id key));;
  core (key_delete id);;
  mret deleted.

(** [generated] is the outcome of [generate_api_key].
    [godwit-api/src/admin/api_keys.rs:97-128] [create_api_key] *)
Definition create_api_key (c : Claims) (name : string) (scopes allowed : list string) (rpm tpm : option Z)
    (generated : string * string * string) : API value :=
  role ← lift (require_manage_keys c);
  let '(plaintext, hash, prefix) := generated in
  key ← core (key_create (c_user_id c) (c_organization_id c) name prefix hash scopes allowed None rpm tpm);
  mret (obj [("id", v_uuid (key_id key)); ("key", VString plaintext); ("name", VString (key_name key))]).

(** The guard of the four actions below: the caller's role is parsed but not required to be
    one that manages keys. *)
Definition key_in_reach (c : Claims) (id : Uuid) : API ApiKey :=
  role ← lift (ok_or Forbidden (role_from_str (c_role c)));
  key ← core (key_get_by_id id);
  lift (check_team_org role c (key_organization_id key));;
  mret key.

(** [godwit-api/src/admin/api_keys.rs:137-151] [block_key] *)
Definition block_key (c : Claims) (id : Uuid) : API value :=
  key_in_reach c id;;
  updated ← core (key_set_active id false);
  mret (data (key_to_value updated)).

(** [godwit-api/src/admin/api_keys.rs:153-167] [unblock_key] *)
Definition unblock_key (c : Claims) (id : Uuid) : API value :=
  key_in_reach c id;;
  updated ← core (key_set_active id true);
  mret (data (key_to_value updated)).

(** [godwit-api/src/admin/api_keys.rs:169-189] [regenerate_key] *)
Definition regenerate_key (c : Claims) (id : Uuid) (generated : string * string * string) : API value :=
  key_in_reach c id;;
  let '(plaintext, hash, prefix) := generated in
  updated ← core (key_regenerate id prefix hash);
  mret (obj [("key", VString plaintext); ("id", v_uuid (key_id updated)); ("created_at", v_time (key_created_at updated))]).

(** [godwit-api/src/admin/api_keys.rs:191-205] [reset_spend] *)
Definition reset_spend (c : Claims) (id : Uuid) : API value :=
  key_in_reach c id;;
  updated ← core (key_reset_spend id);
  mret (data (key_to_value updated)).

(** ** Organizations *)

(** [godwit-api/src/admin/organizations.rs:27-35] [get_organization] *)
Definition get_organization (c : Claims) (id : Uuid) : API value :=
  lift (require_super_admin c);; org ← core (org_get_by_id id); mret (data (org_to_value org)).

(** [godwit-api/src/admin/organizations.rs:37-44] [list_organizations] *)
Definition list_organizations (c : Claims) : API value :=
  lift (require_super_admin c);; orgs ← core org_list; mret (data (VArray (org_to_value <$> orgs))).

(** [godwit-api/src/admin/organizations.rs:53-69] [create_organization] *)
Definition create_organization (c : Claims) (name : string) (rpm tpm : option Z) : API value :=
  lift (require_super_admin c);; org ← core (org_create_with_limits name rpm tpm); mret (data (org_to_value org)).

(** [godwit-api/src/admin/organizations.rs:78-96] [update_organization] *)
Definition update_organization (c : Claims) (id : Uuid) (name : option string) (rpm tpm : option Z) : API value :=
  lift (require_super_admin c);; org ← core (org_update_with_limits id name rpm tpm); mret (data (org_to_value org)).

(** [godwit-api/src/admin/organizations.rs:98-106] [delete_organization] *)
Definition delete_organization (c : Claims) (id : Uuid) : API value :=
  lift (require_super_admin c);; core (org_delete id);; mret deleted.
End Handlers.

(** ** Lemmas *)

Lemma core_inv {A} (m : DB A) d r d' :
  core m d = (r, d') -> exists r0, m d = (r0, d') /\ r = map_err CoreError r0.
Proof. apply st_map_err_inv. Qed.

Lemma only_faults_tables d d' :
  only_faults d d' -> t_users d' = t_users d /\ t_team_memberships d' = t_team_memberships d /\
                      t_api_keys d' = t_api_keys d /\ t_teams d' = t_teams d /\ db_next d' = db_next d.
Proof. intros [f ->]. done. Qed.

Lemma require_role_inv c allowed r :
  require_role c allowed = r ->
  (exists role, r = Ok role /\ role_from_str (c_role c) = Some role /\ role ∈ allowed) \/ r = Err Forbidden.
Proof.
  unfold require_role, role_in. destruct (role_from_str (c_role c)) as [role|] eqn:E; simpl; [|eauto].
  case_bool_decide; simpl; intros <-; eauto.
Qed.

Lemma user_role_roundtrip s r : user_role_from_str s = Some r -> user_role_as_str r = s.
Proof.
  unfold user_role_from_str.
  repeat (match goal with |- context [String.eqb ?a ?b] => destruct (String.eqb_spec a b) as [->|] end;
          [by intros [= <-]|]). done.
Qed.

(** Primary keys are unique. *)
Definition users_unique (d : Db) : Prop := NoDup (user_id <$> t_users d).

Lemma unique_by_id d u v : users_unique d -> u ∈ t_users d -> v ∈ t_users d -> user_id u = user_id v -> u = v.
Proof.
  unfold users_unique. intros Hn Hu Hv E. apply list_elem_of_lookup in Hu as [i Hi].
  apply list_elem_of_lookup in Hv as [j Hj].
  assert (i = j) as ->; [|congruence].
  eapply (NoDup_lookup _ _ _ (user_id u)); [done| |]; rewrite list_lookup_fmap; [by rewrite Hi|].
  rewrite Hj. simpl. by rewrite E.
Qed.

Lemma user_get_by_id_spec id d r d' :
  user_get_by_id id d = (r, d') ->
  only_faults d d' /\ match r with Ok u => u ∈ t_users d /\ user_id u = id | Err e => True end.
Proof.
  intros H. apply select_one_spec in H as [Hf H]; [|done]. split; [done|]. destruct r as [u|e]; [|done].
  destruct H as [l Hl]. simpl in Hl. assert (u ∈ filterb (fun u => is_id (user_id u) id) (t_users d)) as Hu.
  { rewrite Hl. left. }
  apply elem_of_filterb in Hu as [? Hu]. split; [done|]. by apply Z.eqb_eq.
Qed.

(** A caller without the role of [SuperAdmin]. *)
Definition ordinary (c : Claims) : Prop := role_from_str (c_role c) <> Some SuperAdmin.

(** The rows an ordinary caller of organization [org] must not affect. *)
Definition outside (org : Uuid) (u : User) : Prop :=
  user_role u = "super_admin" \/ user_organization_id u <> Some org.

Lemma ordinary_role c allowed role :
  ordinary c -> require_role c allowed = Ok role -> role <> SuperAdmin /\ is_role role SuperAdmin = false.
Proof.
  intros Ho H. apply require_role_inv in H as [(r & [= <-] & E & _)|?]; [|done].
  assert (role <> SuperAdmin) as Hn by (intros ->; by apply Ho). split; [done|].
  unfold is_role. by apply bool_decide_eq_false.
Qed.

(** Passing both target checks: the target is one of the caller's own. *)
Lemma target_checks role c u :
  is_role role SuperAdmin = false ->
  check_same_org role c (user_organization_id u) = Ok tt ->
  check_not_acting_on_super_admin role (user_role u) = Ok tt ->
  user_organization_id u = Some (c_organization_id c) /\ user_role u <> "super_admin".
Proof.
  intros Hr. unfold check_same_org, check_not_acting_on_super_admin, same_opt. rewrite Hr. simpl.
  case_bool_decide as Ho; simpl; [|done]. intros _.
  destruct (String.eqb_spec (user_role u) "super_admin"); done.
Qed.

Lemma user_delete_spec id d r d' :
  user_delete id d = (r, d') ->
  (only_faults d d' /\ exists m, r = Err (Database m)) \/
  (r = Ok tt /\ exists d1, only_faults d d1 /\
     d' = cascade_user id (put_users (filterb (fun u => negb (is_id (user_id u) id)) (t_users d)) d1)).
Proof.
  intros H. unfold user_delete in H. bind_in H.
  - apply delete_rows_spec in Hm as [Hf [m ->]]; [|done]. left. eauto.
  - apply delete_rows_spec in Hm as (d1 & Hf & ->); [|done]. unfold modify in H. simplify_eq. right. eauto.
Qed.

Lemma user_update_spec id name role org d r d' :
  user_update id name role org d = (r, d') ->
  (only_faults d d' /\ exists e, r = Err e) \/
  (exists cur d1, cur ∈ t_users d /\ user_id cur = id /\ only_faults d d1 /\
     let f u := with_profile u (opt_or name (user_name cur)) (default (user_role cur) role)
                  (opt_or org (user_organization_id cur)) in
     d' = put_users ((fun u => if is_id (user_id u) id then f u else u) <$> t_users d) d1 /\
     exists u, r = Ok (f u)).
Proof.
  intros H. unfold user_update in H. bind_in H.
  - apply user_get_by_id_spec in Hm as [Hf _]. left. eauto.
  - apply user_get_by_id_spec in Hm as [Hf [Hin Hid]]. apply update_rows_spec in H; [|done].
    destruct r as [y|e].
    + destruct H as (d1 & Hf1 & -> & x0 & l & _ & ->). right. exists x, d1.
      split; [done|]. split; [done|]. split; [by eapply only_faults_trans|].
      simpl. destruct (only_faults_tables _ _ Hf) as [-> _]. eauto.
    + destruct H as [Hf1 _]. left. split; [by eapply only_faults_trans|eauto].
Qed.

(** ** Users: what an ordinary caller can do *)

Section UserTheorems.
Context `{Fmt}.

Inductive user_call : Type :=
| CallCreate (email : string) (name : option string) (role : string)
| CallUpdate (id : Uuid) (name role : option string) (org : option Uuid)
| CallDelete (id : Uuid).

Definition run_user_call (c : Claims) (k : user_call) : API value :=
  match k with
  | CallCreate email name role => create_user c email name role
  | CallUpdate id name role org => update_user c id name role org
  | CallDelete id => delete_user c id
  end.

Definition same_outside (org : Uuid) (d d' : Db) : Prop :=
  forall u, outside org u -> (u ∈ t_users d <-> u ∈ t_users d').

Lemma same_outside_faults org d d' : only_faults d d' -> same_outside org d d'.
Proof. intros Hf u _. by destruct (only_faults_tables _ _ Hf) as [-> _]. Qed.

Lemma same_outside_eq org d d' : t_users d' = t_users d -> same_outside org d d'.
Proof. intros E u _. by rewrite E. Qed.

Lemma create_user_protects c email name role d r d' :
  ordinary c -> create_user c email name role d = (r, d') -> same_outside (c_organization_id c) d d'.
Proof.
  intros Ho H0. unfold create_user in H0. bind_in H0; apply lift_inv in Hm as [Hr ->]; [by apply same_outside_eq|].
  symmetry in Hr. destruct (ordinary_role _ _ _ Ho Hr) as [_ Hrole].
  bind_in H0; apply lift_inv in Hm as [Hur ->]; [by apply same_outside_eq|].
  symmetry in Hur. destruct (user_role_from_str role) as [ur|] eqn:Eur; simplify_eq/=.
  apply user_role_roundtrip in Eur.
  bind_in H0; apply fail_if_inv in Hm as [-> Hm]; [by apply same_outside_eq|].
  destruct Hm as [[_ Hm]|[Hc _]]; [done|]. rewrite Hrole, andb_true_r in Hc.
  apply String.eqb_neq in Hc.
  assert (forall r1 d1, core (user_create email name x0 (Some (c_organization_id c))) d = (r1, d1) ->
            same_outside (c_organization_id c) d d1) as Hcore.
  { intros r1 d1 Hm. apply core_inv in Hm as (r0 & Hm & ->). unfold user_create in Hm.
    bind_in Hm; unfold fresh_id in Hm0; simplify_eq.
    bind_in Hm; unfold gets in Hm0; simplify_eq.
    apply insert_row_spec in Hm; [|done]. destruct r0 as [y|e].
    - destruct Hm as (-> & d2 & Hf & ->). intros u Hu. simpl. rewrite elem_of_app, list_elem_of_singleton.
      split; [by left|]. intros [?| ->]; [done|]. destruct Hu as [Hu|Hu]; simpl in Hu; congruence.
    - destruct Hm as [Hf _]. intros u Hu. destruct (only_faults_tables _ _ Hf) as [-> _]. done. }
  bind_in H0; apply Hcore in Hm; [done|]. unfold mret, st_ret in H0. by simplify_eq.
Qed.

Lemma delete_user_protects c id d r d' :
  ordinary c -> users_unique d -> delete_user c id d = (r, d') -> same_outside (c_organization_id c) d d'.
Proof.
  intros Ho Hu H0. unfold delete_user in H0.
  bind_in H0; apply lift_inv in Hm as [Hr ->]; [by apply same_outside_eq|].
  symmetry in Hr. destruct (ordinary_role _ _ _ Ho Hr) as [_ Hrole].
  bind_in H0; apply fail_if_inv in Hm as [-> Hm]; [by apply same_outside_eq|]. clear Hm.
  bind_in H0; apply core_inv in Hm as (r0 & Hm & Er); apply user_get_by_id_spec in Hm as [Hf Hg];
    [by apply same_outside_faults|].
  destruct r0 as [u|e]; simplify_eq/=. destruct Hg as [Hin Hid].
  bind_in H0; apply lift_inv in Hm as [Hso ->]; [by apply same_outside_faults|].
  bind_in H0; apply lift_inv in Hm as [Hsa ->]; [by apply same_outside_faults|].
  destruct x1, x2. destruct (target_checks x c u Hrole (eq_sym Hso) (eq_sym Hsa)) as [Horg Hnsa].
  destruct (only_faults_tables _ _ Hf) as [Eu _].
  assert (forall r1 d1, core (user_delete id) s = (r1, d1) -> same_outside (c_organization_id c) d d1) as Hcore.
  { intros r1 d1 Hm. apply core_inv in Hm as (r0 & Hm & ->).
    apply user_delete_spec in Hm as [[Hf1 _]|(_ & d2 & _ & ->)].
    - intros v _. destruct (only_faults_tables _ _ Hf1) as [-> _]. by rewrite Eu.
    - intros v Hv. simpl. rewrite Eu, elem_of_filterb. split; [|by intros [? _]]. intros Hvin. split; [done|].
      apply negb_true_iff, Z.eqb_neq. intros E.
      assert (v = u) as -> by (eapply unique_by_id; eauto; congruence). destruct Hv; congruence. }
  bind_in H0; apply Hcore in Hm; [done|]. unfold mret, st_ret in H0. by simplify_eq.
Qed.

Lemma check_new_role_inv role nr :
  is_role role SuperAdmin = false -> check_new_role role nr = Ok tt -> nr <> Some "super_admin".
Proof.
  intros Hr. unfold check_new_role. destruct nr as [s|]; [|done]. rewrite Hr. simpl.
  destruct (user_role_from_str s); simpl; [|done].
  destruct (String.eqb_spec s "super_admin"); simpl; [done|]. congruence.
Qed.

Lemma user_update_protects c id name nr d r d' u d0 :
  users_unique d0 -> t_users d = t_users d0 -> u ∈ t_users d0 -> user_id u = id ->
  user_organization_id u = Some (c_organization_id c) -> user_role u <> "super_admin" ->
  nr <> Some "super_admin" ->
  user_update id name nr None d = (r, d') -> same_outside (c_organization_id c) d0 d'.
Proof.
  intros Hu Ed Hin Hid Horg Hnsa Hnr H0.
  apply user_update_spec in H0 as [[Hf _]|(cur & d1 & Hcur & Hcid & Hf & -> & _)].
  - intros v _. destruct (only_faults_tables _ _ Hf) as [-> _]. by rewrite Ed.
  - rewrite Ed in *. assert (cur = u) as -> by (eapply unique_by_id; eauto; congruence).
    intros v Hv. simpl. rewrite list_elem_of_fmap. split.
    + intros Hvin. exists v. split; [|done]. destruct (is_id (user_id v) id) eqn:Ei; [|done].
      apply Z.eqb_eq in Ei. assert (v = u) as -> by (eapply unique_by_id; eauto; congruence).
      destruct Hv; congruence.
    + intros (w & -> & Hw). destruct (is_id (user_id w) id) eqn:Ei; [|done].
      destruct Hv as [Hv|Hv]; simpl in Hv; [|congruence].
      destruct nr; simpl in Hv; congruence.
Qed.

Lemma update_user_protects c id name nr no d r d' :
  ordinary c -> users_unique d -> update_user c id name nr no d = (r, d') ->
  same_outside (c_organization_id c) d d'.
Proof.
  intros Ho Hu H0. unfold update_user in H0.
  bind_in H0; apply lift_inv in Hm as [Hr ->]; [by apply same_outside_eq|].
  symmetry in Hr. destruct (ordinary_role _ _ _ Ho Hr) as [_ Hrole].
  bind_in H0; apply fail_if_inv in Hm as [-> Hm]; [by apply same_outside_eq|]. clear Hm.
  bind_in H0; apply core_inv in Hm as (r0 & Hm & Er); apply user_get_by_id_spec in Hm as [Hf Hg];
    [by apply same_outside_faults|].
  destruct r0 as [u|e]; simplify_eq/=. destruct Hg as [Hin Hid].
  bind_in H0; apply lift_inv in Hm as [Hso ->]; [by apply same_outside_faults|].
  bind_in H0; apply lift_inv in Hm as [Hsa ->]; [by apply same_outside_faults|].
  destruct x1, x2. destruct (target_checks x c u Hrole (eq_sym Hso) (eq_sym Hsa)) as [Horg Hnsa].
  destruct (only_faults_tables _ _ Hf) as [Eu _].
  bind_in H0; apply fail_if_inv in Hm as [-> Hm]; [by apply same_outside_faults|].
  destruct Hm as [[_ Hm]|[Hc _]]; [done|].
  destruct no as [o|]; [by rewrite Hrole in Hc|].
  bind_in H0; apply lift_inv in Hm as [Hnr ->]; [by apply same_outside_faults|].
  destruct x2. symmetry in Hnr. apply check_new_role_inv in Hnr; [|done].
  bind_in H0; apply core_inv in Hm as (r1 & Hm & Er2);
    pose proof (user_update_protects c id name nr _ _ _ u d Hu Eu Hin Hid Horg Hnsa Hnr Hm) as Hp; [done|].
  unfold mbind, st_bind, mret, st_ret in H0. simplify_eq. done.
Qed.

Lemma user_call_protects c k d r d' :
  ordinary c -> users_unique d -> run_user_call c k d = (r, d') -> same_outside (c_organization_id c) d d'.
Proof.
  destruct k; simpl; eauto using create_user_protects, update_user_protects, delete_user_protects.
Qed.

(** A role that may not manage users is refused before anything is read. *)
Lemma user_call_refused c k d :
  (forall role, role_from_str (c_role c) = Some role -> can_manage_users role = false) ->
  run_user_call c k d = (Err Forbidden, d).
Proof.
  intros Hr. assert (require_role c [SuperAdmin; OrgAdmin] = Err Forbidden) as E.
  { unfold require_role. destruct (role_from_str (c_role c)) as [role|]; [|done]. simpl.
    specialize (Hr role eq_refl). by destruct role. }
  destruct k; simpl; unfold create_user, update_user, delete_user; st_unfold; by rewrite E.
Qed.
End UserTheorems.

(** C2: tenants are isolated and privilege cannot be raised through the user API.  A caller
    that is not a super admin can create, change and delete users, under any database
    failures, only among the ordinary users of its own organization: the rows of super admins
    and of every other organization are exactly the same afterwards, so none is changed,
    removed or added.  A caller below org admin is refused without touching the database. *)
Theorem user_api_isolation `{Fmt} (c : Claims) (k : user_call) (d : Db) :
  ordinary c -> users_unique d ->
  (forall u, outside (c_organization_id c) u -> (u ∈ t_users d <-> u ∈ t_users (run_user_call c k d).2)) /\
  (role_from_str (c_role c) <> Some OrgAdmin -> run_user_call c k d = (Err Forbidden, d)).
Proof.
  intros Ho Hu. destruct (run_user_call c k d) as [r d'] eqn:E. split.
  - by eapply user_call_protects.
  - intros Hr. rewrite <- E. apply user_call_refused. intros role Hrole.
    destruct role; done.
Qed.

Definition plain_fmt : Fmt := {| fmt_uuid _ := "id"; fmt_time _ := "t"; fmt_dec _ := "0" |}.
Definition claims_of (u : User) : Claims :=
  {| c_sub := ""; c_user_id := user_id u; c_organization_id := default 0 (user_organization_id u);
     c_role := user_role u; c_exp := 0; c_iat := 0 |}.
Definition root_user : User := with_profile sample_user (Some "root") "super_admin" (Some 3).

Lemma user_api_isolation_witness :
  root_user ∈ t_users (run_user_call (H := plain_fmt) (claims_of sample_user) (CallDelete 2)
                        (put_users [root_user] sample_db)).2.
Proof.
  refine (proj1 (proj1 (user_api_isolation (H := plain_fmt) (claims_of sample_user) (CallDelete 2)
    (put_users [root_user] sample_db) _ _) root_user _) _).
  - discriminate.
  - unfold users_unique. simpl. apply NoDup_singleton.
  - left. reflexivity.
  - left.
Defined.

(** ** Reassignment and memberships *)

Lemma remove_all_for_user_spec id d r d' :
  remove_all_for_user id d = (r, d') ->
  (only_faults d d' /\ exists m, r = Err (Database m)) \/
  (r = Ok tt /\ t_team_memberships d' =
     filterb (fun m => negb (is_id (tm_user_id m) id)) (t_team_memberships d)).
Proof.
  intros H. unfold remove_all_for_user in H. bind_in H.
  - apply delete_rows_spec in Hm as [Hf [m ->]]; [|done]. left. eauto.
  - apply delete_rows_spec in Hm as (d1 & Hf & ->); [|done]. unfold mret, st_ret in H. simplify_eq. by right.
Qed.

(** Moving a user to another organization takes its team memberships away: when the
    update is acknowledged and the organization changed, no membership of that user is left,
    and no other membership is lost. *)
Theorem reassignment_drops_memberships `{Fmt} c id name nr org d v d' u :
  users_unique d -> u ∈ t_users d -> user_id u = id -> user_organization_id u <> Some org ->
  update_user c id name nr (Some org) d = (Ok v, d') ->
  forall m, m ∈ t_team_memberships d' <-> m ∈ t_team_memberships d /\ tm_user_id m <> id.
Proof.
  intros Hu Hin Hid Horg H0. unfold update_user in H0.
  bind_in H0; [done|]; apply lift_inv in Hm as [_ ->].
  bind_in H0; [done|]; apply fail_if_inv in Hm as [-> _].
  bind_in H0; [done|]; apply core_inv in Hm as (r0 & Hm & Er); apply user_get_by_id_spec in Hm as [Hf Hg].
  destruct r0 as [u'|e]; simplify_eq/=. destruct Hg as [Hin' Hid'].
  assert (u' = u) as -> by (by eapply unique_by_id).
  bind_in H0; [done|]; apply lift_inv in Hm as [_ ->].
  bind_in H0; [done|]; apply lift_inv in Hm as [_ ->].
  bind_in H0; [done|]; apply fail_if_inv in Hm as [-> _].
  bind_in H0; [done|]; apply lift_inv in Hm as [_ ->].
  assert (negb (same_opt (Some org) (user_organization_id u)) = true) as Hre.
  { unfold same_opt. apply negb_true_iff, bool_decide_eq_false. congruence. }
  rewrite Hre in H0.
  bind_in H0; [done|]; apply core_inv in Hm as (r1 & Hm & Er2).
  assert (t_team_memberships s0 = t_team_memberships d) as Em.
  { destruct (only_faults_tables _ _ Hf) as (_ & E1 & _).
    apply user_update_spec in Hm as [[Hf1 _]|(cur & d1 & _ & _ & Hf1 & -> & _)];
      destruct (only_faults_tables _ _ Hf1) as (_ & E2 & _); simpl; congruence. }
  bind_in H0; [done|]; apply core_inv in Hm0 as (r2 & Hm0 & Er3).
  apply remove_all_for_user_spec in Hm0 as [[_ [m ->]]|[-> Hm0]]; [done|].
  unfold mret, st_ret in H0. simplify_eq. intros m. rewrite Hm0, elem_of_filterb, Em, negb_true_iff.
  by rewrite Z.eqb_neq.
Qed.

Definition other_org : Organization :=
  {| org_id := 4; org_name := "globex"; org_rpm := None; org_tpm := None; org_created_at := 0 |}.
Definition sample_team : Team :=
  {| team_id := 9; team_organization_id := 3; team_name := "core"; team_budget_usd := None;
     team_max_budget_usd := None; team_created_at := 0 |}.
Definition team_db (faults : list (option string)) : Db :=
  put_faults faults (put_organizations [sample_org; other_org] (put_teams [sample_team]
    (put_team_memberships [{| tm_user_id := 2; tm_team_id := 9; tm_role := "team_admin" |}]
      (put_users [sample_user] empty_db)))).
Definition root_claims : Claims :=
  {| c_sub := ""; c_user_id := 50; c_organization_id := 3; c_role := "super_admin"; c_exp := 0; c_iat := 0 |}.

Lemma reassignment_drops_memberships_witness :
  let '(r, d') := update_user (H := plain_fmt) root_claims 2 None None (Some 4) (team_db []) in
  is_ok r = true /\ ~ ({| tm_user_id := 2; tm_team_id := 9; tm_role := "team_admin" |} ∈ t_team_memberships d').
Proof.
  destruct (update_user (H := plain_fmt) root_claims 2 None None (Some 4) (team_db [])) as [r d'] eqn:E.
  destruct r as [v|e]; [|exfalso; vm_compute in E; discriminate E].
  split; [reflexivity|]. intros Hin.
  refine (proj2 (proj1 (reassignment_drops_memberships (H := plain_fmt) root_claims 2 None None 4 (team_db [])
    v d' sample_user _ _ _ _ E _) Hin) _); try reflexivity.
  - unfold users_unique. simpl. apply NoDup_singleton.
  - left.
  - discriminate.
Defined.

(** The update and the removal of memberships are two statements without a transaction.
    If the second one fails, the caller sees an error but the user has moved and still holds
    its membership, and with it keeps managing a team of the organization it left. *)
Theorem reassignment_is_not_atomic :
  exists d, users_unique d /\
    let '(r, d') := update_user (H := plain_fmt) root_claims 2 None None (Some 4) d in
    r = Err (CoreError (Database "connection lost")) /\
    (user_organization_id <$> t_users d') = [Some 4] /\
    let moved := {| c_sub := ""; c_user_id := 2; c_organization_id := 4; c_role := "org_admin"; c_exp := 0; c_iat := 0 |} in
    (require_team_manage moved 9 d').1 = Ok tt.
Proof.
  exists (team_db [None; None; None; Some "connection lost"]). split.
  - unfold users_unique. simpl. apply NoDup_singleton.
  - vm_compute. auto.
Qed.

(** ** API keys: who can act on them *)

Lemma key_get_by_id_spec id d r d' :
  key_get_by_id id d = (r, d') ->
  only_faults d d' /\ match r with Ok k => k ∈ t_api_keys d /\ key_id k = id | Err e => True end.
Proof.
  intros H. apply select_one_spec in H as [Hf H]; [|done]. split; [done|]. destruct r as [k|e]; [|done].
  destruct H as [l Hl]. simpl in Hl. assert (k ∈ filterb (fun k => is_id (key_id k) id) (t_api_keys d)) as Hu.
  { rewrite Hl. left. }
  apply elem_of_filterb in Hu as [? Hu]. split; [done|]. by apply Z.eqb_eq.
Qed.

Lemma key_in_reach_inv c id d r d' :
  key_in_reach c id d = (r, d') ->
  only_faults d d' /\
  match r with
  | Ok k => k ∈ t_api_keys d /\ key_id k = id /\
            (role_from_str (c_role c) = Some SuperAdmin \/ key_organization_id k = c_organization_id c)
  | Err _ => True
  end.
Proof.
  intros H. unfold key_in_reach in H.
  bind_in H; apply lift_inv in Hm as [Hr ->]; [split; [apply only_faults_refl|done]|].
  bind_in H; apply core_inv in Hm as (r0 & Hm & Er); apply key_get_by_id_spec in Hm as [Hf Hg]; [by split|].
  destruct r0 as [k|e]; simplify_eq/=. destruct Hg as [Hin Hid].
  bind_in H; apply lift_inv in Hm as [Ho ->]; [by split|].
  unfold mret, st_ret in H. simplify_eq. split; [done|]. split; [done|]. split; [done|].
  unfold check_team_org, is_role in Ho. unfold ok_or in Hr.
  destruct (role_from_str (c_role c)) as [role|]; simplify_eq.
  case_bool_decide as Es; [subst; auto|]. simpl in Ho. destruct (is_id _ _) eqn:Ei; [|done].
  apply Z.eqb_eq in Ei. auto.
Qed.

(** A key can only be blocked, unblocked, regenerated or have its spend reset by a super
    admin or by a member of the key's organization; other organizations' keys stay as they
    are, whatever fails. *)
Theorem key_actions_stay_in_organization `{Fmt} c id gen d r d' k :
  NoDup (key_id <$> t_api_keys d) ->
  role_from_str (c_role c) <> Some SuperAdmin -> key_organization_id k <> c_organization_id c ->
  (block_key c id d = (r, d') \/ unblock_key c id d = (r, d') \/ regenerate_key c id gen d = (r, d') \/
   reset_spend c id d = (r, d')) ->
  k ∈ t_api_keys d -> k ∈ t_api_keys d'.
Proof.
  intros Hnd Hr Hk Hcall Hin.
  assert (forall f ok (m : DB ApiKey) r1 d0 d1, only_faults d d0 ->
            (forall k0, k0 ∈ t_api_keys d -> key_id k0 = id -> key_organization_id k0 = c_organization_id c) ->
            update_rows api_keys (fun k => is_id (key_id k) id) f ok PNotFound d0 = (r1, d1) ->
            k ∈ t_api_keys d1) as Hup.
  { intros f ok m r1 d0 d1 Hf Hg Hu. destruct (only_faults_tables _ _ Hf) as (_ & _ & Ek & _).
    apply update_rows_spec in Hu; [|done]. destruct r1 as [y|e].
    - destruct Hu as (d2 & Hf2 & -> & _). simpl. rewrite Ek. apply list_elem_of_fmap. exists k.
      split; [|done]. destruct (is_id (key_id k) id) eqn:Ei; [|done]. apply Z.eqb_eq in Ei.
      by apply Hg in Ei.
    - destruct Hu as [Hf2 _]. destruct (only_faults_tables _ _ Hf2) as (_ & _ & -> & _). by rewrite Ek. }
  assert (forall r1 d1, key_in_reach c id d = (r1, d1) -> k ∈ t_api_keys d1) as Hreach.
  { intros r1 d1 Hm. apply key_in_reach_inv in Hm as [Hf _].
    destruct (only_faults_tables _ _ Hf) as (_ & _ & -> & _). done. }
  assert (forall k0 d1, key_in_reach c id d = (Ok k0, d1) -> only_faults d d1 /\
            forall k1, k1 ∈ t_api_keys d -> key_id k1 = id -> key_organization_id k1 = c_organization_id c) as Hg.
  { intros k0 d1 Hm. apply key_in_reach_inv in Hm as [Hf (Hk0 & Hid & [?|Ho])]; [done|]. split; [done|].
    intros k1 Hk1 Hid1. assert (k1 = k0) as ->; [|done].
    apply list_elem_of_lookup in Hk1 as [i Hi]. apply list_elem_of_lookup in Hk0 as [j Hj].
    assert (i = j) as ->; [|congruence].
    eapply (NoDup_lookup _ _ _ id); [done| |]; rewrite list_lookup_fmap; [by rewrite Hi, <- Hid1|].
    by rewrite Hj, <- Hid. }
  unfold block_key, unblock_key, regenerate_key, reset_spend in Hcall.
  destruct Hcall as [H0|[H0|[H0|H0]]].
  all: bind_in H0; [by eapply Hreach|]; destruct (Hg _ _ Hm) as [Hf Hg'].
  3: destruct gen as [[plaintext hash] prefix].
  all: bind_in H0; apply core_inv in Hm0 as (r1 & Hm0 & Er);
    unfold key_set_active, key_regenerate, key_reset_spend in Hm0;
    try (match type of Hm0 with context [@gets] => bind_in Hm0; unfold gets in Hm1; simplify_eq end);
    eapply (Hup _ _ (mret k)) in Hm0; try done; unfold mret, st_ret in H0; by simplify_eq.
Qed.

Definition plain_user_claims : Claims :=
  {| c_sub := ""; c_user_id := 77; c_organization_id := 3; c_role := "user"; c_exp := 0; c_iat := 0 |}.
Definition foreign_key : ApiKey :=
  {| key_id := 5; key_user_id := 8; key_team_id := None; key_organization_id := 4; key_name := "theirs";
     key_prefix := "p"; key_hash := "h5"; key_scopes := []; key_allowed_models := [];
     key_budget_limit_usd := None; key_budget_spent_usd := 0%Q; key_rpm := None; key_tpm := None;
     key_expires_at := None; key_disabled := false; key_created_at := 0 |}.

Lemma key_actions_stay_in_organization_witness :
  foreign_key ∈ t_api_keys (block_key (H := plain_fmt) plain_user_claims 5
                              (put_api_keys [sample_key; foreign_key] sample_db)).2.
Proof.
  destruct (block_key (H := plain_fmt) plain_user_claims 5
              (put_api_keys [sample_key; foreign_key] sample_db)) as [r d'] eqn:E.
  refine (key_actions_stay_in_organization (H := plain_fmt) plain_user_claims 5 ("", "", "")
    (put_api_keys [sample_key; foreign_key] sample_db) r d' foreign_key _ _ _ (or_introl E) _).
  - apply (bool_decide_unpack _). vm_compute. exact I.
  - discriminate.
  - discriminate.
  - right. left.
Defined.

(** Inside an organization the four key actions ask for no particular role: a plain
    [user], who may neither list, read, create nor delete keys, can regenerate any key of the
    organization and is handed the new plaintext. *)
Theorem plain_user_takes_over_key :
  let d := put_api_keys [sample_key] sample_db in
  let '(taken, d') := regenerate_key (H := plain_fmt) plain_user_claims 1 ("sk-godwit-NEW", "hash", "NEW") d in
  (get_api_key (H := plain_fmt) plain_user_claims 1 d).1 = Err Forbidden /\
  (delete_api_key plain_user_claims 1 d).1 = Err Forbidden /\
  (exists v, taken = Ok v /\ get "key" v = Some (VString "sk-godwit-NEW")) /\
  key_user_id sample_key <> c_user_id plain_user_claims /\
  (key_hash <$> t_api_keys d') = ["hash"].
Proof. vm_compute. repeat split; [eauto|discriminate]. Qed.

(** ** What responses reveal *)

(** No admin response depends on a password or on a key hash: two users that differ only
    in their password fields, and two keys that differ only in their hash, are written as the
    same JSON. *)
Theorem secrets_never_serialized `{Fmt} u hash changed expires must k h :
  user_to_value {| user_id := user_id u; user_organization_id := user_organization_id u;
     user_email := user_email u; user_name := user_name u; user_role := user_role u;
     user_sso_provider := user_sso_provider u; user_sso_subject := user_sso_subject u;
     user_password_hash := hash; user_password_changed_at := changed; user_password_expires_at := expires;
     user_must_change_password := must; user_created_at := user_created_at u |} = user_to_value u /\
  key_to_value (with_key k (key_prefix k) h (key_budget_spent_usd k) (key_disabled k) (key_created_at k)) =
  key_to_value k.
Proof. by destruct u, k. Qed.

(** A member of another organization can be added to a team: the target user's organization
    is not compared with the team's. *)
Theorem add_member_crosses_organizations :
  let outsider := with_profile sample_user None "user" (Some 4) in
  let d := put_users [outsider] (put_team_memberships [] (team_db [])) in
  let admin := {| c_sub := ""; c_user_id := 60; c_organization_id := 3; c_role := "org_admin"; c_exp := 0; c_iat := 0 |} in
  is_ok (add_team_member (H := plain_fmt) admin 9 2 "team_admin" d).1 = true.
Proof. vm_compute. reflexivity. Qed.
