(* ===== verification/Router.v ===== *)
(** * Model routing

    [godwit-api/src/model_router.rs] over the model and profile repositories, the load
    balancer of [Balancer.v], the adapter registry of [godwit-providers/src/registry.rs] and
    the credential decryption of [godwit-auth/src/credentials.rs].

    The balancer's state survives a failed resolution, as do the statements already sent; the
    in-flight guard of a resolution that fails after taking it is dropped on the way out. *)

From stdpp Require Import base strings list gmap.
From Stdlib Require Import SpecFloat.
From S2P Require Import Prelude RustStr Json Core Db Balancer.

#[local] Open Scope string_scope.
#[local] Open Scope Z_scope.

(** ** Credentials *)

(** What [decrypt_api_key] calls of the base64, AES-GCM and UTF-8 libraries; byte strings are
    [string]s and an [Err] carries the text of the library's error. *)
Class Crypto := {
  b64_decode : string -> result string string;
  aes_open : string -> string -> string -> option string;   (* key, nonce, ciphertext *)
  from_utf8 : string -> result string string;
  serde_error : value -> string;
}.

Section Credentials.
Context `{Crypto}.

(** [godwit-auth/src/credentials.rs:27-48] [decrypt_api_key] *)
Definition decrypt_api_key (master_key : string) (s : EncryptedSecret) : result PasteurError string :=
  nonce_bytes ← map_err (fun e => Auth ("invalid credential nonce encoding: " +:+ e)) (b64_decode (nonce s));
  ct ← map_err (fun e => Auth ("invalid credential ciphertext encoding: " +:+ e)) (b64_decode (ciphertext s));
  if negb (str_len nonce_bytes =? 12) then Err (Auth "invalid credential nonce length")
  else
    plaintext ← ok_or (Auth "failed to decrypt provider credential") (aes_open master_key nonce_bytes ct);
    map_err Auth (from_utf8 plaintext).

(** [godwit-auth/src/credentials.rs:7-11] [EncryptedSecret::deserialize] *)
Definition secret_of_value (v : value) : result string EncryptedSecret :=
  match v with
  | VObject o =>
    match obj_get "ciphertext" o, obj_get "nonce" o with
    | Some (VString c), Some (VString n) => Ok {| ciphertext := c; nonce := n |}
    | _, _ => Err (serde_error v)
    end
  | VArray [VString c; VString n] => Ok {| ciphertext := c; nonce := n |}
  | _ => Err (serde_error v)
  end.

Definition show_pasteur (e : PasteurError) : string :=
  match e with
  | Config m => "configuration error: " +:+ m
  | Auth m => "authentication error: " +:+ m
  | PForbidden m => "authorization error: " +:+ m
  | PNotFound => "not found"
  | Provider m => "provider error: " +:+ m
  | Database m => "database error: " +:+ m
  | Validation m => "validation error: " +:+ m
  | PRateLimited => "rate limited"
  end.

(** [godwit-api/src/model_router.rs:72-101] [DbModelRouter::resolve_credentials] *)
Definition resolve_credentials (master_key : string) (p : ProviderProfile) : result PasteurError ResolvedProfile :=
  base_url ← ok_or (Provider ("provider profile '" +:+ profile_name p +:+ "' has no base_url configured"))
               (profile_base_url p);
  if is_null (profile_auth p) || is_empty_object (profile_auth p)
  then Ok {| rp_base_url := base_url; rp_api_key := None |}
  else
    secret ← map_err (fun e => Provider ("malformed stored credentials: " +:+ e)) (secret_of_value (profile_auth p));
    key ← map_err (fun e => Provider ("failed to decrypt stored provider credentials: " +:+ show_pasteur e))
            (decrypt_api_key master_key secret);
    Ok {| rp_base_url := base_url; rp_api_key := Some key |}.
End Credentials.

(** ** Resolution *)

(** [godwit-api/src/model_router.rs:22-31] [LoadBalanceStrategy::from_config] *)
Definition strategy_from_config (config : value) : option LoadBalanceStrategy :=
  v ← get "load_balance" config;
  s ← as_str v;
  if String.eqb s "round_robin" then Some RoundRobin
  else if String.eqb s "least_busy" then Some LeastBusy
  else if String.eqb s "latency" then Some Latency
  else None.

(** [godwit-api/src/model_router.rs:103-108] [DbModelRouter::ensure_enabled] *)
Definition ensure_enabled (p : ProviderProfile) : result PasteurError ProviderProfile :=
  if negb (profile_enabled p) then Err PNotFound else Ok p.

(** [godwit-api/src/model_router.rs:110-115] [DbModelRouter::strategy_for] *)
Definition strategy_for (candidates : list Model) : LoadBalanceStrategy :=
  default RoundRobin (m ← head candidates; strategy_from_config (model_config m)).

(** [godwit-api/src/model_router.rs:129-140] [DbModelRouter::fallback_chain] *)
Definition router_fallback_chain (m : Model) : list string :=
  match v ← get "fallbacks" (model_config m); as_array v with
  | Some arr => filter_map as_str arr
  | None => []
  end.

(** [godwit-providers/src/registry.rs:5-7] [AdapterRegistry] *)
Record AdapterRegistry (A : Type) : Type := { adapters : gmap string A }.
Arguments adapters {A} _.

(** [godwit-providers/src/registry.rs:16-18] [AdapterRegistry::register] *)
Definition register_adapter {A} (p : Protocol) (a : A) (r : AdapterRegistry A) : AdapterRegistry A :=
  {| adapters := <[protocol_as_str p := a]> (adapters r) |}.

(** [godwit-providers/src/registry.rs:20-22] [AdapterRegistry::get] *)
Definition get_adapter {A} (p : Protocol) (r : AdapterRegistry A) : option A := adapters r !! protocol_as_str p.

(** The part of the application state the router changes. *)
Record RouterState : Type := { r_db : Db; r_lb : LoadBalancer }.

(** [guard] says whether the resolution holds an in-flight guard on its model.
    [godwit-api/src/model_router.rs:35-42] [ResolvedModel] *)
Record ResolvedModel (A : Type) : Type := {
  rm_model : Model; rm_profile : ProviderProfile; rm_credentials : ResolvedProfile;
  rm_adapter : A; rm_guard : bool;
}.
Arguments rm_model {A} _.
Arguments rm_profile {A} _.
Arguments rm_credentials {A} _.
Arguments rm_adapter {A} _.
Arguments rm_guard {A} _.

Abbreviation ROUTER := (ST RouterState (failure PasteurError)).
Definition on_db {A} (m : DB A) : ROUTER A :=
  st_map_err Failed (zoom r_db (fun d s => {| r_db := d; r_lb := r_lb s |}) m).
Definition on_lb (f : LoadBalancer -> LoadBalancer) : ROUTER unit :=
  modify (fun s => {| r_db := r_db s; r_lb := f (r_lb s) |}).
Definition checked {A} (r : result PasteurError A) : ROUTER A := lift (map_err Failed r).

Definition nil_uuid : Uuid := 0.

(** [godwit-api/src/model_router.rs:117-127] [DbModelRouter::select_load_balanced] *)
Definition select_load_balanced (candidates : list Model) (strategy : LoadBalanceStrategy) : ROUTER Model := fun s =>
  let '(o, lb) := select_provider strategy (model_id <$> candidates) (r_lb s) in
  let idx := default 0%nat o in
  (match candidates !! idx with Some m => Ok m | None => Err Panic end, {| r_db := r_db s; r_lb := lb |}).

(** The model of a wildcard profile, made up from the reference.
    [godwit-api/src/model_router.rs:168-178] [DbModelRouter::resolve] *)
Definition wildcard_model (model_ref suffix : string) (c : Capability) (p : ProviderProfile) : Model :=
  {| model_id := nil_uuid; public_id := model_ref; model_provider := profile_protocol p;
     provider_profile_id := profile_id p; provider_model_id := suffix;
     capabilities := [capability_as_str c]; pricing := VObject []; model_config := VObject [];
     model_created_at := profile_created_at p |}.

(** [godwit-api/src/model_router.rs:157-205] [DbModelRouter::resolve] *)
Definition find_model (model_ref : string) (c : Capability) : ROUTER (Model * ProviderProfile) :=
  match split_once "/" model_ref with
  | Some (name, suffix) =>
    p0 ← on_db (profile_get_by_name name);
    profile ← checked (ensure_enabled p0);
    catch (on_db (model_get_by_profile_and_public_id (profile_id profile) suffix))
      (fun r => match r with
                | Ok model => mret (model, profile)
                | Err (Failed PNotFound) =>
                  if allow_wildcard profile then mret (wildcard_model model_ref suffix c profile, profile)
                  else throw (Failed PNotFound)
                | Err e => throw e
                end)
  | None =>
    models ← on_db model_list;
    let candidates := filterb (fun m => String.eqb (public_id m) model_ref) models in
    match candidates with
    | [] => throw (Failed PNotFound)
    | [model] =>
      p0 ← on_db (profile_get (provider_profile_id model));
      profile ← checked (ensure_enabled p0);
      mret (model, profile)
    | _ =>
      model ← select_load_balanced candidates (strategy_for candidates);
      p0 ← on_db (profile_get (provider_profile_id model));
      profile ← checked (ensure_enabled p0);
      mret (model, profile)
    end
  end.

Section Resolve.
Context `{Crypto} {A : Type} (registry : AdapterRegistry A) (master_key : string).

(** The steps after the guard is taken; when one fails the guard is dropped.
    [godwit-api/src/model_router.rs:215-234] [DbModelRouter::resolve] *)
Definition finish_resolve (model : Model) (profile : ProviderProfile) : ROUTER (ResolvedModel A) :=
  let guarded := negb (is_id (model_id model) nil_uuid) in
  (if guarded then on_lb (increment_in_flight (model_id model)) else mret tt);;
  catch
    (creds ← checked (resolve_credentials master_key profile);
     adapter ← checked (ok_or (Provider ("unknown protocol: " +:+ profile_protocol profile))
                          (get_adapter (MkProtocol (profile_protocol profile)) registry));
     mret {| rm_model := model; rm_profile := profile; rm_credentials := creds;
             rm_adapter := adapter; rm_guard := guarded |})
    (fun r => match r with
              | Ok rm => mret rm
              | Err e => (if guarded then on_lb (drop_guard (model_id model)) else mret tt);; throw e
              end).

(** [godwit-api/src/model_router.rs:146-234] [DbModelRouter::resolve] *)
Definition resolve (model_ref : string) (c : Capability) : ROUTER (ResolvedModel A) :=
  mp ← find_model model_ref c;
  let '(model, profile) := mp in
  fail_if (negb (has_capability model c))
    (Failed (Validation ("model " +:+ public_id model +:+ " does not support " +:+ capability_as_str c)));;
  finish_resolve model profile.
End Resolve.

(** Dropping a resolved model when its request ends. *)
Definition drop_resolved {A} (rm : ResolvedModel A) : LoadBalancer -> LoadBalancer :=
  if rm_guard rm then drop_guard (model_id (rm_model rm)) else fun b => b.

(** ** Lemmas *)

Definition same_flight (b b' : LoadBalancer) : Prop := forall id, in_flight (lb_of b' id) = in_flight (lb_of b id).

(** Reads of the database through the router. *)
Lemma on_db_inv {A} (m : DB A) s r s' :
  on_db m s = (r, s') -> exists r0 d, m (r_db s) = (r0, d) /\ r = map_err Failed r0 /\
                                      s' = {| r_db := d; r_lb := r_lb s |}.
Proof.
  unfold on_db, st_map_err, zoom. destruct (m (r_db s)) as [r0 d]. intros. simplify_eq. eauto.
Qed.

Lemma checked_inv {A} (x : result PasteurError A) s r s' :
  checked x s = (r, s') -> s' = s /\ r = map_err Failed x.
Proof. unfold checked, lift. intros. by simplify_eq. Qed.

Lemma select_provider_flight strategy ids b :
  same_flight b (select_provider strategy ids b).2 /\
  forall i, (select_provider strategy ids b).1 = Some i -> (i < length ids)%nat.
Proof.
  assert (forall K lt (key : LoadBalancerState -> K) l pre best b0,
            (best.1 < pre + length l)%nat \/ l = [] -> (best.1 < pre + length l)%nat ->
            ((scan_min lt key l pre best b0).1 < pre + length l)%nat) as Hscan.
  { intros K lt key l. induction l as [|x l IH]; intros pre best b0 _ Hb; simpl in *; [done|].
    destruct (get_state x b0) as [st b1].
    specialize (IH (S pre) (if lt (key st) best.2 then (pre, key st) else best) b1).
    destruct (lt (key st) best.2); simpl in *; [|].
    - enough ((scan_min lt key l (S pre) (pre, key st) b1).1 < S (pre + length l))%nat by lia.
      apply IH; [left|]; lia.
    - enough ((scan_min lt key l (S pre) best b1).1 < S (pre + length l))%nat by lia.
      apply IH; [left|]; lia. }
  unfold select_provider. destruct ids as [|first ids]; [split; done|].
  destruct strategy.
  - pose proof (get_state_spec first b) as [Hs Hb]. destruct (get_state first b) as [st b'].
    simpl in Hs, Hb. subst st. split.
    + intros id. simpl. rewrite lb_put_spec. case_decide; subst; [done|]. by rewrite Hb.
    + intros i [= <-]. pose proof (Z.mod_pos_bound (rr_index (lb_of b first)) (Z.of_nat (length (first :: ids)))).
      simpl length in *. lia.
  - destruct (scan_min Z.ltb in_flight (first :: ids) 0 (0%nat, 2 ^ 64 - 1) b) as [i b'] eqn:E. split.
    + intros id. simpl. pose proof (scan_min_states Z.ltb in_flight (first :: ids) 0 (0%nat, 2 ^ 64 - 1) b id) as H.
      rewrite E in H. simpl in H. by rewrite H.
    + intros j [= <-]. pose proof (Hscan _ Z.ltb in_flight (first :: ids) 0%nat (0%nat, 2 ^ 64 - 1) b) as H.
      rewrite E in H. simpl in H. simpl. apply H; [left|]; lia.
  - destruct (scan_min SFltb latency_ewma (first :: ids) 0 (0%nat, S754_infinity false) b) as [i b'] eqn:E. split.
    + intros id. simpl.
      pose proof (scan_min_states SFltb latency_ewma (first :: ids) 0 (0%nat, S754_infinity false) b id) as H.
      rewrite E in H. simpl in H. by rewrite H.
    + intros j [= <-].
      pose proof (Hscan _ SFltb latency_ewma (first :: ids) 0%nat (0%nat, S754_infinity false) b) as H.
      rewrite E in H. simpl in H. simpl. apply H; [left|]; lia.
Qed.

(** The choice among several candidates is one of them; the index never overruns. *)
Lemma select_load_balanced_inv candidates strategy s r s' :
  candidates <> [] -> select_load_balanced candidates strategy s = (r, s') ->
  r_db s' = r_db s /\ same_flight (r_lb s) (r_lb s') /\ exists m, r = Ok m /\ m ∈ candidates.
Proof.
  intros Hne H. unfold select_load_balanced in H.
  destruct (select_provider_flight strategy (model_id <$> candidates) (r_lb s)) as [Hf Hi].
  destruct (select_provider strategy (model_id <$> candidates) (r_lb s)) as [o lb] eqn:E. simpl in Hf, Hi.
  rewrite length_fmap in Hi.
  assert (default 0%nat o < length candidates)%nat as Hlt.
  { destruct o as [i|]; simpl; [by apply Hi|]. destruct candidates; [done|]. simpl. lia. }
  destruct (lookup_lt_is_Some_2 candidates (default 0%nat o) Hlt) as [m Hm]. rewrite Hm in H. simplify_eq. simpl.
  split; [done|]. split; [done|]. exists m. split; [done|]. by eapply list_elem_of_lookup_2.
Qed.

Lemma ensure_enabled_inv p : ensure_enabled p = Ok p /\ profile_enabled p = true \/
                             ensure_enabled p = Err PNotFound /\ profile_enabled p = false.
Proof. unfold ensure_enabled. destruct (profile_enabled p); auto. Qed.

(** What a found model and profile are. *)
Definition routed (model_ref : string) (c : Capability) (d : Db) (m : Model) (p : ProviderProfile) : Prop :=
  p ∈ t_provider_profiles d /\ profile_enabled p = true /\
  match split_once "/" model_ref with
  | Some (name, suffix) =>
    profile_name p = name /\
    ((m ∈ t_models d /\ provider_profile_id m = profile_id p /\ public_id m = suffix) \/
     (allow_wildcard p = true /\ m = wildcard_model model_ref suffix c p /\
      forall m', m' ∈ t_models d -> provider_profile_id m' = profile_id p -> public_id m' <> suffix))
  | None => m ∈ t_models d /\ public_id m = model_ref /\ profile_id p = provider_profile_id m
  end.

Lemma only_faults_catalog d d' :
  only_faults d d' -> t_models d' = t_models d /\ t_provider_profiles d' = t_provider_profiles d.
Proof. intros [f ->]. done. Qed.

Lemma same_flight_refl b : same_flight b b. Proof. done. Qed.

(** The profile lookup that ends the unprefixed case. *)
Lemma find_profile_inv (m : Model) s r s' :
  (p0 ← on_db (profile_get (provider_profile_id m));
   profile ← checked (ensure_enabled p0); mret (m, profile)) s = (r, s') ->
  r_lb s' = r_lb s /\ only_faults (r_db s) (r_db s') /\
  match r with
  | Ok (m', p) => m' = m /\ p ∈ t_provider_profiles (r_db s) /\ profile_enabled p = true /\
                  profile_id p = provider_profile_id m
  | Err e => e <> Panic
  end.
Proof.
  intros H. bind_in H; apply on_db_inv in Hm as (r0 & d & Hm & Er & ->).
  - apply select_one_spec in Hm as [Hf _]; [|done]. simpl. split; [done|]. split; [done|].
    destruct r0; simplify_eq/=. done.
  - destruct r0 as [p|]; simplify_eq/=. apply select_one_found in Hm as (Hf & Hin & Hid); [|done].
    apply Z.eqb_eq in Hid.
    bind_in H; apply checked_inv in Hm as [-> Er];
      destruct (ensure_enabled_inv p) as [[Ee En]|[Ee En]]; rewrite Ee in Er; simplify_eq/=; [done|].
    unfold mret, st_ret in H. simplify_eq. simpl. auto 8.
Qed.

Definition found_soundly (model_ref : string) (c : Capability) (s s' : RouterState) (r : result (failure PasteurError) (Model * ProviderProfile)) : Prop :=
  same_flight (r_lb s) (r_lb s') /\ only_faults (r_db s) (r_db s') /\
  match r with
  | Ok (m, p) => routed model_ref c (r_db s) m p
  | Err e => e <> Panic
  end.

Lemma find_prefixed_inv model_ref name suffix c s r s' :
  split_once "/" model_ref = Some (name, suffix) -> find_model model_ref c s = (r, s') -> found_soundly model_ref c s s' r.
Proof.
  intros Esp H. unfold find_model in H. unfold found_soundly, routed. rewrite Esp in *.
  bind_in H; apply on_db_inv in Hm as (r0 & d & Hm & Er & ->).
  - apply select_one_spec in Hm as [Hf _]; [|done]. split; [done|]. split; [done|].
    destruct r0; simplify_eq/=. done.
  - destruct r0 as [p|]; simplify_eq/=. apply select_one_found in Hm as (Hf & Hin & Hn); [|done].
    apply String.eqb_eq in Hn. destruct (only_faults_catalog _ _ Hf) as [Em _].
    bind_in H; apply checked_inv in Hm as [-> Er];
      destruct (ensure_enabled_inv p) as [[Ee En]|[Ee En]]; rewrite Ee in Er; simplify_eq/=; [done|].
    unfold catch in H.
    destruct (on_db _ _) as [r1 s1] eqn:Eg. apply on_db_inv in Eg as (r2 & d2 & Hm & -> & ->). simpl in *.
    apply select_one_spec in Hm as [Hf2 Hm]; [|done]. simpl in Hm. rewrite Em in Hm.
    assert (only_faults (r_db s) d2) as Hf3 by (by eapply only_faults_trans).
    destruct r2 as [m|[| | | | | | |]]; simplify_eq/=;
      try (unfold throw in H; simplify_eq; by repeat split).
    + destruct Hm as [l Hl].
      assert (m ∈ filterb (fun m => is_id (provider_profile_id m) (profile_id p) && String.eqb (public_id m) suffix)
                   (t_models (r_db s))) as Hmin by (rewrite Hl; left).
      apply elem_of_filterb in Hmin as [Hmin [H1%Z.eqb_eq H2%String.eqb_eq]%andb_true_iff].
      unfold mret, st_ret in H. simplify_eq. simpl. split; [done|]. split; [done|]. auto 10.
    + destruct Hm as [[_ Hm]|[? ?]]; [|done].
      destruct (allow_wildcard p) eqn:Ew; unfold mret, st_ret, throw in H; simplify_eq; simpl;
        [|by repeat split].
      split; [done|]. split; [done|]. split; [done|]. split; [done|]. split; [done|]. right.
      split; [done|]. split; [done|]. intros m' Hm' H1 H2.
      assert (m' ∈ filterb (fun m => is_id (provider_profile_id m) (profile_id p) && String.eqb (public_id m) suffix)
                   (t_models (r_db s))) as Hc.
      { apply elem_of_filterb. split; [done|]. unfold is_id. rewrite H1, Z.eqb_refl. simpl. by apply String.eqb_eq. }
      rewrite Hm in Hc. by apply elem_of_nil in Hc.
Qed.

Lemma find_by_public_id_inv model_ref c s r s' :
  split_once "/" model_ref = None -> find_model model_ref c s = (r, s') -> found_soundly model_ref c s s' r.
Proof.
  intros Esp H. unfold find_model in H. unfold found_soundly, routed. rewrite Esp in *.
  bind_in H; apply on_db_inv in Hm as (r0 & d & Hm & Er & ->); apply select_all_spec in Hm as [Hf Hm]; try done.
  - split; [done|]. split; [done|]. destruct r0; simplify_eq/=. done.
  - destruct r0 as [l|]; simplify_eq/=. simpl in H.
    destruct (only_faults_catalog _ _ Hf) as [Em Ep].
    set (cs := filterb _ _) in H.
    assert (forall m, m ∈ cs -> m ∈ t_models (r_db s) /\ public_id m = model_ref) as Hcs.
    { intros m Hmin. unfold cs in Hmin. apply elem_of_filterb in Hmin as [Hmin Hp].
      apply elem_of_order_by, elem_of_filterb in Hmin as [Hmin _]. split; [done|]. by apply String.eqb_eq. }
    assert (forall m, m ∈ cs -> forall s1 r1 s2, only_faults (r_db s) (r_db s1) ->
              same_flight (r_lb s) (r_lb s1) ->
              (p0 ← on_db (profile_get (provider_profile_id m));
               profile ← checked (ensure_enabled p0); mret (m, profile)) s1 = (r1, s2) ->
              same_flight (r_lb s) (r_lb s2) /\ only_faults (r_db s) (r_db s2) /\
              match r1 with
              | Ok (m, p) => p ∈ t_provider_profiles (r_db s) /\ profile_enabled p = true /\
                  m ∈ t_models (r_db s) /\ public_id m = model_ref /\ profile_id p = provider_profile_id m
              | Err e => e <> Panic
              end) as Hend.
    { intros m Hmin s1 r1 s2 Hf1 Hs1 He. apply find_profile_inv in He as (H1 & H2 & H3). rewrite H1.
      split; [done|]. split; [by eapply only_faults_trans|].
      destruct (only_faults_catalog _ _ Hf1) as [_ Ep1].
      destruct r1 as [[m' p]|e]; [|done]. destruct H3 as (-> & H3 & H4 & H5). rewrite Ep1 in H3.
      destruct (Hcs m Hmin). auto. }
    clearbody cs. destruct cs as [|m [|m2 cs]].
    + unfold throw in H. simplify_eq. by repeat split.
    + eapply (Hend m); [left|..|exact H]; done.
    + bind_in H; apply select_load_balanced_inv in Hm as (E1 & E2 & m' & E3 & Hin); try done.
      simplify_eq. eapply (Hend m'); [exact Hin|..|exact H]; [by rewrite E1|done].
Qed.

Lemma find_model_inv model_ref c s r s' : find_model model_ref c s = (r, s') -> found_soundly model_ref c s s' r.
Proof.
  destruct (split_once "/" model_ref) as [[name suffix]|] eqn:Esp; [by eapply find_prefixed_inv|by apply find_by_public_id_inv].
Qed.

Section ResolveLemmas.
Context `{Crypto} {A : Type} (registry : AdapterRegistry A) (master_key : string).

(** The counters a guard changes: one more for its own model. *)
Lemma increment_drop_flight id k b :
  in_flight (lb_of (increment_in_flight id b) k) =
    (if decide (id = k) then as_usize (in_flight (lb_of b k) + 1) else in_flight (lb_of b k)) /\
  in_flight (lb_of (drop_guard id b) k) =
    (if decide (id = k) then as_usize (in_flight (lb_of b k) - 1) else in_flight (lb_of b k)).
Proof. split; [apply (flight_step_in_flight b (Begin id))|apply (flight_step_in_flight b (End id))]. Qed.

Definition flight_ok (b : LoadBalancer) : Prop := forall id, in_u 64 (in_flight (lb_of b id)).

Lemma drop_increment_flight id b :
  flight_ok b -> same_flight b (drop_guard id (increment_in_flight id b)).
Proof.
  intros Hb k. rewrite (proj2 (increment_drop_flight id k _)), (proj1 (increment_drop_flight id k _)).
  case_decide; [|done]. by apply wrap_u_succ_pred.
Qed.

Lemma increment_flight_ok id b : flight_ok b -> flight_ok (increment_in_flight id b).
Proof.
  intros Hb k. rewrite (proj1 (increment_drop_flight id k b)). case_decide; [|apply Hb].
  unfold in_u, wrap_u. apply Z.mod_pos_bound. lia.
Qed.

Lemma finish_resolve_inv m p s r s' :
  flight_ok (r_lb s) -> finish_resolve registry master_key m p s = (r, s') ->
  r_db s' = r_db s /\
  match r with
  | Ok rm =>
    rm_model rm = m /\ rm_profile rm = p /\ rm_guard rm = negb (is_id (model_id m) nil_uuid) /\
    resolve_credentials master_key p = Ok (rm_credentials rm) /\
    adapters registry !! profile_protocol p = Some (rm_adapter rm) /\
    same_flight (r_lb s) (drop_resolved rm (r_lb s')) /\
    (model_id m <> nil_uuid ->
       in_flight (lb_of (r_lb s') (model_id m)) = as_usize (in_flight (lb_of (r_lb s) (model_id m)) + 1)) /\
    flight_ok (r_lb s')
  | Err e => e <> Panic /\ same_flight (r_lb s) (r_lb s')
  end.
Proof.
  intros Hfo H0. unfold finish_resolve in H0. unfold get_adapter, protocol_as_str in H0.
  unfold catch, on_lb, checked, lift, mbind, st_bind, modify, mret, st_ret, throw in H0.
  pose proof (drop_increment_flight (model_id m) (r_lb s) Hfo) as Hdi.
  pose proof (increment_flight_ok (model_id m) (r_lb s) Hfo) as Hfi.
  pose proof (proj1 (increment_drop_flight (model_id m) (model_id m) (r_lb s))) as Hi.
  rewrite decide_True in Hi by done.
  destruct (negb (is_id (model_id m) nil_uuid)) eqn:Eg;
    destruct (resolve_credentials master_key p) as [creds|e]; simpl in H0;
    destruct (adapters registry !! profile_protocol p) as [a|]; simpl in H0; simplify_eq; simpl;
    (split; [done|]); try (split; done);
    unfold drop_resolved; simpl; repeat (split; [done|]); try exact (conj (fun _ => Hi) Hfi).
  split; [|done]. intros Hn. exfalso. apply negb_false_iff, Z.eqb_eq in Eg. done.
Qed.

Lemma same_flight_trans b1 b2 b3 : same_flight b1 b2 -> same_flight b2 b3 -> same_flight b1 b3.
Proof. intros H1 H2 id. by rewrite H2, H1. Qed.

Lemma resolve_inv model_ref c s r s' :
  flight_ok (r_lb s) -> resolve registry master_key model_ref c s = (r, s') ->
  only_faults (r_db s) (r_db s') /\
  match r with
  | Ok rm =>
    routed model_ref c (r_db s) (rm_model rm) (rm_profile rm) /\
    has_capability (rm_model rm) c = true /\
    resolve_credentials master_key (rm_profile rm) = Ok (rm_credentials rm) /\
    adapters registry !! profile_protocol (rm_profile rm) = Some (rm_adapter rm) /\
    same_flight (r_lb s) (drop_resolved rm (r_lb s')) /\
    (model_id (rm_model rm) <> nil_uuid ->
       in_flight (lb_of (r_lb s') (model_id (rm_model rm))) =
       as_usize (in_flight (lb_of (r_lb s) (model_id (rm_model rm))) + 1)) /\
    flight_ok (r_lb s')
  | Err e => e <> Panic /\ same_flight (r_lb s) (r_lb s')
  end.
Proof.
  intros Hfo H0. unfold resolve in H0. bind_in H0; apply find_model_inv in Hm as (Hfl & Hf & Hm); [done|].
  destruct x as [m p].
  bind_in H0; match goal with Hx : fail_if _ _ _ = _ |- _ => apply fail_if_inv in Hx as [-> Hc] end.
  - destruct Hc as [[_ Hc]|[_ Hc]]; simplify_eq. done.
  - destruct Hc as [[_ ?]|[Hc _]]; [done|]. apply negb_false_iff in Hc.
    assert (flight_ok (r_lb s0)) as Hfo0 by (intros id; rewrite Hfl; apply Hfo).
    apply finish_resolve_inv in H0 as [Ed H0]; [|done]. rewrite Ed. split; [done|].
    destruct r as [rm|e].
    + destruct H0 as (-> & -> & _ & H1 & H2 & H3 & H4 & H5). split; [apply Hm|]. split; [done|]. split; [done|].
      split; [done|]. split; [by eapply same_flight_trans|]. split; [|done]. intros Hn. rewrite (H4 Hn). by rewrite Hfl.
    + destruct H0 as [H1 H2]. split; [done|]. by eapply same_flight_trans.
Qed.
End ResolveLemmas.

(** ** Theorems *)

(** C13: what a client gets for a model reference.  A successful resolution names an enabled
    profile of the database; with a prefix [name/suffix] it is the profile of that name and
    its own model of that id, or a made-up model only when the profile allows wildcards and
    has no such row; without a prefix it is a model with that public id and the profile it
    belongs to.  The model has the requested capability, the credentials are that profile's,
    decrypted, and the adapter is the registered one of the profile's protocol.  Resolving
    never panics and changes no row. *)
Theorem resolve_sound `{Crypto} {A} (registry : AdapterRegistry A) master_key model_ref c s :
  flight_ok (r_lb s) ->
  let '(r, s') := resolve registry master_key model_ref c s in
  only_faults (r_db s) (r_db s') /\
  match r with
  | Ok rm =>
    routed model_ref c (r_db s) (rm_model rm) (rm_profile rm) /\
    has_capability (rm_model rm) c = true /\
    resolve_credentials master_key (rm_profile rm) = Ok (rm_credentials rm) /\
    adapters registry !! profile_protocol (rm_profile rm) = Some (rm_adapter rm)
  | Err e => e <> Panic
  end.
Proof.
  intros Hfo. destruct (resolve registry master_key model_ref c s) as [r s'] eqn:E.
  apply resolve_inv in E as [Hf E]; [|done]. split; [done|]. destruct r; [|by destruct E].
  destruct E as (? & ? & ? & ? & _). auto.
Qed.

(** The in-flight counters are exact across resolution: a failed one leaves every counter
    as it was, although the guard is taken before the credentials are checked; a successful
    one counts one more request on its own model, and dropping the result restores all. *)
Theorem resolve_balances_in_flight `{Crypto} {A} (registry : AdapterRegistry A) master_key model_ref c s :
  flight_ok (r_lb s) ->
  let '(r, s') := resolve registry master_key model_ref c s in
  match r with
  | Ok rm =>
    same_flight (r_lb s) (drop_resolved rm (r_lb s')) /\
    (model_id (rm_model rm) <> nil_uuid ->
       in_flight (lb_of (r_lb s') (model_id (rm_model rm))) =
       as_usize (in_flight (lb_of (r_lb s) (model_id (rm_model rm))) + 1))
  | Err _ => same_flight (r_lb s) (r_lb s')
  end.
Proof.
  intros Hfo. destruct (resolve registry master_key model_ref c s) as [r s'] eqn:E.
  apply resolve_inv in E as [Hf E]; [|done]. destruct r; [|by destruct E].
  destruct E as (_ & _ & _ & _ & ? & ? & _). auto.
Qed.

(** An instance for the witnesses: base64 and UTF-8 are the identity, and decryption is
    the identity on any ciphertext. *)
Definition toy_crypto : Crypto :=
  {| b64_decode s := Ok s; aes_open _ _ ct := Some ct; from_utf8 s := Ok s; serde_error _ := "bad" |}.
Definition sample_profile (enabled wildcard : bool) : ProviderProfile :=
  {| profile_id := 11; profile_name := "openai"; profile_protocol := "openai";
     profile_base_url := Some "https://api.openai.com/v1"; allow_wildcard := wildcard;
     profile_auth := VObject []; profile_config := VObject []; profile_enabled := enabled; profile_created_at := 0 |}.
Definition sample_model (id : Uuid) : Model :=
  {| model_id := id; public_id := "gpt-4o"; model_provider := "openai"; provider_profile_id := 11;
     provider_model_id := "gpt-4o-2024"; capabilities := ["chat"]; pricing := VObject [];
     model_config := obj [("load_balance", VString "least_busy"); ("fallbacks", VArray [VString "backup"])];
     model_created_at := 0 |}.
Definition router_db (ps : list ProviderProfile) (ms : list Model) : Db :=
  {| t_organizations := []; t_users := []; t_api_keys := []; t_models := ms; t_provider_profiles := ps;
     t_teams := []; t_team_memberships := []; t_refresh_tokens := []; t_end_users := [];
     t_request_logs := []; t_model_aliases := []; t_password_history := [];
     t_password_reset_tokens := []; db_faults := []; db_next := 100; db_now := 0 |}.
Definition sample_registry : AdapterRegistry nat := register_adapter openai 0%nat {| adapters := ∅ |}.
Definition router_state (ps : list ProviderProfile) (ms : list Model) : RouterState :=
  {| r_db := router_db ps ms; r_lb := lb_new |}.

Lemma lb_new_flight_ok : flight_ok lb_new.
Proof. intros id. unfold lb_of. simpl. rewrite lookup_empty. simpl. unfold in_u. lia. Qed.

Lemma resolve_sound_witness :
  exists rm, (resolve (H := toy_crypto) sample_registry "k" "openai/gpt-5" Chat
                (router_state [sample_profile true true] [sample_model 1])).1 = Ok rm /\
    routed "openai/gpt-5" Chat (router_db [sample_profile true true] [sample_model 1]) (rm_model rm) (rm_profile rm).
Proof.
  pose proof (resolve_sound (H := toy_crypto) sample_registry "k" "openai/gpt-5" Chat
    (router_state [sample_profile true true] [sample_model 1]) lb_new_flight_ok) as Hr.
  destruct (resolve (H := toy_crypto) sample_registry "k" "openai/gpt-5" Chat
              (router_state [sample_profile true true] [sample_model 1])) as [r s'] eqn:E.
  assert (is_ok r = true) as Hb by (change r with (r, s').1; rewrite <- E; reflexivity).
  destruct r as [rm|e]; [|discriminate Hb]. exists rm. split; [reflexivity|]. exact (proj1 (proj2 Hr)).
Defined.

Lemma resolve_balances_in_flight_witness :
  exists rm s', resolve (H := toy_crypto) sample_registry "k" "gpt-4o" Chat
                  (router_state [sample_profile true false] [sample_model 1; sample_model 2]) = (Ok rm, s') /\
    same_flight lb_new (drop_resolved rm (r_lb s')).
Proof.
  pose proof (resolve_balances_in_flight (H := toy_crypto) sample_registry "k" "gpt-4o" Chat
    (router_state [sample_profile true false] [sample_model 1; sample_model 2]) lb_new_flight_ok) as Hr.
  destruct (resolve (H := toy_crypto) sample_registry "k" "gpt-4o" Chat
              (router_state [sample_profile true false] [sample_model 1; sample_model 2])) as [r s'] eqn:E.
  assert (is_ok r = true) as Hb by (change r with (r, s').1; rewrite <- E; reflexivity).
  destruct r as [rm|e]; [|discriminate Hb]. exists rm, s'. split; [reflexivity|]. exact (proj1 Hr).
Defined.
