(* ===== verification/Resilience.v ===== *)
(** * Retries and provider lists

    [godwit-api/src/resilience.rs]: the retry loop around every call to an adapter, and the
    two services that walk a list of backends, [moderation_fallback.rs] and
    [rerank_fallback.rs], which are one text with different constants.

    A call to a backend is a stateful computation over a world [W], a parameter: it answers
    and changes the world, and so does the passing of time while the code sleeps. *)

From stdpp Require Import base strings list pretty.
From S2P Require Import Prelude RustStr Json Core.

#[local] Open Scope string_scope.
#[local] Open Scope Z_scope.

(** ** Retries *)

(** [godwit-api/src/resilience.rs:3-8] [RetryPolicy] *)
Record RetryPolicy : Type := {
  max_retries : Z;      (* u32 *)
  base_delay_ms : Z;    (* u64 *)
  max_delay_ms : Z;     (* u64 *)
  retryable_statuses : list Z;
}.

(** [godwit-api/src/resilience.rs:10-19] [RetryPolicy::default] *)
Definition default_policy : RetryPolicy :=
  {| max_retries := 2; base_delay_ms := 500; max_delay_ms := 8000; retryable_statuses := [429; 502; 503; 504] |}.

(** [godwit-api/src/resilience.rs:33-37] [with_retry] *)
Definition retryable (policy : RetryPolicy) (e : ProviderError) : bool :=
  match e with
  | Http status _ => (status =? 0) || existsb (Z.eqb status) (retryable_statuses policy)
  | _ => false
  end.

(** The product wraps at 64 bits, like the power.
    [godwit-api/src/resilience.rs:42-45] [with_retry] *)
Definition delay (policy : RetryPolicy) (attempt : Z) : Z :=
  Z.min (as_u64 (base_delay_ms policy * as_u64 (2 ^ attempt))) (max_delay_ms policy).

Section WithRetry.
Context {W T : Type} (sleep : Z -> W -> W) (policy : RetryPolicy) (f : ST W ProviderError T).

(** The iterations from [attempt] on, [n] of them.
    [godwit-api/src/resilience.rs:27-48] [with_retry] *)
Fixpoint retry_from (n : nat) (attempt : Z) (last_err : option ProviderError) : ST W ProviderError T :=
  match n with
  | O => throw (default (ProviderFailed "retry attempts exhausted without a recoverable error") last_err)
  | S n =>
    catch f (fun r =>
      match r with
      | Ok v => mret v
      | Err e =>
        if negb (retryable policy e) || (attempt =? max_retries policy) then throw e
        else modify (sleep (delay policy attempt));; retry_from n (attempt + 1) (Some e)
      end)
  end.

(** [godwit-api/src/resilience.rs:21-53] [with_retry] *)
Definition with_retry : ST W ProviderError T := retry_from (S (Z.to_nat (max_retries policy))) 0 None.

(** The world in which attempt [k] starts, when the [k] attempts before it have failed. *)
Fixpoint world_at (k : nat) (w : W) : W :=
  match k with O => w | S k => sleep (delay policy (Z.of_nat k)) (f (world_at k w)).2 end.

Lemma retry_from_spec n : forall k last w,
  (k + n = S (Z.to_nat (max_retries policy)))%nat -> (0 < n)%nat -> 0 <= max_retries policy ->
  exists j, (k <= j <= Z.to_nat (max_retries policy))%nat /\
    retry_from n (Z.of_nat k) last (world_at k w) = f (world_at j w) /\
    (forall i, (k <= i < j)%nat -> exists e, (f (world_at i w)).1 = Err e /\ retryable policy e = true) /\
    match (f (world_at j w)).1 with
    | Ok _ => True
    | Err e => retryable policy e = false \/ j = Z.to_nat (max_retries policy)
    end.
Proof.
  induction n as [|n IH]; intros k last w Hk Hn Hm; [lia|]. simpl. unfold catch.
  destruct (f (world_at k w)) as [[v|e] w1] eqn:E.
  - exists k. rewrite E. split; [lia|]. split; [done|]. split; [lia|done].
  - destruct (retryable policy e) eqn:Er; simpl.
    + destruct (Z.eqb_spec (Z.of_nat k) (max_retries policy)) as [Ek|Ek].
      * exists k. rewrite E. split; [lia|]. split; [done|]. split; [lia|]. right. lia.
      * replace w1 with (f (world_at k w)).2 by (by rewrite E). unfold modify, mbind, st_bind.
        change (sleep (delay policy (Z.of_nat k)) (f (world_at k w)).2) with (world_at (S k) w).
        replace (Z.of_nat k + 1) with (Z.of_nat (S k)) by lia.
        destruct (IH (S k) (Some e) w) as (j & Hj & H1 & H2 & H3); [lia..|].
        exists j. split; [lia|]. split; [exact H1|]. split; [|exact H3].
        intros i Hi. destruct (decide (i = k)) as [->|]; [rewrite E; eauto|]. apply H2. lia.
    + exists k. rewrite E. split; [lia|]. split; [done|]. split; [lia|]. by left.
Qed.
End WithRetry.

Lemma delay_bound policy k : 0 <= max_delay_ms policy -> 0 <= delay policy k <= max_delay_ms policy.
Proof. intros. unfold delay, wrap_u. split; [|lia]. apply Z.min_glb; [|done]. by apply Z.mod_pos_bound. Qed.

Lemma delay_exact policy k :
  0 <= k < 64 -> in_u 64 (base_delay_ms policy * 2 ^ k) ->
  delay policy k = Z.min (base_delay_ms policy * 2 ^ k) (max_delay_ms policy).
Proof.
  intros Hk Hu. unfold delay, wrap_u, in_u in *.
  assert (2 ^ k < 2 ^ 64) by (apply Z.pow_lt_mono_r; lia).
  rewrite (Z.mod_small (2 ^ k)); [|lia]. by rewrite Z.mod_small.
Qed.

(** C36: the retry loop returns what one of its attempts returned, that of the first attempt
    which succeeds, fails with an error that is not worth retrying, or is the last the policy
    allows; every attempt before it failed with a retryable error, and the attempts run one
    after the other, each in the world its predecessor and the pause after it left.  There
    are at most [max_retries + 1] attempts, no pause exceeds [max_delay_ms], and a pause is
    the base delay doubled at each attempt as long as that product fits 64 bits.  The
    loop's own closing error is never returned. *)
Theorem with_retry_spec {W T} (sleep : Z -> W -> W) policy (f : ST W ProviderError T) w :
  0 <= max_retries policy -> 0 <= max_delay_ms policy ->
  exists k, (k <= Z.to_nat (max_retries policy))%nat /\
    with_retry sleep policy f w = f (world_at sleep policy f k w) /\
    (forall j, (j < k)%nat -> exists e,
       (f (world_at sleep policy f j w)).1 = Err e /\ retryable policy e = true /\
       0 <= delay policy (Z.of_nat j) <= max_delay_ms policy /\
       (Z.of_nat j < 64 -> in_u 64 (base_delay_ms policy * 2 ^ Z.of_nat j) ->
        delay policy (Z.of_nat j) = Z.min (base_delay_ms policy * 2 ^ Z.of_nat j) (max_delay_ms policy))) /\
    match (f (world_at sleep policy f k w)).1 with
    | Ok _ => True
    | Err e => retryable policy e = false \/ k = Z.to_nat (max_retries policy)
    end.
Proof.
  intros Hm Hd. destruct (retry_from_spec sleep policy f (S (Z.to_nat (max_retries policy))) 0 None w)
    as (k & Hk & H1 & H2 & H3); [lia..|].
  exists k. split; [lia|]. split; [exact H1|]. split; [|exact H3].
  intros j Hj. destruct (H2 j) as (e & E1 & E2); [lia|]. exists e. split; [done|]. split; [done|].
  split; [by apply delay_bound|]. intros. apply delay_exact; [lia|done].
Qed.

(** A backend that answers 503 twice and then succeeds; the world counts the calls and
    records the pauses. *)
Definition flaky : ST (Z * list Z) ProviderError string := fun '(n, ds) =>
  (if n <? 2 then Err (Http 503 "unavailable") else Ok "success", (n + 1, ds)).

Lemma with_retry_spec_witness :
  with_retry (fun d '(n, ds) => (n, (ds ++ [d])%list)) default_policy flaky (0, []) = (Ok "success", (3, [500; 1000])) /\
  exists k, (k <= 2)%nat /\
    with_retry (fun d '(n, ds) => (n, (ds ++ [d])%list)) default_policy flaky (0, []) =
    flaky (world_at (fun d '(n, ds) => (n, (ds ++ [d])%list)) default_policy flaky k (0, [])).
Proof.
  split; [reflexivity|].
  destruct (with_retry_spec (fun d '(n, ds) => (n, (ds ++ [d])%list)) default_policy flaky (0, []))
    as (k & Hk & H1 & _); [vm_compute; discriminate..|].
  exists k. split; [exact Hk|exact H1].
Defined.

(** ** HTTP clients *)

(** A part of a multipart form: a text, or a file with its name and media type. *)
Record FormPart : Type := { part_name : string; part_body : string; part_file : option (string * string) }.

(** A request as the code builds it with [reqwest]: the headers it sets, a JSON body or a
    multipart form. *)
Record HttpRequest : Type := {
  hr_method : string; hr_url : string; hr_headers : list (string * string); hr_json : option value;
  hr_form : list FormPart }.

(** [SendFailed]: no response, with the error's text; [Replied]: a status and the body, or
    the text of the error met while reading it. *)
Inductive HttpOutcome : Type :=
| SendFailed (msg : string)
| Replied (status : Z) (body : result string string).

(** The [reqwest] client over a world [W]; [send_within] gives up after that many seconds
    ([None]); [json_error] is the text of a body that is not JSON. *)
Class HttpClient (W : Type) := {
  send : HttpRequest -> W -> HttpOutcome * W;
  send_within : Z -> HttpRequest -> W -> option HttpOutcome * W;
  json_error : string -> string;
}.

Definition is_success (status : Z) : bool := (200 <=? status) && (status <=? 299).

(** [res.text().await.unwrap_or_default()] *)
Definition body_text (body : result string string) : string := match body with Ok t => t | Err _ => "" end.

(** [res.json().await], with the error as a text. *)
Definition body_json `{JsonText} `{HttpClient W} (body : result string string) : result string value :=
  t ← body;
  ok_or (json_error t) (from_str t).

Definition json_response (v : value) : Response := {| res_status := 200; res_headers := []; res_body := v |}.

(** ** Walking a list of backends *)

(** [godwit-api/src/moderation_fallback.rs:10-16] [ModerationProviderConfig] *)
Record ProviderConfig : Type := {
  pc_name : string; pc_base_url : string; pc_api_key : option string; pc_model : string }.

(** [godwit-api/src/moderation_fallback.rs:18-23] [ModerationFallbackConfig] *)
Record FallbackList : Type := { fl_providers : list ProviderConfig; fl_timeout : Z (* seconds *) }.

(** The constants in which the two services differ. *)
Record Service : Type := {
  sv_label : string;            (* in messages *)
  sv_path : string;
  sv_providers_key : string;
  sv_timeout_key : string;
  sv_default : FallbackList;
}.

(** [godwit-api/src/moderation_fallback.rs:29-55] [ModerationFallbackConfig::default] *)
Definition moderation_default : FallbackList :=
  {| fl_providers :=
       [ {| pc_name := "openai"; pc_base_url := "https://api.openai.com/v1"; pc_api_key := None;
            pc_model := "text-moderation-latest" |};
         {| pc_name := "azure"; pc_base_url := "https://your-resource.openai.azure.com/openai"; pc_api_key := None;
            pc_model := "text-moderation-latest" |};
         {| pc_name := "self-hosted"; pc_base_url := "http://localhost:8000/v1"; pc_api_key := None;
            pc_model := "moderation-model" |} ];
     fl_timeout := 10 |}.
Definition moderation : Service :=
  {| sv_label := "moderation"; sv_path := "moderations"; sv_providers_key := "moderation_providers";
     sv_timeout_key := "moderation_timeout_per_provider_secs"; sv_default := moderation_default |}.

(** [godwit-api/src/rerank_fallback.rs:29-55] [RerankFallbackConfig::default] *)
Definition rerank_default : FallbackList :=
  {| fl_providers :=
       [ {| pc_name := "cohere"; pc_base_url := "https://api.cohere.ai/v1"; pc_api_key := None;
            pc_model := "rerank-english-v3.0" |};
         {| pc_name := "azure"; pc_base_url := "https://your-resource.openai.azure.com/openai"; pc_api_key := None;
            pc_model := "rerank-model" |};
         {| pc_name := "self-hosted"; pc_base_url := "http://localhost:8000/v1"; pc_api_key := None;
            pc_model := "rerank-model" |} ];
     fl_timeout := 15 |}.
Definition rerank : Service :=
  {| sv_label := "rerank"; sv_path := "rerank"; sv_providers_key := "rerank_providers";
     sv_timeout_key := "rerank_timeout_per_provider_secs"; sv_default := rerank_default |}.

(** An entry of the configured list; one without a name, base URL or model is skipped.
    [godwit-api/src/moderation_fallback.rs:73-82] [ModerationFallback::from_config_value] *)
Definition provider_config (v : value) : option ProviderConfig :=
  name ← get "name" v ≫= as_str;
  base_url ← get "base_url" v ≫= as_str;
  model ← get "model" v ≫= as_str;
  Some {| pc_name := name; pc_base_url := base_url; pc_api_key := get "api_key" v ≫= as_str; pc_model := model |}.

(** [godwit-api/src/moderation_fallback.rs:66-97] [ModerationFallback::from_config_value] *)
Definition from_config_value (sv : Service) (config : option value) : FallbackList :=
  let providers := arr ← (c ← config; v ← get (sv_providers_key sv) c; as_array v); Some (filter_map provider_config arr) in
  let timeout_secs := c ← config; v ← get (sv_timeout_key sv) c; json_u64 v in
  {| fl_providers := default (fl_providers (sv_default sv)) providers;
     fl_timeout := default (fl_timeout (sv_default sv)) timeout_secs |}.

(** The [{:?}] text of a duration of whole seconds. *)
Definition debug_secs (n : Z) : string := if n =? 0 then "0ns" else pretty n +:+ "s".

(** [godwit-api/src/moderation_fallback.rs:207-238] [ModerationFallback::normalize_response] *)
Definition normalize_response (sv : Service) (response : value) : value :=
  match response with
  | VObject o =>
    let id := default (sv_label sv +:+ "-unknown") (obj_get "id" o ≫= as_str) in
    let model := default "unknown" (obj_get "model" o ≫= as_str) in
    let results := default (VArray []) (obj_get "results" o) in
    obj [("id", VString id); ("model", VString model); ("results", results)]
  | _ => response
  end.

Section Service.
Context `{JsonText} `{HttpClient W} (sv : Service).

(** [godwit-api/src/moderation_fallback.rs:163-181] [ModerationFallback::call_provider] *)
Definition provider_request (p : ProviderConfig) (body : value) : option HttpRequest :=
  body_mut ← index_set "model" (VString (pc_model p)) body;
  Some {| hr_method := "POST";
          hr_url := trim_end_matches (byte 47) (pc_base_url p) +:+ "/" +:+ sv_path sv;
          hr_headers := ([("accept", "application/json"); ("content-type", "application/json")]
                        ++ match pc_api_key p with Some key => [("authorization", "Bearer " +:+ key)] | None => [] end)%list;
          hr_json := Some body_mut; hr_form := [] |}.

(** [godwit-api/src/moderation_fallback.rs:183-204] [ModerationFallback::call_provider] *)
Definition provider_reply (out : HttpOutcome) : result ApiError Response :=
  match out with
  | SendFailed msg => Err (CoreError (Provider msg))
  | Replied status body =>
    if negb (is_success status)
    then Err (CoreError (Provider ("HTTP " +:+ pretty status +:+ ": " +:+ body_text body)))
    else
      v ← map_err (fun e => CoreError (Provider ("failed to deserialize " +:+ sv_label sv +:+ " response: " +:+ e)))
            (body_json body);
      Ok (json_response (normalize_response sv v))
  end.

(** One backend, within its time limit: [timeout(d, self.call_provider(..)).await].
    [godwit-api/src/moderation_fallback.rs:115-119] [ModerationFallback::execute] *)
Definition attempt_provider (timeout : Z) (body : value) (p : ProviderConfig) : ST W (failure ApiError) Response := fun w =>
  match provider_request p body with
  | None => (Err Panic, w)
  | Some req =>
    match send_within timeout req w with
    | (None, w) =>
      (Err (Failed (CoreError (Provider (sv_label sv +:+ " timeout after " +:+ debug_secs timeout)))), w)
    | (Some out, w) => (map_err Failed (provider_reply out), w)
    end
  end.

(** [godwit-api/src/moderation_fallback.rs:107-153] [ModerationFallback::execute] *)
Fixpoint try_providers (timeout : Z) (body : value) (ps : list ProviderConfig) (last_error : option ApiError)
  : ST W (failure ApiError) Response :=
  match ps with
  | [] => throw (Failed (default (CoreError (Provider ("All " +:+ sv_label sv +:+ " providers failed"))) last_error))
  | p :: ps =>
    catch (attempt_provider timeout body p) (fun r =>
      match r with
      | Ok response => mret response
      | Err (Failed e) => try_providers timeout body ps (Some e)
      | Err Panic => throw Panic
      end)
  end.

(** [godwit-api/src/moderation_fallback.rs:99-154] [ModerationFallback::execute] *)
Definition execute (config : FallbackList) (body : value) : ST W (failure ApiError) Response :=
  try_providers (fl_timeout config) body (fl_providers config) None.

(** [godwit-api/src/moderation.rs:39-44] [extract_model] *)
Definition extract_model (body : value) : result ApiError string :=
  ok_or (BadRequest "missing 'model' field") (get "model" body ≫= as_str).

(** The handler runs the built-in list; nothing calls [from_config_value].
    [godwit-api/src/moderation.rs:25-37] [moderations] *)
Definition service_handler (body : value) : ST W (failure ApiError) Response :=
  _ ← lift (map_err Failed (extract_model body));
  execute (sv_default sv) body.
End Service.

(** [godwit-api/src/rerank_fallback.rs:66-97] [RerankFallback::from_config_value] *)
Definition rerank_from_config_value : option value -> FallbackList := from_config_value rerank.
(** [godwit-api/src/rerank_fallback.rs:99-154] [RerankFallback::execute] *)
Definition rerank_execute `{JsonText} `{HttpClient W} := execute rerank.
(** [godwit-api/src/rerank_fallback.rs:156-205] [RerankFallback::call_provider] *)
Definition rerank_attempt_provider `{JsonText} `{HttpClient W} := attempt_provider rerank.
(** [godwit-api/src/rerank_fallback.rs:207-238] [RerankFallback::normalize_response] *)
Definition rerank_normalize_response : value -> value := normalize_response rerank.
(** [godwit-api/src/rerank.rs:26-38] [rerank] *)
Definition rerank_handler `{JsonText} `{HttpClient W} := service_handler rerank.

Section ServiceLemmas.
Context `{JsonText} `{HttpClient W} (sv : Service) (timeout : Z) (body : value).

(** The backends of [ps] were tried in order from [w] and all failed; [last] is the error of
    the last of them, or [l0] for none. *)
Inductive all_failed : option ApiError -> W -> list ProviderConfig -> option ApiError -> W -> Prop :=
| all_failed_nil l0 w : all_failed l0 w [] l0 w
| all_failed_cons l0 w p e w1 ps last w2 :
    attempt_provider sv timeout body p w = (Err (Failed e), w1) ->
    all_failed (Some e) w1 ps last w2 -> all_failed l0 w (p :: ps) last w2.

Lemma attempt_no_panic p w :
  is_Some (as_object body) \/ body = Null -> (attempt_provider sv timeout body p w).1 <> Err Panic.
Proof.
  intros Hb. unfold attempt_provider.
  assert (exists r, provider_request sv p body = Some r) as [r ->].
  { unfold provider_request. destruct Hb as [[o Ho]| ->]; [|simpl; eauto]. destruct body; simplify_eq/=. eauto. }
  destruct (send_within timeout r w) as [[out|] w1]; simpl; [|done].
  by destruct (provider_reply sv out).
Qed.

Lemma try_providers_spec ps : forall l0 w,
  is_Some (as_object body) \/ body = Null ->
  match try_providers sv timeout body ps l0 w with
  | (Ok resp, w') => exists pre p post last w1, ps = (pre ++ p :: post)%list /\
      all_failed l0 w pre last w1 /\ attempt_provider sv timeout body p w1 = (Ok resp, w')
  | (Err Panic, _) => False
  | (Err (Failed e), w') => exists last, all_failed l0 w ps last w' /\
      e = default (CoreError (Provider ("All " +:+ sv_label sv +:+ " providers failed"))) last
  end.
Proof.
  induction ps as [|p ps IH]; intros l0 w Hb; simpl.
  - exists l0. split; [constructor|done].
  - unfold catch. pose proof (attempt_no_panic p w Hb) as Hp.
    destruct (attempt_provider sv timeout body p w) as [[resp|[e|]] w1] eqn:E; simpl in *; [| |done].
    + exists [], p, ps, l0, w. split; [done|]. split; [constructor|done].
    + specialize (IH (Some e) w1 Hb).
      destruct (try_providers sv timeout body ps (Some e) w1) as [[resp|[e'|]] w'].
      * destruct IH as (pre & q & post & last & w2 & -> & H1 & H2).
        exists (p :: pre), q, post, last, w2. split; [done|]. split; [by econstructor|done].
      * destruct IH as (last & H1 & H2). exists last. split; [by econstructor|done].
      * done.
Qed.
End ServiceLemmas.

(** Walking the backends of a moderation or rerank request.  The answer is the answer of
    the first backend of the list that succeeds, and those before it were tried, in order,
    and failed; when all fail the error is that of the last one (a fixed one for an empty
    list).  It cannot panic: the handler has seen that the body has a member [model], so that
    the assignment of the backend's model into the body is one into an object. *)
Theorem first_working_backend_answers `{JsonText} `{HttpClient W} sv body w :
  match service_handler sv body w with
  | (Ok resp, w') => exists pre p post last w1,
      fl_providers (sv_default sv) = (pre ++ p :: post)%list /\
      all_failed sv (fl_timeout (sv_default sv)) body None w pre last w1 /\
      attempt_provider sv (fl_timeout (sv_default sv)) body p w1 = (Ok resp, w')
  | (Err (Failed e), w') =>
      (get "model" body ≫= as_str = None /\ e = BadRequest "missing 'model' field" /\ w' = w) \/
      exists last, all_failed sv (fl_timeout (sv_default sv)) body None w (fl_providers (sv_default sv)) last w' /\
        e = default (CoreError (Provider ("All " +:+ sv_label sv +:+ " providers failed"))) last
  | (Err Panic, _) => False
  end.
Proof.
  unfold service_handler, extract_model, lift, mbind at 1, st_bind.
  destruct (get "model" body ≫= as_str) as [m|] eqn:E; simpl; [|by left].
  assert (is_Some (as_object body) \/ body = Null) as Hb by (left; destruct body; simplify_eq/=; eauto).
  pose proof (try_providers_spec sv (fl_timeout (sv_default sv)) body (fl_providers (sv_default sv)) None w Hb) as Hs.
  unfold execute. destruct (try_providers _ _ _ _ _ w) as [[resp|[e|]] w']; [done| |done]. by right.
Qed.
