(* ===== verification/Usage.v ===== *)
(** * Usage and cost

    [godwit-providers/src/usage.rs]: the price of a request from the catalog's price list
    and the usage a backend reported.

    Decimals belong to the rust_decimal crate: a value is an exact rational, and
    [dec_round] is what an operation makes of its exact result, [None] when the crate
    panics on overflow. *)

From stdpp Require Import base strings list.
From Stdlib Require Import QArith.
From S2P Require Import Prelude RustStr Json Core.

#[local] Open Scope string_scope.
#[local] Open Scope Z_scope.

Class Decimals := {
  dec_from_str_exact : string -> option Q;     (* [.ok()] *)
  dec_from_f64_retain : Q -> option Q;
  dec_round : Q -> option Q;
}.

Section Cost.
Context `{JsonText} `{Decimals}.

(** [godwit-providers/src/usage.rs:60-67] [decimal_field] *)
Definition decimal_field (pricing : value) (key : string) : option Q :=
  v ← get key pricing;
  match as_str v with
  | Some s => dec_from_str_exact s
  | None => dec_from_str_exact (to_string v)
  end.

(** The outer [None] of a cost is a panic of the decimal arithmetic. *)
Abbreviation cost := (option (option Q)).
Definition priced (r : option Q) : cost := q ← r; Some (Some q).
Definition dmul (a b : Q) : option Q := dec_round (a * b).
Definition dadd (a b : Q) : option Q := dec_round (a + b).
Definition ddiv (a b : Q) : option Q := dec_round (a / b).

(** [godwit-providers/src/usage.rs:11-19] [compute_chat_cost] *)
Definition compute_chat_cost (pricing : value) (usage : UsageReport) : cost :=
  match decimal_field pricing "input_price_per_million", decimal_field pricing "output_price_per_million",
        u_prompt_tokens usage, u_completion_tokens usage with
  | Some input_price, Some output_price, Some input_tokens, Some output_tokens =>
    priced (a ← dmul (inject_Z input_tokens) input_price;
            b ← dmul (inject_Z output_tokens) output_price;
            c ← dadd a b;
            ddiv c (inject_Z 1000000))
  | _, _, _, _ => Some None
  end.

(** [godwit-providers/src/usage.rs:21-26] [compute_embedding_cost] *)
Definition compute_embedding_cost (pricing : value) (usage : UsageReport) : cost :=
  match decimal_field pricing "input_price_per_million", u_embedding_tokens usage with
  | Some input_price, Some tokens =>
    priced (a ← dmul (inject_Z tokens) input_price; ddiv a (inject_Z 1000000))
  | _, _ => Some None
  end.

(** [godwit-providers/src/usage.rs:28-33] [compute_image_cost] *)
Definition compute_image_cost (pricing : value) (usage : UsageReport) : cost :=
  match decimal_field pricing "image_price_per_image", u_image_count usage with
  | Some image_price, Some count => priced (dmul (inject_Z count) image_price)
  | _, _ => Some None
  end.

(** [godwit-providers/src/usage.rs:35-40] [compute_audio_tts_cost] *)
Definition compute_audio_tts_cost (pricing : value) (usage : UsageReport) : cost :=
  match decimal_field pricing "tts_price_per_character", u_tts_characters usage with
  | Some price_per_char, Some chars => priced (dmul (inject_Z chars) price_per_char)
  | _, _ => Some None
  end.

(** [godwit-providers/src/usage.rs:42-47] [compute_audio_stt_cost] *)
Definition compute_audio_stt_cost (pricing : value) (usage : UsageReport) : cost :=
  match decimal_field pricing "stt_price_per_second", u_audio_seconds usage ≫= dec_from_f64_retain with
  | Some price_per_sec, Some seconds => priced (dmul seconds price_per_sec)
  | _, _ => Some None
  end.

(** [godwit-providers/src/usage.rs:49-58] [compute_cost] *)
Definition compute_cost (pricing : value) (capability : Capability) (usage : UsageReport) : cost :=
  match capability with
  | Chat => compute_chat_cost pricing usage
  | Embedding => compute_embedding_cost pricing usage
  | ImageGeneration | ImageEdit => compute_image_cost pricing usage
  | AudioTts => compute_audio_tts_cost pricing usage
  | AudioStt => compute_audio_stt_cost pricing usage
  | VideoGeneration => Some None
  end.

(** [godwit-providers/src/usage.rs:69-79] [chat_usage_report] *)
Definition chat_usage_report (usage : option Usage) : UsageReport :=
  match usage with
  | None => no_usage
  | Some u =>
    {| u_prompt_tokens := Some (prompt_tokens u); u_completion_tokens := Some (completion_tokens u);
       u_image_count := None; u_audio_seconds := None; u_video_seconds := None; u_tts_characters := None;
       u_embedding_tokens := None;
       u_cache_read_tokens := d ← prompt_tokens_details u; cached_tokens d; u_cache_write_tokens := None |}
  end.
End Cost.
