(* ===== verification/Backend.v ===== *)
(** * Calls to the backends

    The interface every provider adapter implements ([godwit-providers/src/adapter.rs]), the
    requests and responses that cross it ([godwit-core/src/lib.rs]), and the functions of
    [godwit-api/src/proxy.rs] that call it under the retry loop. *)

From stdpp Require Import base strings list pretty.
From Stdlib Require Import QArith.
From S2P Require Import Prelude RustStr Json Core Db Router Resilience.

#[local] Open Scope string_scope.
#[local] Open Scope Z_scope.

(** ** Requests and responses *)

(** [godwit-core/src/lib.rs:831-839] [ImageGenerationRequest] *)
Record ImageGenerationRequest : Type := {
  ig_model : string; ig_prompt : string; ig_n : option Z; ig_size : option string;
  ig_quality : option string; ig_style : option string }.

(** [godwit-core/src/lib.rs:841-852] [ImageGenerationResponse, ImageData] *)
Record ImageData : Type := {
  im_url : option string; im_b64_json : option string; im_revised_prompt : option string }.
Record ImageGenerationResponse : Type := { igr_created : Z; igr_data : list ImageData }.

(** [godwit-core/src/lib.rs:854-861] [ImageEditRequest] *)
Record ImageEditRequest : Type := {
  ie_model : string; ie_prompt : string; ie_n : option Z; ie_size : option string;
  ie_response_format : option string }.

(** [godwit-core/src/lib.rs:863-869] [AudioTtsRequest] *)
Record AudioTtsRequest : Type := {
  tts_model : string; tts_input : string; tts_voice : string; tts_response_format : option string }.

(** [godwit-core/src/lib.rs:871-877] [AudioSttRequest] *)
Record AudioSttRequest : Type := {
  stt_model : string; stt_language : option string; stt_response_format : option string }.
(** [godwit-core/src/lib.rs:879-882] [AudioSttResponse] *)
Record AudioSttResponse : Type := { stt_text : string }.

(** [godwit-core/src/lib.rs:884-888] [EmbeddingRequest] *)
Record EmbeddingRequest : Type := { emb_model : string; emb_input : list string }.
(** [godwit-core/src/lib.rs:890-903] [EmbeddingResponse, EmbeddingData] *)
Record EmbeddingData : Type := { ed_object : string; ed_embedding : list Q; ed_index : Z }.
Record EmbeddingResponse : Type := {
  er_object : string; er_data : list EmbeddingData; er_model : string; er_usage : Usage }.

(** [godwit-core/src/lib.rs:905-923] [VideoGenerationResponse, VideoData] *)
Record VideoData : Type := { vd_url : option string; vd_b64_json : option string }.
Record VideoGenerationResponse : Type := { vgr_created : Z; vgr_data : list VideoData }.

(** Bytes are a [string].
    [godwit-providers/src/adapter.rs:12-21] [ProviderResponse] *)
Inductive ProviderResponse : Type :=
| PRChat (r : ChatCompletionResponse)
| PRImage (r : ImageGenerationResponse)
| PRVideo (r : VideoGenerationResponse)
| PRAudioStt (r : AudioSttResponse)
| PREmbedding (r : EmbeddingResponse)
| PRBytes (bytes content_type : string)
| PRJson (v : value).

(** ** Interfaces *)

(** What the proxy asks of an adapter of type [A] over a world [W]; [Es] is its stream of
    events.  Video and batch calls are left out: no handler makes them.
    [godwit-providers/src/adapter.rs:68-156] [Adapter] *)
Class Adapter (A W Es : Type) := {
  chat : A -> ResolvedProfile -> Model -> ChatCompletionRequest -> ST W ProviderError (ProviderResponse * UsageReport);
  chat_stream : A -> ResolvedProfile -> Model -> ChatCompletionRequest -> ST W ProviderError Es;
  image_generation : A -> ResolvedProfile -> Model -> ImageGenerationRequest
                     -> ST W ProviderError (ProviderResponse * UsageReport);
  image_edit : A -> ResolvedProfile -> Model -> ImageEditRequest -> string -> string -> option string
               -> ST W ProviderError (ProviderResponse * UsageReport);
  audio_tts : A -> ResolvedProfile -> Model -> AudioTtsRequest
              -> ST W ProviderError (ProviderResponse * UsageReport);
  audio_stt : A -> ResolvedProfile -> Model -> AudioSttRequest -> string -> string -> string
              -> ST W ProviderError (ProviderResponse * UsageReport);
  embedding : A -> ResolvedProfile -> Model -> EmbeddingRequest
              -> ST W ProviderError (ProviderResponse * UsageReport);
}.

(** Time in the world: the clock now, in nanoseconds; the pairs of clock readings the next
    check of the rate limiter will make; time passing unnoticed; a pause in milliseconds. *)
Class World (W : Type) := {
  now : W -> Z;
  readings : W -> nat -> Z * Z;
  tick : W -> W;
  sleep : Z -> W -> W;
}.

(** The jsonschema crate: the errors of a document against a schema, or the error of
    compiling the schema; and the text of a document that is not JSON. *)
Class Schemas := {
  schema_errors : value -> value -> result string (list string);
  parse_error : string -> string;
}.

(** ** Validation of structured output *)

(** [godwit-api/src/response_validation.rs:5-13] [ValidationError] *)
Inductive ValidationError : Type :=
| InvalidJson (msg : string)
| SchemaViolation (msg : string)
| NoContent.

(** [godwit-api/src/response_validation.rs:5-13] [ValidationError::fmt] *)
Definition show_validation_error (e : ValidationError) : string :=
  match e with
  | InvalidJson m => "invalid json: " +:+ m
  | SchemaViolation m => "schema validation failed: " +:+ m
  | NoContent => "no content to validate"
  end.

(** [godwit-api/src/response_validation.rs:15-42] [validate_response] *)
Definition validate_response `{JsonText} `{Schemas} (content : string) (schema : option value)
  : result ValidationError unit :=
  schema_value ← ok_or (SchemaViolation "schema is required") schema;
  parsed ← ok_or (InvalidJson ("failed to parse response as json: " +:+ parse_error content)) (from_str content);
  errors ← map_err (fun e => SchemaViolation ("invalid schema definition: " +:+ e)) (schema_errors schema_value parsed);
  match errors with
  | [] => Ok tt
  | _ => Err (SchemaViolation ("response does not match schema: " +:+ str_join "; " errors))
  end.

(** ** Calls *)

(** [godwit-providers/src/web_search.rs:5-10] [NATIVE_WEB_SEARCH_TOOLS] *)
Definition NATIVE_WEB_SEARCH_TOOLS : list string :=
  ["web_search"; "web_search_20250305"; "google_search"; "google_search_grounding"].

(** [godwit-api/src/proxy.rs:223-225] [default_retry_policy] *)
Definition default_retry_policy : RetryPolicy := default_policy.

(** What a chat call answers with: a completion, or an event stream, whose tool calls are
    resolved on the way when [tools] is set and whose events carry [stream_model]. *)
Inductive ChatReply (Es : Type) : Type :=
| ChatJson (completion : ChatCompletionResponse)
| ChatSse (tools : bool) (stream_model : string) (stream : Es).
Arguments ChatJson {Es} completion.
Arguments ChatSse {Es} tools stream_model stream.

Section Calls.
Context `{JsonText} `{Schemas} {A W Es : Type} `{!World W} `{!Adapter A W Es}.
Notation CALL T := (ST W ProviderError (T * UsageReport)).

Definition unexpected_variant {T} : CALL T := throw (ProviderFailed "unexpected provider response variant").

(** [godwit-api/src/proxy.rs:238-248] [call_chat] *)
Definition has_gateway_tools (req : ChatCompletionRequest) : bool :=
  existsb (fun t => str_contains "__" (fd_name t) || existsb (String.eqb (fd_name t)) NATIVE_WEB_SEARCH_TOOLS)
    (default [] (req_tools req)).

(** [godwit-api/src/proxy.rs:267-271] [call_chat] *)
Definition stream_model_of (m : Model) : string := if is_empty (provider_model_id m) then public_id m else provider_model_id m.

(** The stream is opened; what becomes of its events is [stream_payloads] of [Chat.v].
    [godwit-api/src/proxy.rs:235-271] [call_chat] *)
Definition call_chat_stream (resolved : ResolvedModel A) (req : ChatCompletionRequest)
  : ST W ProviderError (ChatReply Es * option UsageReport) :=
  stream ← with_retry sleep default_retry_policy
             (chat_stream (rm_adapter resolved) (rm_credentials resolved) (rm_model resolved) req);
  mret (ChatSse (has_gateway_tools req) (stream_model_of (rm_model resolved)) stream, None).

(** [godwit-api/src/proxy.rs:338-366] [call_chat] *)
Definition call_chat_json (resolved : ResolvedModel A) (req : ChatCompletionRequest)
  : ST W ProviderError (ChatReply Es * option UsageReport) :=
  rr ← with_retry sleep default_retry_policy
         (chat (rm_adapter resolved) (rm_credentials resolved) (rm_model resolved) req);
  match rr.1 with
  | PRChat completion =>
    match req_response_format req with
    | Some (FJsonSchema _ schema _) =>
      match c ← head (resp_choices completion); content_as_text (ch_message c) with
      | Some content =>
        lift (map_err (fun e => ProviderFailed ("response validation failed: " +:+ show_validation_error e))
                (validate_response content schema))
      | None => mret tt
      end
    | _ => mret tt
    end;;
    mret (ChatJson completion, Some rr.2)
  | _ => throw (ProviderFailed "unexpected provider response variant")
  end.

(** [godwit-api/src/proxy.rs:227-234] [call_chat] *)
Definition call_chat (resolved : ResolvedModel A) (req : ChatCompletionRequest)
  : ST W ProviderError (ChatReply Es * option UsageReport) :=
  if bool_decide (req_stream req = Some true) then call_chat_stream resolved req else call_chat_json resolved req.

(** [godwit-api/src/proxy.rs:757-779] [call_embedding] *)
Definition call_embedding (req : EmbeddingRequest) (resolved : ResolvedModel A) : CALL ProviderResponse :=
  rr ← with_retry sleep default_retry_policy
         (embedding (rm_adapter resolved) (rm_credentials resolved) (rm_model resolved) req);
  match rr.1 with PREmbedding body => mret (PREmbedding body, rr.2) | _ => unexpected_variant end.

(** [godwit-api/src/proxy.rs:888-910] [call_image_generation] *)
Definition call_image_generation (req : ImageGenerationRequest) (resolved : ResolvedModel A) : CALL ProviderResponse :=
  rr ← with_retry sleep default_retry_policy
         (image_generation (rm_adapter resolved) (rm_credentials resolved) (rm_model resolved) req);
  match rr.1 with PRImage body => mret (PRImage body, rr.2) | _ => unexpected_variant end.

(** [godwit-api/src/proxy.rs:1019-1041] [call_audio_speech] *)
Definition call_audio_speech (req : AudioTtsRequest) (resolved : ResolvedModel A) : CALL ProviderResponse :=
  rr ← with_retry sleep default_retry_policy
         (audio_tts (rm_adapter resolved) (rm_credentials resolved) (rm_model resolved) req);
  match rr.1 with PRBytes bytes content_type => mret (PRBytes bytes content_type, rr.2) | _ => unexpected_variant end.

(** [godwit-api/src/proxy.rs:1198-1230] [call_audio_transcription] *)
Definition call_audio_transcription (req : AudioSttRequest) (file_bytes filename content_type : string)
    (resolved : ResolvedModel A) : CALL ProviderResponse :=
  rr ← with_retry sleep default_retry_policy
         (audio_stt (rm_adapter resolved) (rm_credentials resolved) (rm_model resolved) req
            file_bytes filename content_type);
  match rr.1 with PRAudioStt body => mret (PRAudioStt body, rr.2) | _ => unexpected_variant end.

(** [godwit-api/src/proxy.rs:1400-1432] [call_image_edit] *)
Definition call_image_edit (req : ImageEditRequest) (image_bytes image_filename : string) (mask_bytes : option string)
    (resolved : ResolvedModel A) : CALL ProviderResponse :=
  rr ← with_retry sleep default_retry_policy
         (image_edit (rm_adapter resolved) (rm_credentials resolved) (rm_model resolved) req
            image_bytes image_filename mask_bytes);
  match rr.1 with PRImage body => mret (PRImage body, rr.2) | _ => unexpected_variant end.
End Calls.
