(* ===== verification/Serde.v ===== *)
(** * Reading and writing the shared types as JSON

    What [#[derive(Serialize, Deserialize)]] makes of the data types of
    [godwit-core/src/lib.rs]: one writer and one reader per type, built from the readers of
    a field.  A derived reader takes a struct from an object (unknown members ignored, a
    missing [Option] field is [None]) or from an array of its fields in order.

    [serde_json::from_str::<T>] is modelled as reading a [value] and then a [T]; the two
    differ on a text that gives one member twice, which the derived reader rejects. *)

From stdpp Require Import base strings list.
From Stdlib Require Import QArith Qreduction Qabs.
From S2P Require Import Prelude RustStr Json Core Backend.

#[local] Open Scope string_scope.
#[local] Open Scope Z_scope.

(** ** Readers *)

Abbreviation reader A := (value -> option A) (only parsing).

Definition rd_string : reader string := as_str.
Definition rd_bool : reader bool := as_bool.
Definition rd_value : reader value := Some.
Definition rd_list {A} (r : reader A) : reader (list A) := fun v =>
  match v with VArray l => collect r l | _ => None end.

(** An integer type accepts the integers of its range and no float. *)
Definition rd_i (w : Z) : reader Z := fun v =>
  match v with
  | VNumber (NInt z) => if (- 2 ^ (w - 1) <=? z) && (z <? 2 ^ (w - 1)) then Some z else None
  | _ => None
  end.

(** [x as f32] of a double or an integer: the nearest value of 24 significant bits, ties to
    even.  A number that rounds to an infinity has no counterpart here and is not read. *)
Definition round_half_even (n : Z) (d : positive) : Z :=
  let q := n / Zpos d in
  let r := n mod Zpos d in
  match 2 * r ?= Zpos d with
  | Lt => q
  | Gt => q + 1
  | Eq => if Z.even q then q else q + 1
  end.
Definition Qpow2 (e : Z) : Q := if 0 <=? e then inject_Z (2 ^ e) else / inject_Z (2 ^ (- e)).
Definition float_of_Q (prec emax : Z) (x : Q) : option Q :=
  let a := Qabs x in
  if Qnum a =? 0 then Some 0%Q
  else
    let e0 := Z.log2 (Qnum a) - Z.log2 (Zpos (Qden a)) in
    let e := if Qle_bool (Qpow2 e0) a then e0 else e0 - 1 in
    let u := Qpow2 (Z.max e (2 - emax) - (prec - 1)) in
    let s := (a / u)%Q in
    let m := (inject_Z (round_half_even (Qnum s) (Qden s)) * u)%Q in
    if Qle_bool (Qpow2 emax) m then None
    else Some (Qred (if Qnum x <? 0 then - m else m)%Q).
Definition f32_of_Q : Q -> option Q := float_of_Q 24 128.
(** [as_f64]: the nearest double. *)
Definition f64_of_Q : Q -> option Q := float_of_Q 53 1024.
Definition json_f64 (v : value) : option Q :=
  match v with
  | VNumber (NInt z) => f64_of_Q (inject_Z z)
  | VNumber (NFloat q) => Some q
  | _ => None
  end.
Definition rd_f32 : reader Q := fun v =>
  match v with
  | VNumber (NInt z) => f32_of_Q (inject_Z z)
  | VNumber (NFloat q) => f32_of_Q q
  | _ => None
  end.

Example f32_tenth : f32_of_Q (3602879701896397 # 36028797018963968) = Some (13421773 # 134217728)%Q.
Proof. vm_compute. reflexivity. Qed.
Example f64_tenth : f64_of_Q (1 # 10) = Some (3602879701896397 # 36028797018963968)%Q.
Proof. vm_compute. reflexivity. Qed.

(** The fields of a struct, by name; [from_seq] tells that they came from an array. *)
Record Fields : Type := { fld : string -> option value; from_seq : bool }.

Definition struct_fields (names : list string) (v : value) : option Fields :=
  match v with
  | VObject o => Some {| fld := fun k => obj_get k o; from_seq := false |}
  | VArray l =>
    if (Datatypes.length l <=? Datatypes.length names)%nat
    then Some {| fld := fun k => position (String.eqb k) names ≫= fun i => l !! i; from_seq := true |}
    else None
  | _ => None
  end.

(** A field without a default; an [Option] field, which an object may lack; a field with
    [#[serde(default)]], and one of an [Option] type. *)
Definition field {A} (fs : Fields) (k : string) (r : reader A) : option A := v ← fld fs k; r v.
Definition opt_field {A} (fs : Fields) (k : string) (r : reader A) : option (option A) :=
  match fld fs k with
  | None => if from_seq fs then None else Some None
  | Some Null => Some None
  | Some v => Some <$> r v
  end.
Definition field_or {A} (fs : Fields) (k : string) (r : reader A) (d : A) : option A :=
  match fld fs k with None => Some d | Some v => r v end.
Definition opt_field_or {A} (fs : Fields) (k : string) (r : reader A) : option (option A) :=
  match fld fs k with None | Some Null => Some None | Some v => Some <$> r v end.

(** ** Writers *)

(** A struct whose fields are all written, and one with [skip_serializing_if] on some. *)
Definition skip_none {A} (k : string) (w : A -> value) (o : option A) : option (string * value) :=
  (fun a => (k, w a)) <$> o.
Definition struct_some (l : list (option (string * value))) : value := obj (filter_map id l).

Definition wr_f32 (q : Q) : value := VNumber (NFloat q).
Definition wr_list {A} (w : A -> value) (l : list A) : value := VArray (w <$> l).

(** ** The shared types *)

(** [godwit-core/src/lib.rs:567-578] [ToolCall, FunctionCall] *)
Definition tool_call_to_value (c : ToolCall) : value :=
  obj [("id", VString (tc_id c)); ("type", VString (tc_type c));
       ("function", obj [("name", VString (tc_name c)); ("arguments", VString (tc_arguments c))])].
(** [godwit-core/src/lib.rs:574-578] [FunctionCall::deserialize] *)
Definition function_call_of_value (v : value) : option (string * string) :=
  fs ← struct_fields ["name"; "arguments"] v;
  n ← field fs "name" rd_string;
  a ← field fs "arguments" rd_string;
  Some (n, a).
(** [godwit-core/src/lib.rs:567-572] [ToolCall::deserialize] *)
Definition tool_call_of_value (v : value) : option ToolCall :=
  fs ← struct_fields ["id"; "type"; "function"] v;
  i ← field fs "id" rd_string;
  t ← field fs "type" rd_string;
  f ← field fs "function" function_call_of_value;
  Some {| tc_id := i; tc_type := t; tc_name := f.1; tc_arguments := f.2 |}.

(** [godwit-core/src/lib.rs:509-512] [CacheControl] *)
Definition cache_control_to_value (c : CacheControl) : value := obj [("type", VString (cc_type c))].
(** [godwit-core/src/lib.rs:509-512] [CacheControl::deserialize] *)
Definition cache_control_of_value (v : value) : option CacheControl :=
  fs ← struct_fields ["type"] v;
  t ← field fs "type" rd_string;
  Some {| cc_type := t |}.

(** [godwit-core/src/lib.rs:675-688] [ChatMessage::serialize] *)
Definition message_to_value (m : ChatMessage) : value :=
  obj [("role", VString (msg_role m));
       ("content", serialize_chat_content (msg_content m));
       ("name", opt_value VString (msg_name m));
       ("tool_calls", opt_value (wr_list tool_call_to_value) (msg_tool_calls m));
       ("tool_call_id", opt_value VString (msg_tool_call_id m));
       ("cache_control", opt_value cache_control_to_value (msg_cache_control m))].
(** [godwit-core/src/lib.rs:675-688] [ChatMessage::deserialize] *)
Definition message_of_value (v : value) : option ChatMessage :=
  fs ← struct_fields ["role"; "content"; "name"; "tool_calls"; "tool_call_id"; "cache_control"] v;
  role ← field fs "role" rd_string;
  content ← field_or fs "content" deserialize_chat_content None;
  name ← opt_field fs "name" rd_string;
  calls ← opt_field fs "tool_calls" (rd_list tool_call_of_value);
  call_id ← opt_field fs "tool_call_id" rd_string;
  cache ← opt_field fs "cache_control" cache_control_of_value;
  Some {| msg_role := role; msg_content := content; msg_name := name; msg_tool_calls := calls;
          msg_tool_call_id := call_id; msg_cache_control := cache |}.

(** [godwit-core/src/lib.rs:540-551] [Tool, FunctionDefinition] *)
Definition tool_to_value (t : Tool) : value :=
  obj [("type", VString (tool_type t));
       ("function", obj [("name", VString (fd_name t)); ("description", opt_value VString (fd_description t));
                         ("parameters", opt_value id (fd_parameters t))])].
(** [godwit-core/src/lib.rs:546-551] [FunctionDefinition::deserialize] *)
Definition function_definition_of_value (v : value) : option (string * option string * option value) :=
  fs ← struct_fields ["name"; "description"; "parameters"] v;
  n ← field fs "name" rd_string;
  d ← opt_field fs "description" rd_string;
  p ← opt_field fs "parameters" rd_value;
  Some (n, d, p).
(** [godwit-core/src/lib.rs:540-544] [Tool::deserialize] *)
Definition tool_of_value (v : value) : option Tool :=
  fs ← struct_fields ["type"; "function"] v;
  t ← field fs "type" rd_string;
  f ← field fs "function" function_definition_of_value;
  Some {| tool_type := t; fd_name := f.1.1; fd_description := f.1.2; fd_parameters := f.2 |}.

(** Externally tagged: a unit variant is its name, the struct variant an object of one entry.
    [godwit-core/src/lib.rs:553-565] [ToolChoice, FunctionName] *)
Definition tool_choice_to_value (c : ToolChoice) : value :=
  match c with
  | TCNone => VString "none"
  | TCAuto => VString "auto"
  | TCRequired => VString "required"
  | TCFunction n => obj [("function", obj [("function", obj [("name", VString n)])])]
  end.
(** A unit variant may also be written as an object with a null body.
    [godwit-core/src/lib.rs:553-565] [ToolChoice::deserialize] *)
Definition tool_choice_of_value (v : value) : option ToolChoice :=
  let unit_variant k :=
    if String.eqb k "none" then Some TCNone
    else if String.eqb k "auto" then Some TCAuto
    else if String.eqb k "required" then Some TCRequired
    else None in
  match v with
  | VString k => unit_variant k
  | VObject [(k, body)] =>
    if String.eqb k "function" then
      fs ← struct_fields ["function"] body;
      TCFunction <$> field fs "function" (fun f => gs ← struct_fields ["name"] f; field gs "name" rd_string)
    else match body with Null => unit_variant k | _ => None end
  | _ => None
  end.

(** Internally tagged.
    [godwit-core/src/lib.rs:475-488] [ResponseFormat, JsonSchema] *)
Definition response_format_to_value (f : ResponseFormat) : value :=
  match f with
  | FText => obj [("type", VString "text")]
  | FJsonObject => obj [("type", VString "json_object")]
  | FJsonSchema n schema strict =>
    obj [("type", VString "json_schema");
         ("json_schema", obj [("name", VString n); ("schema", opt_value id schema);
                              ("strict", opt_value VBool strict)])]
  end.
(** [godwit-core/src/lib.rs:483-488] [JsonSchema::deserialize] *)
Definition json_schema_of_value (v : value) : option ResponseFormat :=
  fs ← struct_fields ["name"; "schema"; "strict"] v;
  n ← field fs "name" rd_string;
  s ← opt_field fs "schema" rd_value;
  b ← opt_field fs "strict" rd_bool;
  Some (FJsonSchema n s b).
(** The tag and the rest of the variant; from an array, the tag comes first.
    [godwit-core/src/lib.rs:475-481] [ResponseFormat::deserialize] *)
Definition response_format_of_value (v : value) : option ResponseFormat :=
  match v with
  | VObject o =>
    tag ← obj_get "type" o ≫= as_str;
    if String.eqb tag "text" then Some FText
    else if String.eqb tag "json_object" then Some FJsonObject
    else if String.eqb tag "json_schema" then obj_get "json_schema" o ≫= json_schema_of_value
    else None
  | VArray [VString tag] =>
    if String.eqb tag "text" then Some FText
    else if String.eqb tag "json_object" then Some FJsonObject
    else None
  | VArray [VString tag; s] => if String.eqb tag "json_schema" then json_schema_of_value s else None
  | _ => None
  end.

(** [godwit-core/src/lib.rs:490-495] [Stop] *)
Definition stop_to_value (s : Stop) : value :=
  match s with StopString s => VString s | StopArray l => wr_list VString l end.
(** [godwit-core/src/lib.rs:490-495] [Stop::deserialize] *)
Definition stop_of_value (v : value) : option Stop :=
  match v with
  | VString s => Some (StopString s)
  | _ => StopArray <$> rd_list rd_string v
  end.

(** [godwit-core/src/lib.rs:497-507] [ReasoningConfig, ThinkingConfig] *)
Definition reasoning_to_value (r : ReasoningConfig) : value :=
  obj [("effort", opt_value VString (rc_effort r));
       ("thinking", opt_value (fun '(t, b) => obj [("type", VString t); ("budget_tokens", num b)]) (rc_thinking r))].
(** [godwit-core/src/lib.rs:503-507] [ThinkingConfig::deserialize] *)
Definition thinking_of_value (v : value) : option (string * Z) :=
  fs ← struct_fields ["type"; "budget_tokens"] v;
  t ← field fs "type" rd_string;
  b ← field fs "budget_tokens" (rd_i 32);
  Some (t, b).
(** [godwit-core/src/lib.rs:497-501] [ReasoningConfig::deserialize] *)
Definition reasoning_of_value (v : value) : option ReasoningConfig :=
  fs ← struct_fields ["effort"; "thinking"] v;
  e ← opt_field fs "effort" rd_string;
  t ← opt_field fs "thinking" thinking_of_value;
  Some {| rc_effort := e; rc_thinking := t |}.

(** A [HashMap<String, i32>]. *)
Definition int_map_to_value (l : list (string * Z)) : value := obj ((fun '(k, z) => (k, num z)) <$> l).
Definition int_map_of_value (v : value) : option (list (string * Z)) :=
  match v with VObject o => collect (fun '(k, x) => pair k <$> rd_i 32 x) o | _ => None end.

(** [godwit-core/src/lib.rs:449-473] [ChatCompletionRequest::serialize] *)
Definition request_to_value (r : ChatCompletionRequest) : value :=
  obj [("model", VString (req_model r));
       ("messages", wr_list message_to_value (req_messages r));
       ("stream", opt_value VBool (req_stream r));
       ("temperature", opt_value wr_f32 (req_temperature r));
       ("max_tokens", opt_value num (req_max_tokens r));
       ("top_p", opt_value wr_f32 (req_top_p r));
       ("top_k", opt_value num (req_top_k r));
       ("frequency_penalty", opt_value wr_f32 (req_frequency_penalty r));
       ("presence_penalty", opt_value wr_f32 (req_presence_penalty r));
       ("repetition_penalty", opt_value wr_f32 (req_repetition_penalty r));
       ("stop", opt_value stop_to_value (req_stop r));
       ("seed", opt_value num (req_seed r));
       ("n", opt_value num (req_n r));
       ("logprobs", opt_value VBool (req_logprobs r));
       ("top_logprobs", opt_value num (req_top_logprobs r));
       ("logit_bias", opt_value int_map_to_value (req_logit_bias r));
       ("user", opt_value VString (req_user r));
       ("tools", opt_value (wr_list tool_to_value) (req_tools r));
       ("tool_choice", opt_value tool_choice_to_value (req_tool_choice r));
       ("parallel_tool_calls", opt_value VBool (req_parallel_tool_calls r));
       ("response_format", opt_value response_format_to_value (req_response_format r));
       ("reasoning", opt_value reasoning_to_value (req_reasoning r))].
Definition request_fields : list string :=
  ["model"; "messages"; "stream"; "temperature"; "max_tokens"; "top_p"; "top_k"; "frequency_penalty";
   "presence_penalty"; "repetition_penalty"; "stop"; "seed"; "n"; "logprobs"; "top_logprobs"; "logit_bias";
   "user"; "tools"; "tool_choice"; "parallel_tool_calls"; "response_format"; "reasoning"].
(** [godwit-core/src/lib.rs:449-473] [ChatCompletionRequest::deserialize] *)
Definition request_of_value (v : value) : option ChatCompletionRequest :=
  fs ← struct_fields request_fields v;
  model ← field fs "model" rd_string;
  messages ← field fs "messages" (rd_list message_of_value);
  stream ← opt_field fs "stream" rd_bool;
  temperature ← opt_field fs "temperature" rd_f32;
  max_tokens ← opt_field fs "max_tokens" (rd_i 32);
  top_p ← opt_field fs "top_p" rd_f32;
  top_k ← opt_field fs "top_k" (rd_i 32);
  frequency_penalty ← opt_field fs "frequency_penalty" rd_f32;
  presence_penalty ← opt_field fs "presence_penalty" rd_f32;
  repetition_penalty ← opt_field fs "repetition_penalty" rd_f32;
  stop ← opt_field fs "stop" stop_of_value;
  seed ← opt_field fs "seed" (rd_i 64);
  n ← opt_field fs "n" (rd_i 32);
  logprobs ← opt_field fs "logprobs" rd_bool;
  top_logprobs ← opt_field fs "top_logprobs" (rd_i 32);
  logit_bias ← opt_field fs "logit_bias" int_map_of_value;
  user ← opt_field fs "user" rd_string;
  tools ← opt_field fs "tools" (rd_list tool_of_value);
  tool_choice ← opt_field fs "tool_choice" tool_choice_of_value;
  parallel ← opt_field fs "parallel_tool_calls" rd_bool;
  format ← opt_field fs "response_format" response_format_of_value;
  reasoning ← opt_field fs "reasoning" reasoning_of_value;
  Some {| req_model := model; req_messages := messages; req_stream := stream; req_temperature := temperature;
          req_max_tokens := max_tokens; req_top_p := top_p; req_top_k := top_k;
          req_frequency_penalty := frequency_penalty; req_presence_penalty := presence_penalty;
          req_repetition_penalty := repetition_penalty; req_stop := stop; req_seed := seed; req_n := n;
          req_logprobs := logprobs; req_top_logprobs := top_logprobs; req_logit_bias := logit_bias;
          req_user := user; req_tools := tools; req_tool_choice := tool_choice;
          req_parallel_tool_calls := parallel; req_response_format := format; req_reasoning := reasoning |}.

(** [godwit-core/src/lib.rs:718-723] [TokenDetails] *)
Definition token_details_to_value (d : TokenDetails) : value :=
  obj [("cached_tokens", opt_value num (cached_tokens d)); ("audio_tokens", opt_value num (audio_tokens d));
       ("image_tokens", opt_value num (image_tokens d))].
(** [godwit-core/src/lib.rs:718-723] [TokenDetails::deserialize] *)
Definition token_details_of_value (v : value) : option TokenDetails :=
  fs ← struct_fields ["cached_tokens"; "audio_tokens"; "image_tokens"] v;
  c ← opt_field fs "cached_tokens" (rd_i 32);
  a ← opt_field fs "audio_tokens" (rd_i 32);
  i ← opt_field fs "image_tokens" (rd_i 32);
  Some {| cached_tokens := c; audio_tokens := a; image_tokens := i |}.

(** [godwit-core/src/lib.rs:709-716] [Usage] *)
Definition usage_to_value (u : Usage) : value :=
  obj [("prompt_tokens", num (prompt_tokens u)); ("completion_tokens", num (completion_tokens u));
       ("total_tokens", num (total_tokens u));
       ("prompt_tokens_details", opt_value token_details_to_value (prompt_tokens_details u));
       ("completion_tokens_details", opt_value token_details_to_value (completion_tokens_details u))].
(** [godwit-core/src/lib.rs:709-716] [Usage::deserialize] *)
Definition usage_of_value (v : value) : option Usage :=
  fs ← struct_fields ["prompt_tokens"; "completion_tokens"; "total_tokens"; "prompt_tokens_details";
                      "completion_tokens_details"] v;
  p ← field fs "prompt_tokens" (rd_i 32);
  c ← field fs "completion_tokens" (rd_i 32);
  t ← field fs "total_tokens" (rd_i 32);
  pd ← opt_field fs "prompt_tokens_details" token_details_of_value;
  cd ← opt_field fs "completion_tokens_details" token_details_of_value;
  Some {| prompt_tokens := p; completion_tokens := c; total_tokens := t;
          prompt_tokens_details := pd; completion_tokens_details := cd |}.

(** [godwit-core/src/lib.rs:700-707] [ChatCompletionChoice::serialize] *)
Definition choice_to_value (c : ChatCompletionChoice) : value :=
  obj [("index", num (ch_index c)); ("message", message_to_value (ch_message c));
       ("finish_reason", opt_value VString (ch_finish_reason c)); ("logprobs", opt_value id (ch_logprobs c));
       ("tool_calls", opt_value (wr_list tool_call_to_value) (ch_tool_calls c))].
(** [godwit-core/src/lib.rs:700-707] [ChatCompletionChoice::deserialize] *)
Definition choice_of_value (v : value) : option ChatCompletionChoice :=
  fs ← struct_fields ["index"; "message"; "finish_reason"; "logprobs"; "tool_calls"] v;
  i ← field fs "index" (rd_i 32);
  m ← field fs "message" message_of_value;
  f ← opt_field fs "finish_reason" rd_string;
  l ← opt_field fs "logprobs" rd_value;
  t ← opt_field fs "tool_calls" (rd_list tool_call_of_value);
  Some {| ch_index := i; ch_message := m; ch_finish_reason := f; ch_logprobs := l; ch_tool_calls := t |}.

(** [godwit-core/src/lib.rs:690-698] [ChatCompletionResponse::serialize] *)
Definition completion_to_value (r : ChatCompletionResponse) : value :=
  obj [("id", VString (resp_id r)); ("object", VString (resp_object r)); ("created", num (resp_created r));
       ("model", VString (resp_model r)); ("choices", wr_list choice_to_value (resp_choices r));
       ("usage", opt_value usage_to_value (resp_usage r))].
(** [godwit-core/src/lib.rs:690-698] [ChatCompletionResponse::deserialize] *)
Definition completion_of_value (v : value) : option ChatCompletionResponse :=
  fs ← struct_fields ["id"; "object"; "created"; "model"; "choices"; "usage"] v;
  i ← field fs "id" rd_string;
  o ← field fs "object" rd_string;
  c ← field fs "created" (rd_i 64);
  m ← field fs "model" rd_string;
  ch ← field fs "choices" (rd_list choice_of_value);
  u ← opt_field fs "usage" usage_of_value;
  Some {| resp_id := i; resp_object := o; resp_created := c; resp_model := m; resp_choices := ch; resp_usage := u |}.

(** [godwit-core/src/lib.rs:831-839] [ImageGenerationRequest::serialize] *)
Definition image_request_to_value (r : ImageGenerationRequest) : value :=
  obj [("model", VString (ig_model r)); ("prompt", VString (ig_prompt r)); ("n", opt_value num (ig_n r));
       ("size", opt_value VString (ig_size r)); ("quality", opt_value VString (ig_quality r));
       ("style", opt_value VString (ig_style r))].
(** [godwit-core/src/lib.rs:831-839] [ImageGenerationRequest::deserialize] *)
Definition image_request_of_value (v : value) : option ImageGenerationRequest :=
  fs ← struct_fields ["model"; "prompt"; "n"; "size"; "quality"; "style"] v;
  m ← field fs "model" rd_string;
  p ← field fs "prompt" rd_string;
  n ← opt_field fs "n" (rd_i 32);
  s ← opt_field fs "size" rd_string;
  q ← opt_field fs "quality" rd_string;
  t ← opt_field fs "style" rd_string;
  Some {| ig_model := m; ig_prompt := p; ig_n := n; ig_size := s; ig_quality := q; ig_style := t |}.
(** [godwit-core/src/lib.rs:847-852] [ImageData::deserialize] *)
Definition image_data_of_value (v : value) : option ImageData :=
  fs ← struct_fields ["url"; "b64_json"; "revised_prompt"] v;
  u ← opt_field fs "url" rd_string;
  b ← opt_field fs "b64_json" rd_string;
  p ← opt_field fs "revised_prompt" rd_string;
  Some {| im_url := u; im_b64_json := b; im_revised_prompt := p |}.
(** [godwit-core/src/lib.rs:841-845] [ImageGenerationResponse::deserialize] *)
Definition image_response_of_value (v : value) : option ImageGenerationResponse :=
  fs ← struct_fields ["created"; "data"] v;
  c ← field fs "created" (rd_i 64);
  d ← field fs "data" (rd_list image_data_of_value);
  Some {| igr_created := c; igr_data := d |}.

(** [godwit-core/src/lib.rs:863-869] [AudioTtsRequest::serialize] *)
Definition tts_request_to_value (r : AudioTtsRequest) : value :=
  obj [("model", VString (tts_model r)); ("input", VString (tts_input r)); ("voice", VString (tts_voice r));
       ("response_format", opt_value VString (tts_response_format r))].
(** [godwit-core/src/lib.rs:863-869] [AudioTtsRequest::deserialize] *)
Definition tts_request_of_value (v : value) : option AudioTtsRequest :=
  fs ← struct_fields ["model"; "input"; "voice"; "response_format"] v;
  m ← field fs "model" rd_string;
  i ← field fs "input" rd_string;
  w ← field fs "voice" rd_string;
  f ← opt_field fs "response_format" rd_string;
  Some {| tts_model := m; tts_input := i; tts_voice := w; tts_response_format := f |}.
(** [godwit-core/src/lib.rs:879-882] [AudioSttResponse::deserialize] *)
Definition stt_response_of_value (v : value) : option AudioSttResponse :=
  fs ← struct_fields ["text"] v;
  t ← field fs "text" rd_string;
  Some {| stt_text := t |}.

(** [godwit-core/src/lib.rs:884-888] [EmbeddingRequest::serialize] *)
Definition embedding_request_to_value (r : EmbeddingRequest) : value :=
  obj [("model", VString (emb_model r)); ("input", wr_list VString (emb_input r))].
(** [godwit-core/src/lib.rs:884-888] [EmbeddingRequest::deserialize] *)
Definition embedding_request_of_value (v : value) : option EmbeddingRequest :=
  fs ← struct_fields ["model"; "input"] v;
  m ← field fs "model" rd_string;
  i ← field fs "input" (rd_list rd_string);
  Some {| emb_model := m; emb_input := i |}.
(** [godwit-core/src/lib.rs:898-903] [EmbeddingData::deserialize] *)
Definition embedding_data_of_value (v : value) : option EmbeddingData :=
  fs ← struct_fields ["object"; "embedding"; "index"] v;
  o ← field fs "object" rd_string;
  e ← field fs "embedding" (rd_list rd_f32);
  i ← field fs "index" (rd_i 32);
  Some {| ed_object := o; ed_embedding := e; ed_index := i |}.
(** [godwit-core/src/lib.rs:890-896] [EmbeddingResponse::deserialize] *)
Definition embedding_response_of_value (v : value) : option EmbeddingResponse :=
  fs ← struct_fields ["object"; "data"; "model"; "usage"] v;
  o ← field fs "object" rd_string;
  d ← field fs "data" (rd_list embedding_data_of_value);
  m ← field fs "model" rd_string;
  u ← field fs "usage" usage_of_value;
  Some {| er_object := o; er_data := d; er_model := m; er_usage := u |}.

(** [godwit-core/src/lib.rs:952-959] [BatchRequest] *)
Record BatchRequest : Type := {
  br_input_file_id : string; br_endpoint : string; br_completion_window : string; br_metadata : option value }.
(** [godwit-core/src/lib.rs:952-959] [BatchRequest::serialize] *)
Definition batch_request_to_value (r : BatchRequest) : value :=
  struct_some [Some ("input_file_id", VString (br_input_file_id r)); Some ("endpoint", VString (br_endpoint r));
               Some ("completion_window", VString (br_completion_window r));
               skip_none "metadata" id (br_metadata r)].

(** [godwit-core/src/lib.rs:991-1004] [BatchError, BatchRequestCounts] *)
Record BatchError : Type := {
  be_code : string; be_message : string; be_param : option string; be_line : option Z }.
Record BatchRequestCounts : Type := { bc_total : Z; bc_completed : Z; bc_failed : Z }.
(** [godwit-core/src/lib.rs:961-989] [Batch, BatchErrors] *)
Record Batch : Type := {
  ba_id : string; ba_object : string; ba_endpoint : string; ba_errors : option (string * list BatchError);
  ba_input_file_id : string; ba_completion_window : string; ba_status : string;
  ba_output_file_id : option string; ba_error_file_id : option string; ba_created_at : Z;
  ba_in_progress_at : option Z; ba_expires_at : option Z; ba_finalizing_at : option Z; ba_completed_at : option Z;
  ba_failed_at : option Z; ba_expired_at : option Z; ba_cancelling_at : option Z; ba_cancelled_at : option Z;
  ba_request_counts : option BatchRequestCounts; ba_metadata : option value;
}.
(** [godwit-core/src/lib.rs:991-997] [BatchError::deserialize] *)
Definition batch_error_of_value (v : value) : option BatchError :=
  fs ← struct_fields ["code"; "message"; "param"; "line"] v;
  c ← field fs "code" rd_string;
  m ← field fs "message" rd_string;
  p ← opt_field fs "param" rd_string;
  l ← opt_field fs "line" (rd_i 32);
  Some {| be_code := c; be_message := m; be_param := p; be_line := l |}.
(** [godwit-core/src/lib.rs:985-989] [BatchErrors::deserialize] *)
Definition batch_errors_of_value (v : value) : option (string * list BatchError) :=
  fs ← struct_fields ["object"; "data"] v;
  o ← field fs "object" rd_string;
  d ← field fs "data" (rd_list batch_error_of_value);
  Some (o, d).
(** [godwit-core/src/lib.rs:999-1004] [BatchRequestCounts::deserialize] *)
Definition batch_counts_of_value (v : value) : option BatchRequestCounts :=
  fs ← struct_fields ["total"; "completed"; "failed"] v;
  t ← field fs "total" (rd_i 32);
  c ← field fs "completed" (rd_i 32);
  f ← field fs "failed" (rd_i 32);
  Some {| bc_total := t; bc_completed := c; bc_failed := f |}.
Definition batch_fields : list string :=
  ["id"; "object"; "endpoint"; "errors"; "input_file_id"; "completion_window"; "status"; "output_file_id";
   "error_file_id"; "created_at"; "in_progress_at"; "expires_at"; "finalizing_at"; "completed_at"; "failed_at";
   "expired_at"; "cancelling_at"; "cancelled_at"; "request_counts"; "metadata"].
(** [godwit-core/src/lib.rs:961-983] [Batch::deserialize] *)
Definition batch_of_value (v : value) : option Batch :=
  fs ← struct_fields batch_fields v;
  i ← field fs "id" rd_string;
  o ← field fs "object" rd_string;
  e ← field fs "endpoint" rd_string;
  errs ← opt_field fs "errors" batch_errors_of_value;
  inp ← field fs "input_file_id" rd_string;
  win ← field fs "completion_window" rd_string;
  st ← field fs "status" rd_string;
  out ← opt_field fs "output_file_id" rd_string;
  ef ← opt_field fs "error_file_id" rd_string;
  cr ← field fs "created_at" (rd_i 64);
  t1 ← opt_field fs "in_progress_at" (rd_i 64);
  t2 ← opt_field fs "expires_at" (rd_i 64);
  t3 ← opt_field fs "finalizing_at" (rd_i 64);
  t4 ← opt_field fs "completed_at" (rd_i 64);
  t5 ← opt_field fs "failed_at" (rd_i 64);
  t6 ← opt_field fs "expired_at" (rd_i 64);
  t7 ← opt_field fs "cancelling_at" (rd_i 64);
  t8 ← opt_field fs "cancelled_at" (rd_i 64);
  n ← opt_field fs "request_counts" batch_counts_of_value;
  md ← opt_field fs "metadata" rd_value;
  Some {| ba_id := i; ba_object := o; ba_endpoint := e; ba_errors := errs; ba_input_file_id := inp;
          ba_completion_window := win; ba_status := st; ba_output_file_id := out; ba_error_file_id := ef;
          ba_created_at := cr; ba_in_progress_at := t1; ba_expires_at := t2; ba_finalizing_at := t3;
          ba_completed_at := t4; ba_failed_at := t5; ba_expired_at := t6; ba_cancelling_at := t7;
          ba_cancelled_at := t8; ba_request_counts := n; ba_metadata := md |}.

(** ** Reading back what was written *)

(** Members of an object literal. *)
Fixpoint assoc (k : string) (l : list (string * value)) : option value :=
  match l with [] => None | (k', v) :: l' => if String.eqb k k' then Some v else assoc k l' end.

Lemma obj_get_fold k l : forall o,
  obj_get k (fold_left (fun o '(k, v) => obj_insert k v o) l o) =
  match assoc k (rev l) with Some v => Some v | None => obj_get k o end.
Proof.
  induction l as [|[k' v'] l IH] using rev_ind; intros o; [done|].
  rewrite fold_left_app, rev_app_distr. simpl.
  destruct (String.eqb_spec k k') as [->|]; [apply obj_get_insert|].
  by rewrite obj_get_insert_ne.
Qed.

Lemma assoc_app k l1 l2 : assoc k (l1 ++ l2) = match assoc k l1 with Some v => Some v | None => assoc k l2 end.
Proof. induction l1 as [|[k' v'] l1 IH]; simpl; [done|]. by destruct (String.eqb k k'). Qed.

Lemma assoc_None k l : k ∉ l.*1 -> assoc k l = None.
Proof.
  induction l as [|[k' v'] l IH]; simpl; intros N; [done|].
  rewrite elem_of_cons in N. destruct (String.eqb_spec k k'); naive_solver.
Qed.

Lemma assoc_rev k l : NoDup l.*1 -> assoc k (rev l) = assoc k l.
Proof.
  induction l as [|[k' v'] l IH]; simpl; intros N; [done|]. inv N.
  rewrite assoc_app, IH by done. simpl. destruct (String.eqb_spec k k') as [->|]; [by rewrite assoc_None|].
  by destruct (assoc k l).
Qed.

Lemma struct_fields_obj names l : NoDup l.*1 ->
  exists fs, struct_fields names (obj l) = Some fs /\ from_seq fs = false /\ forall k, fld fs k = assoc k l.
Proof.
  intros N. eexists. split; [done|]. split; [done|]. intros k. simpl.
  rewrite obj_get_fold, assoc_rev by done. simpl. by destruct (assoc k l).
Qed.

Lemma field_some {A} fs k (r : reader A) v a : fld fs k = Some v -> r v = Some a -> field fs k r = Some a.
Proof. unfold field. by intros ->. Qed.

Lemma opt_field_some {A} fs k (r : reader A) (w : A -> value) o :
  fld fs k = Some (opt_value w o) -> from_option (fun a => r (w a) = Some a /\ w a <> Null) True o ->
  opt_field fs k r = Some o.
Proof.
  unfold opt_field. intros ->. destruct o as [a|]; simpl; [|done]. intros [-> N]. by destruct (w a).
Qed.

Lemma field_or_some {A} fs k (r : reader A) d v a : fld fs k = Some v -> r v = Some a -> field_or fs k r d = Some a.
Proof. unfold field_or. by intros ->. Qed.

Lemma rd_list_wr {A} (r : reader A) (w : A -> value) l :
  Forall (fun a => r (w a) = Some a) l -> rd_list r (wr_list w l) = Some l.
Proof.
  intros H. simpl. apply collect_Some. induction H; csimpl; constructor; auto.
Qed.

Definition ok_i (w z : Z) : bool := (- 2 ^ (w - 1) <=? z) && (z <? 2 ^ (w - 1)).

Lemma ok_i_spec w z : ok_i w z = true <-> in_i w z.
Proof. unfold ok_i, in_i. rewrite andb_true_iff. lia. Qed.

Lemma rd_i_num w z : ok_i w z = true -> rd_i w (num z) = Some z.
Proof. unfold ok_i. simpl. by intros ->. Qed.

(** Take a reader's success apart. *)
Ltac read_inv H := repeat (apply bind_Some in H as (? & ? & H)); simplify_eq/=.

#[export] Instance Q_leibniz_dec : EqDecision Q.
Proof. solve_decision. Defined.

Definition ok_f32 (q : Q) : bool := bool_decide (f32_of_Q q = Some q).

Lemma rd_f32_wr q : ok_f32 q = true -> rd_f32 (wr_f32 q) = Some q.
Proof. unfold ok_f32. by intros ?%bool_decide_eq_true. Qed.

(** Walk through a derived reader applied to the object its writer makes, field by field. *)
Ltac open_struct :=
  match goal with
  | |- context [struct_fields ?ns (obj ?l)] =>
    let fs := fresh "fs" in let Hs := fresh "Hs" in let Hf := fresh "Hf" in
    destruct (struct_fields_obj ns l) as (fs & -> & Hs & Hf);
    [apply (bool_decide_unpack _); vm_compute; exact I|];
    simpl mbind
  end.
Ltac next_field :=
  match goal with
  | Hf : forall k, fld ?fs k = _ |- context [field ?fs ?k ?r] =>
    erewrite (field_some fs k r); [|by rewrite Hf|]
  | Hf : forall k, fld ?fs k = _ |- context [field_or ?fs ?k ?r ?d] =>
    erewrite (field_or_some fs k r d); [|by rewrite Hf|]
  | Hf : forall k, fld ?fs k = _ |- context [opt_field ?fs ?k ?r] =>
    erewrite (opt_field_some fs k r); [|by rewrite Hf|]
  end; simpl mbind.

Lemma opt_all {A} (P : A -> Prop) o : (forall a, P a) -> from_option P True o.
Proof. intros H. destruct o; simpl; auto. Qed.

Lemma opt_ok {A} (p : A -> bool) (P : A -> Prop) o :
  from_option p true o = true -> (forall a, p a = true -> P a) -> from_option P True o.
Proof. destruct o; simpl; auto. Qed.

Lemma list_ok {A} (p : A -> bool) (r : reader A) (w : A -> value) l :
  forallb p l = true -> (forall a, p a = true -> r (w a) = Some a) -> rd_list r (wr_list w l) = Some l.
Proof.
  intros Hl H. apply rd_list_wr, Forall_forall. intros x Hx. apply H.
  by apply (proj1 (forallb_forall p l) Hl), list_elem_of_In.
Qed.

Ltac split_andb := repeat match goal with H : _ && _ = true |- _ => apply andb_prop in H as [H ?] end.

Create HintDb serde.
Lemma list_all {A} (r : reader A) (w : A -> value) l :
  (forall a, r (w a) = Some a) -> rd_list r (wr_list w l) = Some l.
Proof. intros H. by apply rd_list_wr, Forall_true. Qed.
#[export] Hint Resolve list_all rd_i_num rd_f32_wr : serde.

(** Fields that hold whatever the value is are closed; the others are left in order, the
    equation of the rebuilt record last. *)
Ltac close_field :=
  first
    [ done
    | apply opt_all; intros; split; by eauto 2 with serde
    | by eauto 3 with serde
    | match goal with
      | H : from_option ?p true ?o = true |- from_option _ True ?o =>
        apply (opt_ok p _ o H); intros; split; by eauto 3 with serde
      end
    | match goal with
      | H : forallb ?p ?l = true |- rd_list _ (wr_list _ ?l) = Some _ =>
        apply (list_ok p _ _ l H); by eauto 3 with serde
      end ].
Ltac read_back := open_struct; repeat next_field; try close_field.

Lemma tool_call_rt c : tool_call_of_value (tool_call_to_value c) = Some c.
Proof. unfold tool_call_of_value, tool_call_to_value. read_back. by destruct c. Qed.

Lemma cache_control_rt c : cache_control_of_value (cache_control_to_value c) = Some c.
Proof. unfold cache_control_of_value, cache_control_to_value. read_back. by destruct c. Qed.

Definition ok_content (c : option (list ChatContent)) : bool :=
  match c with Some l => forallb is_text l | None => true end.
Definition ok_message (m : ChatMessage) : bool := ok_content (msg_content m).

Lemma content_rt c : ok_content c = true -> deserialize_chat_content (serialize_chat_content c) = Some c.
Proof. destruct c as [c|]; [|done]. unfold ok_content. rewrite serialize_roundtrip_cases. by intros ->. Qed.

#[local] Hint Resolve tool_call_rt cache_control_rt content_rt : serde.

Lemma message_rt m : ok_message m = true -> message_of_value (message_to_value m) = Some m.
Proof. intros Hm. unfold message_of_value, message_to_value. read_back. by destruct m. Qed.

(** An [Option<Value>] holding null is read back as absent. *)
Definition not_null (v : value) : bool := bool_decide (v <> Null).

Lemma opt_value_rt o : from_option not_null true o = true ->
  from_option (fun a => rd_value (id a) = Some a /\ id a <> Null) True o.
Proof. destruct o as [v|]; simpl; [|done]. by intros ?%bool_decide_eq_true. Qed.
#[local] Hint Resolve opt_value_rt message_rt : serde.

Definition ok_tool (t : Tool) : bool := from_option not_null true (fd_parameters t).

Lemma tool_rt t : ok_tool t = true -> tool_of_value (tool_to_value t) = Some t.
Proof.
  intros Ht. unfold tool_of_value, tool_to_value. open_struct. repeat next_field. all: cycle 1.
  - done.
  - unfold function_definition_of_value. open_struct. repeat next_field; try close_field.
  - by destruct t.
Qed.

Lemma tool_choice_rt c : tool_choice_of_value (tool_choice_to_value c) = Some c.
Proof. by destruct c. Qed.

Definition ok_format (f : ResponseFormat) : bool :=
  match f with FJsonSchema _ s _ => from_option not_null true s | _ => true end.

Lemma format_rt f : ok_format f = true -> response_format_of_value (response_format_to_value f) = Some f.
Proof.
  destruct f as [| |n s b]; simpl; [done..|]. intros Hs. unfold json_schema_of_value.
  read_back.
Qed.

Lemma stop_rt s : stop_of_value (stop_to_value s) = Some s.
Proof.
  destruct s as [s|l]; [done|]. unfold stop_of_value. simpl stop_to_value.
  change (StopArray <$> rd_list rd_string (wr_list VString l) = Some (StopArray l)).
  by rewrite (list_all rd_string VString).
Qed.

Definition ok_reasoning (r : ReasoningConfig) : bool := from_option (fun '(_, b) => ok_i 32 b) true (rc_thinking r).

Lemma thinking_rt t : ok_i 32 t.2 = true ->
  thinking_of_value (obj [("type", VString t.1); ("budget_tokens", num t.2)]) = Some t.
Proof. intros. unfold thinking_of_value. read_back. by destruct t. Qed.

Lemma reasoning_rt r : ok_reasoning r = true -> reasoning_of_value (reasoning_to_value r) = Some r.
Proof.
  intros Hr. unfold reasoning_of_value, reasoning_to_value. read_back. all: cycle 1.
  - unfold ok_reasoning in Hr. destruct (rc_thinking r) as [[t b]|]; [|done].
    split; [exact (thinking_rt (t, b) Hr)|done].
  - by destruct r.
Qed.
#[export] Hint Resolve tool_rt tool_choice_rt format_rt stop_rt reasoning_rt : serde.

(** ** Maps *)

Lemma ascii_compare_lt_trans a b c :
  Ascii.compare a b = Lt -> Ascii.compare b c = Lt -> Ascii.compare a c = Lt.
Proof. unfold Ascii.compare. rewrite !N.compare_lt_iff. lia. Qed.

Lemma str_lt_trans s1 : forall s2 s3,
  String.compare s1 s2 = Lt -> String.compare s2 s3 = Lt -> String.compare s1 s3 = Lt.
Proof.
  induction s1 as [|a s1 IH]; intros [|b s2] [|c s3]; simpl; try done.
  destruct (Ascii.compare a b) eqn:E1; intros H1; [| |done].
  - apply Ascii.compare_eq_iff in E1 as ->. destruct (Ascii.compare b c); eauto.
  - destruct (Ascii.compare b c) eqn:E2; intros H2; [| |done].
    + apply Ascii.compare_eq_iff in E2 as ->. by rewrite E1.
    + by rewrite (ascii_compare_lt_trans a b c).
Qed.

Lemma sorted_head_lt k v o k' v' :
  sorted_keys ((k, v) :: o) = true -> (k', v') ∈ o -> String.compare k k' = Lt.
Proof.
  revert k v. induction o as [|[k1 v1] o IH]; intros k v Hs Hin; [by apply elem_of_nil in Hin|].
  simpl in Hs. apply andb_prop in Hs as [Hlt Hs]. destruct (String.compare k k1) eqn:E; try done.
  apply elem_of_cons in Hin as [[= -> ->]|Hin]; [done|].
  eapply str_lt_trans; [done|]. by apply (IH k1 v1).
Qed.

Lemma str_compare_gt k k' : String.compare k k' = Lt -> String.compare k' k = Gt.
Proof. intros H. by rewrite String.compare_antisym, H. Qed.

Lemma obj_insert_last k v o :
  (forall k' v', (k', v') ∈ o -> String.compare k' k = Lt) -> obj_insert k v o = (o ++ [(k, v)])%list.
Proof.
  induction o as [|[k1 v1] o IH]; intros H; [done|]. simpl.
  rewrite (str_compare_gt k1 k) by (eapply H; left). f_equal. apply IH. intros. eapply H. by right.
Qed.

Lemma obj_sorted l : sorted_keys l = true -> obj l = VObject l.
Proof.
  intros Hs. unfold obj. f_equal.
  enough (forall acc, (forall k v k' v', (k, v) ∈ acc -> (k', v') ∈ l -> String.compare k k' = Lt) ->
    fold_left (fun o '(k, v) => obj_insert k v o) l acc = (acc ++ l)%list) as H.
  { apply (H []). intros k v k2 v2 Hin. by apply elem_of_nil in Hin. }
  induction l as [|[k v] l IH]; intros acc Ha; simpl; [by rewrite app_nil_r|].
  rewrite obj_insert_last, IH.
  - by rewrite <- app_assoc.
  - simpl in Hs. by apply andb_prop in Hs as [].
  - intros k1 v1 k2 v2 [H1|H1]%elem_of_app H2.
    + eapply Ha; [done|]. by right.
    + apply list_elem_of_singleton in H1 as [= -> ->]. by eapply sorted_head_lt.
  - intros. eapply Ha; [done|]. left.
Qed.

(** Objects the code builds print and parse back. *)
Lemma str_compare_lt_gt k k' : String.compare k k' = Gt -> String.compare k' k = Lt.
Proof. intros H. by rewrite String.compare_antisym, H. Qed.

Lemma key_lt_insert k0 k v o : String.compare k0 k = Lt -> key_lt k0 o = true -> key_lt k0 (obj_insert k v o) = true.
Proof.
  destruct o as [|[k1 v1] o]; simpl; intros H1 H2; [by rewrite H1|].
  destruct (String.compare k k1); simpl; by rewrite ?H1.
Qed.

Lemma sorted_insert k v o : sorted_keys o = true -> sorted_keys (obj_insert k v o) = true.
Proof.
  induction o as [|[k1 v1] o IH]; simpl; [done|]. intros [Hlt Hs]%andb_prop.
  destruct (String.compare k k1) eqn:E; simpl.
  - apply String.compare_eq_iff in E as ->. by rewrite Hlt, Hs.
  - by rewrite E, Hlt, Hs.
  - rewrite IH by done. rewrite key_lt_insert; [done| |done]. by apply str_compare_lt_gt.
Qed.

Lemma printable_insert k x o :
  printable x = true -> printable (VObject o) = true -> printable (VObject (obj_insert k x o)) = true.
Proof.
  simpl. intros Hx [Hs Ho]%andb_prop. rewrite sorted_insert by done. simpl. clear Hs.
  induction o as [|[k1 v1] o IH]; simpl in *; [by rewrite Hx|]. apply andb_prop in Ho as [H1 H2].
  destruct (String.compare k k1); simpl; by rewrite ?Hx, ?H1, ?H2, ?IH.
Qed.

Lemma printable_obj l : Forall (fun kv => printable kv.2 = true) l -> printable (obj l) = true.
Proof.
  intros Hl. unfold obj. enough (forall o, printable (VObject o) = true ->
    printable (VObject (fold_left (fun o '(k, v) => obj_insert k v o) l o)) = true) as H by by apply H.
  induction Hl as [|[k x] l Hx _ IH]; intros o Ho; [done|]. apply IH. by apply printable_insert.
Qed.

Lemma printable_array l : Forall (fun v => printable v = true) l -> printable (VArray l) = true.
Proof. intros H. simpl. apply forallb_forall. intros v Hv. rewrite Forall_forall in H. by apply H, list_elem_of_In. Qed.

Lemma get_obj k l : NoDup l.*1 -> get k (obj l) = assoc k l.
Proof. intros N. simpl. rewrite obj_get_fold, assoc_rev by done. by destruct (assoc k l). Qed.

(** The members of a struct, some of them optional. *)
Definition not_key (k : string) (o : option (string * value)) : Prop := match o with Some (k', _) => k' <> k | None => True end.

Lemma skip_not_key {A} k k' (w : A -> value) o : k' <> k -> not_key k (skip_none k' w o).
Proof. by destruct o. Qed.
Lemma if_not_key (b : bool) k x : not_key k x -> not_key k (if b then x else None).
Proof. by destruct b. Qed.

Lemma get_fold_other k l : forall o, Forall (not_key k) l ->
  obj_get k (fold_left (fun o '(k, v) => obj_insert k v o) (filter_map id l) o) = obj_get k o.
Proof.
  induction l as [|x l IH]; intros o Hl; [done|]. inversion Hl as [|? ? Hx Hl']; subst.
  destruct x as [[k' v]|]; simpl; rewrite IH by done; [|done]. by rewrite obj_get_insert_ne.
Qed.

(** The member [k] of a struct with optional fields. *)
Lemma get_struct_some k v l1 l2 :
  Forall (not_key k) l2 -> get k (struct_some (l1 ++ Some (k, v) :: l2)) = Some v.
Proof.
  intros Hl. unfold struct_some, obj, get. rewrite filter_map_app, fold_left_app. simpl.
  rewrite get_fold_other by done. apply obj_get_insert.
Qed.
Lemma get_struct_skip {A} k (w : A -> value) o l1 l2 :
  Forall (not_key k) l1 -> Forall (not_key k) l2 -> get k (struct_some (l1 ++ skip_none k w o :: l2)) = w <$> o.
Proof.
  intros Hl1 Hl2. destruct o as [a|]; [by apply get_struct_some|].
  unfold struct_some, obj, get. rewrite filter_map_app, fold_left_app. simpl.
  rewrite get_fold_other by done. by rewrite get_fold_other.
Qed.
Ltac no_keys := repeat first [apply Forall_nil_2 | apply Forall_cons_2 | apply skip_not_key | apply if_not_key | discriminate | exact I | (simpl; discriminate)].
(** The member at position [n] of a struct, with or without a value. *)
Ltac member n :=
  match goal with |- get ?k (struct_some ?l) = _ =>
    let a := eval cbn [take] in (take n l) in
    let b := eval cbn [drop] in (drop (S n) l) in
    first [apply (get_struct_some k _ a b) | apply (get_struct_skip k _ _ a b)]; no_keys
  end.

(** Prove that an object literal prints and parses back. *)
Ltac printable :=
  repeat first [ done | by auto with godwit | apply printable_obj | apply printable_array
               | apply Forall_nil | apply Forall_cons; split | progress simpl snd ].

Definition ok_int_map (l : list (string * Z)) : bool :=
  sorted_keys ((fun '(k, z) => (k, num z)) <$> l) && forallb (fun '(_, z) => ok_i 32 z) l.

Lemma int_map_rt l : ok_int_map l = true -> int_map_of_value (int_map_to_value l) = Some l.
Proof.
  unfold ok_int_map. intros [Hs Hl]%andb_prop. unfold int_map_to_value. rewrite obj_sorted by done. simpl.
  apply collect_Some. clear Hs. induction l as [|[k z] l IH]; csimpl; constructor.
  - simpl in Hl. apply andb_prop in Hl as [Hz _]. by rewrite rd_i_num.
  - apply IH. simpl in Hl. by apply andb_prop in Hl as [].
Qed.

Lemma int_map_not_null l : int_map_to_value l <> Null.
Proof. done. Qed.
#[export] Hint Resolve int_map_rt : serde.

(** What a value of the program holds: integers of their type, floats of single precision,
    no null inside an [Option<Value>], maps in key order; and, for a faithful round trip, no
    message with parts ([chat_content_roundtrip]). *)
Definition ok_request (r : ChatCompletionRequest) : bool :=
  forallb ok_message (req_messages r) &&
  from_option ok_f32 true (req_temperature r) && from_option (ok_i 32) true (req_max_tokens r) &&
  from_option ok_f32 true (req_top_p r) && from_option (ok_i 32) true (req_top_k r) &&
  from_option ok_f32 true (req_frequency_penalty r) && from_option ok_f32 true (req_presence_penalty r) &&
  from_option ok_f32 true (req_repetition_penalty r) && from_option (ok_i 64) true (req_seed r) &&
  from_option (ok_i 32) true (req_n r) && from_option (ok_i 32) true (req_top_logprobs r) &&
  from_option ok_int_map true (req_logit_bias r) && from_option (forallb ok_tool) true (req_tools r) &&
  from_option ok_format true (req_response_format r) && from_option ok_reasoning true (req_reasoning r).

Lemma tools_rt l : forallb ok_tool l = true -> rd_list tool_of_value (wr_list tool_to_value l) = Some l.
Proof. intros H. apply (list_ok ok_tool); auto with serde. Qed.
Lemma stop_not_null s : stop_to_value s <> Null.
Proof. by destruct s. Qed.
Lemma tool_choice_not_null c : tool_choice_to_value c <> Null.
Proof. by destruct c. Qed.
Lemma format_not_null f : response_format_to_value f <> Null.
Proof. by destruct f. Qed.
#[export] Hint Resolve tools_rt format_not_null stop_not_null tool_choice_not_null : serde.

Lemma request_rt r : ok_request r = true -> request_of_value (request_to_value r) = Some r.
Proof.
  unfold ok_request. intros H. split_andb.
  unfold request_of_value, request_to_value, request_fields. read_back. by destruct r.
Qed.

Definition ok_details (d : TokenDetails) : bool :=
  from_option (ok_i 32) true (cached_tokens d) && from_option (ok_i 32) true (audio_tokens d) &&
  from_option (ok_i 32) true (image_tokens d).
Definition ok_usage (u : Usage) : bool :=
  ok_i 32 (prompt_tokens u) && ok_i 32 (completion_tokens u) && ok_i 32 (total_tokens u) &&
  from_option ok_details true (prompt_tokens_details u) && from_option ok_details true (completion_tokens_details u).
Definition ok_choice (c : ChatCompletionChoice) : bool :=
  ok_i 32 (ch_index c) && ok_message (ch_message c) && from_option not_null true (ch_logprobs c).
Definition ok_completion (r : ChatCompletionResponse) : bool :=
  ok_i 64 (resp_created r) && forallb ok_choice (resp_choices r) && from_option ok_usage true (resp_usage r).

Lemma details_rt d : ok_details d = true -> token_details_of_value (token_details_to_value d) = Some d.
Proof.
  unfold ok_details. intros H. split_andb.
  unfold token_details_of_value, token_details_to_value. read_back. by destruct d.
Qed.
#[export] Hint Resolve details_rt : serde.

Lemma usage_rt u : ok_usage u = true -> usage_of_value (usage_to_value u) = Some u.
Proof.
  unfold ok_usage. intros H. split_andb.
  unfold usage_of_value, usage_to_value. read_back. by destruct u.
Qed.

Lemma choice_rt c : ok_choice c = true -> choice_of_value (choice_to_value c) = Some c.
Proof.
  unfold ok_choice. intros H. split_andb.
  unfold choice_of_value, choice_to_value. read_back. by destruct c.
Qed.
#[export] Hint Resolve usage_rt choice_rt : serde.

Lemma completion_rt r : ok_completion r = true -> completion_of_value (completion_to_value r) = Some r.
Proof.
  unfold ok_completion. intros H. split_andb.
  unfold completion_of_value, completion_to_value. read_back. by destruct r.
Qed.

Lemma image_request_rt r : from_option (ok_i 32) true (ig_n r) = true -> image_request_of_value (image_request_to_value r) = Some r.
Proof. intros Hn. unfold image_request_of_value, image_request_to_value. read_back. by destruct r. Qed.
Lemma tts_request_rt r : tts_request_of_value (tts_request_to_value r) = Some r.
Proof. unfold tts_request_of_value, tts_request_to_value. read_back. by destruct r. Qed.
Lemma embedding_request_rt r : embedding_request_of_value (embedding_request_to_value r) = Some r.
Proof. unfold embedding_request_of_value, embedding_request_to_value. read_back. by destruct r. Qed.

(** C27: requests and completions survive the wire: what the gateway writes of a well-formed
    value, its own reader reads back unchanged.  Well-formed is what a program value is,
    integers of their type, floats of single precision, maps in key order, no null inside an
    [Option<Value>], with one restriction the formats impose: no message with parts.  Requests
    for embeddings and speech have nothing to restrict. *)
Theorem wire_roundtrip :
  (forall r, ok_request r = true -> request_of_value (request_to_value r) = Some r) /\
  (forall r, ok_completion r = true -> completion_of_value (completion_to_value r) = Some r) /\
  (forall r, from_option (ok_i 32) true (ig_n r) = true -> image_request_of_value (image_request_to_value r) = Some r) /\
  (forall r, tts_request_of_value (tts_request_to_value r) = Some r) /\
  (forall r, embedding_request_of_value (embedding_request_to_value r) = Some r).
Proof.
  split_and!; [exact request_rt|exact completion_rt|exact image_request_rt|exact tts_request_rt|exact embedding_request_rt].
Qed.

Definition sample_wire_request : ChatCompletionRequest :=
  {| req_model := "gpt"; req_messages := [text_message "user" "hi"]; req_stream := Some false;
     req_temperature := Some (1 # 2)%Q; req_max_tokens := Some 16; req_top_p := None; req_top_k := None;
     req_frequency_penalty := None; req_presence_penalty := None; req_repetition_penalty := None;
     req_stop := Some (StopArray ["END"]); req_seed := Some (2 ^ 62); req_n := Some 1; req_logprobs := None;
     req_top_logprobs := None; req_logit_bias := Some [("17", -100); ("42", 5)]; req_user := Some "u";
     req_tools := Some [ {| tool_type := "function"; fd_name := "f"; fd_description := None;
                            fd_parameters := Some (obj [("type", VString "object")]) |} ];
     req_tool_choice := Some (TCFunction "f"); req_parallel_tool_calls := Some true;
     req_response_format := Some (FJsonSchema "s" (Some (obj [])) None);
     req_reasoning := Some {| rc_effort := Some "low"; rc_thinking := Some ("enabled", 1024) |} |}.

Lemma wire_roundtrip_witness :
  ok_request sample_wire_request = true /\
  request_of_value (request_to_value sample_wire_request) = Some sample_wire_request.
Proof. split; [vm_compute; reflexivity|]. apply wire_roundtrip. vm_compute. reflexivity. Defined.
