(* ===== verification/Config.v ===== *)
(** * The configuration

    The configuration file of the process ([godwit-core/src/lib.rs], the part before the wire
    types): one record per section, with the defaults of its fields and of the section, and the
    reader that [#[derive(Deserialize)]] makes of it.

    The YAML crate is the class [Yaml]: what a node is taken for when a text, a boolean, an
    integer, a sequence or a mapping is asked of it.  A struct is read from a mapping. *)

From stdpp Require Import base strings list gmap.
From S2P Require Import Prelude RustStr Json Core Serde.

#[local] Open Scope string_scope.
#[local] Open Scope Z_scope.

(** ** Documents *)

Class Yaml := {
  yaml : Type;
  y_text : yaml -> option string;
  y_bool : yaml -> option bool;
  y_int : yaml -> option Z;
  y_null : yaml -> bool;
  y_seq : yaml -> option (list yaml);
  y_map : yaml -> option (list (string * yaml));
}.

(** ** Readers *)

Section Readers.
Context `{Yaml}.

Definition y_u (w : Z) (v : yaml) : option Z := z ← y_int v; if (0 <=? z) && (z <? 2 ^ w) then Some z else None.
Definition y_i (w : Z) (v : yaml) : option Z := z ← y_int v; if ok_i w z then Some z else None.
Definition y_list {A} (r : yaml -> option A) (v : yaml) : option (list A) := l ← y_seq v; collect r l.
Definition y_opt {A} (r : yaml -> option A) (v : yaml) : option (option A) := if y_null v then Some None else Some <$> r v.
(** A [HashMap<String, String>]: of two entries with one key, the later one. *)
Definition y_env (v : yaml) : option (gmap string string) :=
  o ← y_map v; l ← collect (fun '(k, x) => pair k <$> y_text x) o;
  Some (foldl (fun m '(k, x) => <[k := x]> m) ∅ l).

(** The members of a mapping that are named [k]; a struct rejects a member given twice. *)
Definition named (k : string) (o : list (string * yaml)) : list yaml := snd <$> filterb (fun x => String.eqb x.1 k) o.
Definition y_field {A} (o : list (string * yaml)) (k : string) (r : yaml -> option A) (missing : option A) : option A :=
  match named k o with [] => missing | [v] => r v | _ => None end.
(** A field that must be there, one with a default, and an [Option]. *)
Definition must {A} o k (r : yaml -> option A) : option A := y_field o k r None.
Definition may {A} o k (r : yaml -> option A) (d : A) : option A := y_field o k r (Some d).
Definition maybe {A} o k (r : yaml -> option A) : option (option A) := y_field o k (y_opt r) (Some None).
End Readers.

(** ** Sections *)

(** [godwit-core/src/lib.rs:28-35] [PiiPatternConfig] *)
Record PiiPatternConfig : Type := { ppc_name : string; ppc_pattern : string; ppc_replacement : string; ppc_enabled : bool }.
(** [godwit-core/src/lib.rs:16-26] [PiiConfig] *)
Record PiiConfig : Type := { pii_on : bool; mask_request : bool; mask_response : bool; pii_patterns : list PiiPatternConfig }.

(** [godwit-core/src/lib.rs:37-39] [default_pii_enabled] *)
Definition default_pii_enabled : bool := false.
(** [godwit-core/src/lib.rs:41-43] [default_pii_mask_request] *)
Definition default_pii_mask_request : bool := true.
(** [godwit-core/src/lib.rs:45-47] [default_pii_mask_response] *)
Definition default_pii_mask_response : bool := true.
(** [godwit-core/src/lib.rs:49-51] [default_pattern_enabled] *)
Definition default_pattern_enabled : bool := true.
(** [godwit-core/src/lib.rs:53-80] [default_pii_patterns] *)
Definition default_pii_patterns : list PiiPatternConfig :=
  [ {| ppc_name := "email"; ppc_pattern := "[a-zA-Z0-9._%+-]+@[a-zA-Z0-9.-]+\.[a-zA-Z]{2,}"; ppc_replacement := "[EMAIL]"; ppc_enabled := true |};
    {| ppc_name := "phone"; ppc_pattern := "\+?[\d\s-()]{10,}"; ppc_replacement := "[PHONE]"; ppc_enabled := true |};
    {| ppc_name := "credit_card"; ppc_pattern := "\b\d{4}[-\s]?\d{4}[-\s]?\d{4}[-\s]?\d{4}\b"; ppc_replacement := "[CARD]"; ppc_enabled := true |};
    {| ppc_name := "ssn"; ppc_pattern := "\b\d{3}-\d{2}-\d{4}\b"; ppc_replacement := "[SSN]"; ppc_enabled := true |} ].
(** [godwit-core/src/lib.rs:82-91] [PiiConfig::default] *)
Definition default_pii : PiiConfig :=
  {| pii_on := default_pii_enabled; mask_request := default_pii_mask_request; mask_response := default_pii_mask_response;
     pii_patterns := default_pii_patterns |}.

(** [godwit-core/src/lib.rs:183-193] [McpServerEntry] *)
Record McpServerEntry : Type := { me_name : string; me_command : string; me_args : list string; me_env : gmap string string }.
(** [godwit-core/src/lib.rs:196-200] [SearxngConfig] *)
Record SearxngConfig : Type := { sx_base_url : string }.
(** [godwit-core/src/lib.rs:156-166] [AgenticConfig] *)
Record AgenticConfig : Type := { mcp_servers : list McpServerEntry; sx_config : option SearxngConfig; ag_max_iterations : Z }.
(** [godwit-core/src/lib.rs:178-180] [default_max_iterations] *)
Definition default_max_iterations : Z := 4.
(** [godwit-core/src/lib.rs:168-176] [AgenticConfig::default] *)
Definition default_agentic : AgenticConfig :=
  {| mcp_servers := []; sx_config := None; ag_max_iterations := default_max_iterations |}.

(** [godwit-core/src/lib.rs:202-207] [ServerConfig] *)
Record ServerConfig : Type := { sv_host : string; sv_port : Z; request_timeout_seconds : Z }.
(** [godwit-core/src/lib.rs:209-212] [DatabaseConfig] *)
Record DatabaseConfig : Type := { db_url : string }.

(** [godwit-core/src/lib.rs:250-256] [MailTls] *)
Inductive MailTls : Type := TlsNone | StartTls | Tls.
(** [godwit-core/src/lib.rs:258-262] [MailTls::default] *)
Definition default_mail_tls : MailTls := StartTls.
(** [godwit-core/src/lib.rs:264-266] [default_mail_port] *)
Definition default_mail_port : Z := 587.
(** [godwit-core/src/lib.rs:235-248] [MailConfig] *)
Record MailConfig : Type := {
  ml_from : string; ml_host : string; ml_port : Z; ml_username : option string; ml_password : option string; ml_tls : MailTls;
  app_url : string }.

(** [godwit-core/src/lib.rs:315-322] [OidcProviderConfig] *)
Record OidcProviderConfig : Type := {
  oidc_id : string; issuer_url : string; client_id : string; client_secret : string; redirect_uri : string }.
(** [godwit-core/src/lib.rs:324-330] [SamlProviderConfig] *)
Record SamlProviderConfig : Type := { saml_id : string; idp_metadata_url : string; sp_entity_id : string; acs_url : string }.

(** [godwit-core/src/lib.rs:268-286] [PasswordPolicy] *)
Record PasswordPolicy : Type := {
  min_length : Z; require_upper : bool; require_lower : bool; require_digit : bool; require_symbol : bool;
  max_reuse : Z; days_to_expire : Z; block_common : bool }.
(** [godwit-core/src/lib.rs:288-301] [PasswordPolicy::default] *)
Definition default_password_policy : PasswordPolicy :=
  {| min_length := 10; require_upper := true; require_lower := true; require_digit := true;
     require_symbol := true; max_reuse := 5; days_to_expire := 0; block_common := false |}.
(** [godwit-core/src/lib.rs:303-305] [default_min_length] *)
Definition default_min_length : Z := 10.
(** [godwit-core/src/lib.rs:307-309] [default_max_reuse] *)
Definition default_max_reuse : Z := 5.
(** [godwit-core/src/lib.rs:311-313] [default_login_max_attempts] *)
Definition default_login_max_attempts : Z := 10.

(** [godwit-core/src/lib.rs:214-233] [AuthConfig] *)
Record AuthConfig : Type := {
  jwt_secret : string; access_token_ttl_minutes : Z; refresh_token_ttl_days : Z; cookie_secure : bool;
  allowed_cookie_origin : string; login_max_attempts_per_minute : Z; trust_proxy : bool;
  oidc_providers : list OidcProviderConfig; saml_providers : list SamlProviderConfig; mail : option MailConfig;
  password_policy : PasswordPolicy }.

(** [godwit-core/src/lib.rs:332-336] [CompatConfig] *)
Record CompatConfig : Type := { openai_wire_streaming : bool }.
(** [godwit-core/src/lib.rs:338-343] [CircuitBreakerConfig] *)
Record CircuitBreakerConfig : Type := { cbc_threshold : Z; recovery_timeout_secs : Z; half_open_max_requests : Z }.

(** [godwit-core/src/lib.rs:345-350] [ModerationConfig] *)
Record ModerationConfig : Type := { moderation_order : list string }.
(** [godwit-core/src/lib.rs:352-354] [default_moderation_provider_order] *)
Definition default_moderation_provider_order : list string := ["openai"; "azure"; "self-hosted"].
(** [godwit-core/src/lib.rs:356-362] [ModerationConfig::default] *)
Definition default_moderation : ModerationConfig := {| moderation_order := default_moderation_provider_order |}.
(** [godwit-core/src/lib.rs:364-369] [RerankConfig] *)
Record RerankConfig : Type := { rerank_order : list string }.
(** [godwit-core/src/lib.rs:371-373] [default_rerank_provider_order] *)
Definition default_rerank_provider_order : list string := ["cohere"; "azure"; "self-hosted"].
(** [godwit-core/src/lib.rs:375-381] [RerankConfig::default] *)
Definition default_rerank : RerankConfig := {| rerank_order := default_rerank_provider_order |}.

(** [godwit-core/src/lib.rs:383-394] [BatchConfig] *)
Record BatchConfig : Type := { max_concurrent : Z; max_retries : Z; webhook_url : option string }.
(** [godwit-core/src/lib.rs:396-398] [default_batch_max_concurrent] *)
Definition default_batch_max_concurrent : Z := 10.
(** [godwit-core/src/lib.rs:400-402] [default_batch_max_retries] *)
Definition default_batch_max_retries : Z := 2.
(** [godwit-core/src/lib.rs:404-412] [BatchConfig::default] *)
Definition default_batch : BatchConfig :=
  {| max_concurrent := default_batch_max_concurrent; max_retries := default_batch_max_retries; webhook_url := None |}.

(** [godwit-core/src/lib.rs:414-425] [CacheConfig] *)
Record CacheConfig : Type := { cache_enabled : bool; ttl_secs : Z; max_size : Z }.
(** [godwit-core/src/lib.rs:427-429] [default_cache_enabled] *)
Definition default_cache_enabled : bool := true.
(** [godwit-core/src/lib.rs:431-433] [default_cache_ttl_secs] *)
Definition default_cache_ttl_secs : Z := 3600.
(** [godwit-core/src/lib.rs:435-437] [default_cache_max_size] *)
Definition default_cache_max_size : Z := 10000.
(** [godwit-core/src/lib.rs:439-447] [CacheConfig::default] *)
Definition default_cache : CacheConfig :=
  {| cache_enabled := default_cache_enabled; ttl_secs := default_cache_ttl_secs; max_size := default_cache_max_size |}.

(** [godwit-core/src/lib.rs:113-151] [AppConfig] *)
Record AppConfig : Type := {
  cf_server : ServerConfig; cf_database : DatabaseConfig; cf_auth : AuthConfig; cf_agentic : AgenticConfig;
  cf_compat : option CompatConfig; cf_circuit_breaker : option CircuitBreakerConfig; cf_moderation : ModerationConfig;
  cf_rerank : RerankConfig; cf_batch : BatchConfig; cf_cache : CacheConfig; cf_pii : PiiConfig;
  cf_moderation_pre : option bool; cf_moderation_post : option bool; cf_block_on_moderation_failure : option bool }.

(** ** The readers of the sections *)

Section Sections.
Context `{Yaml}.

(** [godwit-core/src/lib.rs:28-35] [PiiPatternConfig::deserialize] *)
Definition pattern_of_yaml (v : yaml) : option PiiPatternConfig :=
  o ← y_map v;
  name ← must o "name" y_text;
  pattern ← must o "pattern" y_text;
  replacement ← must o "replacement" y_text;
  enabled ← may o "enabled" y_bool default_pattern_enabled;
  Some {| ppc_name := name; ppc_pattern := pattern; ppc_replacement := replacement; ppc_enabled := enabled |}.

(** [godwit-core/src/lib.rs:16-26] [PiiConfig::deserialize] *)
Definition pii_of_yaml (v : yaml) : option PiiConfig :=
  o ← y_map v;
  enabled ← may o "enabled" y_bool default_pii_enabled;
  request ← may o "mask_request" y_bool default_pii_mask_request;
  response ← may o "mask_response" y_bool default_pii_mask_response;
  patterns ← may o "patterns" (y_list pattern_of_yaml) default_pii_patterns;
  Some {| pii_on := enabled; mask_request := request; mask_response := response; pii_patterns := patterns |}.

(** [godwit-core/src/lib.rs:183-193] [McpServerEntry::deserialize] *)
Definition mcp_entry_of_yaml (v : yaml) : option McpServerEntry :=
  o ← y_map v;
  name ← must o "name" y_text;
  command ← must o "command" y_text;
  args ← may o "args" (y_list y_text) [];
  env ← may o "env" y_env ∅;
  Some {| me_name := name; me_command := command; me_args := args; me_env := env |}.

(** [godwit-core/src/lib.rs:196-200] [SearxngConfig::deserialize] *)
Definition searxng_of_yaml (v : yaml) : option SearxngConfig :=
  o ← y_map v; base_url ← must o "base_url" y_text; Some {| sx_base_url := base_url |}.

(** [godwit-core/src/lib.rs:156-166] [AgenticConfig::deserialize] *)
Definition agentic_of_yaml (v : yaml) : option AgenticConfig :=
  o ← y_map v;
  servers ← may o "mcp_servers" (y_list mcp_entry_of_yaml) [];
  searxng ← maybe o "searxng" searxng_of_yaml;
  iterations ← may o "max_iterations" (y_u 64) default_max_iterations;
  Some {| mcp_servers := servers; sx_config := searxng; ag_max_iterations := iterations |}.

(** [godwit-core/src/lib.rs:202-207] [ServerConfig::deserialize] *)
Definition server_of_yaml (v : yaml) : option ServerConfig :=
  o ← y_map v;
  host ← must o "host" y_text;
  port ← must o "port" (y_u 16);
  timeout ← must o "request_timeout_seconds" (y_u 64);
  Some {| sv_host := host; sv_port := port; request_timeout_seconds := timeout |}.

(** [godwit-core/src/lib.rs:209-212] [DatabaseConfig::deserialize] *)
Definition database_of_yaml (v : yaml) : option DatabaseConfig :=
  o ← y_map v; url ← must o "url" y_text; Some {| db_url := url |}.

(** [godwit-core/src/lib.rs:250-256] [MailTls::deserialize] *)
Definition mail_tls_of_yaml (v : yaml) : option MailTls :=
  t ← y_text v;
  if String.eqb t "none" then Some TlsNone else if String.eqb t "starttls" then Some StartTls
  else if String.eqb t "tls" then Some Tls else None.

(** [godwit-core/src/lib.rs:235-248] [MailConfig::deserialize] *)
Definition mail_of_yaml (v : yaml) : option MailConfig :=
  o ← y_map v;
  from ← must o "from" y_text;
  host ← must o "host" y_text;
  port ← may o "port" (y_u 16) default_mail_port;
  username ← maybe o "username" y_text;
  password ← maybe o "password" y_text;
  tls ← may o "tls" mail_tls_of_yaml default_mail_tls;
  url ← must o "app_url" y_text;
  Some {| ml_from := from; ml_host := host; ml_port := port; ml_username := username; ml_password := password;
          ml_tls := tls; app_url := url |}.

(** [godwit-core/src/lib.rs:315-322] [OidcProviderConfig::deserialize] *)
Definition oidc_of_yaml (v : yaml) : option OidcProviderConfig :=
  o ← y_map v;
  id ← must o "id" y_text; issuer ← must o "issuer_url" y_text; client ← must o "client_id" y_text;
  secret ← must o "client_secret" y_text; redirect ← must o "redirect_uri" y_text;
  Some {| oidc_id := id; issuer_url := issuer; client_id := client; client_secret := secret; redirect_uri := redirect |}.

(** [godwit-core/src/lib.rs:324-330] [SamlProviderConfig::deserialize] *)
Definition saml_of_yaml (v : yaml) : option SamlProviderConfig :=
  o ← y_map v;
  id ← must o "id" y_text; metadata ← must o "idp_metadata_url" y_text;
  entity ← must o "sp_entity_id" y_text; acs ← must o "acs_url" y_text;
  Some {| saml_id := id; idp_metadata_url := metadata; sp_entity_id := entity; acs_url := acs |}.

(** [godwit-core/src/lib.rs:268-286] [PasswordPolicy::deserialize] *)
Definition policy_of_yaml (v : yaml) : option PasswordPolicy :=
  o ← y_map v;
  min ← may o "min_length" (y_u 32) default_min_length;
  upper ← may o "require_upper" y_bool false;
  lower ← may o "require_lower" y_bool false;
  digit ← may o "require_digit" y_bool false;
  symbol ← may o "require_symbol" y_bool false;
  reuse ← may o "max_reuse" (y_u 32) default_max_reuse;
  expire ← may o "days_to_expire" (y_u 64) 0;
  common ← may o "block_common" y_bool false;
  Some {| min_length := min; require_upper := upper; require_lower := lower; require_digit := digit;
          require_symbol := symbol; max_reuse := reuse; days_to_expire := expire; block_common := common |}.

(** [godwit-core/src/lib.rs:214-233] [AuthConfig::deserialize] *)
Definition auth_of_yaml (v : yaml) : option AuthConfig :=
  o ← y_map v;
  secret ← must o "jwt_secret" y_text;
  access ← must o "access_token_ttl_minutes" (y_i 64);
  refresh ← must o "refresh_token_ttl_days" (y_i 64);
  secure ← may o "cookie_secure" y_bool false;
  origin ← may o "allowed_cookie_origin" y_text "";
  attempts ← may o "login_max_attempts_per_minute" (y_i 64) default_login_max_attempts;
  proxy ← may o "trust_proxy" y_bool false;
  oidc ← must o "oidc_providers" (y_list oidc_of_yaml);
  saml ← must o "saml_providers" (y_list saml_of_yaml);
  mail ← maybe o "mail" mail_of_yaml;
  policy ← may o "password_policy" policy_of_yaml default_password_policy;
  Some {| jwt_secret := secret; access_token_ttl_minutes := access; refresh_token_ttl_days := refresh; cookie_secure := secure;
          allowed_cookie_origin := origin; login_max_attempts_per_minute := attempts; trust_proxy := proxy;
          oidc_providers := oidc; saml_providers := saml; mail := mail; password_policy := policy |}.

(** [godwit-core/src/lib.rs:332-336] [CompatConfig::deserialize] *)
Definition compat_of_yaml (v : yaml) : option CompatConfig :=
  o ← y_map v; wire ← must o "openai_wire_streaming" y_bool; Some {| openai_wire_streaming := wire |}.

(** [godwit-core/src/lib.rs:338-343] [CircuitBreakerConfig::deserialize] *)
Definition circuit_breaker_of_yaml (v : yaml) : option CircuitBreakerConfig :=
  o ← y_map v;
  threshold ← must o "failure_threshold" (y_u 64);
  timeout ← must o "recovery_timeout_secs" (y_u 64);
  half_open ← must o "half_open_max_requests" (y_u 64);
  Some {| cbc_threshold := threshold; recovery_timeout_secs := timeout; half_open_max_requests := half_open |}.

(** [godwit-core/src/lib.rs:345-350] [ModerationConfig::deserialize] *)
Definition moderation_of_yaml (v : yaml) : option ModerationConfig :=
  o ← y_map v; order ← may o "provider_order" (y_list y_text) default_moderation_provider_order; Some {| moderation_order := order |}.

(** [godwit-core/src/lib.rs:364-369] [RerankConfig::deserialize] *)
Definition rerank_of_yaml (v : yaml) : option RerankConfig :=
  o ← y_map v; order ← may o "provider_order" (y_list y_text) default_rerank_provider_order; Some {| rerank_order := order |}.

(** [godwit-core/src/lib.rs:383-394] [BatchConfig::deserialize] *)
Definition batch_of_yaml (v : yaml) : option BatchConfig :=
  o ← y_map v;
  concurrent ← may o "max_concurrent" (y_u 64) default_batch_max_concurrent;
  retries ← may o "max_retries" (y_u 64) default_batch_max_retries;
  url ← maybe o "webhook_url" y_text;
  Some {| max_concurrent := concurrent; max_retries := retries; webhook_url := url |}.

(** [godwit-core/src/lib.rs:414-425] [CacheConfig::deserialize] *)
Definition cache_of_yaml (v : yaml) : option CacheConfig :=
  o ← y_map v;
  enabled ← may o "enabled" y_bool default_cache_enabled;
  ttl ← may o "ttl_secs" (y_u 64) default_cache_ttl_secs;
  size ← may o "max_size" (y_u 64) default_cache_max_size;
  Some {| cache_enabled := enabled; ttl_secs := ttl; max_size := size |}.

(** [godwit-core/src/lib.rs:113-151] [AppConfig::deserialize] *)
Definition config_of_yaml (v : yaml) : option AppConfig :=
  o ← y_map v;
  server ← must o "server" server_of_yaml;
  database ← must o "database" database_of_yaml;
  auth ← must o "auth" auth_of_yaml;
  agentic ← may o "agentic" agentic_of_yaml default_agentic;
  compat ← maybe o "compat" compat_of_yaml;
  breaker ← maybe o "circuit_breaker" circuit_breaker_of_yaml;
  moderation ← may o "moderation" moderation_of_yaml default_moderation;
  rerank ← may o "rerank" rerank_of_yaml default_rerank;
  batch ← may o "batch" batch_of_yaml default_batch;
  cache ← may o "cache" cache_of_yaml default_cache;
  pii ← may o "pii" pii_of_yaml default_pii;
  pre ← maybe o "moderation_pre" y_bool;
  post ← maybe o "moderation_post" y_bool;
  block ← maybe o "block_on_moderation_failure" y_bool;
  Some {| cf_server := server; cf_database := database; cf_auth := auth; cf_agentic := agentic; cf_compat := compat;
          cf_circuit_breaker := breaker; cf_moderation := moderation; cf_rerank := rerank; cf_batch := batch; cf_cache := cache;
          cf_pii := pii; cf_moderation_pre := pre; cf_moderation_post := post; cf_block_on_moderation_failure := block |}.
End Sections.

(** ** Facts *)

Section Facts.
Context `{Yaml}.
Implicit Types (o : list (string * yaml)).

Lemma must_inv {A} o k (r : yaml -> option A) a : must o k r = Some a -> exists v, named k o = [v] /\ r v = Some a.
Proof. unfold must, y_field. destruct (named k o) as [|v [|]]; [done| |done]. by exists v. Qed.
Lemma may_inv {A} o k (r : yaml -> option A) d a :
  may o k r d = Some a -> (named k o = [] /\ a = d) \/ exists v, named k o = [v] /\ r v = Some a.
Proof. unfold may, y_field. destruct (named k o) as [|v [|]]; [intros [= ->]; by left| |done]. intros E. right. by exists v. Qed.
Lemma maybe_inv {A} o k (r : yaml -> option A) a :
  maybe o k r = Some a -> a = None \/ exists v x, named k o = [v] /\ r v = Some x /\ a = Some x.
Proof.
  unfold maybe, y_field, y_opt. destruct (named k o) as [|v [|]]; [intros [= <-]; by left| |done].
  destruct (y_null v); [intros [= <-]; by left|]. intros (x & E & ->)%fmap_Some. right. by exists v, x.
Qed.

Definition ok_u (w z : Z) : bool := (0 <=? z) && (z <? 2 ^ w).
Lemma y_u_ok w v z : y_u w v = Some z -> ok_u w z = true.
Proof. unfold y_u, ok_u. destruct (y_int v) as [x|]; simpl; [|done]. destruct (_ && _) eqn:E; intros; by simplify_eq. Qed.
Lemma y_i_ok w v z : y_i w v = Some z -> ok_i w z = true.
Proof. unfold y_i. destruct (y_int v) as [x|]; simpl; [|done]. destruct (ok_i w x) eqn:E; intros; by simplify_eq. Qed.

(** A property of what the reader gives, of a required, a defaulted and an optional field. *)
Lemma must_typed {A} (p : A -> bool) o k (r : yaml -> option A) a :
  must o k r = Some a -> (forall v x, r v = Some x -> p x = true) -> p a = true.
Proof. intros (v & _ & E)%must_inv Hp. by eapply Hp. Qed.
Lemma may_typed {A} (p : A -> bool) o k (r : yaml -> option A) d a :
  may o k r d = Some a -> (forall v x, r v = Some x -> p x = true) -> p d = true -> p a = true.
Proof. intros [[_ ->]|(v & _ & E)]%may_inv Hp Hd; [done|]. by eapply Hp. Qed.
Lemma maybe_typed {A} (p : A -> bool) o k (r : yaml -> option A) a :
  maybe o k r = Some a -> (forall v x, r v = Some x -> p x = true) -> from_option p true a = true.
Proof. intros [->|(v & x & _ & E & ->)]%maybe_inv Hp; [done|]. simpl. by eapply Hp. Qed.
End Facts.

(** The integers of a configuration, each in its type. *)
Definition typed_mail (m : MailConfig) : bool := ok_u 16 (ml_port m).
Definition typed_policy (p : PasswordPolicy) : bool := ok_u 32 (min_length p) && ok_u 32 (max_reuse p) && ok_u 64 (days_to_expire p).
Definition typed_auth (a : AuthConfig) : bool :=
  ok_i 64 (access_token_ttl_minutes a) && ok_i 64 (refresh_token_ttl_days a) && ok_i 64 (login_max_attempts_per_minute a)
  && from_option typed_mail true (mail a) && typed_policy (password_policy a).
Definition typed_server (s : ServerConfig) : bool := ok_u 16 (sv_port s) && ok_u 64 (request_timeout_seconds s).
Definition typed_agentic (a : AgenticConfig) : bool := ok_u 64 (ag_max_iterations a).
Definition typed_breaker (b : CircuitBreakerConfig) : bool :=
  ok_u 64 (cbc_threshold b) && ok_u 64 (recovery_timeout_secs b) && ok_u 64 (half_open_max_requests b).
Definition typed_batch (b : BatchConfig) : bool := ok_u 64 (max_concurrent b) && ok_u 64 (max_retries b).
Definition typed_cache (c : CacheConfig) : bool := ok_u 64 (ttl_secs c) && ok_u 64 (max_size c).
Definition typed_config (c : AppConfig) : bool :=
  typed_server (cf_server c) && typed_auth (cf_auth c) && typed_agentic (cf_agentic c)
  && from_option typed_breaker true (cf_circuit_breaker c) && typed_batch (cf_batch c) && typed_cache (cf_cache c).

Ltac typed_setting :=
  match goal with
  | |- true = true => reflexivity
  | H : must _ _ _ = Some ?a |- ?p ?a = true => apply (must_typed p _ _ _ a H); clear; intros
  | H : may _ _ _ _ = Some ?a |- ?p ?a = true => apply (may_typed p _ _ _ _ a H); [clear; intros|reflexivity]
  | H : maybe _ _ _ = Some ?a |- from_option ?p true ?a = true => apply (maybe_typed p _ _ _ a H); clear; intros
  | |- _ && _ = true => apply andb_true_intro; split
  end.
Ltac typed_section := let H := fresh in intros H; read_inv H; simpl; repeat typed_setting; eauto using y_u_ok, y_i_ok.

Section Typed.
Context `{Yaml}.
Lemma server_typed v s : server_of_yaml v = Some s -> typed_server s = true.
Proof. unfold server_of_yaml, typed_server. typed_section. Qed.
Lemma mail_typed v m : mail_of_yaml v = Some m -> typed_mail m = true.
Proof. unfold mail_of_yaml, typed_mail. typed_section. Qed.
Lemma policy_typed v m : policy_of_yaml v = Some m -> typed_policy m = true.
Proof. unfold policy_of_yaml, typed_policy. typed_section. Qed.
Lemma agentic_typed v m : agentic_of_yaml v = Some m -> typed_agentic m = true.
Proof. unfold agentic_of_yaml, typed_agentic. typed_section. Qed.
Lemma breaker_typed v m : circuit_breaker_of_yaml v = Some m -> typed_breaker m = true.
Proof. unfold circuit_breaker_of_yaml, typed_breaker. typed_section. Qed.
Lemma batch_typed v m : batch_of_yaml v = Some m -> typed_batch m = true.
Proof. unfold batch_of_yaml, typed_batch. typed_section. Qed.
Lemma cache_typed v m : cache_of_yaml v = Some m -> typed_cache m = true.
Proof. unfold cache_of_yaml, typed_cache. typed_section. Qed.
Lemma auth_typed v m : auth_of_yaml v = Some m -> typed_auth m = true.
Proof. unfold auth_of_yaml, typed_auth. typed_section; eauto using mail_typed, policy_typed. Qed.
End Typed.

(** The members of a section: none at all, or an empty mapping. *)
Definition bare `{Yaml} (k : string) (o : list (string * yaml)) : Prop :=
  named k o = [] \/ exists e, named k o = [e] /\ y_map e = Some [].
Lemma may_bare `{Yaml} {A} o k (r : yaml -> option A) d a :
  may o k r d = Some a -> bare k o -> (forall e, y_map e = Some [] -> r e = Some d) -> a = d.
Proof.
  intros [[_ ->]|(v & Hn & E)]%may_inv Hb Hr; [done|]. destruct Hb as [Hb|(e & Hb & He)]; [congruence|].
  assert (v = e) as -> by congruence. rewrite (Hr e He) in E. congruence.
Qed.
Ltac empty_section := let He := fresh in intros ? He; rewrite He; reflexivity.

Lemma may_missing `{Yaml} {A} o k (r : yaml -> option A) d a : may o k r d = Some a -> named k o = [] -> a = d.
Proof. intros [[_ ->]|(v & Hn & E)]%may_inv Hb; [done|congruence]. Qed.
Lemma policy_demands `{Yaml} e oe p :
  policy_of_yaml e = Some p -> y_map e = Some oe ->
  (named "require_upper" oe = [] -> require_upper p = false) /\
  (named "require_lower" oe = [] -> require_lower p = false) /\
  (named "require_digit" oe = [] -> require_digit p = false) /\
  (named "require_symbol" oe = [] -> require_symbol p = false) /\
  (named "min_length" oe = [] -> min_length p = min_length default_password_policy).
Proof.
  unfold policy_of_yaml. intros Hp He. rewrite He in Hp. simpl in Hp. read_inv Hp. split_and!; intros Hb; by eapply may_missing.
Qed.

(** C28: a configuration file says what its reader takes it to say.  Whatever file loads, every
    integer of it is in the range of its type; a section of the second half that is left out or
    empty is the default of that section; and a password policy that is left out is the strict
    default, while one that is there demands a class of characters only when it says so: a
    policy that only sets the length gives up the four demands of the default. *)
Theorem config_reads_as_documented `{Yaml} v c (Hc : config_of_yaml v = Some c) :
  typed_config c = true /\
  exists o, y_map v = Some o /\
    (bare "agentic" o -> cf_agentic c = default_agentic) /\
    (bare "moderation" o -> cf_moderation c = default_moderation) /\
    (bare "rerank" o -> cf_rerank c = default_rerank) /\
    (bare "batch" o -> cf_batch c = default_batch) /\
    (bare "cache" o -> cf_cache c = default_cache) /\
    (bare "pii" o -> cf_pii c = default_pii) /\
    exists a oa, named "auth" o = [a] /\ y_map a = Some oa /\
      let policy := password_policy (cf_auth c) in
      (named "password_policy" oa = [] -> policy = default_password_policy) /\
      forall e oe, named "password_policy" oa = [e] -> y_map e = Some oe ->
        (named "require_upper" oe = [] -> require_upper policy = false) /\
        (named "require_lower" oe = [] -> require_lower policy = false) /\
        (named "require_digit" oe = [] -> require_digit policy = false) /\
        (named "require_symbol" oe = [] -> require_symbol policy = false) /\
        (named "min_length" oe = [] -> min_length policy = min_length default_password_policy).
Proof.
  unfold config_of_yaml in Hc. read_inv Hc. unfold typed_config. simpl. split.
  { repeat typed_setting; eauto using server_typed, auth_typed, agentic_typed, breaker_typed, batch_typed, cache_typed. }
  eexists. split; [done|].
  split_and!; try (intros Hb; eapply may_bare; [done|done|]).
  1: unfold agentic_of_yaml; empty_section. 1: unfold moderation_of_yaml; empty_section. 1: unfold rerank_of_yaml; empty_section.
  1: unfold batch_of_yaml; empty_section. 1: unfold cache_of_yaml; empty_section. 1: unfold pii_of_yaml; empty_section.
  match goal with H : must _ "auth" _ = Some _ |- _ => apply must_inv in H as (a & Ha & H); unfold auth_of_yaml in H; read_inv H end.
  match goal with H : y_map a = Some ?oa |- _ => exists a, oa end. split_and!; [done|done|by intros ?; eapply may_missing|].
  intros e oe Hn He. match goal with H : may _ "password_policy" _ _ = Some ?p |- _ => apply may_inv in H as [[Hm _]|(e' & Hm & Hp)] end.
  - congruence.
  - assert (e' = e) as -> by congruence. by apply (policy_demands e).
Qed.

(** ** Witness: the file of the repository *)

Definition plain_yaml : Yaml :=
  {| yaml := value; y_text := as_str; y_bool := as_bool;
     y_int v := match v with VNumber (NInt z) => Some z | _ => None end; y_null v := match v with Null => true | _ => false end;
     y_seq v := match v with VArray l => Some l | _ => None end; y_map v := match v with VObject o => Some o | _ => None end |}.
#[local] Existing Instance plain_yaml.
(** [config.yaml], and what a policy may be added to it. *)
Definition shipped_config (policy : list (string * value)) : yaml :=
  VObject [("server", VObject [("host", VString "0.0.0.0"); ("port", num 3000); ("request_timeout_seconds", num 120)]);
           ("database", VObject [("url", VString "postgres://godwit:godwit@db:5432/godwit")]);
           ("auth", VObject ([("jwt_secret", VString "dev-secret-key-change-in-production-12345678");
                              ("access_token_ttl_minutes", num 15); ("refresh_token_ttl_days", num 7);
                              ("oidc_providers", VArray []); ("saml_providers", VArray [])] ++ policy)%list)].
Lemma config_reads_as_documented_witness :
  (exists c, config_of_yaml (shipped_config []) = Some c /\ cf_cache c = default_cache /\
     password_policy (cf_auth c) = default_password_policy) /\
  (exists c, config_of_yaml (shipped_config [("password_policy", VObject [("min_length", num 12)])]) = Some c /\
     min_length (password_policy (cf_auth c)) = 12 /\ require_symbol (password_policy (cf_auth c)) = false).
Proof.
  split.
  - destruct (config_of_yaml (shipped_config [])) as [c|] eqn:E; [|vm_compute in E; discriminate E].
    exists c. destruct (config_reads_as_documented _ c E) as (_ & o & Ho & _ & _ & _ & _ & Hca & _ & a & oa & Ha & Hoa & Hp & _).
    injection Ho as <-. vm_compute in Ha. injection Ha as <-. injection Hoa as <-.
    split; [reflexivity|]. split; [apply Hca; left; reflexivity|apply Hp; reflexivity].
  - destruct (config_of_yaml (shipped_config [("password_policy", VObject [("min_length", num 12)])])) as [c|] eqn:E;
      [|vm_compute in E; discriminate E].
    exists c. destruct (config_reads_as_documented _ c E) as (_ & o & Ho & _ & _ & _ & _ & _ & _ & a & oa & Ha & Hoa & _ & Hp).
    injection Ho as <-. vm_compute in Ha. injection Ha as <-. injection Hoa as <-.
    split; [reflexivity|]. split; [vm_compute in E; injection E as <-; reflexivity|].
    refine (proj1 (proj2 (proj2 (proj2 (Hp _ _ eq_refl eq_refl)))) _). reflexivity.
Defined.
