(* ===== verification/Streaming.v ===== *)
(** * Streaming

    The three stages of a streamed answer.  Chunks of the upstream response are parsed into
    events and translated to the proxy's canonical envelope ([godwit-providers/src/streaming.rs],
    [gemini_stream.rs], [stream_translators/]); the envelope is translated to the frames of
    OpenAI or Anthropic ([sse_egress.rs]); tool calls arriving in fragments are put together
    again ([godwit-api/src/proxy_streaming.rs]).

    A translator is its state and a function from an event to frames and the next state. *)

From stdpp Require Import base strings list pretty.
From Stdlib Require Import Ascii.
From S2P Require Import Prelude RustStr Utf8 Json Core Serde.

#[local] Open Scope string_scope.
#[local] Open Scope Z_scope.

(** [godwit-providers/src/adapter.rs:36-39] [SseEvent] *)
Record SseEvent : Type := { data : string }.

(** What a stream of events yields: [Result<SseEvent, ProviderError>]. *)
Abbreviation Event := (result ProviderError SseEvent) (only parsing).

(** A chunk of the response's body: its bytes, or the text of the error met while reading. *)
Abbreviation Chunk := (result string string) (only parsing).

(** ** Server-sent events *)

(** One line of [parse_sse_events].
    [godwit-providers/src/streaming.rs:6-17] [parse_sse_events] *)
Definition parse_sse_line (line : string) : option SseEvent :=
  let line := trim line in
  if is_empty line || String.eqb line ":" then None
  else
    match strip_prefix "data: " line with
    | Some data => if String.eqb data "[DONE]" then None else Some {| data := data |}
    | None => None
    end.

(** [godwit-providers/src/streaming.rs:3-20] [parse_sse_events] *)
Definition parse_sse_events (chunk : string) : list SseEvent := filter_map parse_sse_line (lines chunk).

Section Stages.
Context `{JsonText}.

(** [godwit-providers/src/streaming.rs:22-25] [build_sse_delta] *)
Definition build_sse_delta (delta : string) : string :=
  to_string (obj [("type", VString "delta"); ("delta", VString delta)]).

(** The sum of the counts wraps at 64 bits.
    [godwit-providers/src/streaming.rs:27-47] [build_sse_finish] *)
Definition build_sse_finish (prompt_tokens completion_tokens : Z) (finish_reason : option string) : string :=
  let v := obj [("type", VString "finish");
                ("usage", obj [("prompt_tokens", num prompt_tokens); ("completion_tokens", num completion_tokens);
                               ("total_tokens", num (as_i64 (prompt_tokens + completion_tokens)))])] in
  to_string (match finish_reason with
             | Some reason => default v (index_set "finish_reason" (VString reason) v)
             | None => v
             end).

(** [godwit-providers/src/streaming.rs:49-52] [build_sse_error] *)
Definition build_sse_error (message : string) : string :=
  to_string (obj [("type", VString "error"); ("message", VString message)]).

Definition ok_event (d : string) : Event := Ok {| data := d |}.

(** The events of one choice of an upstream chunk.
    [godwit-providers/src/streaming.rs:75-117] [normalize_openai_sse_event] *)
Definition normalize_choice (usage : option value) (choice : value) : list Event :=
  let delta := get "delta" choice in
  let text :=
    match (d ← delta; get "content" d) ≫= as_str with
    | Some content => if is_empty content then [] else [ok_event (build_sse_delta content)]
    | None => []
    end in
  let calls :=
    match (d ← delta; get "tool_calls" d) ≫= as_array with
    | Some tool_calls => (fun call => ok_event (build_sse_delta (to_string call))) <$> tool_calls
    | None => []
    end in
  let finish_reason := get "finish_reason" choice ≫= as_str in
  let count k := default 0 (u ← usage; get k u ≫= json_i64) in
  let finish :=
    match finish_reason with
    | Some _ => [ok_event (build_sse_finish (count "prompt_tokens") (count "completion_tokens") finish_reason)]
    | None => []
    end in
  (text ++ calls ++ finish)%list.

(** [godwit-providers/src/streaming.rs:65-121] [normalize_openai_sse_event] *)
Definition normalize_openai_sse_event (raw : SseEvent) : list Event :=
  match from_str (data raw) with
  | None => []
  | Some parsed =>
    match get "choices" parsed ≫= as_array with
    | Some choices => flat_map (normalize_choice (get "usage" parsed)) choices
    | None => []
    end
  end.

(** A chunk whose reading failed counts as empty.
    [godwit-providers/src/openai.rs:412-424] [OpenAiProvider::chat_stream] *)
Definition openai_event_stream (chunks : list Chunk) : list Event :=
  flat_map (fun bytes : Chunk =>
    let text := match bytes with Ok b => from_utf8_lossy b | Err _ => "" end in
    flat_map normalize_openai_sse_event (parse_sse_events text)) chunks.

(** ** Translators of whole chunks *)

(** [godwit-providers/src/stream_translators/openai.rs:7-40] [OpenAiDelta, OpenAiChoice, OpenAiUsage, OpenAiStreamChunk] *)
Record StreamDelta : Type := { sd_content : option string; sd_tool_calls : option (list value) }.
Record StreamChoice : Type := { sch_delta : option StreamDelta; sch_finish_reason : option string }.
Record StreamUsage : Type := { su_prompt_tokens : Z; su_completion_tokens : Z; su_total_tokens : Z }.
Record StreamChunk : Type := { sc_choices : list StreamChoice; sc_usage : option StreamUsage }.

(** [godwit-providers/src/stream_translators/openai.rs:7-13] [OpenAiDelta::deserialize] *)
Definition stream_delta_of_value (v : value) : option StreamDelta :=
  fs ← struct_fields ["content"; "tool_calls"] v;
  c ← opt_field_or fs "content" rd_string;
  t ← opt_field_or fs "tool_calls" (rd_list rd_value);
  Some {| sd_content := c; sd_tool_calls := t |}.
(** [godwit-providers/src/stream_translators/openai.rs:15-21] [OpenAiChoice::deserialize] *)
Definition stream_choice_of_value (v : value) : option StreamChoice :=
  fs ← struct_fields ["delta"; "finish_reason"] v;
  d ← opt_field_or fs "delta" stream_delta_of_value;
  f ← opt_field_or fs "finish_reason" rd_string;
  Some {| sch_delta := d; sch_finish_reason := f |}.
(** [godwit-providers/src/stream_translators/openai.rs:23-32] [OpenAiUsage::deserialize] *)
Definition stream_usage_of_value (v : value) : option StreamUsage :=
  fs ← struct_fields ["prompt_tokens"; "completion_tokens"; "total_tokens"] v;
  p ← field_or fs "prompt_tokens" (rd_i 64) 0;
  c ← field_or fs "completion_tokens" (rd_i 64) 0;
  t ← field_or fs "total_tokens" (rd_i 64) 0;
  Some {| su_prompt_tokens := p; su_completion_tokens := c; su_total_tokens := t |}.
(** [godwit-providers/src/stream_translators/openai.rs:34-40] [OpenAiStreamChunk::deserialize] *)
Definition stream_chunk_of_value (v : value) : option StreamChunk :=
  fs ← struct_fields ["choices"; "usage"] v;
  c ← field_or fs "choices" (rd_list stream_choice_of_value) [];
  u ← opt_field_or fs "usage" stream_usage_of_value;
  Some {| sc_choices := c; sc_usage := u |}.

(** The text of serde's error for a chunk that does not parse, and of reqwest's error. *)
Variable parse_failure : string -> string.

(** The state of every translator below.
    [godwit-providers/src/stream_translators/openai.rs:42-51] [OpenAiStreamTranslator::new] *)
Record Translator : Type := { finish_emitted : bool }.
Definition new_translator : Translator := {| finish_emitted := false |}.

(** [godwit-providers/src/stream_translators/openai.rs:73-88] [OpenAiStreamTranslator::translate_chunk] *)
Definition delta_events (choice : StreamChoice) : list Event :=
  match sch_delta choice with
  | None => []
  | Some delta =>
    (match sd_content delta with
     | Some content => if is_empty content then [] else [ok_event (build_sse_delta content)]
     | None => []
     end ++
     match sd_tool_calls delta with
     | Some calls => (fun call => ok_event (build_sse_delta (to_string call))) <$> calls
     | None => []
     end)%list
  end.

(** [godwit-providers/src/stream_translators/openai.rs:90-107] [OpenAiStreamTranslator::translate_chunk] *)
Definition finish_events (usage : option (Z * Z)) (reason : option string) (self : Translator)
  : list Event * Translator :=
  match reason with
  | Some r =>
    if negb (is_empty r) && negb (finish_emitted self) then
      let '(p, c) := default (0, 0) usage in
      ([ok_event (build_sse_finish p c (Some r))], {| finish_emitted := true |})
    else ([], self)
  | None => ([], self)
  end.

(** [godwit-providers/src/stream_translators/openai.rs:72-108] [OpenAiStreamTranslator::translate_chunk] *)
Fixpoint choices_events (usage : option (Z * Z)) (choices : list StreamChoice) (self : Translator)
  : list Event * Translator :=
  match choices with
  | [] => ([], self)
  | choice :: choices =>
    let '(f, self) := finish_events usage (sch_finish_reason choice) self in
    let '(rest, self) := choices_events usage choices self in
    ((delta_events choice ++ f ++ rest)%list, self)
  end.

(** [label] is the engine's name in the message.
    [godwit-providers/src/stream_translators/openai.rs:53-111] [OpenAiStreamTranslator::translate_chunk] *)
Definition translate_chunk (label chunk : string) (self : Translator) : list Event * Translator :=
  if is_empty (trim chunk) || String.eqb (trim chunk) "[DONE]" then ([], self)
  else
    match from_str chunk ≫= stream_chunk_of_value with
    | None => ([ok_event (build_sse_error ("failed to parse " +:+ label +:+ " chunk: " +:+ parse_failure chunk))], self)
    | Some parsed =>
      choices_events ((fun u => (su_prompt_tokens u, su_completion_tokens u)) <$> sc_usage parsed)
        (sc_choices parsed) self
    end.

(** Run a translator over the chunks of a response.
    [godwit-providers/src/stream_translators/openai.rs:113-134] [OpenAiStreamTranslator::into_stream] *)
Fixpoint into_stream {T} (step : string -> T -> list Event * T) (chunks : list Chunk) (self : T) : list Event :=
  match chunks with
  | [] => []
  | Ok bytes :: chunks =>
    let '(events, self) := step (from_utf8_lossy bytes) self in (events ++ into_stream step chunks self)%list
  | Err e :: chunks =>
    ok_event (build_sse_error ("utf8 decode error: " +:+ e)) :: into_stream step chunks self
  end.

(** [godwit-providers/src/stream_translators/openai.rs:46-134] [OpenAiStreamTranslator] *)
Definition openai_into_stream (chunks : list Chunk) : list Event :=
  into_stream (translate_chunk "openai") chunks new_translator.
(** [godwit-providers/src/stream_translators/azure.rs:7-135] [AzureOpenAiStreamTranslator] *)
Definition azure_into_stream (chunks : list Chunk) : list Event :=
  into_stream (translate_chunk "azure") chunks new_translator.
(** [godwit-providers/src/stream_translators/vllm.rs:7-135] [VllmStreamTranslator] *)
Definition vllm_into_stream (chunks : list Chunk) : list Event :=
  into_stream (translate_chunk "vllm") chunks new_translator.
(** [godwit-providers/src/stream_translators/sglang.rs:7-135] [SglangStreamTranslator] *)
Definition sglang_into_stream (chunks : list Chunk) : list Event :=
  into_stream (translate_chunk "sglang") chunks new_translator.

(** [godwit-providers/src/stream_translators/llama_cpp.rs:7-23] [LlamaCppStreamChunk, LlamaCppUsage] *)
Record LlamaCppChunk : Type := { lc_content : option string; lc_stop : option bool; lc_usage : option (Z * Z) }.
(** [godwit-providers/src/stream_translators/llama_cpp.rs:17-23] [LlamaCppUsage::deserialize] *)
Definition llama_cpp_usage_of_value (v : value) : option (Z * Z) :=
  fs ← struct_fields ["prompt_tokens"; "completion_tokens"] v;
  p ← field_or fs "prompt_tokens" (rd_i 64) 0;
  c ← field_or fs "completion_tokens" (rd_i 64) 0;
  Some (p, c).
(** [godwit-providers/src/stream_translators/llama_cpp.rs:7-15] [LlamaCppStreamChunk::deserialize] *)
Definition llama_cpp_chunk_of_value (v : value) : option LlamaCppChunk :=
  fs ← struct_fields ["content"; "stop"; "usage"] v;
  c ← opt_field_or fs "content" rd_string;
  s ← opt_field_or fs "stop" rd_bool;
  u ← opt_field_or fs "usage" llama_cpp_usage_of_value;
  Some {| lc_content := c; lc_stop := s; lc_usage := u |}.

(** A text and, with the flag that ends the stream, one finish event.
    [godwit-providers/src/stream_translators/llama_cpp.rs:53-80] [LlamaCppStreamTranslator::translate_chunk] *)
Definition text_and_stop (content : option string) (stop : option bool) (usage : Z * Z) (self : Translator)
  : list Event * Translator :=
  let text := match content with
              | Some c => if is_empty c then [] else [ok_event (build_sse_delta c)]
              | None => []
              end in
  if bool_decide (stop = Some true) && negb (finish_emitted self)
  then ((text ++ [ok_event (build_sse_finish usage.1 usage.2 (Some "stop"))])%list, {| finish_emitted := true |})
  else (text, self).

(** [godwit-providers/src/stream_translators/llama_cpp.rs:36-81] [LlamaCppStreamTranslator::translate_chunk] *)
Definition llama_cpp_translate_chunk (chunk : string) (self : Translator) : list Event * Translator :=
  if is_empty (trim chunk) || String.eqb (trim chunk) "[DONE]" then ([], self)
  else
    match from_str chunk ≫= llama_cpp_chunk_of_value with
    | None => ([ok_event (build_sse_error ("failed to parse llama.cpp chunk: " +:+ parse_failure chunk))], self)
    | Some parsed => text_and_stop (lc_content parsed) (lc_stop parsed) (default (0, 0) (lc_usage parsed)) self
    end.
(** [godwit-providers/src/stream_translators/llama_cpp.rs:83-104] [LlamaCppStreamTranslator::into_stream] *)
Definition llama_cpp_into_stream (chunks : list Chunk) : list Event :=
  into_stream llama_cpp_translate_chunk chunks new_translator.

(** The fields the translator reads; the others are only checked for their type.
    [godwit-providers/src/stream_translators/ollama.rs:7-35] [OllamaMessage, OllamaStreamChunk] *)
Record OllamaChunk : Type := {
  ol_content : option string; ol_done : option bool; ol_prompt_eval_count : option Z; ol_eval_count : option Z }.
(** [godwit-providers/src/stream_translators/ollama.rs:7-14] [OllamaMessage::deserialize] *)
Definition ollama_message_of_value (v : value) : option (option string) :=
  fs ← struct_fields ["role"; "content"] v;
  _ ← opt_field_or fs "role" rd_string;
  opt_field_or fs "content" rd_string.
(** [godwit-providers/src/stream_translators/ollama.rs:16-35] [OllamaStreamChunk::deserialize] *)
Definition ollama_chunk_of_value (v : value) : option OllamaChunk :=
  fs ← struct_fields ["model"; "created_at"; "message"; "done"; "total_duration"; "load_duration";
                      "prompt_eval_count"; "eval_count"] v;
  _ ← opt_field_or fs "model" rd_string;
  _ ← opt_field_or fs "created_at" rd_string;
  m ← opt_field_or fs "message" ollama_message_of_value;
  d ← opt_field_or fs "done" rd_bool;
  _ ← opt_field_or fs "total_duration" (rd_i 64);
  _ ← opt_field_or fs "load_duration" (rd_i 64);
  p ← opt_field_or fs "prompt_eval_count" (rd_i 64);
  e ← opt_field_or fs "eval_count" (rd_i 64);
  Some {| ol_content := default None m; ol_done := d; ol_prompt_eval_count := p; ol_eval_count := e |}.
(** [godwit-providers/src/stream_translators/ollama.rs:48-92] [OllamaStreamTranslator::translate_chunk] *)
Definition ollama_translate_chunk (chunk : string) (self : Translator) : list Event * Translator :=
  if is_empty (trim chunk) || String.eqb (trim chunk) "[DONE]" then ([], self)
  else
    match from_str chunk ≫= ollama_chunk_of_value with
    | None => ([ok_event (build_sse_error ("failed to parse ollama chunk: " +:+ parse_failure chunk))], self)
    | Some parsed =>
      text_and_stop (ol_content parsed) (ol_done parsed)
        (default 0 (ol_prompt_eval_count parsed), default 0 (ol_eval_count parsed)) self
    end.
(** [godwit-providers/src/stream_translators/ollama.rs:94-115] [OllamaStreamTranslator::into_stream] *)
Definition ollama_into_stream (chunks : list Chunk) : list Event :=
  into_stream ollama_translate_chunk chunks new_translator.

(** A Gemini chunk: for each candidate its texts and finish reason.
    [godwit-providers/src/gemini_stream.rs:7-26] [GeminiPartResponse, GeminiContentResponse, GeminiCandidate] *)
Record GeminiCandidate : Type := { gc_texts : list (option string); gc_finish_reason : option string }.
(** [godwit-providers/src/gemini_stream.rs:28-48] [GeminiUsageMetadata, GeminiStreamChunk] *)
Record GeminiStreamChunk : Type := { gs_candidates : list GeminiCandidate; gs_usage : option (Z * Z) }.

(** [godwit-providers/src/gemini_stream.rs:7-11] [GeminiPartResponse::deserialize] *)
Definition gemini_part_of_value (v : value) : option (option string) :=
  fs ← struct_fields ["text"] v;
  opt_field fs "text" rd_string.
(** [godwit-providers/src/gemini_stream.rs:13-18] [GeminiContentResponse::deserialize] *)
Definition gemini_content_of_value (v : value) : option (list (option string)) :=
  fs ← struct_fields ["parts"] v;
  field_or fs "parts" (rd_list gemini_part_of_value) [].
(** [godwit-providers/src/gemini_stream.rs:20-26] [GeminiCandidate::deserialize] *)
Definition gemini_candidate_of_value (v : value) : option GeminiCandidate :=
  fs ← struct_fields ["content"; "finishReason"] v;
  c ← field fs "content" gemini_content_of_value;
  f ← opt_field_or fs "finishReason" rd_string;
  Some {| gc_texts := c; gc_finish_reason := f |}.
(** [godwit-providers/src/gemini_stream.rs:28-40] [GeminiUsageMetadata::deserialize] *)
Definition gemini_stream_usage_of_value (v : value) : option (Z * Z) :=
  fs ← struct_fields ["promptTokenCount"; "candidatesTokenCount"; "totalTokenCount"; "cachedContentTokenCount"] v;
  p ← field_or fs "promptTokenCount" (rd_i 64) 0;
  c ← field_or fs "candidatesTokenCount" (rd_i 64) 0;
  _ ← field_or fs "totalTokenCount" (rd_i 64) 0;
  _ ← opt_field_or fs "cachedContentTokenCount" (rd_i 64);
  Some (p, c).
(** [godwit-providers/src/gemini_stream.rs:42-48] [GeminiStreamChunk::deserialize] *)
Definition gemini_stream_chunk_of_value (v : value) : option GeminiStreamChunk :=
  fs ← struct_fields ["candidates"; "usageMetadata"] v;
  c ← field fs "candidates" (rd_list gemini_candidate_of_value);
  u ← opt_field_or fs "usageMetadata" gemini_stream_usage_of_value;
  Some {| gs_candidates := c; gs_usage := u |}.

(** [godwit-providers/src/gemini_stream.rs:50-61] [GeminiStreamTranslator::new] *)
Record GeminiTranslator : Type := { accumulated_content : string; gt_finish : Translator }.
Definition new_gemini_translator : GeminiTranslator :=
  {| accumulated_content := ""; gt_finish := new_translator |}.

(** [godwit-providers/src/gemini_stream.rs:82-112] [GeminiStreamTranslator::translate_chunk] *)
Fixpoint gemini_candidates (usage : option (Z * Z)) (candidates : list GeminiCandidate) (self : GeminiTranslator)
  : list Event * GeminiTranslator :=
  match candidates with
  | [] => ([], self)
  | c :: candidates =>
    let texts := filter_map (fun t => t ← t; if is_empty t then None else Some t) (gc_texts c) in
    let '(f, fin) := finish_events usage (gc_finish_reason c) (gt_finish self) in
    let self := {| accumulated_content := accumulated_content self +:+ str_join "" texts; gt_finish := fin |} in
    let '(rest, self) := gemini_candidates usage candidates self in
    (((fun t => ok_event (build_sse_delta t)) <$> texts) ++ f ++ rest, self)%list
  end.

(** [godwit-providers/src/gemini_stream.rs:63-119] [GeminiStreamTranslator::translate_chunk] *)
Definition gemini_translate_chunk (chunk : string) (self : GeminiTranslator) : list Event * GeminiTranslator :=
  if is_empty (trim chunk) then ([], self)
  else
    match from_str chunk ≫= gemini_stream_chunk_of_value with
    | None => ([ok_event (build_sse_error ("failed to parse gemini chunk: " +:+ parse_failure chunk))], self)
    | Some parsed => gemini_candidates (gs_usage parsed) (gs_candidates parsed) self
    end.
(** [godwit-providers/src/gemini_stream.rs:121-142] [GeminiStreamTranslator::into_stream] *)
Definition gemini_into_stream (chunks : list Chunk) : list Event :=
  into_stream gemini_translate_chunk chunks new_gemini_translator.

(** ** The canonical envelope *)

(** [godwit-providers/src/sse_egress.rs:32-49] [CanonicalEvent] *)
Inductive CanonicalEvent : Type :=
| Delta (text : string)
| ToolCallDelta (packed : string)
| Finish (prompt_tokens completion_tokens : Z) (finish_reason : option string)
| StreamError (message : string)
| Unknown.

(** [godwit-providers/src/sse_egress.rs:51-105] [parse_canonical_event] *)
Definition parse_canonical_event (d : string) : CanonicalEvent :=
  match from_str d with
  | None => Unknown
  | Some parsed =>
    match get "type" parsed ≫= as_str with
    | Some t =>
      if String.eqb t "delta" then
        let delta := default "" (get "delta" parsed ≫= as_str) in
        if starts_with "{" delta then ToolCallDelta delta else Delta delta
      else if String.eqb t "finish" then
        let usage := get "usage" parsed in
        let count k := as_i32 (default 0 (u ← usage; get k u ≫= json_i64)) in
        Finish (count "prompt_tokens") (count "completion_tokens") (get "finish_reason" parsed ≫= as_str)
      else if String.eqb t "error" then StreamError (default "" (get "message" parsed ≫= as_str))
      else Unknown
    | None => Unknown
    end
  end.

(** ** Egress *)

(** [godwit-providers/src/sse_egress.rs:11-18] [ServerSentFrame] *)
Inductive ServerSentFrame : Type :=
| FData (payload : string)
| FEvent (name payload : string).

(** [godwit-providers/src/sse_egress.rs:20-30] [ServerSentFrame::render] *)
Definition render (f : ServerSentFrame) : string :=
  match f with
  | FData d => "data: " +:+ d
  | FEvent name d => "event: " +:+ name +:+ String LF ("data: " +:+ d)
  end.

(** [godwit-providers/src/sse_egress.rs:107-122] [canonical_to_openai_finish] *)
Definition canonical_to_openai_finish (reason : option string) : string :=
  match to_ascii_lowercase <$> reason with
  | Some r =>
    if String.eqb r "end_turn" then "stop"
    else if String.eqb r "max_tokens" then "length"
    else if String.eqb r "tool_use" then "tool_calls"
    else if String.eqb r "stop" then "stop"
    else if String.eqb r "length" then "length"
    else if String.eqb r "tool_calls" then "tool_calls"
    else if String.eqb r "content_filter" then "content_filter"
    else "stop"
  | None => "stop"
  end.

(** [godwit-providers/src/sse_egress.rs:124-139] [canonical_to_anthropic_stop] *)
Definition canonical_to_anthropic_stop (reason : option string) : string :=
  match to_ascii_lowercase <$> reason with
  | Some r =>
    if String.eqb r "stop" then "end_turn"
    else if String.eqb r "length" then "max_tokens"
    else if String.eqb r "tool_calls" then "tool_use"
    else if String.eqb r "end_turn" then "end_turn"
    else if String.eqb r "max_tokens" then "max_tokens"
    else if String.eqb r "tool_use" then "tool_use"
    else if String.eqb r "content_filter" then "end_turn"
    else "end_turn"
  | None => "end_turn"
  end.

(** [v["k"] = x] where [v] is known to be an object. *)
Definition set_index (k : string) (x v : value) : value := default v (index_set k x v).

(** [godwit-providers/src/sse_egress.rs:153-155] [openai_choice_common] *)
Definition openai_choice_common : value := obj [("index", num 0); ("finish_reason", Null)].

(** [godwit-providers/src/sse_egress.rs:157-179] [OpenAiStreamTranslator::new] *)
Record OpenAiEgress : Type := {
  oe_id : string; oe_model : string; oe_created : Z; oe_started : bool; oe_finished : bool }.
Definition new_openai_egress (id model : string) (created : Z) : OpenAiEgress :=
  {| oe_id := id; oe_model := model; oe_created := created; oe_started := false; oe_finished := false |}.

(** [godwit-providers/src/sse_egress.rs:141-151] [openai_chunk] *)
Definition openai_chunk (self : OpenAiEgress) (choices : list value) : ServerSentFrame :=
  FData (to_string (obj [("id", VString (oe_id self)); ("object", VString "chat.completion.chunk");
                         ("created", num (oe_created self)); ("model", VString (oe_model self));
                         ("choices", VArray choices)])).

(** [godwit-providers/src/sse_egress.rs:235-296] [OpenAiStreamTranslator::tool_call_chunks] *)
Definition tool_call_chunks (self : OpenAiEgress) (packed : string) : list ServerSentFrame :=
  match from_str packed with
  | None => []
  | Some parsed =>
    let index := default 0 (get "index" parsed ≫= json_i64) in
    let id := default "" (get "id" parsed ≫= as_str) in
    let name := default "" (f ← get "function" parsed; get "name" f ≫= as_str) in
    let args := default "" (f ← get "function" parsed; get "arguments" f ≫= as_str) in
    let with_id call := if is_empty id then call else set_index "id" (VString id) call in
    let chunk call :=
      openai_chunk self [set_index "delta" (obj [("tool_calls", VArray [with_id call])]) openai_choice_common] in
    ((if negb (is_empty id) || negb (is_empty name)
      then [chunk (obj [("index", num index); ("type", VString "function");
                        ("function", obj [("name", VString name); ("arguments", VString "")])])]
      else []) ++
     (if negb (is_empty args)
      then [chunk (obj [("index", num index); ("type", VString "function");
                        ("function", obj [("arguments", VString args)])])]
      else []))%list
  end.

(** The frames of one event, after the role chunk.
    [godwit-providers/src/sse_egress.rs:199-230] [OpenAiStreamTranslator::push] *)
Definition openai_frames (self : OpenAiEgress) (e : CanonicalEvent) : list ServerSentFrame :=
  match e with
  | Delta text => [openai_chunk self [set_index "delta" (obj [("content", VString text)]) openai_choice_common]]
  | ToolCallDelta packed => tool_call_chunks self packed
  | Finish _ _ reason =>
    let choice := set_index "finish_reason" (VString (canonical_to_openai_finish reason)) openai_choice_common in
    [openai_chunk self [set_index "delta" (obj []) choice]]
  | StreamError message =>
    [FData (to_string (obj [("error", obj [("message", VString message); ("type", VString "server_error");
                                           ("param", Null); ("code", Null)])]))]
  | Unknown => []
  end.

Definition ends_stream (e : CanonicalEvent) : bool :=
  match e with Finish _ _ _ | StreamError _ => true | _ => false end.

(** [godwit-providers/src/sse_egress.rs:191-197] [OpenAiStreamTranslator::push] *)
Definition role_chunk (self : OpenAiEgress) : ServerSentFrame :=
  openai_chunk self [set_index "delta" (obj [("role", VString "assistant"); ("content", VString "")]) openai_choice_common].

(** [godwit-providers/src/sse_egress.rs:181-233] [OpenAiStreamTranslator::push] *)
Definition openai_push (self : OpenAiEgress) (event : SseEvent) : list ServerSentFrame * OpenAiEgress :=
  if oe_finished self then ([], self)
  else
    let start := if oe_started self then [] else [role_chunk self] in
    let e := parse_canonical_event (data event) in
    ((start ++ openai_frames self e)%list,
     {| oe_id := oe_id self; oe_model := oe_model self; oe_created := oe_created self;
        oe_started := true; oe_finished := ends_stream e |}).

(** [godwit-providers/src/sse_egress.rs:299-319] [AnthropicStreamTranslator::new] *)
Record AnthropicEgress : Type := { ae_id : string; ae_model : string; ae_started : bool; ae_finished : bool }.
Definition new_anthropic_egress (id model : string) : AnthropicEgress :=
  {| ae_id := id; ae_model := model; ae_started := false; ae_finished := false |}.

(** [godwit-providers/src/sse_egress.rs:425-438] [extract_partial_json] *)
Definition extract_partial_json (packed : string) : option string :=
  parsed ← from_str packed;
  args ← (f ← get "function" parsed; get "arguments" f ≫= as_str);
  if is_empty args then None else Some args.

Definition json_event (name : string) (v : value) : ServerSentFrame := FEvent name (to_string v).

(** [godwit-providers/src/sse_egress.rs:328-357] [AnthropicStreamTranslator::push] *)
Definition message_start (self : AnthropicEgress) : list ServerSentFrame :=
  [json_event "message_start"
     (obj [("type", VString "message_start");
           ("message", obj [("id", VString (ae_id self)); ("type", VString "message"); ("role", VString "assistant");
                            ("model", VString (ae_model self)); ("content", VArray []); ("stop_reason", Null);
                            ("stop_sequence", Null); ("usage", obj [("input_tokens", num 0); ("output_tokens", num 0)])])]);
   json_event "content_block_start"
     (obj [("type", VString "content_block_start"); ("index", num 0);
           ("content_block", obj [("type", VString "text"); ("text", VString "")])])].

(** [godwit-providers/src/sse_egress.rs:359-412] [AnthropicStreamTranslator::push] *)
Definition anthropic_frames (e : CanonicalEvent) : list ServerSentFrame :=
  let block_delta d :=
    [json_event "content_block_delta" (obj [("type", VString "content_block_delta"); ("index", num 0); ("delta", d)])] in
  match e with
  | Delta text => block_delta (obj [("type", VString "text_delta"); ("text", VString text)])
  | ToolCallDelta packed =>
    match extract_partial_json packed with
    | Some partial => block_delta (obj [("type", VString "input_json_delta"); ("partial_json", VString partial)])
    | None => []
    end
  | Finish _ completion_tokens reason =>
    [json_event "message_delta"
       (obj [("type", VString "message_delta");
             ("delta", obj [("stop_reason", VString (canonical_to_anthropic_stop reason)); ("stop_sequence", Null)]);
             ("usage", obj [("output_tokens", num completion_tokens)])])]
  | StreamError message =>
    [FData (to_string (obj [("type", VString "error");
                            ("error", obj [("type", VString "api_error"); ("message", VString message)])]))]
  | Unknown => []
  end.

Definition message_stop : ServerSentFrame := json_event "message_stop" (obj [("type", VString "message_stop")]).

(** [godwit-providers/src/sse_egress.rs:321-422] [AnthropicStreamTranslator::push] *)
Definition anthropic_push (self : AnthropicEgress) (event : SseEvent) : list ServerSentFrame * AnthropicEgress :=
  if ae_finished self then ([], self)
  else
    let start := if ae_started self then [] else message_start self in
    let e := parse_canonical_event (data event) in
    ((start ++ anthropic_frames e ++ (if ends_stream e then [message_stop] else []))%list,
     {| ae_id := ae_id self; ae_model := ae_model self; ae_started := true; ae_finished := ends_stream e |}).

(** All the frames of a stream. *)
Fixpoint run_push {T} (push : T -> SseEvent -> list ServerSentFrame * T) (self : T) (events : list SseEvent)
  : list ServerSentFrame :=
  match events with
  | [] => []
  | e :: events => let '(frames, self) := push self e in (frames ++ run_push push self events)%list
  end.

(** ** What the client is sent

    The payloads handed to axum's [Event::data], which writes the [data:] field name of its
    own in front of them. *)

Definition upstream_error (fields : list (string * value)) : string :=
  to_string (obj [("error", obj ([("message", VString "upstream provider stream error")] ++ fields)%list)]).

(** The OpenAI endpoint, on the OpenAI wire and on the canonical one.
    [godwit-api/src/proxy.rs:289-335] [call_chat] *)
Fixpoint openai_wire (self : OpenAiEgress) (events : list Event) : list string :=
  match events with
  | [] => []
  | Ok e :: events => let '(frames, self) := openai_push self e in ((render <$> frames) ++ openai_wire self events)%list
  | Err _ :: events =>
    upstream_error [("type", VString "server_error"); ("param", Null); ("code", Null)] :: openai_wire self events
  end.
(** [godwit-api/src/proxy.rs:314-329] [call_chat] *)
Definition canonical_wire (events : list Event) : list string :=
  (fun e : Event => match e with Ok e => data e | Err _ => upstream_error [("type", VString "server_error")] end) <$> events.
(** [godwit-api/src/anthropic_proxy.rs:497-521] [attempt_anthropic_stream] *)
Fixpoint anthropic_wire (self : AnthropicEgress) (events : list Event) : list string :=
  match events with
  | [] => []
  | Ok e :: events =>
    let '(frames, self) := anthropic_push self e in ((render <$> frames) ++ anthropic_wire self events)%list
  | Err _ :: events =>
    to_string (obj [("error", obj [("type", VString "error"); ("message", VString "upstream provider stream error")])])
    :: anthropic_wire self events
  end.

(** ** Tool calls in fragments *)

(** The completed call is a [ToolCall] of type [function].
    [godwit-api/src/proxy_streaming.rs:13-32] [CompleteToolCall, ToolCallBuffer, CurrentToolState] *)
Record CurrentTool : Type := { cur_index : Z; cur_id : string; cur_name : string; cur_arguments : string }.
Record ToolCallBuffer : Type := { current_tool : option CurrentTool; accumulated_tools : list ToolCall }.
(** [godwit-api/src/proxy_streaming.rs:34-37] [ToolCallBuffer::new] *)
Definition new_buffer : ToolCallBuffer := {| current_tool := None; accumulated_tools := [] |}.

Definition complete (s : CurrentTool) : ToolCall :=
  {| tc_id := cur_id s; tc_type := "function"; tc_name := cur_name s; tc_arguments := cur_arguments s |}.

(** [godwit-api/src/proxy_streaming.rs:45-65] [ToolCallBuffer::push_delta] *)
Definition fragment (parsed : value) : CurrentTool :=
  {| cur_index := default 0 (get "index" parsed ≫= json_u64);
     cur_id := default "" (get "id" parsed ≫= as_str);
     cur_name := default "" (f ← get "function" parsed; get "name" f ≫= as_str);
     cur_arguments := default "" (f ← get "function" parsed; get "arguments" f ≫= as_str) |}.

(** [godwit-api/src/proxy_streaming.rs:69-75] [ToolCallBuffer::push_delta] *)
Definition extend (s f : CurrentTool) : CurrentTool :=
  {| cur_index := cur_index s;
     cur_id := if is_empty (cur_id f) then cur_id s else cur_id f;
     cur_name := if is_empty (cur_name f) then cur_name s else cur_name f;
     cur_arguments := cur_arguments s +:+ cur_arguments f |}.

(** [godwit-api/src/proxy_streaming.rs:67-100] [ToolCallBuffer::push_delta] *)
Definition push_fragment (self : ToolCallBuffer) (f : CurrentTool) : ToolCallBuffer :=
  match current_tool self with
  | Some s =>
    if cur_index s =? cur_index f
    then {| current_tool := Some (extend s f); accumulated_tools := accumulated_tools self |}
    else {| current_tool := Some f; accumulated_tools := (accumulated_tools self ++ [complete s])%list |}
  | None => {| current_tool := Some f; accumulated_tools := accumulated_tools self |}
  end.

(** [godwit-api/src/proxy_streaming.rs:39-101] [ToolCallBuffer::push_delta] *)
Definition push_delta (self : ToolCallBuffer) (delta : string) : ToolCallBuffer :=
  match from_str delta with
  | None => self
  | Some parsed => push_fragment self (fragment parsed)
  end.

(** [godwit-api/src/proxy_streaming.rs:103-112] [ToolCallBuffer::finish_current_tool] *)
Definition finish_current_tool (self : ToolCallBuffer) : option ToolCall * ToolCallBuffer :=
  (complete <$> current_tool self, {| current_tool := None; accumulated_tools := accumulated_tools self |}).

(** [godwit-api/src/proxy_streaming.rs:114-119] [ToolCallBuffer::has_complete_tool] *)
Definition has_complete_tool (self : ToolCallBuffer) : bool :=
  match current_tool self with
  | Some s => negb (is_empty (cur_arguments s)) && negb (is_empty (cur_name s))
  | None => false
  end.

(** [godwit-api/src/proxy_streaming.rs:121-127] [ToolCallBuffer::finish_all] *)
Definition finish_all (self : ToolCallBuffer) : list ToolCall * ToolCallBuffer :=
  let '(last, self') := finish_current_tool {| current_tool := current_tool self; accumulated_tools := [] |} in
  ((accumulated_tools self ++ match last with Some c => [c] | None => [] end)%list, self').
End Stages.

(** ** Lines *)

Lemma split_char_app c a b : split_char c (a +:+ String c b) = (split_char c a ++ split_char c b)%list.
Proof.
  induction a as [|d a IH]; simpl.
  - by rewrite Ascii.eqb_refl.
  - destruct (Ascii.eqb c d); [by rewrite IH|]. rewrite IH.
    destruct (split_char c a) eqn:E; [by apply split_char_nonempty in E|done].
Qed.

Lemma parse_empty_line : parse_sse_line "" = None.
Proof. done. Qed.

(** An empty piece gives no event, so the one [lines] drops makes no difference. *)
Lemma parse_sse_pieces s :
  parse_sse_events s = filter_map (fun l => parse_sse_line (strip_cr l)) (split_char LF s).
Proof.
  unfold parse_sse_events, lines.
  assert (forall l, filter_map parse_sse_line (strip_cr <$> l) = filter_map (fun l => parse_sse_line (strip_cr l)) l) as Hf.
  { induction l as [|x l IH]; csimpl; [done|]. by rewrite IH. }
  rewrite Hf. destruct (rev (split_char LF s)) as [|[|c x] r] eqn:E; [done| |done].
  apply (f_equal (@rev string)) in E. rewrite rev_involutive in E. rewrite E. simpl.
  by rewrite filter_map_app, app_nil_r.
Qed.

Definition ends_lf (s : string) : bool := match str_rev s with String c _ => Ascii.eqb c LF | EmptyString => true end.

Lemma parse_sse_app a b :
  parse_sse_events (a +:+ String LF b) = (parse_sse_events a ++ parse_sse_events b)%list.
Proof. by rewrite !parse_sse_pieces, split_char_app, filter_map_app. Qed.

(** Visible ASCII characters: no white space, no line end. *)
Definition visible (c : ascii) : bool := in_range 33 126 c.
Fixpoint all_visible (s : string) : bool :=
  match s with EmptyString => true | String c s' => visible c && all_visible s' end.

Definition heads_differ (c : ascii) (ps : list string) : bool :=
  forallb (fun p => match p with String a _ => negb (Ascii.eqb a c) | EmptyString => false end) ps.

Lemma heads_differ_None c s ps : heads_differ c ps = true -> find_map (fun p => strip_prefix p (String c s)) ps = None.
Proof.
  induction ps as [|[|a p] ps IH]; simpl; [done..|]. intros [Ha Hp]%andb_prop.
  apply negb_true_iff in Ha. rewrite Ha. auto.
Qed.

Lemma visible_table c : visible c = true ->
  heads_differ c white_space && heads_differ c (str_rev <$> white_space) &&
  negb (Ascii.eqb LF c) && negb (Ascii.eqb c CR) = true.
Proof. destruct c as [[] [] [] [] [] [] [] []]; vm_compute; auto. Qed.

Lemma visible_not_space c s : visible c = true ->
  find_map (fun p => strip_prefix p (String c s)) white_space = None /\
  find_map (fun p => strip_prefix p (String c s)) (str_rev <$> white_space) = None /\
  Ascii.eqb LF c = false /\ Ascii.eqb c CR = false.
Proof.
  intros H%visible_table. apply andb_prop in H as [H ?]. apply andb_prop in H as [H ?]. apply andb_prop in H as [H ?].
  repeat split; by (apply heads_differ_None || apply negb_true_iff).
Qed.

Lemma all_visible_app a b : all_visible (a +:+ b) = all_visible a && all_visible b.
Proof. induction a as [|c a IH]; simpl; [done|]. by rewrite IH, andb_assoc. Qed.

#[local] Opaque white_space LF CR.

Lemma strip_front c s n : visible c = true -> strip_any n white_space (String c s) = String c s.
Proof. intros H. destruct n; simpl; [done|]. by destruct (visible_not_space c s H) as (-> & _). Qed.

Lemma strip_back c s n : visible c = true -> strip_any n (str_rev <$> white_space) (String c s) = String c s.
Proof. intros H. destruct n; simpl; [done|]. by destruct (visible_not_space c s H) as (_ & -> & _). Qed.

Lemma trim_end_visible d s : visible d = true -> trim_end (s +:+ String d "") = s +:+ String d "".
Proof.
  intros Hd. unfold trim_end. rewrite str_rev_append. simpl (str_rev (String d "") +:+ _).
  rewrite strip_back by done. change (String d (str_rev s)) with (String d "" +:+ str_rev s).
  by rewrite str_rev_append, str_rev_involutive.
Qed.

(** A string that begins and ends with visible characters is left alone by [trim]. *)
Lemma trim_visible c d s : visible c = true -> visible d = true ->
  trim (String c s +:+ String d "") = String c s +:+ String d "".
Proof.
  intros Hc Hd. unfold trim, trim_start. change (String c s +:+ String d "") with (String c (s +:+ String d "")).
  rewrite strip_front by done. exact (trim_end_visible d (String c s) Hd).
Qed.

Lemma last_char s : s <> "" -> exists s' d, s = s' +:+ String d "".
Proof.
  induction s as [|c s IH]; [done|]. intros _. destruct s as [|c' s]; [by exists "", c|].
  destruct IH as (s' & d & ->); [done|]. by exists (String c s'), d.
Qed.

Lemma split_visible s : all_visible s = true -> split_char LF s = [s].
Proof.
  induction s as [|c s IH]; simpl; [done|]. intros [Hc Hs]%andb_prop.
  destruct (visible_not_space c "" Hc) as (_ & _ & -> & _). by rewrite IH.
Qed.

Lemma strip_cr_visible s d : visible d = true -> strip_cr (s +:+ String d "") = s +:+ String d "".
Proof.
  intros Hd. unfold strip_cr. rewrite str_rev_append. simpl.
  by destruct (visible_not_space d "" Hd) as (_ & _ & _ & ->).
Qed.

(** A [data:] line with a visible payload is one event, whatever ends the chunk. *)
Lemma parse_data_line x : all_visible x = true -> x <> "" -> x <> "[DONE]" ->
  parse_sse_events ("data: " +:+ x) = [ {| data := x |} ].
Proof.
  intros Hx Hn Hd. destruct (last_char x Hn) as (x' & d & ->).
  rewrite all_visible_app in Hx. apply andb_prop in Hx as [Hx Hv]. simpl in Hv. rewrite andb_true_r in Hv.
  assert (split_char LF ("data: " +:+ x' +:+ String d "") = ["data: " +:+ x' +:+ String d ""]) as E.
  { simpl. rewrite split_visible; [done|]. by rewrite all_visible_app, Hx; simpl; rewrite Hv. }
  rewrite parse_sse_pieces, E. simpl filter_map.
  change (String "d" (String "a" (String "t" (String "a" (String ":" (String " " (x' +:+ String d "")))))))
    with ("data: " +:+ (x' +:+ String d "")).
  rewrite <- app_assoc_str, strip_cr_visible by done. unfold parse_sse_line.
  change ("data: " +:+ x') with (String "d" ("ata: " +:+ x')).
  rewrite trim_visible by done.
  change (String "d" ("ata: " +:+ x') +:+ String d "") with ("data: " +:+ (x' +:+ String d "")).
  rewrite strip_prefix_app. simpl is_empty. simpl orb. cbv iota. destruct (String.eqb_spec (x' +:+ String d "") "[DONE]"); [done|].
  destruct x'; done.
Qed.

Lemma parse_no_data y : all_visible y = true -> parse_sse_events y = [].
Proof.
  intros Hy. rewrite parse_sse_pieces, split_visible by done. simpl.
  assert (parse_sse_line (strip_cr y) = None) as ->; [|done].
  destruct (decide (y = "")) as [->|Hn]; [done|]. destruct (last_char y Hn) as (y' & d & ->).
  rewrite all_visible_app in Hy. apply andb_prop in Hy as [Hy Hv]. simpl in Hv. rewrite andb_true_r in Hv.
  rewrite strip_cr_visible by done. unfold parse_sse_line.
  assert (trim (y' +:+ String d "") = y' +:+ String d "") as ->.
  { destruct y' as [|c y']; [|simpl in Hy; apply andb_prop in Hy as [Hc _]; by apply trim_visible].
    unfold trim, trim_start. change ("" +:+ String d "") with (String d ""). rewrite strip_front by done. exact (trim_end_visible d "" Hv). }
  destruct (is_empty _ || _); [done|].
  destruct (strip_prefix "data: " (y' +:+ String d "")) as [r|] eqn:E; [|done].
  apply strip_prefix_Some in E. assert (all_visible (y' +:+ String d "") = true) as Hall.
  { rewrite all_visible_app, Hy. simpl. by rewrite Hv. }
  by rewrite E in Hall.
Qed.

(** C30: where the network cuts an event stream matters.  Cut at the end of a line, the events
    of the pieces are the events of the whole.  Cut inside the payload of an event, the parser,
    which keeps nothing between chunks, reports the first part as if it were the event and
    drops the rest: so it is for every payload of visible ASCII characters without blanks, cut
    anywhere into two parts that are not empty, when neither the first part nor the whole is
    the terminator [DONE], which is no event. *)
Theorem sse_chunking a b x y :
  parse_sse_events (a +:+ String LF b) =
    (parse_sse_events (a +:+ String LF "") ++ parse_sse_events b)%list /\
  (all_visible x = true -> all_visible y = true -> x <> "" -> y <> "" -> x <> "[DONE]" -> x +:+ y <> "[DONE]" ->
   parse_sse_events ("data: " +:+ (x +:+ y)) = [ {| data := x +:+ y |} ] /\
   flat_map parse_sse_events ["data: " +:+ x; y] = [ {| data := x |} ]).
Proof.
  split; [rewrite !parse_sse_app; simpl; by rewrite app_nil_r|].
  intros Hx Hy Nx Ny Dx D. split.
  - apply parse_data_line; [by rewrite all_visible_app, Hx, Hy|by destruct x|done].
  - simpl flat_map. rewrite (parse_no_data y) by done.
    change (String "d" (String "a" (String "t" (String "a" (String ":" (String " " x)))))) with ("data: " +:+ x).
    by rewrite parse_data_line.
Qed.

Lemma sse_chunking_witness :
  parse_sse_events "data: {1}" = [ {| data := "{1}" |} ] /\
  flat_map parse_sse_events ["data: {"; "1}"] = [ {| data := "{" |} ].
Proof. apply (sse_chunking "" "" "{" "1}"); done. Defined.

(** ** The envelope *)

Section Envelope.
Context `{JsonText}.

Lemma delta_printed t :
  from_str (build_sse_delta t) = Some (obj [("type", VString "delta"); ("delta", VString t)]).
Proof. apply from_to. printable. Qed.

Lemma parse_delta t :
  parse_canonical_event (build_sse_delta t) = if starts_with "{" t then ToolCallDelta t else Delta t.
Proof. unfold parse_canonical_event. by rewrite delta_printed. Qed.

Lemma parse_error m : parse_canonical_event (build_sse_error m) = StreamError m.
Proof. unfold parse_canonical_event, build_sse_error. rewrite from_to by printable. done. Qed.

Definition finish_value (p c : Z) (r : option string) : value :=
  let v := obj [("type", VString "finish");
                ("usage", obj [("prompt_tokens", num p); ("completion_tokens", num c);
                               ("total_tokens", num (as_i64 (p + c)))])] in
  match r with Some reason => default v (index_set "finish_reason" (VString reason) v) | None => v end.

Lemma finish_value_printable p c r : in_i 64 p -> in_i 64 c -> printable (finish_value p c r) = true.
Proof.
  intros Hp Hc. assert (in_i 64 (as_i64 (p + c))) as Ht by by apply wrap_i_range.
  unfold finish_value. destruct r as [r|]; [apply printable_insert; [done|]|]; printable.
Qed.

Lemma parse_finish p c r : in_i 64 p -> in_i 64 c ->
  parse_canonical_event (build_sse_finish p c r) = Finish (as_i32 p) (as_i32 c) r.
Proof.
  intros Hp Hc. unfold parse_canonical_event, build_sse_finish. fold (finish_value p c r).
  rewrite from_to by by apply finish_value_printable.
  assert (get "type" (finish_value p c r) = Some (VString "finish")) as -> by by destruct r.
  assert (get "finish_reason" (finish_value p c r) = VString <$> r) as -> by by destruct r.
  pose (L := [("prompt_tokens", num p); ("completion_tokens", num c); ("total_tokens", num (as_i64 (p + c)))]).
  assert (get "usage" (finish_value p c r) = Some (obj L)) as -> by by destruct r.
  change (Finish (as_i32 (default 0 (get "prompt_tokens" (obj L) ≫= json_i64)))
            (as_i32 (default 0 (get "completion_tokens" (obj L) ≫= json_i64))) ((VString <$> r) ≫= as_str)
          = Finish (as_i32 p) (as_i32 c) r).
  rewrite !get_obj by (apply (bool_decide_unpack _); vm_compute; exact I).
  change (assoc "prompt_tokens" L) with (Some (num p)). change (assoc "completion_tokens" L) with (Some (num c)).
  change (Some (num p) ≫= json_i64) with (json_i64 (num p)). change (Some (num c) ≫= json_i64) with (json_i64 (num c)).
  rewrite !json_i64_num by done. by destruct r.
Qed.

(** What an adapter writes into the canonical envelope, the next stage reads back: a
    fragment of text, the end of the stream with its two counts and its reason, an error.
    Two exceptions are in the code.  A fragment that begins with a brace is taken for a packed
    tool call.  The counts are cut to 32 bits, so one of 2^31 or more comes out negative. *)
Theorem canonical_roundtrip t p c r m :
  parse_canonical_event (build_sse_delta t) = (if starts_with "{" t then ToolCallDelta t else Delta t) /\
  parse_canonical_event (build_sse_error m) = StreamError m /\
  (in_i 64 p -> in_i 64 c ->
   parse_canonical_event (build_sse_finish p c r) = Finish (as_i32 p) (as_i32 c) r /\
   (in_i 32 p -> in_i 32 c -> parse_canonical_event (build_sse_finish p c r) = Finish p c r)).
Proof.
  split; [apply parse_delta|]. split; [apply parse_error|]. intros Hp Hc. rewrite parse_finish by done.
  split; [done|]. intros. by rewrite !wrap_i_small.
Qed.

End Envelope.

Lemma canonical_roundtrip_witness :
  @parse_canonical_event coded_json (@build_sse_finish coded_json 3 4 None) = Finish 3 4 None.
Proof. by apply (@canonical_roundtrip coded_json "t" 3 4 None "m"). Defined.

Section Grammar.
Context `{JsonText}.

(** ** The frames of a whole stream *)

Fixpoint until_end (es : list CanonicalEvent) : list CanonicalEvent :=
  match es with [] => [] | e :: es => if ends_stream e then [e] else e :: until_end es end.

Definition canonical (e : SseEvent) : CanonicalEvent := parse_canonical_event (data e).

Definition same_stream (s t : OpenAiEgress) : Prop :=
  oe_id s = oe_id t /\ oe_model s = oe_model t /\ oe_created s = oe_created t.

Lemma openai_chunk_meta s t l : same_stream s t -> openai_chunk s l = openai_chunk t l.
Proof. intros (H1 & H2 & H3). unfold openai_chunk. by rewrite H1, H2, H3. Qed.

Lemma openai_frames_meta s t e : same_stream s t -> openai_frames s e = openai_frames t e.
Proof.
  intros Hm. destruct e; simpl; try done; rewrite ?(openai_chunk_meta s t) by done; [done| |done].
  unfold tool_call_chunks. destruct (from_str packed); [|done]. by rewrite !(openai_chunk_meta s t).
Qed.

Lemma openai_run_started t s evs : same_stream s t -> oe_started s = true ->
  run_push openai_push s evs =
  if oe_finished s then [] else flat_map (openai_frames t) (until_end (canonical <$> evs)).
Proof.
  revert s. induction evs as [|e evs IH]; intros s Hm Hs; simpl; [by destruct (oe_finished s)|].
  unfold openai_push at 1. destruct (oe_finished s) eqn:Ef.
  - rewrite IH by done. by rewrite Ef.
  - rewrite Hs. simpl. rewrite IH by done. simpl. fold (canonical e). rewrite (openai_frames_meta s t) by done.
    destruct (ends_stream (canonical e)) eqn:Ee; simpl; by rewrite ?app_nil_r.
Qed.

Definition openai_stream_spec (self : OpenAiEgress) (evs : list SseEvent) : list ServerSentFrame :=
  match evs with
  | [] => []
  | _ => role_chunk self :: flat_map (openai_frames self) (until_end (canonical <$> evs))
  end.

Lemma openai_run_new id model created evs :
  let t := new_openai_egress id model created in run_push openai_push t evs = openai_stream_spec t evs.
Proof.
  intros t. destruct evs as [|e evs]; [done|]. simpl. fold (canonical e).
  rewrite (openai_run_started t) by done. simpl. f_equal.
  destruct (ends_stream (canonical e)); simpl; by rewrite ?app_nil_r.
Qed.

Definition anthropic_stream_spec (self : AnthropicEgress) (evs : list SseEvent) : list ServerSentFrame :=
  match evs with
  | [] => []
  | _ => let es := until_end (canonical <$> evs) in
         (message_start self ++ flat_map anthropic_frames es ++
          if existsb ends_stream es then [message_stop] else [])%list
  end.

Lemma anthropic_run_started s evs : ae_started s = true ->
  run_push anthropic_push s evs =
  if ae_finished s then []
  else let es := until_end (canonical <$> evs) in
       (flat_map anthropic_frames es ++ if existsb ends_stream es then [message_stop] else [])%list.
Proof.
  revert s. induction evs as [|e evs IH]; intros s Hs; simpl; [by destruct (ae_finished s)|].
  unfold anthropic_push at 1. destruct (ae_finished s) eqn:Ef.
  - rewrite IH by done. by rewrite Ef.
  - rewrite Hs. simpl. rewrite IH by done. simpl. fold (canonical e).
    destruct (ends_stream (canonical e)) eqn:Ee; simpl; rewrite Ee; simpl; rewrite ?app_nil_r, <- ?app_assoc; done.
Qed.

Lemma anthropic_run_new id model evs :
  let t := new_anthropic_egress id model in run_push anthropic_push t evs = anthropic_stream_spec t evs.
Proof.
  intros t. destruct evs as [|e evs]; [done|].
  cbn -[message_start anthropic_frames anthropic_stream_spec]. fold (canonical e).
  rewrite anthropic_run_started by done. unfold anthropic_stream_spec. cbn -[message_start anthropic_frames].
  fold (canonical e). destruct (ends_stream (canonical e)) eqn:Ee; cbn -[message_start anthropic_frames]; rewrite Ee;
    cbn -[message_start anthropic_frames]; rewrite ?app_nil_r, <- ?app_assoc; done.
Qed.
End Grammar.

(** C29: the frames of a whole stream, in closed form.  On the OpenAI wire an answer is one
    role chunk and then the frames of each event up to and including the first that ends the
    stream; on the Anthropic wire the two opening events, the frames of each event up to the
    first that ends the stream, and a [message_stop] exactly when there was one.  Nothing
    follows the end, whatever else the backend sends, not even the [DONE] that
    docs/streaming-params.md and the change log promise on the OpenAI wire; and a stream without
    events has no frames. *)
Theorem egress_stream_grammar `{JsonText} id model created evs :
  run_push openai_push (new_openai_egress id model created) evs =
    openai_stream_spec (new_openai_egress id model created) evs /\
  run_push anthropic_push (new_anthropic_egress id model) evs =
    anthropic_stream_spec (new_anthropic_egress id model) evs.
Proof. split; [apply openai_run_new|apply anthropic_run_new]. Qed.

(** ** What reaches the client *)

Section Wire.
Context `{JsonText}.

Lemma openai_wire_render s evs : openai_wire s (Ok <$> evs) = render <$> run_push openai_push s evs.
Proof.
  revert s. induction evs as [|e evs IH]; intros s; [done|]. cbn [fmap list_fmap openai_wire run_push].
  destruct (openai_push s e) as [frames s1]. rewrite IH. by rewrite fmap_app.
Qed.

Lemma anthropic_wire_render s evs : anthropic_wire s (Ok <$> evs) = render <$> run_push anthropic_push s evs.
Proof.
  revert s. induction evs as [|e evs IH]; intros s; [done|]. cbn [fmap list_fmap anthropic_wire run_push].
  destruct (anthropic_push s e) as [frames s1]. rewrite IH. by rewrite fmap_app.
Qed.

(** The text a client of the OpenAI wire reads off a frame: [choices[0].delta.content]. *)
Definition frame_text (f : ServerSentFrame) : string :=
  match f with
  | FData p =>
    default "" (v ← from_str p; cs ← get "choices" v; l ← as_array cs; c ← head l; d ← get "delta" c;
                t ← get "content" d; as_str t)
  | FEvent _ _ => ""
  end.

#[local] Arguments frame_text : simpl never.
#[local] Arguments openai_chunk : simpl never.
#[local] Arguments role_chunk : simpl never.

Definition concat_str (l : list string) : string := foldr String.append "" l.

Lemma concat_str_app a b : concat_str (a ++ b)%list = concat_str a +:+ concat_str b.
Proof. induction a as [|x a IH]; simpl; [done|]. by rewrite IH, app_assoc_str. Qed.

Lemma choice_printable d : printable d = true -> printable (set_index "delta" d openai_choice_common) = true.
Proof. intros Hd. unfold set_index. apply printable_insert; [done|]. printable. Qed.

(** Reading a chunk back: its first choice's delta. *)
Lemma frame_text_chunk s d : in_i 64 (oe_created s) -> printable d = true ->
  frame_text (openai_chunk s [set_index "delta" d openai_choice_common]) = default "" (get "content" d ≫= as_str).
Proof.
  intros Hc Hd. unfold frame_text, openai_chunk. rewrite from_to.
  - cbn [mbind option_bind]. rewrite get_obj by (apply (bool_decide_unpack _); vm_compute; exact I).
    change (assoc "choices" _) with (Some (VArray [set_index "delta" d openai_choice_common])).
    cbn [mbind option_bind as_array head]. change (get "delta" (set_index "delta" d openai_choice_common)) with (Some d).
    cbn [mbind option_bind]. by destruct (get "content" d).
  - pose proof (choice_printable d Hd). apply printable_obj. repeat (apply Forall_cons; split); try apply Forall_nil; try done.
    + by apply printable_num.
    + apply printable_array. by repeat constructor.
Qed.

Lemma no_content_text s l : in_i 64 (oe_created s) -> printable (obj [("tool_calls", VArray l)]) = true ->
  frame_text (openai_chunk s [set_index "delta" (obj [("tool_calls", VArray l)]) openai_choice_common]) = "".
Proof. intros Hc Hl. by rewrite frame_text_chunk. Qed.

Lemma tool_call_no_text s packed : in_i 64 (oe_created s) ->
  concat_str (frame_text <$> tool_call_chunks s packed) = "".
Proof.
  intros Hc. unfold tool_call_chunks. destruct (from_str packed) as [parsed|]; [|done].
  set (index := default 0 (get "index" parsed ≫= json_i64)).
  assert (in_i 64 index) as Hi.
  { unfold index. destruct (get "index" parsed) as [v|]; simpl; [|done].
    destruct (json_i64 v) eqn:E; simpl; [by eapply json_i64_in_range|done]. }
  generalize (default "" (get "id" parsed ≫= as_str)). intros cid.
  generalize (default "" (f ← get "function" parsed; get "name" f ≫= as_str)). intros name.
  generalize (default "" (f ← get "function" parsed; get "arguments" f ≫= as_str)). intros args.
  assert (forall call, printable (obj call) = true ->
    printable (obj [("tool_calls", VArray [if is_empty cid then obj call else set_index "id" (VString cid) (obj call)])]) = true) as Hp.
  { intros call Hcall. apply printable_obj, Forall_singleton, printable_array, Forall_singleton.
    destruct (is_empty cid); [done|]. by apply printable_insert. }
  rewrite fmap_app, concat_str_app.
  destruct (negb (is_empty cid) || negb (is_empty name)), (negb (is_empty args)); csimpl;
    rewrite ?no_content_text; try done; apply Hp; printable.
Qed.

Lemma openai_frames_text s d : in_i 64 (oe_created s) ->
  concat_str (frame_text <$> openai_frames s (parse_canonical_event (build_sse_delta d))) =
  if starts_with "{" d then "" else d.
Proof.
  intros Hc. rewrite parse_delta. destruct (starts_with "{" d); simpl.
  - by apply tool_call_no_text.
  - rewrite frame_text_chunk by (try done; printable). simpl. by rewrite app_nil_r_str.
Qed.

Lemma role_text s : in_i 64 (oe_created s) -> frame_text (role_chunk s) = "".
Proof. intros Hc. unfold role_chunk. rewrite frame_text_chunk by (try done; printable). done. Qed.
End Wire.
#[local] Arguments frame_text : simpl never.
#[local] Arguments role_chunk : simpl never.
#[local] Arguments openai_frames : simpl never.

(** The text a client reads off the OpenAI wire is the concatenation of the fragments the
    backend sent, without those that begin with a brace.  So when no fragment begins with a
    brace the text arrives complete; but a fragment which is text and begins with one, such as
    the first piece of an answer that is a JSON document, never reaches the client. *)
Theorem streamed_text `{JsonText} id model created ds :
  in_i 64 created ->
  let frames := run_push openai_push (new_openai_egress id model created)
                  ((fun d => {| data := build_sse_delta d |}) <$> ds) in
  concat_str (frame_text <$> frames) = concat_str (filterb (fun d => negb (starts_with "{" d)) ds) /\
  (Forall (fun d => starts_with "{" d = false) ds -> concat_str (frame_text <$> frames) = concat_str ds).
Proof.
  intros Hc. set (t := new_openai_egress id model created).
  assert (forall ds, until_end (canonical <$> ((fun d => {| data := build_sse_delta d |}) <$> ds)) =
                     (fun d => parse_canonical_event (build_sse_delta d)) <$> ds) as Hu.
  { clear. induction ds as [|d ds IH]; [done|]. rewrite !fmap_cons. cbn [until_end].
    change (canonical {| data := build_sse_delta d |}) with (parse_canonical_event (build_sse_delta d)).
    rewrite IH, (parse_delta d). by destruct (starts_with "{" d). }
  assert (concat_str (frame_text <$> run_push openai_push t ((fun d => {| data := build_sse_delta d |}) <$> ds)) =
          concat_str (filterb (fun d => negb (starts_with "{" d)) ds)) as E.
  { unfold t. rewrite openai_run_new. destruct ds as [|d ds]; [done|].
    set (l := (d :: ds)%list). change (openai_stream_spec _ _) with
      (role_chunk t :: flat_map (openai_frames t) (until_end (canonical <$> ((fun d => {| data := build_sse_delta d |}) <$> l)))).
    rewrite Hu, fmap_cons. clearbody l. simpl. rewrite role_text by done. simpl. induction l as [|x l IH]; [done|]. csimpl. rewrite fmap_app, concat_str_app, openai_frames_text by done.
    destruct (starts_with "{" x); simpl; [exact IH|]. f_equal. exact IH. }
  split; [exact E|]. intros Hall. rewrite E. f_equal. clear -Hall.
  induction Hall as [|d ds Hd _ IH]; simpl; [done|]. by rewrite Hd, IH.
Qed.

Lemma streamed_text_witness :
  let frames := run_push (@openai_push coded_json) (new_openai_egress "id" "m" 0)
                  ((fun d => {| data := @build_sse_delta coded_json d |}) <$> ["{"; "ok"]) in
  concat_str (@frame_text coded_json <$> frames) = "ok" /\
  concat_str (@frame_text coded_json <$>
    run_push (@openai_push coded_json) (new_openai_egress "id" "m" 0)
      ((fun d => {| data := @build_sse_delta coded_json d |}) <$> ["he"; "llo"])) = "hello".
Proof.
  split.
  - apply (@streamed_text coded_json "id" "m" 0 ["{"; "ok"]). done.
  - apply (@streamed_text coded_json "id" "m" 0 ["he"; "llo"]); [done|]. by repeat constructor.
Defined.

Lemma rendered_data d : starts_with "data: " (render (FData d)) = true.
Proof. unfold starts_with, render. by rewrite strip_prefix_app. Qed.
Lemma rendered_event n d : starts_with "event: " (render (FEvent n d)) = true.
Proof. unfold starts_with, render. by rewrite strip_prefix_app. Qed.

(** On both wire formats a payload given to axum's [Event::data], which writes [data:]
    itself, is already a rendered frame: every OpenAI payload begins with [data:] and every
    Anthropic one with [event:] or [data:].  Only the canonical wire hands over bare
    payloads. *)
Theorem frames_are_wrapped_twice `{JsonText} id model created evs p :
  (p ∈ openai_wire (new_openai_egress id model created) (Ok <$> evs) -> starts_with "data: " p = true) /\
  (p ∈ anthropic_wire (new_anthropic_egress id model) (Ok <$> evs) ->
   starts_with "event: " p = true \/ starts_with "data: " p = true) /\
  canonical_wire (Ok <$> evs) = data <$> evs.
Proof.
  rewrite openai_wire_render, anthropic_wire_render. split; [|split].
  - rewrite openai_run_new. intros (f & -> & Hf)%list_elem_of_fmap.
    enough (exists d, f = FData d) as [d ->] by apply rendered_data.
    unfold openai_stream_spec in Hf. destruct evs as [|e evs]; [by apply elem_of_nil in Hf|].
    apply elem_of_cons in Hf as [->|Hf]; [by eexists|]. apply list_elem_of_In, in_flat_map in Hf as (c & _ & Hf).
    destruct c; simpl in Hf; unfold openai_frames in Hf; simpl in Hf.
    + destruct Hf as [<-|[]]. by eexists.
    + unfold tool_call_chunks in Hf. destruct (from_str packed); [|done]. apply in_app_or in Hf as [Hf|Hf];
        case_match; (destruct Hf as [<-|[]]; by eexists) || done.
    + destruct Hf as [<-|[]]. by eexists.
    + destruct Hf as [<-|[]]. by eexists.
    + done.
  - intros (f & -> & _)%list_elem_of_fmap. destruct f as [d|n d]; [right; apply rendered_data|left; apply rendered_event].
  - unfold canonical_wire. by rewrite <- list_fmap_compose.
Qed.

Lemma frames_are_wrapped_twice_witness :
  exists p, p ∈ @openai_wire coded_json (new_openai_egress "id" "m" 0) (Ok <$> [ {| data := "" |} ]) /\
    starts_with "data: " p = true.
Proof.
  eexists. split; [left|]. eapply (proj1 (@frames_are_wrapped_twice coded_json "id" "m" 0 [ {| data := "" |} ] _)). left.
Defined.

(** ** The end of the stream is announced once *)

Definition is_finish `{JsonText} (e : Event) : bool :=
  match e with
  | Ok ev => match parse_canonical_event (data ev) with Finish _ _ _ => true | _ => false end
  | Err _ => false
  end.
Definition finishes `{JsonText} (l : list Event) : nat := Datatypes.length (filterb is_finish l).

Section FinishOnce.
Context `{JsonText} (parse_failure : string -> string).

Lemma finishes_app a b : finishes (a ++ b)%list = (finishes a + finishes b)%nat.
Proof. unfold finishes. by rewrite filterb_app, length_app. Qed.

Lemma delta_not_finish d : is_finish (ok_event (build_sse_delta d)) = false.
Proof. unfold is_finish, ok_event. cbn [data]. rewrite parse_delta. by destruct (starts_with "{" d). Qed.

Lemma error_not_finish m : is_finish (ok_event (build_sse_error m)) = false.
Proof. unfold is_finish, ok_event. cbn [data]. by rewrite parse_error. Qed.

Lemma finishes_all_false l : Forall (fun e => is_finish e = false) l -> finishes l = 0%nat.
Proof. induction 1 as [|e l He _ IH]; [done|]. unfold finishes in *. simpl. by rewrite He. Qed.

Lemma finishes_error m : finishes [ok_event (build_sse_error m)] = 0%nat.
Proof. apply finishes_all_false. constructor; [apply error_not_finish|constructor]. Qed.

Lemma finishes_one e : (finishes [e] <= 1)%nat.
Proof. unfold finishes. cbn. destruct (is_finish e); simpl; lia. Qed.

Lemma finishes_deltas (l : list string) : finishes ((fun d => ok_event (build_sse_delta d)) <$> l) = 0%nat.
Proof. apply finishes_all_false, Forall_fmap, Forall_true. intros d. apply delta_not_finish. Qed.

Lemma finishes_delta_events c : finishes (delta_events c) = 0%nat.
Proof.
  unfold delta_events. destruct (sch_delta c) as [d|]; [|done]. rewrite finishes_app.
  assert (finishes (match sd_content d with
     | Some content => if is_empty content then [] else [ok_event (build_sse_delta content)] | None => [] end) = 0%nat) as ->.
  { destruct (sd_content d) as [t|]; [|done]. destruct (is_empty t); [done|]. exact (finishes_deltas [t]). }
  destruct (sd_tool_calls d) as [l|]; [|done].
  apply finishes_all_false, Forall_fmap, Forall_true. intros call. apply delta_not_finish.
Qed.

(** How many more finish events a translator may emit. *)
Definition budget (t : Translator) : nat := if finish_emitted t then 0%nat else 1%nat.

Lemma finish_events_budget u r t :
  let '(es, t') := finish_events u r t in (finishes es + budget t' <= budget t)%nat.
Proof.
  unfold finish_events. destruct r as [r|]; [|done].
  destruct (negb (is_empty r) && negb (finish_emitted t)) eqn:E; [|done].
  apply andb_prop in E as [_ E]. apply negb_true_iff in E. destruct (default (0, 0) u) as [p c].
  unfold budget. rewrite E. pose proof (finishes_one (ok_event (build_sse_finish p c (Some r)))). simpl. lia.
Qed.

Lemma choices_budget u cs : forall t,
  let '(es, t') := choices_events u cs t in (finishes es + budget t' <= budget t)%nat.
Proof.
  induction cs as [|c cs IH]; intros t; simpl; [done|].
  pose proof (finish_events_budget u (sch_finish_reason c) t) as Hf.
  destruct (finish_events u (sch_finish_reason c) t) as [f t1]. specialize (IH t1).
  destruct (choices_events u cs t1) as [rest t2]. rewrite !finishes_app, finishes_delta_events. lia.
Qed.

Lemma translate_budget label chunk t :
  let '(es, t') := translate_chunk parse_failure label chunk t in (finishes es + budget t' <= budget t)%nat.
Proof.
  unfold translate_chunk. destruct (_ || _); [done|].
  destruct (from_str chunk ≫= stream_chunk_of_value) as [p|]; [apply choices_budget|].
  by rewrite finishes_error.
Qed.

Lemma text_stop_budget content stop u t :
  let '(es, t') := text_and_stop content stop u t in (finishes es + budget t' <= budget t)%nat.
Proof.
  unfold text_and_stop.
  assert (finishes (match content with
     | Some c => if is_empty c then [] else [ok_event (build_sse_delta c)] | None => [] end) = 0%nat) as E.
  { destruct content as [c|]; [|done]. destruct (is_empty c); [done|]. exact (finishes_deltas [c]). }
  destruct (bool_decide (stop = Some true) && negb (finish_emitted t)) eqn:Es; [|by rewrite E].
  apply andb_prop in Es as [_ Es]. apply negb_true_iff in Es. rewrite finishes_app, E. unfold budget. rewrite Es.
  pose proof (finishes_one (ok_event (build_sse_finish u.1 u.2 (Some "stop")))). simpl. lia.
Qed.

Lemma gemini_budget u cs : forall t,
  let '(es, t') := gemini_candidates u cs t in
  (finishes es + budget (gt_finish t') <= budget (gt_finish t))%nat.
Proof.
  induction cs as [|c cs IH]; intros t; simpl; [done|].
  pose proof (finish_events_budget u (gc_finish_reason c) (gt_finish t)) as Hf.
  destruct (finish_events u (gc_finish_reason c) (gt_finish t)) as [f t1].
  match goal with |- context [gemini_candidates u cs ?t2] => specialize (IH t2); destruct (gemini_candidates u cs t2) as [rest t3] end.
  rewrite !finishes_app, finishes_deltas. simpl in *. lia.
Qed.

Lemma into_stream_budget {T} (step : string -> T -> list Event * T) (b : T -> nat) chunks :
  (forall chunk t, let '(es, t') := step chunk t in (finishes es + b t' <= b t)%nat) ->
  forall t, (finishes (into_stream step chunks t) <= b t)%nat.
Proof.
  intros Hs. induction chunks as [|[bytes|e] chunks IH]; intros t; simpl.
  - unfold finishes. simpl. lia.
  - specialize (Hs (from_utf8_lossy bytes) t). destruct (step (from_utf8_lossy bytes) t) as [es t'].
    rewrite finishes_app. specialize (IH t'). lia.
  - change (?x :: ?l) with ([x] ++ l)%list. rewrite finishes_app, finishes_error. apply IH.
Qed.
End FinishOnce.

(** Whatever chunks an engine sends, its translator announces the end of the stream at most
    once, also when several choices carry a finish reason and also after chunks that failed. *)
Theorem finish_once `{JsonText} parse_failure label chunks :
  (finishes (into_stream (translate_chunk parse_failure label) chunks new_translator) <= 1)%nat /\
  (finishes (llama_cpp_into_stream parse_failure chunks) <= 1)%nat /\
  (finishes (ollama_into_stream parse_failure chunks) <= 1)%nat /\
  (finishes (gemini_into_stream parse_failure chunks) <= 1)%nat.
Proof.
  split; [|split; [|split]].
  - apply (into_stream_budget _ budget). intros c t. apply translate_budget.
  - apply (into_stream_budget _ budget). intros c t. unfold llama_cpp_translate_chunk.
    destruct (_ || _); [done|]. destruct (_ ≫= _); [apply text_stop_budget|by rewrite finishes_error].
  - apply (into_stream_budget _ budget). intros c t. unfold ollama_translate_chunk.
    destruct (_ || _); [done|]. destruct (_ ≫= _); [apply text_stop_budget|by rewrite finishes_error].
  - apply (into_stream_budget _ (fun t => budget (gt_finish t))). intros c t. unfold gemini_translate_chunk.
    destruct (is_empty _); [done|]. destruct (_ ≫= _); [apply gemini_budget|by rewrite finishes_error].
Qed.

(** ** Fragments of tool calls: the buffer merges each run of fragments with one index *)

(** The reference: cut the fragments into maximal runs of one index, merge each run. *)
Fixpoint runs (fs : list CurrentTool) : list (list CurrentTool) :=
  match fs with
  | [] => []
  | f :: fs =>
    match runs fs with
    | (g :: r) :: rs => if cur_index f =? cur_index g then (f :: g :: r) :: rs else [f] :: (g :: r) :: rs
    | rs => [f] :: rs
    end
  end.
Definition merge (run : list CurrentTool) : option CurrentTool :=
  match run with [] => None | f :: fs => Some (foldl extend f fs) end.

Lemma runs_shape fs : runs fs = [] \/ exists g r rs, runs fs = (g :: r) :: rs.
Proof.
  destruct fs as [|f fs]; [by left|]. right. simpl. destruct (runs fs) as [|[|g r] rs]; try by repeat eexists.
  destruct (_ =? _); by repeat eexists.
Qed.

(** What the buffer still owes when [s] is open and the fragments of [rs] follow. *)
Definition owed (s : CurrentTool) (rs : list (list CurrentTool)) : list ToolCall :=
  match rs with
  | (g :: r) :: rs' =>
    if cur_index s =? cur_index g then complete (foldl extend s (g :: r)) :: (complete <$> omap merge rs')
    else complete s :: (complete <$> omap merge rs)
  | _ => [complete s]
  end.

Lemma buffer_owes fs : forall s acc,
  (finish_all (foldl push_fragment {| current_tool := Some s; accumulated_tools := acc |} fs)).1 =
  (acc ++ owed s (runs fs))%list.
Proof.
  induction fs as [|f fs IH]; intros s acc; [done|]. simpl foldl. unfold push_fragment at 2. simpl current_tool.
  cbn [runs accumulated_tools]. destruct (Z.eqb_spec (cur_index s) (cur_index f)) as [Es|Es]; rewrite IH.
  - destruct (runs_shape fs) as [->|(g & r & rs & ->)]; simpl.
    + apply Z.eqb_eq in Es. by rewrite Es.
    + rewrite <- Es. destruct (Z.eqb_spec (cur_index s) (cur_index g)) as [Eg|Eg]; simpl.
      * rewrite <- Es, Z.eqb_refl. done.
      * rewrite <- Es, Z.eqb_refl. done.
  - rewrite <- app_assoc. f_equal. apply Z.eqb_neq in Es.
    destruct (runs_shape fs) as [->|(g & r & rs & ->)]; simpl.
    + by rewrite Es.
    + destruct (Z.eqb_spec (cur_index f) (cur_index g)) as [Eg|Eg]; simpl; by rewrite Es.
Qed.

(** The calls the buffer hands out are the maximal runs of fragments with one index, each
    merged: arguments concatenated in order, id and name from the last fragment that has them.
    No fragment is lost or counted twice; but when the fragments of two parallel calls arrive
    interleaved, each switch of index starts a new call. *)
Theorem buffer_merges_runs `{JsonText} deltas :
  let fs := fragment <$> omap from_str deltas in
  (finish_all (foldl push_delta new_buffer deltas)).1 = complete <$> omap merge (runs fs).
Proof.
  simpl. assert (forall b, foldl push_delta b deltas = foldl push_fragment b (fragment <$> omap from_str deltas)) as ->.
  { induction deltas as [|d ds IH]; intros b; [done|]. simpl. unfold push_delta at 2. rewrite IH.
    by destruct (from_str d). }
  destruct (fragment <$> omap from_str deltas) as [|f fs]; [done|].
  transitivity ([] ++ owed f (runs fs))%list; [exact (buffer_owes fs f [])|]. cbn [runs]. destruct (runs_shape fs) as [->|(g & r & rs & ->)]; [done|].
  simpl. destruct (_ =? _); done.
Qed.

Example interleaved_calls_split :
  tc_arguments <$> (finish_all (foldl push_fragment new_buffer
    [ {| cur_index := 0; cur_id := "a"; cur_name := "f"; cur_arguments := "1" |};
      {| cur_index := 1; cur_id := "b"; cur_name := "g"; cur_arguments := "2" |};
      {| cur_index := 0; cur_id := ""; cur_name := ""; cur_arguments := "3" |} ])).1 = ["1"; "2"; "3"].
Proof. reflexivity. Qed.
