(* ===== verification/PromptCache.v ===== *)
(** * The prompt cache

    [PromptCache] of godwit-providers/src/prompt_cache.rs: entries with a deadline, and the
    order of access that eviction follows.  The order may keep keys whose entry is gone; the
    abstract cache [Lru] is one list of present entries, from the least to the most recently
    used, and every operation refines its operation on [Lru], answers included.  The end of the file runs two threads through the locks. *)

From stdpp Require Import base gmap list.
From S2P Require Import Prelude.

(** [godwit-providers/src/prompt_cache.rs:7-12] [CacheEntry] *)
Record CacheEntry (V : Type) : Type := { ce_value : V; expires_at : Z }.
Arguments ce_value {V}. Arguments expires_at {V}. Arguments Build_CacheEntry {V}.

(** [godwit-providers/src/prompt_cache.rs:18-27] [PromptCache] *)
Record PromptCache (K V : Type) `{Countable K} : Type := {
  cache : gmap K (CacheEntry V); lru_order : list K; max_size : nat; default_ttl : Z }.
Arguments cache {K V _ _}. Arguments lru_order {K V _ _}. Arguments max_size {K V _ _}.
Arguments default_ttl {K V _ _}. Arguments Build_PromptCache {K V _ _}.

Section Cache.
Context {K V : Type} `{Countable K}.
Implicit Types (c : PromptCache K V) (k : K) (l : list K) (m : gmap K (CacheEntry V)).

(** [godwit-providers/src/prompt_cache.rs:43-51] [PromptCache::with_config] *)
Definition with_config (max_size : nat) (ttl : Z) : PromptCache K V :=
  {| cache := ∅; lru_order := []; max_size := max_size; default_ttl := ttl |}.
(** [godwit-providers/src/prompt_cache.rs:31-41] [PromptCache::new] *)
Definition new_prompt_cache : PromptCache K V := with_config 10000 3600000.

Definition with_entries c (m : gmap K (CacheEntry V)) : PromptCache K V :=
  {| cache := m; lru_order := lru_order c; max_size := max_size c; default_ttl := default_ttl c |}.
Definition with_order c (l : list K) : PromptCache K V :=
  {| cache := cache c; lru_order := l; max_size := max_size c; default_ttl := default_ttl c |}.

(** [VecDeque::remove] at the first position that holds [k]. *)
Fixpoint remove_first k (l : list K) : list K :=
  match l with
  | [] => []
  | x :: l => if decide (x = k) then l else x :: remove_first k l
  end.

(** [godwit-providers/src/prompt_cache.rs:163-173] [PromptCache::update_lru_access] *)
Definition update_lru_access k c : PromptCache K V := with_order c (remove_first k (lru_order c) ++ [k]).

(** The loop of [evict_lru], on the queue and the entries.
    [godwit-providers/src/prompt_cache.rs:153-160] [PromptCache::evict_lru] *)
Fixpoint evict_loop (lru : list K) (m : gmap K (CacheEntry V)) : list K * gmap K (CacheEntry V) :=
  match lru with
  | [] => ([], m)
  | k :: lru => if decide (is_Some (m !! k)) then (lru, delete k m) else evict_loop lru m
  end.
(** [godwit-providers/src/prompt_cache.rs:150-161] [PromptCache::evict_lru] *)
Definition evict_lru c : PromptCache K V :=
  let '(l, m) := evict_loop (lru_order c) (cache c) in with_entries (with_order c l) m.

(** [godwit-providers/src/prompt_cache.rs:57-74] [PromptCache::insert_with_ttl] *)
Definition insert_with_ttl (now : Z) k (v : V) (ttl : Z) c : PromptCache K V :=
  let e := {| ce_value := v; expires_at := now + ttl |} in
  let c := if negb (bool_decide (is_Some (cache c !! k))) && (max_size c <=? size (cache c))%nat
           then evict_lru c else c in
  let c := with_entries c (delete k (cache c)) in
  let c := with_entries c (<[k := e]> (cache c)) in
  update_lru_access k c.
(** [godwit-providers/src/prompt_cache.rs:53-56] [PromptCache::insert] *)
Definition prompt_cache_insert (now : Z) k (v : V) c : PromptCache K V := insert_with_ttl now k v (default_ttl c) c.

(** [godwit-providers/src/prompt_cache.rs:108-111] [PromptCache::remove] *)
Definition prompt_cache_remove k c : option V * PromptCache K V :=
  (ce_value <$> cache c !! k, with_entries c (delete k (cache c))).

(** [godwit-providers/src/prompt_cache.rs:76-93] [PromptCache::get] *)
Definition prompt_cache_get (now : Z) k c : option V * PromptCache K V :=
  match cache c !! k with
  | None => (None, c)
  | Some e =>
    if (expires_at e <? now)%Z then (None, (prompt_cache_remove k c).2)
    else (Some (ce_value e), update_lru_access k c)
  end.

(** [godwit-providers/src/prompt_cache.rs:97-106] [PromptCache::contains_key] *)
Definition prompt_cache_contains_key (now : Z) k c : bool * PromptCache K V :=
  match cache c !! k with
  | Some e => if (now <=? expires_at e)%Z then (true, c) else (false, (prompt_cache_remove k c).2)
  | None => (false, c)
  end.

(** [godwit-providers/src/prompt_cache.rs:113-116] [PromptCache::len] *)
Definition prompt_cache_len c : nat := size (cache c).

(** [godwit-providers/src/prompt_cache.rs:123-128] [PromptCache::clear] *)
Definition prompt_cache_clear c : PromptCache K V := with_order (with_entries c ∅) [].

(** [godwit-providers/src/prompt_cache.rs:130-148] [PromptCache::evict_expired] *)
Definition evict_expired (now : Z) c : nat * PromptCache K V :=
  let dead := (map_to_list (cache c)).*1 in
  let dead := filterb (fun k => match cache c !! k with Some e => (expires_at e <? now)%Z | None => false end) dead in
  (length dead, with_entries c (foldl (fun m k => delete k m) (cache c) dead)).

(** The operations as one type, with the reading of the clock each makes, and their answers. *)
Inductive CacheOp : Type :=
| OpInsert (now : Z) (k : K) (v : V) (ttl : Z)
| OpGet (now : Z) (k : K)
| OpContains (now : Z) (k : K)
| OpRemove (k : K)
| OpLen
| OpClear
| OpEvictExpired (now : Z).
Inductive CacheAnswer : Type :=
| ADone | AValue (v : option V) | ABool (b : bool) | ACount (n : nat).
Definition prompt_cache_op (o : CacheOp) c : CacheAnswer * PromptCache K V :=
  match o with
  | OpInsert now k v ttl => (ADone, insert_with_ttl now k v ttl c)
  | OpGet now k => let '(v, c) := prompt_cache_get now k c in (AValue v, c)
  | OpContains now k => let '(b, c) := prompt_cache_contains_key now k c in (ABool b, c)
  | OpRemove k => let '(v, c) := prompt_cache_remove k c in (AValue v, c)
  | OpLen => (ACount (prompt_cache_len c), c)
  | OpClear => (ADone, prompt_cache_clear c)
  | OpEvictExpired now => let '(n, c) := evict_expired now c in (ACount n, c)
  end.
(** A sequence of operations: the answers, and the last state. *)
Fixpoint run_ops {S} (step : CacheOp -> S -> CacheAnswer * S) (ops : list CacheOp) (s : S) : list CacheAnswer * S :=
  match ops with
  | [] => ([], s)
  | o :: ops => let '(a, s) := step o s in let '(l, s) := run_ops step ops s in (a :: l, s)
  end.

(** ** The abstract cache *)

(** Entries from the least to the most recently used. *)
Abbreviation Lru := (list (K * CacheEntry V)).
Definition without k (l : Lru) : Lru := filter (fun x => x.1 <> k) l.
Definition holds k (l : Lru) : bool := bool_decide (k ∈ l.*1).
Definition find_entry k (l : Lru) : option (CacheEntry V) := snd <$> head (filter (fun x => x.1 = k) l).
Definition lru_insert (cap : nat) k (e : CacheEntry V) (l : Lru) : Lru :=
  (without k (if holds k l then l else if (cap <=? length l)%nat then tail l else l) ++ [(k, e)])%list.
Definition dead_at (now : Z) (e : CacheEntry V) : bool := (expires_at e <? now)%Z.
Definition lru_op (cap : nat) (o : CacheOp) (l : Lru) : CacheAnswer * Lru :=
  match o with
  | OpInsert now k v ttl => (ADone, lru_insert cap k {| ce_value := v; expires_at := (now + ttl)%Z |} l)
  | OpGet now k =>
    match find_entry k l with
    | None => (AValue None, l)
    | Some e => if dead_at now e then (AValue None, without k l) else (AValue (Some (ce_value e)), without k l ++ [(k, e)])%list
    end
  | OpContains now k =>
    match find_entry k l with
    | None => (ABool false, l)
    | Some e => if dead_at now e then (ABool false, without k l) else (ABool true, l)
    end
  | OpRemove k => (AValue (ce_value <$> find_entry k l), without k l)
  | OpLen => (ACount (length l), l)
  | OpClear => (ADone, [])
  | OpEvictExpired now =>
    (ACount (length (filter (fun x => dead_at now x.2 = true) l)), filter (fun x => dead_at now x.2 = false) l)
  end.

(** ** Invariant *)

Record cache_ok c : Prop := {
  ok_nodup : NoDup (lru_order c);
  ok_dom : forall k, is_Some (cache c !! k) -> k ∈ lru_order c;
  ok_size : (size (cache c) <= Nat.max 1 (max_size c))%nat }.

Definition present (m : gmap K (CacheEntry V)) (l : list K) : list K := filter (fun k => is_Some (m !! k)) l.

(** The abstract cache: the present keys from the least to the most recently used. *)
Definition recency c : list K := present (cache c) (lru_order c).

(** The specification of an insertion on the order of the present keys. *)
Definition spec_insert k (cap : nat) (l : list K) : list K :=
  (filter (fun x => x <> k) (if decide (k ∈ l) then l else if (cap <=? length l)%nat then tail l else l)) ++ [k].

Lemma filter_absent k l : k ∉ l -> filter (fun x => x <> k) l = l.
Proof.
  induction l as [|x l IH]; [done|]. intros [Hx Hl]%not_elem_of_cons.
  rewrite filter_cons_True by done. by rewrite IH.
Qed.

Lemma remove_first_filter k l : NoDup l -> remove_first k l = filter (fun x => x <> k) l.
Proof.
  induction 1 as [|x l Hx Hl IH]; [done|]. simpl. destruct (decide (x = k)) as [->|Hk].
  - rewrite filter_cons_False by naive_solver. by rewrite filter_absent.
  - rewrite filter_cons_True by done. by rewrite IH.
Qed.

Lemma elem_of_present m l k : k ∈ present m l <-> is_Some (m !! k) /\ k ∈ l.
Proof. unfold present. by rewrite list_elem_of_filter. Qed.

(** Deleting a key from the map takes it out of the present keys, wherever it is queued. *)
Lemma present_delete m l k : present (delete k m) l = filter (fun x => x <> k) (present m l).
Proof.
  unfold present. rewrite list_filter_filter. apply list_filter_iff. intros x.
  destruct (decide (x = k)) as [->|Hx].
  - rewrite lookup_delete_eq. split; [by intros [? ?]|naive_solver].
  - rewrite lookup_delete_ne by done. naive_solver.
Qed.

Lemma present_insert_absent m l k e : k ∉ l -> present (<[k:=e]> m) l = present m l.
Proof.
  intros Hk. unfold present. induction l as [|x l IH]; [done|]. apply not_elem_of_cons in Hk as [Hx Hl].
  rewrite !filter_cons, lookup_insert_ne by done. by rewrite IH.
Qed.

Lemma present_length m l : NoDup l -> (forall k, is_Some (m !! k) -> k ∈ l) -> length (present m l) = size m.
Proof.
  intros Hl Hd. rewrite <- (size_dom (D := gset K)).
  assert (dom m = list_to_set (present m l)) as ->.
  { apply set_eq. intros k. rewrite elem_of_dom, elem_of_list_to_set, elem_of_present. naive_solver. }
  rewrite size_list_to_set; [done|]. by apply NoDup_filter.
Qed.

Lemma evict_loop_spec l m :
  NoDup l ->
  let '(l', m') := evict_loop l m in
  m' = match head (present m l) with Some k => delete k m | None => m end /\
  present m' l' = tail (present m l) /\ l' `suffix_of` l /\
  (forall k, is_Some (m' !! k) -> k ∈ l -> k ∈ l').
Proof.
  induction 1 as [|k l Hk Hl IH]; simpl.
  - split_and!; [done|done|done|]. by intros k _ ?.
  - unfold present in *. rewrite filter_cons. destruct (decide (is_Some (m !! k))) as [Hm|Hm].
    + split_and!; [done| |by apply suffix_cons_r|].
      * simpl. change (present (delete k m) l = present m l). rewrite present_delete. apply filter_absent.
        rewrite elem_of_present. naive_solver.
      * intros x Hx [->|?]%elem_of_cons; [|done]. rewrite lookup_delete_eq in Hx. by destruct Hx.
    + destruct (evict_loop l m) as [l' m']. destruct IH as (-> & ? & ? & Hd). split_and!; [done|done|by apply suffix_cons_r|].
      intros x Hx [->|?]%elem_of_cons; [|by apply Hd]. destruct Hm. destruct (head _); [|done].
      destruct Hx as [y Hy]. apply lookup_delete_Some in Hy as [_ Hy]. by eexists.
Qed.

Lemma evict_lru_spec c :
  cache_ok c ->
  let c' := evict_lru c in
  cache_ok c' /\ recency c' = tail (recency c) /\
  size (cache c') = Nat.pred (size (cache c)) /\
  (forall k, cache c' !! k = if decide (head (recency c) = Some k) then None else cache c !! k).
Proof.
  intros [Hn Hd Hs]. unfold evict_lru. pose proof (evict_loop_spec (lru_order c) (cache c) Hn) as He.
  destruct (evict_loop (lru_order c) (cache c)) as [l' m']. destruct He as (Em & Ep & Hl & Hk). simpl.
  assert (forall k, m' !! k = if decide (head (recency c) = Some k) then None else cache c !! k) as Hm'.
  { intros k. rewrite Em. fold (recency c). destruct (head (recency c)) as [h|] eqn:E.
    - destruct (decide (h = k)) as [->|?].
      + by rewrite decide_True, lookup_delete_eq by done.
      + rewrite decide_False, lookup_delete_ne by congruence. done.
    - by rewrite decide_False by done. }
  assert (NoDup l') as Hn' by (destruct Hl as [p Hp]; rewrite Hp in Hn; apply NoDup_app in Hn as (_ & _ & Hn); exact Hn).
  assert (forall k, is_Some (m' !! k) -> k ∈ l') as Hd'.
  { intros k Hk'. apply Hk; [done|]. apply Hd. rewrite Hm' in Hk'. case_decide; [by destruct Hk'|done]. }
  assert (size m' = Nat.pred (size (cache c))) as Hsz.
  { rewrite <- (present_length m' l') by done. rewrite Ep, <- (present_length (cache c) (lru_order c)) by done.
    by destruct (present (cache c) (lru_order c)). }
  split_and!; [constructor; simpl; try done; lia|exact Ep|exact Hsz|exact Hm'].
Qed.

(** Queueing [k] at the end of an order that already covers the other keys. *)
Lemma update_ok c k :
  NoDup (lru_order c) -> (forall x, is_Some (cache c !! x) -> x ∈ lru_order c \/ x = k) ->
  (size (cache c) <= Nat.max 1 (max_size c))%nat -> is_Some (cache c !! k) ->
  cache_ok (update_lru_access k c) /\
  recency (update_lru_access k c) = present (cache c) (filter (fun x => x <> k) (lru_order c)) ++ [k].
Proof.
  intros Hn Hd Hs Hk. unfold update_lru_access, recency. simpl. rewrite remove_first_filter by done. split.
  - constructor; simpl; [|intros x Hx|done].
    + apply NoDup_app. split_and!; [by apply NoDup_filter| |apply NoDup_singleton].
      intros x [Hx _]%list_elem_of_filter ->%list_elem_of_singleton. done.
    + rewrite elem_of_app, list_elem_of_filter, list_elem_of_singleton. destruct (decide (x = k)); [by right|].
      destruct (Hd x Hx) as [?| ->]; [by left|by right].
  - unfold present. rewrite filter_app, (filter_singleton_True _ _ []) by exact Hk. done.
Qed.

Lemma remove_ok c k :
  cache_ok c -> cache_ok (prompt_cache_remove k c).2 /\ recency (prompt_cache_remove k c).2 = filter (fun x => x <> k) (recency c).
Proof.
  intros [Hn Hd Hs]. split; [|apply present_delete]. constructor; simpl; [done| |].
  - intros x [y Hx]. apply lookup_delete_Some in Hx as [_ Hx]. apply Hd. by eexists.
  - pose proof (map_size_delete k (cache c)) as E. destruct (cache c !! k); simpl in *; lia.
Qed.

Lemma recency_elem c k : cache_ok c -> k ∈ recency c <-> is_Some (cache c !! k).
Proof. intros [_ Hd _]. unfold recency. rewrite elem_of_present. naive_solver. Qed.

Lemma insert_ok now k v ttl c :
  cache_ok c ->
  let c' := insert_with_ttl now k v ttl c in
  cache_ok c' /\ recency c' = spec_insert k (max_size c) (recency c).
Proof.
  intros Hc. unfold insert_with_ttl, spec_insert. rewrite (bool_decide_ext _ (k ∈ recency c)) by by rewrite recency_elem.
  set (e := {| ce_value := v; expires_at := _ |}).
  assert (length (recency c) = size (cache c)) as Hlen by (destruct Hc; by apply present_length).
  set (c1 := if _ && _ then evict_lru c else c).
  assert (cache_ok c1 /\ max_size c1 = max_size c /\
          recency c1 = (if decide (k ∈ recency c) then recency c
                        else if (max_size c <=? length (recency c))%nat then tail (recency c) else recency c) /\
          (size (cache c1) <= (if decide (k ∈ recency c1) then Nat.max 1 (max_size c) else Nat.max 1 (max_size c) - 1))%nat)
    as (Hok & Hmax & Hrec & Hsz).
  { subst c1. pose proof (evict_lru_spec c Hc) as (Hok & Hr & Hs & _). pose proof (ok_size _ Hc).
    assert (max_size (evict_lru c) = max_size c) as Hm by (unfold evict_lru; by destruct (evict_loop _ _)).
    rewrite Hlen. destruct (decide (k ∈ recency c)) as [Hk|Hk].
    - rewrite bool_decide_true by done. simpl. rewrite decide_True by done. by split_and!.
    - rewrite bool_decide_false by done. simpl. destruct (Nat.leb_spec (max_size c) (size (cache c))).
      + split_and!; [done..|]. rewrite decide_False; [lia|]. rewrite Hr. intros Hin. apply Hk.
        destruct (recency c); [done|]. by right.
      + split_and!; [done..|]. rewrite decide_False by done. lia. }
  clearbody c1. clear Hlen. rewrite <- Hrec. clear Hrec. destruct Hok as [Hn Hd Hs].
  destruct (update_ok (with_entries c1 (<[k:=e]> (delete k (cache c1)))) k) as [Hok Hr]; simpl.
  - done.
  - intros x Hx. destruct (decide (x = k)) as [->|Hne]; [by right|left]. apply Hd.
    by rewrite lookup_insert_ne, lookup_delete_ne in Hx by done.
  - rewrite map_size_insert_None by apply lookup_delete_eq. rewrite map_size_delete, Hmax.
    assert (k ∈ recency c1 <-> is_Some (cache c1 !! k)) as Hin by (apply recency_elem; by constructor).
    destruct (cache c1 !! k) eqn:E.
    + pose proof (map_size_ne_0_lookup_2 (cache c1) k (ltac:(by rewrite E))).
      rewrite decide_True in Hsz by by apply Hin. lia.
    + rewrite decide_False in Hsz by (rewrite Hin; by intros []). simpl in *. lia.
  - by rewrite lookup_insert_eq.
  - split; [exact Hok|]. etrans; [exact Hr|]. simpl. f_equal.
    rewrite present_insert_absent by (rewrite list_elem_of_filter; naive_solver).
    rewrite present_delete. unfold recency, present. rewrite !list_filter_filter.
    apply list_filter_iff. naive_solver.
Qed.

Lemma clear_ok c : cache_ok c -> cache_ok (prompt_cache_clear c).
Proof. intros _. constructor; simpl; [constructor| |rewrite map_size_empty; lia]. intros k [x Hx]. by rewrite lookup_empty in Hx. Qed.

Lemma removes_ok dead : forall c, cache_ok c -> cache_ok (with_entries c (foldl (fun m k => delete k m) (cache c) dead)).
Proof.
  induction dead as [|k dead IH]; intros c Hc; simpl; [by destruct c|].
  apply (IH (prompt_cache_remove k c).2). by apply remove_ok.
Qed.

(** ** Refinement *)

(** The entries that are present, in the order of access. *)
Definition lru_of c : Lru := omap (fun k => pair k <$> cache c !! k) (lru_order c).

Lemma lru_keys c : (lru_of c).*1 = recency c.
Proof.
  unfold lru_of, recency, present. induction (lru_order c) as [|k l IH]; [done|]. rewrite filter_cons. simpl.
  destruct (decide (is_Some (cache c !! k))) as [[e E]|E%eq_None_not_Some]; rewrite E; simpl; [by f_equal|exact IH].
Qed.
Lemma elem_of_lru c k e : cache_ok c -> (k, e) ∈ lru_of c <-> cache c !! k = Some e.
Proof.
  intros Hc. unfold lru_of. rewrite list_elem_of_omap. split.
  - intros (x & _ & Hx). destruct (cache c !! x) as [e'|] eqn:E; [|done]. simpl in Hx. by simplify_eq.
  - intros E. exists k. rewrite E. split; [|done]. by apply Hc.
Qed.
Lemma lru_nodup c : cache_ok c -> NoDup (lru_of c).*1.
Proof. intros Hc. rewrite lru_keys. apply NoDup_filter, Hc. Qed.

(** The abstraction is known from its keys and the entries under them. *)
Lemma lru_of_is c (l : Lru) : recency c = l.*1 -> (forall k e, (k, e) ∈ l -> cache c !! k = Some e) -> lru_of c = l.
Proof.
  rewrite <- lru_keys. unfold lru_of. generalize (lru_order c). intros q. revert l.
  induction q as [|k q IH]; intros l Hk He; simpl in *.
  - by destruct l.
  - destruct (cache c !! k) as [e|] eqn:E; simpl in *; [|by apply IH].
    destruct l as [|[k' e'] l]; simplify_eq/=. specialize (He k' e') as Hx.
    rewrite (Hx (ltac:(left))) in E. simplify_eq. f_equal. apply IH; [done|]. intros. apply He. by right.
Qed.

Lemma lru_find c k : cache_ok c -> find_entry k (lru_of c) = cache c !! k.
Proof.
  intros Hc. unfold find_entry. destruct (head (filter (fun x => x.1 = k) (lru_of c))) as [[k' e]|] eqn:E; simpl.
  - assert ((k', e) ∈ filter (fun x => x.1 = k) (lru_of c)) as Hin by (destruct (filter _ _); simplify_eq/=; left).
    apply list_elem_of_filter in Hin as [Hk Hin]. simpl in Hk. subst. symmetry. by apply elem_of_lru.
  - destruct (cache c !! k) as [e|] eqn:Ek; [|done]. apply elem_of_lru in Ek; [|done].
    assert ((k, e) ∈ filter (fun x => x.1 = k) (lru_of c)) as Hin by (by apply list_elem_of_filter).
    destruct (filter _ _); [by apply elem_of_nil in Hin|done].
Qed.

Lemma without_keys k (l : Lru) : (without k l).*1 = filter (fun x => x <> k) l.*1.
Proof.
  unfold without. induction l as [|[x e] l IH]; [done|]. csimpl. rewrite !filter_cons. simpl.
  destruct (decide (x <> k)); csimpl; by rewrite IH.
Qed.
Lemma lru_length c : cache_ok c -> length (lru_of c) = size (cache c).
Proof. intros Hc. rewrite <- (length_fmap fst), lru_keys. by destruct Hc; apply present_length. Qed.

Lemma remove_lru c k : cache_ok c -> lru_of (prompt_cache_remove k c).2 = without k (lru_of c).
Proof.
  intros Hc. apply lru_of_is.
  - rewrite without_keys, lru_keys. by apply remove_ok.
  - intros x e [Hx Hin]%list_elem_of_filter. simpl in *. rewrite lookup_delete_ne by done. by apply elem_of_lru in Hin.
Qed.
Lemma touch_lru c k e : cache_ok c -> cache c !! k = Some e ->
  cache_ok (update_lru_access k c) /\ lru_of (update_lru_access k c) = (without k (lru_of c) ++ [(k, e)])%list.
Proof.
  intros Hc Hk. destruct (update_ok c k) as [Hok Hr]; [apply Hc|intros x Hx; left; by apply Hc|apply Hc|by rewrite Hk|].
  split; [done|]. apply lru_of_is.
  - rewrite Hr, fmap_app, without_keys, lru_keys. unfold recency, present. rewrite !list_filter_filter. f_equal.
    apply list_filter_iff. naive_solver.
  - intros x f [[_ Hin]%list_elem_of_filter|[= -> ->]%list_elem_of_singleton]%elem_of_app; [|done]. by apply elem_of_lru in Hin.
Qed.

(** What an insertion leaves under the other keys. *)
Lemma insert_lookup now k v ttl c x : cache_ok c ->
  cache (insert_with_ttl now k v ttl c) !! x =
  if decide (x = k) then Some {| ce_value := v; expires_at := (now + ttl)%Z |}
  else if negb (holds k (lru_of c)) && (max_size c <=? length (lru_of c))%nat && bool_decide (head (recency c) = Some x) then None
  else cache c !! x.
Proof.
  intros Hc. unfold insert_with_ttl. simpl. destruct (decide (x = k)) as [->|Hx]; [by rewrite lookup_insert_eq|].
  rewrite lookup_insert_ne, lookup_delete_ne by done. rewrite lru_length by done.
  assert (holds k (lru_of c) = bool_decide (is_Some (cache c !! k))) as ->.
  { unfold holds. rewrite lru_keys. apply bool_decide_ext. by apply recency_elem. }
  destruct (negb _ && _) eqn:E; [|done]. simpl. pose proof (evict_lru_spec c Hc) as (_ & _ & _ & Hl). rewrite Hl.
  destruct (decide (head (recency c) = Some x)); [by rewrite bool_decide_true|by rewrite bool_decide_false].
Qed.

Lemma insert_lru now k v ttl c : cache_ok c ->
  lru_of (insert_with_ttl now k v ttl c) = lru_insert (max_size c) k {| ce_value := v; expires_at := (now + ttl)%Z |} (lru_of c).
Proof.
  intros Hc. destruct (insert_ok now k v ttl c Hc) as [_ Hr]. apply lru_of_is.
  - rewrite Hr. unfold lru_insert, spec_insert, holds. rewrite fmap_app, without_keys, <- lru_keys, length_fmap. f_equal. f_equal.
    destruct (decide (k ∈ (lru_of c).*1)); [by rewrite bool_decide_true|rewrite bool_decide_false by done].
    destruct (max_size c <=? length (lru_of c))%nat; [|done]. by destruct (lru_of c).
  - intros x e Hin. rewrite insert_lookup by done. unfold lru_insert in Hin.
    apply elem_of_app in Hin as [[Hx Hin]%list_elem_of_filter|[= -> ->]%list_elem_of_singleton]; [|by rewrite decide_True].
    simpl in Hx. rewrite decide_False by done. pose proof (lru_nodup c Hc) as Hn. rewrite <- lru_keys.
    destruct (holds k (lru_of c)) eqn:Eh; simpl; [by apply elem_of_lru in Hin|].
    destruct (max_size c <=? length (lru_of c))%nat eqn:El; simpl; [|by apply elem_of_lru in Hin].
    rewrite bool_decide_false; [apply elem_of_lru; [done|]; destruct (lru_of c); [done|]; by right|].
    destruct (lru_of c) as [|[y f] l]; [by apply elem_of_nil in Hin|]. simpl in *. apply NoDup_cons in Hn as [Hn _].
    intros [= ->]. apply Hn. apply list_elem_of_fmap. by exists (x, e).
Qed.

Lemma deletes_lookup dead : forall m k, foldl (fun m k => delete k m) m dead !! k = if decide (k ∈ dead) then None else m !! k.
Proof.
  induction dead as [|x dead IH]; intros m k; [by rewrite decide_False by apply not_elem_of_nil|]. cbn [foldl].
  rewrite IH. destruct (decide (k = x)) as [->|Hx].
  - rewrite lookup_delete_eq, (decide_True (P := x ∈ x :: dead)) by left. by destruct (decide _).
  - rewrite lookup_delete_ne by done. destruct (decide (k ∈ dead)); [by rewrite (decide_True (P := k ∈ x :: dead)) by (by right)|].
    rewrite (decide_False (P := k ∈ x :: dead)); [done|]. by intros [|]%elem_of_cons.
Qed.
Lemma lru_permutation c : cache_ok c -> map_to_list (cache c) ≡ₚ lru_of c.
Proof.
  intros Hc. apply NoDup_Permutation.
  - apply NoDup_map_to_list.
  - apply (NoDup_fmap_1 fst). by apply lru_nodup.
  - intros [k e]. rewrite elem_of_map_to_list. symmetry. by apply elem_of_lru.
Qed.

(** The keys that [evict_expired] collects. *)
Definition dead_keys (now : Z) c : list K :=
  filterb (fun k => match cache c !! k with Some e => (expires_at e <? now)%Z | None => false end) (map_to_list (cache c)).*1.
Lemma elem_of_dead_keys now c k : k ∈ dead_keys now c <-> exists e, cache c !! k = Some e /\ dead_at now e = true.
Proof.
  unfold dead_keys, dead_at. rewrite elem_of_filterb, list_elem_of_fmap. split.
  - intros [([x e] & -> & Hin%elem_of_map_to_list) Hd]. simpl in *. rewrite Hin in Hd. by exists e.
  - intros (e & Hk & Hd). rewrite Hk. split; [|done]. exists (k, e). by rewrite elem_of_map_to_list.
Qed.
Lemma dead_keys_length now c : cache_ok c ->
  length (dead_keys now c) = length (filter (fun x => dead_at now x.2 = true) (lru_of c)).
Proof.
  intros Hc. rewrite <- (lru_permutation c Hc). unfold dead_keys.
  assert (forall k e, (k, e) ∈ map_to_list (cache c) -> cache c !! k = Some e) as Hl by (intros; by apply elem_of_map_to_list).
  revert Hl. generalize (map_to_list (cache c)). induction l as [|[k e] l IH]; intros Hl; [done|].
  rewrite filter_cons. csimpl. rewrite (Hl k e) by left. fold (dead_at now e). specialize (IH (fun k e H => Hl k e (list_elem_of_further _ _ _ H))).
  destruct (dead_at now e); simpl; rewrite IH; done.
Qed.
Lemma evict_expired_lru now c : cache_ok c ->
  lru_of (evict_expired now c).2 = filter (fun x => dead_at now x.2 = false) (lru_of c).
Proof.
  intros Hc. unfold evict_expired. fold (dead_keys now c). simpl. apply lru_of_is.
  - unfold recency, present. simpl. unfold lru_of.
    assert (forall x, is_Some (foldl (fun m k => delete k m) (cache c) (dead_keys now c) !! x) <->
                      exists e, cache c !! x = Some e /\ dead_at now e = false) as Hl.
    { intros x. rewrite deletes_lookup. destruct (decide (x ∈ dead_keys now c)) as [Hd|Hd]; rewrite elem_of_dead_keys in Hd.
      - split; [by intros []|]. destruct Hd as (e & E & Hd). intros (e' & E' & Hd'). congruence.
      - split; [intros [e E]; exists e; split; [done|]; destruct (dead_at now e) eqn:Ed; [destruct Hd; eauto|done]|].
        intros (e & E & _). by exists e. }
    induction (lru_order c) as [|x l IH]; [done|]. rewrite filter_cons. simpl. destruct (cache c !! x) as [e|] eqn:E; simpl.
    + rewrite filter_cons. simpl. specialize (Hl x). rewrite E in Hl.
      destruct (decide (dead_at now e = false)) as [Hd|Hd].
      * rewrite decide_True by (apply Hl; eauto). simpl. by f_equal.
      * rewrite decide_False; [done|]. intros (e' & [= <-] & ?)%Hl. done.
    + rewrite decide_False; [done|]. intros (e' & E' & _)%Hl. congruence.
  - intros k e [Hd Hin]%list_elem_of_filter. simpl in *. apply elem_of_lru in Hin; [|done]. rewrite deletes_lookup, decide_False; [done|].
    rewrite elem_of_dead_keys. intros (e' & E & Hd'). congruence.
Qed.

(** One operation: the invariant stays, the answers agree and the abstraction is the abstract
    cache's. *)
Lemma cache_op_refines o c : cache_ok c ->
  let '(a, c') := prompt_cache_op o c in
  cache_ok c' /\ max_size c' = max_size c /\ lru_op (max_size c) o (lru_of c) = (a, lru_of c').
Proof.
  intros Hc. destruct o as [now k v ttl|now k|now k|k| | |now]; simpl.
  - split_and!; [by apply insert_ok| |by rewrite insert_lru].
    unfold insert_with_ttl, evict_lru. simpl. case_match; [|done]. by destruct (evict_loop _ _).
  - rewrite lru_find by done. unfold prompt_cache_get. destruct (cache c !! k) as [e|] eqn:E; [|done]. fold (dead_at now e).
    destruct (dead_at now e); simpl.
    + split_and!; [by apply remove_ok|done|]. f_equal. symmetry. by apply remove_lru.
    + destruct (touch_lru c k e Hc E) as [Hok Hl]. split_and!; [done|done|]. by rewrite Hl.
  - rewrite lru_find by done. unfold prompt_cache_contains_key. destruct (cache c !! k) as [e|] eqn:E; [|done].
    unfold dead_at. rewrite Z.ltb_antisym. destruct (now <=? expires_at e)%Z; simpl; [done|].
    split_and!; [by apply remove_ok|done|]. f_equal. symmetry. by apply remove_lru.
  - split_and!; [by apply remove_ok|done|]. rewrite lru_find by done. f_equal. symmetry. by apply remove_lru.
  - by rewrite lru_length.
  - split_and!; [by apply clear_ok|done|done].
  - split_and!; [by apply removes_ok|done|]. rewrite <- dead_keys_length by done. f_equal. symmetry. by apply evict_expired_lru.
Qed.

Lemma cache_run_refines ops : forall c, cache_ok c ->
  let '(answers, c') := run_ops prompt_cache_op ops c in
  cache_ok c' /\ max_size c' = max_size c /\ run_ops (lru_op (max_size c)) ops (lru_of c) = (answers, lru_of c').
Proof.
  induction ops as [|o ops IH]; intros c Hc; simpl; [done|].
  pose proof (cache_op_refines o c Hc) as Ho. destruct (prompt_cache_op o c) as [a c1]. destruct Ho as (Hc1 & Hm & Ho).
  specialize (IH c1 Hc1). destruct (run_ops prompt_cache_op ops c1) as [answers c2]. destruct IH as (Hc2 & Hm2 & IH).
  split_and!; [done|congruence|]. rewrite Ho. rewrite Hm in IH. by rewrite IH.
Qed.

Lemma with_config_ok cap ttl : cache_ok (with_config cap ttl).
Proof. constructor; simpl; [constructor| |rewrite map_size_empty; lia]. intros k [x Hx]. by rewrite lookup_empty in Hx. Qed.

(** C32: the prompt cache refines a least-recently-used cache whose entries expire.  Along any
    sequence of its operations and readings of the clock its answers are those of one list of
    entries in the order of use: an insertion queues its entry last, and when the key is new
    and the list full drops the first; a hit queues its entry last; what is past its deadline
    is not there for a reader, who takes it out; a key is removed, the list cleared, the
    expired entries taken out and counted.  What is held at the end are the entries of that
    list, one for a key, never more than [max_size] (one, when [max_size] is 0).  The stale
    keys the access order keeps do not show. *)
Theorem prompt_cache_refines_lru cap ttl ops :
  let '(answers, c) := run_ops prompt_cache_op ops (with_config cap ttl) in
  let '(answers', l) := run_ops (lru_op cap) ops [] in
  answers = answers' /\ NoDup l.*1 /\ (length l <= Nat.max 1 cap)%nat /\ map_to_list (cache c) ≡ₚ l.
Proof.
  pose proof (cache_run_refines ops (with_config cap ttl) (with_config_ok cap ttl)) as Hr.
  destruct (run_ops prompt_cache_op ops (with_config cap ttl)) as [answers c]. destruct Hr as (Hc & Hm & Hr).
  change (max_size (with_config cap ttl)) with cap in *. change (lru_of (with_config cap ttl)) with ([] : Lru) in Hr. rewrite Hr.
  split_and!; [done|by apply lru_nodup| |by apply lru_permutation]. rewrite lru_length, <- Hm by done. apply Hc.
Qed.
End Cache.

(** A full cache of two: the entry used longest ago goes, and an expired one is a miss. *)
Example prompt_cache_evicts :
  (run_ops prompt_cache_op [OpInsert 0 1 11 10; OpInsert 0 2 22 10; OpGet 1 1; OpInsert 2 3 33 5; OpContains 3 2; OpGet 8 3; OpGet 8 1; OpLen]
     (with_config (K := nat) (V := nat) 2 10)).1 =
  [ADone; ADone; AValue (Some 11); ADone; ABool false; AValue None; AValue (Some 11); ACount 1].
Proof. vm_compute. reflexivity. Qed.

(** The access order leaks: an expired entry leaves the map when it is read, its key stays. *)
Definition read_after_expiry (n : nat) : list (CacheOp (K := nat) (V := unit)) :=
  flat_map (fun k => [OpInsert 0 k () 1; OpGet 2 k]) (seq 0 n).

(** The order of access is not bounded by [max_size]: with room for one entry, [n] keys that
    are each inserted and read once after they expired leave an empty map and [n] queued keys. *)
Theorem access_order_leaks n :
  let c := foldl (fun c o => (prompt_cache_op o c).2) (with_config 1 1) (read_after_expiry n) in
  cache c = ∅ /\ length (lru_order c) = n.
Proof.
  simpl. enough (forall n, let c := foldl (fun c o => (prompt_cache_op o c).2) (with_config 1 1) (read_after_expiry n) in
    cache c = ∅ /\ max_size c = 1%nat /\ lru_order c = seq 0 n) as He.
  { destruct (He n) as (? & _ & Hl). split; [done|]. rewrite Hl. apply length_seq. }
  clear n. induction n as [|n IH]; [done|]. unfold read_after_expiry in *. rewrite seq_S, flat_map_app, foldl_app.
  simpl in *. destruct IH as (Hc & Hm & Hl). set (c := foldl _ _ _) in *. unfold insert_with_ttl.
  rewrite Hc, Hm, map_size_empty, lookup_empty. simpl. unfold prompt_cache_get. simpl. rewrite lookup_insert_eq. simpl.
  rewrite Hm, Hl. split_and!; [|done|].
  - rewrite Hc, delete_empty. apply map_empty. intros k. destruct (decide (k = n)) as [->|?].
    + by rewrite lookup_delete_eq.
    + by rewrite lookup_delete_ne, lookup_insert_ne.
  - f_equal. assert (n ∉ seq 0 n) as Hn by (rewrite elem_of_seq; lia). revert Hn. generalize (seq 0 n). clear.
    induction l as [|x l IH]; [done|]. intros [? ?]%not_elem_of_cons. simpl. rewrite decide_False by done. by rewrite IH.
Qed.

(** ** Two threads

    A [DashMap] keeps its entries in shards, each behind a reader-writer lock: [get] returns a
    guard that holds the shard's read lock until it is dropped, [contains_key] holds it for
    the call, [remove] takes the write lock.  [shard] is which shard a key lies in. *)

Section Locks.
Context {K : Type} (shard : K -> nat).

Inductive action : Type :=
| LockQueue | UnlockQueue
| ReadShard (s : nat) | UnreadShard (s : nat)
| WriteShard (s : nat) | UnwriteShard (s : nat).

(** The guard of the entry lives to the end of [get], across the call of [update_lru_access].
    [godwit-providers/src/prompt_cache.rs:82-94] [PromptCache::get] *)
Definition get_hit (k : K) : list action :=
  [ReadShard (shard k); LockQueue; UnlockQueue; UnreadShard (shard k)].
(** The first queued key is [k] and is present.
    [godwit-providers/src/prompt_cache.rs:153-161] [PromptCache::evict_lru] *)
Definition evict_present (k : K) : list action :=
  [LockQueue; ReadShard (shard k); UnreadShard (shard k); WriteShard (shard k); UnwriteShard (shard k); UnlockQueue].

Record LockState : Type := { queue_held : bool; shard_readers : list nat; shard_writers : list nat }.
Definition unlocked : LockState := {| queue_held := false; shard_readers := []; shard_writers := [] |}.

Definition act (a : action) (s : LockState) : option LockState :=
  match a with
  | LockQueue => if queue_held s then None
                 else Some {| queue_held := true; shard_readers := shard_readers s; shard_writers := shard_writers s |}
  | UnlockQueue => Some {| queue_held := false; shard_readers := shard_readers s; shard_writers := shard_writers s |}
  | ReadShard n => if bool_decide (n ∈ shard_writers s) then None
                   else Some {| queue_held := queue_held s; shard_readers := n :: shard_readers s; shard_writers := shard_writers s |}
  | UnreadShard n => Some {| queue_held := queue_held s; shard_readers := remove_first n (shard_readers s); shard_writers := shard_writers s |}
  | WriteShard n => if bool_decide (n ∈ shard_readers s) || bool_decide (n ∈ shard_writers s) then None
                    else Some {| queue_held := queue_held s; shard_readers := shard_readers s; shard_writers := n :: shard_writers s |}
  | UnwriteShard n => Some {| queue_held := queue_held s; shard_readers := shard_readers s; shard_writers := remove_first n (shard_writers s) |}
  end.

Inductive lock_step : list action * list action * LockState -> list action * list action * LockState -> Prop :=
| step_left a p q s s' : act a s = Some s' -> lock_step (a :: p, q, s) (p, q, s')
| step_right a p q s s' : act a s = Some s' -> lock_step (p, a :: q, s) (p, q, s').

(** A hit on one key and an eviction of another that lies in the same shard can block each
    other forever: the first holds the shard and waits for the queue, the second holds the
    queue and waits for the shard. *)
Theorem cache_can_deadlock k victim :
  shard k = shard victim ->
  exists p q s, rtc lock_step (get_hit k, evict_present victim, unlocked) (p, q, s) /\
    p <> [] /\ q <> [] /\ (forall st, ~ lock_step (p, q, s) st).
Proof.
  intros E. unfold get_hit, evict_present. rewrite <- E. generalize (shard k). clear. intros n.
  exists [LockQueue; UnlockQueue; UnreadShard n], [WriteShard n; UnwriteShard n; UnlockQueue],
    {| queue_held := true; shard_readers := [n]; shard_writers := [] |}.
  split_and!; [|done|done|].
  - eapply rtc_l; [apply step_right; reflexivity|]. eapply rtc_l; [apply step_left; reflexivity|].
    eapply rtc_l; [apply step_right; reflexivity|]. eapply rtc_l; [apply step_right; simpl; by rewrite decide_True|].
    apply rtc_refl.
  - intros st Hs. inversion Hs as [? ? ? ? ? Ha|? ? ? ? ? Ha]; subst; simpl in Ha; [done|].
    by rewrite bool_decide_true in Ha by by left.
Qed.
End Locks.

Lemma cache_can_deadlock_witness :
  exists p q s, rtc lock_step (get_hit (fun k => Nat.modulo k 4) 1%nat, evict_present (fun k => Nat.modulo k 4) 5%nat, unlocked) (p, q, s) /\
    p <> [] /\ q <> [] /\ (forall st, ~ lock_step (p, q, s) st).
Proof. by apply (cache_can_deadlock (fun k => Nat.modulo k 4) 1%nat 5%nat). Defined.
