(* ===== verification/Proxy.v ===== *)
(** * The OpenAI-compatible endpoints

    [godwit-api/src/proxy.rs] and [godwit-api/src/fallback.rs]: a request is resolved to a
    model, checked against the rate limits and the budgets, sent to the model's backend and,
    when that fails, to the models its configuration names as fallbacks; what succeeded is
    logged and its latency recorded.

    The state [Proxy] is the part of the application state these handlers change: database,
    load balancer, rate limiter, the world outside, and the log writes handed to background
    tasks. *)

From stdpp Require Import base strings list gmap.
From Stdlib Require Import QArith SpecFloat.
From S2P Require Import Prelude RustStr Json Core Limiter Balancer Db Router Resilience Usage Backend.

#[local] Open Scope string_scope.
#[local] Open Scope Z_scope.

(** [godwit-api/src/proxy.rs:1591-1610] [RequestLogEntry] *)
Record RequestLogEntry : Type := {
  le_api_key_id : Uuid;
  le_user_id : Uuid;
  le_organization_id : Uuid;
  le_team_id : option Uuid;
  le_model : string;
  le_provider : string;
  le_provider_model_id : string;
  le_capability : string;
  le_duration_ms : Z;
  le_streamed : bool;
  le_status : string;
  le_cost_usd : option Q;
  le_tags : list string;
  le_attempt_number : Z;
  le_fallback_triggered : bool;
  le_tool_calls_count : option Z;
  le_agentic_iteration : option Z;
}.

Section Proxy.
Context `{Cr : Crypto} `{JT : JsonText} `{Sc : Schemas} `{De : Decimals} `{F : F64} {A W Es : Type}.
Context `{Wo : !World W} `{Ad : !Adapter A W Es}.
Context (registry : AdapterRegistry A) (master_key : string).

Record Proxy : Type := {
  px_db : Db;
  px_lb : LoadBalancer;
  px_limiter : RateLimiter F;
  px_world : W;
  px_logs : list RequestLogEntry;   (* spawned inserts, oldest first *)
}.

Abbreviation PROXY := (ST Proxy (failure ApiError)).

Definition on_db_api {T} (m : ST Db ApiError T) : PROXY T :=
  st_map_err Failed (zoom px_db (fun d s =>
    {| px_db := d; px_lb := px_lb s; px_limiter := px_limiter s; px_world := px_world s; px_logs := px_logs s |}) m).
Definition on_flight (f : LoadBalancer -> LoadBalancer) : PROXY unit :=
  modify (fun s => {| px_db := px_db s; px_lb := f (px_lb s); px_limiter := px_limiter s; px_world := px_world s;
                      px_logs := px_logs s |}).
Definition on_limiter {E T} (g : E -> ApiError) (m : ST (RateLimiter F) E T) : PROXY T :=
  st_map_err (fun e => Failed (g e)) (zoom px_limiter (fun l s =>
    {| px_db := px_db s; px_lb := px_lb s; px_limiter := l; px_world := px_world s; px_logs := px_logs s |}) m).
Definition tick_world : PROXY unit :=
  modify (fun s => {| px_db := px_db s; px_lb := px_lb s; px_limiter := px_limiter s; px_world := tick (px_world s);
                      px_logs := px_logs s |}).

(** A call to a backend; its error is handed to the caller as a value. *)
Definition on_world {T} (m : ST W ProviderError T) : PROXY (result ProviderError T) := fun s =>
  let '(r, w) := m (px_world s) in
  (Ok r, {| px_db := px_db s; px_lb := px_lb s; px_limiter := px_limiter s; px_world := w; px_logs := px_logs s |}).

(** [state.model_router.resolve(..)], with the router's own errors. *)
Definition resolve_raw (model_ref : string) (c : Capability) : ST Proxy (failure PasteurError) (ResolvedModel A) :=
  zoom (fun s => {| r_db := px_db s; r_lb := px_lb s |})
       (fun rs s => {| px_db := r_db rs; px_lb := r_lb rs; px_limiter := px_limiter s; px_world := px_world s;
                       px_logs := px_logs s |})
       (resolve registry master_key model_ref c).
(** [state.model_router.resolve(..).await?] *)
Definition resolve_model (model_ref : string) (c : Capability) : PROXY (ResolvedModel A) :=
  st_map_err (fun e => match e with Failed e => Failed (api_error_from e) | Panic => Panic end)
    (resolve_raw model_ref c).

(** Run [m] while a resolved model is in scope, and drop its guard at the end, whatever the
    outcome. *)
Definition holding {T} (rm : ResolvedModel A) (m : PROXY T) : PROXY T :=
  catch m (fun r => on_flight (drop_resolved rm);; lift r).
(** The same, when a success leaves the model in scope. *)
Definition holding_on_error {T} (rm : ResolvedModel A) (m : PROXY T) : PROXY T :=
  catch m (fun r => match r with Ok x => mret x | Err e => on_flight (drop_resolved rm);; throw e end).

(** ** Checks *)

(** [godwit-api/src/proxy.rs:173-198] [check_rate_limit] *)
Definition check_rate_limit (key : ApiKey) (model : Model) (estimated_tokens : Z) : PROXY unit :=
  org ← on_db_api (st_map_err CoreError (org_get_by_id (key_organization_id key)));
  clock ← gets (fun s => readings (px_world s));
  tick_world;;
  on_limiter (fun e => RateLimited e.2)
    (check_and_consume clock (key_id key) (key_organization_id key) (public_id model)
       (key_rpm key) (key_tpm key) (org_rpm org) (org_tpm org) estimated_tokens).

(** [godwit-api/src/proxy.rs:200-210] [check_user_budget] *)
Definition check_user_budget (key : ApiKey) : PROXY unit :=
  on_db_api (check_end_user_budget (key_user_id key) (key_organization_id key)).

(** [godwit-api/src/proxy.rs:212-221] [check_team_budget] *)
Definition check_team_budget_of (key : ApiKey) : PROXY unit :=
  match key_team_id key with
  | Some team => on_db_api (check_team_budget team)
  | None => mret tt
  end.

(** [godwit-api/src/proxy.rs:665-667] [embeddings] *)
Definition admission_checks (key : ApiKey) (model : Model) (estimated_tokens : Z) : PROXY unit :=
  check_rate_limit key model estimated_tokens;;
  check_user_budget key;;
  check_team_budget_of key.

(** ** The endpoints that take one backend call *)

(** [start.elapsed().as_millis() as i32] *)
Definition elapsed_ms (start : Z) : PROXY Z :=
  t ← gets (fun s => now (px_world s));
  tick_world;;
  mret (as_i32 ((t - start) / 1000000)).

(** [godwit-api/src/proxy.rs:1563-1589] [spawn_request_log] *)
Definition spawn_request_log (entry : RequestLogEntry) : PROXY unit :=
  modify (fun s => {| px_db := px_db s; px_lb := px_lb s; px_limiter := px_limiter s; px_world := px_world s;
                      px_logs := (px_logs s ++ [entry])%list |}).

(** [godwit-api/src/proxy.rs:722-745] [embeddings] *)
Definition log_entry (key : ApiKey) (m : Model) (c : Capability) (duration_ms : Z) (cost_usd : option Q)
  : RequestLogEntry :=
  {| le_api_key_id := key_id key; le_user_id := key_user_id key; le_organization_id := key_organization_id key;
     le_team_id := key_team_id key; le_model := public_id m; le_provider := model_provider m;
     le_provider_model_id := provider_model_id m; le_capability := capability_as_str c;
     le_duration_ms := duration_ms; le_streamed := false; le_status := "success"; le_cost_usd := cost_usd;
     le_tags := []; le_attempt_number := 1; le_fallback_triggered := false; le_tool_calls_count := None;
     le_agentic_iteration := None |}.

(** A cost that panics ends the request after the backend was called, before the log.
    [godwit-api/src/proxy.rs:720-754] [embeddings] *)
Definition finish {B} (key : ApiKey) (c : Capability) (start : Z) (used : B * UsageReport * Model) : PROXY B :=
  let '(body, usage, used_model) := used in
  cost_usd ← lift (ok_or Panic (compute_cost (pricing used_model) c usage));
  duration_ms ← elapsed_ms start;
  spawn_request_log (log_entry key used_model c duration_ms cost_usd);;
  (if negb (is_id (model_id used_model) nil_uuid) then
     latency ← elapsed_ms start;
     on_flight (record_latency (model_id used_model) (b64 latency))
   else mret tt);;
  mret body.

Section OneCall.
Context {B : Type} (what : string) (c : Capability) (call : ResolvedModel A -> ST W ProviderError (B * UsageReport)).

(** A fallback: its own rate limit, then the call; the error of the limiter or of the call
    is a value.
    [godwit-api/src/proxy.rs:689-705] [embeddings] *)
Definition try_fallback (key : ApiKey) (resolved : ResolvedModel A)
  : PROXY (result (ApiError + ProviderError) (B * UsageReport * Model)) :=
  holding resolved (catch (check_rate_limit key (rm_model resolved) 1) (fun r =>
    match r with
    | Err (Failed rl_err) => mret (Err (inl rl_err))
    | Err Panic => throw Panic
    | Ok _ =>
      r ← on_world (call resolved);
      match r with
      | Ok (resp, usage) => mret (Ok (resp, usage, rm_model resolved))
      | Err err => mret (Err (inr err))
      end
    end)).

(** [godwit-api/src/proxy.rs:676-719] [embeddings] *)
Fixpoint fallbacks (key : ApiKey) (chain : list string) (rate_limited_err : option ApiError)
    (last_err : option ProviderError) : PROXY (B * UsageReport * Model) :=
  match chain with
  | [] =>
    match rate_limited_err with
    | Some rl_err => throw (Failed rl_err)
    | None => throw (Failed (map_provider_error (default (ProviderFailed (what +:+ " failed on all providers")) last_err)))
    end
  | fallback_id :: chain =>
    catch (resolve_model fallback_id c) (fun r =>
      match r with
      | Ok resolved =>
        r ← try_fallback key resolved;
        match r with
        | Ok used => mret used
        | Err (inl rl_err) => fallbacks key chain (Some rl_err) last_err
        | Err (inr err) => fallbacks key chain rate_limited_err (Some err)
        end
      | Err (Failed _) => fallbacks key chain rate_limited_err last_err
      | Err Panic => throw Panic
      end)
  end.

(** The five handlers below are this text with another call.
    [godwit-api/src/proxy.rs:652-755] [embeddings] *)
Definition serve (key : ApiKey) (model_ref : string) : PROXY B :=
  start ← gets (fun s => now (px_world s));
  primary ← resolve_model model_ref c;
  let fallback_chain := router_fallback_chain (rm_model primary) in
  holding_on_error primary (admission_checks key (rm_model primary) 1);;
  r ← on_world (call primary);
  match r with
  | Ok (resp, usage) => holding primary (finish key c start (resp, usage, rm_model primary))
  | Err e =>
    on_flight (drop_resolved primary);;
    used ← fallbacks key fallback_chain None (Some e);
    finish key c start used
  end.
End OneCall.

(** [godwit-api/src/proxy.rs:652-755] [embeddings] *)
Definition embeddings (key : ApiKey) (req : EmbeddingRequest) : PROXY ProviderResponse :=
  serve "embedding" Embedding (call_embedding req) key (emb_model req).

(** [godwit-api/src/proxy.rs:781-886] [image_generations] *)
Definition image_generations (key : ApiKey) (req : ImageGenerationRequest) : PROXY ProviderResponse :=
  serve "image generation" ImageGeneration (call_image_generation req) key (ig_model req).

(** [godwit-api/src/proxy.rs:912-1017] [audio_speech] *)
Definition audio_speech (key : ApiKey) (req : AudioTtsRequest) : PROXY ProviderResponse :=
  serve "audio speech" AudioTts (call_audio_speech req) key (tts_model req).

(** ** Multipart forms *)

(** A field as axum's [Multipart] hands it out; reading its body as text or as bytes may
    fail. *)
Record Field : Type := {
  f_name : option string; f_file_name : option string; f_content_type : option string;
  f_text : option string; f_bytes : result string string }.

(** The form so far; the audio form uses its first five entries, the image form all but
    [fm_language] and [fm_content_type]. *)
Record Form : Type := {
  fm_model : option string; fm_language : option string; fm_response_format : option string;
  fm_file : option string; fm_filename : string; fm_content_type : string;
  fm_prompt : option string; fm_n : option Z; fm_size : option string; fm_mask : option string }.

Definition form0 (filename : string) : Form :=
  {| fm_model := None; fm_language := None; fm_response_format := None; fm_file := None;
     fm_filename := filename; fm_content_type := "application/octet-stream";
     fm_prompt := None; fm_n := None; fm_size := None; fm_mask := None |}.
Definition set_model x f := {| fm_model := x; fm_language := fm_language f; fm_response_format := fm_response_format f;
  fm_file := fm_file f; fm_filename := fm_filename f; fm_content_type := fm_content_type f; fm_prompt := fm_prompt f;
  fm_n := fm_n f; fm_size := fm_size f; fm_mask := fm_mask f |}.
Definition set_language x f := {| fm_model := fm_model f; fm_language := x; fm_response_format := fm_response_format f;
  fm_file := fm_file f; fm_filename := fm_filename f; fm_content_type := fm_content_type f; fm_prompt := fm_prompt f;
  fm_n := fm_n f; fm_size := fm_size f; fm_mask := fm_mask f |}.
Definition set_format x f := {| fm_model := fm_model f; fm_language := fm_language f; fm_response_format := x;
  fm_file := fm_file f; fm_filename := fm_filename f; fm_content_type := fm_content_type f; fm_prompt := fm_prompt f;
  fm_n := fm_n f; fm_size := fm_size f; fm_mask := fm_mask f |}.
Definition set_file x name ct f := {| fm_model := fm_model f; fm_language := fm_language f;
  fm_response_format := fm_response_format f; fm_file := Some x; fm_filename := name; fm_content_type := ct;
  fm_prompt := fm_prompt f; fm_n := fm_n f; fm_size := fm_size f; fm_mask := fm_mask f |}.
Definition set_prompt x f := {| fm_model := fm_model f; fm_language := fm_language f;
  fm_response_format := fm_response_format f; fm_file := fm_file f; fm_filename := fm_filename f;
  fm_content_type := fm_content_type f; fm_prompt := x; fm_n := fm_n f; fm_size := fm_size f; fm_mask := fm_mask f |}.
Definition set_n x f := {| fm_model := fm_model f; fm_language := fm_language f;
  fm_response_format := fm_response_format f; fm_file := fm_file f; fm_filename := fm_filename f;
  fm_content_type := fm_content_type f; fm_prompt := fm_prompt f; fm_n := x; fm_size := fm_size f; fm_mask := fm_mask f |}.
Definition set_size x f := {| fm_model := fm_model f; fm_language := fm_language f;
  fm_response_format := fm_response_format f; fm_file := fm_file f; fm_filename := fm_filename f;
  fm_content_type := fm_content_type f; fm_prompt := fm_prompt f; fm_n := fm_n f; fm_size := x; fm_mask := fm_mask f |}.
Definition set_mask x f := {| fm_model := fm_model f; fm_language := fm_language f;
  fm_response_format := fm_response_format f; fm_file := fm_file f; fm_filename := fm_filename f;
  fm_content_type := fm_content_type f; fm_prompt := fm_prompt f; fm_n := fm_n f; fm_size := fm_size f; fm_mask := Some x |}.

Definition bad {T} (e : string) : result ApiError T := Err (BadRequest e).

(** [godwit-api/src/proxy.rs:1060-1080] [audio_transcriptions] *)
Definition audio_field (f : Field) (fm : Form) : result ApiError Form :=
  let name := default "" (f_name f) in
  let text := Some (default "" (f_text f)) in
  if String.eqb name "model" then Ok (set_model text fm)
  else if String.eqb name "language" then Ok (set_language text fm)
  else if String.eqb name "response_format" then Ok (set_format text fm)
  else if String.eqb name "file" then
    bytes ← map_err BadRequest (f_bytes f);
    Ok (set_file bytes (default "audio" (f_file_name f)) (default "application/octet-stream" (f_content_type f)) fm)
  else Ok fm.

(** [godwit-api/src/proxy.rs:1251-1278] [image_edits] *)
Definition image_field (f : Field) (fm : Form) : result ApiError Form :=
  let name := default "" (f_name f) in
  let text := Some (default "" (f_text f)) in
  if String.eqb name "model" then Ok (set_model text fm)
  else if String.eqb name "prompt" then Ok (set_prompt text fm)
  else if String.eqb name "n" then Ok (set_n (t ← f_text f; parse_i32 t) fm)
  else if String.eqb name "size" then Ok (set_size text fm)
  else if String.eqb name "response_format" then Ok (set_format text fm)
  else if String.eqb name "image" then
    bytes ← map_err BadRequest (f_bytes f);
    Ok (set_file bytes (default "image.png" (f_file_name f)) (fm_content_type fm) fm)
  else if String.eqb name "mask" then
    bytes ← map_err BadRequest (f_bytes f);
    Ok (set_mask bytes fm)
  else Ok fm.

(** The fields in order; an error of [next_field] ends the request.
    [godwit-api/src/proxy.rs:1055-1082] [audio_transcriptions] *)
Fixpoint read_form (field : Field -> Form -> result ApiError Form) (fs : list (result string Field)) (fm : Form)
  : result ApiError Form :=
  match fs with
  | [] => Ok fm
  | Err e :: _ => bad e
  | Ok f :: fs => fm ← field f fm; read_form field fs fm
  end.

Definition required (what : string) (o : option string) : result ApiError string :=
  ok_or (BadRequest ("missing '" +:+ what +:+ "' field")) o.

(** [godwit-api/src/proxy.rs:1043-1196] [audio_transcriptions] *)
Definition audio_transcriptions (key : ApiKey) (fields : list (result string Field)) : PROXY ProviderResponse :=
  fm ← lift (map_err Failed (read_form audio_field fields (form0 "audio")));
  model_name ← lift (map_err Failed (required "model" (fm_model fm)));
  file_bytes ← lift (map_err Failed (required "file" (fm_file fm)));
  let req := {| stt_model := model_name; stt_language := fm_language fm;
                stt_response_format := fm_response_format fm |} in
  serve "audio transcription" AudioStt
    (call_audio_transcription req file_bytes (fm_filename fm) (fm_content_type fm)) key model_name.

(** [godwit-api/src/proxy.rs:1232-1398] [image_edits] *)
Definition image_edits (key : ApiKey) (fields : list (result string Field)) : PROXY ProviderResponse :=
  fm ← lift (map_err Failed (read_form image_field fields (form0 "image.png")));
  model_name ← lift (map_err Failed (required "model" (fm_model fm)));
  prompt ← lift (map_err Failed (required "prompt" (fm_prompt fm)));
  image_bytes ← lift (map_err Failed (required "image" (fm_file fm)));
  let req := {| ie_model := model_name; ie_prompt := prompt; ie_n := fm_n fm; ie_size := fm_size fm;
                ie_response_format := fm_response_format fm |} in
  serve "image edit" ImageEdit (call_image_edit req image_bytes (fm_filename fm) (fm_mask fm)) key model_name.

(** ** Chat with fallbacks *)

(** [godwit-api/src/fallback.rs:4-14] [FallbackConfig] *)
Record FallbackConfig : Type := {
  fc_models : list string; fc_max_attempts : Z (* u32 *); fc_timeout_per_attempt : Z (* seconds *) }.

(** [godwit-api/src/fallback.rs:25-48] [FallbackConfig::from_model_config] *)
Definition from_model_config (config : value) : option FallbackConfig :=
  arr ← (v ← get "fallbacks" config; as_array v);
  Some {| fc_models := filter_map as_str arr;
          fc_max_attempts := as_u32 (default 3 (v ← get "max_fallback_attempts" config; json_u64 v));
          fc_timeout_per_attempt := default 30 (v ← get "timeout_per_attempt_secs" config; json_u64 v) |}.

(** [godwit-api/src/fallback.rs:61-69] [FallbackResult] *)
Record FallbackResult : Type := {
  fr_response : ChatReply Es; fr_usage : UsageReport; fr_model_used : string; fr_model_pricing : value;
  fr_attempts_made : Z; fr_fallback_triggered : bool }.

(** [godwit-api/src/fallback.rs:129-143] [get_fallback_chain] *)
Definition get_fallback_chain (model_ref : string) : PROXY (list string) :=
  catch (on_db_api (st_map_err CoreError (model_get_by_public_id model_ref))) (fun r =>
    match r with
    | Ok model =>
      match from_model_config (model_config model) with
      | Some config => mret (model_ref :: fc_models config)
      | None => mret [model_ref]
      end
    | Err _ => mret [model_ref]
    end).

(** [godwit-api/src/fallback.rs:164-171] [is_retryable_error] *)
Definition is_retryable_error (e : ProviderError) : bool :=
  match e with
  | Http status _ => (500 <=? status) || (status =? 429)
  | ProviderFailed msg => str_contains "timeout" msg || str_contains "timed out" msg
  | _ => false
  end.

(** [godwit-api/src/fallback.rs:145-162] [call_chat_attempt] *)
Definition call_chat_attempt (model_ref : string) (req : ChatCompletionRequest)
  : PROXY (result ProviderError (ChatReply Es * UsageReport * value)) :=
  catch (resolve_raw model_ref Chat) (fun r =>
    match r with
    | Ok resolved =>
      holding resolved (
        r ← on_world (call_chat resolved req);
        mret (match r with
              | Ok (resp, usage_opt) => Ok (resp, default no_usage usage_opt, pricing (rm_model resolved))
              | Err e => Err e
              end))
    | Err (Failed e) => mret (Err (ProviderFailed (show_pasteur e)))
    | Err Panic => throw Panic
    end).

(** The attempts from index [attempt_idx] of a chain of [n] models.
    [godwit-api/src/fallback.rs:85-126] [call_chat_with_fallback] *)
Fixpoint chat_attempts (n attempt_idx : nat) (chain : list string) (req : ChatCompletionRequest)
    (last_error : option ProviderError) : PROXY (result ProviderError FallbackResult) :=
  match chain with
  | [] => mret (Err (default (ProviderFailed "All fallback attempts failed") last_error))
  | model_ref :: chain =>
    let attempts_made := as_u32 (as_u32 (Z.of_nat attempt_idx) + 1) in
    r ← call_chat_attempt model_ref req;
    match r with
    | Ok (response, usage, pricing) =>
      mret (Ok {| fr_response := response; fr_usage := usage; fr_model_used := model_ref;
                  fr_model_pricing := pricing; fr_attempts_made := attempts_made;
                  fr_fallback_triggered := (0 <? attempt_idx)%nat |})
    | Err e =>
      if (as_u32 (Z.of_nat n) <=? attempts_made) || negb (is_retryable_error e)
      then mret (Err e)
      else chat_attempts n (S attempt_idx) chain req (Some e)
    end
  end.

(** [godwit-api/src/fallback.rs:71-127] [call_chat_with_fallback] *)
Definition call_chat_with_fallback (initial_model : string) (req : ChatCompletionRequest)
  : PROXY (result ProviderError FallbackResult) :=
  fallback_chain ← get_fallback_chain initial_model;
  chat_attempts (length fallback_chain) 0 fallback_chain req None.

(** ** The catalog *)

(** [godwit-api/src/proxy.rs:139-152] [models_response] *)
Definition models_response (timestamp : Z -> Z) (models : list Model) : value :=
  obj [("object", VString "list");
       ("data", VArray ((fun m => obj [("id", VString (public_id m)); ("object", VString "model");
                                       ("created", num (timestamp (model_created_at m)));
                                       ("owned_by", VString (model_provider m))]) <$> models))].

(** The map is keyed by the profile's id; a later profile replaces an earlier one.
    [godwit-api/src/proxy.rs:154-171] [filter_models_with_enabled_profiles] *)
Definition filter_models_with_enabled_profiles (models : list Model) (profiles : list ProviderProfile) : list Model :=
  let enabled : gmap Uuid bool :=
    fold_left (fun m p => <[profile_id p := profile_enabled p]> m) profiles ∅ in
  filterb (fun m => default false (enabled !! provider_profile_id m)) models.

(** [godwit-api/src/proxy.rs:638-650] [list_models] *)
Definition list_models (timestamp : Z -> Z) : PROXY Response :=
  models ← on_db_api (st_map_err CoreError model_list);
  profiles ← on_db_api (st_map_err CoreError profile_list);
  mret (json_response (models_response timestamp (filter_models_with_enabled_profiles models profiles))).

(** ** Passing a request on *)

Section Forward.
Context `{!HttpClient W}.

Definition on_http (req : HttpRequest) : PROXY HttpOutcome := fun s =>
  let '(o, w) := send req (px_world s) in
  (Ok o, {| px_db := px_db s; px_lb := px_lb s; px_limiter := px_limiter s; px_world := w; px_logs := px_logs s |}).

(** [godwit-api/src/proxy.rs:104-121] [forward_openai_passthrough] *)
Definition passthrough_request (method path : string) (body : option value) (resolved : ResolvedModel A)
  : option HttpRequest :=
  json ← match body with
         | Some b => Some <$> index_set "model" (VString (provider_model_id (rm_model resolved))) b
         | None => Some None
         end;
  Some {| hr_method := method;
          hr_url := rp_base_url (rm_credentials resolved) +:+ "/" +:+ trim_start_matches (byte 47) path;
          hr_headers := (("accept", "application/json") ::
                         match rp_api_key (rm_credentials resolved) with
                         | Some key => [("authorization", "Bearer " +:+ key)] | None => [] end);
          hr_json := json; hr_form := [] |}.

(** [godwit-api/src/proxy.rs:122-136] [forward_openai_passthrough] *)
Definition passthrough_reply (o : HttpOutcome) : result ApiError (value * UsageReport) :=
  match o with
  | SendFailed msg => Err (CoreError (Provider msg))
  | Replied status body =>
    if negb (is_success status) then Err (map_provider_error (Http status (body_text body)))
    else
      v ← map_err (fun e => CoreError (Provider ("failed to deserialize upstream response: " +:+ e))) (body_json body);
      Ok (v, no_usage)
  end.

(** [godwit-api/src/proxy.rs:90-137] [forward_openai_passthrough] *)
Definition forward_openai_passthrough (method path : string) (body : option value) (model_ref : string)
    (capability : Capability) : PROXY (value * UsageReport) :=
  resolved ← resolve_model model_ref capability;
  holding resolved (
    req ← lift (ok_or Panic (passthrough_request method path body resolved));
    o ← on_http req;
    lift (map_err Failed (passthrough_reply o))).

(** [godwit-api/src/proxy.rs:1445-1450] [extract_model_from_body] *)
Definition proxy_extract_model_from_body (body : value) : result ApiError string :=
  ok_or (BadRequest "missing 'model' field") (m ← get "model" body; as_str m).

(** [godwit-api/src/proxy.rs:1452-1468] [create_batch] *)
Definition create_batch (body : value) : PROXY Response :=
  model ← lift (map_err Failed (proxy_extract_model_from_body body));
  r ← forward_openai_passthrough "POST" "batches" (Some body) model Chat;
  mret {| res_status := 201; res_headers := []; res_body := r.1 |}.

(** What the five routes without a body share. *)
Definition batch_request (method path model : string) : PROXY Response :=
  r ← forward_openai_passthrough method path None model Chat;
  mret (json_response r.1).
(** [godwit-api/src/proxy.rs:1470-1485] [list_batches] *)
Definition list_batches (model : string) : PROXY Response := batch_request "GET" "batches" model.
(** [godwit-api/src/proxy.rs:1487-1504] [get_batch] *)
Definition get_batch (batch_id model : string) : PROXY Response := batch_request "GET" ("batches/" +:+ batch_id) model.
(** [godwit-api/src/proxy.rs:1506-1523] [delete_batch] *)
Definition delete_batch (batch_id model : string) : PROXY Response :=
  batch_request "DELETE" ("batches/" +:+ batch_id) model.
(** [godwit-api/src/proxy.rs:1525-1542] [cancel_batch] *)
Definition cancel_batch (batch_id model : string) : PROXY Response :=
  batch_request "POST" ("batches/" +:+ batch_id +:+ "/cancel") model.
(** [godwit-api/src/proxy.rs:1544-1561] [get_batch_results] *)
Definition get_batch_results (batch_id model : string) : PROXY Response :=
  batch_request "GET" ("batches/" +:+ batch_id +:+ "/results") model.
End Forward.
End Proxy.
