(* ===== verification/ProxyFacts.v ===== *)
(** * What the endpoints guarantee

    Theorems about [Proxy.v]: in-flight guards are released on every path, what is served was
    routed, priced and logged, a request that is refused reaches no backend, and the chat
    fallbacks walk the configured chain. *)

From stdpp Require Import base strings list gmap.
From Stdlib Require Import QArith SpecFloat.
From S2P Require Import Prelude RustStr Json Core Limiter Balancer Db Auth Router Resilience Usage Backend Proxy.

#[local] Open Scope string_scope.
#[local] Open Scope Z_scope.

(** ** Balancers with the same counters *)

#[export] Instance same_flight_equiv : Equivalence same_flight.
Proof.
  split; [intros b id; done|intros b b' E id; by rewrite E|].
  intros b1 b2 b3 E1 E2 id. by rewrite E2, E1.
Qed.

#[export] Instance drop_guard_proper id : Proper (same_flight ==> same_flight) (drop_guard id).
Proof.
  intros b b' E k. rewrite !(proj2 (increment_drop_flight id k _)). case_decide; by rewrite E.
Qed.
#[export] Instance drop_resolved_proper {A} (rm : ResolvedModel A) :
  Proper (same_flight ==> same_flight) (drop_resolved rm).
Proof. intros b b' E. unfold drop_resolved. destruct (rm_guard rm); [by rewrite E|done]. Qed.

#[export] Instance flight_ok_proper : Proper (same_flight ==> iff) flight_ok.
Proof. intros b b' E. unfold flight_ok. split; intros Hb id; [rewrite E|rewrite <- (E id)]; apply Hb. Qed.

Lemma record_latency_flight id ms b : same_flight b (record_latency id ms b).
Proof.
  intros k. unfold record_latency. destruct (get_state_spec id b) as [H1 H2].
  destruct (get_state id b) as [st b']. simpl in *. rewrite lb_put_spec. case_decide as E; [|by rewrite H2].
  subst. unfold update_ewma. by repeat case_match.
Qed.

Section Facts.
Context `{Cr : Crypto} `{JT : JsonText} `{Sc : Schemas} `{De : Decimals} `{F : F64} {A W Es : Type}.
Context `{Wo : !World W} `{Ad : !Adapter A W Es}.
Context (registry : AdapterRegistry A) (master_key : string).
Implicit Types s : Proxy (F := F) (W := W).

(** ** What a computation leaves alone *)

(** The counters are as before and the database was only read. *)
Definition steady s s' : Prop := same_flight (px_lb s) (px_lb s') /\ only_faults (px_db s) (px_db s').

#[export] Instance steady_preorder : PreOrder steady.
Proof.
  split; [intros s; split; reflexivity|].
  intros s1 s2 s3 [F1 C1] [F2 C2]. split; [by rewrite F1|by transitivity (px_db s2)].
Qed.

(** A computation is quiet when, from counters in range, it leaves them and the tables as
    they were and spawns no log. *)
Definition quiet {E T} (m : ST (Proxy (F := F) (W := W)) E T) : Prop :=
  forall s, flight_ok (px_lb s) -> steady s (m s).2 /\ px_logs (m s).2 = px_logs s.

Lemma flight_ok_steady s s' : steady s s' -> flight_ok (px_lb s) -> flight_ok (px_lb s').
Proof. intros [E _]. by rewrite E. Qed.

Lemma quiet_bind {E T U} (m : ST _ E T) (f : T -> ST _ E U) : quiet m -> (forall x, quiet (f x)) -> quiet (m ≫= f).
Proof.
  intros Hm Hf s Hs. unfold mbind, st_bind. destruct (Hm s Hs) as [H1 H2].
  destruct (m s) as [[x|e] s1]; [|done]. simpl in *.
  destruct (Hf x s1) as [H3 H4]; [by eapply flight_ok_steady|]. split; [by etransitivity|by rewrite H4].
Qed.
Lemma quiet_catch {E E' T U} (m : ST _ E T) (k : result E T -> ST _ E' U) :
  quiet m -> (forall r, quiet (k r)) -> quiet (catch m k).
Proof.
  intros Hm Hf s Hs. unfold catch. destruct (Hm s Hs) as [H1 H2].
  destruct (m s) as [r s1]. simpl in *.
  destruct (Hf r s1) as [H3 H4]; [by eapply flight_ok_steady|]. split; [by etransitivity|by rewrite H4].
Qed.
Lemma quiet_same {E T} (m : ST (Proxy (F := F) (W := W)) E T) : (forall s, (m s).2 = s) -> quiet m.
Proof. intros Hm s _. rewrite Hm. split; [reflexivity|done]. Qed.
Lemma quiet_ret {E T} (x : T) : quiet (E := E) (mret x).
Proof. by apply quiet_same. Qed.
Lemma quiet_throw {E T} (e : E) : quiet (T := T) (throw e).
Proof. by apply quiet_same. Qed.
Lemma quiet_lift {E T} (r : result E T) : quiet (lift r).
Proof. by apply quiet_same. Qed.
Lemma quiet_gets {E T} (f : _ -> T) : quiet (E := E) (gets f).
Proof. by apply quiet_same. Qed.
Lemma quiet_map_err {E E' T} (f : E -> E') (m : ST _ E T) : quiet m -> quiet (st_map_err f m).
Proof. intros Hm s Hs. specialize (Hm s Hs). unfold st_map_err. by destruct (m s). Qed.
Lemma quiet_tick : quiet tick_world.
Proof. intros s _. split; [split; [reflexivity|done]|done]. Qed.
Lemma quiet_world {T} (m : ST W ProviderError T) : quiet (on_world m).
Proof. intros s _. unfold on_world. destruct (m (px_world s)). split; [split; [reflexivity|done]|done]. Qed.
Lemma quiet_limiter {E T} (g : E -> ApiError) (m : ST (RateLimiter F) E T) : quiet (on_limiter g m).
Proof.
  intros s _. unfold on_limiter, st_map_err, zoom. destruct (m (px_limiter s)).
  split; [split; [reflexivity|done]|done].
Qed.
Lemma quiet_flight f : (forall b, same_flight b (f b)) -> quiet (on_flight f).
Proof. intros Hf s _. split; [split; [apply Hf|done]|done]. Qed.

(** Statements that write nothing. *)
Definition reads {E T} (m : ST Db E T) : Prop := forall d, only_faults d (m d).2.

Lemma reads_refl d : only_faults d d.
Proof. exists (db_faults d). by destruct d. Qed.
Lemma reads_bind {E T U} (m : ST Db E T) (f : T -> ST Db E U) : reads m -> (forall x, reads (f x)) -> reads (m ≫= f).
Proof.
  intros Hm Hf d. unfold mbind, st_bind. specialize (Hm d). destruct (m d) as [[x|e] d1]; [|done].
  eapply only_faults_trans; [exact Hm|apply Hf].
Qed.
Lemma reads_same {E T} (m : ST Db E T) : (forall d, (m d).2 = d) -> reads m.
Proof. intros Hm d. rewrite Hm. apply reads_refl. Qed.
Lemma reads_map_err {E E' T} (f : E -> E') (m : ST Db E T) : reads m -> reads (st_map_err f m).
Proof. intros Hm d. specialize (Hm d). unfold st_map_err. by destruct (m d). Qed.
Lemma reads_stmt : reads stmt.
Proof. intros d. destruct (stmt d) as [r d'] eqn:E. by apply stmt_spec in E as [? _]. Qed.
Lemma reads_select {R} (t : table R) p :
  (forall f d, rows t (put_faults f d) = rows t d) -> reads (select_one t p).
Proof. intros Ht d. destruct (select_one t p d) as [r d'] eqn:E. by apply select_one_spec in E as [? _]. Qed.
Lemma reads_fail_if {E} c (e : E) : reads (fail_if c e).
Proof. apply reads_same. intros d. unfold fail_if. by destruct c. Qed.

(** A composition of such statements, by its structure. *)
Ltac read_only :=
  repeat (intros; first [apply reads_bind | apply reads_map_err | apply reads_stmt | apply reads_fail_if
                        | by apply reads_same | case_match]).

Lemma reads_user_budget user org : reads (check_end_user_budget user org).
Proof. unfold check_end_user_budget, api. read_only. Qed.
Lemma reads_team_budget team : reads (check_team_budget team).
Proof. unfold check_team_budget, api. read_only. Qed.

Lemma quiet_db {T} (m : ST Db ApiError T) : reads m -> quiet (on_db_api m).
Proof.
  intros Hm s _. unfold on_db_api, st_map_err, zoom. specialize (Hm (px_db s)).
  destruct (m (px_db s)) as [r d]. simpl in *. split; [|done]. by split.
Qed.

(** A composition of quiet computations, by its structure. *)
Ltac quietly :=
  repeat (intros; first [apply quiet_limiter | apply quiet_world | apply quiet_tick | apply quiet_ret
                        | apply quiet_throw | apply quiet_gets | apply quiet_bind | done]).

Lemma quiet_check_rate_limit key m n : quiet (check_rate_limit (F := F) (W := W) key m n).
Proof. unfold check_rate_limit. quietly. by apply quiet_db, reads_map_err, reads_select. Qed.
Lemma quiet_admission key m n : quiet (admission_checks (F := F) (W := W) key m n).
Proof.
  apply quiet_bind; [apply quiet_check_rate_limit|]. intros _.
  apply quiet_bind; [apply quiet_db, reads_user_budget|]. intros _.
  unfold check_team_budget_of. destruct (key_team_id key); [apply quiet_db, reads_team_budget|apply quiet_ret].
Qed.
Lemma quiet_elapsed start : quiet (elapsed_ms (F := F) (W := W) start).
Proof. unfold elapsed_ms. quietly. Qed.

(** ** Budgets *)

(** What is booked of the key's user, and of its team, is below their caps. *)
Definition within_budget (key : ApiKey) (d : Db) : Prop :=
  (forall e cap, head (filterb (is_end_user (key_organization_id key) (key_user_id key)) (t_end_users d)) = Some e ->
     eu_max_budget_usd e = Some cap ->
     (spent_on (fun l => is_opt_id (log_user_id l) (key_user_id key) && is_id (log_organization_id l) (key_organization_id key)) d < cap)%Q) /\
  (forall id t cap, key_team_id key = Some id -> head (filterb (fun t => is_id (team_id t) id) (t_teams d)) = Some t ->
     team_max_budget_usd t = Some cap -> (spent_on (fun l => is_opt_id (log_team_id l) id) d < cap)%Q).

Lemma within_budget_faults key d d' : only_faults d d' -> within_budget key d' -> within_budget key d.
Proof. by intros [f ->]. Qed.

Lemma admission_within key m n s s' :
  flight_ok (px_lb s) -> admission_checks (F := F) (W := W) key m n s = (Ok tt, s') -> within_budget key (px_db s).
Proof.
  intros Hs H. unfold admission_checks in H. apply st_bind_ok in H as ([] & s1 & Hr & H).
  destruct (quiet_check_rate_limit key m n s Hs) as [[_ Hf] _]. rewrite Hr in Hf. simpl in Hf.
  apply (within_budget_faults _ _ _ Hf). clear Hf Hr Hs s. apply st_bind_ok in H as ([] & s2 & Hu & H).
  unfold check_user_budget, on_db_api, st_map_err, zoom in Hu.
  pose proof (end_user_budget_enforced (key_user_id key) (key_organization_id key) (px_db s1)) as He.
  destruct (check_end_user_budget _ _ _) as [[[]|e] d1]; simpl in Hu; [|by simplify_eq].
  simplify_eq. destruct He as [Hf He]. split; [intros e cap H1 H2; exact (He e H1 cap H2)|]. intros id t cap Hid Ht Hc. unfold check_team_budget_of in H.
  rewrite Hid in H. unfold on_db_api, st_map_err, zoom in H. simpl in H. pose proof (team_budget_enforced id d1) as Hb.
  destruct (check_team_budget id d1) as [[[]|e] d2]; [|by simplify_eq]. destruct Hf as [f ->]. exact (proj2 Hb t Ht cap Hc).
Qed.

(** ** A resolved model in scope *)

(** From [s0] on, [rm] was resolved and is still in scope: dropping it gives the counters of
    [s0] back. *)
Definition in_scope (rm : ResolvedModel A) s0 s : Prop :=
  flight_ok (px_lb s) /\ same_flight (px_lb s0) (drop_resolved rm (px_lb s)) /\ only_faults (px_db s0) (px_db s).

Lemma resolve_raw_spec model_ref c s :
  flight_ok (px_lb s) ->
  match resolve_raw (F := F) (W := W) registry master_key model_ref c s with
  | (Ok rm, s') => in_scope rm s s' /\ px_logs s' = px_logs s /\
      routed model_ref c (px_db s) (rm_model rm) (rm_profile rm) /\ has_capability (rm_model rm) c = true
  | (Err e, s') => e <> Panic /\ steady s s' /\ px_logs s' = px_logs s
  end.
Proof.
  intros Hs. unfold resolve_raw, zoom.
  destruct (resolve registry master_key model_ref c _) as [r rs] eqn:E.
  apply resolve_inv in E as [Hf E]; [|done]. simpl in Hf.
  destruct r as [rm|e]; simpl in *.
  - destruct E as (E1 & E2 & _ & _ & E3 & _ & E4). split; [|done]. split; [done|]. split; done.
  - destruct E. split; [done|]. split; [|done]. by split.
Qed.

Lemma resolve_model_spec model_ref c s :
  flight_ok (px_lb s) ->
  match resolve_model (F := F) (W := W) registry master_key model_ref c s with
  | (Ok rm, s') => in_scope rm s s' /\ px_logs s' = px_logs s /\
      routed model_ref c (px_db s) (rm_model rm) (rm_profile rm) /\ has_capability (rm_model rm) c = true
  | (Err e, s') => e <> Panic /\ steady s s' /\ px_logs s' = px_logs s
  end.
Proof.
  intros Hs. unfold resolve_model, st_map_err. pose proof (resolve_raw_spec model_ref c s Hs) as Hr.
  destruct (resolve_raw registry master_key model_ref c s) as [[rm|e] s']; simpl; [done|].
  destruct Hr as [Hr ?]. split; [|done]. destruct e; [done|congruence].
Qed.

Lemma in_scope_steady rm s0 s1 s2 : in_scope rm s0 s1 -> steady s1 s2 -> in_scope rm s0 s2.
Proof.
  intros (I1 & I2 & I3) [S1 S2]. split; [by rewrite <- S1|]. split; [by rewrite <- S1|by etransitivity].
Qed.

Lemma in_scope_drop rm s0 s : in_scope rm s0 s -> steady s0 (on_flight (F := F) (W := W) (drop_resolved rm) s).2.
Proof. intros (_ & I2 & I3). by split. Qed.

(** Dropping at the end of a quiet computation. *)
Lemma holding_quiet {T} rm (m : ST _ (failure ApiError) T) s0 s :
  quiet m -> in_scope rm s0 s ->
  (holding rm m s).1 = (m s).1 /\ steady s0 (holding rm m s).2 /\ px_logs (holding rm m s).2 = px_logs s.
Proof.
  intros Hm Hi. unfold holding, catch. destruct (Hm s) as [H1 H2]; [apply Hi|].
  destruct (m s) as [r s1]. simpl in *. split; [done|].
  pose proof (in_scope_steady _ _ _ _ Hi H1) as (_ & I2 & I3). done.
Qed.

Lemma routed_catalog model_ref c d d' m p : only_faults d d' -> routed model_ref c d' m p -> routed model_ref c d m p.
Proof. intros [E1 E2]%only_faults_catalog. unfold routed. by rewrite E1, E2. Qed.

(** ** The endpoints that take one backend call *)

Section OneCall.
Context {B : Type} (what : string) (c : Capability) (call : ResolvedModel A -> ST W ProviderError (B * UsageReport)).

(** [rm] was found for one of [refs] in [d], has the capability, and its backend gave
    [body] and [usage]. *)
Definition served (refs : list string) (d : Db) (rm : ResolvedModel A) (body : B) (usage : UsageReport) : Prop :=
  (exists model_ref, model_ref ∈ refs /\ routed model_ref c d (rm_model rm) (rm_profile rm)) /\
  has_capability (rm_model rm) c = true /\
  exists w w', call rm w = (Ok (body, usage), w').

Lemma served_mono refs refs' d d' rm body usage :
  only_faults d d' -> (forall r, r ∈ refs -> r ∈ refs') -> served refs d' rm body usage -> served refs' d rm body usage.
Proof.
  intros Hd Hr [(rf & Hin & Hrf) Hrest]. split; [|done]. exists rf. split; [by apply Hr|]. by eapply routed_catalog.
Qed.

Lemma try_fallback_spec key rm s0 s :
  in_scope rm s0 s ->
  steady s0 (try_fallback call key rm s).2 /\ px_logs (try_fallback call key rm s).2 = px_logs s /\
  forall b u m, (try_fallback call key rm s).1 = Ok (Ok (b, u, m)) ->
    m = rm_model rm /\ exists w w', call rm w = (Ok (b, u), w').
Proof.
  intros Hi. unfold try_fallback.
  match goal with |- context [holding rm ?inner s] => set (m := inner) end.
  assert (quiet m) as Hq.
  { apply quiet_catch; [apply quiet_check_rate_limit|]. intros [u|[e|]]; [|apply quiet_ret|apply quiet_throw].
    apply quiet_bind; [apply quiet_world|]. intros [[b' u']|e]; apply quiet_ret. }
  destruct (holding_quiet rm m s0 s Hq Hi) as (E & H1 & H2). split; [done|]. split; [done|]. rewrite E.
  intros b u mm Hm. unfold m, catch in Hm.
  destruct (check_rate_limit key (rm_model rm) 1 s) as [[[]|[e|]] s1]; [|done..].
  unfold on_world, mbind, st_bind in Hm. destruct (call rm (px_world s1)) as [[[b' u']|e] w'] eqn:Ec;
    unfold mret, st_ret in Hm; simplify_eq/=. eauto.
Qed.

Lemma fallbacks_spec key chain : forall rl last s,
  flight_ok (px_lb s) ->
  let '(r, s') := fallbacks registry master_key what c call key chain rl last s in
  steady s s' /\ px_logs s' = px_logs s /\
  forall body usage m, r = Ok (body, usage, m) ->
    exists rm, m = rm_model rm /\ served chain (px_db s) rm body usage.
Proof.
  induction chain as [|ref chain IH]; intros rl last s Hs; simpl.
  - by destruct rl.
  - unfold catch. pose proof (resolve_model_spec ref c s Hs) as Hr.
    destruct (resolve_model registry master_key ref c s) as [[rm|[e|]] s1].
    + destruct Hr as (Hi & Hl & Hr & Hc).
      pose proof (try_fallback_spec key rm s s1 Hi) as (H1 & H2 & H3).
      unfold mbind, st_bind. destruct (try_fallback call key rm s1) as [[[used|[rle|pe]]|e] s2]; simpl in *.
      * unfold mret, st_ret. split; [done|]. split; [by rewrite H2|]. intros b u m [= ->].
        destruct (H3 b u m eq_refl) as [-> Hw]. exists rm. split; [done|]. split; [|done]. exists ref. split; [left|done].
      * specialize (IH (Some rle) last s2). destruct (fallbacks _ _ _ _ _ _ _ _ _ s2) as [r s'].
        destruct IH as (I1 & I2 & I3); [by eapply flight_ok_steady|].
        split; [by etransitivity|]. split; [by rewrite I2, H2|]. intros b u m Hm.
        destruct (I3 b u m Hm) as (rm' & -> & Hv). exists rm'. split; [done|].
        eapply served_mono; [apply H1|by right|done].
      * specialize (IH rl (Some pe) s2). destruct (fallbacks _ _ _ _ _ _ _ _ _ s2) as [r s'].
        destruct IH as (I1 & I2 & I3); [by eapply flight_ok_steady|].
        split; [by etransitivity|]. split; [by rewrite I2, H2|]. intros b u m Hm.
        destruct (I3 b u m Hm) as (rm' & -> & Hv). exists rm'. split; [done|].
        eapply served_mono; [apply H1|by right|done].
      * split; [done|]. split; [by rewrite H2|done].
    + destruct Hr as (_ & H1 & H2).
      specialize (IH rl last s1). destruct (fallbacks _ _ _ _ _ _ _ _ _ s1) as [r s'].
      destruct IH as (I1 & I2 & I3); [by eapply flight_ok_steady|].
      split; [by etransitivity|]. split; [by rewrite I2, H2|]. intros b u m Hm.
      destruct (I3 b u m Hm) as (rm' & -> & Hv). exists rm'. split; [done|].
      eapply served_mono; [apply H1|by right|done].
    + by destruct Hr.
Qed.
Lemma finish_spec key start (body : B) usage m s :
  flight_ok (px_lb s) ->
  let '(r, s') := finish key c start (body, usage, m) s in
  steady s s' /\
  match r with
  | Ok b => b = body /\ exists cost ms, compute_cost (pricing m) c usage = Some cost /\ in_i 32 ms /\
              px_logs s' = (px_logs s ++ [log_entry key m c ms cost])%list
  | Err e => e = Panic /\ compute_cost (pricing m) c usage = None /\ px_logs s' = px_logs s
  end.
Proof.
  intros Hs. unfold finish, lift, ok_or. unfold mbind at 1, st_bind at 1.
  destruct (compute_cost (pricing m) c usage) as [cost|] eqn:Ec; [|by split; [reflexivity|]].
  unfold elapsed_ms, spawn_request_log, on_flight, tick_world, gets, modify. st_unfold.
  assert (forall z, in_i 32 (as_i32 z)) as Hi by (intros z; apply wrap_i_range; lia).
  destruct (negb (is_id (model_id m) nil_uuid)); simpl.
  - split; [split; [apply record_latency_flight|done]|]. split; [done|]. exists cost. eexists. by repeat split; try apply Hi.
  - split; [split; [reflexivity|done]|]. split; [done|]. exists cost. eexists. by repeat split; try apply Hi.
Qed.
(** What is known once a body was obtained. *)
Definition answered key model_ref s s' (body : B) : Prop :=
  exists primary pp rm usage cost ms,
    routed model_ref c (px_db s) primary pp /\
    served (model_ref :: router_fallback_chain primary) (px_db s) rm body usage /\
    compute_cost (pricing (rm_model rm)) c usage = Some cost /\ in_i 32 ms /\
    px_logs s' = (px_logs s ++ [log_entry key (rm_model rm) c ms cost])%list.

#[local] Arguments finish : simpl never.
#[local] Arguments fallbacks : simpl never.

Lemma finish_answered key model_ref start s s3 primary pp rm body usage :
  flight_ok (px_lb s3) -> px_logs s3 = px_logs s -> routed model_ref c (px_db s) primary pp ->
  served (model_ref :: router_fallback_chain primary) (px_db s) rm body usage ->
  let '(r, s') := finish key c start (body, usage, rm_model rm) s3 in
  steady s3 s' /\
  match r with Ok b => answered key model_ref s s' b | Err _ => px_logs s' = px_logs s end.
Proof.
  intros Hs Hl Hr Hv. pose proof (finish_spec key start body usage (rm_model rm) s3 Hs) as Hf.
  destruct (finish key c start _ s3) as [r s4]. destruct Hf as [Hf1 Hf2]. split; [done|].
  destruct r as [b|e].
  - destruct Hf2 as (-> & cost & ms & H1 & H2 & H3). exists primary, pp, rm, usage, cost, ms.
    split; [done|]. split; [done|]. split; [done|]. split; [done|]. by rewrite H3, Hl.
  - destruct Hf2 as (_ & _ & H3). by rewrite H3, Hl.
Qed.

Lemma serve_spec key model_ref s :
  flight_ok (px_lb s) ->
  let '(r, s') := serve registry master_key what c call key model_ref s in
  steady s s' /\
  match r with Ok body => answered key model_ref s s' body | Err _ => px_logs s' = px_logs s end.
Proof.
  intros Hs. unfold serve. unfold gets, mbind at 1, st_bind at 1. unfold mbind at 1, st_bind at 1.
  pose proof (resolve_model_spec model_ref c s Hs) as Hr.
  destruct (resolve_model registry master_key model_ref c s) as [[rm|e] s1]; [|by destruct Hr as (_ & ? & ?)].
  destruct Hr as (Hi & Hl & Hr & Hc). set (chain := router_fallback_chain (rm_model rm)).
  unfold mbind at 1, st_bind at 1. unfold holding_on_error at 1, catch at 1.
  destruct (quiet_admission key (rm_model rm) 1 s1) as [Ha1 Ha2]; [apply Hi|].
  destruct (admission_checks key (rm_model rm) 1 s1) as [[[]|e] s2]; simpl in *.
  2: { pose proof (in_scope_steady _ _ _ _ Hi Ha1) as Hi2. split; [by apply (in_scope_drop rm)|]. by rewrite Ha2. }
  unfold mbind at 1, st_bind at 1.
  destruct (quiet_world (call rm) s2) as [Hw1 Hw2]; [eapply flight_ok_steady; [exact Ha1|apply Hi]|].
  destruct (call rm (px_world s2)) as [[[b u]|e] w'] eqn:Ecall;
    unfold on_world in *; rewrite Ecall in *; simpl in *;
    match type of Hw1 with steady _ ?x => set (s3 := x) in * end;
    assert (in_scope rm s s3) as Hi3 by exact (in_scope_steady _ _ _ _ (in_scope_steady _ _ _ _ Hi Ha1) Hw1);
    assert (px_logs s3 = px_logs s) as Hl3 by (simpl; congruence).
  - unfold holding, catch.
    pose proof (finish_answered key model_ref (now (px_world s)) s s3 (rm_model rm) (rm_profile rm) rm b u
                  (proj1 Hi3) Hl3 Hr) as Hf.
    destruct (finish key c _ _ s3) as [r s4]. unfold mbind, st_bind, on_flight, modify, lift.
    destruct Hf as [Hf1 Hf2]; [|split; [by apply (in_scope_drop rm), (in_scope_steady _ _ _ _ Hi3)|exact Hf2]].
    split; [exists model_ref; split; [left|done]|]. by eauto.
  - unfold on_flight, modify, mbind, st_bind.
    match goal with |- context [fallbacks _ _ _ _ _ _ _ _ _ ?x] => set (s4 := x) end.
    assert (steady s s4) as Hs4 by exact (in_scope_drop rm s s3 Hi3).
    assert (px_logs s4 = px_logs s) as Hl4 by exact Hl3.
    pose proof (fallbacks_spec key chain None (Some e) s4 (flight_ok_steady _ _ Hs4 Hs)) as Hf.
    destruct (fallbacks _ _ _ _ _ _ _ _ _ s4) as [[[[b u] m]|e'] s5]; destruct Hf as (Hf1 & Hf2 & Hf3);
      [|split; [by etransitivity|by rewrite Hf2]].
    destruct (Hf3 b u m eq_refl) as (rm' & -> & Hv). assert (steady s s5) as Hs5 by (by etransitivity).
    pose proof (finish_answered key model_ref (now (px_world s)) s s5 (rm_model rm) (rm_profile rm) rm' b u
                  (flight_ok_steady _ _ Hs5 Hs)) as Hg.
    destruct (finish key c _ _ s5) as [r s6]. destruct Hg as [Hg1 Hg2]; [congruence|done| |].
    { eapply served_mono; [apply Hs4|by right|done]. }
    split; [by etransitivity|done].
Qed.

Lemma serve_within key model_ref s body s' :
  flight_ok (px_lb s) -> serve registry master_key what c call key model_ref s = (Ok body, s') -> within_budget key (px_db s).
Proof.
  intros Hs H. unfold serve in H. apply st_bind_ok in H as (start & s1 & Hg & H). unfold gets in Hg. simplify_eq.
  apply st_bind_ok in H as (primary & s2 & Hr & H). pose proof (resolve_model_spec model_ref c s1 Hs) as Hv.
  rewrite Hr in Hv. destruct Hv as (Hi & _ & _). apply st_bind_ok in H as ([] & s3 & Ha & _).
  apply (within_budget_faults _ _ (px_db s2)); [apply Hi|].
  unfold holding_on_error, catch in Ha. destruct (admission_checks _ _ _ s2) as [[[]|e] s4] eqn:E;
    [|unfold on_flight in Ha; st_unfold; by simplify_eq].
  by eapply admission_within; [apply Hi|].
Qed.
End OneCall.
(** ** Chat *)

(** What a chat attempt leaves alone besides the counters: the limiter and the logs. *)
Definition unbilled s s' : Prop :=
  steady s s' /\ px_limiter s' = px_limiter s /\ px_logs s' = px_logs s.

#[export] Instance unbilled_preorder : PreOrder unbilled.
Proof.
  split; [intros s; split; [reflexivity|done]|].
  intros s1 s2 s3 (S1 & L1 & G1) (S2 & L2 & G2). split; [by etransitivity|]. by rewrite L2, G2.
Qed.

Lemma chat_attempt_spec model_ref req s :
  flight_ok (px_lb s) ->
  let '(r, s') := call_chat_attempt registry master_key model_ref req s in
  unbilled s s' /\ exists x, r = Ok x.
Proof.
  intros Hs. unfold call_chat_attempt, catch. pose proof (resolve_raw_spec model_ref Chat s Hs) as Hr.
  assert (px_limiter (resolve_raw registry master_key model_ref Chat s).2 = px_limiter s) as Hlim.
  { unfold resolve_raw, zoom. by destruct (resolve _ _ _ _ _). }
  destruct (resolve_raw registry master_key model_ref Chat s) as [[rm|[e|]] s1]; simpl in Hlim.
  - destruct Hr as (Hi & Hl & _). unfold holding, catch, on_world, mbind, st_bind.
    destruct (call_chat rm req (px_world s1)) as [r w]. destruct Hi as (I1 & I2 & I3).
    destruct r as [[resp u]|e]; simpl; (split; [|by eauto]); by split.
  - destruct Hr as (_ & H1 & H2). split; [|by eauto]. by split.
  - by destruct Hr.
Qed.

(** The models of a chain that were tried in order, each failing with an error worth a
    fallback; [last] is the last such error. *)
Inductive tried (req : ChatCompletionRequest) : list string -> Proxy -> Proxy -> Prop :=
| tried_nil s : tried req [] s s
| tried_cons ref refs s s1 s2 e :
    call_chat_attempt registry master_key ref req s = (Ok (Err e), s1) -> is_retryable_error e = true ->
    tried req refs s1 s2 -> tried req (ref :: refs) s s2.

(** The outcome of walking [chain] from index [idx] on. *)
Definition walked (req : ChatCompletionRequest) (idx : nat) (chain : list string) s
    (out : result (failure ApiError) (result ProviderError (FallbackResult (Es := Es)))) s' : Prop :=
  exists pre ref post s2, chain = (pre ++ ref :: post)%list /\ tried req pre s s2 /\
    match out with
    | Ok (Ok fr) =>
      call_chat_attempt registry master_key ref req s2 =
        (Ok (Ok (fr_response fr, fr_usage fr, fr_model_pricing fr)), s') /\
      fr_model_used fr = ref /\ fr_attempts_made fr = Z.of_nat (idx + length pre) + 1 /\
      fr_fallback_triggered fr = (0 <? idx + length pre)%nat
    | Ok (Err e) =>
      call_chat_attempt registry master_key ref req s2 = (Ok (Err e), s') /\
      (post = [] \/ is_retryable_error e = false)
    | Err _ => False
    end.

Lemma as_u32_small z : 0 <= z < 2 ^ 32 -> as_u32 z = z.
Proof. intros. unfold wrap_u. by rewrite Z.mod_small. Qed.

Lemma chat_attempts_spec req chain : forall idx last s,
  flight_ok (px_lb s) -> chain <> [] -> Z.of_nat (idx + length chain) < 2 ^ 32 ->
  let '(r, s') := chat_attempts registry master_key (idx + length chain) idx chain req last s in
  unbilled s s' /\ walked req idx chain s r s'.
Proof.
  induction chain as [|ref chain IH]; intros idx last s Hs Hne Hn; [done|]. clear Hne.
  cbn [chat_attempts]. unfold mbind, st_bind.
  pose proof (chat_attempt_spec ref req s Hs) as Hu.
  destruct (call_chat_attempt registry master_key ref req s) as [r s1] eqn:E. destruct Hu as [Hu [x ->]].
  cbn [length] in Hn |- *. rewrite (as_u32_small (Z.of_nat idx)), !as_u32_small by lia.
  destruct x as [[[resp u] pr]|e].
  - split; [done|]. exists [], ref, chain, s. split; [done|]. split; [constructor|]. simpl.
    rewrite Nat.add_0_r. done.
  - destruct (Z.leb_spec (Z.of_nat (idx + S (length chain))) (Z.of_nat idx + 1)) as [Hle|Hgt]; simpl.
    + split; [done|]. exists [], ref, chain, s. split; [done|]. split; [constructor|]. split; [done|]. left.
      destruct chain; [done|]. simpl in Hle. lia.
    + destruct (is_retryable_error e) eqn:Er; simpl.
      2: { split; [done|]. exists [], ref, chain, s. split; [done|]. split; [constructor|]. split; [done|]. by right. }
      replace (idx + S (length chain))%nat with (S idx + length chain)%nat by lia.
      specialize (IH (S idx) (Some e) s1).
      destruct (chat_attempts _ _ _ (S idx) chain req (Some e) s1) as [r s'].
      destruct IH as [H1 (pre & rf & post & s2 & -> & H2 & H3)];
        [eapply flight_ok_steady; [apply Hu|done]|destruct chain; simpl in *; [lia|done]|lia|].
      split; [by etransitivity|]. exists (ref :: pre), rf, post, s2. split; [done|]. split; [by econstructor|].
      simpl length. replace (idx + S (length pre))%nat with (S idx + length pre)%nat by lia. done.
Qed.
(** The chain starts with the model asked for, followed by the fallbacks its row names. *)
Lemma get_fallback_chain_spec model_ref s :
  exists tail s1, get_fallback_chain (F := F) (W := W) model_ref s = (Ok (model_ref :: tail), s1) /\
    unbilled s s1 /\
    (tail = [] \/ exists row fc, row ∈ t_models (px_db s) /\ public_id row = model_ref /\
                    from_model_config (model_config row) = Some fc /\ tail = fc_models fc).
Proof.
  unfold get_fallback_chain, catch, on_db_api, st_map_err, zoom.
  destruct (model_get_by_public_id model_ref (px_db s)) as [r d] eqn:E.
  apply select_one_spec in E as [Hf Hr]; [|done].
  assert (unbilled s {| px_db := d; px_lb := px_lb s; px_limiter := px_limiter s; px_world := px_world s;
                        px_logs := px_logs s |}) as Hu by (by split; [split; [reflexivity|]|]).
  destruct r as [row|e]; simpl; [|by eexists [], _; eauto].
  destruct (from_model_config (model_config row)) as [fc|] eqn:Ef; [|by eexists [], _; eauto].
  exists (fc_models fc). eexists. split; [done|]. split; [done|]. right. exists row, fc.
  destruct Hr as [l Hl]. assert (row ∈ filterb (fun m => String.eqb (public_id m) model_ref) (rows models (px_db s))) as Hin
    by (rewrite Hl; left).
  apply elem_of_filterb in Hin as [Hin He]. apply String.eqb_eq in He. done.
Qed.
End Facts.

(** ** Theorems *)

Section Theorems.
Context `{Cr : Crypto} `{JT : JsonText} `{Sc : Schemas} `{De : Decimals} `{F : F64} {A W Es : Type}.
Context `{Wo : !World W} `{Ad : !Adapter A W Es}.
Context (registry : AdapterRegistry A) (master_key : string).
Implicit Types s : Proxy (F := F) (W := W).

(** No endpoint leaks an in-flight count.  Whatever the outcome of a request, success,
    refusal, a failing backend with any number of fallbacks, or a panic of the cost
    arithmetic, every model's counter ends where it started, and the database is only read. *)
Theorem endpoints_release_guards key s :
  flight_ok (px_lb s) ->
  (forall req, steady s (embeddings registry master_key key req s).2) /\
  (forall req, steady s (image_generations registry master_key key req s).2) /\
  (forall req, steady s (audio_speech registry master_key key req s).2) /\
  (forall fields, steady s (audio_transcriptions registry master_key key fields s).2) /\
  (forall fields, steady s (image_edits registry master_key key fields s).2) /\
  (forall model_ref req, steady s (call_chat_attempt registry master_key model_ref req s).2).
Proof.
  intros Hs.
  assert (forall T what c (call : ResolvedModel A -> ST W ProviderError (T * UsageReport)) model_ref,
            steady s (serve registry master_key what c call key model_ref s).2) as Hserve.
  { intros T what c call model_ref. pose proof (serve_spec registry master_key what c call key model_ref s Hs) as Hv.
    destruct (serve _ _ _ _ _ _ _ s). apply Hv. }
  split; [intros; apply Hserve|]. split; [intros; apply Hserve|]. split; [intros; apply Hserve|].
  split; [|split].
  - intros fields. unfold audio_transcriptions, mbind, st_bind, lift.
    destruct (read_form _ _ _) as [fm|e]; simpl; [|reflexivity].
    destruct (required "model" _); simpl; [|reflexivity]. destruct (required "file" _); simpl; [|reflexivity]. apply Hserve.
  - intros fields. unfold image_edits, mbind, st_bind, lift.
    destruct (read_form _ _ _) as [fm|e]; simpl; [|reflexivity].
    destruct (required "model" _); simpl; [|reflexivity]. destruct (required "prompt" _); simpl; [|reflexivity].
    destruct (required "image" _); simpl; [|reflexivity]. apply Hserve.
  - intros model_ref req. pose proof (chat_attempt_spec registry master_key model_ref req s Hs) as Hv.
    destruct (call_chat_attempt _ _ _ _ s). apply Hv.
Qed.

(** C6: what an endpoint answers and bills.  A body comes from the backend of a model that was
    routed, for the requested reference or for one of the fallbacks the requested model's row
    names, and that has the capability; exactly one log row is then written, for the calling
    key, its user, organization and team, for that model, with the cost of the usage its
    backend reported under its own price list and a duration that fits 32 bits.  The row does
    not tell how the answer came about: it says attempt 1 and no fallback even where a fallback
    answered, against what docs/fallback-usage-tracking.md promises.  A request that fails, on
    any path, writes none. *)
Theorem success_is_billed_once {B} what c (call : ResolvedModel A -> ST W ProviderError (B * UsageReport))
    key model_ref s :
  flight_ok (px_lb s) ->
  let '(r, s') := serve registry master_key what c call key model_ref s in
  match r with
  | Ok body => answered c call key model_ref s s' body
  | Err _ => px_logs s' = px_logs s
  end.
Proof.
  intros Hs. pose proof (serve_spec registry master_key what c call key model_ref s Hs) as Hv.
  destruct (serve _ _ _ _ _ _ _ s). apply Hv.
Qed.

(** C7: a request that the rate limits or the budgets refuse reaches no backend: the error is
    the one of the check, the world outside is as the check left it, and the call that would
    have been made does not matter.  A fallback refused by its own rate limit is not called
    either. *)
Theorem refused_requests_reach_no_backend {B} what c
    (call : ResolvedModel A -> ST W ProviderError (B * UsageReport)) key model_ref s primary s1 e :
  resolve_model registry master_key model_ref c s = (Ok primary, s1) ->
  (admission_checks key (rm_model primary) 1 s1).1 = Err e ->
  (serve registry master_key what c call key model_ref s).1 = Err e /\
  px_world (serve registry master_key what c call key model_ref s).2 = px_world (admission_checks key (rm_model primary) 1 s1).2 /\
  (forall call', serve registry master_key what c call' key model_ref s =
                 serve registry master_key what c call key model_ref s) /\
  forall resolved s2 rl, (check_rate_limit key (rm_model resolved) 1 s2).1 = Err (Failed rl) ->
    (try_fallback call key resolved s2).1 = Ok (Err (inl rl)) /\
    px_world (try_fallback call key resolved s2).2 = px_world (check_rate_limit key (rm_model resolved) 1 s2).2.
Proof.
  intros Hr Ha.
  assert (forall call' : ResolvedModel A -> ST W ProviderError (B * UsageReport),
    serve registry master_key what c call' key model_ref s =
    (Err e, (on_flight (drop_resolved primary) (admission_checks key (rm_model primary) 1 s1).2).2)) as Hall.
  { intros call'. unfold serve. unfold gets, mbind at 1, st_bind at 1. unfold mbind at 1, st_bind at 1. rewrite Hr.
    unfold mbind at 1, st_bind at 1. unfold holding_on_error at 1, catch at 1.
    destruct (admission_checks key (rm_model primary) 1 s1) as [r s2]. simpl in Ha. by subst r. }
  rewrite Hall. split; [done|]. split; [done|]. split; [done|].
  intros resolved s2 rl Hl. unfold try_fallback, holding, catch.
  destruct (check_rate_limit key (rm_model resolved) 1 s2) as [r s3]. simpl in Hl. by subst r.
Qed.

End Theorems.

(** ** A small instance for the witnesses

    Exact decimals, and a world that counts the calls to backends:
    adapter 0 answers, adapter 1 fails with status 503. *)

Definition exact_decimals : Decimals :=
  {| dec_from_str_exact s := if String.eqb s "2" then Some 2%Q else None;
     dec_from_f64_retain := Some; dec_round := Some |}.
Definition no_schemas : Schemas := {| schema_errors _ _ := Ok []; parse_error s := s |}.
Definition counting_world : World Z := {| now _ := 0; readings _ _ := (0, 0); tick w := w; sleep _ w := w |}.

Definition some_usage : UsageReport :=
  {| u_prompt_tokens := Some 10; u_completion_tokens := Some 5; u_image_count := None; u_audio_seconds := None;
     u_video_seconds := None; u_tts_characters := None; u_embedding_tokens := Some 1000000;
     u_cache_read_tokens := None; u_cache_write_tokens := None |}.
Definition some_embedding : EmbeddingResponse :=
  {| er_object := "list"; er_data := []; er_model := "m";
     er_usage := {| prompt_tokens := 1; completion_tokens := 0; total_tokens := 1; prompt_tokens_details := None;
                    completion_tokens_details := None |} |}.
Definition some_completion : ChatCompletionResponse :=
  {| resp_id := "c1"; resp_object := "chat.completion"; resp_created := 0; resp_model := "m";
     resp_choices := []; resp_usage := None |}.
Definition answer (a : nat) (r : ProviderResponse) : ST Z ProviderError (ProviderResponse * UsageReport) :=
  fun w => (if (a =? 0)%nat then Ok (r, some_usage) else Err (Http 503 "busy"), w + 1).
Definition two_adapters : Adapter nat Z unit :=
  {| chat a _ _ _ := answer a (PRChat some_completion);
     chat_stream a _ _ _ := fun w => (Ok tt, w + 1);
     image_generation a _ _ _ := answer a (PRImage {| igr_created := 0; igr_data := [] |});
     image_edit a _ _ _ _ _ _ := answer a (PRImage {| igr_created := 0; igr_data := [] |});
     audio_tts a _ _ _ := answer a (PRBytes "bytes" "audio/mpeg");
     audio_stt a _ _ _ _ _ _ := answer a (PRAudioStt {| stt_text := "hi" |});
     embedding a _ _ _ := answer a (PREmbedding some_embedding) |}.

#[local] Existing Instances toy_crypto coded_json no_schemas exact_decimals whole_f64 counting_world two_adapters.

Definition profile_of (id : Uuid) (protocol : string) : ProviderProfile :=
  {| profile_id := id; profile_name := protocol; profile_protocol := protocol;
     profile_base_url := Some "https://backend"; allow_wildcard := false; profile_auth := VObject [];
     profile_config := VObject []; profile_enabled := true; profile_created_at := 0 |}.
Definition model_of (id : Uuid) (name : string) (profile : Uuid) (fallbacks : list string) : Model :=
  {| model_id := id; public_id := name; model_provider := "p"; provider_profile_id := profile;
     provider_model_id := name; capabilities := ["chat"; "embedding"];
     pricing := obj [("input_price_per_million", VString "2"); ("output_price_per_million", VString "2")];
     model_config := obj [("fallbacks", VArray (VString <$> fallbacks))]; model_created_at := 0 |}.
(** [busy] is on the failing backend and falls back to [idle]. *)
Definition shop (rpm : option Z) : Proxy (F := whole_f64) (W := Z) :=
  {| px_db := put_organizations
       [ {| org_id := 3; org_name := "acme"; org_rpm := rpm; org_tpm := None; org_created_at := 0 |} ]
       (router_db [profile_of 11 "up"; profile_of 12 "down"]
          [model_of 1 "busy" 12 ["idle"]; model_of 2 "idle" 11 []]);
     px_lb := lb_new;
     px_limiter := {| rpm_buckets := {[ (3, "busy") := {| capacity := 120; tokens := 0; last_refill := 0 |} ]};
                      tpm_buckets := ∅ |};
     px_world := 0; px_logs := [] |}.
Definition up_and_down : AdapterRegistry nat :=
  register_adapter (MkProtocol "up") 0%nat (register_adapter (MkProtocol "down") 1%nat {| adapters := ∅ |}).
Definition ask : EmbeddingRequest := {| emb_model := "busy"; emb_input := ["hello"] |}.

Lemma endpoints_release_guards_witness :
  is_ok (embeddings up_and_down "k" sample_key ask (shop None)).1 = true /\
  px_world (embeddings up_and_down "k" sample_key ask (shop None)).2 = 4 /\
  same_flight lb_new (px_lb (embeddings up_and_down "k" sample_key ask (shop None)).2).
Proof.
  split; [vm_compute; reflexivity|]. split; [vm_compute; reflexivity|].
  exact (proj1 (proj1 (endpoints_release_guards up_and_down "k" sample_key (shop None) lb_new_flight_ok) ask)).
Defined.

Lemma success_is_billed_once_witness :
  exists body, (embeddings up_and_down "k" sample_key ask (shop None)).1 = Ok body /\
    answered Embedding (call_embedding ask) sample_key "busy" (shop None)
      (embeddings up_and_down "k" sample_key ask (shop None)).2 body.
Proof.
  pose proof (success_is_billed_once up_and_down "k" "embedding" Embedding (call_embedding ask) sample_key "busy"
                (shop None) lb_new_flight_ok) as Hv.
  assert (is_ok (embeddings up_and_down "k" sample_key ask (shop None)).1 = true) as Hb by (vm_compute; reflexivity).
  unfold embeddings in *. change (emb_model ask) with "busy" in *.
  destruct (serve up_and_down "k" "embedding" Embedding (call_embedding ask) sample_key "busy" (shop None)) as [[b|e] s'];
    [|discriminate Hb].
  exists b. split; [reflexivity|exact Hv].
Defined.

Lemma refused_requests_reach_no_backend_witness :
  exists e, (embeddings up_and_down "k" sample_key ask (shop (Some 120))).1 = Err (Failed (RateLimited e)) /\
    px_world (embeddings up_and_down "k" sample_key ask (shop (Some 120))).2 = 0.
Proof.
  destruct (resolve_model up_and_down "k" "busy" Embedding (shop (Some 120))) as [r s1] eqn:E.
  assert (match resolve_model up_and_down "k" "busy" Embedding (shop (Some 120)) with
          | (Ok primary, s1) =>
            match admission_checks sample_key (rm_model primary) 1 s1 with
            | (Err (Failed (RateLimited _)), s2) => px_world s2 =? 0
            | _ => false
            end
          | _ => false end = true) as Hb by (vm_compute; reflexivity).
  rewrite E in Hb. destruct r as [primary|]; [|discriminate Hb].
  destruct (admission_checks sample_key (rm_model primary) 1 s1) as [[u|[[| | | |ra| | | | | |]|]] s2] eqn:Ea; try discriminate Hb.
  apply Z.eqb_eq in Hb. exists ra.
  destruct (refused_requests_reach_no_backend up_and_down "k" "embedding" Embedding (call_embedding ask)
    sample_key "busy" (shop (Some 120)) primary s1 (Failed (RateLimited ra)) E) as (H1 & H2 & _); [rewrite Ea; reflexivity|].
  split; [exact H1|]. unfold embeddings. change (emb_model ask) with "busy". rewrite H2, Ea. exact Hb.
Defined.

