(* ===== verification/InFlight.v ===== *)
(** * Requests in flight together

    [Proxy.v] takes an endpoint of one backend call ([embeddings] and its four siblings of
    [godwit-api/src/proxy.rs]) as one computation.  Here the same text is cut at its awaits, so
    that requests advance in turns over the shared state: each of its checks, its calls and its
    resolutions is one step, and between two of them other requests take theirs and the
    database, the limiter and the world change.  Alone, the pieces are the whole again; together,
    they keep the counters of requests in flight exact and the log to one row for an answer. *)

From stdpp Require Import base gmap strings list.
From Stdlib Require Import QArith SpecFloat.
From S2P Require Import Prelude RustStr Json Core Limiter Balancer Db Auth Router Resilience Usage Backend Proxy ProxyFacts.

#[local] Open Scope string_scope.
#[local] Open Scope Z_scope.

Section InFlight.
Context `{Cr : Crypto} `{JT : JsonText} `{Sc : Schemas} `{De : Decimals} `{F : F64} {A W Es B : Type}.
Context `{Wo : !World W} `{Ad : !Adapter A W Es}.
Context (registry : AdapterRegistry A) (master_key : string).
Notation PROXY_STATE := (Proxy (F := F) (W := W)).
Implicit Types p : PROXY_STATE.

(** A request: the key, the model asked for, and what its endpoint makes of it. *)
Record CallTask : Type := {
  tk_what : string; tk_capability : Capability; tk_call : ResolvedModel A -> ST W ProviderError (B * UsageReport);
  tk_key : ApiKey; tk_model : string }.

(** Where a request is, with the locals it holds; [start] is when it began, [n] the number of
    checks it has passed. *)
Inductive Phase : Type :=
| Arrived
| Checking (n : nat) (start : Z) (rm : ResolvedModel A)
| Walking (start : Z) (chain : list string) (rate_limited_err : option ApiError) (last_err : option ProviderError)
| Limiting (start : Z) (chain : list string) (rate_limited_err : option ApiError) (last_err : option ProviderError) (rm : ResolvedModel A)
| Trying (start : Z) (chain : list string) (rate_limited_err : option ApiError) (last_err : option ProviderError) (rm : ResolvedModel A)
| Finishing (start : Z) (held : option (ResolvedModel A)) (used : B * UsageReport * Model)
| Done (r : result (failure ApiError) B).

(** [godwit-api/src/proxy.rs:665-667] [embeddings] *)
Definition checks_of (key : ApiKey) (m : Model) : list (ST PROXY_STATE (failure ApiError) unit) :=
  [check_rate_limit key m 1; check_user_budget key; check_team_budget_of key].

(** What goes out of scope gives its guard back. *)
Definition release (rm : ResolvedModel A) p : PROXY_STATE := (on_flight (drop_resolved rm) p).2.
Definition release_opt (o : option (ResolvedModel A)) p : PROXY_STATE := match o with Some rm => release rm p | None => p end.

(** One turn of a request.
    [godwit-api/src/proxy.rs:652-755] [embeddings] *)
Definition advance (t : CallTask) (ph : Phase) p : Phase * PROXY_STATE :=
  match ph with
  | Arrived =>
    match resolve_model registry master_key (tk_model t) (tk_capability t) p with
    | (Ok rm, p') => (Checking 0 (now (px_world p)) rm, p')
    | (Err e, p') => (Done (Err e), p')
    end
  | Checking n start rm =>
    match checks_of (tk_key t) (rm_model rm) !! n with
    | Some check =>
      match check p with
      | (Ok _, p') => (Checking (S n) start rm, p')
      | (Err e, p') => (Done (Err e), release rm p')
      end
    | None =>
      match on_world (tk_call t rm) p with
      | (Ok (Ok (resp, usage)), p') => (Finishing start (Some rm) (resp, usage, rm_model rm), p')
      | (Ok (Err e), p') => (Walking start (router_fallback_chain (rm_model rm)) None (Some e), release rm p')
      | (Err e, p') => (Done (Err e), release rm p')
      end
    end
  | Walking start [] rl last =>
    (Done (Err (Failed (match rl with
                        | Some rl_err => rl_err
                        | None => map_provider_error (default (ProviderFailed (tk_what t +:+ " failed on all providers")) last)
                        end))), p)
  | Walking start (fallback_id :: chain) rl last =>
    match resolve_model registry master_key fallback_id (tk_capability t) p with
    | (Ok rm, p') => (Limiting start chain rl last rm, p')
    | (Err (Failed _), p') => (Walking start chain rl last, p')
    | (Err Panic, p') => (Done (Err Panic), p')
    end
  | Limiting start chain rl last rm =>
    match check_rate_limit (tk_key t) (rm_model rm) 1 p with
    | (Ok _, p') => (Trying start chain rl last rm, p')
    | (Err (Failed rl_err), p') => (Walking start chain (Some rl_err) last, release rm p')
    | (Err Panic, p') => (Done (Err Panic), release rm p')
    end
  | Trying start chain rl last rm =>
    match on_world (tk_call t rm) p with
    | (Ok (Ok (resp, usage)), p') => (Finishing start None (resp, usage, rm_model rm), release rm p')
    | (Ok (Err e), p') => (Walking start chain rl (Some e), release rm p')
    | (Err e, p') => (Done (Err e), release rm p')
    end
  | Finishing start held used =>
    let '(r, p') := finish (tk_key t) (tk_capability t) start used p in (Done r, release_opt held p')
  | Done r => (Done r, p)
  end.

(** The guard a request holds, and whether it has ended. *)
Definition guard_of_phase (ph : Phase) : option (ResolvedModel A) :=
  match ph with
  | Checking _ _ rm | Limiting _ _ _ _ rm | Trying _ _ _ _ rm => Some rm
  | Finishing _ held _ => held
  | _ => None
  end.
Definition is_done (ph : Phase) : bool := match ph with Done _ => true | _ => false end.

(** A request alone, for [n] turns. *)
Fixpoint drive (n : nat) (t : CallTask) (ph : Phase) p : Phase * PROXY_STATE :=
  match n with
  | O => (ph, p)
  | S n => let '(ph, p) := advance t ph p in drive n t ph p
  end.

(** The turns a request may still take, once it has begun. *)
Definition turns_left (ph : Phase) : nat :=
  match ph with
  | Arrived => 0
  | Checking n _ rm => (3 - n) + 3 + 3 * length (router_fallback_chain (rm_model rm))
  | Walking _ chain _ _ => 2 + 3 * length chain
  | Limiting _ chain _ _ _ => 4 + 3 * length chain
  | Trying _ chain _ _ _ => 3 + 3 * length chain
  | Finishing _ _ _ => 1
  | Done _ => 0
  end.

(** ** Together *)

(** A step of the whole: a request arrives, one takes a turn, one whose client has gone is
    dropped at an await with what it held, or the rest of the program changes what is not the
    balancer's or the log's. *)
Inductive together : list (CallTask * Phase) * PROXY_STATE -> list (CallTask * Phase) * PROXY_STATE -> Prop :=
| arrive ts t p : together (ts, p) ((ts ++ [(t, Arrived)])%list, p)
| turn ts i t ph p :
    ts !! i = Some (t, ph) -> together (ts, p) (<[i := (t, (advance t ph p).1)]> ts, (advance t ph p).2)
| gone ts i t ph p :
    ts !! i = Some (t, ph) -> is_done ph = false -> together (ts, p) (delete i ts, release_opt (guard_of_phase ph) p)
| elsewhere ts p d l w :
    together (ts, p) (ts, {| px_db := d; px_lb := px_lb p; px_limiter := l; px_world := w; px_logs := px_logs p |}).
End InFlight.

(** ** Alone *)

Section Alone.
Context `{Cr : Crypto} `{JT : JsonText} `{Sc : Schemas} `{De : Decimals} `{F : F64} {A W Es B : Type}.
Context `{Wo : !World W} `{Ad : !Adapter A W Es}.
Context (registry : AdapterRegistry A) (master_key : string).
Notation PROXY_STATE := (Proxy (F := F) (W := W)).
Notation TASK := (CallTask (A := A) (W := W) (B := B)).
Notation PHASE := (Phase (A := A) (B := B)).
Notation advancing := (advance (F := F) registry master_key).
Notation driven := (drive (F := F) registry master_key).
Implicit Types (p : PROXY_STATE) (t : TASK) (ph : PHASE).

#[local] Arguments finish : simpl never.
(** Driven far enough, the request is there. *)
Definition ends_in t ph p (out : result (failure ApiError) B * PROXY_STATE) : Prop := exists n, driven n t ph p = (Done out.1, out.2).

Lemma ends_done t r p out : out = (r, p) -> ends_in t (Done r) p out.
Proof. intros ->. by exists 0%nat. Qed.
Lemma ends_turn t ph p ph' p' out : advancing t ph p = (ph', p') -> ends_in t ph' p' out -> ends_in t ph p out.
Proof. intros Ha [n Hn]. exists (S n). simpl. by rewrite Ha. Qed.

Lemma finish_ends t start held used p :
  ends_in t (Finishing start held used) p (catch (finish (tk_key t) (tk_capability t) start used) (fun r =>
    (match held with Some rm => on_flight (drop_resolved rm) | None => mret tt end);; lift r) p).
Proof.
  unfold catch. destruct (finish (tk_key t) (tk_capability t) start used p) as [r p'] eqn:E.
  eapply ends_turn; [simpl; by rewrite E|]. apply ends_done. by destruct held.
Qed.

Lemma finish_ends_none t start used p :
  ends_in t (Finishing start None used) p (finish (tk_key t) (tk_capability t) start used p).
Proof.
  destruct (finish (tk_key t) (tk_capability t) start used p) as [r p'] eqn:E.
  eapply ends_turn; [simpl; by rewrite E|]. by apply ends_done.
Qed.

(** From a chain of fallbacks on. *)
Lemma walk_ends t start chain : forall rl last p,
  ends_in t (Walking start chain rl last) p
    ((used ← fallbacks registry master_key (tk_what t) (tk_capability t) (tk_call t) (tk_key t) chain rl last;
      finish (tk_key t) (tk_capability t) start used) p).
Proof.
  induction chain as [|id chain IH]; intros rl last p.
  { eapply ends_turn; [reflexivity|]. apply ends_done. by destruct rl. }
  unfold mbind, st_bind. cbn [fallbacks]. unfold catch at 1.
  destruct (resolve_model registry master_key id (tk_capability t) p) as [[rm|[e|]] p1] eqn:Er.
  2: { eapply ends_turn; [simpl; by rewrite Er|]. apply (IH rl last p1). }
  2: { eapply ends_turn; [simpl; by rewrite Er|]. by apply ends_done. }
  eapply ends_turn; [simpl; by rewrite Er|]. unfold try_fallback, holding, catch, mbind at 1, st_bind at 1.
  destruct (check_rate_limit (tk_key t) (rm_model rm) 1 p1) as [[[]|[e|]] p2] eqn:Ec.
  2: { eapply ends_turn; [simpl; by rewrite Ec|]. apply (IH (Some e) last (release rm p2)). }
  2: { eapply ends_turn; [simpl; by rewrite Ec|]. by apply ends_done. }
  eapply ends_turn; [simpl; by rewrite Ec|]. unfold on_world, mbind, st_bind.
  destruct (tk_call t rm (px_world p2)) as [[[resp usage]|e] w] eqn:Ew.
  - eapply ends_turn; [simpl; unfold on_world; by rewrite Ew|].
    match goal with |- ends_in _ _ ?q _ => exact (finish_ends_none t start (resp, usage, rm_model rm) q) end.
  - eapply ends_turn; [simpl; unfold on_world; by rewrite Ew|]. apply (IH rl (Some e)).
Qed.

Lemma serve_ends t p : ends_in t Arrived p (serve registry master_key (tk_what t) (tk_capability t) (tk_call t) (tk_key t) (tk_model t) p).
Proof.
  unfold serve. unfold gets at 1, mbind at 1, st_bind at 1. unfold mbind at 1, st_bind at 1.
  destruct (resolve_model registry master_key (tk_model t) (tk_capability t) p) as [[rm|e] p1] eqn:Er.
  2: { eapply ends_turn; [simpl; by rewrite Er|]. by apply ends_done. }
  eapply ends_turn; [simpl; by rewrite Er|]. unfold mbind at 1, st_bind at 1. unfold holding_on_error at 1, catch at 1.
  unfold admission_checks. unfold mbind at 1, st_bind at 1. destruct (check_rate_limit (tk_key t) (rm_model rm) 1 p1) as [[[]|e] p2] eqn:E1.
  2: { eapply ends_turn; [simpl; by rewrite E1|]. by apply ends_done. }
  eapply ends_turn; [simpl; by rewrite E1|]. unfold mbind at 1, st_bind at 1. destruct (check_user_budget (tk_key t) p2) as [[[]|e] p3] eqn:E2.
  2: { eapply ends_turn; [simpl; by rewrite E2|]. by apply ends_done. }
  eapply ends_turn; [simpl; by rewrite E2|]. destruct (check_team_budget_of (tk_key t) p3) as [[[]|e] p4] eqn:E3.
  2: { eapply ends_turn; [simpl; by rewrite E3|]. by apply ends_done. }
  eapply ends_turn; [simpl; by rewrite E3|]. unfold mret at 1, st_ret at 1. unfold mbind at 1, st_bind at 1. unfold on_world.
  destruct (tk_call t rm (px_world p4)) as [[[resp usage]|e] w] eqn:Ew.
  - eapply ends_turn; [simpl; unfold on_world; by rewrite Ew|].
    match goal with |- ends_in _ _ ?q _ => exact (finish_ends t (now (px_world p)) (Some rm) (resp, usage, rm_model rm) q) end.
  - eapply ends_turn; [simpl; unfold on_world; by rewrite Ew|].
    match goal with |- ends_in _ _ ?q _ => exact (walk_ends t (now (px_world p)) (router_fallback_chain (rm_model rm)) None (Some e) q) end.
Qed.

(** Every turn but the first brings the end nearer. *)
Lemma advance_progress t ph p : ph <> Arrived -> (forall r, ph <> Done r) -> (turns_left (advancing t ph p).1 < turns_left ph)%nat.
Proof.
  intros Hne Hnd. destruct ph as [|n start rm|start [|id chain] rl last|start chain rl last rm|start chain rl last rm|start held used|r]; simpl.
  - done.
  - destruct (checks_of (tk_key t) (rm_model rm) !! n) as [check|] eqn:En.
    + apply lookup_lt_Some in En. simpl in En. destruct (check p) as [[x|e] p']; simpl; lia.
    + destruct (tk_call t rm (px_world p)) as [[[resp usage]|e] w] eqn:Ew; unfold on_world; rewrite Ew; simpl; lia.
  - lia.
  - destruct (resolve_model _ _ _ _ p) as [[rm|[e|]] p']; simpl; lia.
  - destruct (check_rate_limit _ _ _ p) as [[x|[e|]] p']; simpl; lia.
  - unfold on_world. destruct (tk_call t rm (px_world p)) as [[[resp usage]|e] w]; simpl; lia.
  - destruct (finish _ _ _ _ p) as [r p']. simpl. lia.
  - by destruct (Hnd r).
Qed.
End Alone.

(** ** Together *)

Section Together.
Context `{Cr : Crypto} `{JT : JsonText} `{Sc : Schemas} `{De : Decimals} `{F : F64} {A W Es B : Type}.
Context `{Wo : !World W} `{Ad : !Adapter A W Es}.
Context (registry : AdapterRegistry A) (master_key : string).
Notation PROXY_STATE := (Proxy (F := F) (W := W)).
Notation TASK := (CallTask (A := A) (W := W) (B := B)).
Notation PHASE := (Phase (A := A) (B := B)).
Notation advancing := (advance (F := F) registry master_key).
Implicit Types (p : PROXY_STATE) (t : TASK) (ph : PHASE) (ts : list (TASK * PHASE)).

Definition flight_of p (id : Uuid) : Z := in_flight (lb_of (px_lb p) id).

(** How many guards a request, and a list of them, hold on a model. *)
Definition guards (o : option (ResolvedModel A)) (id : Uuid) : Z :=
  match o with Some rm => if rm_guard rm && is_id (model_id (rm_model rm)) id then 1 else 0 | None => 0 end.
Definition held ts (id : Uuid) : Z := sumZ ((fun x => guards (guard_of_phase x.2) id) <$> ts).

(** [p'] has the guards of [new] where [p] has those of [old]. *)
Definition guards_exchanged (old new : option (ResolvedModel A)) p p' : Prop :=
  flight_ok (px_lb p') /\ forall id, flight_of p' id = wrap_u 64 (flight_of p id + guards new id - guards old id).

Lemma wrap_add a b : wrap_u 64 (wrap_u 64 a + b) = wrap_u 64 (a + b).
Proof. unfold wrap_u. apply Zplus_mod_idemp_l. Qed.

Lemma exchanged_same o p p' : flight_ok (px_lb p) -> same_flight (px_lb p) (px_lb p') -> guards_exchanged o o p p'.
Proof.
  intros Hp Hs. split; [by rewrite <- Hs|]. intros id. unfold flight_of. rewrite Hs.
  rewrite wrap_u_small; [lia|]. replace (_ + _ - _) with (in_flight (lb_of (px_lb p) id)) by lia. apply Hp.
Qed.
Lemma exchanged_trans o1 o2 o3 p1 p2 p3 : guards_exchanged o1 o2 p1 p2 -> guards_exchanged o2 o3 p2 p3 -> guards_exchanged o1 o3 p1 p3.
Proof.
  intros [_ H1] [H2 H3]. split; [done|]. intros id. rewrite H3, H1.
  replace (wrap_u 64 (flight_of p1 id + guards o2 id - guards o1 id) + guards o3 id - guards o2 id)
    with (wrap_u 64 (flight_of p1 id + guards o2 id - guards o1 id) + (guards o3 id - guards o2 id)) by lia.
  rewrite wrap_add. f_equal. lia.
Qed.

Lemma drop_resolved_flight (rm : ResolvedModel A) b id : flight_ok b ->
  in_flight (lb_of (drop_resolved rm b) id) = wrap_u 64 (in_flight (lb_of b id) - guards (Some rm) id).
Proof.
  intros Hb. unfold drop_resolved, guards. specialize (Hb id). destruct (rm_guard rm); simpl.
  - rewrite (proj2 (increment_drop_flight (model_id (rm_model rm)) id b)). unfold is_id.
    destruct (Z.eqb_spec (model_id (rm_model rm)) id); case_decide; try done. by rewrite Z.sub_0_r, wrap_u_small.
  - by rewrite Z.sub_0_r, wrap_u_small.
Qed.
Lemma exchanged_release rm p : flight_ok (px_lb p) -> guards_exchanged (Some rm) None p (release rm p).
Proof.
  intros Hp. unfold release, on_flight, modify. simpl. split.
  - intros id. simpl. rewrite drop_resolved_flight by done. by apply wrap_u_range.
  - intros id. unfold flight_of. simpl px_lb. rewrite drop_resolved_flight by done. f_equal. simpl. lia.
Qed.
Lemma exchanged_resolved rm p p' :
  flight_ok (px_lb p') -> same_flight (px_lb p) (drop_resolved rm (px_lb p')) -> guards_exchanged None (Some rm) p p'.
Proof.
  intros Hp Hs. split; [done|]. intros id. unfold flight_of. rewrite <- (Hs id), drop_resolved_flight by done.
  change (guards None id) with 0. rewrite Z.sub_0_r, wrap_add.
  replace (_ - _ + _) with (in_flight (lb_of (px_lb p') id)) by lia. by rewrite wrap_u_small.
Qed.

(** What a turn does to the counters and the log: the guards change hands, and an answer is
    the only thing that is logged. *)
Definition is_answer ph : bool := match ph with Done (Ok _) => true | _ => false end.
Definition billed t (e : RequestLogEntry) : Prop := exists m ms cost, e = log_entry (tk_key t) m (tk_capability t) ms cost.
Definition turned t ph p ph' p' : Prop :=
  guards_exchanged (guard_of_phase ph) (guard_of_phase ph') p p' /\
  exists les, px_logs p' = (px_logs p ++ les)%list /\
    if is_answer ph' && negb (is_done ph) then exists e, les = [e] /\ billed t e else les = [].

Lemma turned_quiet t ph p ph' p' :
  flight_ok (px_lb p) -> guard_of_phase ph' = guard_of_phase ph -> is_answer ph' && negb (is_done ph) = false ->
  steady p p' -> px_logs p' = px_logs p -> turned t ph p ph' p'.
Proof.
  intros Hp Hg Ha [Hs _] Hl. split; [rewrite Hg; by apply exchanged_same|]. exists []. rewrite app_nil_r, Ha. done.
Qed.
Lemma turned_release t ph p ph' p1 rm :
  flight_ok (px_lb p) -> guard_of_phase ph = Some rm -> guard_of_phase ph' = None -> is_answer ph' && negb (is_done ph) = false ->
  steady p p1 -> px_logs p1 = px_logs p -> turned t ph p ph' (release rm p1).
Proof.
  intros Hp Hg Hg' Ha [Hs Hf] Hl. split; [|exists []; rewrite app_nil_r, Ha; done]. rewrite Hg, Hg'.
  eapply exchanged_trans; [by apply (exchanged_same (Some rm))|]. apply exchanged_release. by rewrite <- Hs.
Qed.
Lemma turned_resolved t ph p ph' p' rm :
  guard_of_phase ph = None -> guard_of_phase ph' = Some rm -> is_answer ph' && negb (is_done ph) = false ->
  in_scope rm p p' -> px_logs p' = px_logs p -> turned t ph p ph' p'.
Proof.
  intros Hg Hg' Ha (H1 & H2 & _) Hl. split; [|exists []; rewrite app_nil_r, Ha; done]. rewrite Hg, Hg'. by apply exchanged_resolved.
Qed.

Lemma checks_quiet key m n check : checks_of (F := F) (W := W) key m !! n = Some check -> quiet check.
Proof.
  unfold checks_of. destruct n as [|[|[|n]]]; simpl; intros [= <-].
  - apply quiet_check_rate_limit.
  - apply quiet_db, reads_user_budget.
  - unfold check_team_budget_of. destruct (key_team_id key); [apply quiet_db, reads_team_budget|apply quiet_ret].
Qed.

#[local] Arguments finish : simpl never.
Lemma advance_turned t ph p : flight_ok (px_lb p) -> turned t ph p (advancing t ph p).1 (advancing t ph p).2.
Proof.
  intros Hp. destruct ph as [|n start rm|start [|id chain] rl last|start chain rl last rm|start chain rl last rm|start h used|r]; simpl.
  - pose proof (resolve_model_spec registry master_key (tk_model t) (tk_capability t) p Hp) as Hr.
    destruct (resolve_model _ _ _ _ p) as [[rm|e] p']; simpl.
    + destruct Hr as (Hi & Hl & _). by eapply turned_resolved.
    + destruct Hr as (_ & Hs & Hl). by apply turned_quiet.
  - destruct (checks_of (tk_key t) (rm_model rm) !! n) as [check|] eqn:En.
    + destruct (checks_quiet _ _ _ _ En p Hp) as [Hs Hl]. destruct (check p) as [[x|e] p']; simpl in *.
      * by apply turned_quiet.
      * by apply turned_release.
    + pose proof (quiet_world (tk_call t rm) p Hp) as [Hs Hl]. unfold on_world in *.
      destruct (tk_call t rm (px_world p)) as [[[resp usage]|e] w]; simpl in *; [by apply turned_quiet|by apply turned_release].
  - by apply turned_quiet.
  - pose proof (resolve_model_spec registry master_key id (tk_capability t) p Hp) as Hr.
    destruct (resolve_model _ _ _ _ p) as [[rm|[e|]] p']; simpl.
    + destruct Hr as (Hi & Hl & _). by eapply turned_resolved.
    + destruct Hr as (_ & Hs & Hl). by apply turned_quiet.
    + destruct Hr as (_ & Hs & Hl). by apply turned_quiet.
  - pose proof (quiet_check_rate_limit (tk_key t) (rm_model rm) 1 p Hp) as [Hs Hl].
    destruct (check_rate_limit _ _ _ p) as [[x|[e|]] p']; simpl in *; [by apply turned_quiet|by apply turned_release..].
  - pose proof (quiet_world (tk_call t rm) p Hp) as [Hs Hl]. unfold on_world in *.
    destruct (tk_call t rm (px_world p)) as [[[resp usage]|e] w]; simpl in *; by apply turned_release.
  - destruct used as [[body usage] m]. pose proof (finish_spec (tk_capability t) (tk_key t) start body usage m p Hp) as Hf.
    destruct (finish _ _ _ _ p) as [r p1]. simpl. destruct Hf as [[Hs Hd] Hf]. split.
    + eapply exchanged_trans; [by apply (exchanged_same h)|]. destruct h as [rm|]; simpl.
      * apply exchanged_release. by rewrite <- Hs.
      * apply exchanged_same; [by rewrite <- Hs|reflexivity].
    + assert (px_logs (release_opt h p1) = px_logs p1) as -> by (by destruct h). destruct r as [b|e]; simpl.
      * destruct Hf as (_ & cost & ms & _ & _ & Hl). eexists. split; [exact Hl|]. eexists. split; [done|]. by exists m, ms, cost.
      * destruct Hf as (_ & _ & Hl). exists []. by rewrite app_nil_r.
  - apply turned_quiet; [done|done| |reflexivity|done]. by destruct r.
Qed.

(** ** What holds throughout *)

(** The requests answered, in the order they arrived, and the rows of the log that are theirs. *)
Definition answered_tasks ts : list TASK := (filterb (fun x => is_answer x.2) ts).*1.
Definition billing ts (les : list RequestLogEntry) : Prop := exists es, les ≡ₚ es /\ Forall2 billed (answered_tasks ts) es.
Definition counted p0 ts p : Prop :=
  flight_ok (px_lb p) /\ (forall id, flight_of p id = wrap_u 64 (flight_of p0 id + held ts id)) /\
  exists les, px_logs p = (px_logs p0 ++ les)%list /\ billing ts les.

Lemma held_app ts1 ts2 id : held (ts1 ++ ts2)%list id = held ts1 id + held ts2 id.
Proof. unfold held. by rewrite fmap_app, sumZ_app. Qed.
Lemma held_cons x ts id : held (x :: ts) id = guards (guard_of_phase x.2) id + held ts id.
Proof. done. Qed.
Lemma answered_app ts1 ts2 : answered_tasks (ts1 ++ ts2)%list = (answered_tasks ts1 ++ answered_tasks ts2)%list.
Proof. unfold answered_tasks. by rewrite filterb_app, fmap_app. Qed.
Lemma answered_cons x ts : answered_tasks (x :: ts) = if is_answer x.2 then x.1 :: answered_tasks ts else answered_tasks ts.
Proof. unfold answered_tasks. simpl. by destruct (is_answer x.2). Qed.

Lemma counted_turn p0 t ph ph' p p' ts1 ts2 :
  turned t ph p ph' p' -> (is_done ph = true -> ph' = ph) ->
  counted p0 (ts1 ++ (t, ph) :: ts2)%list p -> counted p0 (ts1 ++ (t, ph') :: ts2)%list p'.
Proof.
  intros ((Hok & Hx) & les & Hl & Hles) Hdone (_ & Hf & les0 & Hl0 & es & Hp & Hb). split; [done|]. split.
  - intros id. rewrite Hx, Hf. rewrite !held_app, !held_cons. simpl.
    match goal with |- wrap_u 64 (?w + ?g' - ?g) = _ => replace (w + g' - g) with (w + (g' - g)) by lia end.
    rewrite wrap_add. f_equal. lia.
  - exists (les0 ++ les)%list. split; [by rewrite Hl, Hl0, <- app_assoc|]. unfold billing in *.
    rewrite answered_app, answered_cons in Hb. rewrite answered_app, answered_cons. simpl in *.
    destruct (is_done ph) eqn:Ed.
    { rewrite (Hdone eq_refl) in *. rewrite andb_false_r in Hles. subst les. exists es. by rewrite app_nil_r. }
    rewrite andb_true_r in Hles. assert (is_answer ph = false) as Hna by (by destruct ph as [| | | | | |[]]). rewrite Hna in Hb.
    destruct (is_answer ph').
    + destruct Hles as (e & -> & He). apply Forall2_app_inv_l in Hb as (e1 & e2 & H1 & H2 & ->).
      exists (e1 ++ e :: e2)%list. split; [rewrite Hp; solve_Permutation|]. apply Forall2_app; [done|by constructor].
    + subst les. exists es. by rewrite app_nil_r.
Qed.

Lemma counted_gone p0 t ph p ts1 ts2 :
  is_done ph = false -> counted p0 (ts1 ++ (t, ph) :: ts2)%list p ->
  counted p0 (ts1 ++ ts2)%list (release_opt (guard_of_phase ph) p).
Proof.
  intros Hd (Hok & Hf & les & Hl & es & Hp & Hb).
  assert (guards_exchanged (guard_of_phase ph) None p (release_opt (guard_of_phase ph) p)) as [Hok' Hx].
  { destruct (guard_of_phase ph); [by apply exchanged_release|by apply exchanged_same]. }
  split; [done|]. split.
  - intros id. rewrite Hx, Hf, !held_app, held_cons. simpl.
    match goal with |- wrap_u 64 (?w + ?g' - ?g) = _ => replace (w + g' - g) with (w + (g' - g)) by lia end.
    rewrite wrap_add. f_equal. lia.
  - exists les. split; [rewrite <- Hl; by destruct (guard_of_phase ph)|]. exists es. split; [done|].
    rewrite answered_app in Hb |- *. rewrite answered_cons in Hb. by destruct ph.
Qed.

Lemma counted_step p0 s s' : counted p0 s.1 s.2 -> together (B := B) registry master_key s s' -> counted p0 s'.1 s'.2.
Proof.
  intros Hc Hs. destruct Hs as [ts t p|ts i t ph p Hi|ts i t ph p Hi Hd|ts p d l w]; simpl in *.
  - destruct Hc as (H1 & H2 & les & H3 & H4). split; [done|]. split.
    + intros id. rewrite H2, held_app, held_cons. simpl. f_equal. unfold held. simpl. lia.
    + exists les. split; [done|]. unfold billing. rewrite answered_app, answered_cons. simpl. by rewrite app_nil_r.
  - pose proof (advance_turned t ph p (proj1 Hc)) as Ht.
    rewrite insert_take_drop by (by eapply lookup_lt_Some). eapply counted_turn; [exact Ht| |by rewrite take_drop_middle].
    by destruct ph.
  - rewrite delete_take_drop. eapply counted_gone; [done|]. by rewrite take_drop_middle.
  - done.
Qed.
End Together.

(** ** Theorems *)

Section Theorems.
Context `{Cr : Crypto} `{JT : JsonText} `{Sc : Schemas} `{De : Decimals} `{F : F64} {A W Es B : Type}.
Context `{Wo : !World W} `{Ad : !Adapter A W Es}.
Context (registry : AdapterRegistry A) (master_key : string).

(** C8: requests interleave and stay counted.  An endpoint cut at its awaits is the endpoint: a
    request that is alone ends, after as many turns as it takes, with the answer and the state
    of the whole; and whatever the others do, each of its turns brings its end nearer, so no
    request waits for another.  With any number of requests taking turns in any order, while
    the database, the limiter and the world change under them and clients going away, the
    counter of each model is at every moment what it was at the start and the guards then held,
    and back at the start once all have ended, whether answered, refused, failed or dropped;
    and the log has one row more for each request answered, to its key, and none for the
    others. *)
Theorem requests_interleave_counted :
  (forall (t : CallTask (B := B)) (p : Proxy (F := F) (W := W)), exists n,
     let '(r, p') := serve registry master_key (tk_what t) (tk_capability t) (tk_call t) (tk_key t) (tk_model t) p in
     drive registry master_key n t Arrived p = (Done r, p')) /\
  (forall (t : CallTask (B := B)) ph (p : Proxy (F := F) (W := W)), ph <> Arrived -> (forall r, ph <> Done r) ->
     (turns_left (advance registry master_key t ph p).1 < turns_left ph)%nat) /\
  (forall p0 ts p, rtc (together (B := B) registry master_key) ([], p0) (ts, p) -> flight_ok (px_lb p0) ->
     (forall id, flight_of p id = wrap_u 64 (flight_of p0 id + held ts id)) /\
     (Forall (fun x => is_done x.2 = true) ts -> same_flight (px_lb p0) (px_lb p)) /\
     exists les, px_logs p = (px_logs p0 ++ les)%list /\ billing ts les).
Proof.
  split_and!.
  - intros t p. destruct (serve_ends registry master_key t p) as [n Hn]. exists n. by destruct (serve _ _ _ _ _ _ _ p).
  - intros t ph p. apply advance_progress.
  - intros p0 ts p Hr Hf.
    assert (forall s s', rtc (together (B := B) registry master_key) s s' -> counted p0 s.1 s.2 -> counted p0 s'.1 s'.2) as Hinv.
    { intros s s' Hss. induction Hss as [s|s s1 s' Hs _ IH]; [done|]. intros Hc. apply IH. by eapply counted_step. }
    destruct (Hinv _ _ Hr) as (_ & H1 & H2).
    { split; [done|]. split.
      - intros id. unfold held. simpl. rewrite Z.add_0_r. symmetry. apply wrap_u_small, Hf.
      - exists []. rewrite app_nil_r. split; [done|]. by exists []. }
    split; [done|]. split; [|done]. intros Hd id. specialize (H1 id). unfold flight_of in H1. simpl in H1. rewrite H1.
    assert (held ts id = 0) as Hz.
    { clear -Hd. induction Hd as [|[t ph] ts Hx _ IH]; [done|]. rewrite held_cons, IH. by destruct ph. }
    rewrite Hz, Z.add_0_r. apply wrap_u_small, Hf.
Qed.
End Theorems.

(** ** Two requests for the same model in flight *)

#[local] Existing Instances toy_crypto coded_json no_schemas exact_decimals whole_f64 counting_world two_adapters.

Definition idle_task : CallTask (A := nat) (W := Z) (B := ProviderResponse) :=
  {| tk_what := "embedding"; tk_capability := Embedding; tk_call := call_embedding {| emb_model := "idle"; emb_input := [] |};
     tk_key := sample_key; tk_model := "idle" |}.
Definition shop_turn (p : Proxy (F := whole_f64) (W := Z)) := advance (B := ProviderResponse) up_and_down "k" idle_task Arrived p.
Definition first_turn := shop_turn (shop None).
Definition second_turn := shop_turn first_turn.2.

Lemma requests_interleave_counted_witness :
  rtc (together (B := ProviderResponse) up_and_down "k") ([], shop None)
    ([(idle_task, first_turn.1); (idle_task, second_turn.1)], second_turn.2) /\
  flight_of second_turn.2 2 = 2 /\ flight_of second_turn.2 2 = wrap_u 64 (flight_of (shop None) 2 + 2).
Proof.
  assert (rtc (together (B := ProviderResponse) up_and_down "k") ([], shop None)
            ([(idle_task, first_turn.1); (idle_task, second_turn.1)], second_turn.2)) as Hr.
  { eapply rtc_l; [exact (arrive up_and_down "k" [] idle_task (shop None))|].
    eapply rtc_l; [exact (arrive up_and_down "k" [(idle_task, Arrived)] idle_task (shop None))|].
    eapply rtc_l; [exact (turn up_and_down "k" [(idle_task, Arrived); (idle_task, Arrived)] 0 idle_task Arrived (shop None) eq_refl)|].
    eapply rtc_l; [|apply rtc_refl].
    exact (turn up_and_down "k" [(idle_task, first_turn.1); (idle_task, Arrived)] 1 idle_task Arrived first_turn.2 eq_refl). }
  split; [exact Hr|]. split; [vm_compute; reflexivity|].
  destruct (proj2 (proj2 (requests_interleave_counted (B := ProviderResponse) up_and_down "k")) _ _ _ Hr lb_new_flight_ok) as (Hc & _).
  rewrite Hc. f_equal.
Defined.
