(* ===== verification/Adapters.v ===== *)
(** * The adapters of the OpenAI family

    [OpenAiProvider], [AzureOpenAiProvider], [VllmProvider], [SglangProvider],
    [LlamaCppProvider] and [OllamaProvider] of godwit-providers: how each turns a request of
    the gateway into one HTTP request to its backend and the reply into a response and a
    usage report.  The six share their shape; what differs (addresses, the header with the
    key, the body of a chat request) is a [Dialect].

    A backend is a function of the class [Upstream]; what is sent is seen by running an
    adapter over a world that logs the requests. *)

From stdpp Require Import base strings list gmap pretty.
From Stdlib Require Import QArith Ascii.
From S2P Require Import Prelude RustStr Utf8 Json Core Db Resilience Usage Backend Serde Streaming PromptCache.

#[local] Open Scope string_scope.
#[local] Open Scope Z_scope.

(** ** Backends *)

(** A response: its status, its content type when it is a text, its body read whole (or the
    text of the error met), and the same body as the chunks of a stream. *)
Record Reply : Type := {
  rp_status : Z; rp_content_type : option string; rp_body : result string string; rp_chunks : list Chunk }.

(** The [reqwest] client over a world [W]: no reply, with the error's text, or a reply;
    [clock] reads [Instant::now()], [utc_now] the wall clock in seconds, [new_id] draws the
    text of a fresh UUID. *)
Class Upstream (W : Type) := {
  exchange : HttpRequest -> W -> result string Reply * W;
  clock : W -> Z;
  utc_now : W -> Z;
  new_id : W -> string * W;
}.
(** [decode_error]: the text of a body that is not the expected JSON; [invalid_mime]: the
    error of a text that is no media type. *)
Class Formats := {
  decode_error : string -> string;
  invalid_mime : string -> option string;
}.
#[export] Hint Mode Upstream ! : typeclass_instances.

Section Calls.
Context `{JsonText} `{Formats} `{!Upstream W}.
Notation CALL T := (ST W ProviderError T).

(** [req.send().await.map_err(..)?] and the test of the status.
    [godwit-providers/src/openai.rs:312-323] [OpenAiProvider::chat] *)
Definition call_upstream (req : HttpRequest) : CALL Reply :=
  res ← st_map_err (Http 0) (exchange req);
  if is_success (rp_status res) then mret res
  else throw (Http (rp_status res) (body_text (rp_body res))).

(** [res.json::<T>()].
    [godwit-providers/src/openai.rs:324-327] [OpenAiProvider::chat] *)
Definition decode_reply {T} (rd : value -> option T) (res : Reply) : CALL T :=
  match rp_body res with
  | Err e => throw (Serialization e)
  | Ok t => match from_str t ≫= rd with Some v => mret v | None => throw (Serialization (decode_error t)) end
  end.

(** [Part::bytes(body).file_name(..).mime_str(..)].
    [godwit-providers/src/openai.rs:592-595] [OpenAiProvider::audio_stt] *)
Definition file_part (name body filename mime : string) : CALL FormPart :=
  match invalid_mime mime with
  | Some e => throw (ProviderFailed e)
  | None => mret {| part_name := name; part_body := body; part_file := Some (filename, mime) |}
  end.
Definition text_part (name body : string) : FormPart :=
  {| part_name := name; part_body := body; part_file := None |}.
Definition opt_part (name : string) (o : option string) : list FormPart :=
  match o with Some t => [text_part name t] | None => [] end.

(** Where and how a backend of the family is addressed. *)
Record Dialect : Type := {
  dl_url : string -> string -> string -> string;    (* base URL, model, path *)
  dl_chat_url : string -> string -> bool -> string; (* base URL, model, streaming *)
  dl_batch_url : string -> string -> string;        (* base URL, what follows [batches] *)
  dl_key : string -> string * string;               (* the header that carries the key *)
  dl_chat : ChatCompletionRequest -> value;         (* the body of a chat request *)
}.

(** [Authorization: Bearer key].
    [godwit-providers/src/openai.rs:309-311] [OpenAiProvider::chat] *)
Definition bearer_header (key : string) : string * string := ("Authorization", "Bearer " +:+ key).

Section Family.
Context (dl : Dialect).

Definition key_header (profile : ResolvedProfile) : list (string * string) :=
  match rp_api_key profile with Some key => [dl_key dl key] | None => [] end.

Definition json_post (profile : ResolvedProfile) (url : string) (body : value) : HttpRequest :=
  {| hr_method := "POST"; hr_url := url; hr_headers := key_header profile; hr_json := Some body; hr_form := [] |}.
Definition form_post (profile : ResolvedProfile) (url : string) (form : list FormPart) : HttpRequest :=
  {| hr_method := "POST"; hr_url := url; hr_headers := key_header profile; hr_json := None; hr_form := form |}.
Definition empty_request (method : string) (profile : ResolvedProfile) (url : string) : HttpRequest :=
  {| hr_method := method; hr_url := url; hr_headers := key_header profile; hr_json := None; hr_form := [] |}.

(** [request.model = model.provider_model_id.clone()], and [stream] set for a stream.
    [godwit-providers/src/openai.rs:350-352] [OpenAiProvider::chat_stream] *)
Definition upstream_request (model : Model) (streaming : bool) (request : ChatCompletionRequest) : ChatCompletionRequest :=
  {| req_model := provider_model_id model; req_messages := req_messages request;
     req_stream := if streaming then Some true else req_stream request;
     req_temperature := req_temperature request; req_max_tokens := req_max_tokens request;
     req_top_p := req_top_p request; req_top_k := req_top_k request;
     req_frequency_penalty := req_frequency_penalty request; req_presence_penalty := req_presence_penalty request;
     req_repetition_penalty := req_repetition_penalty request; req_stop := req_stop request;
     req_seed := req_seed request; req_n := req_n request; req_logprobs := req_logprobs request;
     req_top_logprobs := req_top_logprobs request; req_logit_bias := req_logit_bias request;
     req_user := req_user request; req_tools := req_tools request; req_tool_choice := req_tool_choice request;
     req_parallel_tool_calls := req_parallel_tool_calls request;
     req_response_format := req_response_format request; req_reasoning := req_reasoning request |}.

Definition chat_request (profile : ResolvedProfile) (model : Model) (streaming : bool) (request : ChatCompletionRequest)
  : HttpRequest :=
  json_post profile (dl_chat_url dl (rp_base_url profile) (provider_model_id model) streaming)
    (dl_chat dl (upstream_request model streaming request)).

(** Send a chat request and read the completion.
    [godwit-providers/src/openai.rs:261-328] [OpenAiProvider::chat] *)
Definition family_chat (profile : ResolvedProfile) (model : Model) (request : ChatCompletionRequest)
  : CALL (ChatCompletionResponse * UsageReport) :=
  res ← call_upstream (chat_request profile model false request);
  body ← decode_reply completion_of_value res;
  mret (body, chat_usage_report (resp_usage body)).

(** [godwit-providers/src/openai.rs:344-425] [OpenAiProvider::chat_stream] *)
Definition family_chat_stream (profile : ResolvedProfile) (model : Model) (request : ChatCompletionRequest)
  : CALL (list Event) :=
  res ← call_upstream (chat_request profile model true request);
  mret (openai_event_stream (rp_chunks res)).

Definition url_of (profile : ResolvedProfile) (model : Model) (path : string) : string :=
  dl_url dl (rp_base_url profile) (provider_model_id model) path.

Definition image_usage (body : ImageGenerationResponse) : UsageReport :=
  {| u_prompt_tokens := None; u_completion_tokens := None;
     u_image_count := Some (Z.of_nat (length (igr_data body))); u_audio_seconds := None; u_video_seconds := None;
     u_tts_characters := None; u_embedding_tokens := None; u_cache_read_tokens := None; u_cache_write_tokens := None |}.

(** [godwit-providers/src/openai.rs:427-459] [OpenAiProvider::image_generation] *)
Definition family_image_generation (profile : ResolvedProfile) (model : Model) (request : ImageGenerationRequest)
  : CALL (ProviderResponse * UsageReport) :=
  let request := {| ig_model := provider_model_id model; ig_prompt := ig_prompt request; ig_n := ig_n request;
                    ig_size := ig_size request; ig_quality := ig_quality request; ig_style := ig_style request |} in
  res ← call_upstream (json_post profile (url_of profile model "images/generations") (image_request_to_value request));
  body ← decode_reply image_response_of_value res;
  mret (PRImage body, image_usage body).

(** [godwit-providers/src/openai.rs:461-520] [OpenAiProvider::image_edit] *)
Definition family_image_edit (profile : ResolvedProfile) (model : Model) (request : ImageEditRequest)
    (image_bytes image_filename : string) (mask_bytes : option string)
  : CALL (ProviderResponse * UsageReport) :=
  image ← file_part "image" image_bytes image_filename "image/png";
  mask ← match mask_bytes with
         | Some mask => m ← file_part "mask" mask "mask.png" "image/png"; mret [m]
         | None => mret []
         end;
  let form := ([image; text_part "model" (provider_model_id model); text_part "prompt" (ie_prompt request)]
               ++ mask ++ opt_part "n" (pretty <$> ie_n request) ++ opt_part "size" (ie_size request)
               ++ opt_part "response_format" (ie_response_format request))%list in
  res ← call_upstream (form_post profile (url_of profile model "images/edits") form);
  body ← decode_reply image_response_of_value res;
  mret (PRImage body, image_usage body).

Definition tts_usage (input : string) : UsageReport :=
  {| u_prompt_tokens := None; u_completion_tokens := None; u_image_count := None; u_audio_seconds := None;
     u_video_seconds := None; u_tts_characters := Some (char_count input);
     u_embedding_tokens := None; u_cache_read_tokens := None; u_cache_write_tokens := None |}.

(** [godwit-providers/src/openai.rs:533-578] [OpenAiProvider::audio_tts] *)
Definition family_audio_tts (profile : ResolvedProfile) (model : Model) (request : AudioTtsRequest)
  : CALL (ProviderResponse * UsageReport) :=
  let request := {| tts_model := provider_model_id model; tts_input := tts_input request; tts_voice := tts_voice request;
                    tts_response_format := tts_response_format request |} in
  res ← call_upstream (json_post profile (url_of profile model "audio/speech") (tts_request_to_value request));
  bytes ← lift (map_err (Http 0) (rp_body res));
  mret (PRBytes bytes (default "audio/mpeg" (rp_content_type res)), tts_usage (tts_input request)).

Definition stt_usage : UsageReport :=
  {| u_prompt_tokens := None; u_completion_tokens := None; u_image_count := None; u_audio_seconds := Some 0%Q;
     u_video_seconds := None; u_tts_characters := None; u_embedding_tokens := None;
     u_cache_read_tokens := None; u_cache_write_tokens := None |}.

(** [godwit-providers/src/openai.rs:580-629] [OpenAiProvider::audio_stt] *)
Definition family_audio_stt (profile : ResolvedProfile) (model : Model) (request : AudioSttRequest)
    (file_bytes filename content_type : string) : CALL (ProviderResponse * UsageReport) :=
  file ← file_part "file" file_bytes filename content_type;
  let form := ([file; text_part "model" (provider_model_id model)] ++ opt_part "language" (stt_language request)
               ++ opt_part "response_format" (stt_response_format request))%list in
  res ← call_upstream (form_post profile (url_of profile model "audio/transcriptions") form);
  body ← decode_reply stt_response_of_value res;
  mret (PRAudioStt body, stt_usage).

Definition embedding_usage (body : EmbeddingResponse) : UsageReport :=
  {| u_prompt_tokens := None; u_completion_tokens := None; u_image_count := None; u_audio_seconds := None;
     u_video_seconds := None; u_tts_characters := None; u_embedding_tokens := Some (total_tokens (er_usage body));
     u_cache_read_tokens := None; u_cache_write_tokens := None |}.

(** [godwit-providers/src/openai.rs:630-664] [OpenAiProvider::embedding] *)
Definition family_embedding (profile : ResolvedProfile) (model : Model) (request : EmbeddingRequest)
  : CALL (ProviderResponse * UsageReport) :=
  let request := {| emb_model := provider_model_id model; emb_input := emb_input request |} in
  res ← call_upstream (json_post profile (url_of profile model "embeddings") (embedding_request_to_value request));
  body ← decode_reply embedding_response_of_value res;
  mret (PREmbedding body, embedding_usage body).

(** [godwit-providers/src/openai.rs:666-692] [OpenAiProvider::create_batch] *)
Definition family_create_batch (profile : ResolvedProfile) (model : Model) (request : BatchRequest) : CALL Batch :=
  res ← call_upstream (json_post profile (dl_batch_url dl (rp_base_url profile) "") (batch_request_to_value request));
  decode_reply batch_of_value res.
(** [godwit-providers/src/openai.rs:694-719] [OpenAiProvider::retrieve_batch] *)
Definition family_retrieve_batch (profile : ResolvedProfile) (batch_id : string) : CALL Batch :=
  res ← call_upstream (empty_request "GET" profile (dl_batch_url dl (rp_base_url profile) ("/" +:+ batch_id)));
  decode_reply batch_of_value res.
(** [godwit-providers/src/openai.rs:721-746] [OpenAiProvider::cancel_batch] *)
Definition family_cancel_batch (profile : ResolvedProfile) (batch_id : string) : CALL Batch :=
  res ← call_upstream (empty_request "POST" profile (dl_batch_url dl (rp_base_url profile) ("/" +:+ batch_id +:+ "/cancel")));
  decode_reply batch_of_value res.
End Family.
End Calls.

(** ** Chat requests of the family *)

(** [godwit-providers/src/openai.rs:21-33] [OpenAiImageUrl, OpenAiContentPart] *)
Definition content_part_to_value (p : ChatContentPart) : value :=
  match p with
  | PartText t => obj [("type", VString "text"); ("text", VString t)]
  | PartImageUrl u =>
    obj [("type", VString "image_url");
         ("image_url", struct_some [Some ("url", VString (url u)); skip_none "detail" VString (detail u)])]
  end.
(** [godwit-providers/src/openai.rs:49-72] [OpenAiMessage::from_chat_message] *)
Definition content_parts (contents : list ChatContent) : list ChatContentPart :=
  flat_map (fun c => match c with CText t => [PartText t] | CParts ps => ps end) contents.
(** [godwit-providers/src/openai.rs:35-82] [OpenAiMessage::from_chat_message] *)
Definition openai_message (m : ChatMessage) : value :=
  struct_some
    [Some ("role", VString (msg_role m));
     Some ("content", opt_value (fun c => wr_list content_part_to_value (content_parts c)) (msg_content m));
     skip_none "name" VString (msg_name m);
     skip_none "tool_calls" (wr_list tool_call_to_value) (msg_tool_calls m);
     skip_none "tool_call_id" VString (msg_tool_call_id m)].

(** [strict] defaults to [true].
    [godwit-providers/src/openai.rs:268-278] [OpenAiProvider::chat] *)
Definition openai_response_format (f : ResponseFormat) : value :=
  match f with
  | FText => obj [("type", VString "text")]
  | FJsonObject => obj [("type", VString "json_object")]
  | FJsonSchema name schema strict =>
    obj [("type", VString "json_schema");
         ("json_schema", struct_some [Some ("name", VString name); skip_none "schema" id schema;
                                      Some ("strict", VBool (default true strict))])]
  end.

(** [godwit-providers/src/openai.rs:101-145] [OpenAiChatRequest] *)
Definition openai_chat_body (r : ChatCompletionRequest) : value :=
  struct_some
    [Some ("model", VString (req_model r));
     Some ("messages", wr_list openai_message (req_messages r));
     skip_none "stream" VBool (req_stream r);
     skip_none "temperature" wr_f32 (req_temperature r);
     skip_none "max_tokens" num (req_max_tokens r);
     skip_none "top_p" wr_f32 (req_top_p r);
     skip_none "top_k" num (req_top_k r);
     skip_none "frequency_penalty" wr_f32 (req_frequency_penalty r);
     skip_none "presence_penalty" wr_f32 (req_presence_penalty r);
     skip_none "repetition_penalty" wr_f32 (req_repetition_penalty r);
     skip_none "stop" stop_to_value (req_stop r);
     skip_none "seed" num (req_seed r);
     skip_none "n" num (req_n r);
     skip_none "logprobs" VBool (req_logprobs r);
     skip_none "top_logprobs" num (req_top_logprobs r);
     skip_none "logit_bias" int_map_to_value (req_logit_bias r);
     skip_none "user" VString (req_user r);
     skip_none "tools" (wr_list tool_to_value) (req_tools r);
     skip_none "tool_choice" tool_choice_to_value (req_tool_choice r);
     skip_none "parallel_tool_calls" VBool (req_parallel_tool_calls r);
     skip_none "response_format" openai_response_format (req_response_format r);
     skip_none "reasoning" reasoning_to_value (req_reasoning r)].

(** Azure's copies of the message types and of their translation have OpenAI's text.
    [godwit-providers/src/azure_openai.rs:17-78] [OpenAiMessage::from_chat_message] *)
Definition azure_message : ChatMessage -> value := openai_message.
(** [godwit-providers/src/azure_openai.rs:80-95] [OpenAiResponseFormat] *)
Definition azure_response_format : ResponseFormat -> value := openai_response_format.
(** [godwit-providers/src/azure_openai.rs:97-113] [OpenAiChatRequest] *)
Definition azure_chat_body (r : ChatCompletionRequest) : value :=
  struct_some
    [Some ("model", VString (req_model r));
     Some ("messages", wr_list azure_message (req_messages r));
     skip_none "stream" VBool (req_stream r);
     skip_none "temperature" wr_f32 (req_temperature r);
     skip_none "max_tokens" num (req_max_tokens r);
     skip_none "tools" (wr_list tool_to_value) (req_tools r);
     skip_none "tool_choice" tool_choice_to_value (req_tool_choice r);
     skip_none "response_format" azure_response_format (req_response_format r)].

Definition plain_url (base model path : string) : string := base +:+ "/" +:+ path.
Definition azure_url (base model path : string) : string :=
  base +:+ "/openai/deployments/" +:+ model +:+ "/" +:+ path +:+ "?api-version=2024-02-15-preview".

Definition openai_dialect : Dialect :=
  {| dl_url := plain_url; dl_chat_url := fun base model _ => plain_url base model "chat/completions";
     dl_batch_url := fun base rest => base +:+ "/batches" +:+ rest; dl_key := bearer_header; dl_chat := openai_chat_body |}.
Definition azure_dialect : Dialect :=
  {| dl_url := azure_url;
     dl_chat_url := fun base model streaming =>
       azure_url base model "chat/completions" +:+ (if streaming then "&stream=true" else "");
     dl_batch_url := fun base rest => base +:+ "/openai/batches" +:+ rest +:+ "?api-version=2024-02-15-preview";
     dl_key := fun key => ("api-key", key); dl_chat := azure_chat_body |}.

(** *** Engines behind the OpenAI protocol *)

(** [godwit-providers/src/web_search.rs:35-38] [is_native_web_search_tool] *)
Definition is_native_web_search_tool (t : Tool) : bool := existsb (String.eqb (fd_name t)) NATIVE_WEB_SEARCH_TOOLS.
(** [godwit-providers/src/web_search.rs:40-43] [has_native_web_search_tool] *)
Definition has_native_web_search_tool (tools : list Tool) : bool := existsb is_native_web_search_tool tools.
(** [godwit-providers/src/web_search.rs:49-51] [strip_native_web_search_tools] *)
Definition strip_native_web_search_tools (tools : list Tool) : list Tool :=
  filterb (fun t => negb (is_native_web_search_tool t)) tools.
(** [godwit-providers/src/web_search.rs:55-61] [strip_native_web_search_from_request] *)
Definition strip_native_web_search_from_request (r : ChatCompletionRequest) : option (list Tool) :=
  (fun tools => if has_native_web_search_tool tools then strip_native_web_search_tools tools else tools) <$> req_tools r.
(** [godwit-providers/src/web_search.rs:12-33] [web_search_tool] *)
Definition web_search_tool : Tool :=
  {| tool_type := "function"; fd_name := "web_search";
     fd_description := Some "Search the web for current information using SearXNG";
     fd_parameters := Some (obj [("type", VString "object");
       ("properties", obj [("query", obj [("type", VString "string"); ("description", VString "The search query")])]);
       ("required", VArray [VString "query"])]) |}.

Definition with_tools (r : ChatCompletionRequest) (tools : option (list Tool)) : ChatCompletionRequest :=
  {| req_model := req_model r; req_messages := req_messages r; req_stream := req_stream r;
     req_temperature := req_temperature r; req_max_tokens := req_max_tokens r; req_top_p := req_top_p r;
     req_top_k := req_top_k r; req_frequency_penalty := req_frequency_penalty r;
     req_presence_penalty := req_presence_penalty r; req_repetition_penalty := req_repetition_penalty r;
     req_stop := req_stop r; req_seed := req_seed r; req_n := req_n r; req_logprobs := req_logprobs r;
     req_top_logprobs := req_top_logprobs r; req_logit_bias := req_logit_bias r; req_user := req_user r;
     req_tools := tools; req_tool_choice := req_tool_choice r; req_parallel_tool_calls := req_parallel_tool_calls r;
     req_response_format := req_response_format r; req_reasoning := req_reasoning r |}.

Fixpoint obj_remove (k : string) (o : list (string * value)) : list (string * value) :=
  match o with
  | [] => []
  | (k', v) :: o => if String.eqb k k' then o else (k', v) :: obj_remove k o
  end.

(** An engine's body: the request as it is, with the schema moved into [guide], what the
    engine calls it, and the stop words and (where [keeps_seed]) the seed written again.
    [godwit-providers/src/vllm.rs:54-79] [VllmProvider::chat] *)
Definition engine_body (guide : option value -> list (string * value)) (keeps_seed : bool)
    (r : ChatCompletionRequest) : value :=
  let r := with_tools r (strip_native_web_search_from_request r) in
  match request_to_value r with
  | VObject o =>
    let o := match req_response_format r with
             | Some (FJsonSchema _ schema _) =>
               fold_left (fun o '(k, v) => obj_insert k v o) (guide schema) (obj_remove "response_format" o)
             | _ => o
             end in
    let o := match req_stop r with Some stop => obj_insert "stop" (stop_to_value stop) o | None => o end in
    VObject (match req_seed r with Some seed => if keeps_seed then obj_insert "seed" (num seed) o else o | None => o end)
  | v => v
  end.

Definition schema_under (k : string) (schema : option value) : list (string * value) :=
  match schema with Some s => [(k, s)] | None => [] end.
(** [godwit-providers/src/vllm.rs:57-79] [VllmProvider::chat] *)
Definition vllm_body : ChatCompletionRequest -> value := engine_body (schema_under "guided_json") true.
(** [godwit-providers/src/sglang.rs:57-79] [SglangProvider::chat] *)
Definition sglang_body : ChatCompletionRequest -> value := engine_body (schema_under "json_schema") true.
(** [godwit-providers/src/ollama.rs:57-77] [OllamaProvider::chat] *)
Definition ollama_body : ChatCompletionRequest -> value := engine_body (fun _ => [("format", VString "json")]) true.

Fixpoint str_map (f : ascii -> ascii) (s : string) : string :=
  match s with EmptyString => "" | String c s => String (f c) (str_map f s) end.
(** Text in which an apostrophe stands for a quotation mark. *)
Definition quoted (s : string) : string := str_map (fun c => if Ascii.eqb c (byte 39) then byte 34 else c) s.

(** [godwit-providers/src/llama_cpp.rs:29-40] [json_schema_to_gbnf] *)
Definition gbnf_rule (key : string) (prop : value) : string :=
  match prop with
  | VObject o =>
    let t := default "string" (obj_get "type" o ≫= as_str) in
    key +:+ " ::= " +:+
      (if String.eqb t "string" then quoted "'\'' string '\''"
       else if existsb (String.eqb t) ["number"; "integer"; "boolean"; "array"; "object"] then t
       else "string") +:+ String LF ""
  | _ => ""
  end.
(** [godwit-providers/src/llama_cpp.rs:45-53] [json_schema_to_gbnf] *)
Definition gbnf_tail : list string :=
  quoted <$>
  ["object ::= '{' (ws string ws ':' ws value (ws ',' ws string ws ':' ws value)*)? ws '}'";
   "array ::= '[' (ws value (ws ',' ws value)*)? ws ']'";
   "value ::= string | number | integer | boolean | object | array | null";
   "string ::= '\'' ([^'\\] | '\\' ['\\/bfnrt] | '\\' u [0-9a-fA-F] [0-9a-fA-F] [0-9a-fA-F] [0-9a-fA-F])* '\''";
   "number ::= '-'? ([0-9] | [1-9] [0-9]*) ('.' [0-9]+)? ([eE] [+-]? [0-9]+)?";
   "integer ::= '-'? ([0-9] | [1-9] [0-9]*)";
   "boolean ::= 'true' | 'false'";
   "null ::= 'null'";
   "ws ::= ([ \t\n\r])*"].
(** [godwit-providers/src/llama_cpp.rs:22-56] [json_schema_to_gbnf] *)
Definition json_schema_to_gbnf (schema : value) : string :=
  "root ::= object" +:+ String LF ""
  +:+ match o ← as_object schema; p ← obj_get "properties" o; as_object p with
      | Some properties => str_join "" ((fun '(k, v) => gbnf_rule k v) <$> properties)
      | None => ""
      end
  +:+ str_join "" ((fun l => l +:+ String LF "") <$> gbnf_tail).
(** [godwit-providers/src/llama_cpp.rs:93-113] [LlamaCppProvider::chat] *)
Definition llama_cpp_body : ChatCompletionRequest -> value :=
  engine_body (fun schema => match schema with Some s => [("grammar", VString (json_schema_to_gbnf s))] | None => [] end) false.

Definition engine_dialect (body : ChatCompletionRequest -> value) : Dialect :=
  {| dl_url := plain_url; dl_chat_url := fun base model _ => plain_url base model "chat/completions";
     dl_batch_url := fun base rest => base +:+ "/batches" +:+ rest; dl_key := bearer_header; dl_chat := body |}.

Example gbnf_sample :
  starts_with (quoted "root ::= object
a ::= '\'' string '\''
b ::= integer
c ::= string
object ::= '{'") (json_schema_to_gbnf (VObject [("properties",
    VObject [("a", VObject [("type", VString "string")]); ("b", VObject [("type", VString "integer")]);
             ("c", VObject [("type", VString "date")])])])) = true.
Proof. vm_compute. reflexivity. Qed.

(** ** The prompt cache in front of OpenAI *)

(** [DefaultHasher] of the standard library, fed one string. *)
Class Hasher := { default_hash : string -> Z }.

(** [godwit-providers/src/openai.rs:147-165] [PromptCacheKey] *)
Record PromptCacheKey : Type := {
  ck_model : string; ck_messages_hash : Z; ck_temperature : option Z; ck_max_tokens : option Z;
  ck_response_format_hash : option Z }.
#[export] Instance cache_key_eq_dec : EqDecision PromptCacheKey.
Proof. solve_decision. Defined.
#[export] Instance cache_key_countable : Countable PromptCacheKey.
Proof.
  apply (inj_countable' (fun k => (ck_model k, ck_messages_hash k, ck_temperature k, ck_max_tokens k, ck_response_format_hash k))
           (fun '(m, h, t, x, f) => {| ck_model := m; ck_messages_hash := h; ck_temperature := t; ck_max_tokens := x;
                                       ck_response_format_hash := f |})).
  by intros [].
Defined.

(** [f as u32]: towards zero, saturating. *)
Definition f32_as_u32 (q : option Q) : Z :=
  match q with
  | Some q => Z.max 0 (Z.min (2 ^ 32 - 1) (Z.quot (Qnum q) (Zpos (Qden q))))
  | None => 2 ^ 32 - 1
  end.
(** [(t * 100.0) as u32]; a product too large to be finite is infinite.
    [godwit-providers/src/openai.rs:185] [PromptCacheKey::from_request] *)
Definition quantised (t : Q) : Z :=
  if Qle_bool 0 t then f32_as_u32 (f32_of_Q (t * 100)) else 0.

(** [godwit-providers/src/openai.rs:192-197] [CachedChatResponse] *)
Record CachedChatResponse : Type := { cr_response : ChatCompletionResponse; cr_usage : UsageReport }.

(** The cached content of Gemini's servers that a key stands for.
    [godwit-providers/src/gemini_cache.rs:93-98] [GeminiCacheKey] *)
Record GeminiCacheKey : Type := { gk_model : string; gk_messages_hash : Z; gk_system_instruction_hash : option Z }.
#[export] Instance gemini_key_eq_dec : EqDecision GeminiCacheKey.
Proof. solve_decision. Defined.
#[export] Instance gemini_key_countable : Countable GeminiCacheKey.
Proof.
  apply (inj_countable' (fun k => (gk_model k, gk_messages_hash k, gk_system_instruction_hash k))
           (fun '(m, h, s) => {| gk_model := m; gk_messages_hash := h; gk_system_instruction_hash := s |})).
  by intros [].
Defined.
(** [godwit-providers/src/gemini_cache.rs:4-17] [CachedContent] *)
Record CachedContent : Type := {
  cc_id : string; cc_model : string; cc_messages_hash : Z; cc_created_at : Z; cc_ttl : Z }.

(** The backends, the cache of the one [OpenAiProvider] of the process and that of the one
    [GeminiProvider]. *)
Record ProviderWorld (N : Type) : Type := {
  net : N; prompt_cache : PromptCache PromptCacheKey CachedChatResponse;
  content_cache : PromptCache GeminiCacheKey CachedContent }.
Arguments net {N}. Arguments prompt_cache {N}. Arguments content_cache {N}. Arguments Build_ProviderWorld {N}.
Definition on_net {N} (n : N) (w : ProviderWorld N) : ProviderWorld N :=
  {| net := n; prompt_cache := prompt_cache w; content_cache := content_cache w |}.
Definition on_cache {N} (f : PromptCache PromptCacheKey CachedChatResponse -> PromptCache PromptCacheKey CachedChatResponse)
    (w : ProviderWorld N) : ProviderWorld N :=
  {| net := net w; prompt_cache := f (prompt_cache w); content_cache := content_cache w |}.
Definition on_content {N} (c : PromptCache GeminiCacheKey CachedContent) (w : ProviderWorld N) : ProviderWorld N :=
  {| net := net w; prompt_cache := prompt_cache w; content_cache := c |}.

#[export] Instance provider_world_upstream {N} `{!Upstream N} : Upstream (ProviderWorld N) := {|
  exchange := fun req w => let '(r, n) := exchange req (net w) in (r, on_net n w);
  clock := fun w => clock (net w);
  utc_now := fun w => utc_now (net w);
  new_id := fun w => let '(i, n) := new_id (net w) in (i, on_net n w);
|}.

Section OpenAi.
Context `{JsonText} `{Formats} `{Hasher} {N : Type} `{!Upstream N}.
Notation CALL T := (ST (ProviderWorld N) ProviderError T).

(** [godwit-providers/src/openai.rs:167-190] [PromptCacheKey::from_request] *)
Definition cache_key_of_request (r : ChatCompletionRequest) : PromptCacheKey :=
  {| ck_model := req_model r;
     ck_messages_hash := default_hash (to_string (wr_list message_to_value (req_messages r)));
     ck_temperature := quantised <$> req_temperature r;
     ck_max_tokens := req_max_tokens r;
     ck_response_format_hash := (fun f => default_hash (to_string (response_format_to_value f))) <$> req_response_format r |}.

(** [godwit-providers/src/openai.rs:253-259] [OpenAiProvider::chat] *)
Definition recall (request : ChatCompletionRequest) : CALL (option CachedChatResponse) := fun w =>
  let '(hit, c) := prompt_cache_get (clock w) (cache_key_of_request request) (prompt_cache w) in
  (Ok hit, on_cache (fun _ => c) w).
(** [godwit-providers/src/openai.rs:331-339] [OpenAiProvider::chat] *)
Definition remember (request : ChatCompletionRequest) (entry : CachedChatResponse) : CALL unit := fun w =>
  (Ok tt, on_cache (prompt_cache_insert (clock w) (cache_key_of_request request) entry) w).

(** The key is made of the request before the model is replaced when the cache is read, and
    of the request after it when the cache is written.
    [godwit-providers/src/openai.rs:246-342] [OpenAiProvider::chat] *)
Definition openai_chat (profile : ResolvedProfile) (model : Model) (request : ChatCompletionRequest)
  : CALL (ProviderResponse * UsageReport) :=
  let streaming := bool_decide (req_stream request = Some true) in
  cached ← if streaming then mret None else recall request;
  match cached with
  | Some hit => mret (PRChat (cr_response hit), cr_usage hit)
  | None =>
    bu ← family_chat (W := ProviderWorld N) openai_dialect profile model request;
    _ ← if streaming then mret tt
        else remember (upstream_request model false request) {| cr_response := bu.1; cr_usage := bu.2 |};
    mret (PRChat bu.1, bu.2)
  end.

Notation ANSWER := (CALL (ProviderResponse * UsageReport)).
Definition not_supported {T} (msg : string) : CALL T := throw (CapabilityNotSupported msg).

(** [godwit-providers/src/openai.rs:522-531] [OpenAiProvider::video_generation] *)
Definition openai_video_generation : ANSWER := not_supported "video generation is not supported for OpenAI".

(** *** Azure *)

(** [godwit-providers/src/azure_openai.rs:151-210] [AzureOpenAiProvider::chat] *)
Definition azure_chat (profile : ResolvedProfile) (model : Model) (request : ChatCompletionRequest) : ANSWER :=
  bu ← family_chat (W := ProviderWorld N) azure_dialect profile model request; mret (PRChat bu.1, bu.2).
(** [godwit-providers/src/azure_openai.rs:212-277] [AzureOpenAiProvider::chat_stream] *)
Definition azure_chat_stream : ResolvedProfile -> Model -> ChatCompletionRequest -> CALL (list Event) :=
  family_chat_stream azure_dialect.
(** [godwit-providers/src/azure_openai.rs:279-313] [AzureOpenAiProvider::image_generation] *)
Definition azure_image_generation : ResolvedProfile -> Model -> ImageGenerationRequest -> ANSWER :=
  family_image_generation azure_dialect.
(** [godwit-providers/src/azure_openai.rs:315-376] [AzureOpenAiProvider::image_edit] *)
Definition azure_image_edit : ResolvedProfile -> Model -> ImageEditRequest -> string -> string -> option string -> ANSWER :=
  family_image_edit azure_dialect.
(** [godwit-providers/src/azure_openai.rs:378-387] [AzureOpenAiProvider::video_generation] *)
Definition azure_video_generation : ANSWER := not_supported "video generation is not supported for Azure OpenAI".
(** [godwit-providers/src/azure_openai.rs:389-436] [AzureOpenAiProvider::audio_tts] *)
Definition azure_audio_tts : ResolvedProfile -> Model -> AudioTtsRequest -> ANSWER := family_audio_tts azure_dialect.
(** [godwit-providers/src/azure_openai.rs:438-488] [AzureOpenAiProvider::audio_stt] *)
Definition azure_audio_stt : ResolvedProfile -> Model -> AudioSttRequest -> string -> string -> string -> ANSWER :=
  family_audio_stt azure_dialect.
(** [godwit-providers/src/azure_openai.rs:490-526] [AzureOpenAiProvider::embedding] *)
Definition azure_embedding : ResolvedProfile -> Model -> EmbeddingRequest -> ANSWER := family_embedding azure_dialect.
(** [godwit-providers/src/azure_openai.rs:528-557] [AzureOpenAiProvider::create_batch] *)
Definition azure_create_batch : ResolvedProfile -> Model -> BatchRequest -> CALL Batch := family_create_batch azure_dialect.
(** [godwit-providers/src/azure_openai.rs:559-587] [AzureOpenAiProvider::retrieve_batch] *)
Definition azure_retrieve_batch : ResolvedProfile -> string -> CALL Batch := family_retrieve_batch azure_dialect.
(** [godwit-providers/src/azure_openai.rs:589-617] [AzureOpenAiProvider::cancel_batch] *)
Definition azure_cancel_batch : ResolvedProfile -> string -> CALL Batch := family_cancel_batch azure_dialect.

(** *** Engines *)

Definition engine_chat (body : ChatCompletionRequest -> value) (profile : ResolvedProfile) (model : Model)
    (request : ChatCompletionRequest) : ANSWER :=
  bu ← family_chat (W := ProviderWorld N) (engine_dialect body) profile model request; mret (PRChat bu.1, bu.2).

(** [godwit-providers/src/vllm.rs:46-103] [VllmProvider::chat] *)
Definition vllm_chat : ResolvedProfile -> Model -> ChatCompletionRequest -> ANSWER := engine_chat vllm_body.
(** [godwit-providers/src/vllm.rs:105-168] [VllmProvider::chat_stream] *)
Definition vllm_chat_stream : ResolvedProfile -> Model -> ChatCompletionRequest -> CALL (list Event) :=
  family_chat_stream (engine_dialect vllm_body).
(** [godwit-providers/src/vllm.rs:231-265] [VllmProvider::embedding] *)
Definition vllm_embedding : ResolvedProfile -> Model -> EmbeddingRequest -> ANSWER := family_embedding (engine_dialect vllm_body).
(** [godwit-providers/src/sglang.rs:46-103] [SglangProvider::chat] *)
Definition sglang_chat : ResolvedProfile -> Model -> ChatCompletionRequest -> ANSWER := engine_chat sglang_body.
(** [godwit-providers/src/sglang.rs:105-168] [SglangProvider::chat_stream] *)
Definition sglang_chat_stream : ResolvedProfile -> Model -> ChatCompletionRequest -> CALL (list Event) :=
  family_chat_stream (engine_dialect sglang_body).
(** [godwit-providers/src/sglang.rs:231-265] [SglangProvider::embedding] *)
Definition sglang_embedding : ResolvedProfile -> Model -> EmbeddingRequest -> ANSWER := family_embedding (engine_dialect sglang_body).
(** [godwit-providers/src/llama_cpp.rs:82-137] [LlamaCppProvider::chat] *)
Definition llama_cpp_chat : ResolvedProfile -> Model -> ChatCompletionRequest -> ANSWER := engine_chat llama_cpp_body.
(** [godwit-providers/src/llama_cpp.rs:139-200] [LlamaCppProvider::chat_stream] *)
Definition llama_cpp_chat_stream : ResolvedProfile -> Model -> ChatCompletionRequest -> CALL (list Event) :=
  family_chat_stream (engine_dialect llama_cpp_body).
(** [godwit-providers/src/llama_cpp.rs:263-297] [LlamaCppProvider::embedding] *)
Definition llama_cpp_embedding : ResolvedProfile -> Model -> EmbeddingRequest -> ANSWER := family_embedding (engine_dialect llama_cpp_body).
(** [godwit-providers/src/ollama.rs:46-101] [OllamaProvider::chat] *)
Definition ollama_chat : ResolvedProfile -> Model -> ChatCompletionRequest -> ANSWER := engine_chat ollama_body.
(** [godwit-providers/src/ollama.rs:103-164] [OllamaProvider::chat_stream] *)
Definition ollama_chat_stream : ResolvedProfile -> Model -> ChatCompletionRequest -> CALL (list Event) :=
  family_chat_stream (engine_dialect ollama_body).
(** [godwit-providers/src/ollama.rs:227-261] [OllamaProvider::embedding] *)
Definition ollama_embedding : ResolvedProfile -> Model -> EmbeddingRequest -> ANSWER := family_embedding (engine_dialect ollama_body).

(** What an engine refuses: the operation in the words of the message.
    [godwit-providers/src/vllm.rs:170-229] [VllmProvider::image_generation] *)
Definition vllm_unsupported (operation : string) : ANSWER := not_supported (operation +:+ " is not supported by vllm").
(** [godwit-providers/src/sglang.rs:170-229] [SglangProvider::image_generation] *)
Definition sglang_unsupported (operation : string) : ANSWER := not_supported (operation +:+ " is not supported by sglang").
(** [godwit-providers/src/llama_cpp.rs:202-261] [LlamaCppProvider::image_generation] *)
Definition llama_cpp_unsupported (operation : string) : ANSWER := not_supported (operation +:+ " is not supported by llama.cpp").
(** [godwit-providers/src/ollama.rs:166-225] [OllamaProvider::image_generation] *)
Definition ollama_unsupported (operation : string) : ANSWER := not_supported (operation +:+ " is not supported by ollama").
(** [godwit-providers/src/vllm.rs:267-296] [VllmProvider::create_batch] *)
Definition vllm_no_batch : CALL Batch := not_supported "batch is not supported for vLLM".
(** [godwit-providers/src/sglang.rs:267-296] [SglangProvider::create_batch] *)
Definition sglang_no_batch : CALL Batch := not_supported "batch is not supported for SGLang".
(** [godwit-providers/src/llama_cpp.rs:299-328] [LlamaCppProvider::create_batch] *)
Definition llama_cpp_no_batch : CALL Batch := not_supported "batch is not supported for llama.cpp".
(** [godwit-providers/src/ollama.rs:263-292] [OllamaProvider::create_batch] *)
Definition ollama_no_batch : CALL Batch := not_supported "batch is not supported for Ollama".
End OpenAi.
