(* ===== verification/Anthropic.v ===== *)
(** * The Anthropic adapter

    [AnthropicProvider] of godwit-providers/src/anthropic.rs: chat only, over the messages
    API, with its own envelope for requests, answers and stream events. *)

From stdpp Require Import base strings list gmap pretty.
From Stdlib Require Import QArith Ascii.
From S2P Require Import Prelude RustStr Utf8 Json Core Db Resilience Usage Backend Serde Streaming PromptCache Adapters.

#[local] Open Scope string_scope.
#[local] Open Scope Z_scope.

(** ** Requests *)

(** [godwit-providers/src/anthropic.rs:128-149] [AnthropicMessage::parse_image_url] *)
Definition parse_image_url (url : string) : string * string :=
  if starts_with "data:" url then
    match split_char (byte 44) url with
    | [header; data] =>
      (if str_contains "image/png" header then "image/png"
       else if str_contains "image/jpeg" header || str_contains "image/jpg" header then "image/jpeg"
       else if str_contains "image/gif" header then "image/gif"
       else if str_contains "image/webp" header then "image/webp"
       else "image/png", data)
    | _ => ("image/png", url)
    end
  else ("image/png", url).

(** A content block carries the cache mark of its message.
    [godwit-providers/src/anthropic.rs:42-68] [AnthropicCacheControl, AnthropicContentBlock, AnthropicImageSource] *)
Definition anthropic_block (cache : option CacheControl) (p : ChatContentPart) : value :=
  match p with
  | PartText t =>
    struct_some [Some ("type", VString "text"); Some ("text", VString t);
                 skip_none "cache_control" cache_control_to_value cache]
  | PartImageUrl u =>
    let '(media_type, data) := parse_image_url (url u) in
    struct_some [Some ("type", VString "image");
                 Some ("source", obj [("type", VString "base64"); ("media_type", VString media_type); ("data", VString data)]);
                 skip_none "cache_control" cache_control_to_value cache]
  end.
(** [godwit-providers/src/anthropic.rs:70-126] [AnthropicMessage::from_chat_message] *)
Definition anthropic_message (m : ChatMessage) : value :=
  obj [("role", VString (msg_role m));
       ("content", VArray (anthropic_block (msg_cache_control m) <$> from_option content_parts [] (msg_content m)))].

(** [godwit-providers/src/anthropic.rs:201-220] [AnthropicChatRequest::from_chat_request] *)
Definition system_texts (messages : list ChatMessage) : list string :=
  filter_map (fun m => if String.eqb (msg_role m) "system" then content_as_text m else None) messages.
Definition conversation (messages : list ChatMessage) : list ChatMessage :=
  filterb (fun m => negb (String.eqb (msg_role m) "system")) messages.
Definition join_system (parts : list string) : option string :=
  match parts with [] => None | _ => Some (str_join (String LF (String LF "")) parts) end.

(** The tool that stands for a requested schema.
    [godwit-providers/src/anthropic.rs:192-197] [AnthropicTool] *)
Definition schema_tool (name : string) (schema : option value) : value :=
  obj [("name", VString name); ("description", VString "Output must conform to this schema");
       ("input_schema", struct_some [Some ("name", VString name); skip_none "schema" id schema])].

(** The request's own tools have no place in it.
    [godwit-providers/src/anthropic.rs:168-256] [AnthropicChatRequest::from_chat_request] *)
Definition anthropic_request (r : ChatCompletionRequest) (model_id : string) : value :=
  let forced := match req_response_format r with Some (FJsonSchema name schema _) => Some (name, schema) | _ => None end in
  struct_some
    [Some ("model", VString model_id);
     Some ("max_tokens", num (default 4096 (req_max_tokens r)));
     skip_none "temperature" wr_f32 (req_temperature r);
     skip_none "system" VString (join_system (system_texts (req_messages r)));
     Some ("messages", wr_list anthropic_message (conversation (req_messages r)));
     Some ("stream", VBool (bool_decide (req_stream r = Some true)));
     skip_none "stop_sequences" (wr_list VString)
       ((fun s => match s with StopString s => [s] | StopArray l => l end) <$> req_stop r);
     skip_none "top_p" wr_f32 (req_top_p r);
     skip_none "top_k" num (req_top_k r);
     skip_none "repetition_penalty" wr_f32 (req_repetition_penalty r);
     skip_none "tools" (fun '(name, schema) => VArray [schema_tool name schema]) forced;
     skip_none "tool_choice" (fun '(name, _) => obj [("tool", obj [("name", VString name)])]) forced].

(** ** Answers *)

(** [godwit-providers/src/anthropic.rs:258-286] [AnthropicMessageResponse] *)
Record AnthropicMessageResponse : Type := {
  am_id : string; am_model : string; am_content : list (string * option string); am_stop_reason : option string;
  am_input_tokens : Z; am_output_tokens : Z; am_cache_read : option Z; am_cache_creation : option Z }.
(** [godwit-providers/src/anthropic.rs:258-263] [AnthropicResponseContentBlock::deserialize] *)
Definition response_block_of_value (v : value) : option (string * option string) :=
  fs ← struct_fields ["type"; "text"] v;
  t ← field fs "type" rd_string;
  x ← opt_field fs "text" rd_string;
  Some (t, x).
(** [godwit-providers/src/anthropic.rs:265-273] [AnthropicUsage::deserialize] *)
Definition anthropic_usage_of_value (v : value) : option (Z * Z * option Z * option Z) :=
  fs ← struct_fields ["input_tokens"; "output_tokens"; "cache_read_input_tokens"; "cache_creation_input_tokens"] v;
  i ← field fs "input_tokens" (rd_i 32);
  o ← field fs "output_tokens" (rd_i 32);
  r ← opt_field_or fs "cache_read_input_tokens" (rd_i 32);
  c ← opt_field_or fs "cache_creation_input_tokens" (rd_i 32);
  Some (i, o, r, c).
(** [godwit-providers/src/anthropic.rs:275-286] [AnthropicMessageResponse::deserialize] *)
Definition anthropic_response_of_value (v : value) : option AnthropicMessageResponse :=
  fs ← struct_fields ["id"; "type"; "role"; "model"; "content"; "stop_reason"; "usage"] v;
  i ← field fs "id" rd_string;
  _ ← field fs "type" rd_string;
  _ ← field fs "role" rd_string;
  m ← field fs "model" rd_string;
  c ← field fs "content" (rd_list response_block_of_value);
  s ← opt_field fs "stop_reason" rd_string;
  u ← field fs "usage" anthropic_usage_of_value;
  let '(inp, out, cr, cc) := u in
  Some {| am_id := i; am_model := m; am_content := c; am_stop_reason := s; am_input_tokens := inp;
          am_output_tokens := out; am_cache_read := cr; am_cache_creation := cc |}.

Definition block_text (b : string * option string) : option string := if String.eqb b.1 "text" then b.2 else None.

(** The sum of the two counts wraps, as in a build without overflow checks.
    [godwit-providers/src/anthropic.rs:288-327] [anthropic_response_to_chat_completion] *)
Definition anthropic_response_to_chat_completion (now : Z) (r : AnthropicMessageResponse) : ChatCompletionResponse :=
  {| resp_id := am_id r; resp_object := "chat.completion"; resp_created := now; resp_model := am_model r;
     resp_choices :=
       [ {| ch_index := 0; ch_message := text_message "assistant" (str_join "" (filter_map block_text (am_content r)));
            ch_finish_reason := am_stop_reason r; ch_logprobs := None; ch_tool_calls := None |} ];
     resp_usage := Some {| prompt_tokens := am_input_tokens r; completion_tokens := am_output_tokens r;
                           total_tokens := wrap_i 32 (am_input_tokens r + am_output_tokens r);
                           prompt_tokens_details := None; completion_tokens_details := None |} |}.

(** [godwit-providers/src/anthropic.rs:449-455] [AnthropicProvider::chat] *)
Definition anthropic_usage (r : AnthropicMessageResponse) : UsageReport :=
  {| u_prompt_tokens := Some (am_input_tokens r); u_completion_tokens := Some (am_output_tokens r);
     u_image_count := None; u_audio_seconds := None; u_video_seconds := None; u_tts_characters := None;
     u_embedding_tokens := None; u_cache_read_tokens := am_cache_read r; u_cache_write_tokens := am_cache_creation r |}.

Section Anthropic.
Context `{JsonText} `{Formats} {W : Type} `{!Upstream W} (parse_failure : string -> string).
Notation CALL T := (ST W ProviderError T).

(** *** Stream events *)

(** [godwit-providers/src/anthropic.rs:333-345] [build_sse_finish] *)
Definition anthropic_sse_finish (usage : value) : string :=
  let p := wrap_i 32 (default 0 (json_i64 (index "input_tokens" usage))) in
  let c := wrap_i 32 (default 0 (json_i64 (index "output_tokens" usage))) in
  to_string (obj [("type", VString "finish");
                  ("usage", obj [("prompt_tokens", num p); ("completion_tokens", num c);
                                 ("total_tokens", num (wrap_i 32 (p + c)))])]).

(** [build_sse_delta] and [build_sse_error] are those of streaming.rs.
    [godwit-providers/src/anthropic.rs:351-394] [normalize_anthropic_sse_event] *)
Definition normalize_anthropic_sse_event (raw : SseEvent) : list Event :=
  match from_str (data raw) with
  | None => [ok_event (build_sse_error ("failed to parse anthropic sse event: " +:+ parse_failure (data raw)))]
  | Some parsed =>
    match get "type" parsed ≫= as_str with
    | Some t =>
      if String.eqb t "content_block_delta" then
        match as_str (index "text" (index "delta" parsed)) with
        | Some text => [ok_event (build_sse_delta text)]
        | None => []
        end
      else if String.eqb t "message_delta" then
        match get "usage" parsed with
        | Some usage => [ok_event (anthropic_sse_finish usage)]
        | None => []
        end
      else []
    | None => [ok_event (build_sse_error "anthropic sse event missing type field")]
    end
  end.

(** [godwit-providers/src/anthropic.rs:503-514] [AnthropicProvider::chat_stream] *)
Definition anthropic_event_stream (chunks : list Chunk) : list Event :=
  flat_map (fun bytes : Chunk =>
    let text := match bytes with Ok b => from_utf8_lossy b | Err _ => "" end in
    flat_map normalize_anthropic_sse_event (parse_sse_events text)) chunks.

(** *** Calls *)

(** [godwit-providers/src/anthropic.rs:409-423] [AnthropicProvider::chat] *)
Definition anthropic_post (profile : ResolvedProfile) (body : value) : HttpRequest :=
  {| hr_method := "POST"; hr_url := rp_base_url profile +:+ "/v1/messages";
     hr_headers := ("anthropic-version", "2023-06-01") ::
                   match rp_api_key profile with Some key => [("x-api-key", key)] | None => [] end;
     hr_json := Some body; hr_form := [] |}.

(** [godwit-providers/src/anthropic.rs:403-460] [AnthropicProvider::chat] *)
Definition anthropic_chat (profile : ResolvedProfile) (model : Model) (request : ChatCompletionRequest)
  : CALL (ProviderResponse * UsageReport) :=
  res ← call_upstream (anthropic_post profile (anthropic_request request (provider_model_id model)));
  body ← decode_reply anthropic_response_of_value res;
  now ← gets utc_now;
  mret (PRChat (anthropic_response_to_chat_completion now body), anthropic_usage body).

(** [godwit-providers/src/anthropic.rs:463-517] [AnthropicProvider::chat_stream] *)
Definition anthropic_chat_stream (profile : ResolvedProfile) (model : Model) (request : ChatCompletionRequest)
  : CALL (list Event) :=
  res ← call_upstream (anthropic_post profile
          (anthropic_request (upstream_request model true request) (provider_model_id model)));
  mret (anthropic_event_stream (rp_chunks res)).

(** What the adapter refuses; image edits are refused with the word "by" instead of "for".
    [godwit-providers/src/anthropic.rs:519-589] [AnthropicProvider::image_generation] *)
Definition anthropic_unsupported (operation : string) : CALL (ProviderResponse * UsageReport) :=
  throw (CapabilityNotSupported (operation +:+ " is not supported "
           +:+ (if String.eqb operation "image edit" then "by anthropic" else "for Anthropic"))).
(** [godwit-providers/src/anthropic.rs:591-620] [AnthropicProvider::create_batch] *)
Definition anthropic_no_batch : CALL Batch := throw (CapabilityNotSupported "batch is not supported for Anthropic").
End Anthropic.
