(* ===== verification/Gemini.v ===== *)
(** * The Gemini adapter

    [GeminiProvider] of godwit-providers/src/gemini.rs: chat and embeddings over the
    generateContent API, with the key in the address of every request, and the cache of
    server-side contents in front of it (gemini_cache.rs). *)

From stdpp Require Import base strings list gmap pretty.
From Stdlib Require Import QArith Ascii.
From S2P Require Import Prelude RustStr Utf8 Json Core Db Resilience Usage Backend Serde Streaming PromptCache Adapters Anthropic.

#[local] Open Scope string_scope.
#[local] Open Scope Z_scope.

(** ** Requests *)

(** [godwit-providers/src/gemini.rs:349-369] [GeminiProvider::parse_data_url] *)
Definition parse_data_url (url : string) : string * string :=
  match split_once "," url with
  | Some (header, data) =>
    (if str_contains "image/png" header then "image/png"
     else if str_contains "image/jpeg" header || str_contains "image/jpg" header then "image/jpeg"
     else if str_contains "image/gif" header then "image/gif"
     else if str_contains "image/webp" header then "image/webp"
     else "image/png", data)
  | None => ("image/png", url)
  end.

(** A second copy of the same text.
    [godwit-providers/src/gemini.rs:542-561] [GeminiContent::parse_data_url] *)
Definition content_parse_data_url : string -> string * string := parse_data_url.

(** [godwit-providers/src/gemini.rs:509-531] [GeminiContent::from_chat_message] *)
Definition gemini_part (p : ChatContentPart) : value :=
  match p with
  | PartText t => obj [("text", VString t)]
  | PartImageUrl u =>
    if starts_with "data:" (url u) then
      let '(media_type, data) := content_parse_data_url (url u) in
      obj [("inlineData", obj [("mimeType", VString media_type); ("data", VString data)])]
    else obj [("fileData", obj [("mimeType", VString "image/png"); ("fileUri", VString (url u))])]
  end.
(** [godwit-providers/src/gemini.rs:490-540] [GeminiContent::from_chat_message] *)
Definition gemini_message (m : ChatMessage) : value :=
  obj [("role", VString (if String.eqb (msg_role m) "assistant" then "model" else msg_role m));
       ("parts", VArray (gemini_part <$> from_option content_parts [] (msg_content m)))].

(** [godwit-providers/src/gemini.rs:574-591] [GeminiGenerationConfig] *)
Definition generation_config (r : ChatCompletionRequest) : value :=
  struct_some
    [Some ("maxOutputTokens", num (default 4096 (req_max_tokens r)));
     skip_none "temperature" wr_f32 (req_temperature r);
     skip_none "topP" wr_f32 (req_top_p r);
     skip_none "topK" num (req_top_k r);
     skip_none "stopSequences" (wr_list VString)
       ((fun s => match s with StopString s => [s] | StopArray l => l end) <$> req_stop r);
     skip_none "seed" num (req_seed r);
     skip_none "repetitionPenalty" wr_f32 (req_repetition_penalty r)].

(** A web-search tool of the request becomes Gemini's own; other tools have no place in it.
    [godwit-providers/src/gemini.rs:593-660] [GeminiChatRequest::from_chat_request] *)
Definition gemini_request (r : ChatCompletionRequest) : value :=
  struct_some
    [skip_none "systemInstruction" VString (join_system (system_texts (req_messages r)));
     Some ("contents", wr_list gemini_message (conversation (req_messages r)));
     Some ("generationConfig", generation_config r);
     if from_option has_native_web_search_tool false (req_tools r)
     then Some ("tools", VArray [obj [("googleSearchGrounding", VObject [])]]) else None].

(** ** Answers *)

(** [godwit-providers/src/gemini.rs:662-702] [GeminiChatResponse, GeminiCandidate, GeminiUsageMetadata] *)
Record GeminiChatResponse : Type := {
  gr_candidates : list GeminiCandidate; gr_usage : option (Z * Z * Z * option Z) }.
(** [godwit-providers/src/gemini.rs:683-694] [GeminiUsageMetadata::deserialize] *)
Definition gemini_usage_of_value (v : value) : option (Z * Z * Z * option Z) :=
  fs ← struct_fields ["promptTokenCount"; "candidatesTokenCount"; "totalTokenCount"; "cachedContentTokenCount"] v;
  p ← field_or fs "promptTokenCount" (rd_i 32) 0;
  c ← field_or fs "candidatesTokenCount" (rd_i 32) 0;
  t ← field_or fs "totalTokenCount" (rd_i 32) 0;
  k ← opt_field_or fs "cachedContentTokenCount" (rd_i 32);
  Some (p, c, t, k).
(** A candidate is read as in a stream.
    [godwit-providers/src/gemini.rs:696-702] [GeminiChatResponse::deserialize] *)
Definition gemini_response_of_value (v : value) : option GeminiChatResponse :=
  fs ← struct_fields ["candidates"; "usageMetadata"] v;
  c ← field fs "candidates" (rd_list gemini_candidate_of_value);
  u ← opt_field_or fs "usageMetadata" gemini_usage_of_value;
  Some {| gr_candidates := c; gr_usage := u |}.

(** [godwit-providers/src/gemini.rs:763-804] [gemini_response_to_chat_completion] *)
Definition gemini_response_to_chat_completion (id : string) (now : Z) (r : GeminiChatResponse) (model_id : string)
  : result ProviderError ChatCompletionResponse :=
  match gr_candidates r with
  | [] => Err (ProviderFailed "Gemini response contained no candidates")
  | candidate :: _ =>
    Ok {| resp_id := id; resp_object := "chat.completion"; resp_created := now; resp_model := model_id;
          resp_choices :=
            [ {| ch_index := 0;
                 ch_message := text_message "assistant" (str_join "" (filter_map (fun t => t) (gc_texts candidate)));
                 ch_finish_reason := gc_finish_reason candidate; ch_logprobs := None; ch_tool_calls := None |} ];
          resp_usage := (fun '(p, c, t, _) =>
            {| prompt_tokens := p; completion_tokens := c; total_tokens := t;
               prompt_tokens_details := None; completion_tokens_details := None |}) <$> gr_usage r |}
  end.
(** [godwit-providers/src/gemini.rs:420-429] [GeminiProvider::chat_without_cache] *)
Definition gemini_usage (r : GeminiChatResponse) : UsageReport :=
  match gr_usage r with
  | Some (p, c, _, k) =>
    {| u_prompt_tokens := Some p; u_completion_tokens := Some c; u_image_count := None; u_audio_seconds := None;
       u_video_seconds := None; u_tts_characters := None; u_embedding_tokens := None;
       u_cache_read_tokens := k; u_cache_write_tokens := None |}
  | None => no_usage
  end.

(** [godwit-providers/src/gemini.rs:723-733] [GeminiBatchEmbedContentsResponse::deserialize] *)
Definition gemini_embeddings_of_value (v : value) : option (list (list Q)) :=
  fs ← struct_fields ["embeddings"] v;
  field fs "embeddings" (rd_list (fun e => gs ← struct_fields ["values"] e; field gs "values" (rd_list rd_f32))).
(** The tokens are reported as zero.
    [godwit-providers/src/gemini.rs:735-761] [gemini_embedding_response_to_embedding_response] *)
Definition gemini_embedding_response (embeddings : list (list Q)) (model_id : string) : EmbeddingResponse :=
  {| er_object := "list";
     er_data := imap (fun i values => {| ed_object := "embedding"; ed_embedding := values; ed_index := as_i32 (Z.of_nat i) |})
                  embeddings;
     er_model := model_id;
     er_usage := {| prompt_tokens := 0; completion_tokens := 0; total_tokens := 0;
                    prompt_tokens_details := None; completion_tokens_details := None |} |}.
(** The usage counts the numbers of the vectors.
    [godwit-providers/src/gemini.rs:1034-1041] [GeminiProvider::embedding] *)
Definition gemini_embedding_usage (body : EmbeddingResponse) : UsageReport :=
  {| u_prompt_tokens := None; u_completion_tokens := None; u_image_count := None; u_audio_seconds := None;
     u_video_seconds := None; u_tts_characters := None;
     u_embedding_tokens := Some (sumZ ((fun d => Z.of_nat (length (ed_embedding d))) <$> er_data body));
     u_cache_read_tokens := None; u_cache_write_tokens := None |}.

(** [godwit-providers/src/gemini_cache.rs:19-24] [CachedContent::is_expired] *)
Definition is_expired (now : Z) (c : CachedContent) : bool := cc_ttl c <? now - cc_created_at c.

(** What Gemini answers to a request to keep content.
    [godwit-providers/src/gemini_cache.rs:45-60] [CreateCachedContentResponse] *)
Record CreateCachedContentResponse : Type := {
  cn_name : string; cn_display_name : option string; cn_create_time : option string;
  cn_expire_time : option string; cn_model : string }.
(** [godwit-providers/src/gemini_cache.rs:46-60] [CreateCachedContentResponse::deserialize] *)
Definition cached_content_of_value (v : value) : option CreateCachedContentResponse :=
  fs ← struct_fields ["name"; "displayName"; "createTime"; "expireTime"; "model"] v;
  n ← field fs "name" rd_string;
  d ← opt_field_or fs "displayName" rd_string;
  c ← opt_field fs "createTime" rd_string;
  e ← opt_field fs "expireTime" rd_string;
  m ← field fs "model" rd_string;
  Some {| cn_name := n; cn_display_name := d; cn_create_time := c; cn_expire_time := e; cn_model := m |}.
(** [godwit-providers/src/gemini_cache.rs:62-70] [CreateCachedContentResponse::id] *)
Definition cached_content_id (r : CreateCachedContentResponse) : string :=
  default (cn_name r) (strip_prefix "cachedContents/" (cn_name r)).

(** The identifier is the name, without its prefix where it has one. *)
Lemma cached_content_id_spec r : cached_content_id r = cn_name r \/ cn_name r = "cachedContents/" +:+ cached_content_id r.
Proof.
  unfold cached_content_id. destruct (strip_prefix _ _) as [s|] eqn:E; [right|by left]. by apply strip_prefix_Some in E.
Qed.

(** [godwit-providers/src/gemini_cache.rs:72-90] [GenerateWithCacheRequest] *)
Definition generate_with_cache_request (contents : value) (system_instruction : option string)
    (config : option value) (tools : option (list value)) (cached_content : option string) : value :=
  struct_some
    [Some ("contents", contents);
     skip_none "systemInstruction" VString system_instruction;
     skip_none "generationConfig" id config;
     skip_none "tools" VArray tools;
     skip_none "cachedContent" VString cached_content].
(** [godwit-providers/src/gemini_cache.rs:26-43] [CreateCachedContentRequest] *)
Definition create_cached_content_request (contents : value) (system_instruction : option string) (model : string)
    (display_name : option string) (ttl : option string) : value :=
  struct_some
    [Some ("contents", contents);
     skip_none "systemInstruction" VString system_instruction;
     Some ("model", VString model);
     skip_none "displayName" VString display_name;
     skip_none "ttl" VString ttl].

Section Gemini.
Context `{JsonText} `{Formats} `{Hasher} {N : Type} `{!Upstream N} (parse_failure : string -> string).
Notation CALL T := (ST (ProviderWorld N) ProviderError T).
Notation ANSWER := (CALL (ProviderResponse * UsageReport)).

(** [godwit-providers/src/gemini.rs:378-391] [GeminiProvider::chat_without_cache] *)
Definition gemini_url (profile : ResolvedProfile) (path : string) (query : string) : string :=
  rp_base_url profile +:+ "/v1beta/" +:+ path +:+ "?" +:+ query +:+ "key=" +:+ default "" (rp_api_key profile).
Definition gemini_post (profile : ResolvedProfile) (path query : string) (body : value) : HttpRequest :=
  {| hr_method := "POST"; hr_url := gemini_url profile path query; hr_headers := []; hr_json := Some body; hr_form := [] |}.

Definition generate_path (model : Model) : string := "models/" +:+ provider_model_id model +:+ ":generateContent".

Definition draw_id : CALL string := fun w => let '(i, w) := new_id w in (Ok i, w).

(** Send a request for content and read the answer.
    [godwit-providers/src/gemini.rs:389-433] [GeminiProvider::chat_without_cache] *)
Definition generate (profile : ResolvedProfile) (model : Model) (body : value) : ANSWER :=
  res ← call_upstream (W := ProviderWorld N) (gemini_post profile (generate_path model) "" body);
  answer ← decode_reply gemini_response_of_value res;
  id ← draw_id;
  now ← gets utc_now;
  completion ← lift (gemini_response_to_chat_completion id now answer (public_id model));
  mret (PRChat completion, gemini_usage answer).

(** [godwit-providers/src/gemini.rs:371-434] [GeminiProvider::chat_without_cache] *)
Definition chat_without_cache (profile : ResolvedProfile) (model : Model) (request : ChatCompletionRequest) : ANSWER :=
  generate profile model (gemini_request request).

(** Only the first system message is kept.
    [godwit-providers/src/gemini.rs:207-293] [GeminiProvider::generate_with_cache] *)
Definition cached_request (request : ChatCompletionRequest) (cached_content_id : string) : value :=
  generate_with_cache_request (wr_list gemini_message (conversation (req_messages request)))
    (head (system_texts (req_messages request)))
    (Some (obj [("maxOutputTokens", num (default 4096 (req_max_tokens request)));
                ("temperature", opt_value wr_f32 (req_temperature request))]))
    None (Some cached_content_id).
(** [godwit-providers/src/gemini.rs:207-347] [GeminiProvider::generate_with_cache] *)
Definition generate_with_cache (profile : ResolvedProfile) (model : Model) (request : ChatCompletionRequest)
    (cached_content_id : string) : ANSWER :=
  generate profile model (cached_request request cached_content_id).

(** [godwit-providers/src/gemini_cache.rs:108-130] [GeminiCacheKey::new] *)
Definition gemini_cache_key_new (model : string) (messages : list value) (system_instruction : option string) : GeminiCacheKey :=
  {| gk_model := model; gk_messages_hash := default_hash (to_string (VArray messages));
     gk_system_instruction_hash := default_hash <$> system_instruction |}.
(** The messages are not part of the key: [new] is called with an empty slice.
    [godwit-providers/src/gemini.rs:58-73] [GeminiProvider::create_cache_key] *)
Definition create_cache_key (request : ChatCompletionRequest) : GeminiCacheKey :=
  let system := str_join (String LF (String LF "")) (system_texts (req_messages request)) in
  gemini_cache_key_new (req_model request) [] (if is_empty system then None else Some system).

(** Requests that differ in their conversation share a key. *)
Lemma gemini_key_ignores_the_conversation r r' :
  req_model r = req_model r' -> system_texts (req_messages r) = system_texts (req_messages r') ->
  create_cache_key r = create_cache_key r'.
Proof. intros Hm Hs. unfold create_cache_key. by rewrite Hm, Hs. Qed.

(** [godwit-providers/src/gemini.rs:75-203] [GeminiProvider::create_cached_content] *)
Definition create_cached_content (profile : ResolvedProfile) (model : Model) (request : ChatCompletionRequest)
    (ttl : option Z) : CALL CachedContent :=
  let body := create_cached_content_request (wr_list gemini_message (conversation (req_messages request)))
                (head (system_texts (req_messages request))) (provider_model_id model) None
                ((fun d => pretty (d / 1000000000) +:+ "s") <$> ttl) in
  res ← call_upstream (W := ProviderWorld N) (gemini_post profile "cachedContents" "" body);
  body ← decode_reply cached_content_of_value res;
  now ← gets clock;
  mret {| cc_id := cached_content_id body; cc_model := provider_model_id model;
          cc_messages_hash := gk_messages_hash (create_cache_key request); cc_created_at := now;
          cc_ttl := default 3600000000000 ttl |}.

(** [godwit-providers/src/gemini.rs:828-837] [GeminiProvider::chat] *)
Definition look_up (key : GeminiCacheKey) : CALL (option CachedContent) := fun w =>
  let '(hit, c) := prompt_cache_get (clock w) key (content_cache w) in
  match hit with
  | Some cached =>
    if is_expired (clock w) cached then (Ok None, on_content (prompt_cache_remove key c).2 w) else (Ok (Some cached), on_content c w)
  | None => (Ok None, on_content c w)
  end.

(** [godwit-providers/src/gemini.rs:813-848] [GeminiProvider::chat] *)
Definition gemini_chat (profile : ResolvedProfile) (model : Model) (request : ChatCompletionRequest) : ANSWER :=
  if bool_decide (req_stream request = Some true) then chat_without_cache profile model request
  else
    cached ← look_up (create_cache_key request);
    match cached with
    | Some cached => generate_with_cache profile model request (cc_id cached)
    | None => chat_without_cache profile model request
    end.

(** Chunks that could not be read are skipped.
    [godwit-providers/src/gemini.rs:892-907] [GeminiProvider::chat_stream] *)
Fixpoint gemini_events (chunks : list Chunk) (translator : GeminiTranslator) : list Event :=
  match chunks with
  | [] => []
  | Err _ :: chunks => gemini_events chunks translator
  | Ok bytes :: chunks =>
    let '(events, translator) :=
      foldl (fun '(events, t) e => let '(es, t) := gemini_translate_chunk parse_failure (data e) t in ((events ++ es)%list, t))
        ([], translator) (parse_sse_events (from_utf8_lossy bytes)) in
    (events ++ gemini_events chunks translator)%list
  end.

(** [godwit-providers/src/gemini.rs:851-910] [GeminiProvider::chat_stream] *)
Definition gemini_chat_stream (profile : ResolvedProfile) (model : Model) (request : ChatCompletionRequest) : CALL (list Event) :=
  res ← call_upstream (W := ProviderWorld N)
          (gemini_post profile ("models/" +:+ provider_model_id model +:+ ":streamGenerateContent") "alt=sse&"
             (gemini_request request));
  mret (gemini_events (rp_chunks res) new_gemini_translator).

(** [godwit-providers/src/gemini.rs:973-1042] [GeminiProvider::embedding] *)
Definition gemini_embedding (profile : ResolvedProfile) (model : Model) (request : EmbeddingRequest) : ANSWER :=
  let body := obj [("requests", VArray ((fun text =>
    obj [("model", VString (provider_model_id model));
         ("content", obj [("parts", VArray [obj [("text", VString text)]])])]) <$> emb_input request))] in
  res ← call_upstream (W := ProviderWorld N)
          (gemini_post profile ("models/" +:+ provider_model_id model +:+ ":batchEmbedContents") "" body);
  embeddings ← decode_reply gemini_embeddings_of_value res;
  let embedding := gemini_embedding_response embeddings (public_id model) in
  mret (PREmbedding embedding, gemini_embedding_usage embedding).

(** [godwit-providers/src/gemini.rs:912-971] [GeminiProvider::image_generation] *)
Definition gemini_unsupported (operation : string) : ANSWER :=
  throw (CapabilityNotSupported (operation +:+ " is not supported "
           +:+ (if String.eqb operation "image edit" then "by gemini" else "for Gemini"))).
(** [godwit-providers/src/gemini.rs:1044-1073] [GeminiProvider::create_batch] *)
Definition gemini_no_batch : CALL Batch := throw (CapabilityNotSupported "batch is not supported for Gemini").
End Gemini.
