(* ===== verification/Providers.v ===== *)
(** * All adapters

    The eight adapters of godwit-providers as one instance of the interface the proxy calls,
    and what holds of them together: what leaves the gateway, what the prompt cache answers,
    what is lost between a request and a backend. *)

From stdpp Require Import base strings list gmap pretty.
From Stdlib Require Import QArith Ascii.
From S2P Require Import Prelude RustStr Utf8 Json Core Db Resilience Usage Backend Serde Streaming PromptCache Balancer Auth Router Adapters Anthropic Gemini.

#[local] Open Scope string_scope.
#[local] Open Scope Z_scope.

(** The types that implement the trait. *)
Inductive AdapterKind : Type :=
| AOpenAi | AAzure | AAnthropic | AGemini | AVllm | ASglang | ALlamaCpp | AOllama.

Section Instance_.
Context `{JsonText} `{Formats} `{Hasher} (parse_failure : string -> string) {N : Type} `{!Upstream N}.
Notation W := (ProviderWorld N).
Notation ANSWER := (ST W ProviderError (ProviderResponse * UsageReport)).

Definition kind_chat (a : AdapterKind) : ResolvedProfile -> Model -> ChatCompletionRequest -> ANSWER :=
  match a with
  | AOpenAi => openai_chat
  | AAzure => azure_chat
  | AAnthropic => anthropic_chat
  | AGemini => gemini_chat
  | AVllm => vllm_chat
  | ASglang => sglang_chat
  | ALlamaCpp => llama_cpp_chat
  | AOllama => ollama_chat
  end.

Definition kind_chat_stream (a : AdapterKind)
  : ResolvedProfile -> Model -> ChatCompletionRequest -> ST W ProviderError (list Event) :=
  match a with
  | AOpenAi => family_chat_stream openai_dialect
  | AAzure => azure_chat_stream
  | AAnthropic => anthropic_chat_stream parse_failure
  | AGemini => gemini_chat_stream parse_failure
  | AVllm => vllm_chat_stream
  | ASglang => sglang_chat_stream
  | ALlamaCpp => llama_cpp_chat_stream
  | AOllama => ollama_chat_stream
  end.

(** The refusal of an operation, for the adapters that have it not. *)
Definition refuse (a : AdapterKind) (operation : string) : ANSWER :=
  match a with
  | AAnthropic => anthropic_unsupported operation
  | AGemini => gemini_unsupported operation
  | AVllm => vllm_unsupported operation
  | ASglang => sglang_unsupported operation
  | ALlamaCpp => llama_cpp_unsupported operation
  | AOllama => ollama_unsupported operation
  | AOpenAi => openai_video_generation
  | AAzure => azure_video_generation
  end.

Definition kind_embedding (a : AdapterKind) : ResolvedProfile -> Model -> EmbeddingRequest -> ANSWER :=
  match a with
  | AOpenAi => family_embedding openai_dialect
  | AAzure => azure_embedding
  | AAnthropic => fun _ _ _ => refuse a "embedding"
  | AGemini => gemini_embedding
  | AVllm => vllm_embedding
  | ASglang => sglang_embedding
  | ALlamaCpp => llama_cpp_embedding
  | AOllama => ollama_embedding
  end.

(** The media operations exist on OpenAI and Azure. *)
Definition media {T} (a : AdapterKind) (openai azure other : T) : T :=
  match a with AOpenAi => openai | AAzure => azure | _ => other end.

#[export] Instance provider_adapter : Adapter AdapterKind W (list (result ProviderError SseEvent)) := {|
  chat := kind_chat;
  chat_stream := kind_chat_stream;
  image_generation := fun a => media a (family_image_generation openai_dialect) azure_image_generation
                                  (fun _ _ _ => refuse a "image generation");
  image_edit := fun a => media a (family_image_edit openai_dialect) azure_image_edit
                            (fun _ _ _ _ _ _ => refuse a "image edit");
  audio_tts := fun a => media a (family_audio_tts openai_dialect) azure_audio_tts (fun _ _ _ => refuse a "audio TTS");
  audio_stt := fun a => media a (family_audio_stt openai_dialect) azure_audio_stt
                           (fun _ _ _ _ _ _ => refuse a "audio STT");
  embedding := kind_embedding;
|}.
End Instance_.

(** ** Capabilities

    What each adapter says it supports; no caller asks. *)

(** [godwit-providers/src/openai.rs:236-244] [OpenAiProvider::supported_capabilities] *)
Definition openai_capabilities : list Capability := [Chat; ImageGeneration; AudioTts; AudioStt; Embedding].
(** [godwit-providers/src/azure_openai.rs:141-149] [AzureOpenAiProvider::supported_capabilities] *)
Definition azure_capabilities : list Capability := [Chat; ImageGeneration; AudioTts; AudioStt; Embedding].
(** [godwit-providers/src/anthropic.rs:398-400] [AnthropicProvider::supported_capabilities] *)
Definition anthropic_capabilities : list Capability := [Chat].
(** [godwit-providers/src/gemini.rs:808-810] [GeminiProvider::supported_capabilities] *)
Definition gemini_capabilities : list Capability := [Chat; Embedding].
(** [godwit-providers/src/vllm.rs:42-44] [VllmProvider::supported_capabilities] *)
Definition vllm_capabilities : list Capability := [Chat; Embedding].
(** [godwit-providers/src/sglang.rs:42-44] [SglangProvider::supported_capabilities] *)
Definition sglang_capabilities : list Capability := [Chat; Embedding].
(** [godwit-providers/src/llama_cpp.rs:78-80] [LlamaCppProvider::supported_capabilities] *)
Definition llama_cpp_capabilities : list Capability := [Chat; Embedding].
(** [godwit-providers/src/ollama.rs:42-44] [OllamaProvider::supported_capabilities] *)
Definition ollama_capabilities : list Capability := [Chat; Embedding].
(** [godwit-providers/src/adapter.rs:70] [Adapter::supported_capabilities] *)
Definition supported_capabilities (a : AdapterKind) : list Capability :=
  match a with
  | AOpenAi => openai_capabilities | AAzure => azure_capabilities | AAnthropic => anthropic_capabilities
  | AGemini => gemini_capabilities | AVllm => vllm_capabilities | ASglang => sglang_capabilities
  | ALlamaCpp => llama_cpp_capabilities | AOllama => ollama_capabilities
  end.

Section Honest.
Context `{JsonText} `{Formats} `{Hasher} (parse_failure : string -> string) {N : Type} `{!Upstream N}.
Notation W := (ProviderWorld N).
#[local] Existing Instance provider_adapter.

(** An adapter refuses what it does not list, sending nothing and changing nothing. *)
Lemma unlisted_capability_is_refused (a : AdapterKind) (w : W) :
  (Embedding ∉ supported_capabilities a -> forall p m r, (embedding (Adapter := provider_adapter parse_failure) a p m r w) = (refuse a "embedding" w)) /\
  (ImageGeneration ∉ supported_capabilities a ->
     forall p m r, (image_generation (Adapter := provider_adapter parse_failure) a p m r w) = (refuse a "image generation" w)) /\
  (AudioTts ∉ supported_capabilities a ->
     forall p m r, (audio_tts (Adapter := provider_adapter parse_failure) a p m r w) = (refuse a "audio TTS" w)) /\
  forall operation, exists e, refuse (N := N) a operation w = (Err e, w).
Proof.
  split_and!.
  - destruct a; simpl; try done; intros Hn; exfalso; apply Hn; set_solver.
  - destruct a; simpl; try done; intros Hn; exfalso; apply Hn; set_solver.
  - destruct a; simpl; try done; intros Hn; exfalso; apply Hn; set_solver.
  - intros operation. destruct a; eexists; reflexivity.
Qed.
End Honest.

(** ** Seeing what is sent *)

Record Logged (N : Type) : Type := { inner : N; sent : list HttpRequest }.
Arguments inner {N}. Arguments sent {N}. Arguments Build_Logged {N}.

#[export] Instance logged_upstream {N} `{!Upstream N} : Upstream (Logged N) := {|
  exchange := fun req w => let '(r, n) := exchange req (inner w) in (r, {| inner := n; sent := (sent w ++ [req])%list |});
  clock := fun w => clock (inner w);
  utc_now := fun w => utc_now (inner w);
  new_id := fun w => let '(i, n) := new_id (inner w) in (i, {| inner := n; sent := sent w |});
|}.

(** At most [n] requests are sent, all of which satisfy [P]. *)
Definition sends {N E T} (n : nat) (P : HttpRequest -> Prop) (f : ST (ProviderWorld (Logged N)) E T) : Prop :=
  forall w, exists l, sent (net (f w).2) = (sent (net w) ++ l)%list /\ Forall P l /\ (length l <= n)%nat.

Section Sends.
Context `{JsonText} `{Formats} `{Hasher} {N : Type} `{!Upstream N} (P : HttpRequest -> Prop).
Notation W := (ProviderWorld (Logged N)).

Lemma sends_quiet {E T} n (f : ST W E T) : (forall w, sent (net (f w).2) = sent (net w)) -> sends n P f.
Proof. intros Hf w. exists []. rewrite app_nil_r. split_and!; [apply Hf|constructor|simpl; lia]. Qed.

Lemma sends_ret {E T} n (a : T) : sends (N := N) (E := E) n P (mret a).
Proof. by apply sends_quiet. Qed.
Lemma sends_throw {E T} n (e : E) : sends (N := N) (T := T) n P (throw e).
Proof. by apply sends_quiet. Qed.
Lemma sends_lift {E T} n (r : result E T) : sends (N := N) n P (lift r).
Proof. by apply sends_quiet. Qed.
Lemma sends_gets {E T} n (g : W -> T) : sends (N := N) (E := E) n P (gets g).
Proof. by apply sends_quiet. Qed.

Lemma sends_bind {E A B} n (f : ST W E A) (g : A -> ST W E B) :
  sends n P f -> (forall a, sends 0 P (g a)) -> sends n P (f ≫= g).
Proof.
  intros Hf Hg w. destruct (Hf w) as (l & E1 & Hl & Hn). unfold mbind, st_bind.
  destruct (f w) as [[a|e] w1] eqn:Ef; simpl in *; [|by exists l].
  destruct (Hg a w1) as (l' & E2 & _ & Hl'). destruct l'; [|simpl in Hl'; lia]. rewrite app_nil_r in E2.
  exists l. by rewrite E2.
Qed.
Lemma sends_bind_late {E A B} n (f : ST W E A) (g : A -> ST W E B) :
  sends 0 P f -> (forall a, sends n P (g a)) -> sends n P (f ≫= g).
Proof.
  intros Hf Hg w. destruct (Hf w) as (l & E1 & _ & Hn). destruct l; [|simpl in Hn; lia]. rewrite app_nil_r in E1.
  unfold mbind, st_bind. destruct (f w) as [[a|e] w1] eqn:Ef; simpl in *.
  - destruct (Hg a w1) as (l' & E2 & ? & ?). exists l'. by rewrite E2, E1.
  - exists []. rewrite app_nil_r. split_and!; [done|constructor|simpl; lia].
Qed.

Lemma sends_call req : P req -> sends 1 P (call_upstream (W := W) req).
Proof.
  intros HP w. unfold call_upstream, st_map_err, mbind, st_bind. simpl.
  destruct (exchange req (inner (net w))) as [r n]. exists [req].
  assert (Forall P [req]) by by constructor.
  destruct r as [res|e]; simpl; [|done]. by destruct (is_success (rp_status res)).
Qed.
Lemma sends_decode {T} n (rd : value -> option T) res : sends n P (decode_reply (W := W) rd res).
Proof. apply sends_quiet. intros w. unfold decode_reply. repeat case_match; done. Qed.
Lemma sends_file n name body filename mime : sends n P (file_part (W := W) name body filename mime).
Proof. apply sends_quiet. intros w. unfold file_part. by case_match. Qed.
End Sends.
Create HintDb sends.
#[export] Hint Resolve sends_ret sends_throw sends_lift sends_gets sends_decode sends_file : sends.

(** ** The registry of the process *)

(** [godwit-bin/src/main.rs:52-59] [main] *)
Definition main_registry : AdapterRegistry AdapterKind :=
  register_adapter (MkProtocol "ollama") AOllama (
  register_adapter (MkProtocol "llama_cpp") ALlamaCpp (
  register_adapter (MkProtocol "sglang") ASglang (
  register_adapter (MkProtocol "vllm") AVllm (
  register_adapter (MkProtocol "gemini") AGemini (
  register_adapter (MkProtocol "anthropic") AAnthropic (
  register_adapter (MkProtocol "openai") AOpenAi {| adapters := ∅ |})))))).

(** ** Members of the bodies *)

Lemma openai_body_model r : get "model" (openai_chat_body r) = Some (VString (req_model r)).
Proof. apply (get_struct_some _ _ []). no_keys. Qed.
Lemma azure_body_model r : get "model" (azure_chat_body r) = Some (VString (req_model r)).
Proof. apply (get_struct_some _ _ []). no_keys. Qed.
Lemma anthropic_body_model r m : get "model" (anthropic_request r m) = Some (VString m).
Proof. apply (get_struct_some _ _ []). no_keys. Qed.

Lemma obj_get_remove_ne k k' o : k <> k' -> obj_get k (obj_remove k' o) = obj_get k o.
Proof.
  intros Hk. induction o as [|[x v] o IH]; [done|]. simpl. destruct (String.eqb_spec k' x) as [->|Hx].
  - by rewrite (proj2 (String.eqb_neq k x)).
  - simpl. by destruct (String.eqb k x).
Qed.

(** An engine's body agrees with the request on the members it does not rewrite. *)
Lemma engine_body_get guide keep r k :
  (forall schema, k ∉ (guide schema).*1) -> k <> "stop" -> k <> "seed" -> k <> "response_format" ->
  get k (engine_body guide keep r) = get k (request_to_value (with_tools r (strip_native_web_search_from_request r))).
Proof.
  intros Hg Hs Hd Hf. unfold engine_body. set (r' := with_tools r _).
  change (request_to_value r') with (VObject (match request_to_value r' with VObject o => o | _ => [] end)).
  generalize (match request_to_value r' with VObject o => o | _ => [] end). intros o. cbv iota beta. unfold get.
  assert (forall l o, k ∉ l.*1 -> obj_get k (fold_left (fun o '(k, v) => obj_insert k v o) l o) = obj_get k o) as Hfold.
  { induction l as [|[x v] l IH]; intros o' Hk; [done|]. simpl. apply not_elem_of_cons in Hk as [Hx Hl].
    rewrite IH by done. by rewrite obj_get_insert_ne. }
  destruct (req_seed r') as [seed|]; [destruct keep|]; rewrite ?obj_get_insert_ne by done;
    (destruct (req_stop r') as [stop|]; rewrite ?obj_get_insert_ne by done);
    (destruct (req_response_format r') as [[| |n schema b]|]; rewrite ?Hfold by done; rewrite ?obj_get_remove_ne by done; done).
Qed.

Lemma request_get r k v :
  assoc k [("model", VString (req_model r)); ("tools", opt_value (wr_list tool_to_value) (req_tools r))] = Some v ->
  get k (request_to_value r) = Some v.
Proof.
  intros Hk. unfold request_to_value. rewrite get_obj by (apply (bool_decide_unpack _); vm_compute; exact I).
  simpl in Hk. destruct (String.eqb_spec k "model") as [->|]; [by simplify_eq|].
  destruct (String.eqb_spec k "tools") as [->|]; [by simplify_eq|done].
Qed.

(** ** What leaves the gateway *)

(** The headers a request may carry for a profile: its key, in the form a backend wants. *)
Definition header_of (profile : ResolvedProfile) (h : string * string) : Prop :=
  h = ("anthropic-version", "2023-06-01") \/
  exists key, rp_api_key profile = Some key /\ (h = bearer_header key \/ h = ("api-key", key) \/ h = ("x-api-key", key)).
(** The model is named in the JSON body, in the form or in the address. *)
Definition names_model (model : Model) (base : string) (req : HttpRequest) : Prop :=
  (hr_json req ≫= get "model") = Some (VString (provider_model_id model)) \/
  text_part "model" (provider_model_id model) ∈ hr_form req \/
  exists rest, hr_url req = base +:+ "/v1beta/models/" +:+ provider_model_id model +:+ rest.
(** What a request may ask of a backend, under the base URL of a profile: one of the operations
    of the OpenAI and the Anthropic protocol, of a deployment of Azure, or of a model of Gemini.
    The last alone has a key in its address. *)
Definition operations : list string :=
  ["chat/completions"; "embeddings"; "images/generations"; "images/edits"; "audio/speech"; "audio/transcriptions"; "v1/messages"].
Inductive address (profile : ResolvedProfile) (model : Model) : string -> Prop :=
| plain_address path : str_in operations path = true -> address profile model (rp_base_url profile +:+ "/" +:+ path)
| deployment_address path streaming : str_in operations path = true ->
    address profile model (rp_base_url profile +:+ "/openai/deployments/" +:+ provider_model_id model +:+ "/" +:+ path
      +:+ "?api-version=2024-02-15-preview" +:+ (if streaming : bool then "&stream=true" else ""))
| gemini_address op query : str_in [":generateContent"; ":streamGenerateContent"; ":batchEmbedContents"] op = true ->
    str_in [""; "alt=sse&"] query = true ->
    address profile model (rp_base_url profile +:+ "/v1beta/models/" +:+ provider_model_id model +:+ op +:+ "?" +:+ query
      +:+ "key=" +:+ default "" (rp_api_key profile)).
Definition scoped (profile : ResolvedProfile) (model : Model) (req : HttpRequest) : Prop :=
  address profile model (hr_url req) /\
  Forall (header_of profile) (hr_headers req) /\
  names_model model (rp_base_url profile) req.

Lemma azure_address profile model path streaming : str_in operations path = true ->
  address profile model (azure_url (rp_base_url profile) (provider_model_id model) path +:+ (if streaming : bool then "&stream=true" else "")).
Proof. intros Hp. unfold azure_url. rewrite !app_assoc_str. by apply deployment_address. Qed.

(** A dialect is sound when its addresses are among those, its header is one of those
    above and its chat body names the model. *)
Record dialect_ok (dl : Dialect) : Prop := {
  dl_url_ok : forall profile model path, str_in operations path = true -> address profile model (url_of dl profile model path);
  dl_chat_url_ok : forall profile model b, address profile model (dl_chat_url dl (rp_base_url profile) (provider_model_id model) b);
  dl_key_ok : forall key, dl_key dl key = bearer_header key \/ dl_key dl key = ("api-key", key);
  dl_chat_ok : forall r, get "model" (dl_chat dl r) = Some (VString (req_model r)) }.

Lemma openai_dialect_ok : dialect_ok openai_dialect.
Proof.
  constructor; [intros; by apply plain_address..|by left|exact openai_body_model].
Qed.
Lemma azure_dialect_ok : dialect_ok azure_dialect.
Proof.
  constructor; [| |by right|exact azure_body_model]; intros profile model.
  - intros path Hp. pose proof (azure_address profile model path false Hp) as Ha. by rewrite app_nil_r_str in Ha.
  - intros b. by apply azure_address.
Qed.
Lemma engine_dialect_ok guide keep : (forall schema, "model" ∉ (guide schema).*1) -> dialect_ok (engine_dialect (engine_body guide keep)).
Proof.
  intros Hg. constructor; [intros; by apply plain_address..|by left|]. intros r. cbn [engine_dialect dl_chat].
  rewrite engine_body_get by done. by apply request_get.
Qed.
Lemma vllm_ok : dialect_ok (engine_dialect vllm_body).
Proof. apply engine_dialect_ok. intros [s|]; simpl; set_solver. Qed.
Lemma sglang_ok : dialect_ok (engine_dialect sglang_body).
Proof. apply engine_dialect_ok. intros [s|]; simpl; set_solver. Qed.
Lemma ollama_ok : dialect_ok (engine_dialect ollama_body).
Proof. apply engine_dialect_ok. intros s; simpl; set_solver. Qed.
Lemma llama_cpp_ok : dialect_ok (engine_dialect llama_cpp_body).
Proof. apply engine_dialect_ok. intros [s|]; simpl; set_solver. Qed.

Lemma key_header_ok dl profile : dialect_ok dl -> Forall (header_of profile) (key_header dl profile).
Proof.
  intros Hd. unfold key_header. destruct (rp_api_key profile) as [key|] eqn:E; constructor; [|constructor].
  right. exists key. split; [done|]. destruct (dl_key_ok _ Hd key) as [->| ->]; auto.
Qed.

Section Scoped.
Context `{JsonText} `{Formats} `{Hasher} (parse_failure : string -> string) {N : Type} `{!Upstream N}.
Notation W := (ProviderWorld (Logged N)).
Context (profile : ResolvedProfile) (model : Model).
Notation P := (scoped profile model).

Lemma json_scoped dl url body : dialect_ok dl ->
  address profile model url -> get "model" body = Some (VString (provider_model_id model)) ->
  P (json_post dl profile url body).
Proof. intros Hd Hu Hm. split; [done|]. split; [by apply key_header_ok|]. by left. Qed.

Lemma form_scoped dl path l : dialect_ok dl -> str_in operations path = true -> text_part "model" (provider_model_id model) ∈ l ->
  P (form_post dl profile (url_of dl profile model path) l).
Proof. intros Hd Hp Hl. split; [by apply (dl_url_ok _ Hd)|]. split; [by apply key_header_ok|]. right. by left. Qed.

Lemma chat_request_scoped dl streaming request : dialect_ok dl -> P (chat_request dl profile model streaming request).
Proof. intros Hd. apply json_scoped; [done|apply (dl_chat_url_ok _ Hd)|]. by rewrite (dl_chat_ok _ Hd). Qed.

Lemma family_chat_sends dl request : dialect_ok dl -> sends 1 P (family_chat (W := W) dl profile model request).
Proof.
  intros Hd. apply sends_bind; [by apply sends_call, chat_request_scoped|]. intros res.
  apply sends_bind; auto with sends.
Qed.
Lemma family_chat_stream_sends dl request : dialect_ok dl -> sends 1 P (family_chat_stream (W := W) dl profile model request).
Proof. intros Hd. apply sends_bind; [by apply sends_call, chat_request_scoped|]. auto with sends. Qed.

(** A JSON request of the family and the decoding of its answer. *)
Lemma family_json_sends {T U} dl path body (rd : value -> option T) (k : T -> ST W ProviderError U) : dialect_ok dl -> str_in operations path = true ->
  get "model" body = Some (VString (provider_model_id model)) -> (forall a, sends 0 P (k a)) ->
  sends 1 P (res ← call_upstream (W := W) (json_post dl profile (url_of dl profile model path) body);
             a ← decode_reply rd res; k a).
Proof.
  intros Hd Hp Hb Hk. apply sends_bind; [apply sends_call, json_scoped; try done; by apply (dl_url_ok _ Hd)|]. intros res.
  apply sends_bind; auto with sends.
Qed.

Lemma gemini_scoped op query body :
  str_in [":generateContent"; ":streamGenerateContent"; ":batchEmbedContents"] op = true -> str_in [""; "alt=sse&"] query = true ->
  P (gemini_post profile ("models/" +:+ provider_model_id model +:+ op) query body).
Proof.
  intros Ho Hq.
  assert (gemini_url profile ("models/" +:+ provider_model_id model +:+ op) query = rp_base_url profile +:+ "/v1beta/models/"
            +:+ provider_model_id model +:+ op +:+ "?" +:+ query +:+ "key=" +:+ default "" (rp_api_key profile)) as Hu.
  { unfold gemini_url. f_equal. rewrite <- (app_assoc_str (provider_model_id model)). reflexivity. }
  split; [|split; [constructor|right; right]]; cbn [gemini_post hr_url]; rewrite Hu; [by apply gemini_address|by eexists].
Qed.

Lemma anthropic_scoped r : P (anthropic_post profile (anthropic_request r (provider_model_id model))).
Proof.
  split; [by apply (plain_address profile model "v1/messages")|]. split.
  - constructor; [by left|]. destruct (rp_api_key profile) as [key|] eqn:E; [|constructor]. constructor; [|constructor].
    right. exists key. auto.
  - left. simpl. apply anthropic_body_model.
Qed.

Lemma generate_sends body : sends 1 P (generate (N := Logged N) profile model body).
Proof.
  unfold generate. apply sends_bind; [by apply sends_call, gemini_scoped|]. intros res.
  apply sends_bind; [auto with sends|]. intros a. apply sends_bind.
  { apply sends_quiet. intros w. unfold draw_id. simpl. by destruct (new_id _). }
  intros i. apply sends_bind; [auto with sends|]. intros now. apply sends_bind; auto with sends.
Qed.

Lemma openai_chat_sends request : sends 1 P (openai_chat (N := Logged N) profile model request).
Proof.
  unfold openai_chat. apply sends_bind_late.
  { destruct (bool_decide _); [auto with sends|]. apply sends_quiet. intros w. unfold recall. by destruct (prompt_cache_get _ _ _). }
  intros [hit|]; [auto with sends|]. apply sends_bind; [apply family_chat_sends, openai_dialect_ok|]. intros bu.
  apply sends_bind; [|auto with sends]. destruct (bool_decide _); [auto with sends|]. by apply sends_quiet.
Qed.

Lemma family_answer_sends dl request : dialect_ok dl ->
  sends 1 P (bu ← family_chat (W := W) dl profile model request; mret (PRChat bu.1, bu.2)).
Proof. intros Hd. apply sends_bind; [by apply family_chat_sends|]. auto with sends. Qed.

Lemma kind_chat_sends a request : sends 1 P (kind_chat (N := Logged N) a profile model request).
Proof.
  destruct a; simpl.
  - apply openai_chat_sends.
  - apply family_answer_sends, azure_dialect_ok.
  - unfold anthropic_chat. apply sends_bind; [apply sends_call, anthropic_scoped|]. intros res.
    apply sends_bind; [auto with sends|]. intros body. apply sends_bind; auto with sends.
  - unfold gemini_chat, chat_without_cache. case_match; [apply generate_sends|]. apply sends_bind_late.
    { apply sends_quiet. intros w. unfold look_up. destruct (prompt_cache_get _ _ _) as [[c|] ?]; [by destruct (is_expired _ _)|done]. }
    intros [c|]; apply generate_sends.
  - apply family_answer_sends, vllm_ok.
  - apply family_answer_sends, sglang_ok.
  - apply family_answer_sends, llama_cpp_ok.
  - apply family_answer_sends, ollama_ok.
Qed.

Lemma kind_chat_stream_sends a request : sends 1 P (kind_chat_stream parse_failure (N := Logged N) a profile model request).
Proof.
  destruct a; simpl; try (apply family_chat_stream_sends;
    first [apply openai_dialect_ok | apply azure_dialect_ok | apply vllm_ok | apply sglang_ok | apply llama_cpp_ok | apply ollama_ok]).
  - unfold anthropic_chat_stream. apply sends_bind; [apply sends_call, anthropic_scoped|]. auto with sends.
  - unfold gemini_chat_stream. apply sends_bind; [by apply sends_call, gemini_scoped|]. auto with sends.
Qed.

Lemma refuse_sends a op : sends 1 P (refuse (N := Logged N) a op).
Proof. destruct a; apply sends_throw. Qed.

Lemma kind_embedding_sends a request : sends 1 P (kind_embedding (N := Logged N) a profile model request).
Proof.
  assert (forall dl, dialect_ok dl -> sends 1 P (family_embedding (W := W) dl profile model request)) as Hf.
  { intros dl Hd. apply family_json_sends; auto with sends. }
  destruct a; simpl; try (apply Hf;
    first [apply openai_dialect_ok | apply azure_dialect_ok | apply vllm_ok | apply sglang_ok | apply llama_cpp_ok | apply ollama_ok]).
  - apply sends_throw.
  - unfold gemini_embedding. apply sends_bind; [by apply sends_call, gemini_scoped|]. intros res.
    apply sends_bind; auto with sends.
Qed.

Lemma family_edit_sends dl request image name mask : dialect_ok dl ->
  sends 1 P (family_image_edit (W := W) dl profile model request image name mask).
Proof.
  intros Hd. unfold family_image_edit. apply sends_bind_late; [auto with sends|]. intros file.
  apply sends_bind_late.
  { destruct mask; [|auto with sends]. apply sends_bind; auto with sends. }
  intros m. apply sends_bind; [apply sends_call, form_scoped; [done..|]; cbn [app]; apply elem_of_cons; right; apply elem_of_cons; by left|]. intros res.
  apply sends_bind; auto with sends.
Qed.
Lemma family_stt_sends dl request bytes name ty : dialect_ok dl ->
  sends 1 P (family_audio_stt (W := W) dl profile model request bytes name ty).
Proof.
  intros Hd. unfold family_audio_stt. apply sends_bind_late; [auto with sends|]. intros file.
  apply sends_bind; [apply sends_call, form_scoped; [done..|]; cbn [app]; apply elem_of_cons; right; apply elem_of_cons; by left|]. intros res.
  apply sends_bind; auto with sends.
Qed.
Lemma family_tts_sends dl request : dialect_ok dl -> sends 1 P (family_audio_tts (W := W) dl profile model request).
Proof.
  intros Hd. apply sends_bind; [apply sends_call, json_scoped; [done|by apply (dl_url_ok _ Hd)|done]|]. intros res.
  apply sends_bind; auto with sends.
Qed.
Lemma family_image_sends dl request : dialect_ok dl -> sends 1 P (family_image_generation (W := W) dl profile model request).
Proof. intros Hd. apply family_json_sends; auto with sends. Qed.
End Scoped.

(** C16: whatever operation the proxy asks of whatever adapter, at most one request leaves the
    gateway.  Its address is the profile's base URL followed by one of the operations the
    adapters know, with nothing of the request in it; it carries no key but the profile's, in
    one of three headers or, for Gemini alone, at the end of the address; and it names the
    catalog's upstream model, in the body, in the form or in the address. *)
Theorem adapters_send_scoped_requests `{JsonText} `{Formats} `{Hasher} parse_failure `{!Upstream N} a profile model :
  let ADAPTER := provider_adapter parse_failure (N := Logged N) in
  let ok := fun T (f : ST (ProviderWorld (Logged N)) ProviderError T) => sends 1 (scoped profile model) f in
  (forall r, ok _ (chat a profile model r)) /\
  (forall r, ok _ (chat_stream a profile model r)) /\
  (forall r, ok _ (image_generation a profile model r)) /\
  (forall r image name mask, ok _ (image_edit a profile model r image name mask)) /\
  (forall r, ok _ (audio_tts a profile model r)) /\
  (forall r bytes name ty, ok _ (audio_stt a profile model r bytes name ty)) /\
  (forall r, ok _ (embedding a profile model r)).
Proof.
  simpl. split_and!; intros.
  - apply kind_chat_sends.
  - apply kind_chat_stream_sends.
  - destruct a; try apply refuse_sends; apply family_image_sends; [apply openai_dialect_ok|apply azure_dialect_ok].
  - destruct a; try apply refuse_sends; apply family_edit_sends; [apply openai_dialect_ok|apply azure_dialect_ok].
  - destruct a; try apply refuse_sends; apply family_tts_sends; [apply openai_dialect_ok|apply azure_dialect_ok].
  - destruct a; try apply refuse_sends; apply family_stt_sends; [apply openai_dialect_ok|apply azure_dialect_ok].
  - apply kind_embedding_sends.
Qed.

(** A profile whose protocol is one of seven names finds its adapter in the registry the
    process builds; the Azure adapter exists but no protocol leads to it. *)
Theorem azure_is_not_registered s :
  (is_Some (get_adapter (MkProtocol s) main_registry) <->
   s ∈ ["openai"; "anthropic"; "gemini"; "vllm"; "sglang"; "llama_cpp"; "ollama"]) /\
  (forall a, get_adapter (MkProtocol s) main_registry = Some a -> a <> AAzure) /\
  get_adapter (MkProtocol "azure_openai") main_registry = None.
Proof.
  unfold get_adapter, main_registry, register_adapter. cbn [adapters protocol_as_str]. split_and!.
  - unfold is_Some. setoid_rewrite lookup_insert_Some. setoid_rewrite lookup_insert_Some. setoid_rewrite lookup_insert_Some.
    setoid_rewrite lookup_insert_Some. setoid_rewrite lookup_insert_Some. setoid_rewrite lookup_insert_Some.
    setoid_rewrite lookup_insert_Some. setoid_rewrite lookup_empty.
    destruct (decide (s ∈ ["openai"; "anthropic"; "gemini"; "vllm"; "sglang"; "llama_cpp"; "ollama"])) as [Hs|Hs].
    + split; [done|]. intros _. set_unfold in Hs. destruct_or! Hs; simplify_eq/=; eauto 20.
    + split; [|done]. intros [a Ha]. set_solver.
  - intros a Ha. rewrite !lookup_insert_Some, lookup_empty in Ha. destruct_or! Ha; destruct_and?; simplify_eq; try done.
    naive_solver.
  - reflexivity.
Qed.

Lemma azure_is_not_registered_witness :
  get_adapter (MkProtocol "vllm") main_registry = Some AVllm /\ AVllm <> AAzure.
Proof. split; [reflexivity|]. by apply (azure_is_not_registered "vllm"). Defined.

(** ** What the prompt cache answers *)

Section Cached.
Context `{JsonText} `{Formats} `{Hasher} {N : Type} `{!Upstream N}.
Notation W := (ProviderWorld N).

(** What the key is made of. *)
Definition same_key_fields (r s : ChatCompletionRequest) : Prop :=
  req_model s = req_model r /\ req_messages s = req_messages r /\ req_temperature s = req_temperature r /\
  req_max_tokens s = req_max_tokens r /\ req_response_format s = req_response_format r.

Lemma same_key r s : same_key_fields r s -> cache_key_of_request s = cache_key_of_request r.
Proof. unfold same_key_fields, cache_key_of_request. by intros (-> & -> & -> & -> & ->). Qed.

Lemma exchange_keeps_cache req (w : W) : prompt_cache (exchange req w).2 = prompt_cache w.
Proof. simpl. by destruct (exchange req (net w)). Qed.

Lemma family_chat_keeps_cache dl p m r (w : W) : prompt_cache (family_chat dl p m r w).2 = prompt_cache w.
Proof.
  unfold family_chat, call_upstream, st_map_err, mbind, st_bind. pose proof (exchange_keeps_cache (chat_request dl p m false r) w) as E.
  destruct (exchange _ w) as [[res|e] w1]; simpl in *; [|done].
  destruct (is_success _); simpl; [|done]. unfold decode_reply. destruct (rp_body res) as [t|e]; simpl; [|done].
  by destruct (from_str t ≫= completion_of_value).
Qed.

(** A request that is not streamed: look the answer up, or ask the backend and store it. *)
Lemma openai_chat_eq p m r (w : W) : req_stream r <> Some true ->
  openai_chat p m r w =
  let '(hit, c) := prompt_cache_get (clock w) (cache_key_of_request r) (prompt_cache w) in
  let w1 := on_cache (fun _ => c) w in
  match hit with
  | Some h => (Ok (PRChat (cr_response h), cr_usage h), w1)
  | None =>
    match family_chat openai_dialect p m r w1 with
    | (Ok bu, w2) =>
      (Ok (PRChat bu.1, bu.2),
       on_cache (prompt_cache_insert (clock w2) (cache_key_of_request (upstream_request m false r))
                   {| cr_response := bu.1; cr_usage := bu.2 |}) w2)
    | (Err e, w2) => (Err e, w2)
    end
  end.
Proof.
  intros Hs. unfold openai_chat. rewrite bool_decide_false by done. unfold mbind, st_bind, recall, remember.
  destruct (prompt_cache_get _ _ _) as [[h|] c]; [done|].
  by destruct (family_chat openai_dialect p m r _) as [[[b u]|e] w2].
Qed.

Lemma openai_chat_stores p m r (w w' : W) a u :
  req_stream r <> Some true -> (prompt_cache_get (clock w) (cache_key_of_request r) (prompt_cache w)).1 = None ->
  openai_chat p m r w = (Ok (a, u), w') ->
  exists body, a = PRChat body /\
    cache (prompt_cache w') !! cache_key_of_request (upstream_request m false r) =
    Some {| ce_value := {| cr_response := body; cr_usage := u |};
            expires_at := clock w' + default_ttl (prompt_cache w) |}.
Proof.
  intros Hs Hg Hc. rewrite openai_chat_eq in Hc by done.
  destruct (prompt_cache_get (clock w) (cache_key_of_request r) (prompt_cache w)) as [hit c] eqn:Eg. simpl in Hg. subst hit.
  assert (default_ttl c = default_ttl (prompt_cache w)) as Ht.
  { unfold prompt_cache_get in Eg. repeat case_match; by simplify_eq/=. }
  pose proof (family_chat_keeps_cache openai_dialect p m r (on_cache (fun _ => c) w)) as Ek. cbv zeta beta iota in Hc.
  destruct (family_chat openai_dialect p m r (on_cache (fun _ => c) w)) as [[[body u']|e] w1]; [|done].
  simplify_eq. exists body. split; [done|]. simpl in Ek |- *.
  unfold prompt_cache_insert, insert_with_ttl. simpl. rewrite lookup_insert_eq. by rewrite Ek, Ht.
Qed.

Lemma openai_chat_hit p m r (w : W) e :
  req_stream r <> Some true -> cache (prompt_cache w) !! cache_key_of_request r = Some e -> clock w <= expires_at e ->
  exists w', openai_chat p m r w = (Ok (PRChat (cr_response (ce_value e)), cr_usage (ce_value e)), w') /\ net w' = net w.
Proof.
  intros Hs He Ht. rewrite openai_chat_eq by done. unfold prompt_cache_get. rewrite He.
  rewrite (proj2 (Z.ltb_ge _ _)) by done. by eexists.
Qed.

(** Once a request has been answered through the OpenAI adapter, every request with the same
    model name, messages, temperature, token limit and answer format gets the same answer for
    an hour and reaches no backend: also one with other tools, another number of choices,
    another seed, other stop words or sampling, made by another user and resolved to another
    profile, another key or another model. *)
Theorem cached_answer_ignores_the_rest p m r (w w1 : W) a u p' m' s (w2 : W) :
  req_stream r <> Some true -> req_stream s <> Some true -> provider_model_id m = req_model r ->
  (prompt_cache_get (clock w) (cache_key_of_request r) (prompt_cache w)).1 = None ->
  openai_chat p m r w = (Ok (a, u), w1) ->
  same_key_fields r s -> prompt_cache w2 = prompt_cache w1 -> clock w2 <= clock w1 + default_ttl (prompt_cache w) ->
  exists w3, openai_chat p' m' s w2 = (Ok (a, u), w3) /\ net w3 = net w2.
Proof.
  intros Hr Hs Hm Hg Hc Hk Hw Ht. destruct (openai_chat_stores _ _ _ _ _ _ _ Hr Hg Hc) as (body & -> & Hb).
  assert (cache_key_of_request (upstream_request m false r) = cache_key_of_request s) as Ek.
  { destruct Hk as (? & ? & ? & ? & ?). apply same_key. unfold same_key_fields. simpl. repeat split; congruence. }
  rewrite Ek, <- Hw in Hb. destruct (openai_chat_hit p' m' s w2 _ Hs Hb) as (w3 & Hc3 & Hn); [exact Ht|].
  by exists w3.
Qed.
End Cached.

(** A backend that always gives the same answer and counts the requests, to exhibit the
    theorems at work. *)
Definition sample_completion : ChatCompletionResponse :=
  {| resp_id := "i"; resp_object := "o"; resp_created := 0; resp_model := "m"; resp_choices := []; resp_usage := None |}.
Definition sample_upstream : Upstream Z := {|
  exchange := fun _ n => (Ok {| rp_status := 200; rp_content_type := None;
                               rp_body := Ok (@to_string coded_json (completion_to_value sample_completion));
                               rp_chunks := [] |}, n + 1);
  clock := fun n => n; utc_now := fun n => n; new_id := fun n => ("id", n) |}.
Definition sample_formats : Formats := {| decode_error := fun _ => ""; invalid_mime := fun _ => None |}.
Definition sample_hasher : Hasher := {| default_hash := str_len |}.
Definition sample_catalog_model : Model :=
  {| model_id := 0; public_id := "m"; model_provider := "openai"; provider_profile_id := 0; provider_model_id := "m";
     capabilities := ["chat"]; pricing := Null; model_config := Null; model_created_at := 0 |}.
Definition fresh_world {N} (n : N) : ProviderWorld N :=
  {| net := n; prompt_cache := with_config 10000 3600; content_cache := with_config 10000 3600 |}.

Definition first_answer := @openai_chat coded_json sample_formats sample_hasher Z sample_upstream
  {| rp_base_url := "http://a"; rp_api_key := Some "k1" |} sample_catalog_model
  (basic_request "m" [text_message "user" "hi"]) (fresh_world 0).
Definition other_request : ChatCompletionRequest :=
  with_tools (basic_request "m" [text_message "user" "hi"]) (Some [web_search_tool]).

Lemma cached_answer_ignores_the_rest_witness :
  match first_answer with
  | (Ok (a, u), w1) =>
    exists w3, @openai_chat coded_json sample_formats sample_hasher Z sample_upstream
      {| rp_base_url := "http://b"; rp_api_key := Some "k2" |} sample_catalog_model other_request w1 = (Ok (a, u), w3) /\
      net w3 = net w1
  | _ => False
  end.
Proof.
  pose proof (eq_refl : is_ok first_answer.1 = true) as Hok.
  pose proof (eq_refl : net first_answer.2 = 1) as Hn.
  unfold first_answer in *. destruct (openai_chat _ _ _ _) as [[[a u]|e] w1] eqn:E; [|done].
  eapply (@cached_answer_ignores_the_rest coded_json sample_formats sample_hasher Z sample_upstream).
  5: exact E. all: try done. cbn [snd] in Hn. cbn. rewrite Hn. lia.
Defined.

(** ** What is lost on the way to a backend *)

(** A message without its tool calls and the id of the call it answers. *)
Definition without_calls (m : ChatMessage) : ChatMessage :=
  {| msg_role := msg_role m; msg_content := msg_content m; msg_name := None; msg_tool_calls := None;
     msg_tool_call_id := None; msg_cache_control := msg_cache_control m |}.

(** The tools of a request reach neither Anthropic nor Gemini, but for the web search that
    Gemini has; the calls and call ids of earlier turns are dropped too.  Every other message
    arrives, in order; the system messages are gathered into one text. *)
Theorem tools_are_lost r tools model_id :
  anthropic_request (with_tools r tools) model_id = anthropic_request r model_id /\
  (from_option has_native_web_search_tool false tools = false ->
   gemini_request (with_tools r tools) = gemini_request (with_tools r None)) /\
  (forall m, anthropic_message m = anthropic_message (without_calls m) /\ gemini_message m = gemini_message (without_calls m)) /\
  get "messages" (anthropic_request r model_id) = Some (VArray (anthropic_message <$> conversation (req_messages r))) /\
  get "system" (anthropic_request r model_id) = VString <$> join_system (system_texts (req_messages r)) /\
  get "contents" (gemini_request r) = Some (VArray (gemini_message <$> conversation (req_messages r))) /\
  get "systemInstruction" (gemini_request r) = VString <$> join_system (system_texts (req_messages r)).
Proof.
  split_and!.
  - done.
  - intros Ht. unfold gemini_request. cbn [with_tools req_tools req_messages]. by rewrite Ht.
  - done.
  - unfold anthropic_request.
    apply (get_struct_some "messages" (wr_list anthropic_message (conversation (req_messages r)))
             [Some ("model", VString model_id); Some ("max_tokens", num (default 4096 (req_max_tokens r)));
              skip_none "temperature" wr_f32 (req_temperature r);
              skip_none "system" VString (join_system (system_texts (req_messages r)))]). no_keys.
  - unfold anthropic_request.
    apply (get_struct_skip "system" VString (join_system (system_texts (req_messages r)))
             [Some ("model", VString model_id); Some ("max_tokens", num (default 4096 (req_max_tokens r)));
              skip_none "temperature" wr_f32 (req_temperature r)]); no_keys.
  - unfold gemini_request.
    apply (get_struct_some "contents" (wr_list gemini_message (conversation (req_messages r)))
             [skip_none "systemInstruction" VString (join_system (system_texts (req_messages r)))]). no_keys.
  - unfold gemini_request.
    apply (get_struct_skip "systemInstruction" VString (join_system (system_texts (req_messages r))) []); no_keys.
Qed.

Lemma tools_are_lost_witness :
  gemini_request (with_tools (basic_request "m" []) (Some [])) = gemini_request (with_tools (basic_request "m" []) None).
Proof. by apply (tools_are_lost (basic_request "m" []) (Some []) "m"). Defined.

Lemma strip_is_filter r :
  strip_native_web_search_from_request r = filterb (fun t => negb (is_native_web_search_tool t)) <$> req_tools r.
Proof.
  unfold strip_native_web_search_from_request. destruct (req_tools r) as [tools|]; [|done]. simpl. f_equal.
  unfold has_native_web_search_tool, strip_native_web_search_tools.
  destruct (existsb is_native_web_search_tool tools) eqn:E; [done|].
  induction tools as [|t l IH]; [done|]. simpl in E |- *. apply orb_false_iff in E as [Et El]. rewrite Et. simpl.
  f_equal. by apply IH.
Qed.

Lemma sorted_fold l : forall o, sorted_keys o = true ->
  sorted_keys (fold_left (fun o '(k, v) => obj_insert k v o) l o) = true.
Proof. induction l as [|[k v] l IH]; intros o Ho; [done|]. apply IH. by apply sorted_insert. Qed.

Lemma obj_get_elem k v o : obj_get k o = Some v -> (k, v) ∈ o.
Proof.
  induction o as [|[k' v'] o IH]; [done|]. simpl. destruct (String.eqb_spec k k') as [->|]; intros E.
  - simplify_eq. by left.
  - right. by apply IH.
Qed.

Lemma sorted_tail k v o : sorted_keys ((k, v) :: o) = true -> sorted_keys o = true.
Proof. simpl. intros E. by apply andb_prop in E as [_ E]. Qed.

Lemma obj_get_remove k o : sorted_keys o = true -> obj_get k (obj_remove k o) = None.
Proof.
  induction o as [|[k' v'] o IH]; intros Hs; [done|]. simpl. destruct (String.eqb_spec k k') as [->|Hk].
  - destruct (obj_get k' o) as [v|] eqn:E; [|done]. apply obj_get_elem in E.
    pose proof (sorted_head_lt _ _ _ _ _ Hs E) as Hlt. by rewrite compare_refl_str in Hlt.
  - simpl. rewrite (proj2 (String.eqb_neq k k')) by done. by eapply IH, sorted_tail.
Qed.

(** The name and the value an engine is given a schema under. *)
Definition engine_schema (a : AdapterKind) (schema : option value) : list (string * value) :=
  match a with
  | AVllm => schema_under "guided_json" schema
  | ASglang => schema_under "json_schema" schema
  | ALlamaCpp => match schema with Some s => [("grammar", VString (json_schema_to_gbnf s))] | None => [] end
  | AOllama => [("format", VString "json")]
  | _ => []
  end.
Definition engine_request (a : AdapterKind) : ChatCompletionRequest -> value :=
  match a with
  | AVllm => vllm_body
  | ASglang => sglang_body
  | ALlamaCpp => llama_cpp_body
  | AOllama => ollama_body
  | _ => fun _ => Null
  end.

Lemma guided_get guide keep r n schema b k v :
  req_response_format r = Some (FJsonSchema n schema b) -> guide schema = [(k, v)] -> k <> "stop" -> k <> "seed" ->
  get k (engine_body guide keep r) = Some v.
Proof.
  intros Hf Hg Hs Hd. unfold engine_body. set (r' := with_tools r _).
  change (request_to_value r') with (VObject (match request_to_value r' with VObject o => o | _ => [] end)).
  generalize (match request_to_value r' with VObject o => o | _ => [] end). intros o. cbv iota beta. unfold get.
  assert (req_response_format r' = Some (FJsonSchema n schema b)) as -> by done. rewrite Hg. cbn [fold_left].
  destruct (req_seed r') as [seed|]; [destruct keep|]; rewrite ?obj_get_insert_ne by done;
    (destruct (req_stop r') as [stop|]; rewrite ?obj_get_insert_ne by done); apply obj_get_insert.
Qed.

Lemma format_removed guide keep r n schema b :
  req_response_format r = Some (FJsonSchema n schema b) -> "response_format" ∉ (guide schema).*1 ->
  get "response_format" (engine_body guide keep r) = None.
Proof.
  intros Hf Hg. unfold engine_body. set (r' := with_tools r _).
  assert (sorted_keys (match request_to_value r' with VObject o => o | _ => [] end) = true) as Hs.
  { unfold request_to_value, obj. by apply sorted_fold. }
  change (request_to_value r') with (VObject (match request_to_value r' with VObject o => o | _ => [] end)).
  revert Hs. generalize (match request_to_value r' with VObject o => o | _ => [] end). intros o Hs. cbv iota beta. unfold get.
  assert (req_response_format r' = Some (FJsonSchema n schema b)) as -> by done.
  assert (forall l o, "response_format" ∉ l.*1 ->
    obj_get "response_format" (fold_left (fun o '(k, v) => obj_insert k v o) l o) = obj_get "response_format" o) as Hfold.
  { induction l as [|[x v] l IH]; intros o' Hk; [done|]. simpl. apply not_elem_of_cons in Hk as [Hx Hl].
    rewrite IH by done. by rewrite obj_get_insert_ne. }
  destruct (req_seed r') as [seed|]; [destruct keep|]; rewrite ?obj_get_insert_ne by done;
    (destruct (req_stop r') as [stop|]; rewrite ?obj_get_insert_ne by done); rewrite Hfold by done; by apply obj_get_remove.
Qed.

(** An engine is sent the request's tools without the web searches, in order; a request for a
    schema is sent without [response_format] and with what the engine guides its output by:
    the schema itself for vLLM and SGLang, a grammar for llama.cpp; Ollama is only told to
    write JSON, and a request without a schema value guides no engine but Ollama. *)
Theorem engine_requests a r :
  a ∈ [AVllm; ASglang; ALlamaCpp; AOllama] ->
  get "tools" (engine_request a r) =
    Some (opt_value (wr_list tool_to_value) (filterb (fun t => negb (is_native_web_search_tool t)) <$> req_tools r)) /\
  (forall n schema b, req_response_format r = Some (FJsonSchema n schema b) ->
     get "response_format" (engine_request a r) = None /\
     forall k v, engine_schema a schema = [(k, v)] -> get k (engine_request a r) = Some v).
Proof.
  intros Ha.
  assert (exists guide keep, engine_request a = engine_body guide keep /\ guide = engine_schema a) as (guide & keep & Eb & Eg).
  { set_unfold in Ha. destruct_or! Ha; subst a; by eexists _, _. }
  rewrite Eb, <- Eg.
  assert (forall schema k, k ∈ (guide schema).*1 -> k ∈ ["guided_json"; "json_schema"; "grammar"; "format"]) as Hk.
  { intros schema k. rewrite Eg. clear. destruct a, schema; simpl; set_solver. }
  assert (forall k schema, k ∉ ["guided_json"; "json_schema"; "grammar"; "format"] -> k ∉ (guide schema).*1) as Hn by naive_solver.
  split.
  - rewrite engine_body_get by (try done; intros; apply Hn; set_solver). rewrite <- strip_is_filter.
    by apply request_get.
  - intros n schema b Hf. split.
    + eapply format_removed; [done|]. apply Hn. set_solver.
    + intros k v Hkv. assert (k ∈ ["guided_json"; "json_schema"; "grammar"; "format"]) as Hin.
      { apply (Hk schema). rewrite Hkv. simpl. set_solver. }
      eapply guided_get; [done|done|set_solver|set_solver].
Qed.

Lemma engine_requests_witness :
  get "tools" (engine_request AVllm (with_tools (basic_request "m" []) (Some [web_search_tool]))) = Some (VArray []).
Proof.
  apply (engine_requests AVllm (with_tools (basic_request "m" []) (Some [web_search_tool]))). left.
Defined.

(** A stream from Anthropic ends for the client with the reason [stop], and on the Anthropic
    wire with [end_turn], also when the backend said that the answer was cut at the token
    limit: the adapter passes on the counts of the last event, not its reason. *)
Theorem anthropic_stream_hides_its_reason `{JsonText} parse_failure v usage :
  printable v = true -> get "type" v = Some (VString "message_delta") -> get "usage" v = Some usage ->
  exists p c,
    normalize_anthropic_sse_event parse_failure {| data := to_string v |} = [ok_event (anthropic_sse_finish usage)] /\
    parse_canonical_event (anthropic_sse_finish usage) = Finish p c None /\
    canonical_to_openai_finish None = "stop" /\ canonical_to_anthropic_stop None = "end_turn".
Proof.
  intros Hv Ht Hu. unfold normalize_anthropic_sse_event. cbn [data]. rewrite from_to by done. rewrite Ht.
  cbn [option_bind mbind as_str]. rewrite Hu.
  set (p := wrap_i 32 (default 0 (json_i64 (index "input_tokens" usage)))).
  set (c := wrap_i 32 (default 0 (json_i64 (index "output_tokens" usage)))).
  assert (forall z, printable (num (wrap_i 32 z)) = true) as Hp.
  { intros z. apply printable_num. pose proof (wrap_i_range 32 z ltac:(lia)). unfold in_i in *. simpl in *. lia. }
  unfold parse_canonical_event, anthropic_sse_finish. fold p c. rewrite from_to.
  - eexists _, _. split; [reflexivity|]. split; [reflexivity|]. split; reflexivity.
  - apply printable_obj. repeat constructor. apply printable_obj. repeat constructor; apply Hp.
Qed.

Lemma anthropic_stream_hides_its_reason_witness :
  exists p c, @parse_canonical_event coded_json (@anthropic_sse_finish coded_json (obj [("output_tokens", num 7)])) = Finish p c None.
Proof.
  destruct (@anthropic_stream_hides_its_reason coded_json (fun _ => "")
    (obj [("type", VString "message_delta"); ("usage", obj [("output_tokens", num 7)]);
          ("delta", obj [("stop_reason", VString "max_tokens")])]) (obj [("output_tokens", num 7)]))
    as (p & c & _ & Hf & _); [reflexivity..|].
  by exists p, c.
Defined.
