(* ===== verification/Guardrails.v ===== *)
(** * Guardrails

    The masking of personal data and the moderation around a chat call:
    godwit-core/src/pii_masking.rs and godwit-core/src/guardrails.rs.

    The regex crate is an interface: the byte ranges its [find_iter] yields. *)

From stdpp Require Import base gmap strings list pretty.
From Stdlib Require Import Ascii.
From S2P Require Import Prelude RustStr Json Core Resilience.

#[local] Open Scope string_scope.
#[local] Open Scope Z_scope.

(** ** Masking *)

(** [find_iter r s]: where the regular expression written [r] matches in [s]. *)
Class Regexes := { find_iter : string -> string -> list (Z * Z) }.

(** [godwit-core/src/pii_masking.rs:4-8] [PiiPattern] *)
Record PiiPattern : Type := { pii_name : string; pii_pattern : string; pii_replacement : string }.
(** Where a match began and ended in the text masked so far, the match and its placeholder.
    [godwit-core/src/pii_masking.rs:10-13] [PiiMasker] *)
Record Replacement : Type := { rl_start : Z; rl_end : Z; rl_original : string; rl_placeholder : string }.
Record PiiMasker : Type := { patterns : list PiiPattern; mask_map : gmap string (list Replacement) }.

(** [godwit-core/src/pii_masking.rs:15-21] [PiiMasker::new] *)
Definition new_masker (patterns : list PiiPattern) : PiiMasker := {| patterns := patterns; mask_map := ∅ |}.

(** [godwit-core/src/pii_masking.rs:67-90] [default_patterns] *)
Definition default_patterns : list PiiPattern :=
  [ {| pii_name := "phone"; pii_pattern := "\b\d{3}-\d{2}-\d{4}\b"; pii_replacement := "[SSN]" |};
    {| pii_name := "credit_card"; pii_pattern := "\b\d{4}[-\s]?\d{4}[-\s]?\d{4}[-\s]?\d{4}\b"; pii_replacement := "[CARD]" |};
    {| pii_name := "email"; pii_pattern := "[a-zA-Z0-9._%+-]+@[a-zA-Z0-9.-]+\.[a-zA-Z]{2,}"; pii_replacement := "[EMAIL]" |};
    {| pii_name := "phone"; pii_pattern := "\b\d{3}[-.\s]?\d{3}[-.\s]?\d{4}\b"; pii_replacement := "[PHONE]" |} ].

(** [s.replace_range(a..b, r)]: [None] is the panic of a range out of bounds or off a
    character boundary. *)
Definition replace_range (a b : Z) (r s : string) : option string :=
  let '(a, b) := (Z.to_nat a, Z.to_nat b) in
  if (a <=? b)%nat && (b <=? String.length s)%nat && is_char_boundary s a && is_char_boundary s b
  then Some (String.substring 0 a s +:+ r +:+ String.substring b (String.length s - b) s) else None.

(** One pattern's matches; the offset is a [usize] and wraps, as in a build without
    overflow checks.
    [godwit-core/src/pii_masking.rs:30-40] [PiiMasker::mask] *)
Fixpoint mask_matches (placeholder : string) (matches : list (Z * Z)) (offset : Z) (masked : string) (acc : list Replacement)
  : option (string * list Replacement) :=
  match matches with
  | [] => Some (masked, acc)
  | (match_start, match_end) :: matches =>
    let start := as_usize (match_start - offset) in
    let end_ := as_usize (match_end - offset) in
    original ← str_slice masked (Z.to_nat start) (Z.to_nat end_);
    masked ← replace_range start end_ placeholder masked;
    mask_matches placeholder matches (as_usize (offset + (end_ - start - str_len placeholder))) masked
      (acc ++ [ {| rl_start := start; rl_end := end_; rl_original := original; rl_placeholder := placeholder |} ])
  end.

(** [godwit-core/src/pii_masking.rs:27-41] [PiiMasker::mask] *)
Fixpoint mask_patterns `{Regexes} (ps : list PiiPattern) (masked : string) (acc : list Replacement)
  : option (string * list Replacement) :=
  match ps with
  | [] => Some (masked, acc)
  | p :: ps =>
    ma ← mask_matches (pii_replacement p) (find_iter (pii_pattern p) masked) 0 masked acc;
    mask_patterns ps ma.1 ma.2
  end.

(** The replacements noted for an earlier text of the same request are overwritten.
    [godwit-core/src/pii_masking.rs:23-45] [PiiMasker::mask] *)
Definition mask `{Regexes} (self : PiiMasker) (text request_id : string) : option (string * PiiMasker) :=
  ma ← mask_patterns (patterns self) text [];
  Some (ma.1, {| patterns := patterns self; mask_map := <[request_id := ma.2]> (mask_map self) |}).

(** [godwit-core/src/pii_masking.rs:49-58] [PiiMasker::unmask] *)
Fixpoint unmask_all (rs : list Replacement) (offset : Z) (text : string) : option string :=
  match rs with
  | [] => Some text
  | r :: rs =>
    let start := as_usize (rl_start r + offset) in
    text ← replace_range start (as_usize (start + str_len (rl_placeholder r))) (rl_original r) text;
    unmask_all rs (offset + (str_len (rl_original r) - str_len (rl_placeholder r))) text
  end.

(** [godwit-core/src/pii_masking.rs:47-64] [PiiMasker::unmask] *)
Definition unmask (self : PiiMasker) (masked_text request_id : string) : option (string * PiiMasker) :=
  match mask_map self !! request_id with
  | Some rs =>
    text ← unmask_all rs 0 masked_text;
    Some (text, {| patterns := patterns self; mask_map := delete request_id (mask_map self) |})
  | None => Some (masked_text, self)
  end.

(** *** Facts about byte ranges *)

Lemma substring_zero s : String.substring 0 0 s = "".
Proof. by destruct s. Qed.
Lemma substring_all s : String.substring 0 (String.length s) s = s.
Proof. induction s as [|c s IH]; simpl; [done|]. by rewrite IH. Qed.
Lemma substring_app_l a b : String.substring 0 (String.length a) (a +:+ b) = a.
Proof. induction a as [|c a IH]; simpl; [apply substring_zero|]. by rewrite IH. Qed.
Lemma substring_app_r a b n : String.substring (String.length a) n (a +:+ b) = String.substring 0 n b.
Proof. induction a as [|c a IH]; simpl; [done|]. exact IH. Qed.
(** Slicing and replacing the middle of an ASCII text. *)
Lemma slice_middle a b c : is_ascii (a +:+ b +:+ c) = true ->
  str_slice (a +:+ b +:+ c) (String.length a) (String.length a + String.length b) = Some b.
Proof.
  intros Hs. unfold str_slice. rewrite !ascii_boundary by (rewrite ?length_app_str; auto; lia).
  rewrite !length_app_str. rewrite (proj2 (Nat.leb_le _ _)), (proj2 (Nat.leb_le _ _)) by lia. simpl.
  f_equal. rewrite substring_app_r. replace (String.length a + String.length b - String.length a)%nat with (String.length b) by lia.
  apply substring_app_l.
Qed.

Lemma replace_middle a b c r : is_ascii (a +:+ b +:+ c) = true ->
  replace_range (str_len a) (str_len a + str_len b) r (a +:+ b +:+ c) = Some (a +:+ r +:+ c).
Proof.
  intros Hs. unfold replace_range, str_len. rewrite <- Nat2Z.inj_add, !Nat2Z.id.
  rewrite !ascii_boundary by (rewrite ?length_app_str; auto; lia).
  rewrite !length_app_str. rewrite (proj2 (Nat.leb_le _ _)), (proj2 (Nat.leb_le _ _)) by lia. simpl. f_equal.
  rewrite substring_app_l. f_equal. f_equal.
  rewrite <- (app_assoc_str a b c), <- length_app_str, substring_app_r. rewrite length_app_str.
  replace (String.length a + (String.length b + String.length c) - (String.length a + String.length b))%nat
    with (String.length c) by lia. apply substring_all.
Qed.

(** ** Masking and unmasking *)

(** A text cut into what lies before each match, the match, and what follows the last; with
    each match rendered by [f]. *)
Fixpoint rendered (f : string -> string) (segs : list (string * string)) (tail : string) : string :=
  match segs with
  | [] => tail
  | (g, m) :: segs => g +:+ f m +:+ rendered f segs tail
  end.
Abbreviation whole := (rendered (fun m => m)).
(** Where the matches lie when the text starts at byte [at_]. *)
Fixpoint match_ranges (at_ : Z) (segs : list (string * string)) : list (Z * Z) :=
  match segs with
  | [] => []
  | (g, m) :: segs =>
    (at_ + str_len g, at_ + str_len g + str_len m) :: match_ranges (at_ + str_len g + str_len m) segs
  end.
(** What is noted of them; [at_] is now where the masked text starts. *)
Fixpoint notes (ph : string) (at_ : Z) (segs : list (string * string)) : list Replacement :=
  match segs with
  | [] => []
  | (g, m) :: segs =>
    {| rl_start := at_ + str_len g; rl_end := at_ + str_len g + str_len m; rl_original := m; rl_placeholder := ph |}
    :: notes ph (at_ + str_len g + str_len ph) segs
  end.

Lemma as_usize_small z : 0 <= z < 2 ^ 63 -> as_usize z = z.
Proof. intros. apply wrap_u_small. unfold in_u. lia. Qed.
Lemma as_usize_minus a b : as_usize (a - as_usize b) = as_usize (a - b).
Proof. unfold wrap_u. by rewrite Zminus_mod_idemp_r. Qed.
Lemma as_usize_plus a b : as_usize (as_usize a + b) = as_usize (a + b).
Proof. unfold wrap_u. by rewrite Zplus_mod_idemp_l. Qed.

(** All the positions at hand lie within a text of less than 2^63 bytes. *)
Definition fits (s : string) : Prop := str_len s < 2 ^ 63.

Lemma mask_matches_spec ph segs tail : forall at_ pre acc,
  is_ascii pre && is_ascii ph && is_ascii (whole segs tail) = true ->
  str_len pre + str_len ph * Z.of_nat (length segs) + str_len (whole segs tail) < 2 ^ 63 ->
  mask_matches ph (match_ranges at_ segs) (as_usize (at_ - str_len pre)) (pre +:+ whole segs tail) acc =
  Some (pre +:+ rendered (fun _ => ph) segs tail, (acc ++ notes ph (str_len pre) segs)%list).
Proof.
  induction segs as [|[g m] segs IH]; intros at_ pre acc Ha Hf; cbn [match_ranges mask_matches notes rendered].
  - by rewrite app_nil_r.
  - cbn [rendered] in Ha, Hf.
    rewrite !is_ascii_app in Ha. rewrite !str_len_app in Hf. apply andb_prop in Ha as [Ha Hr].
    apply andb_prop in Ha as [Hp Hph]. apply andb_prop in Hr as [Hg Hr]. apply andb_prop in Hr as [Hm Hr].
    cbn [length] in Hf. rewrite Nat2Z.inj_succ in Hf.
    pose proof (str_len_nonneg pre). pose proof (str_len_nonneg g). pose proof (str_len_nonneg m).
    pose proof (str_len_nonneg ph). pose proof (str_len_nonneg (whole segs tail)).
    assert (as_usize (at_ + str_len g - as_usize (at_ - str_len pre)) = str_len (pre +:+ g)) as ->.
    { rewrite as_usize_minus, str_len_app. rewrite <- (as_usize_small (str_len pre + str_len g)) by nia. f_equal. lia. }
    assert (as_usize (at_ + str_len g + str_len m - as_usize (at_ - str_len pre)) = str_len (pre +:+ g) + str_len m) as ->.
    { rewrite as_usize_minus, str_len_app. rewrite <- (as_usize_small (str_len pre + str_len g + str_len m)) by nia. f_equal. lia. }
    rewrite <- (app_assoc_str pre g).
    assert (is_ascii ((pre +:+ g) +:+ m +:+ whole segs tail) = true) as Hall
      by (rewrite !is_ascii_app, Hp, Hg, Hm, Hr; done).
    assert (str_slice ((pre +:+ g) +:+ m +:+ whole segs tail) (Z.to_nat (str_len (pre +:+ g)))
              (Z.to_nat (str_len (pre +:+ g) + str_len m)) = Some m) as ->.
    { unfold str_len. rewrite <- Nat2Z.inj_add, !Nat2Z.id. by apply slice_middle. }
    cbn [mbind option_bind]. rewrite replace_middle by done. cbn [mbind option_bind].
    rewrite <- (app_assoc_str (pre +:+ g) ph), as_usize_plus.
    replace (at_ - str_len pre + (str_len (pre +:+ g) + str_len m - str_len (pre +:+ g) - str_len ph))
      with (at_ + str_len g + str_len m - str_len ((pre +:+ g) +:+ ph)) by (rewrite !str_len_app; lia).
    rewrite IH.
    + rewrite !app_assoc_str, !str_len_app, <- app_assoc, Z.add_assoc. done.
    + rewrite !is_ascii_app, Hp, Hg, Hph, Hr. done.
    + rewrite !str_len_app. nia.
Qed.

Lemma unmask_all_spec ph segs tail : forall at_ pre,
  is_ascii pre && is_ascii ph && is_ascii (whole segs tail) = true -> 0 <= at_ ->
  at_ + str_len ph * Z.of_nat (length segs) + str_len pre + 2 * str_len (whole segs tail) < 2 ^ 63 ->
  unmask_all (notes ph at_ segs) (str_len pre - at_) (pre +:+ rendered (fun _ => ph) segs tail) =
  Some (pre +:+ whole segs tail).
Proof.
  induction segs as [|[g m] segs IH]; intros at_ pre Ha H0 Hf; cbn [notes unmask_all rendered]; [done|].
  cbn [rendered length] in Ha, Hf. rewrite Nat2Z.inj_succ in Hf.
  rewrite !is_ascii_app in Ha. rewrite !str_len_app in Hf. apply andb_prop in Ha as [Ha Hr].
  apply andb_prop in Ha as [Hp Hph]. apply andb_prop in Hr as [Hg Hr]. apply andb_prop in Hr as [Hm Hr].
  pose proof (str_len_nonneg pre). pose proof (str_len_nonneg g). pose proof (str_len_nonneg m).
  pose proof (str_len_nonneg ph). pose proof (str_len_nonneg (whole segs tail)). cbn [rl_start rl_placeholder rl_original].
  assert (as_usize (at_ + str_len g + (str_len pre - at_)) = str_len (pre +:+ g)) as ->.
  { rewrite str_len_app. rewrite <- (as_usize_small (str_len pre + str_len g)) by nia. f_equal. lia. }
  assert (as_usize (str_len (pre +:+ g) + str_len ph) = str_len (pre +:+ g) + str_len ph) as ->.
  { apply as_usize_small. rewrite str_len_app. nia. }
  assert (is_ascii (rendered (fun _ => ph) segs tail) = true) as Hr'.
  { clear -Hph Hr. induction segs as [|[g m] segs IHs]; [done|]. cbn [rendered] in *.
    rewrite !is_ascii_app in *. apply andb_prop in Hr as [Hg Hr]. apply andb_prop in Hr as [Hm Hr].
    by rewrite Hg, Hph, IHs. }
  rewrite <- (app_assoc_str pre g), replace_middle by (rewrite !is_ascii_app, Hp, Hg, Hph, Hr'; done).
  cbn [mbind option_bind]. rewrite <- (app_assoc_str (pre +:+ g) m).
  replace (str_len pre - at_ + (str_len m - str_len ph)) with (str_len ((pre +:+ g) +:+ m) - (at_ + str_len g + str_len ph))
    by (rewrite !str_len_app; lia).
  rewrite IH.
  - by rewrite !app_assoc_str.
  - by rewrite !is_ascii_app, Hp, Hg, Hm, Hph, Hr.
  - lia.
  - rewrite !str_len_app. nia.
Qed.

(** For one pattern, masking puts the placeholder in place of every match and nothing else,
    and unmasking the masked text gives the text back.  The offset that wraps when a match is
    shorter than its placeholder comes out right. *)
Theorem mask_unmask_roundtrip `{Regexes} p segs tail id_ m0 :
  let text := whole segs tail in
  find_iter (pii_pattern p) text = match_ranges 0 segs ->
  is_ascii text && is_ascii (pii_replacement p) = true ->
  str_len (pii_replacement p) * Z.of_nat (length segs) + 2 * str_len text < 2 ^ 63 ->
  exists masker,
    mask {| patterns := [p]; mask_map := m0 |} text id_ = Some (rendered (fun _ => pii_replacement p) segs tail, masker) /\
    fst <$> unmask masker (rendered (fun _ => pii_replacement p) segs tail) id_ = Some text.
Proof.
  intros text Hfind Ha Hf. apply andb_prop in Ha as [Ht Hp]. unfold mask. cbn [patterns mask_patterns].
  pose proof (str_len_nonneg text).
  assert (mask_matches (pii_replacement p) (match_ranges 0 segs) 0 text [] =
          Some (rendered (fun _ => pii_replacement p) segs tail, notes (pii_replacement p) 0 segs)) as Hm.
  { apply (mask_matches_spec (pii_replacement p) segs tail 0 "" []); [fold text; by rewrite Hp, Ht|]. fold text. change (str_len "") with 0. lia. }
  assert (unmask_all (notes (pii_replacement p) 0 segs) 0 (rendered (fun _ => pii_replacement p) segs tail) = Some text) as Hu.
  { apply (unmask_all_spec (pii_replacement p) segs tail 0 ""); [fold text; by rewrite Hp, Ht|lia|]. fold text. change (str_len "") with 0. lia. }
  rewrite Hfind, Hm. cbn. eexists. split; [reflexivity|]. unfold unmask. cbn [mask_map].
  by rewrite lookup_insert_eq, Hu.
Qed.

Lemma mask_unmask_roundtrip_witness :
  exists masker,
    @mask {| find_iter := fun _ s => if String.eqb s "mail a@b.cc now" then [(5, 11)] else [] |}
      {| patterns := [ {| pii_name := "email"; pii_pattern := "e"; pii_replacement := "[EMAIL]" |} ]; mask_map := ∅ |}
      "mail a@b.cc now" "r" = Some ("mail [EMAIL] now", masker) /\
    fst <$> unmask masker "mail [EMAIL] now" "r" = Some "mail a@b.cc now".
Proof.
  apply (@mask_unmask_roundtrip {| find_iter := fun _ s => if String.eqb s "mail a@b.cc now" then [(5, 11)] else [] |}
    {| pii_name := "email"; pii_pattern := "e"; pii_replacement := "[EMAIL]" |} [("mail ", "a@b.cc")] " now" "r" ∅);
    reflexivity.
Defined.

(** Unmasking does not look at the text it is given.  Whatever ASCII answer comes back, the
    bytes at the place where the prompt had its placeholder are overwritten with the prompt's
    personal data; an answer too short to have such a place is a panic. *)
Theorem unmask_overwrites_by_position masker id_ r text :
  mask_map masker !! id_ = Some [r] -> is_ascii text = true ->
  0 <= rl_start r -> rl_start r + str_len (rl_placeholder r) < 2 ^ 63 ->
  (rl_start r + str_len (rl_placeholder r) <= str_len text ->
   exists a b c, text = a +:+ b +:+ c /\ str_len a = rl_start r /\ str_len b = str_len (rl_placeholder r) /\
     fst <$> unmask masker text id_ = Some (a +:+ rl_original r +:+ c)) /\
  (str_len text < rl_start r + str_len (rl_placeholder r) -> unmask masker text id_ = None).
Proof.
  intros Hm Ha H0 Hf. unfold unmask. rewrite Hm. cbn [unmask_all]. pose proof (str_len_nonneg (rl_placeholder r)).
  rewrite Z.add_0_r, (as_usize_small (rl_start r)), as_usize_small by lia. split.
  - intros Hl.
    assert (forall n s, (n <= String.length s)%nat -> exists a b, s = a +:+ b /\ String.length a = n) as Hcut.
    { induction n as [|n IH]; intros s Hs; [by exists "", s|]. destruct s as [|x s]; simpl in Hs; [lia|].
      destruct (IH s) as (a & b & -> & Ea); [lia|]. exists (String x a), b. simpl. by rewrite Ea. }
    destruct (Hcut (Z.to_nat (rl_start r)) text) as (a & t & -> & Ea); [unfold str_len in *; lia|].
    rewrite str_len_app in Hl. destruct (Hcut (String.length (rl_placeholder r)) t) as (b & c & -> & Eb).
    { unfold str_len in *. lia. }
    exists a, b, c. split; [done|]. assert (str_len a = rl_start r) as Ea' by (unfold str_len; lia).
    assert (str_len b = str_len (rl_placeholder r)) as Eb' by (unfold str_len; lia).
    split; [done|]. split; [done|]. rewrite <- Ea', <- Eb', replace_middle by done. done.
  - intros Hl. unfold replace_range. destruct (_ && _) eqn:E; [|done].
    apply andb_prop in E as [E _]. apply andb_prop in E as [E _]. apply andb_prop in E as [_ E].
    apply Nat.leb_le in E. unfold str_len in *. lia.
Qed.

Lemma unmask_overwrites_by_position_witness :
  unmask {| patterns := []; mask_map := {["r" := [ {| rl_start := 5; rl_end := 11; rl_original := "a@b.cc"; rl_placeholder := "[EMAIL]" |} ]]} |}
    "ok" "r" = None.
Proof.
  apply (unmask_overwrites_by_position _ "r" {| rl_start := 5; rl_end := 11; rl_original := "a@b.cc"; rl_placeholder := "[EMAIL]" |} "ok");
    reflexivity || (simpl; lia) || done.
Defined.

(** ** The pipeline *)

(** [godwit-core/src/guardrails.rs:5-22] [GuardrailsConfig] *)
Record GuardrailsConfig : Type := {
  pii_enabled : bool; moderation_pre : bool; moderation_post : bool; block_on_moderation_failure : bool }.
Definition default_guardrails : GuardrailsConfig :=
  {| pii_enabled := false; moderation_pre := false; moderation_post := false; block_on_moderation_failure := true |}.
(** [godwit-core/src/guardrails.rs:24-27] [GuardrailsOrchestrator] *)
Record Guardrails : Type := { pii_masker : option PiiMasker; g_config : GuardrailsConfig }.
(** [godwit-core/src/guardrails.rs:55-67] [GuardrailsOrchestrator::new] *)
Definition new_guardrails (config : GuardrailsConfig) : Guardrails :=
  {| pii_masker := if pii_enabled config then Some (new_masker default_patterns) else None; g_config := config |}.

(** [godwit-core/src/guardrails.rs:49-53] [ModerationResult] *)
Record ModerationResult : Type := { flagged : bool; categories : value }.
(** The outcome of either stage: [None] is [Allowed].
    [godwit-core/src/guardrails.rs:37-47] [PreCallResult, PostCallResult] *)
Abbreviation Verdict := (option ModerationResult).

Class StatusNames := { canonical_reason : Z -> string }.

Section Pipeline.
Context `{JsonText} `{Regexes} `{StatusNames} {W : Type} `{!HttpClient W}.

(** [godwit-core/src/guardrails.rs:158-167] [check_moderation] *)
Definition moderation_request (text : string) : HttpRequest :=
  {| hr_method := "POST"; hr_url := "https://api.openai.com/v1/moderations";
     hr_headers := [("content-type", "application/json")];
     hr_json := Some (obj [("model", VString "text-moderation-latest"); ("input", VString text)]); hr_form := [] |}.
(** [godwit-core/src/guardrails.rs:181-201] [check_moderation] *)
Definition moderation_verdict (v : value) : ModerationResult :=
  let first := arr ← get "results" v ≫= as_array; head arr in
  {| flagged := default false (f ← first; get "flagged" f ≫= as_bool);
     categories := default (VObject []) (f ← first; get "categories" f) |}.
(** [godwit-core/src/guardrails.rs:150-202] [check_moderation] *)
Definition check_moderation (text : string) : ST W GuardrailsError ModerationResult := fun w =>
  if is_empty (trim text) then (Ok {| flagged := false; categories := VObject [] |}, w)
  else
    let '(out, w) := send (moderation_request text) w in
    (match out with
     | SendFailed e => Err (Moderation ("request failed: " +:+ e))
     | Replied status body =>
       if negb (is_success status)
       then Err (Moderation ("HTTP " +:+ pretty status +:+ " " +:+ canonical_reason status +:+ ": " +:+ body_text body))
       else match body_json body with
            | Err e => Err (Moderation ("parse failed: " +:+ e))
            | Ok v => Ok (moderation_verdict v)
            end
     end, w).
(** [.map_err(|e| GuardrailsError::Moderation(e.to_string()))].
    [godwit-core/src/guardrails.rs:97-103] [GuardrailsOrchestrator::pre_call] *)
Definition moderate (config : GuardrailsConfig) (text : string) : ST W GuardrailsError Verdict :=
  r ← st_map_err (fun e => match e with
                           | Moderation m => Moderation ("moderation failed: " +:+ m)
                           | GuardInternal m => Moderation ("internal error: " +:+ m)
                           end) (check_moderation text);
  mret (if flagged r && block_on_moderation_failure config then Some r else None).

(** Rewrite the texts of some contents; [None] is a panic.  A content of several parts
    becomes one text.
    [godwit-core/src/guardrails.rs:77-84] [GuardrailsOrchestrator::pre_call] *)
Fixpoint rewrite_contents (f : PiiMasker -> string -> option (string * PiiMasker)) (cs : list ChatContent) (m : PiiMasker)
  : option (list ChatContent * PiiMasker) :=
  match cs with
  | [] => Some ([], m)
  | c :: cs =>
    match content_text c with
    | Some text =>
      tm ← f m text;
      rest ← rewrite_contents f cs tm.2;
      Some (CText tm.1 :: rest.1, rest.2)
    | None => rest ← rewrite_contents f cs m; Some (c :: rest.1, rest.2)
    end
  end.
Definition with_content (m : ChatMessage) (c : option (list ChatContent)) : ChatMessage :=
  {| msg_role := msg_role m; msg_content := c; msg_name := msg_name m; msg_tool_calls := msg_tool_calls m;
     msg_tool_call_id := msg_tool_call_id m; msg_cache_control := msg_cache_control m |}.
(** [godwit-core/src/guardrails.rs:76-86] [GuardrailsOrchestrator::pre_call] *)
Fixpoint rewrite_messages (f : PiiMasker -> string -> option (string * PiiMasker)) (ms : list ChatMessage) (m : PiiMasker)
  : option (list ChatMessage * PiiMasker) :=
  match ms with
  | [] => Some ([], m)
  | x :: ms =>
    cm ← (match msg_content x with
          | Some cs => c ← rewrite_contents f cs m; Some (Some c.1, c.2)
          | None => Some (None, m)
          end : option (option (list ChatContent) * PiiMasker));
    rest ← rewrite_messages f ms cm.2;
    Some (with_content x cm.1 :: rest.1, rest.2)
  end.

Definition texts_of (ms : list ChatMessage) : string := str_join " " (filter_map content_as_text ms).

(** The messages of the request after masking, and the verdict.
    [godwit-core/src/guardrails.rs:69-107] [GuardrailsOrchestrator::pre_call] *)
Definition pre_call (messages : list ChatMessage) (request_id : string)
  : ST (Guardrails * W) (failure GuardrailsError) (Verdict * list ChatMessage) := fun '(g, w) =>
  match (if pii_enabled (g_config g) then
           match pii_masker g with
           | Some masker =>
             rm ← rewrite_messages (fun m t => mask m t request_id) messages masker;
             Some (rm.1, {| pii_masker := Some rm.2; g_config := g_config g |})
           | None => Some (messages, g)
           end
         else Some (messages, g)) with
  | None => (Err Panic, (g, w))
  | Some (messages, g) =>
    if moderation_pre (g_config g) then
      let '(v, w) := moderate (g_config g) (texts_of messages) w in
      (map_err Failed ((fun v => (v, messages)) <$> v), (g, w))
    else (Ok (None, messages), (g, w))
  end.

Definition with_message (c : ChatCompletionChoice) (m : ChatMessage) : ChatCompletionChoice :=
  {| ch_index := ch_index c; ch_message := m; ch_finish_reason := ch_finish_reason c; ch_logprobs := ch_logprobs c;
     ch_tool_calls := ch_tool_calls c |}.
Definition with_choices (r : ChatCompletionResponse) (cs : list ChatCompletionChoice) : ChatCompletionResponse :=
  {| resp_id := resp_id r; resp_object := resp_object r; resp_created := resp_created r; resp_model := resp_model r;
     resp_choices := cs; resp_usage := resp_usage r |}.

(** The answer is unmasked only when it was not blocked.
    [godwit-core/src/guardrails.rs:109-147] [GuardrailsOrchestrator::post_call] *)
Definition post_call (response : ChatCompletionResponse) (request_id : string)
  : ST (Guardrails * W) (failure GuardrailsError) (Verdict * ChatCompletionResponse) := fun '(g, w) =>
  let '(v, w) := if moderation_post (g_config g)
                 then moderate (g_config g) (texts_of (ch_message <$> resp_choices response)) w
                 else (Ok None, w) in
  match v with
  | Err e => (Err (Failed e), (g, w))
  | Ok (Some blocked) => (Ok (Some blocked, response), (g, w))
  | Ok None =>
    if pii_enabled (g_config g) then
      match pii_masker g with
      | Some masker =>
        match rewrite_messages (fun m t => unmask m t request_id) (ch_message <$> resp_choices response) masker with
        | None => (Err Panic, (g, w))
        | Some (ms, masker) =>
          (Ok (None, with_choices response (zip_with with_message (resp_choices response) ms)),
           ({| pii_masker := Some masker; g_config := g_config g |}, w))
        end
      | None => (Ok (None, response), (g, w))
      end
    else (Ok (None, response), (g, w))
  end.
End Pipeline.

(** ** What masking does to the contents *)

Definition plain_or_textless (c : ChatContent) : Prop := content_text c = None \/ exists t, c = CText t.

Lemma rewrite_contents_plain f cs : forall m r, rewrite_contents f cs m = Some r -> Forall plain_or_textless r.1.
Proof.
  induction cs as [|c cs IH]; intros m r Hr; simpl in Hr; [by simplify_eq|].
  destruct (content_text c) as [t|] eqn:E.
  - apply bind_Some in Hr as (tm & _ & Hr). apply bind_Some in Hr as (rest & Hrest & Hr). simplify_eq/=.
    constructor; [right; by eexists|by eapply IH].
  - apply bind_Some in Hr as (rest & Hrest & Hr). simplify_eq/=. constructor; [by left|by eapply IH].
Qed.

Lemma rewrite_messages_plain f ms : forall m r, rewrite_messages f ms m = Some r ->
  Forall (fun x => from_option (Forall plain_or_textless) True (msg_content x)) r.1.
Proof.
  induction ms as [|x ms IH]; intros m r Hr; simpl in Hr; [by simplify_eq|].
  apply bind_Some in Hr as (cm & Hc & Hr). apply bind_Some in Hr as (rest & Hrest & Hr). simplify_eq/=.
  constructor; [|by eapply IH]. simpl. destruct (msg_content x) as [cs|]; [|by simplify_eq].
  apply bind_Some in Hc as (c & Hc & E). simplify_eq/=. by eapply rewrite_contents_plain.
Qed.

(** When personal data is masked, a content that has both text and images is replaced by
    its masked text: the images are gone from the request that goes on. *)
Theorem masking_drops_images `{JsonText} `{Regexes} `{StatusNames} `{!HttpClient W} messages id_ g (w : W) v messages' s :
  pii_enabled (g_config g) = true -> is_Some (pii_masker g) ->
  pre_call messages id_ (g, w) = (Ok (v, messages'), s) ->
  forall m cs c, m ∈ messages' -> msg_content m = Some cs -> c ∈ cs -> has_images c = true -> content_text c = None.
Proof.
  intros Hp [masker Hm] Hc. unfold pre_call in Hc. rewrite Hp, Hm in Hc.
  destruct (rewrite_messages _ messages masker) as [[ms masker']|] eqn:E; [|done]. cbn in Hc.
  assert (messages' = ms) as ->.
  { destruct (moderation_pre (g_config g)); [|by simplify_eq]. destruct (moderate _ _ _) as [[?|?] ?]; by simplify_eq/=. }
  apply rewrite_messages_plain in E. rewrite Forall_forall in E. intros m cs c Hin Hcs Hc' Hi.
  specialize (E m Hin). rewrite Hcs in E. simpl in E. rewrite Forall_forall in E. destruct (E c Hc') as [?|[t ->]]; done.
Qed.

Definition sample_masking : Guardrails :=
  new_guardrails {| pii_enabled := true; moderation_pre := false; moderation_post := false; block_on_moderation_failure := true |}.
Definition picture_message : ChatMessage :=
  with_content (text_message "user" "")
    (Some [CParts [PartText "what is this?"; PartImageUrl {| url := "data:,x"; detail := None |}]]).

Lemma masking_drops_images_witness :
  match @pre_call coded_json {| find_iter := fun _ _ => [] |} {| canonical_reason := fun _ => "" |} unit
          {| send := fun _ w => (SendFailed "", w); send_within := fun _ _ w => (None, w); json_error := fun _ => "" |}
          [picture_message] "r" (sample_masking, tt) with
  | (Ok (_, [m]), _) => from_option (existsb has_images) true (msg_content m) = false /\
      forall cs c, msg_content m = Some cs -> c ∈ cs -> has_images c = true -> content_text c = None
  | _ => False
  end.
Proof.
  destruct (pre_call _ _ _) as [[[v [|m [|? ?]]]|e] s] eqn:E; try (vm_compute in E; discriminate E).
  split; [vm_compute in E; by inversion E|]. intros cs c.
  eapply (masking_drops_images _ _ _ tt _ _ _ _ _ E). left.
  Unshelve. all: by try eexists.
Defined.
