(* ===== verification/Mcp.v ===== *)
(** * The Model Context Protocol

    godwit-mcp: JSON-RPC messages and their framing by lines, the client over a transport, the
    registry of servers with its tool names, and the server that offers the gateway as a tool.

    A transport is seen from one side: the lines its peer will ever write before it closes,
    and what was written to it.  Printing a struct is printing its [value]: the order of the
    members of a printed object is not modelled. *)

From stdpp Require Import base gmap strings list pretty.
From Stdlib Require Import Ascii.
From S2P Require Import Prelude RustStr Json Core Resilience Backend Serde.

#[local] Open Scope string_scope.
#[local] Open Scope Z_scope.

(** ** Messages *)

(** [godwit-mcp/src/jsonrpc.rs:28-35] [RpcRequest] *)
Record RpcRequest : Type := { rq_id : Z; rq_method : string; rq_params : option value }.
(** [godwit-mcp/src/jsonrpc.rs:53-60] [RpcError] *)
Record RpcError : Type := { rpc_code : Z; rpc_message : string; rpc_data : option value }.
(** [godwit-mcp/src/jsonrpc.rs:37-51] [RpcResponse] *)
Inductive RpcResponse : Type :=
| RpcResult (id : Z) (result : value)
| RpcFailed (id : Z) (error : RpcError).
(** [godwit-mcp/src/jsonrpc.rs:45-51] [RpcResponse::id] *)
Definition response_id (r : RpcResponse) : Z := match r with RpcResult id _ | RpcFailed id _ => id end.
(** [godwit-mcp/src/jsonrpc.rs:62-80] [RpcNotification, RpcMessage] *)
Record RpcNotification : Type := { nt_method : string; nt_params : option value }.
Inductive RpcMessage : Type :=
| MRequest (r : RpcRequest)
| MResponse (r : RpcResponse)
| MNotification (n : RpcNotification).

(** [godwit-mcp/src/jsonrpc.rs:28-35] [RpcRequest::deserialize] *)
Definition rpc_request_of_value (v : value) : option RpcRequest :=
  fs ← struct_fields ["id"; "method"; "params"] v;
  i ← field fs "id" (rd_i 64);
  m ← field fs "method" rd_string;
  p ← opt_field fs "params" rd_value;
  Some {| rq_id := i; rq_method := m; rq_params := p |}.
(** [godwit-mcp/src/jsonrpc.rs:53-60] [RpcError::deserialize] *)
Definition rpc_error_of_value (v : value) : option RpcError :=
  fs ← struct_fields ["code"; "message"; "data"] v;
  c ← field fs "code" (rd_i 64);
  m ← field fs "message" rd_string;
  d ← opt_field fs "data" rd_value;
  Some {| rpc_code := c; rpc_message := m; rpc_data := d |}.
(** The variants are tried in order.
    [godwit-mcp/src/jsonrpc.rs:37-43] [RpcResponse::deserialize] *)
Definition rpc_response_of_value (v : value) : option RpcResponse :=
  opt_or (fs ← struct_fields ["id"; "result"] v;
          i ← field fs "id" (rd_i 64); r ← field fs "result" rd_value; Some (RpcResult i r))
         (fs ← struct_fields ["id"; "error"] v;
          i ← field fs "id" (rd_i 64); e ← field fs "error" rpc_error_of_value; Some (RpcFailed i e)).
(** [godwit-mcp/src/jsonrpc.rs:62-68] [RpcNotification::deserialize] *)
Definition rpc_notification_of_value (v : value) : option RpcNotification :=
  fs ← struct_fields ["method"; "params"] v;
  m ← field fs "method" rd_string;
  p ← opt_field fs "params" rd_value;
  Some {| nt_method := m; nt_params := p |}.
(** [godwit-mcp/src/jsonrpc.rs:70-80] [RpcMessage::deserialize] *)
Definition rpc_message_of_value (v : value) : option RpcMessage :=
  opt_or (MRequest <$> rpc_request_of_value v)
    (opt_or (MResponse <$> rpc_response_of_value v) (MNotification <$> rpc_notification_of_value v)).

(** [godwit-mcp/src/jsonrpc.rs:53-60] [RpcError::serialize] *)
Definition rpc_error_to_value (e : RpcError) : value :=
  struct_some [Some ("code", num (rpc_code e)); Some ("message", VString (rpc_message e)); skip_none "data" id (rpc_data e)].
(** [godwit-mcp/src/jsonrpc.rs:37-43] [RpcResponse::serialize] *)
Definition rpc_response_to_value (r : RpcResponse) : value :=
  match r with
  | RpcResult i r => obj [("id", num i); ("result", r)]
  | RpcFailed i e => obj [("id", num i); ("error", rpc_error_to_value e)]
  end.
(** [godwit-mcp/src/jsonrpc.rs:70-80] [RpcMessage::serialize] *)
Definition rpc_message_to_value (m : RpcMessage) : value :=
  match m with
  | MRequest r => struct_some [Some ("id", num (rq_id r)); Some ("method", VString (rq_method r)); skip_none "params" id (rq_params r)]
  | MResponse r => rpc_response_to_value r
  | MNotification n => struct_some [Some ("method", VString (nt_method n)); skip_none "params" id (nt_params n)]
  end.

(** [godwit-mcp/src/jsonrpc.rs:17-26] [FrameError] *)
Inductive FrameError : Type :=
| FrameParse (msg : string)
| NotAnObject (text : string).

(** The texts of serde's errors: a text that is not JSON, a value that is not a message. *)
Class RpcErrors := { frame_error : string -> string; message_error : value -> string }.

Section Frames.
Context `{JsonText} `{RpcErrors}.

(** [godwit-mcp/src/jsonrpc.rs:83-88] [RpcMessage::to_frame] *)
Definition to_frame (m : RpcMessage) : string := to_string (rpc_message_to_value m) +:+ String LF "".
(** [godwit-mcp/src/jsonrpc.rs:90-97] [RpcMessage::from_frame] *)
Definition from_frame (line : string) : result FrameError RpcMessage :=
  match from_str line with
  | None => Err (FrameParse (frame_error line))
  | Some (VObject o) => ok_or (FrameParse (message_error (VObject o))) (rpc_message_of_value (VObject o))
  | Some v => Err (NotAnObject (to_string v))
  end.

Definition frame_space (c : ascii) : bool := Ascii.eqb c SP || Ascii.eqb c (byte 9) || Ascii.eqb c CR.
Fixpoint drop_spaces (s : string) : string :=
  match s with String c s' => if frame_space c then drop_spaces s' else s | EmptyString => "" end.
(** [godwit-mcp/src/jsonrpc.rs:145-155] [trim_buf] *)
Definition trim_buf (s : string) : string := str_rev (drop_spaces (str_rev (drop_spaces s))).

(** The complete lines of a buffer, each with its newline, and what is left.
    [godwit-mcp/src/jsonrpc.rs:140-142] [FrameReader::next_line_offset] *)
Fixpoint full_lines (s : string) : list string * string :=
  match s with
  | EmptyString => ([], "")
  | String c s =>
    let '(ls, rest) := full_lines s in
    if Ascii.eqb c LF then (String LF "" :: ls, rest)
    else match ls with [] => ([], String c rest) | l :: ls => (String c l :: ls, rest) end
  end.
(** [godwit-mcp/src/jsonrpc.rs:126-133] [FrameReader::push] *)
Definition frames_of (ls : list string) : list (result FrameError RpcMessage) :=
  filter_map (fun l => let t := trim_buf l in if is_empty t then None else Some (from_frame t)) ls.
(** The reader's state is its buffer.
    [godwit-mcp/src/jsonrpc.rs:113-138] [FrameReader::push] *)
Definition push_bytes (buffer bytes : string) : list (result FrameError RpcMessage) * string :=
  let '(ls, rest) := full_lines (buffer +:+ bytes) in (frames_of ls, rest).
End Frames.

(** ** Tools *)

(** [godwit-mcp/src/tool.rs:17-24] [McpTool] *)
Record McpTool : Type := { mt_name : string; mt_description : option string; mt_input_schema : value }.
(** [godwit-mcp/src/tool.rs:17-24] [McpTool::deserialize] *)
Definition mcp_tool_of_value (v : value) : option McpTool :=
  fs ← struct_fields ["name"; "description"; "inputSchema"] v;
  n ← field fs "name" rd_string;
  d ← opt_field fs "description" rd_string;
  s ← field fs "inputSchema" rd_value;
  Some {| mt_name := n; mt_description := d; mt_input_schema := s |}.
(** [godwit-mcp/src/tool.rs:30-39] [McpTool::to_core_tool] *)
Definition to_core_tool (server_name : string) (t : McpTool) : Tool :=
  {| tool_type := "function"; fd_name := server_name +:+ "__" +:+ mt_name t; fd_description := mt_description t;
     fd_parameters := Some (mt_input_schema t) |}.
(** [godwit-mcp/src/tool.rs:51-57] [mcp_tools_to_core] *)
Definition mcp_tools_to_core (server_name : string) (tools : list McpTool) : list Tool := to_core_tool server_name <$> tools.
(** [godwit-mcp/src/registry.rs:167-170] [split_tool_name] *)
Definition split_tool_name (tool_name : string) : option (string * string) := split_once "__" tool_name.

(** ** The client *)

(** [godwit-mcp/src/client.rs:20-47] [McpClientError] *)
Inductive McpClientError : Type :=
| SpawnFailed (name source : string)
| McpIo (msg : string)
| McpFrame (e : FrameError)
| Remote (method : string) (code : Z) (message : string)
| Closed (method : string)
| UnexpectedResponseId (expected actual : Z)
| EmptyToolResult (name : string).

(** The lines the peer will write, whether a write to it fails (with the error), and what was
    written to it. *)
Record Transport : Type := { incoming : list string; write_error : option string; written : list string }.
(** [godwit-mcp/src/client.rs:87-92] [McpClient] *)
Record McpClient : Type := { transport : Transport; next_id : Z }.

Section Client.
Context `{JsonText} `{RpcErrors}.
Notation CLIENT T := (ST McpClient McpClientError T).

(** Blank lines are skipped; the end of the stream is an error.
    [godwit-mcp/src/client.rs:67-84] [StdioTransport::read_frame] *)
Fixpoint read_line (ls : list string) : option (string * list string) :=
  match ls with
  | [] => None
  | l :: ls => if is_empty (trim l) then read_line ls else Some (trim l, ls)
  end.

Definition with_incoming (c : McpClient) (ls : list string) : McpClient :=
  {| transport := {| incoming := ls; write_error := write_error (transport c); written := written (transport c) |};
     next_id := next_id c |}.

(** [godwit-mcp/src/client.rs:263-288] [McpClient::write_request] *)
Definition write_message (m : RpcMessage) : CLIENT unit := fun c =>
  match write_error (transport c) with
  | Some e => (Err (McpIo e), c)
  | None => (Ok tt, {| transport := {| incoming := incoming (transport c); write_error := None;
                                       written := (written (transport c) ++ [to_frame m])%list |};
                       next_id := next_id c |})
  end.

(** Read until a response arrives; [accept] decides on it.
    [godwit-mcp/src/client.rs:232-260] [McpClient::request] *)
Fixpoint await_response {T} (method : string) (accept : RpcResponse -> result McpClientError T) (ls : list string)
  : result McpClientError T * list string :=
  match ls with
  | [] => (Err (Closed method), [])
  | l :: ls =>
    if is_empty (trim l) then await_response method accept ls
    else match from_frame (trim l) with
         | Err e => (Err (McpFrame e), ls)
         | Ok (MResponse r) => (accept r, ls)
         | Ok _ => await_response method accept ls
         end
  end.
Definition wait {T} (method : string) (accept : RpcResponse -> result McpClientError T) : CLIENT T := fun c =>
  let '(r, ls) := await_response method accept (incoming (transport c)) in (r, with_incoming c ls).

(** An error response is taken without a look at its id.
    [godwit-mcp/src/client.rs:239-259] [McpClient::request] *)
Definition accept_for (id : Z) (method : string) (r : RpcResponse) : result McpClientError value :=
  match r with
  | RpcResult rid result => if rid =? id then Ok result else Err (UnexpectedResponseId id rid)
  | RpcFailed _ e => Err (Remote method (rpc_code e) (rpc_message e))
  end.
Definition draw_request_id : CLIENT Z := fun c => (Ok (next_id c), {| transport := transport c; next_id := next_id c + 1 |}).

(** [godwit-mcp/src/client.rs:222-261] [McpClient::request] *)
Definition request (method : string) (params : option value) : CLIENT value :=
  id ← draw_request_id;
  _ ← write_message (MRequest {| rq_id := id; rq_method := method; rq_params := params |});
  wait method (accept_for id method).

(** Any response with a result completes the handshake.
    [godwit-mcp/src/client.rs:126-175] [McpClient::initialize_handshake] *)
Definition initialize_handshake (version : string) : CLIENT unit :=
  id ← draw_request_id;
  _ ← write_message (MRequest {| rq_id := id; rq_method := "initialize"; rq_params := Some (obj
        [("protocolVersion", VString "2024-11-05"); ("capabilities", VObject []);
         ("clientInfo", obj [("name", VString "godwit"); ("version", VString version)])]) |});
  _ ← wait "initialize" (fun r => match r with
                                  | RpcResult _ _ => Ok tt
                                  | RpcFailed _ e => Err (Remote "initialize" (rpc_code e) (rpc_message e))
                                  end);
  write_message (MNotification {| nt_method := "notifications/initialized"; nt_params := None |}).

(** [godwit-mcp/src/client.rs:177-187] [McpClient::list_tools] *)
Definition list_tools : CLIENT (list McpTool) :=
  result ← request "tools/list" (Some (VObject []));
  lift (ok_or (Remote "tools/list" (-32603) ("could not parse tools from server: " +:+ message_error (index "tools" result)))
          (rd_list mcp_tool_of_value (index "tools" result))).

(** [godwit-mcp/src/client.rs:200-213] [McpClient::call_tool] *)
Definition tool_text (result : value) : string :=
  foldl (fun text t => (if is_empty text then text else text +:+ String LF "") +:+ t) ""
    (filter_map (fun item => get "text" item ≫= as_str) (default [] (get "content" result ≫= as_array))).
(** [godwit-mcp/src/client.rs:189-220] [McpClient::call_tool] *)
Definition client_call_tool (name : string) (arguments : value) : CLIENT string :=
  result ← request "tools/call" (Some (obj [("name", VString name); ("arguments", arguments)]));
  if is_empty (tool_text result) then throw (EmptyToolResult name) else mret (tool_text result).
End Client.

(** ** Errors as texts *)

(** [godwit-mcp/src/jsonrpc.rs:17-26] [FrameError::fmt] *)
Definition show_frame_error (e : FrameError) : string :=
  match e with
  | FrameParse m => "failed to parse JSON-RPC frame: " +:+ m
  | NotAnObject t => "frame is not a JSON object: " +:+ t
  end.
(** [godwit-mcp/src/client.rs:20-47] [McpClientError::fmt] *)
Definition show_client_error (e : McpClientError) : string :=
  match e with
  | SpawnFailed name source => "failed to spawn MCP server '" +:+ name +:+ "': " +:+ source
  | McpIo m => "MCP I/O error: " +:+ m
  | McpFrame e => "MCP frame error: " +:+ show_frame_error e
  | Remote method _ message => "MCP server responded with an error for '" +:+ method +:+ "': " +:+ message
  | Closed method => "MCP server closed the connection while awaiting a response to '" +:+ method +:+ "'"
  | UnexpectedResponseId expected actual =>
    "MCP server sent a response with an unexpected id (expected " +:+ pretty expected +:+ ", got " +:+ pretty actual +:+ ")"
  | EmptyToolResult name => "MCP call '" +:+ name +:+ "' returned no text content"
  end.

(** [godwit-mcp/src/registry.rs:156-165] [McpError] *)
Inductive McpError : Type :=
| UnknownServer (name : string)
| InvalidToolName (name : string)
| McpClientFailed (e : McpClientError).
(** [godwit-mcp/src/registry.rs:156-165] [McpError::fmt] *)
Definition show_mcp_error (e : McpError) : string :=
  match e with
  | UnknownServer n => "unknown MCP server '" +:+ n +:+ "'"
  | InvalidToolName n => "invalid MCP tool name '" +:+ n +:+ "' (expected 'server__tool')"
  | McpClientFailed e => "MCP client error: " +:+ show_client_error e
  end.

(** ** The registry of servers *)

(** [godwit-mcp/src/config.rs:25-36] [McpServerConfig] *)
Record McpServerConfig : Type := {
  mc_name : string; mc_command : string; mc_args : list string; mc_env : gmap string string }.
(** [godwit-mcp/src/registry.rs:23-27] [ServerEntry] *)
Record ServerEntry : Type := { se_config : McpServerConfig; se_client : option McpClient }.
(** The servers and the operating system [W] that runs them.
    [godwit-mcp/src/registry.rs:29-32] [McpRegistry] *)
Record McpRegistry (W : Type) : Type := { servers : gmap string ServerEntry; os : W }.
Arguments servers {W} _.
Arguments os {W} _.

(** Starting a process: its standard streams, or the error.  The order in which a [HashMap]
    lists its keys is any. *)
Class Processes (W : Type) := { spawn : McpServerConfig -> W -> result string Transport * W }.
Class HashOrder := {
  map_keys : gmap string ServerEntry -> list string;
  map_keys_perm : forall m, map_keys m ≡ₚ (map_to_list m).*1;
}.

Section Registry.
Context `{JsonText} `{RpcErrors} {W : Type} `{!Processes W} `{!HashOrder}.
Context (version : string).
Notation REG T := (ST (McpRegistry W) McpError T).

(** [godwit-mcp/src/registry.rs:42-54] [McpRegistry::from_config] *)
Definition registry_from_config (configs : list McpServerConfig) (w : W) : McpRegistry W :=
  {| servers := foldl (fun m c => <[mc_name c := {| se_config := c; se_client := None |}]> m) ∅ configs; os := w |}.

(** [godwit-mcp/src/client.rs:95-116] [McpClient::connect] *)
Definition connect (config : McpServerConfig) : ST W McpClientError McpClient := fun w =>
  match spawn config w with
  | (Err e, w) => (Err (SpawnFailed (mc_name config) e), w)
  | (Ok t, w) =>
    match initialize_handshake version {| transport := t; next_id := 1 |} with
    | (Ok _, client) => (Ok client, w)
    | (Err e, _) => (Err e, w)
    end
  end.

Definition on_os {T} (m : ST W McpError T) : REG T :=
  zoom os (fun w r => {| servers := servers r; os := w |}) m.
Definition set_client (name : string) (client : McpClient) (r : McpRegistry W) : McpRegistry W :=
  {| servers := alter (fun e => {| se_config := se_config e; se_client := Some client |}) name (servers r); os := os r |}.

(** [godwit-mcp/src/registry.rs:72-95] [McpRegistry::ensure_connected] *)
Definition ensure_connected (name : string) : REG unit :=
  entry ← gets (fun r => servers r !! name);
  match entry with
  | None => throw (UnknownServer name)
  | Some e =>
    match se_client e with
    | Some _ => mret tt
    | None => client ← on_os (st_map_err McpClientFailed (connect (se_config e))); modify (set_client name client)
    end
  end.

(** The client of a server, borrowed for an operation.
    [godwit-mcp/src/registry.rs:142-146] [McpRegistry::call_tool] *)
Definition with_client {T} (name : string) (op : ST McpClient McpClientError T) : REG T := fun r =>
  match servers r !! name ≫= se_client with
  | None => (Err (UnknownServer name), r)
  | Some client => let '(res, client) := op client in (map_err McpClientFailed res, set_client name client r)
  end.

(** A server that cannot be reached or does not list its tools is skipped.
    [godwit-mcp/src/registry.rs:97-117] [McpRegistry::all_tools] *)
Fixpoint tools_of (names : list string) : REG (list Tool) :=
  match names with
  | [] => mret []
  | name :: names =>
    catch (ensure_connected name;; with_client name list_tools) (fun r =>
      rest ← tools_of names;
      mret (match r with Ok tools => mcp_tools_to_core name tools ++ rest | Err _ => rest end)%list)
  end.
(** [godwit-mcp/src/registry.rs:97-117] [McpRegistry::all_tools] *)
Definition all_tools : REG (list Tool) := fun r => tools_of (map_keys (servers r)) r.

(** [godwit-mcp/src/registry.rs:119-128] [McpRegistry::tools_for] *)
Definition tools_for (name : string) : REG (list McpTool) :=
  ensure_connected name;; with_client name list_tools.

(** [godwit-mcp/src/registry.rs:130-147] [McpRegistry::call_tool] *)
Definition call_tool (tool_name : string) (arguments : value) : REG string :=
  match split_tool_name tool_name with
  | Some (server_name, bare_name) =>
    if is_empty server_name || is_empty bare_name then throw (InvalidToolName tool_name)
    else ensure_connected server_name;; with_client server_name (client_call_tool bare_name arguments)
  | None => throw (InvalidToolName tool_name)
  end.
End Registry.

(** ** The server *)

(** [godwit-mcp/src/server.rs:31-40] [GodwitGatewayConfig] *)
Record GodwitGatewayConfig : Type := { gw_base_url : string; gw_api_key : string; gw_default_model : string }.
(** [godwit-mcp/src/server.rs:20-29] [McpServerError] *)
Inductive McpServerError : Type :=
| ServerFrame (e : FrameError)
| ServerIo (msg : string)
| Gateway (msg : string).

(** The stream the server writes to: each operation succeeds, or fails with the text of its
    error. *)
Class AsyncWrite (O : Type) := {
  write_all : string -> O -> result string unit * O;
  flush : O -> result string unit * O;
}.

Section Server.
Context `{JsonText} `{RpcErrors} {W O : Type} `{!HttpClient W} `{!AsyncWrite O}.
Context (version : string) (gateway : GodwitGatewayConfig).
Notation HANDLER := (ST W (Z * string) value).

(** [godwit-mcp/src/server.rs:269-281] [grant_initialize] *)
Definition grant_initialize (params : option value) : result (Z * string) unit :=
  let version := default "" (p ← params; v ← get "protocolVersion" p; as_str v) in
  if is_empty version then Err (-32602, "missing protocolVersion") else Ok tt.

(** [godwit-mcp/src/server.rs:148-156] [McpServer::handle_initialize] *)
Definition handle_initialize (req : RpcRequest) : HANDLER :=
  _ ← lift (grant_initialize (rq_params req));
  mret (obj [("protocolVersion", VString "2024-11-05"); ("capabilities", obj [("tools", VObject [])]);
             ("serverInfo", obj [("name", VString "godwit-mcp"); ("version", VString version)]);
             ("instructions", VString "Godwit MCP server. Use the godwit_chat tool to call a Godwit model.")]).

(** [godwit-mcp/src/server.rs:158-189] [McpServer::handle_tools_list] *)
Definition handle_tools_list (req : RpcRequest) : HANDLER :=
  let typed t := obj [("type", VString t)] in
  mret (obj [("tools", VArray [obj [
    ("name", VString "godwit_chat");
    ("description", VString "Send a chat completion request to a Godwit model. Takes a `model` (optional) and a `messages` array of OpenAI-style chat messages.");
    ("inputSchema", obj [
      ("type", VString "object");
      ("properties", obj [
        ("model", obj [("type", VString "string");
                       ("description", VString "Godwit model identifier (defaults to configured default)")]);
        ("messages", obj [
          ("type", VString "array");
          ("items", obj [("type", VString "object");
                         ("properties", obj [("role", typed "string"); ("content", typed "string"); ("name", typed "string")]);
                         ("required", VArray [VString "role"; VString "content"]);
                         ("additionalProperties", VBool true)]);
          ("description", VString "OpenAI-style chat messages")])]);
      ("required", VArray [VString "messages"])])]])]).

(** One token of a JSON pointer. *)
Definition pointer_step (token : string) (i : option nat) (v : value) : option value :=
  match v with VObject o => obj_get token o | VArray l => i ← i; l !! i | _ => None end.
(** [godwit-mcp/src/server.rs:246-250] [McpServer::handle_tools_call] *)
Definition first_content (completion : value) : string :=
  default "(empty response)"
    (choices ← pointer_step "choices" None completion; choice ← pointer_step "0" (Some 0%nat) choices;
     message ← pointer_step "message" None choice; content ← pointer_step "content" None message; as_str content).

(** [godwit-mcp/src/server.rs:219-226] [McpServer::handle_tools_call] *)
Definition gateway_request (model : string) (messages : value) : HttpRequest :=
  {| hr_method := "POST"; hr_url := trim_end_matches (byte 47) (gw_base_url gateway) +:+ "/v1/chat/completions";
     hr_headers := [("Authorization", "Bearer " +:+ gw_api_key gateway)];
     hr_json := Some (obj [("model", VString model); ("messages", messages)]); hr_form := [] |}.
(** [godwit-mcp/src/server.rs:221-255] [McpServer::handle_tools_call] *)
Definition ask_gateway (request : HttpRequest) : HANDLER := fun w =>
  match send request w with
  | (SendFailed e, w) => (Err (-32603, "gateway request failed: " +:+ e), w)
  | (Replied status body, w) =>
    if negb (is_success status)
    then (Err (-32603, "gateway returned " +:+ pretty status +:+ ": " +:+ body_text body), w)
    else match body_json body with
         | Err e => (Err (-32603, "failed to parse gateway response: " +:+ e), w)
         | Ok completion =>
           (Ok (obj [("content", VArray [obj [("type", VString "text"); ("text", VString (first_content completion))]]);
                     ("isError", VBool false)]), w)
         end
  end.

(** [godwit-mcp/src/server.rs:191-255] [McpServer::handle_tools_call] *)
Definition handle_tools_call (req : RpcRequest) : HANDLER :=
  let name := default "" (p ← rq_params req; n ← get "name" p; as_str n) in
  if negb (String.eqb name "godwit_chat")
  then throw (-32602, "unknown tool '" +:+ name +:+ "' (only 'godwit_chat' is available)")
  else
    args ← lift (ok_or (-32602, "missing 'arguments'") (rq_params req ≫= get "arguments"));
    let model := default (gw_default_model gateway) (get "model" args ≫= as_str) in
    messages ← lift (ok_or (-32602, "missing 'messages' argument") (get "messages" args));
    ask_gateway (gateway_request model messages).

(** [godwit-mcp/src/server.rs:119-134] [McpServer::handle_request] *)
Definition handler_of (method : string) : option (RpcRequest -> HANDLER) :=
  if String.eqb method "initialize" then Some handle_initialize
  else if String.eqb method "tools/list" then Some handle_tools_list
  else if String.eqb method "tools/call" then Some handle_tools_call
  else None.
Definition failed_with (req : RpcRequest) (code : Z) (message : string) : RpcResponse :=
  RpcFailed (rq_id req) {| rpc_code := code; rpc_message := message; rpc_data := None |}.
(** [godwit-mcp/src/server.rs:118-146] [McpServer::handle_request] *)
Definition handle_request (req : RpcRequest) (w : W) : RpcResponse * W :=
  match handler_of (rq_method req) with
  | None => (failed_with req (-32601) ("method not found: " +:+ rq_method req), w)
  | Some handler =>
    match handler req w with
    | (Ok v, w) => (RpcResult (rq_id req) v, w)
    | (Err (code, message), w) => (failed_with req code message, w)
    end
  end.

(** [godwit-mcp/src/server.rs:103-107] [McpServer::serve] *)
Definition write_frame (frame : string) : ST O string unit := write_all frame;; flush.

(** Serve the input: what each [read_line] gives, a line or an error, until the end.
    [godwit-mcp/src/server.rs:78-116] [McpServer::serve] *)
Fixpoint mcp_serve (input : list (result string string)) : ST (W * O) McpServerError unit := fun '(w, out) =>
  match input with
  | [] => (Ok tt, (w, out))
  | Err e :: _ => (Err (ServerIo e), (w, out))
  | Ok l :: input =>
    if is_empty (trim l) then mcp_serve input (w, out)
    else match from_frame (trim_end l) with
         | Err e => (Err (ServerFrame e), (w, out))
         | Ok (MRequest req) =>
           let '(response, w) := handle_request req w in
           match write_frame (to_frame (MResponse response)) out with
           | (Ok _, out) => mcp_serve input (w, out)
           | (Err e, out) => (Err (ServerIo e), (w, out))
           end
         | Ok _ => mcp_serve input (w, out)
         end
  end.
End Server.

(** ** Framing *)

Lemma full_lines_app a b :
  full_lines (a +:+ b) =
  let '(la, ra) := full_lines a in let '(lb, rb) := full_lines (ra +:+ b) in ((la ++ lb)%list, rb).
Proof.
  induction a as [|c a IH]; simpl; [by destruct (full_lines b)|].
  rewrite IH. destruct (full_lines a) as [la ra]. destruct (full_lines (ra +:+ b)) as [lb rb] eqn:Eb.
  destruct (Ascii.eqb c LF) eqn:Ec; [by rewrite Eb|]. destruct la as [|l la]; simpl; [|by rewrite Eb].
  rewrite Eb, Ec. by destruct lb.
Qed.

Lemma full_lines_rest s : full_lines (full_lines s).2 = ([], (full_lines s).2).
Proof.
  induction s as [|c s IH]; simpl; [done|]. destruct (full_lines s) as [ls rest]. simpl in IH.
  destruct (Ascii.eqb c LF) eqn:Ec; [done|]. destruct ls; [|done]. simpl. by rewrite IH, Ec.
Qed.

Section FrameFacts.
Context `{JsonText} `{RpcErrors}.

Lemma frames_of_app l1 l2 : frames_of (l1 ++ l2)%list = (frames_of l1 ++ frames_of l2)%list.
Proof. apply filter_map_app. Qed.

(** The reads of a pipe, one after the other. *)
Fixpoint feed (buffer : string) (reads : list string) : list (result FrameError RpcMessage) * string :=
  match reads with
  | [] => ([], buffer)
  | r :: reads =>
    let '(fs, buffer) := push_bytes buffer r in
    let '(fs', buffer) := feed buffer reads in ((fs ++ fs')%list, buffer)
  end.

Lemma feed_whole reads : forall buffer,
  full_lines buffer = ([], buffer) -> feed buffer reads = push_bytes buffer (str_join "" reads).
Proof.
  assert (forall r rs, str_join "" (r :: rs) = r +:+ str_join "" rs) as Hj.
  { intros r [|]; simpl; [by rewrite app_nil_r_str|done]. }
  induction reads as [|r reads IH]; intros buffer Hb.
  - simpl. unfold push_bytes. by rewrite app_nil_r_str, Hb.
  - rewrite Hj. simpl. unfold push_bytes at 1.
    destruct (full_lines (buffer +:+ r)) as [ls rest] eqn:E. rewrite IH.
    2:{ pose proof (full_lines_rest (buffer +:+ r)) as Hr. by rewrite E in Hr. }
    unfold push_bytes. rewrite <- app_assoc_str, (full_lines_app (buffer +:+ r)), E.
    destruct (full_lines (rest +:+ str_join "" reads)) as [ls' rest']. by rewrite frames_of_app.
Qed.

(** How a pipe cuts the bytes does not matter to the frame reader: whatever the reads are,
    it yields the messages it would have yielded had all the bytes come at once, and keeps the
    same unfinished line.  But a blank line is not skipped, though the reader's comment says
    so: a line is trimmed of blanks and not of its newline, so it is never empty, and the
    newline alone goes to the parser. *)
Theorem frame_reader_chunking :
  (forall reads, feed "" reads = push_bytes "" (str_join "" reads)) /\
  push_bytes "" (String LF "") = ([from_frame (String LF "")], "") /\
  push_bytes "" (String SP (String CR (String LF ""))) = ([from_frame (String LF "")], "").
Proof. split_and!; [intros; by apply feed_whole|reflexivity|reflexivity]. Qed.
End FrameFacts.

(** ** Tool names and connections *)

Section RegistryFacts.
Context `{JsonText} `{RpcErrors} {W : Type} `{!Processes W} `{!HashOrder}.
Context (version : string).
Implicit Types r : McpRegistry W.

Lemma set_client_ne name c r other : other <> name -> servers (set_client name c r) !! other = servers r !! other.
Proof. intros. simpl. by apply lookup_alter_ne. Qed.

Lemma set_client_dom name c r : dom (servers (set_client name c r)) = dom (servers r).
Proof. simpl. apply dom_alter_L. Qed.

(** What an operation on one server leaves alone. *)
Definition only_touches (name : string) r r' : Prop :=
  dom (servers r') = dom (servers r) /\ forall other, other <> name -> servers r' !! other = servers r !! other.

Lemma only_touches_refl name r : only_touches name r r.
Proof. done. Qed.
Lemma only_touches_set name c r : only_touches name r (set_client name c r).
Proof. split; [apply set_client_dom|]. intros. by apply set_client_ne. Qed.
Lemma only_touches_trans name r1 r2 r3 : only_touches name r1 r2 -> only_touches name r2 r3 -> only_touches name r1 r3.
Proof. intros [D1 K1] [D2 K2]. split; [congruence|]. intros. by rewrite K2, K1. Qed.
Hint Resolve only_touches_refl only_touches_set : core.

Lemma ensure_connected_touches name r res r' : ensure_connected version name r = (res, r') -> only_touches name r r'.
Proof.
  unfold ensure_connected. intros E0. bind_in E0; [by st_run|]. unfold gets in Hm. injection Hm as <- <-.
  destruct (servers _ !! name) as [e|]; [|by st_run]. destruct (se_client e); [by st_run|].
  unfold on_os in E0. st_unfold. destruct (connect version (se_config e) (os _)) as [[c|err] w]; simplify_eq/=; [|done].
  split; simpl; [apply dom_alter_L|]. intros. by rewrite lookup_alter_ne.
Qed.

Lemma with_client_touches {T} name (op : ST McpClient McpClientError T) r res r' :
  with_client name op r = (res, r') -> only_touches name r r'.
Proof.
  unfold with_client. destruct (servers r !! name ≫= se_client) as [c|]; [|intros; by simplify_eq].
  destruct (op c) as [x c']. intros. by simplify_eq.
Qed.

Lemma on_server_touches {T} name (op : ST McpClient McpClientError T) r res r' :
  (ensure_connected version name;; with_client name op) r = (res, r') -> only_touches name r r'.
Proof.
  intros E0. bind_in E0; [by eapply ensure_connected_touches|].
  eapply only_touches_trans; [by eapply ensure_connected_touches|by eapply with_client_touches].
Qed.

Lemma call_tool_named s t args :
  no_match_before "__" s ("__" +:+ mt_name t) -> s <> "" -> mt_name t <> "" ->
  call_tool version (fd_name (to_core_tool s t)) args
  = (ensure_connected version s;; with_client s (client_call_tool (mt_name t) args) : ST (McpRegistry W) McpError string).
Proof.
  intros Hn Hs Ht. unfold call_tool, split_tool_name. cbn [fd_name to_core_tool]. rewrite split_once_app by done.
  by destruct s, (mt_name t).
Qed.

(** What a server says to [tools/list], connected first where it is not; nothing when it cannot
    be reached or its answer is no list of tools. *)
Definition lists (name : string) r : list McpTool :=
  match ((ensure_connected version name;; with_client name list_tools) r).1 with Ok tools => tools | Err _ => [] end.

Lemma tools_of_names names : NoDup names -> forall r, exists tools r' (answered : string -> list McpTool),
  tools_of version names r = (Ok tools, r') /\
  (forall tool, tool ∈ tools <-> exists s t, s ∈ names /\ t ∈ answered s /\ tool = to_core_tool s t) /\
  (forall s, s ∈ names -> exists r1, servers r1 !! s = servers r !! s /\ answered s = lists s r1).
Proof.
  induction 1 as [|name names Hn _ IH]; intros r; simpl.
  - exists [], r, (fun _ => []). split_and!; [done| |by intros ? ?%elem_of_nil].
    intros tool. split; [by intros ?%elem_of_nil|by intros (s & t & ?%elem_of_nil & _)].
  - unfold catch. destruct ((ensure_connected version name;; with_client name list_tools) r) as [x r1] eqn:E.
    destruct (IH r1) as (rest & r2 & answered & K1 & K2 & K3). pose proof (on_server_touches _ _ _ _ _ E) as [_ Ek].
    unfold mbind, st_bind. rewrite K1. eexists _, _, (fun s => if decide (s = name) then lists name r else answered s).
    split; [reflexivity|]. split.
    + intros tool. assert (mcp_tools_to_core name (lists name r) ++ rest =
        match x with Ok tools => mcp_tools_to_core name tools ++ rest | Err _ => rest end)%list as <- by (unfold lists; rewrite E; by destruct x).
      rewrite elem_of_app, K2. unfold mcp_tools_to_core. rewrite list_elem_of_fmap. split.
      * intros [(t & -> & Ht)|(s & t & Hs & Ht & ->)].
        { exists name, t. split; [by left|]. by rewrite decide_True. }
        exists s, t. split; [by right|]. rewrite decide_False; [done|]. by intros ->.
      * intros (s & t & Hs & Ht & ->). destruct (decide (s = name)) as [->|Hne]; [left; by exists t|right].
        exists s, t. apply elem_of_cons in Hs as [?|Hs]; done.
    + intros s Hs. destruct (decide (s = name)) as [->|Hne]; [by exists r|].
      apply elem_of_cons in Hs as [?|Hs]; [done|]. destruct (K3 s Hs) as (r3 & Hr3 & Ha). exists r3. split; [|done].
      rewrite Hr3. by apply Ek.
Qed.

(** C33: the tools of the MCP servers are offered under names that lead back to them.  Listing
    them never fails, and the tools offered are exactly those that a configured server lists,
    asked in the state it was in, under [server__tool].  A call of that name, when neither part
    is empty and the server's name and the separator do not overlap, is a call of that tool on
    that server, and leaves every other server alone; a server whose name holds the separator,
    or ends in an underscore, gets none of the calls of its tools. *)
Theorem tool_calls_reach_their_server :
  (forall r, exists tools r' (answered : string -> list McpTool), all_tools version r = (Ok tools, r') /\
     (forall tool, tool ∈ tools <-> exists s t, s ∈ dom (servers r) /\ t ∈ answered s /\ tool = to_core_tool s t) /\
     (forall s, s ∈ dom (servers r) -> exists r1, servers r1 !! s = servers r !! s /\ answered s = lists s r1)) /\
  (forall s t args, no_match_before "__" s ("__" +:+ mt_name t) -> s <> "" -> mt_name t <> "" ->
     forall r res r', call_tool version (fd_name (to_core_tool s t)) args r = (res, r') ->
     (ensure_connected version s;; with_client s (client_call_tool (mt_name t) args)) r = (res, r') /\
     forall other, other <> s -> servers r' !! other = servers r !! other) /\
  (forall s t, split_tool_name (fd_name (to_core_tool s t)) = Some (s, mt_name t) <->
     no_match_before "__" s ("__" +:+ mt_name t)) /\
  (forall t, split_tool_name (fd_name (to_core_tool "files_" t)) = Some ("files", "_" +:+ mt_name t)).
Proof.
  split_and!.
  - intros r. assert (NoDup (map_keys (servers r))) as Hnd by (rewrite map_keys_perm; apply NoDup_fst_map_to_list).
    assert (forall s, s ∈ map_keys (servers r) <-> s ∈ dom (servers r)) as Hk.
    { intros s. rewrite map_keys_perm, elem_of_dom. split.
      - intros ([k e] & -> & Hs)%list_elem_of_fmap. apply elem_of_map_to_list in Hs. by eexists.
      - intros [e He]. apply list_elem_of_fmap. exists (s, e). split; [done|]. by apply elem_of_map_to_list. }
    destruct (tools_of_names (map_keys (servers r)) Hnd r) as (tools & r' & answered & K1 & K2 & K3).
    exists tools, r', answered. split; [done|]. split; [intros tool; rewrite K2; by setoid_rewrite Hk|].
    intros s Hs. by apply K3, Hk.
  - intros s t args Hn Hs Ht r res r' Hc. rewrite call_tool_named in Hc by done. split; [done|].
    by apply on_server_touches in Hc as [_ Hc].
  - intros s t. cbn [fd_name to_core_tool]. unfold split_tool_name. split.
    + by intros Hs%split_once_first.
    + intros. by apply split_once_app.
  - intros t. reflexivity.
Qed.

(** A server whose process has ended while its client is still kept. *)
Definition dead (name : string) r : Prop :=
  exists e c, servers r !! name = Some e /\ se_client e = Some c /\ incoming (transport c) = [].

(** A connection is made once.  When the process of a connected server ends, its client
    is kept: every later call of its tools fails, starts no process, and leaves the server as
    dead as it was; only a server that never connected is tried again. *)
Theorem dead_server_is_never_restarted s t args r :
  no_match_before "__" s ("__" +:+ mt_name t) -> s <> "" -> mt_name t <> "" -> dead s r ->
  exists e r', call_tool version (fd_name (to_core_tool s t)) args r = (Err (McpClientFailed e), r') /\
    dead s r' /\ os r' = os r.
Proof.
  intros Hn Hs Ht (e & c & He & Hc & Hi). rewrite call_tool_named by done.
  unfold ensure_connected, with_client. unfold mbind, st_bind, gets. rewrite He, Hc. simpl.
  unfold client_call_tool, request, wait, draw_request_id, write_message. st_unfold. rewrite He. simpl. rewrite Hc.
  destruct (write_error (transport c)) as [x|]; simpl; [|rewrite Hi; simpl]; eexists _, _;
    (split; [reflexivity|]); (split; [|done]); eexists _, _; simpl; rewrite lookup_alter_eq, He; (split; [reflexivity|]); done.
Qed.
End RegistryFacts.

(** ** Serving *)

Section ServeFacts.
Context `{JsonText} `{RpcErrors} {W O : Type} `{!HttpClient W} `{!AsyncWrite O}.
Context (version : string) (gateway : GodwitGatewayConfig).
Notation handle_request := (handle_request version gateway).

(** What the input asks: the requests up to its end, the first read that fails or the first line
    that is no message, and how the loop ends there. *)
Fixpoint requests_of (input : list (result string string)) : list RpcRequest * result McpServerError unit :=
  match input with
  | [] => ([], Ok tt)
  | Err e :: _ => ([], Err (ServerIo e))
  | Ok l :: input =>
    if is_empty (trim l) then requests_of input
    else match from_frame (trim_end l) with
         | Err e => ([], Err (ServerFrame e))
         | Ok (MRequest req) => let '(reqs, end_of) := requests_of input in (req :: reqs, end_of)
         | Ok _ => requests_of input
         end
  end.
(** The requests handled one after the other. *)
Fixpoint answers (reqs : list RpcRequest) (w : W) : list RpcResponse * W :=
  match reqs with
  | [] => ([], w)
  | req :: reqs =>
    let '(a, w) := handle_request req w in
    let '(rest, w) := answers reqs w in (a :: rest, w)
  end.
(** The answers written one after the other, as long as writing works. *)
Fixpoint write_answers (rs : list RpcResponse) : ST O string unit :=
  match rs with [] => mret tt | a :: rs => write_frame (to_frame (MResponse a));; write_answers rs end.

(** The requests [reqs] served: those before the first whose answer could not be written, with
    that one, were handled and answered in turn. *)
Definition served_in_turn (reqs : list RpcRequest) (end_of : result McpServerError unit) w (out : O)
    (r : result McpServerError unit) w' (out' : O) : Prop :=
  exists handled rest, reqs = (handled ++ rest)%list /\ (answers handled w).2 = w' /\
    ((rest = [] /\ write_answers (answers handled w).1 out = (Ok tt, out') /\ r = end_of) \/
     exists init a e, (answers handled w).1 = (init ++ [a])%list /\ (write_answers init out).1 = Ok tt /\
       write_answers (init ++ [a]) out = (Err e, out') /\ r = Err (ServerIo e)).

Lemma serve_run input : forall w out,
  let '(reqs, end_of) := requests_of input in let '(r, (w', out')) := mcp_serve version gateway input (w, out) in
  served_in_turn reqs end_of w out r w' out'.
Proof.
  assert (forall end_of w out, served_in_turn [] end_of w out end_of w out) as Hnil.
  { intros. exists [], []. split; [done|]. split; [done|]. by left. }
  induction input as [|[l|e] input IH]; intros w out; simpl; [apply Hnil| |apply Hnil].
  destruct (is_empty (trim l)); [apply IH|].
  destruct (from_frame (trim_end l)) as [[req| |]|e]; [|apply IH..|apply Hnil].
  destruct (requests_of input) as [reqs end_of]. destruct (handle_request req w) as [a w1] eqn:Eh.
  destruct (write_frame (to_frame (MResponse a)) out) as [[u|e] out1] eqn:Ew.
  - specialize (IH w1 out1). destruct (mcp_serve version gateway input (w1, out1)) as [r [w' out']].
    destruct IH as (handled & rest & -> & Hw & Hcase). exists (req :: handled), rest. split; [done|].
    simpl. rewrite Eh. destruct (answers handled w1) as [rs w2]. simpl in *. split; [done|].
    destruct Hcase as [(-> & Hwr & ->)|(init & b & e & -> & Hi & Hwr & ->)]; [left|right].
    + split; [done|]. unfold mbind, st_bind. by rewrite Ew.
    + exists (a :: init), b, e. split; [done|]. simpl. unfold mbind, st_bind. by rewrite Ew.
  - exists [req], reqs. split; [done|]. simpl. rewrite Eh. split; [done|]. right. exists [], a, e.
    split; [done|]. split; [done|]. simpl. unfold mbind, st_bind. by rewrite Ew.
Qed.

Lemma handle_request_id req w : response_id (handle_request req w).1 = rq_id req.
Proof.
  unfold Mcp.handle_request. destruct (handler_of version gateway (rq_method req)) as [h|]; [|done].
  by destruct (h req w) as [[v|[code m]] w'].
Qed.

Lemma answers_ids reqs : forall w, response_id <$> (answers reqs w).1 = rq_id <$> reqs.
Proof.
  induction reqs as [|req reqs IH]; intros w; simpl; [done|].
  pose proof (handle_request_id req w) as Hid. destruct (handle_request req w) as [a w1].
  specialize (IH w1). destruct (answers reqs w1) as [rs w2]. simpl in *. by f_equal.
Qed.

(** C34: the server answers the requests of its input one by one, each with the request's id
    and in the order they came, by what the handlers make of them in turn; notifications and
    responses are skipped.  It stops at the end of the input, at the first read that fails, at
    the first line that is no message, or at the first answer that cannot be written or
    flushed, with the error that says so, and no later request is handled.  A request whose id
    is not an integer of 64 bits, whatever its other members, is taken for a notification: it
    gets no answer at all. *)
Theorem serve_answers_in_order input w out :
  (let '(reqs, end_of) := requests_of input in let '(r, (w', out')) := mcp_serve version gateway input (w, out) in
   served_in_turn reqs end_of w out r w' out') /\
  (forall reqs w, response_id <$> (answers reqs w).1 = rq_id <$> reqs) /\
  (forall o i m, obj_get "id" o = Some i -> rd_i 64 i = None -> obj_get "method" o = Some (VString m) ->
     rpc_message_of_value (VObject o) = Some (MNotification {| nt_method := m;
       nt_params := match obj_get "params" o with None | Some Null => None | p => p end |})).
Proof.
  split; [apply serve_run|]. split; [intros; apply answers_ids|].
  intros o i m Hi Hr Hm. unfold rpc_message_of_value, rpc_request_of_value, rpc_response_of_value, rpc_notification_of_value, field.
  simpl. rewrite Hi, Hm. simpl. rewrite Hr. unfold opt_field. simpl. by destruct (obj_get "params" o) as [[]|].
Qed.
End ServeFacts.

(** ** Witnesses *)

Definition mcp_errors : RpcErrors := {| frame_error s := "expected value"; message_error v := "no variant" |}.
#[local] Existing Instance coded_json.
#[local] Existing Instance mcp_errors.
Definition hash_order : HashOrder.
Proof. refine {| map_keys m := (map_to_list m).*1 |}. done. Defined.
#[local] Existing Instance hash_order.
(** Every process is found, answers the handshake and one call, and counts its starts. *)
Definition talker : Transport :=
  {| incoming := [to_string (obj [("id", num 1); ("result", VObject [])]);
                  to_string (obj [("id", num 2); ("result", obj [("content", VArray [obj [("text", VString "hello")]])])])];
     write_error := None; written := [] |}.
Definition one_process : Processes nat := {| spawn _ n := (Ok talker, S n) |}.
#[local] Existing Instance one_process.
Definition files_tool : McpTool := {| mt_name := "read_file"; mt_description := None; mt_input_schema := obj [] |}.
Definition files_registry : McpRegistry nat :=
  registry_from_config [ {| mc_name := "files"; mc_command := "npx"; mc_args := []; mc_env := ∅ |} ] 0%nat.
Definition after_one_call : McpRegistry nat := (call_tool "1" "files__read_file" (VObject []) files_registry).2.

Lemma tool_calls_reach_their_server_witness :
  (call_tool "1" "files__read_file" (VObject []) files_registry).1 = Ok "hello" /\ os after_one_call = 1%nat /\
  forall other, other <> "files" -> servers after_one_call !! other = servers files_registry !! other.
Proof.
  split; [vm_compute; reflexivity|]. split; [vm_compute; reflexivity|].
  destruct (call_tool "1" "files__read_file" (VObject []) files_registry) as [res r'] eqn:E.
  assert (after_one_call = r') as -> by (unfold after_one_call; by rewrite E).
  refine (proj2 (proj1 (proj2 (tool_calls_reach_their_server "1")) "files" files_tool (VObject []) _ _ _
                   files_registry res r' E)); [|done..]. repeat split.
Defined.

Lemma dead_server_is_never_restarted_witness :
  dead "files" after_one_call /\
  exists e r', call_tool "1" "files__read_file" (VObject []) after_one_call = (Err (McpClientFailed e), r') /\
    dead "files" r' /\ os r' = 1%nat.
Proof.
  assert (dead "files" after_one_call) as Hd.
  { unfold dead. eexists _, _. split; [vm_compute; reflexivity|]. split; reflexivity. }
  split; [exact Hd|].
  destruct (dead_server_is_never_restarted "1" "files" files_tool (VObject []) after_one_call)
    as (e & r' & E & Hd' & Ho); [repeat split|done|done|exact Hd|].
  exists e, r'. split; [exact E|]. split; [exact Hd'|]. rewrite Ho. vm_compute. reflexivity.
Defined.
