(* ===== verification/Agentic.v ===== *)
(** * The agentic loop

    [godwit-api/src/agentic_loop.rs], the tools of [proxy.rs], the resolution of tool calls in
    a stream ([proxy_streaming.rs]) and the SearXNG backend
    ([godwit-providers/src/searxng.rs]).

    Tool calls are resolved over the MCP registry, whose operating system is the world the
    backends live in. *)

From stdpp Require Import base gmap strings list pretty.
From Stdlib Require Import QArith.
From S2P Require Import Prelude RustStr Json Core Limiter Balancer Db Router Resilience Usage Backend Serde Streaming PromptCache Adapters Guardrails Proxy Mcp.

#[local] Open Scope string_scope.
#[local] Open Scope Z_scope.

(** ** Web search *)

(** [godwit-providers/src/searxng.rs:5-10] [SearxngResult] *)
Record SearxngResult : Type := { sx_title : string; sx_url : string; sx_content : option string }.
(** [godwit-providers/src/searxng.rs:5-10] [SearxngResult::deserialize] *)
Definition searxng_result_of_value (v : value) : option SearxngResult :=
  fs ← struct_fields ["title"; "url"; "content"] v;
  t ← field fs "title" rd_string;
  u ← field fs "url" rd_string;
  c ← opt_field fs "content" rd_string;
  Some {| sx_title := t; sx_url := u; sx_content := c |}.
(** [godwit-providers/src/searxng.rs:12-16] [SearxngResponse::deserialize] *)
Definition searxng_response_of_value (v : value) : option (list SearxngResult) :=
  fs ← struct_fields ["results"] v;
  field_or fs "results" (rd_list searxng_result_of_value) [].

(** The url crate: the text of a list of query parameters. *)
Class UrlEncoding := { query_string : list (string * string) -> string }.

(** The SearXNG backend of the application: the provider and its profile are two fields of
    the state.
    [godwit-api/src/state.rs:25-28] [AppState] *)
Record WebSearch : Type := { searxng : bool; searxng_profile : option ResolvedProfile }.

(** [tokio::time::timeout]: [gives_up secs m w] is the world in which [m], started in [w], is
    abandoned, when it is. *)
Class Deadlines (W : Type) := { gives_up : forall T, Z -> ST W ProviderError T -> W -> option W }.
Definition timeout {W T} `{!Deadlines W} (secs : Z) (m : ST W ProviderError T) : ST W (option ProviderError) T := fun w =>
  match gives_up T secs m w with
  | Some w => (Err None, w)
  | None => let '(r, w) := m w in (map_err Some r, w)
  end.

Section Search.
Context `{JsonText} `{Formats} `{UrlEncoding} {W : Type} `{!HttpClient W}.

(** [godwit-providers/src/searxng.rs:41-46] [SearxngProvider::search] *)
Definition search_request (profile : ResolvedProfile) (query : string) : HttpRequest :=
  {| hr_method := "GET";
     hr_url := trim_end_matches (byte 47) (rp_base_url profile) +:+ "/search?" +:+ query_string [("q", query); ("format", "json")];
     hr_headers := []; hr_json := None; hr_form := [] |}.
(** [godwit-providers/src/searxng.rs:35-64] [SearxngProvider::search] *)
Definition search (profile : ResolvedProfile) (query : string) : ST W ProviderError (list SearxngResult) := fun w =>
  let '(out, w) := send (search_request profile query) w in
  (match out with
   | SendFailed e => Err (Http 0 e)
   | Replied status body =>
     if negb (is_success status) then Err (Http status (body_text body))
     else match body with
          | Err e => Err (Serialization e)
          | Ok t => ok_or (Serialization (decode_error t)) (from_str t ≫= searxng_response_of_value)
          end
   end, w).

(** [godwit-api/src/proxy.rs:480-490] [web_search_result] *)
Definition result_line (i : nat) (r : SearxngResult) : string :=
  pretty (i + 1)%nat +:+ ". " +:+ sx_title r +:+ " — " +:+ sx_url r +:+ String LF "   " +:+ default "" (sx_content r).

(** [None]: no backend is configured.
    [godwit-api/src/proxy.rs:456-494] [web_search_result] *)
Definition web_search_result (ws : WebSearch) (tool_name : string) (args : value) (w : W) : option string * W :=
  match searxng ws, searxng_profile ws with
  | true, Some profile =>
    let query := trim (default "" (v ← opt_or (get "query" args) (get "search_query" args); as_str v)) in
    if is_empty query then (Some "web search tool denied: no 'query' argument was supplied by the model", w)
    else
      match search profile query w with
      | (Ok results, w) =>
        (Some (str_join (String LF "") (("web search (" +:+ tool_name +:+ ") results for: " +:+ query) :: imap result_line results)), w)
      | (Err e, w) => (Some ("web search via SearXNG failed: " +:+ provider_error_to_string e), w)
      end
  | _, _ => (None, w)
  end.
End Search.

(** ** Tools *)

(** The messages of the request replaced. *)
Definition with_messages (ms : list ChatMessage) (r : ChatCompletionRequest) : ChatCompletionRequest :=
  {| req_model := req_model r; req_messages := ms; req_stream := req_stream r;
     req_temperature := req_temperature r; req_max_tokens := req_max_tokens r; req_top_p := req_top_p r;
     req_top_k := req_top_k r; req_frequency_penalty := req_frequency_penalty r;
     req_presence_penalty := req_presence_penalty r; req_repetition_penalty := req_repetition_penalty r;
     req_stop := req_stop r; req_seed := req_seed r; req_n := req_n r; req_logprobs := req_logprobs r;
     req_top_logprobs := req_top_logprobs r; req_logit_bias := req_logit_bias r; req_user := req_user r;
     req_tools := req_tools r; req_tool_choice := req_tool_choice r; req_parallel_tool_calls := req_parallel_tool_calls r;
     req_response_format := req_response_format r; req_reasoning := req_reasoning r |}.

(** [godwit-api/src/proxy.rs:387-395] [merge_agentic_tools] *)
Fixpoint inject_tools (existing : gset string) (tools : list Tool) : list Tool * gset string :=
  match tools with
  | [] => ([], existing)
  | t :: tools =>
    if is_native_web_search_tool t || bool_decide (fd_name t ∈ existing) then inject_tools existing tools
    else let '(added, existing) := inject_tools ({[fd_name t]} ∪ existing) tools in (t :: added, existing)
  end.
(** The tools added, given those of the registry.
    [godwit-api/src/proxy.rs:379-408] [merge_agentic_tools] *)
Definition added_tools (ws : WebSearch) (mcp_tools : list Tool) (client_tools : list Tool) : list Tool :=
  let '(added, existing) := inject_tools (list_to_set (fd_name <$> client_tools)) mcp_tools in
  if searxng ws && negb (bool_decide ("web_search" ∈ existing)) then (added ++ [web_search_tool])%list else added.

Section Loop.
Context `{JsonText} `{RpcErrors} `{Formats} `{UrlEncoding} `{Schemas} {A W Es : Type}.
Context `{!World W} `{!HttpClient W} `{!Processes W} `{!HashOrder} `{!Deadlines W} `{!Adapter A W Es}.
Context (version : string) (ws : WebSearch).
Notation TOOLS := (McpRegistry W).

(** [godwit-api/src/proxy.rs:373-409] [merge_agentic_tools] *)
Definition merge_agentic_tools (req : ChatCompletionRequest) (r : TOOLS) : ChatCompletionRequest * TOOLS :=
  let '(mcp_tools, r) := match all_tools version r with (Ok ts, r) => (ts, r) | (Err _, r) => ([], r) end in
  let added := added_tools ws mcp_tools (default [] (req_tools req)) in
  (match added with [] => req | _ => with_tools req (Some (default [] (req_tools req) ++ added)%list) end, r).

Definition tool_message (id text : string) : ChatMessage :=
  {| msg_role := "tool"; msg_content := Some [CText text]; msg_name := None; msg_tool_calls := None;
     msg_tool_call_id := Some id; msg_cache_control := None |}.

(** [godwit-api/src/proxy.rs:422-442] [resolve_tool_calls] *)
Definition resolve_call (call : ToolCall) (r : TOOLS) : string * TOOLS :=
  let name := tc_name call in
  let args := default (VObject []) (from_str (tc_arguments call)) in
  if str_contains "__" name then
    match call_tool version name args r with
    | (Ok text, r) => (text, r)
    | (Err e, r) => ("MCP tool call to '" +:+ name +:+ "' failed: " +:+ show_mcp_error e, r)
    end
  else if existsb (String.eqb name) NATIVE_WEB_SEARCH_TOOLS then
    let '(text, w) := web_search_result ws name args (os r) in
    (default ("web search tool '" +:+ name +:+ "' was requested but no SearXNG backend is configured") text,
     {| servers := servers r; os := w |})
  else ("tool '" +:+ name +:+ "' is not provisioned by the gateway", r).
(** [godwit-api/src/proxy.rs:411-454] [resolve_tool_calls] *)
Fixpoint resolve_tool_calls (calls : list ToolCall) (r : TOOLS) : list ChatMessage * TOOLS :=
  match calls with
  | [] => ([], r)
  | call :: calls =>
    let '(text, r) := resolve_call call r in
    let '(out, r) := resolve_tool_calls calls r in
    (tool_message (tc_id call) text :: out, r)
  end.

(** ** The loop *)

(** [godwit-api/src/agentic_loop.rs:15-26] [AgenticLoop] *)
Record AgenticLoop : Type := { max_iterations : nat; iteration_timeout : Z (* seconds *) }.

(** [godwit-api/src/agentic_loop.rs:136-145] [accumulate_usage] *)
Definition add_tokens (a b : option Z) : option Z :=
  match a, b with Some x, Some y => Some (as_i32 (x + y)) | a, None => a | None, b => b end.
(** The sum wraps, as in a build without overflow checks.
    [godwit-api/src/agentic_loop.rs:136-145] [accumulate_usage] *)
Definition accumulate_usage (acc report : UsageReport) : UsageReport :=
  {| u_prompt_tokens := add_tokens (u_prompt_tokens acc) (u_prompt_tokens report);
     u_completion_tokens := add_tokens (u_completion_tokens acc) (u_completion_tokens report);
     u_image_count := u_image_count acc; u_audio_seconds := u_audio_seconds acc; u_video_seconds := u_video_seconds acc;
     u_tts_characters := u_tts_characters acc; u_embedding_tokens := u_embedding_tokens acc;
     u_cache_read_tokens := u_cache_read_tokens acc; u_cache_write_tokens := u_cache_write_tokens acc |}.

(** [godwit-api/src/agentic_loop.rs:103-129] [AgenticLoop::run_iteration] *)
Definition run_iteration (resolved : ResolvedModel A) (req : ChatCompletionRequest)
  : ST W ProviderError (ChatCompletionResponse * UsageReport) :=
  rr ← with_retry sleep default_retry_policy
         (chat (rm_adapter resolved) (rm_credentials resolved) (rm_model resolved) req);
  match rr.1 with
  | PRChat completion => mret (completion, rr.2)
  | _ => throw (ProviderFailed "unexpected provider response variant during agentic chat")
  end.

(** [godwit-api/src/agentic_loop.rs:66-70] [AgenticLoop::execute] *)
Definition calls_of (completion : ChatCompletionResponse) : list ToolCall :=
  concat ((fun c => default [] (msg_tool_calls (ch_message c))) <$> resp_choices completion).

Definition provider_failed {S T} (msg : string) : ST S ApiError T := throw (CoreError (Provider msg)).

(** [godwit-api/src/agentic_loop.rs:56-64] [AgenticLoop::execute] *)
Definition check_format (req : ChatCompletionRequest) (completion : ChatCompletionResponse) : result ApiError unit :=
  match req_response_format req with
  | Some (FJsonSchema _ schema _) =>
    match c ← head (resp_choices completion); content_as_text (ch_message c) with
    | Some content =>
      map_err (fun e => CoreError (Provider ("response validation failed: " +:+ show_validation_error e)))
        (validate_response content schema)
    | None => Ok tt
    end
  | _ => Ok tt
  end.

(** The conversation so far and what it has cost. *)
Record LoopState : Type := { ls_messages : list ChatMessage; ls_usage : UsageReport }.
Notation LOOP T := (ST TOOLS ApiError T).

(** One round: the loop goes on from a new state, or returns.
    [godwit-api/src/agentic_loop.rs:37-93] [AgenticLoop::execute] *)
Definition round (self : AgenticLoop) (resolved : ResolvedModel A) (req : ChatCompletionRequest) (iteration : nat) (s : LoopState)
  : LOOP (LoopState + ChatCompletionResponse * UsageReport) := fun r =>
  match timeout (iteration_timeout self) (run_iteration resolved (with_messages (ls_messages s) req)) (os r) with
  | (Err None, w) =>
    provider_failed ("iteration " +:+ pretty (iteration + 1)%nat +:+ " timed out after " +:+ debug_secs (iteration_timeout self))
      {| servers := servers r; os := w |}
  | (Err (Some e), w) => provider_failed (provider_error_to_string e) {| servers := servers r; os := w |}
  | (Ok (completion, round_usage), w) =>
    let r := {| servers := servers r; os := w |} in
    let total_usage := accumulate_usage (ls_usage s) round_usage in
    match check_format req completion with
    | Err e => (Err e, r)
    | Ok _ =>
      match calls_of completion with
      | [] => (Ok (inr (completion, total_usage)), r)
      | tool_calls =>
        let messages := (ls_messages s ++ option_list (ch_message <$> head (resp_choices completion)))%list in
        let '(results, r) := resolve_tool_calls tool_calls r in
        match results with
        | [] => (Ok (inr (completion, total_usage)), r)
        | _ => (Ok (inl {| ls_messages := (messages ++ results)%list; ls_usage := total_usage |}), r)
        end
      end
    end
  end.

(** The rounds from [iteration] on, [n] of them.
    [godwit-api/src/agentic_loop.rs:37-100] [AgenticLoop::execute] *)
Fixpoint rounds (self : AgenticLoop) (resolved : ResolvedModel A) (req : ChatCompletionRequest) (n iteration : nat) (s : LoopState)
  : LOOP (ChatCompletionResponse * UsageReport) :=
  match n with
  | O => provider_failed ("agentic tool loop exceeded " +:+ pretty (max_iterations self) +:+ " iterations without converging")
  | S n =>
    x ← round self resolved req iteration s;
    match x with
    | inl s => rounds self resolved req n (S iteration) s
    | inr answer => mret answer
    end
  end.
(** [godwit-api/src/agentic_loop.rs:28-101] [AgenticLoop::execute] *)
Definition agentic_execute (self : AgenticLoop) (resolved : ResolvedModel A) (req : ChatCompletionRequest)
  : LOOP (ChatCompletionResponse * UsageReport) :=
  rounds self resolved req (max_iterations self) 0 {| ls_messages := req_messages req; ls_usage := no_usage |}.

(** ** Tool calls in a stream *)

Definition tool_result_event (m : ChatMessage) : Event :=
  ok_event (to_string (obj [("type", VString "tool_result"); ("message", message_to_value m)])).
(** [godwit-api/src/proxy_streaming.rs:153-177] [process_streaming_tool_calls] *)
Fixpoint tool_results (tools : list ToolCall) (r : TOOLS) : list Event * TOOLS :=
  match tools with
  | [] => ([], r)
  | t :: tools =>
    let '(evs, r) := if is_empty (tc_name t) then ([], r)
                     else let '(ms, r) := resolve_tool_calls [t] r in (tool_result_event <$> ms, r) in
    let '(rest, r) := tool_results tools r in ((evs ++ rest)%list, r)
  end.
(** The events sent on, for those that come in; [detected]: a tool call was seen.
    [godwit-api/src/proxy_streaming.rs:130-200] [process_streaming_tool_calls] *)
Fixpoint process_streaming_tool_calls (events : list Event) (buffer : ToolCallBuffer) (detected : bool) (r : TOOLS)
  : list Event * TOOLS :=
  match events with
  | [] => ([], r)
  | Err e :: _ =>
    ([ok_event (to_string (obj [("type", VString "error"); ("message", VString (provider_error_to_string e))]))], r)
  | Ok event :: events =>
    match parse_canonical_event (data event) with
    | ToolCallDelta packed =>
      let '(out, r) := process_streaming_tool_calls events (push_delta buffer packed) true r in (Ok event :: out, r)
    | Finish _ _ _ =>
      let '(results, buffer, r) :=
        if detected then let '(all, buffer) := finish_all buffer in let '(evs, r) := tool_results all r in (evs, buffer, r)
        else ([], buffer, r) in
      let '(out, r) := process_streaming_tool_calls events buffer detected r in ((Ok event :: results ++ out)%list, r)
    | _ => let '(out, r) := process_streaming_tool_calls events buffer detected r in (Ok event :: out, r)
    end
  end.
End Loop.

(** ** The tools that are merged *)

Lemma inject_tools_spec tools : forall existing,
  let '(added, existing') := inject_tools existing tools in
  existing' = existing ∪ list_to_set (fd_name <$> added) /\ NoDup (fd_name <$> added) /\
  (forall t, t ∈ added -> t ∈ tools /\ fd_name t ∉ existing /\ is_native_web_search_tool t = false) /\
  (forall t, t ∈ tools -> is_native_web_search_tool t = false -> fd_name t ∈ existing').
Proof.
  induction tools as [|t tools IH]; intros existing; simpl.
  { split_and!; [set_solver|constructor|..]; intros ? Hin; by apply elem_of_nil in Hin. }
  destruct (is_native_web_search_tool t) eqn:En; simpl.
  - specialize (IH existing). destruct (inject_tools existing tools) as [added existing']. destruct IH as (K1 & K2 & K3 & K4).
    split_and!; [done..| |].
    + intros x (? & ? & ?)%K3. split_and!; [by right|done|done].
    + intros x [->|Hin]%elem_of_cons Hx; [congruence|by apply K4].
  - case_bool_decide as Ei.
    + specialize (IH existing). destruct (inject_tools existing tools) as [added existing']. destruct IH as (K1 & K2 & K3 & K4).
      split_and!; [done..| |].
      * intros x (? & ? & ?)%K3. split_and!; [by right|done|done].
      * intros x [->|Hin]%elem_of_cons Hx; [|by apply K4]. set_solver.
    + specialize (IH ({[fd_name t]} ∪ existing)).
      destruct (inject_tools ({[fd_name t]} ∪ existing) tools) as [added existing']. destruct IH as (K1 & K2 & K3 & K4).
      split_and!.
      * rewrite K1. csimpl. set_solver.
      * csimpl. constructor; [|done]. intros (x & Ex & Hx)%list_elem_of_fmap. apply K3 in Hx as (_ & Hx & _). set_solver.
      * intros x [->|Hin]%elem_of_cons; [split_and!; [by left|done|done]|].
        apply K3 in Hin as (? & ? & ?). split_and!; [by right|set_solver|done].
      * intros x [->|Hin]%elem_of_cons Hx; [set_solver|by apply K4].
Qed.

Section LoopFacts.
Context `{JsonText} `{RpcErrors} `{Formats} `{UrlEncoding} `{Schemas} {A W Es : Type}.
Context `{!World W} `{!HttpClient W} `{!Processes W} `{!HashOrder} `{!Deadlines W} `{!Adapter A W Es}.
Context (version : string) (ws : WebSearch).
Notation TOOLS := (McpRegistry W).

(** Merging the gateway's tools keeps the request intact: the client's own tools stay
    first and in order, the rest of the request is untouched, and each tool added has a name
    that no other tool of the list has.  A tool of an MCP server is added unless the client or
    an earlier server has its name, or its name is that of a web search; [web_search] is added
    when a backend for it is configured. *)
Theorem merged_tools_are_distinct mcp_tools client_tools :
  let added := added_tools ws mcp_tools client_tools in
  NoDup (fd_name <$> added) /\
  (forall t, t ∈ added -> fd_name t ∉ fd_name <$> client_tools) /\
  (forall t, t ∈ added -> t = web_search_tool \/ t ∈ mcp_tools) /\
  (forall t, t ∈ mcp_tools -> is_native_web_search_tool t = false -> fd_name t ∈ fd_name <$> (client_tools ++ added)%list) /\
  (searxng ws = true -> "web_search" ∈ fd_name <$> (client_tools ++ added)%list).
Proof.
  unfold added_tools. pose proof (inject_tools_spec mcp_tools (list_to_set (fd_name <$> client_tools))) as Hi.
  destruct (inject_tools _ mcp_tools) as [added existing]. destruct Hi as (K1 & K2 & K3 & K4).
  assert (forall n, n ∈ existing <-> n ∈ fd_name <$> (client_tools ++ added)%list) as Hex.
  { intros n. rewrite K1, fmap_app, elem_of_union, !elem_of_list_to_set, elem_of_app. done. }
  destruct (searxng ws && negb (bool_decide ("web_search" ∈ existing))) eqn:Es'; simpl.
  - apply andb_prop in Es' as [E1 E2]. apply negb_true_iff, bool_decide_eq_false in E2.
    assert (fd_name web_search_tool = "web_search") as En by done.
    rewrite Hex, fmap_app, elem_of_app in E2.
    split_and!.
    + rewrite fmap_app. apply NoDup_app. split_and!; [done| |apply NoDup_singleton].
      intros x Hx Hw. apply list_elem_of_singleton in Hw as ->. rewrite En in Hx. tauto.
    + intros t [Ht| ->%list_elem_of_singleton]%elem_of_app; [|rewrite En; tauto].
      apply K3 in Ht as (_ & Ht & _). by rewrite elem_of_list_to_set in Ht.
    + intros t [Ht| ->%list_elem_of_singleton]%elem_of_app; [|by left]. right. by apply K3.
    + intros t Ht Hn. apply K4 in Ht; [|done]. apply Hex in Ht. rewrite app_assoc, fmap_app. apply elem_of_app. by left.
    + intros _. rewrite !fmap_app, !elem_of_app. right. right. simpl. by left.
  - split_and!; [done|..].
    + intros t (_ & Ht & _)%K3. by rewrite elem_of_list_to_set in Ht.
    + intros t Ht. right. by apply K3.
    + intros t Ht Hn. by apply Hex, K4.
    + intros E1. rewrite E1 in Es'. simpl in Es'. apply negb_false_iff, bool_decide_eq_true in Es'. by apply Hex.
Qed.

(** ** The loop ends *)

Lemma resolve_tool_calls_ids calls : forall r,
  Forall2 (fun c m => msg_role m = "tool" /\ msg_tool_call_id m = Some (tc_id c))
    calls (resolve_tool_calls version ws calls r).1.
Proof.
  induction calls as [|c calls IH]; intros r; simpl; [constructor|].
  destruct (resolve_call version ws c r) as [text r1]. specialize (IH r1).
  destruct (resolve_tool_calls version ws calls r1) as [out r2]. by constructor.
Qed.

(** One exchange: the assistant's message with its calls, and an answer to each of them. *)
Definition exchanged (s s' : LoopState) : Prop :=
  exists completion replies, calls_of completion <> [] /\
    ls_messages s' = (ls_messages s ++ option_list (ch_message <$> head (resp_choices completion)) ++ replies)%list /\
    Forall2 (fun c m => msg_role m = "tool" /\ msg_tool_call_id m = Some (tc_id c)) (calls_of completion) replies.

Lemma round_spec self (resolved : ResolvedModel A) req i s (r : TOOLS) :
  match (round version ws self resolved req i s r).1 with
  | Ok (inl s') => exchanged s s'
  | Ok (inr (completion, _)) => calls_of completion = [] /\ check_format req completion = Ok tt
  | Err _ => True
  end.
Proof.
  unfold round. destruct (timeout _ _ _) as [[[completion u]|[e|]] w]; [|done..].
  destruct (check_format req completion) as [[]|e] eqn:Ef; [|done].
  destruct (calls_of completion) as [|c cs] eqn:Ec; [done|].
  pose proof (resolve_tool_calls_ids (c :: cs) {| servers := servers r; os := w |}) as Hr.
  destruct (resolve_tool_calls version ws (c :: cs) _) as [results r1]. simpl in Hr.
  destruct results as [|m ms]; [by inversion Hr|]. simpl. exists completion, (m :: ms). rewrite Ec.
  split_and!; [done| |done]. by rewrite <- app_assoc.
Qed.

(** From round [i] in one state to round [j] in another, by rounds that go on. *)
Inductive goes_on self (resolved : ResolvedModel A) req : nat -> LoopState -> TOOLS -> nat -> LoopState -> TOOLS -> Prop :=
| goes_on_here i s r : goes_on self resolved req i s r i s r
| goes_on_round i s r s1 r1 j s2 r2 :
    round version ws self resolved req i s r = (Ok (inl s1), r1) -> exchanged s s1 ->
    goes_on self resolved req (S i) s1 r1 j s2 r2 -> goes_on self resolved req i s r j s2 r2.

(** The loop out of rounds at round [j], or returning what that round returned. *)
Definition loop_ends self (resolved : ResolvedModel A) req (limit j : nat) s (r : TOOLS)
    (out : result ApiError (ChatCompletionResponse * UsageReport) * TOOLS) : Prop :=
  (j = limit /\ out = provider_failed ("agentic tool loop exceeded " +:+ pretty (max_iterations self)
                                       +:+ " iterations without converging") r) \/
  (j < limit)%nat /\
  match round version ws self resolved req j s r with
  | (Ok (inl _), _) => False
  | (Ok (inr answer), r') => out = (Ok answer, r') /\ calls_of answer.1 = [] /\ check_format req answer.1 = Ok tt
  | (Err e, r') => out = (Err e, r')
  end.

Lemma rounds_spec self (resolved : ResolvedModel A) req n : forall i s r, exists j s' r',
  (j <= i + n)%nat /\ goes_on self resolved req i s r j s' r' /\
  loop_ends self resolved req (i + n) j s' r' (rounds version ws self resolved req n i s r).
Proof.
  induction n as [|n IH]; intros i s r.
  - exists i, s, r. split; [lia|]. split; [constructor|]. left. by rewrite Nat.add_0_r.
  - simpl. unfold mbind, st_bind. pose proof (round_spec self resolved req i s r) as Hr.
    destruct (round version ws self resolved req i s r) as [[[s1|[c u]]|e] r1] eqn:Er; simpl in Hr.
    + destruct (IH (S i) s1 r1) as (j & s' & r' & Hj & Hg & He). rewrite Nat.add_succ_comm in *.
      exists j, s', r'. split; [done|]. split; [by econstructor|done].
    + exists i, s, r. split; [lia|]. split; [constructor|]. right. split; [lia|]. by rewrite Er.
    + exists i, s, r. split; [lia|]. split; [constructor|]. right. split; [lia|]. by rewrite Er.
Qed.

Lemma execute_no_calls self (resolved : ResolvedModel A) req (r : TOOLS) completion usage r' :
  agentic_execute version ws self resolved req r = (Ok (completion, usage), r') -> calls_of completion = [].
Proof.
  intros Hx. destruct (rounds_spec self resolved req (max_iterations self) 0
              {| ls_messages := req_messages req; ls_usage := no_usage |} r) as (j & s1 & r1 & _ & _ & He).
  unfold agentic_execute in Hx. rewrite Hx in He. destruct He as [[_ He]|[_ He]]; [done|].
  destruct (round version ws self resolved req j s1 r1) as [[[?|a]|e] r3]; [done| |done]. destruct He as (E1 & He & _).
  injection E1 as E1 _. by rewrite <- E1 in He.
Qed.

(** What the gateway says to a call that it can neither route to a configured server nor run as
    a web search. *)
Inductive unresolvable (r : TOOLS) (c : ToolCall) : string -> Prop :=
| not_provisioned : str_contains "__" (tc_name c) = false -> tc_name c ∉ NATIVE_WEB_SEARCH_TOOLS ->
    unresolvable r c ("tool '" +:+ tc_name c +:+ "' is not provisioned by the gateway")
| no_search_backend : str_contains "__" (tc_name c) = false -> tc_name c ∈ NATIVE_WEB_SEARCH_TOOLS ->
    searxng ws = false \/ searxng_profile ws = None ->
    unresolvable r c ("web search tool '" +:+ tc_name c +:+ "' was requested but no SearXNG backend is configured")
| no_such_server server tool : str_contains "__" (tc_name c) = true -> split_tool_name (tc_name c) = Some (server, tool) ->
    is_empty server = false -> is_empty tool = false -> servers r !! server = None ->
    unresolvable r c ("MCP tool call to '" +:+ tc_name c +:+ "' failed: " +:+ show_mcp_error (UnknownServer server))
| no_tool_name server tool : str_contains "__" (tc_name c) = true -> split_tool_name (tc_name c) = Some (server, tool) ->
    is_empty server = true \/ is_empty tool = true ->
    unresolvable r c ("MCP tool call to '" +:+ tc_name c +:+ "' failed: " +:+ show_mcp_error (InvalidToolName (tc_name c))).

Lemma native_tool name : existsb (String.eqb name) NATIVE_WEB_SEARCH_TOOLS = bool_decide (name ∈ NATIVE_WEB_SEARCH_TOOLS).
Proof.
  apply eq_iff_eq_true. rewrite bool_decide_eq_true, existsb_exists. split.
  - intros (x & Hx & <-%String.eqb_eq). by apply list_elem_of_In.
  - intros Hx%list_elem_of_In. exists name. split; [done|]. apply String.eqb_refl.
Qed.

Lemma unresolvable_answered r c text : unresolvable r c text -> resolve_call version ws c r = (text, r).
Proof.
  unfold resolve_call. intros [Hc Hw|Hc Hw Hn|server tool Hc Hs Hns Hnt Hu|server tool Hc Hs Hn]; rewrite Hc, ?native_tool.
  - by rewrite bool_decide_eq_false_2.
  - rewrite bool_decide_eq_true_2 by done. unfold web_search_result.
    destruct Hn as [->| ->]; [|destruct (searxng ws)]; by destruct r.
  - unfold call_tool, ensure_connected. rewrite Hs, Hns, Hnt. simpl. st_unfold. by rewrite Hu.
  - unfold call_tool. rewrite Hs. by assert (is_empty server || is_empty tool = true) as -> by (apply orb_true_iff; tauto).
Qed.

(** C9: the agentic loop ends, within its bound.  It makes at most [max_iterations] rounds;
    each round that goes on has added to the conversation the assistant's message and one tool
    message for each of its calls, in order and under the call's id.  It returns the first
    completion whose messages hold no tool calls, which satisfies the format the client asked
    for, the error of the first round that fails, or, when every round went on, the error that
    says so.  So no message that reaches the client holds a tool call; the list of calls that a
    choice may carry beside its message is not looked at and is passed on.  A call that is
    neither for a tool of a configured server nor a web search there is a backend for is
    answered by the gateway itself, with a sentence that says why and without a word to the
    outside: another name, a search without a backend, a server that is not configured, a name
    that lacks its server or its tool. *)
Theorem agentic_loop_ends self (resolved : ResolvedModel A) req (r : TOOLS) :
  (exists j s' r', (j <= max_iterations self)%nat /\
     goes_on self resolved req 0 {| ls_messages := req_messages req; ls_usage := no_usage |} r j s' r' /\
     loop_ends self resolved req (max_iterations self) j s' r' (agentic_execute version ws self resolved req r)) /\
  (forall completion usage r', agentic_execute version ws self resolved req r = (Ok (completion, usage), r') ->
     calls_of completion = []) /\
  (forall c text r', unresolvable r' c text -> resolve_tool_calls version ws [c] r' = ([tool_message (tc_id c) text], r')).
Proof.
  destruct (rounds_spec self resolved req (max_iterations self) 0
              {| ls_messages := req_messages req; ls_usage := no_usage |} r) as (j & s' & r' & Hj & Hg & He).
  split_and!; [by exists j, s', r'|..].
  - intros c u r2. apply execute_no_calls.
  - intros c text r2 Hu. simpl. by rewrite (unresolvable_answered _ _ _ Hu).
Qed.
End LoopFacts.
