(* ===== verification/Chat.v ===== *)
(** * The chat endpoint

    [chat_completions] of [godwit-api/src/proxy.rs]: guardrails, then either the agentic loop
    on the model asked for, or the chain of fallbacks; and what it guarantees.

    The state adds to [Proxy] the guardrails, the MCP servers and what was recorded in the
    metrics. *)

From stdpp Require Import base gmap strings list.
From Stdlib Require Import QArith SpecFloat.
From S2P Require Import Prelude RustStr Json Core Limiter Balancer Db Metrics Auth Router Resilience Usage Backend Serde Streaming PromptCache Adapters Guardrails Proxy ProxyFacts Mcp Agentic Config.

#[local] Open Scope string_scope.
#[local] Open Scope Z_scope.

(** [godwit-api/src/proxy.rs:1434-1438] [extract_tags_from_header] *)
Definition extract_tags_from_header (header_value : option string) : list string :=
  default [] ((fun h => filterb (fun s => negb (is_empty s)) (trim <$> split_char (byte 44) h)) <$> header_value).

(** [godwit-api/src/proxy.rs:535-539] [chat_completions] *)
Definition moderation_blocked (r : ModerationResult) : ApiError :=
  ModerationBlocked (filter_map as_str (default [] (as_array (categories r)))).

(** The gauge of active requests, by model and provider. *)
Definition step_of `{F : F64} (e : Recorded) (k : string * string) : Z :=
  match e with
  | RStart m p => if decide (k = (m, p)) then 1 else 0
  | REnd m p => if decide (k = (m, p)) then -1 else 0
  | _ => 0
  end.
Definition gauge_of `{F : F64} (es : list Recorded) (k : string * string) : Z := sumZ ((fun e => step_of e k) <$> es).
Definition bump (k : string * string) (d : Z) (g : string * string -> Z) : string * string -> Z :=
  fun k' => if decide (k' = k) then g k' + d else g k'.

Section Chat.
Context `{Cr : Crypto} `{JT : JsonText} `{Sc : Schemas} `{De : Decimals} `{F : F64} {A W Es : Type}.
Context `{Wo : !World W} `{Ad : !Adapter A W Es} `{Ht : !HttpClient W} `{Pr : !Processes W} `{Dl : !Deadlines W}.
Context `{RE : RpcErrors} `{Fo : Formats} `{Ur : UrlEncoding} `{Ho : HashOrder} `{Re : Regexes} `{Sn : StatusNames}.
Context (registry : AdapterRegistry A) (master_key version : string) (ws : WebSearch) (agentic : AgenticLoop).

Record Gateway : Type := {
  gt_proxy : Proxy (F := F) (W := W);
  gt_guardrails : Guardrails;
  gt_servers : gmap string ServerEntry;
  gt_recorded : list Recorded;
}.
Definition gt_active (s : Gateway) : string * string -> Z := gauge_of (gt_recorded s).
Notation GW := (ST Gateway (failure ApiError)).

Definition put_proxy (p : Proxy (F := F) (W := W)) (s : Gateway) : Gateway :=
  {| gt_proxy := p; gt_guardrails := gt_guardrails s; gt_servers := gt_servers s; gt_recorded := gt_recorded s |}.
Definition put_world (w : W) (s : Gateway) : Gateway :=
  put_proxy {| px_db := px_db (gt_proxy s); px_lb := px_lb (gt_proxy s); px_limiter := px_limiter (gt_proxy s); px_world := w;
               px_logs := px_logs (gt_proxy s) |} s.
Definition put_guardrails (g : Guardrails) (s : Gateway) : Gateway :=
  {| gt_proxy := gt_proxy s; gt_guardrails := g; gt_servers := gt_servers s; gt_recorded := gt_recorded s |}.
Definition put_servers (m : gmap string ServerEntry) (s : Gateway) : Gateway :=
  {| gt_proxy := gt_proxy s; gt_guardrails := gt_guardrails s; gt_servers := m; gt_recorded := gt_recorded s |}.
Definition put_recorded (es : list Recorded) (s : Gateway) : Gateway :=
  {| gt_proxy := gt_proxy s; gt_guardrails := gt_guardrails s; gt_servers := gt_servers s; gt_recorded := es |}.

Definition on_proxy {T} (m : ST (Proxy (F := F) (W := W)) (failure ApiError) T) : GW T := zoom gt_proxy put_proxy m.
(** A call of the [MetricsCollector]. *)
Definition recorded (e : Recorded) : GW unit := modify (fun s => put_recorded (gt_recorded s ++ [e])%list s).
Definition count_in (k : string * string) : GW unit := recorded (RStart k.1 k.2).
Definition count_out (k : string * string) : GW unit := recorded (REnd k.1 k.2).
(** [start.elapsed().as_secs_f64()] *)
Definition elapsed_secs (start : Z) : GW f64 :=
  on_proxy (t ← gets (fun s => now (px_world s)); tick_world;; mret (as_secs (Z.max 0 (t - start)))).
(** A call of the guardrails; its error is a value, its panic is the handler's. *)
Definition on_guardrails {T} (m : ST (Guardrails * W) (failure GuardrailsError) T) : GW (result GuardrailsError T) := fun s =>
  let '(r, (g, w)) := m (gt_guardrails s, px_world (gt_proxy s)) in
  (match r with Ok x => Ok (Ok x) | Err (Failed e) => Ok (Err e) | Err Panic => Err Panic end,
   put_world w (put_guardrails g s)).
(** A computation over the tools; it cannot panic. *)
Definition on_tools {T} (m : McpRegistry W -> T * McpRegistry W) : GW T := fun s =>
  let '(x, t) := m {| servers := gt_servers s; os := px_world (gt_proxy s) |} in
  (Ok x, put_world (os t) (put_servers (servers t) s)).
Definition holding_model {T} (rm : ResolvedModel A) (m : GW T) : GW T :=
  catch m (fun r => on_proxy (on_flight (drop_resolved rm));; lift r).

(** What was answered, and what of it goes to the log. *)
Record ChatOutcome : Type := {
  co_reply : ChatReply Es; co_usage : UsageReport; co_model_used : string; co_pricing : value;
  co_attempts : Z; co_fallback : bool; co_tool_calls : option Z; co_iteration : option Z }.

(** Count the request out, then fail.
    [godwit-api/src/proxy.rs:568-571] [chat_completions] *)
Definition failed_chat {T} (k : string * string) (e : ApiError) : GW T := count_out k;; throw (Failed e).
(** The same, with a measurement.
    [godwit-api/src/proxy.rs:581-586] [chat_completions] *)
Definition measured_failure {T} (k : string * string) (start : Z) (e : ApiError) : GW T :=
  count_out k;;
  duration ← elapsed_secs start;
  recorded (RRequest k.1 k.2 "error" duration);;
  throw (Failed e).

(** [godwit-api/src/proxy.rs:529-548] [chat_completions] *)
Definition guarded_request (k : string * string) (req : ChatCompletionRequest) (request_id : string) : GW ChatCompletionRequest :=
  r ← on_guardrails (pre_call (req_messages req) request_id);
  match r with
  | Ok (Some blocked, _) => count_in k;; failed_chat k (moderation_blocked blocked)
  | Ok (None, messages) => mret (with_messages messages req)
  | Err e => count_in k;; failed_chat k (GuardError e)
  end.

(** [godwit-api/src/proxy.rs:574-576] [chat_completions] *)
Definition tool_count (completion : ChatCompletionResponse) : Z :=
  sumZ ((fun c => match msg_tool_calls (ch_message c) with Some ts => Z.of_nat (length ts) | None => 0 end) <$> resp_choices completion).

(** [godwit-api/src/proxy.rs:552-587] [chat_completions] *)
Definition agentic_chat (k : string * string) (start : Z) (primary : ResolvedModel A) (req : ChatCompletionRequest) (request_id : string)
  : GW ChatOutcome :=
  req ← on_tools (merge_agentic_tools version ws req);
  r ← on_tools (agentic_execute version ws agentic primary req);
  match r with
  | Err e => measured_failure k start e
  | Ok (completion, total_usage) =>
    p ← on_guardrails (post_call completion request_id);
    match p with
    | Ok (Some blocked, _) => failed_chat k (moderation_blocked blocked)
    | Err e => failed_chat k (GuardError e)
    | Ok (None, completion) =>
      _ ← lift (ok_or Panic (compute_cost (pricing (rm_model primary)) Chat total_usage));
      mret {| co_reply := ChatJson completion; co_usage := total_usage; co_model_used := provider_model_id (rm_model primary);
              co_pricing := pricing (rm_model primary); co_attempts := 1; co_fallback := false;
              co_tool_calls := Some (tool_count completion); co_iteration := Some (Z.of_nat (max_iterations agentic)) |}
    end
  end.

(** [godwit-api/src/proxy.rs:588-597] [chat_completions] *)
Definition plain_chat (k : string * string) (start : Z) (req : ChatCompletionRequest) : GW ChatOutcome :=
  r ← on_proxy (call_chat_with_fallback registry master_key (req_model req) req);
  match r with
  | Err e => measured_failure k start (map_provider_error e)
  | Ok fr =>
    mret {| co_reply := fr_response fr; co_usage := fr_usage fr; co_model_used := fr_model_used fr;
            co_pricing := fr_model_pricing fr; co_attempts := fr_attempts_made fr;
            co_fallback := fr_fallback_triggered fr; co_tool_calls := None; co_iteration := None |}
  end.

(** The measurements of an answered request.
    [godwit-api/src/proxy.rs:599-611] [chat_completions] *)
Definition token_records (o : ChatOutcome) : list Recorded :=
  option_list ((fun tokens => RTokens "input" (co_model_used o) (as_u32 tokens)) <$> u_prompt_tokens (co_usage o)) ++
  option_list ((fun tokens => RTokens "output" (co_model_used o) (as_u32 tokens)) <$> u_completion_tokens (co_usage o)).
(** [godwit-api/src/proxy.rs:599-611] [chat_completions] *)
Definition measure_chat (k : string * string) (start : Z) (o : ChatOutcome) : GW unit :=
  count_out k;;
  duration ← elapsed_secs start;
  recorded (RRequest (co_model_used o) k.2 "success" duration);;
  modify (fun s => put_recorded (gt_recorded s ++ token_records o)%list s).

(** [godwit-api/src/proxy.rs:613-636] [chat_completions] *)
Definition log_chat (key : ApiKey) (primary : Model) (tags : list string) (streamed : bool) (start : Z) (o : ChatOutcome)
  : GW (ChatReply Es) :=
  cost_usd ← lift (ok_or Panic (compute_cost (co_pricing o) Chat (co_usage o)));
  duration_ms ← on_proxy (elapsed_ms start);
  on_proxy (spawn_request_log
    {| le_api_key_id := key_id key; le_user_id := key_user_id key; le_organization_id := key_organization_id key;
       le_team_id := key_team_id key; le_model := co_model_used o; le_provider := model_provider primary;
       le_provider_model_id := provider_model_id primary; le_capability := capability_as_str Chat;
       le_duration_ms := duration_ms; le_streamed := streamed; le_status := "success"; le_cost_usd := cost_usd;
       le_tags := tags; le_attempt_number := co_attempts o; le_fallback_triggered := co_fallback o;
       le_tool_calls_count := co_tool_calls o; le_agentic_iteration := co_iteration o |});;
  mret (co_reply o).

Definition has_tools (req : ChatCompletionRequest) : bool := match req_tools req with Some (_ :: _) => true | _ => false end.
Definition is_streamed (req : ChatCompletionRequest) : bool := bool_decide (req_stream req = Some true).

(** The request counted in, answered and counted out.
    [godwit-api/src/proxy.rs:520-611] [chat_completions] *)
Definition answer_chat (key : ApiKey) (start : Z) (request_id : string) (req : ChatCompletionRequest) (primary : ResolvedModel A)
  : GW ChatOutcome :=
  let k := (req_model req, model_provider (rm_model primary)) in
  on_proxy (admission_checks key (rm_model primary) (estimate_request_tokens req));;
  guarded ← guarded_request k req request_id;
  count_in k;;
  o ← (if has_tools req && negb (is_streamed req) then agentic_chat k start primary guarded request_id
       else plain_chat k start guarded);
  measure_chat k start o;;
  mret o.

(** [body]: the bytes of the request, when they could be read; [request_id]: the UUID drawn.
    [godwit-api/src/proxy.rs:496-636] [chat_completions] *)
Definition chat_completions (key : ApiKey) (tags_header body : option string) (request_id : string) : GW (ChatReply Es) :=
  start ← gets (fun s => now (px_world (gt_proxy s)));
  let tags := extract_tags_from_header tags_header in
  req ← lift (ok_or Panic (b ← body; v ← from_str b; request_of_value v));
  primary ← on_proxy (resolve_model registry master_key (req_model req) Chat);
  holding_model primary (
    o ← answer_chat key start request_id req primary;
    log_chat key (rm_model primary) tags (is_streamed req) start o).
End Chat.

(** ** What a stream is rendered as *)

(** [godwit-api/src/proxy.rs:272-277] [call_chat] *)
Definition use_openai_wire (compat : option CompatConfig) : bool := from_option openai_wire_streaming false compat.

Section Wire.
Context `{JsonText} `{RpcErrors} `{Formats} `{UrlEncoding} {W : Type} `{!HttpClient W} `{!Processes W}.
Context (version : string) (ws : WebSearch) (compat : option CompatConfig).

(** The payloads the client is sent for a [ChatSse]: its events, with the results of the tools
    the gateway runs put in, rendered on the wire that the configuration chooses.  [created] is
    the time in seconds and [uuid] the identifier drawn.
    [godwit-api/src/proxy.rs:259-336] [call_chat] *)
Definition stream_payloads (created : Z) (uuid : string) (tools : bool) (stream_model : string) (stream : list Event)
    (r : McpRegistry W) : list string * McpRegistry W :=
  let '(events, r) := if tools then process_streaming_tool_calls version ws stream new_buffer false r else (stream, r) in
  let stream_id := "chatcmpl-" +:+ uuid in
  (if use_openai_wire compat then openai_wire (new_openai_egress stream_id stream_model created) events
   else canonical_wire events, r).
End Wire.

(** ** What a chat request leaves behind *)

Section Facts.
Context `{Cr : Crypto} `{JT : JsonText} `{Sc : Schemas} `{De : Decimals} `{F : F64} {A W Es : Type}.
Context `{Wo : !World W} `{Ad : !Adapter A W Es} `{Ht : !HttpClient W} `{Pr : !Processes W} `{Dl : !Deadlines W}.
Context `{RE : RpcErrors} `{Fo : Formats} `{Ur : UrlEncoding} `{Ho : HashOrder} `{Re : Regexes} `{Sn : StatusNames}.
Context (registry : AdapterRegistry A) (master_key version : string) (ws : WebSearch) (agentic : AgenticLoop).
Notation GATEWAY := (Gateway (F := F) (W := W)).
Notation GW := (ST GATEWAY (failure ApiError)).
Implicit Types (k : string * string) (s : GATEWAY).

(** Counters, tables and logs as before. *)
Definition gsteady s s' : Prop := steady (gt_proxy s) (gt_proxy s') /\ px_logs (gt_proxy s') = px_logs (gt_proxy s).
(** The gauge of [k] moved by [d], and no other. *)
Definition moved k (d : Z) s s' : Prop := forall k', gt_active s' k' = bump k d (gt_active s) k'.

(** From counters in range: nothing is left behind but a change of the gauge, [a] on success
    and [b] on an error; a panic may leave the gauge anywhere. *)
Definition keeps {T} k (a b : Z) (m : GW T) : Prop := forall s, flight_ok (px_lb (gt_proxy s)) ->
  gsteady s (m s).2 /\
  match (m s).1 with Ok _ => moved k a s (m s).2 | Err (Failed _) => moved k b s (m s).2 | Err Panic => True end.

#[local] Instance gsteady_preorder : PreOrder gsteady.
Proof.
  split; [intros s; split; [reflexivity|done]|].
  intros s1 s2 s3 [H1 L1] [H2 L2]. split; [by etransitivity|]. by rewrite L2.
Qed.
Lemma moved_0 k s s' : gt_active s' = gt_active s -> moved k 0 s s'.
Proof. intros E k'. rewrite E. unfold bump. case_decide; lia. Qed.
Lemma moved_trans k a b s1 s2 s3 : moved k a s1 s2 -> moved k b s2 s3 -> moved k (a + b) s1 s3.
Proof. intros H1 H2 k'. rewrite H2. unfold bump. specialize (H1 k'). unfold bump in H1. case_decide; lia. Qed.

Lemma keeps_bind {T U} k a b a2 b2 (m : GW T) (f : T -> GW U) :
  keeps k a b m -> (forall x, keeps k a2 b2 (f x)) -> a + b2 = b -> keeps k (a + a2) b (m ≫= f).
Proof.
  intros Hm Hf Eb s Hs. unfold mbind, st_bind. destruct (Hm s Hs) as [H1 H2].
  destruct (m s) as [[x|e] s1]; [|done]. simpl in *. destruct (Hf x s1) as [H3 H4]; [eapply flight_ok_steady; [apply H1|done]|].
  split; [by etransitivity|]. destruct (f x s1).1 as [y|[e|]]; [by eapply moved_trans| |done].
  subst b. by eapply moved_trans.
Qed.
Lemma keeps_same {T} k a b (m : GW T) : (forall s, (m s).2 = s) -> (forall s, match (m s).1 with
  | Ok _ => a = 0 | Err (Failed _) => b = 0 | Err Panic => True end) -> keeps k a b m.
Proof.
  intros Hm Ha s _. rewrite Hm. specialize (Ha s). split; [reflexivity|].
  destruct (m s).1 as [x|[e|]]; [subst; by apply moved_0..|done].
Qed.
Lemma keeps_ret {T} k b (x : T) : keeps k 0 b (mret x).
Proof. by apply keeps_same. Qed.
Lemma keeps_or_panic {T} k b (o : option T) : keeps k 0 b (lift (ok_or Panic o)).
Proof. apply keeps_same; intros; by destruct o. Qed.
Lemma gauge_app es es' k : gauge_of (es ++ es') k = gauge_of es k + gauge_of es' k.
Proof. unfold gauge_of. rewrite fmap_app. apply sumZ_app. Qed.
Lemma keeps_recorded k d b es :
  (forall k', gauge_of es k' = if decide (k' = k) then d else 0) ->
  keeps k d b (modify (fun s => put_recorded (gt_recorded s ++ es)%list s)).
Proof.
  intros He s _. split; [split; [reflexivity|done]|]. intros k'. unfold gt_active, bump. simpl. rewrite gauge_app, He. case_decide; lia.
Qed.
Lemma keeps_count_in k b : keeps k 1 b (count_in k).
Proof. destruct k. apply keeps_recorded. intros k'. unfold gauge_of. simpl. case_decide; lia. Qed.
Lemma keeps_count_out k b : keeps k (-1) b (count_out k).
Proof. destruct k. apply keeps_recorded. intros k'. unfold gauge_of. simpl. case_decide; lia. Qed.
Lemma keeps_request k b m p st d : keeps k 0 b (recorded (RRequest m p st d)).
Proof. apply keeps_recorded. intros k'. unfold gauge_of. simpl. by case_decide. Qed.
Lemma keeps_failed {T} k a e : keeps (T := T) k a (-1) (failed_chat k e).
Proof. intros s Hs. destruct (keeps_count_out k 0 s Hs) as [H1 H2]. by split. Qed.
Lemma keeps_guardrails {T} k b (m : ST (Guardrails * W) (failure GuardrailsError) T) : keeps k 0 b (on_guardrails m).
Proof.
  intros s _. unfold on_guardrails. destruct (m _) as [r [g w]].
  split; [split; [split; [reflexivity|done]|done]|]. destruct r as [x|[e|]]; [by apply moved_0..|done].
Qed.
Lemma keeps_tools {T} k b (m : McpRegistry W -> T * McpRegistry W) : keeps k 0 b (on_tools m).
Proof.
  intros s _. unfold on_tools. destruct (m _) as [r t].
  split; [split; [split; [reflexivity|done]|done]|]. by apply moved_0.
Qed.
Lemma keeps_proxy {T} k (m : ST Proxy (failure ApiError) T) : quiet m -> keeps k 0 0 (on_proxy m).
Proof.
  intros Hm s Hs. destruct (Hm (gt_proxy s) Hs) as [H1 H2]. unfold on_proxy, zoom.
  destruct (m (gt_proxy s)) as [r p]. simpl in *. split; [by split|]. destruct r as [x|[e|]]; [by apply moved_0..|done].
Qed.
Lemma keeps_ok {T} k b c (m : GW T) : keeps k 0 b m -> (forall s e, flight_ok (px_lb (gt_proxy s)) -> (m s).1 <> Err (Failed e)) ->
  keeps k 0 c m.
Proof.
  intros Hm Hn s Hs. destruct (Hm s Hs) as [H1 H2]. split; [done|]. specialize (Hn s).
  destruct (m s).1 as [x|[e|]]; [done| |done]. by destruct (Hn e).
Qed.

Lemma keeps_elapsed k b start : keeps k 0 b (elapsed_secs start).
Proof. intros s _. split; [split; [split; [reflexivity|done]|done]|]. by apply moved_0. Qed.
Lemma keeps_measured_failure {T} k a start e : keeps (T := T) k a (-1) (measured_failure k start e).
Proof.
  unfold measured_failure. replace a with (-1 + (a + 1)) by lia.
  apply (keeps_bind k (-1) (-1) (a + 1) 0); [apply keeps_count_out|intros _|done].
  rewrite <- (Z.add_0_l (a + 1)). apply (keeps_bind k 0 0 (a + 1) 0); [apply keeps_elapsed|intros d|done].
  rewrite <- (Z.add_0_l (a + 1)). apply (keeps_bind k 0 0 (a + 1) 0); [apply keeps_request|intros _|done].
  by apply keeps_same.
Qed.
Lemma gauge_token_records o k : gauge_of (token_records (Es := Es) o) k = 0.
Proof. unfold token_records. rewrite gauge_app. unfold gauge_of. by destruct (u_prompt_tokens _), (u_completion_tokens _). Qed.
Lemma keeps_measure k start o : keeps k (-1) (-1) (measure_chat (Es := Es) k start o).
Proof.
  unfold measure_chat. change (-1) with (-1 + 0) at 1.
  apply (keeps_bind k (-1) (-1) 0 0); [apply keeps_count_out|intros _|done].
  change 0 with (0 + 0) at 1. apply (keeps_bind k 0 0 0 0); [apply keeps_elapsed|intros d|done].
  change 0 with (0 + 0) at 1. apply (keeps_bind k 0 0 0 0); [apply keeps_request|intros _|done].
  apply keeps_recorded. intros k'. rewrite gauge_token_records. by case_decide.
Qed.

(** Walking a chain of fallbacks leaves nothing behind, and its errors are values. *)
Lemma chat_attempts_quiet n chain : forall idx req last, quiet (chat_attempts registry master_key n idx chain req last)
  /\ forall p e, flight_ok (px_lb p) -> (chat_attempts registry master_key n idx chain req last p).1 <> Err (Failed e).
Proof.
  assert (forall ref req, quiet (call_chat_attempt registry master_key ref req)) as Hq.
  { intros ref req p Hs. pose proof (chat_attempt_spec registry master_key ref req p Hs) as Ha.
    destruct (call_chat_attempt _ _ _ _ p) as [r p']. by destruct Ha as [(? & ? & ?) _]. }
  induction chain as [|ref chain IH]; intros idx req last; [split; [apply quiet_ret|done]|].
  cbn [chat_attempts]. split.
  - apply quiet_bind; [apply Hq|]. intros [[[resp u] pr]|e]; [apply quiet_ret|].
    destruct (_ || _); [apply quiet_ret|apply IH].
  - intros p e Hs. unfold mbind, st_bind. pose proof (chat_attempt_spec registry master_key ref req p Hs) as Ha.
    destruct (call_chat_attempt registry master_key ref req p) as [r p1]. destruct Ha as [(Hst & _) [x ->]].
    destruct x as [[[resp u] pr]|err]; [done|]. destruct (_ || _); [done|]. apply IH. by eapply flight_ok_steady.
Qed.
Lemma keeps_fallback k b model req : keeps k 0 b (on_proxy (call_chat_with_fallback registry master_key model req)).
Proof.
  assert (quiet (get_fallback_chain (F := F) (W := W) model)) as Hg.
  { intros p Hs. destruct (get_fallback_chain_spec model p) as (tl & s1 & -> & (Hu & _ & Hl) & _). by split. }
  eapply keeps_ok; [apply keeps_proxy; apply quiet_bind; [exact Hg|]; intros; apply chat_attempts_quiet|].
  intros s e Hs. unfold on_proxy, zoom, call_chat_with_fallback, mbind, st_bind.
  destruct (get_fallback_chain_spec model (gt_proxy s)) as (tl & s1 & -> & (Hu & _) & _).
  destruct (chat_attempts_quiet (length (model :: tl)) (model :: tl) 0 req None) as [_ Hn].
  specialize (Hn s1 e (flight_ok_steady _ _ Hu Hs)). by destruct (chat_attempts _ _ _ _ _ _ _ s1).
Qed.

Lemma keeps_guarded k req id_ : keeps k 0 0 (guarded_request k req id_).
Proof.
  unfold guarded_request. change 0 with (0 + 0) at 1. eapply keeps_bind; [apply keeps_guardrails| |reflexivity].
  intros [[[blocked|] ms]|e]; [|apply keeps_ret|];
    (change 0 with (1 + -1) at 1; apply (keeps_bind k 1 0 (-1) (-1)); [apply keeps_count_in|intros; apply keeps_failed|done]).
Qed.

Lemma keeps_agentic k start primary req id_ : keeps k 0 (-1) (agentic_chat version ws agentic k start primary req id_).
Proof.
  unfold agentic_chat. change 0 with (0 + 0). eapply keeps_bind; [apply keeps_tools| |reflexivity]. intros req'.
  change 0 with (0 + 0). eapply keeps_bind; [apply keeps_tools| |reflexivity]. intros [[completion u]|e]; [|apply keeps_measured_failure].
  change 0 with (0 + 0). eapply keeps_bind; [apply keeps_guardrails| |reflexivity].
  intros [[[blocked|] c]|e]; [apply keeps_failed| |apply keeps_failed].
  change 0 with (0 + 0). eapply keeps_bind; [apply keeps_or_panic|intros; apply keeps_ret|reflexivity].
Qed.

Lemma keeps_plain k start req : keeps k 0 (-1) (plain_chat registry master_key k start req).
Proof.
  unfold plain_chat. change 0 with (0 + 0). eapply keeps_bind; [apply keeps_fallback| |reflexivity].
  intros [fr|e]; [apply keeps_ret|apply keeps_measured_failure].
Qed.

Lemma keeps_answer key start id_ req primary :
  keeps (req_model req, model_provider (rm_model primary)) 0 0
    (answer_chat registry master_key version ws agentic key start id_ req primary).
Proof.
  unfold answer_chat. change 0 with (0 + 0) at 1. eapply keeps_bind; [apply keeps_proxy, quiet_admission| |reflexivity]. intros _.
  change 0 with (0 + 0) at 1. eapply keeps_bind; [apply keeps_guarded| |reflexivity]. intros req'.
  change 0 with (1 + -1) at 1. eapply (keeps_bind _ 1 0 (-1) (-1)); [apply keeps_count_in| |reflexivity]. intros _.
  change (-1) with (0 + -1) at 1. apply (keeps_bind _ 0 (-1) (-1) (-1)); [| |done].
  - destruct (has_tools req && negb (is_streamed req)); [apply keeps_agentic|apply keeps_plain].
  - intros o. change (-1) with (-1 + 0) at 1. apply (keeps_bind _ (-1) (-1) 0 0); [apply keeps_measure|intros; apply keeps_ret|done].
Qed.

(** What the log says of an outcome. *)
Definition logged key (primary : Model) tags streamed (o : ChatOutcome (Es := Es)) (le : RequestLogEntry) : Prop :=
  exists ms cost, in_i 32 ms /\ compute_cost (co_pricing o) Chat (co_usage o) = Some cost /\
  le = {| le_api_key_id := key_id key; le_user_id := key_user_id key; le_organization_id := key_organization_id key;
          le_team_id := key_team_id key; le_model := co_model_used o; le_provider := model_provider primary;
          le_provider_model_id := provider_model_id primary; le_capability := "chat";
          le_duration_ms := ms; le_streamed := streamed; le_status := "success"; le_cost_usd := cost;
          le_tags := tags; le_attempt_number := co_attempts o; le_fallback_triggered := co_fallback o;
          le_tool_calls_count := co_tool_calls o; le_agentic_iteration := co_iteration o |}.

Lemma log_chat_spec key primary tags streamed start o s :
  let '(r, s') := log_chat key primary tags streamed start o s in
  gt_recorded s' = gt_recorded s /\ gt_guardrails s' = gt_guardrails s /\ steady (gt_proxy s) (gt_proxy s') /\
  match r with
  | Ok reply => reply = co_reply o /\ exists le, logged key primary tags streamed o le /\
                px_logs (gt_proxy s') = (px_logs (gt_proxy s) ++ [le])%list
  | Err e => e = Panic /\ px_logs (gt_proxy s') = px_logs (gt_proxy s)
  end.
Proof.
  unfold log_chat, mbind, st_bind, lift. destruct (compute_cost (co_pricing o) Chat (co_usage o)) as [cost|] eqn:Ec; simpl.
  2:{ split_and!; [done|done|reflexivity|done|done]. }
  split_and!; [done|done|split; [reflexivity|done]|done|]. eexists. split; [|reflexivity].
  eexists _, cost. split; [|split; [done|reflexivity]]. by apply wrap_i_range.
Qed.

(** ** The two ways to an answer *)

Lemma rewrite_messages_calls f ms : forall m ms' m', rewrite_messages f ms m = Some (ms', m') ->
  msg_tool_calls <$> ms' = msg_tool_calls <$> ms.
Proof.
  induction ms as [|x ms IH]; intros m ms' m' H; simpl in H; [by simplify_eq|].
  apply bind_Some in H as ([c m1] & _ & H). apply bind_Some in H as ([rest m2] & Hr & [= <- <-]).
  simpl in *. csimpl. f_equal. by eapply IH.
Qed.

Lemma post_call_calls completion id_ gw v completion' gw' :
  post_call completion id_ gw = (Ok (v, completion'), gw') -> calls_of completion' = calls_of completion.
Proof.
  destruct gw as [g w]. unfold post_call.
  destruct (if moderation_post (g_config g) then _ else _) as [[[blocked|]|e] w1]; intros; simplify_eq; [done|].
  repeat case_match; simplify_eq; try done.
  match goal with H : rewrite_messages _ _ _ = Some _ |- _ => apply rewrite_messages_calls in H; rename H into Hr end.
  unfold calls_of. simpl. f_equal. revert Hr. generalize (resp_choices completion) as cs. clear. revert l.
  intros ms cs. revert ms. induction cs as [|c cs IH]; intros [|m ms] Hr; simplify_eq/=; [done|]. csimpl. f_equal; [|by apply IH].
  by rewrite H.
Qed.

Lemma no_calls_no_count completion : calls_of completion = [] -> tool_count completion = 0.
Proof.
  unfold calls_of, tool_count. induction (resp_choices completion) as [|c cs IH]; csimpl; [done|].
  intros [H1 H2]%app_nil. rewrite IH by done. by destruct (msg_tool_calls (ch_message c)) as [[|]|].
Qed.

Definition agentic_path (req : ChatCompletionRequest) : bool := has_tools req && negb (is_streamed req).

(** What the metrics keep of an answered request. *)
Definition answered_records (k : string * string) (o : ChatOutcome (Es := Es)) (d : f64) : list Recorded :=
  RStart k.1 k.2 :: REnd k.1 k.2 :: RRequest (co_model_used o) k.2 "success" d :: token_records o.
(** What came of [req] with the tools [r]: the completion of the loop, as the guardrails let it
    out, with the usage of all its rounds, under the upstream name and the prices of the model
    the request named. *)
Definition came_of_loop id_ req (primary : ResolvedModel A) (r : McpRegistry W) (o : ChatOutcome (Es := Es)) : Prop :=
  exists completion u r' guarded gw gw',
    (let '(req', r1) := merge_agentic_tools version ws req r in agentic_execute version ws agentic primary req' r1) = (Ok (completion, u), r') /\
    post_call completion id_ gw = (Ok (None, guarded), gw') /\ calls_of guarded = [] /\
    o = {| co_reply := ChatJson guarded; co_usage := u; co_model_used := provider_model_id (rm_model primary);
           co_pricing := pricing (rm_model primary); co_attempts := 1; co_fallback := false; co_tool_calls := Some 0;
           co_iteration := Some (Z.of_nat (max_iterations agentic)) |}.
(** What came of [req] on the way without tools: the result of the chain of fallbacks, as it is. *)
Definition came_of_chain req p (o : ChatOutcome (Es := Es)) : Prop :=
  exists fr p', call_chat_with_fallback registry master_key (req_model req) req p = (Ok (Ok fr), p') /\
    o = {| co_reply := fr_response fr; co_usage := fr_usage fr; co_model_used := fr_model_used fr; co_pricing := fr_model_pricing fr;
           co_attempts := fr_attempts_made fr; co_fallback := fr_fallback_triggered fr; co_tool_calls := None; co_iteration := None |}.
(** What came of the request [req], on the messages the guardrails let through. *)
Definition came_of id_ req (primary : ResolvedModel A) g (o : ChatOutcome (Es := Es)) s' : Prop :=
  exists messages g' w w', pre_call (req_messages req) id_ (g, w) = (Ok (None, messages), (g', w')) /\
  if agentic_path req then exists r, came_of_loop id_ (with_messages messages req) primary r o
  else gt_guardrails s' = g' /\ exists p, came_of_chain (with_messages messages req) p o.

Lemma guarded_request_ok k req id_ s req' s' :
  guarded_request k req id_ s = (Ok req', s') ->
  exists messages g' w', pre_call (req_messages req) id_ (gt_guardrails s, px_world (gt_proxy s)) = (Ok (None, messages), (g', w')) /\
    req' = with_messages messages req /\ gt_guardrails s' = g' /\ gt_recorded s' = gt_recorded s.
Proof.
  unfold guarded_request, on_guardrails, mbind, st_bind.
  destruct (pre_call _ _ _) as [[[[blocked|] ms]|[e|]] [g' w']]; simpl; intros H; unfold failed_chat, count_in, count_out, recorded in H;
    st_unfold; simplify_eq/=. by eexists _, _, _.
Qed.

Lemma measured_failure_ok {T} k start e s (o : T) s' : measured_failure k start e s <> (Ok o, s').
Proof. by intros [=]. Qed.
Lemma failed_chat_ok {T} k e s (o : T) s' : failed_chat k e s <> (Ok o, s').
Proof. by intros [=]. Qed.
(** The tools, the guardrails and the proxy record nothing. *)
Lemma tools_record_nothing {T} (m : McpRegistry W -> T * McpRegistry W) s r s' : on_tools m s = (r, s') -> gt_recorded s' = gt_recorded s.
Proof. unfold on_tools. destruct (m _). by intros [= <- <-]. Qed.
Lemma guardrails_record_nothing {T} (m : ST (Guardrails * W) (failure GuardrailsError) T) s r s' :
  on_guardrails m s = (r, s') -> gt_recorded s' = gt_recorded s.
Proof. unfold on_guardrails. destruct (m _) as [? [? ?]]. by intros [= <- <-]. Qed.
Lemma proxy_records_nothing {T} (m : ST Proxy (failure ApiError) T) s r s' : on_proxy m s = (r, s') -> gt_recorded s' = gt_recorded s.
Proof. unfold on_proxy, zoom. destruct (m _). by intros [= <- <-]. Qed.

#[local] Arguments post_call : simpl never.
Lemma agentic_chat_ok k start primary req id_ s o s' :
  agentic_chat version ws agentic k start primary req id_ s = (Ok o, s') ->
  gt_recorded s' = gt_recorded s /\
  came_of_loop id_ req primary {| servers := gt_servers s; os := px_world (gt_proxy s) |} o.
Proof.
  unfold agentic_chat. intros H. bind_in H; [done|]. apply tools_record_nothing in Hm as Hr1. unfold on_tools in Hm.
  destruct (merge_agentic_tools version ws req _) as [req1 r1] eqn:Em. injection Hm as <- <-. bind_in H; [done|].
  apply tools_record_nothing in Hm as Hr2. unfold on_tools in Hm.
  destruct (agentic_execute _ _ _ _ _ _) as [r t] eqn:Ex. injection Hm as <- <-.
  destruct r as [[completion u]|e]; [|by apply measured_failure_ok in H].
  simpl in Ex. destruct r1 as [srv1 os1]. simpl in Ex. apply execute_no_calls in Ex as Hn.
  bind_in H; [done|]. apply guardrails_record_nothing in Hm as Hr3. unfold on_guardrails in Hm.
  destruct (post_call completion id_ _) as [r [g w]] eqn:Ep. destruct r as [[v c]|[e|]]; [apply post_call_calls in Ep as Hc|clear Ep|done]; simplify_eq/=.
  - destruct v; [by apply failed_chat_ok in H|].
    bind_in H; [done|]. apply lift_inv in Hm as [_ ->]. injection H as <- <-. simpl. rewrite no_calls_no_count by congruence.
    split; [done|]. eexists completion, u, _, c, _, _. rewrite Em. split_and!; [exact Ex|exact Ep|congruence|done].
Qed.

Lemma plain_chat_ok k start req s o s' :
  plain_chat registry master_key k start req s = (Ok o, s') ->
  gt_recorded s' = gt_recorded s /\ gt_guardrails s' = gt_guardrails s /\ came_of_chain req (gt_proxy s) o.
Proof.
  unfold plain_chat. intros H. bind_in H; [done|]. apply proxy_records_nothing in Hm as Hr. unfold on_proxy, zoom in Hm.
  destruct (call_chat_with_fallback _ _ _ _ _) as [r p'] eqn:Ec. injection Hm as -> <-.
  destruct x as [fr|e]; [|by apply measured_failure_ok in H].
  injection H as <- <-. split_and!; [done..|]. by exists fr, p'.
Qed.

Lemma admission_keeps_guardrails {T} (m : ST Proxy (failure ApiError) T) s r s' :
  on_proxy m s = (r, s') -> gt_guardrails s' = gt_guardrails s.
Proof. unfold on_proxy, zoom. destruct (m (gt_proxy s)). intros. by simplify_eq. Qed.

Lemma measure_chat_spec k start o s : exists d,
  gt_guardrails (measure_chat (Es := Es) k start o s).2 = gt_guardrails s /\
  gt_recorded (measure_chat (Es := Es) k start o s).2 =
    (gt_recorded s ++ REnd k.1 k.2 :: RRequest (co_model_used o) k.2 "success" d :: token_records o)%list.
Proof. eexists. split; [done|]. simpl. by rewrite <- !app_assoc. Qed.

Lemma answer_chat_ok key start id_ req primary s o s' :
  answer_chat registry master_key version ws agentic key start id_ req primary s = (Ok o, s') ->
  came_of id_ req primary (gt_guardrails s) o s' /\
  exists d, gt_recorded s' = (gt_recorded s ++ answered_records (req_model req, model_provider (rm_model primary)) o d)%list.
Proof.
  unfold answer_chat. intros H. bind_in H; [done|]. apply admission_keeps_guardrails in Hm as Hg.
  apply proxy_records_nothing in Hm as Hr. clear Hm.
  bind_in H; [done|]. apply guarded_request_ok in Hm as (ms & g' & w' & Hp & -> & Hg' & Hr'). rewrite Hg in Hp.
  bind_in H; [done|]. injection Hm as _ <-.
  bind_in H; [done|]. bind_in H; [done|]. injection H as <- <-.
  destruct (measure_chat_spec (req_model req, model_provider (rm_model primary)) start x1 s2) as (d & M1 & M2).
  rewrite Hm0 in M1, M2. simpl in M1, M2.
  assert (gt_recorded s2 = (gt_recorded s ++ [RStart (req_model req) (model_provider (rm_model primary))])%list /\
          came_of id_ req primary (gt_guardrails s) x1 s3) as [Hr3 Hc].
  { unfold came_of, agentic_path. destruct (has_tools req && negb (is_streamed req)).
    - apply agentic_chat_ok in Hm as (R & Hm). split; [rewrite R; simpl; congruence|]. exists ms, g', (px_world (gt_proxy s0)), w'.
      split; [done|]. by eexists.
    - apply plain_chat_ok in Hm as (R & H1 & Hc).
      split; [rewrite R; simpl; congruence|]. exists ms, g', (px_world (gt_proxy s0)), w'. split; [done|].
      split; [simpl in *; congruence|by eexists]. }
  split; [done|]. exists d. by rewrite M2, Hr3, <- app_assoc.
Qed.

Lemma chat_completions_spec key header body id_ s :
  flight_ok (px_lb (gt_proxy s)) ->
  let '(r, s') := chat_completions registry master_key version ws agentic key header body id_ s in
  steady (gt_proxy s) (gt_proxy s') /\ (r <> Err Panic -> forall k, gt_active s' k = gt_active s k) /\
  match r with
  | Err _ => px_logs (gt_proxy s') = px_logs (gt_proxy s)
  | Ok reply => exists b v req primary o le s2, body = Some b /\ from_str b = Some v /\ request_of_value v = Some req /\
      came_of id_ req primary (gt_guardrails s) o s2 /\ gt_guardrails s' = gt_guardrails s2 /\ reply = co_reply o /\
      routed (req_model req) Chat (px_db (gt_proxy s)) (rm_model primary) (rm_profile primary) /\
      logged key (rm_model primary) (extract_tags_from_header header) (is_streamed req) o le /\
      px_logs (gt_proxy s') = (px_logs (gt_proxy s) ++ [le])%list /\
      exists d, gt_recorded s' = (gt_recorded s ++ answered_records (req_model req, model_provider (rm_model primary)) o d)%list
  end.
Proof.
  intros Hs. unfold chat_completions. unfold gets, mbind at 1, st_bind at 1. unfold lift, mbind at 1, st_bind at 1.
  destruct (b ← body; v ← from_str b; request_of_value v) as [req|] eqn:Eb; simpl.
  2:{ split_and!; [reflexivity|done|done]. }
  unfold mbind at 1, st_bind at 1. unfold on_proxy at 1, zoom at 1.
  pose proof (resolve_model_spec registry master_key (req_model req) Chat (gt_proxy s) Hs) as Hr.
  destruct (resolve_model _ _ _ _ _) as [[primary|e] p1].
  2:{ destruct Hr as (_ & H1 & H2). split_and!; [done|by intros|done]. }
  destruct Hr as (Hi & Hl & Hrt & _). unfold holding_model, catch. unfold mbind at 1, st_bind at 1.
  pose proof (keeps_answer key (now (px_world (gt_proxy s))) id_ req primary (put_proxy p1 s) (proj1 Hi)) as [[Hk1 Hk2] Hk3].
  destruct (answer_chat _ _ _ _ _ _ _ _ _ _ _) as [[o|e] s2] eqn:Ea; simpl in Hk1, Hk2, Hk3.
  - apply answer_chat_ok in Ea as (Ea & d & Ed). unfold mbind, st_bind, lift.
    pose proof (log_chat_spec key (rm_model primary) (extract_tags_from_header header) (is_streamed req)
                  (now (px_world (gt_proxy s))) o s2) as Hg.
    destruct (log_chat _ _ _ _ _ _ _) as [r s3]. destruct Hg as (G1 & Hgr & G2 & G3).
    assert (steady (gt_proxy s) (gt_proxy (on_proxy (on_flight (drop_resolved primary)) s3).2)) as Hst.
    { apply (in_scope_drop primary). eapply in_scope_steady; [exact Hi|]. by etransitivity. }
    split; [done|]. split.
    { intros _ k. unfold moved, gt_active in Hk3. unfold gt_active. simpl in *. rewrite G1, Hk3. unfold bump. simpl. case_decide; lia. }
    apply bind_Some in Eb as (b & -> & Eb). apply bind_Some in Eb as (v & Ev & Eb).
    destruct r as [reply|e]; simpl; [|destruct G3 as [_ G3]; by rewrite G3, Hk2, Hl].
    destruct G3 as (-> & le & Hle & Hlogs). exists b, v, req, primary, o, le, s2.
    split_and!; try done; [by rewrite Hlogs, Hk2, Hl|]. exists d. simpl in *. by rewrite G1, Ed.
  - assert (steady (gt_proxy s) (gt_proxy (on_proxy (on_flight (drop_resolved primary)) s2).2)) as Hst.
    { apply (in_scope_drop primary). by eapply in_scope_steady. }
    unfold mbind, st_bind, lift. simpl. split; [done|]. split; [|by rewrite Hk2, Hl].
    intros Hp k. destruct e as [e|]; [|done]. unfold moved, gt_active in Hk3. unfold gt_active. simpl in *. rewrite Hk3. unfold bump. simpl. case_decide; lia.
Qed.

Lemma chat_within key header body id_ s reply s' :
  flight_ok (px_lb (gt_proxy s)) ->
  chat_completions registry master_key version ws agentic key header body id_ s = (Ok reply, s') ->
  within_budget key (px_db (gt_proxy s)).
Proof.
  intros Hs H. unfold chat_completions in H. bind_in H; [done|]. unfold gets in Hm. simplify_eq.
  bind_in H; [done|]. apply lift_inv in Hm as [_ ->]. bind_in H; [done|]. unfold on_proxy, zoom in Hm.
  match type of Hm with context [resolve_model _ _ ?r _ ?p] => pose proof (resolve_model_spec registry master_key r Chat p Hs) as Hv end.
  destruct (resolve_model _ _ _ _ _) as [[primary|e] p1]; [|done]. simplify_eq. destruct Hv as (Hi & _).
  apply (within_budget_faults _ _ (px_db p1)); [apply Hi|].
  unfold holding_model, catch in H.
  match type of H with (let (r, s') := ?m ?s in _) = _ => destruct (m s) as [[u|e] s3] eqn:Ea end;
    [|unfold mbind, st_bind, lift in H; by simplify_eq].
  bind_in Ea; [done|]. unfold answer_chat in Hm. bind_in Hm; [done|]. unfold on_proxy, zoom in Hm0. simpl in Hm0.
  destruct (admission_checks _ _ _ p1) as [[[]|e] p2] eqn:E; [|done]. by eapply admission_within; [apply Hi|].
Qed.
End Facts.

(** ** Theorems *)

Section Theorems.
Context `{Cr : Crypto} `{JT : JsonText} `{Sc : Schemas} `{De : Decimals} `{F : F64} {A W Es : Type}.
Context `{Wo : !World W} `{Ad : !Adapter A W Es} `{Ht : !HttpClient W} `{Pr : !Processes W} `{Dl : !Deadlines W}.
Context `{RE : RpcErrors} `{Fo : Formats} `{Ur : UrlEncoding} `{Ho : HashOrder} `{Re : Regexes} `{Sn : StatusNames}.
Context (registry : AdapterRegistry A) (master_key version : string) (ws : WebSearch) (agentic : AgenticLoop).
Implicit Types s : Gateway (F := F) (W := W).

(** C17: a chat request leaves nothing hanging.  Whatever happens to it, an unreadable body, a
    refusal by limits, budgets or guardrails, failing tools, rounds or fallbacks, every model's
    in-flight counter ends where it began and the database is only read; the gauge of active
    requests does too, unless the handler panics; and a request that is not answered is not
    logged. *)
Theorem chat_leaves_nothing_hanging key header body id_ s :
  flight_ok (px_lb (gt_proxy s)) ->
  let '(r, s') := chat_completions registry master_key version ws agentic key header body id_ s in
  steady (gt_proxy s) (gt_proxy s') /\ (r <> Err Panic -> forall k, gt_active s' k = gt_active s k) /\
  (forall e, r = Err e -> px_logs (gt_proxy s') = px_logs (gt_proxy s)).
Proof.
  intros Hs. pose proof (chat_completions_spec registry master_key version ws agentic key header body id_ s Hs) as Hc.
  destruct (chat_completions _ _ _ _ _ _ _ _ _ _) as [r s']. destruct Hc as (H1 & H2 & H3).
  split_and!; [done|done|]. by intros e ->.
Qed.

(** C18: an answered chat request is logged once, for the caller and the model it named, with
    its tags, a duration of 32 bits and the cost of what it used.  With tools and unstreamed,
    the answer is the completion the agentic loop made of the masked messages and the tools
    merged in, let out by the guardrails, and the cost is that of the usage of all rounds under
    the prices of the model named, logged under its upstream name; otherwise answer, usage,
    prices, model, attempts and fallback flag are those the chain of fallbacks returned for the
    masked messages.  The two numbers kept about tools say nothing: on the agentic path the row
    always has no tool calls, whatever the model called, and the configured bound as its
    iteration; elsewhere it has neither.  The metrics count the request in and out under the
    model it named, and once as a success, with its tokens, under the model of the log. *)
Theorem chat_is_logged_once key header body id_ s reply s' :
  flight_ok (px_lb (gt_proxy s)) ->
  chat_completions registry master_key version ws agentic key header body id_ s = (Ok reply, s') ->
  exists req primary o le, (b ← body; v ← from_str b; request_of_value v) = Some req /\ reply = co_reply o /\
    routed (req_model req) Chat (px_db (gt_proxy s)) (rm_model primary) (rm_profile (A := A) primary) /\
    px_logs (gt_proxy s') = (px_logs (gt_proxy s) ++ [le])%list /\
    logged key (rm_model primary) (extract_tags_from_header header) (is_streamed req) o le /\
    (exists s2, came_of registry master_key version ws agentic id_ req primary (gt_guardrails s) o s2) /\
    (le_tool_calls_count le, le_agentic_iteration le) =
      (if agentic_path req then (Some 0, Some (Z.of_nat (max_iterations agentic))) else (None, None)) /\
    exists d, gt_recorded s' =
      (gt_recorded s ++ [RStart (req_model req) (model_provider (rm_model primary)); REnd (req_model req) (model_provider (rm_model primary));
                         RRequest (le_model le) (model_provider (rm_model primary)) "success" d] ++ token_records o)%list.
Proof.
  intros Hs E. pose proof (chat_completions_spec registry master_key version ws agentic key header body id_ s Hs) as Hc.
  rewrite E in Hc. destruct Hc as (_ & _ & b & v & req & primary & o & le & s2 & -> & Hv & Hr & Hcame & _ & -> & Hrt & Hle & Hlog & d & Hrec).
  exists req, primary, o, le. split; [simpl; by rewrite Hv|]. split_and!; [done..|by eexists| |].
  2:{ exists d. rewrite Hrec. by destruct Hle as (? & ? & _ & _ & ->). }
  destruct Hcame as (ms & g' & w & w' & _ & Hcame), Hle as (ms' & cost & _ & _ & ->). simpl.
  destruct (agentic_path req).
  - by destruct Hcame as (r & ? & ? & ? & ? & ? & ? & _ & _ & _ & ->).
  - by destruct Hcame as (_ & p & fr & p' & _ & ->).
Qed.

(** Without tools, and in every stream, the answer is not guarded.  The reply the client
    gets is the one the chain of fallbacks gave to the masked messages, as it is: it is not
    moderated, its placeholders are not replaced, and what was masked stays in the memory of
    the guardrails. *)
Theorem plain_answers_are_not_guarded key header body id_ s req reply s' :
  flight_ok (px_lb (gt_proxy s)) ->
  (b ← body; v ← from_str b; request_of_value v) = Some req -> agentic_path req = false ->
  chat_completions registry master_key version ws agentic key header body id_ s = (Ok reply, s') ->
  exists messages g' w w' fr p p',
    pre_call (req_messages req) id_ (gt_guardrails s, w) = (Ok (None, messages), (g', w')) /\
    call_chat_with_fallback registry master_key (req_model req) (with_messages messages req) p = (Ok (Ok fr), p') /\
    reply = fr_response fr /\ gt_guardrails s' = g'.
Proof.
  intros Hs Hb Hp E. pose proof (chat_completions_spec registry master_key version ws agentic key header body id_ s Hs) as Hc.
  rewrite E in Hc. destruct Hc as (_ & _ & b & v & req' & primary & o & le & s2 & -> & Hv & Hr & Hcame & Hg & -> & _).
  simpl in Hb. rewrite Hv in Hb. simpl in Hb. assert (req' = req) as -> by congruence.
  destruct Hcame as (ms & g' & w & w' & Hpre & Hcame). rewrite Hp in Hcame.
  destruct Hcame as (Hgr & p & fr & p' & Hcall & ->).
  exists ms, g', w, w', fr, p, p'. split_and!; [done..|congruence].
Qed.
End Theorems.

(** ** Witnesses *)

(** A backend that answers with the last message it was sent. *)
Definition echo_completion (req : ChatCompletionRequest) : ChatCompletionResponse :=
  {| resp_id := "c1"; resp_object := "chat.completion"; resp_created := 0; resp_model := "m";
     resp_choices := option_list ((fun m => {| ch_index := 0; ch_message := m; ch_finish_reason := Some "stop"; ch_logprobs := None;
                                               ch_tool_calls := None |}) <$> last (req_messages req));
     resp_usage := None |}.
Definition echo_adapter : Adapter nat Z unit :=
  {| chat a _ _ req := answer a (PRChat (echo_completion req));
     chat_stream a _ _ _ := fun w => (Ok tt, w + 1);
     image_generation a _ _ _ := unexpected_variant;
     image_edit a _ _ _ _ _ _ := unexpected_variant;
     audio_tts a _ _ _ := unexpected_variant;
     audio_stt a _ _ _ _ _ _ := unexpected_variant;
     embedding a _ _ _ := unexpected_variant |}.
Definition no_http : HttpClient Z :=
  {| send := fun _ w => (SendFailed "", w); send_within := fun _ _ w => (None, w); json_error := fun _ => "" |}.
Definition no_processes : Processes Z := {| spawn _ w := (Err "not found", w) |}.
Definition patient : Deadlines Z := {| gives_up _ _ _ _ := None |}.
Definition plain_formats : Formats := {| decode_error t := t; invalid_mime _ := None |}.
Definition no_urls : UrlEncoding := {| query_string _ := "" |}.
Definition one_email : Regexes :=
  {| find_iter p s := if String.eqb p (pii_pattern {| pii_name := ""; pii_pattern := "[a-zA-Z0-9._%+-]+@[a-zA-Z0-9.-]+\.[a-zA-Z]{2,}"; pii_replacement := "" |})
                         && String.eqb s "mail a@b.cc now" then [(5, 11)] else [] |}.
Definition ascii_reasons : StatusNames := {| canonical_reason _ := "" |}.
#[local] Existing Instances toy_crypto coded_json no_schemas exact_decimals whole_f64 counting_world echo_adapter no_http
  no_processes patient mcp_errors plain_formats no_urls hash_order one_email ascii_reasons.

Definition masking_gateway : Gateway (F := whole_f64) (W := Z) :=
  {| gt_proxy := shop None; gt_guardrails := sample_masking; gt_servers := ∅; gt_recorded := [] |}.
Definition four_rounds : AgenticLoop := {| max_iterations := 4; iteration_timeout := 120 |}.
Definition no_search : WebSearch := {| searxng := false; searxng_profile := None |}.
Definition mail_request : ChatCompletionRequest := basic_request "idle" [text_message "user" "mail a@b.cc now"].
Definition tool_request : ChatCompletionRequest := with_tools mail_request (Some [web_search_tool]).
Definition body_of (r : ChatCompletionRequest) : option string := Some (to_string (request_to_value r)).
Abbreviation chat_of r :=
  (chat_completions up_and_down "k" "1" no_search four_rounds sample_key (Some "a, b") (body_of r) "r" masking_gateway).
Definition reply_text (r : ChatReply unit) : option string :=
  match r with ChatJson c => c ← head (resp_choices c); content_as_text (ch_message c) | _ => None end.

Lemma chat_leaves_nothing_hanging_witness :
  is_ok (chat_of mail_request).1 = true /\ same_flight lb_new (px_lb (gt_proxy (chat_of mail_request).2)).
Proof.
  split; [vm_compute; reflexivity|].
  pose proof (chat_leaves_nothing_hanging up_and_down "k" "1" no_search four_rounds sample_key (Some "a, b")
                (body_of mail_request) "r" masking_gateway lb_new_flight_ok) as Hc.
  destruct (chat_completions _ _ _ _ _ _ _ _ _ _) as [r s']. exact (proj1 (proj1 Hc)).
Defined.

Lemma chat_is_logged_once_witness :
  exists le, px_logs (gt_proxy (chat_of tool_request).2) = [le] /\ le_tool_calls_count le = Some 0 /\ le_agentic_iteration le = Some 4.
Proof.
  assert (is_ok (chat_of tool_request).1 = true) as Hb by (vm_compute; reflexivity).
  destruct (chat_of tool_request) as [[reply|e] s'] eqn:E; [|discriminate Hb].
  destruct (chat_is_logged_once up_and_down "k" "1" no_search four_rounds sample_key (Some "a, b") (body_of tool_request) "r"
              masking_gateway reply s' lb_new_flight_ok E) as (req & primary & o & le & Hreq & _ & _ & Hl & _ & _ & Hn & _).
  assert ((b ← body_of tool_request; v ← from_str b; request_of_value v) = Some tool_request) as Hreq' by (vm_compute; reflexivity).
  rewrite Hreq' in Hreq. injection Hreq as <-. exists le. split; [exact Hl|].
  change (agentic_path tool_request) with true in Hn. cbn iota beta in Hn. injection Hn as -> ->. split; reflexivity.
Defined.

Lemma plain_answers_are_not_guarded_witness :
  match chat_of mail_request with
  | (Ok reply, s') => reply_text reply = Some "mail [EMAIL] now" /\
      exists m, pii_masker (gt_guardrails s') = Some m /\ mask_map m !! "r" <> None /\
      exists messages g' w w', pre_call (req_messages mail_request) "r" (sample_masking, w) = (Ok (None, messages), (g', w'))
  | _ => False
  end.
Proof.
  assert (match chat_of mail_request with
          | (Ok reply, s') => bool_decide (reply_text reply = Some "mail [EMAIL] now") &&
              match pii_masker (gt_guardrails s') with Some m => bool_decide (mask_map m !! "r" <> None) | None => false end
          | _ => false end = true) as Hb by (vm_compute; reflexivity).
  destruct (chat_of mail_request) as [[reply|e] s'] eqn:E; [|discriminate Hb].
  apply andb_prop in Hb as [H1 H2]. apply bool_decide_eq_true in H1. split; [exact H1|].
  destruct (pii_masker (gt_guardrails s')) as [m|]; [|discriminate H2]. apply bool_decide_eq_true in H2.
  exists m. split; [reflexivity|]. split; [exact H2|].
  destruct (plain_answers_are_not_guarded up_and_down "k" "1" no_search four_rounds sample_key (Some "a, b") (body_of mail_request) "r"
              masking_gateway mail_request reply s' lb_new_flight_ok) as (ms & g' & w & w' & fr & p & p' & Hp & _);
    [vm_compute; reflexivity|reflexivity|exact E|].
  exists ms, g', w, w'. exact Hp.
Defined.
