(* ===== verification/Messages.v ===== *)
(** * The Anthropic endpoint

    [godwit-api/src/anthropic_proxy.rs]: [/v1/messages], its own envelope translated to and
    from a chat request, and its own walk of the fallbacks, which checks rate limits and no
    budget.  The state is the one of [Proxy.v]. *)

From stdpp Require Import base gmap strings list.
From Stdlib Require Import QArith SpecFloat.
From S2P Require Import Prelude RustStr Json Core Limiter Balancer Db Auth Router Resilience Usage Backend Serde Streaming PromptCache Adapters Anthropic Proxy ProxyFacts.

#[local] Open Scope string_scope.
#[local] Open Scope Z_scope.

(** ** The envelope *)

(** [godwit-api/src/anthropic_proxy.rs:45-49] [AnthropicMessage] *)
Record AnthropicMessage : Type := { an_role : string; an_content : string }.
(** [godwit-api/src/anthropic_proxy.rs:51-56] [AnthropicTool] *)
Record AnthropicTool : Type := { at_name : string; at_description : option string; at_input_schema : option value }.
(** [godwit-api/src/anthropic_proxy.rs:58-64] [AnthropicToolChoice] *)
Inductive AnthropicToolChoice : Type :=
| AnAuto
| AnAny
| AnTool (name : string).
(** [godwit-api/src/anthropic_proxy.rs:28-43] [AnthropicMessagesRequest] *)
Record AnthropicMessagesRequest : Type := {
  amr_model : string; amr_messages : list AnthropicMessage; amr_max_tokens : Z; amr_stream : bool;
  amr_system : option string; amr_temperature : option Q; amr_top_p : option Q; amr_top_k : option Z;
  amr_stop_sequences : option (list string); amr_tools : option (list AnthropicTool);
  amr_tool_choice : option AnthropicToolChoice }.

(** [godwit-api/src/anthropic_proxy.rs:45-49] [AnthropicMessage::deserialize] *)
Definition an_message_of_value (v : value) : option AnthropicMessage :=
  fs ← struct_fields ["role"; "content"] v;
  r ← field fs "role" rd_string;
  c ← field fs "content" rd_string;
  Some {| an_role := r; an_content := c |}.
(** [godwit-api/src/anthropic_proxy.rs:51-56] [AnthropicTool::deserialize] *)
Definition an_tool_of_value (v : value) : option AnthropicTool :=
  fs ← struct_fields ["name"; "description"; "input_schema"] v;
  n ← field fs "name" rd_string;
  d ← opt_field fs "description" rd_string;
  s ← opt_field fs "input_schema" rd_value;
  Some {| at_name := n; at_description := d; at_input_schema := s |}.
(** Externally tagged: the name of the variant, or an object with that one key.
    [godwit-api/src/anthropic_proxy.rs:58-64] [AnthropicToolChoice::deserialize] *)
Definition an_tool_choice_of_value (v : value) : option AnthropicToolChoice :=
  let unit_variant k :=
    if String.eqb k "auto" then Some AnAuto else if String.eqb k "any" then Some AnAny else None in
  match v with
  | VString k => unit_variant k
  | VObject [(k, body)] =>
    if String.eqb k "tool" then fs ← struct_fields ["name"] body; AnTool <$> field fs "name" rd_string
    else match body with Null => unit_variant k | _ => None end
  | _ => None
  end.
(** [godwit-api/src/anthropic_proxy.rs:28-43] [AnthropicMessagesRequest::deserialize] *)
Definition an_request_of_value (v : value) : option AnthropicMessagesRequest :=
  fs ← struct_fields ["model"; "messages"; "max_tokens"; "stream"; "system"; "temperature"; "top_p"; "top_k";
                      "stop_sequences"; "tools"; "tool_choice"] v;
  model ← field fs "model" rd_string;
  messages ← field fs "messages" (rd_list an_message_of_value);
  max_tokens ← field fs "max_tokens" (rd_i 32);
  stream ← field_or fs "stream" rd_bool false;
  system ← opt_field_or fs "system" rd_string;
  temperature ← opt_field fs "temperature" rd_f32;
  top_p ← opt_field fs "top_p" rd_f32;
  top_k ← opt_field fs "top_k" (rd_i 32);
  stop ← opt_field fs "stop_sequences" (rd_list rd_string);
  tools ← opt_field fs "tools" (rd_list an_tool_of_value);
  choice ← opt_field fs "tool_choice" an_tool_choice_of_value;
  Some {| amr_model := model; amr_messages := messages; amr_max_tokens := max_tokens; amr_stream := stream;
          amr_system := system; amr_temperature := temperature; amr_top_p := top_p; amr_top_k := top_k;
          amr_stop_sequences := stop; amr_tools := tools; amr_tool_choice := choice |}.

(** [godwit-api/src/anthropic_proxy.rs:96-105] [anthropic_message_to_core] *)
Definition anthropic_message_to_core (m : AnthropicMessage) : ChatMessage := text_message (an_role m) (an_content m).
(** [godwit-api/src/anthropic_proxy.rs:107-116] [anthropic_tool_to_core] *)
Definition anthropic_tool_to_core (t : AnthropicTool) : Tool :=
  {| tool_type := "function"; fd_name := at_name t; fd_description := at_description t; fd_parameters := at_input_schema t |}.
(** [godwit-api/src/anthropic_proxy.rs:118-151] [anthropic_request_to_core] *)
Definition anthropic_request_to_core (req : AnthropicMessagesRequest) : ChatCompletionRequest :=
  {| req_model := amr_model req;
     req_messages := (option_list (text_message "system" <$> amr_system req) ++ (anthropic_message_to_core <$> amr_messages req))%list;
     req_stream := Some (amr_stream req); req_temperature := amr_temperature req; req_max_tokens := Some (amr_max_tokens req);
     req_top_p := amr_top_p req; req_top_k := amr_top_k req; req_frequency_penalty := None; req_presence_penalty := None;
     req_repetition_penalty := None; req_stop := StopArray <$> amr_stop_sequences req; req_seed := None; req_n := None;
     req_logprobs := None; req_top_logprobs := None; req_logit_bias := None; req_user := None;
     req_tools := map anthropic_tool_to_core <$> amr_tools req;
     req_tool_choice := (fun tc => match tc with AnAuto => TCAuto | AnAny => TCRequired | AnTool n => TCFunction n end)
                          <$> amr_tool_choice req;
     req_parallel_tool_calls := None; req_response_format := None; req_reasoning := None |}.

(** [godwit-api/src/anthropic_proxy.rs:77-82] [AnthropicContentBlock] *)
Inductive ContentBlock : Type :=
| AnText (text : string)
| AnToolUse (id name : string) (input : value).
(** [godwit-api/src/anthropic_proxy.rs:66-75] [AnthropicMessagesResponse] *)
Record AnthropicMessagesResponse : Type := {
  ar_id : string; ar_model : string; ar_content : list ContentBlock; ar_stop_reason : option string;
  ar_input_tokens : Z; ar_output_tokens : Z }.

(** [godwit-api/src/anthropic_proxy.rs:77-82] [AnthropicContentBlock::serialize] *)
Definition content_block_to_value (b : ContentBlock) : value :=
  match b with
  | AnText t => obj [("type", VString "text"); ("text", VString t)]
  | AnToolUse i n x => obj [("type", VString "tool_use"); ("id", VString i); ("name", VString n); ("input", x)]
  end.
(** [godwit-api/src/anthropic_proxy.rs:66-88] [AnthropicMessagesResponse::serialize] *)
Definition anthropic_response_to_value (r : AnthropicMessagesResponse) : value :=
  obj [("id", VString (ar_id r)); ("type", VString "message"); ("role", VString "assistant"); ("model", VString (ar_model r));
       ("content", wr_list content_block_to_value (ar_content r)); ("stop_reason", opt_value VString (ar_stop_reason r));
       ("usage", obj [("input_tokens", num (ar_input_tokens r)); ("output_tokens", num (ar_output_tokens r))])].

(** [godwit-api/src/anthropic_proxy.rs:153-162] [core_finish_reason_to_anthropic] *)
Definition core_finish_reason_to_anthropic (reason : option string) : option string :=
  (fun r => if String.eqb r "stop" then "end_turn"
            else if String.eqb r "length" then "max_tokens"
            else if String.eqb r "tool_calls" then "tool_use"
            else if String.eqb r "content_filter" then "end_turn"
            else r) <$> reason.
(** [godwit-api/src/anthropic_proxy.rs:164-175] [core_usage_to_anthropic] *)
Definition core_usage_to_anthropic (usage : option Usage) : Z * Z :=
  match usage with Some u => (prompt_tokens u, completion_tokens u) | None => (0, 0) end.

Section Endpoint.
Context `{Cr : Crypto} `{JT : JsonText} `{Sc : Schemas} `{De : Decimals} `{F : F64} {A W Es : Type}.
Context `{Wo : !World W} `{Ad : !Adapter A W Es}.
Context (registry : AdapterRegistry A) (master_key : string).
Notation PROXY := (ST (Proxy (F := F) (W := W)) (failure ApiError)).

(** [godwit-api/src/anthropic_proxy.rs:185-202] [core_response_to_anthropic] *)
Definition content_blocks (m : ChatMessage) : list ContentBlock :=
  (((fun call => AnToolUse (tc_id call) (tc_name call)
                   (default (obj [("arguments", VString (tc_arguments call))]) (from_str (tc_arguments call))))
     <$> default [] (msg_tool_calls m))
   ++ match content_as_text m with Some t => if is_empty t then [] else [AnText t] | None => [] end)%list.
(** [godwit-api/src/anthropic_proxy.rs:177-216] [core_response_to_anthropic] *)
Definition core_response_to_anthropic (response : ChatCompletionResponse) : AnthropicMessagesResponse :=
  let choice := head (resp_choices response) in
  let usage := core_usage_to_anthropic (resp_usage response) in
  {| ar_id := resp_id response; ar_model := resp_model response;
     ar_content := from_option (fun c => content_blocks (ch_message c)) [] choice;
     ar_stop_reason := c ← choice; core_finish_reason_to_anthropic (ch_finish_reason c);
     ar_input_tokens := usage.1; ar_output_tokens := usage.2 |}.

(** [godwit-api/src/anthropic_proxy.rs:450-471] [attempt_anthropic_chat] *)
Definition attempt_anthropic_chat (core_req : ChatCompletionRequest) (resolved : ResolvedModel A)
  : ST W ProviderError AnthropicMessagesResponse :=
  rr ← with_retry sleep default_policy (chat (rm_adapter resolved) (rm_credentials resolved) (rm_model resolved) core_req);
  match rr.1 with
  | PRChat completion => mret (core_response_to_anthropic completion)
  | _ => throw (ProviderFailed "unexpected provider response variant")
  end.

(** The stream and the model its events name; their rendering is [Streaming.anthropic_wire].
    [godwit-api/src/anthropic_proxy.rs:473-495] [attempt_anthropic_stream] *)
Definition attempt_anthropic_stream (core_req : ChatCompletionRequest) (resolved : ResolvedModel A)
  : ST W ProviderError (string * Es) :=
  stream ← with_retry sleep default_policy
             (chat_stream (rm_adapter resolved) (rm_credentials resolved) (rm_model resolved) core_req);
  mret (if is_empty (provider_model_id (rm_model resolved)) then public_id (rm_model resolved)
        else provider_model_id (rm_model resolved), stream).

(** The organization's limits as read at the start of the request.
    [godwit-api/src/anthropic_proxy.rs:238-249] [messages] *)
Definition check_limits (key : ApiKey) (org : Organization) (model : Model) (estimated_tokens : Z) : PROXY unit :=
  clock ← gets (fun s => readings (px_world s));
  tick_world;;
  on_limiter (fun e => RateLimited e.2)
    (check_and_consume clock (key_id key) (key_organization_id key) (public_id model)
       (key_rpm key) (key_tpm key) (org_rpm org) (org_tpm org) estimated_tokens).

Section Attempts.
Context {B : Type} (attempt : ResolvedModel A -> ST W ProviderError B).
Context (key : ApiKey) (org : Organization) (estimated_tokens : Z).

(** What a fallback gives: nothing when its model does not resolve, the error of its rate limit,
    the error of its backend, or an answer and the model it came from.
    [godwit-api/src/anthropic_proxy.rs:367-404] [messages] *)
Definition try_message_fallback (fallback_id : string) : PROXY (option (result (ApiError + ApiError) (B * Model))) :=
  catch (resolve_model registry master_key fallback_id Chat) (fun r =>
    match r with
    | Ok resolved =>
      holding resolved (catch (check_limits key org (rm_model resolved) estimated_tokens) (fun l =>
        match l with
        | Err (Failed rl) => mret (Some (Err (inl rl)))
        | Err Panic => throw Panic
        | Ok _ =>
          b ← on_world (attempt resolved);
          mret (Some (match b with Ok b => Ok (b, rm_model resolved) | Err e => Err (inr (map_provider_error e)) end))
        end))
    | Err (Failed _) => mret None
    | Err Panic => throw Panic
    end).
(** [godwit-api/src/anthropic_proxy.rs:361-406] [messages] *)
Fixpoint message_fallbacks (chain : list string) (rate_limited_err : option ApiError) (last_err : ApiError) : PROXY (B * Model) :=
  match chain with
  | [] => throw (Failed (default last_err rate_limited_err))
  | fallback_id :: chain =>
    r ← try_message_fallback fallback_id;
    match r with
    | Some (Ok bm) => mret bm
    | Some (Err (inl rl)) => message_fallbacks chain (Some rl) last_err
    | Some (Err (inr e)) => message_fallbacks chain rate_limited_err e
    | None => message_fallbacks chain rate_limited_err last_err
    end
  end.

(** Try the model asked for, then its fallbacks; [k] ends the request with what was answered.
    [godwit-api/src/anthropic_proxy.rs:353-409] [messages] *)
Definition attempted {U} (resolved : ResolvedModel A) (k : B -> Model -> PROXY U) : PROXY U :=
  r ← on_world (attempt resolved);
  match r with
  | Ok b => holding resolved (k b (rm_model resolved))
  | Err e =>
    on_flight (drop_resolved resolved);;
    bm ← message_fallbacks (router_fallback_chain (rm_model resolved)) None (map_provider_error e);
    k bm.1 bm.2
  end.
End Attempts.

(** [godwit-api/src/anthropic_proxy.rs:323-341] [messages] *)
Definition streamed_entry (key : ApiKey) (m : Model) (duration_ms : Z) (cost_usd : option Q) : RequestLogEntry :=
  {| le_api_key_id := key_id key; le_user_id := key_user_id key; le_organization_id := key_organization_id key;
     le_team_id := key_team_id key; le_model := public_id m; le_provider := model_provider m;
     le_provider_model_id := provider_model_id m; le_capability := capability_as_str Chat;
     le_duration_ms := duration_ms; le_streamed := true; le_status := "success"; le_cost_usd := cost_usd;
     le_tags := []; le_attempt_number := 1; le_fallback_triggered := false; le_tool_calls_count := None;
     le_agentic_iteration := None |}.
(** The model named is the one asked for, whichever model streams, and no usage is known.
    [godwit-api/src/anthropic_proxy.rs:318-350] [messages] *)
Definition finish_stream (key : ApiKey) (start : Z) (primary : Model) : PROXY unit :=
  cost_usd ← lift (ok_or Panic (compute_cost (pricing primary) Chat no_usage));
  duration_ms ← elapsed_ms start;
  spawn_request_log (streamed_entry key primary duration_ms cost_usd);;
  if negb (is_id (model_id primary) nil_uuid) then
    latency ← elapsed_ms start;
    on_flight (record_latency (model_id primary) (b64 latency))
  else mret tt.

(** [godwit-api/src/anthropic_proxy.rs:414-418] [messages] *)
Definition response_usage (r : AnthropicMessagesResponse) : UsageReport :=
  {| u_prompt_tokens := Some (ar_input_tokens r); u_completion_tokens := Some (ar_output_tokens r);
     u_image_count := None; u_audio_seconds := None; u_video_seconds := None; u_tts_characters := None;
     u_embedding_tokens := None; u_cache_read_tokens := None; u_cache_write_tokens := None |}.

(** An answer, or a stream with the model its events name. *)
Inductive MessagesReply : Type :=
| AnJson (r : AnthropicMessagesResponse)
| AnSse (model : string) (stream : Es).

(** The end of an answered request that is not a stream: as that of the OpenAI endpoints.
    [godwit-api/src/anthropic_proxy.rs:411-448] [messages] *)
Definition finish_message (key : ApiKey) (start : Z) (r : AnthropicMessagesResponse) (m : Model) : PROXY MessagesReply :=
  finish key Chat start (AnJson r, response_usage r, m).

(** [godwit-api/src/anthropic_proxy.rs:218-448] [messages] *)
Definition messages (key : ApiKey) (req : AnthropicMessagesRequest) : PROXY MessagesReply :=
  start ← gets (fun s => now (px_world s));
  let core_req := anthropic_request_to_core req in
  resolved ← resolve_model registry master_key (req_model core_req) Chat;
  let estimated_tokens := estimate_request_tokens core_req in
  org ← holding_on_error resolved (on_db_api (st_map_err CoreError (org_get_by_id (key_organization_id key))));
  holding_on_error resolved (check_limits key org (rm_model resolved) estimated_tokens);;
  if amr_stream req then
    attempted (attempt_anthropic_stream core_req) key org estimated_tokens resolved (fun s _ =>
      finish_stream key start (rm_model resolved);; mret (AnSse s.1 s.2))
  else
    attempted (attempt_anthropic_chat core_req) key org estimated_tokens resolved (finish_message key start).
End Endpoint.

(** ** Facts *)

(** What no usage costs: nothing is known, so nothing is charged. *)
Lemma no_usage_no_cost `{JsonText} `{Decimals} p : compute_cost p Chat no_usage = Some None.
Proof. simpl. unfold compute_chat_cost. by repeat case_match. Qed.

Section Facts.
Context `{Cr : Crypto} `{JT : JsonText} `{Sc : Schemas} `{De : Decimals} `{F : F64} {A W Es : Type}.
Context `{Wo : !World W} `{Ad : !Adapter A W Es}.
Context (registry : AdapterRegistry A) (master_key : string).
Implicit Types s : Proxy (F := F) (W := W).

Lemma quiet_check_limits key org m n : quiet (check_limits (F := F) (W := W) key org m n).
Proof.
  unfold check_limits. apply quiet_bind; [apply quiet_gets|]. intros clock.
  apply quiet_bind; [apply quiet_tick|]. intros _. apply quiet_limiter.
Qed.

Section Attempts.
Context {B : Type} (attempt : ResolvedModel A -> ST W ProviderError B) (key : ApiKey) (org : Organization) (n : Z).

(** Resolving a model, and dropping it in what follows. *)
Lemma quiet_resolving {T} model_ref c (k : _ -> ST _ (failure ApiError) T) :
  (forall rm s0 s, in_scope rm s0 s -> steady s0 (k (Ok rm) s).2 /\ px_logs (k (Ok rm) s).2 = px_logs s) ->
  (forall e, quiet (k (Err e))) -> quiet (catch (resolve_model registry master_key model_ref c) k).
Proof.
  intros Hk He s Hs. unfold catch. pose proof (resolve_model_spec registry master_key model_ref c s Hs) as Hr.
  destruct (resolve_model registry master_key model_ref c s) as [[rm|e] s1].
  - destruct Hr as (Hi & Hl & _). destruct (Hk rm s s1 Hi) as [H1 H2]. split; [done|congruence].
  - destruct Hr as (_ & H1 & H2). destruct (He e s1) as [H3 H4]; [by eapply flight_ok_steady|].
    split; [by etransitivity|congruence].
Qed.

Lemma quiet_message_fallback id_ : quiet (try_message_fallback registry master_key attempt key org n id_).
Proof.
  apply quiet_resolving; [|intros [e|]; [apply quiet_ret|apply quiet_throw]].
  intros rm s0 s Hi. apply holding_quiet; [|done].
  apply quiet_catch; [apply quiet_check_limits|]. intros [u|[e|]]; [|apply quiet_ret|apply quiet_throw].
  apply quiet_bind; [apply quiet_world|]. intros. apply quiet_ret.
Qed.
Lemma quiet_message_fallbacks chain : forall rl e, quiet (message_fallbacks registry master_key attempt key org n chain rl e).
Proof.
  induction chain as [|id_ chain IH]; intros rl e; [apply quiet_throw|].
  apply quiet_bind; [apply quiet_message_fallback|]. intros [[bm|[x|x]]|]; [apply quiet_ret|apply IH..].
Qed.

(** A walk ends with [k], which writes one row, or fails having left nothing. *)
Lemma attempted_spec {U} resolved (k : B -> Model -> ST _ (failure ApiError) U) s0 s (Q : U -> RequestLogEntry -> Prop) :
  flight_ok (px_lb s0) -> in_scope resolved s0 s ->
  (forall b m s1, flight_ok (px_lb s1) ->
     let '(r, s2) := k b m s1 in
     steady s1 s2 /\ match r with Ok u => exists le, Q u le /\ px_logs s2 = (px_logs s1 ++ [le])%list | Err _ => px_logs s2 = px_logs s1 end) ->
  let '(r, s') := attempted registry master_key attempt key org n resolved k s in
  steady s0 s' /\ match r with Ok u => exists le, Q u le /\ px_logs s' = (px_logs s ++ [le])%list | Err _ => px_logs s' = px_logs s end.
Proof.
  intros Hs0 Hi Hk. unfold attempted, mbind at 1, st_bind at 1, on_world at 1.
  destruct (attempt resolved (px_world s)) as [[b|e] w].
  - set (s1 := {| px_db := px_db s; px_world := w |}). assert (in_scope resolved s0 s1) as Hi1 by exact Hi.
    unfold holding, catch. specialize (Hk b (rm_model resolved) s1 (proj1 Hi1)).
    destruct (k b (rm_model resolved) s1) as [r s2]. destruct Hk as [H1 H2].
    assert (steady s0 (on_flight (drop_resolved resolved) s2).2) as Hst.
    { apply in_scope_drop. by eapply in_scope_steady. }
    unfold mbind, st_bind, lift. simpl. by split.
  - unfold mbind at 1, st_bind at 1. unfold on_flight at 1, modify at 1.
    match goal with |- context [(message_fallbacks _ _ _ _ _ _ _ _ _ ≫= _) ?x] => set (s1 := x) end.
    assert (steady s0 s1) as Hs1 by (by destruct Hi as (_ & ? & ?)).
    assert (flight_ok (px_lb s1)) as Hf by (by eapply flight_ok_steady).
    destruct (quiet_message_fallbacks (router_fallback_chain (rm_model resolved)) None (map_provider_error e) s1 Hf) as [H1 H2].
    unfold mbind, st_bind.
    destruct (message_fallbacks _ _ _ _ _ _ _ _ _ s1) as [[[b m]|err] s2]; simpl in H1, H2; [|split; [by etransitivity|done]].
    cbn [fst snd]. specialize (Hk b m s2 (flight_ok_steady _ _ H1 Hf)). destruct (k b m s2) as [r s3]. destruct Hk as [H3 H4].
    rewrite H2 in H4. split; [by do 2 (etransitivity; [eassumption|])|exact H4].
Qed.
End Attempts.

Lemma finish_stream_spec key start primary s :
  let '(r, s') := finish_stream key start primary s in
  steady s s' /\ match r with
  | Ok _ => exists ms, in_i 32 ms /\ px_logs s' = (px_logs s ++ [streamed_entry key primary ms None])%list
  | Err _ => px_logs s' = px_logs s
  end.
Proof.
  unfold finish_stream, lift. rewrite no_usage_no_cost. unfold ok_or, mbind at 1, st_bind at 1.
  unfold elapsed_ms, spawn_request_log, on_flight, tick_world, gets, modify. st_unfold.
  assert (forall z, in_i 32 (as_i32 z)) as Hi by (intros z; apply wrap_i_range; lia).
  destruct (negb (is_id (model_id primary) nil_uuid)); simpl.
  - split; [split; [apply record_latency_flight|done]|]. eexists. split; [apply Hi|reflexivity].
  - split; [split; [reflexivity|done]|]. eexists. split; [apply Hi|reflexivity].
Qed.

Lemma holding_on_error_quiet {T} (rm : ResolvedModel A) (m : ST _ (failure ApiError) T) s0 s :
  quiet m -> in_scope rm s0 s ->
  let '(r, s') := holding_on_error rm m s in
  px_logs s' = px_logs s /\ match r with Ok _ => in_scope rm s0 s' | Err _ => steady s0 s' end.
Proof.
  intros Hm Hi. unfold holding_on_error, catch. destruct (Hm s (proj1 Hi)) as [H1 H2].
  destruct (m s) as [[x|e] s1]; simpl in *; [split; [done|by eapply in_scope_steady]|].
  split; [done|]. by apply in_scope_drop, (in_scope_steady _ _ _ _ Hi).
Qed.

(** The row written for a request: of the model asked for and without a cost when streamed, of
    the model that answered and priced by its answer otherwise. *)
Definition message_logged key (req : AnthropicMessagesRequest) d (reply : MessagesReply (Es := Es)) (le : RequestLogEntry) : Prop :=
  exists ms, in_i 32 ms /\
  if amr_stream req then
    exists primary pp, routed (amr_model req) Chat d primary pp /\ le = streamed_entry key primary ms None
  else
    exists answer m cost, reply = AnJson answer /\ compute_cost (pricing m) Chat (response_usage answer) = Some cost /\
      le = log_entry key m Chat ms cost.

Lemma stream_logged key req d start (rm : ResolvedModel A) (b : string * Es) x :
  amr_stream req = true -> routed (amr_model req) Chat d (rm_model rm) (rm_profile rm) ->
  let '(r, s2) := (finish_stream key start (rm_model rm);; mret (AnSse b.1 b.2) : ST _ (failure ApiError) _) x in
  steady x s2 /\ match r with
  | Ok u => exists le, message_logged key req d u le /\ px_logs s2 = (px_logs x ++ [le])%list
  | Err _ => px_logs s2 = px_logs x end.
Proof.
  intros Es' Hrt. unfold mbind, st_bind. pose proof (finish_stream_spec key start (rm_model rm) x) as Hf.
  destruct (finish_stream key _ _ x) as [[[]|e] y]; destruct Hf as [F1 F2]; simpl; (split; [done|]); [|done].
  destruct F2 as (ms & Hms & F2). exists (streamed_entry key (rm_model rm) ms None). split; [|done].
  exists ms. split; [done|]. rewrite Es'. by exists (rm_model rm), (rm_profile rm).
Qed.

Lemma answer_logged key req d start answer m x :
  amr_stream req = false -> flight_ok (px_lb x) ->
  let '(r, s2) := finish key Chat start (AnJson (Es := Es) answer, response_usage answer, m) x in
  steady x s2 /\ match r with
  | Ok u => exists le, message_logged key req d u le /\ px_logs s2 = (px_logs x ++ [le])%list
  | Err _ => px_logs s2 = px_logs x end.
Proof.
  intros Es' Hx. pose proof (finish_spec Chat key start (AnJson (Es := Es) answer) (response_usage answer) m x Hx) as Hf.
  destruct (finish key Chat _ _ x) as [[u|e] y]; destruct Hf as [F1 F2]; (split; [done|]); [|by destruct F2 as (_ & _ & F2)].
  destruct F2 as (-> & cost & ms & F2 & F3 & F4). exists (log_entry key m Chat ms cost). split; [|done].
  exists ms. split; [done|]. rewrite Es'. by exists answer, m, cost.
Qed.

(** The Anthropic endpoint leaves no in-flight count behind, on any path, and writes one
    log row for a request it answers and none for a request it refuses or fails.  The row of a
    stream always names the model asked for, also when a fallback streams, and never has a
    cost: what a stream uses is not known when it is written, so streams are free. *)
Theorem messages_are_logged_once key req s :
  flight_ok (px_lb s) ->
  let '(r, s') := messages registry master_key key req s in
  steady s s' /\
  match r with
  | Ok reply => exists le, message_logged key req (px_db s) reply le /\ px_logs s' = (px_logs s ++ [le])%list
  | Err _ => px_logs s' = px_logs s
  end.
Proof.
  intros Hs. unfold messages. unfold gets at 1, mbind at 1, st_bind at 1. unfold mbind at 1, st_bind at 1.
  change (req_model (anthropic_request_to_core req)) with (amr_model req).
  pose proof (resolve_model_spec registry master_key (amr_model req) Chat s Hs) as Hr.
  destruct (resolve_model registry master_key (amr_model req) Chat s) as [[rm|e] s1]; [|by destruct Hr as (_ & H1 & H2)].
  destruct Hr as (Hi & Hl & Hrt & _).
  unfold mbind at 1, st_bind at 1.
  pose proof (holding_on_error_quiet rm (on_db_api (st_map_err CoreError (org_get_by_id (key_organization_id key)))) s s1) as Ho.
  destruct (holding_on_error rm _ s1) as [[org|e] s2]; destruct Ho as [Ho1 Ho2];
    [apply quiet_db, reads_map_err, reads_select; done|done| |apply quiet_db, reads_map_err, reads_select; done|done|split; [done|congruence]].
  unfold mbind at 1, st_bind at 1.
  pose proof (holding_on_error_quiet rm (check_limits key org (rm_model rm) (estimate_request_tokens (anthropic_request_to_core req)))
                s s2 (quiet_check_limits _ _ _ _) Ho2) as Hc.
  destruct (holding_on_error rm _ s2) as [[[]|e] s3]; destruct Hc as [Hc1 Hc2]; [|split; [done|congruence]].
  assert (px_logs s3 = px_logs s) as <- by congruence. clear Ho1 Hc1 Hl s2 Ho2.
  destruct (amr_stream req) eqn:Es'; (eapply attempted_spec; [done..|]); intros b m x Hx.
  - by apply stream_logged; [|apply Hrt].
  - by apply answer_logged.
Qed.
End Facts.

(** ** From an Anthropic client to an Anthropic backend *)

Definition answer_text (r : AnthropicMessageResponse) : string := str_join "" (filter_map block_text (am_content r)).

(** C31: an Anthropic client served by an Anthropic backend.  Of an answer that is not streamed
    it gets the backend's id, model, text, token counts and, unless that is one of the four
    names OpenAI uses (stop, length, tool_calls, content_filter), the stop reason, though all
    pass through the OpenAI shapes; an answer without text has no content at all, whatever else
    the backend sent.  What it asks, when no message has the role system and a system prompt is
    not empty, arrives under the backend's own model id with its limit, its stop sequences and
    its messages in order, the system prompt apart; its tools, and the choice among them, do
    not arrive. *)
Theorem anthropic_relay `{JsonText} :
  (forall now r, (forall s, am_stop_reason r = Some s -> s ∉ ["stop"; "length"; "tool_calls"; "content_filter"]) ->
     core_response_to_anthropic (anthropic_response_to_chat_completion now r) =
     {| ar_id := am_id r; ar_model := am_model r;
        ar_content := if is_empty (answer_text r) then [] else [AnText (answer_text r)];
        ar_stop_reason := am_stop_reason r; ar_input_tokens := am_input_tokens r; ar_output_tokens := am_output_tokens r |}) /\
  (forall req model_id, Forall (fun m => an_role m <> "system") (amr_messages req) -> amr_system req <> Some "" ->
     let sent := anthropic_request (anthropic_request_to_core req) model_id in
     get "model" sent = Some (VString model_id) /\
     get "max_tokens" sent = Some (num (amr_max_tokens req)) /\
     get "system" sent = VString <$> amr_system req /\
     get "messages" sent = Some (VArray ((fun m => obj [("role", VString (an_role m));
        ("content", VArray [obj [("type", VString "text"); ("text", VString (an_content m))]])]) <$> amr_messages req)) /\
     get "stop_sequences" sent = (fun l => VArray (VString <$> l)) <$> amr_stop_sequences req /\
     get "tools" sent = None /\ get "tool_choice" sent = None).
Proof.
  split.
  - intros now r Hs. unfold core_response_to_anthropic, anthropic_response_to_chat_completion. simpl. f_equal.
    { unfold content_blocks, answer_text. simpl. by destruct (str_join _ _). }
    unfold core_finish_reason_to_anthropic. destruct (am_stop_reason r) as [s|]; [|done]. simpl. f_equal.
    specialize (Hs s eq_refl). rewrite !not_elem_of_cons in Hs. destruct Hs as (N1 & N2 & N3 & N4 & _).
    by rewrite !(proj2 (String.eqb_neq s _)).
  - intros req model_id Hm Hn sent.
    assert (conversation (req_messages (anthropic_request_to_core req)) = anthropic_message_to_core <$> amr_messages req) as Ec.
    { unfold conversation. cbn [req_messages anthropic_request_to_core]. rewrite filterb_app.
      assert (filterb (fun m => negb (String.eqb (msg_role m) "system")) (option_list (text_message "system" <$> amr_system req)) = []) as ->
        by (by destruct (amr_system req)).
      simpl. induction Hm as [|m ms Hr _ IH]; [done|]. csimpl. rewrite (proj2 (String.eqb_neq (an_role m) "system")) by done.
      simpl. by f_equal. }
    assert (join_system (system_texts (req_messages (anthropic_request_to_core req))) = amr_system req) as Ey.
    { unfold system_texts. cbn [req_messages anthropic_request_to_core]. rewrite filter_map_app.
      assert (filter_map (fun m => if String.eqb (msg_role m) "system" then content_as_text m else None)
                (anthropic_message_to_core <$> amr_messages req) = []) as ->.
      { clear Ec sent Hn. induction Hm as [|m ms Hr _ IH]; [done|]. csimpl. by rewrite (proj2 (String.eqb_neq (an_role m) "system")). }
      rewrite app_nil_r. destruct (amr_system req) as [t|]; [|done]. simpl. unfold content_as_text. simpl. by destruct t. }
    subst sent. unfold anthropic_request. rewrite Ec, Ey.
    split_and!; [member 0%nat|member 1%nat|member 3%nat| | | |].
    + etransitivity; [member 4%nat|]. unfold wr_list. rewrite <- list_fmap_compose. reflexivity.
    + etransitivity; [member 6%nat|]. cbn [anthropic_request_to_core req_stop]. by destruct (amr_stop_sequences req).
    + etransitivity; [member 10%nat|]. done.
    + etransitivity; [member 11%nat|]. done.
Qed.

(** ** Witnesses *)

#[local] Existing Instances toy_crypto coded_json no_schemas exact_decimals whole_f64 counting_world two_adapters.

Definition ask_anthropic (stream : bool) : AnthropicMessagesRequest :=
  {| amr_model := "busy"; amr_messages := [ {| an_role := "user"; an_content := "hi" |} ]; amr_max_tokens := 16;
     amr_stream := stream; amr_system := Some "be brief"; amr_temperature := None; amr_top_p := None; amr_top_k := None;
     amr_stop_sequences := Some ["END"]; amr_tools := None; amr_tool_choice := None |}.
(** Two models, [busy] on a failing backend; the user has a budget of nothing. *)
Definition spent_shop : Proxy (F := whole_f64) (W := Z) :=
  {| px_db := put_end_users
       [ {| eu_id := 9; eu_organization_id := key_organization_id sample_key; eu_user_id := key_user_id sample_key;
            eu_budget_usd := None; eu_max_budget_usd := Some 0%Q; eu_created_at := 0; eu_updated_at := 0 |} ] (px_db (shop None));
     px_lb := lb_new; px_limiter := px_limiter (shop None); px_world := 0; px_logs := [] |}.

(** The budget is spent, and the request is streamed by a fallback all the same, logged under
    the model that failed, at no cost. *)
Lemma messages_are_logged_once_witness :
  (check_user_budget sample_key spent_shop).1 = Err (Failed BudgetExceeded) /\
  exists ms, px_logs (messages up_and_down "k" sample_key (ask_anthropic true) spent_shop).2 =
    [streamed_entry sample_key (model_of 1 "busy" 12 ["idle"]) ms None].
Proof.
  split; [vm_compute; reflexivity|].
  assert (is_ok (messages up_and_down "k" sample_key (ask_anthropic true) spent_shop).1 = true) as Hb by (vm_compute; reflexivity).
  pose proof (messages_are_logged_once up_and_down "k" sample_key (ask_anthropic true) spent_shop lb_new_flight_ok) as Hm.
  destruct (messages up_and_down "k" sample_key (ask_anthropic true) spent_shop) as [[reply|e] s']; [|discriminate Hb].
  destruct Hm as [_ (le & (ms & _ & primary & pp & Hr & ->) & Hl)].
  assert (primary = model_of 1 "busy" 12 ["idle"]) as ->.
  { destruct Hr as (_ & _ & Hr). simpl in Hr. destruct Hr as (Hr & Hn & _).
    apply elem_of_cons in Hr as [->|Hr]; [done|]. apply list_elem_of_singleton in Hr as ->. discriminate Hn. }
  exists ms. exact Hl.
Defined.
