(* ===== verification/Batch.v ===== *)
(** * Batches

    The parser of batch files with its cost estimate ([godwit-api/src/batch_parser.rs]), the
    processor that runs their lines under a semaphore ([batch_processor.rs]), the webhook that
    tells the outcome ([batch_webhook.rs]) and the pass-through routes of [batch.rs].

    The tasks of a batch interleave, and each is cut at its awaits: one step starts a task that
    gets a permit, ends a pause, resolves a model, or makes the call to the backend; between two
    steps the rest of the gateway changes what is not the balancer's or the log's. *)

From stdpp Require Import base gmap strings list pretty.
From Stdlib Require Import QArith Ascii SpecFloat.
From S2P Require Import Prelude RustStr Json Core Limiter Balancer Db Auth Router Resilience Usage Backend Serde Proxy ProxyFacts InFlight.

#[local] Open Scope string_scope.
#[local] Open Scope Z_scope.

(** ** Batch files *)

(** [godwit-api/src/batch_parser.rs:8-18] [BatchParseError] *)
Inductive BatchParseError : Type :=
| InvalidFormat (msg : string)
| MissingField (name : string)
| InvalidModel (msg : string)
| CostEstimationFailed (msg : string).

(** [godwit-api/src/batch_parser.rs:28-35] [BatchRequestBody] *)
Record BatchRequestBody : Type := { bb_model : string; bb_messages : list value; bb_max_tokens : option Z }.
(** [godwit-api/src/batch_parser.rs:20-26] [BatchRequest] *)
Record BatchLine : Type := { bl_custom_id : string; bl_method : string; bl_url : string; bl_body : BatchRequestBody }.
(** [godwit-api/src/batch_parser.rs:37-50] [ParsedBatchLine, BatchParseResult] *)
Record ParsedBatchLine : Type := { pb_line : BatchLine; pb_estimated_cost : Q }.
Record BatchParseResult : Type := { bp_lines : list ParsedBatchLine; bp_total_estimated_cost : Q }.

(** [godwit-api/src/batch_parser.rs:28-35] [BatchRequestBody::deserialize] *)
Definition batch_body_of_value (v : value) : option BatchRequestBody :=
  fs ← struct_fields ["model"; "messages"; "max_tokens"] v;
  m ← field fs "model" rd_string;
  ms ← field_or fs "messages" (rd_list rd_value) [];
  t ← opt_field_or fs "max_tokens" (rd_i 32);
  Some {| bb_model := m; bb_messages := ms; bb_max_tokens := t |}.
(** [godwit-api/src/batch_parser.rs:20-26] [BatchRequest::deserialize] *)
Definition batch_line_of_value (v : value) : option BatchLine :=
  fs ← struct_fields ["custom_id"; "method"; "url"; "body"] v;
  c ← field fs "custom_id" rd_string;
  m ← field fs "method" rd_string;
  u ← field fs "url" rd_string;
  b ← field fs "body" batch_body_of_value;
  Some {| bl_custom_id := c; bl_method := m; bl_url := u; bl_body := b |}.

(** [godwit-api/src/batch_parser.rs:72-96] [validate_request] *)
Definition validate_request (r : BatchLine) : result BatchParseError unit :=
  if is_empty (bl_custom_id r) then Err (MissingField "custom_id")
  else if negb (String.eqb (bl_method r) "POST") then Err (InvalidFormat ("method must be POST, got: " +:+ bl_method r))
  else if negb (starts_with "/" (bl_url r)) then Err (InvalidFormat ("url must start with '/', got: " +:+ bl_url r))
  else if is_empty (bb_model (bl_body r)) then Err (MissingField "model")
  else Ok tt.

Section Parser.
Context `{JsonText} `{Decimals} (line_error : string -> string).

(** The lines from number [line_num] on.
    [godwit-api/src/batch_parser.rs:55-67] [parse_jsonl] *)
Fixpoint parse_lines (line_num : nat) (ls : list string) : result BatchParseError (list BatchLine) :=
  match ls with
  | [] => Ok []
  | l :: ls =>
    let trimmed := trim l in
    if is_empty trimmed then parse_lines (S line_num) ls
    else
      r ← ok_or (InvalidFormat ("line " +:+ pretty (line_num + 1)%nat +:+ ": invalid JSON: " +:+ line_error trimmed))
            (from_str trimmed ≫= batch_line_of_value);
      _ ← validate_request r;
      rest ← parse_lines (S line_num) ls;
      Ok (r :: rest)
  end.
(** [godwit-api/src/batch_parser.rs:52-70] [parse_jsonl] *)
Definition parse_jsonl (jsonl_content : string) : result BatchParseError (list BatchLine) := parse_lines 0 (lines jsonl_content).

(** [godwit-api/src/batch_parser.rs:171-174] [estimate_tokens_from_text] *)
Definition estimate_tokens_from_text (text : string) : Z := Z.quot (as_i32 (str_len text)) 4.

(** [godwit-api/src/batch_parser.rs:144-156] [estimate_usage_from_request] *)
Definition message_texts (message : value) : list string :=
  match get "content" message with
  | Some (VString text) => [text]
  | Some (VArray parts) => filter_map (fun p => t ← get "text" p; as_str t) parts
  | _ => []
  end.
(** Half of an [i32], as a double and back, is exact.
    [godwit-api/src/batch_parser.rs:139-169] [estimate_usage_from_request] *)
Definition estimate_usage_from_request (r : BatchLine) : UsageReport :=
  let prompt_tokens :=
    foldl (fun n t => as_i32 (n + estimate_tokens_from_text t)) 0 (concat (message_texts <$> bb_messages (bl_body r))) in
  {| u_prompt_tokens := Some prompt_tokens;
     u_completion_tokens := Some (default (Z.quot prompt_tokens 2) (bb_max_tokens (bl_body r)));
     u_image_count := None; u_audio_seconds := None; u_video_seconds := None; u_tts_characters := None;
     u_embedding_tokens := None; u_cache_read_tokens := None; u_cache_write_tokens := None |}.

(** The requests from a running total on; [None] is a panic of the decimal arithmetic.
    [godwit-api/src/batch_parser.rs:105-131] [estimate_cost] *)
Fixpoint estimate_lines (catalog : gmap string value) (rs : list BatchLine) (total : Q)
  : option (result BatchParseError (list ParsedBatchLine * Q)) :=
  match rs with
  | [] => Some (Ok ([], total))
  | r :: rs =>
    let model := bb_model (bl_body r) in
    match catalog !! model with
    | None => Some (Err (InvalidModel ("model '" +:+ model +:+ "' not found in pricing catalog")))
    | Some pricing =>
      match compute_cost pricing Chat (estimate_usage_from_request r) with
      | None => None
      | Some None => Some (Err (CostEstimationFailed ("could not compute cost for model '" +:+ model +:+ "'")))
      | Some (Some cost) =>
        match dadd total cost with
        | None => None
        | Some total =>
          match estimate_lines catalog rs total with
          | Some (Ok (ls, t)) => Some (Ok ({| pb_line := r; pb_estimated_cost := cost |} :: ls, t))
          | other => other
          end
        end
      end
    end
  end.
(** [godwit-api/src/batch_parser.rs:98-137] [estimate_cost] *)
Definition estimate_cost (rs : list BatchLine) (catalog : gmap string value) : option (result BatchParseError BatchParseResult) :=
  match estimate_lines catalog rs 0%Q with
  | None => None
  | Some (Err e) => Some (Err e)
  | Some (Ok (ls, t)) => Some (Ok {| bp_lines := ls; bp_total_estimated_cost := t |})
  end.
End Parser.

(** ** The processor *)

(** [godwit-api/src/batch_processor.rs:18-27] [BatchItemResult] *)
Record BatchItemResult : Type := {
  bi_custom_id : string; bi_success : bool; bi_estimated_cost : Q; bi_actual_cost : option Q;
  bi_actual_input_tokens : option Z; bi_actual_output_tokens : option Z; bi_error : option string }.
(** [godwit-api/src/batch_processor.rs:29-38] [BatchProcessResult] *)
Record BatchProcessResult : Type := {
  br_items : list BatchItemResult; br_total_estimated_cost : Q; br_total_actual_cost : option Q;
  br_total_input_tokens : Z; br_total_output_tokens : Z; br_success_count : Z; br_failure_count : Z }.

(** [godwit-api/src/batch_processor.rs:273-286] [convert_to_chat_request] *)
Definition convert_message (msg : value) : option ChatMessage :=
  role ← (r ← get "role" msg; as_str r);
  Some {| msg_role := role; msg_content := (fun s => [CText s]) <$> (c ← get "content" msg; as_str c); msg_name := None;
          msg_tool_calls := None; msg_tool_call_id := None; msg_cache_control := None |}.
(** [godwit-api/src/batch_processor.rs:270-296] [convert_to_chat_request] *)
Definition convert_to_chat_request (body : BatchRequestBody) : ChatCompletionRequest :=
  {| req_model := bb_model body; req_messages := filter_map convert_message (bb_messages body); req_stream := None;
     req_temperature := None; req_max_tokens := bb_max_tokens body; req_top_p := None; req_top_k := None;
     req_frequency_penalty := None; req_presence_penalty := None; req_repetition_penalty := None; req_stop := None;
     req_seed := None; req_n := None; req_logprobs := None; req_top_logprobs := None; req_logit_bias := None;
     req_user := None; req_tools := None; req_tool_choice := None; req_parallel_tool_calls := None;
     req_response_format := None; req_reasoning := None |}.

(** [godwit-api/src/batch_processor.rs:15-16] [MAX_RETRIES] *)
Definition MAX_RETRIES : nat := 2.
(** [godwit-api/src/batch_processor.rs:204-208] [BatchProcessor::exponential_backoff_delay] *)
Definition exponential_backoff_delay (attempt : nat) : Z := as_u64 (1000 * as_u64 (2 ^ (Z.of_nat attempt - 1))).

Section Processor.
Context `{Cr : Crypto} `{JT : JsonText} `{De : Decimals} `{F : F64} {A W Es : Type}.
Context `{Wo : !World W} `{Ad : !Adapter A W Es}.
Context (registry : AdapterRegistry A) (master_key : string).
Notation PROXY := (ST (Proxy (F := F) (W := W)) (failure ApiError)).

(** The prices are two zeros; [None] is a panic of the decimal arithmetic.
    [godwit-api/src/batch_processor.rs:122-154] [BatchProcessor::build_result] *)
Definition build_result (line : ParsedBatchLine) (outcome : result (option string) UsageReport) : option BatchItemResult :=
  match outcome with
  | Err e =>
    Some {| bi_custom_id := bl_custom_id (pb_line line); bi_success := false; bi_estimated_cost := pb_estimated_cost line;
            bi_actual_cost := None; bi_actual_input_tokens := None; bi_actual_output_tokens := None; bi_error := e |}
  | Ok usage =>
    cost ← compute_chat_cost (obj [("input_price_per_million", num 0); ("output_price_per_million", num 0)]) usage;
    Some {| bi_custom_id := bl_custom_id (pb_line line); bi_success := true; bi_estimated_cost := pb_estimated_cost line;
            bi_actual_cost := Some (default 0%Q cost); bi_actual_input_tokens := Some (default 0 (u_prompt_tokens usage));
            bi_actual_output_tokens := Some (default 0 (u_completion_tokens usage)); bi_error := None |}
  end.

(** A task: waiting for a permit; in the pause before an attempt; about to resolve the model, with
    the error of the attempt before; calling the model it holds; ended with its result; panicked. *)
Inductive Task : Type :=
| Waiting
| Pausing (attempt : nat) (last_error : option string)
| Trying (attempt : nat) (last_error : option string)
| Calling (attempt : nat) (resolved : ResolvedModel A)
| Ended (r : BatchItemResult)
| Crashed.
Definition task_end (o : option BatchItemResult) : Task := match o with Some r => Ended r | None => Crashed end.
Definition over (t : Task) : bool := match t with Ended _ | Crashed => true | _ => false end.
Definition running (t : Task) : bool := match t with Waiting => false | t => negb (over t) end.

(** An attempt has failed.
    [godwit-api/src/batch_processor.rs:94-119] [BatchProcessor::process_single_request] *)
Definition attempt_failed (line : ParsedBatchLine) (attempt : nat) (e : string) : Task :=
  if (attempt <? MAX_RETRIES)%nat then Pausing (S attempt) (Some e) else task_end (build_result line (Err (Some e))).

(** The call of an attempt, its error as a text.
    [godwit-api/src/batch_processor.rs:175-201] [BatchProcessor::attempt_request] *)
Definition call_line (line : ParsedBatchLine) (resolved : ResolvedModel A) : PROXY (result string UsageReport) :=
  r ← on_world (chat (rm_adapter resolved) (rm_credentials resolved) (rm_model resolved)
                  (convert_to_chat_request (bl_body (pb_line line))));
  mret (match r with
        | Ok (_, usage) => Ok usage
        | Err e => Err ("Request failed: " +:+ provider_error_to_string e)
        end).

(** What a started task does up to its next await.  The model it resolved stays in scope for the
    call.
    [godwit-api/src/batch_processor.rs:86-202] [BatchProcessor::process_single_request, BatchProcessor::attempt_request] *)
Definition task_turn (line : ParsedBatchLine) (t : Task) (s : Proxy (F := F) (W := W)) : Task * Proxy (F := F) (W := W) :=
  match t with
  | Pausing k e =>
    (Trying k e, {| px_db := px_db s; px_lb := px_lb s; px_limiter := px_limiter s;
                    px_world := sleep (exponential_backoff_delay k) (px_world s); px_logs := px_logs s |})
  | Trying k _ =>
    match resolve_raw registry master_key (bb_model (bl_body (pb_line line))) Chat s with
    | (Ok resolved, s) => (Calling k resolved, s)
    | (Err (Failed e), s) => (attempt_failed line k ("Model resolution failed: " +:+ show_pasteur e), s)
    | (Err Panic, s) => (Crashed, s)
    end
  | Calling k resolved =>
    let '(r, s) := call_line line resolved s in
    (match r with
     | Ok (Ok usage) => task_end (build_result line (Ok usage))
     | Ok (Err e) => attempt_failed line k e
     | Err _ => Crashed
     end, release resolved s)
  | t => (t, s)
  end.

Record BatchRun : Type := { bn_tasks : list (ParsedBatchLine * Task); bn_proxy : Proxy (F := F) (W := W) }.
Definition permits_taken (run : BatchRun) : nat := sum_list_with (fun x => if running x.2 then 1 else 0)%nat (bn_tasks run).

(** The tasks of a batch, spawned and waiting.
    [godwit-api/src/batch_processor.rs:60-73] [BatchProcessor::process_batch] *)
Definition spawned (requests : list ParsedBatchLine) (s : Proxy (F := F) (W := W)) : BatchRun :=
  {| bn_tasks := (fun l => (l, Waiting)) <$> requests; bn_proxy := s |}.

(** A step of task [i].
    [godwit-api/src/batch_processor.rs:67-70] [BatchProcessor::process_batch] *)
Definition batch_step (max_concurrent : nat) (i : nat) (run : BatchRun) : option BatchRun :=
  match bn_tasks run !! i with
  | None => None
  | Some (l, t) =>
    match t with
    | Waiting =>
      if (permits_taken run <? max_concurrent)%nat
      then Some {| bn_tasks := <[i := (l, Trying 0 None)]> (bn_tasks run); bn_proxy := bn_proxy run |}
      else None
    | Ended _ | Crashed => None
    | _ => let '(t, s) := task_turn l t (bn_proxy run) in
           Some {| bn_tasks := <[i := (l, t)]> (bn_tasks run); bn_proxy := s |}
    end
  end.

(** What happens next: a task steps, or the rest of the gateway changes the database, the limiter
    and the world. *)
Inductive Move : Type :=
| Turn (i : nat)
| Meanwhile (d : Db) (l : RateLimiter F) (w : W).
(** A schedule; a step that cannot be made is skipped. *)
Fixpoint batch_run (max_concurrent : nat) (schedule : list Move) (run : BatchRun) : BatchRun :=
  match schedule with
  | [] => run
  | Turn i :: schedule => batch_run max_concurrent schedule (default run (batch_step max_concurrent i run))
  | Meanwhile d l w :: schedule =>
    batch_run max_concurrent schedule
      {| bn_tasks := bn_tasks run;
         bn_proxy := {| px_db := d; px_lb := px_lb (bn_proxy run); px_limiter := l; px_world := w; px_logs := px_logs (bn_proxy run) |} |}
  end.

(** [godwit-api/src/batch_processor.rs:210-240] [BatchProcessor::aggregate_results] *)
Definition dsum (l : list Q) : option Q := foldl (fun acc q => a ← acc; dadd a q) (Some 0%Q) l.
(** [None] is a panic of the decimal arithmetic; the token counts wrap at 64 bits.
    [godwit-api/src/batch_processor.rs:210-240] [BatchProcessor::aggregate_results] *)
Definition aggregate_results (items : list BatchItemResult) : option BatchProcessResult :=
  estimated ← dsum (bi_estimated_cost <$> items);
  actual ← dsum (filter_map bi_actual_cost items);
  let successes := Z.of_nat (length (filterb bi_success items)) in
  Some {| br_items := items; br_total_estimated_cost := estimated;
          br_total_actual_cost := if Qle_bool actual 0 then None else Some actual;
          br_total_input_tokens := as_i64 (sumZ (filter_map bi_actual_input_tokens items));
          br_total_output_tokens := as_i64 (sumZ (filter_map bi_actual_output_tokens items));
          br_success_count := successes; br_failure_count := Z.of_nat (length items) - successes |}.

(** What awaiting the handles in order gives, when it gives anything yet: the first panic is an
    error, whatever the tasks after it do.
    [godwit-api/src/batch_processor.rs:75-81] [BatchProcessor::process_batch] *)
Fixpoint await_handles (tasks : list (ParsedBatchLine * Task)) : option (result ApiError (list BatchItemResult)) :=
  match tasks with
  | [] => Some (Ok [])
  | (_, Ended r) :: tasks => match await_handles tasks with Some (Ok items) => Some (Ok (r :: items)) | other => other end
  | (_, Crashed) :: _ => Some (Err Internal)
  | _ => None
  end.
(** [None]: a task is awaited, or a panic of the decimal arithmetic.
    [godwit-api/src/batch_processor.rs:75-84] [BatchProcessor::process_batch] *)
Definition batch_outcome (run : BatchRun) : option (result ApiError BatchProcessResult) :=
  match await_handles (bn_tasks run) with
  | Some (Ok items) => Ok <$> aggregate_results items
  | Some (Err e) => Some (Err e)
  | None => None
  end.

(** ** The webhook *)

(** Decimals and times as texts. *)
Context (decimal_text : Q -> string) (rfc3339 : Z -> string) `{Ht : !HttpClient W}.

(** [godwit-api/src/batch_webhook.rs:60-66] [WebhookError] *)
Inductive WebhookError : Type :=
| WebhookHttp (msg : string)
| WebhookStatus (status : Z).

(** [godwit-api/src/batch_webhook.rs:6-17] [BatchWebhookPayload] *)
Definition webhook_payload (batch_id : string) (now : Z) (r : BatchProcessResult) : value :=
  obj [("batch_id", VString batch_id); ("status", VString "completed");
       ("total_requests", num (Z.of_nat (length (br_items r)))); ("completed_requests", num (br_success_count r));
       ("failed_requests", num (br_failure_count r));
       ("total_cost_usd", VString (decimal_text (default 0%Q (br_total_actual_cost r))));
       ("total_input_tokens", num (br_total_input_tokens r)); ("total_output_tokens", num (br_total_output_tokens r));
       ("completed_at", VString (rfc3339 now))].
(** [godwit-api/src/batch_webhook.rs:33-51] [WebhookSender::send_webhook] *)
Definition send_webhook (url : string) (payload : value) : ST W WebhookError unit := fun w =>
  match send {| hr_method := "POST"; hr_url := url; hr_headers := [("Content-Type", "application/json")];
                hr_json := Some payload; hr_form := [] |} w with
  | (SendFailed e, w) => (Err (WebhookHttp e), w)
  | (Replied status _, w) => (if is_success status then Ok tt else Err (WebhookStatus status), w)
  end.
(** [godwit-api/src/batch_processor.rs:242-261] [BatchProcessor::send_completion_webhook] *)
Definition send_completion_webhook (batch_public_id url : string) (now : Z) (r : BatchProcessResult) : ST W WebhookError unit :=
  send_webhook url (webhook_payload batch_public_id now r).
End Processor.

(** ** The routes of [batch.rs], which no router merges *)

Section Routes.
Context `{Cr : Crypto} `{JT : JsonText} `{F : F64} {A W : Type} `{!HttpClient W}.
Context (registry : AdapterRegistry A) (master_key : string).
Notation PROXY := (ST (Proxy (F := F) (W := W)) (failure ApiError)).

(** [godwit-api/src/batch.rs:110-115] [extract_model] *)
Definition batch_extract_model (body : value) : result ApiError string :=
  ok_or (BadRequest "missing 'model' field") (get "model" body ≫= as_str).
(** [godwit-api/src/batch.rs:37-53] [create_batch] *)
Definition batch_create (body : value) : PROXY Response :=
  model ← lift (map_err Failed (batch_extract_model body));
  r ← forward_openai_passthrough registry master_key "POST" "batches" (Some body) model Chat;
  mret {| res_status := 201; res_headers := []; res_body := r.1 |}.
(** [godwit-api/src/batch.rs:55-70] [list_batches] *)
Definition batch_list (model : string) : PROXY Response :=
  r ← forward_openai_passthrough registry master_key "GET" "batches" None model Chat;
  mret (json_response r.1).
(** [godwit-api/src/batch.rs:72-89] [get_batch] *)
Definition batch_get (batch_id model : string) : PROXY Response :=
  r ← forward_openai_passthrough registry master_key "GET" ("batches/" +:+ batch_id) None model Chat;
  mret (json_response r.1).
(** [godwit-api/src/batch.rs:91-108] [cancel_batch] *)
Definition batch_cancel (batch_id model : string) : PROXY Response :=
  r ← forward_openai_passthrough registry master_key "POST" ("batches/" +:+ batch_id +:+ "/cancel") None model Chat;
  mret (json_response r.1).

(** They are a second copy of the routes of [proxy.rs], to the letter. *)
Lemma batch_routes_are_a_copy :
  (forall body, batch_create body = create_batch registry master_key body) /\
  (forall model, batch_list model = list_batches registry master_key model) /\
  (forall id model, batch_get id model = get_batch registry master_key id model) /\
  (forall id model, batch_cancel id model = cancel_batch registry master_key id model).
Proof. repeat split. Qed.

(** The identifier of a batch goes into the upstream's path as it came, dots and slashes
    included. *)
Lemma batch_id_is_a_path method id suffix (resolved : ResolvedModel A) :
  passthrough_request method ("batches/" +:+ id +:+ suffix) None resolved =
  Some {| hr_method := method; hr_url := rp_base_url (rm_credentials resolved) +:+ "/batches/" +:+ id +:+ suffix;
          hr_headers := ("accept", "application/json") ::
            match rp_api_key (rm_credentials resolved) with Some key => [("authorization", "Bearer " +:+ key)] | None => [] end;
          hr_json := None; hr_form := [] |}.
Proof. reflexivity. Qed.
End Routes.

(** ** Facts *)

Lemma sum_insert {T} (f : T -> nat) l i x y :
  l !! i = Some x -> (sum_list_with f (<[i := y]> l) + f x = sum_list_with f l + f y)%nat.
Proof.
  revert i. induction l as [|z l IH]; intros i Hi; [done|]. destruct i as [|i]; simpl in *; [simplify_eq; lia|].
  specialize (IH i Hi). lia.
Qed.
Lemma sum_lookup {T} (f : T -> nat) l : (0 < sum_list_with f l)%nat -> exists i x, l !! i = Some x /\ (0 < f x)%nat.
Proof.
  induction l as [|z l IH]; simpl; intros H; [lia|]. destruct (decide (0 < f z)%nat); [by exists 0%nat, z|].
  destruct IH as (i & x & Hi & Hx); [lia|]. by exists (S i), x.
Qed.

Section Facts.
Context `{Cr : Crypto} `{JT : JsonText} `{Sc : Schemas} `{De : Decimals} `{F : F64} {A W Es : Type}.
Context `{Wo : !World W} `{Ad : !Adapter A W Es}.
Context (registry : AdapterRegistry A) (master_key : string).
Notation RUN := (BatchRun (F := F) (A := A) (W := W)).
Notation TASK := (Task (A := A)).
Notation stepping := (batch_step registry master_key).
Notation turning := (task_turn registry master_key).
Implicit Types (run : RUN) (s : Proxy (F := F) (W := W)) (t : TASK).

(** The guard a task holds, and how many the tasks hold on a model. *)
Definition guard_of_task t : option (ResolvedModel A) := match t with Calling _ rm => Some rm | _ => None end.
Definition held_by (ts : list (ParsedBatchLine * TASK)) (id : Uuid) : Z := sumZ ((fun x => guards (guard_of_task x.2) id) <$> ts).

(** What a turn leaves alone besides the counters: tables, limiter and log. *)
Definition unbilled_turn s s' : Prop := only_faults (px_db s) (px_db s') /\ px_limiter s' = px_limiter s /\ px_logs s' = px_logs s.

Lemma guard_task_end o : guard_of_task (task_end o) = None.
Proof. by destruct o. Qed.
Lemma guard_attempt_failed l k e : guard_of_task (attempt_failed l k e) = None.
Proof. unfold attempt_failed. destruct (k <? MAX_RETRIES)%nat; [done|apply guard_task_end]. Qed.

#[local] Arguments guard_of_task : simpl never.
Lemma task_turn_guards l t s : flight_ok (px_lb s) ->
  guards_exchanged (guard_of_task t) (guard_of_task (turning l t s).1) s (turning l t s).2 /\ unbilled_turn s (turning l t s).2.
Proof.
  intros Hs. assert (forall s', same_flight (px_lb s) (px_lb s') -> unbilled_turn s s' ->
    guards_exchanged (A := A) None None s s' /\ unbilled_turn s s') as Hq by (intros s' H1 H2; split; [by apply exchanged_same|done]).
  assert (forall r s', resolve_raw registry master_key (bb_model (bl_body (pb_line l))) Chat s = (r, s') -> px_limiter s' = px_limiter s) as Hlim.
  { intros r s'. unfold resolve_raw, zoom. destruct (resolve _ _ _ _ _). by intros [= <- <-]. }
  assert (forall s', same_flight (px_lb s) (px_lb s') -> px_db s' = px_db s -> px_limiter s' = px_limiter s -> px_logs s' = px_logs s ->
    guards_exchanged (A := A) None None s s' /\ unbilled_turn s s') as Hq' by (intros s' H1 H2 H3 H4; apply Hq; [done|split_and!; [by rewrite H2|done..]]).
  destruct t as [|k e|k e|k rm|r|]; simpl; [by apply Hq'|by apply Hq'| | |by apply Hq'|by apply Hq'].
  - pose proof (resolve_raw_spec registry master_key (bb_model (bl_body (pb_line l))) Chat s Hs) as Hr.
    destruct (resolve_raw registry master_key _ Chat s) as [[rm|[e'|]] s1]; specialize (Hlim _ _ eq_refl); simpl.
    + destruct Hr as ((H1 & H2 & H3) & Hl & _). split; [by apply exchanged_resolved|by split_and!].
    + destruct Hr as (_ & [H1 H2] & Hl). rewrite guard_attempt_failed. apply Hq; [done|by split_and!].
    + by destruct Hr.
  - unfold call_line, on_world, mbind, st_bind.
    destruct (chat _ _ _ _ (px_world s)) as [r w]; simpl.
    assert (forall s1, s1 = {| px_db := px_db s; px_lb := px_lb s; px_limiter := px_limiter s; px_world := w; px_logs := px_logs s |} ->
              guards_exchanged (Some rm) None s (release rm s1) /\ unbilled_turn s (release rm s1)) as Hrel.
    { intros s1 Es1. split; [|subst; split_and!; [reflexivity|done..]].
      apply (exchanged_trans _ (Some rm) _ s s1); [apply exchanged_same; [done|subst; reflexivity]|apply exchanged_release; by subst]. }
    destruct r as [[resp usage]|e]; simpl; rewrite ?guard_task_end, ?guard_attempt_failed; by apply Hrel.
Qed.

(** What is left to do: a task that waits has nine steps ahead at most. *)
Definition work t : nat :=
  match t with Waiting => 9 | Pausing k _ => 9 - 3 * k | Trying k _ => 8 - 3 * k | Calling k _ => 7 - 3 * k | _ => 0 end.
#[local] Arguments work : simpl nomatch.
Definition work_left run : nat := sum_list_with (fun x => work x.2) (bn_tasks run).

(** The result of a task is about its line. *)
Definition about (l : ParsedBatchLine) (r : BatchItemResult) : Prop :=
  bi_custom_id r = bl_custom_id (pb_line l) /\ bi_estimated_cost r = pb_estimated_cost l /\
  if bi_success r then
    bi_error r = None /\ exists usage cost, bi_actual_cost r = Some (default 0%Q cost) /\
      compute_chat_cost (obj [("input_price_per_million", num 0); ("output_price_per_million", num 0)]) usage = Some cost
  else bi_actual_cost r = None.
Definition task_ok (x : ParsedBatchLine * TASK) : Prop :=
  match x.2 with
  | Pausing k _ | Trying k _ | Calling k _ => (k <= MAX_RETRIES)%nat
  | Ended r => about x.1 r
  | _ => True
  end.

Lemma build_result_about l outcome r : build_result l outcome = Some r -> about l r.
Proof.
  unfold build_result. destruct outcome as [usage|e]; [|intros [= <-]; done].
  intros (cost & Hc & [= <-])%bind_Some. unfold about. simpl. split_and!; [done..|]. by exists usage, cost.
Qed.
Lemma task_end_ok l outcome : task_ok (l, task_end (build_result l outcome)) /\ work (task_end (build_result l outcome)) = 0%nat.
Proof.
  pose proof (build_result_about l outcome) as Hb. destruct (build_result l outcome) as [r|]; [|done]. split; [by apply Hb|done].
Qed.
Lemma attempt_failed_ok l k e : (k <= MAX_RETRIES)%nat ->
  task_ok (l, attempt_failed l k e) /\ (work (attempt_failed l k e) < 7 - 3 * k)%nat.
Proof.
  intros Hk. unfold attempt_failed. destruct (Nat.ltb_spec k MAX_RETRIES) as [Hlt|Hge]; unfold MAX_RETRIES in *.
  - unfold task_ok, MAX_RETRIES. simpl. lia.
  - destruct (task_end_ok l (Err (Some e))) as [H1 ->]. split; [done|lia].
Qed.

Lemma task_turn_ok l t s : running t = true -> task_ok (l, t) ->
  task_ok (l, (turning l t s).1) /\ (work (turning l t s).1 < work t)%nat.
Proof.
  intros Hr Ht. destruct t as [|k e|k e|k rm|r|]; try done; unfold task_ok in Ht; simpl in Ht; simpl.
  - unfold task_ok, MAX_RETRIES in *. simpl. lia.
  - destruct (resolve_raw registry master_key _ Chat s) as [[rm|[e'|]] s1]; simpl.
    + unfold task_ok, MAX_RETRIES in *. simpl. lia.
    + split; [by apply attempt_failed_ok|]. eapply Nat.lt_le_trans; [by apply attempt_failed_ok|]. unfold MAX_RETRIES in Ht. lia.
    + unfold task_ok, MAX_RETRIES in *. simpl. lia.
  - destruct (call_line l rm s) as [[[u|e]|e] s1]; simpl.
    + split; [apply (task_end_ok l (Ok u))|]. unfold MAX_RETRIES in Ht.
      eapply Nat.le_lt_trans; [apply Nat.eq_le_incl, (task_end_ok l (Ok u))|lia].
    + by apply attempt_failed_ok.
    + unfold task_ok, MAX_RETRIES in *. simpl. lia.
Qed.

(** What holds of a batch at every point of every schedule. *)
Record batch_ok (max : nat) (requests : list ParsedBatchLine) s0 run : Prop := {
  ok_lines : (bn_tasks run).*1 = requests;
  ok_permits : (permits_taken run <= max)%nat;
  ok_tasks : Forall task_ok (bn_tasks run);
  ok_range : flight_ok (px_lb (bn_proxy run));
  ok_flight : forall id, flight_of (bn_proxy run) id = wrap_u 64 (flight_of s0 id + held_by (bn_tasks run) id);
  ok_logs : px_logs (bn_proxy run) = px_logs s0;
}.

Lemma spawned_ok max requests s : flight_ok (px_lb s) -> batch_ok max requests s (spawned requests s).
Proof.
  intros Hs. split; simpl; [| | |done| |done].
  - rewrite <- list_fmap_compose. induction requests as [|l ls IH]; csimpl; [done|by f_equal].
  - assert (permits_taken (spawned requests s) = 0%nat) as ->; [|lia].
    unfold permits_taken. simpl. by induction requests.
  - apply Forall_fmap, Forall_true. done.
  - intros id. assert (held_by ((fun l => (l, Waiting)) <$> requests) id = 0) as -> by (unfold held_by; by induction requests).
    rewrite Z.add_0_r, wrap_u_small; [done|]. apply Hs.
Qed.

(** A task replaced by another. *)
Lemma batch_ok_insert max requests s0 run i l t t' s' :
  batch_ok max requests s0 run -> bn_tasks run !! i = Some (l, t) -> task_ok (l, t') ->
  guards_exchanged (guard_of_task t) (guard_of_task t') (bn_proxy run) s' -> px_logs s' = px_logs (bn_proxy run) ->
  (running t = true \/ running t' = false \/ (permits_taken run < max)%nat) ->
  batch_ok max requests s0 {| bn_tasks := <[i := (l, t')]> (bn_tasks run); bn_proxy := s' |}.
Proof.
  intros [Hl Hp Ht Hr Hf Hg] Hi Hok [Hx1 Hx2] Hlogs Hperm. split; simpl; [| | |done| |congruence].
  - rewrite list_fmap_insert. rewrite list_insert_id; [done|]. simpl. by rewrite list_lookup_fmap, Hi.
  - pose proof (sum_insert (fun x : ParsedBatchLine * TASK => if running x.2 then 1 else 0)%nat _ i _ (l, t') Hi) as E.
    unfold permits_taken in *. simpl in *. destruct (running t), (running t'), Hperm as [|[|]]; try done; lia.
  - by apply Forall_insert.
  - intros id. rewrite Hx2, Hf. pose proof (lookup_lt_Some _ _ _ Hi) as Hlt. unfold held_by.
    rewrite insert_take_drop by done. rewrite <- (take_drop_middle _ _ _ Hi) at 1. rewrite !fmap_app, !sumZ_app. csimpl.
    match goal with |- wrap_u 64 (?w + ?g' - ?g) = _ => replace (w + g' - g) with (w + (g' - g)) by lia end.
    rewrite wrap_add. f_equal. lia.
Qed.

Lemma batch_step_ok max requests s0 i run run' :
  batch_ok max requests s0 run -> stepping max i run = Some run' ->
  batch_ok max requests s0 run' /\ (work_left run' < work_left run)%nat /\ unbilled_turn (bn_proxy run) (bn_proxy run').
Proof.
  intros Hb. unfold batch_step. destruct (bn_tasks run !! i) as [[l t]|] eqn:Ei; [|done].
  assert (forall t' s', (work t' < work t)%nat ->
            (work_left {| bn_tasks := <[i := (l, t')]> (bn_tasks run); bn_proxy := s' |} < work_left run)%nat) as Hw.
  { intros t' s' Hw. unfold work_left. simpl. pose proof (sum_insert (fun x => work x.2) _ i _ (l, t') Ei) as E. simpl in E. lia. }
  pose proof (ok_range _ _ _ _ Hb) as Hs.
  assert (running t = true ->
    (let '(t', s') := turning l t (bn_proxy run) in Some {| bn_tasks := <[i := (l, t')]> (bn_tasks run); bn_proxy := s' |}) = Some run' ->
    batch_ok max requests s0 run' /\ (work_left run' < work_left run)%nat /\ unbilled_turn (bn_proxy run) (bn_proxy run')) as Hgo.
  { intros Hr. pose proof (ok_tasks _ _ _ _ Hb) as Ht. rewrite Forall_lookup in Ht.
    destruct (task_turn_ok l t (bn_proxy run) Hr (Ht i _ Ei)) as [H1 H2], (task_turn_guards l t (bn_proxy run) Hs) as [H3 H4].
    destruct (turning l t (bn_proxy run)) as [t' s']. simpl in *. intros [= <-]. split; [|split; [by apply Hw|done]].
    eapply batch_ok_insert; [done..|apply H4|by left]. }
  destruct t as [|k e|k e|k rm|r|]; [|by apply Hgo..|done|done].
  destruct (Nat.ltb_spec (permits_taken run) max) as [Hp|]; [|done]. intros [= <-]. split; [|split; [apply Hw; simpl; lia|repeat split; reflexivity]].
  eapply batch_ok_insert; [done|done|unfold task_ok; simpl; lia|by apply exchanged_same|done|by right; right].
Qed.

Lemma batch_run_ok max requests s0 schedule : forall run,
  batch_ok max requests s0 run -> batch_ok max requests s0 (batch_run registry master_key max schedule run).
Proof.
  induction schedule as [|[i|d l w] schedule IH]; intros run Hr; simpl; [done| |].
  - apply IH. destruct (stepping max i run) as [run'|] eqn:E; [|done]. by apply (batch_step_ok _ _ _ _ _ _ Hr E).
  - apply IH. destruct Hr. by split.
Qed.

Lemma step_runs max i run l t : bn_tasks run !! i = Some (l, t) -> running t = true -> stepping max i run <> None.
Proof. intros Hi Hr. unfold batch_step. rewrite Hi. destruct t; try done; by destruct (turning _ _ _). Qed.

(** A batch that is not over has a step to make, when there is a permit at all. *)
Lemma batch_progress max run :
  (0 < max)%nat -> (forall i, stepping max i run = None) -> forallb (fun x => over x.2) (bn_tasks run) = true.
Proof.
  intros Hm Hn. apply forallb_forall. intros [l t] Hin. apply list_elem_of_In, list_elem_of_lookup in Hin as [i Hi].
  assert (running t = true \/ t = Waiting \/ over t = true) as [Hr|[->|Hr]] by (destruct t; auto); [| |done].
  - by destruct (step_runs max i run l t Hi Hr).
  - exfalso. pose proof (Hn i) as H1. unfold batch_step in H1. rewrite Hi in H1.
    destruct (Nat.ltb_spec (permits_taken run) max) as [|Hp]; [done|].
    destruct (sum_lookup (fun x : ParsedBatchLine * TASK => if running x.2 then 1 else 0)%nat (bn_tasks run)) as (j & [l' t'] & Hj & Hr);
      [unfold permits_taken in Hp; lia|]. simpl in Hr. destruct (running t') eqn:Er; [|lia]. by destruct (step_runs max j run l' t' Hj Er).
Qed.

(** A batch that is not over can be stepped until every task is. *)
Lemma batch_finishes max requests s0 (Hm : (0 < max)%nat) : forall n run,
  batch_ok max requests s0 run -> (work_left run <= n)%nat -> exists schedule, (length schedule <= n)%nat /\
    forallb (fun x => over x.2) (bn_tasks (batch_run registry master_key max (Turn <$> schedule) run)) = true.
Proof.
  induction n as [|n IH]; intros run Hr Hw.
  - exists []. split; [done|]. simpl. apply (batch_progress max); [done|]. intros i.
    destruct (stepping max i run) as [run'|] eqn:E; [|done]. destruct (batch_step_ok _ _ _ _ _ _ Hr E) as (_ & ? & _). lia.
  - destruct (forallb (fun x => over x.2) (bn_tasks run)) eqn:Eo; [exists []; simpl; split; [lia|done]|].
    assert (exists i run', stepping max i run = Some run') as (i & run' & E).
    { destruct (decide (Exists (fun i => is_Some (stepping max i run)) (seq 0 (length (bn_tasks run)))))
        as [(i & _ & [run' Hi])%Exists_exists|Hn]; [by exists i, run'|]. exfalso.
      rewrite batch_progress with (max := max) in Eo; [done..|]. intros i.
      destruct (stepping max i run) as [run'|] eqn:E; [|done]. exfalso. apply Hn, Exists_exists. exists i.
      split; [|by rewrite E]. apply elem_of_seq. split; [lia|]. simpl. unfold batch_step in E.
      destruct (bn_tasks run !! i) eqn:Ei; [|done]. by apply lookup_lt_Some in Ei. }
    destruct (batch_step_ok _ _ _ _ _ _ Hr E) as (Hr' & Hl & _).
    destruct (IH run' Hr') as (sch & H1 & H2); [lia|]. exists (i :: sch). csimpl. rewrite E. simpl. split; [lia|done].
Qed.

Lemma spawned_work requests s : work_left (spawned requests s) = (9 * length requests)%nat.
Proof. unfold work_left. simpl. induction requests as [|l ls IH]; csimpl; [done|]. csimpl in *. rewrite IH. lia. Qed.

Lemma over_holds_nothing (ts : list (ParsedBatchLine * TASK)) id : forallb (fun x => over x.2) ts = true -> held_by ts id = 0.
Proof.
  unfold held_by. induction ts as [|[l t] ts IH]; csimpl; [done|]. intros [H1 H2]%andb_prop. rewrite (IH H2). by destruct t.
Qed.

Lemma no_permits_no_start schedule : forall run, (forall x, x ∈ bn_tasks run -> x.2 = Waiting) ->
  bn_tasks (batch_run registry master_key 0 schedule run) = bn_tasks run.
Proof.
  induction schedule as [|[i|d l w] schedule IH]; intros run Hw; simpl; [done| |by apply (IH {| bn_tasks := bn_tasks run |})].
  assert (stepping 0 i run = None) as ->; [|by apply IH]. unfold batch_step.
  destruct (bn_tasks run !! i) as [[l t]|] eqn:Ei; [|done]. apply list_elem_of_lookup_2 in Ei.
  specialize (Hw _ Ei). simpl in Hw. by subst t.
Qed.

(** C35: a batch ends.  Its tasks are cut at their awaits and interleaved by any schedule,
    while the rest of the gateway changes the database, the limiter and the world; at every
    point the tasks are those of the lines in their order, no more of them than [max] hold a
    permit, the result of an ended task is about its own line, the in-flight counter of each
    model is what it was and the calls of the batch then in progress, and nothing is logged;
    once all are over the counters are back.  A step of the batch only reads the database,
    leaves the limiter alone and brings the end nearer, which is at most nine steps a line
    away; but a processor of no permits never starts a line. *)
Theorem batch_runs_to_its_end max requests s schedule
  (Hs : flight_ok (px_lb s)) (run := batch_run registry master_key max schedule (spawned requests s)) :
  batch_ok max requests s run /\
  (forallb (fun x => over x.2) (bn_tasks run) = true -> same_flight (px_lb s) (px_lb (bn_proxy run))) /\
  (forall i run', stepping max i run = Some run' -> (work_left run' < work_left run)%nat /\ unbilled_turn (bn_proxy run) (bn_proxy run')) /\
  (work_left (spawned requests s) = 9 * length requests)%nat /\
  (if (0 <? max)%nat
   then exists rest, (length rest <= work_left run)%nat /\
          forallb (fun x => over x.2) (bn_tasks (batch_run registry master_key max (Turn <$> rest) run)) = true
   else bn_tasks run = bn_tasks (spawned requests s)).
Proof.
  assert (batch_ok max requests s run) as Hr by (apply batch_run_ok; by apply spawned_ok).
  split_and!; [done| | |apply spawned_work|].
  - intros Ho id. pose proof (ok_flight _ _ _ _ Hr id) as Hf. rewrite (over_holds_nothing _ id Ho), Z.add_0_r, wrap_u_small in Hf; [done|].
    apply Hs.
  - intros i run' E. by apply (batch_step_ok _ _ _ _ _ _ Hr E).
  - destruct (Nat.ltb_spec 0 max) as [Hm|Hm]; [by apply (batch_finishes max requests s Hm _ run Hr)|].
    assert (max = 0%nat) as -> by lia. apply no_permits_no_start. by intros x (l & -> & _)%list_elem_of_fmap.
Qed.

(** ** Costs *)

Lemma await_ended (tasks : list (ParsedBatchLine * TASK)) : forall items,
  await_handles tasks = Some (Ok items) -> Forall2 (fun x r => x.2 = Ended r) tasks items.
Proof.
  induction tasks as [|[l t] tasks IH]; simpl; intros items; [intros [= <-]; constructor|].
  destruct t as [|k e|k e|k rm|r|]; try done. destruct (await_handles tasks) as [[rs|e]|]; try done.
  intros [= <-]. constructor; [done|by apply IH].
Qed.

Context (zero_price : forall q, dec_from_str_exact (to_string (num 0)) = Some q -> q == 0)
        (zero_rounds : forall q r, q == 0 -> dec_round q = Some r -> r == 0).

Lemma free_chat usage cost :
  compute_chat_cost (obj [("input_price_per_million", num 0); ("output_price_per_million", num 0)]) usage = Some cost ->
  default 0%Q cost == 0.
Proof.
  unfold compute_chat_cost, decimal_field. simpl. pose proof zero_price as Hz.
  destruct (dec_from_str_exact (to_string (num 0))) as [p|]; [|by intros [= <-]]. specialize (Hz p eq_refl).
  destruct (u_prompt_tokens usage) as [a|], (u_completion_tokens usage) as [b|]; try by intros [= <-].
  unfold priced. intros (q & (x & Hx & (y & Hy & (c & Hc & Hd)%bind_Some)%bind_Some)%bind_Some & [= <-])%bind_Some.
  simpl. apply zero_rounds in Hx; [|by rewrite Hz, Qmult_0_r]. apply zero_rounds in Hy; [|by rewrite Hz, Qmult_0_r].
  apply zero_rounds in Hc; [|by rewrite Hx, Hy]. apply zero_rounds in Hd; [done|]. unfold Qdiv. by rewrite Hc, Qmult_0_l.
Qed.
Lemma dsum_none (l : list Q) : foldl (fun acc q => a ← acc; dadd a q) None l = None.
Proof. by induction l. Qed.
Lemma dsum_zero l q : Forall (fun q => q == 0) l -> dsum l = Some q -> q == 0.
Proof.
  unfold dsum. intros Hl. assert (0%Q == 0) as H0 by done. revert H0. generalize 0%Q at 1 3.
  induction Hl as [|x l Hx Hl IH]; simpl; intros z Hz; [by intros [= <-]|].
  destruct (dadd z x) as [z'|] eqn:E; [|by rewrite dsum_none].
  apply IH. apply zero_rounds in E; [done|]. by rewrite Hz, Hx.
Qed.

Lemma costs_zero ls items : Forall2 about ls items -> Forall (fun q => q == 0) (filter_map bi_actual_cost items).
Proof.
  induction 1 as [|l r ls rs (_ & _ & Hr) Hab IH]; simpl; [constructor|]. destruct (bi_success r).
  - destruct Hr as (_ & u & c & Hc & Hu). rewrite Hc. constructor; [by eapply free_chat|done].
  - by rewrite Hr.
Qed.

(** The results of a batch are those of its lines, one for each in the order of the file,
    and its webhook counts them; but with the prices the processor uses it never has a cost,
    whatever the tokens. *)
Theorem batch_costs_nothing max requests s schedule r (Hs : flight_ok (px_lb s))
  (Hr : batch_outcome (batch_run registry master_key max schedule (spawned requests s)) = Some (Ok r))
  (decimal_text : Q -> string) (rfc3339 : Z -> string) :
  (bi_custom_id <$> br_items r) = ((fun l => bl_custom_id (pb_line l)) <$> requests) /\
  br_success_count r + br_failure_count r = Z.of_nat (length requests) /\
  br_total_actual_cost r = None /\
  forall id now, get "total_cost_usd" (webhook_payload decimal_text rfc3339 id now r) = Some (VString (decimal_text 0%Q)).
Proof.
  set (run := batch_run _ _ _ _ _) in *.
  assert (batch_ok max requests s run) as [Hl _ Ht _ _ _] by (apply batch_run_ok; by apply spawned_ok).
  unfold batch_outcome in Hr. destruct (await_handles (bn_tasks run)) as [[items|]|] eqn:Ec; [|done..].
  apply await_ended in Ec. unfold aggregate_results in Hr.
  destruct (dsum (bi_estimated_cost <$> items)) as [est|]; [|done]. simpl in Hr.
  destruct (dsum (filter_map bi_actual_cost items)) as [act|] eqn:Ea; [|done]. simpl in Hr. injection Hr as <-. simpl.
  assert (Forall2 about (bn_tasks run).*1 items) as Hab.
  { clear -Ec Ht. induction Ec as [|[l t] r ts rs E Ec IH]; simpl; [constructor|].
    apply Forall_cons in Ht as [H1 H2]. constructor; [|by apply IH]. simpl in E. by subst t. }
  rewrite Hl in Hab. pose proof (dsum_zero _ _ (costs_zero _ _ Hab) Ea) as E0. split_and!.
  - clear -Hab. induction Hab as [|l r ls rs (H & _) Hab IH]; csimpl; [done|]. by f_equal.
  - rewrite (Forall2_length _ _ _ Hab). lia.
  - by rewrite (proj2 (Qle_bool_iff _ _)) by (by rewrite E0).
  - intros id now. unfold webhook_payload. simpl. by rewrite (proj2 (Qle_bool_iff _ _)) by (by rewrite E0).
Qed.
End Facts.

(** ** Witnesses: two lines, the second for a model on a backend that is busy *)

Abbreviation zero_decimals :=
  ({| dec_from_str_exact s := if String.eqb s (to_string (JsonText := coded_json) (num 0)) then Some 0%Q else None;
      dec_from_f64_retain := Some; dec_round := Some |} : Decimals).
#[local] Existing Instances toy_crypto coded_json no_schemas whole_f64 counting_world two_adapters.
Definition line_for (id model : string) : ParsedBatchLine :=
  {| pb_line := {| bl_custom_id := id; bl_method := "POST"; bl_url := "/v1/chat/completions";
                   bl_body := {| bb_model := model; bb_messages := [obj [("role", VString "user"); ("content", VString "hi")]];
                                 bb_max_tokens := Some 16 |} |}; pb_estimated_cost := 0%Q |}.
Definition two_lines : list ParsedBatchLine := [line_for "a" "idle"; line_for "b" "busy"].
(** One permit: the first line waits for the second, which is tried three times. *)
Definition turns : list (Move (W := Z)) := Turn <$> [1; 0; 1; 0; 1; 1; 1; 1; 1; 1; 1; 0; 0; 0; 0; 0; 0; 0; 0; 0]%nat.

Lemma batch_runs_to_its_end_witness :
  let run := batch_run (De := zero_decimals) up_and_down "k" 1 turns (spawned two_lines (shop None)) in
  flight_ok (px_lb (shop None)) /\ batch_ok (De := zero_decimals) 1 two_lines (shop None) run /\
  forallb (fun x => over x.2) (bn_tasks run) = true.
Proof.
  split_and!; [exact lb_new_flight_ok| |vm_compute; reflexivity].
  exact (proj1 (batch_runs_to_its_end (De := zero_decimals) up_and_down "k" 1 two_lines (shop None) turns lb_new_flight_ok)).
Defined.

Lemma batch_costs_nothing_witness :
  exists r, batch_outcome (De := zero_decimals) (batch_run (De := zero_decimals) up_and_down "k" 1 turns (spawned two_lines (shop None))) = Some (Ok r) /\
    (bi_success <$> br_items r) = [true; false] /\ (bi_custom_id <$> br_items r) = ["a"; "b"] /\
    br_total_input_tokens r = 10 /\ br_total_actual_cost r = None.
Proof.
  pose proof (batch_costs_nothing (De := zero_decimals) up_and_down "k") as Hall.
  destruct (batch_outcome (De := zero_decimals) (batch_run (De := zero_decimals) up_and_down "k" 1 turns (spawned two_lines (shop None))))
    as [[r|]|] eqn:E; [|vm_compute in E; discriminate E..].
  exists r. split; [reflexivity|].
  assert (forall q, dec_from_str_exact (Decimals := zero_decimals) (to_string (num 0)) = Some q -> q == 0) as Hz
    by (intros q Hq; injection Hq as <-; reflexivity).
  assert (forall q r, q == 0 -> dec_round (Decimals := zero_decimals) q = Some r -> r == 0) as Hd
    by (intros q q' Hq Hq'; injection Hq' as <-; exact Hq).
  destruct (Hall Hz Hd 1%nat two_lines (shop None) turns r lb_new_flight_ok E (fun _ => "0") (fun _ => "")) as (H1 & _ & H2 & _).
  split_and!; [|exact H1| |exact H2]; vm_compute in E; injection E as <-; reflexivity.
Defined.
