(* ===== verification/Session.v ===== *)
(** * Sessions

    [godwit-api/src/admin/auth.rs] (login, refresh, logout, revocation, the login limiter's
    client address) with the token helpers of [godwit-auth/src/jwt.rs] and
    [godwit-auth/src/refresh_tokens.rs].  Passwords change in [Password.v].

    Times are nanoseconds since the epoch; a handler takes the clock readings it makes.  The
    OIDC and SAML routes are in [Sso.v]. *)

From stdpp Require Import base strings list gmap pretty.
From Stdlib Require Import QArith Ascii String.
From S2P Require Import Prelude RustStr Json Core Limiter Db Auth Admin Config.

#[local] Open Scope string_scope.
#[local] Open Scope Z_scope.

(** What the handlers call of the random generator, base58, SHA-256, Argon2, JWT and uuid
    crates.  [random_token k] is the text of the [k]-th draw; [hash_password k] the salted
    hash made with the [k]-th draw.  Base58 text is printable, a password verifies against
    its own hash, and a draw's digest is that of no other text. *)
Class Secrets := {
  random_token : nat -> string;
  sha256_hex : string -> string;
  hash_password : nat -> string -> string;
  verify_password : string -> string -> bool;
  jwt_encode : string -> Claims -> result string string;
  parse_uuid : string -> option Uuid;
  uuid_text : Uuid -> string;
}.

Class SecretsLaws (S : Secrets) := {
  verify_own_hash k pw : verify_password pw (hash_password k pw) = true;
  digest_fresh k t : sha256_hex (random_token k) = sha256_hex t -> t = random_token k;
}.

Definition second : Z := 1000000000.
Definition minutes (n : Z) : Z := n * 60 * second.
Definition days (n : Z) : Z := n * 86400 * second.

Section Session.
Context `{Sec : Secrets} `{F : F64}.

(** Database, login limiter, and the number of random draws made. *)
Record Accounts : Type := { ac_db : Db; ac_limiter : LoginLimiter F; ac_draws : nat }.
Abbreviation ACC := (ST Accounts ApiError).

Definition ac {T} (m : DB T) : ST Accounts PasteurError T :=
  zoom ac_db (fun d s => {| ac_db := d; ac_limiter := ac_limiter s; ac_draws := ac_draws s |}) m.
Definition ac_core {T} (m : DB T) : ACC T := st_map_err CoreError (ac m).
Definition or_else {T} (e : ApiError) (m : DB T) : ACC T := st_map_err (fun _ => e) (ac m).
Definition draw : ACC nat := fun s =>
  (Ok (ac_draws s), {| ac_db := ac_db s; ac_limiter := ac_limiter s; ac_draws := S (ac_draws s) |}).

(** ** Tokens *)

(** [godwit-auth/src/jwt.rs:17-29] [Claims::new] *)
Definition claims_new (now : Z) (user org : Uuid) (role : string) : Claims :=
  {| c_sub := uuid_text user; c_user_id := user; c_organization_id := org; c_role := role;
     c_exp := (now + minutes 15) / second; c_iat := now / second |}.

(** [godwit-auth/src/jwt.rs:31-42] [issue] *)
Definition issue (now : Z) (secret : string) (c : Claims) (ttl : Z) : result PasteurError string :=
  let c := {| c_sub := c_sub c; c_user_id := c_user_id c; c_organization_id := c_organization_id c;
              c_role := c_role c; c_exp := (now + ttl) / second; c_iat := now / second |} in
  map_err Core.Auth (jwt_encode secret c).

(** [godwit-auth/src/refresh_tokens.rs:13-17] [hash_refresh_token] *)
Definition hash_refresh_token (token : string) : string := sha256_hex token.

(** [godwit-auth/src/refresh_tokens.rs:5-11] [generate_refresh_token] *)
Definition generate_refresh_token : ACC (string * string) :=
  k ← draw;
  mret (random_token k, hash_refresh_token (random_token k)).

(** [godwit-api/src/admin/auth.rs:71-78] [access_cookie] *)
Definition access_cookie (cfg : AuthConfig) (token : string) : string :=
  "godwit_access=" +:+ token +:+ "; HttpOnly; Path=/; SameSite=Strict; Max-Age="
  +:+ pretty (access_token_ttl_minutes cfg * 60) +:+ (if cookie_secure cfg then "; Secure" else "").

(** [godwit-api/src/admin/auth.rs:80-87] [refresh_cookie] *)
Definition refresh_cookie (cfg : AuthConfig) (token : string) : string :=
  "godwit_refresh=" +:+ token +:+ "; HttpOnly; Path=/api/v1/auth; SameSite=Strict; Max-Age="
  +:+ pretty (refresh_token_ttl_days cfg * 86400) +:+ (if cookie_secure cfg then "; Secure" else "").

(** [HeaderValue::from_str]: no control byte but the tab. *)
Fixpoint header_value_ok (s : string) : bool :=
  match s with
  | EmptyString => true
  | String c s' =>
    let n := nat_of_ascii c in
    (((32 <=? n)%nat && negb (n =? 127)%nat) || (n =? 9)%nat) && header_value_ok s'
  end.
Definition header_value (s : string) : result ApiError string := if header_value_ok s then Ok s else Err Internal.

(** [HeaderValue::to_str]: visible ASCII and the tab. *)
Fixpoint visible_ascii (s : string) : bool :=
  match s with
  | EmptyString => true
  | String c s' =>
    let n := nat_of_ascii c in (((32 <=? n)%nat && (n <? 127)%nat) || (n =? 9)%nat) && visible_ascii s'
  end.

(** The cookies set and the body. *)
Definition Reply : Type := list string * value.

(** [now1]..[now3] are the readings of [Claims::new], [issue] and the expiry.
    [godwit-api/src/admin/auth.rs:118-153] [issue_token_pair] *)
Definition issue_token_pair (cfg : AuthConfig) (now1 now2 now3 : Z) (user : User) : ACC Reply :=
  let claims := claims_new now1 (user_id user) (default 0 (user_organization_id user)) (user_role user) in
  access_token ← lift (map_err (fun _ => Internal)
                         (issue now2 (jwt_secret cfg) claims (minutes (access_token_ttl_minutes cfg))));
  pair ← generate_refresh_token;
  let '(refresh_plaintext, refresh_hash) := pair in
  let expires_at := now3 + days (refresh_token_ttl_days cfg) in
  _ ← ac_core (refresh_create (user_id user) refresh_hash expires_at);
  access ← lift (header_value (access_cookie cfg access_token));
  refresh ← lift (header_value (refresh_cookie cfg refresh_plaintext));
  mret ([access; refresh],
        obj [("access_token", VString access_token); ("refresh_token", VString refresh_plaintext)]).

(** ** Login *)

(** [forwarded] is the [X-Forwarded-For] header and [peer] the address of the connection.
    [godwit-api/src/admin/auth.rs:99-116] [client_ip] *)
Definition client_ip (forwarded peer : option string) (trust : bool) : string :=
  match (if trust then forwarded else None) with
  | Some xff =>
    let v := trim (if visible_ascii xff then xff else "") in
    trim (default "" (head (split_char (byte 44) v)))
  | None => default "unknown" peer
  end.

Record LoginRequest : Type := { lr_email : string; lr_password : string }.

(** The limiter is asked only once the credentials have been found wrong.
    [godwit-api/src/admin/auth.rs:165-168] [login] *)
Definition failed_login (now0 now : Z) (ip : string) : ACC Reply := fun s =>
  let '(retry, l) := attempt_allowed now0 now ip true (ac_limiter s) in
  (Err (match retry with Some retry_after => RateLimited (Some retry_after) | None => Unauthorized end),
   {| ac_db := ac_db s; ac_limiter := l; ac_draws := ac_draws s |}).

Definition opt_before (e : option Z) (now : Z) : bool := match e with Some e => (e <? now) | None => false end.

(** [clock] gives the readings in order: two for the limiter, then three for the tokens and
    one for the expiry of the password.
    [godwit-api/src/admin/auth.rs:155-191] [login] *)
Definition login (cfg : AuthConfig) (clock : nat -> Z) (forwarded peer : option string) (req : LoginRequest)
  : ACC Reply :=
  let ip := client_ip forwarded peer (trust_proxy cfg) in
  catch (ac (user_get_by_email (lr_email req))) (fun r =>
    match r with
    | Err _ => failed_login (clock 0%nat) (clock 1%nat) ip
    | Ok user =>
      password_hash ← lift (ok_or Unauthorized (user_password_hash user));
      if negb (verify_password (lr_password req) password_hash)
      then failed_login (clock 0%nat) (clock 1%nat) ip
      else
        reply ← issue_token_pair cfg (clock 2%nat) (clock 3%nat) (clock 4%nat) user;
        let must_change := user_must_change_password user || opt_before (user_password_expires_at user) (clock 5%nat) in
        mret (reply.1, match reply.2 with
                       | VObject o => VObject (obj_insert "must_change_password" (VBool must_change) o)
                       | v => v
                       end)
    end).

(** ** Refresh and logout *)

(** [godwit-api/src/admin/auth.rs:198-199] [refresh] *)
Definition presented_token (cookie body_token : option string) : option string :=
  opt_or (cookie_value cookie "godwit_refresh") body_token.

(** The first half: the token's row and its user.
    [godwit-api/src/admin/auth.rs:198-214] [refresh] *)
Definition refresh_lookup (now : Z) (cookie body_token : option string) : ACC (RefreshToken * User) :=
  token ← lift (ok_or Unauthorized (presented_token cookie body_token));
  stored ← or_else Unauthorized (refresh_get_by_hash (hash_refresh_token token));
  if rt_expires_at stored <? now
  then catch (ac (refresh_delete (rt_id stored))) (fun _ => throw Unauthorized)
  else
    user ← or_else Unauthorized (user_get_by_id (rt_user_id stored));
    mret (stored, user).

(** The second half: the used token is deleted, whether or not its row was still there, and a
    new pair issued.
    [godwit-api/src/admin/auth.rs:215-222] [refresh] *)
Definition refresh_rotate (cfg : AuthConfig) (clock : nat -> Z) (found : RefreshToken * User) : ACC Reply :=
  ac_core (refresh_delete (rt_id found.1));;
  issue_token_pair cfg (clock 1%nat) (clock 2%nat) (clock 3%nat) found.2.

(** [godwit-api/src/admin/auth.rs:193-223] [refresh] *)
Definition refresh (cfg : AuthConfig) (clock : nat -> Z) (cookie body_token : option string) : ACC Reply :=
  found ← refresh_lookup (clock 0%nat) cookie body_token;
  refresh_rotate cfg clock found.

Definition cleared_cookies : list string :=
  ["godwit_access=; HttpOnly; Path=/; Max-Age=0"; "godwit_refresh=; HttpOnly; Path=/api/v1/auth; Max-Age=0"].

(** [godwit-api/src/admin/auth.rs:225-251] [logout] *)
Definition logout (cookie body_token : option string) : ACC Reply :=
  refresh_token ← lift (ok_or Unauthorized (presented_token cookie body_token));
  ac_core (refresh_delete_by_hash (hash_refresh_token refresh_token));;
  mret (cleared_cookies, obj [("logged_out", VBool true)]).

(** [godwit-api/src/admin/auth.rs:253-271] [me] *)
Definition me `{Fmt} (c : Claims) : ACC value :=
  user_id ← lift (ok_or Unauthorized (parse_uuid (c_sub c)));
  user ← or_else Unauthorized (user_get_by_id user_id);
  mret (obj [("user", obj [("id", v_uuid (Db.user_id user)); ("email", VString (user_email user));
                           ("role", VString (user_role user));
                           ("organization_id", v_opt_uuid (user_organization_id user))])]).

(** [godwit-api/src/admin/auth.rs:273-298] [revoke_all_sessions] *)
Definition revoke_all_sessions (c : Claims) : ACC Reply :=
  user_id ← lift (ok_or Unauthorized (parse_uuid (c_sub c)));
  revoked ← ac_core (refresh_delete_all_for_user user_id);
  mret (cleared_cookies, obj [("revoked", num revoked)]).
End Session.
Arguments Accounts F : clear implicits.

(** ** Lemmas *)

Section Lemmas.
Context `{Sec : Secrets} `{F : F64}.
Implicit Types s : Accounts F.

Definition put_db (d : Db) s : Accounts F := {| ac_db := d; ac_limiter := ac_limiter s; ac_draws := ac_draws s |}.

Lemma ac_core_inv {T} (m : DB T) s r s' :
  ac_core m s = (r, s') -> exists r0 d, m (ac_db s) = (r0, d) /\ r = map_err CoreError r0 /\ s' = put_db d s.
Proof. unfold ac_core, st_map_err, ac, zoom. destruct (m (ac_db s)). intros. simplify_eq. eauto. Qed.
Lemma or_else_inv {T} e (m : DB T) s r s' :
  or_else e m s = (r, s') -> exists r0 d, m (ac_db s) = (r0, d) /\ r = map_err (fun _ => e) r0 /\ s' = put_db d s.
Proof. unfold or_else, st_map_err, ac, zoom. destruct (m (ac_db s)). intros. simplify_eq. eauto. Qed.

(** Everything but the refresh tokens is as before. *)
Definition only_tokens (d d' : Db) : Prop := exists f n l, d' = put_faults f (put_next n (put_refresh_tokens l d)).

Lemma only_tokens_faults d d' : only_faults d d' -> only_tokens d d'.
Proof. intros [f ->]. exists f, (db_next d), (t_refresh_tokens d). by destruct d. Qed.
Lemma only_tokens_trans d1 d2 d3 : only_tokens d1 d2 -> only_tokens d2 d3 -> only_tokens d1 d3.
Proof. intros (f & n & l & ->) (f' & n' & l' & ->). exists f', n', l'. by destruct d1. Qed.

(** A pair issued: one row more, holding the digest of the refresh token of the reply. *)
Definition issued (cfg : AuthConfig) (now3 : Z) (user : User) s (reply : Reply) s' : Prop :=
  exists tok access, rt_user_id tok = user_id user /\
    rt_token_hash tok = hash_refresh_token (random_token (ac_draws s)) /\
    rt_expires_at tok = now3 + days (refresh_token_ttl_days cfg) /\
    t_refresh_tokens (ac_db s') = (t_refresh_tokens (ac_db s) ++ [tok])%list /\
    reply.1 = [access_cookie cfg access; refresh_cookie cfg (random_token (ac_draws s))] /\
    reply.2 = obj [("access_token", VString access); ("refresh_token", VString (random_token (ac_draws s)))].

Lemma refresh_create_spec user hash e d r d' :
  refresh_create user hash e d = (r, d') -> only_tokens d d' /\
  match r with
  | Ok t => rt_user_id t = user /\ rt_token_hash t = hash /\ rt_expires_at t = e /\
            t_refresh_tokens d' = (t_refresh_tokens d ++ [t])%list
  | Err er => t_refresh_tokens d' = t_refresh_tokens d /\ exists m, er = Database m
  end.
Proof.
  unfold refresh_create, fresh_id. intros H. unfold mbind, st_bind, gets in H.
  match type of H with insert_row _ _ _ ?x = _ => set (d0 := x) in * end.
  apply insert_row_spec in H; [|done]. destruct r as [t|er].
  - destruct H as (-> & d1 & Hf & ->). destruct Hf as [f ->]. simpl. split; [|done].
    exists f, (db_next d + 1). eexists. by destruct d.
  - destruct H as [[f ->] Hm]. split; [|done]. exists f, (db_next d + 1), (t_refresh_tokens d). by destruct d.
Qed.

Lemma header_value_inv v r : r = header_value v -> match r with Ok v' => v' = v | Err e => e = Internal end.
Proof. intros ->. unfold header_value. by destruct (header_value_ok v). Qed.

Lemma issue_token_pair_inv cfg now1 now2 now3 user s r s' :
  issue_token_pair cfg now1 now2 now3 user s = (r, s') ->
  only_tokens (ac_db s) (ac_db s') /\ ac_limiter s' = ac_limiter s /\
  match r with
  | Ok reply => issued cfg now3 user s reply s' /\ ac_draws s' = S (ac_draws s)
  | Err e => e = Internal \/ t_refresh_tokens (ac_db s') = t_refresh_tokens (ac_db s)
  end.
Proof.
  unfold issue_token_pair. intros H. bind_in H; apply lift_inv in Hm as [E ->].
  { split; [apply only_tokens_faults, only_faults_refl|auto]. }
  rename x into access. unfold generate_refresh_token, draw in H. unfold mbind at 1, st_bind at 1 in H. simpl in H.
  bind_in H; apply ac_core_inv in Hm as (r0 & d & Hm & Er & ->); apply refresh_create_spec in Hm as [Ht Hm];
    simpl in Ht, Hm.
  { split; [done|]. split; [done|]. destruct r0; simplify_eq/=. right. apply Hm. }
  destruct r0 as [tok|]; simplify_eq/=. destruct Hm as (H1 & H2 & H3 & H4).
  bind_in H; apply lift_inv in Hm as [E1 ->]; apply header_value_inv in E1.
  { split; [done|]. split; [done|]. by left. }
  bind_in H; apply lift_inv in Hm as [E2 ->]; apply header_value_inv in E2.
  { split; [done|]. split; [done|]. by left. }
  subst. unfold mret, st_ret in H. simplify_eq. split; [done|]. split; [done|]. split; [|done]. by exists tok, access.
Qed.

Lemma select_faults {R} (t : table R) p d r d' :
  (forall f d, rows t (put_faults f d) = rows t d) -> select_one t p d = (r, d') -> only_faults d d'.
Proof. intros Ht H. by apply select_one_spec in H as [Hf _]. Qed.
Lemma refresh_lookup_inv now cookie body s r s' :
  refresh_lookup now cookie body s = (r, s') ->
  match r with
  | Ok (stored, user) => only_faults (ac_db s) (ac_db s') /\ s' = put_db (ac_db s') s /\
      (exists token, presented_token cookie body = Some token /\ rt_token_hash stored = hash_refresh_token token) /\
      stored ∈ t_refresh_tokens (ac_db s) /\ now <= rt_expires_at stored /\
      user ∈ t_users (ac_db s) /\ user_id user = rt_user_id stored
  | Err e => e = Unauthorized
  end.
Proof.
  unfold refresh_lookup. intros H. bind_in H; apply lift_inv in Hm as [E ->].
  { destruct (presented_token cookie body); simplify_eq/=. done. }
  destruct (presented_token cookie body) as [token|] eqn:Et; simplify_eq/=.
  bind_in H; apply or_else_inv in Hm as (r0 & d & Hm & Er & ->).
  { by destruct r0; simplify_eq/=. }
  destruct r0 as [stored|]; simplify_eq/=. apply select_one_found in Hm as (Hf & Hin & Hh); [|done].
  apply String.eqb_eq in Hh. destruct (Z.ltb_spec (rt_expires_at stored) now) as [?|He].
  { unfold catch in H. destruct (ac _ _). unfold throw in H. by simplify_eq. }
  bind_in H; apply or_else_inv in Hm as (r1 & d1 & Hm & Er & ->).
  { by destruct r1; simplify_eq/=. }
  destruct r1 as [user|]; simplify_eq/=. apply select_one_found in Hm as (Hf1 & Hin1 & Hu); [|done].
  unfold mret, st_ret in H. simplify_eq. simpl. apply Z.eqb_eq in Hu.
  assert (t_users d = t_users (ac_db s)) as Eu by (by destruct Hf as [f ->]). simpl in Hin1. rewrite Eu in Hin1.
  split; [by eapply only_faults_trans|]. split; [done|]. split; [by exists token|]. done.
Qed.

Lemma refresh_delete_inv id d r d' :
  refresh_delete id d = (r, d') -> only_tokens d d' /\
  (is_ok r = true -> t_refresh_tokens d' = filterb (fun t => negb (is_id (rt_id t) id)) (t_refresh_tokens d)).
Proof.
  unfold refresh_delete. intros H. bind_in H; apply delete_rows_spec in Hm; try done.
  - destruct Hm as [Hf _]. split; [by apply only_tokens_faults|done].
  - unfold mret, st_ret in H. simplify_eq. destruct Hm as (d1 & [f ->] & ->). split; [|done].
    exists f, (db_next d). eexists. by destruct d.
Qed.

Lemma unknown_token_refused cfg clock cookie body token s :
  presented_token cookie body = Some token ->
  (forall t, t ∈ t_refresh_tokens (ac_db s) -> rt_token_hash t <> hash_refresh_token token) ->
  (refresh cfg clock cookie body s).1 = Err Unauthorized.
Proof.
  intros Ht Hno. unfold refresh, mbind, st_bind.
  destruct (refresh_lookup (clock 0%nat) cookie body s) as [r s1] eqn:E. apply refresh_lookup_inv in E.
  destruct r as [[stored user]|e]; [|by subst].
  destruct E as (_ & _ & (t & E1 & E2) & Hin & _). rewrite Ht in E1. simplify_eq. by destruct (Hno _ Hin).
Qed.
End Lemmas.

(** ** Theorems *)

Section Theorems.
Context `{Sec : Secrets} `{F : F64}.
Implicit Types s : Accounts F.

(** The limiter replaced. *)
Definition with_limiter (l : LoginLimiter F) s : Accounts F :=
  {| ac_db := ac_db s; ac_limiter := l; ac_draws := ac_draws s |}.

Lemma issue_with_limiter cfg n1 n2 n3 user l s :
  (issue_token_pair cfg n1 n2 n3 user (with_limiter l s)).1 = (issue_token_pair cfg n1 n2 n3 user s).1.
Proof.
  unfold issue_token_pair, generate_refresh_token, draw, lift, ac_core, st_map_err, ac, zoom, mbind, st_bind.
  destruct (map_err _ _); [|done]. simpl. destruct (refresh_create _ _ _ _) as [[t|e] d]; simpl; [|done].
  destruct (header_value _); [|done]. by destruct (header_value _).
Qed.

(** C22: who gets a session.  A successful login names a stored user by email and gave a
    password that verifies against that user's hash; the database then has exactly one more
    refresh token, for that user, holding the digest of the token in the reply and expiring
    after the configured days, and nothing else changed; the reply also says whether the
    password must be changed.  A refused login stores no token. *)
Theorem login_needs_the_password cfg clock forwarded peer req s :
  let '(r, s') := login cfg clock forwarded peer req s in
  only_tokens (ac_db s) (ac_db s') /\
  match r with
  | Ok reply => exists user h tokens,
      user ∈ t_users (ac_db s) /\ user_email user = lr_email req /\
      user_password_hash user = Some h /\ verify_password (lr_password req) h = true /\
      issued cfg (clock 4%nat) user s tokens s' /\ reply.1 = tokens.1 /\
      get "refresh_token" reply.2 = Some (VString (random_token (ac_draws s))) /\
      get "must_change_password" reply.2 =
        Some (VBool (user_must_change_password user || opt_before (user_password_expires_at user) (clock 5%nat)))
  | Err e => e <> Internal -> t_refresh_tokens (ac_db s') = t_refresh_tokens (ac_db s)
  end.
Proof.
  assert (forall a b ip s0, only_tokens (ac_db s) (ac_db s0) -> t_refresh_tokens (ac_db s0) = t_refresh_tokens (ac_db s) ->
            let '(r, s') := failed_login a b ip s0 in only_tokens (ac_db s) (ac_db s') /\ exists e : ApiError,
              r = Err e /\ t_refresh_tokens (ac_db s') = t_refresh_tokens (ac_db s)) as Hfail.
  { intros a b ip s0 H1 H2. unfold failed_login. destruct (attempt_allowed _ _ _ _ _). eauto. }
  unfold login, catch, ac, zoom. destruct (user_get_by_email (lr_email req) (ac_db s)) as [r d] eqn:E.
  pose proof E as Ef. apply select_faults in Ef; [|done]. pose proof (only_tokens_faults _ _ Ef) as Ht.
  assert (t_refresh_tokens d = t_refresh_tokens (ac_db s)) as Etok by (by destruct Ef as [f ->]).
  destruct r as [user|e]; [|by specialize (Hfail (clock 0%nat) (clock 1%nat) (client_ip forwarded peer (trust_proxy cfg))
    (put_db d s) Ht Etok); unfold put_db in Hfail; destruct (failed_login _ _ _ _) as [r s'];
    destruct Hfail as (? & e' & -> & ?)].
  apply select_one_found in E as (_ & Hin & He); [|done]. apply String.eqb_eq in He.
  unfold lift, mbind, st_bind. destruct (user_password_hash user) as [h|] eqn:Eh; simpl; [|by split].
  destruct (verify_password (lr_password req) h) eqn:Ev; simpl;
    [|by specialize (Hfail (clock 0%nat) (clock 1%nat) (client_ip forwarded peer (trust_proxy cfg))
      (put_db d s) Ht Etok); unfold put_db in Hfail; destruct (failed_login _ _ _ _) as [r s'];
      destruct Hfail as (? & e' & -> & ?)].
  destruct (issue_token_pair _ _ _ _ _ _) as [r s1] eqn:Ei. apply issue_token_pair_inv in Ei as (H1 & H2 & H3).
  simpl in H1. assert (only_tokens (ac_db s) (ac_db s1)) as H4 by (by eapply only_tokens_trans).
  destruct r as [tokens|e].
  - destruct H3 as [(tok & access & I1 & I2 & I3 & I4 & I5 & I6) _]. simpl in *. split; [done|].
    exists user, h, tokens. rewrite I6. rewrite Etok in I4.
    split; [done|]. split; [done|]. split; [done|]. split; [done|]. split; [by exists tok, access|]. by repeat split.
  - split; [done|]. intros Hne. destruct H3 as [?|H3]; [done|]. simpl in H3. congruence.
Qed.

(** The login limiter does not limit a correct guess.  It is consulted only after the
    credentials were found wrong, so a login that succeeds would succeed with the same
    answer whatever failures the limiter has counted: it slows no one who happens to send
    the right password. *)
Theorem correct_guess_is_never_limited cfg clock forwarded peer req s reply :
  (login cfg clock forwarded peer req s).1 = Ok reply ->
  forall l, (login cfg clock forwarded peer req (with_limiter l s)).1 = Ok reply.
Proof.
  assert (forall a b ip s0 x, (failed_login (F := F) a b ip s0).1 <> Ok x) as Hfail.
  { intros a b ip s0 x. unfold failed_login. by destruct (attempt_allowed _ _ _ _ _). }
  unfold login, catch, ac, zoom, lift, mbind, st_bind. simpl. intros H l.
  destruct (user_get_by_email (lr_email req) (ac_db s)) as [[user|e] d]; [|by apply Hfail in H].
  destruct (user_password_hash user) as [h|]; simpl in *; [|done].
  destruct (verify_password (lr_password req) h); simpl in *; [|by apply Hfail in H].
  pose proof (issue_with_limiter cfg (clock 2%nat) (clock 3%nat) (clock 4%nat) user l (put_db d s)) as Hi.
  unfold with_limiter, put_db in *. simpl in Hi.
  destruct (issue_token_pair _ _ _ _ _ {| ac_db := d; ac_limiter := l; ac_draws := ac_draws s |}) as [r1 s1].
  destruct (issue_token_pair _ _ _ _ _ _) as [r2 s2]. simpl in Hi. subst r2. by destruct r1.
Qed.

(** Where digests are unique, a row with the digest of another is that row. *)
Lemma same_digest_same_row l (a b : RefreshToken) :
  NoDup (rt_token_hash <$> l) -> a ∈ l -> b ∈ l -> rt_token_hash a = rt_token_hash b -> a = b.
Proof.
  intros Hnd [i Hi]%list_elem_of_lookup_1 [j Hj]%list_elem_of_lookup_1 Heq.
  assert (i = j) as ->; [|congruence]. eapply NoDup_lookup; [exact Hnd|..]; rewrite list_lookup_fmap; [by rewrite Hi|].
  rewrite Hj. simpl. by rewrite Heq.
Qed.

(** C37: a refresh token works once.  A successful refresh was for a stored row with the digest
    of the token, in its time; the rows of its id, and no others, are gone, and one new row is
    stored, for the same user, with the configured lifetime and the digest of the refresh token
    that the reply hands out; no row has the digest of the old token any more, and presenting
    it again is refused.  (Digests are unique in the table, as its constraint demands, and the
    new random token differs from the old one.) *)
Theorem refresh_token_is_single_use `{!SecretsLaws Sec} cfg clock cookie body token s reply s' :
  presented_token cookie body = Some token -> random_token (ac_draws s) <> token ->
  NoDup (rt_token_hash <$> t_refresh_tokens (ac_db s)) ->
  refresh cfg clock cookie body s = (Ok reply, s') ->
  (exists stored new access, stored ∈ t_refresh_tokens (ac_db s) /\ rt_token_hash stored = hash_refresh_token token /\
     clock 0%nat <= rt_expires_at stored /\
     t_refresh_tokens (ac_db s') =
       (filterb (fun t => negb (is_id (rt_id t) (rt_id stored))) (t_refresh_tokens (ac_db s)) ++ [new])%list /\
     rt_user_id new = rt_user_id stored /\ rt_token_hash new = hash_refresh_token (random_token (ac_draws s)) /\
     rt_expires_at new = clock 3%nat + days (refresh_token_ttl_days cfg) /\
     reply.2 = obj [("access_token", VString access); ("refresh_token", VString (random_token (ac_draws s)))]) /\
  (forall t, t ∈ t_refresh_tokens (ac_db s') -> rt_token_hash t <> hash_refresh_token token) /\
  forall clock', (refresh cfg clock' cookie body s').1 = Err Unauthorized.
Proof.
  intros Ht Hnew Hnd H.
  unfold refresh in H. bind_in H; [done|]. rename x into found.
  apply refresh_lookup_inv in Hm. destruct found as [stored user].
  destruct Hm as (Hf & Es & (tk & E1 & Eh) & Hin & Hexp & _ & Hu). rewrite Ht in E1. injection E1 as <-.
  assert (t_refresh_tokens (ac_db s0) = t_refresh_tokens (ac_db s)) as Et by (destruct Hf as [f ->]; done).
  unfold refresh_rotate in H. bind_in H; [done|]. apply ac_core_inv in Hm as (r0 & d & Hm & Er & ->).
  destruct r0; simplify_eq/=. apply refresh_delete_inv in Hm as [_ Hm]. specialize (Hm eq_refl). simpl in Hm.
  apply issue_token_pair_inv in H as (_ & _ & (tok & acc & I1 & I2 & I3 & I4 & _ & I6) & _).
  simpl in I4, I2, I6. assert (ac_draws s0 = ac_draws s) as Ed by (by rewrite Es). rewrite Ed in I2, I6. rewrite Hm, Et in I4.
  assert (forall t, t ∈ t_refresh_tokens (ac_db s') -> rt_token_hash t <> hash_refresh_token token) as Hgone.
  { rewrite I4. intros t [[Hin' Hid]%elem_of_filterb|Hin']%elem_of_app.
    - intros Heq. assert (t = stored) as -> by (by eapply same_digest_same_row; [exact Hnd|..]; rewrite ?Heq).
      unfold is_id in Hid. by rewrite Z.eqb_refl in Hid.
    - apply list_elem_of_singleton in Hin' as ->. rewrite I2. intros Heq. by apply digest_fresh in Heq. }
  split; [|split; [done|]].
  - exists stored, tok, acc. by rewrite <- Hu.
  - intros clock'. by apply unknown_token_refused with token.
Qed.
(** With no failing statement, a rotation succeeds when its token can be signed, its cookies
    are valid headers, its digest is new and its user exists. *)
Lemma rotate_succeeds cfg clock stored user access s :
  db_faults (ac_db s) = [] ->
  issue (clock 2%nat) (jwt_secret cfg)
    (claims_new (clock 1%nat) (user_id user) (default 0 (user_organization_id user)) (user_role user))
    (minutes (access_token_ttl_minutes cfg)) = Ok access ->
  header_value_ok (access_cookie cfg access) = true ->
  header_value_ok (refresh_cookie cfg (random_token (ac_draws s))) = true ->
  hash_refresh_token (random_token (ac_draws s)) ∉ rt_token_hash <$> t_refresh_tokens (ac_db s) ->
  user ∈ t_users (ac_db s) ->
  exists reply tok s', refresh_rotate cfg clock (stored, user) s = (Ok reply, s') /\
    db_faults (ac_db s') = [] /\ t_users (ac_db s') = t_users (ac_db s) /\ ac_draws s' = S (ac_draws s) /\
    rt_token_hash tok = hash_refresh_token (random_token (ac_draws s)) /\
    t_refresh_tokens (ac_db s') =
      (filterb (fun t => negb (is_id (rt_id t) (rt_id stored))) (t_refresh_tokens (ac_db s)) ++ [tok])%list.
Proof.
  intros Hf Hi Ha Hr Hn Hu. unfold refresh_rotate, ac_core, st_map_err, ac, zoom, refresh_delete, delete_rows, stmt, get_db.
  unfold mbind, st_bind, mret, st_ret, gets, modify. simpl. rewrite Hf. simpl.
  unfold issue_token_pair, lift, mbind, st_bind. simpl. rewrite Hi. simpl.
  unfold ac_core, st_map_err, ac, zoom, refresh_create, fresh_id, insert_row, stmt, get_db, mbind, st_bind, gets, modify.
  simpl. rewrite Hf. simpl.
  assert (existsb (fun x => String.eqb (rt_token_hash x) (hash_refresh_token (random_token (ac_draws s))))
            (filterb (fun t => negb (is_id (rt_id t) (rt_id stored))) (t_refresh_tokens (ac_db s))) = false) as ->.
  { apply not_true_iff_false. intros (x & Hin & He)%existsb_exists. apply String.eqb_eq in He.
    apply list_elem_of_In, elem_of_filterb in Hin as [Hin _]. apply Hn. rewrite <- He. by apply list_elem_of_fmap_2. }
  assert (existsb (fun u => is_id (Db.user_id u) (user_id user)) (t_users (ac_db s)) = true) as ->.
  { apply existsb_exists. exists user. split; [by apply list_elem_of_In|apply Z.eqb_refl]. }
  simpl. unfold header_value. rewrite Ha, Hr. unfold mret, st_ret. by repeat eexists.
Qed.

(** A lookup that succeeds with no failing statement changes nothing. *)
Lemma refresh_lookup_pure now cookie body s found s1 :
  db_faults (ac_db s) = [] -> refresh_lookup now cookie body s = (Ok found, s1) -> s1 = s.
Proof.
  intros Hf Hl. unfold refresh_lookup, or_else, st_map_err, ac, zoom, lift, mbind, st_bind in Hl.
  unfold refresh_get_by_hash, user_get_by_id, select_one, stmt, get_db, mbind, st_bind, gets in Hl.
  destruct (presented_token cookie body); simpl in Hl; [|done]. rewrite Hf in Hl. simpl in Hl.
  destruct (filterb _ (t_refresh_tokens (ac_db s))) as [|t l]; simpl in Hl; [done|].
  destruct (rt_expires_at t <? now); [by unfold catch, throw in Hl; destruct (refresh_delete _ _)|].
  simpl in Hl. rewrite Hf in Hl. destruct (filterb _ (t_users (ac_db s))); simpl in Hl; [done|].
  unfold mret, st_ret in Hl. injection Hl as _ E. rewrite <- E. by destruct s.
Qed.

(** Two concurrent refreshes with one token both succeed.  Each request first reads the
    token's row and later deletes it, without looking at whether the row was still there: when
    the second reads before the first deletes, one token becomes two. *)
Theorem concurrent_refreshes_both_rotate cfg clock cookie body s stored user s1 access :
  db_faults (ac_db s) = [] ->
  refresh_lookup (clock 0%nat) cookie body s = (Ok (stored, user), s1) ->
  issue (clock 2%nat) (jwt_secret cfg)
    (claims_new (clock 1%nat) (user_id user) (default 0 (user_organization_id user)) (user_role user))
    (minutes (access_token_ttl_minutes cfg)) = Ok access ->
  header_value_ok (access_cookie cfg access) = true ->
  header_value_ok (refresh_cookie cfg (random_token (ac_draws s))) = true ->
  header_value_ok (refresh_cookie cfg (random_token (S (ac_draws s)))) = true ->
  let digest k := hash_refresh_token (random_token k) in
  digest (ac_draws s) <> digest (S (ac_draws s)) ->
  digest (ac_draws s) ∉ rt_token_hash <$> t_refresh_tokens (ac_db s) ->
  digest (S (ac_draws s)) ∉ rt_token_hash <$> t_refresh_tokens (ac_db s) ->
  refresh_lookup (clock 0%nat) cookie body s1 = (Ok (stored, user), s1) /\
  exists reply1 s2 reply2 s3,
    refresh_rotate cfg clock (stored, user) s1 = (Ok reply1, s2) /\
    refresh_rotate cfg clock (stored, user) s2 = (Ok reply2, s3).
Proof.
  intros Hf Hl Hi Ha Hr Hr2 digest Hd Hn1 Hn2.
  apply refresh_lookup_pure in Hl as Es; [|done]. subst s1.
  split; [done|].
  pose proof Hl as Hl'. apply refresh_lookup_inv in Hl' as (_ & _ & _ & _ & _ & Hu & _).
  destruct (rotate_succeeds cfg clock stored user access s) as (r1 & tok & s2 & E1 & F1 & U1 & D1 & T1 & L1); try done.
  destruct (rotate_succeeds cfg clock stored user access s2) as (r2 & tok2 & s3 & E2 & _); try done.
  - by rewrite D1.
  - rewrite D1, L1, fmap_app. intros [Hin|Hin]%elem_of_app.
    + apply list_elem_of_fmap in Hin as (t & He & Hin). apply elem_of_filterb in Hin as [Hin _].
      apply Hn2. unfold digest. rewrite He. by apply list_elem_of_fmap_2.
    + simpl in Hin. apply list_elem_of_singleton in Hin. by rewrite T1 in Hin.
  - by rewrite U1.
  - by exists r1, s2, r2, s3.
Qed.
End Theorems.

(** ** A small instance for the witnesses

    Hashes and digests are the texts themselves, and draws are numbered. *)
Definition plain_secrets : Secrets :=
  {| random_token k := "token-" +:+ pretty k; sha256_hex t := t; hash_password _ pw := pw;
     verify_password := String.eqb; jwt_encode _ _ := Ok "jwt"; parse_uuid _ := None; uuid_text := pretty |}.
#[local] Instance plain_secrets_laws : SecretsLaws plain_secrets.
Proof. split; simpl; [intros _ pw; apply String.eqb_refl|intros k t E; by symmetry]. Qed.
#[local] Existing Instances plain_secrets whole_f64.

Definition plain_config : AuthConfig :=
  {| jwt_secret := "s"; access_token_ttl_minutes := 15; refresh_token_ttl_days := 7; cookie_secure := true;
     allowed_cookie_origin := ""; login_max_attempts_per_minute := 10; trust_proxy := false; oidc_providers := []; saml_providers := [];
     mail := None; password_policy := default_password_policy |}.
Definition ann : User :=
  {| user_id := 5; user_organization_id := Some 3; user_email := "ann@acme.com"; user_name := None;
     user_role := "user"; user_sso_provider := None; user_sso_subject := None;
     user_password_hash := Some "correct horse"; user_password_changed_at := None;
     user_password_expires_at := None; user_must_change_password := false; user_created_at := 0 |}.
Definition old_token : RefreshToken :=
  {| rt_id := 1; rt_user_id := 5; rt_token_hash := "old"; rt_expires_at := 10; rt_created_at := 0 |}.
Definition accounts : Accounts whole_f64 :=
  {| ac_db := put_refresh_tokens [old_token] (put_users [ann] empty_db); ac_limiter := login_new 10; ac_draws := 0 |}.
Definition right_password : LoginRequest := {| lr_email := "ann@acme.com"; lr_password := "correct horse" |}.

Lemma correct_guess_is_never_limited_witness :
  exists reply, (login plain_config (fun _ => 0) None None right_password accounts).1 = Ok reply /\
    forall l, (login plain_config (fun _ => 0) None None right_password (with_limiter l accounts)).1 = Ok reply.
Proof.
  destruct (login plain_config (fun _ => 0) None None right_password accounts).1 as [reply|e] eqn:E.
  - exists reply. split; [reflexivity|].
    exact (correct_guess_is_never_limited plain_config (fun _ => 0) None None right_password accounts reply E).
  - exfalso. assert (is_ok (login plain_config (fun _ => 0) None None right_password accounts).1 = true) as Hb
      by (vm_compute; reflexivity). rewrite E in Hb. discriminate Hb.
Defined.

Lemma refresh_token_is_single_use_witness :
  exists reply s', refresh plain_config (fun _ => 0) None (Some "old") accounts = (Ok reply, s') /\
    (refresh plain_config (fun _ => 0) None (Some "old") s').1 = Err Unauthorized.
Proof.
  destruct (refresh plain_config (fun _ => 0) None (Some "old") accounts) as [[reply|e] s'] eqn:E.
  - exists reply, s'. split; [reflexivity|].
    refine (proj2 (proj2 (refresh_token_is_single_use plain_config (fun _ => 0) None (Some "old") "old" accounts reply s' _ _ _ E)) (fun _ => 0)).
    + reflexivity.
    + vm_compute. discriminate.
    + simpl. apply NoDup_singleton.
  - exfalso. assert (is_ok (refresh plain_config (fun _ => 0) None (Some "old") accounts).1 = true) as Hb
      by (vm_compute; reflexivity). rewrite E in Hb. discriminate Hb.
Defined.

Lemma concurrent_refreshes_both_rotate_witness :
  exists reply1 s2 reply2 s3,
    refresh_rotate plain_config (fun _ => 0) (old_token, ann) accounts = (Ok reply1, s2) /\
    refresh_rotate plain_config (fun _ => 0) (old_token, ann) s2 = (Ok reply2, s3).
Proof.
  refine (proj2 (concurrent_refreshes_both_rotate plain_config (fun _ => 0) None (Some "old") accounts old_token ann
                   accounts "jwt" eq_refl _ eq_refl eq_refl eq_refl eq_refl _ _ _)).
  - reflexivity.
  - vm_compute. discriminate.
  - simpl. intros Hin. apply list_elem_of_singleton in Hin. vm_compute in Hin. discriminate Hin.
  - simpl. intros Hin. apply list_elem_of_singleton in Hin. vm_compute in Hin. discriminate Hin.
Defined.
