(* ===== verification/Sso.v ===== *)
(** * Single sign-on

    The OIDC client of [godwit-auth/src/oidc.rs] and the three routes of
    [godwit-api/src/admin/auth.rs] that log a person in by another system: the start of an OIDC
    login, its callback, and the SAML endpoint.

    The openidconnect crate is the class [OidcCrate] over the state [W] of the network: its
    constructors, the discovery of a provider, the exchange of a code and the verification of
    an id token. *)

From stdpp Require Import base strings list gmap.
From Stdlib Require Import QArith Ascii.
From S2P Require Import Prelude RustStr Json Core Limiter Db Auth Admin Config Session.

#[local] Open Scope string_scope.
#[local] Open Scope Z_scope.

(** What a verified id token says. *)
Record IdClaims : Type := { ic_nonce : option string; ic_email : option string; ic_name : option string; ic_subject : string }.

Class OidcCrate (W : Type) := {
  Metadata : Type;
  TokenResponse : Type;
  IdToken : Type;
  issuer_url_new : string -> result string string;
  discover_async : string -> W -> result string Metadata * W;
  redirect_url_new : string -> result string string;
  random_csrf : nat -> string;
  random_nonce : nat -> string;
  authorization_url : Metadata -> string -> string -> string -> string -> list string -> string;
  request_token : Metadata -> string -> string -> string -> string -> W -> result string TokenResponse * W;
  id_token : TokenResponse -> option IdToken;
  id_token_claims : Metadata -> string -> IdToken -> string -> result string IdClaims;
}.
(** A token passes verification only when it carries the nonce it is verified against; a
    random nonce is the base64 text of sixteen bytes. *)
Class OidcCrateLaws (W : Type) `{OidcCrate W} := {
  nonce_is_verified m c t n claims : id_token_claims m c t n = Ok claims -> ic_nonce claims = Some n;
  random_nonce_length k : String.length (random_nonce k) = 22%nat;
}.

(** ** The client *)

Section Client.
Context {W : Type} `{OidcCrate W}.

(** [godwit-auth/src/oidc.rs:9-13] [OidcClient] *)
Record OidcClient : Type := {
  o_metadata : Metadata; o_client_id : string; o_client_secret : string; o_redirect_uri : string; o_provider_id : string }.

Definition network {T} (m : W -> result string T * W) (e : string -> PasteurError) : ST W PasteurError T :=
  fun w => match m w with (r, w) => (map_err e r, w) end.

(** [godwit-auth/src/oidc.rs:16-35] [OidcClient::new] *)
Definition oidc_client_new (config : OidcProviderConfig) : ST W PasteurError OidcClient :=
  issuer ← lift (map_err Core.Config (issuer_url_new (issuer_url config)));
  metadata ← network (discover_async issuer) Core.Auth;
  redirect ← lift (map_err Core.Config (redirect_url_new (redirect_uri config)));
  mret {| o_metadata := metadata; o_client_id := client_id config; o_client_secret := client_secret config;
          o_redirect_uri := redirect; o_provider_id := oidc_id config |}.

(** [k] and [k'] are the draws of the state and of the nonce.
    [godwit-auth/src/oidc.rs:37-47] [OidcClient::authorize_url] *)
Definition authorize_url (c : OidcClient) (k k' : nat) (scopes : list string) : string * string * string :=
  (authorization_url (o_metadata c) (o_client_id c) (o_redirect_uri c) (random_csrf k) (random_nonce k') scopes,
   random_csrf k, random_nonce k').

(** [godwit-auth/src/oidc.rs:49-79] [OidcClient::exchange_code] *)
Definition exchange_code (c : OidcClient) (code csrf nonce : string) : ST W PasteurError (string * string * option string) :=
  token_response ← network (request_token (o_metadata c) (o_client_id c) (o_client_secret c) (o_redirect_uri c) code) Core.Auth;
  token ← lift (ok_or (Core.Auth "missing id_token") (id_token token_response));
  claims ← lift (map_err Core.Auth (id_token_claims (o_metadata c) (o_client_id c) token nonce));
  email ← lift (ok_or (Core.Auth "missing email") (ic_email claims));
  mret (email, ic_subject claims, ic_name claims).
End Client.
Arguments OidcClient W {_}.

(** ** The routes *)

Section Routes.
Context {W : Type} `{OidcCrate W} `{Sec : Secrets} `{F : F64}.

(** The accounts of the gateway and the network. *)
Record Visit : Type := { vs_accounts : Accounts F; vs_network : W }.
Definition at_accounts {T E} (m : ST (Accounts F) E T) : ST Visit E T :=
  zoom vs_accounts (fun a v => {| vs_accounts := a; vs_network := vs_network v |}) m.
Definition at_network {T E} (e : ApiError) (m : ST W E T) : ST Visit ApiError T :=
  st_map_err (fun _ => e) (zoom vs_network (fun w v => {| vs_accounts := vs_accounts v; vs_network := w |}) m).

(** [godwit-api/src/admin/auth.rs:27-31] [OidcCallback] *)
Record OidcCallback : Type := { cb_code : string; cb_state : string }.

Definition provider_of (cfg : AuthConfig) (provider_id : string) : option OidcProviderConfig :=
  List.find (fun p => String.eqb (oidc_id p) provider_id) (oidc_providers cfg).

(** The target of the redirect.
    [godwit-api/src/admin/auth.rs:300-321] [oidc_start] *)
Definition oidc_start (cfg : AuthConfig) (provider_id : string) : ST Visit ApiError string :=
  config ← lift (ok_or NotFound (provider_of cfg provider_id));
  client ← at_network Internal (oidc_client_new config);
  k ← at_accounts draw; k' ← at_accounts draw;
  let '(url, _csrf, _nonce) := authorize_url client k k' ["openid"; "email"; "profile"] in
  mret url.

(** The user of an email, made when there is none.
    [godwit-api/src/admin/auth.rs:343-355] [oidc_callback] *)
Definition user_of_email (email : string) (name : option string) : ST (Accounts F) ApiError User :=
  catch (ac (user_get_by_email email)) (fun r =>
    match r with
    | Ok u => mret u
    | Err _ => or_else Internal (user_create email name URUser None)
    end).

(** [clock] gives the three readings of the tokens.
    [godwit-api/src/admin/auth.rs:323-357] [oidc_callback] *)
Definition oidc_callback (cfg : AuthConfig) (clock : nat -> Z) (provider_id : string) (params : OidcCallback) : ST Visit ApiError Reply :=
  config ← lift (ok_or NotFound (provider_of cfg provider_id));
  client ← at_network Internal (oidc_client_new config);
  found ← at_network Unauthorized (exchange_code client (cb_code params) (cb_state params) "nonce");
  let '(email, _subject, name) := found in
  user ← at_accounts (user_of_email email name);
  at_accounts (issue_token_pair cfg (clock 0%nat) (clock 1%nat) (clock 2%nat) user).

(** [godwit-api/src/admin/auth.rs:359-366] [saml_acs] *)
Definition saml_acs (provider_id : string) : ST Visit ApiError Reply :=
  throw (BadRequest "SAML ACS requires XML signature validation; implement with real IdP metadata").
End Routes.
Arguments Visit W F : clear implicits.

(** ** Facts *)

Section Facts.
Context {W : Type} `{OidcCrate W} `{Sec : Secrets} `{F : F64}.
Implicit Types (s : Accounts F) (v : Visit W F).

(** A row the callback made: an ordinary user of no organization, whom no provider is
    recorded for. *)
Definition fresh_sso_user (email : string) (name : option string) (u : User) : Prop :=
  user_email u = email /\ user_name u = name /\ user_role u = "user" /\ user_organization_id u = None /\
  user_sso_provider u = None /\ user_sso_subject u = None /\ user_password_hash u = None.

Lemma insert_row_cases {R} (t : table R) ok x d r d' :
  insert_row t ok x d = (r, d') ->
  (only_faults d d' /\ exists m, r = Err (Database m)) \/
  exists d1, only_faults d d1 /\ ok x d1 = true /\ d' = put t (rows t d1 ++ [x])%list d1 /\ r = Ok x.
Proof.
  unfold insert_row, get_db. st_unfold. destruct (stmt d) as [s d1] eqn:Es.
  apply stmt_spec in Es as [Hf [->|[m ->]]]; [|intros; simplify_eq; left; eauto].
  destruct (ok x d1) eqn:Eo; intros; simplify_eq; [right|left; eauto]. by exists d1.
Qed.

Lemma user_of_email_inv email name s r s' :
  user_of_email email name s = (r, s') ->
  ac_draws s' = ac_draws s /\ t_refresh_tokens (ac_db s') = t_refresh_tokens (ac_db s) /\
  match r with
  | Ok u => (u ∈ t_users (ac_db s) /\ user_email u = email /\ t_users (ac_db s') = t_users (ac_db s)) \/
            (fresh_sso_user email name u /\ email ∉ (user_email <$> t_users (ac_db s)) /\
             t_users (ac_db s') = (t_users (ac_db s) ++ [u])%list)
  | Err e => e = Internal /\ t_users (ac_db s') = t_users (ac_db s)
  end.
Proof.
  unfold user_of_email, catch, ac, zoom. destruct (user_get_by_email email (ac_db s)) as [[u|e] d] eqn:E.
  - intros [= <- <-]. apply select_one_found in E as ([f ->] & Hin & He); [|done]. simpl. split; [done|]. split; [done|].
    left. split; [exact Hin|]. split; [by apply String.eqb_eq|done].
  - apply select_one_spec in E as ([f ->] & _); [|done]. intros (r0 & d & Hm & -> & ->)%or_else_inv. simpl in Hm |- *.
    unfold user_create, fresh_id, gets in Hm. unfold mbind, st_bind in Hm.
    apply insert_row_cases in Hm as [[[g ->] [m ->]]|(d1 & [g ->] & Ho & -> & ->)]; simpl; [done|].
    split; [done|]. split; [done|]. right. split; [by repeat split|]. split; [|done].
    apply andb_prop in Ho as [Ho _]. apply negb_true_iff in Ho. simpl in Ho. intros (u & -> & Hu)%list_elem_of_fmap.
    assert (existsb (fun x => String.eqb (user_email x) (user_email u)) (t_users (ac_db s)) = true) as Hx; [|congruence].
    apply existsb_exists. exists u. split; [by apply list_elem_of_In|by apply String.eqb_refl].
Qed.
Lemma at_network_inv {T} e (m : ST W PasteurError T) v r v' :
  at_network (F := F) e m v = (r, v') ->
  exists r0 w, m (vs_network v) = (r0, w) /\ r = map_err (fun _ => e) r0 /\ v' = {| vs_accounts := vs_accounts v; vs_network := w |}.
Proof. unfold at_network, st_map_err, zoom. destruct (m (vs_network v)). intros. simplify_eq. eauto. Qed.
Lemma at_accounts_inv {T E} (m : ST (Accounts F) E T) v r v' :
  at_accounts (W := W) m v = (r, v') ->
  exists a, m (vs_accounts v) = (r, a) /\ v' = {| vs_accounts := a; vs_network := vs_network v |}.
Proof. unfold at_accounts, zoom. destruct (m (vs_accounts v)). intros. simplify_eq. eauto. Qed.

(** An exchange that gives an email: the token it was read from. *)
Lemma exchange_code_ok (c : OidcClient W) code csrf nonce w email subject name w' :
  exchange_code c code csrf nonce w = (Ok (email, subject, name), w') ->
  exists response token claims,
    request_token (o_metadata c) (o_client_id c) (o_client_secret c) (o_redirect_uri c) code w = (Ok response, w') /\
    id_token response = Some token /\ id_token_claims (o_metadata c) (o_client_id c) token nonce = Ok claims /\
    ic_email claims = Some email /\ ic_subject claims = subject /\ ic_name claims = name.
Proof.
  unfold exchange_code. intros (response & w1 & Hr & E)%st_bind_ok. unfold network in Hr.
  destruct (request_token _ _ _ _ _ w) as [[tr|e] w2] eqn:Et; simplify_eq/=.
  apply st_bind_ok in E as (token & w3 & [Ht ->]%lift_inv & E). apply st_bind_ok in E as (claims & w4 & [Hc ->]%lift_inv & E).
  apply st_bind_ok in E as (em & w5 & [He ->]%lift_inv & E). unfold mret, st_ret in E.
  destruct (id_token response) as [tk|] eqn:Ek; simplify_eq/=.
  destruct (id_token_claims _ _ tk nonce) as [cl|] eqn:Ecl; simplify_eq/=. destruct (ic_email cl) as [em'|] eqn:Eem; simplify_eq/=.
  by exists response, tk, cl.
Qed.

(** C14: single sign-on opens a session for whoever has the email of the token.  A callback that
    answers with tokens found its provider in the configuration and exchanged the code for an
    id token that verifies against the literal nonce.  The session is that of the first user
    with the token's email, whatever the role, the provider and the subject of that user's row; or,
    when nobody has the email, of a new ordinary user of no organization, in whose row neither
    provider nor subject is recorded.  One refresh token is added, and nothing else changes in
    the users and sessions.  The state of the callback is not looked at. *)
Theorem sso_trusts_the_email cfg clock provider_id params v reply v'
  (Hr : oidc_callback cfg clock provider_id params v = (Ok reply, v')) :
  (exists config client w1 response token claims email user,
     provider_of cfg provider_id = Some config /\ oidc_client_new config (vs_network v) = (Ok client, w1) /\
     request_token (o_metadata client) (o_client_id client) (o_client_secret client) (o_redirect_uri client) (cb_code params) w1
       = (Ok response, vs_network v') /\
     id_token response = Some token /\ id_token_claims (o_metadata client) (o_client_id client) token "nonce" = Ok claims /\
     ic_email claims = Some email /\
     (let before := t_users (ac_db (vs_accounts v)) in let after := t_users (ac_db (vs_accounts v')) in
      (user ∈ before /\ user_email user = email /\ after = before) \/
      (fresh_sso_user email (ic_name claims) user /\ email ∉ (user_email <$> before) /\ after = (before ++ [user])%list)) /\
     exists tok, rt_user_id tok = user_id user /\
       t_refresh_tokens (ac_db (vs_accounts v')) = (t_refresh_tokens (ac_db (vs_accounts v)) ++ [tok])%list) /\
  forall state, oidc_callback cfg clock provider_id {| cb_code := cb_code params; cb_state := state |} v = (Ok reply, v').
Proof.
  split; [|intros state; exact Hr]. unfold oidc_callback in Hr.
  apply st_bind_ok in Hr as (config & v0 & [Hc ->]%lift_inv & Hr).
  destruct (provider_of cfg provider_id) as [cf|] eqn:Ep; simplify_eq/=.
  apply st_bind_ok in Hr as (client & v1 & (r1 & w1 & Hn & E1 & ->)%at_network_inv & Hr). destruct r1 as [cl1|]; simplify_eq/=.
  apply st_bind_ok in Hr as ([[email subject] name] & v2 & (r2 & w2 & Hx & E2 & ->)%at_network_inv & Hr). destruct r2 as [em1|]; simplify_eq/=.
  apply exchange_code_ok in Hx as (response & token & claims & H1 & H2 & H3 & H4 & _ & <-).
  apply st_bind_ok in Hr as (user & v3 & (a1 & Hu & ->)%at_accounts_inv & Hr). apply at_accounts_inv in Hr as (a2 & Hi & ->). simpl in *.
  apply user_of_email_inv in Hu as (_ & Ht & Hu).
  apply issue_token_pair_inv in Hi as ((f & n & l & Hdb) & _ & (tok & _ & Hid & _ & _ & Htok & _) & _).
  eexists _, _, w1, response, token, claims, _, user. split_and!; try done.
  - rewrite Hdb. exact Hu.
  - exists tok. split; [done|]. by rewrite Htok, Ht.
Qed.

(** C39: nobody logs in by an honest provider.  The callback verifies every id token against the
    text ["nonce"], while each authorization request carries a random nonce of its own.  When
    the tokens a provider gives for a code carry the nonce of such a request, as the
    specification of OpenID Connect demands, the callback answers 401 at the latest, whatever
    was asked, and no account, session or draw changes. *)
Theorem honest_sso_is_refused `{!OidcCrateLaws W} cfg clock provider_id params v
  (Hh : forall m id secret redirect code w response w' token n claims,
     request_token m id secret redirect code w = (Ok response, w') -> id_token response = Some token ->
     id_token_claims m id token n = Ok claims -> exists k, ic_nonce claims = Some (random_nonce k)) :
  exists e v', oidc_callback cfg clock provider_id params v = (Err e, v') /\ e ∈ [NotFound; Internal; Unauthorized] /\
    vs_accounts v' = vs_accounts v.
Proof.
  destruct (oidc_callback cfg clock provider_id params v) as [r v'] eqn:Hr. unfold oidc_callback in Hr.
  apply st_bind_inv in Hr as [(e & [Hc ->]%lift_inv & ->)|(config & v0 & [Hc ->]%lift_inv & Hr)].
  { destruct (provider_of _ _); simplify_eq/=. eexists _, _. split; [done|]. split; [left|done]. }
  apply st_bind_inv in Hr as [(e & (r1 & w1 & Hn & E1 & ->)%at_network_inv & ->)|(client & v1 & (r1 & w1 & Hn & E1 & ->)%at_network_inv & Hr)].
  { destruct r1 as [cl1|]; simplify_eq/=. eexists _, _. split; [done|]. split; [right; left|done]. }
  apply st_bind_inv in Hr as [(e & (r2 & w2 & Hx & E2 & ->)%at_network_inv & ->)|([[email subject] name] & v2 & (r2 & w2 & Hx & E2 & ->)%at_network_inv & Hr)].
  { destruct r2 as [em1|]; simplify_eq/=. eexists _, _. split; [done|]. split; [right; right; left|done]. }
  destruct r2 as [x|]; simplify_eq/=. exfalso.
  apply exchange_code_ok in Hx as (response & token & claims & H1 & H2 & H3 & _).
  destruct (Hh _ _ _ _ _ _ _ _ _ _ _ H1 H2 H3) as [k Hk]. pose proof (nonce_is_verified _ _ _ _ _ H3) as Hv.
  assert (random_nonce k = "nonce") as Hb by congruence. pose proof (random_nonce_length k) as Hl. rewrite Hb in Hl. done.
Qed.
End Facts.

(** ** Witnesses *)

(** A provider whose tokens carry the nonce [n]; the code is the email. *)
Definition toy_oidc (n : string) : OidcCrate unit :=
  {| Metadata := string; TokenResponse := string; IdToken := string; issuer_url_new := Ok; discover_async i w := (Ok i, w);
     redirect_url_new := Ok; random_csrf k := "state"; random_nonce k := "nonce-of-22-characters";
     authorization_url m id r c n' s := m +:+ "?nonce=" +:+ n'; request_token m id s r code w := (Ok code, w); id_token := Some;
     id_token_claims m id t n' := if String.eqb n n' then Ok {| ic_nonce := Some n; ic_email := Some t; ic_name := None; ic_subject := "sub" |}
                                  else Err "nonce mismatch" |}.
#[local] Instance toy_oidc_laws n : @OidcCrateLaws unit (toy_oidc n).
Proof.
  split; [|done]. simpl. intros _ _ t n' claims. destruct (String.eqb n n') eqn:E; [|done]. apply String.eqb_eq in E as ->.
  by intros [= <-].
Qed.
#[local] Existing Instances plain_secrets whole_f64.
Definition sso_config : AuthConfig :=
  {| jwt_secret := "s"; access_token_ttl_minutes := 15; refresh_token_ttl_days := 7; cookie_secure := true;
     allowed_cookie_origin := ""; login_max_attempts_per_minute := 10; trust_proxy := false;
     oidc_providers := [ {| oidc_id := "kc"; issuer_url := "https://kc"; client_id := "g"; client_secret := "x"; redirect_uri := "https://g" |} ];
     saml_providers := []; mail := None; password_policy := default_password_policy |}.
Definition visit : Visit unit whole_f64 := {| vs_accounts := accounts; vs_network := tt |}.
Definition as_ann : OidcCallback := {| cb_code := "ann@acme.com"; cb_state := "whatever" |}.

(** Ann has a password and no provider; a token with her email and that nonce is her session. *)
Lemma sso_trusts_the_email_witness :
  exists reply v', oidc_callback (H := toy_oidc "nonce") sso_config (fun _ => 0) "kc" as_ann visit = (Ok reply, v') /\
    exists tok, t_refresh_tokens (ac_db (vs_accounts v')) = [old_token; tok].
Proof.
  destruct (oidc_callback (H := toy_oidc "nonce") sso_config (fun _ => 0) "kc" as_ann visit) as [[reply|e] v'] eqn:E.
  - exists reply, v'. split; [reflexivity|].
    destruct (proj1 (sso_trusts_the_email (H := toy_oidc "nonce") sso_config (fun _ => 0) "kc" as_ann visit reply v' E))
      as (? & ? & ? & ? & ? & ? & ? & ? & _ & _ & _ & _ & _ & _ & _ & tok & _ & Ht).
    exists tok. exact Ht.
  - exfalso. assert (is_ok (oidc_callback (H := toy_oidc "nonce") sso_config (fun _ => 0) "kc" as_ann visit).1 = true) as Hb
      by (vm_compute; reflexivity). rewrite E in Hb. discriminate Hb.
Defined.

Lemma honest_sso_is_refused_witness :
  exists e v', oidc_callback (H := toy_oidc "nonce-of-22-characters") sso_config (fun _ => 0) "kc" as_ann visit = (Err e, v') /\
    e ∈ [NotFound; Internal; Unauthorized] /\ vs_accounts v' = accounts.
Proof.
  apply (honest_sso_is_refused (H := toy_oidc "nonce-of-22-characters") sso_config (fun _ => 0) "kc" as_ann visit).
  intros m id secret redirect code w response w' token n claims H1 H2 H3. exists 0%nat.
  unfold id_token_claims, toy_oidc in H3. destruct (String.eqb "nonce-of-22-characters" n); [|discriminate H3].
  injection H3 as <-. reflexivity.
Defined.
