(* ===== verification/Password.v ===== *)
(** * Passwords

    [godwit-api/src/admin/password.rs]: the policy, the state of a password, and the ways one
    changes: by its owner, by its owner when a change is due, by an administrator, and by a
    reset token sent by mail. *)

From stdpp Require Import base strings list gmap.
From Stdlib Require Import QArith Ascii String.
From S2P Require Import Prelude RustStr Json Core Limiter Db Auth Admin Config Session.

#[local] Open Scope string_scope.
#[local] Open Scope Z_scope.

(** ** Characters

    The characters of a string, each as its UTF-8 bytes.  The classes of an ASCII character
    are written out; those of the others are Unicode's tables, an interface. *)

Fixpoint chars (s : string) : list string :=
  match s with
  | EmptyString => []
  | String c s' =>
    let rest := chars s' in
    match rest with
    | ch :: rest' =>
      if match s' with String c' _ => is_continuation c' | EmptyString => false end
      then String c ch :: rest' else String c "" :: rest
    | [] => [String c ""]
    end
  end.

Class Unicode := {
  wide_upper : string -> bool;
  wide_lower : string -> bool;
  wide_alphanumeric : string -> bool;
}.

Definition ascii_range (a b : nat) (ch : string) : bool :=
  match ch with String c "" => (a <=? nat_of_ascii c)%nat && (nat_of_ascii c <=? b)%nat | _ => false end.
Definition is_ascii_char (ch : string) : bool := ascii_range 0 127 ch.

Section Policy.
Context `{Unicode} `{Sec : Secrets}.

Definition is_uppercase (ch : string) : bool := if is_ascii_char ch then ascii_range 65 90 ch else wide_upper ch.
Definition is_lowercase (ch : string) : bool := if is_ascii_char ch then ascii_range 97 122 ch else wide_lower ch.
Definition is_ascii_digit (ch : string) : bool := ascii_range 48 57 ch.
Definition is_alphanumeric (ch : string) : bool :=
  if is_ascii_char ch then ascii_range 48 57 ch || ascii_range 65 90 ch || ascii_range 97 122 ch
  else wide_alphanumeric ch.

(** [common] is the text of [assets/common_passwords.txt].
    [godwit-api/src/admin/password.rs:22-27] [common::lookup] *)
Definition common_lookup (common pw : string) : bool :=
  existsb (String.eqb (to_ascii_lowercase pw)) (trim <$> lines common).

(** [godwit-api/src/admin/password.rs:30-39] [PolicyError] *)
Inductive PolicyError : Type :=
| TooShort | NeedsUpper | NeedsLower | NeedsDigit | NeedsSymbol | CommonPassword | Reused.

(** The [{:?}] text.
    [godwit-api/src/admin/password.rs:30-39] [PolicyError::fmt] *)
Definition debug_policy_error (e : PolicyError) : string :=
  match e with
  | TooShort => "TooShort" | NeedsUpper => "NeedsUpper" | NeedsLower => "NeedsLower"
  | NeedsDigit => "NeedsDigit" | NeedsSymbol => "NeedsSymbol" | CommonPassword => "CommonPassword"
  | Reused => "Reused"
  end.

(** [godwit-api/src/admin/password.rs:41-70] [validate_password] *)
Definition validate_password (common : string) (policy : PasswordPolicy) (password : string) (history : list string)
  : result PolicyError unit :=
  if block_common policy && common_lookup common password then Err CommonPassword
  else if as_u32 (Z.of_nat (Datatypes.length (chars password))) <? min_length policy then Err TooShort
  else if require_upper policy && negb (existsb is_uppercase (chars password)) then Err NeedsUpper
  else if require_lower policy && negb (existsb is_lowercase (chars password)) then Err NeedsLower
  else if require_digit policy && negb (existsb is_ascii_digit (chars password)) then Err NeedsDigit
  else if require_symbol policy && negb (existsb (fun c => negb (is_alphanumeric c)) (chars password)) then Err NeedsSymbol
  else if existsb (verify_password password) history then Err Reused
  else Ok tt.

(** [godwit-api/src/admin/password.rs:72-77] [PasswordState] *)
Inductive PasswordState : Type := Valid | Expired | ForcedChange.

(** [godwit-api/src/admin/password.rs:79-90] [password_state] *)
Definition password_state (now : Z) (must_change : bool) (expires_at : option Z) : PasswordState :=
  if must_change then ForcedChange
  else if opt_before expires_at now then Expired else Valid.
End Policy.

(** ** Changing a password *)

Section Change.
Context `{Unicode} `{Sec : Secrets} `{F : F64} (common : string) (cfg : AuthConfig).
Abbreviation ACC := (ST (Accounts F) ApiError).

(** [godwit-api/src/admin/password.rs:92-132] [do_password_change] *)
Definition do_password_change (now : Z) (user_id : Uuid) (new_password : string) : ACC unit :=
  let policy := password_policy cfg in
  history ← ac_core (history_get_last_n user_id (max_reuse policy));
  lift (map_err (fun e => BadRequest (debug_policy_error e)) (validate_password common policy new_password history));;
  k ← draw;
  let hash := hash_password k new_password in
  let expires_at := if 0 <? days_to_expire policy then Some (now + days (as_i64 (days_to_expire policy))) else None in
  ac_core (user_update_password user_id hash expires_at);;
  ac_core (history_push user_id hash);;
  ac_core (history_purge_older_than user_id (max_reuse policy));;
  ac_core (refresh_delete_all_for_user user_id);;
  mret tt.

Definition changed : value := obj [("changed", VBool true)].

(** [godwit-api/src/admin/password.rs:162-178] [change_password] *)
Definition change_password (now : Z) (c : Claims) (current_password new_password : string) : ACC value :=
  user ← ac_core (user_get_by_id (c_user_id c));
  current_hash ← lift (ok_or (BadRequest "account has no password set") (user_password_hash user));
  fail_if (negb (verify_password current_password current_hash)) Unauthorized;;
  do_password_change now (c_user_id c) new_password;;
  mret changed.

(** [now] is the reading of the expiry check, [now'] that of the change.
    [godwit-api/src/admin/password.rs:180-196] [change_required] *)
Definition change_required (now now' : Z) (c : Claims) (new_password : string) : ACC value :=
  user ← ac_core (user_get_by_id (c_user_id c));
  let expired := opt_before (user_password_expires_at user) now in
  fail_if (negb (user_must_change_password user) && negb expired) Forbidden;;
  do_password_change now' (c_user_id c) new_password;;
  mret changed.

(** [godwit-api/src/admin/password.rs:198-217] [admin_reset_password] *)
Definition admin_reset_password (now : Z) (c : Claims) (target_id : Uuid) (new_password : string) : ACC value :=
  caller_role ← lift (require_role c [SuperAdmin; OrgAdmin]);
  fail_if (is_id (c_user_id c) target_id) (BadRequest "cannot reset your own password");;
  target ← ac_core (user_get_by_id target_id);
  lift (check_same_org caller_role c (user_organization_id target));;
  lift (check_not_acting_on_super_admin caller_role (user_role target));;
  do_password_change now (user_id target) new_password;;
  ac_core (user_set_must_change (user_id target) true);;
  mret (obj [("reset", VBool true)]).

(** What the route does to the accounts; [Mail.v] adds the mail, whose failure is ignored.
    [godwit-api/src/admin/password.rs:219-239] [forgot_password] *)
Definition forgot_password (now : Z) (email : string) : ACC value :=
  catch (ac (user_get_by_email email)) (fun r =>
    match r with
    | Ok user =>
      pair ← generate_refresh_token;
      catch (ac (reset_create (user_id user) pair.2 (now + 1800 * second))) (fun _ => mret (obj [("ok", VBool true)]))
    | Err _ => mret (obj [("ok", VBool true)])
    end).

(** [godwit-api/src/admin/password.rs:241-264] [reset_password] *)
Definition reset_password (now now' : Z) (token new_password : string) : ACC value :=
  stored ← or_else (BadRequest "invalid or expired reset token") (reset_get_by_hash (hash_refresh_token token));
  fail_if (match prt_used_at stored with Some _ => true | None => false end) (BadRequest "reset token already used");;
  fail_if (prt_expires_at stored <? now) (BadRequest "reset token expired");;
  do_password_change now' (prt_user_id stored) new_password;;
  ac_core (reset_mark_used (prt_id stored));;
  mret (obj [("ok", VBool true)]).
End Change.

(** ** Lemmas *)

Section Lemmas.
Context `{Unicode} `{Sec : Secrets} `{F : F64} (common : string) (cfg : AuthConfig).
Implicit Types s : Accounts F.

(** Users and refresh tokens as before. *)
Definition same_accounts (d d' : Db) : Prop :=
  t_users d' = t_users d /\ t_refresh_tokens d' = t_refresh_tokens d.

Lemma only_faults_accounts d d' : only_faults d d' -> same_accounts d d'.
Proof. by intros [f ->]. Qed.
Lemma same_accounts_trans d1 d2 d3 : same_accounts d1 d2 -> same_accounts d2 d3 -> same_accounts d1 d3.
Proof. intros [U1 T1] [U2 T2]. split; congruence. Qed.

Lemma history_get_inv user n d r d' :
  history_get_last_n user n d = (r, d') -> same_accounts d d' /\
  (forall h, r = Ok h -> h = ph_hash <$> take (Z.to_nat n) (history_of user d)).
Proof.
  unfold history_get_last_n, get_db. st_unfold. destruct (stmt d) as [rs d1] eqn:Es.
  apply stmt_spec in Es as [Hf [->|[m ->]]]; [|intros; simplify_eq; by split; [apply only_faults_accounts|]].
  destruct (n <? 0); intros; simplify_eq; (split; [by apply only_faults_accounts|]); [done|].
  intros h [= <-]. by destruct Hf as [f ->].
Qed.

Lemma history_push_inv user hash d r d' : history_push user hash d = (r, d') -> same_accounts d d'.
Proof.
  unfold history_push, fresh_id. intros Hp. unfold mbind at 1, st_bind at 1 in Hp.
  unfold mbind at 1, st_bind at 1 in Hp. unfold gets in Hp.
  bind_in Hp; apply insert_row_spec in Hm; try done.
  - destruct Hm as [[f ->] _]. done.
  - destruct Hm as [_ (d1 & [f ->] & ->)]. unfold mret, st_ret in Hp. by simplify_eq.
Qed.

Lemma history_purge_inv user n d r d' : history_purge_older_than user n d = (r, d') -> same_accounts d d'.
Proof.
  unfold history_purge_older_than, get_db. st_unfold. destruct (stmt d) as [rs d1] eqn:Es.
  apply stmt_spec in Es as [[f ->] [->|[m ->]]]; [|by intros; simplify_eq].
  destruct (n <? 0); intros; by simplify_eq.
Qed.

(** A row that differs in what concerns its password at most. *)
Definition same_but_password (u u' : User) : Prop :=
  user_id u' = user_id u /\ user_organization_id u' = user_organization_id u /\ user_email u' = user_email u /\
  user_name u' = user_name u /\ user_role u' = user_role u /\ user_sso_provider u' = user_sso_provider u /\
  user_sso_subject u' = user_sso_subject u /\ user_created_at u' = user_created_at u.

(** The user rows after a change, one by one: those of [user] hold [hash] and no change is due,
    the others are as they were. *)
Definition rekeyed (user : Uuid) (hash : string) : list User -> list User -> Prop :=
  Forall2 (fun u u' => if is_id (user_id u) user
    then same_but_password u u' /\ user_password_hash u' = Some hash /\ user_must_change_password u' = false else u' = u).

Lemma rekeyed_own user hash us us' u : rekeyed user hash us us' -> u ∈ us' -> user_id u = user ->
  user_password_hash u = Some hash /\ user_must_change_password u = false.
Proof.
  intros Hr Hin Hid. apply list_elem_of_lookup in Hin as [i Hi]. destruct (Forall2_lookup_r _ _ _ _ _ Hr Hi) as (u0 & _ & Hu).
  unfold is_id in Hu. destruct (Z.eqb_spec (user_id u0) user) as [E|E]; [apply Hu|by subst].
Qed.
Lemma rekeyed_others user hash us us' u : rekeyed user hash us us' -> user_id u <> user -> u ∈ us <-> u ∈ us'.
Proof.
  intros Hr Hid. rewrite !list_elem_of_lookup. split; intros [i Hi]; exists i.
  - destruct (Forall2_lookup_l _ _ _ _ _ Hr Hi) as (u' & Hu' & Hu). unfold is_id in Hu.
    rewrite (proj2 (Z.eqb_neq _ _) Hid) in Hu. by subst.
  - destruct (Forall2_lookup_r _ _ _ _ _ Hr Hi) as (u0 & Hu0 & Hu). unfold is_id in Hu.
    destruct (Z.eqb_spec (user_id u0) user) as [E|E]; [destruct Hu as [[Hu _] _]; congruence|by subst].
Qed.

(** The rows when [pw] may have been made the password of [user]: no other row has changed, and
    none of theirs in anything else. *)
Definition password_set (user : Uuid) (pw : string) : list User -> list User -> Prop :=
  Forall2 (fun u u' => if is_id (user_id u) user
    then same_but_password u u' /\
         (user_password_hash u' = user_password_hash u \/ exists k, user_password_hash u' = Some (hash_password k pw))
    else u' = u).

Lemma same_but_password_refl u : same_but_password u u.
Proof. done. Qed.
Lemma rekeyed_sets user k pw us us' : rekeyed user (hash_password k pw) us us' -> password_set user pw us us'.
Proof. intros Hr. eapply Forall2_impl; [exact Hr|]. intros u u'. simpl. destruct (is_id _ _); [|done]. intros (H1 & H2 & _). eauto. Qed.
Lemma password_set_refl user pw us : password_set user pw us us.
Proof. apply Forall_Forall2_diag, Forall_true. intros u. destruct (is_id _ _); [|done]. split; [done|by left]. Qed.

Lemma update_password_inv user hash e d r d' :
  user_update_password user hash e d = (r, d') ->
  t_refresh_tokens d' = t_refresh_tokens d /\
  match r with Ok _ => rekeyed user hash (t_users d) (t_users d') | Err _ => t_users d' = t_users d end.
Proof.
  unfold user_update_password, gets. intros Hu. unfold mbind at 1, st_bind at 1 in Hu.
  apply update_rows_spec in Hu; [|done]. destruct r as [y|e'].
  2: { destruct Hu as [[f ->] _]. done. }
  destruct Hu as (d1 & [f ->] & -> & _). split; [done|]. simpl. apply Forall2_fmap_r, Forall_Forall2_diag, Forall_true.
  intros u. simpl. destruct (is_id (user_id u) user); [|done]. split; [done|]. by split.
Qed.

Lemma set_must_change_inv user m pw us d r d' :
  user_set_must_change user m d = (r, d') -> password_set user pw us (t_users d) -> password_set user pw us (t_users d').
Proof.
  unfold user_set_must_change. intros Hu Hs. apply update_rows_spec in Hu; [|done]. destruct r as [y|e'].
  2: { by destruct Hu as [[f ->] _]. }
  destruct Hu as (d1 & [f ->] & -> & _). simpl. apply Forall2_fmap_r. eapply Forall2_impl; [exact Hs|].
  intros u u'. simpl. unfold is_id. destruct (Z.eqb_spec (user_id u) user) as [E|E].
  - intros [Hu' Hh]. assert (user_id u' = user) as Hid by (destruct Hu'; congruence). rewrite Hid, Z.eqb_refl.
    split; [|done]. by rewrite <- Hid in *.
  - intros ->. by rewrite (proj2 (Z.eqb_neq _ _) E).
Qed.

Lemma delete_all_inv user d r d' :
  refresh_delete_all_for_user user d = (r, d') -> t_users d' = t_users d /\
  match r with
  | Ok _ => t_refresh_tokens d' = filterb (fun t => negb (is_id (rt_user_id t) user)) (t_refresh_tokens d)
  | Err _ => t_refresh_tokens d' = t_refresh_tokens d
  end.
Proof.
  unfold refresh_delete_all_for_user. intros Hd. apply delete_rows_spec in Hd; [|done]. destruct r.
  - by destruct Hd as (d1 & [f ->] & ->).
  - by destruct Hd as [[f ->] _].
Qed.

Lemma do_change_inv now user pw s r s' :
  do_password_change common cfg now user pw s = (r, s') ->
  match r with
  | Ok _ => exists k,
      validate_password common (password_policy cfg) pw
        (ph_hash <$> take (Z.to_nat (max_reuse (password_policy cfg))) (history_of user (ac_db s))) = Ok tt /\
      rekeyed user (hash_password k pw) (t_users (ac_db s)) (t_users (ac_db s')) /\
      t_refresh_tokens (ac_db s') = filterb (fun t => negb (is_id (rt_user_id t) user)) (t_refresh_tokens (ac_db s))
  | Err e => t_refresh_tokens (ac_db s') = t_refresh_tokens (ac_db s) /\
      (t_users (ac_db s') = t_users (ac_db s) \/
       exists k, rekeyed user (hash_password k pw) (t_users (ac_db s)) (t_users (ac_db s')))
  end.
Proof.
  unfold do_password_change. intros Hd.
  bind_in Hd; apply ac_core_inv in Hm as (r0 & d1 & Hm & Er & ->); apply history_get_inv in Hm as [[U1 T1] Hh].
  { simpl. by split; [|left]. }
  destruct r0 as [history|]; simplify_eq/=. specialize (Hh _ eq_refl).
  bind_in Hd; apply lift_inv in Hm as [Ev ->].
  { simpl. by split; [|left]. }
  destruct (validate_password _ _ _ history) as [[]|] eqn:Evp; simplify_eq/=.
  unfold draw in Hd. unfold mbind at 1, st_bind at 1 in Hd. simpl in Hd.
  bind_in Hd; apply ac_core_inv in Hm as (r0 & d2 & Hm & Er & ->); apply update_password_inv in Hm as [T2 U2]; simpl in T2, U2.
  { destruct r0; simplify_eq/=. split; [congruence|]. left. congruence. }
  destruct r0; simplify_eq/=. rewrite U1 in U2.
  bind_in Hd; apply ac_core_inv in Hm as (r0 & d3 & Hm & Er & ->); apply history_push_inv in Hm as [U3 T3]; simpl in U3, T3.
  { simpl. split; [congruence|]. right. eexists. by rewrite U3. }
  bind_in Hd; apply ac_core_inv in Hm as (r4 & d4 & Hm & Er4 & ->); apply history_purge_inv in Hm as [U4 T4]; simpl in U4, T4.
  { simpl. split; [congruence|]. right. eexists. by rewrite U4, U3. }
  bind_in Hd; apply ac_core_inv in Hm as (r5 & d5 & Hm & Er5 & ->); apply delete_all_inv in Hm as [U5 T5]; simpl in U5, T5.
  { destruct r5; simplify_eq/=. split; [congruence|]. right. eexists. by rewrite U5, U4, U3. }
  destruct r5; simplify_eq/=. unfold mret, st_ret in Hd. simplify_eq. simpl. eexists.
  split; [exact Evp|]. split; [by rewrite U5, U4, U3|]. rewrite T5. congruence.
Qed.
End Lemmas.

(** ** Theorems *)

Section Theorems.
Context `{Unicode} `{Sec : Secrets} `{F : F64} (common : string) (cfg : AuthConfig).
Implicit Types s : Accounts F.

(** Changing a password ends the user's sessions.  A change that succeeds was accepted by
    the policy against the user's last passwords; the user's row then holds a hash the new
    password verifies against and no longer demands a change, no refresh token of the user is
    left, and neither the rows nor the tokens of anyone else are touched.  A change that fails
    ends no session, even when the failing statement comes after the new hash was stored. *)
Theorem password_change_revokes_sessions `{!SecretsLaws Sec} now user pw s :
  let '(r, s') := do_password_change common cfg now user pw s in
  match r with
  | Ok _ =>
    validate_password common (password_policy cfg) pw
      (ph_hash <$> take (Z.to_nat (max_reuse (password_policy cfg))) (history_of user (ac_db s))) = Ok tt /\
    (forall u, u ∈ t_users (ac_db s') -> user_id u = user -> exists h,
       user_password_hash u = Some h /\ verify_password pw h = true /\ user_must_change_password u = false) /\
    (forall u, user_id u <> user -> u ∈ t_users (ac_db s) <-> u ∈ t_users (ac_db s')) /\
    (forall t, t ∈ t_refresh_tokens (ac_db s') <-> t ∈ t_refresh_tokens (ac_db s) /\ rt_user_id t <> user)
  | Err _ => t_refresh_tokens (ac_db s') = t_refresh_tokens (ac_db s)
  end.
Proof.
  destruct (do_password_change common cfg now user pw s) as [r s'] eqn:E. apply do_change_inv in E.
  destruct r as [[]|e]; [|apply E]. destruct E as (k & Hv & Hr & Ht).
  split; [done|]. split; [|split; [intros u; by apply (rekeyed_others _ _ _ _ u Hr)|]].
  - intros u Hin Hid. destruct (rekeyed_own _ _ _ _ _ Hr Hin Hid). eexists. split; [done|]. split; [apply verify_own_hash|done].
  - intros t. rewrite Ht, elem_of_filterb. unfold is_id. rewrite negb_true_iff, Z.eqb_neq. done.
Qed.

Lemma do_change_sets now user pw s r s' :
  do_password_change common cfg now user pw s = (r, s') -> password_set user pw (t_users (ac_db s)) (t_users (ac_db s')).
Proof.
  intros Hd%do_change_inv. destruct r as [[]|e].
  - destruct Hd as (k & _ & Hr & _). by eapply rekeyed_sets.
  - destruct Hd as [_ [->|[k Hr]]]; [apply password_set_refl|by eapply rekeyed_sets].
Qed.

Lemma change_then_sets {T} now user pw (v : T) s r s' :
  (do_password_change common cfg now user pw;; mret v) s = (r, s') ->
  password_set user pw (t_users (ac_db s)) (t_users (ac_db s')).
Proof. intros Hd. bind_in Hd; apply do_change_sets in Hm; [done|]. unfold mret, st_ret in Hd. by simplify_eq. Qed.

Lemma mark_used_inv id d r d' : reset_mark_used id d = (r, d') -> t_users d' = t_users d.
Proof.
  unfold reset_mark_used, get_db. st_unfold. destruct (stmt d) as [rs d1] eqn:Es.
  apply stmt_spec in Es as [[f ->] [->|[m ->]]]; intros; by simplify_eq.
Qed.

(** A row was read and nothing else happened. *)
Lemma read_user id s r s' :
  ac_core (user_get_by_id id) s = (r, s') ->
  t_users (ac_db s') = t_users (ac_db s) /\
  forall u, r = Ok u -> u ∈ t_users (ac_db s) /\ user_id u = id.
Proof.
  intros Hr. apply ac_core_inv in Hr as (r0 & d & Hm & -> & ->).
  pose proof Hm as Hf. apply select_faults in Hf; [|done]. destruct Hf as [f ->]. split; [done|].
  intros u Hu. destruct r0; simplify_eq/=. apply select_one_found in Hm as (_ & Hin & Hid); [|done].
  by apply Z.eqb_eq in Hid.
Qed.

(** C10: no password changes without authority, and no other than the authorized one, on any
    path, successful or not.  If a handler changed the user table, then it changed the rows of
    one user alone, in nothing but what concerns the password, and a new hash there is one of
    the new password: for a change by the owner, the caller's own row, and the current password
    was verified; for a required change, the caller's own row, which demanded a change or had
    expired; for an administrator's reset, the target's row, and the caller is a super admin or
    an admin of the target's organization, is not the target, and only a super admin acts on a
    super admin; for a reset by token, the row of the user the token was made for, and the
    token's digest is stored, unused and unexpired. *)
Theorem password_changes_are_authorized s :
  (forall now c cur new, let us' := t_users (ac_db (change_password common cfg now c cur new s).2) in us' <> t_users (ac_db s) ->
     password_set (c_user_id c) new (t_users (ac_db s)) us' /\
     exists u h, u ∈ t_users (ac_db s) /\ user_id u = c_user_id c /\
       user_password_hash u = Some h /\ verify_password cur h = true) /\
  (forall now now' c new, let us' := t_users (ac_db (change_required common cfg now now' c new s).2) in us' <> t_users (ac_db s) ->
     password_set (c_user_id c) new (t_users (ac_db s)) us' /\
     exists u, u ∈ t_users (ac_db s) /\ user_id u = c_user_id c /\
       (user_must_change_password u = true \/ opt_before (user_password_expires_at u) now = true)) /\
  (forall now c target new, let us' := t_users (ac_db (admin_reset_password common cfg now c target new s).2) in us' <> t_users (ac_db s) ->
     password_set target new (t_users (ac_db s)) us' /\
     exists role u, role_from_str (c_role c) = Some role /\ role ∈ [SuperAdmin; OrgAdmin] /\
       c_user_id c <> target /\ u ∈ t_users (ac_db s) /\ user_id u = target /\
       (role = SuperAdmin \/ user_organization_id u = Some (c_organization_id c) /\ user_role u <> "super_admin")) /\
  (forall now now' token new, let us' := t_users (ac_db (reset_password common cfg now now' token new s).2) in us' <> t_users (ac_db s) ->
     exists t, password_set (prt_user_id t) new (t_users (ac_db s)) us' /\ t ∈ t_password_reset_tokens (ac_db s) /\ prt_token_hash t = hash_refresh_token token /\
       prt_used_at t = None /\ now <= prt_expires_at t).
Proof.
  split; [|split; [|split]].
  - intros now c cur new. destruct (change_password common cfg now c cur new s) as [r s'] eqn:E. simpl. intros Hne.
    unfold change_password in E. bind_in E; apply read_user in Hm as [Hu Hin]; [done|].
    destruct (Hin x eq_refl) as [H1 H2]. bind_in E; apply lift_inv in Hm as [Eh ->]; [done|].
    destruct (user_password_hash x) as [h|] eqn:Ep; simplify_eq/=.
    bind_in E; apply fail_if_inv in Hm as [-> [[Hc ?]|[Hc ?]]]; simplify_eq/=; try done.
    apply negb_false_iff in Hc. apply change_then_sets in E. split; [by rewrite Hu in E|]. by exists x, h.
  - intros now now' c new. destruct (change_required common cfg now now' c new s) as [r s'] eqn:E. simpl. intros Hne.
    unfold change_required in E. bind_in E; apply read_user in Hm as [Hu Hin]; [done|].
    destruct (Hin x eq_refl) as [H1 H2].
    bind_in E; apply fail_if_inv in Hm as [-> [[Hc ?]|[Hc ?]]]; simplify_eq/=; try done.
    apply change_then_sets in E. split; [by rewrite Hu in E|].
    exists x. split; [done|]. split; [done|]. apply andb_false_iff in Hc as [Hc|Hc]; apply negb_false_iff in Hc; auto.
  - intros now c target new. destruct (admin_reset_password common cfg now c target new s) as [r s'] eqn:E. simpl.
    intros Hne. unfold admin_reset_password in E. bind_in E; apply lift_inv in Hm as [Er ->]; [done|].
    bind_in E; apply fail_if_inv in Hm as [-> [[Hc ?]|[Hc ?]]]; simplify_eq/=; try done.
    bind_in E; apply read_user in Hm as [Hu Hin]; [done|]. destruct (Hin _ eq_refl) as [H1 H2].
    bind_in E; apply lift_inv in Hm as [Es ->]; [done|].
    bind_in E; apply lift_inv in Hm as [Ea ->]; [done|].
    apply Z.eqb_neq in Hc. symmetry in Er. apply require_role_inv in Er as [(role & Er & H3 & H4)|?]; [|done].
    simplify_eq. split.
    { rewrite <- Hu. bind_in E; apply do_change_sets in Hm; [done|].
      bind_in E; apply ac_core_inv in Hm0 as (r0 & d & Hm0 & _ & ->);
        [|unfold mret, st_ret in E; simplify_eq]; exact (set_must_change_inv _ _ _ _ _ _ _ Hm0 Hm). }
    eexists role, _. split; [done|]. split; [done|]. split; [done|]. split; [exact H1|]. split; [done|].
    destruct (is_role role SuperAdmin) eqn:Esa; [left; by apply bool_decide_eq_true in Esa|right].
    destruct x1, x2. symmetry in Es, Ea. by eapply target_checks.
  - intros now now' token new. destruct (reset_password common cfg now now' token new s) as [r s'] eqn:E. simpl.
    intros Hne. unfold reset_password in E.
    bind_in E; apply or_else_inv in Hm as (r0 & d & Hm & Er & ->);
      assert (only_faults (ac_db s) d) as [f ->] by (eapply select_faults; [|exact Hm]; done); [done|].
    destruct r0 as [t|]; simplify_eq/=. apply select_one_found in Hm as (_ & Hin & Hh); [|done].
    apply String.eqb_eq in Hh.
    bind_in E; apply fail_if_inv in Hm as [-> [[Hc ?]|[Hc ?]]]; simplify_eq/=; try done.
    bind_in E; apply fail_if_inv in Hm as [-> [[Hc' ?]|[Hc' ?]]]; simplify_eq/=; try done.
    exists t. split; [|split; [done|]; split; [done|]; split; [by destruct (prt_used_at t)|by apply Z.ltb_ge]].
    bind_in E; apply do_change_sets in Hm; [done|].
    bind_in E; apply ac_core_inv in Hm0 as (r0 & d & Hm0 & _ & ->); apply mark_used_inv in Hm0;
      [|unfold mret, st_ret in E; simplify_eq]; simpl; by rewrite Hm0.
Qed.
End Theorems.

(** Passwords of ASCII characters, for the witness. *)
#[local] Instance ascii_only : Unicode :=
  {| wide_upper _ := false; wide_lower _ := false; wide_alphanumeric _ := false |}.
#[local] Existing Instances plain_secrets plain_secrets_laws whole_f64.

Lemma password_change_revokes_sessions_witness :
  let s' := (do_password_change "" plain_config 0 5 "New-Passw0rd" accounts).2 in
  is_ok (do_password_change "" plain_config 0 5 "New-Passw0rd" accounts).1 = true /\
  forall t, t ∈ t_refresh_tokens (ac_db s') <-> t ∈ [old_token] /\ rt_user_id t <> 5.
Proof.
  intros s'.
  pose proof (password_change_revokes_sessions "" plain_config 0 5
                "New-Passw0rd" accounts) as Hp.
  assert (is_ok (do_password_change "" plain_config 0 5 "New-Passw0rd" accounts).1
          = true) as Hb by (vm_compute; reflexivity).
  subst s'. destruct (do_password_change "" plain_config 0 5 "New-Passw0rd" accounts)
    as [[u|e] s'] eqn:E; [|discriminate Hb].
  split; [reflexivity|]. exact (proj2 (proj2 (proj2 Hp))).
Defined.
