(* ===== verification/Mail.v ===== *)
(** * Mail

    [godwit-api/src/mail.rs] and the mail of [forgot_password] in
    [godwit-api/src/admin/password.rs]: how the mailer is built, what it sends, and what the
    route answers.

    The lettre and tera crates are the class [MailCrates] over the state [W] of the mail
    server; the four templates of [assets/email] are parameters. *)

From stdpp Require Import base strings list gmap.
From Stdlib Require Import QArith Ascii.
From S2P Require Import Prelude RustStr Json Core Limiter Db Auth Admin Config Session Password.

#[local] Open Scope string_scope.
#[local] Open Scope Z_scope.

(** [godwit-api/src/mail.rs:13-17] [MailError] *)
Inductive MailError : Type := Build (s : string) | TransportFailed (s : string).
(** [godwit-api/src/mail.rs:19-26] [MailError::fmt] *)
Definition show_mail_error (e : MailError) : string :=
  match e with
  | Build s => "mail build error: " +:+ s
  | TransportFailed s => "mail transport error: " +:+ s
  end.

(** A template context: the variables that were inserted. *)
Abbreviation context := (list (string * string)).
Class MailCrates (W : Type) := {
  Builder : Type; MailTransport : Type; Mailbox : Type; Address : Type; Message : Type; Templates : Type;
  starttls_relay : string -> result string Builder;
  relay : string -> result string Builder;
  builder_dangerous : string -> Builder;
  with_port : Z -> Builder -> Builder;
  with_credentials : string -> string -> Builder -> Builder;
  build_transport : Builder -> MailTransport;
  parse_mailbox : string -> option Mailbox;
  parse_address : string -> result string Address;
  multipart_message : Mailbox -> Address -> string -> string -> string -> result string Message; (* subject, text, html *)
  deliver : MailTransport -> Message -> W -> result string unit * W;
  add_raw_templates : list (string * string) -> result string Templates;
  render_template : Templates -> string -> context -> option string;
  render_str : string -> context -> option string;
}.

Section Mailer.
Context {W : Type} `{MailCrates W} (reset_html reset_txt changed_html changed_txt : string).

(** [godwit-api/src/mail.rs:30-34] [Mailer] *)
Record Mailer : Type := { m_mail : MailConfig; m_transport : MailTransport; m_templates : Templates }.

(** [godwit-api/src/mail.rs:42-48] [Mailer::build] *)
Definition mail_builder (mail : MailConfig) : result MailError Builder :=
  match ml_tls mail with
  | StartTls => map_err Build (starttls_relay (ml_host mail))
  | Tls => map_err Build (relay (ml_host mail))
  | TlsNone => Ok (builder_dangerous (ml_host mail))
  end.

(** [godwit-api/src/mail.rs:37-63] [Mailer::build] *)
Definition mailer_build (auth : AuthConfig) : result MailError (option Mailer) :=
  match mail auth with
  | None => Ok None
  | Some mail =>
    builder ← mail_builder mail;
    let builder := with_port (ml_port mail) builder in
    let builder := match ml_username mail, ml_password mail with Some u, Some p => with_credentials u p builder | _, _ => builder end in
    let transport := build_transport builder in
    tera ← map_err Build (add_raw_templates
      [("reset_password.html", reset_html); ("reset_password.txt", reset_txt);
       ("password_changed.html", changed_html); ("password_changed.txt", changed_txt)]);
    Ok (Some {| m_mail := mail; m_transport := transport; m_templates := tera |})
  end.

(** [godwit-api/src/mail.rs:69-73] [Mailer::render] *)
Definition mailer_render (m : Mailer) (name : string) (ctx : context) : string * string :=
  (default "" (render_template (m_templates m) (name +:+ ".html") ctx),
   default "" (render_template (m_templates m) (name +:+ ".txt") ctx)).

Definition reset_link (app_url token : string) : string :=
  trim_end_matches "/" app_url +:+ "/reset-password?token=" +:+ token.
(** [godwit-api/src/mail.rs:76-89] [render_reset_email] *)
Definition render_reset_email (app_url token : string) : string * string :=
  let link := reset_link app_url token in
  let ctx := [("reset_link", link)] in
  (default ("Reset your Godwit password: " +:+ link) (render_str reset_html ctx), default "" (render_str reset_txt ctx)).

(** The sender, which must parse.
    [godwit-api/src/mail.rs:65-67] [Mailer::from] *)
Definition mailer_from (m : Mailer) : ST W (failure MailError) Mailbox :=
  match parse_mailbox (ml_from (m_mail m)) with Some b => mret b | None => throw Panic end.

Definition hand_over (t : MailTransport) (email : Message) : ST W (failure MailError) unit :=
  fun w => match deliver t email w with (r, w) => (map_err (fun e => Failed (TransportFailed e)) r, w) end.
(** [godwit-api/src/mail.rs:93-104] [Mailer::send] *)
Definition mailer_send (m : Mailer) (to subject html text : string) : ST W (failure MailError) unit :=
  from ← mailer_from m;
  address ← lift (map_err (fun e => Failed (Build e)) (parse_address to));
  email ← lift (map_err (fun e => Failed (Build e)) (multipart_message from address subject text html));
  hand_over (m_transport m) email.
End Mailer.
Arguments Mailer W {_}.

(** ** The route *)

Section Route.
Context {W : Type} `{MailCrates W} `{Sec : Secrets} `{F : F64} (reset_html reset_txt : string).

(** The accounts of the gateway and the mail server. *)
Record Office : Type := { of_accounts : Accounts F; of_mail : W }.
Definition in_accounts {T E} (m : ST (Accounts F) E T) : ST Office E T :=
  zoom of_accounts (fun a o => {| of_accounts := a; of_mail := of_mail o |}) m.
Definition in_mail {T E} (m : ST W E T) : ST Office E T :=
  zoom of_mail (fun w o => {| of_accounts := of_accounts o; of_mail := w |}) m.

(** A mail whose failure is ignored; a panic is not.
    [godwit-api/src/admin/password.rs:229-236] [forgot_password] *)
Definition mail_token (mailer : option (Mailer W)) (cfg : AuthConfig) (email plaintext : string) : ST Office (failure ApiError) unit :=
  match mailer, mail cfg with
  | Some m, Some mail_config =>
    let '(html, text) := render_reset_email reset_html reset_txt (app_url mail_config) plaintext in
    catch (in_mail (mailer_send m email "Reset your password" html text)) (fun r =>
      match r with Err Panic => throw Panic | _ => mret tt end)
  | _, _ => mret tt
  end.

(** [Password.forgot_password] with its mail.
    [godwit-api/src/admin/password.rs:219-239] [forgot_password] *)
Definition forgot_password_by_mail (mailer : option (Mailer W)) (cfg : AuthConfig) (now : Z) (email : string) : ST Office (failure ApiError) value :=
  catch (in_accounts (ac (user_get_by_email email))) (fun r =>
    match r with
    | Ok user =>
      pair ← st_map_err Failed (in_accounts generate_refresh_token);
      catch (in_accounts (ac (reset_create (user_id user) pair.2 (now + 1800 * second)))) (fun _ =>
        mail_token mailer cfg email pair.1;;
        mret (obj [("ok", VBool true)]))
    | Err _ => mret (obj [("ok", VBool true)])
    end).
End Route.
Arguments Office W F : clear implicits.

(** ** Facts *)

(** A change the policy accepts succeeds when the statements do. *)
Section Change.
Context `{Unicode} `{Sec : Secrets} `{F : F64} (common : string) (cfg : AuthConfig).
Implicit Types s : Accounts F.

(** The statements succeed from here on, the reset tokens are as they were, and so are the
    identifiers of the users. *)
Definition has_user (i : Uuid) (d : Db) : bool := existsb (fun u => is_id (user_id u) i) (t_users d).
Definition quiet (d d' : Db) : Prop :=
  db_faults d' = [] /\ t_password_reset_tokens d' = t_password_reset_tokens d /\ forall i, has_user i d = true -> has_user i d' = true.

Lemma has_user_in u d : u ∈ t_users d -> has_user (user_id u) d = true.
Proof. intros Hu. apply existsb_exists. exists u. split; [by apply list_elem_of_In|apply Z.eqb_refl]. Qed.

Lemma update_password_runs i hash e d :
  db_faults d = [] -> has_user i d = true -> exists x d', user_update_password i hash e d = (Ok x, d') /\ quiet d d'.
Proof.
  intros Hf (u & Hin%list_elem_of_In & Hu)%existsb_exists. unfold user_update_password, gets. unfold mbind, st_bind.
  destruct (filterb (fun u => is_id (user_id u) i) (t_users d)) as [|x l] eqn:E.
  { assert (u ∈ filterb (fun u => is_id (user_id u) i) (t_users d)) as Hx by (by apply elem_of_filterb).
    rewrite E in Hx. by apply elem_of_nil in Hx. }
  erewrite (update_pure users _ _ unchecked _ d x l Hf E); [|by apply forallb_forall].
  eexists _, _. split; [reflexivity|]. split; [done|]. split; [done|].
  intros j (v & Hv%list_elem_of_In & Hj)%existsb_exists. apply existsb_exists. simpl.
  eexists. split; [apply list_elem_of_In, list_elem_of_fmap_2, Hv|]. by case_match.
Qed.

Lemma history_get_runs i n d :
  db_faults d = [] -> 0 <= n -> history_get_last_n i n d = (Ok (ph_hash <$> take (Z.to_nat n) (history_of i d)), d).
Proof.
  intros Hf Hn. unfold history_get_last_n, get_db, gets, mbind, st_bind. rewrite (stmt_ok d Hf). by rewrite (proj2 (Z.ltb_ge _ _) Hn).
Qed.

Lemma history_push_runs i hash d :
  db_faults d = [] -> has_user i d = true -> exists d', history_push i hash d = (Ok tt, d') /\ quiet d d'.
Proof.
  intros Hf Hu. unfold history_push, fresh_id, gets. unfold mbind, st_bind. rewrite insert_pure by done. by eexists.
Qed.

Lemma history_purge_runs i n d :
  db_faults d = [] -> 0 <= n -> exists d', history_purge_older_than i n d = (Ok tt, d') /\ quiet d d'.
Proof.
  intros Hf Hn. unfold history_purge_older_than, get_db. st_unfold. rewrite (stmt_ok d Hf). rewrite (proj2 (Z.ltb_ge _ _) Hn).
  by eexists.
Qed.

Lemma delete_all_runs i d :
  db_faults d = [] -> exists n d', refresh_delete_all_for_user i d = (Ok n, d') /\ quiet d d'.
Proof. intros Hf. unfold refresh_delete_all_for_user. rewrite delete_pure by done. by eexists _, _. Qed.

Lemma ac_core_ok {T} (m : DB T) x d d' s : m d = (Ok x, d') -> ac_db s = d -> ac_core m s = (Ok x, put_db d' s).
Proof. unfold ac_core, st_map_err, ac, zoom. by intros E ->; rewrite E. Qed.

Lemma do_change_runs now user pw s :
  db_faults (ac_db s) = [] -> 0 <= max_reuse (password_policy cfg) -> has_user user (ac_db s) = true ->
  validate_password common (password_policy cfg) pw
    (ph_hash <$> take (Z.to_nat (max_reuse (password_policy cfg))) (history_of user (ac_db s))) = Ok tt ->
  exists s', do_password_change common cfg now user pw s = (Ok tt, s') /\ quiet (ac_db s) (ac_db s').
Proof.
  intros Hf Hn Hu Hv. unfold do_password_change. unfold mbind, st_bind.
  erewrite (ac_core_ok _ _ _ _ _ (history_get_runs user _ _ Hf Hn)) by done. cbn beta iota. unfold lift. rewrite Hv. cbn [map_err]. unfold draw.
  edestruct (update_password_runs user) as (x & d1 & E1 & Hf1 & Hr1 & Hu1); [exact Hf|exact Hu|].
  destruct (history_push_runs user (hash_password (ac_draws s) pw) d1) as (d2 & E2 & Hf2 & Hr2 & Hu2); [done|auto|].
  destruct (history_purge_runs user (max_reuse (password_policy cfg)) d2) as (d3 & E3 & Hf3 & Hr3 & Hu3); [done|done|].
  destruct (delete_all_runs user d3) as (n & d4 & E4 & Hf4 & Hr4 & Hu4); [done|].
  erewrite (ac_core_ok _ _ _ _ _ E1), (ac_core_ok _ _ _ _ _ E2), (ac_core_ok _ _ _ _ _ E3), (ac_core_ok _ _ _ _ _ E4) by done.
  eexists. split; [reflexivity|]. split; [done|]. split; [simpl; congruence|]. auto.
Qed.
End Change.

Section Reset.
Context {W : Type} `{MailCrates W} `{Unicode} `{Sec : Secrets} `{F : F64} (common reset_html reset_txt : string) (cfg : AuthConfig).
Implicit Types (o : Office W F) (s : Accounts F).

Definition accepted : value := obj [("ok", VBool true)].

(** The route does to the accounts what [forgot_password] does, mail or no mail. *)
Lemma forgot_by_mail_accounts mailer now email o :
  of_accounts (forgot_password_by_mail reset_html reset_txt mailer cfg now email o).2
  = (forgot_password now email (of_accounts o)).2.
Proof.
  unfold forgot_password_by_mail, forgot_password, catch, in_accounts, ac, zoom. simpl.
  destruct (user_get_by_email email _) as [[u|e] d]; [|done]. unfold generate_refresh_token, draw. st_unfold.
  destruct (reset_create _ _ _ _) as [r d']. unfold mail_token, catch, in_mail, zoom, mbind, st_bind.
  assert (forall m : ST (Office W F) (failure ApiError) unit, (forall x, of_accounts (m x).2 = of_accounts x) -> forall x,
    of_accounts (match m x with (Ok _, s') => (Ok (obj [("ok", VBool true)]), s') | (Err e, s') => (Err e, s') end).2 = of_accounts x) as Hk.
  { intros m Hm x. rewrite <- (Hm x). by destruct (m x) as [[|] ?]. }
  destruct r; simpl; (etransitivity; [apply Hk|done]); intros x; destruct mailer as [m|]; try done; destruct (mail cfg) as [mc|]; try done;
    unfold render_reset_email; destruct (mailer_send _ _ _ _ _ _) as [[|[|]] ?]; done.
Qed.

(** The sender of the mailer parses, or there is no mailer. *)
Definition is_some {T} (o : option T) : bool := match o with Some _ => true | None => false end.
Definition sender_ok (mailer : option (Mailer W)) : bool :=
  match mailer with Some m => is_some (parse_mailbox (ml_from (m_mail m))) | None => true end.
Lemma send_never_panics m to subject html text w :
  is_some (parse_mailbox (ml_from (m_mail m))) = true -> (mailer_send m to subject html text w).1 <> Err Panic.
Proof.
  unfold mailer_send, mailer_from, lift, hand_over, mbind, st_bind. destruct (parse_mailbox _); [|done]. intros _. simpl.
  destruct (parse_address to); simpl; [|done]. destruct (multipart_message _ _ _ _ _); simpl; [|done].
  by destruct (deliver _ _ w) as [[|] ?].
Qed.

(** A mail that cannot be sent does not fail the request. *)
Lemma mail_token_ok mailer email token o :
  sender_ok mailer = true -> (mail_token (F := F) reset_html reset_txt mailer cfg email token o).1 = Ok tt.
Proof.
  intros Hs. unfold mail_token. destruct mailer as [m|]; [|done]. destruct (mail cfg) as [mc|]; [|done].
  unfold render_reset_email, catch, in_mail, zoom. pose proof (fun h t => send_never_panics m email "Reset your password" h t (of_mail o) Hs) as Hn.
  match goal with |- context [mailer_send ?a ?b ?c ?d ?e ?f] => specialize (Hn d e); destruct (mailer_send a b c d e f) as [[u|[e'|]] w] end; done.
Qed.

Lemma mail_token_panics mailer email token o :
  sender_ok mailer = false -> is_some (mail cfg) = true ->
  (mail_token (F := F) reset_html reset_txt mailer cfg email token o).1 = Err Panic.
Proof.
  intros Hs Hm. unfold mail_token. destruct mailer as [m|]; [|done]. destruct (mail cfg) as [mc|]; [|done]. simpl in Hs.
  unfold render_reset_email, catch, in_mail, zoom, mailer_send, mailer_from. destruct (parse_mailbox _); [done|]. done.
Qed.

(** Asking for a reset tells a stranger nothing, unless the mailer has no valid sender.
    With a sender that parses, or without a mailer, every email gets the same answer, known or
    not, whatever the state of the database and of the mail server.  With one that does not
    parse and mail configured, a known email panics the handler, after its token was stored,
    and an unknown one is answered as before: the two can be told apart. *)
Theorem reset_request_reveals_accounts mailer now email o :
  let r := (forgot_password_by_mail reset_html reset_txt mailer cfg now email o).1 in
  (sender_ok mailer = true -> r = Ok accepted) /\
  (sender_ok mailer = false -> is_some (mail cfg) = true ->
     r = if is_ok (user_get_by_email email (ac_db (of_accounts o))).1 then Err Panic else Ok accepted).
Proof.
  cbv zeta. unfold forgot_password_by_mail, catch, in_accounts, ac, zoom. simpl.
  destruct (user_get_by_email email _) as [[u|e] d]; simpl; [|done].
  unfold generate_refresh_token, draw, st_map_err, mbind, st_bind. simpl.
  destruct (reset_create _ _ _ _) as [[t|e] d']; simpl; (split; [intros Hs|intros Hs Hm]).
  all: match goal with |- context [mail_token ?a ?b ?m ?c ?e ?t ?x] =>
         first [pose proof (mail_token_ok m e t x Hs) as Ht | pose proof (mail_token_panics m e t x Hs Hm) as Ht];
         destruct (mail_token a b m c e t x) as [[|] ?]; simplify_eq/=; reflexivity end.
Qed.

(** The reset token that a request stores. *)
Definition reset_row (user : User) (now : Z) s : PasswordResetToken :=
  {| prt_id := db_next (ac_db s); prt_user_id := user_id user; prt_token_hash := hash_refresh_token (random_token (ac_draws s));
     prt_expires_at := now + 1800 * second; prt_created_at := db_now (ac_db s); prt_used_at := None |}.

Lemma forgot_password_runs now email user l s :
  db_faults (ac_db s) = [] -> filterb (fun u => String.eqb (user_email u) email) (t_users (ac_db s)) = user :: l ->
  (forall t, t ∈ t_password_reset_tokens (ac_db s) -> String.eqb (prt_token_hash t) (hash_refresh_token (random_token (ac_draws s))) = false) ->
  exists s1, forgot_password now email s = (Ok accepted, s1) /\
    ac_db s1 = put_password_reset_tokens (t_password_reset_tokens (ac_db s) ++ [reset_row user now s])%list
                 (put_next (db_next (ac_db s) + 1) (ac_db s)).
Proof.
  intros Hf Hu Hn. unfold forgot_password, catch, ac, zoom, user_get_by_email. rewrite (select_one_pure _ _ _ Hf). simpl. rewrite Hu.
  unfold generate_refresh_token, draw. st_unfold.
  unfold reset_create, fresh_id, gets. unfold mbind, st_bind.
  rewrite (insert_pure password_reset_tokens _ (reset_row user now s) (put_next (db_next (ac_db s) + 1) (ac_db s))); [|done|].
  - eexists. split; reflexivity.
  - simpl. rewrite (existsb_none _ (t_password_reset_tokens (ac_db s)) Hn). simpl. apply (has_user_in user (ac_db s)).
    assert (user ∈ filterb (fun u => String.eqb (user_email u) email) (t_users (ac_db s))) as Hx by (rewrite Hu; left).
    by apply elem_of_filterb in Hx as [Hx _].
Qed.

(** The row of a token that nobody else has. *)
Lemma reset_lookup s row l token :
  db_faults (ac_db s) = [] -> t_password_reset_tokens (ac_db s) = (l ++ [row])%list ->
  (forall t, t ∈ l -> String.eqb (prt_token_hash t) (hash_refresh_token token) = false) ->
  prt_token_hash row = hash_refresh_token token ->
  or_else (BadRequest "invalid or expired reset token") (reset_get_by_hash (hash_refresh_token token)) s = (Ok row, put_db (ac_db s) s).
Proof.
  intros Hf Ht Hl Hr. unfold or_else, st_map_err, ac, zoom, reset_get_by_hash. rewrite (select_one_pure _ _ _ Hf). simpl.
  rewrite Ht, filterb_app, (filterb_none _ l Hl). simpl. by rewrite Hr, String.eqb_refl.
Qed.

Lemma reset_mark_runs i s :
  db_faults (ac_db s) = [] -> exists d, ac_core (reset_mark_used i) s = (Ok tt, put_db d s) /\ t_users d = t_users (ac_db s) /\
    t_refresh_tokens d = t_refresh_tokens (ac_db s) /\ db_faults d = [] /\
    t_password_reset_tokens d = (fun t => if is_id (prt_id t) i then
       {| prt_id := prt_id t; prt_user_id := prt_user_id t; prt_token_hash := prt_token_hash t; prt_expires_at := prt_expires_at t;
          prt_created_at := prt_created_at t; prt_used_at := Some (db_now (ac_db s)) |} else t) <$> t_password_reset_tokens (ac_db s).
Proof.
  intros Hf. eexists. split.
  - eapply ac_core_ok; [|reflexivity]. unfold reset_mark_used, get_db. st_unfold. rewrite (stmt_ok _ Hf). reflexivity.
  - done.
Qed.

Lemma mail_token_world m mc email token o :
  mail cfg = Some mc ->
  of_mail (mail_token (F := F) reset_html reset_txt (Some m) cfg email token o).2 =
  (mailer_send m email "Reset your password" (render_reset_email reset_html reset_txt (app_url mc) token).1
     (render_reset_email reset_html reset_txt (app_url mc) token).2 (of_mail o)).2.
Proof.
  intros Hm. unfold mail_token. rewrite Hm. destruct (render_reset_email _ _ _ _) as [h t]. unfold catch, in_mail, zoom. simpl.
  by destruct (mailer_send m email "Reset your password" h t (of_mail o)) as [[|[|]] w].
Qed.

#[local] Arguments mail_token : simpl never.
Lemma forgot_by_mail_sends m mc now email user l o :
  db_faults (ac_db (of_accounts o)) = [] -> filterb (fun u => String.eqb (user_email u) email) (t_users (ac_db (of_accounts o))) = user :: l ->
  mail cfg = Some mc -> sender_ok (Some m) = true ->
  let mailed := render_reset_email reset_html reset_txt (app_url mc) (random_token (ac_draws (of_accounts o))) in
  exists o1, forgot_password_by_mail reset_html reset_txt (Some m) cfg now email o = (Ok accepted, o1) /\
    of_mail o1 = (mailer_send m email "Reset your password" mailed.1 mailed.2 (of_mail o)).2.
Proof.
  intros Hf Hu Hm Hs mailed. unfold forgot_password_by_mail, catch, in_accounts, ac, zoom, user_get_by_email. simpl.
  rewrite (select_one_pure _ _ _ Hf). simpl. rewrite Hu. unfold generate_refresh_token, draw, st_map_err, mbind, st_bind. simpl.
  destruct (reset_create _ _ _ _) as [[t|e] d']; simpl.
  all: match goal with |- context [mail_token ?a ?b _ _ ?e ?t ?x] =>
         pose proof (mail_token_ok (Some m) e t x Hs) as Ht; pose proof (mail_token_world m mc e t x Hm) as Hw;
         destruct (mail_token a b (Some m) cfg e t x) as [[|] o1]; simplify_eq/=; by exists o1 end.
Qed.

(** A stored token that is not used and not over resets the password of its user, once. *)
Lemma reset_password_runs `{!SecretsLaws Sec} now2 now3 token pw l row s :
  db_faults (ac_db s) = [] -> 0 <= max_reuse (password_policy cfg) ->
  t_password_reset_tokens (ac_db s) = (l ++ [row])%list ->
  (forall t, t ∈ l -> String.eqb (prt_token_hash t) (hash_refresh_token token) = false) ->
  prt_token_hash row = hash_refresh_token token -> prt_used_at row = None -> now2 <= prt_expires_at row ->
  has_user (prt_user_id row) (ac_db s) = true ->
  validate_password common (password_policy cfg) pw
    (ph_hash <$> take (Z.to_nat (max_reuse (password_policy cfg))) (history_of (prt_user_id row) (ac_db s))) = Ok tt ->
  exists s2, reset_password common cfg now2 now3 token pw s = (Ok accepted, s2) /\
    (forall u, u ∈ t_users (ac_db s2) -> user_id u = prt_user_id row -> exists h, user_password_hash u = Some h /\ verify_password pw h = true) /\
    (forall t, t ∈ t_refresh_tokens (ac_db s2) -> rt_user_id t <> prt_user_id row) /\
    forall now4 now5 pw', (reset_password common cfg now4 now5 token pw' s2).1 = Err (BadRequest "reset token already used").
Proof.
  intros Hf Hn Ht Hl Hh Hused He Hu Hv. unfold reset_password at 1, mbind, st_bind.
  rewrite (reset_lookup s row l token Hf Ht Hl Hh). rewrite Hused. unfold fail_if at 1 2. rewrite (proj2 (Z.ltb_ge _ _) He).
  unfold mret, st_ret.
  destruct (do_change_runs common cfg now3 (prt_user_id row) pw (put_db (ac_db s) s) Hf Hn Hu Hv) as (s1 & Ec & Hf1 & Ht1 & Hu1).
  rewrite Ec. apply do_change_inv in Ec as (k & _ & Hk & Hrt). simpl in Hrt, Ht1, Hk.
  destruct (reset_mark_runs (prt_id row) s1 Hf1) as (d & Em & Hud & Hrd & Hfd & Htd). rewrite Em.
  eexists. split; [reflexivity|]. simpl. rewrite Hud, Hrd, Hrt. split_and!.
  - intros u Hin Hid. destruct (rekeyed_own _ _ _ _ _ Hk Hin Hid) as [H1 _]. eexists. split; [done|]. apply verify_own_hash.
  - intros t [_ Hne]%elem_of_filterb. apply negb_true_iff in Hne. by apply Z.eqb_neq.
  - intros now4 now5 pw'. unfold reset_password, mbind, st_bind.
    erewrite (reset_lookup (put_db d s1) _ _ token Hfd); [|simpl; rewrite Htd, Ht1, Ht, fmap_app; reflexivity| |].
    + simpl. unfold is_id. rewrite Z.eqb_refl. reflexivity.
    + intros t (t0 & -> & Hin)%list_elem_of_fmap. specialize (Hl t0 Hin). by case_match.
    + simpl. unfold is_id. by rewrite Z.eqb_refl.
Qed.

(** C11: a forgotten password can be reset, once.  Suppose that mail is configured with a
    sender that parses, that no statement fails, and that the fresh token's digest is not
    stored already.  Someone with an account asks for a reset: the answer is the usual one, and
    one mail is handed to the mailer, to that address, rendered with the token.  From then on,
    as long as the table of reset tokens is left alone and users stay, the token is good for
    one reset within half an hour, with a password the policy accepts against the user's last
    ones: right after it every row of the user verifies the new password, the user's sessions
    are over, and whoever presents the token again is refused. *)
Theorem forgotten_password_can_be_reset `{!SecretsLaws Sec} m mc now email user l o
  (Hf : db_faults (ac_db (of_accounts o)) = []) (Hm : mail cfg = Some mc) (Hs : sender_ok (Some m) = true)
  (Hu : filterb (fun u => String.eqb (user_email u) email) (t_users (ac_db (of_accounts o))) = user :: l)
  (Hr : 0 <= max_reuse (password_policy cfg)) :
  let token := random_token (ac_draws (of_accounts o)) in
  let mailed := render_reset_email reset_html reset_txt (app_url mc) token in
  (forall t, t ∈ t_password_reset_tokens (ac_db (of_accounts o)) -> prt_token_hash t <> hash_refresh_token token) ->
  exists o1, forgot_password_by_mail reset_html reset_txt (Some m) cfg now email o = (Ok accepted, o1) /\
    of_mail o1 = (mailer_send m email "Reset your password" mailed.1 mailed.2 (of_mail o)).2 /\
    forall now2 now3 pw s1, quiet (ac_db (of_accounts o1)) (ac_db s1) -> now2 <= now + 1800 * second ->
      validate_password common (password_policy cfg) pw
        (ph_hash <$> take (Z.to_nat (max_reuse (password_policy cfg))) (history_of (user_id user) (ac_db s1))) = Ok tt ->
      exists s2, reset_password common cfg now2 now3 token pw s1 = (Ok accepted, s2) /\
        (forall u, u ∈ t_users (ac_db s2) -> user_id u = user_id user -> exists h, user_password_hash u = Some h /\ verify_password pw h = true) /\
        (forall t, t ∈ t_refresh_tokens (ac_db s2) -> rt_user_id t <> user_id user) /\
        forall now4 now5 pw', (reset_password common cfg now4 now5 token pw' s2).1 = Err (BadRequest "reset token already used").
Proof.
  intros token mailed Hn. assert (forall t, t ∈ t_password_reset_tokens (ac_db (of_accounts o)) ->
    String.eqb (prt_token_hash t) (hash_refresh_token token) = false) as Hb by (intros t Ht; by apply String.eqb_neq, Hn).
  destruct (forgot_by_mail_sends m mc now email user l o Hf Hu Hm Hs) as (o1 & E & Hw). exists o1. split; [done|]. split; [done|].
  intros now2 now3 pw s2 (Hq1 & Hq2 & Hq3) He Hv. destruct (forgot_password_runs now email user l (of_accounts o) Hf Hu Hb) as (s1 & Es & Hd).
  assert (of_accounts o1 = s1) as E1 by (by pose proof (forgot_by_mail_accounts (Some m) now email o) as Ha; rewrite E, Es in Ha).
  rewrite E1, Hd in Hq2, Hq3.
  refine (reset_password_runs now2 now3 token pw _ (reset_row user now (of_accounts o)) s2 Hq1 Hr Hq2 Hb _ _ He (Hq3 _ _) Hv); try done.
  apply (has_user_in user (ac_db (of_accounts o))).
  assert (user ∈ filterb (fun u => String.eqb (user_email u) email) (t_users (ac_db (of_accounts o)))) as Hx by (rewrite Hu; left).
  by apply elem_of_filterb in Hx as [Hx _].
Qed.
End Reset.

(** ** Witnesses *)

(** A mail server that keeps the address and the text of what it is given, and templates that
    are their link. *)
Definition toy_mail : MailCrates (list (string * string)) :=
  {| Builder := unit; MailTransport := unit; Mailbox := string; Address := string; Message := string * string; Templates := unit;
     starttls_relay _ := Ok tt; relay _ := Ok tt; builder_dangerous _ := tt; with_port _ b := b; with_credentials _ _ b := b;
     build_transport b := b; parse_mailbox s := if String.eqb s "" then None else Some s; parse_address s := Ok s;
     multipart_message _ to _ text _ := Ok (to, text); deliver _ m w := (Ok tt, (w ++ [m])%list); add_raw_templates _ := Ok tt;
     render_template _ _ _ := None; render_str _ ctx := snd <$> head ctx |}.
#[local] Existing Instances toy_mail plain_secrets plain_secrets_laws whole_f64.
#[local] Instance ascii_letters : Unicode := {| wide_upper _ := false; wide_lower _ := false; wide_alphanumeric _ := false |}.
Definition mail_config_of (from : string) : MailConfig :=
  {| ml_from := from; ml_host := "smtp"; ml_port := 587; ml_username := None; ml_password := None; ml_tls := StartTls; app_url := "https://g/" |}.
Definition mailing (from : string) : AuthConfig :=
  {| jwt_secret := "s"; access_token_ttl_minutes := 15; refresh_token_ttl_days := 7; cookie_secure := true; allowed_cookie_origin := "";
     login_max_attempts_per_minute := 10; trust_proxy := false; oidc_providers := []; saml_providers := [];
     mail := Some (mail_config_of from); password_policy := default_password_policy |}.
Definition mailer_of (from : string) : Mailer (list (string * string)) :=
  {| m_mail := mail_config_of from; m_transport := tt; m_templates := tt |}.
Definition office : Office (list (string * string)) whole_f64 := {| of_accounts := accounts; of_mail := [] |}.

Example built_mailer : mailer_build "" "" "" "" (mailing "g@g.io") = Ok (Some (mailer_of "g@g.io")).
Proof. reflexivity. Qed.
(** With an empty sender, a known email panics and an unknown one does not. *)
Example bad_sender_tells :
  (forgot_password_by_mail "" "" (Some (mailer_of "")) (mailing "") 0 "ann@acme.com" office).1 = Err Panic /\
  (forgot_password_by_mail "" "" (Some (mailer_of "")) (mailing "") 0 "bob@acme.com" office).1 = Ok accepted.
Proof. split; vm_compute; reflexivity. Qed.

Lemma forgotten_password_can_be_reset_witness :
  exists o1, forgot_password_by_mail "" "" (Some (mailer_of "g@g.io")) (mailing "g@g.io") 0 "ann@acme.com" office = (Ok accepted, o1) /\
    of_mail o1 = [("ann@acme.com", "https://g/reset-password?token=token-0")] /\
    exists s2, reset_password "" (mailing "g@g.io") 5 5 "token-0" "New-Passw0rd" (of_accounts o1) = (Ok accepted, s2) /\
      (reset_password "" (mailing "g@g.io") 6 6 "token-0" "Other-Passw0rd" s2).1 = Err (BadRequest "reset token already used").
Proof.
  destruct (forgotten_password_can_be_reset "" "" "" (mailing "g@g.io") (mailer_of "g@g.io") (mail_config_of "g@g.io") 0 "ann@acme.com" ann []
              office eq_refl eq_refl eq_refl eq_refl) as (o1 & E & Hw & Hreset).
  - vm_compute. discriminate.
  - intros t Ht. by apply elem_of_nil in Ht.
  - exists o1. split; [exact E|]. split; [rewrite Hw; vm_compute; reflexivity|].
    destruct (Hreset 5 5 "New-Passw0rd" (of_accounts o1)) as (s2 & E2 & _ & _ & Hagain).
    { assert (db_faults (ac_db (of_accounts o1)) = []) as Hq; [|by repeat split].
      assert (o1 = (forgot_password_by_mail "" "" (Some (mailer_of "g@g.io")) (mailing "g@g.io") 0 "ann@acme.com" office).2)
        as -> by (by rewrite E). vm_compute. reflexivity. }
    { vm_compute. discriminate. }
    { assert (o1 = (forgot_password_by_mail "" "" (Some (mailer_of "g@g.io")) (mailing "g@g.io") 0 "ann@acme.com" office).2)
        as -> by (by rewrite E). vm_compute. reflexivity. }
    exists s2. split; [exact E2|]. exact (Hagain 6 6 "Other-Passw0rd").
Defined.
