(* ===== verification/Catalog.v ===== *)
(** * The catalog: models, aliases, provider profiles, end users

    The admin handlers of [godwit-api/src/admin/models.rs], [model_aliases.rs],
    [provider_profiles.rs] and [end_users.rs] over the tables of [Db.v], the encryption of a
    profile's key ([godwit-auth/src/credentials.rs]), and what the two model descriptions
    ([godwit-api/src/utils.rs] and [model_info.rs]) and the token counter make of a model. *)

From stdpp Require Import base strings list gmap.
From Stdlib Require Import QArith Ascii.
From S2P Require Import Prelude RustStr Json Core Balancer Db Auth Admin Router Serde.

#[local] Open Scope string_scope.
#[local] Open Scope Z_scope.

(** ** Stored keys *)

(** What [encrypt_api_key] calls of the base64 and AES-GCM libraries, and what they promise:
    decoding inverts encoding, and a sealed text opens under its key and nonce. *)
Class Sealing `{Crypto} := {
  b64_encode : string -> string;
  aes_seal : string -> string -> string -> string;   (* key, nonce, plaintext *)
  decode_encode s : b64_decode (b64_encode s) = Ok s;
  open_seal k n p : str_len n = 12 -> aes_open k n (aes_seal k n p) = Some p;
}.

(** The nonce is twelve bytes drawn from the system's generator.
    [godwit-auth/src/credentials.rs:13-25] [encrypt_api_key] *)
Definition encrypt_api_key `{Sealing} (master_key nonce_bytes plaintext : string) : EncryptedSecret :=
  {| ciphertext := b64_encode (aes_seal master_key nonce_bytes plaintext); nonce := b64_encode nonce_bytes |}.

(** [var] is the value of the variable, if it is set.
    [godwit-auth/src/credentials.rs:50-62] [load_master_key_from_env] *)
Definition load_master_key_from_env `{Crypto} (var : string) (env : string -> option string) (show_len : Z -> string)
  : result PasteurError string :=
  encoded ← ok_or (Config (var +:+ " is not set")) (env var);
  bytes ← map_err (fun e => Config (var +:+ " is not valid base64: " +:+ e)) (b64_decode encoded);
  if str_len bytes =? 32 then Ok bytes
  else Err (Config (var +:+ " must decode to exactly 32 bytes, got " +:+ show_len (str_len bytes))).

Section Handlers.
Context `{Fmt} `{Sealing}.

(** ** Models *)

(** [godwit-db/src/models.rs:90-103] [Model::serialize] *)
Definition model_to_value (m : Model) : value := obj [
  ("id", v_uuid (model_id m)); ("public_id", VString (public_id m)); ("provider", VString (model_provider m));
  ("provider_profile_id", v_uuid (provider_profile_id m)); ("provider_model_id", VString (provider_model_id m));
  ("capabilities", v_strs (capabilities m)); ("pricing", pricing m); ("config", model_config m);
  ("created_at", v_time (model_created_at m))].

(** [godwit-api/src/admin/models.rs:23-32] [get_model] *)
Definition get_model (c : Claims) (id : Uuid) : API value :=
  lift (require_super_admin c);;
  model ← core (model_get id);
  mret (data (model_to_value model)).

(** [godwit-api/src/admin/models.rs:34-42] [list_models] *)
Definition list_catalog_models (c : Claims) : API value :=
  lift (require_super_admin c);;
  models ← core model_list;
  mret (data (VArray (model_to_value <$> models))).

(** [godwit-api/src/admin/models.rs:44-73] [create_model] *)
Definition create_model (c : Claims) (public_id provider : string) (profile : Uuid) (upstream capabilities : string)
    (pricing : value) : API value :=
  lift (require_super_admin c);;
  model ← core (model_create public_id provider profile upstream capabilities pricing);
  mret (data (model_to_value model)).

(** [godwit-api/src/admin/models.rs:75-94] [update_model] *)
Definition update_model (c : Claims) (id : Uuid) (public_id capabilities : option string) : API value :=
  lift (require_super_admin c);;
  model ← core (model_update id public_id capabilities);
  mret (data (model_to_value model)).

(** [godwit-api/src/admin/models.rs:96-105] [delete_model] *)
Definition delete_model (c : Claims) (id : Uuid) : API value :=
  lift (require_super_admin c);;
  core (model_delete id);;
  mret deleted.

(** ** Aliases *)

(** [godwit-db/src/models.rs:199-205] [ModelAlias::serialize] *)
Definition alias_to_value (a : ModelAlias) : value := obj [
  ("id", v_uuid (alias_id a)); ("alias", VString (alias_name a)); ("target_model_id", v_uuid (alias_target_model_id a));
  ("created_at", v_time (alias_created_at a))].

(** [godwit-api/src/admin/model_aliases.rs:20-28] [list_aliases] *)
Definition list_aliases (c : Claims) : API value :=
  lift (require_super_admin c);;
  aliases ← core alias_list;
  mret (data (VArray (alias_to_value <$> aliases))).

(** [godwit-api/src/admin/model_aliases.rs:30-52] [create_alias] *)
Definition create_alias (c : Claims) (alias : string) (target : Uuid) : API value :=
  lift (require_super_admin c);;
  core (model_get target);;
  a ← core (alias_create alias target);
  mret (data (alias_to_value a)).

(** [godwit-api/src/admin/model_aliases.rs:54-63] [delete_alias] *)
Definition delete_alias (c : Claims) (id : Uuid) : API value :=
  lift (require_super_admin c);;
  core (alias_delete id);;
  mret deleted.

(** ** Provider profiles *)

(** [godwit-api/src/admin/provider_profiles.rs:23-34] [profile_json] *)
Definition profile_json (p : ProviderProfile) : value := obj [
  ("id", v_uuid (profile_id p)); ("name", VString (profile_name p)); ("protocol", VString (profile_protocol p));
  ("base_url", v_opt_str (profile_base_url p)); ("allow_wildcard", VBool (allow_wildcard p));
  ("enabled", VBool (profile_enabled p));
  ("has_credentials", VBool (negb (is_null (profile_auth p)) && negb (is_empty_object (profile_auth p))));
  ("created_at", v_time (profile_created_at p))].

(** [godwit-api/src/admin/provider_profiles.rs:36-46] [list_profiles] *)
Definition list_profiles (c : Claims) : API value :=
  lift (require_super_admin c);;
  profiles ← core profile_list;
  mret (data (VArray (profile_json <$> profiles))).

(** The key of a request is stored in a second statement.
    [godwit-api/src/admin/provider_profiles.rs:74-81] [create_profile] *)
Definition store_key (master_key nonce_bytes : string) (api_key : option string) (p : ProviderProfile) : API ProviderProfile :=
  match api_key with
  | Some api_key => core (profile_set_auth (profile_id p) (encrypt_api_key master_key nonce_bytes api_key))
  | None => mret p
  end.

(** [godwit-api/src/admin/provider_profiles.rs:48-83] [create_profile] *)
Definition create_profile (master_key nonce_bytes : string) (c : Claims) (name protocol : string)
    (base_url api_key : option string) (wildcard : bool) : API value :=
  lift (require_super_admin c);;
  profile ← core (profile_create name protocol base_url wildcard);
  profile ← store_key master_key nonce_bytes api_key profile;
  mret (profile_json profile).

(** [godwit-api/src/admin/provider_profiles.rs:85-114] [update_profile] *)
Definition update_profile (master_key nonce_bytes : string) (c : Claims) (id : Uuid) (base_url api_key : option string)
    (wildcard enabled : option bool) : API value :=
  lift (require_super_admin c);;
  profile ← core (profile_update id base_url wildcard enabled);
  profile ← store_key master_key nonce_bytes api_key profile;
  mret (profile_json profile).

(** ** End users *)

(** [godwit-db/src/models.rs:167-176] [EndUser::serialize] *)
Definition end_user_to_value (e : EndUser) : value := obj [
  ("id", v_uuid (eu_id e)); ("organization_id", v_uuid (eu_organization_id e)); ("user_id", v_uuid (eu_user_id e));
  ("budget_usd", v_opt_dec (eu_budget_usd e)); ("max_budget_usd", v_opt_dec (eu_max_budget_usd e));
  ("created_at", v_time (eu_created_at e)); ("updated_at", v_time (eu_updated_at e))].

(** [godwit-api/src/admin/end_users.rs:36-55] [list_end_users] *)
Definition list_end_users (c : Claims) (organization_id : option Uuid) : API value :=
  role ← lift (require_manage_users c);
  es ← core (end_user_list_by_organization
               (if is_role role SuperAdmin then default (c_organization_id c) organization_id else c_organization_id c));
  mret (data (VArray (end_user_to_value <$> es))).

(** Both branches on the role are the caller's own organization.
    [godwit-api/src/admin/end_users.rs:57-77] [get_end_user] *)
Definition get_end_user (c : Claims) (user : Uuid) : API value :=
  lift (require_manage_users c);;
  e ← core (end_user_get_by_user (c_organization_id c) user);
  mret (data (end_user_to_value e)).

(** [godwit-api/src/admin/end_users.rs:79-108] [create_end_user] *)
Definition create_end_user (c : Claims) (user : Uuid) (organization_id : option Uuid) (budget max_budget : option Q) : API value :=
  role ← lift (require_manage_users c);
  org ← lift (if is_role role SuperAdmin
              then ok_or (BadRequest "organization_id is required") organization_id
              else Ok (c_organization_id c));
  e ← core (end_user_create org user budget max_budget);
  mret (data (end_user_to_value e)).

(** The row of the caller's organization, with the check its handlers repeat.
    [godwit-api/src/admin/end_users.rs:122-134] [update_end_user] *)
Definition own_end_user (c : Claims) (user : Uuid) : API EndUser :=
  role ← lift (require_manage_users c);
  e ← core (end_user_get_by_user (c_organization_id c) user);
  fail_if (negb (is_role role SuperAdmin) && negb (is_id (eu_organization_id e) (c_organization_id c))) Forbidden;;
  mret e.

(** [godwit-api/src/admin/end_users.rs:110-142] [update_end_user] *)
Definition update_end_user (c : Claims) (user : Uuid) (budget max_budget : option Q) : API value :=
  own_end_user c user;;
  e ← core (end_user_update_budgets (c_organization_id c) user budget max_budget);
  mret (data (end_user_to_value e)).

(** [godwit-api/src/admin/end_users.rs:144-168] [delete_end_user] *)
Definition delete_end_user (c : Claims) (user : Uuid) : API value :=
  own_end_user c user;;
  core (end_user_delete (c_organization_id c) user);;
  mret deleted.
End Handlers.

(** ** Descriptions of a model, and the token counter *)

(** [godwit-api/src/utils.rs:55-69] [count_tokens] *)
Definition content_tokens (c : ChatContent) : list Z :=
  match c with
  | CText text => [as_u32 (str_len text) / 4]
  | CParts parts => (fun p => match p with PartText text => as_u32 (str_len text) / 4 | PartImageUrl _ => 100 end) <$> parts
  end.
(** What one message adds to the total.
    [godwit-api/src/utils.rs:47-86] [count_tokens] *)
Definition message_tokens (m : ChatMessage) : list Z :=
  let quarter s := as_u32 (str_len s) / 4 in
  [4] ++ (if is_empty (msg_role m) then [] else [as_u32 (str_len (msg_role m))])
  ++ match msg_content m with Some cs => concat (content_tokens <$> cs) | None => [] end
  ++ match msg_name m with Some n => [quarter n] | None => [] end
  ++ match msg_tool_calls m with
     | Some calls => concat ((fun t => [quarter (tc_id t); quarter (tc_name t); quarter (tc_arguments t)]) <$> calls)
     | None => []
     end
  ++ match msg_tool_call_id m with Some i => [quarter i] | None => [] end.
(** [godwit-api/src/utils.rs:43-92] [count_tokens] *)
Definition count_tokens (messages : list ChatMessage) : Z :=
  as_u32 (foldl (fun total n => as_u32 (total + n)) 0 (concat (message_tokens <$> messages)) + 2).
(** [godwit-api/src/utils.rs:20-41] [token_counter] *)
Definition token_counter (model : string) (messages : list ChatMessage) : value :=
  obj [("prompt_tokens", num (count_tokens messages)); ("model", VString model)].

(** [godwit-api/src/utils.rs:104-110] [PricingInfo] *)
Record PricingInfo : Type := {
  input_cost_per_1k : Q; output_cost_per_1k : Q; cache_read_cost_per_1k : Q; cache_write_cost_per_1k : Q }.
(** A price field as a double, [0.0] when there is none that is a number; dividing cannot overflow.
    [godwit-api/src/utils.rs:143-150] [extract_pricing] *)
Definition price_per_1k (pricing : value) (key : string) : Q :=
  default 0%Q (f64_of_Q (default 0%Q (v ← get key pricing; json_f64 v) / 1000)).
(** [godwit-api/src/utils.rs:142-158] [extract_pricing] *)
Definition extract_pricing (pricing : value) : PricingInfo :=
  {| input_cost_per_1k := price_per_1k pricing "input_price_per_million";
     output_cost_per_1k := price_per_1k pricing "output_price_per_million";
     cache_read_cost_per_1k := 0; cache_write_cost_per_1k := 0 |}.

(** [godwit-api/src/utils.rs:112-119] [ModelCapabilities] *)
Record ModelCapabilities : Type := {
  supports_tool_calling : bool; supports_vision : bool; supports_streaming : bool; supports_prompt_cache : bool;
  caps_max_tokens : Z }.
(** [godwit-api/src/utils.rs:160-179] [extract_capabilities] *)
Definition extract_capabilities (m : Model) : ModelCapabilities :=
  {| supports_tool_calling := str_in (capabilities m) "tool_calling" || str_in (capabilities m) "tools";
     supports_vision := str_in (capabilities m) "vision"; supports_streaming := true;
     supports_prompt_cache := str_in (capabilities m) "prompt_cache";
     caps_max_tokens := as_u32 (default 4096 (v ← get "max_output_tokens" (model_config m); json_i64 v)) |}.

(** [godwit-api/src/utils.rs:96-102] [ModelInfo] *)
Record ModelInfo : Type := { mi_id : string; mi_provider : string; mi_pricing : PricingInfo; mi_capabilities : ModelCapabilities }.
(** [godwit-api/src/model_info.rs:17-33] [ModelInfoResponse, ModelPricing] *)
Record ModelInfoResponse : Type := {
  mir_id : string; mir_provider_model_id : string; mir_provider : string; mir_capabilities : list string;
  mir_input_price : option Q; mir_output_price : option Q; mir_fallback_chain : list string;
  mir_context_window : option Z; mir_max_output_tokens : option Z }.

Section Info.
Context `{Crypto} {A : Type} (registry : AdapterRegistry A) (master_key : string).
Abbreviation INFO := (ST RouterState (failure ApiError)).
Definition core_failure (e : failure PasteurError) : failure ApiError :=
  match e with Failed e => Failed (CoreError e) | Panic => Panic end.

(** A model looked up for its description; the in-flight guard is dropped with it. *)
Definition described {B} (model_ref : string) (f : ResolvedModel A -> B) : INFO B :=
  rm ← st_map_err core_failure (resolve registry master_key model_ref Chat);
  modify (fun s => {| r_db := r_db s; r_lb := drop_resolved rm (r_lb s) |});;
  mret (f rm).

(** [godwit-api/src/utils.rs:121-140] [model_info] *)
Definition model_info (model_ref : string) : INFO ModelInfo :=
  described model_ref (fun rm =>
    {| mi_id := public_id (rm_model rm); mi_provider := profile_protocol (rm_profile rm);
       mi_pricing := extract_pricing (pricing (rm_model rm)); mi_capabilities := extract_capabilities (rm_model rm) |}).

(** [godwit-api/src/model_info.rs:40-82] [get_model_info, extract_pricing] *)
Definition get_model_info (c : Claims) (model_ref : string) : INFO ModelInfoResponse :=
  lift (map_err Failed (require_super_admin c));;
  described model_ref (fun rm =>
    let m := rm_model rm in
    {| mir_id := public_id m; mir_provider_model_id := provider_model_id m;
       mir_provider := profile_protocol (rm_profile rm); mir_capabilities := capabilities m;
       mir_input_price := (v ← get "input_price_per_million" (pricing m); json_f64 v);
       mir_output_price := (v ← get "output_price_per_million" (pricing m); json_f64 v);
       mir_fallback_chain := router_fallback_chain m;
       mir_context_window := (v ← get "context_window" (model_config m); json_i64 v);
       mir_max_output_tokens := (v ← get "max_output_tokens" (model_config m); json_i64 v) |}).
End Info.

(** ** Well-formedness of the catalog

    What the constraints of the tables say: names and identifiers are unique, a model hangs on
    a profile, has a known provider and known capabilities, an alias leads to a model; and no
    identifier was handed out that is yet to come. *)
Record well_formed (ps : list ProviderProfile) (ms : list Model) (al : list ModelAlias) (next : Uuid) : Prop := {
  wf_profile_names : NoDup (profile_name <$> ps);
  wf_profile_ids : NoDup (profile_id <$> ps);
  wf_model_ids : NoDup (model_id <$> ms);
  wf_model_keys : NoDup ((fun m => (provider_profile_id m, public_id m)) <$> ms);
  wf_model_profiles : forall m, m ∈ ms -> provider_profile_id m ∈ (profile_id <$> ps);
  wf_model_rows : forall m, m ∈ ms -> model_provider m ∈ known_providers /\ Forall (fun c => c ∈ known_capabilities) (capabilities m);
  wf_alias_names : NoDup (alias_name <$> al);
  wf_alias_targets : forall a, a ∈ al -> alias_target_model_id a ∈ (model_id <$> ms);
  wf_fresh : Forall (fun i => i < next) ((profile_id <$> ps) ++ (model_id <$> ms));
}.
Definition catalog_ok (d : Db) : Prop := well_formed (t_provider_profiles d) (t_models d) (t_model_aliases d) (db_next d).

Lemma str_in_spec l s : str_in l s = true <-> s ∈ l.
Proof.
  unfold str_in. rewrite existsb_exists. split.
  - intros (x & Hx & ->%String.eqb_eq). by apply list_elem_of_In.
  - intros Hs. exists s. split; [by apply list_elem_of_In|apply String.eqb_refl].
Qed.
Lemma strs_in_spec l ss : forallb (str_in l) ss = true <-> Forall (fun s => s ∈ l) ss.
Proof.
  rewrite forallb_forall, Forall_forall. split; intros H s Hs.
  - by apply str_in_spec, H, list_elem_of_In.
  - by apply str_in_spec, H, list_elem_of_In.
Qed.
Lemma exists_id {R} (f : R -> Uuid) l i : existsb (fun r => is_id (f r) i) l = true <-> i ∈ (f <$> l).
Proof.
  rewrite existsb_exists, list_elem_of_fmap. split.
  - intros (r & Hr & E%Z.eqb_eq). exists r. split; [done|by apply list_elem_of_In].
  - intros (r & -> & Hr). exists r. split; [by apply list_elem_of_In|apply Z.eqb_refl].
Qed.
Lemma sublist_filterb {R} (p : R -> bool) l : filterb p l `sublist_of` l.
Proof. induction l as [|x l IH]; simpl; [constructor|]. destruct (p x); by constructor. Qed.
Lemma fmap_unchanged {R T} (g : R -> T) (p : R -> bool) (f : R -> R) (l : list R) :
  (forall x, g (f x) = g x) -> (g <$> ((fun x => if p x then f x else x) <$> l)) = (g <$> l).
Proof. intros Hg. rewrite <- list_fmap_compose. apply list_fmap_ext. intros i x _. simpl. destruct (p x); [apply Hg|done]. Qed.

Lemma catalog_ok_faults d d' : only_faults d d' -> catalog_ok d -> catalog_ok d'.
Proof. by intros [f ->]. Qed.
Lemma catalog_ok_next d n : db_next d <= n -> catalog_ok d -> catalog_ok (put_next n d).
Proof. intros Hn []. split; simpl; try done. eapply Forall_impl; [eassumption|]. simpl. lia. Qed.

(** [m] keeps the catalog well-formed, whatever its outcome. *)
Definition keeps_catalog {T E} (m : ST Db E T) : Prop := forall d, catalog_ok d -> catalog_ok (m d).2.

Lemma catalog_keeps_bind {T U E} (m : ST Db E T) (f : T -> ST Db E U) :
  keeps_catalog m -> (forall x, keeps_catalog (f x)) -> keeps_catalog (m ≫= f).
Proof.
  intros Hm Hf d Hd. specialize (Hm d Hd). st_unfold. destruct (m d) as [[x|e] d1]; [|done]. by apply Hf.
Qed.
Lemma catalog_keeps_ret {T E} (x : T) : keeps_catalog (E := E) (mret x).
Proof. by intros d Hd. Qed.
Lemma keeps_lift {T E} (r : result E T) : keeps_catalog (lift r).
Proof. by intros d Hd. Qed.
Lemma keeps_fail {E} b (e : E) : keeps_catalog (fail_if b e).
Proof. intros d Hd. by destruct b. Qed.
Lemma keeps_core {T} (m : DB T) : keeps_catalog m -> keeps_catalog (core m).
Proof. intros Hm d Hd. specialize (Hm d Hd). unfold core, st_map_err. by destruct (m d). Qed.
Lemma keeps_fmap {T U E} (f : T -> U) (m : ST Db E T) : keeps_catalog m -> keeps_catalog (f <$> m).
Proof. intros Hm d Hd. specialize (Hm d Hd). st_unfold. by destruct (m d) as [[x|e] d1]. Qed.
Lemma keeps_select_one {R} (t : table R) p : (forall f d, rows t (put_faults f d) = rows t d) -> keeps_catalog (select_one t p).
Proof.
  intros Ht d Hd. destruct (select_one t p d) as [r d'] eqn:E. apply select_one_spec in E as [Hf _]; [|done].
  by eapply catalog_ok_faults.
Qed.
Lemma keeps_select_all {R} (t : table R) p le : (forall f d, rows t (put_faults f d) = rows t d) -> keeps_catalog (select_all t p le).
Proof.
  intros Ht d Hd. destruct (select_all t p le d) as [r d'] eqn:E. apply select_all_spec in E as [Hf _]; [|done].
  by eapply catalog_ok_faults.
Qed.
#[export] Hint Resolve catalog_keeps_ret keeps_lift keeps_fail keeps_core keeps_fmap keeps_select_one keeps_select_all : godwit.

(** The constraints held of what was written. *)
Lemma insert_row_ok {R} (t : table R) ok x d r d' :
  insert_row t ok x d = (r, d') ->
  only_faults d d' \/ exists d1, only_faults d d1 /\ ok x d1 = true /\ d' = put t (rows t d1 ++ [x]) d1 /\ r = Ok x.
Proof.
  unfold insert_row, get_db. st_unfold. destruct (stmt d) as [s d1] eqn:Es.
  apply stmt_spec in Es as [Hf [->|[m ->]]]; [|intros; simplify_eq; by left].
  destruct (ok x d1) eqn:Eo; intros; simplify_eq; [|by left]. right. by exists d1.
Qed.
Lemma update_rows_ok {R} (t : table R) p f ok none d r d' :
  update_rows t p f ok none d = (r, d') ->
  only_faults d d' \/ exists d1, only_faults d d1 /\ (forall x, x ∈ rows t d1 -> p x = true -> ok (f x) d1 = true) /\
    d' = put t ((fun x => if p x then f x else x) <$> rows t d1) d1.
Proof.
  unfold update_rows, get_db. st_unfold. destruct (stmt d) as [s d1] eqn:Es.
  apply stmt_spec in Es as [Hf [->|[m ->]]]; [|intros; simplify_eq; by left].
  destruct (filterb p (rows t d1)) as [|x l] eqn:El; [intros; simplify_eq; by left|].
  rewrite <- El. destruct (forallb _ _) eqn:Eo; intros; simplify_eq; [|by left]. right. exists d1. split_and!; [done| |done].
  intros y Hy Hp. rewrite forallb_forall in Eo. apply Eo, list_elem_of_In, elem_of_filterb. done.
Qed.

Lemma NoDup_snoc {T} (l : list T) x : NoDup (l ++ [x]) <-> x ∉ l /\ NoDup l.
Proof.
  rewrite NoDup_app. split.
  - intros (Hl & Hx & _). split; [|done]. intros Hin. by apply (Hx x Hin), list_elem_of_singleton.
  - intros [Hx Hl]. split_and!; [done| |apply NoDup_singleton]. intros y Hy Hs. by apply list_elem_of_singleton in Hs as ->.
Qed.

Lemma keeps_model_create pub provider profile upstream caps price : keeps_catalog (model_create pub provider profile upstream caps price).
Proof.
  unfold model_create. apply catalog_keeps_bind; [apply keeps_lift|]. intros _ d Hd. unfold fresh_id. st_unfold.
  set (m := {| model_id := _ |}). set (d0 := put_next (db_next d + 1) d).
  assert (catalog_ok d0) as H0 by (apply catalog_ok_next; [lia|done]).
  destruct (insert_row models model_ok m d0) as [r d'] eqn:E.
  apply insert_row_ok in E as [Hf|(d1 & [f ->] & Hok & -> & _)]; [by eapply catalog_ok_faults|].
  unfold model_ok in Hok. apply andb_prop in Hok as [[[Hu%negb_true_iff Hp%exists_id]%andb_prop Hpr%str_in_spec]%andb_prop Hc%strs_in_spec].
  destruct Hd as [W1 W2 W3 W4 W5 W6 W7 W8 W9]. rewrite Forall_app in W9. destruct W9 as [W9 W10].
  split; simpl; rewrite ?fmap_app; simpl; try done.
  - apply NoDup_snoc. split; [|done]. intros Hin. rewrite Forall_forall in W10. apply W10 in Hin. lia.
  - apply NoDup_snoc. split; [|done]. intros (x & [= E1 E2] & Hx)%list_elem_of_fmap.
    rewrite <- not_true_iff_false, existsb_exists in Hu. apply Hu. exists x. split; [by apply list_elem_of_In|].
    unfold is_id. simpl. by rewrite <- E1, <- E2, Z.eqb_refl, String.eqb_refl.
  - intros x [Hx| ->%list_elem_of_singleton]%elem_of_app; [by apply W5|done].
  - intros x [Hx| ->%list_elem_of_singleton]%elem_of_app; [by apply W6|done].
  - intros a Ha. apply elem_of_app. left. by apply W8.
  - rewrite !Forall_app, Forall_singleton. split_and!; [..|lia]; (eapply Forall_impl; [eassumption|]); simpl; lia.
Qed.

Lemma unique_id {R} (g : R -> Uuid) (l : list R) x y : NoDup (g <$> l) -> x ∈ l -> y ∈ l -> g x = g y -> x = y.
Proof.
  intros Hn Hx Hy E. apply list_elem_of_lookup in Hx as [i Hi], Hy as [j Hj].
  assert (i = j) as ->; [|congruence]. eapply (NoDup_lookup _ _ _ (g y) Hn); rewrite list_lookup_fmap.
  - by rewrite Hi, <- E.
  - by rewrite Hj.
Qed.
(** One row changes its key for a key no other row has. *)
Lemma NoDup_changed {R K} (g : R -> K) (i : R -> Uuid) (f : R -> R) id (l : list R) :
  NoDup (i <$> l) -> NoDup (g <$> l) ->
  (forall x y, x ∈ l -> y ∈ l -> i x = id -> i y <> id -> g (f x) <> g y) ->
  NoDup (g <$> ((fun x => if is_id (i x) id then f x else x) <$> l)).
Proof.
  intros Hi Hg Hf. induction l as [|x l IH]; csimpl in *; [constructor|].
  apply NoDup_cons in Hi as [Hix Hi], Hg as [Hgx Hg].
  assert (forall y, y ∈ l -> i x <> i y) as Hne.
  { intros y Hy E. apply Hix. rewrite E. by apply list_elem_of_fmap_2. }
  constructor; [|apply IH; [done..|]; intros; apply Hf; [by right..|done|done]].
  intros (y & E & Hy)%list_elem_of_fmap. apply list_elem_of_fmap in Hy as (z & -> & Hz). unfold is_id in E.
  destruct (Z.eqb_spec (i x) id) as [Ex|Ex], (Z.eqb_spec (i z) id) as [Ez|Ez].
  - apply (Hne z Hz). congruence.
  - refine (Hf x z _ _ Ex Ez E); [left|by right].
  - refine (Hf z x _ _ Ez Ex (eq_sym E)); [by right|left].
  - apply Hgx. rewrite E. by apply list_elem_of_fmap_2.
Qed.

Lemma elem_of_changed {R} (p : R -> bool) (f : R -> R) (l : list R) y :
  y ∈ ((fun x => if p x then f x else x) <$> l) <-> exists x, x ∈ l /\ y = (if p x then f x else x).
Proof. rewrite list_elem_of_fmap. firstorder. Qed.

Lemma keeps_model_update id pub caps : keeps_catalog (model_update id pub caps).
Proof.
  unfold model_update. apply catalog_keeps_bind; [apply keeps_select_one; done|]. intros cur d Hd.
  set (f := fun m => {| model_id := model_id m |}). match goal with |- catalog_ok (update_rows ?t ?p ?g ?ok ?n d).2 =>
    destruct (update_rows t p g ok n d) as [r d'] eqn:E end.
  apply update_rows_ok in E as [Hf|(d1 & [fl ->] & Hok & ->)]; [by eapply catalog_ok_faults|].
  destruct Hd as [W1 W2 W3 W4 W5 W6 W7 W8 W9]. simpl in *.
  assert (forall T (g : Model -> T), (forall m, g (f m) = g m) ->
            (g <$> ((fun x => if is_id (model_id x) id then f x else x) <$> t_models d)) = (g <$> t_models d)) as Hsame
    by (intros T g; apply fmap_unchanged).
  split; simpl; rewrite ?(Hsame _ model_id) by done; try done.
  - apply NoDup_changed; [done|done|]. intros x y Hx Hy Ex Ey Eg. specialize (Hok x Hx). rewrite Ex in Hok.
    specialize (Hok (Z.eqb_refl _)). apply andb_prop in Hok as [_ Hok%negb_true_iff].
    rewrite <- not_true_iff_false, existsb_exists in Hok. apply Hok. exists y. split; [by apply list_elem_of_In|].
    injection Eg as E1 E2. unfold is_id. simpl. rewrite <- E1, <- E2, Z.eqb_refl, String.eqb_refl.
    apply Z.eqb_neq in Ey. by rewrite Ey.
  - intros m (x & Hx & ->)%elem_of_changed. destruct (is_id (model_id x) id); simpl; by apply W5.
  - intros m (x & Hx & ->)%elem_of_changed. specialize (Hok x Hx). destruct (is_id (model_id x) id); [|by apply W6].
    split; [exact (proj1 (W6 x Hx))|]. specialize (Hok eq_refl). by apply andb_prop in Hok as [Hok%strs_in_spec _].
Qed.

Lemma keeps_model_delete id : keeps_catalog (model_delete id).
Proof.
  unfold model_delete. intros d Hd. st_unfold. destruct (delete_rows models _ d) as [r d1] eqn:E.
  apply delete_rows_spec in E; [|done]. destruct r as [n|e]; [|by destruct E as [Hf _]; eapply catalog_ok_faults].
  destruct E as (d2 & [fl ->] & ->). destruct Hd as [W1 W2 W3 W4 W5 W6 W7 W8 W9]. simpl.
  assert (forall T (g : Model -> T), NoDup (g <$> t_models d) -> NoDup (g <$> filterb (fun x => negb (is_id (model_id x) id)) (t_models d))) as Hn.
  { intros T g Hg. eapply sublist_NoDup; [exact Hg|]. apply fmap_sublist, sublist_filterb. }
  split; simpl; try done; try by apply Hn.
  - intros m [Hm _]%elem_of_filterb. by apply W5.
  - intros m [Hm _]%elem_of_filterb. by apply W6.
  - eapply sublist_NoDup; [exact W7|]. apply fmap_sublist, sublist_filterb.
  - intros a [Ha Hid]%elem_of_filterb. specialize (W8 a Ha). apply list_elem_of_fmap in W8 as (m & E & Hm).
    apply list_elem_of_fmap. exists m. split; [done|]. apply elem_of_filterb. split; [done|]. by rewrite <- E.
  - rewrite Forall_app in *. destruct W9 as [W9 W10]. split; [done|]. rewrite Forall_fmap in *.
    rewrite Forall_forall in *. intros x [Hx _]%elem_of_filterb. by apply W10.
Qed.

Lemma keeps_alias_create alias target : keeps_catalog (alias_create alias target).
Proof.
  unfold alias_create. intros d Hd. unfold fresh_id. st_unfold. set (d0 := put_next (db_next d + 1) d).
  assert (catalog_ok d0) as H0 by (apply catalog_ok_next; [lia|done]).
  match goal with |- catalog_ok (insert_row ?t ?ok ?x d0).2 => destruct (insert_row t ok x d0) as [r d'] eqn:E end.
  apply insert_row_ok in E as [Hf|(d1 & [f ->] & Hok & -> & _)]; [by eapply catalog_ok_faults|].
  apply andb_prop in Hok as [Hu%negb_true_iff Hm%exists_id]. destruct H0 as [W1 W2 W3 W4 W5 W6 W7 W8 W9].
  split; simpl; rewrite ?fmap_app; simpl; try done.
  - apply NoDup_snoc. split; [|done]. intros (x & E1 & Hx)%list_elem_of_fmap.
    rewrite <- not_true_iff_false, existsb_exists in Hu. apply Hu. exists x. split; [by apply list_elem_of_In|].
    simpl. by rewrite <- E1, String.eqb_refl.
  - intros a [Ha| ->%list_elem_of_singleton]%elem_of_app; [by apply W8|done].
Qed.
Lemma keeps_alias_delete id : keeps_catalog (alias_delete id).
Proof.
  unfold alias_delete. intros d Hd. st_unfold. destruct (delete_rows model_aliases _ d) as [r d1] eqn:E.
  apply delete_rows_spec in E; [|done]. destruct r as [n|e]; [|by destruct E as [Hf _]; eapply catalog_ok_faults].
  destruct E as (d2 & [fl ->] & ->). destruct Hd as [W1 W2 W3 W4 W5 W6 W7 W8 W9]. split; simpl; try done.
  - eapply sublist_NoDup; [exact W7|]. apply fmap_sublist, sublist_filterb.
  - intros a [Ha _]%elem_of_filterb. by apply W8.
Qed.
Lemma keeps_profile_create name protocol base_url wildcard : keeps_catalog (profile_create name protocol base_url wildcard).
Proof.
  unfold profile_create. intros d Hd. unfold fresh_id. st_unfold. set (d0 := put_next (db_next d + 1) d).
  assert (catalog_ok d0) as H0 by (apply catalog_ok_next; [lia|done]).
  match goal with |- catalog_ok (insert_row ?t ?ok ?x d0).2 => destruct (insert_row t ok x d0) as [r d'] eqn:E end.
  apply insert_row_ok in E as [Hf|(d1 & [f ->] & Hok & -> & _)]; [by eapply catalog_ok_faults|].
  unfold profile_ok in Hok. apply negb_true_iff in Hok. destruct Hd as [W1 W2 W3 W4 W5 W6 W7 W8 W9].
  rewrite Forall_app in W9. destruct W9 as [W9 W10]. split; simpl; rewrite ?fmap_app; simpl; try done.
  - apply NoDup_snoc. split; [|done]. intros (x & E1 & Hx)%list_elem_of_fmap.
    rewrite <- not_true_iff_false, existsb_exists in Hok. apply Hok. exists x. split; [by apply list_elem_of_In|].
    simpl. by rewrite <- E1, String.eqb_refl.
  - apply NoDup_snoc. split; [|done]. intros Hin. rewrite Forall_forall in W9. apply W9 in Hin. lia.
  - intros m Hm. apply elem_of_app. left. by apply W5.
  - rewrite !Forall_app, Forall_singleton. split_and!; [|lia|]; (eapply Forall_impl; [eassumption|]); simpl; lia.
Qed.
(** A change of a profile that keeps its name and identifier. *)
Lemma keeps_profile_change p f ok none :
  (forall x, profile_name (f x) = profile_name x) -> (forall x, profile_id (f x) = profile_id x) ->
  keeps_catalog (update_rows provider_profiles p f ok none).
Proof.
  intros Hn Hi d Hd. destruct (update_rows _ p f ok none d) as [r d'] eqn:E.
  apply update_rows_ok in E as [Hf|(d1 & [fl ->] & _ & ->)]; [by eapply catalog_ok_faults|].
  destruct Hd as [W1 W2 W3 W4 W5 W6 W7 W8 W9]. split; simpl; try done; by rewrite ?(fmap_unchanged profile_name), ?(fmap_unchanged profile_id).
Qed.
Lemma keeps_profile_update id base_url wildcard enabled : keeps_catalog (profile_update id base_url wildcard enabled).
Proof. apply catalog_keeps_bind; [by apply keeps_select_one|]. intros cur. by apply keeps_profile_change. Qed.
Lemma keeps_profile_set_auth id secret : keeps_catalog (profile_set_auth id secret).
Proof. by apply keeps_profile_change. Qed.
#[export] Hint Resolve keeps_model_create keeps_model_update keeps_model_delete keeps_alias_create keeps_alias_delete
  keeps_profile_create keeps_profile_update keeps_profile_set_auth : godwit.

(** ** The calls of the catalog *)

Inductive CatalogCall : Type :=
| CGetModel (id : Uuid) | CListModels
| CCreateModel (public_id provider : string) (profile : Uuid) (upstream capabilities : string) (pricing : value)
| CUpdateModel (id : Uuid) (public_id capabilities : option string) | CDeleteModel (id : Uuid)
| CListAliases | CCreateAlias (alias : string) (target : Uuid) | CDeleteAlias (id : Uuid)
| CListProfiles
| CCreateProfile (nonce_bytes name protocol : string) (base_url api_key : option string) (wildcard : bool)
| CUpdateProfile (nonce_bytes : string) (id : Uuid) (base_url api_key : option string) (wildcard enabled : option bool).

Section Calls.
Context `{Fmt} `{Sealing} (master_key : string).

Definition run_catalog_call (c : Claims) (k : CatalogCall) : API value :=
  match k with
  | CGetModel id => get_model c id
  | CListModels => list_catalog_models c
  | CCreateModel pub provider profile upstream caps price => create_model c pub provider profile upstream caps price
  | CUpdateModel id pub caps => update_model c id pub caps
  | CDeleteModel id => delete_model c id
  | CListAliases => list_aliases c
  | CCreateAlias alias target => create_alias c alias target
  | CDeleteAlias id => delete_alias c id
  | CListProfiles => list_profiles c
  | CCreateProfile n name protocol url key wildcard => create_profile master_key n c name protocol url key wildcard
  | CUpdateProfile n id url key wildcard enabled => update_profile master_key n c id url key wildcard enabled
  end.

Lemma keeps_store_key n key p : keeps_catalog (store_key master_key n key p).
Proof. destruct key; simpl; auto with godwit. Qed.
Lemma keeps_call c k : keeps_catalog (run_catalog_call c k).
Proof.
  destruct k; simpl;
    repeat first [apply catalog_keeps_bind | match goal with |- forall x, keeps_catalog _ => intros ? end
                 | solve [auto using keeps_store_key with godwit] | apply keeps_core; by apply keeps_select_one
                 | apply keeps_core; by apply keeps_select_all].
Qed.

(** The calls of several callers, one after the other, whatever their outcomes. *)
Fixpoint run_catalog (ks : list (Claims * CatalogCall)) (d : Db) : Db :=
  match ks with [] => d | (c, k) :: ks => run_catalog ks (run_catalog_call c k d).2 end.

Lemma refused c : role_from_str (c_role c) <> Some SuperAdmin -> require_super_admin c = Err Forbidden.
Proof. intros Hr. unfold require_super_admin. destruct (role_from_str (c_role c)) as [[]|]; done. Qed.
End Calls.

(** C20: the catalog stays well-formed under any sequence of calls by any callers, failing
    statements included: profile names and model references stay unambiguous, every model
    hangs on a profile and has only known capabilities, no alias is left without its model.
    A call by anyone but a super admin is refused and changes nothing at all. *)
Theorem catalog_stays_well_formed `{Fmt} `{Sealing} master_key ks d (Hd : catalog_ok d) :
  catalog_ok (run_catalog master_key ks d) /\
  forall c k d', role_from_str (c_role c) <> Some SuperAdmin -> run_catalog_call master_key c k d' = (Err Forbidden, d').
Proof.
  split.
  - revert d Hd. induction ks as [|[c k] ks IH]; intros d Hd; simpl; [done|]. by apply IH, keeps_call.
  - intros c k d' Hr. pose proof (refused c Hr) as E. destruct k; simpl;
      unfold get_model, list_catalog_models, create_model, update_model, delete_model, list_aliases, create_alias, delete_alias,
        list_profiles, create_profile, update_profile; st_unfold; by rewrite E.
Qed.

(** ** Configuration of models *)

(** The rows of a model are as they were or have the configuration of a new row. *)
Definition plain_configs (d : Db) : Prop := Forall (fun m => model_config m = VObject []) (t_models d).
Definition catalog_keeps_plain {T E} (m : ST Db E T) : Prop := forall d, plain_configs d -> plain_configs (m d).2.

Lemma plain_bind {T U E} (m : ST Db E T) (f : T -> ST Db E U) :
  catalog_keeps_plain m -> (forall x, catalog_keeps_plain (f x)) -> catalog_keeps_plain (m ≫= f).
Proof. intros Hm Hf d Hd. specialize (Hm d Hd). st_unfold. destruct (m d) as [[x|e] d1]; [|done]. by apply Hf. Qed.
Lemma plain_models {T E} (m : ST Db E T) : (forall d, t_models (m d).2 = t_models d) -> catalog_keeps_plain m.
Proof. intros Hm d Hd. unfold plain_configs. by rewrite Hm. Qed.
Lemma plain_core {T} (m : DB T) : catalog_keeps_plain m -> catalog_keeps_plain (core m).
Proof. intros Hm d Hd. specialize (Hm d Hd). unfold core, st_map_err. by destruct (m d). Qed.
Lemma plain_ret {T E} (x : T) : catalog_keeps_plain (E := E) (mret x). Proof. by apply plain_models. Qed.
Lemma plain_lift {T E} (r : result E T) : catalog_keeps_plain (lift r). Proof. by apply plain_models. Qed.
Lemma stmt_models d : t_models (stmt d).2 = t_models d.
Proof. unfold stmt. destruct (db_faults d) as [|[m|] f]; done. Qed.
Lemma plain_select_one {R} (t : table R) p : catalog_keeps_plain (select_one t p).
Proof.
  apply plain_models. intros d. unfold select_one, get_db. st_unfold. pose proof (stmt_models d) as Hs.
  destruct (stmt d) as [[u|e] d1]; [|done]. by destruct (filterb p (rows t d1)).
Qed.
Lemma plain_select_all {R} (t : table R) p le : catalog_keeps_plain (select_all t p le).
Proof.
  apply plain_models. intros d. unfold select_all, get_db. st_unfold. pose proof (stmt_models d) as Hs.
  by destruct (stmt d) as [[u|e] d1].
Qed.
(** A table other than that of the models. *)
Lemma plain_update {R} (t : table R) p f ok none : (forall l d, t_models (put t l d) = t_models d) -> catalog_keeps_plain (update_rows t p f ok none).
Proof.
  intros Ht. apply plain_models. intros d. destruct (update_rows t p f ok none d) as [r d'] eqn:E.
  apply update_rows_ok in E as [[fl ->]|(d1 & [fl ->] & _ & ->)]; [done|]. simpl. by rewrite Ht.
Qed.
Lemma plain_insert {R} (t : table R) ok x : (forall l d, t_models (put t l d) = t_models d) -> catalog_keeps_plain (insert_row t ok x).
Proof.
  intros Ht. apply plain_models. intros d. destruct (insert_row t ok x d) as [r d'] eqn:E.
  apply insert_row_ok in E as [[fl ->]|(d1 & [fl ->] & _ & -> & _)]; [done|]. simpl. by rewrite Ht.
Qed.
Lemma plain_model_insert ok m : model_config m = VObject [] -> catalog_keeps_plain (insert_row models ok m).
Proof.
  intros Hc d Hd. destruct (insert_row models ok m d) as [r d'] eqn:E.
  apply insert_row_ok in E as [[fl ->]|(d1 & [fl ->] & _ & -> & _)]; [done|]. apply Forall_app. by rewrite Forall_singleton.
Qed.
Lemma plain_model_update p f ok none : (forall m, model_config (f m) = model_config m) -> catalog_keeps_plain (update_rows models p f ok none).
Proof.
  intros Hf d Hd. destruct (update_rows models p f ok none d) as [r d'] eqn:E.
  apply update_rows_ok in E as [[fl ->]|(d1 & [fl ->] & _ & ->)]; [done|]. unfold plain_configs in *. simpl.
  rewrite Forall_fmap. eapply Forall_impl; [exact Hd|]. intros m Hm. simpl. destruct (p m); by rewrite ?Hf.
Qed.
Lemma plain_delete {R} (t : table R) p : (forall d, plain_configs d -> plain_configs (put t (filterb (fun x => negb (p x)) (rows t d)) d)) ->
  (forall f d, rows t (put_faults f d) = rows t d) -> catalog_keeps_plain (delete_rows t p).
Proof.
  intros Ht Hr d Hd. destruct (delete_rows t p d) as [r d'] eqn:E. apply delete_rows_spec in E; [|done].
  destruct r as [n|e]; [|by destruct E as [[fl ->] _]]. destruct E as (d1 & [fl ->] & ->). rewrite <- (Hr fl). by apply Ht.
Qed.
Lemma plain_fresh {T} (f : Uuid -> Z -> DB T) : (forall i n, catalog_keeps_plain (f i n)) -> catalog_keeps_plain (i ← fresh_id; n ← gets db_now; f i n).
Proof. intros Hf d Hd. unfold fresh_id. st_unfold. by apply Hf. Qed.
Lemma plain_model_delete id : catalog_keeps_plain (model_delete id).
Proof.
  apply plain_bind; [|intros _; by apply plain_models]. apply plain_delete; [|done]. intros d Hd. unfold plain_configs in *. simpl.
  rewrite Forall_forall in *. intros m [Hm _]%elem_of_filterb. by apply Hd.
Qed.
#[export] Hint Resolve plain_ret plain_lift plain_core plain_select_one plain_select_all plain_model_delete : godwit.

Lemma plain_call `{Fmt} `{Sealing} master_key c k : catalog_keeps_plain (run_catalog_call master_key c k).
Proof.
  assert (forall n key p, catalog_keeps_plain (store_key master_key n key p)) as Hk.
  { intros n [key|] p; simpl; [|auto with godwit]. by apply plain_core, plain_update. }
  destruct k; simpl; (apply plain_bind; [auto with godwit|intros _]);
    repeat first [ solve [auto with godwit]
                 | (apply plain_core; first [by apply plain_select_one | by apply plain_select_all])
                 | match goal with |- forall x, catalog_keeps_plain _ => intros ? | |- catalog_keeps_plain (core _ ≫= _) => apply plain_bind
                   | |- catalog_keeps_plain (store_key _ _ _ _ ≫= _) => apply plain_bind end].
  - apply plain_core, plain_bind; [auto with godwit|]. intros _. by apply plain_fresh; intros; apply plain_model_insert.
  - apply plain_core, plain_bind; [by apply plain_select_one|]. intros cur. by apply plain_model_update.
  - by apply plain_core, plain_fresh; intros; apply plain_insert.
  - apply plain_core, plain_bind; [by apply plain_delete|auto with godwit].
  - by apply plain_core, plain_fresh; intros; apply plain_insert.
  - apply plain_core, plain_bind; [by apply plain_select_one|]. intros cur. by apply plain_update.
Qed.

(** A catalog made by its API has models of one kind.  No call gives a model a
    configuration, so no model ever has a fallback, a balancing strategy or a token limit of
    its own; and the capabilities the table admits are not those the description looks for, so
    every model is described as without tools, vision or prompt cache. *)
Theorem catalog_models_are_plain `{Fmt} `{Sealing} master_key ks d (Hd : catalog_ok d) (Hp : plain_configs d) m :
  m ∈ t_models (run_catalog master_key ks d) ->
  router_fallback_chain m = [] /\ strategy_from_config (model_config m) = None /\
  extract_capabilities m = {| supports_tool_calling := false; supports_vision := false; supports_streaming := true;
                              supports_prompt_cache := false; caps_max_tokens := 4096 |}.
Proof.
  intros Hm. assert (catalog_ok (run_catalog master_key ks d) /\ plain_configs (run_catalog master_key ks d)) as [Ho Hc].
  { clear Hm. revert d Hd Hp. induction ks as [|[c k] ks IH]; intros d Hd Hp; simpl; [done|].
    apply IH; [by apply keeps_call|by apply plain_call]. }
  unfold plain_configs in Hc. rewrite Forall_forall in Hc. specialize (Hc m Hm). destruct (wf_model_rows _ _ _ _ Ho m Hm) as [_ Hk].
  unfold router_fallback_chain, strategy_from_config, extract_capabilities. rewrite Hc. split_and!; [done..|].
  assert (forall s, s ∉ known_capabilities -> str_in (capabilities m) s = false) as Hno.
  { intros s Hs. apply not_true_iff_false. rewrite str_in_spec. rewrite Forall_forall in Hk. intros Hin. by apply Hs, Hk. }
  rewrite !Hno by (unfold known_capabilities; set_solver). done.
Qed.

(** ** Keys of profiles *)

Definition sealed_auth `{Sealing} (master_key n key : string) : value :=
  obj [("ciphertext", VString (ciphertext (encrypt_api_key master_key n key))); ("nonce", VString (nonce (encrypt_api_key master_key n key)))].

Lemma decrypt_encrypt `{Sealing} master_key n key :
  str_len n = 12 -> from_utf8 key = Ok key -> decrypt_api_key master_key (encrypt_api_key master_key n key) = Ok key.
Proof.
  intros Hn Hk. unfold decrypt_api_key, encrypt_api_key. simpl. rewrite !decode_encode. simpl. rewrite Hn. simpl.
  rewrite open_seal by done. simpl. by rewrite Hk.
Qed.
Lemma sealed_resolves `{Sealing} master_key n key p :
  str_len n = 12 -> from_utf8 key = Ok key -> profile_auth p = sealed_auth master_key n key ->
  resolve_credentials master_key p =
    match profile_base_url p with
    | Some url => Ok {| rp_base_url := url; rp_api_key := Some key |}
    | None => Err (Provider ("provider profile '" +:+ profile_name p +:+ "' has no base_url configured"))
    end.
Proof.
  intros Hn Hk Ha. unfold resolve_credentials. destruct (profile_base_url p) as [url|]; [|done]. simpl. rewrite Ha.
  unfold sealed_auth. simpl. by rewrite (decrypt_encrypt master_key n key Hn Hk : decrypt_api_key master_key {| ciphertext := _; nonce := _ |} = _).
Qed.

(** What storing a key does: it changes the [auth] of the rows of one identifier. *)
Lemma set_auth_spec `{Sealing} master_key n key id d r d' :
  profile_set_auth id (encrypt_api_key master_key n key) d = (r, d') ->
  match r with
  | Ok p => p ∈ t_provider_profiles d' /\ profile_auth p = sealed_auth master_key n key /\
      exists q, q ∈ t_provider_profiles d /\ profile_id q = id /\ profile_name p = profile_name q /\
                profile_base_url p = profile_base_url q
  | Err _ => only_faults d d'
  end.
Proof.
  unfold profile_set_auth. intros E. apply update_rows_spec in E; [|done]. destruct r as [p|e]; [|by destruct E].
  destruct E as (d1 & [fl ->] & -> & q & l & Hq & ->). assert (q ∈ t_provider_profiles d /\ is_id (profile_id q) id = true) as [Hin Hid].
  { apply (elem_of_filterb (fun p => is_id (profile_id p) id) (rows provider_profiles d)). rewrite Hq. left. }
  simpl. split_and!; [|done|].
  - apply elem_of_changed. exists q. by rewrite Hid.
  - exists q. split_and!; try done. by apply Z.eqb_eq.
Qed.

(** The first statement of [create_profile], and the second that stores the key. *)
Lemma create_profile_steps `{Fmt} `{Sealing} master_key c name protocol url wildcard d :
  exists r f,
    (forall n key, create_profile master_key n c name protocol (Some url) (Some key) wildcard d =
      match r with
      | Ok p => match core (profile_set_auth (profile_id p) (encrypt_api_key master_key n key)) f with
                | (Ok q, d') => (Ok (profile_json q), d') | (Err e, d') => (Err e, d') end
      | Err e => (Err e, f)
      end) /\
    match r with
    | Ok p => t_provider_profiles f = (t_provider_profiles d ++ [p])%list /\ profile_id p = db_next d /\ profile_name p = name /\
              profile_base_url p = Some url /\ profile_auth p = VObject []
    | Err _ => t_provider_profiles f = t_provider_profiles d
    end.
Proof.
  unfold create_profile, store_key, profile_create, fresh_id, core, st_map_err. st_unfold.
  destruct (require_super_admin c) as [[]|e]; [|exists (Err e), d; (split; [by intros|done])].
  match goal with |- context [insert_row ?t ?ok ?x ?d0] => destruct (insert_row t ok x d0) as [r f] eqn:E end.
  apply insert_row_spec in E; [|done]. destruct r as [p|e]; simpl.
  - destruct E as (-> & d1 & [fl ->] & ->). eexists (Ok _), _. split; [intros; reflexivity|]. by split_and!.
  - destruct E as [[fl ->] _]. exists (Err (CoreError e)), (put_faults fl (put_next (db_next d + 1) d)). (split; [by intros|done]).
Qed.

(** C24: the key given for a new profile with a URL of its own is the key its backend is called
    with (a key is UTF-8 and a nonce of twelve bytes, as their types make them).  It is stored
    sealed, and resolving the profile's credentials opens exactly it; no answer holds it or
    depends on it; and when the second statement fails the profile is left behind without any
    key. *)
Theorem stored_key_is_used `{Fmt} `{Sealing} master_key n c name protocol url key wildcard d
  (Hd : catalog_ok d) (Hn : str_len n = 12) (Hk : from_utf8 key = Ok key) :
  match create_profile master_key n c name protocol (Some url) (Some key) wildcard d with
  | (Ok v, d') => exists p, p ∈ t_provider_profiles d' /\ profile_name p = name /\ v = profile_json p /\
      resolve_credentials master_key p = Ok {| rp_base_url := url; rp_api_key := Some key |}
  | (Err _, d') => t_provider_profiles d' = t_provider_profiles d \/
      exists p, t_provider_profiles d' = (t_provider_profiles d ++ [p])%list /\ profile_name p = name /\
        resolve_credentials master_key p = Ok {| rp_base_url := url; rp_api_key := None |}
  end /\
  forall n' key', (create_profile master_key n' c name protocol (Some url) (Some key') wildcard d).1 =
    (create_profile master_key n c name protocol (Some url) (Some key) wildcard d).1.
Proof.
  destruct (create_profile_steps master_key c name protocol url wildcard d) as (r & f & Hc & Hr). split.
  - rewrite Hc. destruct r as [p|e]; [|by left]. destruct Hr as (Hf & Hi & Hname & Hu & Ha). unfold core, st_map_err.
    destruct (profile_set_auth _ _ f) as [[q|e] d'] eqn:E; apply set_auth_spec in E; simpl.
    + destruct E as (Hq & Hauth & q0 & Hq0 & Hid & En & Eu).
      assert (q0 = p) as ->.
      { rewrite Hf in Hq0. apply elem_of_app in Hq0 as [Hq0|Hq0]; [|by apply list_elem_of_singleton in Hq0].
        pose proof (wf_fresh _ _ _ _ Hd) as Hfr. rewrite Forall_app, Forall_fmap, !Forall_forall in Hfr.
        destruct Hfr as [Hfr _]. specialize (Hfr q0 Hq0). simpl in Hfr. lia. }
      exists q. split_and!; [done|congruence|done|]. rewrite (sealed_resolves master_key n key) by done. by rewrite Eu, Hu.
    + destruct E as [fl ->]. right. exists p. split_and!; [done..|]. unfold resolve_credentials. by rewrite Hu, Ha.
  - intros n' key'. rewrite !Hc. destruct r as [p|e]; [|done]. unfold core, st_map_err, profile_set_auth, update_rows, get_db. st_unfold.
    destruct (stmt f) as [[u|e] f1]; [|done]. simpl.
    destruct (filterb _ (t_provider_profiles f1)) as [|x l]; [done|]. simpl.
    assert (forall (A : Type) (l : list A), forallb (fun _ => true) l = true) as Hall by (intros A l0; by induction l0).
    unfold unchecked. by rewrite !Hall.
Qed.

(** ** End users *)

Inductive EndUserCall : Type :=
| EList (organization_id : option Uuid) | EGet (user : Uuid)
| ECreate (user : Uuid) (organization_id : option Uuid) (budget max_budget : option Q)
| EUpdate (user : Uuid) (budget max_budget : option Q) | EDelete (user : Uuid).

Definition run_end_user_call `{Fmt} (c : Claims) (k : EndUserCall) : API value :=
  match k with
  | EList org => list_end_users c org
  | EGet user => get_end_user c user
  | ECreate user org b m => create_end_user c user org b m
  | EUpdate user b m => update_end_user c user b m
  | EDelete user => delete_end_user c user
  end.

(** The rows of other organizations than [org] are the same. *)
Definition elsewhere (org : Uuid) (d d' : Db) : Prop :=
  forall e, eu_organization_id e <> org -> (e ∈ t_end_users d' <-> e ∈ t_end_users d).
Definition stays {T E} (org : Uuid) (m : ST Db E T) : Prop := forall d, elsewhere org d (m d).2.

Lemma elsewhere_trans org d d1 d2 : elsewhere org d d1 -> elsewhere org d1 d2 -> elsewhere org d d2.
Proof. intros H1 H2 e He. rewrite (H2 e He). by apply H1. Qed.
Lemma elsewhere_faults org d d' : only_faults d d' -> elsewhere org d d'.
Proof. by intros [f ->] e _. Qed.
Lemma stays_bind {T U E} org (m : ST Db E T) (f : T -> ST Db E U) :
  stays org m -> (forall x, stays org (f x)) -> stays org (m ≫= f).
Proof.
  intros Hm Hf d. specialize (Hm d). st_unfold. destruct (m d) as [[x|e] d1]; [|done].
  eapply elsewhere_trans; [exact Hm|apply Hf].
Qed.
Lemma stays_same {T E} org (m : ST Db E T) : (forall d, (m d).2 = d) -> stays org m.
Proof. intros Hm d e _. by rewrite Hm. Qed.
Lemma stays_core {T} org (m : DB T) : stays org m -> stays org (core m).
Proof. intros Hm d. specialize (Hm d). unfold core, st_map_err. by destruct (m d). Qed.
Lemma stays_select_one {R} org (t : table R) p : (forall f d, rows t (put_faults f d) = rows t d) -> stays org (select_one t p).
Proof.
  intros Ht d. destruct (select_one t p d) as [r d'] eqn:E. apply select_one_spec in E as [Hf _]; [|done].
  by apply elsewhere_faults.
Qed.
Lemma stays_select_all {R} org (t : table R) p le : (forall f d, rows t (put_faults f d) = rows t d) -> stays org (select_all t p le).
Proof.
  intros Ht d. destruct (select_all t p le d) as [r d'] eqn:E. apply select_all_spec in E as [Hf _]; [|done].
  by apply elsewhere_faults.
Qed.
Lemma is_end_user_org org user e : is_end_user org user e = true -> eu_organization_id e = org.
Proof. unfold is_end_user. by intros [H%Z.eqb_eq _]%andb_prop. Qed.
Lemma stays_create org user b m : stays org (end_user_create org user b m).
Proof.
  intros d. unfold end_user_create, fresh_id. st_unfold.
  match goal with |- elsewhere _ _ (insert_row ?t ?ok ?x ?d0).2 => destruct (insert_row t ok x d0) as [r d'] eqn:E end.
  apply insert_row_ok in E as [[f ->]|(d1 & [f ->] & _ & -> & _)]; [done|]. intros e He. simpl.
  rewrite elem_of_app, list_elem_of_singleton. split; [|by left]. intros [?| ->]; done.
Qed.
Lemma stays_update org user b m : stays org (end_user_update_budgets org user b m).
Proof.
  intros d. unfold end_user_update_budgets. st_unfold.
  match goal with |- elsewhere _ _ (update_rows ?t ?p ?f ?ok ?n d).2 => destruct (update_rows t p f ok n d) as [r d'] eqn:E end.
  apply update_rows_ok in E as [[f ->]|(d1 & [f ->] & _ & ->)]; [done|]. intros e He. simpl. rewrite elem_of_changed. split.
  - intros (x & Hx & ->). destruct (is_end_user org user x) eqn:Ex; [|done]. by apply is_end_user_org in Ex.
  - intros Hx. exists e. split; [done|]. destruct (is_end_user org user e) eqn:Ex; [|done]. by apply is_end_user_org in Ex.
Qed.
Lemma stays_delete org user : stays org (end_user_delete org user).
Proof.
  apply stays_bind; [|intros; by apply stays_same]. intros d. destruct (delete_rows end_users _ d) as [r d'] eqn:E.
  apply delete_rows_spec in E; [|done]. destruct r as [n|e]; [|by destruct E as [Hf _]; apply elsewhere_faults].
  destruct E as (d1 & [f ->] & ->). intros e He. simpl. rewrite elem_of_filterb. split; [by intros [? _]|]. intros Hin.
  split; [done|]. apply negb_true_iff, not_true_iff_false. intros Ex. by apply is_end_user_org in Ex.
Qed.

Lemma stays_own org c user : stays org (own_end_user c user).
Proof.
  apply stays_bind; [by apply stays_same|]. intros role. apply stays_bind; [apply stays_core; by apply stays_select_one|].
  intros e. apply stays_bind; [|intros; by apply stays_same]. apply stays_same. intros d. by destruct (_ && _).
Qed.

(** Budgets of end users are administered inside the caller's organization.  Whatever a
    call, the rows of other organizations stay as they are; only a super admin can add one
    there, which afterwards it can neither read, change nor remove, since these calls look in
    the caller's own organization.  Who may not manage users changes nothing. *)
Theorem end_users_stay_in_organization `{Fmt} c k d :
  (forall e, eu_organization_id e <> c_organization_id c -> e ∈ t_end_users d -> e ∈ t_end_users (run_end_user_call c k d).2) /\
  (forall e, eu_organization_id e <> c_organization_id c -> e ∈ t_end_users (run_end_user_call c k d).2 ->
     e ∈ t_end_users d \/ role_from_str (c_role c) = Some SuperAdmin /\
       exists user b m, k = ECreate user (Some (eu_organization_id e)) b m) /\
  (require_manage_users c = Err Forbidden -> run_end_user_call c k d = (Err Forbidden, d)).
Proof.
  assert (forall x, require_manage_users c = Err x -> x = Forbidden) as Hx.
  { intros x. unfold require_manage_users. destruct (role_from_str (c_role c)) as [role|]; simpl; [|by intros [= <-]].
    destruct (can_manage_users role); simpl; [done|by intros [= <-]]. }
  assert (require_manage_users c = Err Forbidden -> run_end_user_call c k d = (Err Forbidden, d)) as Hr.
  { intros E. destruct k; simpl; unfold list_end_users, get_end_user, create_end_user, update_end_user, delete_end_user, own_end_user;
      st_unfold; by rewrite E. }
  assert (elsewhere (c_organization_id c) d (run_end_user_call c k d).2 \/
          exists user o b m, k = ECreate user (Some o) b m /\ role_from_str (c_role c) = Some SuperAdmin /\
            run_end_user_call c k d = (e ← core (end_user_create o user b m); mret (data (end_user_to_value e))) d) as Hs.
  { destruct k as [o|user|user o b m|user b m|user]; simpl.
    - left. apply stays_bind; [by apply stays_same|]. intros role. apply stays_bind; [|intros; by apply stays_same].
      apply stays_core. by apply stays_select_all.
    - left. apply stays_bind; [by apply stays_same|]. intros role. apply stays_bind; [|intros; by apply stays_same].
      apply stays_core. by apply stays_select_one.
    - unfold create_end_user. st_unfold. destruct (require_manage_users c) as [role|x] eqn:Em; [|by left].
      assert (role_from_str (c_role c) = Some role) as Er.
      { unfold require_manage_users in Em. destruct (role_from_str (c_role c)) as [r0|]; [|done]. simpl in Em.
        destruct (can_manage_users r0); by simplify_eq/=. }
      destruct (is_role role SuperAdmin) eqn:Es.
      + destruct o as [o|]; [|by left]. right. exists user, o, b, m. apply bool_decide_eq_true in Es as ->. done.
      + left. simpl. pose proof (stays_core _ _ (stays_create (c_organization_id c) user b m) d) as Hc.
        by destruct (core _ d) as [[e|e] d1].
    - left. apply stays_bind; [apply stays_own|]. intros _. apply stays_bind; [|intros; by apply stays_same].
      apply stays_core, stays_update.
    - left. apply stays_bind; [apply stays_own|]. intros _. apply stays_bind; [|intros; by apply stays_same].
      apply stays_core, stays_delete. }
  destruct Hs as [Hs|(user & o & b & m & -> & Es & E)].
  - split_and!; [|by intros e He Hin; left; apply (Hs e He)|done]. intros e He Hin. by apply (Hs e He).
  - split_and!; [| |done]; rewrite E; st_unfold; unfold core, st_map_err;
      (destruct (end_user_create o user b m d) as [r d'] eqn:Ec; unfold end_user_create, fresh_id, mbind, st_bind, gets in Ec;
       apply insert_row_ok in Ec as [[f ->]|(d1 & [f ->] & _ & -> & ->)]; simpl); try (by destruct r).
    + intros e He Hin. apply elem_of_app. by left.
    + destruct r; simpl; by left.
    + intros e He [Hin| ->%list_elem_of_singleton]%elem_of_app; [by left|]. right. split; [done|]. by exists user, b, m.
Qed.

(** A change of an end user's budgets replaces both.  A request that gives the soft budget
    alone takes the cap away, and from then on the user is let through whatever was spent. *)
Theorem patch_without_cap_lifts_it `{Fmt} c user budget d v d' :
  update_end_user c user budget None d = (Ok v, d') -> db_faults d' = [] ->
  (check_end_user_budget user (c_organization_id c) d').1 = Ok tt.
Proof.
  unfold update_end_user. intros E Hf. apply st_bind_ok in E as (e0 & s0 & _ & E). apply st_bind_ok in E as (e1 & s1 & Hm0 & E).
  unfold mret, st_ret in E. simplify_eq. apply core_inv in Hm0 as (r0 & Hm0 & Er). destruct r0 as [e2|]; simplify_eq/=.
  unfold end_user_update_budgets in Hm0. apply st_bind_ok in Hm0 as (n & s2 & Hg & Hm0). unfold gets in Hg. simplify_eq.
  apply update_rows_spec in Hm0; [|done].
  destruct Hm0 as (d1 & [f ->] & -> & _). simpl in Hf.
  unfold check_end_user_budget, api. st_unfold. unfold stmt. simpl. rewrite Hf. simpl.
  destruct (filterb (is_end_user (c_organization_id c) user) _) as [|x l] eqn:Ex; [done|].
  match type of Ex with ?l = _ => assert (x ∈ l) as Hx by (rewrite Ex; left) end.
  apply elem_of_filterb in Hx as [(y & Hy & ->)%elem_of_changed Hp].
  destruct (is_end_user (c_organization_id c) user y) eqn:Ey; [done|]. by rewrite Ey in Hp.
Qed.

(** ** The token counter and the shown prices *)

Lemma wrapping_sum l : forall n, foldl (fun total k => as_u32 (total + k)) (as_u32 n) l = as_u32 (n + sumZ l).
Proof.
  induction l as [|k l IH]; intros n; simpl; [by rewrite Z.add_0_r|].
  replace (as_u32 (as_u32 n + k)) with (as_u32 (n + k)) by (unfold wrap_u; by rewrite Zplus_mod_idemp_l).
  rewrite IH. f_equal. lia.
Qed.

(** The texts of a message that count by a quarter of their length, and its images. *)
Definition counted_texts (m : ChatMessage) : list string :=
  concat ((fun c => match c with
                    | CText t => [t]
                    | CParts ps => concat ((fun p => match p with PartText t => [t] | PartImageUrl _ => [] end) <$> ps)
                    end) <$> default [] (msg_content m))
  ++ option_list (msg_name m)
  ++ concat ((fun t => [tc_id t; tc_name t; tc_arguments t]) <$> default [] (msg_tool_calls m))
  ++ option_list (msg_tool_call_id m).
Definition images_of (m : ChatMessage) : Z :=
  sumZ ((fun c => match c with
                  | CText _ => 0
                  | CParts ps => sumZ ((fun p => match p with PartText _ => 0 | PartImageUrl _ => 1 end) <$> ps)
                  end) <$> default [] (msg_content m)).
(** What a message weighs, from the lengths of its texts, which are read modulo 2^32. *)
Definition weight_of (m : ChatMessage) : Z :=
  let len s := as_u32 (str_len s) in
  4 + len (msg_role m) + sumZ ((fun t => len t / 4) <$> counted_texts m) + 100 * images_of m.

Lemma message_weight m : sumZ (message_tokens m) = weight_of m.
Proof.
  unfold message_tokens, weight_of, counted_texts, images_of. rewrite !fmap_app, !sumZ_app.
  assert (sumZ (if is_empty (msg_role m) then [] else [as_u32 (str_len (msg_role m))]) = as_u32 (str_len (msg_role m))) as ->.
  { destruct (msg_role m); [done|]. simpl is_empty. cbn [sumZ foldr]. lia. }
  assert (sumZ (match msg_content m with Some cs => concat (content_tokens <$> cs) | None => [] end) =
          sumZ ((fun t => as_u32 (str_len t) / 4) <$> concat ((fun c => match c with
                    | CText t => [t]
                    | CParts ps => concat ((fun p => match p with PartText t => [t] | PartImageUrl _ => [] end) <$> ps)
                    end) <$> default [] (msg_content m)))
          + 100 * sumZ ((fun c => match c with
                  | CText _ => 0
                  | CParts ps => sumZ ((fun p => match p with PartText _ => 0 | PartImageUrl _ => 1 end) <$> ps)
                  end) <$> default [] (msg_content m))) as ->.
  { destruct (msg_content m) as [cs|]; [|done]. cbn [default id]. induction cs as [|c cs IH]; [done|].
    rewrite !fmap_cons, !concat_cons, fmap_app, !sumZ_app, IH. destruct c as [t|ps].
    - cbn [content_tokens fmap list_fmap sumZ foldr]. unfold sumZ. simpl. lia.
    - assert (forall ps, sumZ (content_tokens (CParts ps)) =
        sumZ ((fun t => as_u32 (str_len t) / 4) <$> concat ((fun p => match p with PartText t => [t] | PartImageUrl _ => [] end) <$> ps))
        + 100 * sumZ ((fun p => match p with PartText _ => 0 | PartImageUrl _ => 1 end) <$> ps)) as Hp.
      { clear. induction ps as [|[t|u] ps IH]; [done| |];
          unfold content_tokens in *; csimpl in *; unfold sumZ in *; csimpl in *; rewrite IH; lia. }
      rewrite Hp. unfold sumZ. simpl. lia. }
  assert (sumZ (match msg_name m with Some n => [as_u32 (str_len n) / 4] | None => [] end) =
          sumZ ((fun t => as_u32 (str_len t) / 4) <$> option_list (msg_name m))) as -> by (by destruct (msg_name m)).
  assert (sumZ (match msg_tool_call_id m with Some n => [as_u32 (str_len n) / 4] | None => [] end) =
          sumZ ((fun t => as_u32 (str_len t) / 4) <$> option_list (msg_tool_call_id m))) as -> by (by destruct (msg_tool_call_id m)).
  assert (sumZ (match msg_tool_calls m with
                | Some calls => concat ((fun t => [as_u32 (str_len (tc_id t)) / 4; as_u32 (str_len (tc_name t)) / 4;
                                                   as_u32 (str_len (tc_arguments t)) / 4]) <$> calls)
                | None => [] end) =
          sumZ ((fun t => as_u32 (str_len t) / 4) <$> concat ((fun t => [tc_id t; tc_name t; tc_arguments t]) <$> default [] (msg_tool_calls m)))) as ->.
  { destruct (msg_tool_calls m) as [cs|]; [|done]. cbn [default id]. induction cs as [|c cs IH]; [done|].
    rewrite !fmap_cons, !concat_cons, fmap_app, !sumZ_app, IH. done. }
  change (sumZ [4]) with 4. lia.
Qed.

Lemma sumZ_concat (ls : list (list Z)) : sumZ (concat ls) = sumZ (sumZ <$> ls).
Proof. induction ls as [|l ls IH]; [done|]. rewrite concat_cons, sumZ_app, IH. done. Qed.

Definition plain_message (role text : string) : ChatMessage :=
  {| msg_role := role; msg_content := Some [CText text]; msg_name := None; msg_tool_calls := None; msg_tool_call_id := None;
     msg_cache_control := None |}.

(** C40: the token counter, in closed form.  Two, and for each message four, the length of its
    role, a quarter (rounded down, text by text) of its other texts (content, name, ids, names
    and arguments of tool calls) and a hundred for each image, all modulo 2^32; lengths are in
    bytes.  So it is exact for whatever weighs less than 2^32, and never counts a message for
    less than four.  The example of the documentation, said to count 8, counts 11. *)
Theorem count_tokens_exact messages :
  count_tokens messages = as_u32 (2 + sumZ (weight_of <$> messages)) /\
  Forall (fun m => 4 <= weight_of m) messages /\
  (2 + sumZ (weight_of <$> messages) < 2 ^ 32 -> count_tokens messages = 2 + sumZ (weight_of <$> messages)) /\
  count_tokens [plain_message "user" "Hello"] = 11.
Proof.
  assert (forall s, 0 <= as_u32 (str_len s) / 4 /\ 0 <= as_u32 (str_len s)) as Hq.
  { intros s. pose proof (wrap_u_range 32 (str_len s)) as Hw. unfold in_u in Hw. split; [apply Z.div_pos|]; lia. }
  assert (forall m, 4 <= weight_of m) as Hm.
  { intros m. unfold weight_of. pose proof (Hq (msg_role m)).
    assert (0 <= sumZ ((fun t => as_u32 (str_len t) / 4) <$> counted_texts m)).
    { apply sumZ_nonneg, Forall_fmap, Forall_true. intros t. apply Hq. }
    assert (0 <= images_of m); [|lia]. unfold images_of. apply sumZ_nonneg, Forall_fmap, Forall_true. intros [t|ps]; simpl; [lia|].
    apply sumZ_nonneg, Forall_fmap, Forall_true. intros [t|u]; simpl; lia. }
  assert (count_tokens messages = as_u32 (2 + sumZ (weight_of <$> messages))) as E.
  { unfold count_tokens. change 0 with (as_u32 0) at 1. rewrite wrapping_sum, sumZ_concat, <- list_fmap_compose.
    unfold wrap_u. rewrite Zplus_mod_idemp_l. f_equal. rewrite (list_fmap_ext _ weight_of); [lia|]. intros. apply message_weight. }
  split_and!; [done|by apply Forall_true| |by vm_compute]. intros Hs. rewrite E. apply wrap_u_small. unfold in_u.
  assert (0 <= sumZ (weight_of <$> messages)); [|lia]. apply sumZ_nonneg, Forall_fmap, Forall_true. intros m. specialize (Hm m). simpl. lia.
Qed.

(** A price kept as a text is used for billing, and shown as free. *)
Theorem text_prices_are_shown_as_free p (Hi : exists s, get "input_price_per_million" p = Some (VString s))
  (Ho : exists s, get "output_price_per_million" p = Some (VString s)) :
  input_cost_per_1k (extract_pricing p) = 0%Q /\ output_cost_per_1k (extract_pricing p) = 0%Q.
Proof. destruct Hi as [s Hs], Ho as [t Ht]. unfold extract_pricing, price_per_1k. simpl. by rewrite Hs, Ht. Qed.

(** ** Witnesses *)

Definition toy_sealing : @Sealing toy_crypto.
Proof. refine {| b64_encode s := s; aes_seal _ _ p := p |}; done. Defined.
#[local] Existing Instances toy_crypto toy_sealing plain_fmt.
Definition empty_catalog : Db := router_db [] [].
Definition super : Claims := claims_of root_user.
Definition some_prices : value := obj [("input_price_per_million", num 1); ("output_price_per_million", num 2)].

Lemma empty_catalog_ok : catalog_ok empty_catalog.
Proof. split; simpl; first [apply NoDup_nil_2 | by apply Forall_nil_2 | intros ? Hx; by apply elem_of_nil in Hx]. Defined.

Definition build_up : list (Claims * CatalogCall) :=
  [ (super, CCreateProfile "twelve bytes" "up" "openai" (Some "https://up") (Some "secret") false);
    (super, CCreateModel "m" "openai" 100 "m-1" "chat, embedding" some_prices);
    (super, CCreateModel "m" "openai" 100 "m-2" "chat" some_prices);
    (super, CCreateAlias "a" 101); (super, CDeleteModel 101) ].

(** A second model of the same reference is refused, and the alias goes with its model. *)
Lemma catalog_stays_well_formed_witness :
  catalog_ok (run_catalog "k" build_up empty_catalog) /\
  length (t_models (run_catalog "k" (take 4 build_up) empty_catalog)) = 1%nat /\
  length (t_model_aliases (run_catalog "k" (take 4 build_up) empty_catalog)) = 1%nat /\
  t_model_aliases (run_catalog "k" build_up empty_catalog) = [].
Proof.
  split; [exact (proj1 (catalog_stays_well_formed "k" build_up empty_catalog empty_catalog_ok))|].
  vm_compute. repeat split.
Defined.

Lemma stored_key_is_used_witness :
  exists p d', create_profile "k" "twelve bytes" super "up" "openai" (Some "https://up") (Some "secret") false empty_catalog =
    (Ok (profile_json p), d') /\
  resolve_credentials "k" p = Ok {| rp_base_url := "https://up"; rp_api_key := Some "secret" |}.
Proof.
  pose proof (stored_key_is_used "k" "twelve bytes" super "up" "openai" "https://up" "secret" false empty_catalog
    empty_catalog_ok eq_refl eq_refl) as [H _].
  assert (is_ok (create_profile "k" "twelve bytes" super "up" "openai" (Some "https://up") (Some "secret") false empty_catalog).1 = true)
    as Hb by (vm_compute; reflexivity).
  destruct (create_profile "k" "twelve bytes" super "up" "openai" (Some "https://up") (Some "secret") false empty_catalog) as [[v|e] d'];
    [|discriminate Hb].
  destruct H as (p & _ & _ & -> & Hr). exists p, d'. split; [reflexivity|exact Hr].
Defined.

Lemma catalog_models_are_plain_witness :
  forall m, m ∈ t_models (run_catalog "k" (take 4 build_up) empty_catalog) -> router_fallback_chain m = [].
Proof.
  intros m Hm.
  exact (proj1 (catalog_models_are_plain "k" (take 4 build_up) empty_catalog empty_catalog_ok (Forall_nil_2 _) m Hm)).
Defined.
