(* ===== verification/Spend.v ===== *)
(** * Spend and statistics

    The reports of the admin API over the request log and the tables:
    [godwit-api/src/admin/spend.rs], [spend_tags.rs], [spend_logs.rs] and [stats.rs].  What a
    [GROUP BY] returns without an [ORDER BY] comes here in the order the groups first appear;
    the theorems do not depend on it.

    No statement of the program writes the token columns of the log, so in the rows it inserts
    they are null; the reports sum what is there. *)

From stdpp Require Import base strings list gmap sorting.
From Stdlib Require Import QArith Ascii.
From S2P Require Import Prelude RustStr Json Core Db Auth Admin Catalog.

#[local] Open Scope string_scope.
#[local] Open Scope Z_scope.

Section Reports.
(** The date of a time, and a time some days before another: [None] is a panic of chrono. *)
Context (date_of : Z -> Z) (days_before : Z -> Z -> option Z).
Abbreviation REPORT := (ST Db (failure ApiError)).
Definition statement : REPORT Db := st_map_err Failed (core (stmt;; get_db)).

(** ** Queries *)

(** [godwit-api/src/admin/spend.rs:20-32] [SpendQuery] *)
Record SpendQuery : Type := {
  sq_from : option Z; sq_to : option Z; sq_days : option Z; sq_organization_id : option Uuid; sq_team_id : option Uuid;
  sq_user_id : option Uuid }.

(** [godwit-api/src/admin/spend.rs:34-48] [scope_spend_query] *)
Definition scope_spend_query (c : Claims) (q : SpendQuery) : option Uuid * option Uuid * option Uuid :=
  match role_from_str (c_role c) with
  | Some SuperAdmin => (sq_organization_id q, sq_team_id q, sq_user_id q)
  | Some OrgAdmin => (Some (c_organization_id c), sq_team_id q, sq_user_id q)
  | _ => (Some (c_organization_id c), None, Some (c_user_id c))
  end.

(** An optional filter on an optional column. *)
Definition in_opt (want : option Uuid) (have : option Uuid) : bool :=
  match want with None => true | Some x => is_opt_id have x end.
(** [godwit-api/src/admin/spend.rs:81-85] [fetch_spend_rows] *)
Definition visible_log (from to org team user : option Z) (l : RequestLog) : bool :=
  in_window from to l && in_org org l && in_opt team (log_team_id l) && in_opt user (log_user_id l).

(** [COALESCE(SUM(cost_usd), 0)] of some rows. *)
Definition cost_of (l : RequestLog) : Q := default 0%Q (log_cost_usd l).
Definition total_cost (ls : list RequestLog) : Q := foldr (fun l q => (cost_of l + q)%Q) 0%Q ls.
(** [COALESCE(SUM(column), 0)] of a column of numbers. *)
Definition total_of (column : RequestLog -> option Z) (ls : list RequestLog) : Z := sumZ ((fun l => default 0 (column l)) <$> ls).
(** [GROUP BY]. *)
Definition groups {K} `{EqDecision K} (key : RequestLog -> K) (ls : list RequestLog) : list (K * list RequestLog) :=
  (fun k => (k, filterb (fun l => bool_decide (key l = k)) ls)) <$> remove_dups (key <$> ls).

(** [godwit-api/src/admin/spend.rs:50-59] [SpendRow] *)
Record SpendRow : Type := {
  sr_organization_id : Uuid; sr_team_id : option Uuid; sr_user_id : option Uuid; sr_total_cost_usd : Q; sr_request_count : Z;
  sr_tokens_in : Z; sr_tokens_out : Z }.
Definition spend_key (l : RequestLog) : Uuid * option Uuid * option Uuid := (log_organization_id l, log_team_id l, log_user_id l).
Definition spend_row (g : Uuid * option Uuid * option Uuid * list RequestLog) : SpendRow :=
  let '(o, t, u, ls) := g in
  {| sr_organization_id := o; sr_team_id := t; sr_user_id := u; sr_total_cost_usd := total_cost ls;
     sr_request_count := Z.of_nat (length ls); sr_tokens_in := total_of log_tokens_in ls;
     sr_tokens_out := total_of log_tokens_out ls |}.
(** [godwit-api/src/admin/spend.rs:61-95] [fetch_spend_rows] *)
Definition fetch_spend_rows (from to org team user : option Z) : REPORT (list SpendRow) :=
  d ← statement;
  mret (spend_row <$> groups spend_key (filterb (visible_log from to org team user) (t_request_logs d))).

(** [godwit-api/src/admin/spend.rs:124-128] [DailySpendRow] *)
Record DailySpendRow : Type := { dr_date : Z; dr_cost : Q }.
(** [godwit-api/src/admin/spend.rs:130-159] [fetch_daily_spend_rows] *)
Definition fetch_daily_spend_rows (from to org team user : option Z) : REPORT (list DailySpendRow) :=
  d ← statement;
  mret (order_by (fun a b => dr_date a <=? dr_date b)
          ((fun '(k, ls) => {| dr_date := k; dr_cost := total_cost ls |})
           <$> groups (fun l => date_of (log_created_at l)) (filterb (visible_log from to org team user) (t_request_logs d)))).

(** The answer's rows; a caller of no known role is refused.
    [godwit-api/src/admin/spend.rs:97-122] [get_spend] *)
Definition get_spend (c : Claims) (q : SpendQuery) : REPORT (list DailySpendRow + list SpendRow) :=
  lift (map_err Failed (ok_or Forbidden (role_from_str (c_role c))));;
  from ← (match sq_from q, sq_days q with
          | Some f, _ => mret (Some f)
          | None, Some n => now ← gets db_now; f ← lift (ok_or Panic (days_before now n)); mret (Some f)
          | None, None => mret None
          end);
  let '(org, team, user) := scope_spend_query c q in
  match sq_days q with
  | Some _ => rows ← fetch_daily_spend_rows from (sq_to q) org team user; mret (inl rows)
  | None => rows ← fetch_spend_rows from (sq_to q) org team user; mret (inr rows)
  end.

(** ** Tags *)

(** [godwit-api/src/admin/spend_tags.rs:19-25] [SpendTagsQuery] *)
Record SpendTagsQuery : Type := { tq_from : option Z; tq_to : option Z; tq_organization_id : option Uuid; tq_tag : option string }.
(** [godwit-api/src/admin/spend_tags.rs:52-64] [scope_spend_tags_query] *)
Definition scope_spend_tags_query (c : Claims) (q : SpendTagsQuery) : option Uuid * option Uuid :=
  match role_from_str (c_role c) with
  | Some SuperAdmin => (tq_organization_id q, None)
  | Some OrgAdmin => (Some (c_organization_id c), None)
  | _ => (Some (c_organization_id c), Some (c_user_id c))
  end.

(** Rows of a key and its spend, the largest first. *)
Definition by_spend {K} (rows : list (K * Q)) : list (K * Q) := order_by (fun a b => Qle_bool b.2 a.2) rows.
(** [godwit-api/src/admin/spend_tags.rs:66-89] [fetch_team_spend] *)
Definition fetch_team_spend (from to org user : option Z) : REPORT (list (option Uuid * Q)) :=
  d ← statement;
  mret (by_spend ((fun '(k, ls) => (k, total_cost ls))
                  <$> groups log_team_id (filterb (visible_log from to org None user) (t_request_logs d)))).
(** [godwit-api/src/admin/spend_tags.rs:91-114] [fetch_api_key_spend] *)
Definition fetch_api_key_spend (from to org user : option Z) : REPORT (list (option Uuid * Q)) :=
  d ← statement;
  mret (by_spend ((fun '(k, ls) => (k, total_cost ls))
                  <$> groups log_api_key_id (filterb (visible_log from to org None user) (t_request_logs d)))).

(** [UNNEST(tags)] makes a row of every tag of a row; the rows of one tag are summed.
    [godwit-api/src/admin/spend_tags.rs:124-144] [fetch_custom_tag_spend] *)
Definition unnested (ls : list RequestLog) : list (string * RequestLog) := concat ((fun l => (fun t => (t, l)) <$> log_tags l) <$> ls).
Definition tag_rows (ls : list RequestLog) : list (string * Q) :=
  by_spend ((fun t => (t, total_cost (filterb (fun x => String.eqb x.1 t) (unnested ls)).*2)) <$> remove_dups (unnested ls).*1).
Definition has_tag (tag : option string) (l : RequestLog) : bool :=
  match tag with Some t => str_in (log_tags l) t | None => negb (Nat.eqb (length (log_tags l)) 0) end.
(** [godwit-api/src/admin/spend_tags.rs:116-164] [fetch_custom_tag_spend] *)
Definition fetch_custom_tag_spend (tag : option string) (from to org user : option Z) : REPORT (list (string * Q)) :=
  d ← statement;
  mret (tag_rows (filterb (fun l => has_tag tag l && visible_log from to org None user l) (t_request_logs d))).

(** The same query in the repository; without a tag it has four parameters and is given five,
    which the server refuses.
    [godwit-db/src/repositories/request_logs.rs:82-121] [RequestLogsRepository::aggregate_spend_by_tag] *)
Definition aggregate_spend_by_tag (tag : option string) (from to org user : option Z) : DB (list (string * Q)) :=
  stmt;; d ← get_db;
  match tag with
  | Some _ => mret (tag_rows (filterb (fun l => has_tag tag l && visible_log from to org None user l) (t_request_logs d)))
  | None => throw (Database "bind message supplies 5 parameters, but prepared statement requires 4")
  end.

(** [godwit-api/src/admin/spend_tags.rs:27-50] [SpendTagsResponse] *)
Record SpendTagsResponse : Type := {
  by_team : list (option Uuid * Q); by_api_key : list (option Uuid * Q); by_custom_tag : list (string * Q) }.
(** [godwit-api/src/admin/spend_tags.rs:166-195] [get_spend_tags] *)
Definition get_spend_tags (c : Claims) (q : SpendTagsQuery) : REPORT SpendTagsResponse :=
  lift (map_err Failed (ok_or Forbidden (role_from_str (c_role c))));;
  let '(org, user) := scope_spend_tags_query c q in
  t ← fetch_team_spend (tq_from q) (tq_to q) org user;
  k ← fetch_api_key_spend (tq_from q) (tq_to q) org user;
  g ← fetch_custom_tag_spend (tq_tag q) (tq_from q) (tq_to q) org user;
  mret {| by_team := t; by_api_key := k; by_custom_tag := g |}.

(** ** The log *)

(** [godwit-api/src/admin/spend_logs.rs:20-28] [SpendLogsQuery] *)
Record SpendLogsQuery : Type := {
  lq_api_key_id : option Uuid; lq_model : option string; lq_from : option Z; lq_to : option Z; lq_limit : option Z;
  lq_offset : option Z }.
(** [LIMIT] and [OFFSET]; the server refuses negative ones. *)
Definition page {T} (limit offset : Z) (l : list T) : list T := take (Z.to_nat limit) (drop (Z.to_nat offset) l).
(** [godwit-api/src/admin/spend_logs.rs:46-73] [fetch_spend_logs] *)
Definition fetch_spend_logs (key : option Uuid) (model : option string) (from to : option Z) (limit offset : Z)
  : REPORT (list RequestLog) :=
  d ← statement;
  fail_if (limit <? 0) (Failed (CoreError (Database "LIMIT must not be negative")));;
  fail_if (offset <? 0) (Failed (CoreError (Database "OFFSET must not be negative")));;
  mret (page limit offset
          (order_by (fun a b => log_created_at b <=? log_created_at a)
             (filterb (fun l => in_opt key (log_api_key_id l)
                                && match model with Some m => String.eqb (log_model l) m | None => true end
                                && in_window from to l) (t_request_logs d)))).
(** The entries with the limit and the offset used.
    [godwit-api/src/admin/spend_logs.rs:75-108] [get_spend_logs] *)
Definition get_spend_logs (c : Claims) (q : SpendLogsQuery) : REPORT (list RequestLog * Z * Z) :=
  role ← lift (map_err Failed (ok_or Forbidden (role_from_str (c_role c))));
  let key := if is_role role SuperAdmin then lq_api_key_id q else None in
  let limit := Z.min (default 50 (lq_limit q)) 100 in
  let offset := default 0 (lq_offset q) in
  logs ← fetch_spend_logs key (lq_model q) (lq_from q) (lq_to q) limit offset;
  mret (logs, limit, offset).

(** ** Statistics *)

(** [godwit-api/src/admin/stats.rs:20-28] [require_dashboard_access] *)
Definition require_dashboard_access (c : Claims) : result ApiError Role :=
  role ← ok_or Forbidden (role_from_str (c_role c));
  if negb (is_role role SuperAdmin) && negb (is_role role OrgAdmin) then Err Forbidden else Ok role.
(** [godwit-api/src/admin/stats.rs:40-45] [get_stats] *)
Definition org_scope (role : Role) (c : Claims) (organization_id : option Uuid) : option Uuid :=
  if is_role role SuperAdmin then organization_id else Some (c_organization_id c).

(** [godwit-api/src/admin/stats.rs:35-81] [get_stats] *)
Definition get_stats (c : Claims) (organization_id : option Uuid) : API value :=
  role ← lift (require_dashboard_access c);
  ns ← (match org_scope role c organization_id with
        | None => orgs ← core org_list; teams ← core team_list_all; users ← core user_list_all; keys ← core key_list_all;
                  mret (length orgs, length teams, length users, length keys)
        | Some org => teams ← core (team_list_for_organization org); users ← core (user_list_for_organization org);
                      keys ← core (key_list_for_organization org);
                      mret (1%nat, length teams, length users, length keys)
        end);
  let '(organizations, teams, users, keys) := ns in
  mret (obj [("organizations", num (Z.of_nat organizations)); ("teams", num (Z.of_nat teams));
             ("users", num (Z.of_nat users)); ("apiKeys", num (Z.of_nat keys))]).

(** [godwit-api/src/admin/stats.rs:89-96] [ActivityItem] *)
Record ActivityItem : Type := { ai_id : Uuid; ai_kind : string; ai_name : string; ai_created_at : Z }.
(** [godwit-api/src/admin/stats.rs:116-196] [get_recent_activity] *)
Definition org_item (o : Organization) : ActivityItem :=
  {| ai_id := org_id o; ai_kind := "organization"; ai_name := org_name o; ai_created_at := org_created_at o |}.
Definition team_item (t : Team) : ActivityItem :=
  {| ai_id := team_id t; ai_kind := "team"; ai_name := team_name t; ai_created_at := team_created_at t |}.
Definition user_item (u : User) : ActivityItem :=
  {| ai_id := user_id u; ai_kind := "user"; ai_name := user_email u; ai_created_at := user_created_at u |}.
Definition key_item (k : ApiKey) : ActivityItem :=
  {| ai_id := key_id k; ai_kind := "api_key"; ai_name := key_name k; ai_created_at := key_created_at k |}.
(** An organization that cannot be read is left out.
    [godwit-api/src/admin/stats.rs:113-197] [get_recent_activity] *)
Definition activity_items (scope : option Uuid) : API (list ActivityItem) :=
  match scope with
  | None =>
    orgs ← core org_list; teams ← core team_list_all; users ← core user_list_all; keys ← core key_list_all;
    mret ((org_item <$> orgs) ++ (team_item <$> teams) ++ (user_item <$> users) ++ (key_item <$> keys))%list
  | Some org =>
    o ← catch (core (org_get_by_id org)) (fun r => mret (match r with Ok o => [org_item o] | Err _ => [] end));
    teams ← core (team_list_for_organization org); users ← core (user_list_for_organization org);
    keys ← core (key_list_for_organization org);
    mret (o ++ (team_item <$> teams) ++ (user_item <$> users) ++ (key_item <$> keys))%list
  end.
Definition newest_first (a b : ActivityItem) : bool := ai_created_at b <=? ai_created_at a.
(** [godwit-api/src/admin/stats.rs:98-203] [get_recent_activity] *)
Definition get_recent_activity (c : Claims) (limit : option Z) (organization_id : option Uuid) : API (list ActivityItem) :=
  role ← lift (require_dashboard_access c);
  let limit := Z.to_nat (Z.min (Z.max (default 5 limit) 1) 50) in
  items ← activity_items (org_scope role c organization_id);
  mret (take limit (order_by newest_first items)).
End Reports.

(** ** Sums over groups *)

Definition sumQ {T} (f : T -> Q) (l : list T) : Q := foldr (fun x q => (f x + q)%Q) 0%Q l.

#[local] Open Scope Q_scope.

Lemma sumQ_ext {T} (f g : T -> Q) l : (forall x, x ∈ l -> f x == g x) -> sumQ f l == sumQ g l.
Proof.
  induction l as [|x l IH]; intros H; simpl; [done|]. rewrite (H x) by left. rewrite IH; [done|]. intros y Hy. apply H. by right.
Qed.
Lemma sumQ_app {T} (f : T -> Q) l1 l2 : sumQ f (l1 ++ l2)%list == sumQ f l1 + sumQ f l2.
Proof. induction l1 as [|x l1 IH]; simpl; [ring|]. rewrite IH. ring. Qed.
Lemma sumQ_fmap {T U} (g : T -> U) (f : U -> Q) l : sumQ f (g <$> l) = sumQ (fun x => f (g x)) l.
Proof. induction l as [|x l IH]; csimpl; [done|]. by rewrite IH. Qed.
Lemma sumQ_add {T} (f g : T -> Q) l : sumQ (fun x => f x + g x) l == sumQ f l + sumQ g l.
Proof. induction l as [|x l IH]; simpl; [ring|]. rewrite IH. ring. Qed.
Lemma sumQ_zero {T} (l : list T) : sumQ (fun _ => 0) l == 0.
Proof. induction l as [|x l IH]; simpl; [done|]. rewrite IH. ring. Qed.
(** One key of a list without repetitions. *)
Lemma sumQ_pick {K} `{EqDecision K} (ks : list K) k c :
  NoDup ks -> k ∈ ks -> sumQ (fun k' => if bool_decide (k = k') then c else 0) ks == c.
Proof.
  induction ks as [|k1 ks IH]; intros Hn Hk; [by apply elem_of_nil in Hk|]. apply NoDup_cons in Hn as [Hn1 Hn]. simpl.
  case_bool_decide as E.
  - subst. rewrite (sumQ_ext _ (fun _ => 0)), sumQ_zero; [ring|]. intros x Hx. case_bool_decide; [by subst|done].
  - apply elem_of_cons in Hk as [->|Hk]; [done|]. rewrite IH by done. ring.
Qed.
Lemma total_cost_filter p l ls : total_cost (filterb p (l :: ls)) == (if p l then cost_of l else 0) + total_cost (filterb p ls).
Proof. simpl. destruct (p l); simpl; ring. Qed.

(** The sums of the groups of a partition of the rows add up to the sum of the rows. *)
Lemma sumQ_partition {K} `{EqDecision K} (key : RequestLog -> K) ks ls :
  NoDup ks -> (forall l, l ∈ ls -> key l ∈ ks) ->
  sumQ (fun k => total_cost (filterb (fun l => bool_decide (key l = k)) ls)) ks == total_cost ls.
Proof.
  intros Hn. induction ls as [|l ls IH]; intros Hk.
  - by rewrite (sumQ_ext _ (fun _ => 0)), sumQ_zero.
  - rewrite (sumQ_ext _ (fun k => (if bool_decide (key l = k) then cost_of l else 0)
                                  + total_cost (filterb (fun l => bool_decide (key l = k)) ls)))
      by (intros; apply total_cost_filter).
    rewrite sumQ_add, sumQ_pick, IH; [done| |done|]; intros; apply Hk; [by right|by left].
Qed.
Lemma groups_total {K} `{EqDecision K} (key : RequestLog -> K) ls : sumQ (fun g => total_cost g.2) (groups key ls) == total_cost ls.
Proof.
  unfold groups. rewrite sumQ_fmap. simpl. apply sumQ_partition; [apply NoDup_remove_dups|].
  intros l Hl. apply elem_of_remove_dups. by apply list_elem_of_fmap_2.
Qed.
Lemma groups_keys {K} `{EqDecision K} (key : RequestLog -> K) ls : NoDup (groups key ls).*1.
Proof. unfold groups. rewrite <- list_fmap_compose. simpl. rewrite list_fmap_id. apply NoDup_remove_dups. Qed.
Lemma sumZ_cons x l : sumZ (x :: l) = (x + sumZ l)%Z.
Proof. done. Qed.
(** Whatever is added up over the rows is added up over the groups. *)
Lemma groups_sum {K} `{EqDecision K} (key : RequestLog -> K) (w : RequestLog -> Z) ls :
  sumZ ((fun g => sumZ (w <$> g.2)) <$> groups key ls) = sumZ (w <$> ls).
Proof.
  unfold groups. rewrite <- list_fmap_compose. simpl.
  assert (NoDup (remove_dups (key <$> ls)) /\ forall l, l ∈ ls -> key l ∈ remove_dups (key <$> ls)) as [Hn Hk].
  { split; [apply NoDup_remove_dups|]. intros l Hl. apply elem_of_remove_dups. by apply list_elem_of_fmap_2. }
  revert Hn Hk. generalize (remove_dups (key <$> ls)). intros ks Hn. induction ls as [|l ls IH]; intros Hk.
  - clear. simpl. by induction ks.
  - assert (forall ks, NoDup ks ->
      sumZ ((fun k => sumZ (w <$> filterb (fun l => bool_decide (key l = k)) (l :: ls))) <$> ks) =
      ((if bool_decide (key l ∈ ks) then w l else 0)
       + sumZ ((fun k => sumZ (w <$> filterb (fun l => bool_decide (key l = k)) ls)) <$> ks))%Z) as Hc.
    { clear. induction ks as [|k ks IH]; intros Hn; [done|]. apply NoDup_cons in Hn as [Hk Hn]. rewrite !fmap_cons, !sumZ_cons, IH by done. simpl filterb.
      destruct (decide (key l = k)) as [E|E].
      - rewrite (bool_decide_eq_true_2 (key l = k)) by done. rewrite (bool_decide_eq_true_2 (key l ∈ k :: ks)) by (subst; left).
        rewrite (bool_decide_eq_false_2 (key l ∈ ks)) by (by subst). rewrite fmap_cons, sumZ_cons. lia.
      - rewrite (bool_decide_eq_false_2 (key l = k)) by done. repeat case_bool_decide; try lia; exfalso; set_solver. }
    specialize (Hc ks Hn). rewrite (bool_decide_eq_true_2 (key l ∈ ks)) in Hc by (apply Hk; left).
    etransitivity; [exact Hc|]. rewrite fmap_cons, sumZ_cons. f_equal. apply IH. intros; apply Hk; by right.
Qed.
Lemma count_as_sum (ls : list RequestLog) : Z.of_nat (length ls) = sumZ ((fun _ => 1%Z) <$> ls).
Proof. induction ls as [|l ls IH]; [done|]. rewrite fmap_cons, sumZ_cons, <- IH. simpl length. lia. Qed.
Lemma groups_are {K} `{EqDecision K} (key : RequestLog -> K) ls :
  Forall (fun g => g.2 = filterb (fun l => bool_decide (key l = g.1)) ls /\ g.2 <> []) (groups key ls).
Proof.
  apply Forall_forall. intros [k g] Hg. unfold groups in Hg. apply list_elem_of_fmap in Hg as (k' & [= -> ->] & Hk). split; [done|].
  apply elem_of_remove_dups, list_elem_of_fmap in Hk as (l & -> & Hl). simpl. intros E.
  assert (l ∈ filterb (fun l' => bool_decide (key l' = key l)) ls) as Hin.
  { apply elem_of_filterb. split; [done|]. by rewrite bool_decide_eq_true. }
  rewrite E in Hin. by apply elem_of_nil in Hin.
Qed.

#[local] Close Scope Q_scope.

(** ** Order *)

Lemma insert_by_perm {R} (le : R -> R -> bool) x l : insert_by le x l ≡ₚ x :: l.
Proof.
  induction l as [|y l IH]; simpl; [done|]. destruct (le x y); [done|]. rewrite IH. apply Permutation_swap.
Qed.
Lemma order_by_perm {R} (le : R -> R -> bool) l : order_by le l ≡ₚ l.
Proof. unfold order_by. induction l as [|x l IH]; simpl; [done|]. by rewrite insert_by_perm, IH. Qed.
(** Sorting by a total order sorts. *)
Lemma order_by_sorted {R} (le : R -> R -> bool) l :
  (forall a b, le a b = false -> le b a = true) -> (forall a b c, le a b = true -> le b c = true -> le a c = true) ->
  StronglySorted (fun a b => le a b = true) (order_by le l).
Proof.
  intros Ht Htr. unfold order_by. induction l as [|x l IH]; simpl; [constructor|].
  induction IH as [|y m Hs IHm Hf]; simpl; [by repeat constructor|]. destruct (le x y) eqn:E.
  - constructor; [by constructor|]. constructor; [done|]. eapply Forall_impl; [exact Hf|]. simpl. eauto.
  - constructor; [done|]. rewrite insert_by_perm. constructor; [by apply Ht|done].
Qed.
Lemma sorted_by {R} (f : R -> Z) l : StronglySorted (fun a b => (f a <=? f b) = true) (order_by (fun a b => f a <=? f b) l).
Proof. apply order_by_sorted; intros; lia. Qed.
Lemma sorted_down {R} (f : R -> Z) l : StronglySorted (fun a b => (f b <=? f a) = true) (order_by (fun a b => f b <=? f a) l).
Proof. apply order_by_sorted; intros; lia. Qed.
Lemma sumQ_perm {T} (f : T -> Q) l1 l2 : l1 ≡ₚ l2 -> (sumQ f l1 == sumQ f l2)%Q.
Proof. induction 1 as [|x l1 l2 _ IH|x y l|l1 l2 l3 _ IH1 _ IH2]; simpl; [done|by rewrite IH|ring|by rewrite IH1]. Qed.

Section Theorems.
Context (date_of : Z -> Z) (days_before : Z -> Z -> option Z).
Notation get_spend := (get_spend date_of days_before).

(** ** The grouped and the daily report account for the same rows *)

Lemma statement_spec d : match statement d with
  | (Ok d1, d2) => d1 = d2 /\ only_faults d d1
  | (Err e, d2) => only_faults d d2 /\ exists m, e = Failed (CoreError (Database m)) end.
Proof.
  unfold statement, core, get_db. st_unfold. destruct (stmt d) as [r d1] eqn:E. apply stmt_spec in E as [Hf [->|[m ->]]]; simpl; [done|].
  split; [done|by exists m].
Qed.

(** What a report accounts for: rows of distinct keys whose costs add up to those of the
    requests in view. *)
Definition accounts_for {K} (rows : list (K * Q)) (ls : list RequestLog) : Prop :=
  NoDup rows.*1 /\ (sumQ snd rows == total_cost ls)%Q.
Lemma groups_account {K} `{EqDecision K} (key : RequestLog -> K) ls :
  accounts_for ((fun g => (g.1, total_cost g.2)) <$> groups key ls) ls.
Proof.
  split; [|by rewrite sumQ_fmap, <- (groups_total key ls)]. rewrite <- list_fmap_compose. simpl. apply groups_keys.
Qed.
Lemma accounts_perm {K} (rows rows' : list (K * Q)) ls : rows ≡ₚ rows' -> accounts_for rows ls -> accounts_for rows' ls.
Proof. intros Hp [H1 H2]. split; [by rewrite <- Hp|]. by rewrite <- (sumQ_perm _ _ _ Hp). Qed.
End Theorems.

Definition row_key (r : SpendRow) : Uuid * option Uuid * option Uuid := (sr_organization_id r, sr_team_id r, sr_user_id r).
(** The requests an answer of [get_spend] is about. *)
Definition in_view days_before (c : Claims) (q : SpendQuery) (d : Db) : list RequestLog :=
  let from := match sq_from q, sq_days q with Some f, _ => Some f | None, Some n => days_before (db_now d) n | None, None => None end in
  let '(org, team, user) := scope_spend_query c q in
  filterb (visible_log from (sq_to q) org team user) (t_request_logs d).

(** The requests in view that a row is about. *)
Definition own_requests {K} `{EqDecision K} (key : RequestLog -> K) (k : K) (view : list RequestLog) : list RequestLog :=
  filterb (fun l => bool_decide (key l = k)) view.

(** C19: every request in view is accounted for once, in both forms of the spend report.  The
    grouped rows are of distinct organizations, teams and users, each adds up the costs, the
    number and the token columns of exactly the requests of its three, at least one, and
    together they add up to those of all requests in view; the daily rows are of distinct days
    in order, each adds up the costs of exactly the requests of its day, and their costs add up
    to the same sum. *)
Theorem spend_reports_account_for_all date_of days_before c q d answer d'
  (H : get_spend date_of days_before c q d = (Ok answer, d')) :
  let view := in_view days_before c q d in
  match answer with
  | inr rows => accounts_for ((fun r => (row_key r, sr_total_cost_usd r)) <$> rows) view /\
      sumZ (sr_request_count <$> rows) = Z.of_nat (length view) /\
      sumZ (sr_tokens_in <$> rows) = total_of log_tokens_in view /\ sumZ (sr_tokens_out <$> rows) = total_of log_tokens_out view /\
      Forall (fun r => let own := own_requests spend_key (row_key r) view in
                own <> [] /\ sr_total_cost_usd r = total_cost own /\ sr_request_count r = Z.of_nat (length own) /\
                sr_tokens_in r = total_of log_tokens_in own /\ sr_tokens_out r = total_of log_tokens_out own) rows
  | inl rows => accounts_for ((fun r => (dr_date r, dr_cost r)) <$> rows) view /\
      StronglySorted (fun a b => (dr_date a <=? dr_date b) = true) rows /\
      Forall (fun r => let own := own_requests (fun l => date_of (log_created_at l)) (dr_date r) view in
                own <> [] /\ dr_cost r = total_cost own) rows
  end.
Proof.
  intros view. unfold get_spend in H. apply st_bind_ok in H as (role & d0 & Hr & H). apply lift_inv in Hr as [_ ->].
  apply st_bind_ok in H as (from & d1 & Hfrom & H).
  assert (d1 = d /\ from = match sq_from q, sq_days q with Some f, _ => Some f | None, Some n => days_before (db_now d) n | None, None => None end)
    as [-> ->].
  { destruct (sq_from q) as [f|], (sq_days q) as [n|]; [by unfold mret, st_ret in Hfrom; simplify_eq..| |by unfold mret, st_ret in Hfrom; simplify_eq].
    st_unfold. destruct (days_before (db_now d) n) as [f|]; by simplify_eq. }
  unfold view, in_view. clear view Hfrom. set (from := match sq_from q with Some f => Some f | None => _ end) in *.
  destruct (scope_spend_query c q) as [[org team] user].
  destruct (sq_days q) as [n|].
  - apply st_bind_ok in H as (rows & d1 & H & E). unfold mret, st_ret in E. simplify_eq. unfold fetch_daily_spend_rows in H.
    apply st_bind_ok in H as (dd & d1 & Hs & E). unfold mret, st_ret in E. simplify_eq.
    pose proof (statement_spec d) as Hst. rewrite Hs in Hst. destruct Hst as [<- [f ->]]. simpl.
    set (view := filterb _ _). split_and!; [|apply sorted_by|].
    + eapply accounts_perm; [|apply (groups_account (fun l => date_of (log_created_at l)))].
      rewrite order_by_perm, <- list_fmap_compose. apply Permutation_refl'. apply list_fmap_ext. by intros i [k ls] _.
    + rewrite order_by_perm. apply Forall_fmap. eapply Forall_impl; [apply groups_are|]. intros [k ls] [E Hn]. simpl in *. by subst.
  - apply st_bind_ok in H as (rows & d1 & H & E). unfold mret, st_ret in E. simplify_eq. unfold fetch_spend_rows in H.
    apply st_bind_ok in H as (dd & d1 & Hs & E). unfold mret, st_ret in E. simplify_eq.
    pose proof (statement_spec d) as Hst. rewrite Hs in Hst. destruct Hst as [<- [f ->]]. simpl. set (view := filterb _ _). split_and!.
    + eapply accounts_perm; [|apply (groups_account spend_key)]. rewrite <- list_fmap_compose.
      apply Permutation_refl'. apply list_fmap_ext. by intros i [[[o t] u] ls] _.
    + rewrite count_as_sum, <- (groups_sum spend_key). f_equal. rewrite <- list_fmap_compose. apply list_fmap_ext.
      intros i [[[o t] u] ls] _. simpl. by rewrite count_as_sum.
    + unfold total_of. rewrite <- (groups_sum spend_key). f_equal. rewrite <- list_fmap_compose. apply list_fmap_ext.
      by intros i [[[o t] u] ls] _.
    + unfold total_of. rewrite <- (groups_sum spend_key). f_equal. rewrite <- list_fmap_compose. apply list_fmap_ext.
      by intros i [[[o t] u] ls] _.
    + apply Forall_fmap. eapply Forall_impl; [apply groups_are|]. intros [[[o t] u] ls] [E Hn]. simpl in *. by subst.
Qed.

(** ** Scopes *)

(** The requests a caller's reports may be about. *)
Definition own_log (c : Claims) (l : RequestLog) : bool :=
  match role_from_str (c_role c) with
  | Some SuperAdmin => true
  | Some OrgAdmin => is_id (log_organization_id l) (c_organization_id c)
  | _ => is_id (log_organization_id l) (c_organization_id c) && is_opt_id (log_user_id l) (c_user_id c)
  end.
Definition same_own (c : Claims) (d d' : Db) : Prop :=
  db_faults d = db_faults d' /\ db_now d = db_now d' /\ filterb (own_log c) (t_request_logs d) = filterb (own_log c) (t_request_logs d').

Lemma filterb_implied {T} (p q : T -> bool) l : (forall x, q x = true -> p x = true) -> filterb q l = filterb q (filterb p l).
Proof.
  intros Hq. induction l as [|x l IH]; simpl; [done|]. destruct (q x) eqn:E.
  - rewrite (Hq x E). simpl. by rewrite E, IH.
  - destruct (p x); simpl; by rewrite ?E.
Qed.
Lemma filterb_same {T} (p q : T -> bool) l l' : (forall x, q x = true -> p x = true) -> filterb p l = filterb p l' -> filterb q l = filterb q l'.
Proof. intros Hq Hp. rewrite (filterb_implied p q l), (filterb_implied p q l') by done. by rewrite Hp. Qed.

Lemma visible_own c q from to l :
  (let '(org, team, user) := scope_spend_query c q in visible_log from to org team user l) = true -> own_log c l = true.
Proof.
  unfold scope_spend_query, own_log, visible_log, in_org, in_opt. destruct (role_from_str (c_role c)) as [[]|]; simpl;
    intros H; repeat (apply andb_prop in H as [H ?]); rewrite ?andb_true_iff; auto.
Qed.
Lemma visible_tags_own c q from to l :
  (let '(org, user) := scope_spend_tags_query c q in visible_log from to org None user l) = true -> own_log c l = true.
Proof.
  unfold scope_spend_tags_query, own_log, visible_log, in_org, in_opt. destruct (role_from_str (c_role c)) as [[]|]; simpl;
    intros H; repeat (apply andb_prop in H as [H ?]); rewrite ?andb_true_iff; auto.
Qed.

(** A statement sees databases of one schedule and one time alike, but for their rows. *)
Lemma statement_same c d d' : same_own c d d' ->
  match statement d, statement d' with
  | (Ok e, f), (Ok e', f') => same_own c e e' /\ same_own c f f'
  | (Err x, f), (Err x', f') => x = x' /\ same_own c f f'
  | _, _ => False
  end.
Proof.
  intros (Hf & Hn & Hl). unfold statement, core, get_db. st_unfold. unfold stmt. rewrite <- Hf.
  destruct (db_faults d) as [|[m|] fs] eqn:Ef; simpl; unfold same_own; simpl; rewrite ?Ef; by auto.
Qed.

(** Two computations that answer alike on databases that agree on the caller's rows. *)
Definition blind {T} (c : Claims) (m : ST Db (failure ApiError) T) : Prop :=
  forall d d', same_own c d d' -> (m d).1 = (m d').1 /\ same_own c (m d).2 (m d').2.
Lemma blind_bind {T U} c (m : ST Db (failure ApiError) T) (f : T -> ST Db (failure ApiError) U) :
  blind c m -> (forall x, blind c (f x)) -> blind c (m ≫= f).
Proof.
  intros Hm Hf d d' Hd. destruct (Hm d d' Hd) as [E Hs]. st_unfold. destruct (m d) as [r d1], (m d') as [r' d1']. simpl in *. subst r'.
  destruct r as [x|e]; [by apply Hf|done].
Qed.
Lemma blind_ret {T} c (x : T) : blind c (mret x).
Proof. by intros d d' Hd. Qed.
Lemma blind_lift {T} c (x : result (failure ApiError) T) : blind c (lift x).
Proof. by intros d d' Hd. Qed.
(** A query whose rows are all the caller's. *)
Lemma blind_query {T} c (p : RequestLog -> bool) (f : list RequestLog -> T) :
  (forall l, p l = true -> own_log c l = true) -> blind c (d ← statement; mret (f (filterb p (t_request_logs d)))).
Proof.
  intros Hp d d' Hd. pose proof (statement_same c d d' Hd) as Hs. st_unfold.
  destruct (statement d) as [[e|x] g], (statement d') as [[e'|x'] g']; try done; destruct Hs as [Hs Hg]; simpl.
  - split; [|done]. do 2 f_equal. eapply filterb_same; [exact Hp|]. by destruct Hs as (_ & _ & Hl).
  - by subst.
Qed.

(** C23: a spend report is about the caller's own requests.  The answers of the two reports
    depend on nothing but the requests an organization's admin has in the organization, and
    any other caller made within it; a filter for more is ignored.  So two databases that
    agree on those requests get the same answers, however they differ elsewhere. *)
Theorem spend_reports_are_scoped date_of days_before c q tq d d' (H : same_own c d d') :
  (get_spend date_of days_before c q d).1 = (get_spend date_of days_before c q d').1 /\
  (get_spend_tags c tq d).1 = (get_spend_tags c tq d').1.
Proof.
  split.
  - assert (blind c (get_spend date_of days_before c q)) as Hb; [|by apply Hb].
    unfold get_spend. apply blind_bind; [apply blind_lift|]. intros _. apply blind_bind.
    + destruct (sq_from q), (sq_days q) as [n|]; try apply blind_ret. intros e e' (Hf & Hn & Hl). st_unfold. rewrite Hn.
      by destruct (days_before (db_now e') n).
    + intros from. pose proof (visible_own c q from (sq_to q)) as Hv. destruct (scope_spend_query c q) as [[org team] user].
      unfold fetch_daily_spend_rows, fetch_spend_rows. destruct (sq_days q); (apply blind_bind; [|intros; apply blind_ret]).
      * by apply (blind_query c _ (fun ls => order_by _ (_ <$> groups _ ls))).
      * by apply (blind_query c _ (fun ls => spend_row <$> groups spend_key ls)).
  - assert (blind c (get_spend_tags c tq)) as Hb; [|by apply Hb].
    unfold get_spend_tags. apply blind_bind; [apply blind_lift|]. intros _.
    pose proof (visible_tags_own c tq (tq_from tq) (tq_to tq)) as Hv. destruct (scope_spend_tags_query c tq) as [org user].
    unfold fetch_team_spend, fetch_api_key_spend, fetch_custom_tag_spend.
    apply blind_bind; [by apply (blind_query c _ (fun ls => by_spend (_ <$> groups _ ls)))|]. intros t.
    apply blind_bind; [by apply (blind_query c _ (fun ls => by_spend (_ <$> groups _ ls)))|]. intros k.
    apply blind_bind; [|intros; apply blind_ret]. apply (blind_query c _ tag_rows). intros l [_ Hl]%andb_prop. by apply Hv.
Qed.

(** The log itself is not scoped.  Any caller with a role, a plain user included, is
    answered as a super admin would be who filters by no key: it reads the requests of every
    organization.  An answer holds at most a hundred entries, newest first, from a page of
    the whole list. *)
Theorem spend_logs_are_not_scoped c s q d
  (Hc : role_from_str (c_role c) <> None) (Hns : role_from_str (c_role c) <> Some SuperAdmin)
  (Hs : role_from_str (c_role s) = Some SuperAdmin) :
  get_spend_logs c q d =
    get_spend_logs s {| lq_api_key_id := None; lq_model := lq_model q; lq_from := lq_from q; lq_to := lq_to q;
                        lq_limit := lq_limit q; lq_offset := lq_offset q |} d /\
  match get_spend_logs c q d with
  | (Ok (logs, limit, offset), _) => limit <= 100 /\ 0 <= limit /\ 0 <= offset /\ Z.of_nat (length logs) <= limit /\
      StronglySorted (fun a b => (log_created_at b <=? log_created_at a) = true) logs
  | _ => True
  end.
Proof.
  unfold get_spend_logs. st_unfold. rewrite Hs. destruct (role_from_str (c_role c)) as [role|]; [|done]. simpl.
  assert (is_role role SuperAdmin = false) as -> by (apply bool_decide_eq_false; congruence). split; [done|].
  unfold fetch_spend_logs. st_unfold. destruct (statement d) as [[e|x] d1]; [|done]. unfold fail_if, throw.
  destruct (Z.ltb_spec (Z.min (default 50 (lq_limit q)) 100) 0); [done|].
  destruct (Z.ltb_spec (default 0 (lq_offset q)) 0); [done|]. simpl. split_and!; [lia..| |].
  - unfold page. rewrite length_take. lia.
  - unfold page. set (l := order_by _ _). assert (StronglySorted (fun a b => (log_created_at b <=? log_created_at a) = true) l) as Hl
      by apply (sorted_down log_created_at).
    set (n := Z.to_nat (default 0 _)). set (k := Z.to_nat (Z.min _ _)). rewrite <- (take_drop n l) in Hl.
    apply StronglySorted_app_1_r in Hl. rewrite <- (take_drop k (drop n l)) in Hl. by apply StronglySorted_app_1_l in Hl.
Qed.

(** ** Tags *)

Lemma sumQ_split {T} (p : T -> bool) (f : T -> Q) l : (sumQ f l == sumQ f (filterb p l) + sumQ f (filterb (fun x => negb (p x)) l))%Q.
Proof. induction l as [|x l IH]; simpl; [ring|]. destruct (p x); simpl; rewrite IH; ring. Qed.
Lemma sumQ_keys {T} (key : T -> string) (f : T -> Q) ks l : NoDup ks -> (forall x, x ∈ l -> key x ∈ ks) ->
  (sumQ (fun k => sumQ f (filterb (fun x => String.eqb (key x) k) l)) ks == sumQ f l)%Q.
Proof.
  intros Hn. induction l as [|x l IH]; intros Hk.
  - by rewrite (sumQ_ext _ (fun _ => 0%Q)), sumQ_zero.
  - rewrite (sumQ_ext _ (fun k => (if bool_decide (key x = k) then f x else 0) + sumQ f (filterb (fun x => String.eqb (key x) k) l))%Q).
    + rewrite sumQ_add, sumQ_pick, IH; [done| |done|]; intros; apply Hk; [by right|by left].
    + intros k _. simpl. destruct (String.eqb_spec (key x) k) as [E|E];
        [rewrite (bool_decide_eq_true_2 _ E)|rewrite (bool_decide_eq_false_2 _ E)]; simpl; ring.
Qed.
Lemma total_snd (rs : list (string * RequestLog)) : total_cost rs.*2 = sumQ (fun x => cost_of x.2) rs.
Proof. induction rs as [|x rs IH]; csimpl; [done|]. by rewrite IH. Qed.
Lemma unnested_sum ls : (sumQ (fun x => cost_of x.2) (unnested ls) == sumQ (fun l => inject_Z (Z.of_nat (length (log_tags l))) * cost_of l) ls)%Q.
Proof.
  unfold unnested. induction ls as [|l ls IH]; csimpl; [done|]. rewrite sumQ_app, IH, sumQ_fmap. simpl. apply Qplus_comp; [|done].
  induction (log_tags l) as [|t ts IHt]; [simpl; ring|]. simpl sumQ. rewrite IHt. cbn [length]. rewrite Nat2Z.inj_succ.
  unfold Z.succ. rewrite inject_Z_plus. ring.
Qed.
Lemma elem_of_unnested t l ls : (t, l) ∈ unnested ls <-> l ∈ ls /\ t ∈ log_tags l.
Proof.
  unfold unnested. induction ls as [|m ls IH]; csimpl; [split; [by intros H%elem_of_nil|by intros [H%elem_of_nil _]]|].
  rewrite elem_of_app, IH, list_elem_of_fmap, elem_of_cons. split.
  - intros [(x & [= -> ->] & Hx)|[H1 H2]]; auto.
  - intros [[->|H1] H2]; [left; by exists t|by right].
Qed.

(** The spend by tag counts a request once under each of its tags.  The tags reported are
    those of the requests taken into account, each once; a filter for one tag takes the
    requests that have it and reports all their other tags with it; and the spends add up to
    the costs multiplied by the numbers of tags, more than was spent as soon as a request has
    two. *)
Theorem tags_count_every_tag tag from to org user d rows d'
  (H : fetch_custom_tag_spend tag from to org user d = (Ok rows, d')) :
  let ls := filterb (fun l => has_tag tag l && visible_log from to org None user l) (t_request_logs d) in
  NoDup rows.*1 /\ (forall t, t ∈ rows.*1 <-> exists l, l ∈ ls /\ t ∈ log_tags l) /\
  (sumQ snd rows == sumQ (fun l => inject_Z (Z.of_nat (length (log_tags l))) * cost_of l) ls)%Q.
Proof.
  unfold fetch_custom_tag_spend in H. apply st_bind_ok in H as (e & d1 & Hs & E). unfold mret, st_ret in E. simplify_eq.
  pose proof (statement_spec d) as Hst. rewrite Hs in Hst. destruct Hst as [<- [f ->]]. intros ls.
  change (t_request_logs (put_faults f d)) with (t_request_logs d). fold ls. unfold tag_rows, by_spend. set (us := unnested ls).
  assert ((order_by (fun a b : string * Q => Qle_bool b.2 a.2)
     ((fun t => (t, total_cost (filterb (fun x => String.eqb x.1 t) us).*2)) <$> remove_dups us.*1)) ≡ₚ
     ((fun t => (t, total_cost (filterb (fun x => String.eqb x.1 t) us).*2)) <$> remove_dups us.*1)) as Hp by apply order_by_perm.
  split_and!.
  - rewrite Hp, <- list_fmap_compose. simpl. rewrite list_fmap_id. apply NoDup_remove_dups.
  - intros t. rewrite Hp, <- list_fmap_compose. simpl. rewrite list_fmap_id, elem_of_remove_dups, list_elem_of_fmap. split.
    + intros ([t' l] & -> & Hx%elem_of_unnested). by exists l.
    + intros (l & Hl & Ht). exists (t, l). split; [done|]. by apply elem_of_unnested.
  - rewrite (sumQ_perm _ _ _ Hp), sumQ_fmap, <- (unnested_sum ls). simpl.
    rewrite (sumQ_ext _ (fun t => sumQ (fun x => cost_of x.2) (filterb (fun x => String.eqb x.1 t) us))).
    + apply sumQ_keys; [apply NoDup_remove_dups|]. intros x Hx. apply elem_of_remove_dups. by apply list_elem_of_fmap_2.
    + intros t _. by rewrite total_snd.
Qed.

(** The repository's version of the query never answers without a tag. *)
Lemma aggregate_needs_a_tag from to org user d : exists e, (aggregate_spend_by_tag None from to org user d).1 = Err (Database e).
Proof. unfold aggregate_spend_by_tag. st_unfold. unfold stmt. destruct (db_faults d) as [|[m|] fs]; simpl; by eexists. Qed.

(** ** Recent activity *)

(** The recent activity is the newest there is: at most fifty items, at least one if there
    is any, the newest first, and nothing left out is newer than what is shown. *)
Theorem recent_activity_is_the_newest c limit org d items d'
  (H : get_recent_activity c limit org d = (Ok items, d')) :
  exists role all, require_dashboard_access c = Ok role /\ (activity_items (org_scope role c org) d).1 = Ok all /\
    length items = Nat.min (Z.to_nat (Z.min (Z.max (default 5 limit) 1) 50)) (length all) /\
    StronglySorted (fun a b => newest_first a b = true) items /\
    exists rest, items ++ rest ≡ₚ all /\ forall a b, a ∈ items -> b ∈ rest -> newest_first a b = true.
Proof.
  unfold get_recent_activity in H. apply st_bind_ok in H as (role & d0 & Hr & H). apply lift_inv in Hr as [Hr ->].
  apply st_bind_ok in H as (all & d1 & Ha & E). unfold mret, st_ret in E. simplify_eq. exists role, all.
  assert (StronglySorted (fun a b => newest_first a b = true) (order_by newest_first all)) as Hs by apply (sorted_down ai_created_at).
  set (n := Z.to_nat _). split_and!; [done|by rewrite Ha| | |].
  - rewrite length_take. by rewrite order_by_perm.
  - rewrite <- (take_drop n (order_by newest_first all)) in Hs. by apply StronglySorted_app_1_l in Hs.
  - exists (drop n (order_by newest_first all)). rewrite take_drop. split; [apply order_by_perm|]. intros a b Ha' Hb.
    rewrite <- (take_drop n (order_by newest_first all)) in Hs. exact (StronglySorted_app_1_elem_of _ _ _ _ _ Hs Ha' Hb).
Qed.

(** ** Witnesses: three requests in two organizations *)

Definition log_of (id user org : Uuid) (cost : option Q) (tags : list string) (at_ : Z) : RequestLog :=
  {| log_id := id; log_api_key_id := Some 7; log_user_id := Some user; log_organization_id := org; log_team_id := None;
     log_model := "m"; log_provider := "p"; log_provider_model_id := "m-1"; log_capability := "chat"; log_duration_ms := 1;
     log_streamed := false; log_status := "success"; log_cost_usd := cost; log_tags := tags; log_created_at := at_;
     log_tool_calls_count := None; log_agentic_iteration := None; log_tokens_in := Some 200; log_tokens_out := None |}.
Definition logs_db (ls : list RequestLog) : Db := put_request_logs ls empty_catalog.
Definition three_logs : Db :=
  logs_db [log_of 1 5 3 (Some 2%Q) ["a"; "b"] 10; log_of 2 5 3 None ["a"] 20; log_of 3 6 4 (Some 8%Q) [] 30].
Definition member_of_3 : Claims :=
  {| c_sub := ""; c_user_id := 5; c_organization_id := 3; c_role := "user"; c_exp := 0; c_iat := 0 |}.
Definition no_filter : SpendQuery :=
  {| sq_from := None; sq_to := None; sq_days := None; sq_organization_id := Some 4; sq_team_id := None; sq_user_id := Some 6 |}.
Definition all_logs : SpendLogsQuery :=
  {| lq_api_key_id := Some 9; lq_model := None; lq_from := None; lq_to := None; lq_limit := Some 1000; lq_offset := None |}.

(** The request of the other organization is neither shown nor summed. *)
Lemma spend_reports_account_for_all_witness :
  exists rows d', get_spend (fun t => t / 86400) (fun _ _ => None) member_of_3 no_filter three_logs = (Ok (inr rows), d') /\
    (row_key <$> rows) = [(3, None, Some 5)] /\ sumZ (sr_request_count <$> rows) = 2 /\ sumZ (sr_tokens_in <$> rows) = 400.
Proof.
  destruct (get_spend (fun t => t / 86400) (fun _ _ => None) member_of_3 no_filter three_logs) as [[[rows|rows]|e] d'] eqn:E;
    [vm_compute in E; discriminate E| |vm_compute in E; discriminate E].
  pose proof (spend_reports_account_for_all _ _ _ _ _ _ _ E) as (_ & Hc & Ht & _). exists rows, d'. split; [reflexivity|].
  split; [vm_compute in E; injection E as <- _; reflexivity|]. rewrite Hc, Ht. vm_compute. split; reflexivity.
Defined.

Lemma spend_reports_are_scoped_witness :
  (get_spend (fun t => t / 86400) (fun _ _ => None) member_of_3 no_filter three_logs).1 =
  (get_spend (fun t => t / 86400) (fun _ _ => None) member_of_3 no_filter (logs_db (take 2 (t_request_logs three_logs)))).1.
Proof.
  exact (proj1 (spend_reports_are_scoped (fun t => t / 86400) (fun _ _ => None) member_of_3 no_filter
    {| tq_from := None; tq_to := None; tq_organization_id := None; tq_tag := None |} three_logs
    (logs_db (take 2 (t_request_logs three_logs))) (conj eq_refl (conj eq_refl eq_refl)))).
Defined.

(** The plain user reads the entry of the other organization. *)
Lemma spend_logs_are_not_scoped_witness :
  get_spend_logs member_of_3 all_logs three_logs =
    get_spend_logs super {| lq_api_key_id := None; lq_model := None; lq_from := None; lq_to := None; lq_limit := Some 1000;
                            lq_offset := None |} three_logs /\
  exists logs d', get_spend_logs member_of_3 all_logs three_logs = (Ok (logs, 100, 0), d') /\ (log_organization_id <$> logs) = [4; 3; 3].
Proof.
  split; [apply (spend_logs_are_not_scoped member_of_3 super all_logs three_logs); discriminate || reflexivity|].
  eexists _, _. split; vm_compute; reflexivity.
Defined.

Lemma tags_count_every_tag_witness :
  exists rows d', fetch_custom_tag_spend (Some "b") None None None None three_logs = (Ok rows, d') /\
    (forall t, t ∈ rows.*1 <-> exists l, l ∈ take 1 (t_request_logs three_logs) /\ t ∈ log_tags l) /\ rows = [("a", 2%Q); ("b", 2%Q)].
Proof.
  destruct (fetch_custom_tag_spend (Some "b") None None None None three_logs) as [[rows|e] d'] eqn:E; [|vm_compute in E; discriminate E].
  exists rows, d'. split; [reflexivity|]. split; [exact (proj1 (proj2 (tags_count_every_tag _ _ _ _ _ _ _ _ E)))|].
  vm_compute in E. injection E as <- _. reflexivity.
Defined.
