(* ===== verification/Alerting.v ===== *)
(** * Budget alerts

    The service of [godwit-core/src/alerting.rs] that the scheduler of
    [godwit-api/src/scheduler.rs] runs every five minutes: it compares what was spent with the
    budgets and posts a webhook.  Its statements name columns, so the model has the schema the
    migrations leave ([godwit-db/migrations/]): a statement that names a column a table does
    not have is refused by the server.

    Doubles are exact rationals, rounded to the nearest double after each operation. *)

From stdpp Require Import base strings list gmap sorting.
From Stdlib Require Import QArith Ascii.
From S2P Require Import Prelude RustStr Json Core Db Auth Admin Router Resilience Backend Serde Catalog Spend.

#[local] Open Scope string_scope.
#[local] Open Scope Z_scope.

(** ** Data *)

(** [godwit-core/src/alerting.rs:20-28] [AlertingError] *)
Inductive AlertingError : Type :=
| AlertDatabase (msg : string)
| AlertHttp (msg : string)
| WebhookFailed (msg : string).

(** [godwit-core/src/alerting.rs:48-58] [AlertingConfig] *)
Record AlertingConfig : Type := {
  ac_id : Z; ac_org_id : option Uuid; ac_team_id : option Uuid; ac_api_key_id : option Uuid; ac_threshold_percent : Z;
  ac_webhook_url : string; ac_enabled : bool }.

(** A row of [alerting_webhooks]. *)
Record Hook : Type := {
  hk_id : Z; hk_event_type : string; hk_target_url : string; hk_payload : value; hk_status : string; hk_retry_count : Z;
  hk_last_attempt : option Z }.

(** The tables of the service beside those of [Db.v], the next identifier of a hook, and the
    world outside. *)
Record Alerts (W : Type) : Type := {
  al_db : Db; al_configs : list AlertingConfig; al_hooks : list Hook; al_next : Z; al_world : W }.
Arguments al_db {W} a. Arguments al_configs {W} a. Arguments al_hooks {W} a. Arguments al_next {W} a. Arguments al_world {W} a.

(** The columns of a table, by name. *)
Definition Schema : Type := string -> list string.
(** The tables the service reads, as the migrations leave them. *)
Definition migrated : Schema := fun table =>
  if String.eqb table "request_logs" then
    ["id"; "api_key_id"; "user_id"; "organization_id"; "team_id"; "model"; "provider"; "provider_model_id"; "tokens_in"; "tokens_out";
     "cost_usd"; "duration_ms"; "streamed"; "status"; "error_message"; "created_at"; "capability"; "tags"; "attempt_number";
     "fallback_triggered"; "tool_calls_count"; "agentic_iteration"]
  else if String.eqb table "organizations" then
    ["id"; "name"; "rate_limit_requests_per_minute"; "created_at"; "rate_limit_tokens_per_minute"]
  else if String.eqb table "teams" then ["id"; "organization_id"; "name"; "created_at"; "budget_usd"; "max_budget_usd"]
  else if String.eqb table "api_keys" then
    ["id"; "user_id"; "team_id"; "organization_id"; "name"; "key_prefix"; "key_hash"; "scopes"; "budget_limit_usd"; "budget_spent_usd";
     "rate_limit_requests_per_minute"; "expires_at"; "disabled"; "created_at"; "allowed_models"; "rate_limit_tokens_per_minute"]
  else [].

Section Service.
Context `{Fmt} {W : Type} `{!HttpClient W} `{!World W} (schema : Schema).
(** What [organizations.budget_usd] would be, were it a column. *)
Context (org_budget : Organization -> option Q).
Abbreviation ALERT := (ST (Alerts W) AlertingError).

Definition put_al_db (d : Db) (s : Alerts W) : Alerts W :=
  {| al_db := d; al_configs := al_configs s; al_hooks := al_hooks s; al_next := al_next s; al_world := al_world s |}.
Definition put_hooks (hs : list Hook) (s : Alerts W) : Alerts W :=
  {| al_db := al_db s; al_configs := al_configs s; al_hooks := hs; al_next := al_next s; al_world := al_world s |}.
Definition put_al_world (w : W) (s : Alerts W) : Alerts W :=
  {| al_db := al_db s; al_configs := al_configs s; al_hooks := al_hooks s; al_next := al_next s; al_world := w |}.

Definition alert_error (e : PasteurError) : AlertingError := AlertDatabase (match e with Database m => m | _ => show_pasteur e end).
Definition on_al_db {A} (m : DB A) : ALERT A := st_map_err alert_error (zoom al_db put_al_db m).
(** A statement over the columns of a table. *)
Definition statement_over (table : string) (columns : list string) : ALERT unit :=
  on_al_db stmt;;
  fail_if (negb (forallb (str_in (schema table)) columns)) (AlertDatabase "column does not exist").

(** [to_string().parse::<f64>()] of a decimal: the nearest double. *)
Definition to_f64 (q : Q) : Q := default 0%Q (f64_of_Q q).

(** [godwit-core/src/alerting.rs:73-82] [AlertingService::get_alerting_configs] *)
Definition get_alerting_configs : ALERT (list AlertingConfig) :=
  on_al_db stmt;; s ← gets (fun s => s); mret (filterb ac_enabled (al_configs s)).

(** [godwit-core/src/alerting.rs:84-104] [AlertingService::get_current_spend] *)
Definition get_current_spend (org team key : option Uuid) : ALERT Q :=
  statement_over "request_logs" ["cost_usd"; "org_id"; "team_id"; "api_key_id"];;
  s ← gets (fun s => s);
  mret (to_f64 (total_cost (filterb (fun l => in_org org l && in_opt team (log_team_id l) && in_opt key (log_api_key_id l))
                              (t_request_logs (al_db s))))).

(** A budget of the first row; no row at all is an error of [fetch_one]. *)
Definition budget_of {R} (t : table R) (p : R -> bool) (f : R -> option Q) : ALERT (option Q) :=
  s ← gets (fun s => s);
  match filterb p (rows t (al_db s)) with
  | r :: _ => mret (f r)
  | [] => throw (alert_error row_not_found)
  end.
(** [godwit-core/src/alerting.rs:106-138] [AlertingService::get_budget] *)
Definition get_budget (org team key : option Uuid) : ALERT Q :=
  budget ← match key, team, org with
           | Some k, _, _ => statement_over "api_keys" ["budget_limit_usd"; "id"];; budget_of api_keys (fun r => is_id (key_id r) k) key_budget_limit_usd
           | None, Some t, _ => statement_over "teams" ["budget_usd"; "id"];; budget_of teams (fun r => is_id (team_id r) t) team_budget_usd
           | None, None, Some o => statement_over "organizations" ["budget_usd"; "id"];; budget_of organizations (fun r => is_id (org_id r) o) org_budget
           | None, None, None => mret None
           end;
  mret (to_f64 (default 0%Q budget)).

(** ** Delivery *)

(** [godwit-core/src/alerting.rs:245-267] [AlertingService::record_webhook_attempt] *)
Definition record_webhook_attempt (event_type target_url : string) (payload : value) (status : string) : ALERT Z :=
  on_al_db stmt;;
  s ← gets (fun s => s);
  modify (fun s =>
    {| al_db := al_db s; al_configs := al_configs s;
       al_hooks := al_hooks s ++ [ {| hk_id := al_next s; hk_event_type := event_type; hk_target_url := target_url;
                                      hk_payload := payload; hk_status := status; hk_retry_count := 0; hk_last_attempt := None |} ];
       al_next := al_next s + 1; al_world := al_world s |});;
  mret (al_next s).

Definition change_hook (id : Z) (f : Hook -> Hook) : ALERT unit :=
  on_al_db stmt;; modify (fun s => put_hooks ((fun h => if hk_id h =? id then f h else h) <$> al_hooks s) s).
(** [godwit-core/src/alerting.rs:269-287] [AlertingService::update_webhook_status] *)
Definition update_webhook_status (id : Z) (status : string) (retry_count : Z) : ALERT unit :=
  t ← gets (fun s => db_now (al_db s));
  change_hook id (fun h => {| hk_id := hk_id h; hk_event_type := hk_event_type h; hk_target_url := hk_target_url h;
                              hk_payload := hk_payload h; hk_status := status; hk_retry_count := retry_count; hk_last_attempt := Some t |}).
(** [godwit-core/src/alerting.rs:289-305] [AlertingService::update_webhook_retry] *)
Definition update_webhook_retry (id : Z) (retry_count : Z) : ALERT unit :=
  t ← gets (fun s => db_now (al_db s));
  change_hook id (fun h => {| hk_id := hk_id h; hk_event_type := hk_event_type h; hk_target_url := hk_target_url h;
                              hk_payload := hk_payload h; hk_status := hk_status h; hk_retry_count := retry_count; hk_last_attempt := Some t |}).

(** One post of the payload: whether a response came with a success status.
    [godwit-core/src/alerting.rs:206-222] [AlertingService::send_webhook] *)
Definition post_payload (url : string) (payload : value) : W -> bool * W := fun w =>
  match send {| hr_method := "POST"; hr_url := url; hr_headers := [("Content-Type", "application/json")];
                hr_json := Some payload; hr_form := [] |} w with
  | (Replied status _, w) => (is_success status, w)
  | (SendFailed _, w) => (false, w)
  end.

(** The pauses in milliseconds.
    [godwit-core/src/alerting.rs:202-203] [AlertingService::send_webhook] *)
Definition webhook_delays : list Z := [30; 120; 600; 3600].
(** [godwit-core/src/alerting.rs:225-229] [AlertingService::send_webhook] *)
Definition webhook_delay (attempt : nat) : Z := default 3600 (webhook_delays !! attempt) * 1000.
(** [godwit-core/src/alerting.rs:202-202] [AlertingService::send_webhook] *)
Definition webhook_max_retries : nat := 5.

(** The attempts from a number on; [more] of them can follow.
    [godwit-core/src/alerting.rs:205-243] [AlertingService::send_webhook] *)
Fixpoint deliver (id : Z) (url : string) (payload : value) (more attempt : nat) : ALERT unit :=
  ok ← (fun s => let '(ok, w) := post_payload url payload (al_world s) in (Ok ok, put_al_world w s));
  if (ok : bool) then update_webhook_status id "success" (Z.of_nat attempt)
  else match more with
       | S more =>
         modify (fun s => put_al_world (sleep (webhook_delay attempt) (al_world s)) s);;
         update_webhook_retry id (Z.of_nat attempt + 1);;
         deliver id url payload more (S attempt)
       | O =>
         update_webhook_status id "failed" (Z.of_nat attempt);;
         throw (WebhookFailed "Max retries exceeded")
       end.

(** [godwit-core/src/alerting.rs:8-18] [BudgetAlertPayload] *)
Definition alert_payload (event_type : string) (c : AlertingConfig) (current_spend budget : Q) (t : Z) : value :=
  obj [("event_type", VString event_type); ("org_id", v_opt_uuid (ac_org_id c)); ("team_id", v_opt_uuid (ac_team_id c));
       ("api_key_id", v_opt_uuid (ac_api_key_id c)); ("current_spend", VNumber (NFloat current_spend));
       ("budget", VNumber (NFloat budget)); ("threshold_percent", num (as_u32 (ac_threshold_percent c))); ("timestamp", v_time t)].
(** [godwit-core/src/alerting.rs:189-243] [AlertingService::send_webhook] *)
Definition send_alert (event_type url : string) (payload : value) : ALERT unit :=
  id ← record_webhook_attempt event_type url payload "pending";
  deliver id url payload webhook_max_retries 0.

(** Whether to alert, and of what event.
    [godwit-core/src/alerting.rs:156-167] [AlertingService::check_budgets] *)
Definition alert_event (c : AlertingConfig) (current_spend budget : Q) : option string :=
  if Qle_bool budget 0 then None
  else
    let threshold := to_f64 (budget * to_f64 (inject_Z (ac_threshold_percent c) / 100)) in
    if Qle_bool threshold current_spend
    then Some (if Qle_bool budget current_spend then "budget_100" else "budget_80")
    else None.

(** [godwit-core/src/alerting.rs:143-184] [AlertingService::check_budgets] *)
Definition check_config (c : AlertingConfig) : ALERT unit :=
  current_spend ← get_current_spend (ac_org_id c) (ac_team_id c) (ac_api_key_id c);
  budget ← get_budget (ac_org_id c) (ac_team_id c) (ac_api_key_id c);
  match alert_event c current_spend budget with
  | Some event_type =>
    t ← gets (fun s => now (al_world s));
    send_alert event_type (ac_webhook_url c) (alert_payload event_type c current_spend budget t)
  | None => mret tt
  end.
Fixpoint check_configs (cs : list AlertingConfig) : ALERT unit :=
  match cs with [] => mret tt | c :: cs => check_config c;; check_configs cs end.
(** [godwit-core/src/alerting.rs:140-187] [AlertingService::check_budgets] *)
Definition check_budgets : ALERT unit := configs ← get_alerting_configs; check_configs configs.

(** Waiting for the next tick of tokio's interval of five minutes. *)
Context (next_tick : W -> W).
(** Some rounds of the scheduler; the result of a round is only logged.
    [godwit-api/src/scheduler.rs:13-24] [Scheduler::run] *)
Fixpoint scheduler_rounds (n : nat) (s : Alerts W) : Alerts W :=
  match n with
  | O => s
  | S n => scheduler_rounds n (check_budgets (put_al_world (next_tick (al_world s)) s)).2
  end.
End Service.

(** ** No alert leaves *)

Section Facts.
Context `{Fmt} {W : Type} `{!HttpClient W} `{!World W} (org_budget : Organization -> option Q).
Notation ALERTS := (Alerts W).
Implicit Types s : ALERTS.

(** Statements have run, nothing else happened. *)
Definition quiet_since s s' : Prop := exists d, only_faults (al_db s) d /\ s' = put_al_db d s.

Lemma quiet_since_trans s s1 s2 : quiet_since s s1 -> quiet_since s1 s2 -> quiet_since s s2.
Proof.
  intros (d1 & H1 & ->) (d2 & H2 & ->). exists d2. split; [|done]. by eapply only_faults_trans.
Qed.
Lemma al_stmt_spec s : quiet_since s (on_al_db stmt s).2 /\
  ((on_al_db stmt s).1 = Ok tt \/ exists m, (on_al_db stmt s).1 = Err (AlertDatabase m)).
Proof.
  unfold on_al_db. st_unfold. destruct (stmt (al_db s)) as [r d] eqn:E. apply stmt_spec in E as [Hf [->|[m ->]]]; simpl.
  - split; [by exists d|by left].
  - split; [by exists d|right; by exists m].
Qed.
Lemma spend_fails org team key s :
  quiet_since s (get_current_spend migrated org team key s).2 /\
  exists m, (get_current_spend migrated org team key s).1 = Err (AlertDatabase m).
Proof.
  unfold get_current_spend, statement_over. pose proof (al_stmt_spec s) as [Hq Hs]. st_unfold.
  destruct (on_al_db stmt s) as [[[]|e] s1]; simpl in *.
  - split; [done|by eexists].
  - split; [done|]. destruct Hs as [Hs|[m Hs]]; simplify_eq. by exists m.
Qed.

(** With the tables as they are no alert is ever sent.  The first enabled configuration
    ends every check with an error of the database, before anything is compared, recorded or
    posted: the query of the spend names a column that the log does not have.  However many
    rounds the scheduler makes, the hooks stay as they were and the world has only waited. *)
Theorem alerts_are_never_sent next_tick n s :
  al_hooks (scheduler_rounds migrated org_budget next_tick n s) = al_hooks s /\
  al_world (scheduler_rounds migrated org_budget next_tick n s) = Nat.iter n next_tick (al_world s) /\
  (filterb ac_enabled (al_configs s) <> [] -> exists m, (check_budgets migrated org_budget s).1 = Err (AlertDatabase m)).
Proof.
  assert (forall s, quiet_since s (check_budgets migrated org_budget s).2 /\
            (filterb ac_enabled (al_configs s) <> [] -> exists m, (check_budgets migrated org_budget s).1 = Err (AlertDatabase m))) as Hc.
  { intros s0. unfold check_budgets, get_alerting_configs. pose proof (al_stmt_spec s0) as [Hq Hs]. st_unfold.
    destruct (on_al_db stmt s0) as [[[]|e] s1]; simpl in *.
    - destruct Hq as (d & Hd & ->). simpl. destruct (filterb ac_enabled (al_configs s0)) as [|c cs]; simpl.
      + split; [by exists d|done].
      + destruct (spend_fails (ac_org_id c) (ac_team_id c) (ac_api_key_id c) (put_al_db d s0)) as [H1 [m H2]].
        unfold check_config. st_unfold. destruct (get_current_spend migrated _ _ _ _) as [r s2]. simpl in *. subst r. simpl.
        split; [|intros _; by exists m]. eapply quiet_since_trans; [|exact H1]. by exists d.
    - destruct Hs as [Hs|[m Hs]]; simplify_eq. split; [done|]. intros _. by exists m. }
  split_and!; [..|by apply Hc].
  - revert s. induction n as [|n IH]; intros s; simpl; [done|]. rewrite IH.
    destruct (Hc (put_al_world (next_tick (al_world s)) s)) as [(d & _ & ->) _]. done.
  - revert s. induction n as [|n IH]; intros s; [done|]. simpl scheduler_rounds. rewrite IH.
    destruct (Hc (put_al_world (next_tick (al_world s)) s)) as [(d & _ & ->) _]. simpl. by rewrite <- Nat.iter_succ_r.
Qed.

(** ** Delivery *)

(** [k] posts that failed, from attempt [a] on, each followed by its pause. *)
Inductive failed_attempts (url : string) (payload : value) : nat -> nat -> W -> W -> Prop :=
| no_attempt a w : failed_attempts url payload a 0 w w
| failed_attempt a k w w1 w2 :
    post_payload url payload w = (false, w1) -> failed_attempts url payload (S a) k (sleep (webhook_delay a) w1) w2 ->
    failed_attempts url payload a (S k) w w2.

Definition with_outcome (h : Hook) (status : string) (retry_count t : Z) : Hook :=
  {| hk_id := hk_id h; hk_event_type := hk_event_type h; hk_target_url := hk_target_url h; hk_payload := hk_payload h;
     hk_status := status; hk_retry_count := retry_count; hk_last_attempt := Some t |}.

Lemma change_last (hs : list Hook) h (f : Hook -> Hook) :
  Forall (fun x => hk_id x <> hk_id h) hs ->
  ((fun x => if hk_id x =? hk_id h then f x else x) <$> (hs ++ [h])%list) = (hs ++ [f h])%list.
Proof.
  intros Hf. rewrite fmap_app. simpl. rewrite Z.eqb_refl. f_equal. induction Hf as [|x hs Hx Hf IH]; csimpl; [done|].
  rewrite IH. by destruct (Z.eqb_spec (hk_id x) (hk_id h)).
Qed.

(** Writing the outcome of the last hook, when no statement fails. *)
Lemma change_hook_ok s hs h f : db_faults (al_db s) = [] -> al_hooks s = (hs ++ [h])%list -> Forall (fun x => hk_id x <> hk_id h) hs ->
  change_hook (hk_id h) f s = (Ok tt, put_hooks (hs ++ [f h]) s).
Proof.
  intros Hn Hh Hf. unfold change_hook, on_al_db. st_unfold. unfold stmt. rewrite Hn. simpl. unfold put_al_db, put_hooks. simpl.
  by rewrite Hh, change_last.
Qed.

Lemma deliver_spec url payload more : forall attempt s hs h,
  db_faults (al_db s) = [] -> al_hooks s = (hs ++ [h])%list -> Forall (fun x => hk_id x <> hk_id h) hs ->
  exists k w1 ok w2, (k <= more)%nat /\ failed_attempts url payload attempt k (al_world s) w1 /\ post_payload url payload w1 = (ok, w2) /\
    (ok = false -> k = more) /\
    deliver (hk_id h) url payload more attempt s =
      (if (ok : bool) then Ok tt else Err (WebhookFailed "Max retries exceeded"),
       put_al_world w2 (put_hooks (hs ++ [with_outcome h (if ok then "success" else "failed") (Z.of_nat (attempt + k)) (db_now (al_db s))]) s)).
Proof.
  induction more as [|more IH]; intros attempt s hs h Hn Hh Hf.
  - exists 0%nat, (al_world s). destruct (post_payload url payload (al_world s)) as [ok w2] eqn:E. exists ok, w2.
    split_and!; [done|constructor|done|done|]. rewrite Nat.add_0_r. simpl. unfold mbind, st_bind at 1. rewrite E.
    destruct ok; unfold update_webhook_status, gets, mbind, st_bind; by rewrite (change_hook_ok (put_al_world w2 s) hs h).
  - destruct (post_payload url payload (al_world s)) as [[] w2] eqn:E.
    + exists 0%nat, (al_world s), true, w2. split_and!; [lia|constructor|done|done|]. rewrite Nat.add_0_r. simpl. unfold mbind, st_bind at 1. rewrite E.
      unfold update_webhook_status, gets, mbind, st_bind. by rewrite (change_hook_ok (put_al_world w2 s) hs h).
    + set (h1 := with_outcome h (hk_status h) (Z.of_nat attempt + 1) (db_now (al_db s))).
      set (s1 := put_al_world (sleep (webhook_delay attempt) w2) s).
      destruct (IH (S attempt) (put_hooks (hs ++ [h1]) s1) hs h1) as (k & w1 & ok & w3 & Hk & Hfa & Hp & Ho & Hd); [done..|].
      exists (S k), w1, ok, w3. split_and!; [lia|by econstructor|done|by intros ->%Ho|].
      simpl. unfold mbind, st_bind at 1. rewrite E. unfold modify, update_webhook_retry, gets, mbind, st_bind.
      rewrite (change_hook_ok s1 hs h) by done. change (hk_id h1) with (hk_id h) in Hd. etransitivity; [exact Hd|].
      replace (attempt + S k)%nat with (S attempt + k)%nat by lia. by destruct ok.
Qed.

#[local] Arguments deliver : simpl never.

(** A webhook is delivered at the first success, and given up after six posts.  With no
    failing statement one hook is added, which in the end tells whether a post succeeded and
    the number of retries; the posts before the last all failed, and after each came the pause
    of its place in the list; the caller learns of an error exactly when all six failed. *)
Theorem webhook_is_posted_until_it_succeeds event url payload s
  (Hn : db_faults (al_db s) = []) (Hi : Forall (fun h => hk_id h < al_next s) (al_hooks s)) :
  exists k w1 ok w2, (k <= 5)%nat /\ failed_attempts url payload 0 k (al_world s) w1 /\ post_payload url payload w1 = (ok, w2) /\
    (ok = false -> k = 5%nat) /\
    let '(r, s') := send_alert event url payload s in
    r = (if (ok : bool) then Ok tt else Err (WebhookFailed "Max retries exceeded")) /\ al_world s' = w2 /\ al_db s' = al_db s /\
    al_hooks s' = (al_hooks s ++
      [ {| hk_id := al_next s; hk_event_type := event; hk_target_url := url; hk_payload := payload;
           hk_status := if ok then "success" else "failed"; hk_retry_count := Z.of_nat k;
           hk_last_attempt := Some (db_now (al_db s)) |} ])%list.
Proof.
  unfold send_alert, record_webhook_attempt, on_al_db. st_unfold. unfold stmt. rewrite Hn. simpl.
  set (h := {| hk_id := al_next s |}).
  match goal with |- context [deliver _ _ _ _ _ ?s1] => destruct (deliver_spec url payload webhook_max_retries 0 s1 (al_hooks s) h)
    as (k & w1 & ok & w2 & Hk & Hfa & Hp & Ho & Hd) end; [done|done| |].
  - eapply Forall_impl; [exact Hi|]. simpl. lia.
  - change (hk_id h) with (al_next s) in Hd. by exists k, w1, ok, w2; rewrite Hd.
Qed.
End Facts.

(** ** Witnesses: a world that counts posts, the third of which succeeds *)

Definition third_time : HttpClient Z :=
  {| send _ w := ((if w <? 2 then SendFailed "refused" else Replied 200 (Ok "")), w + 1); send_within _ _ w := (None, w); json_error s := s |}.
Definition posts_world : World Z := {| now _ := 0; readings _ _ := (0, 0); tick w := w; sleep _ w := w |}.
#[local] Existing Instances third_time posts_world plain_fmt.
Definition watched : Alerts Z :=
  {| al_db := three_logs;
     al_configs := [ {| ac_id := 1; ac_org_id := Some 3; ac_team_id := None; ac_api_key_id := None; ac_threshold_percent := 80;
                        ac_webhook_url := "https://hook"; ac_enabled := true |} ];
     al_hooks := []; al_next := 1; al_world := 0 |}.

Lemma webhook_is_posted_until_it_succeeds_witness :
  let s' := (send_alert "budget_80" "https://hook" Null watched).2 in
  (hk_status <$> al_hooks s') = ["success"] /\ (hk_retry_count <$> al_hooks s') = [2] /\ al_world s' = 3.
Proof.
  destruct (webhook_is_posted_until_it_succeeds "budget_80" "https://hook" Null watched eq_refl (Forall_nil_2 _))
    as (k & w1 & ok & w2 & _ & _ & _ & _ & H).
  destruct (send_alert "budget_80" "https://hook" Null watched) as [r s'] eqn:E. destruct H as (_ & Hw & _ & Hh). simpl.
  assert (s' = (send_alert "budget_80" "https://hook" Null watched).2) as Es by (rewrite E; reflexivity).
  rewrite Es. vm_compute. repeat split.
Defined.

(** The round ends with an error, although two of two dollars are spent. *)
Example no_alert : (check_budgets migrated (fun _ => Some 2%Q) watched).1 = Err (AlertDatabase "column does not exist").
Proof. reflexivity. Qed.
