(* ===== verification/App.v ===== *)
(** * The application: routes

    The routers of [godwit-api/src/] and their assembly in [app.rs].

    The axum crate is the class [Axum]: what its combinators do to the routes of a router, as
    its documentation states it.  A handler is its name with the two things its signature asks
    of a request: an extension that a layer has to insert, and a number of path parameters. *)

From stdpp Require Import base strings list gmap.
From Stdlib Require Import QArith Ascii.
From S2P Require Import Prelude RustStr Json Core Db Auth Admin Router Catalog.

#[local] Open Scope string_scope.
#[local] Open Scope Z_scope.

(** ** Routes *)

Inductive Verb : Type := GET | POST | PATCH | DELETE.
#[export] Instance method_eq_dec : EqDecision Verb.
Proof. solve_decision. Defined.

(** What the layers insert into a request. *)
Inductive Extension : Type := EApiKey | EClaims.
#[export] Instance extension_eq_dec : EqDecision Extension.
Proof. solve_decision. Defined.
(** The middleware of [godwit-api/src/middleware.rs]. *)
Inductive Layer : Type := ApiKeyAuth | JwtAuth | CookieCsrf | ModelScope.
#[export] Instance layer_eq_dec : EqDecision Layer.
Proof. solve_decision. Defined.

Record Handler : Type := { h_name : string; h_extension : option Extension; h_params : nat }.
Definition handler (name : string) (e : option Extension) (params : nat) : Handler :=
  {| h_name := name; h_extension := e; h_params := params |}.
Definition api_key : option Extension := Some EApiKey.
Definition claims : option Extension := Some EClaims.
Definition none : option Extension := None.

(** The layers of a route, the outermost first. *)
Record Route : Type := { rt_method : Verb; rt_path : string; rt_handler : Handler; rt_layers : list Layer }.
Definition with_prefix (p : string) (r : Route) : Route :=
  {| rt_method := rt_method r; rt_path := p +:+ rt_path r; rt_handler := rt_handler r; rt_layers := rt_layers r |}.
Definition with_layer (l : Layer) (r : Route) : Route :=
  {| rt_method := rt_method r; rt_path := rt_path r; rt_handler := rt_handler r; rt_layers := l :: rt_layers r |}.
Definition routes_at (path : string) (hs : list (Verb * Handler)) : list Route :=
  (fun x => {| rt_method := x.1; rt_path := path; rt_handler := x.2; rt_layers := [] |}) <$> hs.

(** axum's router and the routes it serves. *)
Class Axum := {
  router : Type;
  new_router : router;
  route : string -> list (Verb * Handler) -> router -> router;
  merge : router -> router -> router;             (* [merge other r] is [r.merge(other)] *)
  nest : string -> router -> router -> router;
  route_layer : Layer -> router -> router;
  routes : router -> list Route;
  routes_new : routes new_router = [];
  routes_route p hs r : routes (route p hs r) = (routes r ++ routes_at p hs)%list;
  routes_merge o r : routes (merge o r) = (routes r ++ routes o)%list;
  routes_nest p o r : routes (nest p o r) = (routes r ++ (with_prefix p <$> routes o))%list;
  routes_layer l r : routes (route_layer l r) = (with_layer l <$> routes r);
}.
#[local] Notation "r .> f" := (f r) (at level 50, left associativity, only parsing).

Section Routers.
Context `{Axum}.

(** [godwit-api/src/health.rs:10-14] [router] *)
Definition health_router : router := new_router
  .> route "/health" [(GET, handler "health_check" none 0)]
  .> route "/health/ready" [(GET, handler "health_ready" none 0)].

(** [godwit-api/src/metrics_endpoint.rs:11-14] [router] *)
Definition metrics_router : router := new_router
  .> route "/metrics" [(GET, handler "metrics_handler" none 0)].

(** [godwit-api/src/utils.rs:13-18] [router] *)
Definition utils_router : router := new_router
  .> route "/v1/utils/token_counter" [(POST, handler "token_counter" none 0)]
  .> route "/v1/utils/model_info/:model_id" [(GET, handler "model_info" none 1)]
  .> route "/v1/utils/health" [(GET, handler "health" none 0)].

(** [godwit-api/src/model_info.rs:35-38] [router] *)
Definition model_info_router : router := new_router
  .> route "/v1/model/info" [(GET, handler "get_model_info" claims 0)].

(** [godwit-api/src/anthropic_proxy.rs:90-94] [router] *)
Definition messages_router : router := new_router
  .> route "/v1/messages" [(POST, handler "messages" api_key 0)]
  .> route_layer ModelScope.

(** [godwit-api/src/moderation.rs:19-23] [router] *)
Definition moderation_router : router := new_router
  .> route "/v1/moderations" [(POST, handler "moderations" api_key 0)]
  .> route_layer ModelScope.

(** [godwit-api/src/rerank.rs:20-24] [router] *)
Definition rerank_router : router := new_router
  .> route "/v1/rerank" [(POST, handler "rerank" api_key 0)]
  .> route_layer ModelScope.

(** [godwit-api/src/proxy.rs:41-43] [router] *)
Definition chat_router : router := new_router
  .> route "/v1/chat/completions" [(POST, handler "chat_completions" api_key 0)]
  .> route_layer ModelScope.

(** [godwit-api/src/proxy.rs:45-50] [router] *)
Definition proxy_batch_router : router := new_router
  .> route "/v1/batches" [(POST, handler "create_batch" api_key 0);
      (GET, handler "list_batches" api_key 0);
      (DELETE, handler "delete_batch" api_key 1)]
  .> route "/v1/batches/:id" [(GET, handler "get_batch" api_key 1)]
  .> route "/v1/batches/:id/cancel" [(POST, handler "cancel_batch" api_key 1)]
  .> route "/v1/batches/:id/results" [(GET, handler "get_batch_results" api_key 1)]
  .> route_layer ModelScope.

(** [godwit-api/src/proxy.rs:40-62] [router] *)
Definition proxy_router : router := new_router
  .> merge chat_router
  .> merge model_info_router
  .> merge proxy_batch_router
  .> route "/v1/models" [(GET, handler "list_models" api_key 0)]
  .> route "/v1/embeddings" [(POST, handler "embeddings" api_key 0)]
  .> route "/v1/images/generations" [(POST, handler "image_generations" api_key 0)]
  .> route "/v1/audio/speech" [(POST, handler "audio_speech" api_key 0)]
  .> route "/v1/audio/transcriptions" [(POST, handler "audio_transcriptions" api_key 0)]
  .> route "/v1/images/edits" [(POST, handler "image_edits" api_key 0)].

(** The routes of a module that nothing merges.
    [godwit-api/src/batch.rs:24-30] [router] *)
Definition unused_batch_router : router := new_router
  .> route "/v1/batches" [(POST, handler "create_batch" api_key 0); (GET, handler "list_batches" api_key 0)]
  .> route "/v1/batches/:id" [(GET, handler "get_batch" api_key 1)]
  .> route "/v1/batches/:id/cancel" [(POST, handler "cancel_batch" api_key 1)]
  .> route_layer ModelScope.

(** [godwit-api/src/admin/api_keys.rs:25-33] [router] *)
Definition api_keys_router : router := new_router
  .> route "/api-keys" [(GET, handler "list_api_keys" claims 0); (POST, handler "create_api_key" claims 0)]
  .> route "/api-keys/:id" [(GET, handler "get_api_key" claims 1); (DELETE, handler "delete_api_key" claims 1)]
  .> route "/api-keys/:id/block" [(POST, handler "block_key" claims 1)]
  .> route "/api-keys/:id/unblock" [(POST, handler "unblock_key" claims 1)]
  .> route "/api-keys/:id/regenerate" [(POST, handler "regenerate_key" claims 1)]
  .> route "/api-keys/:id/reset_spend" [(POST, handler "reset_spend" claims 1)].

(** [godwit-api/src/admin/end_users.rs:14-21] [router] *)
Definition end_users_router : router := new_router
  .> route "/end-users" [(GET, handler "list_end_users" claims 0); (POST, handler "create_end_user" claims 0)]
  .> route "/end-users/:user_id" [(GET, handler "get_end_user" claims 1);
      (PATCH, handler "update_end_user" claims 1);
      (DELETE, handler "delete_end_user" claims 1)].

(** [godwit-api/src/admin/models.rs:14-21] [router] *)
Definition models_router : router := new_router
  .> route "/models" [(GET, handler "list_models" claims 0); (POST, handler "create_model" claims 0)]
  .> route "/models/:id" [(GET, handler "get_model" claims 1);
      (PATCH, handler "update_model" claims 1);
      (DELETE, handler "delete_model" claims 1)].

(** [godwit-api/src/admin/provider_profiles.rs:14-21] [router] *)
Definition profiles_router : router := new_router
  .> route "/provider-profiles" [(GET, handler "list_profiles" claims 0); (POST, handler "create_profile" claims 0)]
  .> route "/provider-profiles/:id" [(PATCH, handler "update_profile" claims 1)].

(** [godwit-api/src/admin/organizations.rs:13-25] [router] *)
Definition organizations_router : router := new_router
  .> route "/organizations" [(GET, handler "list_organizations" claims 0); (POST, handler "create_organization" claims 0)]
  .> route "/organizations/:id" [(GET, handler "get_organization" claims 1);
      (PATCH, handler "update_organization" claims 1);
      (DELETE, handler "delete_organization" claims 1)].

(** [godwit-api/src/admin/teams.rs:13-22] [router] *)
Definition teams_router : router := new_router
  .> route "/teams" [(GET, handler "list_teams" claims 0); (POST, handler "create_team" claims 0)]
  .> route "/teams/:id" [(GET, handler "get_team" claims 1);
      (PATCH, handler "update_team" claims 1);
      (DELETE, handler "delete_team" claims 1)]
  .> route "/teams/:id/members" [(POST, handler "add_member" claims 1)]
  .> route "/teams/:id/members/:user_id" [(DELETE, handler "remove_member" claims 2)].

(** [godwit-api/src/admin/users.rs:20-27] [router] *)
Definition users_router : router := new_router
  .> route "/users" [(GET, handler "list_users" claims 0); (POST, handler "create_user" claims 0)]
  .> route "/users/:id" [(GET, handler "get_user" claims 1);
      (PATCH, handler "update_user" claims 1);
      (DELETE, handler "delete_user" claims 1)].

(** [godwit-api/src/admin/spend.rs:16-18] [router] *)
Definition spend_router : router := new_router
  .> route "/spend" [(GET, handler "get_spend" claims 0)].

(** [godwit-api/src/admin/spend_logs.rs:16-18] [router] *)
Definition spend_logs_router : router := new_router
  .> route "/spend/logs" [(GET, handler "get_spend_logs" claims 0)].

(** [godwit-api/src/admin/spend_tags.rs:15-17] [router] *)
Definition spend_tags_router : router := new_router
  .> route "/spend/tags" [(GET, handler "get_spend_tags" claims 0)].

(** [godwit-api/src/admin/stats.rs:14-18] [router] *)
Definition stats_router : router := new_router
  .> route "/admin/stats" [(GET, handler "get_stats" claims 0)]
  .> route "/admin/recent-activity" [(GET, handler "get_recent_activity" claims 0)].

(** [godwit-api/src/admin/circuit_breakers.rs:37-40] [router] *)
Definition breakers_router : router := new_router
  .> route "/circuit-breakers" [(GET, handler "list_circuit_breakers" none 0)].

(** [godwit-api/src/admin/model_aliases.rs:14-18] [router] *)
Definition aliases_router : router := new_router
  .> route "/model-aliases" [(GET, handler "list_aliases" claims 0); (POST, handler "create_alias" claims 0)]
  .> route "/model-aliases/:id" [(DELETE, handler "delete_alias" claims 1)].

(** [godwit-api/src/admin/metrics_ws.rs:19-21] [router] *)
Definition metrics_ws_router : router := new_router
  .> route "/ws/metrics" [(GET, handler "ws_handler" none 0)].

(** [godwit-api/src/admin/auth.rs:46-49] [router] *)
Definition cookie_router : router := new_router
  .> route "/auth/refresh" [(POST, handler "refresh" none 0)]
  .> route "/auth/logout" [(POST, handler "logout" none 0)]
  .> route_layer CookieCsrf.

(** [godwit-api/src/admin/auth.rs:51-55] [router] *)
Definition protected_auth_router : router := new_router
  .> route "/auth/change-password" [(POST, handler "change_password" claims 0)]
  .> route "/auth/change-required" [(POST, handler "change_required" claims 0)]
  .> route "/auth/admin/reset-password" [(POST, handler "admin_reset_password" claims 0)]
  .> route_layer JwtAuth.

(** [godwit-api/src/admin/auth.rs:45-66] [router] *)
Definition auth_router : router := new_router
  .> merge cookie_router
  .> route "/auth/login" [(POST, handler "login" none 0)]
  .> route "/auth/oidc/:provider" [(GET, handler "oidc_start" none 1)]
  .> route "/auth/oidc/:provider/callback" [(GET, handler "oidc_callback" none 1)]
  .> route "/auth/saml/:provider/acs" [(POST, handler "saml_acs" none 1)]
  .> route "/auth/forgot-password" [(POST, handler "forgot_password" none 0)]
  .> route "/auth/reset-password" [(POST, handler "reset_password" none 0)]
  .> merge protected_auth_router.

(** [godwit-api/src/admin/mod.rs:35-58] [router] *)
Definition protected_router : router := new_router
  .> merge api_keys_router
  .> merge end_users_router
  .> merge models_router
  .> merge profiles_router
  .> merge organizations_router
  .> merge teams_router
  .> merge users_router
  .> merge spend_router
  .> merge spend_logs_router
  .> merge spend_tags_router
  .> merge stats_router
  .> merge breakers_router
  .> merge aliases_router
  .> merge metrics_ws_router
  .> route "/auth/me" [(GET, handler "me" claims 0)]
  .> route "/auth/sessions/revoke-all" [(POST, handler "revoke_all_sessions" claims 0)]
  .> route_layer JwtAuth.

(** [godwit-api/src/admin/mod.rs:34-61] [router] *)
Definition admin_router : router := new_router .> merge auth_router .> merge protected_router.

(** [godwit-api/src/app.rs:26-43] [build_app] *)
Definition build_app : router :=
  let proxied := proxy_router .> merge messages_router .> merge moderation_router .> merge rerank_router
                 .> route_layer ApiKeyAuth in
  new_router .> merge health_router .> merge metrics_router .> merge utils_router .> merge proxied .> nest "/api/v1" admin_router.

End Routers.

(** ** The table of the application *)

(** Routers as their lists of routes. *)
Definition listed : Axum.
Proof.
  refine {| router := list Route; new_router := []; route p hs r := (r ++ routes_at p hs)%list; merge o r := (r ++ o)%list;
            nest p o r := (r ++ (with_prefix p <$> o))%list; route_layer l r := with_layer l <$> r; routes r := r |}; done.
Defined.
Definition route_table : list Route := routes (Axum := listed) (build_app (H := listed)).

(** The laws as steps from the routes of the parts to those of the whole. *)
Section Steps.
Context `{Axum}.
Lemma at_route p hs r l : routes r = l -> routes (route p hs r) = (l ++ routes_at p hs)%list.
Proof. by intros <-; apply routes_route. Qed.
Lemma at_merge o r l lo : routes r = l -> routes o = lo -> routes (merge o r) = (l ++ lo)%list.
Proof. by intros <- <-; apply routes_merge. Qed.
Lemma at_nest p o r l lo : routes r = l -> routes o = lo -> routes (nest p o r) = (l ++ (with_prefix p <$> lo))%list.
Proof. by intros <- <-; apply routes_nest. Qed.
Lemma at_layer x r l : routes r = l -> routes (route_layer x r) = with_layer x <$> l.
Proof. by intros <-; apply routes_layer. Qed.
End Steps.

(** Whatever the router is, it serves that table. *)
Lemma routes_build_app `{Axum} : routes build_app = route_table.
Proof.
  unfold build_app, admin_router, auth_router, protected_router, proxy_router, chat_router, proxy_batch_router, cookie_router,
    protected_auth_router, health_router, metrics_router, utils_router, model_info_router, messages_router, moderation_router,
    rerank_router, api_keys_router, end_users_router, models_router, profiles_router, organizations_router, teams_router, users_router,
    spend_router, spend_logs_router, spend_tags_router, stats_router, breakers_router, aliases_router, metrics_ws_router.
  etransitivity.
  { repeat first [apply routes_new | eapply at_route | eapply at_layer | eapply at_merge | eapply at_nest]. }
  reflexivity.
Qed.

(** The routes the repository's own contract lists ([contract/routes.json]). *)
Definition contract : list (Verb * string) :=
  [(POST, "/api/v1/auth/login"); (POST, "/api/v1/auth/refresh"); (POST, "/api/v1/auth/logout");
   (GET, "/api/v1/auth/me"); (POST, "/api/v1/auth/sessions/revoke-all"); (GET, "/api/v1/auth/oidc/:provider");
   (GET, "/api/v1/auth/oidc/:provider/callback"); (POST, "/api/v1/auth/saml/:provider/acs");
   (POST, "/api/v1/auth/change-password"); (POST, "/api/v1/auth/change-required");
   (POST, "/api/v1/auth/admin/reset-password"); (POST, "/api/v1/auth/forgot-password");
   (POST, "/api/v1/auth/reset-password"); (GET, "/api/v1/api-keys"); (POST, "/api/v1/api-keys");
   (GET, "/api/v1/api-keys/:id"); (POST, "/api/v1/api-keys/:id/block"); (POST, "/api/v1/api-keys/:id/unblock");
   (POST, "/api/v1/api-keys/:id/regenerate"); (POST, "/api/v1/api-keys/:id/reset_spend");
   (DELETE, "/api/v1/api-keys/:id"); (GET, "/api/v1/models"); (POST, "/api/v1/models"); (GET, "/api/v1/models/:id");
   (PATCH, "/api/v1/models/:id"); (DELETE, "/api/v1/models/:id"); (GET, "/api/v1/provider-profiles");
   (POST, "/api/v1/provider-profiles"); (PATCH, "/api/v1/provider-profiles/:id"); (GET, "/api/v1/organizations");
   (POST, "/api/v1/organizations"); (GET, "/api/v1/organizations/:id"); (PATCH, "/api/v1/organizations/:id");
   (DELETE, "/api/v1/organizations/:id"); (GET, "/api/v1/teams"); (POST, "/api/v1/teams"); (GET, "/api/v1/teams/:id");
   (PATCH, "/api/v1/teams/:id"); (DELETE, "/api/v1/teams/:id"); (POST, "/api/v1/teams/:id/members");
   (DELETE, "/api/v1/teams/:id/members/:user_id"); (GET, "/api/v1/users"); (POST, "/api/v1/users");
   (GET, "/api/v1/users/:id"); (PATCH, "/api/v1/users/:id"); (DELETE, "/api/v1/users/:id"); (GET, "/api/v1/end-users");
   (POST, "/api/v1/end-users"); (GET, "/api/v1/end-users/:user_id"); (PATCH, "/api/v1/end-users/:user_id");
   (DELETE, "/api/v1/end-users/:user_id"); (GET, "/api/v1/model-aliases"); (POST, "/api/v1/model-aliases");
   (DELETE, "/api/v1/model-aliases/:id"); (GET, "/api/v1/spend"); (GET, "/api/v1/spend/logs");
   (GET, "/api/v1/spend/tags"); (GET, "/api/v1/admin/stats"); (GET, "/api/v1/admin/recent-activity");
   (GET, "/api/v1/circuit-breakers"); (GET, "/health"); (GET, "/health/ready"); (GET, "/metrics");
   (GET, "/api/v1/ws/metrics"); (POST, "/v1/chat/completions"); (POST, "/v1/messages"); (POST, "/v1/embeddings");
   (GET, "/v1/models"); (POST, "/v1/images/generations"); (POST, "/v1/images/edits"); (POST, "/v1/audio/speech");
   (POST, "/v1/audio/transcriptions"); (POST, "/v1/batches"); (GET, "/v1/batches"); (DELETE, "/v1/batches");
   (GET, "/v1/batches/:id"); (POST, "/v1/batches/:id/cancel"); (GET, "/v1/batches/:id/results");
   (POST, "/v1/moderations"); (POST, "/v1/rerank"); (POST, "/v1/utils/token_counter");
   (GET, "/v1/utils/model_info/:model_id"); (GET, "/v1/utils/health")].

(** ** What the table promises *)

Definition key_of (r : Route) : Verb * string := (rt_method r, rt_path r).
Definition has_layer (l : Layer) (r : Route) : bool := bool_decide (l ∈ rt_layers r).

(** The routes anybody may call, with or without a token of their own. *)
Definition open_routes : list (Verb * string) :=
  [(GET, "/health"); (GET, "/health/ready"); (GET, "/metrics");
   (POST, "/v1/utils/token_counter"); (GET, "/v1/utils/model_info/:model_id"); (GET, "/v1/utils/health");
   (POST, "/api/v1/auth/login"); (GET, "/api/v1/auth/oidc/:provider"); (GET, "/api/v1/auth/oidc/:provider/callback");
   (POST, "/api/v1/auth/saml/:provider/acs"); (POST, "/api/v1/auth/forgot-password"); (POST, "/api/v1/auth/reset-password")].
(** The routes that a cookie of a known origin opens. *)
Definition cookie_routes : list (Verb * string) := [(POST, "/api/v1/auth/refresh"); (POST, "/api/v1/auth/logout")].

(** The only guard a route should have: the caller's key for the proxy, the admin's token for
    the rest, a checked origin for cookies, none for the open routes. *)
Definition guard_of (k : Verb * string) : option Layer :=
  if bool_decide (k ∈ open_routes) then None
  else if bool_decide (k ∈ cookie_routes) then Some CookieCsrf
  else if starts_with "/api/v1/" k.2 then Some JwtAuth
  else Some ApiKeyAuth.
Definition guard_layer (l : Layer) : bool := match l with ModelScope => false | _ => true end.
Definition guarded (r : Route) : bool := bool_decide (filterb guard_layer (rt_layers r) = match guard_of (key_of r) with Some l => [l] | None => [] end).

(** C5: every route is behind the guard of its place, and behind no other.  All that starts
    with [/v1/] takes an API key, all under [/api/v1/] an admin's token, but for twelve open
    routes and two that a cookie opens.  Three of the open ones are under [/v1/]: the
    descriptions of models and the token counter need no key.  No two handlers share a method
    and a path, so the routers merge; and the routes are those of the contract, and one more. *)
Theorem every_route_is_guarded `{Axum} :
  Forall (fun r => guarded r = true) (routes build_app) /\
  NoDup (key_of <$> routes build_app) /\
  (forall k, k ∈ (key_of <$> routes build_app) <-> k ∈ contract \/ k = (GET, "/v1/model/info")).
Proof.
  rewrite routes_build_app. split_and!.
  - apply Forall_forall. intros r Hr. apply list_elem_of_In in Hr. revert r Hr. apply forallb_forall. vm_compute. reflexivity.
  - apply (bool_decide_eq_true_1 (NoDup (key_of <$> route_table))). vm_compute. reflexivity.
  - assert (forall k, k ∈ (key_of <$> route_table) <-> k ∈ (GET, "/v1/model/info") :: contract) as Hk.
    { assert ((key_of <$> route_table) ⊆ (GET, "/v1/model/info") :: contract /\ (GET, "/v1/model/info") :: contract ⊆ (key_of <$> route_table)) as [H1 H2].
      { split; intros k Hk; (apply list_elem_of_In in Hk; revert k Hk);
          match goal with |- forall k, In k ?l -> k ∈ ?m =>
            assert (forallb (fun k => bool_decide (k ∈ m)) l = true) as Hb by (vm_compute; reflexivity) end;
          intros k Hk; rewrite forallb_forall in Hb; by apply (bool_decide_eq_true_1 _ (Hb k Hk)). }
      intros k. split; [apply H1|apply H2]. }
    intros k. rewrite Hk, elem_of_cons. tauto.
Qed.

(** What a layer inserts and what it needs of a layer around it. *)
Definition provides (l : Layer) : option Extension := match l with ApiKeyAuth => Some EApiKey | JwtAuth => Some EClaims | _ => None end.
Definition provided (r : Route) (e : Extension) : bool := existsb (fun l => bool_decide (provides l = Some e)) (rt_layers r).
Definition layers_ordered (r : Route) : bool :=
  match rt_layers r with
  | ModelScope :: _ => false
  | _ => true
  end.
(** The parameters of a path: its segments that start with a colon. *)
Definition path_params (path : string) : nat := length (filterb (starts_with ":") (split_char (byte 47) path)).

(** A handler runs when its extension was inserted and its parameters are there. *)
Definition handler_runs (r : Route) : bool :=
  match h_extension (rt_handler r) with None => true | Some e => provided r e end
  && (h_params (rt_handler r) =? path_params (rt_path r))%nat && layers_ordered r.

(** The layers give the handlers what they take, but for two routes that can never
    answer: [/v1/model/info] takes the claims of an admin and is behind the layer of API keys,
    and the deletion of a batch takes an identifier its path does not have. *)
Theorem two_routes_never_answer `{Axum} r :
  r ∈ routes build_app ->
  handler_runs r = negb (bool_decide (key_of r ∈ [(GET, "/v1/model/info"); (DELETE, "/v1/batches")])).
Proof.
  rewrite routes_build_app. intros Hr. apply list_elem_of_In in Hr.
  assert (forallb (fun r => Bool.eqb (handler_runs r) (negb (bool_decide (key_of r ∈ [(GET, "/v1/model/info"); (DELETE, "/v1/batches")])))) route_table = true)
    as Hb by (vm_compute; reflexivity).
  rewrite forallb_forall in Hb. by apply eqb_prop, Hb.
Qed.

(** The layer that enforces a key's models is on the routes that read a model from a JSON
    body, but for five of them. *)
Definition unscoped : list string :=
  ["/v1/models"; "/v1/embeddings"; "/v1/images/generations"; "/v1/audio/speech"; "/v1/audio/transcriptions"; "/v1/images/edits"; "/v1/model/info"].
Theorem model_scope_is_partial `{Axum} r :
  r ∈ routes build_app -> has_layer ApiKeyAuth r = true ->
  has_layer ModelScope r = negb (str_in unscoped (rt_path r)).
Proof.
  rewrite routes_build_app. intros Hr. apply list_elem_of_In in Hr.
  assert (forallb (fun r => implb (has_layer ApiKeyAuth r) (Bool.eqb (has_layer ModelScope r) (negb (str_in unscoped (rt_path r))))) route_table = true)
    as Hb by (vm_compute; reflexivity).
  rewrite forallb_forall in Hb. specialize (Hb r Hr). simpl in Hb. intros Ha. rewrite Ha in Hb. by apply eqb_prop.
Qed.

(** The module of batch routes could not be merged beside those of the proxy. *)
Lemma batch_module_overlaps `{Axum} : exists k, k ∈ (key_of <$> routes unused_batch_router) /\ k ∈ (key_of <$> routes build_app).
Proof.
  exists (GET, "/v1/batches"). rewrite routes_build_app. split.
  - unfold unused_batch_router. rewrite routes_layer, !routes_route, routes_new. simpl. set_solver.
  - apply (bool_decide_eq_true_1 ((GET, "/v1/batches") ∈ (key_of <$> route_table))). vm_compute. reflexivity.
Qed.
