(* ===== verification/Startup.v ===== *)
(** * Start-up

    What the process does to the database before it serves: the profiles of the providers
    named by the environment and the first administrator
    ([godwit-bin/src/bootstrap.rs], [main.rs]), with the login that the administrator needs. *)

From stdpp Require Import base strings list gmap.
From Stdlib Require Import QArith Ascii.
From S2P Require Import Prelude RustStr Json Core Limiter Db Auth Admin Router Providers Config Session Catalog.

#[local] Open Scope string_scope.
#[local] Open Scope Z_scope.

(** [godwit-bin/src/bootstrap.rs:11-16] [LegacyProviderConfig] *)
Record LegacyProviderConfig : Type := { lp_name : string; lp_protocol : string; lp_base_url : string; lp_api_key : string }.

(** [env] gives the value of a variable that is set.
    [godwit-bin/src/bootstrap.rs:71-102] [legacy_providers_from_env] *)
Definition legacy_provider (env : string -> option string) (name key_var url_var url : string) : list LegacyProviderConfig :=
  match env key_var with
  | Some key => [ {| lp_name := name; lp_protocol := name; lp_base_url := default url (env url_var); lp_api_key := key |} ]
  | None => []
  end.
(** [godwit-bin/src/bootstrap.rs:71-102] [legacy_providers_from_env] *)
Definition legacy_providers_from_env (env : string -> option string) : list LegacyProviderConfig :=
  (legacy_provider env "openai" "OPENAI_API_KEY" "OPENAI_BASE_URL" "https://api.openai.com/v1"
   ++ legacy_provider env "anthropic" "ANTHROPIC_API_KEY" "ANTHROPIC_BASE_URL" "https://api.anthropic.com"
   ++ legacy_provider env "gemini" "GEMINI_API_KEY" "GEMINI_BASE_URL" "https://generativelanguage.googleapis.com")%list.

Section Profiles.
Context `{Sealing} (master_key : string) (nonce_bytes : nat -> string).

(** The providers from number [k] on; [nonce_bytes] are the draws of their encryptions.
    [godwit-bin/src/bootstrap.rs:27-38] [bootstrap_provider_profiles] *)
Fixpoint bootstrap_each (k : nat) (legacy : list LegacyProviderConfig) : DB unit :=
  match legacy with
  | [] => mret tt
  | p :: legacy =>
    profile ← profile_create (lp_name p) (lp_protocol p) (Some (lp_base_url p)) false;
    profile_set_auth (profile_id profile) (encrypt_api_key master_key (nonce_bytes k) (lp_api_key p));;
    bootstrap_each (S k) legacy
  end.
(** [godwit-bin/src/bootstrap.rs:18-40] [bootstrap_provider_profiles] *)
Definition bootstrap_provider_profiles (legacy : list LegacyProviderConfig) : DB unit :=
  profiles ← profile_list;
  match profiles with
  | [] => bootstrap_each 0 legacy
  | _ => mret tt
  end.
End Profiles.

(** [UPDATE users SET password_hash = $1 WHERE id = $2] *)
Definition set_password_hash (id : Uuid) (hash : string) : DB unit :=
  stmt;;
  modify (fun d => put_users ((fun u =>
    if is_id (user_id u) id then
      {| user_id := user_id u; user_organization_id := user_organization_id u; user_email := user_email u; user_name := user_name u;
         user_role := user_role u; user_sso_provider := user_sso_provider u; user_sso_subject := user_sso_subject u;
         user_password_hash := Some hash; user_password_changed_at := user_password_changed_at u;
         user_password_expires_at := user_password_expires_at u; user_must_change_password := user_must_change_password u;
         user_created_at := user_created_at u |}
    else u) <$> t_users d) d).

(** [godwit-bin/src/bootstrap.rs:52-57] [bootstrap_admin_user] *)
Definition first_organization : DB Organization :=
  existing_orgs ← org_list;
  match existing_orgs with org :: _ => mret org | [] => org_create "Default Organization" None end.

(** [k] is the draw of the salt.
    [godwit-bin/src/bootstrap.rs:42-68] [bootstrap_admin_user] *)
Definition bootstrap_admin_user `{Secrets} (k : nat) (email password : string) : DB unit :=
  catch (user_get_by_email email) (fun r =>
    if is_ok r then mret tt
    else
      org ← first_organization;
      let hash := hash_password k password in
      user ← user_create email (Some "Admin") URSuperAdmin (Some (org_id org));
      set_password_hash (user_id user) hash).

(** The steps on the database before the process listens; [admin] are the two variables when
    both are set.
    [godwit-bin/src/main.rs:40-50] [main] *)
Definition startup `{Sealing} `{Secrets} (master_key : string) (nonce_bytes : nat -> string) (k : nat) (env : string -> option string) : DB unit :=
  bootstrap_provider_profiles master_key nonce_bytes (legacy_providers_from_env env);;
  match env "ADMIN_EMAIL", env "ADMIN_PASSWORD" with
  | Some email, Some password => bootstrap_admin_user k email password
  | _, _ => mret tt
  end.

(** ** Facts *)

Lemma profiles_exist `{Sealing} master_key nonce_bytes legacy d :
  db_faults d = [] -> t_provider_profiles d <> [] -> bootstrap_provider_profiles master_key nonce_bytes legacy d = (Ok tt, d).
Proof.
  intros Hf Hp. unfold bootstrap_provider_profiles, profile_list. st_unfold. rewrite (select_all_pure _ _ _ d Hf), filterb_all. simpl.
  destruct (order_by _ (t_provider_profiles d)) eqn:E; [by apply order_by_nil in E|done].
Qed.
Lemma admin_exists `{Secrets} k email password d u :
  db_faults d = [] -> u ∈ t_users d -> user_email u = email -> bootstrap_admin_user k email password d = (Ok tt, d).
Proof.
  intros Hf Hu He. unfold bootstrap_admin_user, user_get_by_email. st_unfold. rewrite (select_one_pure _ _ d Hf). simpl.
  destruct (filterb (fun u => String.eqb (user_email u) email) (t_users d)) as [|x l] eqn:E; [|done]. exfalso.
  assert (u ∈ filterb (fun u => String.eqb (user_email u) email) (t_users d)) as Hin
    by (apply elem_of_filterb; split; [done|by apply String.eqb_eq]).
  rewrite E in Hin. by apply elem_of_nil in Hin.
Qed.

(** The organization of the first administrator: one that exists after the step. *)
Lemma first_organization_spec d r d' :
  db_faults d = [] -> first_organization d = (r, d') ->
  exists org, r = Ok org /\ org ∈ t_organizations d' /\ db_faults d' = [] /\ t_users d' = t_users d /\
    t_provider_profiles d' = t_provider_profiles d.
Proof.
  intros Hf. unfold first_organization, org_list. st_unfold. rewrite (select_all_pure _ _ _ d Hf), filterb_all. simpl.
  destruct (order_by _ (t_organizations d)) as [|org l] eqn:E; simpl.
  - unfold org_create, org_create_with_limits, fresh_id. st_unfold. rewrite insert_pure by done. intros. simplify_eq.
    eexists. split; [done|]. simpl. split; [|done]. apply elem_of_app. right. left.
  - intros. simplify_eq. exists org. split; [done|]. split; [|done].
    apply (order_by_in (fun a b => str_le (org_name a) (org_name b))). rewrite E. left.
Qed.

(** Starting again changes nothing.  When a profile exists and the administrator's email
    is taken, a start without failing statements leaves the database as it is, whatever the
    environment says now.  That also holds of what an interrupted start left behind: a profile
    without its key, an administrator without a password; no later start completes them. *)
Theorem a_start_completes_nothing `{Sealing} `{Secrets} master_key nonce_bytes k env d
  (Hf : db_faults d = []) (Hp : t_provider_profiles d <> [])
  (Hu : forall email, env "ADMIN_EMAIL" = Some email -> email ∈ (user_email <$> t_users d)) :
  startup master_key nonce_bytes k env d = (Ok tt, d).
Proof.
  unfold startup. st_unfold. rewrite (profiles_exist master_key nonce_bytes _ d Hf Hp).
  destruct (env "ADMIN_EMAIL") as [email|]; [|done]. destruct (env "ADMIN_PASSWORD") as [password|]; [|done].
  destruct (proj1 (list_elem_of_fmap _ _ _) (Hu email eq_refl)) as (u & -> & Hin). by eapply admin_exists.
Qed.

(** The row of the administrator as it is made, and with the hash of the password. *)
Definition admin_row (d1 : Db) (org : Organization) (email : string) (hash : option string) : User :=
  {| user_id := db_next d1; user_organization_id := Some (org_id org); user_email := email; user_name := Some "Admin";
     user_role := "super_admin"; user_sso_provider := None; user_sso_subject := None; user_password_hash := hash;
     user_password_changed_at := None; user_password_expires_at := None; user_must_change_password := false; user_created_at := db_now d1 |}.

Lemma no_such_email email d :
  email ∉ (user_email <$> t_users d) -> forall u, u ∈ t_users d -> String.eqb (user_email u) email = false.
Proof. intros Hn u Hu. apply String.eqb_neq. intros <-. apply Hn. by apply list_elem_of_fmap_2. Qed.

(** What the bootstrap does when nobody has the email. *)
Lemma bootstrap_makes_admin `{Sec : Secrets} k email password d :
  db_faults d = [] -> email ∉ (user_email <$> t_users d) ->
  exists d1 org d', bootstrap_admin_user k email password d = (Ok tt, d') /\ db_faults d' = [] /\
    org ∈ t_organizations d' /\ t_provider_profiles d' = t_provider_profiles d /\
    filterb (fun u => String.eqb (user_email u) email) (t_users d') = [admin_row d1 org email (Some (hash_password k password))].
Proof.
  intros Hf Hn. pose proof (no_such_email email d Hn) as Hnew.
  assert (user_get_by_email email d = (Err PNotFound, d)) as Hg
    by (unfold user_get_by_email; rewrite (select_one_pure _ _ d Hf), filterb_none; done).
  destruct (first_organization d) as [r d1] eqn:Ho.
  destruct (first_organization_spec d r d1 Hf Ho) as (org & -> & Hin & Hf1 & Hu1 & Hp1).
  assert (user_create email (Some "Admin") URSuperAdmin (Some (org_id org)) d1 =
          (Ok (admin_row d1 org email None), put_users (t_users d1 ++ [admin_row d1 org email None])%list (put_next (db_next d1 + 1) d1))) as Hc.
  { unfold user_create, fresh_id, gets. st_unfold.
    apply (insert_pure users user_ok (admin_row d1 org email None) (put_next (db_next d1 + 1) d1)); [done|].
    unfold user_ok, user_fk_ok. simpl. rewrite Hu1, (existsb_none _ (t_users d) Hnew). unfold opt_id_ok. simpl. rewrite andb_true_r.
    apply existsb_exists. exists org. split; [by apply list_elem_of_In|by apply Z.eqb_refl]. }
  eexists d1, org, _. split.
  { unfold bootstrap_admin_user, catch. rewrite Hg. cbn [is_ok]. unfold mbind, st_bind. rewrite Ho, Hc.
    unfold set_password_hash, mbind, st_bind, modify. rewrite stmt_ok by done. reflexivity. }
  split; [done|]. split; [done|]. split; [done|]. simpl. rewrite Hu1, fmap_app, filterb_app, filterb_none.
  - simpl. unfold is_id. rewrite Z.eqb_refl. simpl. by rewrite String.eqb_refl.
  - intros u (u0 & -> & Hu)%list_elem_of_fmap. specialize (Hnew u0 Hu). by case_match.
Qed.

(** The first administrator can log in.  On a database that has nobody of that email, and
    whose statements do not fail, the bootstrap ends with one user of that email: a super
    administrator of an existing organization.  A login with the email and password of the
    environment is then never refused for its credentials: whatever the configuration, the
    clock and the limiter, it issues a pair of tokens to that user, who need not change the
    password. *)
Theorem first_admin_can_log_in `{Sec : Secrets} `{!SecretsLaws Sec} `{F : F64} k email password d
  (Hf : db_faults d = []) (Hn : email ∉ (user_email <$> t_users d)) :
  exists user d', bootstrap_admin_user k email password d = (Ok tt, d') /\
    filterb (fun u => String.eqb (user_email u) email) (t_users d') = [user] /\
    user_role user = "super_admin" /\
    (exists org, org ∈ t_organizations d' /\ user_organization_id user = Some (org_id org)) /\
    forall cfg clock forwarded peer (s : Accounts F), ac_db s = d' ->
      login cfg clock forwarded peer {| lr_email := email; lr_password := password |} s =
      (reply ← issue_token_pair cfg (clock 2%nat) (clock 3%nat) (clock 4%nat) user;
       mret (reply.1, match reply.2 with VObject o => VObject (obj_insert "must_change_password" (VBool false) o) | v => v end)) s.
Proof.
  destruct (bootstrap_makes_admin k email password d Hf Hn) as (d1 & org & d' & Hb & Hf' & Hin & _ & Hone).
  exists (admin_row d1 org email (Some (hash_password k password))), d'. split; [done|]. split; [done|]. split; [done|].
  split; [by exists org|]. intros cfg clock forwarded peer s Hs.
  unfold login, catch, ac, zoom. simpl. rewrite Hs. unfold user_get_by_email. rewrite (select_one_pure _ _ d' Hf').
  change (rows users d') with (t_users d'). rewrite Hone. simpl. unfold lift, ok_or, mbind at 1, st_bind at 1. simpl.
  rewrite verify_own_hash. simpl.
  replace {| ac_db := d'; ac_limiter := ac_limiter s; ac_draws := ac_draws s |} with s by (destruct s; simpl in *; congruence). done.
Qed.

(** ** A first start *)

Section Fresh.
Context `{Sealing} (master_key : string) (nonce_bytes : nat -> string).

(** The row of a provider whose key backends are called with. *)
Definition seeded (p : LegacyProviderConfig) (r : ProviderProfile) : Prop :=
  profile_name r = lp_name p /\ profile_protocol r = lp_protocol p /\ allow_wildcard r = false /\ profile_enabled r = true /\
  resolve_credentials master_key r = Ok {| rp_base_url := lp_base_url p; rp_api_key := Some (lp_api_key p) |}.

Definition profile_row (d : Db) (p : LegacyProviderConfig) (auth : value) : ProviderProfile :=
  {| profile_id := db_next d; profile_name := lp_name p; profile_protocol := lp_protocol p; profile_base_url := Some (lp_base_url p);
     allow_wildcard := false; profile_auth := auth; profile_config := VObject []; profile_enabled := true; profile_created_at := db_now d |}.

Lemma fmap_if_none {T} (p : T -> bool) (f : T -> T) (l : list T) :
  (forall x, x ∈ l -> p x = false) -> (fun x => if p x then f x else x) <$> l = l.
Proof.
  induction l as [|x l IH]; csimpl; intros Hp; [done|]. rewrite (Hp x) by left. f_equal. apply IH. intros y Hy. apply Hp. by right.
Qed.

(** One provider: its row is made, then its key is stored in it. *)
Lemma bootstrap_one d p n :
  db_faults d = [] -> Forall (fun r => profile_id r < db_next d) (t_provider_profiles d) ->
  lp_name p ∉ (profile_name <$> t_provider_profiles d) ->
  let d1 := put_provider_profiles (t_provider_profiles d ++ [profile_row d p (VObject [])])%list (put_next (db_next d + 1) d) in
  profile_create (lp_name p) (lp_protocol p) (Some (lp_base_url p)) false d = (Ok (profile_row d p (VObject [])), d1) /\
  profile_set_auth (db_next d) (encrypt_api_key master_key n (lp_api_key p)) d1 =
    (Ok (profile_row d p (sealed_auth master_key n (lp_api_key p))),
     put_provider_profiles (t_provider_profiles d ++ [profile_row d p (sealed_auth master_key n (lp_api_key p))])%list (put_next (db_next d + 1) d)).
Proof.
  intros Hf Hids Hname d1. split.
  - unfold profile_create, fresh_id, gets. unfold mbind, st_bind.
    apply (insert_pure provider_profiles profile_ok (profile_row d p (VObject [])) (put_next (db_next d + 1) d)); [done|].
    unfold profile_ok. simpl. rewrite existsb_none; [done|]. intros r Hr. apply String.eqb_neq. intros E. apply Hname. rewrite <- E.
    by apply list_elem_of_fmap_2.
  - assert (forall r, r ∈ t_provider_profiles d -> is_id (profile_id r) (db_next d) = false) as Hno.
    { intros r Hr. rewrite Forall_forall in Hids. specialize (Hids r Hr). apply Z.eqb_neq. lia. }
    unfold profile_set_auth.
    erewrite (update_pure provider_profiles (fun r => is_id (profile_id r) (db_next d)) _ unchecked _ d1 (profile_row d p (VObject [])) []);
      [|done| |by apply forallb_forall].
    + f_equal. subst d1. simpl. unfold put_provider_profiles. simpl. f_equal. rewrite fmap_app, fmap_if_none by done.
      csimpl. by rewrite is_id_refl.
    + subst d1. simpl. rewrite filterb_app, filterb_none by done. simpl. by rewrite is_id_refl.
Qed.

Lemma bootstrap_each_runs legacy : forall k d,
  db_faults d = [] -> Forall (fun r => profile_id r < db_next d) (t_provider_profiles d) ->
  NoDup ((profile_name <$> t_provider_profiles d) ++ (lp_name <$> legacy))%list ->
  (forall i, str_len (nonce_bytes i) = 12) -> Forall (fun p => from_utf8 (lp_api_key p) = Ok (lp_api_key p)) legacy ->
  exists d' rows, bootstrap_each master_key nonce_bytes k legacy d = (Ok tt, d') /\ db_faults d' = [] /\ t_users d' = t_users d /\
    t_provider_profiles d' = (t_provider_profiles d ++ rows)%list /\ Forall2 seeded legacy rows.
Proof.
  induction legacy as [|p legacy IH]; intros k d Hf Hids Hnd Hn Hk.
  - exists d, []. rewrite app_nil_r. by repeat split.
  - rewrite fmap_cons in Hnd. apply Forall_cons in Hk as [Hkp Hk].
    assert (lp_name p ∉ (profile_name <$> t_provider_profiles d)) as Hname.
    { apply NoDup_app in Hnd as (_ & Hd & _). intros Hin. apply (Hd _ Hin). left. }
    destruct (bootstrap_one d p (nonce_bytes k) Hf Hids Hname) as [Ec Es].
    set (row := profile_row d p (sealed_auth master_key (nonce_bytes k) (lp_api_key p))) in *.
    destruct (IH (S k) (put_provider_profiles (t_provider_profiles d ++ [row])%list (put_next (db_next d + 1) d)))
      as (d' & rows & Eb & Hf' & Hu & Hr & Hs); simpl; try done.
    + apply Forall_app. split; [by eapply Forall_impl; [exact Hids|]; simpl; intros; lia|]. apply Forall_singleton. simpl. lia.
    + rewrite fmap_app, <- app_assoc. exact Hnd.
    + exists d', (row :: rows). split.
      { simpl. unfold mbind, st_bind. rewrite Ec. simpl profile_id. rewrite Es. exact Eb. }
      split; [done|]. split; [done|]. split; [rewrite Hr; simpl; by rewrite <- app_assoc|]. constructor; [|done].
      repeat split. rewrite (sealed_resolves master_key (nonce_bytes k) (lp_api_key p)) by done. reflexivity.
Qed.

Lemma legacy_names env : lp_name <$> legacy_providers_from_env env `sublist_of` ["openai"; "anthropic"; "gemini"].
Proof.
  unfold legacy_providers_from_env, legacy_provider.
  destruct (env "OPENAI_API_KEY"), (env "ANTHROPIC_API_KEY"), (env "GEMINI_API_KEY"); simpl; repeat constructor.
Qed.
End Fresh.

(** C15: a first start leaves a gateway that can be used.  On a database without profiles and
    users, whose statements succeed, the start succeeds.  Each provider whose key is in the
    environment then has one profile, in the order of the code: of its name, protocol and url,
    not open to wildcards, with the key sealed so that resolving its credentials gives back
    exactly it, and with an adapter the process registers for its protocol; there are no others.
    When the environment names an administrator there is one user of that email, a super
    administrator whose stored hash verifies the password. *)
Theorem fresh_start_is_usable `{Sealing} `{Sec : Secrets} `{!SecretsLaws Sec} master_key nonce_bytes k env d
  (Hf : db_faults d = []) (Hp : t_provider_profiles d = []) (Hu : t_users d = [])
  (Hn : forall i, str_len (nonce_bytes i) = 12)
  (Hk : Forall (fun p => from_utf8 (lp_api_key p) = Ok (lp_api_key p)) (legacy_providers_from_env env)) :
  exists d', startup master_key nonce_bytes k env d = (Ok tt, d') /\
    Forall2 (seeded master_key) (legacy_providers_from_env env) (t_provider_profiles d') /\
    Forall (fun p => is_Some (get_adapter (MkProtocol (profile_protocol p)) main_registry)) (t_provider_profiles d') /\
    forall email password, env "ADMIN_EMAIL" = Some email -> env "ADMIN_PASSWORD" = Some password ->
      exists user, filterb (fun u => String.eqb (user_email u) email) (t_users d') = [user] /\ user_role user = "super_admin" /\
        exists hash, user_password_hash user = Some hash /\ verify_password password hash = true.
Proof.
  destruct (bootstrap_each_runs master_key nonce_bytes (legacy_providers_from_env env) 0 d Hf) as (d1 & rows & Eb & Hf1 & Hu1 & Hr & Hs);
    [by rewrite Hp; apply Forall_nil_2| |done|done|].
  { rewrite Hp. simpl. eapply sublist_NoDup; [|apply legacy_names]. by apply (bool_decide_eq_true_1 (NoDup ["openai"; "anthropic"; "gemini"])). }
  rewrite Hp in Hr. simpl in Hr. rewrite Hu in Hu1.
  assert (bootstrap_provider_profiles master_key nonce_bytes (legacy_providers_from_env env) d = (Ok tt, d1)) as E1.
  { unfold bootstrap_provider_profiles, profile_list. unfold mbind, st_bind. rewrite (select_all_pure _ _ _ d Hf). simpl. by rewrite Hp. }
  assert (Forall (fun p => is_Some (get_adapter (MkProtocol (profile_protocol p)) main_registry)) rows) as Ha.
  { assert (Forall (fun p => is_Some (get_adapter (MkProtocol (lp_protocol p)) main_registry)) (legacy_providers_from_env env)) as Hl.
    { unfold legacy_providers_from_env, legacy_provider.
      destruct (env "OPENAI_API_KEY"), (env "ANTHROPIC_API_KEY"), (env "GEMINI_API_KEY"); simpl; repeat constructor; by eexists. }
    clear -Hs Hl. induction Hs as [|p r ps rs (_ & Hpr & _) _ IH]; [done|]. apply Forall_cons in Hl as [H1 H2]. constructor; [by rewrite Hpr|auto]. }
  unfold startup, mbind, st_bind. rewrite E1.
  destruct (env "ADMIN_EMAIL") as [email|]; [|exists d1; rewrite Hr; by repeat split].
  destruct (env "ADMIN_PASSWORD") as [password|]; [|exists d1; rewrite Hr; by repeat split].
  destruct (bootstrap_makes_admin k email password d1 Hf1) as (d0 & org & d' & E2 & _ & _ & Hp' & Hone).
  { rewrite Hu1. by intros Hin%elem_of_nil. }
  exists d'. split; [done|]. rewrite Hp', Hr. split; [done|]. split; [done|].
  intros e pw [= <-] [= <-]. eexists. split; [exact Hone|]. split; [done|]. eexists. split; [reflexivity|apply verify_own_hash].
Qed.

(** ** Witnesses *)

#[local] Existing Instances plain_secrets plain_secrets_laws whole_f64 toy_crypto toy_sealing.
Definition some_env (v : string) : option string :=
  match v with "OPENAI_API_KEY" => Some "sk-1" | "ADMIN_EMAIL" => Some "root@acme.com" | "ADMIN_PASSWORD" => Some "swordfish" | _ => None end.
Abbreviation start_with faults d := (startup "k" (fun _ => "twelve bytes") 0 some_env (put_faults faults d)).

(** A first start that loses the database before the key is stored, a second that loses it
    before the password is: the third completes neither. *)
Lemma a_start_completes_nothing_witness :
  let d1 := (start_with [None; None; Some "gone"] empty_db).2 in
  let d2 := (start_with [None; None; None; None; None; Some "gone"] d1).2 in
  (profile_auth <$> t_provider_profiles d2) = [VObject []] /\ (user_password_hash <$> t_users d2) = [None] /\
  start_with [] d2 = (Ok tt, put_faults [] d2).
Proof.
  cbv zeta. split; [vm_compute; reflexivity|]. split; [vm_compute; reflexivity|].
  apply (a_start_completes_nothing "k" (fun _ => "twelve bytes") 0 some_env).
  - reflexivity.
  - vm_compute. discriminate.
  - intros email He. vm_compute in He. injection He as <-. vm_compute. left.
Defined.

Definition swordfish : LoginRequest := {| lr_email := "root@acme.com"; lr_password := "swordfish" |}.
Abbreviation accounts_of d := {| ac_db := d; ac_limiter := login_new (F := whole_f64) 10; ac_draws := 0 |}.
Lemma first_admin_can_log_in_witness :
  exists user d', bootstrap_admin_user 0 "root@acme.com" "swordfish" empty_db = (Ok tt, d') /\ user_role user = "super_admin" /\
    (login Session.plain_config (fun _ => 0) None None swordfish (accounts_of d')).1 =
    ((reply ← issue_token_pair Session.plain_config 0 0 0 user;
      mret (reply.1, match reply.2 with VObject o => VObject (obj_insert "must_change_password" (VBool false) o) | v => v end))
       (accounts_of d')).1.
Proof.
  destruct (first_admin_can_log_in (F := whole_f64) 0 "root@acme.com" "swordfish" empty_db eq_refl) as (user & d' & Hb & _ & Hr & _ & Hl).
  { simpl. intros H. by apply elem_of_nil in H. }
  exists user, d'. split; [exact Hb|]. split; [exact Hr|].
  exact (f_equal fst (Hl Session.plain_config (fun _ => 0) None None (accounts_of d') eq_refl)).
Defined.
Example first_login_succeeds :
  is_ok (login Session.plain_config (fun _ => 0) None None swordfish
           (accounts_of (bootstrap_admin_user 0 "root@acme.com" "swordfish" empty_db).2)).1 = true.
Proof. vm_compute. reflexivity. Qed.

Definition three_keys (v : string) : option string :=
  match v with
  | "OPENAI_API_KEY" => Some "sk-1" | "GEMINI_API_KEY" => Some "g-2" | "GEMINI_BASE_URL" => Some "https://proxy"
  | "ADMIN_EMAIL" => Some "root@acme.com" | "ADMIN_PASSWORD" => Some "swordfish" | _ => None
  end.
Lemma fresh_start_is_usable_witness :
  exists d', startup "k" (fun _ => "twelve bytes") 0 three_keys empty_db = (Ok tt, d') /\
    (forall p, p ∈ t_provider_profiles d' -> exists q, q ∈ legacy_providers_from_env three_keys /\ seeded "k" q p) /\
    exists user, filterb (fun u => String.eqb (user_email u) "root@acme.com") (t_users d') = [user] /\ user_role user = "super_admin".
Proof.
  destruct (fresh_start_is_usable "k" (fun _ => "twelve bytes") 0 three_keys empty_db eq_refl eq_refl eq_refl) as (d' & E & Hs & _ & Ha).
  - reflexivity.
  - repeat constructor.
  - exists d'. split; [exact E|]. split.
    + intros p Hp. apply list_elem_of_lookup in Hp as [i Hi]. destruct (Forall2_lookup_r _ _ _ _ _ Hs Hi) as (q & Hq & Hqp).
      exists q. split; [eapply list_elem_of_lookup_2; exact Hq|exact Hqp].
    + destruct (Ha "root@acme.com" "swordfish" eq_refl eq_refl) as (user & Hu & Hr & _). exists user. split; [exact Hu|exact Hr].
Defined.
