(* ===== verification/Main.v ===== *)
(** * The process

    [godwit-bin/src/main.rs]: the configuration file is read, the database made ready
    ([Startup.v]), and the state that the handlers share is put together from the sections of
    the configuration. *)

From stdpp Require Import base strings list gmap pretty.
From Stdlib Require Import QArith Ascii.
From S2P Require Import Prelude RustStr Json Core Breaker Limiter Db Auth Admin Router Resilience Backend Streaming Adapters Providers Guardrails Mcp Agentic Config Chat Session Password Mail Catalog Startup.

#[local] Open Scope string_scope.
#[local] Open Scope Z_scope.

(** ** Parts *)

(** [godwit-bin/src/main.rs:161-174] [build_mcp_registry] *)
Definition build_mcp_registry {W} (config : AppConfig) (os : W) : McpRegistry W :=
  let servers := (fun s => {| mc_name := me_name s; mc_command := me_command s; mc_args := me_args s; mc_env := me_env s |})
                   <$> mcp_servers (cf_agentic config) in
  registry_from_config servers os.

(** [godwit-bin/src/main.rs:177-188] [build_searxng] *)
Definition build_searxng (config : AppConfig) : WebSearch :=
  match sx_config (cf_agentic config) with
  | Some s => {| searxng := true; searxng_profile := Some {| rp_base_url := sx_base_url s; rp_api_key := None |} |}
  | None => {| searxng := false; searxng_profile := None |}
  end.

(** [godwit-bin/src/main.rs:69-73] [main] *)
Definition build_breakers (config : AppConfig) : CircuitBreakerRegistry :=
  let cb_config := cf_circuit_breaker config in
  let threshold := from_option cbc_threshold 5 cb_config in
  let timeout := from_option recovery_timeout_secs 60 cb_config * second in
  let half_open_max := from_option half_open_max_requests 3 cb_config in
  registry_new threshold timeout half_open_max.

(** [godwit-bin/src/main.rs:76-78] [main] *)
Definition build_loop (config : AppConfig) : AgenticLoop :=
  {| max_iterations := Z.to_nat (ag_max_iterations (cf_agentic config)); iteration_timeout := 120 |}.

(** [godwit-bin/src/main.rs:81-89] [main] *)
Definition build_guardrails (config : AppConfig) : Guardrails :=
  new_guardrails {| pii_enabled := pii_on (cf_pii config); moderation_pre := default false (cf_moderation_pre config);
                    moderation_post := default false (cf_moderation_post config);
                    block_on_moderation_failure := default true (cf_block_on_moderation_failure config) |}.

(** ** The state *)

Section Process.
Context {W Net : Type} `{Ma : MailCrates Net} `{F : F64} `{Sealing} `{Sec : Secrets} `{Yaml}.
Context (reset_html reset_txt changed_html changed_txt : string).

(** What the handlers share.  The pool and the repositories are the database itself, the
    buckets of the rate limiter begin empty ([Limiter.v]).
    [godwit-api/src/state.rs:18-46] [AppState] *)
Record AppState : Type := {
  st_config : AppConfig;
  st_adapters : AdapterRegistry AdapterKind;
  st_mcp : McpRegistry W;
  st_web_search : WebSearch;
  st_mailer : option (Mailer Net);
  st_key_cache : gmap string ApiKey;
  st_master_key : string;
  st_login_limiter : LoginLimiter F;
  st_breakers : CircuitBreakerRegistry;
  st_loop : AgenticLoop;
  st_guardrails : Guardrails;
}.

(** [godwit-bin/src/main.rs:52-120] [main] *)
Definition build_state (config : AppConfig) (master_key : string) (os : W) : result string AppState :=
  mailer ← map_err (fun e => "failed to build mailer: " +:+ show_mail_error e)
             (mailer_build reset_html reset_txt changed_html changed_txt (cf_auth config));
  Ok {| st_config := config; st_adapters := main_registry; st_mcp := build_mcp_registry config os;
        st_web_search := build_searxng config; st_mailer := mailer; st_key_cache := ∅; st_master_key := master_key;
        st_login_limiter := login_new (as_u32 (Z.max (login_max_attempts_per_minute (cf_auth config)) 0));
        st_breakers := build_breakers config; st_loop := build_loop config; st_guardrails := build_guardrails config |}.

(** [file path] is the document at a path, or the error of opening or reading it.
    [godwit-bin/src/main.rs:147-157] [load_config] *)
Definition load_config (env : string -> option string) (file : string -> result string yaml) (bad : string) : result string AppConfig :=
  let path := default "config.yaml" (env "CONFIG_PATH") in
  document ← file path;
  ok_or bad (config_of_yaml document).

(** [format!("{}:{}", config.server.host, config.server.port)]
    [godwit-bin/src/main.rs:131-131] [main] *)
Definition server_address (config : AppConfig) : string := sv_host (cf_server config) +:+ ":" +:+ pretty (sv_port (cf_server config)).

(** The start of the process: the state it serves with and the address it listens at, or the
    error it ends with, and the database it leaves.  [migrate] is the connection with its
    migrations, [bind] the listener; the scheduler is started and the requests are served
    next.
    [godwit-bin/src/main.rs:32-145] [main] *)
Definition main (nonce_bytes : nat -> string) (k : nat) (env : string -> option string) (file : string -> result string yaml)
    (bad : string) (show_len : Z -> string) (migrate : string -> ST Db string unit)
    (bind : string -> result string unit) (os : W) : ST Db string (AppState * string) :=
  config ← lift (load_config env file bad);
  migrate (db_url (cf_database config));;
  master_key ← lift (map_err show_pasteur (load_master_key_from_env "CREDENTIAL_ENCRYPTION_KEY" env show_len));
  st_map_err show_pasteur (startup master_key nonce_bytes k env);;
  state ← lift (build_state config master_key os);
  lift (bind (server_address config));;
  mret (state, server_address config).
End Process.
Arguments AppState W Net {_} F.

(** ** What the process makes of its configuration *)

(** The state with another configuration kept in it, and nothing else changed. *)
Definition keep_config {W Net} `{MailCrates Net} `{F : F64} (c : AppConfig) (st : AppState W Net F) : AppState W Net F :=
  {| st_config := c; st_adapters := st_adapters st; st_mcp := st_mcp st; st_web_search := st_web_search st;
     st_mailer := st_mailer st; st_key_cache := st_key_cache st; st_master_key := st_master_key st;
     st_login_limiter := st_login_limiter st; st_breakers := st_breakers st; st_loop := st_loop st;
     st_guardrails := st_guardrails st |}.

(** The settings that the parts of the state are made of agree. *)
Definition same_settings (c c' : AppConfig) : Prop :=
  cf_auth c' = cf_auth c /\ cf_agentic c' = cf_agentic c /\ cf_circuit_breaker c' = cf_circuit_breaker c /\
  pii_on (cf_pii c') = pii_on (cf_pii c) /\ cf_moderation_pre c' = cf_moderation_pre c /\
  cf_moderation_post c' = cf_moderation_post c /\ cf_block_on_moderation_failure c' = cf_block_on_moderation_failure c.

Definition served_protocols : list string := ["openai"; "anthropic"; "gemini"; "vllm"; "sglang"; "llama_cpp"; "ollama"].

Lemma main_registry_lookup s a : adapters main_registry !! s = Some a -> s ∈ served_protocols /\ a <> AAzure.
Proof.
  unfold main_registry, register_adapter. cbn [adapters protocol_as_str]. rewrite !lookup_insert_Some, lookup_empty.
  intros Ha. repeat match goal with Hx : _ \/ _ |- _ => destruct Hx | Hx : _ /\ _ |- _ => destruct Hx end; simplify_eq;
    (split; [unfold served_protocols; set_solver|done]).
Qed.

Lemma registered_servers {W} configs (os : W) name :
  is_Some (servers (registry_from_config configs os) !! name) <-> name ∈ (mc_name <$> configs).
Proof.
  unfold registry_from_config. simpl.
  assert (forall m : gmap string ServerEntry,
    is_Some (foldl (fun m c => <[mc_name c := {| se_config := c; se_client := None |}]> m) m configs !! name) <->
    name ∈ (mc_name <$> configs) \/ is_Some (m !! name)) as Hg.
  { induction configs as [|c configs IH]; intros m; csimpl; [by rewrite elem_of_nil; intuition|].
    rewrite IH, elem_of_cons, lookup_insert_is_Some'. intuition congruence. }
  rewrite Hg, lookup_empty. split; [intros [?|[? ?]]; done|by left].
Qed.

Lemma unlimited_login `{F : F64} n now0 now ip :
  n <= 0 -> let l := login_new (as_u32 (Z.max n 0)) in attempt_allowed now0 now ip true l = (None, l).
Proof. intros Hn. rewrite Z.max_r by done. reflexivity. Qed.

Section Facts.
Context {W Net : Type} `{Ma : MailCrates Net} `{F : F64} `{Sealing} `{Sec : Secrets} `{Yaml}.
Context `{JsonText} `{RpcErrors} `{Formats} `{UrlEncoding} `{!HttpClient W} `{!Processes W}.
Context (reset_html reset_txt changed_html changed_txt : string).
Notation main := (main (W := W) reset_html reset_txt changed_html changed_txt).
Notation build_state := (build_state (W := W) reset_html reset_txt changed_html changed_txt).

End Facts.

(** ** Witness: the shipped configuration *)

#[local] Existing Instances toy_mail plain_secrets plain_secrets_laws whole_f64 toy_crypto toy_sealing plain_yaml
  coded_json mcp_errors plain_formats no_urls no_http no_processes.
Definition first_env (v : string) : option string :=
  match v with "CREDENTIAL_ENCRYPTION_KEY" => Some "0123456789abcdef0123456789abcdef" | _ => three_keys v end.
Definition shipped_files (path : string) : result string yaml :=
  if String.eqb path "config.yaml" then Ok (shipped_config [("login_max_attempts_per_minute", num 0)]) else Err "no such file".
Abbreviation first_run :=
  (main (W := Z) "" "" "" "" (fun _ => "twelve bytes") 0 first_env shipped_files "bad" (fun _ => "") (fun _ => mret tt) (fun _ => Ok tt) 0 empty_db).

