(* ===== verification/Ledger.v ===== *)
(** * The ledger: from what a request spawns to what is booked

    The handlers hand a log entry to a background task ([spawn_request_log] of
    [godwit-api/src/proxy.rs]), which inserts a row and drops whatever error it gets.  Here is
    that insertion, with the columns as the migrations declare them, and what a sequence of
    insertions in any order does to the costs the reports and the budgets are computed from. *)

From stdpp Require Import base strings list.
From Stdlib Require Import QArith Qabs.
From S2P Require Import Prelude RustStr Json Core Db Proxy Spend.

#[local] Open Scope string_scope.
#[local] Open Scope Z_scope.

(** ** Writing an entry *)

(** What the server checks of the row: the references, and that the cost fits its column. *)
Definition writable (e : RequestLogEntry) (d : Db) : bool :=
  existsb (fun k => is_id (key_id k) (le_api_key_id e)) (t_api_keys d)
  && existsb (fun u => is_id (user_id u) (le_user_id e)) (t_users d)
  && existsb (fun o => is_id (org_id o) (le_organization_id e)) (t_organizations d)
  && opt_id_ok team_id (le_team_id e) (t_teams d)
  && fits_column 6 (le_cost_usd e).

(** The row of an entry, as far as the program reads it back.
    [godwit-api/src/proxy.rs:1565-1585] [spawn_request_log] *)
Definition log_row (id now : Z) (e : RequestLogEntry) : RequestLog :=
  {| log_id := id; log_api_key_id := Some (le_api_key_id e); log_user_id := Some (le_user_id e);
     log_organization_id := le_organization_id e; log_team_id := le_team_id e; log_model := le_model e;
     log_provider := le_provider e; log_provider_model_id := le_provider_model_id e;
     log_capability := le_capability e; log_duration_ms := le_duration_ms e; log_streamed := le_streamed e;
     log_status := le_status e; log_cost_usd := numeric 6 <$> le_cost_usd e; log_tags := le_tags e;
     log_created_at := now; log_tool_calls_count := (fun c => as_i32 c) <$> le_tool_calls_count e;
     log_agentic_iteration := (fun i => as_i32 i) <$> le_agentic_iteration e;
     log_tokens_in := None; log_tokens_out := None |}.

(** The task: the outcome of the statement is not looked at.
    [godwit-api/src/proxy.rs:1564-1588] [spawn_request_log] *)
Definition write_log (e : RequestLogEntry) : DB RequestLog :=
  id ← fresh_id; now ← gets db_now;
  insert_row request_logs (fun l d => writable e d) (log_row id now e).

(** ** Accounts *)

(** What the sums of the program look at: the organization, the team and the cost of a row.
    Deleting a user or a key blanks the other two references and leaves these. *)
Definition Account : Type := Uuid * option Uuid * option Q.
Definition account (l : RequestLog) : Account := (log_organization_id l, log_team_id l, log_cost_usd l).
Definition booked_as (e : RequestLogEntry) : Account := (le_organization_id e, le_team_id e, numeric 6 <$> le_cost_usd e).
Definition account_rows (d : Db) : list Account := account <$> t_request_logs d.

Lemma write_log_spec e d :
  let '(r, d') := write_log e d in
  (match r with
   | Ok l => account_rows d' = (account_rows d ++ [booked_as e])%list /\ t_request_logs d' = (t_request_logs d ++ [l])%list /\
             l = log_row (db_next d) (db_now d) e /\ writable e d = true
   | Err er => account_rows d' = account_rows d /\ exists m, er = Database m
   end) /\
  (writable e d = true -> (forall m f, db_faults d <> Some m :: f) -> exists l, r = Ok l) /\
  (t_api_keys d' = t_api_keys d /\ t_users d' = t_users d /\ t_organizations d' = t_organizations d /\ t_teams d' = t_teams d).
Proof.
  unfold write_log, fresh_id, insert_row, get_db. st_unfold. destruct (stmt (put_next (db_next d + 1) d)) as [r d1] eqn:Es.
  assert ((forall m f, db_faults d <> Some m :: f) -> r = Ok tt) as Hok.
  { intros Hf. unfold stmt in Es. simpl in Es. destruct (db_faults d) as [|[m|] f]; [|by destruct (Hf m f)|]; by simplify_eq. }
  apply stmt_spec in Es as [[f ->] Hr]. destruct Hr as [->|[m ->]].
  - change (writable e _) with (writable e d). destruct (writable e d) eqn:Ew; simpl.
    + unfold account_rows. simpl. rewrite fmap_app. split_and!; eauto.
    + split_and!; eauto. done.
  - simpl. split_and!; eauto. intros _ Hf. by specialize (Hok Hf).
Qed.

(** ** Sums of accounts *)

Definition account_cost (a : Account) : Q := default 0%Q a.2.
Definition for_org (o : Uuid) (a : Account) : bool := is_id a.1.1 o.
Definition total (l : list Account) : Q := sumQ account_cost l.

Lemma total_app l1 l2 : (total (l1 ++ l2)%list == total l1 + total l2)%Q.
Proof. apply sumQ_app. Qed.
Lemma total_perm l1 l2 : l1 ≡ₚ l2 -> (total l1 == total l2)%Q.
Proof. apply sumQ_perm. Qed.

(** The sum of a report without limits of time for an organization is that of its accounts. *)
Lemma report_total o d :
  total_cost (filterb (visible_log None None (Some o) None None) (t_request_logs d)) = total (filterb (for_org o) (account_rows d)).
Proof.
  unfold account_rows. induction (t_request_logs d) as [|l ls IH]; [done|]. simpl. unfold visible_log at 1, for_org at 1. simpl.
  unfold in_org, in_window. simpl. rewrite !andb_true_r. destruct (is_id (log_organization_id l) o); simpl; [|exact IH].
  unfold total in *. simpl. by rewrite IH.
Qed.

Lemma near_add (x x' y y' r a b : Q) :
  (0 <= r -> Qabs (x - x') * r <= a -> Qabs (y - y') * r <= b -> Qabs (x + y - (x' + y')) * r <= a + b)%Q.
Proof.
  intros Hr Ha Hb. assert (x + y - (x' + y') == (x - x') + (y - y'))%Q as E by ring. rewrite E.
  eapply Qle_trans; [|apply Qplus_le_compat; [exact Ha|exact Hb]]. rewrite <- Qmult_plus_distr_l.
  apply Qmult_le_compat_r; [apply Qabs_triangle|done].
Qed.

(** The rounding of the column: half of a millionth for each cost booked. *)
Definition exact_cost (e : RequestLogEntry) : Q := default 0%Q (le_cost_usd e).
Lemma booked_near (es : list RequestLogEntry) :
  (Qabs (total (booked_as <$> es) - sumQ exact_cost es) * inject_Z (2 * 10 ^ 6) <= inject_Z (Z.of_nat (length es)))%Q.
Proof.
  induction es as [|e es IH]; [vm_compute; congruence|]. simpl length. rewrite Nat2Z.inj_succ, <- Z.add_1_l, inject_Z_plus.
  apply (near_add (account_cost (booked_as e)) (exact_cost e)); [by vm_compute| |exact IH].
  unfold account_cost, booked_as, exact_cost. destruct (le_cost_usd e) as [q|]; [|vm_compute; congruence].
  by apply (numeric_near 6).
Qed.
