(* ===== verification/Books.v ===== *)
(** * The books and the admin API

    No call of the admin API changes the accounts of the log: whatever it does to users, teams,
    keys, organizations, end users, the catalog, sessions and passwords, with statements failing
    or not, every row of the log keeps its organization, its team and its cost.  (Deleting a
    user or a key blanks the two other references of a row; a team or an organization with rows
    cannot be deleted.) *)

From stdpp Require Import base gmap strings list.
From Stdlib Require Import QArith.
From S2P Require Import Prelude RustStr Json Core Limiter Db Auth Admin Router Config Session Sso Password Mail Catalog Spend Ledger.

#[local] Open Scope string_scope.
#[local] Open Scope Z_scope.

(** ** What keeps the books *)

(** [m] keeps the accounts of the log, in a state that holds the database [db]. *)
Definition keeps_books {S E T} (db : S -> Db) (m : ST S E T) : Prop := forall s, account_rows (db (m s).2) = account_rows (db s).

Create HintDb books discriminated.

Section Closure.
Context {S : Type} (db : S -> Db).

Lemma books_ret {E T} (x : T) : keeps_books (E := E) db (mret x).
Proof. done. Qed.
Lemma books_throw {E T} (e : E) : keeps_books (T := T) db (throw e).
Proof. done. Qed.
Lemma books_lift {E T} (r : result E T) : keeps_books db (lift r).
Proof. done. Qed.
Lemma books_gets {E T} (f : S -> T) : keeps_books (E := E) db (gets f).
Proof. done. Qed.
Lemma books_fail_if {E} b (e : E) : keeps_books db (fail_if b e).
Proof. by destruct b. Qed.
Lemma books_bind {E T U} (m : ST S E T) (k : T -> ST S E U) :
  keeps_books db m -> (forall x, keeps_books db (k x)) -> keeps_books db (x ← m; k x).
Proof.
  intros Hm Hk s. unfold mbind, st_bind. specialize (Hm s). destruct (m s) as [[x|e] s1]; simpl in *; [|done].
  by rewrite Hk.
Qed.
Lemma books_catch {E F T U} (m : ST S E T) (k : result E T -> ST S F U) :
  keeps_books db m -> (forall r, keeps_books db (k r)) -> keeps_books db (catch m k).
Proof. intros Hm Hk s. unfold catch. specialize (Hm s). destruct (m s) as [r s1]. simpl in *. by rewrite Hk. Qed.
Lemma books_map_err {E F T} (f : E -> F) (m : ST S E T) : keeps_books db m -> keeps_books db (st_map_err f m).
Proof. intros Hm s. unfold st_map_err. specialize (Hm s). by destruct (m s). Qed.
Lemma books_zoom {T E A} (g : S -> T) (p : T -> S -> S) (db' : T -> Db) (m : ST T E A) :
  (forall s, db' (g s) = db s) -> (forall t s, db (p t s) = db' t) -> keeps_books db' m -> keeps_books db (zoom g p m).
Proof. intros Hg Hp Hm s. unfold zoom. specialize (Hm (g s)). destruct (m (g s)) as [r t]. simpl in *. by rewrite Hp, <- Hg. Qed.
(** A part of the state that is not the database. *)
Lemma books_aside {T E A} (g : S -> T) (p : T -> S -> S) (m : ST T E A) :
  (forall t s, db (p t s) = db s) -> keeps_books db (zoom g p m).
Proof. intros Hp s. unfold zoom. destruct (m (g s)) as [r t]. simpl. by rewrite Hp. Qed.
End Closure.
#[export] Hint Resolve books_ret books_throw books_lift books_gets books_fail_if books_bind books_catch books_map_err : books.

(** ** Statements *)

Abbreviation keeps_db := (keeps_books (fun d : Db => d)).

Lemma books_modify {E} (f : Db -> Db) : (forall d, account_rows (f d) = account_rows d) -> keeps_books (E := E) (fun d => d) (modify f).
Proof. intros Hf d. apply Hf. Qed.
Lemma books_stmt : keeps_db stmt.
Proof. intros d. destruct (stmt d) as [r d'] eqn:E. apply stmt_spec in E as [[f ->] _]. done. Qed.
Lemma books_fresh_id : keeps_db fresh_id.
Proof. done. Qed.
Lemma books_get_db : keeps_db get_db.
Proof. done. Qed.
#[export] Hint Resolve books_stmt books_fresh_id books_get_db : books.

(** Every table but the log. *)
Definition off_the_books {R} (t : table R) : Prop := forall l d, t_request_logs (put t l d) = t_request_logs d.
Section Tables.
Context {R : Type} (t : table R).
Lemma books_select_one p : keeps_db (select_one t p).
Proof. apply books_bind; [apply books_stmt|intros _]. apply books_bind; [done|intros d]. by destruct (filterb _ _). Qed.
Lemma books_select_all p le : keeps_db (select_all t p le).
Proof. apply books_bind; [apply books_stmt|intros _]. by apply books_bind. Qed.
Lemma books_put l : off_the_books t -> forall d, account_rows (put t l d) = account_rows d.
Proof. intros Ht d. unfold account_rows. by rewrite Ht. Qed.
Lemma books_insert ok r : off_the_books t -> keeps_db (insert_row t ok r).
Proof.
  intros Ht. apply books_bind; [apply books_stmt|intros _]. apply books_bind; [done|intros d]. destruct (ok r d); [|done].
  apply books_bind; [apply books_modify; by apply books_put|done].
Qed.
Lemma books_update p f ok e : off_the_books t -> keeps_db (update_rows t p f ok e).
Proof.
  intros Ht. apply books_bind; [apply books_stmt|intros _]. apply books_bind; [done|intros d]. destruct (filterb _ _); [done|].
  destruct (forallb _ _); [|done]. apply books_bind; [apply books_modify; by apply books_put|done].
Qed.
Lemma books_delete p : off_the_books t -> keeps_db (delete_rows t p).
Proof.
  intros Ht. apply books_bind; [apply books_stmt|intros _]. apply books_bind; [done|intros d].
  apply books_bind; [apply books_modify; by apply books_put|done].
Qed.
End Tables.
#[export] Hint Resolve books_select_one books_select_all : books.
#[export] Hint Extern 1 (keeps_books _ (insert_row _ _ _)) => (apply books_insert; intros ? ?; reflexivity) : books.
#[export] Hint Extern 1 (keeps_books _ (update_rows _ _ _ _ _)) => (apply books_update; intros ? ?; reflexivity) : books.
#[export] Hint Extern 1 (keeps_books _ (delete_rows _ _)) => (apply books_delete; intros ? ?; reflexivity) : books.

Lemma forget_accounts gone keys (ls : list RequestLog) : account <$> (log_forget gone keys <$> ls) = account <$> ls.
Proof. rewrite <- list_fmap_compose. by apply list_fmap_ext. Qed.
Lemma forget_key_accounts gone (ls : list RequestLog) : account <$> (log_forget_key gone <$> ls) = account <$> ls.
Proof. rewrite <- list_fmap_compose. by apply list_fmap_ext. Qed.
#[export] Hint Extern 1 (keeps_books _ (modify _)) =>
  (apply books_modify; intros ?; first [reflexivity | apply forget_accounts | apply forget_key_accounts]) : books.

(** Look into the computation: its branches, then its definition. *)
Ltac balance :=
  intros;
  first [solve [auto with books nocore]
        | lazymatch goal with
          | |- keeps_books _ (mbind _ _) => apply books_bind; balance
          | |- keeps_books _ (catch _ _) => apply books_catch; balance
          | |- keeps_books _ (st_map_err _ _) => apply books_map_err; balance
          | |- keeps_books _ (match ?x with _ => _ end) => destruct x; balance
          | |- keeps_books _ ?m => let h := get_head m in progress unfold h; balance
          end].

(** ** The calls of the admin API *)

Section Calls.
Context `{Fmt} `{Cr : Crypto} `{Se : @Sealing Cr} `{Unicode} `{Sec : Secrets} `{F : F64}.
Context {Net Post : Type} `{OidcCrate Net} `{MailCrates Post}.
Context (master_key common reset_html reset_txt : string) (cfg : AuthConfig) (date_of : Z -> Z) (days_before : Z -> Z -> option Z).
Context (mailer : option (Mailer Post)).

(** A handler of the admin API on the database, with its caller and its arguments. *)
Inductive AdminCall : Type :=
| AdOfUser (c : Claims) (k : user_call) | AdOfCatalog (c : Claims) (k : CatalogCall) | AdOfEndUser (c : Claims) (k : EndUserCall)
| AdListUsers (c : Claims) (org : option Uuid) | AdGetUser (c : Claims) (id : Uuid)
| AdListTeams (c : Claims) (org : option Uuid) | AdGetTeam (c : Claims) (id : Uuid)
| AdCreateTeam (c : Claims) (name : string) (org : option Uuid) (budget max_budget : option Q)
| AdUpdateTeam (c : Claims) (id : Uuid) (name : option string) (budget max_budget : option Q) | AdDeleteTeam (c : Claims) (id : Uuid)
| AdAddMember (c : Claims) (team user : Uuid) (role : string) | AdRemoveMember (c : Claims) (team user : Uuid)
| AdListKeys (c : Claims) (org : option Uuid) | AdGetKey (c : Claims) (id : Uuid) | AdDeleteKey (c : Claims) (id : Uuid)
| AdCreateKey (c : Claims) (name : string) (scopes allowed : list string) (rpm tpm : option Z) (generated : string * string * string)
| AdBlockKey (c : Claims) (id : Uuid) | AdUnblockKey (c : Claims) (id : Uuid)
| AdRegenerateKey (c : Claims) (id : Uuid) (generated : string * string * string) | AdResetSpend (c : Claims) (id : Uuid)
| AdGetOrganization (c : Claims) (id : Uuid) | AdListOrganizations (c : Claims)
| AdCreateOrganization (c : Claims) (name : string) (rpm tpm : option Z)
| AdUpdateOrganization (c : Claims) (id : Uuid) (name : option string) (rpm tpm : option Z) | AdDeleteOrganization (c : Claims) (id : Uuid)
| AdGetSpend (c : Claims) (q : SpendQuery) | AdGetSpendTags (c : Claims) (q : SpendTagsQuery) | AdGetSpendLogs (c : Claims) (q : SpendLogsQuery)
| AdGetStats (c : Claims) (org : option Uuid) | AdGetActivity (c : Claims) (limit : option Z) (org : option Uuid).

Definition run_admin_call (k : AdminCall) (d : Db) : Db :=
  match k with
  | AdOfUser c k => (run_user_call c k d).2 | AdOfCatalog c k => (run_catalog_call master_key c k d).2 | AdOfEndUser c k => (run_end_user_call c k d).2
  | AdListUsers c org => (list_users c org d).2 | AdGetUser c id => (get_user c id d).2
  | AdListTeams c org => (list_teams c org d).2 | AdGetTeam c id => (get_team c id d).2
  | AdCreateTeam c name org b m => (create_team c name org b m d).2 | AdUpdateTeam c id name b m => (update_team c id name b m d).2
  | AdDeleteTeam c id => (delete_team c id d).2
  | AdAddMember c team user role => (add_team_member c team user role d).2 | AdRemoveMember c team user => (remove_team_member c team user d).2
  | AdListKeys c org => (list_api_keys c org d).2 | AdGetKey c id => (get_api_key c id d).2 | AdDeleteKey c id => (delete_api_key c id d).2
  | AdCreateKey c name scopes allowed rpm tpm g => (create_api_key c name scopes allowed rpm tpm g d).2
  | AdBlockKey c id => (block_key c id d).2 | AdUnblockKey c id => (unblock_key c id d).2
  | AdRegenerateKey c id g => (regenerate_key c id g d).2 | AdResetSpend c id => (reset_spend c id d).2
  | AdGetOrganization c id => (get_organization c id d).2 | AdListOrganizations c => (list_organizations c d).2
  | AdCreateOrganization c name rpm tpm => (create_organization c name rpm tpm d).2
  | AdUpdateOrganization c id name rpm tpm => (update_organization c id name rpm tpm d).2 | AdDeleteOrganization c id => (delete_organization c id d).2
  | AdGetSpend c q => (get_spend date_of days_before c q d).2 | AdGetSpendTags c q => (get_spend_tags c q d).2 | AdGetSpendLogs c q => (get_spend_logs c q d).2
  | AdGetStats c org => (get_stats c org d).2 | AdGetActivity c limit org => (get_recent_activity c limit org d).2
  end.

(** The same for the routes of sessions, passwords and single sign-on, which have more state. *)
Inductive AccountCall : Type :=
| AdLogin (clock : nat -> Z) (forwarded peer : option string) (req : LoginRequest)
| AdRefresh (clock : nat -> Z) (cookie body_token : option string) | AdLogout (cookie body_token : option string)
| AdMe (c : Claims) | AdRevokeAll (c : Claims)
| AdChangePassword (now : Z) (c : Claims) (old new : string) | AdChangeRequired (now now' : Z) (c : Claims) (new : string)
| AdAdminReset (now : Z) (c : Claims) (target : Uuid) (new : string) | AdResetPassword (now now' : Z) (token new : string)
| AdForgotPassword (now : Z) (email : string) (w : Post)
| AdOidcStart (provider : string) (w : Net) | AdOidcBack (clock : nat -> Z) (provider : string) (params : OidcCallback) (w : Net)
| AdSamlAcs (provider : string) (w : Net).
Definition run_account_call (k : AccountCall) (s : Accounts F) : Accounts F :=
  match k with
  | AdLogin clock f p req => (login cfg clock f p req s).2 | AdRefresh clock ck t => (refresh cfg clock ck t s).2
  | AdLogout ck t => (logout ck t s).2 | AdMe c => (me c s).2 | AdRevokeAll c => (revoke_all_sessions c s).2
  | AdChangePassword now c old new => (change_password common cfg now c old new s).2
  | AdChangeRequired now now' c new => (change_required common cfg now now' c new s).2
  | AdAdminReset now c target new => (admin_reset_password common cfg now c target new s).2
  | AdResetPassword now now' token new => (reset_password common cfg now now' token new s).2
  | AdForgotPassword now email w =>
    of_accounts (forgot_password_by_mail reset_html reset_txt mailer cfg now email {| of_accounts := s; of_mail := w |}).2
  | AdOidcStart p w => vs_accounts (oidc_start cfg p {| vs_accounts := s; vs_network := w |}).2
  | AdOidcBack clock p q w => vs_accounts (oidc_callback cfg clock p q {| vs_accounts := s; vs_network := w |}).2
  | AdSamlAcs p w => vs_accounts (saml_acs p {| vs_accounts := s; vs_network := w |}).2
  end.

(** What the admin API makes of the database, by any caller with any arguments. *)
Inductive admin_acts : Db -> Db -> Prop :=
| acts_on_tables k d : admin_acts d (run_admin_call k d)
| acts_on_accounts k s : admin_acts (ac_db s) (ac_db (run_account_call k s)).

(** ** They keep the books *)

Notation keeps_ac := (keeps_books ac_db).
Lemma books_ac {T} (m : DB T) : keeps_db m -> keeps_ac (ac (F := F) m).
Proof. by apply books_zoom. Qed.
Lemma books_ac_core {T} (m : DB T) : keeps_db m -> keeps_ac (ac_core (F := F) m).
Proof. intros Hm. by apply books_map_err, books_ac. Qed.
Lemma books_or_else {T} e (m : DB T) : keeps_db m -> keeps_ac (or_else (F := F) e m).
Proof. intros Hm. by apply books_map_err, books_ac. Qed.
Lemma books_draw : keeps_ac (draw (F := F)).
Proof. done. Qed.
Lemma books_failed_login now0 now ip : keeps_ac (failed_login now0 now ip).
Proof. intros s. unfold failed_login. by destruct (attempt_allowed _ _ _ _ _). Qed.
#[local] Hint Resolve books_draw books_failed_login : books.
#[local] Hint Extern 2 (keeps_books _ (ac _)) => (apply books_ac; balance) : books.
#[local] Hint Extern 2 (keeps_books _ (ac_core _)) => (apply books_ac_core; balance) : books.
#[local] Hint Extern 2 (keeps_books _ (or_else _ _)) => (apply books_or_else; balance) : books.

Lemma admin_call_keeps k d : account_rows (run_admin_call k d) = account_rows d.
Proof.
  destruct k; try match goal with x : user_call |- _ => destruct x | x : CatalogCall |- _ => destruct x | x : EndUserCall |- _ => destruct x end;
    cbn [run_admin_call run_user_call run_catalog_call run_end_user_call];
    match goal with |- account_rows (?m d).2 = _ => enough (keeps_db m) as Hm by exact (Hm d) end; balance.
Qed.

Lemma books_password now user new : keeps_ac (do_password_change common cfg now user new).
Proof. balance. Qed.
#[local] Hint Resolve books_password : books.
Lemma books_mail {T} (m : ST Post (failure MailError) T) : keeps_books (fun o => ac_db (of_accounts o)) (in_mail (F := F) m).
Proof. by apply books_aside. Qed.
Lemma books_in_accounts {E T} (m : ST (Accounts F) E T) : keeps_ac m -> keeps_books (fun o => ac_db (of_accounts o)) (in_accounts (W := Post) m).
Proof. by apply books_zoom. Qed.
Lemma books_network {T} e (m : ST Net PasteurError T) : keeps_books (fun v => ac_db (vs_accounts v)) (at_network (F := F) e m).
Proof. apply books_map_err. by apply books_aside. Qed.
Lemma books_at_accounts {E T} (m : ST (Accounts F) E T) : keeps_ac m -> keeps_books (fun v => ac_db (vs_accounts v)) (at_accounts (W := Net) m).
Proof. by apply books_zoom. Qed.
#[local] Hint Resolve books_mail books_network : books.
#[local] Hint Extern 2 (keeps_books _ (in_accounts _)) => (apply books_in_accounts; balance) : books.
#[local] Hint Extern 2 (keeps_books _ (at_accounts _)) => (apply books_at_accounts; balance) : books.

Lemma account_call_keeps k s : account_rows (ac_db (run_account_call k s)) = account_rows (ac_db s).
Proof.
  destruct k; cbn [run_account_call];
    match goal with
    | |- account_rows (ac_db (of_accounts (?m ?o).2)) = _ => enough (keeps_books (fun x : Office Post F => ac_db (of_accounts x)) m) as Hm by exact (Hm o)
    | |- account_rows (ac_db (vs_accounts (?m ?v).2)) = _ => enough (keeps_books (fun x : Visit Net F => ac_db (vs_accounts x)) m) as Hm by exact (Hm v)
    | |- account_rows (ac_db (?m s).2) = _ => enough (keeps_ac m) as Hm by exact (Hm s)
    end; balance.
Qed.

Lemma admin_keeps_books d d' : admin_acts d d' -> account_rows d' = account_rows d.
Proof. intros [k d0|k s]; [apply admin_call_keeps|apply account_call_keeps]. Qed.
End Calls.
