(* ===== verification/Node.v ===== *)
(** * A node at work

    A request to the proxy from its header to the ledger: the route of [app.rs] gives its
    layers ([middleware.rs]), the layers give its key, the handler of that name answers it and
    hands its log entry to a task, and the task writes it ([Ledger.v]).  Requests, writes and
    whatever else changes the database, the world and the cache of keys come in any order; a
    request is one step here, so what requests in flight together do to each other is not
    seen, only what they do to those after them.

    axum's extractors, which read a body, a form or a query as the type a handler wants, are
    the class [Extractors]: a value, or the status with which they refuse. *)

From stdpp Require Import base gmap strings list.
From Stdlib Require Import QArith Qabs SpecFloat.
From S2P Require Import Prelude RustStr Json Core Limiter Balancer Db Metrics Auth Admin Config Session Sso Password Mail Router Resilience Usage Backend Serde Streaming PromptCache Adapters Guardrails Proxy ProxyFacts Mcp Agentic Chat Messages Catalog Spend App Ledger Books.

#[local] Open Scope string_scope.
#[local] Open Scope Z_scope.

(** ** Endpoints *)

(** The routes behind the layer of API keys, by their handlers. *)
Inductive Endpoint : Type :=
| EChat | EMessages | EEmbeddings | EImages | ESpeech | ETranscriptions | EEdits | EModels | EModerations | ERerank
| ECreateBatch | EListBatches | EGetBatch | ECancelBatch | EBatchResults | EDeleteBatch | EModelInfo.
Definition all_endpoints : list Endpoint :=
  [EChat; EMessages; EEmbeddings; EImages; ESpeech; ETranscriptions; EEdits; EModels; EModerations; ERerank;
   ECreateBatch; EListBatches; EGetBatch; ECancelBatch; EBatchResults; EDeleteBatch; EModelInfo].

Definition place (e : Endpoint) : Verb * string :=
  match e with
  | EChat => (POST, "/v1/chat/completions") | EMessages => (POST, "/v1/messages")
  | EEmbeddings => (POST, "/v1/embeddings") | EImages => (POST, "/v1/images/generations")
  | ESpeech => (POST, "/v1/audio/speech") | ETranscriptions => (POST, "/v1/audio/transcriptions")
  | EEdits => (POST, "/v1/images/edits") | EModels => (GET, "/v1/models")
  | EModerations => (POST, "/v1/moderations") | ERerank => (POST, "/v1/rerank")
  | ECreateBatch => (POST, "/v1/batches") | EListBatches => (GET, "/v1/batches")
  | EGetBatch => (GET, "/v1/batches/:id") | ECancelBatch => (POST, "/v1/batches/:id/cancel")
  | EBatchResults => (GET, "/v1/batches/:id/results") | EDeleteBatch => (DELETE, "/v1/batches")
  | EModelInfo => (GET, "/v1/model/info")
  end.
Definition endpoint_handler (e : Endpoint) : string :=
  match e with
  | EChat => "chat_completions" | EMessages => "messages" | EEmbeddings => "embeddings" | EImages => "image_generations"
  | ESpeech => "audio_speech" | ETranscriptions => "audio_transcriptions" | EEdits => "image_edits" | EModels => "list_models"
  | EModerations => "moderations" | ERerank => "rerank" | ECreateBatch => "create_batch" | EListBatches => "list_batches"
  | EGetBatch => "get_batch" | ECancelBatch => "cancel_batch" | EBatchResults => "get_batch_results"
  | EDeleteBatch => "delete_batch" | EModelInfo => "get_model_info"
  end.
(** The route of an endpoint in the table of the application. *)
Definition route_of (e : Endpoint) : option Route := head (filterb (fun r => bool_decide (key_of r = place e)) route_table).

(** Every endpoint has a route, with its handler, and the layers [layers e]. *)
Definition reads_model (e : Endpoint) : bool :=
  match e with
  | EChat | EMessages | EModerations | ERerank | ECreateBatch | EListBatches | EGetBatch | ECancelBatch | EBatchResults
  | EDeleteBatch => true
  | _ => false
  end.
Definition layers (e : Endpoint) : list Layer := if reads_model e then [ApiKeyAuth; ModelScope] else [ApiKeyAuth].

Lemma route_of_endpoint e : exists r, route_of e = Some r /\ rt_layers r = layers e /\ h_name (rt_handler r) = endpoint_handler e.
Proof. destruct e; (eexists; split; [vm_compute; reflexivity|split; reflexivity]). Qed.

(** They are the routes the layer is on. *)
Lemma endpoints_complete : key_of <$> filterb (has_layer ApiKeyAuth) route_table ≡ₚ place <$> all_endpoints.
Proof.
  apply NoDup_Permutation.
  - apply (bool_decide_eq_true_1 (NoDup (key_of <$> filterb (has_layer ApiKeyAuth) route_table))). vm_compute. reflexivity.
  - apply (bool_decide_eq_true_1 (NoDup (place <$> all_endpoints))). vm_compute. reflexivity.
  - assert (forall l l' : list (Verb * string), bool_decide (Forall (fun k => k ∈ l') l) = true ->
              bool_decide (Forall (fun k => k ∈ l) l') = true -> forall k, k ∈ l <-> k ∈ l') as Hs.
    { intros l l' H1%bool_decide_eq_true H2%bool_decide_eq_true k. rewrite Forall_forall in H1, H2. split; auto. }
    apply Hs; vm_compute; reflexivity.
Qed.

(** ** Requests *)

Record Call : Type := {
  rq_endpoint : Endpoint;
  rq_headers : Headers;
  rq_content_type : option string;
  rq_tags : option string;         (* the header [x-godwit-tags] *)
  rq_query : string;
  rq_param : string;               (* of the path, where it has one *)
  rq_body : result string string;  (* its bytes, or why they could not be read *)
  rq_now : Z; rq_now' : Z;         (* the clock, as the layer of keys reads it *)
  rq_id : string;                  (* the UUID drawn for the request *)
}.

Class Extractors := {
  json_body {T} : (value -> option T) -> Call -> result Z T;
  multipart : Call -> result Z (list (result string Field));
  model_query : Call -> result Z string;
}.

(** How a request ends that is not answered: a status of a layer or an extractor, an error of
    a handler, or a panic. *)
Inductive Refusal : Type := Status (st : Z) | Api (e : ApiError) | Crash.
Inductive Answer (Es : Type) : Type :=
| AChat (r : ChatReply Es)
| AMessages (r : MessagesReply (Es := Es))
| AProvider (r : ProviderResponse)
| AResponse (r : Response).
Arguments AChat {Es} r. Arguments AMessages {Es} r. Arguments AProvider {Es} r. Arguments AResponse {Es} r.

Section Node.
Context `{Cr : Crypto} `{JT : JsonText} `{Sc : Schemas} `{De : Decimals} `{F : F64} {A W Es : Type}.
Context `{Wo : !World W} `{Ad : !Adapter A W Es} `{Ht : !HttpClient W} `{Pr : !Processes W} `{Dl : !Deadlines W}.
Context `{RE : RpcErrors} `{Fo : Formats} `{Ur : UrlEncoding} `{Ho : HashOrder} `{Re : Regexes} `{Sn : StatusNames} `{Ex : Extractors}.
Context (registry : AdapterRegistry A) (master_key version : string) (ws : WebSearch) (agentic : AgenticLoop).
Context (timestamp : Z -> Z) (verify_key : string -> string -> bool).

Record Node : Type := { nd_keys : gmap string ApiKey; nd_gateway : Gateway (F := F) (W := W) }.
Abbreviation NODE := (ST Node Refusal).
Definition proxy_of (s : Node) : Proxy (F := F) (W := W) := gt_proxy (nd_gateway s).
Definition db_of (s : Node) : Db := px_db (proxy_of s).
Definition put_proxy_db (d : Db) (ls : list RequestLogEntry) (p : Proxy (F := F) (W := W)) : Proxy :=
  {| px_db := d; px_lb := px_lb p; px_limiter := px_limiter p; px_world := px_world p; px_logs := ls |}.
Definition at_time (t : Z) (d : Db) : Db :=
  {| t_organizations := t_organizations d; t_users := t_users d; t_api_keys := t_api_keys d;
     t_models := t_models d; t_provider_profiles := t_provider_profiles d; t_teams := t_teams d;
     t_team_memberships := t_team_memberships d; t_refresh_tokens := t_refresh_tokens d; t_end_users := t_end_users d;
     t_request_logs := t_request_logs d; t_model_aliases := t_model_aliases d; t_password_history := t_password_history d;
     t_password_reset_tokens := t_password_reset_tokens d; db_faults := db_faults d; db_next := db_next d; db_now := t |}.
Definition put_db_logs (d : Db) (ls : list RequestLogEntry) (s : Node) : Node :=
  {| nd_keys := nd_keys s; nd_gateway := put_proxy (put_proxy_db d ls (proxy_of s)) (nd_gateway s) |}.

Definition on_gateway {T} (m : ST Gateway (failure ApiError) T) : NODE T :=
  st_map_err (fun e => match e with Failed e => Api e | Panic => Crash end)
    (zoom nd_gateway (fun g s => {| nd_keys := nd_keys s; nd_gateway := g |}) m).
(** The services that know nothing but the world outside. *)
Definition on_service {T} (m : ST W (failure ApiError) T) : ST Gateway (failure ApiError) T := fun s =>
  let '(r, w) := m (px_world (gt_proxy s)) in (r, put_world w s).
Definition extract {T} (r : result Z T) : NODE T := lift (map_err Status r).
(** [serde_json::Value], which any JSON is. *)
Definition any_json (v : value) : option value := Some v.

(** ** Layers *)

(** [godwit-api/src/middleware.rs:61-111] [api_key_auth] *)
Definition authenticate_call (c : Call) : NODE ApiKey := fun s =>
  let '(out, a) := api_key_auth verify_key (rq_now c) (rq_now' c) (rq_headers c) {| key_cache := nd_keys s; auth_db := db_of s |} in
  (match out with Admit k => Ok k | Refuse st => Err (Status st) | Panicked => Err Crash end,
   {| nd_keys := key_cache a; nd_gateway := nd_gateway (put_db_logs (auth_db a) (px_logs (proxy_of s)) s) |}).

(** [godwit-api/src/middleware.rs:166-184] [model_scope] *)
Definition scope (key : ApiKey) (c : Call) : NODE unit :=
  body ← lift (map_err (fun e => Api (BadRequest e)) (rq_body c));
  lift (map_err Api (model_scope key body));; mret tt.

(** The layers of a proxied route around its handler, the outermost first; [key] is what a
    layer inserted, and who asks for it where none did gets a 500.  No route of a key has the
    layers of the admin API. *)
Fixpoint through (ls : list Layer) (key : option ApiKey) (c : Call) (h : ApiKey -> NODE (Answer Es)) : NODE (Answer Es) :=
  match ls, key with
  | [], Some k => h k
  | ApiKeyAuth :: ls, _ => k ← authenticate_call c; through ls (Some k) c h
  | ModelScope :: ls, Some k => scope k c;; through ls key c h
  | _, _ => throw (Status 500)
  end.

(** ** Handlers *)

(** The handler of each endpoint behind its extractors.  The last two ask for what their
    routes do not have, a parameter of the path and the claims of an admin. *)
Definition run_handler (e : Endpoint) (key : ApiKey) (c : Call) : NODE (Answer Es) :=
  let proxied {T U} (wrap : U -> Answer Es) (r : result Z T) (m : T -> ST Proxy (failure ApiError) U) : NODE (Answer Es) :=
    x ← extract r; u ← on_gateway (on_proxy (m x)); mret (wrap u) in
  let serviced (sv : Service) : NODE (Answer Es) :=
    body ← extract (json_body any_json c); r ← on_gateway (on_service (service_handler sv body)); mret (AResponse r) in
  match e with
  | EChat =>
    r ← on_gateway (chat_completions registry master_key version ws agentic key (rq_tags c)
                      (match rq_body c with Ok b => Some b | Err _ => None end) (rq_id c));
    mret (AChat r)
  | EMessages => proxied AMessages (json_body an_request_of_value c) (messages registry master_key key)
  | EEmbeddings => proxied AProvider (json_body embedding_request_of_value c) (embeddings registry master_key key)
  | EImages => proxied AProvider (json_body image_request_of_value c) (image_generations registry master_key key)
  | ESpeech => proxied AProvider (json_body tts_request_of_value c) (audio_speech registry master_key key)
  | ETranscriptions => proxied AProvider (multipart c) (audio_transcriptions registry master_key key)
  | EEdits => proxied AProvider (multipart c) (image_edits registry master_key key)
  | EModels => proxied AResponse (Ok tt) (fun _ => list_models timestamp)
  | EModerations => serviced moderation
  | ERerank => serviced rerank
  | ECreateBatch => proxied AResponse (json_body any_json c) (create_batch registry master_key)
  | EListBatches => proxied AResponse (model_query c) (list_batches registry master_key)
  | EGetBatch => proxied AResponse (model_query c) (get_batch registry master_key (rq_param c))
  | ECancelBatch => proxied AResponse (model_query c) (cancel_batch registry master_key (rq_param c))
  | EBatchResults => proxied AResponse (model_query c) (get_batch_results registry master_key (rq_param c))
  | EDeleteBatch | EModelInfo => throw (Status 500)
  end.

(** A request, through the layers of its route to its handler.
    [godwit-api/src/app.rs:26-43] [build_app] *)
Definition handle (c : Call) : NODE (Answer Es) :=
  match route_of (rq_endpoint c) with
  | Some r => through (rt_layers r) None c (fun key => run_handler (rq_endpoint c) key c)
  | None => throw (Status 404)
  end.

(** ** What happens to a node *)

Context (admin : Db -> Db -> Prop).

Definition spawned_by (s s' : Node) : list RequestLogEntry := drop (length (px_logs (proxy_of s))) (px_logs (proxy_of s')).

(** A step with the entries it spawns and the entries it loses: a request; a task that writes
    any of the entries waiting; a call of the admin API, which takes the database where [admin]
    says; or what else goes on: time passes, the next statements of the database are to fail or
    not, the world changes, cached keys are forgotten. *)
Inductive step (s : Node) : list RequestLogEntry -> list RequestLogEntry -> Node -> Prop :=
| step_call c : step s (spawned_by s (handle c s).2) [] (handle c s).2
| step_write l e l' :
    px_logs (proxy_of s) = (l ++ e :: l')%list ->
    step s [] (match (write_log e (db_of s)).1 with Ok _ => [] | Err _ => [e] end)
      (put_db_logs (write_log e (db_of s)).2 (l ++ l')%list s)
| step_admin d :
    admin (db_of s) d -> step s [] [] (put_db_logs d (px_logs (proxy_of s)) s)
| step_elsewhere f t w ks :
    ks ⊆ nd_keys s ->
    step s [] [] {| nd_keys := ks;
                    nd_gateway := put_world w (nd_gateway (put_db_logs (at_time t (put_faults f (db_of s))) (px_logs (proxy_of s)) s)) |}.

(** A run from [s0]: the states it went through, what was spawned, what was lost. *)
Inductive node_run (s0 : Node) : list Node -> list RequestLogEntry -> list RequestLogEntry -> Node -> Prop :=
| run_start : node_run s0 [s0] [] [] s0
| run_step path b l s b' l' s' :
    node_run s0 path b l s -> step s b' l' s' -> node_run s0 (path ++ [s']) (b ++ b') (l ++ l') s'.
End Node.

(** ** What a handler does *)

Section Facts.
Context `{Cr : Crypto} `{JT : JsonText} `{Sc : Schemas} `{De : Decimals} `{F : F64} {A W Es : Type}.
Context `{Wo : !World W} `{Ad : !Adapter A W Es} `{Ht : !HttpClient W} `{Pr : !Processes W} `{Dl : !Deadlines W}.
Context `{RE : RpcErrors} `{Fo : Formats} `{Ur : UrlEncoding} `{Ho : HashOrder} `{Re : Regexes} `{Sn : StatusNames} `{Ex : Extractors}.
Context (registry : AdapterRegistry A) (master_key version : string) (ws : WebSearch) (agentic : AgenticLoop).
Context (timestamp : Z -> Z) (verify_key : string -> string -> bool).
Notation PROXY_STATE := (Proxy (F := F) (W := W)).
Notation GATEWAY := (Gateway (F := F) (W := W)).
Notation NODE_STATE := (Node (F := F) (W := W)).
Implicit Types (p : PROXY_STATE) (g : GATEWAY) (s : NODE_STATE).

(** The endpoints that log what they answer, and those that look at budgets first. *)
Definition metered (e : Endpoint) : bool :=
  match e with EChat | EMessages | EEmbeddings | EImages | ESpeech | ETranscriptions | EEdits => true | _ => false end.
Definition budgeted (e : Endpoint) : bool := match e with EMessages => false | _ => metered e end.

Definition belongs (key : ApiKey) (e : RequestLogEntry) : Prop :=
  le_api_key_id e = key_id key /\ le_user_id e = key_user_id key /\ le_organization_id e = key_organization_id key /\
  le_team_id e = key_team_id key.
(** [n] entries of [key] more. *)
Definition bills (key : ApiKey) (n : nat) p p' : Prop :=
  exists les, px_logs p' = (px_logs p ++ les)%list /\ length les = n /\ Forall (belongs key) les.

Lemma bills_none key p p' : px_logs p' = px_logs p -> bills key 0 p p'.
Proof. intros H. exists []. by rewrite app_nil_r. Qed.
Lemma bills_one key p p' le : px_logs p' = (px_logs p ++ [le])%list -> belongs key le -> bills key 1 p p'.
Proof. intros H Hb. exists [le]. split_and!; [done|done|by constructor]. Qed.

(** A computation serves [key]: it leaves counters and database as they were, writes [n]
    entries of the key when it answers and none when it does not, and answers only within the
    budgets if [b] says so. *)
Definition serves {T} (key : ApiKey) (n : nat) (b : bool) (m : ST PROXY_STATE (failure ApiError) T) : Prop := forall p,
  flight_ok (px_lb p) ->
  let '(r, p') := m p in
  steady p p' /\ bills key (if is_ok r then n else 0) p p' /\ (is_ok r = true -> b = true -> within_budget key (px_db p)).

Lemma serves_quiet {T} key (m : ST PROXY_STATE (failure ApiError) T) : quiet m -> serves key 0 false m.
Proof.
  intros Hq p Hp. destruct (Hq p Hp) as [H1 H2]. destruct (m p) as [r p']. simpl in *.
  split; [done|]. split; [|done]. destruct r; by apply bills_none.
Qed.
(** What is checked before the work. *)
Lemma serves_lift {T U} key n b (r : result (failure ApiError) T) (k : T -> ST PROXY_STATE (failure ApiError) U) :
  (forall x, serves key n b (k x)) -> serves key n b (x ← lift r; k x).
Proof.
  intros Hk p Hp. unfold mbind, st_bind, lift. destruct r as [x|e]; [by apply Hk|]. split; [reflexivity|]. split; [by apply bills_none|done].
Qed.

Lemma serves_serve {B} key what c (call : ResolvedModel A -> ST W ProviderError (B * UsageReport)) model_ref :
  serves key 1 true (serve registry master_key what c call key model_ref).
Proof.
  intros p Hp. pose proof (serve_spec registry master_key what c call key model_ref p Hp) as Hs.
  pose proof (serve_within registry master_key what c call key model_ref p) as Hw.
  destruct (serve _ _ _ _ _ _ _ p) as [[body|e] p']; destruct Hs as [H1 H2]; (split; [done|]); simpl; (split; [|intros; by eauto]).
  - destruct H2 as (primary & pp & rm & usage & cost & ms & _ & _ & _ & _ & H2). eapply bills_one; [exact H2|by split_and!].
  - by apply bills_none.
Qed.

Lemma serves_messages key req : serves key 1 false (messages registry master_key key req).
Proof.
  intros p Hp. pose proof (messages_are_logged_once registry master_key key req p Hp) as Hm.
  destruct (messages _ _ key req p) as [[reply|e] p']; destruct Hm as [H1 H2]; (split; [done|]); (split; [|done]); simpl.
  - destruct H2 as (le & (ms & _ & Hle) & H2). eapply bills_one; [exact H2|].
    destruct (amr_stream req).
    + destruct Hle as (primary & pp & _ & ->). by split_and!.
    + destruct Hle as (answer & m & cost & _ & _ & ->). by split_and!.
  - by apply bills_none.
Qed.

(** ** Requests that are passed on *)

Lemma reads_select_all {R} (t : table R) (q : R -> bool) le :
  (forall f d, rows t (put_faults f d) = rows t d) -> reads (select_all t q le).
Proof. intros Hrows d. destruct (select_all t q le d) as [r d'] eqn:E. by apply select_all_spec in E as [? _]. Qed.

Lemma quiet_models : quiet (list_models (F := F) (W := W) timestamp).
Proof.
  unfold list_models. repeat (apply quiet_bind; [apply quiet_db, reads_map_err, reads_select_all; done|intros]). apply quiet_ret.
Qed.

Lemma quiet_resolved {T} model_ref c (k : ResolvedModel A -> ST PROXY_STATE (failure ApiError) T) :
  (forall rm, quiet (k rm)) -> quiet (rm ← resolve_model registry master_key model_ref c; holding rm (k rm)).
Proof.
  intros Hk p Hp. unfold mbind, st_bind. pose proof (resolve_model_spec registry master_key model_ref c p Hp) as Hr.
  destruct (resolve_model _ _ _ _ p) as [[rm|e] p1]; [|by destruct Hr as (_ & H1 & H2)]. destruct Hr as (Hi & Hl & _).
  destruct (holding_quiet rm (k rm) p p1 (Hk rm) Hi) as (_ & H1 & H2). split; [done|by rewrite H2].
Qed.

Lemma quiet_passthrough method path body model_ref c :
  quiet (forward_openai_passthrough registry master_key method path body model_ref c).
Proof.
  apply quiet_resolved. intros rm. apply quiet_bind; [apply quiet_lift|]. intros req.
  apply quiet_bind; [|intros; apply quiet_lift]. intros q _. unfold on_http. destruct (send req (px_world q)).
  split; [split; reflexivity|done].
Qed.

Lemma quiet_batch method path model : quiet (batch_request registry master_key method path model).
Proof. apply quiet_bind; [apply quiet_passthrough|intros; apply quiet_ret]. Qed.

(** ** Every handler *)

(** The same of a handler on a node, which leaves the cache of keys alone. *)
Definition works_for {T} (key : ApiKey) (n : nat) (b : bool) (m : ST NODE_STATE Refusal T) : Prop := forall s,
  flight_ok (px_lb (proxy_of s)) ->
  let '(r, s') := m s in
  nd_keys s' = nd_keys s /\ steady (proxy_of s) (proxy_of s') /\ bills key (if is_ok r then n else 0) (proxy_of s) (proxy_of s') /\
  (is_ok r = true -> b = true -> within_budget key (db_of s)).

Lemma answers_throw {T} key n b e : works_for (T := T) key n b (throw e).
Proof. intros s Hs. split; [done|]. split; [reflexivity|]. split; [by apply bills_none|done]. Qed.
Lemma answers_extract {T U} key n b (r : result Z T) (k : T -> ST NODE_STATE Refusal U) :
  (forall x, works_for key n b (k x)) -> works_for key n b (x ← extract r; k x).
Proof.
  intros Hk s Hs. unfold mbind, st_bind, extract, lift. destruct r as [x|st]; [by apply Hk|]. by apply (answers_throw (T := U) key n b (Status st)).
Qed.
Lemma answers_gateway {T U} key n b (m : ST GATEWAY (failure ApiError) T) (f : T -> U) :
  (forall g, flight_ok (px_lb (gt_proxy g)) -> let '(r, g') := m g in
     steady (gt_proxy g) (gt_proxy g') /\ bills key (if is_ok r then n else 0) (gt_proxy g) (gt_proxy g') /\
     (is_ok r = true -> b = true -> within_budget key (px_db (gt_proxy g)))) ->
  works_for key n b (x ← on_gateway m; mret (f x)).
Proof.
  intros Hm s Hs. unfold on_gateway, st_map_err, zoom, mbind, st_bind. specialize (Hm (nd_gateway s) Hs).
  destruct (m (nd_gateway s)) as [[x|[e|]] g']; by split.
Qed.
Lemma answers_proxy {T U} key n b (m : ST PROXY_STATE (failure ApiError) T) (f : T -> U) :
  serves key n b m -> works_for key n b (x ← on_gateway (on_proxy m); mret (f x)).
Proof.
  intros Hm. apply answers_gateway. intros g Hg. unfold on_proxy, zoom. specialize (Hm (gt_proxy g) Hg). by destruct (m (gt_proxy g)).
Qed.
Lemma answers_service {T U} key (m : ST W (failure ApiError) T) (f : T -> U) :
  works_for key 0 false (x ← on_gateway (on_service m); mret (f x)).
Proof.
  apply answers_gateway. intros g Hg. unfold on_service. destruct (m (px_world (gt_proxy g))) as [r w].
  split; [split; reflexivity|]. split; [|done]. destruct r; by apply bills_none.
Qed.

Lemma handler_answers e key c :
  works_for key (if metered e then 1 else 0) (budgeted e)
    (run_handler registry master_key version ws agentic timestamp e key c).
Proof.
  destruct e; cbn [run_handler metered budgeted]; try (apply answers_extract; intros x); try apply answers_throw; try apply answers_service;
    try (apply answers_proxy; apply serves_quiet; first [apply quiet_models | apply quiet_batch]).
  - apply answers_gateway. intros g Hg.
    pose proof (chat_completions_spec registry master_key version ws agentic key (rq_tags c)
                  (match rq_body c with Ok b => Some b | Err _ => None end) (rq_id c) g Hg) as Hc.
    pose proof (chat_within registry master_key version ws agentic key (rq_tags c)
                  (match rq_body c with Ok b => Some b | Err _ => None end) (rq_id c) g) as Hw.
    destruct (chat_completions _ _ _ _ _ _ _ _ _ g) as [[reply|err] g']; destruct Hc as (H1 & _ & H2); (split; [done|]); simpl;
      (split; [|intros; by eauto]).
    + destruct H2 as (b & v & req & primary & o & le & s2 & _ & _ & _ & _ & _ & _ & _ & (ms & cost & _ & _ & ->) & H2 & _).
      eapply bills_one; [exact H2|by split_and!].
    + by apply bills_none.
  - apply answers_proxy, serves_messages.
  - apply answers_proxy. apply serves_serve.
  - apply answers_proxy. apply serves_serve.
  - apply answers_proxy. apply serves_serve.
  - apply answers_proxy. unfold audio_transcriptions. do 3 (apply serves_lift; intros ?). apply serves_serve.
  - apply answers_proxy. unfold image_edits. do 4 (apply serves_lift; intros ?). apply serves_serve.
  - apply answers_proxy. unfold create_batch. apply serves_lift. intros model. apply serves_quiet.
    apply quiet_bind; [apply quiet_passthrough|intros; apply quiet_ret].
Qed.
End Facts.

(** ** Runs *)

Section Runs.
Context `{Cr : Crypto} `{JT : JsonText} `{Sc : Schemas} `{De : Decimals} `{F : F64} {A W Es : Type}.
Context `{Wo : !World W} `{Ad : !Adapter A W Es} `{Ht : !HttpClient W} `{Pr : !Processes W} `{Dl : !Deadlines W}.
Context `{RE : RpcErrors} `{Fo : Formats} `{Ur : UrlEncoding} `{Ho : HashOrder} `{Re : Regexes} `{Sn : StatusNames} `{Ex : Extractors}.
Context (registry : AdapterRegistry A) (master_key version : string) (ws : WebSearch) (agentic : AgenticLoop).
Context (timestamp : Z -> Z) (verify_key : string -> string -> bool).
Notation NODE_STATE := (Node (F := F) (W := W)).
Notation handled := (handle registry master_key version ws agentic timestamp verify_key).
Context (admin : Db -> Db -> Prop) (admin_books : forall d d', admin d d' -> account_rows d' = account_rows d).
Notation run_from := (node_run registry master_key version ws agentic timestamp verify_key admin).
Implicit Types (s : NODE_STATE) (path : list NODE_STATE).

(** [k] was a row of the table of keys at some time, and was not disabled when it was read. *)
Definition once_a_key path (k : ApiKey) : Prop := key_disabled k = false /\ exists s, s ∈ path /\ k ∈ t_api_keys (db_of s).
(** Every cached key was, and its token was verified. *)
Definition sound path s : Prop := forall token k,
  nd_keys s !! token = Some k -> verify_key token (key_hash k) = true /\ once_a_key path k.
(** The request carries a token that [k] was verified against, in its time. *)
Definition bearer_of path (c : Call) (k : ApiKey) : Prop := exists token,
  h_authorization (rq_headers c) = Some ("Bearer " +:+ token) /\ verify_key token (key_hash k) = true /\ once_a_key path k /\
  (forall e, key_expires_at k = Some e -> rq_now c < e \/ rq_now' c <= e).
(** The model a request names, where the layer that reads it is on, is one of the key's. *)
Definition in_scope_of (k : ApiKey) (c : Call) : Prop := reads_model (rq_endpoint c) = true ->
  exists body, rq_body c = Ok body /\ forall model, extract_model_from_body body = Some model -> is_model_allowed k model = true.

Lemma admit_spec path c s :
  sound path s -> s ∈ path ->
  let '(r, s1) := authenticate_call verify_key c s in
  (exists d, only_faults (db_of s) d /\ nd_gateway s1 = nd_gateway (put_db_logs d (px_logs (proxy_of s)) s)) /\ sound path s1 /\
  match r with Ok k => bearer_of path c k | Err _ => nd_keys s1 = nd_keys s end.
Proof.
  intros Hs Hin. unfold authenticate_call.
  destruct (api_key_auth verify_key _ _ _ _) as [out a] eqn:Ea. apply api_key_auth_sound_lemma in Ea as (Hc & Hf & Hout).
  2: { intros token k Hk. by destruct (Hs token k Hk) as [? [? _]]. }
  split; [by exists (auth_db a)|]. simpl in *. destruct out as [k|st|]; [|by rewrite Hout|by rewrite Hout].
  destruct Hout as (token & H1 & H2 & H3 & H4 & H5 & H6 & H7).
  assert (once_a_key path k) as Hk.
  { split; [done|]. destruct H6 as [H6|H6]; [by destruct (Hs _ _ H6) as [_ [_ ?]]|by exists s]. }
  split; [|by exists token]. intros token' k' Hk'. destruct (decide (token' = token)) as [->|Hn].
  - simpl in Hk'. rewrite H5 in Hk'. by simplify_eq.
  - apply Hs. by rewrite <- H7.
Qed.

(** What became of a request in [s]: answered for a bearer, in its scope, with [n] entries, and
    within its budgets where [b] says so; or not answered, and not logged. *)
Definition dealt_with {T} path c n (b : bool) s (r : result Refusal T) s' : Prop :=
  sound path s' /\ steady (proxy_of s) (proxy_of s') /\
  match r with
  | Ok _ => exists k, bearer_of path c k /\ in_scope_of k c /\ bills k n (proxy_of s) (proxy_of s') /\
      (b = true -> within_budget k (db_of s))
  | Err _ => px_logs (proxy_of s') = px_logs (proxy_of s)
  end.
(** A layer looked at [s] and left [s1]. *)
Definition looked_at path s s1 : Prop :=
  sound path s1 /\ px_lb (proxy_of s1) = px_lb (proxy_of s) /\ only_faults (db_of s) (db_of s1) /\
  px_logs (proxy_of s1) = px_logs (proxy_of s).

Lemma dealt_refused {T} path c n b s e s1 : looked_at path s s1 -> dealt_with (T := T) path c n b s (Err e) s1.
Proof. intros (H1 & H2 & H3 & H4). split; [done|]. split; [|done]. split; [by rewrite H2|done]. Qed.

Lemma dealt_run {T} path c n b s k s1 (m : ST NODE_STATE Refusal T) :
  flight_ok (px_lb (proxy_of s)) -> bearer_of path c k -> in_scope_of k c -> works_for k n b m -> looked_at path s s1 ->
  dealt_with path c n b s (m s1).1 (m s1).2.
Proof.
  intros Hfl Hb Hsc Hm (Hs1 & Hlb & Hf & Hl). specialize (Hm s1). rewrite Hlb in Hm. specialize (Hm Hfl).
  destruct (m s1) as [r s']. destruct Hm as (H1 & [H2 H3] & (les & H4 & H5 & H6) & H7). rewrite Hl in H4. rewrite Hlb in H2.
  simpl. split; [by unfold sound; rewrite H1|]. split; [split; [done|by etransitivity]|]. destruct r as [x|e]; simpl in *.
  - exists k. split_and!; [done|done|by exists les|]. intros Hb'. eapply within_budget_faults; [exact Hf|by apply H7].
  - apply length_zero_iff_nil in H5 as ->. by rewrite app_nil_r in H4.
Qed.

Lemma through_spec path c s (h : ApiKey -> ST NODE_STATE Refusal (Answer Es)) n b :
  (forall k, works_for k n b (h k)) -> sound path s -> s ∈ path -> flight_ok (px_lb (proxy_of s)) ->
  let '(r, s') := through verify_key (layers (rq_endpoint c)) None c h s in dealt_with path c n b s r s'.
Proof.
  intros Hh Hs Hin Hfl. pose proof (admit_spec path c s Hs Hin) as Ha.
  unfold layers. destruct (reads_model (rq_endpoint c)) eqn:Esc; cbn [through]; unfold mbind, st_bind;
    destruct (authenticate_call verify_key c s) as [r s1]; destruct Ha as ((d & Hf & Hg) & Hs1 & Hr);
    (assert (looked_at path s s1) as Hl by (unfold looked_at, db_of, proxy_of in *; rewrite Hg; by split_and!));
    (destruct r as [k|e]; [|by apply dealt_refused]).
  2: { pose proof (dealt_run path c n b s k s1 (h k) Hfl Hr) as Hd. destruct (h k s1). apply Hd; [|done..]. intros H. congruence. }
  unfold scope, mbind, st_bind, lift, mret, st_ret. destruct (rq_body c) as [body|msg] eqn:Eb; simpl; [|by apply dealt_refused].
  assert (in_scope_of k c -> let '(r, s') := h k s1 in dealt_with path c n b s r s') as Hd.
  { intros Hsc. pose proof (dealt_run path c n b s k s1 (h k) Hfl Hr Hsc (Hh k) Hl) as Hd. by destruct (h k s1). }
  unfold in_scope_of in Hd. rewrite Eb in Hd. unfold model_scope.
  destruct (extract_model_from_body body) as [model|] eqn:Em; simpl.
  - destruct (is_model_allowed k model) eqn:Ea; simpl; [|by apply dealt_refused]. apply Hd. intros _. exists body. split; [done|].
    intros m Hm. rewrite Hm in Em. by simplify_eq.
  - apply Hd. intros _. exists body. split; [done|]. intros m Hm. by rewrite Hm in Em.
Qed.

Lemma handle_spec path c s :
  sound path s -> s ∈ path -> flight_ok (px_lb (proxy_of s)) ->
  let '(r, s') := handled c s in
  dealt_with path c (if metered (rq_endpoint c) then 1 else 0) (budgeted (rq_endpoint c)) s r s'.
Proof.
  intros Hs Hin Hfl. unfold handle. destruct (route_of_endpoint (rq_endpoint c)) as (r & -> & -> & _).
  apply through_spec; [|done..]. intros k. apply handler_answers.
Qed.

(** ** What holds along a run *)

Lemma once_mono path path' k : once_a_key path k -> once_a_key (path ++ path') k.
Proof. intros [H1 (s & H2 & H3)]. split; [done|]. exists s. split; [apply elem_of_app; by left|done]. Qed.
Lemma sound_mono path path' s : sound path s -> sound (path ++ path') s.
Proof. intros H token k Hk. destruct (H token k Hk) as [H1 H2]. split; [done|by apply once_mono]. Qed.

(** The books of a run: what is booked, waiting and lost is what was booked and waiting at the
    start and what was spawned since. *)
Definition books (b l : list RequestLogEntry) s0 s : Prop :=
  (account_rows (db_of s) ++ (booked_as <$> px_logs (proxy_of s)) ++ (booked_as <$> l))%list ≡ₚ
  (account_rows (db_of s0) ++ (booked_as <$> px_logs (proxy_of s0)) ++ (booked_as <$> b))%list.
(** An entry is lost where its row is refused, for a reference that is gone or a cost that does
    not fit, or where the very statement that inserts it fails. *)
Definition lost_for path (e : RequestLogEntry) : Prop := exists s, s ∈ path /\ e ∈ px_logs (proxy_of s) /\
  (writable e (db_of s) = false \/ exists m f, db_faults (db_of s) = Some m :: f).
Definition owed_by path (e : RequestLogEntry) : Prop := exists k, once_a_key path k /\ belongs k e.
Definition along s0 path b l s : Prop :=
  sound path s /\ s ∈ path /\ flight_ok (px_lb (proxy_of s)) /\ books b l s0 s /\ Forall (owed_by path) b /\ Forall (lost_for path) l.

Lemma accounts_faults d d' : only_faults d d' -> account_rows d' = account_rows d.
Proof. by intros [f ->]. Qed.
Lemma owed_mono path path' b : Forall (owed_by path) b -> Forall (owed_by (path ++ path')) b.
Proof. intros H. eapply Forall_impl; [exact H|]. intros e (k & H1 & H2). exists k. split; [by apply once_mono|done]. Qed.
Lemma lost_mono path path' l : Forall (lost_for path) l -> Forall (lost_for (path ++ path')) l.
Proof. intros H. eapply Forall_impl; [exact H|]. intros e (s & H1 & H2). exists s. split; [apply elem_of_app; by left|done]. Qed.

Lemma along_call s0 path b l s c :
  along s0 path b l s -> along s0 (path ++ [(handled c s).2]) (b ++ spawned_by s (handled c s).2) (l ++ []) (handled c s).2.
Proof.
  intros (H1 & H2 & H3 & H4 & H5 & H6). pose proof (handle_spec path c s H1 H2 H3) as Hh.
  destruct (handled c s) as [r s']. simpl. destruct Hh as (Hs & [Hfl Hf] & Hr).
  assert (exists les, px_logs (proxy_of s') = (px_logs (proxy_of s) ++ les)%list /\ Forall (owed_by path) les) as (les & Hl & Ho').
  { destruct r as [x|e]; [|exists []; by rewrite app_nil_r]. destruct Hr as (k & (token & _ & _ & Hk & _) & _ & (les & Hl & _ & Hb) & _).
    exists les. split; [done|]. eapply Forall_impl; [exact Hb|]. intros e He. by exists k. }
  assert (spawned_by s s' = les) as -> by (unfold spawned_by; rewrite Hl; apply drop_app_length).
  rewrite app_nil_r. split; [by apply sound_mono|]. split; [apply elem_of_app; right; by left|]. split; [by rewrite <- Hfl|].
  split; [|split; [|by apply lost_mono]].
  - unfold books in *. rewrite (accounts_faults _ _ Hf : account_rows (db_of s') = _), Hl, !fmap_app.
    rewrite (Permutation_app_comm (booked_as <$> px_logs (proxy_of s)) (booked_as <$> les)), <- !app_assoc.
    rewrite (Permutation_app_swap_app (account_rows _) (booked_as <$> les)), H4. solve_Permutation.
  - apply Forall_app. split; by apply owed_mono.
Qed.

Lemma along_write s0 path b l s l1 e l2 :
  along s0 path b l s -> px_logs (proxy_of s) = (l1 ++ e :: l2)%list ->
  let s' := put_db_logs (write_log e (db_of s)).2 (l1 ++ l2)%list s in
  along s0 (path ++ [s']) (b ++ []) (l ++ match (write_log e (db_of s)).1 with Ok _ => [] | Err _ => [e] end) s'.
Proof.
  intros (H1 & H2 & H3 & H4 & H5 & H6) Hl. pose proof (write_log_spec e (db_of s)) as Hw.
  destruct (write_log e (db_of s)) as [r d]. destruct Hw as (Hr & Hok & _). simpl. rewrite app_nil_r.
  split; [by apply (sound_mono path _ _ H1)|]. split; [apply elem_of_app; right; by left|]. split; [done|].
  split; [|split; [by apply owed_mono|]].
  - unfold books in *. rewrite <- H4, Hl. unfold db_of, proxy_of. simpl. destruct r as [x|er].
    + destruct Hr as (-> & _). rewrite app_nil_r, !fmap_app, fmap_cons. unfold db_of. solve_Permutation.
    + destruct Hr as (-> & _). rewrite !fmap_app, fmap_cons. unfold db_of. csimpl. solve_Permutation.
  - apply Forall_app. split; [by apply lost_mono|]. destruct r as [x|er]; [done|]. constructor; [|done].
    exists s. split; [apply elem_of_app; by left|]. split; [rewrite Hl; apply elem_of_app; right; by left|].
    destruct (writable e (db_of s)) eqn:Ew; [|by left]. right. destruct (db_faults (db_of s)) as [|[m|] f]; [|by exists m, f|];
      (destruct (Hok eq_refl) as [x Hx]; [done|by simplify_eq]).
Qed.

Lemma along_other s0 path b l s d w ks :
  along s0 path b l s -> account_rows d = account_rows (db_of s) -> ks ⊆ nd_keys s ->
  let s' := {| nd_keys := ks; nd_gateway := put_world w (nd_gateway (put_db_logs d (px_logs (proxy_of s)) s)) |} in
  along s0 (path ++ [s']) (b ++ []) (l ++ []) s'.
Proof.
  intros (H1 & H2 & H3 & H4 & H5 & H6) Hd Hks. simpl. rewrite !app_nil_r. split_and!.
  - intros token k Hk. apply (sound_mono path _ _ H1). by eapply lookup_weaken.
  - apply elem_of_app; right; by left.
  - done.
  - unfold books in *. rewrite <- H4. unfold db_of at 1, proxy_of at 1 2. simpl. by rewrite Hd.
  - by apply owed_mono.
  - by apply lost_mono.
Qed.

Lemma run_along s0 path b l s :
  run_from s0 path b l s -> nd_keys s0 = ∅ -> flight_ok (px_lb (proxy_of s0)) -> along s0 path b l s.
Proof.
  intros Hr Hk Hf. induction Hr as [|path b l s b' l' s' _ IH Hst].
  - split; [|split; [by left|split; [done|split; [|by split]]]].
    + intros token k H. rewrite Hk in H. by apply lookup_empty_Some in H.
    + unfold books. by rewrite !fmap_nil.
  - destruct Hst as [c|la e lb Hl|d Hd|f t w ks Hks]; [by apply along_call|by apply along_write| |by apply along_other].
    pose proof (along_other s0 path b l s d (px_world (proxy_of s)) (nd_keys s) IH (admin_books _ _ Hd) ltac:(done)) as Ha.
    by destruct s as [ks [[] gr sv rc]].
Qed.
End Runs.

(** ** Theorems *)

Section Theorems.
Context `{Cr : Crypto} `{JT : JsonText} `{Sc : Schemas} `{De : Decimals} `{F : F64} {A W Es : Type}.
Context `{Wo : !World W} `{Ad : !Adapter A W Es} `{Ht : !HttpClient W} `{Pr : !Processes W} `{Dl : !Deadlines W}.
Context `{RE : RpcErrors} `{Fo : Formats} `{Ur : UrlEncoding} `{Ho : HashOrder} `{Re : Regexes} `{Sn : StatusNames} `{Ex : Extractors}.
Context (registry : AdapterRegistry A) (master_key version : string) (ws : WebSearch) (agentic : AgenticLoop).
Context (timestamp : Z -> Z) (verify_key : string -> string -> bool).
Notation NODE_STATE := (Node (F := F) (W := W)).
Context `{Fm : Fmt} `{Se : @Sealing Cr} `{Un : Unicode} `{Sec : Secrets} {Net Post : Type} `{Oc : OidcCrate Net} `{Mc : MailCrates Post}.
Context (common reset_html reset_txt : string) (cfg : AuthConfig) (date_of : Z -> Z) (days_before : Z -> Z -> option Z).
Context (mailer : option (Mailer Post)).
Notation handled := (handle registry master_key version ws agentic timestamp verify_key).
Notation admin := (admin_acts (F := F) master_key common reset_html reset_txt cfg date_of days_before mailer).
Notation run_from := (node_run registry master_key version ws agentic timestamp verify_key admin).
Implicit Types (s : NODE_STATE) (path : list NODE_STATE).

Lemma admin_books d d' : admin d d' -> account_rows d' = account_rows d.
Proof. apply admin_keeps_books. Qed.

Lemma stranger_refused path c s :
  sound verify_key path s -> s ∈ path -> (forall k, ~ bearer_of verify_key path c k) ->
  exists d, only_faults (db_of s) d /\ (handled c s).2 = put_db_logs d (px_logs (proxy_of s)) s.
Proof.
  intros Hs Hin Hno. unfold handle. destruct (route_of_endpoint (rq_endpoint c)) as (r & -> & -> & _).
  pose proof (admit_spec verify_key path c s Hs Hin) as Ha.
  assert (exists e d, only_faults (db_of s) d /\ authenticate_call verify_key c s = (Err e, put_db_logs d (px_logs (proxy_of s)) s)) as (e & d & Hf & E).
  { destruct (authenticate_call verify_key c s) as [[k|e] s1]; destruct Ha as ((d & Hf & Hg) & _ & Hr); [by destruct (Hno k)|].
    exists e, d. split; [done|]. f_equal. destruct s1 as [ks g]. simpl in *. by subst. }
  exists d. split; [done|]. unfold layers. destruct (reads_model (rq_endpoint c)); cbn [through]; unfold mbind, st_bind; by rewrite E.
Qed.

(** C1: whoever is served is a bearer.  On a node started with an empty cache, after any run of
    requests, log writes, calls of the admin API and other changes, a request is answered only
    to the bearer of a key that was in the table at some time, was not disabled then, that its
    token was verified against and that had not expired.  Where the layer of scopes is on, the
    model its body names is one the key allows; a model named only in the query, as the batch
    routes do, is not looked at.  Chat and the five endpoints of one call (embeddings, images,
    speech, transcription, edits) answer only while what is booked of the key's user and team
    is below their caps; all others look at no budget: /v1/messages, the list of models,
    moderation, rerank and the batch routes.  The request is logged once, to that key, if its
    endpoint is metered (those six and /v1/messages), and not otherwise; what is not answered
    is not logged.  A request that bears no such key changes nothing at all.  In every case the
    counters of requests in flight are as before and the database is only read. *)
Theorem requests_serve_their_bearer s0 path b l s c :
  run_from s0 path b l s -> nd_keys s0 = ∅ -> flight_ok (px_lb (proxy_of s0)) ->
  let '(r, s') := handled c s in
  steady (proxy_of s) (proxy_of s') /\
  match r with
  | Ok _ => exists k, bearer_of verify_key path c k /\ in_scope_of k c /\
      bills k (if metered (rq_endpoint c) then 1 else 0) (proxy_of s) (proxy_of s') /\
      (budgeted (rq_endpoint c) = true -> within_budget k (db_of s))
  | Err _ => px_logs (proxy_of s') = px_logs (proxy_of s)
  end /\
  ((forall k, ~ bearer_of verify_key path c k) ->
   exists d, only_faults (db_of s) d /\ s' = put_db_logs d (px_logs (proxy_of s)) s).
Proof.
  intros Hr Hk Hf. apply run_along in Hr as (H1 & H2 & H3 & _); [|exact admin_books|done..].
  pose proof (handle_spec registry master_key version ws agentic timestamp verify_key path c s H1 H2 H3) as Hh.
  pose proof (stranger_refused path c s H1 H2) as Hn.
  destruct (handled c s) as [r s']. destruct Hh as (_ & Hs & Ho'). split; [done|]. by split.
Qed.

Lemma filterb_perm {T} (p : T -> bool) l1 l2 : l1 ≡ₚ l2 -> filterb p l1 ≡ₚ filterb p l2.
Proof.
  induction 1 as [|x l1 l2 _ IH|x y l|l1 l2 l3 _ IH1 _ IH2]; simpl; [done| | |by etransitivity].
  - destruct (p x); by rewrite IH.
  - destruct (p x), (p y); try done. apply Permutation_swap.
Qed.

(** What an organization's report without limits of time adds up to. *)
Lemma report_of_accounts o d rows d' :
  fetch_spend_rows None None (Some o) None None d = (Ok rows, d') ->
  (sumQ sr_total_cost_usd rows == total (filterb (for_org o) (account_rows d)))%Q.
Proof.
  intros H. unfold fetch_spend_rows in H. apply st_bind_ok in H as (dd & d1 & Hs & H). unfold mret, st_ret in H. simplify_eq.
  pose proof (statement_spec d) as Hst. rewrite Hs in Hst. destruct Hst as [<- [f ->]].
  rewrite <- report_total, <- (groups_total spend_key). rewrite sumQ_fmap. apply sumQ_ext. by intros [[[o' t] u] ls] _.
Qed.

Definition billed_to (o : Uuid) (b : list RequestLogEntry) : list RequestLogEntry := filterb (fun e => is_id (le_organization_id e) o) b.
Lemma billed_accounts o b : filterb (for_org o) (booked_as <$> b) = booked_as <$> billed_to o b.
Proof. unfold billed_to. induction b as [|e b IH]; csimpl; [done|]. unfold for_org at 1. simpl. destruct (is_id _ o); csimpl; by rewrite IH. Qed.

(** C3: what is spent is what is reported.  Along a run the books balance: the accounts of the
    log, of what waits to be written and of what was lost are those of the start and of what
    was spawned since, each once, whatever the order of the writes and whatever calls of the
    admin API come in between, by any callers: those on users, teams, keys, organizations, the
    catalog, end users, reports, sessions, passwords and single sign-on.  Everything spawned is
    owed by a key that was in the table; an entry is lost only while it waits, where a
    reference of its row is gone, its cost does not fit, or the very statement that inserts it
    fails.  Once nothing waits and nothing was lost, the spend report of an organization adds
    up to what was booked before and the costs of its requests since, each to the nearest
    millionth: it is off by at most half of one for each request. *)
Theorem what_is_spent_is_reported s0 path b l s :
  run_from s0 path b l s -> nd_keys s0 = ∅ -> flight_ok (px_lb (proxy_of s0)) ->
  books b l s0 s /\ Forall (owed_by path) b /\ Forall (lost_for path) l /\
  (px_logs (proxy_of s0) = [] -> px_logs (proxy_of s) = [] -> l = [] -> forall o rows d',
   fetch_spend_rows None None (Some o) None None (db_of s) = (Ok rows, d') ->
   let before := total (filterb (for_org o) (account_rows (db_of s0))) in
   (sumQ sr_total_cost_usd rows == before + total (booked_as <$> billed_to o b))%Q /\
   (Qabs (sumQ sr_total_cost_usd rows - before - sumQ exact_cost (billed_to o b)) * inject_Z (2 * 10 ^ 6)
    <= inject_Z (Z.of_nat (length (billed_to o b))))%Q).
Proof.
  intros Hr Hk Hf. apply run_along in Hr as (_ & _ & _ & Hb & H1 & H2); [|exact admin_books|done..]. split_and!; [done..|].
  intros Hl0 Hl -> o rows d' Hrep before. pose proof (report_of_accounts _ _ _ _ Hrep) as Hsum.
  assert (sumQ sr_total_cost_usd rows == before + total (booked_as <$> billed_to o b))%Q as Heq.
  { rewrite Hsum. unfold before. rewrite <- billed_accounts, <- total_app, <- filterb_app. apply total_perm, filterb_perm.
    unfold books in Hb. rewrite Hl0, Hl, !fmap_nil, app_nil_r in Hb. exact Hb. }
  split; [exact Heq|]. rewrite Heq. pose proof (booked_near (billed_to o b)) as Hn.
  assert (before + total (booked_as <$> billed_to o b) - before - sumQ exact_cost (billed_to o b) ==
          total (booked_as <$> billed_to o b) - sumQ exact_cost (billed_to o b))%Q as -> by ring. exact Hn.
Qed.
End Theorems.

(** ** A small instance for the witnesses

    A shop with one key; a body that is JSON of the right shape is read, any other refused. *)

#[local] Existing Instance coded_json.
Definition plain_extractors : Extractors :=
  {| json_body T r c := match rq_body c with
                        | Ok b => match from_str b with Some v => ok_or 422 (r v) | None => Err 400 end
                        | Err _ => Err 400 end;
     multipart _ := Err 400;
     model_query _ := Err 400 |}.
#[local] Existing Instances toy_crypto no_schemas exact_decimals whole_f64 counting_world echo_adapter no_http
  no_processes patient mcp_errors plain_formats no_urls hash_order one_email ascii_reasons plain_extractors plain_fmt toy_sealing plain_secrets
  toy_mail ascii_letters.

Definition embedder : Adapter nat Z unit := two_adapters.
Definition open_shop : Node (F := whole_f64) (W := Z) :=
  {| nd_keys := ∅;
     nd_gateway := {| gt_proxy := put_proxy_db (put_users [sample_user] (put_api_keys [sample_key] (px_db (shop None)))) [] (shop None);
                      gt_guardrails := sample_masking; gt_servers := ∅; gt_recorded := [] |} |}.
Definition call_with (token : string) : Call :=
  {| rq_endpoint := EEmbeddings; rq_headers := bearer token; rq_content_type := Some "application/json"; rq_tags := None; rq_query := "";
     rq_param := ""; rq_body := Ok (to_string (embedding_request_to_value ask)); rq_now := 0; rq_now' := 0; rq_id := "r" |}.
Abbreviation node_handle := (handle (Ad := embedder) up_and_down "k" "1" no_search four_rounds (fun t => t) String.eqb).
Abbreviation shop_admin := (admin_acts (F := whole_f64) (Net := unit) (H1 := toy_oidc "n") "k" "" "" "" sso_config (fun t => t / 86400) (fun _ _ => None) None).
Abbreviation shop_moves := (step (Ad := embedder) up_and_down "k" "1" no_search four_rounds (fun t => t) String.eqb shop_admin).
Abbreviation from_open := (node_run (Ad := embedder) up_and_down "k" "1" no_search four_rounds (fun t => t) String.eqb shop_admin).

Lemma requests_serve_their_bearer_witness :
  let '(r, s') := node_handle (call_with "sk-godwit-abcdefgh") open_shop in
  is_ok r = true /\ bills sample_key 1 (proxy_of open_shop) (proxy_of s').
Proof.
  assert (is_ok (node_handle (call_with "sk-godwit-abcdefgh") open_shop).1 = true) as Hb by (vm_compute; reflexivity).
  pose proof (requests_serve_their_bearer (Ad := embedder) (Oc := toy_oidc "n") up_and_down "k" "1" no_search four_rounds (fun t => t)
                String.eqb "" "" "" sso_config (fun t => t / 86400) (fun _ _ => None) None open_shop
                [open_shop] [] [] open_shop (call_with "sk-godwit-abcdefgh") ltac:(constructor) eq_refl lb_new_flight_ok) as H.
  destruct (node_handle (call_with "sk-godwit-abcdefgh") open_shop) as [[x|e] s']; [|discriminate Hb].
  split; [reflexivity|]. destruct H as (_ & (k & (token & _ & _ & (_ & s1 & Hs1 & Hk) & _) & _ & Hbill & _) & _).
  apply list_elem_of_singleton in Hs1 as ->. apply list_elem_of_singleton in Hk as ->. exact Hbill.
Defined.

Lemma logs_put d ls (s : Node (F := whole_f64) (W := Z)) : px_logs (proxy_of (put_db_logs d ls s)) = ls.
Proof. done. Qed.

(** The request is answered, an administrator blocks its key, the entry is written, and the
    report has its price. *)
Definition after_call : Node (F := whole_f64) (W := Z) := (node_handle (call_with "sk-godwit-abcdefgh") open_shop).2.
Definition shop_root : Claims :=
  {| c_sub := "root"; c_user_id := 1; c_organization_id := 0; c_role := "super_admin"; c_exp := 0; c_iat := 0 |}.
Definition blocked : Node (F := whole_f64) (W := Z) :=
  put_db_logs (block_key shop_root (key_id sample_key) (db_of after_call)).2 (px_logs (proxy_of after_call)) after_call.
Definition settled (e : RequestLogEntry) : Node (F := whole_f64) (W := Z) := put_db_logs (write_log e (db_of blocked)).2 [] blocked.

Lemma what_is_spent_is_reported_witness :
  exists e path rows d', from_open open_shop path [e] [] (settled e) /\
    fetch_spend_rows None None (Some 3) None None (db_of (settled e)) = (Ok rows, d') /\ length rows = 1%nat /\
    (sumQ sr_total_cost_usd rows == 0 + total (booked_as <$> [e]))%Q /\ (exact_cost e == 2)%Q.
Proof.
  assert (exists e, px_logs (proxy_of after_call) = [e] /\ is_ok (write_log e (db_of blocked)).1 = true /\
            Qeq_bool (exact_cost e) 2 && is_id (le_organization_id e) 3 = true /\
            match fetch_spend_rows None None (Some 3) None None (db_of (settled e)) with
            | (Ok rows, _) => (length rows =? 1)%nat | _ => false end = true) as (e & Hl & Hw & He & Hrep).
  { eexists. split; [vm_compute; reflexivity|]. split; [vm_compute; reflexivity|]. split; vm_compute; reflexivity. }
  apply andb_prop in He as [He Horg]. apply Qeq_bool_eq in He.
  destruct (fetch_spend_rows None None (Some 3) None None (db_of (settled e))) as [[rows|err] d'] eqn:Er; [|discriminate Hrep].
  apply Nat.eqb_eq in Hrep.
  assert (from_open open_shop [open_shop; after_call; blocked; settled e] [e] [] (settled e)) as Hrun.
  { assert (shop_admin (db_of after_call) (block_key shop_root (key_id sample_key) (db_of after_call)).2) as Hadm
      by exact (acts_on_tables (H1 := toy_oidc "n") "k" "" "" "" sso_config (fun t => t / 86400) (fun _ _ => None) None
                  (AdBlockKey shop_root (key_id sample_key)) (db_of after_call)).
    assert (spawned_by open_shop after_call = [e]) as Hsp by (unfold spawned_by; rewrite Hl; reflexivity).
    assert (shop_moves open_shop [e] [] after_call) as S1 by (rewrite <- Hsp; exact (step_call _ _ _ _ _ _ _ _ open_shop _)).
    assert (shop_moves after_call [] [] blocked) as S2 by exact (step_admin _ _ _ _ _ _ _ _ after_call _ Hadm).
    assert (shop_moves blocked [] (match (write_log e (db_of blocked)).1 with Ok _ => [] | Err _ => [e] end) (settled e)) as S3
      by exact (step_write _ _ _ _ _ _ _ _ blocked [] e [] (eq_trans (logs_put _ _ _) Hl)).
    assert (from_open open_shop [open_shop] [] [] open_shop) as R0 by constructor.
    assert (from_open open_shop [open_shop; after_call] [e] [] after_call) as R1 by exact (run_step _ _ _ _ _ _ _ _ _ _ _ _ _ _ _ _ R0 S1).
    assert (from_open open_shop [open_shop; after_call; blocked] [e] [] blocked) as R2 by exact (run_step _ _ _ _ _ _ _ _ _ _ _ _ _ _ _ _ R1 S2).
    pose proof (run_step (Ad := embedder) up_and_down "k" "1" no_search four_rounds (fun t => t) String.eqb shop_admin _ _ _ _ _ _ _ _ R2 S3) as R3.
    destruct (write_log e (db_of blocked)) as [[x|err] d]; [exact R3|discriminate Hw]. }
  exists e, [open_shop; after_call; blocked; settled e], rows, d'. split; [exact Hrun|]. split; [exact Er|]. split; [exact Hrep|].
  split; [|exact He].
  destruct (what_is_spent_is_reported (Ad := embedder) (Oc := toy_oidc "n") up_and_down "k" "1" no_search four_rounds (fun t => t) String.eqb
              "" "" "" sso_config (fun t => t / 86400) (fun _ _ => None) None open_shop _ _ _ _
              Hrun eq_refl lb_new_flight_ok) as (_ & _ & _ & Hsum).
  destruct (Hsum eq_refl eq_refl eq_refl 3 rows d' Er) as [Hq _].
  unfold billed_to in Hq. simpl in Hq. rewrite Horg in Hq. exact Hq.
Defined.
