(* ===== verification/Served.v ===== *)
(** * Who may ask is answered

    The other half of [Node.v]: a request that has what it takes, a key that authenticates, a
    model that is offered, limits and budgets that let it through and a backend that answers,
    is answered with what the backend said.  It is stated for the five endpoints that take one
    call to a backend. *)

From stdpp Require Import base gmap strings list.
From Stdlib Require Import QArith SpecFloat.
From S2P Require Import Prelude RustStr Json Core Limiter Balancer Db Metrics Auth Admin Router Resilience Usage Backend Serde Streaming PromptCache Adapters Guardrails Proxy ProxyFacts Mcp Agentic Chat Messages Catalog Spend App Ledger Node.

#[local] Open Scope string_scope.
#[local] Open Scope Z_scope.

(** ** One row of a table *)

(** [x] is the only row of [l] with [q]. *)
Definition only_row {R} (q : R -> bool) (l : list R) (x : R) : Prop := filterb q l = [x].

Lemma filterb_filterb {T} (p q : T -> bool) l : filterb p (filterb q l) = filterb (fun x => q x && p x) l.
Proof. induction l as [|x l IH]; simpl; [done|]. destruct (q x); simpl; [|done]. destruct (p x); by rewrite IH. Qed.
Lemma only_row_ordered {R} (le : R -> R -> bool) q l x : only_row q l x -> filterb q (order_by le l) = [x].
Proof.
  intros H. apply Permutation_singleton_r. rewrite (filterb_perm q (order_by le l) l) by apply order_by_perm. by rewrite H.
Qed.
Lemma select_only {R} (t : table R) q d x :
  db_faults d = [] -> only_row q (rows t d) x -> select_one t q d = (Ok x, d).
Proof. intros Hf H. rewrite select_one_pure by done. by rewrite H. Qed.

Section Served.
Context `{Cr : Crypto} `{JT : JsonText} `{Sc : Schemas} `{De : Decimals} `{F : F64} {A W Es : Type}.
Context `{Wo : !World W} `{Ad : !Adapter A W Es} `{Ht : !HttpClient W} `{Pr : !Processes W} `{Dl : !Deadlines W}.
Context `{RE : RpcErrors} `{Fo : Formats} `{Ur : UrlEncoding} `{Ho : HashOrder} `{Re : Regexes} `{Sn : StatusNames} `{Ex : Extractors}.
Context (registry : AdapterRegistry A) (master_key version : string) (ws : WebSearch) (agentic : AgenticLoop).
Context (timestamp : Z -> Z) (verify_key : string -> string -> bool).
Notation PROXY_STATE := (Proxy (F := F) (W := W)).
Notation NODE_STATE := (Node (F := F) (W := W)).
Notation handled := (handle registry master_key version ws agentic timestamp verify_key).
Implicit Types (p : PROXY_STATE) (s : NODE_STATE).

(** ** What it takes *)

(** A key the layer takes from its cache without asking the database. *)
Definition fresh (now : Z) (k : ApiKey) : bool :=
  negb (key_disabled k) && match key_expires_at k with Some e => now <? e | None => true end.
(** The token authenticates as [k]: [k] is cached for it and still good; or nothing good is
    cached and [k] is the one row that is not disabled, has the prefix of the token and a hash
    that verifies, in its time. *)
Definition authenticates (c : Call) (k : ApiKey) s : Prop := exists token,
  h_authorization (rq_headers c) = Some ("Bearer " +:+ token) /\
  ((nd_keys s !! token = Some k /\ fresh (rq_now c) k = true) \/
   ((forall k', nd_keys s !! token = Some k' -> fresh (rq_now c) k' = false) /\
    (exists prefix, extract_prefix token = Some prefix /\
       only_row (fun k => (String.eqb (key_prefix k) prefix && negb (key_disabled k)) && verify_key token (key_hash k))
         (t_api_keys (db_of s)) k) /\
    (forall e, key_expires_at k = Some e -> rq_now' c <= e))).

(** The catalog offers one model under the reference, for what is asked, on an enabled profile
    with credentials and a known protocol; [rm] is what it resolves to. *)
Record offers (d : Db) (model_ref : string) (cap : Capability) (rm : ResolvedModel A) : Prop := {
  of_plain : split_once "/" model_ref = None;
  of_model : only_row (fun m => String.eqb (public_id m) model_ref) (t_models d) (rm_model rm);
  of_profile : only_row (fun x => is_id (profile_id x) (provider_profile_id (rm_model rm))) (t_provider_profiles d) (rm_profile rm);
  of_enabled : profile_enabled (rm_profile rm) = true;
  of_capable : has_capability (rm_model rm) cap = true;
  of_credentials : resolve_credentials master_key (rm_profile rm) = Ok (rm_credentials rm);
  of_adapter : get_adapter (MkProtocol (profile_protocol (rm_profile rm))) registry = Some (rm_adapter rm);
  of_guard : rm_guard rm = negb (is_id (model_id (rm_model rm)) nil_uuid);
}.

(** The limiter lets one more request of the key for the model through. *)
Definition limits_allow (key : ApiKey) (m : Model) p : Prop := exists org,
  only_row (fun o => is_id (org_id o) (key_organization_id key)) (t_organizations (px_db p)) org /\
  (check_and_consume (readings (px_world p)) (key_id key) (key_organization_id key) (public_id m)
     (key_rpm key) (key_tpm key) (org_rpm org) (org_tpm org) 1 (px_limiter p)).1 = Ok tt.

(** What a request asks of a backend: the words of its errors, the capability, the model and the
    call; nothing where its body or its form does not say. *)
Definition value_of {E T} (r : result E T) : option T := match r with Ok x => Some x | Err _ => None end.
Definition asked (c : Call) : option (string * Capability * string * (ResolvedModel A -> ST W ProviderError (ProviderResponse * UsageReport))) :=
  match rq_endpoint c with
  | EEmbeddings => r ← value_of (json_body embedding_request_of_value c); Some ("embedding", Embedding, emb_model r, call_embedding r)
  | EImages =>
    r ← value_of (json_body image_request_of_value c); Some ("image generation", ImageGeneration, ig_model r, call_image_generation r)
  | ESpeech => r ← value_of (json_body tts_request_of_value c); Some ("audio speech", AudioTts, tts_model r, call_audio_speech r)
  | ETranscriptions =>
    fields ← value_of (multipart c); fm ← value_of (read_form audio_field fields (form0 "audio"));
    model ← fm_model fm; file ← fm_file fm;
    Some ("audio transcription", AudioStt, model,
          call_audio_transcription {| stt_model := model; stt_language := fm_language fm; stt_response_format := fm_response_format fm |}
            file (fm_filename fm) (fm_content_type fm))
  | EEdits =>
    fields ← value_of (multipart c); fm ← value_of (read_form image_field fields (form0 "image.png"));
    model ← fm_model fm; prompt ← fm_prompt fm; image ← fm_file fm;
    Some ("image edit", ImageEdit, model,
          call_image_edit {| ie_model := model; ie_prompt := prompt; ie_n := fm_n fm; ie_size := fm_size fm;
                             ie_response_format := fm_response_format fm |} image (fm_filename fm) (fm_mask fm))
  | _ => None
  end.

(** ** Each part, when nothing fails *)

Lemma resolve_offered model_ref cap rm p :
  db_faults (px_db p) = [] -> offers (px_db p) model_ref cap rm ->
  exists lb, resolve_model registry master_key model_ref cap p =
    (Ok rm, {| px_db := px_db p; px_lb := lb; px_limiter := px_limiter p; px_world := px_world p; px_logs := px_logs p |}).
Proof.
  intros Hf [H1 H2 H3 H4 H5 H6 H7 H8]. unfold resolve_model, st_map_err, resolve_raw, zoom, resolve, find_model. rewrite H1.
  unfold on_db, model_list, profile_get. st_unfold. rewrite select_all_pure by done. simpl. rewrite filterb_all.
  rewrite (only_row_ordered _ _ _ _ H2). simpl. rewrite (select_only provider_profiles _ _ _ Hf H3).
  unfold checked, ensure_enabled, lift. rewrite H4. simpl. rewrite H5. simpl. unfold finish_resolve, checked. st_unfold.
  rewrite H6, H7, <- H8. simpl. destruct rm as [m q cr a g]. simpl in *.
  destruct g; eexists; reflexivity.
Qed.

Lemma user_budget_passes key d : db_faults d = [] -> within_budget key d ->
  check_end_user_budget (key_user_id key) (key_organization_id key) d = (Ok tt, d).
Proof.
  intros Hf [Hu _]. unfold check_end_user_budget, api. st_unfold. rewrite !stmt_ok by done. simpl.
  destruct (filterb _ (t_end_users d)) as [|e l]; [done|]. destruct (eu_max_budget_usd e) as [cap|] eqn:Ec; [|done].
  rewrite stmt_ok by done. simpl. destruct (Qle_bool cap _) eqn:Eq; [|done]. apply Qle_bool_iff in Eq.
  exfalso. eapply Qlt_not_le; [exact (Hu e cap eq_refl Ec)|exact Eq].
Qed.
Lemma team_budget_passes key team d : db_faults d = [] -> within_budget key d -> key_team_id key = Some team ->
  check_team_budget team d = (Ok tt, d).
Proof.
  intros Hf [_ Hu] Hk. specialize (Hu team). unfold check_team_budget, api. st_unfold. rewrite !stmt_ok by done. simpl.
  destruct (filterb _ (t_teams d)) as [|t l]; [done|]. destruct (team_max_budget_usd t) as [cap|] eqn:Ec; [|done].
  rewrite stmt_ok by done. simpl. destruct (Qle_bool cap _) eqn:Eq; [|done]. apply Qle_bool_iff in Eq.
  exfalso. eapply Qlt_not_le; [exact (Hu t cap Hk eq_refl Ec)|exact Eq].
Qed.

Lemma admission_passes key m p :
  db_faults (px_db p) = [] -> limits_allow key m p -> within_budget key (px_db p) ->
  exists l, admission_checks key m 1 p =
    (Ok tt, {| px_db := px_db p; px_lb := px_lb p; px_limiter := l; px_world := tick (px_world p); px_logs := px_logs p |}).
Proof.
  intros Hf (org & Ho' & Hl) Hb. unfold admission_checks, check_rate_limit, check_user_budget, check_team_budget_of, on_db_api, org_get_by_id.
  st_unfold. rewrite (select_only organizations _ _ _ Hf Ho'). unfold on_limiter, tick_world. st_unfold. simpl.
  destruct (check_and_consume _ _ _ _ _ _ _ _ _ _) as [[[]|e] l] eqn:E; simpl in Hl; [|done].
  exists l. simpl. rewrite user_budget_passes by done. simpl. destruct (key_team_id key) as [team|] eqn:Ek; [|done].
  by rewrite (team_budget_passes key team) by done.
Qed.

(** One call to a backend, which answers. *)
Lemma serve_answers {B} what cap (call : ResolvedModel A -> ST W ProviderError (B * UsageReport)) key model_ref rm p body usage w cost :
  db_faults (px_db p) = [] -> offers (px_db p) model_ref cap rm -> limits_allow key (rm_model rm) p -> within_budget key (px_db p) ->
  call rm (tick (px_world p)) = (Ok (body, usage), w) -> compute_cost (pricing (rm_model rm)) cap usage = Some cost ->
  exists ms p', serve registry master_key what cap call key model_ref p = (Ok body, p') /\
    px_logs p' = (px_logs p ++ [log_entry key (rm_model rm) cap ms cost])%list.
Proof.
  intros Hf Hof Hl Hb Hcall Hc. unfold serve. unfold gets at 1, mbind at 1, st_bind at 1. unfold mbind at 1, st_bind at 1.
  destruct (resolve_offered model_ref cap rm p Hf Hof) as [lb ->]. unfold mbind at 1, st_bind at 1. unfold holding_on_error at 1, catch at 1.
  match goal with |- context [admission_checks _ _ _ ?q] => destruct (admission_passes key (rm_model rm) q Hf Hl Hb) as [l ->] end.
  unfold mbind at 1, st_bind at 1. unfold on_world at 1. unfold mret, st_ret. cbn [px_world]. rewrite Hcall. simpl.
  unfold holding, catch, finish, lift, ok_or. unfold mbind at 1, st_bind at 1. rewrite Hc. st_unfold.
  unfold elapsed_ms, spawn_request_log, on_flight, tick_world, gets, modify. st_unfold.
  destruct (negb (is_id (model_id (rm_model rm)) nil_uuid)); simpl; do 2 eexists; (split; [reflexivity|reflexivity]).
Qed.

Lemma admit_authenticated c k s :
  db_faults (db_of s) = [] -> authenticates c k s ->
  exists ks, authenticate_call verify_key c s = (Ok k, {| nd_keys := ks; nd_gateway := nd_gateway s |}).
Proof.
  intros Hf (token & Hh & [[Hc Hfr]|(Hc & (prefix & Hp & Hk) & He)]); unfold authenticate_call, api_key_auth;
    rewrite Hh, bearer_token; unfold cache_get; cbn [key_cache auth_db].
  { unfold fresh in Hfr. rewrite Hc, Hfr. eexists. destruct s as [ks [[] ? ? ?]]. reflexivity. }
  assert (match nd_keys s !! token with
          | Some k' => if fresh (rq_now c) k' then Some k' else None | None => None end = None) as Hn.
  { destruct (nd_keys s !! token) as [k'|]; [|done]. by rewrite (Hc k' eq_refl). }
  unfold fresh in Hn. rewrite Hn, Hp. unfold key_get_by_prefix. rewrite select_all_pure by done. simpl rows.
  assert (filterb (fun k => verify_key token (key_hash k))
            (order_by unordered (filterb (fun k => String.eqb (key_prefix k) prefix && negb (key_disabled k)) (t_api_keys (db_of s)))) = [k]) as ->.
  { apply only_row_ordered. unfold only_row. by rewrite filterb_filterb. }
  simpl. assert (k ∈ [k]) as Hin by left. rewrite <- Hk in Hin. apply elem_of_filterb in Hin as [_ Hin].
  apply andb_prop in Hin as [[_ Hd]%andb_prop _]. apply negb_true_iff in Hd. rewrite Hd. simpl.
  assert (match key_expires_at k with Some e => e <? rq_now' c | None => false end = false) as ->.
  { destruct (key_expires_at k) as [e|]; [|done]. by apply Z.ltb_ge, He. }
  eexists. destruct s as [ks [[] ? ? ?]]. reflexivity.
Qed.

(** The handler of an endpoint that was asked something is the call to its backend. *)
Lemma handler_of_asked c key what cap model_ref call s : asked c = Some (what, cap, model_ref, call) ->
  reads_model (rq_endpoint c) = false /\
  run_handler registry master_key version ws agentic timestamp (rq_endpoint c) key c s =
  (u ← on_gateway (on_proxy (serve registry master_key what cap call key model_ref)); mret (AProvider u)) s.
Proof.
  unfold asked. destruct (rq_endpoint c); try done; cbn [run_handler reads_model]; intros H; (split; [done|]); unfold extract, mbind, st_bind, lift.
  - destruct (json_body _ c); [|done]. by injection H as <- <- <- <-.
  - destruct (json_body _ c); [|done]. by injection H as <- <- <- <-.
  - destruct (json_body _ c); [|done]. by injection H as <- <- <- <-.
  - destruct (multipart c) as [fields|]; [|done]. simpl in *. unfold audio_transcriptions, on_gateway, on_proxy, zoom, st_map_err, mbind, st_bind, lift.
    destruct (read_form _ fields _) as [fm|]; [|done]. simpl in *. unfold required. destruct (fm_model fm); [|done]. simpl in *.
    destruct (fm_file fm); [|done]. simpl in *. by injection H as <- <- <- <-.
  - destruct (multipart c) as [fields|]; [|done]. simpl in *. unfold image_edits, on_gateway, on_proxy, zoom, st_map_err, mbind, st_bind, lift.
    destruct (read_form _ fields _) as [fm|]; [|done]. simpl in *. unfold required. destruct (fm_model fm); [|done]. simpl in *.
    destruct (fm_prompt fm); [|done]. simpl in *. destruct (fm_file fm); [|done]. simpl in *. by injection H as <- <- <- <-.
Qed.

End Served.

(** ** The shop of [Node.v], asked for a model whose backend answers *)

#[local] Existing Instances toy_crypto coded_json no_schemas exact_decimals whole_f64 counting_world embedder no_http
  no_processes patient mcp_errors plain_formats no_urls hash_order one_email ascii_reasons plain_extractors.

Definition ask_idle : EmbeddingRequest := {| emb_model := "idle"; emb_input := ["hello"] |}.
Definition call_idle : Call :=
  {| rq_endpoint := EEmbeddings; rq_headers := bearer "sk-godwit-abcdefgh"; rq_content_type := Some "application/json"; rq_tags := None;
     rq_query := ""; rq_param := ""; rq_body := Ok (to_string (embedding_request_to_value ask_idle)); rq_now := 0; rq_now' := 0; rq_id := "r" |}.
Definition idle : ResolvedModel nat :=
  {| rm_model := model_of 2 "idle" 11 []; rm_profile := profile_of 11 "up";
     rm_credentials := {| rp_base_url := "https://backend"; rp_api_key := None |}; rm_adapter := 0%nat; rm_guard := true |}.

